(* ===== verification/_CoqProject ===== *)
-Q . S2P
Prelude.v
GoNet.v
GoCrypto.v
BgpBase.v
BgpOpen.v
BgpNlri.v
BgpAttrs.v
BgpAttrCodec.v
BgpAttrFacts.v
BgpHelpers.v
BgpHelperFacts.v
BgpPath.v
BgpPathFacts.v
BgpDest.v
BgpDestFacts.v
BgpDestSpec.v
BgpRouteList.v
BgpRib.v
BgpRibFacts.v
BgpRibSpec.v
BgpMsg.v
BgpFsm.v
BgpFsmFacts.v
BgpFsmSpec.v
BgpReader.v
VrrpPkt.v
VrrpPktFacts.v
VrrpServer.v
VrrpServerFacts.v
VrrpSpec.v
VrrpInv.v
BfdPacket.v
BfdPacketFacts.v
BfdSession.v
BfdSessionFacts.v
BfdSpec.v
BfdPair.v
BfdServer.v
BfdServerFacts.v
BfdServerSpec.v
OspfUtil.v
OspfLsa.v
OspfLsaFacts.v
OspfState.v
OspfSpf.v
OspfSpfFacts.v
OspfSpfSpec.v
OspfGraphFacts.v
OspfArea.v
OspfRoute.v
OspfRouteSpec.v
OspfFrame.v
OspfLsdb.v
OspfLsdbSpec.v
OspfAging.v
OspfOriginate.v
OspfPacket.v
OspfPacketFacts.v
OspfPacketSpec.v
OspfIntf.v
OspfIntfSpec.v
