(* ===== verification/Prelude.v ===== *)
(** * Verification of the L3 protocol stack

    The repository is a set of routing daemons in Go, one directory under [src/] each: BGP, OSPF,
    VRRP, BFD, ARP, NDP, DHCP and its relay, VXLAN, and the route manager (rib). A daemon reads packets
    and configuration in goroutines that feed one server loop; its core is a packet codec, a state
    machine per session or interface, and tables. The development models those cores; most of it
    is about BGP, the largest daemon.

    ** How the code is modelled

    A function of the code is a function of the same name (a method [T.f] is [f], or [T_f] where two
    types have it). Prelude.v has the machine integers ([u8], [u16], [u32]: [Z] modulo the width,
    written at each operation that can wrap), slices of bytes (lists, with Go's bounds checks), and
    [outcome]: a call returns [Ok], an error [Err], panics ([Panic]: index out of range, nil
    dereference, failed type assertion), or has a loop that does not end within its fuel ([Hang]).
    Interfaces are inductive types with a constructor per implementing type. State that the code
    mutates is passed and returned; where identity matters ([*Path] in the RIB, connections in the
    session machine) a pointer is a token. Ranging over a Go map is a parameter: the order in which
    the keys are visited, any permutation of them. Logging is dropped.

    ** The parts

    The BGP packet package ([src/bgp/packet]):
    - BgpBase.v: constants, error codes, address families, the message header.
    - BgpOpen.v: capabilities, optional parameters, the OPEN message; what the speaker announces and
      what it reads in the OPEN it receives.
    - BgpNlri.v: prefixes, with and without path identifiers.
    - BgpAttrs.v: path attributes; BgpAttrCodec.v: their wire format as a specification and the laws of
      the codec (records [Codec] and [CodecLaws] of Prelude.v: encoding writes the wire format, and
      decoding reads it back whatever follows); BgpAttrFacts.v: what the decoders do on any bytes.
    - BgpMsg.v: NOTIFICATION, UPDATE, KEEPALIVE, and a message with its header.
    - BgpHelpers.v: the helpers that inspect and rewrite attribute lists (insertion, loop check,
      prepending, conversion between 2- and 4-byte AS numbers, route reflection, locally originated
      attributes); BgpHelperFacts.v: what they do.

    The BGP session machine ([src/bgp/fsm]):
    - BgpFsm.v: the state of an FSM, its timers, connections and the manager that owns it, the handlers
      of the six states, and [handle], one iteration of the loop of [FSM.StartFSM] for an input.
    - BgpFsmFacts.v: a total-correctness calculus for sequences of calls, the invariant, absence of
      panics. BgpFsmSpec.v: the abstract link a session refines beside its manager ([mgr_handle], one iteration of
      the loop of [FSMManager.Init]), the end of a session, collisions.
    - BgpReader.v: the goroutines that read from a peer, the channels they share with the FSM, and when the wait of
      [ClearPeerConn] for them ends.

    The BGP routing table ([src/bgp/rib]):
    - BgpPath.v: paths, and the decision process; BgpPathFacts.v: it computes the least paths of a
      lexicographic order, and where it does not.
    - BgpDest.v: a destination: its table of paths, path identifiers, the list shown, and the selection
      of routes; BgpDestFacts.v: the invariant of the table, operation by operation; BgpDestSpec.v:
      the abstract table it refines and what a selection chooses and announces.
    - BgpRouteList.v: the lists of routes the bulk reads page through (a slot a destination, reused).
    - BgpRib.v: the Loc-RIB: destinations by family and prefix, processing of an UPDATE, removal of a
      neighbor's routes, next hops looked up once; BgpRibFacts.v: its invariant; BgpRibSpec.v: the
      abstract table (family, prefix, peer, path identifier) that it refines.

    GoNet.v has what the daemons use of Go's package net: addresses, their textual forms, masks, [ParseIP],
    [ParseCIDR], [ParseMAC].

    The VRRP daemon ([src/vrrp]):
    - VrrpPkt.v: the packet: header codec, checksum, the checks on an advertisement that is received
      and the advertisement that is sent; VrrpPktFacts.v: round trip, acceptance, what the decoder does
      on any bytes, where checksum and virtual MAC are those of the RFC.
    - VrrpServer.v: the state machine and the server. Its functions run in several goroutines (the
      channel handler, timers, the subscriber of interface events) that share maps and wait for
      each other on channels: a function is a [proc], a tree of atomic accesses and channel operations,
      and [step] interleaves the goroutines of a daemon ([Config]).
    - VrrpServerFacts.v: which goroutines signal, send or wait; running one goroutine to its next wait.
      VrrpSpec.v: transitions against the RFC, deadlocks, crashes. VrrpInv.v: a rely-guarantee logic for
      [proc] and the invariant on entries and timers under every interleaving.

    The BFD daemon ([src/bfd]):
    - GoCrypto.v: [md5.Sum] and [sha1.Sum], with the test vectors of their RFCs.
    - BfdPacket.v: the control packet and its authentication section; BfdPacketFacts.v: round trip, and
      what the decoder does on any datagram.
    - BfdSession.v: a session: its state machine, timers, the packets it builds and processes, polls,
      demand mode, authentication, notifications, sessions on the links of an aggregate. A timer is
      nil, stopped or running; what a handler sends and notifies is appended to lists of the session.
    - BfdSessionFacts.v: each handler as a step of the state machine alone (record [Core]), and what it
      leaves as it is. BfdSpec.v: the refinement of [Core], invariants of every run, the RFC's table of
      transitions, polls, detection times. BfdPair.v: two sessions and a network between them that loses,
      duplicates and reorders packets.
    - BfdServer.v: the tables of sessions and parameters, requests, dispatch, reads. Sessions are pointers
      into a heap, as two maps share them; the other daemons, random numbers and the order of maps are the
      class [Env], and what is assumed of them the class [EnvOk]. BfdServerFacts.v: the invariant of
      the tables, event by event; BfdServerSpec.v: sessions as registrations of protocols, dispatch, and the
      requests after which the daemon stops. The handlers of the server and of a session are atomic steps.

    The OSPF daemon ([src/ospf]):
    - OspfUtil.v: identifiers and their text, the Internet checksum, the Fletcher checksum of LSAs, and
      that a checksum that was computed is one that is accepted.
    - OspfLsa.v: link state advertisements of the five types and their codecs; OspfLsaFacts.v: their wire
      format, the round trips, and what the decoders do on any bytes.
    - OspfState.v: the state of the daemon; ranging over its maps is the class [MapOrder].
    - OspfSpf.v: the graph of an area and Dijkstra's algorithm on it; sorting is the class [SortImpl].
      OspfSpfFacts.v: the rule for its loop (one step for the vertices visited, those that wait and the tree);
      OspfSpfSpec.v: what is found, and where the paths are shortest.
    - OspfGraphFacts.v: the graph that is built of a complete link state database; OspfArea.v: the paths of
      an area in terms of its LSAs.
    - OspfRoute.v: routing tables, summary LSAs, the calls of the route manager (recorded in [out]) and the
      calculation as a whole; OspfRouteSpec.v: the route manager's table follows that of the daemon.
      OspfFrame.v: what the calculation leaves alone.
    - OspfLsdb.v: the link state database: LSAs that are originated, received, refreshed and aged, and the
      loop that owns it as a step for each message. What it sends to other goroutines is recorded in [out].
      OspfLsdbSpec.v: the types of its entries in every run, and what is stored of an LSA received.
      OspfAging.v: ticks and the life of an LSA. OspfOriginate.v: a router LSA from its originator's interfaces
      to another router's database.
    - OspfPacket.v: packets: the header, hellos, database descriptions, requests, updates and
      acknowledgements, from the frame that is built to the messages that a frame received makes of
      it. Frames are written and read by the class [Gopacket]; a slice keeps the bytes beyond its end. OspfPacketFacts.v: a hello from
      one router to another; OspfPacketSpec.v: the other packets, and packets that stop the daemon.
    - OspfIntf.v: the election of the designated router and the machine of an interface, an event at a time.
      OspfIntfSpec.v: the election as the choice of the best candidate, and the invariant of the machine.

    ** What the theorems show

    - Round trips: OPEN, prefixes, attributes and whole messages are decoded as they were encoded.
    - Decoders on any input: which bytes they accept, that they end, and exact inputs on which the
      code panics or never ends (each is a finding).
    - Sessions: the invariant that ties state, timers and connections together holds for every sequence
      of inputs, no input panics, and what the server is told is an alternation of established and
      broken (refinement of a two-state link), also beside a manager that stops the session; the wait for
      the reader of a connection ends unless a queue is full.
    - Routing table: a destination refines a map from (peer, path identifier) to paths; identifiers
      are never given twice; the selected path is the least one in the order of the decision rules, where the
      rule for origins does not err.
    - Behaviour the code gets wrong is stated as such, with the input that shows it.
    - VRRP: the codec round trip, acceptance of one's own advertisements; for every interleaving of the
      goroutines the entries keep their locks, have the timers their state needs and a consistent down
      value; what a backup or a master does with an advertisement, and the waits that never end.
    - BFD: the packet round trip; a session refines its state machine and reports an alternation of up
      and down; a session is up only if both ends have heard each other, whatever the network does, and
      comes up in three packets when nothing is lost; the tables of the server agree after any events, and its
      sessions are exactly the registrations of the protocols, for requests that name a known protocol and no aggregate.
    - OSPF: the LSA round trips with the checksum installed, and what each decoder does on any bytes; on a
      complete database the calculation of an area ends without error and finds exactly what the LSAs connect,
      by ways of the length it says, which are shortest where the links of routers cost the same, and an example
      where they are not; after a calculation the routes of the route manager are those of the new table;
      what the router LSA says is what the interfaces are, and other routers store it as it was sent; LSAs that are
      received replace older ones only (router LSAs excepted), age, and are gone in time; entries are always in
      the map of their type. A packet that is built and framed reaches the other router as it was meant, a hello with
      what follows from it; routers that know the same candidates elect the same designated router and
      backup, and from its start on an interface is in the state of what it has elected, its router never both.

    ** Bounds and fuel

    A loop that advances through its input has a fuel of the length of the input (each step consumes
    at least one byte where the code guarantees that, and the theorems named [*_terminates] show that
    the fuel is not used up; where the code does not guarantee it, the theorem named [*_diverges] shows
    [Hang] for every fuel). Loops over lists are structural. Encoders are total: their hypotheses
    bound the lengths by what the length fields can hold. Path identifiers of a destination are 32-bit
    counters; its theorems assume fewer than 2^32 - 1 are in use.

    ** Not modelled

    Sockets, timers' clocks, ASIC and kernel bindings, databases and RPC handlers (pure I/O or
    conversion of configuration objects); the policy engine and the asic and configuration packages,
    which are other repositories; concurrency between daemons. Of BGP: aggregation of paths, splitting of long
    updates, the server loop that connects sessions and table. Channels have room there and waits on them end, but for the wait of
    ClearPeerConn, which has a model of its own; of several FSMs of a neighbor one runs, and the manager has a snapshot of the others. Of VRRP: capture handles and the
    connection to asicd (their answers are inputs); timers may fire at any time after they are armed, so
    nothing is said about durations; a range over the
    slice of keys sees the keys it has when it starts. Of BFD: the
    subscribers that parse JSON, and races between the goroutines that share the tables: a handler is one step, with the answers
    the other daemons give at that event. Of OSPF: the goroutine that
    floods, the machine of a neighbor, configuration: neighbors are given, and so are interfaces until their machine starts. What the body of a loop adds to the map
    of the database it ranges over is not visited. Maps are visited in any order, another one in each event, but in one event the same for the
    same content. Not modelled as a whole: the BGP server and its
    policies, the route manager, ARP, NDP, DHCP and VXLAN, which are for the most part bindings to packet
    capture, the switch, Thrift and packages outside the repository. *)
From stdpp Require Import base numbers list gmap.
From Stdlib Require Import ZArith Lia.
Open Scope Z_scope.

(** ** Machine integers: Go's conversions [uint8(x)], [uint16(x)], [uint32(x)] *)

Definition u8 (z : Z) : Z := z mod 256.
Definition u16 (z : Z) : Z := z mod 65536.
Definition u32 (z : Z) : Z := z mod 4294967296.
(** [int32(x)] *)
Definition s32 (z : Z) : Z := u32 (z + 2147483648) - 2147483648.

Abbreviation bytes := (list Z).

Definition is_u8 (z : Z) : Prop := 0 <= z < 256.
Definition is_u16 (z : Z) : Prop := 0 <= z < 65536.
Definition is_u32 (z : Z) : Prop := 0 <= z < 4294967296.
Definition bytes_ok (s : bytes) : Prop := Forall is_u8 s.

(** Go's [len]. *)
Definition len {A} (s : list A) : Z := Z.of_nat (length s).

#[global] Arguments u8 : simpl never.
#[global] Arguments u16 : simpl never.
#[global] Arguments u32 : simpl never.
#[global] Arguments len {A} s : simpl never.
#[global] Arguments Z.add : simpl never.
#[global] Arguments Z.sub : simpl never.
#[global] Arguments Z.mul : simpl never.
#[global] Arguments Z.div : simpl never.
#[global] Arguments Z.modulo : simpl never.

(** ** Outcomes of a Go call

    [Err e]: the function returned the error [e]; [Panic]: a run-time panic (index or slice out
    of range, nil dereference, failed type assertion); [Hang]: the fuel of a loop ran out. *)

Inductive outcome (E A : Type) : Type :=
  | Ok (a : A)
  | Err (e : E)
  | Panic
  | Hang.
Arguments Ok {E A} a.
Arguments Err {E A} e.
Arguments Panic {E A}.
Arguments Hang {E A}.

#[export] Instance outcome_ret E : MRet (outcome E) := fun A a => Ok a.
#[export] Instance outcome_bind E : MBind (outcome E) := fun A B f m =>
  match m with Ok a => f a | Err e => Err e | Panic => Panic | Hang => Hang end.

Definition is_ok {E A} (o : outcome E A) : bool := match o with Ok _ => true | _ => false end.

(** ** Go slices of bytes

    A slice is the list of its elements; its capacity is its length (every slice of the modelled
    code is cut from the front of a buffer, or is read before anything is appended to it). *)

Section slices.
Context {E : Type}.

(** [s[i]] *)
Definition sget (s : bytes) (i : Z) : outcome E Z :=
  if i <? 0 then Panic else match s !! Z.to_nat i with Some b => Ok b | None => Panic end.

(** [s[i:]] *)
Definition slice_from (s : bytes) (i : Z) : outcome E bytes :=
  if i <? 0 then Panic
  else if Nat.leb (Z.to_nat i) (length s) then Ok (drop (Z.to_nat i) s) else Panic.

(** [s[i:j]] *)
Definition slice (s : bytes) (i j : Z) : outcome E bytes :=
  if (i <? 0) || (j <? i) then Panic
  else if Nat.leb (Z.to_nat j) (length s)
       then Ok (take (Z.to_nat j - Z.to_nat i) (drop (Z.to_nat i) s)) else Panic.

(** [s[i] = v] *)
Definition sset (s : bytes) (i v : Z) : outcome E bytes :=
  if i <? 0 then Panic
  else if Nat.ltb (Z.to_nat i) (length s) then Ok (<[Z.to_nat i := v]> s) else Panic.

(** What [copy(dst[off:], src)] leaves in [dst]. *)
Definition blit (dst : bytes) (off : nat) (src : bytes) : bytes :=
  take off dst ++ take (length dst - off) src ++ drop (off + length src) dst.

(** [copy(dst[off:], src)] *)
Definition gocopy (dst : bytes) (off : Z) (src : bytes) : outcome E bytes :=
  if off <? 0 then Panic
  else if Nat.leb (Z.to_nat off) (length dst) then Ok (blit dst (Z.to_nat off) src) else Panic.

(** [f(dst[off:])] where [f] writes its argument in place. *)
Definition with_tail (dst : bytes) (off : Z) (f : bytes -> outcome E bytes) : outcome E bytes :=
  s ← slice_from dst off; s' ← f s; Ok (take (Z.to_nat off) dst ++ s').

(** [binary.BigEndian.Uint16(s)], [binary.BigEndian.Uint32(s)] *)
Definition Uint16 (s : bytes) : outcome E Z :=
  match s with
  | a :: b :: _ => Ok (a * 256 + b)
  | _ => Panic
  end.
Definition Uint32 (s : bytes) : outcome E Z :=
  match s with
  | a :: b :: c :: d :: _ => Ok (a * 16777216 + b * 65536 + c * 256 + d)
  | _ => Panic
  end.
End slices.

(** The bytes [binary.BigEndian.PutUint16] and [PutUint32] store. *)
Definition be16 (v : Z) : bytes := [u8 (v / 256); u8 v].
Definition be32 (v : Z) : bytes := [u8 (v / 16777216); u8 (v / 65536); u8 (v / 256); u8 v].

Section puts.
Context {E : Type}.

(** [binary.BigEndian.PutUint16(s[off:], v)], and the 32-bit one *)
Definition PutUint16 (s : bytes) (off v : Z) : outcome E bytes :=
  if off <? 0 then Panic
  else if Nat.leb (Z.to_nat off + 2) (length s) then Ok (blit s (Z.to_nat off) (be16 v)) else Panic.
Definition PutUint32 (s : bytes) (off v : Z) : outcome E bytes :=
  if off <? 0 then Panic
  else if Nat.leb (Z.to_nat off + 4) (length s) then Ok (blit s (Z.to_nat off) (be32 v)) else Panic.
End puts.

(** [make([]byte, n)] *)
Definition make (n : Z) : bytes := replicate (Z.to_nat n) 0.

(** The loop shared by the decoders of capabilities, optional parameters and path attributes:
    while [remaining > 0], decode an item at [pkt[offset:]], append it, advance [offset] (a
    machine integer: [wrap]) and decrease [remaining] by the item's total length. *)
Section item_loop.
Context {E A : Type} (wrap : Z -> Z) (dec : bytes -> outcome E A) (tlen : A -> Z).

Fixpoint item_loop (fuel : nat) (pkt : bytes) (offset remaining : Z) (acc : list A)
  : outcome E (list A * Z * Z) :=
  if remaining <=? 0 then Ok (acc, offset, remaining)
  else match fuel with
       | O => Hang
       | S fuel =>
         s ← slice_from pkt offset;
         x ← dec s;
         item_loop fuel pkt (wrap (offset + tlen x)) (remaining - tlen x) (acc ++ [x])
       end.
End item_loop.

(** ** Automation *)

(** Decide the boolean comparisons of the goal that arithmetic settles. *)
Ltac zif :=
  repeat match goal with
  | |- context [?a <? ?b] =>
      first [ rewrite (proj2 (Z.ltb_lt a b)) by lia | rewrite (proj2 (Z.ltb_ge a b)) by lia ]
  | |- context [?a <=? ?b] =>
      first [ rewrite (proj2 (Z.leb_le a b)) by lia | rewrite (proj2 (Z.leb_gt a b)) by lia ]
  | |- context [?a >? ?b] =>
      rewrite (proj2 (Z.gtb_lt a b)) by lia
  | |- context [?a =? ?b] =>
      first [ rewrite (proj2 (Z.eqb_eq a b)) by lia | rewrite (proj2 (Z.eqb_neq a b)) by lia ]
  | |- context [Nat.leb ?a ?b] =>
      first [ rewrite (proj2 (Nat.leb_le a b)) by lia | rewrite (proj2 (Nat.leb_gt a b)) by lia ]
  | |- context [Nat.ltb ?a ?b] =>
      first [ rewrite (proj2 (Nat.ltb_lt a b)) by lia | rewrite (proj2 (Nat.ltb_ge a b)) by lia ]
  end; cbn [negb andb orb].

(** Reduce the conversions of literals, then compute. *)
Ltac zlits :=
  repeat match goal with
  | |- context [Z.to_nat Z0] => change (Z.to_nat Z0) with 0%nat
  | |- context [make (Zpos ?p)] =>
      let s := eval vm_compute in (make (Zpos p)) in change (make (Zpos p)) with s
  | |- context [Z.to_nat (Zpos ?p)] =>
      let n := eval vm_compute in (Z.to_nat (Zpos p)) in change (Z.to_nat (Zpos p)) with n
  end.
Ltac gocbn := repeat progress (zlits; cbn).

(** Turn the boolean hypotheses into arithmetic. *)
Ltac zhyp :=
  repeat match goal with
  | H : (_ <? _) = true |- _ => apply Z.ltb_lt in H
  | H : (_ <? _) = false |- _ => apply Z.ltb_ge in H
  | H : (_ <=? _) = true |- _ => apply Z.leb_le in H
  | H : (_ <=? _) = false |- _ => apply Z.leb_gt in H
  | H : (_ >? _) = true |- _ => apply Z.gtb_lt in H
  | H : (_ >? _) = false |- _ => rewrite Z.gtb_ltb in H; apply Z.ltb_ge in H
  | H : (_ =? _) = true |- _ => apply Z.eqb_eq in H
  | H : (_ =? _) = false |- _ => apply Z.eqb_neq in H
  | H : Nat.leb _ _ = true |- _ => apply Nat.leb_le in H
  | H : Nat.leb _ _ = false |- _ => apply Nat.leb_gt in H
  | H : Nat.ltb _ _ = true |- _ => apply Nat.ltb_lt in H
  | H : Nat.ltb _ _ = false |- _ => apply Nat.ltb_ge in H
  end.

(** ** Lemmas on outcomes *)

Lemma bind_Ok {E A B} (a : A) (f : A -> outcome E B) : (x ← Ok a; f x) = f a.
Proof. reflexivity. Qed.

Lemma bind_Ok_inv {E A B} (m : outcome E A) (f : A -> outcome E B) b :
  (x ← m; f x) = Ok b -> exists a, m = Ok a /\ f a = Ok b.
Proof. destruct m; cbn; intros; try discriminate; eauto. Qed.

Lemma bind_Hang_inv {E A B} (m : outcome E A) (f : A -> outcome E B) :
  (x ← m; f x) = Hang -> m = Hang \/ exists a, m = Ok a /\ f a = Hang.
Proof. destruct m; cbn; intros; try discriminate; eauto. Qed.

Lemma bind_Panic_inv {E A B} (m : outcome E A) (f : A -> outcome E B) :
  (x ← m; f x) = Panic -> m = Panic \/ exists a, m = Ok a /\ f a = Panic.
Proof. destruct m; cbn; intros; try discriminate; eauto. Qed.

Lemma bind_Err_inv {E A B} (m : outcome E A) (f : A -> outcome E B) e :
  (x ← m; f x) = Err e -> m = Err e \/ exists a, m = Ok a /\ f a = Err e.
Proof. destruct m; cbn; intros H; try discriminate; [eauto | left; congruence]. Qed.

Lemma bind_assoc {E A B C} (m : outcome E A) (f : A -> outcome E B) (g : B -> outcome E C) :
  (y ← (x ← m; f x); g y) = (x ← m; y ← f x; g y).
Proof. by destruct m. Qed.

(** ** Lemmas on machine integers and big-endian fields *)

Lemma u8_id z : is_u8 z -> u8 z = z.
Proof. apply Z.mod_small. Qed.
Lemma u16_id z : is_u16 z -> u16 z = z.
Proof. apply Z.mod_small. Qed.
Lemma u32_id z : is_u32 z -> u32 z = z.
Proof. apply Z.mod_small. Qed.
Lemma u8_range z : is_u8 (u8 z).
Proof. apply Z.mod_pos_bound. lia. Qed.
Lemma u16_range z : is_u16 (u16 z).
Proof. apply Z.mod_pos_bound. lia. Qed.
Lemma u32_range z : is_u32 (u32 z).
Proof. apply Z.mod_pos_bound. lia. Qed.

Lemma len_app {A} (s t : list A) : len (s ++ t) = len s + len t.
Proof. unfold len. rewrite length_app. lia. Qed.
Lemma len_cons {A} (x : A) s : len (x :: s) = 1 + len s.
Proof. unfold len. cbn [length]. lia. Qed.
Lemma len_nil {A} : len (@nil A) = 0.
Proof. reflexivity. Qed.
Lemma len_nonneg {A} (s : list A) : 0 <= len s.
Proof. unfold len. lia. Qed.
Lemma len_make n : 0 <= n -> len (make n) = n.
Proof. intros. unfold len, make. rewrite length_replicate. lia. Qed.

Lemma to_nat_len {A} (s : list A) : Z.to_nat (len s) = length s.
Proof. apply Nat2Z.id. Qed.

Lemma make_add a b : 0 <= a -> 0 <= b -> make (a + b) = make a ++ make b.
Proof. intros. unfold make. rewrite Z2Nat.inj_add by lia. apply replicate_add. Qed.

Lemma make_len_app {A} (s t : list A) : make (len (s ++ t)) = make (len s) ++ make (len t).
Proof. rewrite len_app. apply make_add; apply len_nonneg. Qed.

Lemma len_be16 v : len (be16 v) = 2.
Proof. reflexivity. Qed.
Lemma len_be32 v : len (be32 v) = 4.
Proof. reflexivity. Qed.

Create Rewrite HintDb len.
#[export] Hint Rewrite @len_app @len_cons @len_nil len_be16 len_be32 : len.
#[export] Hint Rewrite len_make using lia : len.
Ltac lens := autorewrite with len.

Lemma len_4_inv {A} (s : list A) : len s = 4 -> exists a b c d, s = [a; b; c; d].
Proof.
  unfold len. destruct s as [|a [|b [|c [|d [|e s]]]]]; cbn; intros; try lia. eauto.
Qed.

Lemma bytes_ok_app s t : bytes_ok (s ++ t) <-> bytes_ok s /\ bytes_ok t.
Proof. apply Forall_app. Qed.
Lemma bytes_ok_drop n s : bytes_ok s -> bytes_ok (drop n s).
Proof. apply Forall_drop. Qed.
Lemma bytes_ok_take n s : bytes_ok s -> bytes_ok (take n s).
Proof. apply Forall_take. Qed.
Lemma bytes_ok_make n : bytes_ok (make n).
Proof. apply Forall_replicate. unfold is_u8. lia. Qed.
Lemma be16_ok v : bytes_ok (be16 v).
Proof. repeat constructor; apply u8_range. Qed.
Lemma be32_ok v : bytes_ok (be32 v).
Proof. repeat constructor; apply u8_range. Qed.

Lemma be16_split v : is_u16 v -> u8 (v / 256) * 256 + u8 v = v.
Proof. unfold u8, is_u16. intros H. Z.div_mod_to_equations. lia. Qed.

Lemma Uint16_be16 {E} v rest : is_u16 v -> Uint16 (E := E) (be16 v ++ rest) = Ok v.
Proof. intros H. cbn [be16 app Uint16]. f_equal. by apply be16_split. Qed.

Lemma be32_split v : is_u32 v ->
  u8 (v / 16777216) * 16777216 + u8 (v / 65536) * 65536 + u8 (v / 256) * 256 + u8 v = v.
Proof.
  intros H. unfold u8, is_u32 in *.
  replace (v / 16777216) with (v / 256 / 256 / 256) by (rewrite !Z.div_div by lia; reflexivity).
  replace (v / 65536) with (v / 256 / 256) by (rewrite Z.div_div by lia; reflexivity).
  Z.div_mod_to_equations. lia.
Qed.

Lemma Uint32_be32 {E} v rest : is_u32 v -> Uint32 (E := E) (be32 v ++ rest) = Ok v.
Proof. intros H. cbn [be32 app Uint32]. f_equal. by apply be32_split. Qed.

Lemma Uint16_range {E} s v : bytes_ok s -> Uint16 (E := E) s = Ok v -> is_u16 v.
Proof.
  destruct s as [|a [|b s]]; cbn; try discriminate. intros Hs [= <-].
  inversion_clear Hs as [|? ? Ha Hs']. inversion_clear Hs' as [|? ? Hb ?].
  unfold is_u8, is_u16 in *. lia.
Qed.

Lemma Uint32_range {E} s v : bytes_ok s -> Uint32 (E := E) s = Ok v -> is_u32 v.
Proof.
  destruct s as [|a [|b [|c [|d s]]]]; cbn; try discriminate. intros Hs [= <-].
  inversion_clear Hs as [|? ? Ha Hs1]. inversion_clear Hs1 as [|? ? Hb Hs2].
  inversion_clear Hs2 as [|? ? Hc Hs3]. inversion_clear Hs3 as [|? ? Hd ?].
  unfold is_u8, is_u32 in *. lia.
Qed.

(** ** Lemmas on slices *)

Lemma slice_from_app {E} (s t : bytes) i :
  i = len s -> slice_from (E := E) (s ++ t) i = Ok t.
Proof.
  intros ->. unfold slice_from, len. zif. rewrite length_app. zif.
  by rewrite Nat2Z.id, drop_app_length.
Qed.

Lemma slice_from_inv {E} (s t : bytes) i :
  slice_from (E := E) s i = Ok t -> 0 <= i <= len s /\ t = drop (Z.to_nat i) s /\ len t = len s - i.
Proof.
  unfold slice_from, len. destruct (i <? 0) eqn:?; [discriminate|].
  destruct (Nat.leb _ _) eqn:?; [|discriminate]. intros [= <-]. zhyp.
  rewrite length_drop. repeat split; lia.
Qed.

Lemma slice_from_ok {E} (s : bytes) i :
  0 <= i <= len s -> slice_from (E := E) s i = Ok (drop (Z.to_nat i) s).
Proof. unfold slice_from, len. intros. zif. done. Qed.

Lemma slice_from_no_hang {E} (s : bytes) i : slice_from (E := E) s i <> Hang.
Proof. unfold slice_from. repeat case_match; discriminate. Qed.

Lemma slice_app {E} (p s t : bytes) i j :
  i = len p -> j = len p + len s -> slice (E := E) (p ++ s ++ t) i j = Ok s.
Proof.
  intros -> ->. unfold slice, len. rewrite !length_app. zif.
  rewrite Nat2Z.id, drop_app_length.
  replace (_ - _)%nat with (length s) by lia. by rewrite take_app_length.
Qed.

Lemma slice_inv {E} (s t : bytes) i j :
  slice (E := E) s i j = Ok t ->
  0 <= i <= j /\ j <= len s /\ t = take (Z.to_nat j - Z.to_nat i) (drop (Z.to_nat i) s) /\ len t = j - i.
Proof.
  unfold slice, len. destruct (_ || _) eqn:Hb; [discriminate|].
  apply orb_false_iff in Hb as [? ?]. destruct (Nat.leb _ _) eqn:?; [|discriminate].
  intros [= <-]. zhyp. rewrite length_take, length_drop. repeat split; lia.
Qed.

Lemma slice_no_hang {E} (s : bytes) i j : slice (E := E) s i j <> Hang.
Proof. unfold slice. repeat case_match; discriminate. Qed.

Lemma sget_no_hang {E} (s : bytes) i : sget (E := E) s i <> Hang.
Proof. unfold sget. repeat case_match; discriminate. Qed.

Lemma sget_no_err {E} (s : bytes) i e : sget (E := E) s i <> Err e.
Proof. unfold sget. repeat case_match; discriminate. Qed.
Lemma slice_no_err {E} (s : bytes) i j e : slice (E := E) s i j <> Err e.
Proof. unfold slice. repeat case_match; discriminate. Qed.
Lemma slice_from_no_err {E} (s : bytes) i e : slice_from (E := E) s i <> Err e.
Proof. unfold slice_from. repeat case_match; discriminate. Qed.
Lemma Uint16_no_err {E} s e : Uint16 (E := E) s <> Err e.
Proof. destruct s as [|? [|? ?]]; discriminate. Qed.
Lemma Uint32_no_err {E} s e : Uint32 (E := E) s <> Err e.
Proof. destruct s as [|? [|? [|? [|? ?]]]]; discriminate. Qed.

Lemma sget_range {E} (s : bytes) i b : bytes_ok s -> sget (E := E) s i = Ok b -> is_u8 b.
Proof.
  unfold sget. intros Hs. destruct (i <? 0); [discriminate|].
  destruct (s !! _) eqn:Hb; [|discriminate]. intros [= <-].
  by eapply Forall_lookup_1 in Hb.
Qed.

Lemma sget_app {E} (s t : bytes) b i : i = len s -> sget (E := E) (s ++ b :: t) i = Ok b.
Proof.
  intros ->. unfold sget, len. zif. rewrite Nat2Z.id, list_lookup_middle; done.
Qed.

Lemma sget_ok {E} (s : bytes) i : 0 <= i < len s -> exists b, sget (E := E) s i = Ok b.
Proof.
  unfold sget, len. intros. zif.
  destruct (lookup_lt_is_Some_2 s (Z.to_nat i)) as [b ->]; [lia | eauto].
Qed.

Lemma blit_app (h x t y : bytes) :
  length x = length y -> blit (h ++ x ++ t) (length h) y = h ++ y ++ t.
Proof.
  intros Hxy. unfold blit. rewrite take_app_length. f_equal.
  rewrite !length_app, (take_ge y) by lia. f_equal.
  rewrite <- drop_drop, drop_app_length, <- Hxy. apply drop_app_length.
Qed.

Lemma length_blit dst off src : (off <= length dst)%nat -> length (blit dst off src) = length dst.
Proof. intros. unfold blit. rewrite !length_app, !length_take, length_drop. lia. Qed.

Lemma gocopy_app {E} (h x t y : bytes) off :
  off = len h -> length x = length y -> gocopy (E := E) (h ++ x ++ t) off y = Ok (h ++ y ++ t).
Proof.
  intros -> Hxy. unfold gocopy, len. rewrite !length_app. zif.
  by rewrite Nat2Z.id, blit_app.
Qed.

Lemma PutUint16_app {E} (h x t : bytes) off v :
  off = len h -> length x = 2%nat -> PutUint16 (E := E) (h ++ x ++ t) off v = Ok (h ++ be16 v ++ t).
Proof.
  intros -> Hx. unfold PutUint16, len. rewrite !length_app. zif.
  rewrite Nat2Z.id, blit_app; done.
Qed.

Lemma PutUint32_app {E} (h x t : bytes) off v :
  off = len h -> length x = 4%nat -> PutUint32 (E := E) (h ++ x ++ t) off v = Ok (h ++ be32 v ++ t).
Proof.
  intros -> Hx. unfold PutUint32, len. rewrite !length_app. zif.
  rewrite Nat2Z.id, blit_app; done.
Qed.

(** The same at the front of the slice. *)
Lemma PutUint16_0 {E} (x t : bytes) v :
  length x = 2%nat -> PutUint16 (E := E) (x ++ t) 0 v = Ok (be16 v ++ t).
Proof. by apply (PutUint16_app [] x t). Qed.

Lemma PutUint32_0 {E} (x t : bytes) v :
  length x = 4%nat -> PutUint32 (E := E) (x ++ t) 0 v = Ok (be32 v ++ t).
Proof. by apply (PutUint32_app [] x t). Qed.

Lemma sset_app {E} (h t : bytes) a v i :
  i = len h -> sset (E := E) (h ++ a :: t) i v = Ok (h ++ v :: t).
Proof.
  intros ->. unfold sset, len. zif. rewrite length_app. cbn [length]. zif.
  rewrite Nat2Z.id. replace (length h) with (length h + 0)%nat by lia.
  by rewrite insert_app_r.
Qed.

Lemma slice_0 {E} (s t : bytes) j : j = len s -> slice (E := E) (s ++ t) 0 j = Ok s.
Proof. intros ->. by apply (slice_app [] s t). Qed.

Lemma filter_Forall {A} (P : A -> Prop) `{!forall x, Decision (P x)} (l : list A) :
  Forall P l -> filter P l = l.
Proof. induction 1 as [|x l Hx _ IH]; [done|]. by rewrite filter_cons_True, IH. Qed.

Lemma filter_none {A} (P : A -> Prop) `{!forall x, Decision (P x)} (l : list A) :
  Forall (fun x => ~ P x) l -> filter P l = [].
Proof. induction 1 as [|x l Hx _ IH]; [done|]. by rewrite filter_cons_False, IH. Qed.

(** ** Wire formats

    The contract of a component that puts values on the wire: [wire] is the specification of its
    format, [enc] and [dec] are the code's functions and [tlen] the code's length method. *)

Record Codec (E T : Type) := {
  wire : T -> bytes;
  good : T -> Prop;
  enc : T -> outcome E bytes;
  dec : bytes -> outcome E T;
  tlen : T -> Z;
}.
Arguments wire {E T}. Arguments good {E T}. Arguments enc {E T}. Arguments dec {E T}.
Arguments tlen {E T}.

Class CodecLaws {E T} (c : Codec E T) : Prop := {
  enc_wire x : good c x -> enc c x = Ok (wire c x);
  dec_wire x rest : good c x -> dec c (wire c x ++ rest) = Ok x;
  tlen_wire x : good c x -> tlen c x = len (wire c x);
  wire_pos x : good c x -> 0 < len (wire c x);
}.

Definition wires {E T} (c : Codec E T) (xs : list T) : bytes := concat (wire c <$> xs).

Lemma wires_cons {E T} (c : Codec E T) x xs : wires c (x :: xs) = wire c x ++ wires c xs.
Proof. reflexivity. Qed.

Section item_loop_lemmas.
Context {E A : Type} (wrap : Z -> Z).

Lemma item_loop_wires (c : Codec E A) `{!CodecLaws c} xs : forall fuel pre post acc off,
  Forall (good c) xs -> (length xs <= fuel)%nat -> off = len pre ->
  (forall z, 0 <= z <= off + len (wires c xs) -> wrap z = z) ->
  item_loop wrap (dec c) (tlen c) fuel (pre ++ wires c xs ++ post) off (len (wires c xs)) acc
  = Ok (acc ++ xs, off + len (wires c xs), 0).
Proof.
  induction xs as [|x xs IH]; intros fuel pre post acc off Hg Hf -> Hw.
  { destruct fuel; cbn; by rewrite app_nil_r, Z.add_0_r. }
  inversion_clear Hg as [|? ? Hx Hxs]. pose proof (wire_pos x Hx).
  rewrite wires_cons, len_app in *. pose proof (len_nonneg (wires c xs)). pose proof (len_nonneg pre).
  destruct fuel as [|fuel]; [cbn in Hf; lia|]. cbn [item_loop]. zif.
  rewrite slice_from_app, bind_Ok by done. rewrite <- app_assoc, dec_wire, bind_Ok by done.
  rewrite tlen_wire, Hw by (done || lia).
  rewrite (app_assoc pre).
  replace (len (wire c x) + len (wires c xs) - len (wire c x)) with (len (wires c xs)) by lia.
  rewrite IH; [ | done | cbn in Hf; lia | by rewrite len_app | intros; apply Hw; lia ].
  rewrite <- app_assoc. cbn [app]. do 3 f_equal. lia.
Qed.

Context (dec : bytes -> outcome E A) (tlen : A -> Z).

Lemma item_loop_no_hang : forall fuel pkt off rem acc,
  (forall i x, dec (drop i pkt) = Ok x -> 1 <= tlen x) -> (forall i, dec (drop i pkt) <> Hang) ->
  (Z.to_nat rem <= fuel)%nat ->
  item_loop wrap dec tlen fuel pkt off rem acc <> Hang.
Proof.
  induction fuel as [|fuel IH]; intros pkt off rem acc Hpos Hdec Hf; cbn [item_loop].
  { zif. discriminate. }
  destruct (rem <=? 0) eqn:?; [discriminate|]. zhyp.
  intros [?|(s & (_ & -> & _)%slice_from_inv & [?|(x & Hx & ?)]%bind_Hang_inv)]%bind_Hang_inv.
  - by eapply slice_from_no_hang.
  - by eapply Hdec.
  - apply Hpos in Hx. eapply IH; [..|eassumption]; eauto. lia.
Qed.

Lemma item_loop_Forall (P : A -> Prop) : forall fuel pkt off rem acc xs off' rem',
  bytes_ok pkt -> (forall s x, bytes_ok s -> dec s = Ok x -> P x) -> Forall P acc ->
  item_loop wrap dec tlen fuel pkt off rem acc = Ok (xs, off', rem') -> Forall P xs.
Proof.
  induction fuel as [|fuel IH]; intros pkt off rem acc xs off' rem' Hb HP Hacc; cbn [item_loop].
  { destruct (rem <=? 0); [|discriminate]. by intros [= <- <- <-]. }
  destruct (rem <=? 0); [by intros [= <- <- <-]|].
  intros (s & (? & -> & ?)%slice_from_inv & (x & Hx & Hl)%bind_Ok_inv)%bind_Ok_inv.
  eapply IH; [exact Hb | exact HP | | exact Hl].
  apply Forall_app. split; [done|]. constructor; [|done].
  eapply HP; [|exact Hx]. by apply bytes_ok_drop.
Qed.

(** The loop ends when nothing remains. *)
Lemma item_loop_rem : forall fuel pkt off rem acc xs off' rem',
  item_loop wrap dec tlen fuel pkt off rem acc = Ok (xs, off', rem') -> rem' <= 0.
Proof.
  induction fuel as [|fuel IH]; intros pkt off rem acc xs off' rem'; cbn [item_loop];
    (destruct (rem <=? 0) eqn:?; [intros [= _ _ <-]; by zhyp|]); [discriminate|].
  intros (s & _ & (x & _ & Hl)%bind_Ok_inv)%bind_Ok_inv. by eapply IH.
Qed.

(** What remains after the loop and what it consumed add up to the bytes announced. *)
Lemma item_loop_total : forall fuel pkt off rem acc xs off' rem',
  item_loop wrap dec tlen fuel pkt off rem acc = Ok (xs, off', rem') ->
  exists ys, xs = acc ++ ys /\ rem = foldr (fun x n => tlen x + n) 0 ys + rem'.
Proof.
  induction fuel as [|fuel IH]; intros pkt off rem acc xs off' rem'; cbn [item_loop].
  { destruct (rem <=? 0); [|discriminate]. intros [= <- <- <-].
    exists []. by rewrite app_nil_r. }
  destruct (rem <=? 0).
  { intros [= <- <- <-]. exists []. by rewrite app_nil_r. }
  intros (s & _ & (x & Hx & Hl)%bind_Ok_inv)%bind_Ok_inv.
  apply IH in Hl as (ys & -> & Hr). exists (x :: ys). rewrite <- app_assoc. cbn.
  split; [done | lia].
Qed.
End item_loop_lemmas.

Lemma with_tail_app {E} (p t : bytes) i (f : bytes -> outcome E bytes) :
  i = len p -> with_tail (p ++ t) i f = (s ← f t; Ok (p ++ s)).
Proof.
  intros ->. unfold with_tail. rewrite slice_from_app, bind_Ok by done.
  unfold len. by rewrite Nat2Z.id, take_app_length.
Qed.

Lemma length_make n : length (make n) = Z.to_nat n.
Proof. apply length_replicate. Qed.

Lemma wires_app {E T} (c : Codec E T) xs ys : wires c (xs ++ ys) = wires c xs ++ wires c ys.
Proof. unfold wires. by rewrite fmap_app, concat_app. Qed.

(** Encoding items one after the other appends their wire formats. *)
Lemma wires_length_le {E T} (c : Codec E T) `{!CodecLaws c} xs :
  Forall (good c) xs -> len xs <= len (wires c xs).
Proof.
  induction 1 as [|x xs Hx _ IH]; [done|].
  rewrite wires_cons, len_app, len_cons. pose proof (wire_pos x Hx). lia.
Qed.

Lemma tlen_sum {E T} (c : Codec E T) `{!CodecLaws c} (w : Z -> Z) xs : forall n,
  Forall (good c) xs -> 0 <= n ->
  (forall z, 0 <= z <= n + len (wires c xs) -> w z = z) ->
  fold_left (fun n x => w (n + tlen c x)) xs n = n + len (wires c xs).
Proof.
  induction xs as [|x xs IH]; intros n Hg Hn Hw; cbn [fold_left].
  { change (len (wires c [])) with 0. lia. }
  inversion_clear Hg as [|? ? Hx Hxs]. pose proof (wire_pos x Hx).
  rewrite wires_cons, len_app in *. pose proof (len_nonneg (wires c xs)).
  rewrite tlen_wire, Hw by (done || lia). rewrite IH; [lia | done | lia |].
  intros. apply Hw. lia.
Qed.

Create HintDb wire.
Create Rewrite HintDb outcome.
#[export] Hint Rewrite @bind_Ok : outcome.
#[export] Hint Resolve u8_range u16_range u32_range be16_ok be32_ok bytes_ok_make : wire.
#[export] Hint Resolve slice_from_no_hang slice_no_hang sget_no_hang : wire.
