(* ===== verification/GoNet.v ===== *)
(** What the daemons use of Go's package [net]: addresses as slices of 4 or 16 bytes, and how they are
    printed and parsed. *)
From stdpp Require Import base numbers list gmap strings pretty.
From Stdlib Require Import ZArith Lia.
From S2P Require Import Prelude.
Open Scope Z_scope.

(** ** Addresses *)

(** [net.IP.To4]: [None] is [nil]. *)
Definition To4 (ip : bytes) : option bytes :=
  if len ip =? 4 then Some ip
  else if (len ip =? 16) && bool_decide (take 12 ip = replicate 10 0 ++ [255; 255])
       then Some (drop 12 ip) else None.

(** [net.IP.To16] *)
Definition v4InV6Prefix : bytes := replicate 10 0 ++ [255; 255].
Definition To16 (ip : bytes) : option bytes :=
  if len ip =? 4 then Some (v4InV6Prefix ++ ip) else if len ip =? 16 then Some ip else None.

(** [net.IPv4(a, b, c, d)], [net.IPv4zero], [net.IPv6zero] *)
Definition IPv4 (a b c d : Z) : bytes := v4InV6Prefix ++ [a; b; c; d].
Definition IPv4zero : bytes := IPv4 0 0 0 0.
Definition IPv6zero : bytes := replicate 16 0.

(** [net.IP.String]: dotted decimals for a 4-byte or a mapped address; groups of hexadecimal digits,
    the longest run of at least two zero groups replaced by "::", for any other 16 bytes. *)
Fixpoint join (sep : string) (l : list string) : string :=
  match l with
  | [] => ""
  | [s] => s
  | s :: l => s +:+ sep +:+ join sep l
  end.
Definition hex_digit (n : Z) : string :=
  String (Ascii.ascii_of_nat (Z.to_nat (if n <? 10 then 48 + n else 87 + n))) "".
Fixpoint strip_zeros (l : list Z) : list Z :=
  match l with
  | 0 :: (_ :: _) as l' => strip_zeros l'
  | _ => l
  end.
Definition hex_group (g : Z) : string :=
  foldr String.append "" (hex_digit <$> strip_zeros [g / 4096; g / 256 mod 16; g / 16 mod 16; g mod 16]).
Fixpoint groups (ip : bytes) : list Z :=
  match ip with
  | a :: b :: ip => (a * 256 + b) :: groups ip
  | _ => []
  end.
Fixpoint leading_zeros (l : list Z) : nat :=
  match l with
  | 0 :: l => S (leading_zeros l)
  | _ => O
  end.
(** The first of the longest runs of zeros: its position and its length. *)
Fixpoint longest_run (i : nat) (l : list Z) : nat * nat :=
  match l with
  | [] => (i, O)
  | _ :: l' =>
    let '(j, n) := longest_run (S i) l' in
    if (n <=? leading_zeros l)%nat then (i, leading_zeros l) else (j, n)
  end.
Definition ip_String (ip : bytes) : string :=
  if len ip =? 0 then "<nil>"
  else match To4 ip with
       | Some ip4 => join "." (pretty <$> ip4)
       | None =>
         if len ip =? 16 then
           let gs := groups ip in
           let '(s, n) := longest_run 0 gs in
           if (2 <=? n)%nat then join ":" (hex_group <$> take s gs) +:+ "::" +:+ join ":" (hex_group <$> drop (s + n) gs)
           else join ":" (hex_group <$> gs)
         else "?" +:+ foldr String.append "" ((fun b => hex_digit (b / 16) +:+ hex_digit (b mod 16)) <$> ip)
       end.

(** [net.IP.Equal] *)
Definition ip_Equal (a b : bytes) : bool :=
  if len a =? len b then bool_decide (a = b)
  else if (len a =? 4) && (len b =? 16) then bool_decide (v4InV6Prefix ++ a = b)
  else if (len a =? 16) && (len b =? 4) then bool_decide (a = v4InV6Prefix ++ b)
  else false.

(** ** Parsing

    The functions read a string as the list of its character char_codes, and return what is left of it
    where Go returns an index. *)

Definition char_codes (s : string) : list Z := (fun c => Z.of_nat (Ascii.nat_of_ascii c)) <$> String.list_ascii_of_string s.

Definition digit (c : Z) : option Z := if (48 <=? c) && (c <=? 57) then Some (c - 48) else None.
Definition xdigit (c : Z) : option Z :=
  if (48 <=? c) && (c <=? 57) then Some (c - 48)
  else if (97 <=? c) && (c <=? 102) then Some (c - 87)
  else if (65 <=? c) && (c <=? 70) then Some (c - 55) else None.

(** [dtoi] and [xtoi]: at least one digit, and a value below [big]. *)
Definition big : Z := 16777215.
Fixpoint number (dig : Z -> option Z) (base : Z) (some : bool) (n : Z) (l : list Z) : option (Z * list Z) :=
  let finish := if some then Some (n, l) else None in
  match l with
  | [] => finish
  | c :: l' =>
    match dig c with
    | Some d => if n * base + d >=? big then None else number dig base true (n * base + d) l'
    | None => finish
    end
  end.
Definition dtoi : list Z -> option (Z * list Z) := number digit 10 false 0.
Definition xtoi : list Z -> option (Z * list Z) := number xdigit 16 false 0.

Fixpoint quads (k : nat) (l : list Z) : option bytes :=
  '(n, l) ← dtoi l;
  if n >? 255 then None
  else match k, l with
       | O, [] => Some [n]
       | S k, c :: l => if c =? 46 then (n ::.) <$> quads k l else None
       | _, _ => None
       end.
Definition parseIPv4 (l : list Z) : option bytes := (v4InV6Prefix ++.) <$> quads 3 l.

(** The loop of [parseIPv6]: [ip] is what is filled so far, [ellipsis] where "::" was. *)
Fixpoint parse_groups (fuel : nat) (ip : bytes) (ellipsis : option nat) (l : list Z)
  : option (bytes * option nat * list Z) :=
  match fuel with
  | O => Some (ip, ellipsis, l)
  | S fuel =>
    '(n, l1) ← xtoi l;
    if n >? 65535 then None
    else match l1 with
         | [] => Some (ip ++ [n / 256; n mod 256], ellipsis, [])
         | c :: l2 =>
           if c =? 46 then
             if bool_decide (ellipsis = None) && negb (len ip =? 12) then None
             else if len ip + 4 >? 16 then None
             else ip4 ← quads 3 l; Some (ip ++ ip4, ellipsis, [])
           else if negb (c =? 58) then None
           else let ip := ip ++ [n / 256; n mod 256] in
                match l2 with
                | [] => None
                | d :: l3 =>
                  if d =? 58 then
                    match ellipsis with
                    | Some _ => None
                    | None =>
                      if bool_decide (l3 = []) then Some (ip, Some (length ip), [])
                      else parse_groups fuel ip (Some (length ip)) l3
                    end
                  else parse_groups fuel ip ellipsis l2
                end
         end
  end.
Definition parseIPv6 (l : list Z) : option bytes :=
  '(ip, ellipsis, rest) ←
    if bool_decide (l = [58; 58]) then Some ([], Some 0%nat, [])
    else if bool_decide (take 2 l = [58; 58]) then parse_groups 8 [] (Some 0%nat) (drop 2 l)
    else parse_groups 8 [] None l;
  match rest, ellipsis with
  | _ :: _, _ => None
  | [], Some e => if len ip <? 16 then Some (take e ip ++ replicate (16 - length ip) 0 ++ drop e ip) else None
  | [], None => if len ip <? 16 then None else Some ip
  end.

(** [net.ParseIP]: [None] is [nil]; an IPv4 address is returned in 16 bytes. *)
Fixpoint parse_by_separator (l all : list Z) : option bytes :=
  match l with
  | [] => None
  | c :: l =>
    if c =? 46 then parseIPv4 all else if c =? 58 then parseIPv6 all else parse_by_separator l all
  end.
Definition ParseIP (s : string) : option bytes := parse_by_separator (char_codes s) (char_codes s).

(** [net.ParseCIDR]: the address and the length of the mask. *)
Fixpoint cut (c : Z) (l : list Z) : option (list Z * list Z) :=
  match l with
  | [] => None
  | x :: l => if x =? c then Some ([], l) else '(a, b) ← cut c l; Some (x :: a, b)
  end.
Definition ParseCIDR (s : string) : option (bytes * Z) :=
  '(addr, mask) ← cut 47 (char_codes s);
  '(ip, iplen) ← match parseIPv4 addr with
                 | Some ip => Some (ip, 4)
                 | None => ip ← parseIPv6 addr; Some (ip, 16)
                 end;
  '(n, rest) ← dtoi mask;
  match rest with
  | [] => if n >? 8 * iplen then None else Some (ip, n)
  | _ => None
  end.

(** [net.ParseMAC], for the forms with ":" and "-": [None] is an error. *)
Fixpoint mac_bytes (sep : Z) (l : list Z) : option bytes :=
  match l with
  | [a; b] => x ← xdigit a; y ← xdigit b; Some [x * 16 + y]
  | a :: b :: c :: l =>
    x ← xdigit a; y ← xdigit b;
    if c =? sep then ((x * 16 + y) ::.) <$> mac_bytes sep l else None
  | _ => None
  end.
Definition ParseMAC (s : string) : option bytes :=
  let l := char_codes s in
  match l !! 2%nat with
  | Some sep =>
    if (len l <? 14) || negb ((sep =? 58) || (sep =? 45)) then None
    else if ((len l + 1) / 3 =? 6) || ((len l + 1) / 3 =? 8) || ((len l + 1) / 3 =? 20)
         then mac_bytes sep l else None
  | None => None
  end.

(** [net.HardwareAddr.String] *)
Definition mac_String (a : bytes) : string := join ":" ((fun b => hex_digit (b / 16) +:+ hex_digit (b mod 16)) <$> a).

Example ParseIP_examples :
  ParseIP "10.0.0.1" = Some (IPv4 10 0 0 1) /\ ParseIP "10.0.0.1/24" = None /\ ParseIP "10.0.0" = None /\
  ParseIP "fe80::1" = Some ([254; 128] ++ replicate 13 0 ++ [1]) /\ ParseIP "::" = Some IPv6zero /\
  ParseIP "::ffff:1.2.3.4" = Some (IPv4 1 2 3 4) /\ ParseIP "1:2:3:4:5:6:7:8" <> None /\ ParseIP "1:2" = None /\
  ParseCIDR "10.0.0.1/24" = Some (IPv4 10 0 0 1, 24) /\ ParseCIDR "10.0.0.1/33" = None /\
  ParseMAC "00-00-5E-00-01-0A" = Some [0; 0; 94; 0; 1; 10] /\ ParseMAC "00-00-5E-00-01-100" = None /\
  mac_String [0; 0; 94; 0; 1; 10] = "00:00:5e:00:01:0a".
Proof. repeat split; try reflexivity; discriminate. Qed.

(** ** Lemmas *)

Lemma To4_len ip ip4 : To4 ip = Some ip4 -> len ip4 = 4.
Proof.
  unfold To4. destruct (len ip =? 4) eqn:?; [intros [= <-]; by zhyp|].
  destruct (len ip =? 16) eqn:?; cbn [andb]; [|discriminate]. zhyp.
  case_bool_decide; [|discriminate]. intros [= <-]. unfold len in *. rewrite length_drop. lia.
Qed.

Lemma To4_4 ip : len ip = 4 -> To4 ip = Some ip.
Proof. intros H. unfold To4. by rewrite H. Qed.

Lemma To4_v4 ip : len ip = 4 -> To4 (v4InV6Prefix ++ ip) = Some ip.
Proof.
  intros H. unfold To4. rewrite len_app, H. cbn. by rewrite bool_decide_eq_true_2.
Qed.

(** A string with a slash is not an address. *)
Lemma number_slash dig base some n l v rest :
  dig 47 = None -> 47 ∈ l -> number dig base some n l = Some (v, rest) -> 47 ∈ rest.
Proof.
  intros H47. revert some n. induction l as [|c l IH]; intros some n Hin; cbn; [by apply not_elem_of_nil in Hin|].
  destruct (dig c) eqn:Hc.
  - destruct (_ >=? _); [discriminate|]. apply IH.
    apply elem_of_cons in Hin as [<- | Hin]; [congruence | done].
  - destruct some; [|discriminate]. by intros [= _ <-].
Qed.

Lemma quads_slash k l : 47 ∈ l -> quads k l = None.
Proof.
  revert l. induction k as [|k IH]; intros l Hin; cbn;
    (destruct (dtoi l) as [[n rest]|] eqn:Hd; cbn; [|done]);
    pose proof (number_slash digit 10 false 0 l n rest eq_refl Hin Hd) as Hr;
    destruct (n >? 255); [done| |done|].
  - destruct rest; [by apply not_elem_of_nil in Hr | done].
  - destruct rest as [|c rest]; [done|]. destruct (c =? 46) eqn:E; [|done]. zhyp. subst. rewrite IH; [done|].
    apply elem_of_cons in Hr as [? | Hr]; [lia | done].
Qed.

#[local] Arguments quads : simpl never.

Lemma parse_groups_slash fuel ip e l r :
  47 ∈ l -> parse_groups fuel ip e l = Some r -> 47 ∈ r.2.
Proof.
  revert ip e l. induction fuel as [|fuel IH]; intros ip e l Hin; cbn; [by intros [= <-]|].
  destruct (xtoi l) as [[n l1]|] eqn:Hx; cbn; [|done].
  pose proof (number_slash xdigit 16 false 0 l n l1 eq_refl Hin Hx) as H1.
  destruct (n >? 65535); [done|]. destruct l1 as [|c l2]; [by apply not_elem_of_nil in H1|].
  destruct (c =? 46) eqn:E46; [rewrite (quads_slash 3 l Hin); by repeat case_match|].
  destruct (c =? 58) eqn:E58; cbn [negb]; [|done]. zhyp. subst c.
  apply elem_of_cons in H1 as [? | H2]; [lia|]. destruct l2 as [|d l3]; [done|].
  destruct (d =? 58) eqn:Ed; [|intros H; by eapply IH]. zhyp. subst d.
  apply elem_of_cons in H2 as [? | H3]; [lia|]. destruct e; [done|].
  destruct l3; [by apply not_elem_of_nil in H3|]. cbn. intros H. by eapply IH.
Qed.

Lemma parseIPv6_slash l : 47 ∈ l -> parseIPv6 l = None.
Proof.
  intros Hin. unfold parseIPv6.
  assert (H : forall r : option (bytes * option nat * list Z), (forall x, r = Some x -> 47 ∈ x.2) ->
    ('(ip, ellipsis, rest) ← r;
     match rest, ellipsis with
     | _ :: _, _ => None
     | [], Some e => if len ip <? 16 then Some (take e ip ++ replicate (16 - length ip) 0 ++ drop e ip) else None
     | [], None => if len ip <? 16 then None else Some ip
     end) = None).
  { intros [[[ip e] rest]|] Hr; [cbn | done]. destruct rest; [|done].
    specialize (Hr _ eq_refl). by apply not_elem_of_nil in Hr. }
  apply H. clear H. intros x Hx.
  destruct (bool_decide (l = [58; 58])) eqn:E1.
  { apply bool_decide_eq_true in E1. subst l.
    repeat (apply elem_of_cons in Hin as [?|Hin]; [lia|]). by apply not_elem_of_nil in Hin. }
  destruct (bool_decide (take 2 l = [58; 58])) eqn:E2; eapply parse_groups_slash; [|exact Hx| |exact Hx]; [|done].
  apply bool_decide_eq_true in E2. rewrite <- (take_drop 2 l), E2 in Hin.
  apply elem_of_app in Hin as [Hin | Hin]; [|done].
  repeat (apply elem_of_cons in Hin as [?|Hin]; [lia|]). by apply not_elem_of_nil in Hin.
Qed.

Lemma cut_elem c l p : cut c l = Some p -> c ∈ l.
Proof.
  revert p. induction l as [|x l IH]; intros p; cbn; [done|].
  destruct (x =? c) eqn:E; [zhyp; subst; intros _; left|].
  destruct (cut c l); [|done]. intros _. right. by eapply IH.
Qed.

Lemma ParseIP_CIDR s r : ParseCIDR s = Some r -> ParseIP s = None.
Proof.
  unfold ParseCIDR, ParseIP. destruct (cut 47 (char_codes s)) eqn:Hc; [|done]. intros _.
  pose proof (cut_elem _ _ _ Hc) as H. clear Hc p. generalize (char_codes s) as all, H. clear H.
  enough (Hg : forall l all, 47 ∈ all -> parse_by_separator l all = None) by auto.
  induction l as [|x l IH]; intros all Hall; [done|]. cbn.
  pose proof (quads_slash 3 all Hall) as Hq. pose proof (parseIPv6_slash all Hall) as H6.
  repeat (case_match; subst; auto); unfold parseIPv4; by rewrite Hq.
Qed.

(** ** Strings and bytes *)

(** [bytes.Compare(a, b)] *)
Fixpoint bytes_Compare (a b : bytes) : comparison :=
  match a, b with
  | [], [] => Eq
  | [], _ => Lt
  | _, [] => Gt
  | x :: a, y :: b => if x <? y then Lt else if x >? y then Gt else bytes_Compare a b
  end.

(** [strconv.Atoi], which returns 0 with its error; the values are in range. *)
Fixpoint decimal (l : list Z) (n : Z) : option Z :=
  match l with
  | [] => Some n
  | c :: l => match digit c with Some d => decimal l (n * 10 + d) | None => None end
  end.
Definition Atoi (l : list Z) : Z :=
  match l with
  | [] => 0
  | c :: l' => if c =? 45 then (if bool_decide (l' = []) then 0 else - default 0 (decimal l' 0))
               else if c =? 43 then (if bool_decide (l' = []) then 0 else default 0 (decimal l' 0))
               else default 0 (decimal l 0)
  end.
