(* ===== verification/GoCrypto.v ===== *)
(** The digests of Go's packages crypto/md5 and crypto/sha1 (RFC 1321, RFC 3174), which the daemons
    use to authenticate packets. *)
From stdpp Require Import base numbers list.
From Stdlib Require Import ZArith Lia.
From S2P Require Import Prelude.
Open Scope Z_scope.

Definition rotl (n x : Z) : Z := Z.lor (u32 (Z.shiftl x n)) (Z.shiftr x (32 - n)).
Definition not32 (x : Z) : Z := 4294967295 - x.

(** The message with its padding: a bit, zeros up to 56 modulo 64, and the length in bits. *)
Definition pad (be : Z -> bytes) (m : bytes) : bytes :=
  let bits := 8 * len m in
  m ++ 128 :: make ((55 - len m) mod 64) ++ be bits.

Definition le32 (v : Z) : bytes := rev (be32 v).
Definition le64 (v : Z) : bytes := le32 v ++ le32 (v / 4294967296).
Definition be64 (v : Z) : bytes := be32 (v / 4294967296) ++ be32 v.

Fixpoint words (w : Z -> Z -> Z -> Z -> Z) (m : bytes) : list Z :=
  match m with
  | a :: b :: c :: d :: m => w a b c d :: words w m
  | _ => []
  end.
Definition word_be (a b c d : Z) : Z := a * 16777216 + b * 65536 + c * 256 + d.
Definition word_le (a b c d : Z) : Z := word_be d c b a.

(** Process the blocks of 16 words. *)
Fixpoint blocks {S} (fuel : nat) (f : S -> list Z -> S) (s : S) (l : list Z) : S :=
  match fuel, l with
  | O, _ | _, [] => s
  | S fuel, _ => blocks fuel f (f s (take 16 l)) (drop 16 l)
  end.

(** ** MD5 *)

Definition md5_K : list Z :=
  [3614090360; 3905402710; 606105819; 3250441966; 4118548399; 1200080426;
   2821735955; 4249261313; 1770035416; 2336552879; 4294925233; 2304563134;
   1804603682; 4254626195; 2792965006; 1236535329; 4129170786; 3225465664;
   643717713; 3921069994; 3593408605; 38016083; 3634488961; 3889429448;
   568446438; 3275163606; 4107603335; 1163531501; 2850285829; 4243563512;
   1735328473; 2368359562; 4294588738; 2272392833; 1839030562; 4259657740;
   2763975236; 1272893353; 4139469664; 3200236656; 681279174; 3936430074;
   3572445317; 76029189; 3654602809; 3873151461; 530742520; 3299628645;
   4096336452; 1126891415; 2878612391; 4237533241; 1700485571; 2399980690;
   4293915773; 2240044497; 1873313359; 4264355552; 2734768916; 1309151649;
   4149444226; 3174756917; 718787259; 3951481745].
Definition md5_s (i : nat) : Z :=
  nth (4 * (i / 16) + i mod 4)%nat [7; 12; 17; 22; 5; 9; 14; 20; 4; 11; 16; 23; 6; 10; 15; 21] 0.

Definition md5_state : Type := Z * Z * Z * Z.
Definition md5_step (X : list Z) (s : md5_state) (i : nat) : md5_state :=
  let '(a, b, c, d) := s in
  let '(f, g) :=
    if Nat.ltb i 16 then (Z.lor (Z.land b c) (Z.land (not32 b) d), i)
    else if Nat.ltb i 32 then (Z.lor (Z.land d b) (Z.land (not32 d) c), (5 * i + 1) mod 16)%nat
    else if Nat.ltb i 48 then (Z.lxor (Z.lxor b c) d, (3 * i + 5) mod 16)%nat
    else (Z.lxor c (Z.lor b (not32 d)), (7 * i) mod 16)%nat in
  let f := u32 (f + a + nth i md5_K 0 + nth g X 0) in
  (d, u32 (b + rotl (md5_s i) f), b, c).
Definition md5_block (s : md5_state) (X : list Z) : md5_state :=
  let '(a, b, c, d) := s in
  let '(a', b', c', d') := fold_left (md5_step X) (seq 0 64) s in
  (u32 (a + a'), u32 (b + b'), u32 (c + c'), u32 (d + d')).
(** [md5.Sum] *)
Definition md5_Sum (m : bytes) : bytes :=
  let l := words word_le (pad le64 m) in
  let '(a, b, c, d) := blocks (length l) md5_block (1732584193, 4023233417, 2562383102, 271733878) l in
  le32 a ++ le32 b ++ le32 c ++ le32 d.

(** ** SHA-1 *)

Definition sha1_state : Type := Z * Z * Z * Z * Z.
(** The 80 words of the schedule; [w] holds the last 16, the latest last. *)
Definition sha1_step (sw : sha1_state * list Z) (i : nat) : sha1_state * list Z :=
  let '((a, b, c, d, e), w) := sw in
  let x := nth 0 w 0 in
  let '(f, k) :=
    if Nat.ltb i 20 then (Z.lor (Z.land b c) (Z.land (not32 b) d), 1518500249)
    else if Nat.ltb i 40 then (Z.lxor (Z.lxor b c) d, 1859775393)
    else if Nat.ltb i 60 then (Z.lor (Z.lor (Z.land b c) (Z.land b d)) (Z.land c d), 2400959708)
    else (Z.lxor (Z.lxor b c) d, 3395469782) in
  let t := u32 (rotl 5 a + f + e + k + x) in
  let next := rotl 1 (Z.lxor (Z.lxor (nth 13 w 0) (nth 8 w 0)) (Z.lxor (nth 2 w 0) x)) in
  ((t, a, rotl 30 b, c, d), drop 1 w ++ [next]).
Definition sha1_block (s : sha1_state) (X : list Z) : sha1_state :=
  let '(a, b, c, d, e) := s in
  let '((a', b', c', d', e'), _) := fold_left sha1_step (seq 0 80) (s, X) in
  (u32 (a + a'), u32 (b + b'), u32 (c + c'), u32 (d + d'), u32 (e + e')).
(** [sha1.Sum] *)
Definition sha1_Sum (m : bytes) : bytes :=
  let l := words word_be (pad be64 m) in
  let '(a, b, c, d, e) :=
    blocks (length l) sha1_block (1732584193, 4023233417, 2562383102, 271733878, 3285377520) l in
  be32 a ++ be32 b ++ be32 c ++ be32 d ++ be32 e.

(** The test vectors of the RFCs. *)
Example md5_vectors :
  (md5_Sum [], md5_Sum [97; 98; 99], md5_Sum (replicate 8 49 ++ replicate 72 48)) =
  ([212; 29; 140; 217; 143; 0; 178; 4; 233; 128; 9; 152; 236; 248; 66; 126], [144; 1; 80; 152; 60; 210; 79; 176; 214; 150; 63; 125; 40; 225; 127; 114], [236; 15; 77; 249; 178; 85; 192; 240; 201; 144; 149; 18; 246; 3; 163; 196]).
Proof. vm_compute. reflexivity. Qed.
Example sha1_vectors :
  (sha1_Sum [], sha1_Sum [97; 98; 99], sha1_Sum (replicate 80 97)) =
  ([218; 57; 163; 238; 94; 107; 75; 13; 50; 85; 191; 239; 149; 96; 24; 144; 175; 216; 7; 9], [169; 153; 62; 54; 71; 6; 129; 106; 186; 62; 37; 113; 120; 80; 194; 108; 156; 208; 216; 157], [134; 243; 54; 82; 252; 255; 215; 250; 20; 67; 226; 70; 221; 52; 254; 93; 0; 226; 95; 253]).
Proof. vm_compute. reflexivity. Qed.

Lemma len_md5_Sum m : len (md5_Sum m) = 16.
Proof. unfold md5_Sum. destruct (blocks _ _ _ _) as [[[a b] c] d]. reflexivity. Qed.
Lemma len_sha1_Sum m : len (sha1_Sum m) = 20.
Proof. unfold sha1_Sum. destruct (blocks _ _ _ _) as [[[[a b] c] d] e]. reflexivity. Qed.
Lemma le32_ok v : bytes_ok (le32 v).
Proof. apply Forall_rev, be32_ok. Qed.
Lemma md5_Sum_ok m : bytes_ok (md5_Sum m).
Proof.
  unfold md5_Sum. destruct (blocks _ _ _ _) as [[[a b] c] d].
  rewrite !bytes_ok_app. auto using le32_ok.
Qed.
Lemma sha1_Sum_ok m : bytes_ok (sha1_Sum m).
Proof.
  unfold sha1_Sum. destruct (blocks _ _ _ _) as [[[[a b] c] d] e].
  rewrite !bytes_ok_app. auto using be32_ok.
Qed.
