(* ===== verification/BgpBase.v ===== *)
(** Constants, errors, address families and the message header of the BGP packet package
    ([src/bgp/packet/bgp.go], [src/bgp/packet/afisafi.go]). The text of an error message is
    dropped: it is only printed. *)
From stdpp Require Import base numbers list gmap.
From Stdlib Require Import ZArith Lia.
From S2P Require Import Prelude GoNet.
Open Scope Z_scope.

Definition BGPASTrans : Z := 23456.
Definition BGPHeaderMarkerLen : Z := 16.

Definition BGPMsgTypeOpen : Z := 1.
Definition BGPMsgTypeUpdate : Z := 2.
Definition BGPMsgTypeNotification : Z := 3.
Definition BGPMsgTypeKeepAlive : Z := 4.

Definition BGPMsgHeaderLen : Z := 19.
Definition BGPUpdateMsgMinLen : Z := 23.
Definition BGPMsgMaxLen : Z := 4096.

Definition BGPMsgHeaderError : Z := 1.
Definition BGPOpenMsgError : Z := 2.
Definition BGPUpdateMsgError : Z := 3.
Definition BGPHoldTimerExpired : Z := 4.
Definition BGPFSMError : Z := 5.
Definition BGPCease : Z := 6.

Definition BGPUnspecific : Z := 0.
Definition BGPUnsupportedOptionalParam : Z := 4.

Definition BGPMalformedAttrList : Z := 1.
Definition BGPUnrecognizedWellKnownAttr : Z := 2.
Definition BGPMissingWellKnownAttr : Z := 3.
Definition BGPAttrFlagsError : Z := 4.
Definition BGPAttrLenError : Z := 5.
Definition BGPInvalidNetworkField : Z := 10.

Record BGPMessageError := {
  TypeCode : Z;
  SubTypeCode : Z;
  Data : bytes;
}.

(** A Go [error]: the package's own [BGPMessageError], or [errors.New] of a text. *)
Inductive goerr :=
  | EMsg (e : BGPMessageError)
  | EText.

Abbreviation result := (outcome goerr).

Definition bgp_err {A} (type subtype : Z) (data : bytes) : result A :=
  Err (EMsg {| TypeCode := type; SubTypeCode := subtype; Data := data |}).

(** ** Address families *)

Definition AfiIP : Z := 1.
Definition AfiIP6 : Z := 2.
Definition SafiUnicast : Z := 1.

Definition IPv4len : Z := 4.
Definition IPv6len : Z := 16.

(** [AFINextHopLenMap] *)
Definition AFINextHopLenMap (afi : Z) : option Z :=
  if afi =? AfiIP then Some 4 else if afi =? AfiIP6 then Some 16 else None.

(** [afi] is a 16-bit integer: [afi<<8] is truncated before the conversion to [uint32]. *)
Definition GetProtocolFamily (afi safi : Z) : Z := Z.lor (u16 (Z.shiftl afi 8)) safi.

Definition GetAfiSafi (protocolFamily : Z) : Z * Z :=
  (u16 (Z.shiftr protocolFamily 8), u8 (Z.land protocolFamily 255)).

Definition GetAddressLengthForFamily (protoFamily : Z) : Z :=
  let '(afi, _) := GetAfiSafi protoFamily in
  match AFINextHopLenMap afi with Some addrLen => addrLen | None => -1 end.

Definition GetZeroNextHopForFamily (protoFamily : Z) : option bytes :=
  let '(afi, _) := GetAfiSafi protoFamily in
  if afi =? AfiIP then Some IPv4zero else if afi =? AfiIP6 then Some IPv6zero else None.

(** ** What a session knows of its peer when it decodes *)

Record BGPPeerAttrs := {
  ASSize : Z;
  AddPathFamily : gmap Z (gmap Z Z);
  AddPathsRxActual : bool;
}.

(** ** Message header *)

Record BGPHeader := {
  hd_Length : Z;
  hd_Type : Z;
}.

Definition BGPHeader_Encode (header : BGPHeader) : result bytes :=
  let pkt := replicate (Z.to_nat BGPHeaderMarkerLen) 255 ++ make 3 in
  pkt ← PutUint16 pkt 16 (hd_Length header);
  sset pkt 18 (hd_Type header).

Definition BGPHeader_Decode (pkt : bytes) : result BGPHeader :=
  s ← slice pkt 16 18;
  length ← Uint16 s;
  type ← sget pkt 18;
  Ok {| hd_Length := length; hd_Type := type |}.

(** ** Lemmas *)

Lemma GetAfiSafi_GetProtocolFamily afi safi :
  is_u8 afi -> is_u8 safi -> GetAfiSafi (GetProtocolFamily afi safi) = (afi, safi).
Proof.
  intros Ha Hs. unfold GetAfiSafi, GetProtocolFamily, is_u8 in *.
  rewrite (u16_id (Z.shiftl afi 8)) by (rewrite Z.shiftl_mul_pow2; unfold is_u16; lia).
  assert (Hland : Z.land (Z.lor (Z.shiftl afi 8) safi) 255 = safi).
  { change 255 with (Z.ones 8). rewrite Z.land_ones by lia.
    rewrite Z.shiftl_mul_pow2 by lia.
    rewrite <- (Z.land_ones _ 8), Z.land_lor_distr_l, !Z.land_ones by lia.
    rewrite Z.mod_mul, Z.lor_0_l by lia. apply Z.mod_small. lia. }
  rewrite Hland, u8_id by done. f_equal.
  rewrite Z.shiftr_lor, Z.shiftr_shiftl_l by lia. rewrite Z.shiftl_0_r.
  rewrite (Z.shiftr_div_pow2 safi), Z.div_small, Z.lor_0_r by lia.
  apply u16_id. unfold is_u16. lia.
Qed.

Lemma BGPHeader_Encode_wire h :
  BGPHeader_Encode h = Ok (replicate 16 255 ++ be16 (hd_Length h) ++ [hd_Type h]).
Proof. reflexivity. Qed.

Lemma BGPHeader_Decode_wire l t rest :
  is_u16 l -> BGPHeader_Decode (replicate 16 255 ++ be16 l ++ t :: rest)
              = Ok {| hd_Length := l; hd_Type := t |}.
Proof.
  intros Hl. unfold BGPHeader_Decode.
  rewrite slice_app, bind_Ok by reflexivity.
  rewrite <- (app_nil_r (be16 l)) at 1. rewrite Uint16_be16, bind_Ok by done.
  by rewrite app_assoc, sget_app, bind_Ok by reflexivity.
Qed.

(** The header decoder panics exactly on fewer than 19 bytes. *)
Lemma BGPHeader_Decode_total pkt : 19 <= len pkt -> exists h, BGPHeader_Decode pkt = Ok h.
Proof.
  intros H. unfold BGPHeader_Decode, slice, sget, len in *. zif. cbn.
  do 19 (destruct pkt as [|? pkt]; [cbn in H; lia|]). cbn. eauto.
Qed.

Lemma GetProtocolFamily_GetAfiSafi k :
  0 <= k < 65536 -> GetProtocolFamily (GetAfiSafi k).1 (GetAfiSafi k).2 = k.
Proof.
  intros Hk. unfold GetProtocolFamily, GetAfiSafi. cbn [fst snd].
  rewrite (u16_id (Z.shiftr k 8)), (u8_id (Z.land k 255)).
  2: { change 255 with (Z.ones 8). rewrite Z.land_ones by lia. apply Z.mod_pos_bound. lia. }
  2: { unfold is_u16. rewrite Z.shiftr_div_pow2 by lia. change (2 ^ 8) with 256.
       Z.div_mod_to_equations. lia. }
  rewrite u16_id.
  2: { unfold is_u16. rewrite Z.shiftl_mul_pow2, Z.shiftr_div_pow2 by lia. change (2 ^ 8) with 256.
       Z.div_mod_to_equations. lia. }
  change 255 with (Z.ones 8). rewrite <- Z.ldiff_ones_r by lia. apply Z.bits_inj'. intros n Hn.
  rewrite Z.lor_spec, Z.ldiff_spec, Z.land_spec. destruct (Z.testbit k n), (Z.testbit (Z.ones 8) n); done.
Qed.

(** ** Non-termination *)

Lemma PutUint_no_hang s off v : PutUint16 (E := goerr) s off v <> Hang.
Proof. unfold PutUint16. repeat case_match; discriminate. Qed.

Lemma Uint16_no_hang s : Uint16 (E := goerr) s <> Hang.
Proof. destruct s as [|? [|? ?]]; discriminate. Qed.
Lemma Uint32_no_hang s : Uint32 (E := goerr) s <> Hang.
Proof. destruct s as [|? [|? [|? [|? ?]]]]; discriminate. Qed.
Lemma gocopy_no_hang d off s : gocopy (E := goerr) d off s <> Hang.
Proof. unfold gocopy. repeat case_match; discriminate. Qed.

(** Split a [Hang] of a sequence of calls into the call that hangs. *)
Ltac hang_inv :=
  repeat match goal with
  | H : (_ ≫= _) = Hang |- _ => apply bind_Hang_inv in H as [H|(? & ? & H)]
  | H : slice_from _ _ = Hang |- _ => exfalso; by apply slice_from_no_hang in H
  | H : slice _ _ _ = Hang |- _ => exfalso; by apply slice_no_hang in H
  | H : sget _ _ = Hang |- _ => exfalso; by apply sget_no_hang in H
  | H : Uint16 _ = Hang |- _ => exfalso; by apply Uint16_no_hang in H
  | H : Uint32 _ = Hang |- _ => exfalso; by apply Uint32_no_hang in H
  | H : gocopy _ _ _ = Hang |- _ => exfalso; by apply gocopy_no_hang in H
  | H : (if _ then _ else _) = Hang |- _ => case_match
  | H : (let '(_, _) := ?p in _) = Hang |- _ => destruct p
  | H : Ok _ = Hang |- _ => discriminate H
  | H : bgp_err _ _ _ = Hang |- _ => discriminate H
  end.

(** Split an error of a sequence of calls into the call that reports it. *)
Ltac err_inv :=
  repeat match goal with
  | H : (_ ≫= _) = Err _ |- _ => apply bind_Err_inv in H as [H|(? & ? & H)]
  | H : slice_from _ _ = Err _ |- _ => exfalso; by apply slice_from_no_err in H
  | H : slice _ _ _ = Err _ |- _ => exfalso; by apply slice_no_err in H
  | H : sget _ _ = Err _ |- _ => exfalso; by apply sget_no_err in H
  | H : Uint16 _ = Err _ |- _ => exfalso; by apply Uint16_no_err in H
  | H : Uint32 _ = Err _ |- _ => exfalso; by apply Uint32_no_err in H
  | H : (if _ then _ else _) = Err _ |- _ => case_match
  | H : (let '(_, _) := ?p in _) = Err _ |- _ => destruct p
  | H : Ok _ = Err _ |- _ => discriminate H
  end.
