(* ===== verification/BgpOpen.v ===== *)
(** The OPEN message of [src/bgp/packet/bgp.go]: capabilities, optional parameters, the message
    body, and what the session reads in a decoded OPEN ([src/bgp/packet/helpers.go],
    [src/bgp/packet/afisafi.go]). The interfaces [BGPCapability] and [BGPOptParam] are inductive
    types with a constructor per Go type that implements them; a [Decode] method is a function
    that returns the decoded value, and takes the receiver where it reads it. *)
From stdpp Require Import base numbers list gmap.
From Stdlib Require Import ZArith Lia.
From S2P Require Import Prelude GoNet BgpBase.
Open Scope Z_scope.

(** ** Capabilities *)

Definition BGPCapTypeMPExt : Z := 1.
Definition BGPCapTypeAS4Path : Z := 65.
Definition BGPCapTypeAddPath : Z := 69.

Definition BGPCapAddPathRx : Z := 1.
Definition BGPCapAddPathTx : Z := 2.

Record BGPCapabilityBase := { cap_Type : Z; cap_Len : Z }.

Definition BGPCapabilityBase_TotalLen (msg : BGPCapabilityBase) : Z := u16 (cap_Len msg + 2).

Definition BGPCapabilityBase_Encode (msg : BGPCapabilityBase) : result bytes :=
  let pkt := make (BGPCapabilityBase_TotalLen msg) in
  pkt ← sset pkt 0 (cap_Type msg);
  sset pkt 1 (cap_Len msg).

Definition BGPCapabilityBase_Decode (pkt : bytes) : result BGPCapabilityBase :=
  if len pkt <? 2 then bgp_err BGPOpenMsgError BGPUnspecific [] else
  type ← sget pkt 0;
  l ← sget pkt 1;
  let msg := {| cap_Type := type; cap_Len := l |} in
  if len pkt <? BGPCapabilityBase_TotalLen msg
  then bgp_err BGPUpdateMsgError BGPUnspecific []
  else Ok msg.

Record BGPCapMPExt := { mp_base : BGPCapabilityBase; mp_AFI : Z; mp_Reserved : Z; mp_SAFI : Z }.

Definition BGPCapMPExt_Encode (mp : BGPCapMPExt) : result bytes :=
  pkt ← BGPCapabilityBase_Encode (mp_base mp);
  pkt ← PutUint16 pkt 2 (mp_AFI mp);
  pkt ← sset pkt 4 0;
  sset pkt 5 (mp_SAFI mp).

Definition BGPCapMPExt_Decode (pkt : bytes) : result BGPCapMPExt :=
  base ← BGPCapabilityBase_Decode pkt;
  s ← slice_from pkt 2;
  afi ← Uint16 s;
  safi ← sget pkt 5;
  Ok {| mp_base := base; mp_AFI := afi; mp_Reserved := 0; mp_SAFI := safi |}.

Definition NewBGPCapMPExt (afi safi : Z) : BGPCapMPExt :=
  {| mp_base := {| cap_Type := BGPCapTypeMPExt; cap_Len := 4 |};
     mp_AFI := afi; mp_Reserved := 0; mp_SAFI := safi |}.

Record BGPCapAS4Path := { as4_base : BGPCapabilityBase; as4_Value : Z }.

Definition BGPCapAS4Path_Encode (msg : BGPCapAS4Path) : result bytes :=
  pkt ← BGPCapabilityBase_Encode (as4_base msg);
  PutUint32 pkt 2 (as4_Value msg).

Definition BGPCapAS4Path_Decode (pkt : bytes) : result BGPCapAS4Path :=
  base ← BGPCapabilityBase_Decode pkt;
  s ← slice_from pkt 2;
  v ← Uint32 s;
  Ok {| as4_base := base; as4_Value := v |}.

Definition NewBGPCap4ByteASPath (as_ : Z) : BGPCapAS4Path :=
  {| as4_base := {| cap_Type := BGPCapTypeAS4Path; cap_Len := 4 |}; as4_Value := as_ |}.

Record AddPathAFISAFI := { ap_AFI : Z; ap_SAFI : Z; ap_Flags : Z }.

Definition AddPathAFISAFI_Encode (a : AddPathAFISAFI) (pkt : bytes) : result bytes :=
  pkt ← PutUint16 pkt 0 (ap_AFI a);
  pkt ← sset pkt 2 (ap_SAFI a);
  sset pkt 3 (ap_Flags a).

Definition AddPathAFISAFI_Decode (pkt : bytes) : result AddPathAFISAFI :=
  if len pkt <? 4 then bgp_err BGPOpenMsgError BGPUnspecific [] else
  afi ← Uint16 pkt;
  safi ← sget pkt 2;
  flags ← sget pkt 3;
  Ok {| ap_AFI := afi; ap_SAFI := safi; ap_Flags := flags |}.

Definition AddPathAFISAFI_Len (a : AddPathAFISAFI) : Z := 4.

Record BGPCapAddPath := { addp_base : BGPCapabilityBase; addp_Value : list AddPathAFISAFI }.

(** The loop of [BGPCapAddPath.Encode]: [offset] is a [uint8]. *)
Fixpoint addpath_encode_values (pkt : bytes) (offset : Z) (vals : list AddPathAFISAFI) : result bytes :=
  match vals with
  | [] => Ok pkt
  | val :: vals =>
    pkt ← with_tail pkt offset (AddPathAFISAFI_Encode val);
    addpath_encode_values pkt (u8 (offset + AddPathAFISAFI_Len val)) vals
  end.

Definition BGPCapAddPath_Encode (msg : BGPCapAddPath) : result bytes :=
  pkt ← BGPCapabilityBase_Encode (addp_base msg);
  addpath_encode_values pkt 2 (addp_Value msg).

(** The loop of [BGPCapAddPath.Decode]; a step moves [offset] by 4 and [Len] is at most 255, so
    64 steps are enough ([addpath_decode_values_no_hang]). *)
Fixpoint addpath_decode_values (fuel : nat) (l : Z) (pkt : bytes) (offset : Z)
    (acc : list AddPathAFISAFI) : result (list AddPathAFISAFI * Z) :=
  if offset <? l then
    match fuel with
    | O => Hang
    | S fuel =>
      s ← slice_from pkt offset;
      a ← AddPathAFISAFI_Decode s;
      addpath_decode_values fuel l pkt (u16 (offset + AddPathAFISAFI_Len a)) (acc ++ [a])
    end
  else Ok (acc, offset).

Definition BGPCapAddPath_Decode (msg : BGPCapAddPath) (pkt : bytes) : result BGPCapAddPath :=
  base ← BGPCapabilityBase_Decode pkt;
  r ← addpath_decode_values 64 (cap_Len base) pkt 2 (addp_Value msg);
  let '(vals, offset) := r in
  if offset >? u8 (cap_Len base + 2) then bgp_err BGPOpenMsgError BGPUnspecific []
  else Ok {| addp_base := base; addp_Value := vals |}.

Definition BGPCapAddPath_AddAddPathAFISAFI (msg : BGPCapAddPath) (a : AddPathAFISAFI) : BGPCapAddPath :=
  {| addp_base := {| cap_Type := cap_Type (addp_base msg);
                     cap_Len := u8 (cap_Len (addp_base msg) + AddPathAFISAFI_Len a) |};
     addp_Value := addp_Value msg ++ [a] |}.

Definition NewBGPCapAddPath : BGPCapAddPath :=
  {| addp_base := {| cap_Type := BGPCapTypeAddPath; cap_Len := 0 |}; addp_Value := [] |}.

Record BGPCapUnknown := { capu_base : BGPCapabilityBase; capu_Value : bytes }.

Definition BGPCapUnknown_Encode (msg : BGPCapUnknown) : result bytes :=
  pkt ← BGPCapabilityBase_Encode (capu_base msg);
  gocopy pkt 2 (capu_Value msg).

(** [copy(msg.Value, pkt[2:msg.TotalLen()])]: the receiver's [Value] keeps its length. *)
Definition BGPCapUnknown_Decode (msg : BGPCapUnknown) (pkt : bytes) : result BGPCapUnknown :=
  base ← BGPCapabilityBase_Decode pkt;
  s ← slice pkt 2 (BGPCapabilityBase_TotalLen base);
  v ← gocopy (capu_Value msg) 0 s;
  Ok {| capu_base := base; capu_Value := v |}.

(** The interface [BGPCapability]. *)
Inductive BGPCapability :=
  | CapMPExt (c : BGPCapMPExt)
  | CapAS4Path (c : BGPCapAS4Path)
  | CapAddPath (c : BGPCapAddPath)
  | CapUnknown (c : BGPCapUnknown).

Definition BGPCapability_base (c : BGPCapability) : BGPCapabilityBase :=
  match c with
  | CapMPExt c => mp_base c
  | CapAS4Path c => as4_base c
  | CapAddPath c => addp_base c
  | CapUnknown c => capu_base c
  end.

Definition BGPCapability_TotalLen (c : BGPCapability) : Z :=
  BGPCapabilityBase_TotalLen (BGPCapability_base c).
Definition BGPCapability_GetCode (c : BGPCapability) : Z := cap_Type (BGPCapability_base c).

Definition BGPCapability_Encode (c : BGPCapability) : result bytes :=
  match c with
  | CapMPExt c => BGPCapMPExt_Encode c
  | CapAS4Path c => BGPCapAS4Path_Encode c
  | CapAddPath c => BGPCapAddPath_Encode c
  | CapUnknown c => BGPCapUnknown_Encode c
  end.

Definition no_base : BGPCapabilityBase := {| cap_Type := 0; cap_Len := 0 |}.

(** [GetCapParam]: a fresh value of the type [BGPCapTypeToStruct] gives for the first byte. *)
Definition GetCapParam (pkt : bytes) : result BGPCapability :=
  t ← sget pkt 0;
  Ok (if t =? BGPCapTypeMPExt then
        CapMPExt {| mp_base := no_base; mp_AFI := 0; mp_Reserved := 0; mp_SAFI := 0 |}
      else if t =? BGPCapTypeAS4Path then CapAS4Path {| as4_base := no_base; as4_Value := 0 |}
      else if t =? BGPCapTypeAddPath then CapAddPath {| addp_base := no_base; addp_Value := [] |}
      else CapUnknown {| capu_base := no_base; capu_Value := [] |}).

Definition BGPCapability_Decode (c : BGPCapability) (pkt : bytes) : result BGPCapability :=
  match c with
  | CapMPExt _ => c ← BGPCapMPExt_Decode pkt; Ok (CapMPExt c)
  | CapAS4Path _ => c ← BGPCapAS4Path_Decode pkt; Ok (CapAS4Path c)
  | CapAddPath c => c ← BGPCapAddPath_Decode c pkt; Ok (CapAddPath c)
  | CapUnknown c => c ← BGPCapUnknown_Decode c pkt; Ok (CapUnknown c)
  end.

(** One step of the loop of [BGPOptParamCapability.Decode]. *)
Definition decode_capability (pkt : bytes) : result BGPCapability :=
  capParam ← GetCapParam pkt; BGPCapability_Decode capParam pkt.

(** ** Optional parameters *)

Definition BGPOptParamTypeCapability : Z := 2.

Record BGPOptParamBase := { opt_Type : Z; opt_Len : Z }.

(** [uint8] arithmetic. *)
Definition BGPOptParamBase_TotalLen (msg : BGPOptParamBase) : Z := u8 (opt_Len msg + 2).

Definition BGPOptParamBase_Encode (msg : BGPOptParamBase) : result bytes :=
  Ok [opt_Type msg; opt_Len msg].

Definition BGPOptParamBase_Decode (pkt : bytes) : result BGPOptParamBase :=
  if len pkt <? 2 then bgp_err BGPOpenMsgError BGPUnspecific [] else
  type ← sget pkt 0;
  l ← sget pkt 1;
  let msg := {| opt_Type := type; opt_Len := l |} in
  if len pkt <? BGPOptParamBase_TotalLen msg
  then bgp_err BGPUpdateMsgError BGPUnspecific []
  else Ok msg.

Record BGPOptParamCapability := { optc_base : BGPOptParamBase; optc_Value : list BGPCapability }.

Fixpoint encode_capabilities (pkt : bytes) (caps : list BGPCapability) : result bytes :=
  match caps with
  | [] => Ok pkt
  | capability :: caps =>
    b ← BGPCapability_Encode capability;
    encode_capabilities (pkt ++ b) caps
  end.

Definition BGPOptParamCapability_Encode (msg : BGPOptParamCapability) : result bytes :=
  pkt ← BGPOptParamBase_Encode (optc_base msg);
  encode_capabilities pkt (optc_Value msg).

(** The loop decreases [paramsLen] by [TotalLen >= 2] at each step, so [Len] steps are enough. *)
Definition BGPOptParamCapability_Decode (pkt : bytes) : result BGPOptParamCapability :=
  base ← BGPOptParamBase_Decode pkt;
  r ← item_loop u16 decode_capability BGPCapability_TotalLen (Z.to_nat (opt_Len base))
        pkt 2 (opt_Len base) [];
  let '(vals, _, paramsLen) := r in
  if paramsLen <? 0 then bgp_err BGPOpenMsgError BGPUnspecific []
  else Ok {| optc_base := base; optc_Value := vals |}.

Definition NewBGPOptParamCapability (capabilities : list BGPCapability) : BGPOptParamCapability :=
  let paramsLen := fold_left (fun n c => u16 (n + BGPCapability_TotalLen c)) capabilities 0 in
  {| optc_base := {| opt_Type := BGPOptParamTypeCapability; opt_Len := u8 paramsLen |};
     optc_Value := capabilities |}.

Record BGPOptParamUnknown := { optu_base : BGPOptParamBase; optu_Value : bytes }.

Definition BGPOptParamUnknown_Encode (msg : BGPOptParamUnknown) : result bytes :=
  pkt ← BGPOptParamBase_Encode (optu_base msg);
  gocopy pkt 2 (optu_Value msg).

Definition BGPOptParamUnknown_Decode (pkt : bytes) : result BGPOptParamUnknown :=
  base ← BGPOptParamBase_Decode pkt;
  s ← slice_from pkt 2;
  v ← gocopy (make (opt_Len base)) 0 s;
  Ok {| optu_base := base; optu_Value := v |}.

(** The interface [BGPOptParam]. *)
Inductive BGPOptParam :=
  | OptCapability (p : BGPOptParamCapability)
  | OptUnknown (p : BGPOptParamUnknown).

Definition BGPOptParam_base (p : BGPOptParam) : BGPOptParamBase :=
  match p with OptCapability p => optc_base p | OptUnknown p => optu_base p end.
Definition BGPOptParam_TotalLen (p : BGPOptParam) : Z := BGPOptParamBase_TotalLen (BGPOptParam_base p).
Definition BGPOptParam_GetCode (p : BGPOptParam) : Z := opt_Type (BGPOptParam_base p).

Definition BGPOptParam_Encode (p : BGPOptParam) : result bytes :=
  match p with
  | OptCapability p => BGPOptParamCapability_Encode p
  | OptUnknown p => BGPOptParamUnknown_Encode p
  end.

(** ** The OPEN body *)

Record BGPOpen := {
  op_Version : Z;
  op_MyAS : Z;
  op_HoldTime : Z;
  op_BGPId : bytes;
  op_OptParamLen : Z;
  op_OptParams : list BGPOptParam;
}.

Fixpoint encode_opt_params (pkt : bytes) (paramsLen : Z) (params : list BGPOptParam)
    : result (bytes * Z) :=
  match params with
  | [] => Ok (pkt, paramsLen)
  | param :: params =>
    b ← BGPOptParam_Encode param;
    encode_opt_params (pkt ++ b) (u8 (paramsLen + BGPOptParam_TotalLen param)) params
  end.

Definition BGPOpen_Encode (msg : BGPOpen) : result bytes :=
  let pkt := make 10 in
  pkt ← sset pkt 0 (op_Version msg);
  pkt ← PutUint16 pkt 1 (u16 (op_MyAS msg));
  pkt ← PutUint16 pkt 3 (op_HoldTime msg);
  let pkt := blit pkt 5 (take 4 (default [] (To4 (op_BGPId msg)))) in
  r ← encode_opt_params pkt 0 (op_OptParams msg);
  let '(pkt, paramsLen) := r in
  sset pkt 9 paramsLen.

(** [GetOptParam]: only the capability parameter is known, any other type is an error. *)
Definition GetOptParam (pkt : bytes) : result unit :=
  t ← sget pkt 0;
  if t =? BGPOptParamTypeCapability then Ok tt
  else bgp_err BGPOpenMsgError BGPUnsupportedOptionalParam [].

(** One step of the loop of [BGPOpen.Decode]. *)
Definition decode_opt_param (pkt : bytes) : result BGPOptParam :=
  _ ← GetOptParam pkt;
  p ← BGPOptParamCapability_Decode pkt;
  Ok (OptCapability p).

(** [offset] is a [uint8]. The loop has the fuel of [OptParamLen] steps: it ends within them
    unless a parameter has [TotalLen() = 0], and then never ends. *)
Definition BGPOpen_Decode (pkt : bytes) : result BGPOpen :=
  version ← sget pkt 0;
  s ← slice pkt 1 3; myAS ← Uint16 s;
  s ← slice pkt 3 5; holdTime ← Uint16 s;
  ip ← slice pkt 5 9;
  optParamLen ← sget pkt 9;
  r ← item_loop u8 decode_opt_param BGPOptParam_TotalLen (Z.to_nat optParamLen)
        pkt 10 optParamLen [];
  let '(params, _, paramsLen) := r in
  if paramsLen <? 0 then bgp_err BGPOpenMsgError BGPUnspecific []
  else Ok {| op_Version := version; op_MyAS := myAS; op_HoldTime := holdTime;
             op_BGPId := default [] (To4 ip); op_OptParamLen := optParamLen;
             op_OptParams := params |}.

(** [NewBGPOpenMessage]; [bgpId] is the address [net.ParseIP] returned. *)
Definition NewBGPOpen (myAS holdTime : Z) (bgpId : bytes) (optParams : list BGPOptParam) : BGPOpen :=
  let optParamsLen := fold_left (fun n p => u8 (n + BGPOptParam_TotalLen p)) optParams 0 in
  {| op_Version := 4; op_MyAS := if myAS >? 65535 then BGPASTrans else myAS;
     op_HoldTime := holdTime; op_BGPId := bgpId; op_OptParamLen := optParamsLen;
     op_OptParams := optParams |}.

(** ** Capability negotiation *)

(** The body of the loop of [ConstructOptParams]. *)
Definition add_family (addPathFlags : Z) (acc : list BGPCapability * BGPCapAddPath) (protoFamily : Z)
    : list BGPCapability * BGPCapAddPath :=
  let '(capParams, capAddPaths) := acc in
  let '(afi, safi) := GetAfiSafi protoFamily in
  (capParams ++ [CapMPExt (NewBGPCapMPExt afi safi)],
   BGPCapAddPath_AddAddPathAFISAFI capAddPaths
     {| ap_AFI := afi; ap_SAFI := safi; ap_Flags := addPathFlags |}).

(** [ConstructOptParams] ranges over a Go map: [families] lists its keys in the order of the
    iteration. *)
Definition ConstructOptParams (as_ : Z) (families : list Z) (addPathsRx : bool) (addPathsMaxTx : Z)
    : list BGPOptParam :=
  let cap4ByteASPath := NewBGPCap4ByteASPath as_ in
  let addPathFlags := Z.lor (if addPathsRx then BGPCapAddPathRx else 0)
                            (if addPathsMaxTx >? 0 then BGPCapAddPathTx else 0) in
  let '(capParams, capAddPaths) :=
    fold_left (add_family addPathFlags)
      families ([CapAS4Path cap4ByteASPath], NewBGPCapAddPath) in
  let capParams := if negb (addPathFlags =? 0) then capParams ++ [CapAddPath capAddPaths] else capParams in
  [OptCapability (NewBGPOptParamCapability capParams)].

(** [GetASSize] type-asserts the parameters of the capability code. *)
Fixpoint opt_params_as_size (params : list BGPOptParam) : result Z :=
  match params with
  | [] => Ok 2
  | optParam :: params =>
    if BGPOptParam_GetCode optParam =? BGPOptParamTypeCapability then
      match optParam with
      | OptCapability capabilities =>
        if existsb (fun c => BGPCapability_GetCode c =? BGPCapTypeAS4Path) (optc_Value capabilities)
        then Ok 4 else opt_params_as_size params
      | OptUnknown _ => Panic
      end
    else opt_params_as_size params
  end.
Definition GetASSize (openMsg : BGPOpen) : result Z := opt_params_as_size (op_OptParams openMsg).

Definition capabilities_of (p : BGPOptParam) : list BGPCapability :=
  match p with OptCapability p => optc_Value p | OptUnknown _ => [] end.

Definition GetProtocolFromOpenMsg (openMsg : BGPOpen) : gset Z :=
  fold_left (fun s c => match c with
                        | CapMPExt val => {[GetProtocolFamily (mp_AFI val) (mp_SAFI val)]} ∪ s
                        | _ => s
                        end)
    (op_OptParams openMsg ≫= capabilities_of) ∅.

(** The first flags seen for a family are kept. *)
Definition add_path_entry (fam : gmap Z (gmap Z Z)) (val : AddPathAFISAFI) : gmap Z (gmap Z Z) :=
  let safis := default ∅ (fam !! ap_AFI val) in
  match safis !! ap_SAFI val with
  | Some _ => <[ap_AFI val := safis]> fam
  | None => <[ap_AFI val := <[ap_SAFI val := ap_Flags val]> safis]> fam
  end.

(** Only the first add-path capability of the message is read. *)
Fixpoint first_add_path (caps : list BGPCapability) : option BGPCapAddPath :=
  match caps with
  | [] => None
  | CapAddPath c :: _ => Some c
  | _ :: caps => first_add_path caps
  end.
Definition GetAddPathFamily (openMsg : BGPOpen) : gmap Z (gmap Z Z) :=
  match first_add_path (op_OptParams openMsg ≫= capabilities_of) with
  | Some c => fold_left add_path_entry (addp_Value c) ∅
  | None => ∅
  end.

Definition IsAddPathsTxEnabledForIPv4 (addPathFamily : gmap Z (gmap Z Z)) : bool :=
  existsb (fun '(_, safis) =>
    existsb (fun '(_, flags) => negb (Z.land flags BGPCapAddPathTx =? 0)) (map_to_list safis))
    (map_to_list addPathFamily).

(** ** Wire formats *)

Definition AddPathAFISAFI_good (a : AddPathAFISAFI) : Prop :=
  is_u16 (ap_AFI a) /\ is_u8 (ap_SAFI a) /\ is_u8 (ap_Flags a).
Definition AddPathAFISAFI_wire (a : AddPathAFISAFI) : bytes :=
  be16 (ap_AFI a) ++ [ap_SAFI a; ap_Flags a].

Definition cap_payload (c : BGPCapability) : bytes :=
  match c with
  | CapMPExt c => be16 (mp_AFI c) ++ [0; mp_SAFI c]
  | CapAS4Path c => be32 (as4_Value c)
  | CapAddPath c => concat (AddPathAFISAFI_wire <$> addp_Value c)
  | CapUnknown c => capu_Value c
  end.

Definition cap_wire (c : BGPCapability) : bytes :=
  let b := BGPCapability_base c in [cap_Type b; cap_Len b] ++ cap_payload c.

(** The capabilities whose wire format determines them. An unknown capability is one only when
    it is empty: [BGPCapUnknown.Decode] drops its value. *)
Definition cap_good (c : BGPCapability) : Prop :=
  cap_Len (BGPCapability_base c) = len (cap_payload c) /\
  match c with
  | CapMPExt c => cap_Type (mp_base c) = BGPCapTypeMPExt /\ is_u16 (mp_AFI c) /\ mp_Reserved c = 0
  | CapAS4Path c => cap_Type (as4_base c) = BGPCapTypeAS4Path /\ is_u32 (as4_Value c)
  | CapAddPath c => cap_Type (addp_base c) = BGPCapTypeAddPath /\
                    Forall AddPathAFISAFI_good (addp_Value c) /\ len (addp_Value c) <= 63
  | CapUnknown c => ~ cap_Type (capu_base c) ∈ [BGPCapTypeMPExt; BGPCapTypeAS4Path; BGPCapTypeAddPath]
                    /\ capu_Value c = []
  end.

Definition cap_codec : Codec goerr BGPCapability := {|
  wire := cap_wire; good := cap_good; enc := BGPCapability_Encode;
  dec := decode_capability; tlen := BGPCapability_TotalLen |}.

(** The two base functions on a well-formed item. *)
Lemma BGPCapabilityBase_Encode_ok t l :
  0 <= l < 65534 -> BGPCapabilityBase_Encode {| cap_Type := t; cap_Len := l |} = Ok ([t; l] ++ make l).
Proof.
  intros Hl. unfold BGPCapabilityBase_Encode, BGPCapabilityBase_TotalLen. cbn [cap_Len cap_Type].
  rewrite u16_id by (unfold is_u16; lia). rewrite Z.add_comm, make_add by lia. done.
Qed.

Lemma BGPCapabilityBase_Decode_ok t l rest :
  0 <= l <= len rest -> l < 65534 ->
  BGPCapabilityBase_Decode (t :: l :: rest) = Ok {| cap_Type := t; cap_Len := l |}.
Proof.
  intros Hl ?. unfold BGPCapabilityBase_Decode, BGPCapabilityBase_TotalLen.
  rewrite !len_cons. zif. gocbn.
  rewrite u16_id by (unfold is_u16; lia). by zif.
Qed.

Lemma addpath_payload_len vals : len (concat (AddPathAFISAFI_wire <$> vals)) = 4 * len vals.
Proof. induction vals as [|v vals IH]; [done|]. cbn [fmap list_fmap concat].
  rewrite len_app, len_cons, IH. change (len (AddPathAFISAFI_wire v)) with 4. lia.
Qed.

Lemma addpath_encode_values_ok vals : forall pre off,
  off = len pre -> off + 4 * len vals <= 255 ->
  addpath_encode_values (pre ++ make (4 * len vals)) off vals
  = Ok (pre ++ concat (AddPathAFISAFI_wire <$> vals)).
Proof.
  induction vals as [|v vals IH]; intros pre off -> Hb; cbn [addpath_encode_values].
  { done. }
  rewrite with_tail_app by done. rewrite len_cons in *. pose proof (len_nonneg vals).
  replace (4 * (1 + len vals)) with (4 + 4 * len vals) by lia. rewrite make_add by lia.
  change (AddPathAFISAFI_Encode v (make 4 ++ make (4 * len vals)))
    with (@Ok goerr _ (AddPathAFISAFI_wire v ++ make (4 * len vals))).
  rewrite !bind_Ok, app_assoc. pose proof (len_nonneg pre). rewrite u8_id, IH.
  - cbn [fmap list_fmap concat]. by rewrite app_assoc.
  - rewrite len_app. reflexivity.
  - unfold AddPathAFISAFI_Len. lia.
  - unfold AddPathAFISAFI_Len, is_u8. lia.
Qed.

Lemma AddPathAFISAFI_Decode_wire a rest :
  AddPathAFISAFI_good a -> AddPathAFISAFI_Decode (AddPathAFISAFI_wire a ++ rest) = Ok a.
Proof.
  intros (? & ? & ?). unfold AddPathAFISAFI_Decode. destruct a as [afi safi flags].
  unfold AddPathAFISAFI_wire. lens. rewrite <- app_assoc. pose proof (len_nonneg rest).
  zif. rewrite Uint16_be16 by done. reflexivity.
Qed.

Lemma addpath_decode_values_ok vals : forall fuel pre post acc off l,
  Forall AddPathAFISAFI_good vals -> off = len pre -> l = off - 2 + 4 * len vals ->
  l < 65530 -> (length vals <= fuel)%nat ->
  addpath_decode_values fuel l (pre ++ concat (AddPathAFISAFI_wire <$> vals) ++ post) off acc
  = Ok (acc ++ vals, off + 4 * len vals).
Proof.
  induction vals as [|v vals IH]; intros fuel pre post acc off l Hg -> -> Hl Hf.
  { destruct fuel; cbn; lens; zif; rewrite app_nil_r; do 2 f_equal; lia. }
  inversion_clear Hg as [|? ? Hv Hvs]. destruct fuel as [|fuel]; [cbn in Hf; lia|].
  rewrite len_cons in *. pose proof (len_nonneg vals). pose proof (len_nonneg pre).
  cbn [addpath_decode_values fmap list_fmap concat]. zif.
  rewrite slice_from_app, bind_Ok, <- app_assoc, AddPathAFISAFI_Decode_wire, bind_Ok by done.
  unfold AddPathAFISAFI_Len. rewrite (app_assoc pre), u16_id by (unfold is_u16; lia).
  rewrite IH; [| done | rewrite len_app; reflexivity | lia | lia | cbn in Hf; lia ].
  rewrite <- app_assoc. do 2 f_equal. lia.
Qed.

Lemma cap_enc_wire c : cap_good c -> BGPCapability_Encode c = Ok (cap_wire c).
Proof.
  intros [Hl Hg]. destruct c as [c|c|c|c]; destruct c as [[t l] ?]; cbn in Hl, Hg.
  - subst l. destruct Hg as (-> & ? & ->). done.
  - subst l. destruct Hg as (-> & ?). done.
  - destruct Hg as (-> & Hg & Hn). rewrite addpath_payload_len in Hl. subst l.
    cbn [BGPCapability_Encode]. unfold BGPCapAddPath_Encode. cbn [addp_base addp_Value].
    pose proof (len_nonneg addp_Value0).
    rewrite BGPCapabilityBase_Encode_ok, bind_Ok by lia.
    by rewrite addpath_encode_values_ok by (reflexivity || lia).
  - destruct Hg as (Ht & ->). subst l. done.
Qed.

Lemma GetCapParam_cons t rest :
  GetCapParam (t :: rest) =
  Ok (if t =? BGPCapTypeMPExt then
        CapMPExt {| mp_base := no_base; mp_AFI := 0; mp_Reserved := 0; mp_SAFI := 0 |}
      else if t =? BGPCapTypeAS4Path then CapAS4Path {| as4_base := no_base; as4_Value := 0 |}
      else if t =? BGPCapTypeAddPath then CapAddPath {| addp_base := no_base; addp_Value := [] |}
      else CapUnknown {| capu_base := no_base; capu_Value := [] |}).
Proof. reflexivity. Qed.

Lemma cap_dec_wire c rest : cap_good c -> decode_capability (cap_wire c ++ rest) = Ok c.
Proof.
  intros [Hl Hg]. pose proof (len_nonneg rest).
  unfold decode_capability, cap_wire. rewrite <- app_assoc. cbn [app].
  rewrite GetCapParam_cons, bind_Ok.
  destruct c as [c|c|c|c]; destruct c as [[t l] ?]; cbn [BGPCapability_base mp_base as4_base addp_base
    capu_base cap_Len cap_Type cap_payload mp_AFI mp_SAFI mp_Reserved as4_Value addp_Value capu_Value] in *.
  - destruct Hg as (-> & ? & ->). revert Hl. lens. intros ->.
    cbn [Z.eqb BGPCapTypeMPExt BGPCapability_Decode Pos.eqb]. unfold BGPCapMPExt_Decode.
    rewrite BGPCapabilityBase_Decode_ok, bind_Ok by (lens; lia).
    change (slice_from _ 2) with (@Ok goerr _ ((be16 mp_AFI0 ++ [0; mp_SAFI0]) ++ rest)).
    by rewrite bind_Ok, <- app_assoc, Uint16_be16.
  - destruct Hg as (-> & ?). revert Hl. lens. intros ->.
    cbn [Z.eqb BGPCapTypeMPExt BGPCapTypeAS4Path BGPCapability_Decode Pos.eqb].
    unfold BGPCapAS4Path_Decode.
    rewrite BGPCapabilityBase_Decode_ok, bind_Ok by (lens; lia).
    change (slice_from _ 2) with (@Ok goerr _ (be32 as4_Value0 ++ rest)).
    by rewrite bind_Ok, Uint32_be32.
  - destruct Hg as (-> & Hg & Hn). rewrite addpath_payload_len in Hl. subst l.
    cbn [Z.eqb BGPCapTypeMPExt BGPCapTypeAS4Path BGPCapTypeAddPath BGPCapability_Decode Pos.eqb].
    unfold BGPCapAddPath_Decode. pose proof (len_nonneg addp_Value0).
    rewrite BGPCapabilityBase_Decode_ok, bind_Ok by (rewrite ?len_app, ?addpath_payload_len; lia).
    cbn [cap_Len addp_Value].
    change (BGPCapTypeAddPath :: ?l :: ?p) with ([BGPCapTypeAddPath; l] ++ p).
    rewrite addpath_decode_values_ok; [ | done | done | lia | lia | unfold len in *; lia ].
    rewrite bind_Ok. rewrite (u8_id (_ + 2)) by (unfold is_u8; lia). cbn [app].
    destruct (_ >? _) eqn:?; [|done]. zhyp. lia.
  - destruct Hg as (Ht & ->). rewrite !elem_of_cons in Ht. revert Hl. lens. intros ->.
    destruct (t =? BGPCapTypeMPExt) eqn:?; [zhyp; naive_solver|].
    destruct (t =? BGPCapTypeAS4Path) eqn:?; [zhyp; naive_solver|].
    destruct (t =? BGPCapTypeAddPath) eqn:?; [zhyp; naive_solver|].
    cbn [BGPCapability_Decode]. unfold BGPCapUnknown_Decode.
    by rewrite BGPCapabilityBase_Decode_ok, bind_Ok by (lens; lia).
Qed.

Lemma cap_payload_bound c : cap_good c -> len (cap_payload c) <= 252.
Proof.
  intros [_ Hg]. destruct c; cbn [cap_payload]; lens; try lia.
  - rewrite addpath_payload_len. destruct Hg as (? & ? & ?). lia.
  - destruct Hg as [_ ->]. lens. lia.
Qed.

#[export] Instance cap_laws : CodecLaws cap_codec.
Proof.
  split; cbn [wire good enc dec tlen cap_codec].
  - apply cap_enc_wire.
  - apply cap_dec_wire.
  - intros c Hg. pose proof (cap_payload_bound c Hg). destruct Hg as [Hl _].
    unfold BGPCapability_TotalLen, BGPCapabilityBase_TotalLen, cap_wire.
    lens. pose proof (len_nonneg (cap_payload c)). rewrite Hl, u16_id; unfold is_u16; lia.
  - intros c _. unfold cap_wire. lens. pose proof (len_nonneg (cap_payload c)). lia.
Qed.

Definition opt_wire (p : BGPOptParam) : bytes :=
  match p with
  | OptCapability p => [opt_Type (optc_base p); opt_Len (optc_base p)] ++ wires cap_codec (optc_Value p)
  | OptUnknown p => [opt_Type (optu_base p); opt_Len (optu_base p)]
  end.

(** [TotalLen] is a [uint8]: a parameter of more than 253 bytes is not well formed. *)
Definition opt_good (p : BGPOptParam) : Prop :=
  match p with
  | OptCapability p =>
      opt_Type (optc_base p) = BGPOptParamTypeCapability /\ Forall cap_good (optc_Value p) /\
      opt_Len (optc_base p) = len (wires cap_codec (optc_Value p)) /\ opt_Len (optc_base p) <= 253
  | OptUnknown _ => False
  end.

Definition opt_codec : Codec goerr BGPOptParam := {|
  wire := opt_wire; good := opt_good; enc := BGPOptParam_Encode;
  dec := decode_opt_param; tlen := BGPOptParam_TotalLen |}.

Lemma encode_capabilities_ok caps : forall pkt,
  Forall cap_good caps -> encode_capabilities pkt caps = Ok (pkt ++ wires cap_codec caps).
Proof.
  induction caps as [|c caps IH]; intros pkt Hg; cbn [encode_capabilities].
  { by rewrite app_nil_r. }
  inversion_clear Hg. rewrite cap_enc_wire, bind_Ok, IH, <- app_assoc by done. done.
Qed.

Lemma BGPOptParamBase_Decode_ok t l rest :
  0 <= l <= len rest -> l <= 253 ->
  BGPOptParamBase_Decode (t :: l :: rest) = Ok {| opt_Type := t; opt_Len := l |}.
Proof.
  intros Hl ?. unfold BGPOptParamBase_Decode, BGPOptParamBase_TotalLen.
  rewrite !len_cons. zif. gocbn.
  rewrite u8_id by (unfold is_u8; lia). by zif.
Qed.

Lemma BGPOptParamCapability_Decode_wire p rest :
  opt_good (OptCapability p) ->
  BGPOptParamCapability_Decode (opt_wire (OptCapability p) ++ rest) = Ok p.
Proof.
  destruct p as [[t l] caps]. cbn [opt_good opt_wire optc_base optc_Value opt_Type opt_Len].
  intros (-> & Hg & -> & Hl). unfold BGPOptParamCapability_Decode.
  rewrite <- app_assoc. cbn [app]. pose proof (len_nonneg (wires cap_codec caps)).
  pose proof (len_nonneg rest).
  rewrite BGPOptParamBase_Decode_ok, bind_Ok by (rewrite ?len_app; lia). cbn [opt_Len].
  change (?a :: ?b :: ?c) with ([a; b] ++ c).
  pose proof (wires_length_le cap_codec caps Hg).
  rewrite (item_loop_wires u16 cap_codec); [done | done | unfold len in *; lia | done |].
  intros. apply u16_id. unfold is_u16. lia.
Qed.

#[export] Instance opt_laws : CodecLaws opt_codec.
Proof.
  split; cbn [wire good enc dec tlen opt_codec]; intros [p|p]; try done.
  - intros (Ht & Hg & Hl & _). cbn [BGPOptParam_Encode]. unfold BGPOptParamCapability_Encode.
    unfold BGPOptParamBase_Encode. by rewrite bind_Ok, encode_capabilities_ok.
  - intros rest Hg. unfold decode_opt_param, GetOptParam.
    replace (sget (opt_wire _ ++ rest) 0) with (@Ok goerr _ (opt_Type (optc_base p))) by done.
    rewrite bind_Ok, (proj1 Hg). cbn [Z.eqb BGPOptParamTypeCapability Pos.eqb].
    by rewrite bind_Ok, BGPOptParamCapability_Decode_wire by done.
  - intros (_ & _ & Hl & Hb). unfold BGPOptParam_TotalLen, BGPOptParamBase_TotalLen. cbn [BGPOptParam_base].
    pose proof (len_nonneg (wires cap_codec (optc_Value p))).
    rewrite u8_id by (unfold is_u8; lia). cbn [opt_wire]. lens. lia.
Qed.

Definition open_wire (m : BGPOpen) : bytes :=
  [op_Version m] ++ be16 (op_MyAS m) ++ be16 (op_HoldTime m) ++ op_BGPId m ++
  [op_OptParamLen m] ++ wires opt_codec (op_OptParams m).

(** The decoder's [offset] is a [uint8] and starts at 10. *)
Definition open_good (m : BGPOpen) : Prop :=
  is_u16 (op_MyAS m) /\ is_u16 (op_HoldTime m) /\ len (op_BGPId m) = 4 /\
  Forall opt_good (op_OptParams m) /\ op_OptParamLen m = len (wires opt_codec (op_OptParams m)) /\
  op_OptParamLen m <= 245.

Lemma encode_opt_params_ok ps : forall pkt n,
  Forall opt_good ps -> 0 <= n -> n + len (wires opt_codec ps) <= 255 ->
  encode_opt_params pkt n ps = Ok (pkt ++ wires opt_codec ps, n + len (wires opt_codec ps)).
Proof.
  induction ps as [|p ps IH]; intros pkt n Hg Hn Hb; cbn [encode_opt_params].
  { change (wires opt_codec []) with (@nil Z). by rewrite app_nil_r, Z.add_0_r. }
  inversion_clear Hg as [|? ? Hp Hps]. rewrite wires_cons, len_app in *.
  pose proof (len_nonneg (wires opt_codec ps)). pose proof (len_nonneg (wire opt_codec p)).
  change BGPOptParam_Encode with (enc opt_codec). change BGPOptParam_TotalLen with (tlen opt_codec).
  rewrite enc_wire, bind_Ok, tlen_wire, u8_id by (done || unfold is_u8; lia).
  rewrite IH, <- app_assoc by (done || lia). do 2 f_equal. lia.
Qed.

Lemma BGPOpen_Encode_wire m : open_good m -> BGPOpen_Encode m = Ok (open_wire m).
Proof.
  intros (Has & Hht & Hid & Hg & Hl & Hb). unfold BGPOpen_Encode.
  destruct m as [v a h ip l ps]. cbn [op_Version op_MyAS op_HoldTime op_BGPId op_OptParamLen op_OptParams] in *.
  apply len_4_inv in Hid as (i1 & i2 & i3 & i4 & ->).
  rewrite u16_id by done. gocbn.
  rewrite encode_opt_params_ok, bind_Ok by (done || lia).
  rewrite Z.add_0_l, <- Hl. reflexivity.
Qed.

Lemma BGPOpen_Decode_wire m : open_good m -> BGPOpen_Decode (open_wire m) = Ok m.
Proof.
  intros (Has & Hht & Hid & Hg & Hl & Hb).
  destruct m as [v a h ip l ps]. cbn [op_Version op_MyAS op_HoldTime op_BGPId op_OptParamLen op_OptParams] in *.
  apply len_4_inv in Hid as (i1 & i2 & i3 & i4 & ->).
  unfold BGPOpen_Decode, open_wire.
  cbn [op_Version op_MyAS op_HoldTime op_BGPId op_OptParamLen op_OptParams].
  set (w := wires opt_codec ps) in *.
  change (sget _ 0) with (@Ok goerr _ v).
  change (slice _ 1 3) with (@Ok goerr _ (be16 a ++ [])).
  change (slice _ 3 5) with (@Ok goerr _ (be16 h ++ [])).
  change (slice _ 5 9) with (@Ok goerr _ [i1; i2; i3; i4]).
  change (sget _ 9) with (@Ok goerr _ l).
  rewrite !bind_Ok, Uint16_be16, !bind_Ok, Uint16_be16, !bind_Ok by done.
  change (?x ++ _ ++ _ ++ _ ++ _ ++ w)
    with (([v] ++ be16 a ++ be16 h ++ [i1; i2; i3; i4] ++ [l]) ++ w).
  rewrite <- (app_nil_r w). subst w l.
  pose proof (wires_length_le opt_codec ps Hg). pose proof (len_nonneg (wires opt_codec ps)).
  rewrite (item_loop_wires u8 opt_codec); [ | done | unfold len in *; lia | done | ].
  - done.
  - intros. apply u8_id. unfold is_u8. lia.
Qed.

(** ** What an OPEN built by [ConstructOptParams] advertises *)

Definition family_caps (families : list Z) : list BGPCapability :=
  (fun k => CapMPExt (NewBGPCapMPExt (GetAfiSafi k).1 (GetAfiSafi k).2)) <$> families.
Definition family_add_paths (flags : Z) (families : list Z) : list AddPathAFISAFI :=
  (fun k => {| ap_AFI := (GetAfiSafi k).1; ap_SAFI := (GetAfiSafi k).2; ap_Flags := flags |}) <$> families.

Definition add_path_flags (rx : bool) (maxTx : Z) : Z :=
  Z.lor (if rx then BGPCapAddPathRx else 0) (if maxTx >? 0 then BGPCapAddPathTx else 0).

Definition advertised (as_ : Z) (families : list Z) (flags : Z) : list BGPCapability :=
  CapAS4Path (NewBGPCap4ByteASPath as_) :: family_caps families ++
  (if negb (flags =? 0) then
     [CapAddPath {| addp_base := {| cap_Type := BGPCapTypeAddPath; cap_Len := 4 * len families |};
                    addp_Value := family_add_paths flags families |}]
   else []).

Lemma add_path_flags_u8 rx maxTx : is_u8 (add_path_flags rx maxTx).
Proof. unfold add_path_flags, is_u8. destruct rx, (maxTx >? 0); split; vm_compute; congruence. Qed.

Lemma ConstructOptParams_loop flags families : forall caps vals,
  len vals + len families <= 63 ->
  fold_left (add_family flags)
    families (caps, {| addp_base := {| cap_Type := BGPCapTypeAddPath; cap_Len := 4 * len vals |};
                       addp_Value := vals |})
  = (caps ++ family_caps families,
     {| addp_base := {| cap_Type := BGPCapTypeAddPath; cap_Len := 4 * (len vals + len families) |};
        addp_Value := vals ++ family_add_paths flags families |}).
Proof.
  induction families as [|k ks IH]; intros caps vals Hb; cbn [fold_left].
  { cbn. rewrite len_nil, !app_nil_r, Z.add_0_r. done. }
  rewrite len_cons in *. pose proof (len_nonneg ks). pose proof (len_nonneg vals).
  unfold add_family at 2, family_caps, family_add_paths. cbn [fmap list_fmap].
  destruct (GetAfiSafi k) as [afi safi]. cbn [fst snd]. fold (family_caps ks) (family_add_paths flags ks).
  unfold BGPCapAddPath_AddAddPathAFISAFI, AddPathAFISAFI_Len.
  cbn [addp_base addp_Value cap_Type cap_Len].
  rewrite u8_id by (unfold is_u8; lia).
  replace (4 * len vals + 4) with
    (4 * len (vals ++ [{| ap_AFI := afi; ap_SAFI := safi; ap_Flags := flags |}]))
    by (lens; lia).
  rewrite IH by (lens; lia). rewrite <- !app_assoc. lens. cbn [app].
  do 4 f_equal. lia.
Qed.

Lemma advertised_good as_ families flags :
  is_u32 as_ -> is_u8 flags -> len families <= 63 -> Forall cap_good (advertised as_ families flags).
Proof.
  intros Ha Hf Hn. unfold advertised. constructor; [by split; [done|split; done]|]. apply Forall_app. split.
  - apply Forall_fmap, Forall_true. intros k. split; [done|]. split; [done|]. split; [apply u16_range | done].
  - destruct (negb _); [|done]. constructor; [|done]. unfold family_add_paths. split; cbn [BGPCapability_base
      addp_base cap_Len cap_payload addp_Value cap_Type].
    + rewrite addpath_payload_len. unfold len. by rewrite length_fmap.
    + split; [done|]. split; [|unfold len; rewrite length_fmap; exact Hn].
      apply Forall_fmap, Forall_true. intros k. split; [apply u16_range|]. split; [apply u8_range | done].
Qed.

Lemma advertised_len as_ families flags :
  len (wires cap_codec (advertised as_ families flags))
  = 6 + 6 * len families + (if negb (flags =? 0) then 2 + 4 * len families else 0).
Proof.
  unfold advertised. rewrite wires_cons, len_app, wires_app, len_app.
  assert (Hf : len (wires cap_codec (family_caps families)) = 6 * len families).
  { induction families as [|k ks IH]; [done|].
    change (family_caps (k :: ks)) with
      (CapMPExt (NewBGPCapMPExt (GetAfiSafi k).1 (GetAfiSafi k).2) :: family_caps ks).
    rewrite wires_cons, len_app, IH, len_cons. change (len (wire _ _)) with 6. lia. }
  rewrite Hf. change (len (wire _ _)) with 6.
  destruct (negb _); [|lens; lia]. unfold wires. cbn [fmap list_fmap concat]. rewrite app_nil_r.
  cbn [wire cap_codec]. unfold cap_wire. lens. cbn [cap_payload addp_Value].
  rewrite addpath_payload_len. unfold family_add_paths, len. rewrite length_fmap. lia.
Qed.

Lemma ConstructOptParams_advertised as_ families rx maxTx :
  is_u32 as_ -> len families <= 23 ->
  exists l, ConstructOptParams as_ families rx maxTx =
    [OptCapability {| optc_base := {| opt_Type := BGPOptParamTypeCapability; opt_Len := l |};
                      optc_Value := advertised as_ families (add_path_flags rx maxTx) |}]
  /\ l = len (wires cap_codec (advertised as_ families (add_path_flags rx maxTx))) /\ l <= 238.
Proof.
  intros Ha Hn. unfold ConstructOptParams. fold (add_path_flags rx maxTx).
  set (flags := add_path_flags rx maxTx).
  pose proof (ConstructOptParams_loop flags families [CapAS4Path (NewBGPCap4ByteASPath as_)] []) as Hloop.
  rewrite len_nil, Z.add_0_l in Hloop. change (4 * 0) with 0 in Hloop. cbn [app] in Hloop.
  unfold NewBGPCapAddPath. rewrite Hloop by lia. clear Hloop.
  match goal with |- context [NewBGPOptParamCapability ?l] =>
    replace l with (advertised as_ families flags)
      by (unfold advertised; destruct (negb _); cbn [app]; [done | by rewrite app_nil_r]) end.
  pose proof (advertised_good as_ families flags Ha (add_path_flags_u8 _ _) ltac:(lia)) as Hg.
  pose proof (advertised_len as_ families flags) as Hlen. pose proof (len_nonneg families).
  assert (len (wires cap_codec (advertised as_ families flags)) <= 238) by (destruct (negb _); lia).
  eexists. split; [|split; [reflexivity|done]].
  unfold NewBGPOptParamCapability. do 3 f_equal. f_equal. change BGPCapability_TotalLen with (tlen cap_codec).
  rewrite (tlen_sum cap_codec u16), Z.add_0_l; [|done|done|].
  - apply u8_id. unfold is_u8. destruct (negb _); lia.
  - intros. apply u16_id. unfold is_u16. lia.
Qed.

Lemma protocols_of_families (families : list Z) : forall s : gset Z,
  Forall (fun k => 0 <= k < 65536) families ->
  fold_left (fun s c => match c with
                        | CapMPExt val => {[GetProtocolFamily (mp_AFI val) (mp_SAFI val)]} ∪ s
                        | _ => s
                        end) (family_caps families) s = list_to_set families ∪ s.
Proof.
  induction families as [|k ks IH]; intros s Hk; cbn [fold_left family_caps fmap list_fmap].
  { by rewrite list_to_set_nil, (left_id_L ∅ (∪)). }
  inversion_clear Hk. fold (family_caps ks). rewrite IH by done.
  cbn [mp_AFI mp_SAFI NewBGPCapMPExt]. rewrite GetProtocolFamily_GetAfiSafi by done.
  by rewrite list_to_set_cons, (assoc_L (∪)), (comm_L (∪) {[k]}).
Qed.

Lemma first_add_path_families as_ families flags :
  first_add_path (advertised as_ families flags) =
  if negb (flags =? 0) then
    Some {| addp_base := {| cap_Type := BGPCapTypeAddPath; cap_Len := 4 * len families |};
            addp_Value := family_add_paths flags families |}
  else None.
Proof.
  unfold advertised. cbn [first_add_path].
  assert (forall t, first_add_path (family_caps families ++ t) = first_add_path t) as ->.
  { intros t. induction families as [|k ks IH]; done. }
  by destruct (negb _).
Qed.

Definition add_path_lookup (fam : gmap Z (gmap Z Z)) (k : Z) : option Z :=
  fam !! (GetAfiSafi k).1 ≫= fun safis => safis !! (GetAfiSafi k).2.

Lemma add_path_lookup_entry fam flags k k' :
  add_path_lookup (add_path_entry fam {| ap_AFI := (GetAfiSafi k).1; ap_SAFI := (GetAfiSafi k).2;
                                         ap_Flags := flags |}) k'
  = if decide (GetAfiSafi k = GetAfiSafi k') then Some (default flags (add_path_lookup fam k'))
    else add_path_lookup fam k'.
Proof.
  unfold add_path_lookup, add_path_entry. cbn [ap_AFI ap_SAFI ap_Flags].
  destruct (GetAfiSafi k) as [a s], (GetAfiSafi k') as [a' s']. cbn [fst snd].
  destruct (decide ((a, s) = (a', s'))) as [[= -> ->]|Hne].
  - destruct (fam !! a') as [m|] eqn:Hm; cbn [default option_bind mbind id].
    + destruct (m !! s') as [f|] eqn:Hs; rewrite lookup_insert_eq; cbn; [by rewrite Hs|].
      by rewrite lookup_insert_eq.
    + rewrite lookup_empty, lookup_insert_eq. cbn. by rewrite lookup_insert_eq.
  - destruct (decide (a = a')) as [<-|Ha].
    + assert (s <> s') by congruence.
      destruct (fam !! a) as [m|] eqn:Hm; cbn [default option_bind mbind id].
      * destruct (m !! s) as [f|] eqn:Hs; rewrite lookup_insert_eq; cbn; [done|].
        by rewrite lookup_insert_ne.
      * rewrite lookup_empty, lookup_insert_eq. cbn. by rewrite lookup_insert_ne, lookup_empty.
    + destruct (default ∅ (fam !! a) !! s); by rewrite lookup_insert_ne.
Qed.

Lemma add_path_lookup_families flags families : forall fam k,
  (forall k', add_path_lookup fam k' = None \/ add_path_lookup fam k' = Some flags) ->
  k ∈ families \/ add_path_lookup fam k = Some flags ->
  add_path_lookup (fold_left add_path_entry (family_add_paths flags families) fam) k = Some flags.
Proof.
  induction families as [|x ks IH]; intros fam k Hfam Hk; cbn [fold_left family_add_paths fmap list_fmap].
  { destruct Hk as [[]%not_elem_of_nil|?]; done. }
  apply IH.
  - intros k'. rewrite add_path_lookup_entry. case_decide; [|done].
    destruct (Hfam k') as [->| ->]; auto.
  - destruct Hk as [[->|?]%elem_of_cons|Hk]; [|by left|].
    + right. rewrite add_path_lookup_entry, decide_True by done.
      destruct (Hfam x) as [->| ->]; done.
    + right. rewrite add_path_lookup_entry. case_decide; [by rewrite Hk | done].
Qed.

Lemma BGPOpen_Encode_To4 m ip4 :
  To4 (op_BGPId m) = Some ip4 ->
  BGPOpen_Encode m = BGPOpen_Encode {| op_Version := op_Version m; op_MyAS := op_MyAS m;
    op_HoldTime := op_HoldTime m; op_BGPId := ip4; op_OptParamLen := op_OptParamLen m;
    op_OptParams := op_OptParams m |}.
Proof.
  intros H. unfold BGPOpen_Encode. cbn [op_Version op_MyAS op_HoldTime op_BGPId op_OptParams].
  by rewrite H, (To4_4 ip4) by (by eapply To4_len).
Qed.

Lemma GetASSize_advertised m as_ families flags b :
  opt_Type b = BGPOptParamTypeCapability ->
  op_OptParams m = [OptCapability {| optc_base := b; optc_Value := advertised as_ families flags |}] ->
  GetASSize m = Ok 4.
Proof.
  intros Hb Hm. unfold GetASSize. rewrite Hm. cbn [opt_params_as_size].
  unfold BGPOptParam_GetCode. cbn [BGPOptParam_base optc_base]. by rewrite Hb.
Qed.

(** A single capability parameter makes a well-formed OPEN. *)
Lemma NewBGPOpen_good as_ hold id4 caps l :
  is_u32 as_ -> is_u16 hold -> len id4 = 4 -> Forall cap_good caps ->
  l = len (wires cap_codec caps) -> l <= 238 ->
  open_good (NewBGPOpen as_ hold id4
    [OptCapability {| optc_base := {| opt_Type := BGPOptParamTypeCapability; opt_Len := l |};
                      optc_Value := caps |}]).
Proof.
  intros Ha Hh Hid Hg -> Hl. pose proof (len_nonneg (wires cap_codec caps)).
  set (p := OptCapability _).
  assert (Hp : opt_good p) by (split; [done|]; split; [done|]; split; [done | cbn; lia]).
  assert (Hw : len (wires opt_codec [p]) = 2 + len (wires cap_codec caps)).
  { unfold wires at 1. cbn [fmap list_fmap concat]. rewrite app_nil_r. cbn [wire opt_codec opt_wire p].
    lens. cbn [optc_Value]. lia. }
  assert (Hs : fold_left (fun n p => u8 (n + BGPOptParam_TotalLen p)) [p] 0 = len (wires opt_codec [p])).
  { change BGPOptParam_TotalLen with (tlen opt_codec). rewrite (tlen_sum opt_codec u8); [done| |done|].
    - by constructor.
    - intros. apply u8_id. unfold is_u8. lia. }
  unfold open_good, NewBGPOpen. cbn [op_MyAS op_HoldTime op_BGPId op_OptParams op_OptParamLen].
  rewrite Hs, Hw. split; [|split; [done|split; [done|split; [by constructor|split; [done|lia]]]]].
  destruct (_ >? _) eqn:?; zhyp; unfold is_u16, is_u32, BGPASTrans in *; lia.
Qed.

(** ** Termination *)

Lemma addpath_decode_values_no_hang l pkt : forall fuel offset acc,
  0 <= offset -> l <= 255 -> l <= offset + 4 * Z.of_nat fuel ->
  addpath_decode_values fuel l pkt offset acc <> Hang.
Proof.
  induction fuel as [|fuel IH]; intros offset acc Ho Hl Hf H; cbn [addpath_decode_values] in H.
  { destruct (offset <? l) eqn:?; [zhyp; lia | discriminate]. }
  destruct (offset <? l) eqn:?; [zhyp|discriminate]. hang_inv.
  - unfold AddPathAFISAFI_Decode in H. hang_inv.
  - unfold AddPathAFISAFI_Len in H. rewrite u16_id in H by (unfold is_u16; lia).
    revert H. apply IH; lia.
Qed.

Lemma BGPCapabilityBase_Decode_len pkt b :
  bytes_ok pkt -> BGPCapabilityBase_Decode pkt = Ok b -> is_u8 (cap_Len b).
Proof.
  intros Hb. unfold BGPCapabilityBase_Decode. destruct (_ <? _); [discriminate|].
  intros (t & _ & (l & Hl & H)%bind_Ok_inv)%bind_Ok_inv. case_match; [discriminate|].
  injection H as <-. by eapply sget_range.
Qed.

Lemma BGPCapabilityBase_Decode_no_hang pkt : BGPCapabilityBase_Decode pkt <> Hang.
Proof. intros H. unfold BGPCapabilityBase_Decode in H. hang_inv. Qed.

Lemma BGPOptParamBase_Decode_no_hang pkt : BGPOptParamBase_Decode pkt <> Hang.
Proof. intros H. unfold BGPOptParamBase_Decode in H. hang_inv. Qed.

Lemma decode_capability_no_hang pkt : bytes_ok pkt -> decode_capability pkt <> Hang.
Proof.
  intros Hb H. unfold decode_capability in H. hang_inv.
  { unfold GetCapParam in H. hang_inv. }
  destruct x; cbn [BGPCapability_Decode] in H; hang_inv;
    [unfold BGPCapMPExt_Decode in H | unfold BGPCapAS4Path_Decode in H
    | unfold BGPCapAddPath_Decode in H | unfold BGPCapUnknown_Decode in H]; hang_inv;
    try by apply BGPCapabilityBase_Decode_no_hang in H.
  match goal with H : BGPCapabilityBase_Decode _ = Ok _ |- _ => apply BGPCapabilityBase_Decode_len in H as [??] end;
    [|done].
  revert H. apply addpath_decode_values_no_hang; lia.
Qed.

Lemma BGPCapability_TotalLen_pos pkt c :
  bytes_ok pkt -> decode_capability pkt = Ok c -> 1 <= BGPCapability_TotalLen c.
Proof.
  intros Hb H. unfold decode_capability in H. apply bind_Ok_inv in H as (p & _ & H).
  assert (exists b, BGPCapabilityBase_Decode pkt = Ok b /\ BGPCapability_base c = b) as (b & Hd & Hc).
  { destruct p; cbn [BGPCapability_Decode] in H; apply bind_Ok_inv in H as (c' & H & [= <-]);
      [unfold BGPCapMPExt_Decode in H | unfold BGPCapAS4Path_Decode in H
      | unfold BGPCapAddPath_Decode in H | unfold BGPCapUnknown_Decode in H];
      apply bind_Ok_inv in H as (b & Hb' & H); exists b; (split; [done|]).
    - apply bind_Ok_inv in H as (? & _ & (? & _ & (? & _ & [= <-])%bind_Ok_inv)%bind_Ok_inv). done.
    - apply bind_Ok_inv in H as (? & _ & (? & _ & [= <-])%bind_Ok_inv). done.
    - apply bind_Ok_inv in H as ([vals off] & _ & H). case_match; [discriminate|]. by injection H as <-.
    - apply bind_Ok_inv in H as (? & _ & (? & _ & [= <-])%bind_Ok_inv). done. }
  apply BGPCapabilityBase_Decode_len in Hd as [??]; [|done].
  unfold BGPCapability_TotalLen, BGPCapabilityBase_TotalLen. rewrite Hc, u16_id; unfold is_u16; lia.
Qed.

Lemma BGPOptParamCapability_Decode_no_hang pkt : bytes_ok pkt -> BGPOptParamCapability_Decode pkt <> Hang.
Proof.
  intros Hb H. unfold BGPOptParamCapability_Decode in H. hang_inv.
  { by apply BGPOptParamBase_Decode_no_hang in H. }
  revert H. apply item_loop_no_hang; [| |done].
  - intros i c. apply BGPCapability_TotalLen_pos. by apply bytes_ok_drop.
  - intros i. apply decode_capability_no_hang. by apply bytes_ok_drop.
Qed.

Lemma decode_opt_param_no_hang pkt : bytes_ok pkt -> decode_opt_param pkt <> Hang.
Proof.
  intros Hb H. unfold decode_opt_param, GetOptParam in H. hang_inv.
  by apply BGPOptParamCapability_Decode_no_hang in H.
Qed.

Lemma decode_opt_param_len pkt p :
  bytes_ok pkt -> decode_opt_param pkt = Ok p -> is_u8 (opt_Len (BGPOptParam_base p)).
Proof.
  intros Hb H. unfold decode_opt_param in H. apply bind_Ok_inv in H as (? & _ & H).
  apply bind_Ok_inv in H as (c & H & [= <-]). unfold BGPOptParamCapability_Decode in H.
  apply bind_Ok_inv in H as (b & Hd & ([[vals off] n] & _ & H)%bind_Ok_inv).
  case_match; [discriminate|]. injection H as <-. cbn [BGPOptParam_base optc_base].
  unfold BGPOptParamBase_Decode in Hd. case_match; [discriminate|].
  apply bind_Ok_inv in Hd as (t & _ & (l & Hl & Hd)%bind_Ok_inv). case_match; [discriminate|].
  injection Hd as <-. by eapply sget_range.
Qed.

(** ** Properties *)

(** C39: an OPEN message that is well formed ([open_good]) encodes to its RFC 4271 wire format, and decoding that
    format gives back the message. It has a 4-byte identifier and at most 245 bytes of optional parameters, each a
    capability parameter of at most 253 bytes, whose capabilities are multiprotocol (reserved byte 0), 4-byte AS,
    ADD-PATH (at most 63 entries), or of a code that is not known and without a value: the decoder drops the value of
    an unknown capability, so one with a value does not survive. *)
Theorem open_roundtrip (m : BGPOpen) :
  open_good m -> BGPOpen_Encode m = Ok (open_wire m) /\ BGPOpen_Decode (open_wire m) = Ok m.
Proof. split; [by apply BGPOpen_Encode_wire | by apply BGPOpen_Decode_wire]. Qed.

Definition open_example : BGPOpen :=
  NewBGPOpen 65001 90 [10; 0; 0; 1] (ConstructOptParams 65001 [257; 513] true 2).

Lemma open_roundtrip_witness :
  open_good open_example /\ BGPOpen_Decode (open_wire open_example) = Ok open_example.
Proof.
  assert (H : open_good open_example).
  { split; [split; vm_compute; congruence|]. split; [split; vm_compute; congruence|].
    split; [reflexivity|]. split; [|split; [reflexivity | vm_compute; congruence]].
    change (op_OptParams open_example) with
      [OptCapability {| optc_base := {| opt_Type := 2; opt_Len := 28 |};
                        optc_Value := advertised 65001 [257; 513] 3 |}].
    constructor; [|constructor]. split; [reflexivity|].
    split; [apply advertised_good; [split; vm_compute; congruence | split; lia | vm_compute; congruence]|].
    split; [reflexivity | cbn; lia]. }
  split; [exact H | exact (proj2 (open_roundtrip open_example H))].
Defined.

(** What the peer reads in the OPEN this speaker sends: for any iteration order [families] of
    the configured families (at most 23), the message built by [ConstructOptParams] and
    [NewBGPOpenMessage] decodes to an OPEN that announces 4-byte AS numbers, exactly the
    configured families, and the configured add-path flags for each of them (no add-path
    capability when no flag is set). *)
Theorem open_negotiation (as_ hold : Z) (id id4 : bytes) (families : list Z) (rx : bool) (maxTx : Z) :
  is_u32 as_ -> is_u16 hold -> To4 id = Some id4 -> len families <= 23 ->
  Forall (fun k => 0 <= k < 65536) families ->
  exists w m', BGPOpen_Encode (NewBGPOpen as_ hold id (ConstructOptParams as_ families rx maxTx)) = Ok w
    /\ BGPOpen_Decode w = Ok m'
    /\ op_MyAS m' = (if as_ >? 65535 then BGPASTrans else as_)
    /\ op_HoldTime m' = hold /\ op_BGPId m' = id4
    /\ GetASSize m' = Ok 4
    /\ GetProtocolFromOpenMsg m' = list_to_set families
    /\ (add_path_flags rx maxTx = 0 -> GetAddPathFamily m' = ∅)
    /\ (add_path_flags rx maxTx <> 0 ->
        forall k, k ∈ families -> add_path_lookup (GetAddPathFamily m') k = Some (add_path_flags rx maxTx)).
Proof.
  intros Ha Hh Hid Hn Hk. unfold NewBGPOpen.
  destruct (ConstructOptParams_advertised as_ families rx maxTx Ha Hn) as (l & -> & -> & Hl).
  set (flags := add_path_flags rx maxTx) in *. set (l := len (wires _ _)) in *.
  erewrite BGPOpen_Encode_To4 by exact Hid. cbn [op_Version op_MyAS op_HoldTime op_OptParamLen op_OptParams].
  match goal with |- context [BGPOpen_Encode ?m] => set (m' := m) end.
  assert (Hg : open_good m').
  { apply NewBGPOpen_good; [done | done | by eapply To4_len | | done | done].
    apply advertised_good; [done | apply add_path_flags_u8 | lia]. }
  exists (open_wire m'), m'. split; [by apply BGPOpen_Encode_wire|]. split; [by apply BGPOpen_Decode_wire|].
  split; [done|]. split; [done|]. split; [done|]. 
  split; [by apply (GetASSize_advertised _ as_ families flags {| opt_Type := BGPOptParamTypeCapability; opt_Len := l |})|].
  assert (Hcaps : op_OptParams m' ≫= capabilities_of = advertised as_ families flags)
    by (cbn; by rewrite app_nil_r).
  split; [|split].
  - unfold GetProtocolFromOpenMsg. rewrite Hcaps. unfold advertised. cbn [fold_left].
    rewrite fold_left_app, protocols_of_families by done.
    destruct (negb _); cbn [fold_left]; by rewrite (right_id_L ∅ (∪)).
  - intros Hf. unfold GetAddPathFamily. by rewrite Hcaps, first_add_path_families, Hf.
  - intros Hf k Hin. unfold GetAddPathFamily. rewrite Hcaps, first_add_path_families.
    rewrite (proj2 (Z.eqb_neq _ _) Hf). cbn [negb addp_Value].
    apply add_path_lookup_families; [|by left].
    intros k'. left. unfold add_path_lookup. by rewrite lookup_empty.
Qed.

Lemma open_negotiation_witness :
  exists w m', BGPOpen_Encode (NewBGPOpen 4200000000 90 [10; 0; 0; 1] (ConstructOptParams 4200000000 [257; 513] true 2))
                = Ok w /\ BGPOpen_Decode w = Ok m' /\ op_MyAS m' = 23456 /\ GetASSize m' = Ok 4 /\
    GetProtocolFromOpenMsg m' = list_to_set [257; 513].
Proof.
  destruct (open_negotiation 4200000000 90 [10; 0; 0; 1] [10; 0; 0; 1] [257; 513] true 2)
    as (w & m' & H1 & H2 & H3 & _ & _ & H6 & H7 & _).
  - split; [lia | reflexivity].
  - split; [lia | reflexivity].
  - reflexivity.
  - vm_compute. congruence.
  - constructor; [|constructor; [|constructor]]; lia.
  - exists w, m'. split; [exact H1 | split; [exact H2 | split; [exact H3 | split; [exact H6 | exact H7]]]].
Defined.

(** [BGPOpen.Decode] ends on every packet in which no optional parameter announces 254 bytes:
    [TotalLen] is computed in a [uint8], and 254 is the only length for which it is 0. *)
Theorem open_decode_terminates (pkt : bytes) :
  bytes_ok pkt ->
  (forall i p, decode_opt_param (drop i pkt) = Ok p -> opt_Len (BGPOptParam_base p) <> 254) ->
  BGPOpen_Decode pkt <> Hang.
Proof.
  intros Hb H254 H. unfold BGPOpen_Decode in H. hang_inv.
  revert H. apply item_loop_no_hang; [| |done].
  - intros i p Hp. specialize (H254 i p Hp). pose proof (decode_opt_param_len _ _ (bytes_ok_drop i _ Hb) Hp).
    unfold BGPOptParam_TotalLen, BGPOptParamBase_TotalLen, u8, is_u8 in *. Z.div_mod_to_equations. lia.
  - intros i. apply decode_opt_param_no_hang. by apply bytes_ok_drop.
Qed.

Definition open_bytes : bytes := [4; 253; 232; 0; 90; 10; 0; 0; 1; 8; 2; 6; 65; 4; 0; 0; 253; 232].

Lemma open_decode_terminates_witness : bytes_ok open_bytes /\ BGPOpen_Decode open_bytes <> Hang.
Proof.
  assert (H : bytes_ok open_bytes) by (repeat constructor; lia).
  split; [exact H | apply (open_decode_terminates open_bytes H)].
  intros i p. destruct (decide (i < 18)%nat) as [Hi|Hi].
  - do 18 (destruct i as [|i]; [vm_compute; intros Hp; try discriminate Hp; injection Hp as <-; discriminate|]).
    lia.
  - unfold open_bytes. rewrite drop_ge by (cbn; lia). discriminate.
Defined.

(** An OPEN with a capability parameter of 254 bytes: one unknown capability of 252 bytes. *)
Definition open_hang_bytes : bytes :=
  [4; 253; 232; 0; 90; 10; 0; 0; 1; 255; 2; 254; 200; 252] ++ replicate 252 0.

(** On an OPEN whose first optional parameter announces 254 bytes, [BGPOpen.Decode] never
    returns: no number of iterations of its loop is enough. *)
Theorem open_decode_diverges (fuel : nat) (acc : list BGPOptParam) :
  item_loop u8 decode_opt_param BGPOptParam_TotalLen fuel open_hang_bytes 10 255 acc = Hang.
Proof.
  revert acc. induction fuel as [|fuel IH]; intros acc; [done|].
  cbn [item_loop]. zif. rewrite slice_from_ok, bind_Ok by (vm_compute; split; discriminate).
  destruct (decode_opt_param (drop (Z.to_nat 10) open_hang_bytes)) as [p| | |] eqn:Hp;
    [|exfalso; revert Hp; vm_compute; discriminate..].
  rewrite bind_Ok. assert (BGPOptParam_TotalLen p = 0) as ->.
  { revert Hp. vm_compute. by intros [= <-]. }
  apply IH.
Qed.

(** A truncated capability is not checked before it is read: an OPEN that ends in an empty
    multiprotocol capability makes the decoder panic. *)
Theorem open_decode_panics :
  BGPOpen_Decode [4; 253; 232; 0; 90; 10; 0; 0; 1; 4; 2; 2; 1; 0] = Panic.
Proof. reflexivity. Qed.
