(* ===== verification/BgpNlri.v ===== *)
(** Prefixes (NLRI) of [src/bgp/packet/bgp.go]: [IPPrefix], [ExtNLRI] (a prefix with a path
    identifier, RFC 7911) and the loop [decodeNLRI] over a list of them. A [net.IP] is the list of
    its bytes, with its capacity equal to its length. *)
From stdpp Require Import base numbers list gmap.
From Stdlib Require Import ZArith Lia.
From S2P Require Import Prelude GoNet BgpBase.
Open Scope Z_scope.

Record IPPrefix := { ip_Length : Z; ip_Prefix : bytes }.

(** [(ip.Length + 7) / 8] in [uint8] arithmetic. *)
Definition prefix_bytes (length : Z) : Z := u8 (length + 7) / 8.

Definition IPPrefix_Len (ip : IPPrefix) : Z := u8 (prefix_bytes (ip_Length ip) + 1).

Definition IPPrefix_Encode (ip : IPPrefix) (afi : Z) : result bytes :=
  let pkt := make (IPPrefix_Len ip) in
  pkt ← sset pkt 0 (ip_Length ip);
  let ipLen := if afi =? AfiIP6 then IPv6len else IPv4len in
  let ipBytesStart := u8 (len (ip_Prefix ip) - ipLen) in
  s ← slice (ip_Prefix ip) ipBytesStart (u8 (ipBytesStart + prefix_bytes (ip_Length ip)));
  gocopy pkt 1 s.

(** [x &= ^byte(0xff >> k)] *)
Definition clear_low (x k : Z) : Z := Z.ldiff x (Z.shiftr 255 k).

Definition IPPrefix_Decode (pkt : bytes) (afi : Z) : result IPPrefix :=
  if len pkt <? 1 then bgp_err BGPUpdateMsgError BGPInvalidNetworkField [] else
  length ← sget pkt 0;
  if match AFINextHopLenMap afi with Some n => length >? u8 (u8 n * 8) | None => false end
  then bgp_err BGPUpdateMsgError BGPInvalidNetworkField [] else
  let nbytes := prefix_bytes length in
  if len pkt <? nbytes + 1 then bgp_err BGPUpdateMsgError BGPInvalidNetworkField [] else
  let ipLen := if (afi =? AfiIP6) || (nbytes >? IPv4len) then IPv6len else IPv4len in
  s ← slice pkt 1 (u8 (nbytes + 1));
  let prefix := blit (make ipLen) 0 s in
  prefix ← (if (nbytes >? 0) && (length mod 8 >? 0) then
              b ← sget prefix (nbytes - 1);
              sset prefix (nbytes - 1) (clear_low b (length mod 8))
            else Ok prefix);
  Ok {| ip_Length := length; ip_Prefix := prefix |}.

Record ExtNLRI := { ext_IPPrefix : IPPrefix; ext_PathId : Z }.

Definition ExtNLRI_Len (n : ExtNLRI) : Z := u32 (IPPrefix_Len (ext_IPPrefix n) + 4).

Definition ExtNLRI_Encode (n : ExtNLRI) (afi : Z) : result bytes :=
  pkt ← PutUint32 (make 4) 0 (ext_PathId n);
  ipBytes ← IPPrefix_Encode (ext_IPPrefix n) afi;
  Ok (pkt ++ ipBytes).

Definition ExtNLRI_Decode (pkt : bytes) (afi : Z) : result ExtNLRI :=
  if len pkt <? 5 then bgp_err BGPUpdateMsgError BGPInvalidNetworkField [] else
  s ← slice pkt 0 4; pathId ← Uint32 s;
  s ← slice_from pkt 4;
  ip ← IPPrefix_Decode s afi;
  Ok {| ext_IPPrefix := ip; ext_PathId := pathId |}.

(** The interface [NLRI]. *)
Inductive NLRI :=
  | NIPPrefix (ip : IPPrefix)
  | NExtNLRI (n : ExtNLRI).

Definition NLRI_Len (n : NLRI) : Z :=
  match n with NIPPrefix ip => IPPrefix_Len ip | NExtNLRI n => ExtNLRI_Len n end.
Definition NLRI_Encode (n : NLRI) (afi : Z) : result bytes :=
  match n with NIPPrefix ip => IPPrefix_Encode ip afi | NExtNLRI n => ExtNLRI_Encode n afi end.
Definition GetIPPrefix (n : NLRI) : IPPrefix :=
  match n with NIPPrefix ip => ip | NExtNLRI n => ext_IPPrefix n end.
Definition GetPathId (n : NLRI) : Z :=
  match n with NIPPrefix _ => 0 | NExtNLRI n => ext_PathId n end.

(** [ip.Decode] on the fresh value [decodeNLRI] allocates. *)
Definition NLRI_Decode (addPathsRx : bool) (pkt : bytes) (afi : Z) : result NLRI :=
  if addPathsRx then n ← ExtNLRI_Decode pkt afi; Ok (NExtNLRI n)
  else ip ← IPPrefix_Decode pkt afi; Ok (NIPPrefix ip).

(** The loop of [decodeNLRI]: [ptr] grows by at least 1, so [length] steps are enough. *)
Fixpoint decodeNLRI_loop (fuel : nat) (addPathsRx : bool) (pkt : bytes) (ptr length afi : Z)
    (acc : list NLRI) : result (list NLRI * Z) :=
  if ptr <? length then
    match fuel with
    | O => Hang
    | S fuel =>
      s ← slice_from pkt ptr;
      ip ← NLRI_Decode addPathsRx s afi;
      decodeNLRI_loop fuel addPathsRx pkt (u32 (ptr + NLRI_Len ip)) length afi (acc ++ [ip])
    end
  else Ok (acc, ptr).

Definition decodeNLRI (pkt : bytes) (ipPrefix : list NLRI) (length afi : Z) (data : BGPPeerAttrs)
    : result (list NLRI * Z) :=
  if length >? len pkt then bgp_err BGPUpdateMsgError BGPMalformedAttrList [] else
  r ← decodeNLRI_loop (Z.to_nat length) (AddPathsRxActual data) pkt 0 length afi ipPrefix;
  let '(acc, ptr) := r in
  if negb (ptr =? length) then bgp_err BGPUpdateMsgError BGPAttrLenError pkt
  else Ok (acc, ptr).

(** ** Wire format *)

Definition afi_len (afi : Z) : Z := if afi =? AfiIP6 then IPv6len else IPv4len.

(** The host bits of the last byte that goes on the wire are 0, and so are the bytes after it. *)
Definition masked (ip : IPPrefix) : Prop :=
  let n := prefix_bytes (ip_Length ip) in
  drop (Z.to_nat n) (ip_Prefix ip) = make (len (ip_Prefix ip) - n) /\
  (ip_Length ip mod 8 <> 0 ->
   forall b, ip_Prefix ip !! Z.to_nat (n - 1) = Some b -> clear_low b (ip_Length ip mod 8) = b).

Definition IPPrefix_good (afi : Z) (ip : IPPrefix) : Prop :=
  len (ip_Prefix ip) = afi_len afi /\ bytes_ok (ip_Prefix ip) /\
  0 <= ip_Length ip <= 8 * afi_len afi /\ masked ip.

Definition IPPrefix_wire (ip : IPPrefix) : bytes :=
  ip_Length ip :: take (Z.to_nat (prefix_bytes (ip_Length ip))) (ip_Prefix ip).

Definition NLRI_good (addPathsRx : bool) (afi : Z) (n : NLRI) : Prop :=
  match n with
  | NIPPrefix ip => addPathsRx = false /\ IPPrefix_good afi ip
  | NExtNLRI n => addPathsRx = true /\ is_u32 (ext_PathId n) /\ IPPrefix_good afi (ext_IPPrefix n)
  end.

Definition NLRI_wire (n : NLRI) : bytes :=
  match n with
  | NIPPrefix ip => IPPrefix_wire ip
  | NExtNLRI n => be32 (ext_PathId n) ++ IPPrefix_wire (ext_IPPrefix n)
  end.

(** The NLRI codec of a session, for an address family the package knows. *)
Definition nlri_codec (addPathsRx : bool) (afi : Z) : Codec goerr NLRI := {|
  wire := NLRI_wire; good := NLRI_good addPathsRx afi; enc := fun n => NLRI_Encode n afi;
  dec := fun pkt => NLRI_Decode addPathsRx pkt afi; tlen := NLRI_Len |}.

Definition known_afi (afi : Z) : Prop := afi = AfiIP \/ afi = AfiIP6.

Lemma known_afi_len afi : known_afi afi -> AFINextHopLenMap afi = Some (afi_len afi) /\ 4 <= afi_len afi <= 16.
Proof. intros [-> | ->]; split; try done; vm_compute; split; discriminate. Qed.

Lemma prefix_bytes_bound length afi :
  known_afi afi -> 0 <= length <= 8 * afi_len afi ->
  0 <= prefix_bytes length <= afi_len afi /\ 8 * prefix_bytes length - 8 < length <= 8 * prefix_bytes length.
Proof.
  intros Hafi Hl. pose proof (known_afi_len afi Hafi) as [_ ?]. unfold prefix_bytes.
  rewrite u8_id by (unfold is_u8; lia). Z.div_mod_to_equations. lia.
Qed.

Lemma IPPrefix_Encode_wire ip afi :
  known_afi afi -> IPPrefix_good afi ip -> IPPrefix_Encode ip afi = Ok (IPPrefix_wire ip).
Proof.
  intros Hafi (Hlen & Hb & Hl & Hm). pose proof (known_afi_len afi Hafi) as [_ ?].
  pose proof (prefix_bytes_bound _ _ Hafi Hl) as [Hn _]. unfold IPPrefix_Encode, IPPrefix_Len, IPPrefix_wire.
  set (n := prefix_bytes (ip_Length ip)) in *. fold (afi_len afi).
  rewrite (u8_id (n + 1)) by (unfold is_u8; lia). replace (n + 1) with (1 + n) by lia.
  rewrite make_add by lia. change (make 1) with [0]. gocbn. rewrite Hlen, Z.sub_diag.
  change (u8 0) with 0. rewrite Z.add_0_l, u8_id by (unfold is_u8; lia).
  unfold slice, len in *. zif. gocbn. rewrite take_0, drop_0, (take_ge (take _ _)), drop_ge, app_nil_r.
  - by rewrite Nat.sub_0_r.
  - rewrite length_make, length_take. lia.
  - rewrite length_take, length_make. lia.
Qed.

Lemma sset_id {E} (s : bytes) i b : sget (E := E) s i = Ok b -> sset (E := E) s i b = Ok s.
Proof.
  unfold sget, sset. destruct (i <? 0); [discriminate|].
  destruct (s !! Z.to_nat i) eqn:Hb; [|discriminate]. intros [= <-].
  apply lookup_lt_Some in Hb as Hlt. zif. by rewrite list_insert_id.
Qed.

(** What [IPPrefix.Decode] allocates for a known family. *)
Lemma decode_ip_len afi n :
  known_afi afi -> n <= afi_len afi ->
  (if (afi =? AfiIP6) || (n >? IPv4len) then IPv6len else IPv4len) = afi_len afi.
Proof.
  unfold afi_len. intros [-> | ->] Hn; [|done]. cbn [Z.eqb AfiIP AfiIP6 Pos.eqb orb] in *.
  destruct (n >? IPv4len) eqn:?; [zhyp; unfold IPv4len in *; lia | done].
Qed.

Lemma IPPrefix_Decode_wire ip afi rest :
  known_afi afi -> IPPrefix_good afi ip -> IPPrefix_Decode (IPPrefix_wire ip ++ rest) afi = Ok ip.
Proof.
  intros Hafi (Hlen & Hb & Hl & Hm1 & Hm2). pose proof (known_afi_len afi Hafi) as [Hmap ?].
  pose proof (prefix_bytes_bound _ _ Hafi Hl) as [Hn _]. unfold IPPrefix_Decode, IPPrefix_wire.
  destruct ip as [l p]. cbn [ip_Length ip_Prefix] in *. set (n := prefix_bytes l) in *.
  assert (Hp : p = take (Z.to_nat n) p ++ make (afi_len afi - n))
    by (rewrite <- Hlen, <- Hm1; by rewrite take_drop).
  assert (Ht : len (take (Z.to_nat n) p) = n) by (unfold len in *; rewrite length_take; lia).
  rewrite Hmap. cbn [app]. rewrite len_cons, len_app, Ht. pose proof (len_nonneg rest). zif.
  change (sget (l :: ?x) 0) with (@Ok goerr _ l). rewrite bind_Ok.
  rewrite (u8_id (u8 _ * 8)) by (rewrite u8_id; unfold is_u8; lia).
  rewrite (u8_id (afi_len afi)) by (unfold is_u8; lia). fold n.
  destruct (_ >? _) eqn:?; [zhyp; lia|]. zif.
  rewrite (u8_id (n + 1)) by (unfold is_u8; lia).
  change (l :: take ?k p ++ rest) with ([l] ++ take k p ++ rest).
  rewrite slice_app, bind_Ok by (lens; rewrite ?Ht; lia).
  rewrite decode_ip_len by (done || lia).
  assert (blit (make (afi_len afi)) 0 (take (Z.to_nat n) p) = p) as ->.
  { replace (afi_len afi) with (n + (afi_len afi - n)) by lia. rewrite make_add by lia.
    change (?a ++ ?b) with ([] ++ a ++ b) at 1. rewrite (blit_app []); [cbn [app]; congruence|].
    rewrite length_make. unfold len in *. lia. }
  destruct ((n >? 0) && (l mod 8 >? 0)) eqn:Hc; [|done].
  apply andb_prop in Hc as [??]. zhyp.
  destruct (sget_ok (E := goerr) p (n - 1)) as [b Hbb]; [lia|]. rewrite Hbb, bind_Ok, Hm2, (sset_id _ _ _ Hbb).
  - done.
  - lia.
  - unfold sget in Hbb. revert Hbb. zif. destruct (p !! _); congruence.
Qed.

(** ** The decoder on arbitrary bytes, for a known family *)

Lemma clear_low_idem b k : clear_low (clear_low b k) k = clear_low b k.
Proof. unfold clear_low. rewrite Z.ldiff_ldiff_l. by rewrite Z.lor_diag. Qed.

Lemma clear_low_u8 b k : is_u8 b -> is_u8 (clear_low b k).
Proof.
  intros H. unfold clear_low, is_u8. set (m := Z.shiftr 255 k).
  assert (Z.ldiff b m = Z.land (Z.ldiff b m) (Z.ones 8)) as ->.
  { rewrite <- (Z.mod_small b 256) by exact H. change 256 with (2 ^ 8).
    rewrite <- Z.land_ones by lia. apply Z.bits_inj'. intros n _.
    rewrite !Z.ldiff_spec, !Z.land_spec, !Z.ldiff_spec, !Z.land_spec.
    by destruct (Z.testbit b n), (Z.testbit (Z.ones 8) n), (Z.testbit m n). }
  rewrite Z.land_ones by lia. apply Z.mod_pos_bound. lia.
Qed.

(** The prefix as it is copied out of the packet: the bytes read, then zeros. *)
Lemma copied_prefix m body : len body <= m -> blit (make m) 0 body = body ++ make (m - len body).
Proof.
  intros H. pose proof (len_nonneg body).
  replace (make m) with ([] ++ make (len body) ++ make (m - len body)).
  - rewrite (blit_app []); [done|]. rewrite length_make. unfold len. lia.
  - cbn [app]. rewrite <- make_add by lia. f_equal. lia.
Qed.

(** The masking step of [IPPrefix.Decode] always succeeds and leaves a well-formed prefix. *)
Lemma mask_step afi l body :
  known_afi afi -> 0 <= l <= 8 * afi_len afi -> bytes_ok body -> len body = prefix_bytes l ->
  exists p, (if (prefix_bytes l >? 0) && (l mod 8 >? 0) then
       b ← sget (body ++ make (afi_len afi - len body)) (prefix_bytes l - 1);
       sset (body ++ make (afi_len afi - len body)) (prefix_bytes l - 1) (clear_low b (l mod 8))
     else @Ok goerr _ (body ++ make (afi_len afi - len body))) = Ok p
  /\ IPPrefix_good afi {| ip_Length := l; ip_Prefix := p |}.
Proof.
  intros Hafi Hl Hb Hn. pose proof (prefix_bytes_bound _ _ Hafi Hl) as [Hn' Hnl].
  set (n := prefix_bytes l) in *. set (p0 := body ++ _).
  assert (Hp0 : len p0 = afi_len afi) by (unfold p0; lens; lia).
  assert (Hok : bytes_ok p0) by (apply bytes_ok_app; split; [done | apply bytes_ok_make]).
  assert (Hdrop : drop (Z.to_nat n) p0 = make (afi_len afi - n)).
  { unfold p0. rewrite <- Hn. unfold len. by rewrite Nat2Z.id, drop_app_length. }
  destruct ((n >? 0) && (l mod 8 >? 0)) eqn:Hc.
  - apply andb_prop in Hc as [??]. zhyp.
    destruct (sget_ok (E := goerr) p0 (n - 1)) as [b Hbb]; [lia|]. rewrite Hbb, bind_Ok.
    unfold sset. unfold len in Hp0. zif. eexists. split; [reflexivity|].
    split; cbn [ip_Prefix]; [unfold len; by rewrite length_insert|].
    split; [apply Forall_insert; [done | apply clear_low_u8; by eapply sget_range]|].
    split; [done|]. split; cbn [ip_Length ip_Prefix]; fold n.
    + rewrite drop_insert_lt by lia. rewrite Hdrop. unfold len. by rewrite length_insert, Hp0.
    + intros _ c. rewrite list_lookup_insert_eq by lia. intros [= <-]. apply clear_low_idem.
  - exists p0. split; [done|]. split; [done|]. split; [done|]. split; [done|].
    split; cbn [ip_Length ip_Prefix]; fold n; [by rewrite Hdrop, Hp0|].
    apply andb_false_iff in Hc as [?|?]; zhyp; intros Hmod c.
    + assert (l = 0) as -> by lia. done.
    + pose proof (Z.mod_pos_bound l 8). lia.
Qed.

(** A successful decode gives a well-formed prefix that starts with the first byte read and is at
    most as long as what is left of the packet. The decoder never panics. *)
Lemma IPPrefix_Decode_cases pkt afi :
  known_afi afi -> bytes_ok pkt ->
  (exists e, IPPrefix_Decode pkt afi = Err e) \/
  (exists ip, IPPrefix_Decode pkt afi = Ok ip /\ IPPrefix_good afi ip /\
     1 <= IPPrefix_Len ip <= len pkt /\ head pkt = Some (ip_Length ip)).
Proof.
  intros Hafi Hb. pose proof (known_afi_len afi Hafi) as [Hmap ?]. unfold IPPrefix_Decode.
  destruct (len pkt <? 1) eqn:?; [left; by eexists|]. zhyp.
  destruct pkt as [|l pkt]; [exfalso; revert Heqb; lens; lia|].
  change (sget (l :: ?x) 0) with (@Ok goerr _ l). rewrite bind_Ok, Hmap.
  inversion_clear Hb as [|? ? Hl8 Hb'].
  rewrite (u8_id (u8 _ * 8)) by (rewrite u8_id; unfold is_u8; lia).
  rewrite (u8_id (afi_len afi)) by (unfold is_u8; lia).
  destruct (_ >? _) eqn:?; [left; by eexists|]. zhyp.
  assert (Hl : 0 <= l <= 8 * afi_len afi) by (unfold is_u8 in *; lia).
  pose proof (prefix_bytes_bound _ _ Hafi Hl) as [Hn Hnl]. set (n := prefix_bytes l) in *.
  rewrite len_cons in *. destruct (_ <? n + 1) eqn:?; [left; by eexists|]. zhyp.
  rewrite decode_ip_len, (u8_id (n + 1)) by (done || unfold is_u8; lia).
  set (body := take (Z.to_nat n) pkt).
  assert (Hbody : len body = n) by (unfold body, len in *; rewrite length_take; lia).
  replace (l :: pkt) with ([l] ++ body ++ drop (Z.to_nat n) pkt) by (unfold body; by rewrite take_drop).
  rewrite slice_app, bind_Ok, copied_prefix by (lens; lia).
  destruct (mask_step afi l body Hafi Hl) as (p & Hp & Hg); [by apply bytes_ok_take | done |].
  fold n in Hp. rewrite Hp, bind_Ok. right. eexists. split; [reflexivity|]. split; [done|].
  split; [|done]. unfold IPPrefix_Len. cbn [ip_Length]. fold n. rewrite u8_id by (unfold is_u8; lia). lia.
Qed.

Lemma IPPrefix_wire_len afi ip :
  known_afi afi -> IPPrefix_good afi ip -> IPPrefix_Len ip = len (IPPrefix_wire ip) /\ 1 <= IPPrefix_Len ip <= 17.
Proof.
  intros Hafi (Hlen & _ & Hl & _). pose proof (known_afi_len afi Hafi) as [_ ?].
  pose proof (prefix_bytes_bound _ _ Hafi Hl) as [Hn _]. unfold IPPrefix_Len, IPPrefix_wire.
  rewrite len_cons. unfold len in *. rewrite length_take, u8_id by (unfold is_u8; lia). lia.
Qed.

Lemma NLRI_Encode_wire rx afi n :
  known_afi afi -> NLRI_good rx afi n -> NLRI_Encode n afi = Ok (NLRI_wire n).
Proof.
  intros Hafi. destruct n as [ip|n]; cbn [NLRI_good NLRI_Encode NLRI_wire].
  - intros [_ Hg]. by apply IPPrefix_Encode_wire.
  - intros (_ & _ & Hg). unfold ExtNLRI_Encode.
    change (PutUint32 (make 4) 0 _) with (@Ok goerr _ (be32 (ext_PathId n))).
    by rewrite bind_Ok, IPPrefix_Encode_wire, bind_Ok.
Qed.

Lemma nlri_laws rx afi : known_afi afi -> CodecLaws (nlri_codec rx afi).
Proof.
  intros Hafi. split; cbn [wire good enc dec tlen nlri_codec].
  - intros n. by apply NLRI_Encode_wire.
  - intros [ip|n] rest; cbn [NLRI_good NLRI_wire]; unfold NLRI_Decode.
    + intros [-> Hg]. by rewrite IPPrefix_Decode_wire, bind_Ok.
    + intros (-> & Hid & Hg). unfold ExtNLRI_Decode. rewrite <- app_assoc.
      pose proof (IPPrefix_wire_len afi _ Hafi Hg). pose proof (len_nonneg rest).
      rewrite !len_app, len_be32. zif.
      change (slice (be32 ?v ++ ?t) 0 4) with (@Ok goerr _ (be32 v ++ [])).
      rewrite bind_Ok, Uint32_be32, bind_Ok by done.
      rewrite slice_from_app, bind_Ok, IPPrefix_Decode_wire, bind_Ok by done. by destruct n.
  - intros [ip|n]; cbn [NLRI_good NLRI_wire NLRI_Len].
    + intros [_ Hg]. by apply (IPPrefix_wire_len afi).
    + intros (_ & _ & Hg). unfold ExtNLRI_Len. rewrite len_app, len_be32.
      destruct (IPPrefix_wire_len afi _ Hafi Hg) as [<- ?]. rewrite u32_id; unfold is_u32; lia.
  - intros [ip|n]; cbn [NLRI_good NLRI_wire].
    + intros [_ Hg]. destruct (IPPrefix_wire_len afi _ Hafi Hg). lia.
    + intros (_ & _ & Hg). rewrite len_app, len_be32. destruct (IPPrefix_wire_len afi _ Hafi Hg). lia.
Qed.

Lemma NLRI_Decode_cases rx pkt afi :
  known_afi afi -> bytes_ok pkt ->
  (exists e, NLRI_Decode rx pkt afi = Err e) \/
  (exists n, NLRI_Decode rx pkt afi = Ok n /\ NLRI_good rx afi n /\ 1 <= NLRI_Len n <= len pkt).
Proof.
  intros Hafi Hb. unfold NLRI_Decode. destruct rx.
  - unfold ExtNLRI_Decode. destruct (len pkt <? 5) eqn:?; [left; by eexists|]. zhyp.
    assert (exists id t, pkt = id ++ t /\ len id = 4 /\ len t = len pkt - 4) as (id & t & -> & Hid & Ht).
    { exists (take 4 pkt), (drop 4 pkt). rewrite take_drop. unfold len in *.
      rewrite length_take, length_drop. split; [done | lia]. }
    apply bytes_ok_app in Hb as [Hbi Hbt]. apply len_4_inv in Hid as (a & b & c & d & ->).
    change (slice ([?a; ?b; ?c; ?d] ++ ?t) 0 4) with (@Ok goerr _ [a; b; c; d]).
    destruct (Uint32 (E := goerr) [a; b; c; d]) as [v| | |] eqn:Hv; try discriminate Hv.
    rewrite !bind_Ok, Hv, bind_Ok, slice_from_app, bind_Ok by done.
    destruct (IPPrefix_Decode_cases t afi Hafi Hbt) as [[e ->]|(ip & -> & Hg & Hl & _)]; [left; by eexists|].
    rewrite !bind_Ok. right. eexists. split; [reflexivity|].
    split; [split; [done|]; split; [exact (Uint32_range _ _ Hbi Hv) | done]|].
    unfold NLRI_Len, ExtNLRI_Len. cbn [ext_IPPrefix]. pose proof (IPPrefix_wire_len afi ip Hafi Hg) as [_ ?].
    rewrite u32_id by (unfold is_u32; lia). lia.
  - destruct (IPPrefix_Decode_cases pkt afi Hafi Hb) as [[e ->]|(ip & -> & Hg & Hl & _)]; [left; by eexists|].
    right. eexists. split; [reflexivity|]. split; [by split | done].
Qed.

Definition nlris_len (ns : list NLRI) : Z := foldr (fun n s => NLRI_Len n + s) 0 ns.

(** The loop of [decodeNLRI] returns, and never panics. *)
Lemma decodeNLRI_loop_cases rx pkt length afi : forall fuel ptr acc,
  known_afi afi -> bytes_ok pkt -> 0 <= ptr -> length <= len pkt < 2 ^ 31 -> (Z.to_nat (length - ptr) <= fuel)%nat ->
  (exists e, decodeNLRI_loop fuel rx pkt ptr length afi acc = Err e) \/
  (exists ns ptr', decodeNLRI_loop fuel rx pkt ptr length afi acc = Ok (acc ++ ns, ptr') /\
     Forall (NLRI_good rx afi) ns /\ ptr' = ptr + nlris_len ns).
Proof.
  induction fuel as [|fuel IH]; intros ptr acc Hafi Hb Hp Hl Hf; cbn [decodeNLRI_loop].
  { zif. right. exists [], ptr. rewrite app_nil_r. cbn. split; [done|]. split; [done | lia]. }
  destruct (ptr <? length) eqn:?; zhyp.
  2: { right. exists [], ptr. rewrite app_nil_r. cbn. split; [done|]. split; [done | lia]. }
  rewrite slice_from_ok, bind_Ok by lia.
  assert (Hd : len (drop (Z.to_nat ptr) pkt) = len pkt - ptr) by (unfold len in *; rewrite length_drop; lia).
  destruct (NLRI_Decode_cases rx (drop (Z.to_nat ptr) pkt) afi Hafi (bytes_ok_drop _ _ Hb))
    as [[e ->]|(n & -> & Hg & Hn)]; [left; by eexists|].
  rewrite bind_Ok, u32_id by (unfold is_u32; lia).
  destruct (IH (ptr + NLRI_Len n) (acc ++ [n])) as [[e ->]|(ns & ptr' & -> & Hns & Hp')];
    [done|done|lia|lia|lia|left; by eexists|].
  right. exists (n :: ns), ptr'. rewrite <- app_assoc. split; [done|]. split; [by constructor|].
  unfold nlris_len at 1. cbn [foldr]. fold (nlris_len ns). lia.
Qed.

Lemma decodeNLRI_loop_wires rx afi ns : forall fuel pre post acc length,
  known_afi afi -> Forall (NLRI_good rx afi) ns ->
  length = len pre + len (wires (nlri_codec rx afi) ns) -> length < 2 ^ 31 ->
  (List.length ns <= fuel)%nat ->
  decodeNLRI_loop fuel rx (pre ++ wires (nlri_codec rx afi) ns ++ post) (len pre) length afi acc
  = Ok (acc ++ ns, length).
Proof.
  induction ns as [|n ns IH]; intros fuel pre post acc length Hafi Hg -> Hl Hf.
  { change (len (wires _ [])) with 0. rewrite Z.add_0_r, app_nil_r.
    destruct fuel; cbn [decodeNLRI_loop]; by zif. }
  inversion_clear Hg as [|? ? Hn Hns]. destruct fuel as [|fuel]; [cbn in Hf; lia|].
  pose proof (nlri_laws rx afi Hafi) as Hlaws. pose proof (wire_pos n Hn).
  pose proof (len_nonneg pre). pose proof (len_nonneg (wires (nlri_codec rx afi) ns)).
  rewrite wires_cons, len_app in *. cbn [decodeNLRI_loop]. zif.
  rewrite slice_from_app, bind_Ok, <- app_assoc by done.
  change (NLRI_Decode rx ?p afi) with (dec (nlri_codec rx afi) p). rewrite dec_wire, bind_Ok by done.
  change NLRI_Len with (tlen (nlri_codec rx afi)). rewrite tlen_wire by done.
  rewrite u32_id by (unfold is_u32; lia). rewrite <- len_app, (app_assoc pre).
  rewrite IH; [by rewrite <- app_assoc | done | done | rewrite len_app; lia | lia | cbn in Hf; lia].
Qed.

(** The outcomes of [decodeNLRI] on arbitrary bytes. *)
Lemma decodeNLRI_cases (pkt : bytes) (length afi : Z) (data : BGPPeerAttrs) :
  known_afi afi -> bytes_ok pkt -> 0 <= length -> len pkt < 2 ^ 31 ->
  (exists e, decodeNLRI pkt [] length afi data = Err e) \/
  (exists ns, decodeNLRI pkt [] length afi data = Ok (ns, length) /\
     Forall (NLRI_good (AddPathsRxActual data) afi) ns /\ nlris_len ns = length).
Proof.
  intros Hafi Hb Hl Hp. unfold decodeNLRI. destruct (_ >? _) eqn:?; [left; by eexists|]. zhyp.
  destruct (decodeNLRI_loop_cases (AddPathsRxActual data) pkt length afi (Z.to_nat length) 0 [] Hafi Hb)
    as [[e ->]|(ns & ptr' & -> & Hns & Hptr)]; [lia|lia|lia|left; by eexists|].
  rewrite bind_Ok. destruct (ptr' =? length) eqn:?; zhyp; cbn [negb]; [|left; by eexists].
  right. exists ns. subst. split; [done|]. split; [done | lia].
Qed.

Lemma decodeNLRI_wires (ns : list NLRI) (afi : Z) (data : BGPPeerAttrs) (rest : bytes) :
  known_afi afi -> Forall (NLRI_good (AddPathsRxActual data) afi) ns ->
  len (wires (nlri_codec (AddPathsRxActual data) afi) ns) < 2 ^ 31 ->
  decodeNLRI (wires (nlri_codec (AddPathsRxActual data) afi) ns ++ rest) []
    (len (wires (nlri_codec (AddPathsRxActual data) afi) ns)) afi data
  = Ok (ns, len (wires (nlri_codec (AddPathsRxActual data) afi) ns)).
Proof.
  intros Hafi Hg Hl.
  pose proof (nlri_laws (AddPathsRxActual data) afi Hafi).
  unfold decodeNLRI. rewrite len_app. pose proof (len_nonneg rest).
  set (c := nlri_codec _ _) in *. pose proof (len_nonneg (wires c ns)).
  destruct (_ >? _) eqn:?; [zhyp; lia|].
  pose proof (decodeNLRI_loop_wires (AddPathsRxActual data) afi ns (Z.to_nat (len (wires c ns))) [] rest []
    (len (wires c ns)) Hafi Hg) as Hd. fold c in Hd. rewrite len_nil in Hd. cbn [app] in Hd.
  rewrite Hd, bind_Ok, Z.eqb_refl; [done | lia | done |].
  pose proof (wires_length_le c ns Hg). unfold len in *. lia.
Qed.

(** Whatever the family, the loop ends: every prefix that decodes advances it. *)
Lemma IPPrefix_Len_range ip : 1 <= IPPrefix_Len ip <= 32.
Proof.
  unfold IPPrefix_Len, prefix_bytes. pose proof (u8_range (ip_Length ip + 7)).
  unfold is_u8 in *. rewrite u8_id; unfold is_u8; Z.div_mod_to_equations; lia.
Qed.

Lemma NLRI_Decode_Len rx pkt afi n : NLRI_Decode rx pkt afi = Ok n -> 1 <= NLRI_Len n <= 36.
Proof.
  unfold NLRI_Decode. destruct rx; intros (x & Hx & [= <-])%bind_Ok_inv; cbn [NLRI_Len].
  - unfold ExtNLRI_Decode in Hx. destruct (len pkt <? 5); [discriminate|].
    apply bind_Ok_inv in Hx as (? & _ & Hx). apply bind_Ok_inv in Hx as (? & _ & Hx).
    apply bind_Ok_inv in Hx as (? & _ & Hx). apply bind_Ok_inv in Hx as (ip & Hip & [= <-]).
    pose proof (IPPrefix_Len_range ip). unfold ExtNLRI_Len. cbn [ext_IPPrefix].
    rewrite u32_id; unfold is_u32; lia.
  - pose proof (IPPrefix_Len_range x). lia.
Qed.

Lemma NLRI_Decode_no_hang rx pkt afi : NLRI_Decode rx pkt afi <> Hang.
Proof.
  assert (Hip : forall p, IPPrefix_Decode p afi <> Hang).
  { intros p H. unfold IPPrefix_Decode in H. hang_inv; unfold sset in H; repeat case_match; discriminate. }
  unfold NLRI_Decode, ExtNLRI_Decode. intros H. hang_inv; eapply Hip, H.
Qed.

Lemma decodeNLRI_loop_no_hang rx pkt length afi : forall fuel ptr acc,
  length < 2 ^ 31 -> (Z.to_nat (length - ptr) <= fuel)%nat -> 0 <= ptr ->
  decodeNLRI_loop fuel rx pkt ptr length afi acc <> Hang.
Proof.
  induction fuel as [|fuel IH]; intros ptr acc Hl Hf Hp; cbn [decodeNLRI_loop]; [zif; discriminate|].
  destruct (ptr <? length) eqn:?; [|discriminate]. zhyp. intros H. hang_inv.
  - by eapply NLRI_Decode_no_hang.
  - match goal with Hn : NLRI_Decode _ _ _ = Ok _ |- _ => apply NLRI_Decode_Len in Hn end.
    rewrite u32_id in H by (unfold is_u32; lia). eapply IH; [..|exact H]; lia.
Qed.

Lemma decodeNLRI_no_hang pkt acc length afi data :
  len pkt < 2 ^ 31 -> decodeNLRI pkt acc length afi data <> Hang.
Proof.
  intros Hl. unfold decodeNLRI. destruct (length >? len pkt) eqn:?; [discriminate|]. zhyp.
  intros H. hang_inv. eapply decodeNLRI_loop_no_hang; [..|exact H]; lia.
Qed.

(** The loop of the encoders that fills a message with prefixes writes their wire formats. *)
Lemma NLRI_Encode_laws rx afi n :
  known_afi afi -> NLRI_good rx afi n ->
  NLRI_Encode n afi = Ok (NLRI_wire n) /\ NLRI_Len n = len (NLRI_wire n).
Proof.
  intros Hafi Hg. pose proof (nlri_laws rx afi Hafi).
  split; [by apply (NLRI_Encode_wire rx) | by apply (tlen_wire (c := nlri_codec rx afi))].
Qed.

(** ** Properties *)

(** Reading a list of prefixes of a known address family never panics and always ends: it is
    an error, or the prefixes read are well formed (length within the family, host bits 0) and
    take exactly the announced number of bytes. *)
Theorem decodeNLRI_total (pkt : bytes) (length afi : Z) (data : BGPPeerAttrs) :
  known_afi afi -> bytes_ok pkt -> 0 <= length -> len pkt < 2 ^ 31 ->
  (exists e, decodeNLRI pkt [] length afi data = Err e) \/
  (exists ns, decodeNLRI pkt [] length afi data = Ok (ns, length) /\
     Forall (NLRI_good (AddPathsRxActual data) afi) ns /\ nlris_len ns = length).
Proof. apply decodeNLRI_cases. Qed.

Definition no_attrs : BGPPeerAttrs := {| ASSize := 2; AddPathFamily := ∅; AddPathsRxActual := false |}.

Lemma decodeNLRI_total_witness :
  (exists e, decodeNLRI [24; 192; 168; 1] [] 4 AfiIP no_attrs = Err e) \/
  (exists ns, decodeNLRI [24; 192; 168; 1] [] 4 AfiIP no_attrs = Ok (ns, 4) /\
     Forall (NLRI_good (AddPathsRxActual no_attrs) AfiIP) ns /\ nlris_len ns = 4).
Proof.
  apply decodeNLRI_total; [by left | repeat constructor; lia | lia | vm_compute; reflexivity].
Defined.

(** A list of well-formed prefixes of a known family survives encoding and decoding, with or
    without path identifiers: every prefix encodes to its wire format, and [decodeNLRI] reads the
    concatenation back, consuming exactly its bytes and nothing of what follows. *)
Theorem nlri_roundtrip (ns : list NLRI) (afi : Z) (data : BGPPeerAttrs) (rest : bytes) :
  known_afi afi -> Forall (NLRI_good (AddPathsRxActual data) afi) ns ->
  len (wires (nlri_codec (AddPathsRxActual data) afi) ns) < 2 ^ 31 ->
  Forall (fun n => NLRI_Encode n afi = Ok (NLRI_wire n)) ns /\
  decodeNLRI (wires (nlri_codec (AddPathsRxActual data) afi) ns ++ rest) []
    (len (wires (nlri_codec (AddPathsRxActual data) afi) ns)) afi data
  = Ok (ns, len (wires (nlri_codec (AddPathsRxActual data) afi) ns)).
Proof.
  intros Hafi Hg Hl. split; [|by apply decodeNLRI_wires].
  eapply Forall_impl; [exact Hg|]. intros n. by apply NLRI_Encode_wire.
Qed.

Definition nlri_example : list NLRI :=
  [NIPPrefix {| ip_Length := 20; ip_Prefix := [172; 16; 16; 0] |};
   NIPPrefix {| ip_Length := 0; ip_Prefix := [0; 0; 0; 0] |}].

Lemma nlri_example_good : Forall (NLRI_good false AfiIP) nlri_example.
Proof.
  constructor; [|constructor; [|constructor]]; (split; [reflexivity|]; split; [reflexivity|];
      split; [repeat constructor; lia|]; split; [vm_compute; split; congruence|]; split; [reflexivity|]).
  - intros _ b Hb. injection Hb as <-. reflexivity.
  - intros []. reflexivity.
Qed.

Lemma nlri_roundtrip_witness :
  decodeNLRI (wires (nlri_codec false AfiIP) nlri_example ++ [9; 9]) []
    (len (wires (nlri_codec false AfiIP) nlri_example)) AfiIP no_attrs
  = Ok (nlri_example, len (wires (nlri_codec false AfiIP) nlri_example)).
Proof.
  apply (nlri_roundtrip nlri_example AfiIP no_attrs [9; 9]).
  - by left.
  - exact nlri_example_good.
  - vm_compute. reflexivity.
Defined.

(** For an address family outside the package's table the length of a prefix is not checked
    against the 16 bytes that are allocated for it: a prefix of 129 bits makes the decoder index
    past its buffer and panic. *)
Theorem prefix_unknown_family_panics (afi : Z) :
  ~ known_afi afi -> IPPrefix_Decode (129 :: replicate 17 255) afi = Panic.
Proof.
  intros Hafi. unfold IPPrefix_Decode.
  assert (AFINextHopLenMap afi = None) as ->.
  { unfold AFINextHopLenMap. destruct (afi =? AfiIP) eqn:?; [zhyp; destruct Hafi; by left|].
    destruct (afi =? AfiIP6) eqn:?; [zhyp; destruct Hafi; by right | done]. }
  destruct (afi =? AfiIP6) eqn:?; [zhyp; destruct Hafi; by right | reflexivity].
Qed.

Lemma prefix_unknown_family_panics_witness :
  ~ known_afi 25 /\ IPPrefix_Decode (129 :: replicate 17 255) 25 = Panic.
Proof.
  assert (H : ~ known_afi 25) by (intros [[=]|[=]]).
  split; [exact H | exact (prefix_unknown_family_panics 25 H)].
Defined.
