(* ===== verification/BgpAttrs.v ===== *)
(** Path attributes of [src/bgp/packet/bgp.go] and [src/bgp/packet/mpbgp.go]: the common header,
    the AS path and its segments, the multiprotocol attributes and the others. The interfaces
    [BGPPathAttr], [BGPASPathSegment], [BGPAggregatorAS] and [MPNextHop] are inductive types with
    a constructor per Go type that implements them; a nil interface is [None]. *)
From stdpp Require Import base numbers list gmap.
From Stdlib Require Import ZArith Lia.
From S2P Require Import Prelude GoNet BgpBase BgpNlri.
Open Scope Z_scope.

(** ** Attribute codes and flags *)

Definition BGPPathAttrFlagExtendedLen : Z := 16.
Definition BGPPathAttrFlagPartial : Z := 32.
Definition BGPPathAttrFlagTransitive : Z := 64.
Definition BGPPathAttrFlagOptional : Z := 128.
Definition BGPPathAttrFlagAllMinusExtendedLen : Z := 224.

Definition BGPPathAttrTypeOrigin : Z := 1.
Definition BGPPathAttrTypeASPath : Z := 2.
Definition BGPPathAttrTypeNextHop : Z := 3.
Definition BGPPathAttrTypeMultiExitDisc : Z := 4.
Definition BGPPathAttrTypeLocalPref : Z := 5.
Definition BGPPathAttrTypeAtomicAggregate : Z := 6.
Definition BGPPathAttrTypeAggregator : Z := 7.
Definition BGPPathAttrTypeOriginatorId : Z := 9.
Definition BGPPathAttrTypeClusterList : Z := 10.
Definition BGPPathAttrTypeMPReachNLRI : Z := 14.
Definition BGPPathAttrTypeMPUnreachNLRI : Z := 15.
Definition BGPPathAttrTypeAS4Path : Z := 17.
Definition BGPPathAttrTypeAS4Aggregator : Z := 18.
Definition BGPPathAttrTypeUnknown : Z := 19.

Definition BGPPathAttrOriginIncomplete : Z := 2.
Definition BGPPathAttrOriginMax : Z := 3.

Definition BGPASPathSegmentSet : Z := 1.
Definition BGPASPathSegmentSequence : Z := 2.

(** The flags a type must have; every entry of the Go map has the mask
    [BGPPathAttrFlagAllMinusExtendedLen]. *)
Definition BGPPathAttrTypeFlagsMap (code : Z) : option Z :=
  if code =? BGPPathAttrTypeOrigin then Some BGPPathAttrFlagTransitive
  else if code =? BGPPathAttrTypeASPath then Some BGPPathAttrFlagTransitive
  else if code =? BGPPathAttrTypeNextHop then Some BGPPathAttrFlagTransitive
  else if code =? BGPPathAttrTypeMultiExitDisc then Some BGPPathAttrFlagOptional
  else if code =? BGPPathAttrTypeLocalPref then Some BGPPathAttrFlagTransitive
  else if code =? BGPPathAttrTypeAtomicAggregate then Some BGPPathAttrFlagTransitive
  else if code =? BGPPathAttrTypeAggregator
       then Some (Z.lor BGPPathAttrFlagOptional BGPPathAttrFlagTransitive)
  else if code =? BGPPathAttrTypeOriginatorId then Some BGPPathAttrFlagOptional
  else if code =? BGPPathAttrTypeClusterList then Some BGPPathAttrFlagOptional
  else if code =? BGPPathAttrTypeMPReachNLRI then Some BGPPathAttrFlagOptional
  else if code =? BGPPathAttrTypeMPUnreachNLRI then Some BGPPathAttrFlagOptional
  else if code =? BGPPathAttrTypeAS4Path
       then Some (Z.lor BGPPathAttrFlagOptional BGPPathAttrFlagTransitive)
  else if code =? BGPPathAttrTypeAS4Aggregator
       then Some (Z.lor BGPPathAttrFlagOptional BGPPathAttrFlagTransitive)
  else None.

Definition BGPPathAttrTypeLenMap (code : Z) : option Z :=
  if code =? BGPPathAttrTypeOrigin then Some 1
  else if code =? BGPPathAttrTypeNextHop then Some 4
  else if code =? BGPPathAttrTypeMultiExitDisc then Some 4
  else if code =? BGPPathAttrTypeLocalPref then Some 4
  else if code =? BGPPathAttrTypeAtomicAggregate then Some 0
  else if code =? BGPPathAttrTypeAS4Aggregator then Some 8
  else None.

(** ** The attribute header *)

Record BGPPathAttrBase := {
  pa_Flags : Z;
  pa_Code : Z;
  pa_Length : Z;
  pa_Len : Z; (* BGPPathAttrLen: the length of the header *)
}.

(** [flags & bit != 0] *)
Definition has_flag (flags bit : Z) : bool := negb (Z.land flags bit =? 0).

Definition BGPPathAttrBase_TotalLen (pa : BGPPathAttrBase) : Z := u32 (pa_Length pa + pa_Len pa).

Definition BGPPathAttrBase_Encode (pa : BGPPathAttrBase) : result bytes :=
  let pkt := make (BGPPathAttrBase_TotalLen pa) in
  pkt ← sset pkt 0 (pa_Flags pa);
  pkt ← sset pkt 1 (pa_Code pa);
  if has_flag (pa_Flags pa) BGPPathAttrFlagExtendedLen then PutUint16 pkt 2 (pa_Length pa)
  else sset pkt 2 (u8 (pa_Length pa)).

(** [checkFlags]: whether it finds an error; all three of its errors are attribute flags errors
    that carry the attribute's bytes. *)
Definition checkFlags (flags : Z) : bool :=
  if negb (has_flag flags BGPPathAttrFlagOptional) && negb (has_flag flags BGPPathAttrFlagTransitive)
  then true
  else if has_flag flags BGPPathAttrFlagPartial then
    if negb (has_flag flags BGPPathAttrFlagOptional) then true
    else has_flag flags BGPPathAttrFlagOptional && negb (has_flag flags BGPPathAttrFlagTransitive)
  else false.

(** The checks of [BGPPathAttrBase.Decode] after the header is read, in order: the subtype of the
    error. Each of these errors carries [pkt[:pa.TotalLen()]]. *)
Definition base_error (pa : BGPPathAttrBase) : option Z :=
  if match BGPPathAttrTypeFlagsMap (pa_Code pa) with
     | Some val => negb (Z.land (Z.lxor val (pa_Flags pa)) BGPPathAttrFlagAllMinusExtendedLen =? 0)
     | None => false
     end then Some BGPAttrFlagsError
  else if checkFlags (pa_Flags pa) then Some BGPAttrFlagsError
  else if match BGPPathAttrTypeLenMap (pa_Code pa) with
          | Some length => negb (length =? pa_Length pa)
          | None => false
          end then Some BGPAttrLenError
  else if negb (has_flag (pa_Flags pa) BGPPathAttrFlagOptional) && (pa_Code pa >=? BGPPathAttrTypeUnknown)
       then Some BGPUnrecognizedWellKnownAttr
  else None.

(** [int(pa.Length+pa.BGPPathAttrLen)] is a [uint16] sum. *)
Definition BGPPathAttrBase_Decode (pkt : bytes) : result BGPPathAttrBase :=
  if len pkt <? 3 then bgp_err BGPUpdateMsgError BGPMalformedAttrList [] else
  flags ← sget pkt 0;
  code ← sget pkt 1;
  pa ← (if has_flag flags BGPPathAttrFlagExtendedLen then
          if len pkt <? 4 then bgp_err BGPUpdateMsgError BGPMalformedAttrList [] else
          s ← slice pkt 2 4; l ← Uint16 s;
          Ok {| pa_Flags := flags; pa_Code := code; pa_Length := l; pa_Len := 4 |}
        else
          l ← sget pkt 2;
          Ok {| pa_Flags := flags; pa_Code := code; pa_Length := l; pa_Len := 3 |});
  if len pkt <? u16 (pa_Length pa + pa_Len pa)
  then bgp_err BGPUpdateMsgError BGPMalformedAttrList pkt else
  match base_error pa with
  | Some subtype => d ← slice pkt 0 (BGPPathAttrBase_TotalLen pa); bgp_err BGPUpdateMsgError subtype d
  | None => Ok pa
  end.

(** ** ORIGIN *)

Record BGPPathAttrOrigin := { origin_base : BGPPathAttrBase; origin_Value : Z }.

Definition BGPPathAttrOrigin_Encode (o : BGPPathAttrOrigin) : result bytes :=
  pkt ← BGPPathAttrBase_Encode (origin_base o);
  sset pkt (pa_Len (origin_base o)) (origin_Value o).

Definition BGPPathAttrOrigin_Decode (pkt : bytes) : result BGPPathAttrOrigin :=
  base ← BGPPathAttrBase_Decode pkt;
  v ← sget pkt (pa_Len base);
  if v >=? BGPPathAttrOriginMax then
    d ← slice pkt 0 (BGPPathAttrBase_TotalLen base); bgp_err BGPUpdateMsgError BGPMalformedAttrList d
  else Ok {| origin_base := base; origin_Value := v |}.

Definition NewBGPPathAttrOrigin (originType : Z) : BGPPathAttrOrigin :=
  {| origin_base := {| pa_Flags := 64; pa_Code := BGPPathAttrTypeOrigin; pa_Length := 1; pa_Len := 3 |};
     origin_Value := originType |}.

(** ** AS path segments *)

Record BGPASPathSegmentBase := {
  seg_Type : Z;
  seg_Length : Z;
  seg_Len : Z; (* BGPASPathSegmentLen *)
}.

Definition BGPASPathSegmentBase_Encode (ps : BGPASPathSegmentBase) (pkt : bytes) : result bytes :=
  pkt ← sset pkt 0 (seg_Type ps);
  sset pkt 1 (seg_Length ps).

(** Type and length; the total length is set by the caller. *)
Definition BGPASPathSegmentBase_Decode (pkt : bytes) : result (Z * Z) :=
  if len pkt <=? 2 then bgp_err BGPUpdateMsgError BGPMalformedAttrList [] else
  type ← sget pkt 0;
  l ← sget pkt 1;
  Ok (type, l).

(** The loops that write and read AS numbers of [w] bytes (2 or 4) from offset 2. *)
Fixpoint put_ases (w : Z) (pkt : bytes) (off : Z) (ases : list Z) : result bytes :=
  match ases with
  | [] => Ok pkt
  | a :: ases =>
    pkt ← (if w =? 2 then PutUint16 pkt off a else PutUint32 pkt off a);
    put_ases w pkt (off + w) ases
  end.

Fixpoint get_ases (w : Z) (n : nat) (pkt : bytes) (off : Z) : result (list Z) :=
  match n with
  | O => Ok []
  | S n =>
    s ← slice_from pkt off;
    a ← (if w =? 2 then Uint16 s else Uint32 s);
    ases ← get_ases w n pkt (off + w);
    Ok (a :: ases)
  end.

Record BGPAS2PathSegment := { as2_base : BGPASPathSegmentBase; as2_AS : list Z }.

Definition BGPAS2PathSegment_Encode (ps : BGPAS2PathSegment) (pkt : bytes) : result bytes :=
  pkt ← BGPASPathSegmentBase_Encode (as2_base ps) pkt;
  put_ases 2 pkt 2 (as2_AS ps).

(** [uint16(ps.Length*2 + 2)]: the arithmetic is that of [uint8]. *)
Definition BGPAS2PathSegment_Decode (pkt : bytes) : result BGPAS2PathSegment :=
  b ← BGPASPathSegmentBase_Decode pkt;
  let '(type, l) := b in
  if len pkt - 2 <? l * 2 then bgp_err BGPUpdateMsgError BGPMalformedAttrList [] else
  ases ← get_ases 2 (Z.to_nat l) pkt 2;
  Ok {| as2_base := {| seg_Type := type; seg_Length := l; seg_Len := u8 (l * 2 + 2) |};
        as2_AS := ases |}.

Definition BGPAS2PathSegment_GetNumASes (ps : BGPAS2PathSegment) : Z :=
  if seg_Type (as2_base ps) =? BGPASPathSegmentSet then 1 else u8 (len (as2_AS ps)).

(** The methods that return [false] leave the segment unchanged. *)
Definition BGPAS2PathSegment_PrependAS (ps : BGPAS2PathSegment) (as_ : Z) : BGPAS2PathSegment * bool :=
  let b := as2_base ps in
  if seg_Length b >=? 255 then (ps, false)
  else ({| as2_base := {| seg_Type := seg_Type b; seg_Length := u8 (seg_Length b + 1);
                          seg_Len := u16 (seg_Len b + 2) |};
           as2_AS := u16 as_ :: as2_AS ps |}, true).

Definition BGPAS2PathSegment_AppendAS (ps : BGPAS2PathSegment) (as_ : Z) : BGPAS2PathSegment * bool :=
  let b := as2_base ps in
  if seg_Length b >=? 255 then (ps, false)
  else ({| as2_base := {| seg_Type := seg_Type b; seg_Length := u8 (seg_Length b + 1);
                          seg_Len := u16 (seg_Len b + 2) |};
           as2_AS := as2_AS ps ++ [u16 as_] |}, true).

Definition NewBGPAS2PathSegment (segType : Z) : BGPAS2PathSegment :=
  {| as2_base := {| seg_Type := segType; seg_Length := 0; seg_Len := 2 |}; as2_AS := [] |}.
Definition NewBGPAS2PathSegmentSeq : BGPAS2PathSegment := NewBGPAS2PathSegment BGPASPathSegmentSequence.

Record BGPAS4PathSegment := { as4s_base : BGPASPathSegmentBase; as4s_AS : list Z }.

(** One element of the loop of [CloneAsAS2PathSegment]. *)
Definition as4_to_as2 (as_ : Z) : Z := if as_ >? 65535 then BGPASTrans else u16 as_.

(** [x.BGPASPathSegmentLen += uint16(x.Length * 2)]: a [uint8] product. *)
Definition CloneAsAS2PathSegment (ps : BGPAS4PathSegment) : BGPAS2PathSegment * bool :=
  ({| as2_base := {| seg_Type := seg_Type (as4s_base ps); seg_Length := seg_Length (as4s_base ps);
                     seg_Len := u16 (2 + u8 (seg_Length (as4s_base ps) * 2)) |};
      as2_AS := as4_to_as2 <$> as4s_AS ps |},
   forallb (fun a => negb (a >? 65535)) (as4s_AS ps)).

Definition BGPAS4PathSegment_Encode (ps : BGPAS4PathSegment) (pkt : bytes) : result bytes :=
  pkt ← BGPASPathSegmentBase_Encode (as4s_base ps) pkt;
  put_ases 4 pkt 2 (as4s_AS ps).

Definition BGPAS4PathSegment_Decode (pkt : bytes) : result BGPAS4PathSegment :=
  b ← BGPASPathSegmentBase_Decode pkt;
  let '(type, l) := b in
  if len pkt - 2 <? l * 4 then bgp_err BGPUpdateMsgError BGPMalformedAttrList [] else
  ases ← get_ases 4 (Z.to_nat l) pkt 2;
  Ok {| as4s_base := {| seg_Type := type; seg_Length := l; seg_Len := u8 (l * 4 + 2) |};
        as4s_AS := ases |}.

Definition BGPAS4PathSegment_GetNumASes (ps : BGPAS4PathSegment) : Z :=
  if seg_Type (as4s_base ps) =? BGPASPathSegmentSet then 1 else u8 (len (as4s_AS ps)).

Definition BGPAS4PathSegment_PrependAS (ps : BGPAS4PathSegment) (as_ : Z) : BGPAS4PathSegment * bool :=
  let b := as4s_base ps in
  if seg_Length b >=? 255 then (ps, false)
  else ({| as4s_base := {| seg_Type := seg_Type b; seg_Length := u8 (seg_Length b + 1);
                           seg_Len := u16 (seg_Len b + 4) |};
           as4s_AS := as_ :: as4s_AS ps |}, true).

Definition BGPAS4PathSegment_AppendAS (ps : BGPAS4PathSegment) (as_ : Z) : BGPAS4PathSegment * bool :=
  let b := as4s_base ps in
  if seg_Length b >=? 255 then (ps, false)
  else ({| as4s_base := {| seg_Type := seg_Type b; seg_Length := u8 (seg_Length b + 1);
                           seg_Len := u16 (seg_Len b + 4) |};
           as4s_AS := as4s_AS ps ++ [as_] |}, true).

Definition NewBGPAS4PathSegment (segType : Z) : BGPAS4PathSegment :=
  {| as4s_base := {| seg_Type := segType; seg_Length := 0; seg_Len := 2 |}; as4s_AS := [] |}.
Definition NewBGPAS4PathSegmentSeq : BGPAS4PathSegment := NewBGPAS4PathSegment BGPASPathSegmentSequence.
Definition NewBGPAS4PathSegmentSet : BGPAS4PathSegment := NewBGPAS4PathSegment BGPASPathSegmentSet.

(** The interface [BGPASPathSegment]. *)
Inductive BGPASPathSegment :=
  | Seg2 (s : BGPAS2PathSegment)
  | Seg4 (s : BGPAS4PathSegment).

Definition segment_base (s : BGPASPathSegment) : BGPASPathSegmentBase :=
  match s with Seg2 s => as2_base s | Seg4 s => as4s_base s end.
Definition segment_AS (s : BGPASPathSegment) : list Z :=
  match s with Seg2 s => as2_AS s | Seg4 s => as4s_AS s end.
Definition segment_TotalLen (s : BGPASPathSegment) : Z := seg_Len (segment_base s).
Definition segment_GetType (s : BGPASPathSegment) : Z := seg_Type (segment_base s).
Definition segment_GetLen (s : BGPASPathSegment) : Z := seg_Length (segment_base s).
Definition segment_GetNumASes (s : BGPASPathSegment) : Z :=
  match s with
  | Seg2 s => BGPAS2PathSegment_GetNumASes s
  | Seg4 s => BGPAS4PathSegment_GetNumASes s
  end.
Definition segment_Encode (s : BGPASPathSegment) (pkt : bytes) : result bytes :=
  match s with
  | Seg2 s => BGPAS2PathSegment_Encode s pkt
  | Seg4 s => BGPAS4PathSegment_Encode s pkt
  end.
Definition segment_PrependAS (s : BGPASPathSegment) (as_ : Z) : BGPASPathSegment * bool :=
  match s with
  | Seg2 s => let '(s, b) := BGPAS2PathSegment_PrependAS s as_ in (Seg2 s, b)
  | Seg4 s => let '(s, b) := BGPAS4PathSegment_PrependAS s as_ in (Seg4 s, b)
  end.
Definition segment_AppendAS (s : BGPASPathSegment) (as_ : Z) : BGPASPathSegment * bool :=
  match s with
  | Seg2 s => let '(s, b) := BGPAS2PathSegment_AppendAS s as_ in (Seg2 s, b)
  | Seg4 s => let '(s, b) := BGPAS4PathSegment_AppendAS s as_ in (Seg4 s, b)
  end.

(** The segment [BGPPathAttrASPath.Decode] reads for a peer with AS numbers of [asSize] bytes. *)
Definition segment_Decode (asSize : Z) (pkt : bytes) : result BGPASPathSegment :=
  if asSize =? 4 then s ← BGPAS4PathSegment_Decode pkt; Ok (Seg4 s)
  else s ← BGPAS2PathSegment_Decode pkt; Ok (Seg2 s).

(** ** AS_PATH and AS4_PATH *)

Record BGPPathAttrASPath := {
  aspath_base : BGPPathAttrBase;
  aspath_Value : list BGPASPathSegment;
  aspath_ASSize : Z;
}.

Fixpoint encode_segments (pkt : bytes) (length : Z) (segs : list BGPASPathSegment) : result bytes :=
  match segs with
  | [] => Ok pkt
  | val :: segs =>
    pkt ← with_tail pkt length (segment_Encode val);
    encode_segments pkt (u16 (length + segment_TotalLen val)) segs
  end.

Definition BGPPathAttrASPath_Encode (a : BGPPathAttrASPath) : result bytes :=
  pkt ← BGPPathAttrBase_Encode (aspath_base a);
  encode_segments pkt (pa_Len (aspath_base a)) (aspath_Value a).

(** The loop of the two AS path decoders. An error of a segment ends the decoding without an
    error: the code returns [nil], with the segments read so far. *)
Fixpoint segments_loop {S} (dec : bytes -> result S) (tlen : S -> Z) (fuel : nat) (pkt : bytes)
    (ptr end_ : Z) (acc : list S) : result (list S) :=
  if ptr <? end_ then
    match fuel with
    | O => Hang
    | Datatypes.S fuel =>
      s ← slice_from pkt ptr;
      match dec s with
      | Err _ => Ok acc
      | Ok seg =>
        let ptr := u32 (ptr + tlen seg) in
        if ptr >? end_ then bgp_err BGPUpdateMsgError BGPAttrLenError pkt
        else segments_loop dec tlen fuel pkt ptr end_ (acc ++ [seg])
      | Panic => Panic
      | Hang => Hang
      end
    end
  else if negb (ptr =? end_) then bgp_err BGPUpdateMsgError BGPAttrLenError pkt
  else Ok acc.

(** The fuel is the number of bytes of the attribute: enough whenever a segment's [TotalLen] is
    not 0; when it is, the loop never ends. *)
Definition BGPPathAttrASPath_Decode (pkt : bytes) (data : BGPPeerAttrs) : result BGPPathAttrASPath :=
  base ← BGPPathAttrBase_Decode pkt;
  value ← segments_loop (segment_Decode (ASSize data)) segment_TotalLen (Z.to_nat (pa_Length base))
            pkt (pa_Len base) (u32 (pa_Length base + pa_Len base)) [];
  Ok {| aspath_base := base; aspath_Value := value; aspath_ASSize := ASSize data |}.

Definition base_add_length (b : BGPPathAttrBase) (n : Z) : BGPPathAttrBase :=
  {| pa_Flags := pa_Flags b; pa_Code := pa_Code b; pa_Length := u16 (pa_Length b + n);
     pa_Len := pa_Len b |}.

Definition PrependASPathSegment (a : BGPPathAttrASPath) (pathSeg : BGPASPathSegment) : BGPPathAttrASPath :=
  {| aspath_base := base_add_length (aspath_base a) (segment_TotalLen pathSeg);
     aspath_Value := pathSeg :: aspath_Value a; aspath_ASSize := aspath_ASSize a |}.

Definition AppendASPathSegment (a : BGPPathAttrASPath) (pathSeg : BGPASPathSegment) : BGPPathAttrASPath :=
  {| aspath_base := base_add_length (aspath_base a) (segment_TotalLen pathSeg);
     aspath_Value := aspath_Value a ++ [pathSeg]; aspath_ASSize := aspath_ASSize a |}.

Definition NewBGPPathAttrASPath : BGPPathAttrASPath :=
  {| aspath_base := {| pa_Flags := 80; pa_Code := BGPPathAttrTypeASPath; pa_Length := 0; pa_Len := 4 |};
     aspath_Value := []; aspath_ASSize := 0 |}.

Record BGPPathAttrAS4Path := { as4path_base : BGPPathAttrBase; as4path_Value : list BGPAS4PathSegment }.

Definition BGPPathAttrAS4Path_Encode (a : BGPPathAttrAS4Path) : result bytes :=
  pkt ← BGPPathAttrBase_Encode (as4path_base a);
  encode_segments pkt (pa_Len (as4path_base a)) (Seg4 <$> as4path_Value a).

Definition BGPPathAttrAS4Path_Decode (pkt : bytes) : result BGPPathAttrAS4Path :=
  base ← BGPPathAttrBase_Decode pkt;
  value ← segments_loop BGPAS4PathSegment_Decode (fun s => seg_Len (as4s_base s))
            (Z.to_nat (pa_Length base)) pkt (pa_Len base) (u32 (pa_Length base + pa_Len base)) [];
  Ok {| as4path_base := base; as4path_Value := value |}.

Definition AddASPathSegment (a : BGPPathAttrAS4Path) (pathSeg : BGPAS4PathSegment) : BGPPathAttrAS4Path :=
  {| as4path_base := base_add_length (as4path_base a) (seg_Len (as4s_base pathSeg));
     as4path_Value := pathSeg :: as4path_Value a |}.

(** The constructor gives the attribute the code of AS_PATH. *)
Definition NewBGPPathAttrAS4Path : BGPPathAttrAS4Path :=
  {| as4path_base := {| pa_Flags := Z.lor BGPPathAttrFlagOptional BGPPathAttrFlagTransitive;
                        pa_Code := BGPPathAttrTypeASPath; pa_Length := 0; pa_Len := 4 |};
     as4path_Value := [] |}.

(** [item.( *BGPAS4PathSegment)] for every segment. *)
Fixpoint as4_segments (segs : list BGPASPathSegment) : result (list BGPAS4PathSegment) :=
  match segs with
  | [] => Ok []
  | Seg4 s :: segs => ss ← as4_segments segs; Ok (s :: ss)
  | Seg2 _ :: _ => Panic
  end.

(** [CloneAsAS4Path]: it is the header length that is increased by 4 per segment. *)
Definition CloneAsAS4Path (a : BGPPathAttrASPath) : result BGPPathAttrAS4Path :=
  segs ← as4_segments (aspath_Value a);
  let b := as4path_base NewBGPPathAttrAS4Path in
  Ok {| as4path_base := {| pa_Flags := pa_Flags b; pa_Code := pa_Code b;
                           pa_Length := pa_Length (aspath_base a);
                           pa_Len := u16 (pa_Len b + u16 (len (aspath_Value a) * 4)) |};
        as4path_Value := segs |}.

(** ** NEXT_HOP *)

Record BGPPathAttrNextHop := { nexthop_base : BGPPathAttrBase; nexthop_Value : bytes }.

(** [n.Value[cap(n.Value)-int(n.Length):]] *)
Definition BGPPathAttrNextHop_Encode (n : BGPPathAttrNextHop) : result bytes :=
  pkt ← BGPPathAttrBase_Encode (nexthop_base n);
  s ← slice_from (nexthop_Value n) (len (nexthop_Value n) - pa_Length (nexthop_base n));
  gocopy pkt (pa_Len (nexthop_base n)) s.

(** [copy(make([]byte, pa.Length), pkt[pa.BGPPathAttrLen:pa.BGPPathAttrLen+pa.Length])]: the upper
    bound is a [uint16] sum. *)
Definition copy_value (base : BGPPathAttrBase) (pkt : bytes) : result bytes :=
  s ← slice pkt (pa_Len base) (u16 (pa_Len base + pa_Length base));
  Ok (blit (make (pa_Length base)) 0 s).

Definition BGPPathAttrNextHop_Decode (pkt : bytes) : result BGPPathAttrNextHop :=
  base ← BGPPathAttrBase_Decode pkt;
  value ← copy_value base pkt;
  Ok {| nexthop_base := base; nexthop_Value := value |}.

Definition NewBGPPathAttrNextHop : BGPPathAttrNextHop :=
  {| nexthop_base := {| pa_Flags := 64; pa_Code := BGPPathAttrTypeNextHop; pa_Length := 4; pa_Len := 3 |};
     nexthop_Value := [] |}.

(** ** MULTI_EXIT_DISC *)

Record BGPPathAttrMultiExitDisc := { med_base : BGPPathAttrBase; med_Value : Z }.

Definition BGPPathAttrMultiExitDisc_Encode (m : BGPPathAttrMultiExitDisc) : result bytes :=
  pkt ← BGPPathAttrBase_Encode (med_base m);
  PutUint32 pkt (pa_Len (med_base m)) (med_Value m).

Definition BGPPathAttrMultiExitDisc_Decode (pkt : bytes) : result BGPPathAttrMultiExitDisc :=
  base ← BGPPathAttrBase_Decode pkt;
  s ← slice pkt (pa_Len base) (u16 (pa_Len base + pa_Length base));
  v ← Uint32 s;
  Ok {| med_base := base; med_Value := v |}.

Definition NewBGPPathAttrMultiExitDisc : BGPPathAttrMultiExitDisc :=
  {| med_base := {| pa_Flags := 128; pa_Code := BGPPathAttrTypeMultiExitDisc; pa_Length := 4; pa_Len := 3 |};
     med_Value := 0 |}.

(** ** LOCAL_PREF *)

Record BGPPathAttrLocalPref := { lp_base : BGPPathAttrBase; lp_Value : Z }.

Definition BGPPathAttrLocalPref_Encode (l : BGPPathAttrLocalPref) : result bytes :=
  pkt ← BGPPathAttrBase_Encode (lp_base l);
  PutUint32 pkt (pa_Len (lp_base l)) (lp_Value l).

Definition BGPPathAttrLocalPref_Decode (pkt : bytes) : result BGPPathAttrLocalPref :=
  base ← BGPPathAttrBase_Decode pkt;
  s ← slice pkt (pa_Len base) (u16 (pa_Len base + pa_Length base));
  v ← Uint32 s;
  Ok {| lp_base := base; lp_Value := v |}.

Definition NewBGPPathAttrLocalPref : BGPPathAttrLocalPref :=
  {| lp_base := {| pa_Flags := BGPPathAttrFlagTransitive; pa_Code := BGPPathAttrTypeLocalPref;
                   pa_Length := 4; pa_Len := 3 |};
     lp_Value := 0 |}.

(** ** ATOMIC_AGGREGATE: [Encode] and [Decode] are those of the embedded header. *)

Record BGPPathAttrAtomicAggregate := { atomic_base : BGPPathAttrBase }.

Definition NewBGPPathAttrAtomicAggregate : BGPPathAttrAtomicAggregate :=
  {| atomic_base := {| pa_Flags := BGPPathAttrFlagTransitive; pa_Code := BGPPathAttrTypeAtomicAggregate;
                       pa_Length := 0; pa_Len := 3 |} |}.

(** ** AGGREGATOR and AS4_AGGREGATOR *)

Record BGPAggregator2ByteAS := { agg2_AS : Z }.
Record BGPAggregator4ByteAS := { agg4_AS : Z }.

Definition BGPAggregator2ByteAS_Encode (a : BGPAggregator2ByteAS) (pkt : bytes) : result bytes :=
  PutUint16 pkt 0 (agg2_AS a).
Definition BGPAggregator2ByteAS_Decode (pkt : bytes) : result BGPAggregator2ByteAS :=
  if len pkt <? 2 then bgp_err BGPUpdateMsgError BGPAttrLenError [] else
  s ← slice pkt 0 2;
  v ← Uint16 s;
  Ok {| agg2_AS := v |}.
Definition BGPAggregator4ByteAS_Encode (a : BGPAggregator4ByteAS) (pkt : bytes) : result bytes :=
  PutUint32 pkt 0 (agg4_AS a).
Definition BGPAggregator4ByteAS_Decode (pkt : bytes) : result BGPAggregator4ByteAS :=
  s ← slice pkt 0 4;
  v ← Uint32 s;
  Ok {| agg4_AS := v |}.

(** The interface [BGPAggregatorAS]. *)
Inductive BGPAggregatorAS :=
  | Agg2 (a : BGPAggregator2ByteAS)
  | Agg4 (a : BGPAggregator4ByteAS).

Definition aggregator_as_GetLen (a : BGPAggregatorAS) : Z :=
  match a with Agg2 _ => 2 | Agg4 _ => 4 end.
Definition aggregator_as_GetAS (a : BGPAggregatorAS) : Z :=
  match a with Agg2 a => agg2_AS a | Agg4 a => agg4_AS a end.
Definition aggregator_as_Encode (a : BGPAggregatorAS) (pkt : bytes) : result bytes :=
  match a with
  | Agg2 a => BGPAggregator2ByteAS_Encode a pkt
  | Agg4 a => BGPAggregator4ByteAS_Encode a pkt
  end.
Definition aggregator_as_Decode (asSize : Z) (pkt : bytes) : result BGPAggregatorAS :=
  if asSize =? 2 then a ← BGPAggregator2ByteAS_Decode pkt; Ok (Agg2 a)
  else a ← BGPAggregator4ByteAS_Decode pkt; Ok (Agg4 a).

Record BGPPathAttrAggregator := {
  agg_base : BGPPathAttrBase;
  agg_AS : option BGPAggregatorAS;
  agg_IP : bytes;
}.

(** A method call on the nil interface panics. *)
Definition BGPPathAttrAggregator_Encode (a : BGPPathAttrAggregator) : result bytes :=
  pkt ← BGPPathAttrBase_Encode (agg_base a);
  match agg_AS a with
  | None => Panic
  | Some aggAS =>
    pkt ← with_tail pkt (pa_Len (agg_base a)) (aggregator_as_Encode aggAS);
    gocopy pkt (u16 (pa_Len (agg_base a) + aggregator_as_GetLen aggAS)) (agg_IP a)
  end.

(** [asSize+4] is a [uint8] sum. *)
Definition BGPPathAttrAggregator_Decode (pkt : bytes) (data : BGPPeerAttrs) : result BGPPathAttrAggregator :=
  base ← BGPPathAttrBase_Decode pkt;
  if pa_Length base <? u8 (ASSize data + 4) then
    d ← slice pkt 0 (BGPPathAttrBase_TotalLen base); bgp_err BGPUpdateMsgError BGPAttrLenError d
  else
  s ← slice_from pkt (pa_Len base);
  aggAS ← aggregator_as_Decode (ASSize data) s;
  s ← slice_from pkt (u16 (pa_Len base + aggregator_as_GetLen aggAS));
  Ok {| agg_base := base; agg_AS := Some aggAS; agg_IP := blit (make 4) 0 s |}.

Definition SetBGPAggregatorAS (a : BGPPathAttrAggregator) (aggAS : BGPAggregatorAS) : BGPPathAttrAggregator :=
  {| agg_base := base_add_length (agg_base a) (aggregator_as_GetLen aggAS);
     agg_AS := Some aggAS; agg_IP := agg_IP a |}.

Definition NewBGPPathAttrAggregator : BGPPathAttrAggregator :=
  {| agg_base := {| pa_Flags := Z.lor BGPPathAttrFlagTransitive BGPPathAttrFlagOptional;
                    pa_Code := BGPPathAttrTypeAggregator; pa_Length := 4; pa_Len := 3 |};
     agg_AS := None; agg_IP := [] |}.

Record BGPPathAttrAS4Aggregator := {
  agg4_base : BGPPathAttrBase;
  agg4_ByteAS : BGPAggregator4ByteAS;
  agg4_IP : bytes;
}.

Definition BGPPathAttrAS4Aggregator_Encode (a : BGPPathAttrAS4Aggregator) : result bytes :=
  pkt ← BGPPathAttrBase_Encode (agg4_base a);
  pkt ← with_tail pkt (pa_Len (agg4_base a)) (BGPAggregator4ByteAS_Encode (agg4_ByteAS a));
  gocopy pkt (u16 (pa_Len (agg4_base a) + 4)) (agg4_IP a).

Definition BGPPathAttrAS4Aggregator_Decode (pkt : bytes) : result BGPPathAttrAS4Aggregator :=
  base ← BGPPathAttrBase_Decode pkt;
  s ← slice_from pkt (pa_Len base);
  aggAS ← BGPAggregator4ByteAS_Decode s;
  s ← slice_from pkt (u16 (pa_Len base + 4));
  Ok {| agg4_base := base; agg4_ByteAS := aggAS; agg4_IP := blit (make 4) 0 s |}.

Definition SetBGPAS4AggregatorAS (a : BGPPathAttrAS4Aggregator) (aggAS : BGPAggregator4ByteAS)
    : BGPPathAttrAS4Aggregator :=
  {| agg4_base := agg4_base a; agg4_ByteAS := aggAS; agg4_IP := agg4_IP a |}.

Definition NewBGPPathAttrAS4Aggregator : BGPPathAttrAS4Aggregator :=
  {| agg4_base := {| pa_Flags := Z.lor BGPPathAttrFlagTransitive BGPPathAttrFlagOptional;
                     pa_Code := BGPPathAttrTypeAS4Aggregator; pa_Length := u16 (4 + 4); pa_Len := 3 |};
     agg4_ByteAS := {| agg4_AS := 0 |}; agg4_IP := [] |}.

(** ** ORIGINATOR_ID and CLUSTER_LIST *)

Record BGPPathAttrOriginatorId := { origid_base : BGPPathAttrBase; origid_Value : bytes }.

Definition BGPPathAttrOriginatorId_Encode (o : BGPPathAttrOriginatorId) : result bytes :=
  pkt ← BGPPathAttrBase_Encode (origid_base o);
  gocopy pkt (pa_Len (origid_base o)) (origid_Value o).

Definition BGPPathAttrOriginatorId_Decode (pkt : bytes) : result BGPPathAttrOriginatorId :=
  base ← BGPPathAttrBase_Decode pkt;
  value ← copy_value base pkt;
  Ok {| origid_base := base; origid_Value := value |}.

Definition NewBGPPathAttrOriginatorId (id : bytes) : BGPPathAttrOriginatorId :=
  {| origid_base := {| pa_Flags := BGPPathAttrFlagOptional; pa_Code := BGPPathAttrTypeOriginatorId;
                       pa_Length := 4; pa_Len := 3 |};
     origid_Value := id |}.

Record BGPPathAttrClusterList := { cl_base : BGPPathAttrBase; cl_Value : list Z }.

(** The loops over the identifiers: the index [i] and the offset [base + 4*i] are [uint16]. *)
Fixpoint put_ids (pkt : bytes) (base i : Z) (ids : list Z) : result bytes :=
  match ids with
  | [] => Ok pkt
  | id :: ids =>
    pkt ← PutUint32 pkt (u16 (base + u16 (4 * i))) id;
    put_ids pkt base (i + 1) ids
  end.

Fixpoint get_ids (n : nat) (pkt : bytes) (base i : Z) : result (list Z) :=
  match n with
  | O => Ok []
  | S n =>
    s ← slice pkt (u16 (base + u16 (4 * i))) (u16 (u16 (base + u16 (4 * i)) + 4));
    id ← Uint32 s;
    ids ← get_ids n pkt base (i + 1);
    Ok (id :: ids)
  end.

Definition BGPPathAttrClusterList_Encode (c : BGPPathAttrClusterList) : result bytes :=
  pkt ← BGPPathAttrBase_Encode (cl_base c);
  put_ids pkt (pa_Len (cl_base c)) 0 (take (Z.to_nat (u16 (len (cl_Value c)))) (cl_Value c)).

Definition BGPPathAttrClusterList_Decode (pkt : bytes) : result BGPPathAttrClusterList :=
  base ← BGPPathAttrBase_Decode pkt;
  ids ← get_ids (Z.to_nat (pa_Length base / 4)) pkt (pa_Len base) 0;
  Ok {| cl_base := base; cl_Value := ids |}.

Definition PrependId (c : BGPPathAttrClusterList) (id : Z) : BGPPathAttrClusterList :=
  {| cl_base := base_add_length (cl_base c) 4; cl_Value := id :: cl_Value c |}.

Definition NewBGPPathAttrClusterList : BGPPathAttrClusterList :=
  {| cl_base := {| pa_Flags := BGPPathAttrFlagOptional; pa_Code := BGPPathAttrTypeClusterList;
                   pa_Length := 0; pa_Len := 3 |};
     cl_Value := [] |}.

(** ** Attributes of another type *)

Record BGPPathAttrUnknown := { unk_base : BGPPathAttrBase; unk_Value : bytes }.

Definition BGPPathAttrUnknown_Encode (u : BGPPathAttrUnknown) : result bytes :=
  pkt ← BGPPathAttrBase_Encode (unk_base u);
  gocopy pkt (pa_Len (unk_base u)) (unk_Value u).

Definition BGPPathAttrUnknown_Decode (pkt : bytes) : result BGPPathAttrUnknown :=
  base ← BGPPathAttrBase_Decode pkt;
  value ← copy_value base pkt;
  Ok {| unk_base := base; unk_Value := value |}.

(** ** Next hops of MP_REACH_NLRI ([src/bgp/packet/mpbgp.go]) *)

Record MPNextHopIP := { mpip_Length : Z; mpip_Value : bytes }.

Definition mpip_wrong_len (length : Z) : bool :=
  negb (length =? 4) && negb (length =? 16) && negb (length =? 32).
Definition mpip_ipLen (length : Z) : Z :=
  if (length =? 16) || (length =? 32) then IPv6len else IPv4len.

Definition MPNextHopIP_Encode (i : MPNextHopIP) (pkt : bytes) : result bytes :=
  pkt ← sset pkt 0 (mpip_Length i);
  if mpip_wrong_len (mpip_Length i) then Err EText else
  s ← slice_from (mpip_Value i) (len (mpip_Value i) - mpip_ipLen (mpip_Length i));
  gocopy pkt 1 s.

(** The caller ignores the error but uses the value: both are returned. [net.IPv4] is the 16-byte
    form of an IPv4 address. *)
Definition MPNextHopIP_Decode (pkt : bytes) : result (MPNextHopIP * option goerr) :=
  length ← sget pkt 0;
  if mpip_wrong_len length then Ok ({| mpip_Length := length; mpip_Value := [] |}, Some EText) else
  if mpip_ipLen length =? 4 then
    a ← sget pkt 1; b ← sget pkt 2; c ← sget pkt 3; d ← sget pkt 4;
    Ok ({| mpip_Length := length; mpip_Value := IPv4 a b c d |}, None)
  else
    s ← slice_from pkt 1;
    Ok ({| mpip_Length := length; mpip_Value := blit (make (mpip_ipLen length)) 0 s |}, None).

Definition MPNextHopIP_Len (i : MPNextHopIP) : Z := u8 (mpip_Length i + 1).

(** On an error the receiver is unchanged. *)
Definition MPNextHopIP_SetNextHop (i : MPNextHopIP) (ip : bytes) : result MPNextHopIP :=
  if negb (len ip =? 4) && negb (len ip =? 16) then Err EText else
  match To4 ip, To16 ip with
  | None, None => Err EText
  | Some _, _ => Ok {| mpip_Length := IPv4len; mpip_Value := ip |}
  | None, Some _ => Ok {| mpip_Length := IPv6len; mpip_Value := ip |}
  end.

Definition NewMPNextHopIP : MPNextHopIP := {| mpip_Length := 0; mpip_Value := [] |}.

Record MPNextHopIP6 := { mpip6_IP : MPNextHopIP; mpip6_LinkLocal : option bytes }.

Definition MPNextHopIP6_Encode (i : MPNextHopIP6) (pkt : bytes) : result bytes :=
  pkt ← MPNextHopIP_Encode (mpip6_IP i) pkt;
  match mpip6_LinkLocal i with
  | None => Ok pkt
  | Some ll =>
    s ← slice_from ll (len ll - IPv6len);
    gocopy pkt (IPv6len + 1) s
  end.

Definition MPNextHopIP6_Len (i : MPNextHopIP6) : Z := MPNextHopIP_Len (mpip6_IP i).

(** [MPNextHopIP6.Decode] on a value whose embedded pointer is set; [BGPGetMPNextHop] never makes
    one. *)
Definition MPNextHopIP6_Decode (i : MPNextHopIP6) (pkt : bytes) : result (MPNextHopIP6 * option goerr) :=
  r ← MPNextHopIP_Decode pkt;
  match r with
  | (ip, Some e) => Ok ({| mpip6_IP := ip; mpip6_LinkLocal := mpip6_LinkLocal i |}, Some e)
  | (ip, None) =>
    if mpip_Length ip =? 32 then
      s ← slice_from pkt (IPv6len + 1);
      Ok ({| mpip6_IP := ip; mpip6_LinkLocal := Some (blit (make IPv6len) 0 s) |}, None)
    else Ok ({| mpip6_IP := ip; mpip6_LinkLocal := mpip6_LinkLocal i |}, None)
  end.

Definition SetGlobalNextHop (i : MPNextHopIP6) (ip : bytes) : result MPNextHopIP6 :=
  if negb (len ip =? 16) then Err EText else
  Ok {| mpip6_IP := {| mpip_Length := match mpip6_LinkLocal i with
                                      | Some _ => u8 (u8 (len ip) * 2)
                                      | None => u8 (len ip)
                                      end;
                       mpip_Value := ip |};
        mpip6_LinkLocal := mpip6_LinkLocal i |}.

(** The argument is a slice of 16 bytes after the check, so not nil. *)
Definition SetLinkLocalNextHop (i : MPNextHopIP6) (ip : bytes) : result MPNextHopIP6 :=
  if negb (len ip =? 16) then Err EText else
  Ok {| mpip6_IP := {| mpip_Length := u8 (u8 (len ip) * 2); mpip_Value := mpip_Value (mpip6_IP i) |};
        mpip6_LinkLocal := Some ip |}.

Definition NewMPNextHopIP6 : MPNextHopIP6 :=
  {| mpip6_IP := {| mpip_Length := 0; mpip_Value := [] |}; mpip6_LinkLocal := None |}.

Record MPNextHopUnknown := { mpunk_Length : Z; mpunk_Value : bytes }.

Definition MPNextHopUnknown_Encode (u : MPNextHopUnknown) (pkt : bytes) : result bytes :=
  pkt ← sset pkt 0 (mpunk_Length u);
  gocopy pkt 1 (mpunk_Value u).

Definition MPNextHopUnknown_Decode (pkt : bytes) : result MPNextHopUnknown :=
  length ← sget pkt 0;
  s ← slice_from pkt 1;
  Ok {| mpunk_Length := length; mpunk_Value := blit (make length) 0 s |}.

Definition MPNextHopUnknown_Len (u : MPNextHopUnknown) : Z := u8 (mpunk_Length u + 1).

(** The interface [MPNextHop]. *)
Inductive MPNextHop :=
  | MPIP (i : MPNextHopIP)
  | MPIP6 (i : MPNextHopIP6)
  | MPUnknown (u : MPNextHopUnknown).

Definition MPNextHop_Len (n : MPNextHop) : Z :=
  match n with
  | MPIP i => MPNextHopIP_Len i
  | MPIP6 i => MPNextHopIP6_Len i
  | MPUnknown u => MPNextHopUnknown_Len u
  end.
Definition MPNextHop_Encode (n : MPNextHop) (pkt : bytes) : result bytes :=
  match n with
  | MPIP i => MPNextHopIP_Encode i pkt
  | MPIP6 i => MPNextHopIP6_Encode i pkt
  | MPUnknown u => MPNextHopUnknown_Encode u pkt
  end.
Definition MPNextHop_GetNextHop (n : MPNextHop) : bytes :=
  match n with
  | MPIP i => mpip_Value i
  | MPIP6 i => mpip_Value (mpip6_IP i)
  | MPUnknown u => mpunk_Value u
  end.

(** [BGPGetMPNextHop], then [Decode] with its error ignored: the [New] methods of [MPNextHopIP] and
    of [MPNextHopIP6] both make an [MPNextHopIP]. *)
Definition BGPGetMPNextHop_Decode (afi : Z) (pkt : bytes) : result MPNextHop :=
  if (afi =? AfiIP) || (afi =? AfiIP6) then r ← MPNextHopIP_Decode pkt; Ok (MPIP r.1)
  else u ← MPNextHopUnknown_Decode pkt; Ok (MPUnknown u).

(** ** MP_REACH_NLRI and MP_UNREACH_NLRI *)

Record BGPPathAttrMPReachNLRI := {
  mpr_base : BGPPathAttrBase;
  mpr_AFI : Z;
  mpr_SAFI : Z;
  mpr_NextHop : option MPNextHop;
  mpr_Reserved : Z;
  mpr_NLRI : list NLRI;
}.

(** The loop that encodes the prefixes and copies them into the attribute. *)
Fixpoint encode_nlris (pkt : bytes) (idx afi : Z) (nlris : list NLRI) : result bytes :=
  match nlris with
  | [] => Ok pkt
  | n :: nlris =>
    b ← NLRI_Encode n afi;
    pkt ← gocopy pkt idx b;
    encode_nlris pkt (idx + len b) afi nlris
  end.

Definition BGPPathAttrMPReachNLRI_Encode (r : BGPPathAttrMPReachNLRI) : result bytes :=
  pkt ← BGPPathAttrBase_Encode (mpr_base r);
  let idx := pa_Len (mpr_base r) in
  pkt ← PutUint16 pkt idx (mpr_AFI r);
  pkt ← sset pkt (idx + 2) (mpr_SAFI r);
  match mpr_NextHop r with
  | None => Panic
  | Some nextHop =>
    pkt ← with_tail pkt (idx + 3) (MPNextHop_Encode nextHop);
    let idx := idx + 3 + MPNextHop_Len nextHop in
    pkt ← sset pkt idx 0;
    encode_nlris pkt (idx + 1) (mpr_AFI r) (mpr_NLRI r)
  end.

(** [length] is a [uint32]: for an attribute too short it is about 4 G. *)
Definition BGPPathAttrMPReachNLRI_Decode (pkt : bytes) (data : BGPPeerAttrs)
    : result BGPPathAttrMPReachNLRI :=
  base ← BGPPathAttrBase_Decode pkt;
  let idx := pa_Len base in
  s ← slice pkt idx (idx + 2); afi ← Uint16 s;
  safi ← sget pkt (idx + 2);
  s ← slice_from pkt (idx + 3);
  nextHop ← BGPGetMPNextHop_Decode afi s;
  let idx := idx + 3 + MPNextHop_Len nextHop in
  reserved ← sget pkt idx;
  s ← slice_from pkt (idx + 1);
  let length := u32 (pa_Length base - 4 - MPNextHop_Len nextHop) in
  n ← decodeNLRI s [] length afi data;
  Ok {| mpr_base := base; mpr_AFI := afi; mpr_SAFI := safi; mpr_NextHop := Some nextHop;
        mpr_Reserved := reserved; mpr_NLRI := n.1 |}.

Definition mpr_SetNextHop (r : BGPPathAttrMPReachNLRI) (nextHop : MPNextHop) : BGPPathAttrMPReachNLRI :=
  {| mpr_base := base_add_length (mpr_base r) (MPNextHop_Len nextHop); mpr_AFI := mpr_AFI r;
     mpr_SAFI := mpr_SAFI r; mpr_NextHop := Some nextHop; mpr_Reserved := mpr_Reserved r;
     mpr_NLRI := mpr_NLRI r |}.

Definition mpr_AddNLRI (r : BGPPathAttrMPReachNLRI) (nlri : NLRI) : BGPPathAttrMPReachNLRI :=
  {| mpr_base := base_add_length (mpr_base r) (u16 (NLRI_Len nlri)); mpr_AFI := mpr_AFI r;
     mpr_SAFI := mpr_SAFI r; mpr_NextHop := mpr_NextHop r; mpr_Reserved := mpr_Reserved r;
     mpr_NLRI := mpr_NLRI r ++ [nlri] |}.

Definition add_nlri_lengths (b : BGPPathAttrBase) (nlris : list NLRI) : BGPPathAttrBase :=
  fold_left (fun b n => base_add_length b (u16 (NLRI_Len n))) nlris b.

Definition mpr_SetNLRIList (r : BGPPathAttrMPReachNLRI) (nlris : list NLRI) : BGPPathAttrMPReachNLRI :=
  {| mpr_base := add_nlri_lengths (mpr_base r) nlris; mpr_AFI := mpr_AFI r; mpr_SAFI := mpr_SAFI r;
     mpr_NextHop := mpr_NextHop r; mpr_Reserved := mpr_Reserved r; mpr_NLRI := nlris |}.

Definition NewBGPPathAttrMPReachNLRI : BGPPathAttrMPReachNLRI :=
  {| mpr_base := {| pa_Flags := Z.lor BGPPathAttrFlagOptional BGPPathAttrFlagExtendedLen;
                    pa_Code := BGPPathAttrTypeMPReachNLRI; pa_Length := 4; pa_Len := 4 |};
     mpr_AFI := 0; mpr_SAFI := 0; mpr_NextHop := None; mpr_Reserved := 0; mpr_NLRI := [] |}.

Record BGPPathAttrMPUnreachNLRI := {
  mpu_base : BGPPathAttrBase;
  mpu_AFI : Z;
  mpu_SAFI : Z;
  mpu_NLRI : list NLRI;
}.

Definition BGPPathAttrMPUnreachNLRI_Encode (u : BGPPathAttrMPUnreachNLRI) : result bytes :=
  pkt ← BGPPathAttrBase_Encode (mpu_base u);
  let idx := pa_Len (mpu_base u) in
  pkt ← PutUint16 pkt idx (mpu_AFI u);
  pkt ← sset pkt (idx + 2) (mpu_SAFI u);
  encode_nlris pkt (idx + 3) (mpu_AFI u) (mpu_NLRI u).

Definition BGPPathAttrMPUnreachNLRI_Decode (pkt : bytes) (data : BGPPeerAttrs)
    : result BGPPathAttrMPUnreachNLRI :=
  base ← BGPPathAttrBase_Decode pkt;
  let idx := pa_Len base in
  s ← slice pkt idx (idx + 2); afi ← Uint16 s;
  safi ← sget pkt (idx + 2);
  s ← slice_from pkt (idx + 3);
  n ← decodeNLRI s [] (u32 (pa_Length base - 3)) afi data;
  Ok {| mpu_base := base; mpu_AFI := afi; mpu_SAFI := safi; mpu_NLRI := n.1 |}.

Definition mpu_AddNLRI (u : BGPPathAttrMPUnreachNLRI) (nlri : NLRI) : BGPPathAttrMPUnreachNLRI :=
  {| mpu_base := base_add_length (mpu_base u) (u16 (NLRI_Len nlri)); mpu_AFI := mpu_AFI u;
     mpu_SAFI := mpu_SAFI u; mpu_NLRI := mpu_NLRI u ++ [nlri] |}.

Definition mpu_AddNLRIList (u : BGPPathAttrMPUnreachNLRI) (nlris : list NLRI) : BGPPathAttrMPUnreachNLRI :=
  fold_left mpu_AddNLRI nlris u.

Definition NewBGPPathAttrMPUnreachNLRI : BGPPathAttrMPUnreachNLRI :=
  {| mpu_base := {| pa_Flags := Z.lor BGPPathAttrFlagOptional BGPPathAttrFlagExtendedLen;
                    pa_Code := BGPPathAttrTypeMPUnreachNLRI; pa_Length := 3; pa_Len := 4 |};
     mpu_AFI := 0; mpu_SAFI := 0; mpu_NLRI := [] |}.

(** ** The interface [BGPPathAttr] *)

Inductive BGPPathAttr :=
  | AOrigin (a : BGPPathAttrOrigin)
  | AASPath (a : BGPPathAttrASPath)
  | ANextHop (a : BGPPathAttrNextHop)
  | AMultiExitDisc (a : BGPPathAttrMultiExitDisc)
  | ALocalPref (a : BGPPathAttrLocalPref)
  | AAtomicAggregate (a : BGPPathAttrAtomicAggregate)
  | AAggregator (a : BGPPathAttrAggregator)
  | AOriginatorId (a : BGPPathAttrOriginatorId)
  | AClusterList (a : BGPPathAttrClusterList)
  | AMPReachNLRI (a : BGPPathAttrMPReachNLRI)
  | AMPUnreachNLRI (a : BGPPathAttrMPUnreachNLRI)
  | AAS4Path (a : BGPPathAttrAS4Path)
  | AAS4Aggregator (a : BGPPathAttrAS4Aggregator)
  | AUnknown (a : BGPPathAttrUnknown).

Definition attr_base (pa : BGPPathAttr) : BGPPathAttrBase :=
  match pa with
  | AOrigin a => origin_base a
  | AASPath a => aspath_base a
  | ANextHop a => nexthop_base a
  | AMultiExitDisc a => med_base a
  | ALocalPref a => lp_base a
  | AAtomicAggregate a => atomic_base a
  | AAggregator a => agg_base a
  | AOriginatorId a => origid_base a
  | AClusterList a => cl_base a
  | AMPReachNLRI a => mpr_base a
  | AMPUnreachNLRI a => mpu_base a
  | AAS4Path a => as4path_base a
  | AAS4Aggregator a => agg4_base a
  | AUnknown a => unk_base a
  end.

Definition attr_TotalLen (pa : BGPPathAttr) : Z := BGPPathAttrBase_TotalLen (attr_base pa).
Definition attr_GetCode (pa : BGPPathAttr) : Z := pa_Code (attr_base pa).

Definition attr_Encode (pa : BGPPathAttr) : result bytes :=
  match pa with
  | AOrigin a => BGPPathAttrOrigin_Encode a
  | AASPath a => BGPPathAttrASPath_Encode a
  | ANextHop a => BGPPathAttrNextHop_Encode a
  | AMultiExitDisc a => BGPPathAttrMultiExitDisc_Encode a
  | ALocalPref a => BGPPathAttrLocalPref_Encode a
  | AAtomicAggregate a => BGPPathAttrBase_Encode (atomic_base a)
  | AAggregator a => BGPPathAttrAggregator_Encode a
  | AOriginatorId a => BGPPathAttrOriginatorId_Encode a
  | AClusterList a => BGPPathAttrClusterList_Encode a
  | AMPReachNLRI a => BGPPathAttrMPReachNLRI_Encode a
  | AMPUnreachNLRI a => BGPPathAttrMPUnreachNLRI_Encode a
  | AAS4Path a => BGPPathAttrAS4Path_Encode a
  | AAS4Aggregator a => BGPPathAttrAS4Aggregator_Encode a
  | AUnknown a => BGPPathAttrUnknown_Encode a
  end.

(** [BGPGetPathAttr(pkt)], then [Decode] on the value it makes. *)
Definition BGPGetPathAttr_Decode (data : BGPPeerAttrs) (pkt : bytes) : result BGPPathAttr :=
  typeCode ← sget pkt 1;
  if typeCode =? BGPPathAttrTypeOrigin then a ← BGPPathAttrOrigin_Decode pkt; Ok (AOrigin a)
  else if typeCode =? BGPPathAttrTypeASPath then a ← BGPPathAttrASPath_Decode pkt data; Ok (AASPath a)
  else if typeCode =? BGPPathAttrTypeNextHop then a ← BGPPathAttrNextHop_Decode pkt; Ok (ANextHop a)
  else if typeCode =? BGPPathAttrTypeMultiExitDisc
       then a ← BGPPathAttrMultiExitDisc_Decode pkt; Ok (AMultiExitDisc a)
  else if typeCode =? BGPPathAttrTypeLocalPref then a ← BGPPathAttrLocalPref_Decode pkt; Ok (ALocalPref a)
  else if typeCode =? BGPPathAttrTypeAtomicAggregate
       then b ← BGPPathAttrBase_Decode pkt; Ok (AAtomicAggregate {| atomic_base := b |})
  else if typeCode =? BGPPathAttrTypeAggregator
       then a ← BGPPathAttrAggregator_Decode pkt data; Ok (AAggregator a)
  else if typeCode =? BGPPathAttrTypeOriginatorId
       then a ← BGPPathAttrOriginatorId_Decode pkt; Ok (AOriginatorId a)
  else if typeCode =? BGPPathAttrTypeClusterList
       then a ← BGPPathAttrClusterList_Decode pkt; Ok (AClusterList a)
  else if typeCode =? BGPPathAttrTypeMPReachNLRI
       then a ← BGPPathAttrMPReachNLRI_Decode pkt data; Ok (AMPReachNLRI a)
  else if typeCode =? BGPPathAttrTypeMPUnreachNLRI
       then a ← BGPPathAttrMPUnreachNLRI_Decode pkt data; Ok (AMPUnreachNLRI a)
  else if typeCode =? BGPPathAttrTypeAS4Path then a ← BGPPathAttrAS4Path_Decode pkt; Ok (AAS4Path a)
  else if typeCode =? BGPPathAttrTypeAS4Aggregator
       then a ← BGPPathAttrAS4Aggregator_Decode pkt; Ok (AAS4Aggregator a)
  else a ← BGPPathAttrUnknown_Decode pkt; Ok (AUnknown a).
