(* ===== verification/BgpAttrCodec.v ===== *)
(** The wire format of path attributes (specification) and the laws of their codec: the encoders
    write it, the decoders read it back, their loops end, and where they do not. *)
From stdpp Require Import base numbers list gmap.
From Stdlib Require Import ZArith Lia.
From S2P Require Import Prelude GoNet BgpBase BgpNlri BgpAttrs.
Open Scope Z_scope.

(** ** Specification of the header *)

Definition attr_hdr (b : BGPPathAttrBase) : bytes :=
  [pa_Flags b; pa_Code b] ++
  (if has_flag (pa_Flags b) BGPPathAttrFlagExtendedLen then be16 (pa_Length b) else [pa_Length b]).

Definition base_good (b : BGPPathAttrBase) : Prop :=
  is_u8 (pa_Flags b) /\ is_u8 (pa_Code b) /\ base_error b = None /\
  pa_Len b = (if has_flag (pa_Flags b) BGPPathAttrFlagExtendedLen then 4 else 3) /\
  (if has_flag (pa_Flags b) BGPPathAttrFlagExtendedLen then 0 <= pa_Length b < 65532
   else is_u8 (pa_Length b)).

Lemma base_good_bounds b :
  base_good b -> 0 <= pa_Length b < 65532 /\ 3 <= pa_Len b <= 4 /\ pa_Len b = len (attr_hdr b).
Proof.
  intros (_ & _ & _ & HL & Hl). unfold attr_hdr.
  destruct (has_flag _ _); rewrite HL; unfold is_u8 in *; (split; [lia | split; [lia | reflexivity]]).
Qed.

Lemma base_good_TotalLen b :
  base_good b -> BGPPathAttrBase_TotalLen b = len (attr_hdr b) + pa_Length b.
Proof.
  intros H. apply base_good_bounds in H as (? & ? & <-). unfold BGPPathAttrBase_TotalLen.
  rewrite u32_id; [lia | unfold is_u32; lia].
Qed.

Lemma Base_Encode_wire b :
  base_good b -> BGPPathAttrBase_Encode b = Ok (attr_hdr b ++ make (pa_Length b)).
Proof.
  intros H. unfold BGPPathAttrBase_Encode. rewrite base_good_TotalLen by done.
  pose proof (base_good_bounds b H) as (? & ? & HL). destruct H as (_ & _ & _ & HL' & Hl).
  unfold attr_hdr in *. destruct (has_flag _ _).
  - rewrite <- HL, HL', make_add by lia. change (make 4) with [0; 0; 0; 0].
    cbn [app]. generalize (make (pa_Length b)). intros t. unfold sset. gocbn. by rewrite take_nil, drop_0.
  - rewrite <- HL, HL', make_add, u8_id by (lia || done). change (make 3) with [0; 0; 0].
    cbn [app]. unfold sset. by gocbn.
Qed.

Lemma Base_Decode_wire b p rest :
  base_good b -> pa_Length b = len p -> BGPPathAttrBase_Decode (attr_hdr b ++ p ++ rest) = Ok b.
Proof.
  intros H Hp. pose proof (base_good_bounds b H) as (? & ? & HL). pose proof (len_nonneg rest).
  unfold BGPPathAttrBase_Decode. rewrite !len_app, <- HL, <- Hp. zif.
  destruct H as (Hf & Hc & He & HL' & Hl). unfold attr_hdr in *.
  rewrite <- (app_assoc [_; _]). cbn [app]. gocbn. destruct (has_flag _ _) eqn:Hx.
  - zif. unfold slice. cbn [length app be16]. gocbn. 
    rewrite be16_split by (unfold is_u16; lia).
    rewrite u16_id by (unfold is_u16; lia). zif.
    destruct b; cbn in *; subst. by rewrite He.
  - zif. cbn [pa_Length pa_Len]. gocbn. unfold is_u8 in *. rewrite u16_id by (unfold is_u16; lia). zif.
    destruct b; cbn in *; subst. by rewrite He.
Qed.

(** ** AS path segments *)

(** [w] is the size of an AS number: 2 or 4 bytes. *)
Definition as_wire (w a : Z) : bytes := if w =? 2 then be16 a else be32 a.
Definition as_good (w a : Z) : Prop := if w =? 2 then is_u16 a else is_u32 a.
Definition ases_wire (w : Z) (ases : list Z) : bytes := concat (as_wire w <$> ases).
Definition as_width (w : Z) : Prop := w = 2 \/ w = 4.

Definition segment_width (s : BGPASPathSegment) : Z := match s with Seg2 _ => 2 | Seg4 _ => 4 end.

(** A segment the format can carry: at least one AS, at most 126 two-byte or 63 four-byte ones (so
    that [TotalLen], computed in [uint8], does not wrap when it is decoded). *)
Definition segment_good (s : BGPASPathSegment) : Prop :=
  is_u8 (segment_GetType s) /\ Forall (as_good (segment_width s)) (segment_AS s) /\
  segment_GetLen s = len (segment_AS s) /\ 1 <= len (segment_AS s) /\
  segment_TotalLen s = segment_width s * len (segment_AS s) + 2 /\ segment_TotalLen s < 256.

Definition segment_wire (s : BGPASPathSegment) : bytes :=
  [segment_GetType s; segment_GetLen s] ++ ases_wire (segment_width s) (segment_AS s).

Lemma len_as_wire w a : as_width w -> len (as_wire w a) = w.
Proof. by intros [-> | ->]. Qed.

Lemma len_ases_wire w ases : as_width w -> len (ases_wire w ases) = w * len ases.
Proof.
  intros Hw. unfold ases_wire. induction ases as [|a ases IH]; cbn [fmap list_fmap concat]; lens; [lia|].
  rewrite len_as_wire, IH by done. lia.
Qed.

Lemma put_ases_wire w ases : forall h t off,
  as_width w -> off = len h ->
  put_ases w (h ++ make (w * len ases) ++ t) off ases = Ok (h ++ ases_wire w ases ++ t).
Proof.
  induction ases as [|a ases IH]; intros h t off Hw ->.
  { cbn [put_ases]. replace (w * len []) with 0 by (unfold len; cbn [length]; lia). done. }
  cbn [put_ases]. rewrite len_cons, Z.mul_add_distr_l, Z.mul_1_r.
  pose proof (len_nonneg ases).
  rewrite make_add, <- app_assoc by (destruct Hw as [-> | ->]; lia).
  assert (Hput : (if w =? 2 then PutUint16 (h ++ make w ++ make (w * len ases) ++ t) (len h) a
                  else PutUint32 (h ++ make w ++ make (w * len ases) ++ t) (len h) a)
                 = Ok (h ++ as_wire w a ++ make (w * len ases) ++ t) :> result bytes).
  { destruct Hw as [-> | ->]; cbn [Z.eqb Pos.eqb].
    - by rewrite PutUint16_app.
    - by rewrite PutUint32_app. }
  rewrite Hput, bind_Ok, (app_assoc h), IH; [ | done | by rewrite len_app, len_as_wire ].
  unfold ases_wire. cbn [fmap list_fmap concat]. by rewrite <- !app_assoc.
Qed.

Lemma get_ases_wire w ases : forall h t off,
  as_width w -> Forall (as_good w) ases -> off = len h ->
  get_ases w (length ases) (h ++ ases_wire w ases ++ t) off = Ok ases.
Proof.
  induction ases as [|a ases IH]; intros h t off Hw Hg ->; [done|].
  inversion_clear Hg as [|? ? Ha Hases]. cbn [length get_ases].
  rewrite slice_from_app, bind_Ok by done.
  unfold ases_wire. cbn [fmap list_fmap concat]. fold (ases_wire w ases). rewrite <- app_assoc.
  assert (Hget : (if w =? 2 then Uint16 (as_wire w a ++ ases_wire w ases ++ t)
                  else Uint32 (as_wire w a ++ ases_wire w ases ++ t)) = Ok a :> result Z).
  { unfold as_wire, as_good in *. destruct Hw as [-> | ->]; cbn [Z.eqb Pos.eqb] in *.
    - by rewrite Uint16_be16.
    - by rewrite Uint32_be32. }
  rewrite Hget, bind_Ok, (app_assoc h), IH; [done.. | by rewrite len_app, len_as_wire].
Qed.

Lemma len_segment_wire s : segment_good s -> len (segment_wire s) = segment_TotalLen s.
Proof.
  intros (_ & _ & _ & _ & -> & _). unfold segment_wire. lens. rewrite len_ases_wire; [lia|].
  destruct s; [by left | by right].
Qed.

Lemma segment_Encode_wire s t :
  segment_good s -> segment_Encode s (make (len (segment_wire s)) ++ t) = Ok (segment_wire s ++ t).
Proof.
  intros Hg. rewrite len_segment_wire by done. destruct Hg as (_ & _ & Hl & Hn & Ht & Hb).
  rewrite Ht, Z.add_comm.
  assert (Hput : forall w ty l ases, as_width w -> 1 <= len ases ->
    (pkt ← BGPASPathSegmentBase_Encode {| seg_Type := ty; seg_Length := l; seg_Len := 0 |}
             (make (2 + w * len ases) ++ t); put_ases w pkt 2 ases)
    = Ok ([ty; l] ++ ases_wire w ases ++ t)).
  { intros w ty l ases Hw ?. rewrite make_add by (destruct Hw as [-> | ->]; lia).
    change (make 2) with [0; 0]. rewrite <- app_assoc. cbn [app].
    unfold BGPASPathSegmentBase_Encode, sset. gocbn.
    apply (put_ases_wire w ases [ty; l] t 2); [done | reflexivity]. }
  destruct s as [[[ty l n] ases] | [[ty l n] ases]]; unfold segment_wire; rewrite <- app_assoc;
    [apply (Hput 2) | apply (Hput 4)]; (by left) || (by right) || done.
Qed.

Lemma segment_Decode_wire asSize s rest :
  segment_good s -> segment_width s = (if asSize =? 4 then 4 else 2) ->
  segment_Decode asSize (segment_wire s ++ rest) = Ok s.
Proof.
  intros Hg Hw. pose proof (len_segment_wire s Hg) as Hlen.
  destruct Hg as (Hty & Has & Hl & Hn & Ht & Hb). rewrite Ht in Hlen.
  unfold segment_Decode, segment_wire in *.
  assert (Hbase : forall ty l ases w, as_width w -> 1 <= len ases ->
    BGPASPathSegmentBase_Decode (([ty; l] ++ ases_wire w ases) ++ rest) = Ok (ty, l)).
  { intros ty l ases w Hw' ?. unfold BGPASPathSegmentBase_Decode. pose proof (len_nonneg rest).
    rewrite !len_app, len_ases_wire by done. change (len [ty; l]) with 2.
    destruct Hw' as [-> | ->]; zif; reflexivity. }
  destruct s as [[[ty l n] ases] | [[ty l n] ases]]; cbn in Hl, Ht, Hb, Hn, Has, Hw;
    cbn [segment_GetType segment_GetLen segment_AS segment_width segment_base as2_base as4s_base
         as2_AS as4s_AS seg_Type seg_Length] in *.
  - destruct (asSize =? 4); [done|]. unfold BGPAS2PathSegment_Decode.
    rewrite Hbase, bind_Ok, len_app, Hlen by (by left || done). pose proof (len_nonneg rest). subst l. zif.
    rewrite <- app_assoc. rewrite to_nat_len.
    rewrite get_ases_wire by (by left || done). rewrite !bind_Ok.
    rewrite u8_id by (unfold is_u8; lia). rewrite Z.mul_comm. by rewrite Ht.
  - destruct (asSize =? 4); [|done]. unfold BGPAS4PathSegment_Decode.
    rewrite Hbase, bind_Ok, len_app, Hlen by (by right || done). pose proof (len_nonneg rest). subst l. zif.
    rewrite <- app_assoc. rewrite to_nat_len.
    rewrite get_ases_wire by (by right || done). rewrite !bind_Ok.
    rewrite u8_id by (unfold is_u8; lia). rewrite Z.mul_comm. by rewrite Ht.
Qed.

Definition segments_wire (ss : list BGPASPathSegment) : bytes := concat (segment_wire <$> ss).

Lemma encode_segments_wire ss : forall h t off,
  Forall segment_good ss -> off = len h -> off + len (segments_wire ss) < 65536 ->
  encode_segments (h ++ make (len (segments_wire ss)) ++ t) off ss = Ok (h ++ segments_wire ss ++ t).
Proof.
  induction ss as [|s ss IH]; intros h t off Hg -> Hb; [done|].
  inversion_clear Hg as [|? ? Hs Hss]. unfold segments_wire in *. cbn [fmap list_fmap concat] in *.
  fold (segments_wire ss) in *. rewrite len_app in *. cbn [encode_segments].
  pose proof (len_nonneg (segments_wire ss)). pose proof (len_nonneg (segment_wire s)).
  pose proof (len_nonneg h). rewrite make_add, <- app_assoc by lia.
  rewrite with_tail_app, segment_Encode_wire, !bind_Ok by done.
  rewrite <- len_segment_wire, u16_id by (done || (unfold is_u16; lia)).
  rewrite (app_assoc h), IH; [by rewrite <- !app_assoc | done | by rewrite len_app | lia].
Qed.

Lemma segments_loop_wire {S} (dec : bytes -> result S) tlen (wire : S -> bytes) (good : S -> Prop)
    (Hdec : forall s rest, good s -> dec (wire s ++ rest) = Ok s)
    (Hlen : forall s, good s -> tlen s = len (wire s) /\ 0 < tlen s) ss : forall fuel h t acc off end_,
  Forall good ss -> len (concat (wire <$> ss)) <= Z.of_nat fuel -> off = len h ->
  end_ = off + len (concat (wire <$> ss)) -> end_ < 65536 ->
  segments_loop dec tlen fuel (h ++ concat (wire <$> ss) ++ t) off end_ acc = Ok (acc ++ ss).
Proof.
  induction ss as [|s ss IH]; intros fuel h t acc off end_ Hg Hf -> He Hb; cbn [fmap list_fmap concat] in *.
  { rewrite He in *. destruct fuel; cbn [segments_loop]; change (len []) with 0 in *; zif;
      by rewrite app_nil_r. }
  inversion_clear Hg as [|? ? Hs Hss]. destruct (Hlen s Hs) as [Ht Hp].
  rewrite len_app in *. pose proof (len_nonneg h). pose proof (len_nonneg (concat (wire <$> ss))).
  destruct fuel as [|fuel]; [lia|]. cbn [segments_loop]. zif.
  rewrite slice_from_app, bind_Ok, <- app_assoc, Hdec by done.
  rewrite u32_id by (unfold is_u32; lia). cbn zeta. rewrite Z.gtb_ltb. zif.
  rewrite (app_assoc h), IH; [by rewrite <- app_assoc | done | lia | rewrite len_app; lia | lia | lia].
Qed.

(** ** MP next hops *)

(** The next hops the decoder makes: an IPv4 address in its 16-byte form, or a 16-byte address
    (with 16 more bytes on the wire when the length says 32). *)
Definition mpip_good (i : MPNextHopIP) : Prop :=
  mpip_Length i = 4 /\ (exists a b c d, mpip_Value i = IPv4 a b c d) \/
  (mpip_Length i = 16 \/ mpip_Length i = 32) /\ len (mpip_Value i) = 16.

Definition mpip_wire (i : MPNextHopIP) : bytes :=
  mpip_Length i ::
  (if mpip_Length i =? 4 then drop 12 (mpip_Value i)
   else mpip_Value i ++ make (mpip_Length i - 16)).

Lemma len_mpip_wire i : mpip_good i -> len (mpip_wire i) = MPNextHopIP_Len i.
Proof.
  destruct i as [l v]. unfold mpip_good, mpip_wire, MPNextHopIP_Len. cbn.
  intros [[-> (? & ? & ? & ? & ->)] | [[-> | ->] Hv]]; [done | |]; cbn [Z.eqb Pos.eqb];
    rewrite len_cons, len_app, len_make, Hv by lia; reflexivity.
Qed.

Lemma len_16_inv (v : bytes) : len v = 16 -> exists v', v = v' /\ length v = 16%nat.
Proof. unfold len. eauto with lia. Qed.

#[local] Arguments gocopy : simpl never.
#[local] Arguments slice_from : simpl never.

Lemma slice_from_1 {E} b (s : bytes) : slice_from (E := E) (b :: s) 1 = Ok s.
Proof. unfold slice_from. gocbn. by rewrite drop_0. Qed.

Lemma MPNextHopIP_Encode_wire i t :
  mpip_good i -> MPNextHopIP_Encode i (make (len (mpip_wire i)) ++ t) = Ok (mpip_wire i ++ t).
Proof.
  intros Hg. rewrite len_mpip_wire by done. destruct i as [l v].
  unfold mpip_good, mpip_wire, MPNextHopIP_Encode, MPNextHopIP_Len in *. cbn in Hg |- *.
  destruct Hg as [[-> (? & ? & ? & ? & ->)] | [Hl Hv]].
  { change (u8 (4 + 1)) with 5. unfold sset, slice_from, gocopy. gocbn. change (_ - _) with 12. gocbn. by rewrite take_nil, drop_0. }
  replace (u8 (l + 1)) with (1 + (l - 16 + 16)) by (by destruct Hl as [-> | ->]).
  rewrite make_add by (destruct Hl as [-> | ->]; lia). change (make 1) with [0]. unfold sset. gocbn.
  replace (mpip_wrong_len l) with false by (by destruct Hl as [-> | ->]).
  replace (mpip_ipLen l) with 16 by (by destruct Hl as [-> | ->]). rewrite Hv.
  rewrite slice_from_ok, bind_Ok by lia. change (16 - 16) with 0. gocbn. rewrite drop_0.
  replace (l =? 4) with false by (by destruct Hl as [-> | ->]).
  rewrite Z.add_comm, make_add by (destruct Hl as [-> | ->]; lia).
  rewrite <- app_assoc.
  change (l :: make 16 ++ make (l - 16) ++ t) with ([l] ++ make 16 ++ make (l - 16) ++ t). rewrite gocopy_app; [by rewrite <- app_assoc | reflexivity |].
  rewrite length_make. unfold len in Hv. lia.
Qed.

Lemma MPNextHopIP_Decode_wire i rest :
  mpip_good i -> MPNextHopIP_Decode (mpip_wire i ++ rest) = Ok (i, None).
Proof.
  destruct i as [l v]. unfold mpip_good, mpip_wire, MPNextHopIP_Decode. cbn.
  intros [[-> (? & ? & ? & ? & ->)] | [Hl Hv]]; [reflexivity|].
  unfold sget. gocbn. replace (mpip_wrong_len l) with false by (by destruct Hl as [-> | ->]).
  replace (mpip_ipLen l) with 16 by (by destruct Hl as [-> | ->]).
  replace (l =? 4) with false by (by destruct Hl as [-> | ->]).
  cbn [Z.eqb Pos.eqb]. rewrite <- app_assoc. rewrite slice_from_1.
  rewrite bind_Ok. do 4 f_equal. unfold blit. rewrite take_0, drop_ge.
  - rewrite app_nil_r. cbn [app]. rewrite length_make. apply take_app_length'.
    unfold len in Hv. lia.
  - rewrite length_make, !length_app. unfold len in Hv. lia.
Qed.

(** ** Specification of the attributes *)

Definition aggregator_as_wire (a : BGPAggregatorAS) : bytes :=
  match a with Agg2 a => be16 (agg2_AS a) | Agg4 a => be32 (agg4_AS a) end.

Definition nlris_wire (ns : list NLRI) : bytes := concat (NLRI_wire <$> ns).

Definition attr_payload (pa : BGPPathAttr) : bytes :=
  match pa with
  | AOrigin a => [origin_Value a]
  | AASPath a => segments_wire (aspath_Value a)
  | ANextHop a => nexthop_Value a
  | AMultiExitDisc a => be32 (med_Value a)
  | ALocalPref a => be32 (lp_Value a)
  | AAtomicAggregate _ => []
  | AAggregator a => from_option aggregator_as_wire [] (agg_AS a) ++ agg_IP a
  | AOriginatorId a => origid_Value a
  | AClusterList a => ases_wire 4 (cl_Value a)
  | AMPReachNLRI a =>
    be16 (mpr_AFI a) ++ [mpr_SAFI a] ++
    (match mpr_NextHop a with Some (MPIP i) => mpip_wire i | _ => [] end) ++ [0] ++
    nlris_wire (mpr_NLRI a)
  | AMPUnreachNLRI a => be16 (mpu_AFI a) ++ [mpu_SAFI a] ++ nlris_wire (mpu_NLRI a)
  | AAS4Path a => segments_wire (Seg4 <$> as4path_Value a)
  | AAS4Aggregator a => be32 (agg4_AS (agg4_ByteAS a)) ++ agg4_IP a
  | AUnknown a => unk_Value a
  end.

Definition attr_wire (pa : BGPPathAttr) : bytes := attr_hdr (attr_base pa) ++ attr_payload pa.

(** The code that goes with a Go type. *)
Definition attr_code_ok (pa : BGPPathAttr) : Prop :=
  match pa with
  | AOrigin _ => attr_GetCode pa = BGPPathAttrTypeOrigin
  | AASPath _ => attr_GetCode pa = BGPPathAttrTypeASPath
  | ANextHop _ => attr_GetCode pa = BGPPathAttrTypeNextHop
  | AMultiExitDisc _ => attr_GetCode pa = BGPPathAttrTypeMultiExitDisc
  | ALocalPref _ => attr_GetCode pa = BGPPathAttrTypeLocalPref
  | AAtomicAggregate _ => attr_GetCode pa = BGPPathAttrTypeAtomicAggregate
  | AAggregator _ => attr_GetCode pa = BGPPathAttrTypeAggregator
  | AOriginatorId _ => attr_GetCode pa = BGPPathAttrTypeOriginatorId
  | AClusterList _ => attr_GetCode pa = BGPPathAttrTypeClusterList
  | AMPReachNLRI _ => attr_GetCode pa = BGPPathAttrTypeMPReachNLRI
  | AMPUnreachNLRI _ => attr_GetCode pa = BGPPathAttrTypeMPUnreachNLRI
  | AAS4Path _ => attr_GetCode pa = BGPPathAttrTypeAS4Path
  | AAS4Aggregator _ => attr_GetCode pa = BGPPathAttrTypeAS4Aggregator
  | AUnknown _ => attr_GetCode pa ∉ [1; 2; 3; 4; 5; 6; 7; 9; 10; 14; 15; 17; 18]
  end.

(** What the value of an attribute must satisfy in a session with these peer attributes. *)
Definition attr_value_ok (data : BGPPeerAttrs) (pa : BGPPathAttr) : Prop :=
  match pa with
  | AOrigin a => 0 <= origin_Value a < 3
  | AASPath a =>
    Forall segment_good (aspath_Value a) /\ aspath_ASSize a = ASSize data /\
    Forall (fun s => segment_width s = if ASSize data =? 4 then 4 else 2) (aspath_Value a)
  | AMultiExitDisc a => is_u32 (med_Value a)
  | ALocalPref a => is_u32 (lp_Value a)
  | AAggregator a =>
    len (agg_IP a) = 4 /\
    match agg_AS a with
    | Some (Agg2 x) => ASSize data = 2 /\ is_u16 (agg2_AS x)
    | Some (Agg4 x) => ASSize data = 4 /\ is_u32 (agg4_AS x)
    | None => False
    end
  | AClusterList a => Forall is_u32 (cl_Value a)
  | AMPReachNLRI a =>
    known_afi (mpr_AFI a) /\ mpr_Reserved a = 0 /\
    Forall (NLRI_good (AddPathsRxActual data) (mpr_AFI a)) (mpr_NLRI a) /\
    match mpr_NextHop a with Some (MPIP i) => mpip_good i | _ => False end
  | AMPUnreachNLRI a =>
    known_afi (mpu_AFI a) /\ Forall (NLRI_good (AddPathsRxActual data) (mpu_AFI a)) (mpu_NLRI a)
  | AAS4Path a => Forall segment_good (Seg4 <$> as4path_Value a)
  | AAS4Aggregator a => is_u32 (agg4_AS (agg4_ByteAS a)) /\ len (agg4_IP a) = 4
  | _ => True
  end.

Definition attr_good (data : BGPPeerAttrs) (pa : BGPPathAttr) : Prop :=
  base_good (attr_base pa) /\ pa_Length (attr_base pa) = len (attr_payload pa) /\
  attr_code_ok pa /\ attr_value_ok data pa.

Definition attr_codec (data : BGPPeerAttrs) : Codec goerr BGPPathAttr := {|
  wire := attr_wire; good := attr_good data; enc := attr_Encode;
  dec := BGPGetPathAttr_Decode data; tlen := attr_TotalLen |}.

(** ** Reading and writing the value of an attribute *)

Section payload.
Context (b : BGPPathAttrBase) (p : bytes) (Hb : base_good b) (Hp : pa_Length b = len p).

Lemma Base_Encode_payload : BGPPathAttrBase_Encode b = Ok (attr_hdr b ++ make (len p)).
Proof. by rewrite Base_Encode_wire, Hp. Qed.

Lemma gocopy_payload : gocopy (attr_hdr b ++ make (len p)) (pa_Len b) p
                       = Ok (attr_hdr b ++ p) :> result bytes.
Proof.
  rewrite <- (app_nil_r (make _)), gocopy_app; [by rewrite app_nil_r | |].
  - by apply base_good_bounds.
  - rewrite length_make. unfold len. lia.
Qed.

Lemma slice_payload rest :
  slice (attr_hdr b ++ p ++ rest) (pa_Len b) (u16 (pa_Len b + pa_Length b)) = Ok p :> result bytes.
Proof.
  pose proof (base_good_bounds b Hb) as (? & ? & HL). rewrite u16_id by (unfold is_u16; lia).
  apply slice_app; [done | by rewrite <- Hp, <- HL].
Qed.

Lemma copy_value_payload rest : copy_value b (attr_hdr b ++ p ++ rest) = Ok p.
Proof.
  unfold copy_value. rewrite slice_payload, bind_Ok, Hp. f_equal. unfold blit.
  rewrite take_0, drop_ge, app_nil_r by (rewrite length_make; unfold len; lia).
  cbn [app]. apply take_ge. rewrite length_make. unfold len. lia.
Qed.

Lemma slice_from_payload q rest :
  slice_from (attr_hdr b ++ (q ++ p) ++ rest) (pa_Len b + len q) = Ok (p ++ rest) :> result bytes.
Proof.
  pose proof (base_good_bounds b Hb) as (? & ? & ->).
  rewrite <- app_assoc, app_assoc. apply slice_from_app. by rewrite len_app.
Qed.
End payload.

(** The in-place writers of a value that fills the buffer. *)
Lemma PutUint32_payload b v :
  base_good b -> PutUint32 (attr_hdr b ++ make (len (be32 v))) (pa_Len b) v
                 = Ok (attr_hdr b ++ be32 v) :> result bytes.
Proof.
  intros Hb. rewrite <- (app_nil_r (make _)), PutUint32_app; [by rewrite app_nil_r | | done].
  by apply base_good_bounds.
Qed.

Lemma encode_nlris_wire rx afi ns : forall h t off,
  known_afi afi -> Forall (NLRI_good rx afi) ns -> off = len h ->
  encode_nlris (h ++ make (len (nlris_wire ns)) ++ t) off afi ns = Ok (h ++ nlris_wire ns ++ t).
Proof.
  induction ns as [|n ns IH]; intros h t off Hafi Hg ->; [done|].
  inversion_clear Hg as [|? ? Hn Hns]. unfold nlris_wire. cbn [fmap list_fmap concat encode_nlris].
  fold (nlris_wire ns). pose proof (len_nonneg (nlris_wire ns)). pose proof (len_nonneg (NLRI_wire n)).
  rewrite (NLRI_Encode_wire rx), bind_Ok, len_app, make_add, <- app_assoc by (done || lia).
  rewrite gocopy_app, bind_Ok, (app_assoc h), IH;
    [by rewrite <- !app_assoc | done | done | by rewrite len_app | done |].
  rewrite length_make. by rewrite to_nat_len.
Qed.

Lemma put_ids_wire ids : forall h t base i,
  base + 4 * i = len h -> 0 <= base -> 0 <= i -> len h + 4 * len ids < 65536 ->
  put_ids (h ++ make (4 * len ids) ++ t) base i ids = Ok (h ++ ases_wire 4 ids ++ t).
Proof.
  induction ids as [|id ids IH]; intros h t base i Hh Hb Hi Hl; [done|].
  rewrite len_cons in *. pose proof (len_nonneg ids). cbn [put_ids].
  rewrite (u16_id (4 * i)), u16_id by (unfold is_u16; lia).
  replace (4 * (1 + len ids)) with (4 + 4 * len ids) by lia. rewrite make_add, <- app_assoc by lia.
  rewrite PutUint32_app, bind_Ok, app_assoc, IH by (rewrite ?len_app, ?len_be32; done || lia).
  unfold ases_wire at 2. cbn [fmap list_fmap concat]. rewrite <- !app_assoc. done.
Qed.

Lemma get_ids_wire ids : forall h t base i,
  base + 4 * i = len h -> 0 <= base -> 0 <= i -> len h + 4 * len ids < 65536 -> Forall is_u32 ids ->
  get_ids (length ids) (h ++ ases_wire 4 ids ++ t) base i = Ok ids.
Proof.
  induction ids as [|id ids IH]; intros h t base i Hh Hb Hi Hl Hg; [done|].
  inversion_clear Hg as [|? ? Hid Hids].
  rewrite len_cons in *. pose proof (len_nonneg ids). cbn [length get_ids].
  rewrite (u16_id (4 * i)), (u16_id (base + 4 * i)), u16_id by (unfold is_u16; lia).
  unfold ases_wire. cbn [fmap list_fmap concat as_wire Z.eqb Pos.eqb]. fold (ases_wire 4 ids).
  rewrite <- (app_assoc (be32 id)), slice_app by (rewrite ?len_be32; lia).
  rewrite bind_Ok, <- (app_nil_r (be32 id)), Uint32_be32, bind_Ok, app_nil_r by done.
  rewrite app_assoc, IH; (rewrite ?len_app, ?len_be32; done || lia).
Qed.

(** ** Encoders *)

Lemma MPReach_Encode_wire data a :
  attr_good data (AMPReachNLRI a) -> BGPPathAttrMPReachNLRI_Encode a = Ok (attr_wire (AMPReachNLRI a)).
Proof.
  intros (Hb & Hl & _ & Hafi & _ & Hns & Hn). cbn [attr_base] in *.
  unfold BGPPathAttrMPReachNLRI_Encode, attr_wire. rewrite (Base_Encode_payload _ _ Hb Hl), bind_Ok.
  cbn [attr_base attr_payload]. pose proof (base_good_bounds _ Hb) as (? & ? & HL).
  destruct (mpr_NextHop a) as [[i| |]|]; try done.
  pose proof (len_nonneg (mpip_wire i)). pose proof (len_nonneg (nlris_wire (mpr_NLRI a))).
  rewrite !make_len_app.
  rewrite PutUint16_app, bind_Ok by done. change (make (len [mpr_SAFI a])) with [0].
  change (make (len [0])) with [0]. cbn [app].
  rewrite app_assoc, sset_app, bind_Ok by (rewrite len_app, len_be16; lia).
  rewrite <- !app_assoc. rewrite (app_assoc (attr_hdr _)), (cons_middle (mpr_SAFI a)), !app_assoc.
  rewrite <- (app_assoc _ (make (len (mpip_wire i)))). cbn [MPNextHop_Encode MPNextHop_Len].
  rewrite with_tail_app by (lens; lia). cbn [MPNextHop_Encode].
  rewrite MPNextHopIP_Encode_wire, !bind_Ok by done.
  rewrite <- len_mpip_wire by done.
  rewrite app_assoc, sset_app, bind_Ok by (lens; lia).
  rewrite (cons_middle 0), app_assoc, <- (app_nil_r (make _)).
  rewrite (encode_nlris_wire (AddPathsRxActual data)) by (done || (lens; lia)).
  rewrite app_nil_r, <- !app_assoc. done.
Qed.

Lemma MPUnreach_Encode_wire data a :
  attr_good data (AMPUnreachNLRI a) ->
  BGPPathAttrMPUnreachNLRI_Encode a = Ok (attr_wire (AMPUnreachNLRI a)).
Proof.
  intros (Hb & Hl & _ & Hafi & Hns). cbn [attr_base] in *.
  unfold BGPPathAttrMPUnreachNLRI_Encode, attr_wire. rewrite (Base_Encode_payload _ _ Hb Hl), bind_Ok.
  cbn [attr_base attr_payload]. pose proof (base_good_bounds _ Hb) as (? & ? & HL).
  pose proof (len_nonneg (nlris_wire (mpu_NLRI a))).
  rewrite !make_len_app.
  rewrite PutUint16_app, bind_Ok by done. change (make (len [mpu_SAFI a])) with [0]. cbn [app].
  rewrite app_assoc, sset_app, bind_Ok by (rewrite len_app, len_be16; lia).
  rewrite (cons_middle (mpu_SAFI a)), app_assoc, <- (app_nil_r (make _)).
  rewrite (encode_nlris_wire (AddPathsRxActual data)) by (done || (lens; lia)).
  rewrite app_nil_r, <- !app_assoc. done.
Qed.

Lemma Aggregator_Encode_wire data a :
  attr_good data (AAggregator a) -> BGPPathAttrAggregator_Encode a = Ok (attr_wire (AAggregator a)).
Proof.
  intros (Hb & Hl & _ & Hip & Has). cbn [attr_base] in *.
  unfold BGPPathAttrAggregator_Encode, attr_wire. rewrite (Base_Encode_payload _ _ Hb Hl), bind_Ok.
  cbn [attr_base attr_payload]. pose proof (base_good_bounds _ Hb) as (? & ? & HL).
  destruct (agg_AS a) as [x|]; [|done]. cbn [from_option].
  assert (Hx : len (aggregator_as_wire x) = aggregator_as_GetLen x) by by destruct x.
  assert (Henc : forall t, aggregator_as_Encode x (make (aggregator_as_GetLen x) ++ t)
                           = Ok (aggregator_as_wire x ++ t)).
  { intros t. destruct x; cbn [aggregator_as_Encode aggregator_as_wire aggregator_as_GetLen].
    - by apply PutUint16_0.
    - by apply PutUint32_0. }
  rewrite make_len_app, Hx, with_tail_app, Henc, !bind_Ok by done.
  rewrite app_assoc, <- (app_nil_r (make _)), gocopy_app; [by rewrite app_nil_r, <- app_assoc | |].
  - rewrite len_app, Hx, u16_id; [lia | destruct x; cbn; unfold is_u16; lia].
  - rewrite length_make, to_nat_len. done.
Qed.

Lemma AS4Aggregator_Encode_wire data a :
  attr_good data (AAS4Aggregator a) ->
  BGPPathAttrAS4Aggregator_Encode a = Ok (attr_wire (AAS4Aggregator a)).
Proof.
  intros (Hb & Hl & _ & Has & Hip). cbn [attr_base] in *.
  unfold BGPPathAttrAS4Aggregator_Encode, attr_wire. rewrite (Base_Encode_payload _ _ Hb Hl), bind_Ok.
  cbn [attr_base attr_payload]. pose proof (base_good_bounds _ Hb) as (? & ? & HL).
  rewrite make_len_app, with_tail_app by done.
  unfold BGPAggregator4ByteAS_Encode.
  rewrite PutUint32_0, !bind_Ok by done.
  rewrite app_assoc, <- (app_nil_r (make _)), gocopy_app; [by rewrite app_nil_r, <- app_assoc | |].
  - rewrite len_app, len_be32, u16_id; [lia | unfold is_u16; lia].
  - rewrite length_make, to_nat_len. done.
Qed.

Lemma segments_Encode_wire b ss :
  base_good b -> pa_Length b = len (segments_wire ss) -> Forall segment_good ss ->
  (pkt ← BGPPathAttrBase_Encode b; encode_segments pkt (pa_Len b) ss)
  = Ok (attr_hdr b ++ segments_wire ss).
Proof.
  intros Hb Hl Hg. rewrite (Base_Encode_payload _ _ Hb Hl), bind_Ok.
  pose proof (base_good_bounds _ Hb) as (? & ? & HL). rewrite <- (app_nil_r (make _)).
  rewrite encode_segments_wire by (done || lia). by rewrite app_nil_r.
Qed.

Lemma ClusterList_Encode_wire data a :
  attr_good data (AClusterList a) -> BGPPathAttrClusterList_Encode a = Ok (attr_wire (AClusterList a)).
Proof.
  intros (Hb & Hl & _ & Hids). cbn [attr_base attr_payload] in *.
  unfold BGPPathAttrClusterList_Encode, attr_wire. rewrite (Base_Encode_payload _ _ Hb Hl), bind_Ok.
  pose proof (base_good_bounds _ Hb) as (? & ? & HL). cbn [attr_base attr_payload].
  rewrite len_ases_wire in * by (by right). pose proof (len_nonneg (cl_Value a)).
  rewrite u16_id by (unfold is_u16; lia). rewrite to_nat_len, take_ge by done.
  rewrite <- (app_nil_r (make _)), put_ids_wire by lia. by rewrite app_nil_r.
Qed.

Lemma attr_Encode_wire data pa : attr_good data pa -> attr_Encode pa = Ok (attr_wire pa).
Proof.
  intros Hg. pose proof Hg as (Hb & Hl & _ & Hv).
  pose proof (Base_Encode_payload _ _ Hb Hl) as Henc. pose proof (gocopy_payload _ (attr_payload pa) Hb) as Hcp.
  pose proof (base_good_bounds _ Hb) as (? & ? & HL).
  destruct pa as [a|a|a|a|a|a|a|a|a|a|a|a|a|a]; unfold attr_Encode;
    cbn [attr_base attr_payload attr_value_ok] in *.
  - unfold BGPPathAttrOrigin_Encode. rewrite Henc, bind_Ok. by apply sset_app.
  - apply segments_Encode_wire; [done | done | apply Hv].
  - unfold BGPPathAttrNextHop_Encode. rewrite Henc, bind_Ok, Hl, Z.sub_diag.
    rewrite slice_from_ok, bind_Ok by (pose proof (len_nonneg (nexthop_Value a)); lia).
    by rewrite drop_0, Hcp.
  - unfold BGPPathAttrMultiExitDisc_Encode. rewrite Henc, bind_Ok. by apply PutUint32_payload.
  - unfold BGPPathAttrLocalPref_Encode. rewrite Henc, bind_Ok. by apply PutUint32_payload.
  - rewrite Henc. done.
  - by apply (Aggregator_Encode_wire data).
  - unfold BGPPathAttrOriginatorId_Encode. by rewrite Henc, bind_Ok, Hcp.
  - by apply (ClusterList_Encode_wire data).
  - by apply (MPReach_Encode_wire data).
  - by apply (MPUnreach_Encode_wire data).
  - by apply segments_Encode_wire.
  - by apply (AS4Aggregator_Encode_wire data).
  - unfold BGPPathAttrUnknown_Encode. by rewrite Henc, bind_Ok, Hcp.
Qed.

(** ** Decoders *)

Lemma Base_Decode_attr data pa rest :
  attr_good data pa ->
  BGPPathAttrBase_Decode (attr_hdr (attr_base pa) ++ attr_payload pa ++ rest) = Ok (attr_base pa).
Proof. intros (Hb & Hl & _). by apply Base_Decode_wire. Qed.

(** The slice [pkt[hdr+len q:]] of an attribute whose value starts with [q]. *)
Lemma slice_from_attr b q p rest i :
  base_good b -> i = pa_Len b + len q ->
  slice_from (attr_hdr b ++ (q ++ p) ++ rest) i = Ok (p ++ rest) :> result bytes.
Proof. intros Hb ->. by apply slice_from_payload. Qed.

Lemma afi_dispatch afi pkt i :
  known_afi afi -> mpip_good i ->
  BGPGetMPNextHop_Decode afi (mpip_wire i ++ pkt) = Ok (MPIP i).
Proof.
  intros Hafi Hi. unfold BGPGetMPNextHop_Decode.
  replace ((afi =? AfiIP) || (afi =? AfiIP6)) with true by (by destruct Hafi as [-> | ->]).
  by rewrite MPNextHopIP_Decode_wire.
Qed.

Lemma decodeNLRI_nlris ns afi data rest length :
  known_afi afi -> Forall (NLRI_good (AddPathsRxActual data) afi) ns ->
  length = len (nlris_wire ns) -> length < 65536 ->
  decodeNLRI (nlris_wire ns ++ rest) [] length afi data = Ok (ns, length).
Proof.
  intros Hafi Hns -> Hl. apply (decodeNLRI_wires ns afi data rest Hafi Hns).
  change (wires _ ns) with (nlris_wire ns). lia.
Qed.

Lemma MPReach_Decode_wire data a rest :
  attr_good data (AMPReachNLRI a) ->
  BGPPathAttrMPReachNLRI_Decode (attr_wire (AMPReachNLRI a) ++ rest) data = Ok a.
Proof.
  intros Hg. pose proof (Base_Decode_attr data _ rest Hg) as Hdec.
  destruct Hg as (Hb & Hl & _ & Hafi & Hres & Hns & Hn). unfold attr_wire. rewrite <- app_assoc.
  unfold BGPPathAttrMPReachNLRI_Decode. cbn [attr_base attr_payload] in *. rewrite Hdec, bind_Ok. clear Hdec.
  pose proof (base_good_bounds _ Hb) as (? & ? & HL).
  destruct (mpr_NextHop a) as [[i| |]|] eqn:Hnh; try done.
  pose proof (len_nonneg (mpip_wire i)). pose proof (len_nonneg (nlris_wire (mpr_NLRI a))).
  assert (is_u16 (mpr_AFI a)) by (unfold is_u16; destruct Hafi as [-> | ->]; cbv; split; congruence).
  assert (Hl' : pa_Length (mpr_base a) = 4 + len (mpip_wire i) + len (nlris_wire (mpr_NLRI a)))
    by (rewrite Hl; lens; lia).
  rewrite <- (app_assoc (be16 _)), slice_app, bind_Ok by (rewrite ?len_be16; lia).
  rewrite <- (app_nil_r (be16 _)) at 1. rewrite Uint16_be16, bind_Ok by done.
  rewrite (app_assoc (attr_hdr _)). cbn [app]. rewrite sget_app, bind_Ok by (lens; lia).
  rewrite cons_middle, app_assoc, slice_from_app, bind_Ok by (lens; lia).
  rewrite <- !(app_assoc (mpip_wire i)), afi_dispatch, bind_Ok by done. cbn [MPNextHop_Len].
  rewrite <- len_mpip_wire by done. rewrite app_assoc. cbn [app]. rewrite sget_app, bind_Ok by (lens; lia).
  rewrite cons_middle, app_assoc, slice_from_app, bind_Ok by (lens; lia).
  replace (u32 _) with (len (nlris_wire (mpr_NLRI a))) by (rewrite u32_id; unfold is_u32; lia).
  rewrite decodeNLRI_nlris, bind_Ok by (done || lia). rewrite <- Hnh, <- Hres. by destruct a.
Qed.

Lemma MPUnreach_Decode_wire data a rest :
  attr_good data (AMPUnreachNLRI a) ->
  BGPPathAttrMPUnreachNLRI_Decode (attr_wire (AMPUnreachNLRI a) ++ rest) data = Ok a.
Proof.
  intros Hg. pose proof (Base_Decode_attr data _ rest Hg) as Hdec.
  destruct Hg as (Hb & Hl & _ & Hafi & Hns). unfold attr_wire. rewrite <- app_assoc.
  unfold BGPPathAttrMPUnreachNLRI_Decode. cbn [attr_base attr_payload] in *. rewrite Hdec, bind_Ok. clear Hdec.
  pose proof (base_good_bounds _ Hb) as (? & ? & HL).
  pose proof (len_nonneg (nlris_wire (mpu_NLRI a))).
  assert (is_u16 (mpu_AFI a)) by (unfold is_u16; destruct Hafi as [-> | ->]; cbv; split; congruence).
  assert (Hl' : pa_Length (mpu_base a) = 3 + len (nlris_wire (mpu_NLRI a))) by (rewrite Hl; lens; lia).
  rewrite <- (app_assoc (be16 _)), slice_app, bind_Ok by (rewrite ?len_be16; lia).
  rewrite <- (app_nil_r (be16 _)) at 1. rewrite Uint16_be16, bind_Ok by done.
  rewrite (app_assoc (attr_hdr _)). cbn [app]. rewrite sget_app, bind_Ok by (lens; lia).
  rewrite cons_middle, app_assoc, slice_from_app, bind_Ok by (lens; lia).
  replace (u32 _) with (len (nlris_wire (mpu_NLRI a))) by (rewrite u32_id; unfold is_u32; lia).
  rewrite decodeNLRI_nlris, bind_Ok by (done || lia). by destruct a.
Qed.

(** The two aggregator decoders copy the four bytes that follow the AS number. *)
Lemma blit_4 s rest : len s = 4 -> blit (make 4) 0 (s ++ rest) = s.
Proof. intros H. apply len_4_inv in H as (? & ? & ? & ? & ->). unfold blit. gocbn. by rewrite drop_nil. Qed.

Lemma slice_be32 v rest : slice (be32 v ++ rest) 0 4 = Ok (be32 v) :> result bytes.
Proof. by apply (slice_app [] (be32 v) rest). Qed.

Lemma BGPAggregator4ByteAS_Decode_wire v rest :
  is_u32 v -> BGPAggregator4ByteAS_Decode (be32 v ++ rest) = Ok {| agg4_AS := v |}.
Proof.
  intros Hv. unfold BGPAggregator4ByteAS_Decode. rewrite slice_be32, bind_Ok.
  by rewrite <- (app_nil_r (be32 v)), Uint32_be32.
Qed.

Lemma BGPAggregator2ByteAS_Decode_wire v rest :
  is_u16 v -> BGPAggregator2ByteAS_Decode (be16 v ++ rest) = Ok {| agg2_AS := v |}.
Proof.
  intros Hv. unfold BGPAggregator2ByteAS_Decode. pose proof (len_nonneg rest).
  rewrite len_app, len_be16. zif.
  change (slice (be16 v ++ rest) 0 2) with (Ok (be16 v ++ []) : result bytes). rewrite bind_Ok, app_nil_r.
  by rewrite <- (app_nil_r (be16 v)), Uint16_be16.
Qed.

Lemma Aggregator_Decode_wire data a rest :
  attr_good data (AAggregator a) ->
  BGPPathAttrAggregator_Decode (attr_wire (AAggregator a) ++ rest) data = Ok a.
Proof.
  intros Hg. pose proof (Base_Decode_attr data _ rest Hg) as Hdec.
  destruct Hg as (Hb & Hl & _ & Hip & Has). unfold attr_wire. rewrite <- app_assoc.
  unfold BGPPathAttrAggregator_Decode. cbn [attr_base attr_payload] in *. rewrite Hdec, bind_Ok. clear Hdec.
  pose proof (base_good_bounds _ Hb) as (? & ? & HL). rewrite Hl.
  destruct (agg_AS a) as [x|] eqn:Hx; [|done]. cbn [from_option].
  assert (Hw : len (aggregator_as_wire x) = aggregator_as_GetLen x) by by destruct x.
  assert (Hs : ASSize data = aggregator_as_GetLen x) by by destruct x, Has.
  rewrite len_app, Hip, Hw, Hs, u8_id by (destruct x; cbn; unfold is_u8; lia).
  destruct (_ <? _) eqn:?; [zhyp; lia|].
  rewrite slice_from_app, bind_Ok, <- app_assoc by done.
  assert (Hd : forall t, aggregator_as_Decode (aggregator_as_GetLen x) (aggregator_as_wire x ++ t) = Ok x).
  { intros t. destruct x as [[v]|[v]]; destruct Has as [_ Hv]; unfold aggregator_as_Decode;
      cbn [aggregator_as_GetLen Z.eqb Pos.eqb aggregator_as_wire agg2_AS agg4_AS] in *.
    - by rewrite BGPAggregator2ByteAS_Decode_wire, bind_Ok.
    - by rewrite BGPAggregator4ByteAS_Decode_wire, bind_Ok. }
  rewrite Hd, bind_Ok, u16_id by (destruct x; cbn; unfold is_u16; lia).
  rewrite app_assoc, slice_from_app, bind_Ok, blit_4 by (done || (rewrite len_app; lia)).
  rewrite <- Hx. by destruct a.
Qed.

Lemma AS4Aggregator_Decode_wire data a rest :
  attr_good data (AAS4Aggregator a) ->
  BGPPathAttrAS4Aggregator_Decode (attr_wire (AAS4Aggregator a) ++ rest) = Ok a.
Proof.
  intros Hg. pose proof (Base_Decode_attr data _ rest Hg) as Hdec.
  destruct Hg as (Hb & Hl & _ & Has & Hip). unfold attr_wire. rewrite <- app_assoc.
  unfold BGPPathAttrAS4Aggregator_Decode. cbn [attr_base attr_payload] in *. rewrite Hdec, bind_Ok. clear Hdec.
  pose proof (base_good_bounds _ Hb) as (? & ? & HL).
  rewrite (slice_from_app (attr_hdr _) _ (pa_Len _)), bind_Ok by done. rewrite <- (app_assoc (be32 _)).
  rewrite BGPAggregator4ByteAS_Decode_wire, bind_Ok by exact Has.
  rewrite u16_id, app_assoc, slice_from_app, bind_Ok, blit_4
    by (done || (unfold is_u16; lia) || (rewrite len_app, len_be32; lia)).
  by destruct a as [? [] ?].
Qed.

Lemma ASPath_Decode_wire data a rest :
  attr_good data (AASPath a) ->
  BGPPathAttrASPath_Decode (attr_wire (AASPath a) ++ rest) data = Ok a.
Proof.
  intros Hg. pose proof (Base_Decode_attr data _ rest Hg) as Hdec.
  destruct Hg as (Hb & Hl & _ & Hss & Hsz & Hw). unfold attr_wire. rewrite <- app_assoc.
  unfold BGPPathAttrASPath_Decode. cbn [attr_base attr_payload] in *. rewrite Hdec, bind_Ok. clear Hdec.
  pose proof (base_good_bounds _ Hb) as (? & ? & HL). unfold segments_wire in *.
  rewrite (segments_loop_wire _ _ segment_wire
             (fun s => segment_good s /\ segment_width s = if ASSize data =? 4 then 4 else 2)).
  - rewrite bind_Ok, <- Hsz. by destruct a.
  - intros s r []. by apply segment_Decode_wire.
  - intros s [Hs _]. rewrite len_segment_wire by done. destruct Hs as (_ & _ & _ & ? & -> & _).
    split; [done|]. destruct s; cbn [segment_width]; lia.
  - by apply Forall_and.
  - rewrite <- Hl. lia.
  - done.
  - rewrite u32_id; [lia | unfold is_u32; lia].
  - rewrite u32_id; unfold is_u32; lia.
Qed.

Lemma AS4Path_Decode_wire data a rest :
  attr_good data (AAS4Path a) ->
  BGPPathAttrAS4Path_Decode (attr_wire (AAS4Path a) ++ rest) = Ok a.
Proof.
  intros Hg. pose proof (Base_Decode_attr data _ rest Hg) as Hdec.
  destruct Hg as (Hb & Hl & _ & Hss). unfold attr_wire. rewrite <- app_assoc.
  unfold BGPPathAttrAS4Path_Decode. cbn [attr_base attr_payload attr_value_ok] in *.
  rewrite Hdec, bind_Ok. clear Hdec.
  pose proof (base_good_bounds _ Hb) as (? & ? & HL). unfold segments_wire in *.
  rewrite <- list_fmap_compose in *. rewrite Forall_fmap in Hss.
  rewrite (segments_loop_wire _ _ (segment_wire ∘ Seg4) (segment_good ∘ Seg4)).
  - rewrite bind_Ok. by destruct a.
  - intros s r Hs. pose proof (segment_Decode_wire 4 (Seg4 s) r Hs eq_refl) as Hd.
    unfold segment_Decode in Hd. cbn [Z.eqb Pos.eqb] in Hd.
    apply bind_Ok_inv in Hd as (s' & Hd & [= ->]). done.
  - intros s Hs. cbn [compose]. unfold compose. rewrite len_segment_wire by done. split; [done|].
    destruct Hs as (_ & _ & _ & ? & Ht & _). change (seg_Len (as4s_base s)) with (segment_TotalLen (Seg4 s)).
    rewrite Ht. cbn [segment_width segment_AS] in *. lia.
  - done.
  - rewrite <- Hl. lia.
  - done.
  - rewrite u32_id; [lia | unfold is_u32; lia].
  - rewrite u32_id; unfold is_u32; lia.
Qed.

Lemma ClusterList_Decode_wire data a rest :
  attr_good data (AClusterList a) ->
  BGPPathAttrClusterList_Decode (attr_wire (AClusterList a) ++ rest) = Ok a.
Proof.
  intros Hg. pose proof (Base_Decode_attr data _ rest Hg) as Hdec.
  destruct Hg as (Hb & Hl & _ & Hids). unfold attr_wire. rewrite <- app_assoc.
  unfold BGPPathAttrClusterList_Decode. cbn [attr_base attr_payload attr_value_ok] in *.
  rewrite Hdec, bind_Ok. clear Hdec.
  pose proof (base_good_bounds _ Hb) as (? & ? & HL). pose proof (len_nonneg (cl_Value a)).
  rewrite len_ases_wire in Hl by (by right). rewrite Hl, Z.mul_comm, Z.div_mul, to_nat_len by lia.
  rewrite get_ids_wire by (done || lia). rewrite bind_Ok. by destruct a.
Qed.

(** Evaluate the comparisons of attribute codes. *)
Ltac code_cbn :=
  unfold BGPPathAttrTypeOrigin, BGPPathAttrTypeASPath, BGPPathAttrTypeNextHop,
    BGPPathAttrTypeMultiExitDisc, BGPPathAttrTypeLocalPref, BGPPathAttrTypeAtomicAggregate,
    BGPPathAttrTypeAggregator, BGPPathAttrTypeOriginatorId, BGPPathAttrTypeClusterList,
    BGPPathAttrTypeMPReachNLRI, BGPPathAttrTypeMPUnreachNLRI, BGPPathAttrTypeAS4Path,
    BGPPathAttrTypeAS4Aggregator; cbn [Z.eqb Pos.eqb].

Lemma attr_Decode_wire data pa rest :
  attr_good data pa -> BGPGetPathAttr_Decode data (attr_wire pa ++ rest) = Ok pa.
Proof.
  intros Hg. pose proof Hg as (Hb & Hl & Hc & Hv). unfold BGPGetPathAttr_Decode.
  assert (sget (attr_wire pa ++ rest) 1 = Ok (attr_GetCode pa) :> result Z) as ->.
  { unfold attr_wire, attr_hdr, attr_GetCode. reflexivity. }
  pose proof (Base_Decode_attr data pa rest Hg) as Hdec.
  pose proof (copy_value_payload _ (attr_payload pa) Hb Hl rest) as Hcv.
  pose proof (slice_payload _ (attr_payload pa) Hb Hl rest) as Hsl.
  pose proof (base_good_bounds _ Hb) as (? & ? & HL). rewrite bind_Ok.
  destruct pa as [a|a|a|a|a|a|a|a|a|a|a|a|a|a]; cbn [attr_code_ok] in Hc; try rewrite Hc; code_cbn.
  - unfold BGPPathAttrOrigin_Decode, attr_wire. cbn [attr_base attr_payload attr_value_ok] in *.
    rewrite <- app_assoc, Hdec, bind_Ok. cbn [app]. rewrite sget_app, bind_Ok by done.
    unfold BGPPathAttrOriginMax. destruct (_ >=? _) eqn:Hge; [apply Z.geb_le in Hge; lia|]. by destruct a.
  - by rewrite ASPath_Decode_wire.
  - unfold BGPPathAttrNextHop_Decode, attr_wire. cbn [attr_base attr_payload] in *.
    rewrite <- app_assoc, Hdec, bind_Ok, Hcv, bind_Ok. by destruct a.
  - unfold BGPPathAttrMultiExitDisc_Decode, attr_wire. cbn [attr_base attr_payload attr_value_ok] in *.
    rewrite <- app_assoc, Hdec, bind_Ok, Hsl, bind_Ok.
    rewrite <- (app_nil_r (be32 _)), Uint32_be32, bind_Ok by done. by destruct a.
  - unfold BGPPathAttrLocalPref_Decode, attr_wire. cbn [attr_base attr_payload attr_value_ok] in *.
    rewrite <- app_assoc, Hdec, bind_Ok, Hsl, bind_Ok.
    rewrite <- (app_nil_r (be32 _)), Uint32_be32, bind_Ok by done. by destruct a.
  - unfold attr_wire. cbn [attr_base attr_payload] in *. rewrite <- app_assoc, Hdec. by destruct a.
  - by rewrite Aggregator_Decode_wire.
  - unfold BGPPathAttrOriginatorId_Decode, attr_wire. cbn [attr_base attr_payload] in *.
    rewrite <- app_assoc, Hdec, bind_Ok, Hcv, bind_Ok. by destruct a.
  - by rewrite (ClusterList_Decode_wire data).
  - by rewrite MPReach_Decode_wire.
  - by rewrite MPUnreach_Decode_wire.
  - by rewrite (AS4Path_Decode_wire data).
  - by rewrite (AS4Aggregator_Decode_wire data).
  - assert (Hne : forall k, k ∈ [1; 2; 3; 4; 5; 6; 7; 9; 10; 14; 15; 17; 18] ->
      (attr_GetCode (AUnknown a) =? k) = false).
    { intros k Hk. apply Z.eqb_neq. intros Hk'. apply Hc. by rewrite Hk'. }
    rewrite !Hne by (repeat first [left | right]).
    unfold BGPPathAttrUnknown_Decode, attr_wire. cbn [attr_base attr_payload] in *.
    rewrite <- app_assoc, Hdec, bind_Ok, Hcv, bind_Ok. by destruct a.
Qed.
