(* ===== verification/BgpAttrFacts.v ===== *)
(** Path attributes on arbitrary input: what their decoders accept, when they end, and the
    invariants their constructors and update methods keep. *)
From stdpp Require Import base numbers list gmap.
From Stdlib Require Import ZArith Lia.
From S2P Require Import Prelude GoNet BgpBase BgpNlri BgpAttrs BgpAttrCodec.
Open Scope Z_scope.

(** ** The attribute header *)

Lemma Base_Decode_no_hang pkt : BGPPathAttrBase_Decode pkt <> Hang.
Proof. unfold BGPPathAttrBase_Decode. intros H. hang_inv; repeat case_match; hang_inv. Qed.

Lemma Base_Decode_Ok pkt b :
  bytes_ok pkt -> BGPPathAttrBase_Decode pkt = Ok b ->
  is_u8 (pa_Flags b) /\ is_u8 (pa_Code b) /\ base_error b = None /\
  pa_Len b = (if has_flag (pa_Flags b) BGPPathAttrFlagExtendedLen then 4 else 3) /\
  is_u16 (pa_Length b) /\ u16 (pa_Length b + pa_Len b) <= len pkt.
Proof.
  intros Hb. unfold BGPPathAttrBase_Decode. destruct (len pkt <? 3); [discriminate|].
  intros (flags & Hf & (code & Hc & (b' & Hb' & Hr)%bind_Ok_inv)%bind_Ok_inv)%bind_Ok_inv.
  apply sget_range in Hf, Hc; [|done..].
  destruct (len pkt <? u16 _) eqn:Hlen; [discriminate|]. zhyp.
  destruct (base_error b') eqn:He.
  { apply bind_Ok_inv in Hr as (? & _ & [=]). }
  injection Hr as <-. destruct (has_flag flags _) eqn:Hx.
  - destruct (len pkt <? 4); [discriminate|].
    apply bind_Ok_inv in Hb' as (s & (_ & _ & -> & _)%slice_inv & (l & Hl & [= <-])%bind_Ok_inv).
    apply Uint16_range in Hl; [|by apply bytes_ok_take, bytes_ok_drop].
    cbn [pa_Flags pa_Code pa_Len pa_Length] in *. rewrite Hx. repeat split; (done || apply Hf || apply Hc || apply Hl).
  - apply bind_Ok_inv in Hb' as (l & Hl & [= <-]). apply sget_range in Hl; [|done].
    cbn [pa_Flags pa_Code pa_Len pa_Length] in *. rewrite Hx. unfold is_u8, is_u16 in *. repeat split; (done || lia).
Qed.

(** The errors of the header decoder are UPDATE message errors. *)
Lemma Base_Decode_Err pkt e :
  BGPPathAttrBase_Decode pkt = Err e ->
  exists m, e = EMsg m /\ TypeCode m = BGPUpdateMsgError /\
    SubTypeCode m ∈ [BGPMalformedAttrList; BGPUnrecognizedWellKnownAttr; BGPAttrFlagsError; BGPAttrLenError].
Proof.
  assert (Hs : forall b s, base_error b = Some s ->
    s ∈ [BGPMalformedAttrList; BGPUnrecognizedWellKnownAttr; BGPAttrFlagsError; BGPAttrLenError]).
  { intros b s. unfold base_error. repeat case_match; intros [= <-]; repeat first [left | right]. }
  unfold BGPPathAttrBase_Decode. intros H.
  err_inv; try (destruct (base_error _) eqn:He in H; err_inv); try discriminate;
    unfold bgp_err in H; injection H as <-; eexists; (split; [reflexivity|]); (split; [reflexivity|]); cbn [SubTypeCode];
    first [by eapply Hs | left].
Qed.

(** ** Termination of the decoders *)

Lemma get_ases_no_hang w n : forall pkt off, get_ases w n pkt off <> Hang.
Proof.
  induction n as [|n IH]; intros pkt off H; cbn [get_ases] in H; hang_inv. by eapply IH.
Qed.

Lemma get_ids_no_hang n : forall pkt base i, get_ids n pkt base i <> Hang.
Proof.
  induction n as [|n IH]; intros pkt base i H; cbn [get_ids] in H; hang_inv. by eapply IH.
Qed.

Lemma BGPAS4PathSegment_Decode_no_hang pkt : BGPAS4PathSegment_Decode pkt <> Hang.
Proof.
  intros H. unfold BGPAS4PathSegment_Decode, BGPASPathSegmentBase_Decode in H.
  hang_inv. by eapply get_ases_no_hang.
Qed.

(** Four bytes per AS: the total length of a segment, even reduced to [uint8], is never 0. *)
Lemma BGPAS4PathSegment_Decode_Len pkt s :
  BGPAS4PathSegment_Decode pkt = Ok s -> 2 <= seg_Len (as4s_base s) < 256.
Proof.
  unfold BGPAS4PathSegment_Decode. intros ([ty l] & _ & H)%bind_Ok_inv.
  destruct (_ <? _) in H; [discriminate|]. apply bind_Ok_inv in H as (ases & _ & [= <-]).
  cbn [as4s_base seg_Len]. unfold u8. Z.div_mod_to_equations. lia.
Qed.

Lemma segments_loop_no_hang {S} (dec : bytes -> result S) tlen
    (Hdec : forall p, dec p <> Hang) (Hlen : forall p s, dec p = Ok s -> 1 <= tlen s < 256) :
  forall fuel pkt ptr end_ acc,
  0 <= ptr -> end_ < 2 ^ 31 -> (Z.to_nat (end_ - ptr) <= fuel)%nat ->
  segments_loop dec tlen fuel pkt ptr end_ acc <> Hang.
Proof.
  induction fuel as [|fuel IH]; intros pkt ptr end_ acc Hp He Hf; cbn [segments_loop].
  { zif. destruct (_ =? _); discriminate. }
  destruct (ptr <? end_) eqn:?; [|destruct (_ =? _); discriminate]. zhyp.
  intros H. hang_inv. destruct (dec _) as [s| | |] eqn:Hd; try discriminate; [|by eapply Hdec].
  apply Hlen in Hd. rewrite u32_id in H by (unfold is_u32; lia).
  destruct (ptr + tlen s >? end_); [discriminate|]. eapply IH; [..|exact H]; lia.
Qed.

Lemma path_end_bound b :
  is_u16 (pa_Length b) -> 3 <= pa_Len b <= 4 -> u32 (pa_Length b + pa_Len b) = pa_Length b + pa_Len b.
Proof. intros ? ?. apply u32_id. unfold is_u16, is_u32 in *. lia. Qed.

Lemma Base_Decode_bounds pkt b :
  bytes_ok pkt -> BGPPathAttrBase_Decode pkt = Ok b -> is_u16 (pa_Length b) /\ 3 <= pa_Len b <= 4.
Proof.
  intros Hb H. apply Base_Decode_Ok in H as (_ & _ & _ & -> & Hl & _); [|done].
  split; [done|]. case_match; lia.
Qed.

Lemma ASPath_Decode_no_hang pkt data :
  bytes_ok pkt -> ASSize data = 4 -> BGPPathAttrASPath_Decode pkt data <> Hang.
Proof.
  intros Hb Hs H. unfold BGPPathAttrASPath_Decode in H. hang_inv; [by eapply Base_Decode_no_hang|].
  match goal with Hd : BGPPathAttrBase_Decode _ = Ok _ |- _ => apply Base_Decode_bounds in Hd as [Hl Hn]; [|done] end.
  rewrite path_end_bound in H by done. rewrite Hs in H. unfold is_u16 in Hl.
  eapply segments_loop_no_hang; [..|exact H]; try lia.
  - intros p Hd. unfold segment_Decode in Hd. cbn [Z.eqb Pos.eqb] in Hd. hang_inv.
    by eapply BGPAS4PathSegment_Decode_no_hang.
  - intros p s Hd. unfold segment_Decode in Hd. cbn [Z.eqb Pos.eqb] in Hd.
    apply bind_Ok_inv in Hd as (s' & Hd%BGPAS4PathSegment_Decode_Len & [= <-]).
    unfold segment_TotalLen, segment_base. lia.
Qed.

Lemma AS4Path_Decode_no_hang pkt : bytes_ok pkt -> BGPPathAttrAS4Path_Decode pkt <> Hang.
Proof.
  intros Hb H. unfold BGPPathAttrAS4Path_Decode in H. hang_inv; [by eapply Base_Decode_no_hang|].
  match goal with Hd : BGPPathAttrBase_Decode _ = Ok _ |- _ => apply Base_Decode_bounds in Hd as [Hl Hn]; [|done] end.
  rewrite path_end_bound in H by done. unfold is_u16 in Hl.
  eapply segments_loop_no_hang; [..|exact H]; try lia.
  - apply BGPAS4PathSegment_Decode_no_hang.
  - intros p s Hd%BGPAS4PathSegment_Decode_Len. lia.
Qed.

Lemma MPNextHop_Decode_no_hang afi pkt : BGPGetMPNextHop_Decode afi pkt <> Hang.
Proof.
  intros H. unfold BGPGetMPNextHop_Decode, MPNextHopIP_Decode, MPNextHopUnknown_Decode in H. hang_inv.
Qed.

Lemma aggregator_as_Decode_no_hang asSize pkt : aggregator_as_Decode asSize pkt <> Hang.
Proof.
  intros H. unfold aggregator_as_Decode, BGPAggregator2ByteAS_Decode, BGPAggregator4ByteAS_Decode in H.
  hang_inv.
Qed.

Lemma copy_value_no_hang b pkt : copy_value b pkt <> Hang.
Proof. intros H. unfold copy_value in H. hang_inv. Qed.

Create HintDb no_hang.
#[export] Hint Resolve Base_Decode_no_hang copy_value_no_hang aggregator_as_Decode_no_hang
  MPNextHop_Decode_no_hang get_ids_no_hang ASPath_Decode_no_hang AS4Path_Decode_no_hang : no_hang.

(** Close a goal whose hypothesis says that a call that always returns hangs. *)
Ltac no_hang :=
  hang_inv; exfalso;
  match goal with H : ?c = Hang |- _ => assert (c <> Hang) by auto with no_hang; contradiction end.

Lemma Decode_slice_from_len {E} (s t : bytes) i : slice_from (E := E) s i = Ok t -> len t <= len s.
Proof. intros (? & _ & ->)%slice_from_inv. lia. Qed.

Lemma attr_Decode_no_hang pkt data :
  bytes_ok pkt -> len pkt < 2 ^ 31 -> ASSize data = 4 -> BGPGetPathAttr_Decode data pkt <> Hang.
Proof.
  intros Hb Hl Hs H. unfold BGPGetPathAttr_Decode in H. hang_inv; try no_hang; revert H.
  - unfold BGPPathAttrOrigin_Decode. intros H. no_hang.
  - unfold BGPPathAttrNextHop_Decode. intros H. no_hang.
  - unfold BGPPathAttrMultiExitDisc_Decode. intros H. no_hang.
  - unfold BGPPathAttrLocalPref_Decode. intros H. no_hang.
  - unfold BGPPathAttrAggregator_Decode. intros H. no_hang.
  - unfold BGPPathAttrOriginatorId_Decode. intros H. no_hang.
  - unfold BGPPathAttrClusterList_Decode. intros H. no_hang.
  - unfold BGPPathAttrMPReachNLRI_Decode. intros H. hang_inv; try no_hang.
    revert H. apply decodeNLRI_no_hang.
    repeat match goal with Hx : slice_from _ _ = Ok _ |- _ => apply Decode_slice_from_len in Hx end. lia.
  - unfold BGPPathAttrMPUnreachNLRI_Decode. intros H. hang_inv; try no_hang.
    revert H. apply decodeNLRI_no_hang.
    repeat match goal with Hx : slice_from _ _ = Ok _ |- _ => apply Decode_slice_from_len in Hx end. lia.
  - unfold BGPPathAttrAS4Aggregator_Decode, BGPAggregator4ByteAS_Decode. intros H. no_hang.
  - unfold BGPPathAttrUnknown_Decode. intros H. no_hang.
Qed.

(** ** What the constructors and the update methods keep *)

(** The lengths a segment records agree with its AS numbers. *)
Definition segment_wf (s : BGPASPathSegment) : Prop :=
  segment_GetLen s = len (segment_AS s) /\ len (segment_AS s) <= 255 /\
  segment_TotalLen s = segment_width s * len (segment_AS s) + 2.

(** An AS number as a segment of this width stores it. *)
Definition narrow (w a : Z) : Z := if w =? 2 then u16 a else a.

(** The result of adding an AS number to a segment, at the front or at the back. *)
Definition segment_added (s : BGPASPathSegment) (ases : list Z) (r : BGPASPathSegment * bool) : Prop :=
  if segment_GetLen s <? 255
  then exists s', r = (s', true) /\ segment_wf s' /\ segment_AS s' = ases /\
         segment_GetType s' = segment_GetType s /\ segment_width s' = segment_width s
  else r = (s, false).

Lemma segment_add_wf (s : BGPASPathSegment) :
  segment_wf s -> segment_GetLen s < 255 ->
  u8 (segment_GetLen s + 1) = 1 + len (segment_AS s) /\
  u16 (segment_TotalLen s + segment_width s) = segment_width s * (1 + len (segment_AS s)) + 2 /\
  1 + len (segment_AS s) <= 255.
Proof.
  intros (Hl & Hb & Ht) Hlt. pose proof (len_nonneg (segment_AS s)). rewrite Ht, Hl in *.
  rewrite u8_id, u16_id; unfold is_u8, is_u16; destruct s; cbn [segment_width]; lia.
Qed.

(** Both methods, for both widths. *)
Ltac segment_step :=
  rewrite Z.geb_leb; zif; eexists; (split; [reflexivity|]);
  unfold segment_wf, segment_GetLen, segment_TotalLen in *;
  cbn [segment_AS segment_base as2_AS as4s_AS as2_base as4s_base seg_Length seg_Len segment_width] in *;
  rewrite ?len_app, len_cons, ?len_nil; repeat split; (done || lia).

Lemma segment_PrependAS_spec s a :
  segment_wf s -> segment_added s (narrow (segment_width s) a :: segment_AS s) (segment_PrependAS s a).
Proof.
  intros Hwf. pose proof (segment_add_wf s Hwf) as Hadd. unfold segment_added.
  destruct (segment_GetLen s <? 255) eqn:Hlt; zhyp; [destruct (Hadd Hlt) as (? & ? & ?)|];
    destruct s as [s|s]; cbn [segment_PrependAS]; unfold BGPAS2PathSegment_PrependAS, BGPAS4PathSegment_PrependAS;
    unfold segment_GetLen in Hlt; cbn [segment_base] in Hlt; try segment_step; rewrite Z.geb_leb; by zif.
Qed.

Lemma segment_AppendAS_spec s a :
  segment_wf s -> segment_added s (segment_AS s ++ [narrow (segment_width s) a]) (segment_AppendAS s a).
Proof.
  intros Hwf. pose proof (segment_add_wf s Hwf) as Hadd. unfold segment_added.
  destruct (segment_GetLen s <? 255) eqn:Hlt; zhyp; [destruct (Hadd Hlt) as (? & ? & ?)|];
    destruct s as [s|s]; cbn [segment_AppendAS]; unfold BGPAS2PathSegment_AppendAS, BGPAS4PathSegment_AppendAS;
    unfold segment_GetLen in Hlt; cbn [segment_base] in Hlt; try segment_step; rewrite Z.geb_leb; by zif.
Qed.

(** The length an AS_PATH records is the number of bytes of its segments. *)
Definition aspath_wf (a : BGPPathAttrASPath) : Prop :=
  Forall segment_wf (aspath_Value a) /\ pa_Length (aspath_base a) = len (segments_wire (aspath_Value a)).

Lemma segment_wf_wire s : segment_wf s -> len (segment_wire s) = segment_TotalLen s.
Proof.
  intros (_ & _ & ->). unfold segment_wire. lens. rewrite len_ases_wire; [lia|].
  destruct s; [by left | by right].
Qed.

Lemma segments_wire_app ss ts : segments_wire (ss ++ ts) = segments_wire ss ++ segments_wire ts.
Proof. unfold segments_wire. by rewrite fmap_app, concat_app. Qed.

Lemma segments_wire_1 s : segments_wire [s] = segment_wire s.
Proof. apply app_nil_r. Qed.

Lemma aspath_add_wf a s ss :
  aspath_wf a -> segment_wf s -> len (segments_wire ss) = len (segments_wire (aspath_Value a)) + segment_TotalLen s ->
  Forall segment_wf ss -> len (segments_wire ss) < 65536 ->
  aspath_wf {| aspath_base := base_add_length (aspath_base a) (segment_TotalLen s); aspath_Value := ss;
               aspath_ASSize := aspath_ASSize a |}.
Proof.
  intros [Ha Hl] Hs Hlen Hss Hb. split; [done|]. cbn [aspath_base aspath_Value base_add_length pa_Length].
  rewrite Hl, <- Hlen, u16_id; [done|]. pose proof (len_nonneg (segments_wire ss)). unfold is_u16. lia.
Qed.

(** The lengths of several prefixes. *)
Lemma add_nlri_lengths_spec afi rx ns : forall b,
  known_afi afi -> Forall (NLRI_good rx afi) ns -> 0 <= pa_Length b ->
  pa_Length b + len (nlris_wire ns) < 65536 ->
  add_nlri_lengths b ns =
  {| pa_Flags := pa_Flags b; pa_Code := pa_Code b; pa_Length := pa_Length b + len (nlris_wire ns); pa_Len := pa_Len b |}.
Proof.
  induction ns as [|n ns IH]; intros b Hafi Hg Hb Hl; unfold add_nlri_lengths; cbn [fold_left].
  { change (len (nlris_wire [])) with 0. rewrite Z.add_0_r. by destruct b. }
  inversion_clear Hg as [|? ? Hn Hns]. unfold nlris_wire in *. cbn [fmap list_fmap concat] in *.
  fold (nlris_wire ns) in *. rewrite len_app in *. pose proof (len_nonneg (nlris_wire ns)).
  pose proof (len_nonneg (NLRI_wire n)).
  destruct (NLRI_Encode_laws rx afi n Hafi Hn) as [_ Hln]. rewrite Hln, (u16_id (len _)) by (unfold is_u16; lia).
  fold (add_nlri_lengths (base_add_length b (len (NLRI_wire n))) ns).
  assert (Hw : pa_Length (base_add_length b (len (NLRI_wire n))) = pa_Length b + len (NLRI_wire n))
    by (cbn [base_add_length pa_Length]; apply u16_id; unfold is_u16; lia).
  rewrite IH by (rewrite ?Hw; done || lia). rewrite Hw. cbn [base_add_length pa_Flags pa_Code pa_Len].
  f_equal. lia.
Qed.

Lemma add_nlri_lengths_flags ns : forall b, pa_Flags (add_nlri_lengths b ns) = pa_Flags b.
Proof. induction ns as [|n ns IH]; intros b; [done|]. by etransitivity; [apply IH|]. Qed.

(** The attribute the code builds to announce prefixes of a family: [NewBGPPathAttrMPReachNLRI],
    the fields [AFI] and [SAFI] set, then [SetNextHop] and [SetNLRIList]. *)
Definition build_mpreach (afi safi : Z) (nextHop : MPNextHop) (ns : list NLRI) : BGPPathAttrMPReachNLRI :=
  let r := NewBGPPathAttrMPReachNLRI in
  mpr_SetNLRIList
    (mpr_SetNextHop {| mpr_base := mpr_base r; mpr_AFI := afi; mpr_SAFI := safi; mpr_NextHop := mpr_NextHop r;
                       mpr_Reserved := mpr_Reserved r; mpr_NLRI := mpr_NLRI r |} nextHop) ns.

Lemma build_mpreach_good data afi safi i ns :
  known_afi afi -> mpip_good i -> Forall (NLRI_good (AddPathsRxActual data) afi) ns ->
  4 + len (mpip_wire i) + len (nlris_wire ns) < 65532 ->
  attr_good data (AMPReachNLRI (build_mpreach afi safi (MPIP i) ns)).
Proof.
  intros Hafi Hi Hns Hl. unfold build_mpreach, mpr_SetNLRIList, mpr_SetNextHop, NewBGPPathAttrMPReachNLRI.
  cbn [mpr_base mpr_AFI mpr_SAFI mpr_NextHop mpr_Reserved mpr_NLRI MPNextHop_Len].
  pose proof (len_nonneg (mpip_wire i)). pose proof (len_nonneg (nlris_wire ns)).
  rewrite <- len_mpip_wire by done. unfold base_add_length at 1. cbn [pa_Flags pa_Code pa_Length pa_Len].
  rewrite u16_id by (unfold is_u16; lia).
  rewrite (add_nlri_lengths_spec afi (AddPathsRxActual data)) by (cbn [pa_Length]; done || lia).
  cbn [pa_Flags pa_Code pa_Length pa_Len]. unfold attr_good. cbn [attr_base mpr_base].
  split; [|split; [|split]].
  - unfold base_good. cbn [pa_Flags pa_Code pa_Length pa_Len]. repeat split; try done; try lia.
  - cbn [pa_Length attr_payload mpr_AFI mpr_SAFI mpr_NextHop mpr_NLRI]. lens. lia.
  - reflexivity.
  - cbn [attr_value_ok mpr_AFI mpr_NextHop mpr_NLRI mpr_Reserved]. done.
Qed.

(** ** The codec *)

Lemma attr_TotalLen_wire data pa : attr_good data pa -> attr_TotalLen pa = len (attr_wire pa).
Proof.
  intros (Hb & Hl & _). unfold attr_TotalLen, attr_wire. rewrite base_good_TotalLen, Hl by done.
  by rewrite len_app.
Qed.

#[export] Instance attr_laws data : CodecLaws (attr_codec data).
Proof.
  split; cbn [wire good enc dec tlen attr_codec]; intros.
  - by apply (attr_Encode_wire data).
  - by apply attr_Decode_wire.
  - by apply (attr_TotalLen_wire data).
  - destruct H as (Hb & _). unfold attr_wire. rewrite len_app.
    pose proof (base_good_bounds _ Hb). pose proof (len_nonneg (attr_payload x)). lia.
Qed.

(** ** Properties *)

(** C38: every path attribute that satisfies its type's invariant ([attr_good]) survives encoding
    and decoding in a session with the same peer attributes: [Encode] produces the attribute's wire
    format, [BGPGetPathAttr] and [Decode] read the same attribute back whatever follows it, and
    [TotalLen] is the number of bytes written. *)
Theorem attr_roundtrip (data : BGPPeerAttrs) (pa : BGPPathAttr) (rest : bytes) :
  attr_good data pa ->
  attr_Encode pa = Ok (attr_wire pa) /\
  BGPGetPathAttr_Decode data (attr_wire pa ++ rest) = Ok pa /\
  attr_TotalLen pa = len (attr_wire pa).
Proof.
  intros Hg. split; [by apply (attr_Encode_wire data) | split; [by apply attr_Decode_wire | by apply (attr_TotalLen_wire data)]].
Qed.

Definition as4_attrs : BGPPeerAttrs := {| ASSize := 4; AddPathFamily := ∅; AddPathsRxActual := false |}.

Definition aspath_example : BGPPathAttrASPath :=
  {| aspath_base := {| pa_Flags := 80; pa_Code := 2; pa_Length := 10; pa_Len := 4 |};
     aspath_Value := [Seg4 {| as4s_base := {| seg_Type := 2; seg_Length := 2; seg_Len := 10 |};
                              as4s_AS := [65001; 4200000000] |}];
     aspath_ASSize := 4 |}.

Lemma attr_roundtrip_witness :
  attr_good as4_attrs (AASPath aspath_example) /\
  attr_Encode (AASPath aspath_example) = Ok [80; 2; 0; 10; 2; 2; 0; 0; 253; 233; 250; 86; 234; 0] /\
  BGPGetPathAttr_Decode as4_attrs (attr_wire (AASPath aspath_example) ++ [7]) = Ok (AASPath aspath_example).
Proof.
  assert (Hg : attr_good as4_attrs (AASPath aspath_example)).
  { split; [|split; [|split]].
    - vm_compute. repeat split; congruence.
    - reflexivity.
    - reflexivity.
    - split; [|split; [reflexivity|]]; (constructor; [|constructor]); [|reflexivity].
      split; [unfold is_u8; cbn; lia|]. split; [|by vm_compute].
      constructor; [|constructor; [|constructor]]; unfold as_good; cbn; unfold is_u32; lia. }
  destruct (attr_roundtrip as4_attrs (AASPath aspath_example) [7] Hg) as (He & Hd & _).
  split; [exact Hg|]. split; [rewrite He; reflexivity | exact Hd].
Defined.

(** The header decoder on arbitrary bytes. What it accepts has the length of header that its
    flags announce, flags that agree with its type (RFC 4271 6.3: no error of [base_error]) and, as
    a 16-bit sum, at most as many bytes as there are; what it rejects is reported as an UPDATE
    message error with one of four subcodes; and it always returns. *)
Theorem attr_header_decode (pkt : bytes) :
  bytes_ok pkt ->
  (forall b, BGPPathAttrBase_Decode pkt = Ok b ->
     base_error b = None /\ u16 (pa_Length b + pa_Len b) <= len pkt /\ is_u16 (pa_Length b) /\
     pa_Len b = if has_flag (pa_Flags b) BGPPathAttrFlagExtendedLen then 4 else 3) /\
  (forall e, BGPPathAttrBase_Decode pkt = Err e ->
     exists m, e = EMsg m /\ TypeCode m = BGPUpdateMsgError /\
       SubTypeCode m ∈ [BGPMalformedAttrList; BGPUnrecognizedWellKnownAttr; BGPAttrFlagsError; BGPAttrLenError]) /\
  BGPPathAttrBase_Decode pkt <> Hang.
Proof.
  intros Hb. split; [|split; [apply Base_Decode_Err | apply Base_Decode_no_hang]].
  intros b Hd. by apply Base_Decode_Ok in Hd as (? & ? & ? & ? & ? & ?).
Qed.

Lemma attr_header_decode_witness :
  base_error {| pa_Flags := 64; pa_Code := 1; pa_Length := 1; pa_Len := 3 |} = None /\
  BGPPathAttrBase_Decode [64; 1; 1; 0] = Ok {| pa_Flags := 64; pa_Code := 1; pa_Length := 1; pa_Len := 3 |}.
Proof.
  split; [|reflexivity]. apply (attr_header_decode [64; 1; 1; 0]); [repeat constructor; lia | reflexivity].
Defined.

(** In a session with four-byte AS numbers, decoding a path attribute always ends: no input
    makes one of its loops run forever. *)
Theorem attr_decode_terminates (pkt : bytes) (data : BGPPeerAttrs) :
  bytes_ok pkt -> len pkt < 2 ^ 31 -> ASSize data = 4 -> BGPGetPathAttr_Decode data pkt <> Hang.
Proof. apply attr_Decode_no_hang. Qed.

Lemma attr_decode_terminates_witness : BGPGetPathAttr_Decode as4_attrs [64; 2; 3; 2; 0; 0] <> Hang.
Proof.
  apply attr_decode_terminates; [repeat constructor; lia | reflexivity | reflexivity].
Defined.

(** An AS_PATH attribute with one segment of 127 two-byte AS numbers. *)
Definition as2_bomb : bytes := [80; 2; 1; 0] ++ [2; 127] ++ replicate 254 0.

Lemma as2_bomb_segment :
  exists s, segment_Decode 2 (drop 4 as2_bomb) = Ok s /\ segment_TotalLen s = 0.
Proof. eexists. split; [vm_compute; reflexivity | reflexivity]. Qed.

Lemma as2_bomb_loop fuel : forall acc,
  segments_loop (segment_Decode 2) segment_TotalLen fuel as2_bomb 4 260 acc = Hang.
Proof.
  destruct as2_bomb_segment as (s & Hs & Ht).
  assert (Hsl : slice_from (E := goerr) as2_bomb 4 = Ok (drop 4 as2_bomb)) by reflexivity.
  induction fuel as [|fuel IH]; intros acc; cbn [segments_loop Z.ltb Z.compare Pos.compare Pos.compare_cont]; [done|].
  rewrite Hsl, bind_Ok, Hs, Ht. cbn zeta. change (u32 (4 + 0)) with 4.
  cbn [Z.gtb Z.compare Pos.compare Pos.compare_cont]. apply IH.
Qed.

(** In a session with two-byte AS numbers it does not: the total length of a segment of 127 AS
    numbers is 256, which the decoder computes in a [uint8], so its loop reads the same segment
    again and again. No amount of fuel is enough. *)
Theorem aspath_decode_diverges (fuel : nat) :
  bytes_ok as2_bomb /\ BGPPathAttrBase_Decode as2_bomb <> Panic /\
  segments_loop (segment_Decode 2) segment_TotalLen fuel as2_bomb 4 260 [] = Hang /\
  BGPGetPathAttr_Decode no_attrs as2_bomb = Hang.
Proof.
  split; [|split; [|split; [apply as2_bomb_loop|]]].
  - unfold as2_bomb, bytes_ok. rewrite !Forall_app. split; [|split; [|apply Forall_replicate]];
      repeat constructor; lia.
  - vm_compute. congruence.
  - vm_compute. reflexivity.
Qed.

(** The check that an attribute fits in the message adds its length and its header's in 16
    bits: an extended length of 65532 or more passes the check on four bytes, and the slice taken
    afterwards panics. *)
Theorem attr_decode_length_wrap (data : BGPPeerAttrs) (l : Z) (rest : bytes) :
  65532 <= l < 65536 -> BGPGetPathAttr_Decode data (208 :: 99 :: be16 l ++ rest) = Panic.
Proof.
  intros Hl. change (208 :: 99 :: be16 l ++ rest) with ([208; 99] ++ be16 l ++ rest).
  unfold BGPGetPathAttr_Decode. change (sget ([208; 99] ++ _) 1) with (Ok 99 : result Z).
  rewrite bind_Ok. cbn [Z.eqb Pos.eqb]. code_cbn. unfold BGPPathAttrUnknown_Decode.
  assert (BGPPathAttrBase_Decode ([208; 99] ++ be16 l ++ rest)
          = Ok {| pa_Flags := 208; pa_Code := 99; pa_Length := l; pa_Len := 4 |}) as ->.
  { unfold BGPPathAttrBase_Decode. pose proof (len_nonneg rest). lens. zif.
    change (sget ([208; 99] ++ _) 1) with (Ok 99 : result Z).
    change (sget ([208; 99] ++ _) 0) with (Ok 208 : result Z). rewrite !bind_Ok.
    change (has_flag 208 BGPPathAttrFlagExtendedLen) with true. cbn match.
    rewrite slice_app, bind_Ok by reflexivity.
    rewrite <- (app_nil_r (be16 l)) at 1. rewrite Uint16_be16, !bind_Ok by (unfold is_u16; lia).
    cbn [pa_Length pa_Len]. assert (u16 (l + 4) = l + 4 - 65536) as -> by (unfold u16; Z.div_mod_to_equations; lia).
    zif. reflexivity. }
  rewrite bind_Ok. unfold copy_value, slice. cbn [pa_Length pa_Len].
  assert (u16 (4 + l) = l + 4 - 65536) as -> by (unfold u16; Z.div_mod_to_equations; lia).
  by zif.
Qed.

Lemma attr_decode_length_wrap_witness :
  65532 <= 65535 < 65536 /\ BGPGetPathAttr_Decode no_attrs [208; 99; 255; 255] = Panic.
Proof. split; [lia | apply (attr_decode_length_wrap no_attrs 65535 []); lia]. Defined.

(** Adding an AS number to a segment, of either width, at either end: below 255 AS numbers it
    succeeds, puts the number where it should and keeps the recorded count and byte length right;
    at 255 it reports failure and changes nothing. *)
Theorem segment_update (s : BGPASPathSegment) (a : Z) :
  segment_wf s ->
  segment_added s (narrow (segment_width s) a :: segment_AS s) (segment_PrependAS s a) /\
  segment_added s (segment_AS s ++ [narrow (segment_width s) a]) (segment_AppendAS s a).
Proof. intros Hwf. split; [by apply segment_PrependAS_spec | by apply segment_AppendAS_spec]. Qed.

Lemma segment_update_witness :
  exists s', segment_PrependAS (Seg2 NewBGPAS2PathSegmentSeq) 65537 = (s', true) /\ segment_AS s' = [1].
Proof.
  destruct (segment_update (Seg2 NewBGPAS2PathSegmentSeq) 65537) as [(s' & H1 & _ & H2 & _) _].
  { by vm_compute. }
  exists s'. split; [exact H1 | exact H2].
Defined.

(** The AS_PATH attribute keeps the invariant that its recorded length is the number of bytes of
    its segments: the empty path has it, and adding a well-formed segment at either end keeps it as
    long as the total fits in 16 bits. *)
Theorem aspath_update (a : BGPPathAttrASPath) (s : BGPASPathSegment) :
  aspath_wf NewBGPPathAttrASPath /\
  (aspath_wf a -> segment_wf s -> pa_Length (aspath_base a) + segment_TotalLen s < 65536 ->
   aspath_wf (PrependASPathSegment a s) /\ aspath_Value (PrependASPathSegment a s) = s :: aspath_Value a /\
   aspath_wf (AppendASPathSegment a s) /\ aspath_Value (AppendASPathSegment a s) = aspath_Value a ++ [s]).
Proof.
  split; [split; [constructor | reflexivity]|]. intros Ha Hs Hb. pose proof Ha as [Hss Hl].
  pose proof (segment_wf_wire s Hs). split; [|split; [done | split; [|done]]]; apply aspath_add_wf;
    rewrite ?(segments_wire_app _ [s]), ?segments_wire_1; try done.
  - change (s :: aspath_Value a) with ([s] ++ aspath_Value a).
    rewrite segments_wire_app, segments_wire_1, len_app. lia.
  - by constructor.
  - change (s :: aspath_Value a) with ([s] ++ aspath_Value a).
    rewrite segments_wire_app, segments_wire_1, len_app. lia.
  - rewrite len_app. lia.
  - apply Forall_app. split; [done | by constructor].
  - rewrite len_app. lia.
Qed.

Lemma aspath_update_witness :
  aspath_wf (PrependASPathSegment NewBGPPathAttrASPath (Seg4 NewBGPAS4PathSegmentSeq)).
Proof.
  apply (aspath_update NewBGPPathAttrASPath (Seg4 NewBGPAS4PathSegmentSeq)).
  - split; [constructor | reflexivity].
  - by vm_compute.
  - vm_compute. reflexivity.
Defined.

(** The loop of [CloneAsAS2PathSegment]. *)
Lemma as4_to_as2_spec ases :
  Forall is_u32 ases ->
  as4_to_as2 <$> ases = (fun a => if a >? 65535 then BGPASTrans else a) <$> ases /\
  Forall is_u16 (as4_to_as2 <$> ases) /\
  (forallb (fun a => negb (a >? 65535)) ases = true <-> Forall is_u16 ases) /\
  (Forall is_u16 ases -> as4_to_as2 <$> ases = ases).
Proof.
  induction 1 as [|a ases Ha _ (IH1 & IH2 & IH3 & IH4)]; [by repeat split|].
  rewrite Forall_cons. cbn [fmap list_fmap forallb]. rewrite IH1, Forall_cons, andb_true_iff, IH3 in *.
  unfold as4_to_as2, is_u16, is_u32 in *.
  destruct (a >? 65535) eqn:?; zhyp; [|rewrite u16_id by (unfold is_u16; lia)]; cbn [negb].
  - split; [done|]. split; [split; [unfold BGPASTrans; lia | done]|].
    split; [split; intros []; [discriminate | lia] | intros []; lia].
  - split; [done|]. split; [split; [lia | done]|]. split; [split; intros []; split; (done || lia)|].
    intros [_ H]. by rewrite IH4.
Qed.

(** [CloneAsAS2PathSegment] keeps the AS numbers that fit in two bytes, replaces the others by
    AS_TRANS, and reports whether all of them fit. The byte length it records is right exactly for
    segments of at most 127 AS numbers: beyond that the product [x.Length * 2] wraps in [uint8]. *)
Theorem clone_as2_segment (ps : BGPAS4PathSegment) :
  segment_wf (Seg4 ps) -> Forall is_u32 (as4s_AS ps) ->
  let '(x, mappable) := CloneAsAS2PathSegment ps in
  as2_AS x = (fun a => if a >? 65535 then BGPASTrans else a) <$> as4s_AS ps /\
  Forall is_u16 (as2_AS x) /\
  (mappable = true <-> Forall is_u16 (as4s_AS ps)) /\
  (mappable = true -> as2_AS x = as4s_AS ps) /\
  (segment_wf (Seg2 x) <-> len (as4s_AS ps) <= 127).
Proof.
  intros (Hl & Hb & _) Hg. unfold segment_GetLen in Hl. cbn [segment_AS segment_base] in Hl, Hb.
  unfold CloneAsAS2PathSegment. cbn [as2_AS].
  destruct (as4_to_as2_spec (as4s_AS ps) Hg) as (H1 & H2 & H3 & H4).
  split; [exact H1 | split; [exact H2 | split; [exact H3 | split; [by rewrite H3|]]]].
  unfold segment_wf, segment_GetLen, segment_TotalLen.
  cbn [segment_AS segment_base as2_AS as2_base seg_Length seg_Len segment_width].
  assert (len (as4_to_as2 <$> as4s_AS ps) = len (as4s_AS ps)) as -> by (unfold len; by rewrite length_fmap).
  rewrite Hl. pose proof (len_nonneg (as4s_AS ps)). unfold u16, u8. Z.div_mod_to_equations. lia.
Qed.

Lemma clone_as2_segment_witness :
  as2_AS (CloneAsAS2PathSegment {| as4s_base := {| seg_Type := 2; seg_Length := 2; seg_Len := 10 |};
                                   as4s_AS := [65001; 65536] |}).1 = [65001; 23456].
Proof.
  pose proof (clone_as2_segment {| as4s_base := {| seg_Type := 2; seg_Length := 2; seg_Len := 10 |};
                                   as4s_AS := [65001; 65536] |}) as H.
  destruct H as (H & _); [by vm_compute | | exact H].
  constructor; [|constructor; [|constructor]]; unfold is_u32; lia.
Defined.

Lemma as4_segments_Seg4 ss : as4_segments (Seg4 <$> ss) = Ok ss.
Proof. induction ss as [|s ss IH]; [done|]. cbn. by rewrite IH. Qed.

(** [CloneAsAS4Path], which makes the AS4_PATH attribute sent to a peer with two-byte AS
    numbers, keeps the segments, but the attribute it makes can never be read back as sent: it has
    the code of AS_PATH, and 4 bytes per segment go to the header's length, which no decoder
    computes. *)
Theorem clone_as4_path (a : BGPPathAttrASPath) (ss : list BGPAS4PathSegment) :
  aspath_Value a = Seg4 <$> ss -> len ss < 16383 ->
  exists x, CloneAsAS4Path a = Ok x /\ as4path_Value x = ss /\
    attr_GetCode (AAS4Path x) = BGPPathAttrTypeASPath /\
    pa_Len (as4path_base x) = 4 + 4 * len ss /\
    has_flag (pa_Flags (as4path_base x)) BGPPathAttrFlagExtendedLen = false /\
    (forall data, ~ attr_good data (AAS4Path x)).
Proof.
  intros Hv Hl. unfold CloneAsAS4Path. rewrite Hv, as4_segments_Seg4, bind_Ok.
  eexists. split; [reflexivity|]. cbn [as4path_Value as4path_base pa_Len pa_Flags].
  split; [done|]. split; [reflexivity|]. pose proof (len_nonneg ss).
  assert (len (Seg4 <$> ss) = len ss) as -> by (unfold len; by rewrite length_fmap).
  split; [|split; [reflexivity|]].
  - cbn [NewBGPPathAttrAS4Path as4path_base pa_Len]. rewrite (u16_id (len ss * 4)), u16_id; unfold is_u16; lia.
  - intros data (_ & _ & Hc & _). discriminate Hc.
Qed.

Lemma clone_as4_path_witness :
  exists x, CloneAsAS4Path aspath_example = Ok x /\ pa_Len (as4path_base x) = 8.
Proof.
  destruct (clone_as4_path aspath_example
    [{| as4s_base := {| seg_Type := 2; seg_Length := 2; seg_Len := 10 |}; as4s_AS := [65001; 4200000000] |}])
    as (x & H & _ & _ & Hn & _); [reflexivity | reflexivity|].
  exists x. split; [exact H | exact Hn].
Defined.

(** The attribute the code builds to announce prefixes of a family, by [NewBGPPathAttrMPReachNLRI],
    [SetNextHop] and [SetNLRIList], satisfies the invariant of its type: so it encodes, its recorded
    length is the length of what is written, and a peer that negotiated the same path-identifier
    setting reads back the family, the next hop and the prefixes. *)
Theorem mpreach_build (data : BGPPeerAttrs) (afi safi : Z) (i : MPNextHopIP) (ns : list NLRI) (rest : bytes) :
  known_afi afi -> mpip_good i -> Forall (NLRI_good (AddPathsRxActual data) afi) ns ->
  4 + len (mpip_wire i) + len (nlris_wire ns) < 65532 ->
  let r := AMPReachNLRI (build_mpreach afi safi (MPIP i) ns) in
  attr_good data r /\
  exists pkt, attr_Encode r = Ok pkt /\ len pkt = 8 + len (mpip_wire i) + len (nlris_wire ns) /\
    BGPGetPathAttr_Decode data (pkt ++ rest) = Ok r.
Proof.
  intros Hafi Hi Hns Hl r. assert (Hg : attr_good data r) by by apply build_mpreach_good.
  split; [done|]. exists (attr_wire r). split; [by apply (attr_Encode_wire data)|].
  split; [|by apply attr_Decode_wire].
  unfold attr_wire, r. rewrite len_app. cbn [attr_payload attr_base]. lens.
  unfold build_mpreach, mpr_SetNLRIList, mpr_SetNextHop.
  cbn [mpr_base mpr_NextHop mpr_NLRI mpr_AFI mpr_SAFI]. unfold attr_hdr.
  rewrite add_nlri_lengths_flags. change (has_flag _ _) with true. cbn match. lens. lia.
Qed.

Lemma mpreach_build_witness :
  exists pkt,
    attr_Encode (AMPReachNLRI (build_mpreach 1 1 (MPIP {| mpip_Length := 4; mpip_Value := IPv4 10 0 0 1 |})
                                 nlri_example)) = Ok pkt /\ len pkt = 8 + 5 + 5.
Proof.
  destruct (mpreach_build no_attrs 1 1 {| mpip_Length := 4; mpip_Value := IPv4 10 0 0 1 |} nlri_example [])
    as (_ & pkt & He & Hl & _).
  - by left.
  - left. split; [reflexivity | by exists 10, 0, 0, 1].
  - exact nlri_example_good.
  - vm_compute. reflexivity.
  - exists pkt. split; [exact He | exact Hl].
Defined.
