(* ===== verification/BgpHelpers.v ===== *)
(** The helpers of [src/bgp/packet/helpers.go] that inspect and rewrite the path attributes of an
    UPDATE message. A function that takes the message and asserts that its body is a [*BGPUpdate]
    is given the body's [PathAttributes], and returns what they become; the attribute objects that
    the code changes through their pointers are replaced in the list. *)
From stdpp Require Import base numbers list gmap.
From Stdlib Require Import ZArith Lia.
From S2P Require Import Prelude GoNet BgpBase BgpNlri BgpAttrs.
Open Scope Z_scope.

(** ** Type assertions [pa.( *T )]: a failed one panics *)

Definition as_ASPath (pa : BGPPathAttr) : result BGPPathAttrASPath :=
  match pa with AASPath a => Ok a | _ => Panic end.
Definition as_AS4Path (pa : BGPPathAttr) : result BGPPathAttrAS4Path :=
  match pa with AAS4Path a => Ok a | _ => Panic end.
Definition as_Origin (pa : BGPPathAttr) : result BGPPathAttrOrigin :=
  match pa with AOrigin a => Ok a | _ => Panic end.
Definition as_NextHop (pa : BGPPathAttr) : result BGPPathAttrNextHop :=
  match pa with ANextHop a => Ok a | _ => Panic end.
Definition as_MultiExitDisc (pa : BGPPathAttr) : result BGPPathAttrMultiExitDisc :=
  match pa with AMultiExitDisc a => Ok a | _ => Panic end.
Definition as_LocalPref (pa : BGPPathAttr) : result BGPPathAttrLocalPref :=
  match pa with ALocalPref a => Ok a | _ => Panic end.
Definition as_Aggregator (pa : BGPPathAttr) : result BGPPathAttrAggregator :=
  match pa with AAggregator a => Ok a | _ => Panic end.
Definition as_AS4Aggregator (pa : BGPPathAttr) : result BGPPathAttrAS4Aggregator :=
  match pa with AAS4Aggregator a => Ok a | _ => Panic end.
Definition as_OriginatorId (pa : BGPPathAttr) : result BGPPathAttrOriginatorId :=
  match pa with AOriginatorId a => Ok a | _ => Panic end.
Definition as_ClusterList (pa : BGPPathAttr) : result BGPPathAttrClusterList :=
  match pa with AClusterList a => Ok a | _ => Panic end.
Definition as_MPReach (pa : BGPPathAttr) : result BGPPathAttrMPReachNLRI :=
  match pa with AMPReachNLRI a => Ok a | _ => Panic end.
Definition as_MPUnreach (pa : BGPPathAttr) : result BGPPathAttrMPUnreachNLRI :=
  match pa with AMPUnreachNLRI a => Ok a | _ => Panic end.
Definition as_AS2Segment (s : BGPASPathSegment) : result BGPAS2PathSegment :=
  match s with Seg2 s => Ok s | Seg4 _ => Panic end.
Definition as_AS4Segment (s : BGPASPathSegment) : result BGPAS4PathSegment :=
  match s with Seg4 s => Ok s | Seg2 _ => Panic end.

(** [x.(T)] of a value that may be nil: nil stays nil ([if reach != nil { ... }]). *)
Definition opt_cast {A} (cast : BGPPathAttr -> result A) (o : option BGPPathAttr) : result (option A) :=
  match o with None => Ok None | Some pa => a ← cast pa; Ok (Some a) end.

(** ** Looking an attribute up, adding and removing one *)

Definition has_code (code : Z) (pa : BGPPathAttr) : bool := attr_GetCode pa =? code.

Fixpoint getTypeFromPathAttrs (pathAttrs : list BGPPathAttr) (code : Z) : option BGPPathAttr :=
  match pathAttrs with
  | [] => None
  | pa :: pas => if attr_GetCode pa =? code then Some pa else getTypeFromPathAttrs pas code
  end.

Fixpoint removeTypeFromPathAttrs (pathAttrs : list BGPPathAttr) (code : Z)
    : list BGPPathAttr * option BGPPathAttr :=
  match pathAttrs with
  | [] => ([], None)
  | pa :: pas =>
    if attr_GetCode pa =? code then (pas, Some pa)
    else let '(pas, r) := removeTypeFromPathAttrs pas code in (pa :: pas, r)
  end.

(** The scan of [AddPathAttrToPathAttrsByCode]: without a [break], it keeps the last index. *)
Fixpoint last_greater (pathAttrs : list BGPPathAttr) (code : Z) (idx : nat) (addIdx : option nat) : option nat :=
  match pathAttrs with
  | [] => addIdx
  | pa :: pas => last_greater pas code (S idx) (if attr_GetCode pa >? code then Some idx else addIdx)
  end.

(** [append], [copy(s[i+1:], s[i:])] and [s[i] = attr]. *)
Definition insert_at (pathAttrs : list BGPPathAttr) (i : nat) (attr : BGPPathAttr) : list BGPPathAttr :=
  take i pathAttrs ++ attr :: drop i pathAttrs.

Definition AddPathAttrToPathAttrsByCode (pathAttrs : list BGPPathAttr) (code : Z) (attr : BGPPathAttr)
    : list BGPPathAttr :=
  let addIdx := match last_greater pathAttrs code 0 None with
                | Some i => i
                | None => length pathAttrs
                end in
  insert_at pathAttrs addIdx attr.

Definition addPathAttrToPathAttrs (pathAttrs : list BGPPathAttr) (attr : option BGPPathAttr) : list BGPPathAttr :=
  match attr with
  | Some attr => AddPathAttrToPathAttrsByCode pathAttrs (attr_GetCode attr) attr
  | None => pathAttrs
  end.

Definition AddMPReachNLRIToPathAttrs (pathAttrs : list BGPPathAttr) (mpReach : BGPPathAttrMPReachNLRI) :=
  AddPathAttrToPathAttrsByCode pathAttrs BGPPathAttrTypeMPReachNLRI (AMPReachNLRI mpReach).
Definition AddMPUnreachNLRIToPathAttrs (pathAttrs : list BGPPathAttr) (mpUnreach : BGPPathAttrMPUnreachNLRI) :=
  AddPathAttrToPathAttrsByCode pathAttrs BGPPathAttrTypeMPUnreachNLRI (AMPUnreachNLRI mpUnreach).

Definition RemoveNextHop (pathAttrs : list BGPPathAttr) : list BGPPathAttr :=
  (removeTypeFromPathAttrs pathAttrs BGPPathAttrTypeNextHop).1.
Definition RemoveMultiExitDisc (pathAttrs : list BGPPathAttr) : list BGPPathAttr * option BGPPathAttr :=
  removeTypeFromPathAttrs pathAttrs BGPPathAttrTypeMultiExitDisc.
Definition RemoveLocalPref (pathAttrs : list BGPPathAttr) : list BGPPathAttr * option BGPPathAttr :=
  removeTypeFromPathAttrs pathAttrs BGPPathAttrTypeLocalPref.
Definition RemoveOriginatorId (pathAttrs : list BGPPathAttr) : list BGPPathAttr :=
  (removeTypeFromPathAttrs pathAttrs BGPPathAttrTypeOriginatorId).1.
Definition RemoveClusterList (pathAttrs : list BGPPathAttr) : list BGPPathAttr :=
  (removeTypeFromPathAttrs pathAttrs BGPPathAttrTypeClusterList).1.

Definition RemoveMPAttrs (pathAttrs : list BGPPathAttr)
    : result (list BGPPathAttr * option BGPPathAttrMPReachNLRI * option BGPPathAttrMPUnreachNLRI) :=
  let '(pathAttrs, reach) := removeTypeFromPathAttrs pathAttrs BGPPathAttrTypeMPReachNLRI in
  mpReach ← opt_cast as_MPReach reach;
  let '(pathAttrs, unreach) := removeTypeFromPathAttrs pathAttrs BGPPathAttrTypeMPUnreachNLRI in
  mpUnreach ← opt_cast as_MPUnreach unreach;
  Ok (pathAttrs, mpReach, mpUnreach).

Definition GetAtomicAggregatePathAttr (pathAttrs : list BGPPathAttr) : option BGPPathAttr :=
  getTypeFromPathAttrs pathAttrs BGPPathAttrTypeAtomicAggregate.

Definition GetMPAttrs (pathAttrs : list BGPPathAttr)
    : result (option BGPPathAttrMPReachNLRI * option BGPPathAttrMPUnreachNLRI) :=
  mpReach ← opt_cast as_MPReach (getTypeFromPathAttrs pathAttrs BGPPathAttrTypeMPReachNLRI);
  mpUnreach ← opt_cast as_MPUnreach (getTypeFromPathAttrs pathAttrs BGPPathAttrTypeMPUnreachNLRI);
  Ok (mpReach, mpUnreach).

(** ** Setting the value of an attribute *)

(** The first loop of [SetLocalPref]: [None] when no attribute has the code. *)
Fixpoint set_local_pref (pathAttrs : list BGPPathAttr) (pref : Z) : result (option (list BGPPathAttr)) :=
  match pathAttrs with
  | [] => Ok None
  | pa :: pas =>
    if attr_GetCode pa =? BGPPathAttrTypeLocalPref then
      a ← as_LocalPref pa;
      Ok (Some (ALocalPref {| lp_base := lp_base a; lp_Value := pref |} :: pas))
    else
      r ← set_local_pref pas pref;
      Ok (match r with Some pas => Some (pa :: pas) | None => None end)
  end.

(** The index of the first attribute with a greater code, or the length of the list. *)
Fixpoint first_greater (pathAttrs : list BGPPathAttr) (code : Z) : nat :=
  match pathAttrs with
  | [] => O
  | pa :: pas => if attr_GetCode pa >? code then O else S (first_greater pas code)
  end.

(** With no attributes at all [idx] stays -1 and nothing is added. *)
Definition SetLocalPref (pathAttrs : list BGPPathAttr) (pref : Z) : result (list BGPPathAttr) :=
  r ← set_local_pref pathAttrs pref;
  match r with
  | Some pathAttrs => Ok pathAttrs
  | None =>
    match pathAttrs with
    | [] => Ok []
    | _ =>
      let paLocalPref := ALocalPref {| lp_base := lp_base NewBGPPathAttrLocalPref; lp_Value := pref |} in
      Ok (insert_at pathAttrs (first_greater pathAttrs BGPPathAttrTypeLocalPref) paLocalPref)
    end
  end.

(** [SetNextHop] calls [SetNextHopPathAttrs] on the attributes of the message. *)
Fixpoint SetNextHopPathAttrs (pathAttrs : list BGPPathAttr) (nextHopIP : bytes) : result (list BGPPathAttr) :=
  match pathAttrs with
  | [] => Ok []
  | pa :: pas =>
    pa ← (if attr_GetCode pa =? BGPPathAttrTypeNextHop then
            a ← as_NextHop pa; Ok (ANextHop {| nexthop_base := nexthop_base a; nexthop_Value := nextHopIP |})
          else Ok pa);
    pas ← SetNextHopPathAttrs pas nextHopIP;
    Ok (pa :: pas)
  end.

Fixpoint SetPathAttrAggregator (pathAttrs : list BGPPathAttr) (as_ : Z) (ip : bytes) : result (list BGPPathAttr) :=
  match pathAttrs with
  | [] => Ok []
  | pa :: pas =>
    pa ← (if attr_GetCode pa =? BGPPathAttrTypeAggregator then
            a ← as_Aggregator pa;
            let a := SetBGPAggregatorAS a (Agg4 {| agg4_AS := as_ |}) in
            Ok (AAggregator {| agg_base := agg_base a; agg_AS := agg_AS a; agg_IP := ip |})
          else Ok pa);
    pas ← SetPathAttrAggregator pas as_ ip;
    Ok (pa :: pas)
  end.

(** ** Queries *)

Definition HasMPAttrs (pathAttrs : list BGPPathAttr) : bool :=
  existsb (fun attr => (attr_GetCode attr =? BGPPathAttrTypeMPReachNLRI)
                       || (attr_GetCode attr =? BGPPathAttrTypeMPUnreachNLRI)) pathAttrs.
Definition HasMPReachNLRI (pathAttrs : list BGPPathAttr) : bool :=
  existsb (fun attr => attr_GetCode attr =? BGPPathAttrTypeMPReachNLRI) pathAttrs.

(** One segment of the path: a segment of the other width is a failed type assertion. *)
Definition segment_has_AS (asSize : Z) (s : BGPASPathSegment) (localAS : Z) : result bool :=
  if asSize =? 4 then seg ← as_AS4Segment s; Ok (existsb (fun a => a =? localAS) (as4s_AS seg))
  else seg ← as_AS2Segment s; Ok (existsb (fun a => a =? u16 localAS) (as2_AS seg)).

Fixpoint segments_have_AS (asSize : Z) (segs : list BGPASPathSegment) (localAS : Z) : result bool :=
  match segs with
  | [] => Ok false
  | s :: segs =>
    found ← segment_has_AS asSize s localAS;
    if (found : bool) then Ok true else segments_have_AS asSize segs localAS
  end.

(** Only the first AS_PATH is looked at. *)
Fixpoint HasASLoop (pathAttrs : list BGPPathAttr) (localAS : Z) : result bool :=
  match pathAttrs with
  | [] => Ok false
  | attr :: pas =>
    if attr_GetCode attr =? BGPPathAttrTypeASPath then
      a ← as_ASPath attr; segments_have_AS (aspath_ASSize a) (aspath_Value a) localAS
    else HasASLoop pas localAS
  end.

Fixpoint GetNumASes (pathAttrs : list BGPPathAttr) : result Z :=
  match pathAttrs with
  | [] => Ok 0
  | attr :: pas =>
    if attr_GetCode attr =? BGPPathAttrTypeASPath then
      a ← as_ASPath attr;
      Ok (fold_left (fun total s => u32 (total + segment_GetNumASes s)) (aspath_Value a) 0)
    else GetNumASes pas
  end.

Fixpoint GetOrigin (pathAttrs : list BGPPathAttr) : result Z :=
  match pathAttrs with
  | [] => Ok BGPPathAttrOriginMax
  | attr :: pas =>
    if attr_GetCode attr =? BGPPathAttrTypeOrigin then a ← as_Origin attr; Ok (origin_Value a)
    else GetOrigin pas
  end.

Fixpoint GetMED (pathAttrs : list BGPPathAttr) : result (Z * bool) :=
  match pathAttrs with
  | [] => Ok (0, false)
  | attr :: pas =>
    if attr_GetCode attr =? BGPPathAttrTypeMultiExitDisc then a ← as_MultiExitDisc attr; Ok (med_Value a, true)
    else GetMED pas
  end.

Fixpoint GetNextHop (pathAttrs : list BGPPathAttr) : result bytes :=
  match pathAttrs with
  | [] => Ok IPv4zero
  | attr :: pas =>
    if attr_GetCode attr =? BGPPathAttrTypeNextHop then a ← as_NextHop attr; Ok (nexthop_Value a)
    else GetNextHop pas
  end.

Fixpoint GetNumClusters (pathAttrs : list BGPPathAttr) : result Z :=
  match pathAttrs with
  | [] => Ok 0
  | attr :: pas =>
    if attr_GetCode attr =? BGPPathAttrTypeClusterList then
      a ← as_ClusterList attr; Ok (pa_Length (cl_base a) / 4)
    else GetNumClusters pas
  end.

(** ** Prepending the local AS *)

(** [len(segs) == 0 || segs[0].GetType() == BGPASPathSegmentSet || segs[0].GetLen() >= 255] *)
Definition needs_new_segment (segs : list BGPASPathSegment) : bool :=
  match segs with
  | [] => true
  | s :: _ => (segment_GetType s =? BGPASPathSegmentSet) || (segment_GetLen s >=? 255)
  end.

(** [segs[0].PrependAS(AS)], its result ignored. *)
Definition prepend_first (segs : list BGPASPathSegment) (as_ : Z) : result (list BGPASPathSegment) :=
  match segs with
  | [] => Panic
  | s :: segs => Ok ((segment_PrependAS s as_).1 :: segs)
  end.

(** The body of the loop of [PrependAS] for an AS_PATH. It may change the variable [AS]. *)
Definition PrependAS_ASPath (a : BGPPathAttrASPath) (AS asSize : Z) : result (BGPPathAttrASPath * Z) :=
  let '(a, AS) :=
    if needs_new_segment (aspath_Value a) then
      if asSize =? 4 then (PrependASPathSegment a (Seg4 NewBGPAS4PathSegmentSeq), AS)
      else (PrependASPathSegment a (Seg2 NewBGPAS2PathSegmentSeq),
            if (asSize =? 2) && (AS >? 65535) then BGPASTrans else AS)
    else (a, AS) in
  segs ← prepend_first (aspath_Value a) AS;
  Ok ({| aspath_base := base_add_length (aspath_base a) asSize; aspath_Value := segs;
         aspath_ASSize := aspath_ASSize a |}, AS).

(** For an AS4_PATH: the last statement asserts that the attribute is an AS_PATH. *)
Definition PrependAS_AS4Path (a : BGPPathAttrAS4Path) (AS asSize : Z) : result (BGPPathAttr * Z) :=
  let a := if needs_new_segment (Seg4 <$> as4path_Value a) then AddASPathSegment a NewBGPAS4PathSegmentSeq
           else a in
  match as4path_Value a with
  | [] => Panic
  | s :: segs =>
    let a := {| as4path_base := as4path_base a; as4path_Value := (BGPAS4PathSegment_PrependAS s AS).1 :: segs |} in
    x ← as_ASPath (AAS4Path a);
    Ok (AASPath {| aspath_base := base_add_length (aspath_base x) asSize; aspath_Value := aspath_Value x;
                   aspath_ASSize := aspath_ASSize x |}, AS)
  end.

(** The body of the loop: the attribute and the variable [AS] after it. *)
Definition PrependAS_attr (pa : BGPPathAttr) (AS asSize : Z) : result (BGPPathAttr * Z) :=
  if attr_GetCode pa =? BGPPathAttrTypeASPath then
    a ← as_ASPath pa; r ← PrependAS_ASPath a AS asSize; Ok (AASPath r.1, r.2)
  else if attr_GetCode pa =? BGPPathAttrTypeAS4Path then
    a ← as_AS4Path pa; PrependAS_AS4Path a AS asSize
  else Ok (pa, AS).

Fixpoint PrependAS (pathAttrs : list BGPPathAttr) (AS asSize : Z) : result (list BGPPathAttr) :=
  match pathAttrs with
  | [] => Ok []
  | pa :: pas =>
    r ← PrependAS_attr pa AS asSize;
    pas ← PrependAS pas r.2 asSize;
    Ok (r.1 :: pas)
  end.

(** ** Two-byte and four-byte AS numbers *)

(** [total] over the segments of the first AS_PATH, whatever [asType] is. *)
Definition path_num_ases (segs : list BGPASPathSegment) : Z :=
  fold_left (fun total s =>
    if segment_GetType s =? BGPASPathSegmentSet then u32 (total + 1)
    else if segment_GetType s =? BGPASPathSegmentSequence then u32 (total + segment_GetLen s)
    else total) segs 0.

Definition GetNumASesByASType (pathAttrs : list BGPPathAttr) (asType : Z) : result Z :=
  if negb (asType =? BGPPathAttrTypeASPath) && negb (asType =? BGPPathAttrTypeAS4Path) then Ok 0
  else match getTypeFromPathAttrs pathAttrs BGPPathAttrTypeASPath with
       | Some pa => a ← as_ASPath pa; Ok (path_num_ases (aspath_Value a))
       | None => Ok 0
       end.

(** [as4Seg.AS[i] = uint32(as)] for every AS number of the two-byte segment, in a slice of
    [as4Seg.Length] elements. *)
Definition widen_segment (s : BGPAS2PathSegment) : result BGPAS4PathSegment :=
  let b := as2_base s in
  if len (as2_AS s) >? seg_Length b then Panic
  else Ok {| as4s_base := {| seg_Type := seg_Type b; seg_Length := seg_Length b;
                             seg_Len := u16 (2 + u16 (seg_Length b * 4)) |};
             as4s_AS := as2_AS s ++ make (seg_Length b - len (as2_AS s)) |}.

Fixpoint widen_segments (newASPath : BGPPathAttrASPath) (segs : list BGPASPathSegment)
    : result BGPPathAttrASPath :=
  match segs with
  | [] => Ok newASPath
  | s :: segs =>
    as2Seg ← as_AS2Segment s;
    as4Seg ← widen_segment as2Seg;
    widen_segments (AppendASPathSegment newASPath (Seg4 as4Seg)) segs
  end.

(** Only the first AS_PATH is converted; the new attribute's [ASSize] is 0. *)
Fixpoint ConvertAS2ToAS4 (pathAttrs : list BGPPathAttr) : result (list BGPPathAttr) :=
  match pathAttrs with
  | [] => Ok []
  | pa :: pas =>
    if attr_GetCode pa =? BGPPathAttrTypeASPath then
      asPath ← as_ASPath pa;
      newASPath ← widen_segments NewBGPPathAttrASPath (aspath_Value asPath);
      Ok (AASPath newASPath :: pas)
    else pas ← ConvertAS2ToAS4 pas; Ok (pa :: pas)
  end.

(** The first loop of [ConstructASPathFromAS4Path]: the segments that lie within the first [skip]
    AS numbers. [newSeg.AS] is empty, so copying an AS number into it panics. *)
Fixpoint skip_segments (segs : list BGPASPathSegment) (skip asNum : Z) (segIdx last : nat)
    (newASPath : BGPPathAttrASPath) : result (BGPPathAttrASPath * nat * Z) :=
  match segs with
  | [] => Ok (newASPath, last, asNum)
  | s :: segs =>
    if u16 (segment_GetNumASes s + asNum) >? skip then Ok (newASPath, segIdx, asNum) else
    seg ← as_AS2Segment s;
    if negb (len (as2_AS seg) =? 0) then Panic else
    let newSeg := {| as4s_base := {| seg_Type := seg_Type (as2_base seg); seg_Length := seg_Length (as2_base seg);
                                     seg_Len := u16 (2 + u16 (seg_Length (as2_base seg) * 4)) |};
                     as4s_AS := [] |} in
    skip_segments segs skip (u16 (asNum + BGPAS2PathSegment_GetNumASes seg)) (S segIdx) segIdx
      (AppendASPathSegment newASPath (Seg4 newSeg))
  end.

(** [for asNum < skip { seg4.PrependAS(uint32(seg.AS[skip-asNum-1])) }]: nothing changes [asNum]. *)
Fixpoint prepend_skipped (fuel : nat) (seg : BGPAS2PathSegment) (seg4 : BGPAS4PathSegment) (asNum skip : Z)
    : result BGPAS4PathSegment :=
  if asNum <? skip then
    match fuel with
    | O => Hang
    | S fuel =>
      a ← sget (as2_AS seg) (u16 (skip - asNum - 1));
      prepend_skipped fuel seg (BGPAS4PathSegment_PrependAS seg4 a).1 asNum skip
    end
  else Ok seg4.

Definition ConstructASPathFromAS4Path (asPath : BGPPathAttrASPath) (as4Path : BGPPathAttrAS4Path) (skip : Z)
    : result BGPPathAttrASPath :=
  r ← skip_segments (aspath_Value asPath) skip 0 0 0 NewBGPPathAttrASPath;
  let '(newASPath, segIdx, asNum) := r in
  match as4path_Value as4Path with
  | [] => Ok newASPath
  | seg4 :: segs =>
    match aspath_Value asPath !! segIdx with
    | None => Panic
    | Some s =>
      seg ← as_AS2Segment s;
      seg4 ← prepend_skipped (Z.to_nat skip) seg seg4 asNum skip;
      Ok (fold_left (fun p s => AppendASPathSegment p (Seg4 s)) (seg4 :: segs) newASPath)
    end
  end.

Fixpoint narrow_segments (newAS2Path : BGPPathAttrASPath) (addAS4Path : bool) (segs : list BGPASPathSegment)
    : result (BGPPathAttrASPath * bool) :=
  match segs with
  | [] => Ok (newAS2Path, addAS4Path)
  | s :: segs =>
    as4Seg ← as_AS4Segment s;
    let '(as2Seg, mappable) := CloneAsAS2PathSegment as4Seg in
    narrow_segments (AppendASPathSegment newAS2Path (Seg2 as2Seg)) (addAS4Path || negb mappable) segs
  end.

(** The first AS_PATH is replaced where it stands; the AS4_PATH is then added by code. *)
Fixpoint convert_first_path (pathAttrs : list BGPPathAttr)
    : result (list BGPPathAttr * option BGPPathAttrAS4Path) :=
  match pathAttrs with
  | [] => Ok ([], None)
  | pa :: pas =>
    if attr_GetCode pa =? BGPPathAttrTypeASPath then
      asPath ← as_ASPath pa;
      newAS4Path ← CloneAsAS4Path asPath;
      r ← narrow_segments NewBGPPathAttrASPath false (aspath_Value asPath);
      Ok (AASPath r.1 :: pas, if (r.2 : bool) then Some newAS4Path else None)
    else
      r ← convert_first_path pas;
      Ok (pa :: r.1, r.2)
  end.

Definition Convert4ByteTo2ByteASPath (pathAttrs : list BGPPathAttr) : result (list BGPPathAttr) :=
  r ← convert_first_path pathAttrs;
  let '(pathAttrs, addAS4Path) := r in
  match addAS4Path with
  | Some newAS4Path => Ok (AddPathAttrToPathAttrsByCode pathAttrs BGPPathAttrTypeAS4Path (AAS4Path newAS4Path))
  | None => Ok pathAttrs
  end.

(** The attributes [NormalizeASPath] looks for: the last of each kind. *)
Record path_kinds := {
  k_asPath : option BGPPathAttrASPath;
  k_as4Path : option BGPPathAttrAS4Path;
  k_asAggregator : option BGPPathAttrAggregator;
  k_as4Aggregator : option BGPPathAttrAS4Aggregator;
}.

Fixpoint find_path_kinds (pathAttrs : list BGPPathAttr) (k : path_kinds) : result path_kinds :=
  match pathAttrs with
  | [] => Ok k
  | pa :: pas =>
    k ← (if attr_GetCode pa =? BGPPathAttrTypeASPath then
           a ← as_ASPath pa;
           Ok {| k_asPath := Some a; k_as4Path := k_as4Path k; k_asAggregator := k_asAggregator k;
                 k_as4Aggregator := k_as4Aggregator k |}
         else if attr_GetCode pa =? BGPPathAttrTypeAS4Path then
           a ← as_AS4Path pa;
           Ok {| k_asPath := k_asPath k; k_as4Path := Some a; k_asAggregator := k_asAggregator k;
                 k_as4Aggregator := k_as4Aggregator k |}
         else if attr_GetCode pa =? BGPPathAttrTypeAggregator then
           a ← as_Aggregator pa;
           Ok {| k_asPath := k_asPath k; k_as4Path := k_as4Path k; k_asAggregator := Some a;
                 k_as4Aggregator := k_as4Aggregator k |}
         else if attr_GetCode pa =? BGPPathAttrTypeAS4Aggregator then
           a ← as_AS4Aggregator pa;
           Ok {| k_asPath := k_asPath k; k_as4Path := k_as4Path k; k_asAggregator := k_asAggregator k;
                 k_as4Aggregator := Some a |}
         else Ok k);
    find_path_kinds pas k
  end.

Definition no_kinds : path_kinds :=
  {| k_asPath := None; k_as4Path := None; k_asAggregator := None; k_as4Aggregator := None |}.

(** [uint16(asAggregator.AS.GetAS()) != BGPASTrans] *)
Definition aggregator_not_trans (a : BGPPathAttrAggregator) : result bool :=
  match agg_AS a with
  | Some aggAS => Ok (negb (u16 (aggregator_as_GetAS aggAS) =? BGPASTrans))
  | None => Panic
  end.

(** The branch for a path with two-byte AS numbers. *)
Definition normalize_as2 (pathAttrs : list BGPPathAttr) (asPath : BGPPathAttrASPath) (k : path_kinds)
    : result (list BGPPathAttr) :=
  keep ← (match k_asAggregator k, k_as4Aggregator k with
          | Some agg, Some _ => aggregator_not_trans agg
          | _, _ => Ok false
          end);
  if (keep : bool) then
    Ok (removeTypeFromPathAttrs (removeTypeFromPathAttrs pathAttrs BGPPathAttrTypeAS4Aggregator).1
          BGPPathAttrTypeAS4Path).1
  else
    pathAttrs ← ConvertAS2ToAS4 pathAttrs;
    match k_as4Path k with
    | None => Ok pathAttrs
    | Some as4Path =>
      numASes ← GetNumASesByASType pathAttrs BGPPathAttrTypeASPath;
      numAS4es ← GetNumASesByASType pathAttrs BGPPathAttrTypeAS4Path;
      if numASes >=? numAS4es then
        newASPath ← ConstructASPathFromAS4Path asPath as4Path (u16 (u32 (numASes - numAS4es)));
        let pathAttrs := (removeTypeFromPathAttrs pathAttrs BGPPathAttrTypeAS4Path).1 in
        let pathAttrs := (removeTypeFromPathAttrs pathAttrs BGPPathAttrTypeASPath).1 in
        Ok (AddPathAttrToPathAttrsByCode pathAttrs BGPPathAttrTypeASPath (AASPath newASPath))
      else Ok pathAttrs
    end.

Definition NormalizeASPath (totalPathAttrLen : Z) (pathAttrs : list BGPPathAttr) : result (list BGPPathAttr) :=
  if totalPathAttrLen =? 0 then Ok pathAttrs else
  k ← find_path_kinds pathAttrs no_kinds;
  match k_asPath k with
  | None => Ok pathAttrs
  | Some asPath =>
    if aspath_ASSize asPath =? 2 then normalize_as2 pathAttrs asPath k
    else if aspath_ASSize asPath =? 4 then
      let pathAttrs := match k_as4Aggregator k with
                       | Some _ => (removeTypeFromPathAttrs pathAttrs BGPPathAttrTypeAS4Aggregator).1
                       | None => pathAttrs
                       end in
      Ok (match k_as4Path k with
          | Some _ => (removeTypeFromPathAttrs pathAttrs BGPPathAttrTypeAS4Path).1
          | None => pathAttrs
          end)
    else Ok pathAttrs
  end.

(** ** Route reflection *)

Definition find_code (pathAttrs : list BGPPathAttr) (code : Z) : option nat :=
  fst <$> list_find (fun pa => attr_GetCode pa = code) pathAttrs.

(** [append(attrs[:idx], pa)] cuts the list at [idx]; the [copy] that follows has no room to move
    anything to. With no attributes at all nothing is added. *)
Definition AddOriginatorId (pathAttrs : list BGPPathAttr) (id : bytes) : list BGPPathAttr * bool :=
  match find_code pathAttrs BGPPathAttrTypeOriginatorId with
  | Some _ => (pathAttrs, false)
  | None =>
    match pathAttrs with
    | [] => ([], true)
    | _ =>
      let idx := first_greater pathAttrs BGPPathAttrTypeOriginatorId in
      (take idx pathAttrs ++ [AOriginatorId (NewBGPPathAttrOriginatorId id)], true)
    end
  end.

(** [attrs[idx].( *BGPPathAttrClusterList ).PrependId(id)] *)
Definition prepend_cluster (pathAttrs : list BGPPathAttr) (idx : nat) (id : Z) : result (list BGPPathAttr) :=
  match pathAttrs !! idx with
  | None => Panic
  | Some pa => c ← as_ClusterList pa; Ok (<[idx := AClusterList (PrependId c id)]> pathAttrs)
  end.

Definition AddClusterId (pathAttrs : list BGPPathAttr) (id : Z) : result (list BGPPathAttr * bool) :=
  match find_code pathAttrs BGPPathAttrTypeClusterList with
  | Some idx => pas ← prepend_cluster pathAttrs idx id; Ok (pas, true)
  | None =>
    match pathAttrs with
    | [] => Ok ([], false)
    | _ =>
      let idx := first_greater pathAttrs BGPPathAttrTypeClusterList in
      pas ← prepend_cluster (take idx pathAttrs ++ [AClusterList NewBGPPathAttrClusterList]) idx id;
      Ok (pas, true)
    end
  end.

(** The operands are shifted as bytes, before they are widened. *)
Definition ConvertIPBytesToUint (b : bytes) : result Z :=
  b0 ← sget b 0; b1 ← sget b 1; b2 ← sget b 2; b3 ← sget b 3;
  Ok (Z.lor (Z.lor (Z.lor (u32 (Z.shiftl b0 24)) (u8 (Z.shiftl b1 16))) (u8 (Z.shiftl b2 8))) b3).

(** ** Building attributes *)

(** [nh.SetNextHop(net.IPv6zero)] on a new next hop; its error is ignored. *)
Definition ConstructMPReachNLRIForAggRoutes (protoFamily : Z) : BGPPathAttrMPReachNLRI :=
  let nh := match MPNextHopIP_SetNextHop NewMPNextHopIP IPv6zero with
            | Ok nh => nh
            | _ => NewMPNextHopIP
            end in
  let '(afi, safi) := GetAfiSafi protoFamily in
  let pa := NewBGPPathAttrMPReachNLRI in
  mpr_SetNextHop {| mpr_base := mpr_base pa; mpr_AFI := afi; mpr_SAFI := safi; mpr_NextHop := mpr_NextHop pa;
                    mpr_Reserved := mpr_Reserved pa; mpr_NLRI := mpr_NLRI pa |} (MPIP nh).

(** The parameter [as] is not used. *)
Definition ConstructPathAttrForConnRoutes (as_ : Z) : list BGPPathAttr :=
  [AOrigin (NewBGPPathAttrOrigin BGPPathAttrOriginIncomplete); AASPath NewBGPPathAttrASPath;
   ANextHop {| nexthop_base := nexthop_base NewBGPPathAttrNextHop; nexthop_Value := IPv4zero |}].

Definition ConstructNLRIFromPathIdAndNLRI (nlri : NLRI) (pathId : Z) : NLRI :=
  match nlri with
  | NExtNLRI n => NExtNLRI {| ext_IPPrefix := ext_IPPrefix n; ext_PathId := pathId |}
  | NIPPrefix ip => NIPPrefix ip
  end.

Definition ConstructMPUnreachNLRI (afi safi : Z) (nlriList : list NLRI) : BGPPathAttrMPUnreachNLRI :=
  let u := NewBGPPathAttrMPUnreachNLRI in
  mpu_AddNLRIList {| mpu_base := mpu_base u; mpu_AFI := afi; mpu_SAFI := safi; mpu_NLRI := mpu_NLRI u |} nlriList.

Definition ConstructMPUnreachNLRIFromProtoFamily (protoFamily : Z) (nlriList : list NLRI)
    : BGPPathAttrMPUnreachNLRI :=
  let '(afi, safi) := GetAfiSafi protoFamily in ConstructMPUnreachNLRI afi safi nlriList.

(** The errors of the two setters are ignored; they leave the next hop as it is. A nil
    [nextHopLinkLocal] is [None]. *)
Definition ConstructIPv6MPReachNLRI (protoFamily : Z) (nextHop : bytes) (nextHopLinkLocal : option bytes)
    (nlriList : list NLRI) : BGPPathAttrMPReachNLRI :=
  let '(afi, safi) := GetAfiSafi protoFamily in
  let r := NewBGPPathAttrMPReachNLRI in
  let nh := NewMPNextHopIP6 in
  let nh := match SetGlobalNextHop nh nextHop with Ok nh => nh | _ => nh end in
  let nh := match nextHopLinkLocal with
            | Some ll =>
              match To16 ll with
              | None => match SetLinkLocalNextHop nh ll with Ok nh => nh | _ => nh end
              | Some _ => nh
              end
            | None => nh
            end in
  mpr_SetNLRIList
    (mpr_SetNextHop {| mpr_base := mpr_base r; mpr_AFI := afi; mpr_SAFI := safi; mpr_NextHop := mpr_NextHop r;
                       mpr_Reserved := mpr_Reserved r; mpr_NLRI := mpr_NLRI r |} (MPIP6 nh)) nlriList.

(** [None]: the next hop is the nil interface, and [SetNextHop] calls a method of it. *)
Definition CloneMPReachNLRIWithNewNLRI (mpReachNLRI : BGPPathAttrMPReachNLRI) (nlri : list NLRI)
    : result BGPPathAttrMPReachNLRI :=
  let r := NewBGPPathAttrMPReachNLRI in
  match mpr_NextHop mpReachNLRI with
  | None => Panic
  | Some nh =>
    Ok (mpr_SetNLRIList
          (mpr_SetNextHop {| mpr_base := mpr_base r; mpr_AFI := mpr_AFI mpReachNLRI; mpr_SAFI := mpr_SAFI mpReachNLRI;
                             mpr_NextHop := mpr_NextHop r; mpr_Reserved := mpr_Reserved r; mpr_NLRI := mpr_NLRI r |}
             nh) nlri)
  end.

Definition ConstructIPv6MPReachNLRIForConnRoutes (protoFamily : Z) : BGPPathAttrMPReachNLRI :=
  ConstructIPv6MPReachNLRI protoFamily IPv6zero None [].
