(* ===== verification/BgpHelperFacts.v ===== *)
(** What the helpers of [src/bgp/packet/helpers.go] do: where attributes are inserted and removed,
    what prepending an AS and changing the width of AS numbers keep, and when they panic. *)
From stdpp Require Import base numbers list gmap sorting.
From Stdlib Require Import ZArith Lia.
From S2P Require Import Prelude GoNet BgpBase BgpNlri BgpAttrs BgpAttrCodec BgpAttrFacts BgpHelpers.
Open Scope Z_scope.

(** ** Attributes whose type agrees with their code *)

(** Every attribute the decoder makes, and every one the constructors make but
    [NewBGPPathAttrAS4Path]'s. *)
Definition attrs_typed (pas : list BGPPathAttr) : Prop := Forall attr_code_ok pas.

Ltac code_neq :=
  match goal with
  | Hc : attr_GetCode ?a ∉ _, Hk : attr_GetCode ?a = _ |- _ =>
      exfalso; apply Hc; rewrite Hk; repeat first [left | right]
  end.

(** An attribute with a known code has the Go type of that code. *)
Ltac typed_inv :=
  match goal with
  | H : attr_code_ok ?pa, Hk : attr_GetCode ?pa = _ |- _ =>
      destruct pa; cbn [attr_code_ok] in H; try (rewrite Hk in H; discriminate H); try code_neq
  end.

Lemma typed_ASPath pa :
  attr_code_ok pa -> attr_GetCode pa = BGPPathAttrTypeASPath -> exists a, pa = AASPath a.
Proof. intros H Hk. typed_inv. eauto. Qed.
Lemma typed_AS4Path pa :
  attr_code_ok pa -> attr_GetCode pa = BGPPathAttrTypeAS4Path -> exists a, pa = AAS4Path a.
Proof. intros H Hk. typed_inv. eauto. Qed.
Lemma typed_Aggregator pa :
  attr_code_ok pa -> attr_GetCode pa = BGPPathAttrTypeAggregator -> exists a, pa = AAggregator a.
Proof. intros H Hk. typed_inv. eauto. Qed.
Lemma typed_AS4Aggregator pa :
  attr_code_ok pa -> attr_GetCode pa = BGPPathAttrTypeAS4Aggregator -> exists a, pa = AAS4Aggregator a.
Proof. intros H Hk. typed_inv. eauto. Qed.
Lemma typed_LocalPref pa :
  attr_code_ok pa -> attr_GetCode pa = BGPPathAttrTypeLocalPref -> exists a, pa = ALocalPref a.
Proof. intros H Hk. typed_inv. eauto. Qed.

(** ** [NormalizeASPath] always returns *)

Lemma find_path_kinds_no_hang pas : forall k, find_path_kinds pas k <> Hang.
Proof.
  induction pas as [|pa pas IH]; intros k H; cbn [find_path_kinds] in H; [discriminate|].
  apply bind_Hang_inv in H as [H|(k' & _ & H)]; [|by eapply IH].
  hang_inv; destruct pa; discriminate.
Qed.

Lemma widen_segments_no_hang segs : forall p, widen_segments p segs <> Hang.
Proof.
  induction segs as [|s segs IH]; intros p H; cbn [widen_segments] in H; hang_inv.
  - destruct s; discriminate.
  - unfold widen_segment in H. case_match; discriminate.
  - by eapply IH.
Qed.

Lemma ConvertAS2ToAS4_no_hang pas : ConvertAS2ToAS4 pas <> Hang.
Proof.
  induction pas as [|pa pas IH]; intros H; cbn [ConvertAS2ToAS4] in H; hang_inv.
  - destruct pa; discriminate.
  - by eapply widen_segments_no_hang.
  - done.
Qed.

Lemma skip_segments_no_hang segs skip : forall asNum i l p, skip_segments segs skip asNum i l p <> Hang.
Proof.
  induction segs as [|s segs IH]; intros asNum i l p H; cbn [skip_segments] in H; hang_inv.
  - destruct s; discriminate.
  - discriminate.
  - by eapply IH.
Qed.

Lemma GetNumASesByASType_no_hang pas t : GetNumASesByASType pas t <> Hang.
Proof.
  unfold GetNumASesByASType. case_match; [discriminate|]. case_match; [|discriminate].
  intros H'. hang_inv. destruct b; discriminate.
Qed.

(** The two counts are the same number: [GetNumASesByASType] looks at the AS_PATH for both. *)
Lemma GetNumASesByASType_same pas :
  GetNumASesByASType pas BGPPathAttrTypeAS4Path = GetNumASesByASType pas BGPPathAttrTypeASPath.
Proof. reflexivity. Qed.

Lemma skip_segments_asNum segs skip : forall asNum i l p r,
  0 <= asNum -> skip_segments segs skip asNum i l p = Ok r -> 0 <= r.2.
Proof.
  induction segs as [|s segs IH]; intros asNum i l p r Hn H; cbn [skip_segments] in H.
  { by injection H as <-. }
  case_match; [by injection H as <-|]. apply bind_Ok_inv in H as (seg & _ & H).
  case_match; [discriminate|]. eapply IH; [|exact H]. apply u16_range.
Qed.

Lemma prepend_skipped_0 fuel seg seg4 asNum : 0 <= asNum -> prepend_skipped fuel seg seg4 asNum 0 = Ok seg4.
Proof. intros H. destruct fuel; cbn [prepend_skipped]; by zif. Qed.

Lemma ConstructASPathFromAS4Path_0_no_hang p p4 : ConstructASPathFromAS4Path p p4 0 <> Hang.
Proof.
  intros H. unfold ConstructASPathFromAS4Path in H.
  apply bind_Hang_inv in H as [H|([[q i] n] & Hs & H)]; [by eapply skip_segments_no_hang|].
  apply skip_segments_asNum in Hs; [|done]. cbn [snd] in Hs.
  destruct (as4path_Value p4); [discriminate|]. destruct (aspath_Value p !! i) as [s|]; [|discriminate].
  destruct s; [|discriminate]. cbn [as_AS2Segment] in H.
  by rewrite bind_Ok, prepend_skipped_0 in H.
Qed.

Lemma NormalizeASPath_no_hang n pas : NormalizeASPath n pas <> Hang.
Proof.
  unfold NormalizeASPath. case_match; [discriminate|]. intros H'.
  apply bind_Hang_inv in H' as [H'|(k & _ & H')]; [by eapply find_path_kinds_no_hang|].
  destruct (k_asPath k) as [p|]; [|discriminate]. case_match; [|case_match; discriminate].
  unfold normalize_as2 in H'. apply bind_Hang_inv in H' as [H'|(keep & _ & H')].
  { repeat case_match; try discriminate. unfold aggregator_not_trans in H'. case_match; discriminate. }
  destruct keep; [discriminate|].
  apply bind_Hang_inv in H' as [H'|(pas' & _ & H')]; [by eapply ConvertAS2ToAS4_no_hang|].
  destruct (k_as4Path k) as [p4|]; [|discriminate].
  apply bind_Hang_inv in H' as [H'|(num & Hnum & H')]; [by eapply GetNumASesByASType_no_hang|].
  rewrite GetNumASesByASType_same, Hnum, bind_Ok, Z.geb_leb, (proj2 (Z.leb_le num num)), Z.sub_diag in H' by lia.
  apply bind_Hang_inv in H' as [H'|(p' & _ & H')]; [by eapply ConstructASPathFromAS4Path_0_no_hang | discriminate].
Qed.

(** ** Where attributes are inserted *)

Definition codes (pas : list BGPPathAttr) : list Z := attr_GetCode <$> pas.

Lemma last_greater_app pas qas code : forall i o,
  last_greater (pas ++ qas) code i o = last_greater qas code (length pas + i) (last_greater pas code i o).
Proof.
  induction pas as [|pa pas IH]; intros i o; [done|]. cbn [last_greater app length].
  rewrite IH. f_equal. lia.
Qed.

Lemma last_greater_none qas code : forall i o,
  Forall (fun pa => attr_GetCode pa <= code) qas -> last_greater qas code i o = o.
Proof.
  induction qas as [|pa qas IH]; intros i o H; [done|]. inversion_clear H. cbn [last_greater].
  rewrite Z.gtb_ltb. zif. by apply IH.
Qed.

(** [AddPathAttrToPathAttrsByCode] puts the attribute in front of the last one with a greater code,
    or at the end. *)
Lemma AddPathAttr_before pre g post code attr :
  code < attr_GetCode g -> Forall (fun pa => attr_GetCode pa <= code) post ->
  AddPathAttrToPathAttrsByCode (pre ++ g :: post) code attr = pre ++ attr :: g :: post.
Proof.
  intros Hg Hp. unfold AddPathAttrToPathAttrsByCode, insert_at.
  rewrite last_greater_app. cbn [last_greater]. rewrite Z.gtb_ltb. zif.
  rewrite last_greater_none, Nat.add_0_r by done. by rewrite take_app_length, drop_app_length.
Qed.

Lemma AddPathAttr_end pas code attr :
  Forall (fun pa => attr_GetCode pa <= code) pas ->
  AddPathAttrToPathAttrsByCode pas code attr = pas ++ [attr].
Proof.
  intros Hp. unfold AddPathAttrToPathAttrsByCode, insert_at. rewrite last_greater_none by done.
  by rewrite take_ge, drop_ge by done.
Qed.

(** The last attribute with a greater code splits the list. *)
Lemma last_greater_split pas code :
  Forall (fun pa => attr_GetCode pa <= code) pas \/
  exists pre g post, pas = pre ++ g :: post /\ code < attr_GetCode g /\
    Forall (fun pa => attr_GetCode pa <= code) post.
Proof.
  induction pas as [|pa pas [IH|(pre & g & post & -> & Hg & Hp)]]; [by left | |].
  - destruct (decide (attr_GetCode pa <= code)); [left; by constructor|].
    right. exists [], pa, pas. split; [done|]. split; [lia | done].
  - right. exists (pa :: pre), g, post. done.
Qed.

Lemma removeType_none pas code :
  Forall (fun pa => attr_GetCode pa <> code) pas -> removeTypeFromPathAttrs pas code = (pas, None).
Proof.
  induction 1 as [|pa pas H _ IH]; [done|]. cbn [removeTypeFromPathAttrs]. zif. by rewrite IH.
Qed.

Lemma removeType_app pre pa post code :
  Forall (fun pa => attr_GetCode pa <> code) pre -> attr_GetCode pa = code ->
  removeTypeFromPathAttrs (pre ++ pa :: post) code = (pre ++ post, Some pa).
Proof.
  induction 1 as [|qa pre H _ IH]; intros Hc; cbn [removeTypeFromPathAttrs app].
  - by rewrite Hc, Z.eqb_refl.
  - zif. by rewrite IH.
Qed.

(** Removing the only attribute with a code is filtering the list. *)
Lemma removeType_filter pas code :
  NoDup (codes pas) ->
  (removeTypeFromPathAttrs pas code).1 = filter (fun pa => attr_GetCode pa <> code) pas.
Proof.
  induction pas as [|pa pas IH]; intros Hnd; [done|].
  change (codes (pa :: pas)) with (attr_GetCode pa :: codes pas) in Hnd. apply NoDup_cons in Hnd as [Hni Hnd].
  cbn [removeTypeFromPathAttrs]. destruct (attr_GetCode pa =? code) eqn:Hc; zhyp.
  - rewrite filter_cons_False by (intros H; by apply H). cbn [fst].
    symmetry. apply filter_Forall, Forall_forall. intros qa Hqa Hk. apply Hni.
    rewrite Hc, <- Hk. by apply list_elem_of_fmap_2.
  - rewrite filter_cons_True by done. destruct (removeTypeFromPathAttrs pas code) eqn:Hr. cbn [fst].
    by rewrite <- IH.
Qed.

(** ** LOCAL_PREF *)

Lemma set_local_pref_typed pas pref :
  attrs_typed pas ->
  (BGPPathAttrTypeLocalPref ∉ codes pas -> set_local_pref pas pref = Ok None) /\
  (forall pre a post, pas = pre ++ ALocalPref a :: post -> BGPPathAttrTypeLocalPref ∉ codes pre ->
     attr_GetCode (ALocalPref a) = BGPPathAttrTypeLocalPref ->
     set_local_pref pas pref = Ok (Some (pre ++ ALocalPref {| lp_base := lp_base a; lp_Value := pref |} :: post))).
Proof.
  intros Ht. split.
  - induction Ht as [|pa pas Hpa Ht IH]; intros Hni; [done|]. cbn [set_local_pref codes fmap list_fmap] in *.
    apply not_elem_of_cons in Hni as [Hne Hni]. zif. by rewrite IH.
  - clear Ht. intros pre a post -> Hni Hc. induction pre as [|qa pre IH]; cbn [set_local_pref app].
    + by rewrite Hc.
    + cbn [codes fmap list_fmap] in Hni. apply not_elem_of_cons in Hni as [Hne Hni]. zif. by rewrite IH.
Qed.

Lemma first_greater_app pas code :
  exists pre post, pas = pre ++ post /\ first_greater pas code = length pre /\
    Forall (fun pa => attr_GetCode pa <= code) pre /\
    (forall pa post', post = pa :: post' -> code < attr_GetCode pa).
Proof.
  induction pas as [|pa pas (pre & post & -> & Hf & Hp & Hh)].
  { exists [], []. repeat split; [constructor | discriminate]. }
  cbn [first_greater]. rewrite Z.gtb_ltb. destruct (code <? attr_GetCode pa) eqn:Hc; zhyp.
  - exists [], (pa :: pre ++ post). repeat split; [constructor|]. by intros ? ? [= <- _].
  - exists (pa :: pre), post. repeat split; [cbn; by rewrite Hf | by constructor | done].
Qed.

Lemma insert_at_length pre post attr : insert_at (pre ++ post) (length pre) attr = pre ++ attr :: post.
Proof. unfold insert_at. by rewrite take_app_length, drop_app_length. Qed.

(** ** Prepending the local AS *)

(** The AS numbers of a path, in order. *)
Definition path_ases (a : BGPPathAttrASPath) : list Z := concat (segment_AS <$> aspath_Value a).

Definition path_width (w : Z) (a : BGPPathAttrASPath) : Prop :=
  Forall (fun s => segment_width s = w) (aspath_Value a).

Lemma aspath_grow_first b s s' ss z n :
  aspath_wf {| aspath_base := b; aspath_Value := s :: ss; aspath_ASSize := z |} ->
  segment_wf s' -> segment_TotalLen s' = segment_TotalLen s + n -> 0 <= n -> pa_Length b + n < 65536 ->
  aspath_wf {| aspath_base := base_add_length b n; aspath_Value := s' :: ss; aspath_ASSize := z |}.
Proof.
  intros [Hss Hl] Hs' Ht Hn Hb. cbn [aspath_Value aspath_base] in *. inversion_clear Hss as [|? ? Hs Hss'].
  split; cbn [aspath_Value aspath_base base_add_length pa_Length]; [by constructor|].
  change (s' :: ss) with ([s'] ++ ss). change (s :: ss) with ([s] ++ ss) in Hl.
  rewrite segments_wire_app, segments_wire_1, len_app, segment_wf_wire in * by done.
  pose proof (len_nonneg (segments_wire ss)). pose proof (len_nonneg (segment_wire s)).
  rewrite segment_wf_wire in * by done. rewrite u16_id; [lia | unfold is_u16; lia].
Qed.

(** The first segment takes the AS when it is not a set and not full. *)
Lemma prepend_first_spec b s ss z AS :
  aspath_wf {| aspath_base := b; aspath_Value := s :: ss; aspath_ASSize := z |} ->
  segment_GetLen s < 255 -> pa_Length b + segment_width s < 65536 ->
  exists s', prepend_first (s :: ss) AS = Ok (s' :: ss) /\
    segment_AS s' = narrow (segment_width s) AS :: segment_AS s /\
    segment_width s' = segment_width s /\ segment_GetType s' = segment_GetType s /\
    aspath_wf {| aspath_base := base_add_length b (segment_width s); aspath_Value := s' :: ss; aspath_ASSize := z |}.
Proof.
  intros Hwf Hlt Hb. pose proof Hwf as [Hss _]. inversion_clear Hss as [|? ? Hs _].
  pose proof (segment_PrependAS_spec s AS Hs) as Hadd. unfold segment_added in Hadd.
  rewrite (proj2 (Z.ltb_lt _ _) Hlt) in Hadd. destruct Hadd as (s' & He & Hwf' & Has & Hty & Hw).
  exists s'. cbn [prepend_first]. rewrite He. split; [done|]. split; [done|]. split; [done|]. split; [done|].
  eapply aspath_grow_first; [exact Hwf | done | | destruct s; cbn; lia | done].
  destruct Hwf' as (_ & _ & ->), Hs as (_ & _ & ->). rewrite Has, Hw, len_cons. lia.
Qed.

Lemma PrependAS_ASPath_4 a AS :
  aspath_wf a -> path_width 4 a -> pa_Length (aspath_base a) + 6 < 65536 ->
  exists a', PrependAS_ASPath a AS 4 = Ok (a', AS) /\ aspath_wf a' /\ path_width 4 a' /\
    path_ases a' = AS :: path_ases a /\ aspath_ASSize a' = aspath_ASSize a.
Proof.
  intros Hwf Hw Hl. unfold PrependAS_ASPath. cbn [Z.eqb Pos.eqb].
  destruct (needs_new_segment (aspath_Value a)) eqn:Hnew.
  - assert (Hwf1 : aspath_wf (PrependASPathSegment a (Seg4 NewBGPAS4PathSegmentSeq))).
    { pose proof Hwf as [Hss Hlen]. apply aspath_add_wf; [done | by vm_compute | | by constructor; [vm_compute|] |];
        change (Seg4 NewBGPAS4PathSegmentSeq :: aspath_Value a) with ([Seg4 NewBGPAS4PathSegmentSeq] ++ aspath_Value a);
        rewrite segments_wire_app, len_app; change (len (segments_wire [_])) with 2;
        change (segment_TotalLen (Seg4 NewBGPAS4PathSegmentSeq)) with 2; lia. }
    assert (Hlen : pa_Length (aspath_base (PrependASPathSegment a (Seg4 NewBGPAS4PathSegmentSeq)))
                   = pa_Length (aspath_base a) + 2).
    { cbn [PrependASPathSegment aspath_base base_add_length pa_Length]. apply u16_id.
      destruct Hwf as [_ Hlen]. rewrite Hlen in *. pose proof (len_nonneg (segments_wire (aspath_Value a))).
      unfold is_u16, segment_TotalLen. cbn. lia. }
    destruct (prepend_first_spec _ _ _ _ AS Hwf1) as (s' & He & Has & Hw' & _ & Hwf');
      [reflexivity | cbn [PrependASPathSegment aspath_base segment_width] in *; lia |].
    cbn [PrependASPathSegment aspath_Value aspath_base aspath_ASSize] in *. rewrite He, bind_Ok.
    eexists. split; [reflexivity|]. split; [exact Hwf'|].
    split; [by constructor|]. split; [|done]. unfold path_ases. cbn [aspath_Value fmap list_fmap concat].
    by rewrite Has.
  - destruct a as [b [|s ss] z]; [discriminate|]. cbn [needs_new_segment aspath_Value aspath_base] in *.
    apply orb_false_iff in Hnew as [_ Hlt]. rewrite Z.geb_leb in Hlt. zhyp.
    inversion_clear Hw as [|? ? Hws Hwss].
    destruct (prepend_first_spec _ _ _ _ AS Hwf) as (s' & He & Has & Hw' & _ & Hwf'); [done | rewrite Hws; lia|].
    rewrite He, bind_Ok. rewrite Hws in *. eexists. split; [reflexivity|]. split; [exact Hwf'|].
    split; [by constructor|]. split; [|done]. unfold path_ases. cbn [aspath_Value fmap list_fmap concat].
    by rewrite Has.
Qed.

Definition no_path_code (pa : BGPPathAttr) : Prop :=
  attr_GetCode pa <> BGPPathAttrTypeASPath /\ attr_GetCode pa <> BGPPathAttrTypeAS4Path.

Lemma PrependAS_none pas AS asSize : Forall no_path_code pas -> PrependAS pas AS asSize = Ok pas.
Proof.
  intros H. revert AS. induction H as [|pa pas [H1 H2] _ IH]; intros AS; [done|].
  cbn [PrependAS]. unfold PrependAS_attr. zif. rewrite bind_Ok. cbn [fst snd]. by rewrite IH.
Qed.

Lemma PrependAS_app pre pas AS asSize :
  Forall no_path_code pre -> PrependAS (pre ++ pas) AS asSize = (r ← PrependAS pas AS asSize; Ok (pre ++ r)).
Proof.
  induction 1 as [|pa pre [H1 H2] _ IH]; cbn [app].
  - by destruct (PrependAS pas AS asSize).
  - cbn [PrependAS]. unfold PrependAS_attr at 1. zif. rewrite bind_Ok. cbn [fst snd]. rewrite IH, bind_assoc.
    by destruct (PrependAS pas AS asSize).
Qed.

(** ** From four-byte to two-byte AS numbers *)

Lemma narrow_segments_ok segs : forall p b,
  Forall (fun s => segment_width s = 4) segs ->
  exists p' b', narrow_segments p b segs = Ok (p', b') /\
    length (aspath_Value p') = (length (aspath_Value p) + length segs)%nat /\
    b' = b || negb (forallb (fun s => forallb (fun a => negb (a >? 65535)) (segment_AS s)) segs) /\
    pa_Code (aspath_base p') = pa_Code (aspath_base p).
Proof.
  induction segs as [|s segs IH]; intros p b Hw.
  { exists p, b. cbn. rewrite orb_false_r. repeat split. lia. }
  inversion_clear Hw as [|? ? Hs Hss]. destruct s as [s|s]; [discriminate Hs|]. cbn [narrow_segments as_AS4Segment].
  rewrite bind_Ok. unfold CloneAsAS2PathSegment.
  destruct (IH (AppendASPathSegment p (Seg2 {|
      as2_base := {| seg_Type := seg_Type (as4s_base s); seg_Length := seg_Length (as4s_base s);
                     seg_Len := u16 (2 + u8 (seg_Length (as4s_base s) * 2)) |};
      as2_AS := as4_to_as2 <$> as4s_AS s |}))
      (b || negb (forallb (fun a => negb (a >? 65535)) (as4s_AS s))) Hss) as (p' & b' & -> & Hl & -> & Hc).
  exists p'. eexists. split; [reflexivity|]. split; [|split; [|exact Hc]].
  - rewrite Hl. cbn [AppendASPathSegment aspath_Value]. rewrite length_app. cbn [length]. lia.
  - cbn [forallb segment_AS]. rewrite negb_andb. by rewrite orb_assoc.
Qed.

Lemma path_width_4 segs :
  Forall (fun s => segment_width s = 4) segs -> exists ss, segs = Seg4 <$> ss.
Proof.
  induction 1 as [|s segs Hs _ (ss & ->)]; [by exists []|]. destruct s as [s|s]; [discriminate Hs|].
  by exists (s :: ss).
Qed.

Lemma convert_first_path_app pre a post :
  Forall no_path_code pre -> path_width 4 a -> attr_GetCode (AASPath a) = BGPPathAttrTypeASPath ->
  exists p p4, convert_first_path (pre ++ AASPath a :: post)
    = Ok (pre ++ AASPath p :: post,
          if forallb (fun s => forallb (fun x => negb (x >? 65535)) (segment_AS s)) (aspath_Value a)
          then None else Some p4) /\
    attr_GetCode (AAS4Path p4) = BGPPathAttrTypeASPath /\
    length (aspath_Value p) = length (aspath_Value a) /\ attr_GetCode (AASPath p) = BGPPathAttrTypeASPath.
Proof.
  intros Hpre Hw Hc. destruct (path_width_4 _ Hw) as (ss & Hss).
  destruct (narrow_segments_ok (aspath_Value a) NewBGPPathAttrASPath false Hw) as (p & b & Hn & Hlen & -> & Hcp).
  assert (Hclone : exists p4, CloneAsAS4Path a = Ok p4 /\ attr_GetCode (AAS4Path p4) = BGPPathAttrTypeASPath).
  { unfold CloneAsAS4Path. rewrite Hss, as4_segments_Seg4, bind_Ok. eexists. split; reflexivity. }
  destruct Hclone as (p4 & Hp4 & Hc4). exists p, p4. split; [|done].
  induction Hpre as [|qa pre [H1 H2] _ IH]; cbn [app convert_first_path].
  - rewrite Hc, Z.eqb_refl. cbn [as_ASPath]. rewrite bind_Ok, Hp4, bind_Ok, Hn, bind_Ok. cbn [fst snd orb].
    by destruct (forallb _ _).
  - zif. by rewrite IH, bind_Ok.
Qed.

(** ** From two-byte to four-byte AS numbers *)

Lemma widen_segment_ok s :
  segment_wf (Seg2 s) ->
  exists s', widen_segment s = Ok s' /\ as4s_AS s' = as2_AS s /\ segment_wf (Seg4 s') /\
    seg_Type (as4s_base s') = seg_Type (as2_base s).
Proof.
  intros (Hl & Hb & _). unfold segment_GetLen in Hl. cbn [segment_base segment_AS] in Hl, Hb.
  unfold widen_segment. rewrite Hl, Z.gtb_ltb. zif. eexists. split; [reflexivity|].
  cbn [as4s_AS as4s_base seg_Type]. rewrite Z.sub_diag. change (make 0) with (@nil Z). rewrite app_nil_r.
  split; [done|]. split; [|done]. pose proof (len_nonneg (as2_AS s)).
  unfold segment_wf, segment_GetLen, segment_TotalLen.
  cbn [segment_base segment_AS as4s_base as4s_AS seg_Length seg_Len segment_width].
  rewrite (u16_id (_ * 4)), u16_id; unfold is_u16; lia.
Qed.

Lemma widen_segments_ok segs : forall p,
  Forall segment_wf segs -> Forall (fun s => segment_width s = 2) segs ->
  exists p' ss, widen_segments p segs = Ok p' /\ aspath_Value p' = aspath_Value p ++ (Seg4 <$> ss) /\
    Forall segment_wf (Seg4 <$> ss) /\ concat (as4s_AS <$> ss) = concat (segment_AS <$> segs) /\
    length ss = length segs /\ aspath_ASSize p' = aspath_ASSize p /\
    pa_Code (aspath_base p') = pa_Code (aspath_base p).
Proof.
  induction segs as [|s segs IH]; intros p Hwf Hw.
  { exists p, []. cbn. rewrite app_nil_r. repeat split. constructor. }
  inversion_clear Hwf as [|? ? Hs Hss]. inversion_clear Hw as [|? ? Hws Hwss].
  destruct s as [s|s]; [|discriminate Hws]. destruct (widen_segment_ok s Hs) as (s' & Hwid & Has & Hs' & _).
  cbn [widen_segments as_AS2Segment]. rewrite bind_Ok, Hwid, bind_Ok.
  destruct (IH (AppendASPathSegment p (Seg4 s')) Hss Hwss) as (p' & ss & -> & Hv & Hwfs & Hc & Hl & Hz & Hcode).
  exists p', (s' :: ss). split; [done|]. cbn [fmap list_fmap concat length segment_AS].
  rewrite Hv, Hc, Hl, Has. cbn [AppendASPathSegment aspath_Value]. rewrite <- app_assoc.
  repeat split; (done || by constructor).
Qed.

Lemma ConvertAS2ToAS4_app pre a post :
  Forall no_path_code pre -> aspath_wf a -> path_width 2 a ->
  attr_GetCode (AASPath a) = BGPPathAttrTypeASPath ->
  exists p, ConvertAS2ToAS4 (pre ++ AASPath a :: post) = Ok (pre ++ AASPath p :: post) /\
    path_ases p = path_ases a /\ path_width 4 p /\ aspath_ASSize p = 0 /\
    length (aspath_Value p) = length (aspath_Value a) /\ attr_GetCode (AASPath p) = BGPPathAttrTypeASPath.
Proof.
  intros Hpre [Hwf _] Hw Hc.
  destruct (widen_segments_ok (aspath_Value a) NewBGPPathAttrASPath Hwf Hw)
    as (p & ss & Hwid & Hv & _ & Hases & Hl & Hz & Hcode).
  exists p. split.
  { induction Hpre as [|qa pre [H1 H2] _ IH]; cbn [app ConvertAS2ToAS4].
    - rewrite Hc, Z.eqb_refl. cbn [as_ASPath]. by rewrite bind_Ok, Hwid, bind_Ok.
    - zif. by rewrite IH, bind_Ok. }
  cbn [NewBGPPathAttrASPath aspath_Value app] in Hv.
  split; [|split; [|split; [done | split; [by rewrite Hv, length_fmap|done]]]].
  - unfold path_ases. rewrite Hv, <- Hases, <- list_fmap_compose. done.
  - unfold path_width. rewrite Hv. apply Forall_fmap, Forall_forall. done.
Qed.

(** ** [HasASLoop] *)

Lemma HasASLoop_app pre a post localAS :
  Forall no_path_code pre -> attr_GetCode (AASPath a) = BGPPathAttrTypeASPath ->
  HasASLoop (pre ++ AASPath a :: post) localAS = segments_have_AS (aspath_ASSize a) (aspath_Value a) localAS.
Proof.
  intros Hpre Hc. induction Hpre as [|qa pre [H1 H2] _ IH]; cbn [app HasASLoop].
  - by rewrite Hc, Z.eqb_refl.
  - by zif.
Qed.

Lemma existsb_eqb_elem (x : Z) l : existsb (fun a => a =? x) l = bool_decide (x ∈ l).
Proof.
  induction l as [|a l IH]; [done|]. cbn [existsb]. rewrite IH.
  destruct (Z.eqb_spec a x) as [->|Hne]; cbn [orb].
  - symmetry. apply bool_decide_eq_true. by left.
  - apply bool_decide_ext. rewrite elem_of_cons. naive_solver.
Qed.

Lemma segments_have_AS_ok asSize segs x :
  Forall (fun s => segment_width s = if asSize =? 4 then 4 else 2) segs ->
  segments_have_AS asSize segs x
  = Ok (bool_decide ((if asSize =? 4 then x else u16 x) ∈ concat (segment_AS <$> segs))).
Proof.
  induction 1 as [|s segs Hs _ IH]; [done|]. cbn [segments_have_AS fmap list_fmap concat].
  unfold segment_has_AS. rewrite IH. clear IH.
  destruct (asSize =? 4); destruct s as [s|s]; try discriminate Hs; cbn [as_AS4Segment as_AS2Segment segment_AS];
    rewrite !bind_Ok, existsb_eqb_elem; case_bool_decide; f_equal; symmetry;
    rewrite ?bool_decide_eq_true; try apply bool_decide_ext; rewrite elem_of_app; naive_solver.
Qed.

(** ** What [NormalizeASPath] finds *)

(** One step of the search, for an attribute whose type agrees with its code. *)
Definition note_kind (k : path_kinds) (pa : BGPPathAttr) : path_kinds :=
  match pa with
  | AASPath a => {| k_asPath := Some a; k_as4Path := k_as4Path k; k_asAggregator := k_asAggregator k;
                    k_as4Aggregator := k_as4Aggregator k |}
  | AAS4Path a => {| k_asPath := k_asPath k; k_as4Path := Some a; k_asAggregator := k_asAggregator k;
                     k_as4Aggregator := k_as4Aggregator k |}
  | AAggregator a => {| k_asPath := k_asPath k; k_as4Path := k_as4Path k; k_asAggregator := Some a;
                        k_as4Aggregator := k_as4Aggregator k |}
  | AAS4Aggregator a => {| k_asPath := k_asPath k; k_as4Path := k_as4Path k;
                           k_asAggregator := k_asAggregator k; k_as4Aggregator := Some a |}
  | _ => k
  end.

Lemma find_path_kinds_fold pas : forall k,
  attrs_typed pas -> find_path_kinds pas k = Ok (fold_left note_kind pas k).
Proof.
  induction pas as [|pa pas IH]; intros k Ht; [done|]. inversion_clear Ht as [|? ? Hpa Hpas].
  cbn [find_path_kinds fold_left].
  destruct pa; cbn [attr_code_ok] in Hpa;
    try (rewrite Hpa; cbn [Z.eqb Pos.eqb]; code_cbn; cbn [as_ASPath as_AS4Path as_Aggregator as_AS4Aggregator];
         rewrite !bind_Ok; by apply IH).
  assert (Hne : forall c, c ∈ [1; 2; 3; 4; 5; 6; 7; 9; 10; 14; 15; 17; 18] ->
    (attr_GetCode (AUnknown a) =? c) = false).
  { intros c Hc. apply Z.eqb_neq. intros Hk. apply Hpa. by rewrite Hk. }
  rewrite !Hne by (repeat first [left | right]). rewrite bind_Ok. by apply IH.
Qed.

(** A kind is found exactly when an attribute of its type is there. *)
Lemma kinds_found pas : forall k,
  let k' := fold_left note_kind pas k in
  (is_Some (k_asPath k') <-> (exists a, AASPath a ∈ pas) \/ is_Some (k_asPath k)) /\
  (is_Some (k_as4Path k') <-> (exists a, AAS4Path a ∈ pas) \/ is_Some (k_as4Path k)) /\
  (is_Some (k_asAggregator k') <-> (exists a, AAggregator a ∈ pas) \/ is_Some (k_asAggregator k)) /\
  (is_Some (k_as4Aggregator k') <-> (exists a, AAS4Aggregator a ∈ pas) \/ is_Some (k_as4Aggregator k)).
Proof.
  induction pas as [|pa pas IH]; intros k; cbn [fold_left].
  { repeat split; try (intros; by right); intros [(? & H%elem_of_nil)|]; done. }
  destruct (IH (note_kind k pa)) as (I1 & I2 & I3 & I4). cbn zeta in *.
  rewrite I1, I2, I3, I4. clear. setoid_rewrite elem_of_cons.
  destruct pa; cbn [note_kind k_asPath k_as4Path k_asAggregator k_as4Aggregator];
    naive_solver.
Qed.

Lemma kinds_path pas : forall k a,
  k_asPath (fold_left note_kind pas k) = Some a -> AASPath a ∈ pas \/ k_asPath k = Some a.
Proof.
  induction pas as [|pa pas IH]; intros k a; cbn [fold_left]; [by right|].
  intros [H|H]%IH; [left; by right|]. destruct pa; cbn [note_kind k_asPath] in H; try (by right).
  injection H as ->. left. by left.
Qed.

Lemma typed_no_code {A} (c : A -> BGPPathAttr) code pas :
  (forall a, attr_code_ok (c a) -> attr_GetCode (c a) = code) -> attrs_typed pas -> code ∉ codes pas ->
  ~ exists a, c a ∈ pas.
Proof.
  intros Hc Ht Hni (a & Ha). apply Hni. rewrite <- (Hc a).
  - by apply list_elem_of_fmap_2.
  - unfold attrs_typed in Ht. rewrite Forall_forall in Ht. by apply Ht.
Qed.

(** Without AS4_PATH and AS4_AGGREGATOR nothing changes in a session with four-byte AS numbers. *)
Lemma NormalizeASPath_id n pas :
  attrs_typed pas -> (forall a, AASPath a ∈ pas -> aspath_ASSize a = 4) ->
  BGPPathAttrTypeAS4Path ∉ codes pas -> BGPPathAttrTypeAS4Aggregator ∉ codes pas ->
  NormalizeASPath n pas = Ok pas.
Proof.
  intros Ht H4 Hn17 Hn18. unfold NormalizeASPath. case_match; [done|].
  rewrite find_path_kinds_fold, bind_Ok by done.
  destruct (kinds_found pas no_kinds) as (_ & I2 & _ & I4). cbn zeta in *.
  apply (typed_no_code AAS4Path) in Hn17; [|done..]. apply (typed_no_code AAS4Aggregator) in Hn18; [|done..].
  destruct (k_asPath _) as [a|] eqn:Ha; [|done]. apply kinds_path in Ha as [Ha|[=]].
  rewrite (H4 a Ha). cbn [Z.eqb Pos.eqb].
  destruct (k_as4Aggregator _); [exfalso|].
  { destruct (proj1 I4) as [?|[? [=]]]; [by eexists | done]. }
  destruct (k_as4Path _); [exfalso|done].
  destruct (proj1 I2) as [?|[? [=]]]; [by eexists | done].
Qed.

Lemma codes_removeType pas code :
  NoDup (codes pas) -> NoDup (codes (removeTypeFromPathAttrs pas code).1).
Proof.
  intros H. rewrite removeType_filter by done. eapply sublist_NoDup; [exact H|].
  apply fmap_sublist, sublist_filter.
Qed.

(** Removing an attribute that was found, or none that was not, filters the list. *)
Lemma removeType_found {A} (o : option A) pas code :
  NoDup (codes pas) -> (o = None -> code ∉ codes pas) ->
  match o with Some _ => (removeTypeFromPathAttrs pas code).1 | None => pas end
  = filter (fun pa => attr_GetCode pa <> code) pas.
Proof.
  intros Hnd Ho. destruct o; [by apply removeType_filter|]. symmetry. apply filter_Forall, Forall_forall.
  intros pa Hpa Hc. apply Ho; [done|]. rewrite <- Hc. by apply list_elem_of_fmap_2.
Qed.

(** An attribute with a code is one of the constructor that goes with it. *)
Lemma codes_elem {A} (c : A -> BGPPathAttr) code pas :
  (forall pa, attr_code_ok pa -> attr_GetCode pa = code -> exists a, pa = c a) -> attrs_typed pas ->
  code ∈ codes pas -> exists a, c a ∈ pas.
Proof.
  intros Hc Ht (pa & -> & Hin)%list_elem_of_fmap. unfold attrs_typed in Ht. rewrite Forall_forall in Ht.
  destruct (Hc pa (Ht _ Hin) eq_refl) as (a & ->). by exists a.
Qed.

(** ** Properties *)

(** In a session with four-byte AS numbers [NormalizeASPath] discards the attributes that only
    a two-byte speaker may send: for attributes without repeated codes, among them an AS_PATH, the
    result is the list without AS4_PATH and AS4_AGGREGATOR, in the same order. *)
Theorem normalize_as4_session (n : Z) (pas : list BGPPathAttr) :
  attrs_typed pas -> NoDup (codes pas) -> (forall a, AASPath a ∈ pas -> aspath_ASSize a = 4) ->
  (exists a, AASPath a ∈ pas) -> n <> 0 ->
  NormalizeASPath n pas
  = Ok (filter (fun pa => attr_GetCode pa <> BGPPathAttrTypeAS4Path)
          (filter (fun pa => attr_GetCode pa <> BGPPathAttrTypeAS4Aggregator) pas)).
Proof.
  intros Ht Hnd H4 Hex Hn. unfold NormalizeASPath. zif. rewrite find_path_kinds_fold, bind_Ok by done.
  destruct (kinds_found pas no_kinds) as (I1 & I2 & _ & I4). cbn zeta in *.
  destruct (k_asPath _) as [a|] eqn:Ha; [|exfalso; destruct (proj2 I1 (or_introl Hex)) as [? [=]]].
  apply kinds_path in Ha as [Ha|[=]]. rewrite (H4 a Ha). cbn [Z.eqb Pos.eqb]. f_equal.
  set (k := fold_left note_kind pas no_kinds) in *.
  rewrite (removeType_found (k_as4Aggregator k)); [|done|].
  2: { intros Hk Hin. apply (codes_elem AAS4Aggregator) in Hin; [|apply typed_AS4Aggregator | done].
       rewrite Hk in I4. destruct (proj2 I4 (or_introl Hin)) as [? [=]]. }
  apply removeType_found.
  - rewrite <- removeType_filter by done. by apply codes_removeType.
  - intros Hk Hin. assert (Hin' : BGPPathAttrTypeAS4Path ∈ codes pas).
    { apply list_elem_of_fmap in Hin as (pa & Hc & Hin). apply list_elem_of_filter in Hin as [_ Hin].
      rewrite Hc. by apply list_elem_of_fmap_2. }
    apply (codes_elem AAS4Path) in Hin'; [|apply typed_AS4Path | done].
    rewrite Hk in I2. destruct (proj2 I2 (or_introl Hin')) as [? [=]].
Qed.

Definition as4_aggregator_example : BGPPathAttrAS4Aggregator :=
  NewBGPPathAttrAS4Aggregator.

Lemma normalize_as4_session_witness :
  NormalizeASPath 30 [AOrigin (NewBGPPathAttrOrigin 0); AASPath aspath_example; AAS4Aggregator as4_aggregator_example]
  = Ok [AOrigin (NewBGPPathAttrOrigin 0); AASPath aspath_example].
Proof.
  rewrite (normalize_as4_session 30
    [AOrigin (NewBGPPathAttrOrigin 0); AASPath aspath_example; AAS4Aggregator as4_aggregator_example]).
  - reflexivity.
  - by repeat constructor.
  - apply (bool_decide_unpack _). vm_compute. exact I.
  - intros a Ha. rewrite !elem_of_cons in Ha. destruct Ha as [[=]|[[= ->]|[[=]|Ha]]]; [reflexivity|].
    by apply elem_of_nil in Ha.
  - exists aspath_example. right. left.
  - lia.
Defined.

(** [HasASLoop] on a path whose segments have the width its [ASSize] says: it answers whether
    the local AS is one of the path's AS numbers (with two-byte numbers, whether its low 16 bits
    are). It is the first AS_PATH that counts. *)
Theorem has_as_loop_correct (pre : list BGPPathAttr) (a : BGPPathAttrASPath) (post : list BGPPathAttr) (localAS : Z) :
  Forall no_path_code pre -> attr_GetCode (AASPath a) = BGPPathAttrTypeASPath ->
  path_width (if aspath_ASSize a =? 4 then 4 else 2) a ->
  HasASLoop (pre ++ AASPath a :: post) localAS
  = Ok (bool_decide ((if aspath_ASSize a =? 4 then localAS else u16 localAS) ∈ path_ases a)).
Proof. intros Hpre Hc Hw. rewrite HasASLoop_app by done. by apply segments_have_AS_ok. Qed.

Lemma has_as_loop_correct_witness :
  HasASLoop [AOrigin (NewBGPPathAttrOrigin 0); AASPath aspath_example] 65001 = Ok true.
Proof.
  etransitivity; [apply (has_as_loop_correct [AOrigin (NewBGPPathAttrOrigin 0)] aspath_example [] 65001)|].
  - constructor; [split; discriminate | constructor].
  - reflexivity.
  - constructor; [reflexivity | constructor].
  - vm_compute. reflexivity.
Defined.

(** An UPDATE received in a session with two-byte AS numbers, with a non-empty AS_PATH and
    without AS4_PATH and aggregator: [NormalizeASPath] keeps its AS numbers and makes them four
    bytes wide, but leaves [ASSize] at 0, for which [HasASLoop] expects two-byte segments. So the
    loop check that the receiver runs next panics, for every local AS. *)
Theorem normalized_path_loop_check_panics (n : Z) (pre : list BGPPathAttr) (a : BGPPathAttrASPath)
    (post : list BGPPathAttr) :
  n <> 0 -> attrs_typed (pre ++ AASPath a :: post) ->
  Forall no_path_code pre -> Forall no_path_code post ->
  BGPPathAttrTypeAggregator ∉ codes (pre ++ AASPath a :: post) ->
  aspath_ASSize a = 2 -> aspath_wf a -> path_width 2 a -> aspath_Value a <> [] ->
  exists p, NormalizeASPath n (pre ++ AASPath a :: post) = Ok (pre ++ AASPath p :: post) /\
    path_ases p = path_ases a /\ path_width 4 p /\
    forall localAS, HasASLoop (pre ++ AASPath p :: post) localAS = Panic.
Proof.
  intros Hn Ht Hpre Hpost Hagg Hz Hwf Hw Hne.
  assert (Hc : attr_GetCode (AASPath a) = BGPPathAttrTypeASPath).
  { unfold attrs_typed in Ht. rewrite Forall_app, Forall_cons in Ht. apply Ht. }
  destruct (ConvertAS2ToAS4_app pre a post Hpre Hwf Hw Hc) as (p & Hconv & Hases & Hw4 & Hp0 & Hlen & Hpc).
  exists p. split; [|split; [done | split; [done|]]].
  - unfold NormalizeASPath. zif. rewrite find_path_kinds_fold, bind_Ok by done.
    destruct (kinds_found (pre ++ AASPath a :: post) no_kinds) as (I1 & I2 & I3 & _). cbn zeta in *.
    set (k := fold_left note_kind _ no_kinds) in *.
    assert (Honly : forall b, AASPath b ∈ pre ++ AASPath a :: post -> b = a).
    { intros b Hb. unfold attrs_typed in Ht. rewrite Forall_forall in Ht. pose proof (Ht _ Hb) as Hbc.
      rewrite elem_of_app, elem_of_cons in Hb.
      rewrite !Forall_forall in *. destruct Hb as [Hb|[[= ->]|Hb]]; [by apply Hpre in Hb as [] | done | by apply Hpost in Hb as []]. }
    destruct (k_asPath k) as [b|] eqn:Hb.
    2: { destruct (proj2 I1) as [? [=]]. left. exists a. apply elem_of_app. right. by left. }
    apply kinds_path in Hb as [Hb|[=]]. rewrite (Honly b Hb), Hz. cbn [Z.eqb Pos.eqb].
    unfold normalize_as2. apply (typed_no_code AAggregator) in Hagg; [|done..].
    destruct (k_asAggregator k) eqn:Ha; [exfalso; destruct (proj1 I3) as [?|[? [=]]]; [by eexists | done]|].
    rewrite bind_Ok, Hconv, bind_Ok.
    destruct (k_as4Path k) eqn:H4; [exfalso|done].
    destruct (proj1 I2) as [(x & Hx)|[? [=]]]; [by eexists|].
    assert (Hxc : attr_code_ok (AAS4Path x)) by (unfold attrs_typed in Ht; rewrite Forall_forall in Ht; by apply Ht).
    rewrite elem_of_app, elem_of_cons in Hx. rewrite !Forall_forall in *.
    destruct Hx as [Hx|[[=]|Hx]]; [by apply Hpre in Hx as [] | by apply Hpost in Hx as []].
  - intros localAS. rewrite HasASLoop_app, Hp0 by done.
    destruct (aspath_Value p) as [|s ss] eqn:Hv; [destruct (aspath_Value a); done|].
    unfold path_width in Hw4. rewrite Hv in Hw4. inversion_clear Hw4 as [|? ? Hs _].
    by destruct s; [discriminate Hs|].
Qed.

Definition as2_path_example : BGPPathAttrASPath :=
  {| aspath_base := {| pa_Flags := 80; pa_Code := 2; pa_Length := 6; pa_Len := 4 |};
     aspath_Value := [Seg2 {| as2_base := {| seg_Type := 2; seg_Length := 2; seg_Len := 6 |};
                              as2_AS := [65001; 23456] |}];
     aspath_ASSize := 2 |}.

Lemma normalized_path_loop_check_panics_witness :
  exists p, NormalizeASPath 13 [AOrigin (NewBGPPathAttrOrigin 0); AASPath as2_path_example]
            = Ok [AOrigin (NewBGPPathAttrOrigin 0); AASPath p] /\ path_ases p = [65001; 23456] /\
    HasASLoop [AOrigin (NewBGPPathAttrOrigin 0); AASPath p] 65010 = Panic.
Proof.
  destruct (normalized_path_loop_check_panics 13 [AOrigin (NewBGPPathAttrOrigin 0)] as2_path_example [])
    as (p & H1 & H2 & _ & H3).
  - lia.
  - by repeat constructor.
  - constructor; [split; discriminate | constructor].
  - constructor.
  - intros H. by apply (bool_decide_eq_true_2 _) in H.
  - reflexivity.
  - split; [constructor; [by vm_compute | constructor] | reflexivity].
  - constructor; [reflexivity | constructor].
  - discriminate.
  - exists p. split; [exact H1 | split; [exact H2 | exact (H3 65010)]].
Defined.

(** [PrependAS] towards a peer with four-byte AS numbers puts the local AS in front of the path
    (in a new sequence when the first segment is a set or full), keeps the attribute's recorded
    length right, and touches no other attribute. *)
Theorem prepend_as_correct (pre : list BGPPathAttr) (a : BGPPathAttrASPath) (post : list BGPPathAttr) (AS : Z) :
  Forall no_path_code pre -> Forall no_path_code post -> attr_GetCode (AASPath a) = BGPPathAttrTypeASPath ->
  aspath_wf a -> path_width 4 a -> pa_Length (aspath_base a) + 6 < 65536 ->
  exists a', PrependAS (pre ++ AASPath a :: post) AS 4 = Ok (pre ++ AASPath a' :: post) /\
    path_ases a' = AS :: path_ases a /\ aspath_wf a' /\ path_width 4 a'.
Proof.
  intros Hpre Hpost Hc Hwf Hw Hl. destruct (PrependAS_ASPath_4 a AS Hwf Hw Hl) as (a' & He & Hwf' & Hw' & Has & _).
  exists a'. rewrite PrependAS_app by done. cbn [PrependAS]. unfold PrependAS_attr. rewrite Hc. cbn [Z.eqb Pos.eqb as_ASPath]. code_cbn.
  by rewrite bind_Ok, He, !bind_Ok, PrependAS_none.
Qed.

Lemma prepend_as_correct_witness :
  exists a', PrependAS [AOrigin (NewBGPPathAttrOrigin 0); AASPath aspath_example] 64512 4
             = Ok [AOrigin (NewBGPPathAttrOrigin 0); AASPath a'] /\ path_ases a' = [64512; 65001; 4200000000].
Proof.
  destruct (prepend_as_correct [AOrigin (NewBGPPathAttrOrigin 0)] aspath_example [] 64512) as (a' & H1 & H2 & _).
  - constructor; [split; discriminate | constructor].
  - constructor.
  - reflexivity.
  - split; [constructor; [by vm_compute | constructor] | reflexivity].
  - constructor; [reflexivity | constructor].
  - vm_compute. reflexivity.
  - exists a'. split; [exact H1 | exact H2].
Defined.

Lemma PrependAS_attr_outcome pa AS asSize :
  (exists r, PrependAS_attr pa AS asSize = Ok r) \/ PrependAS_attr pa AS asSize = Panic.
Proof.
  assert (Hp : forall a, exists r, PrependAS_ASPath a AS asSize = Ok r).
  { intros a. unfold PrependAS_ASPath. destruct (needs_new_segment (aspath_Value a)) eqn:Hn.
    - destruct (asSize =? 4); by eexists.
    - destruct (aspath_Value a); [discriminate | by eexists]. }
  unfold PrependAS_attr. case_match; [|case_match; [|left; by eexists]].
  - destruct pa; try (by right). left. cbn [as_ASPath]. rewrite bind_Ok. destruct (Hp a) as (r & ->). by eexists.
  - right. destruct pa; try done. cbn [as_AS4Path]. rewrite bind_Ok. unfold PrependAS_AS4Path.
    by case_match.
Qed.

(** An AS4_PATH attribute that has the code of AS_PATH makes the loop panic, wherever it is. *)
Lemma PrependAS_miscoded_AS4Path pre p4 post asSize : forall AS,
  attr_GetCode (AAS4Path p4) = BGPPathAttrTypeASPath ->
  PrependAS (pre ++ AAS4Path p4 :: post) AS asSize = Panic.
Proof.
  induction pre as [|pa pre IH]; intros AS Hc; cbn [app PrependAS].
  - unfold PrependAS_attr. by rewrite Hc.
  - destruct (PrependAS_attr_outcome pa AS asSize) as [[r ->] | ->]; [|done]. by rewrite bind_Ok, IH.
Qed.

(** Towards an external peer with two-byte AS numbers the code first converts the path with
    [Convert4ByteTo2ByteASPath], then calls [PrependAS]. If an AS number of the path does not fit in
    two bytes, the conversion adds an AS4_PATH attribute made by [NewBGPPathAttrAS4Path], which has
    the code of AS_PATH; [PrependAS] asserts that an attribute with that code is an AS_PATH, and
    panics. *)
Theorem convert_then_prepend_panics (pre : list BGPPathAttr) (a : BGPPathAttrASPath) (post : list BGPPathAttr)
    (AS : Z) :
  Forall no_path_code pre -> attr_GetCode (AASPath a) = BGPPathAttrTypeASPath -> path_width 4 a ->
  Exists (fun x => x > 65535) (path_ases a) ->
  exists pas, Convert4ByteTo2ByteASPath (pre ++ AASPath a :: post) = Ok pas /\ PrependAS pas AS 2 = Panic.
Proof.
  intros Hpre Hc Hw Hbig.
  destruct (convert_first_path_app pre a post Hpre Hw Hc) as (p & p4 & Hconv & Hc4 & _ & _).
  unfold Convert4ByteTo2ByteASPath. rewrite Hconv, bind_Ok.
  destruct (forallb _ _) eqn:Hall.
  { exfalso. rewrite Exists_exists in Hbig. destruct Hbig as (x & Hx & Hbig).
    unfold path_ases in Hx. apply list_elem_of_In, in_concat in Hx as (l & Hl & Hx).
    apply in_map_iff in Hl as (s & <- & Hs). rewrite forallb_forall in Hall. specialize (Hall s Hs).
    rewrite forallb_forall in Hall. specialize (Hall x Hx). rewrite Z.gtb_ltb, negb_true_iff in Hall. zhyp. lia. }
  eexists. split; [reflexivity|].
  destruct (last_greater_split (pre ++ AASPath p :: post) BGPPathAttrTypeAS4Path) as [Hle|(l & g & r & -> & Hg & Hr)].
  - rewrite AddPathAttr_end by done. by apply PrependAS_miscoded_AS4Path.
  - rewrite AddPathAttr_before by done. by apply PrependAS_miscoded_AS4Path.
Qed.

Lemma convert_then_prepend_panics_witness :
  exists pas, Convert4ByteTo2ByteASPath [AOrigin (NewBGPPathAttrOrigin 0); AASPath aspath_example] = Ok pas /\
    PrependAS pas 64512 2 = Panic.
Proof.
  apply (convert_then_prepend_panics [AOrigin (NewBGPPathAttrOrigin 0)] aspath_example [] 64512).
  - constructor; [split; discriminate | constructor].
  - reflexivity.
  - constructor; [reflexivity | constructor].
  - right. left. lia.
Defined.

(** Where [AddPathAttrToPathAttrsByCode] puts an attribute in a list sorted by code. The others
    keep their order. The result is sorted if at most one of them has a greater code; as soon as two
    have, the attribute lands between them, and the result is not sorted. *)
Theorem add_path_attr_position (pas : list BGPPathAttr) (attr : BGPPathAttr) :
  StronglySorted (fun x y => attr_GetCode x < attr_GetCode y) pas ->
  Permutation (AddPathAttrToPathAttrsByCode pas (attr_GetCode attr) attr) (attr :: pas) /\
  (len (filter (fun pa => attr_GetCode attr < attr_GetCode pa) pas) <= 1 ->
   attr_GetCode attr ∉ codes pas ->
   StronglySorted (fun x y => attr_GetCode x < attr_GetCode y)
     (AddPathAttrToPathAttrsByCode pas (attr_GetCode attr) attr)) /\
  (2 <= len (filter (fun pa => attr_GetCode attr < attr_GetCode pa) pas) ->
   ~ StronglySorted (fun x y => attr_GetCode x < attr_GetCode y)
     (AddPathAttrToPathAttrsByCode pas (attr_GetCode attr) attr)).
Proof.
  intros Hs. set (c := attr_GetCode attr).
  destruct (last_greater_split pas c) as [Hle|(pre & g & post & -> & Hg & Hr)].
  - rewrite AddPathAttr_end by done. split; [by rewrite Permutation_app_comm|].
    assert (Hf : filter (fun pa => c < attr_GetCode pa) pas = []).
    { apply filter_none. eapply Forall_impl; [exact Hle|]. cbn. lia. }
    rewrite Hf, len_nil. split; [|lia]. intros _ Hni. apply StronglySorted_app_2; [|done | by repeat constructor].
    intros x y Hx ->%list_elem_of_singleton. rewrite Forall_forall in Hle. specialize (Hle x Hx).
    assert (attr_GetCode x <> c) by (intros Hxc; apply Hni; fold c; rewrite <- Hxc; by apply list_elem_of_fmap_2).
    fold c. lia.
  - rewrite AddPathAttr_before by done.
    assert (Hpost : post = []).
    { destruct post as [|h post]; [done|]. exfalso. apply StronglySorted_app_1_r in Hs.
      inversion_clear Hs as [|? ? _ Hh]. inversion_clear Hh as [|? ? Hgh _]. inversion_clear Hr. lia. }
    subst post. split; [by rewrite (Permutation_middle pre [g] attr)|].
    rewrite filter_app, filter_cons_True, len_app, len_cons by done. cbn [filter list_filter]. rewrite (@len_nil BGPPathAttr).
    set (q := filter _ pre). split.
    + intros Hl Hni. assert (Hq : len q = 0) by (pose proof (len_nonneg q); lia).
      assert (Hpre : Forall (fun x => attr_GetCode x < c) pre).
      { apply Forall_forall. intros x Hx.
        assert (attr_GetCode x <> c).
        { intros Hxc. apply Hni. fold c. rewrite <- Hxc. apply list_elem_of_fmap_2. apply elem_of_app. by left. }
        destruct (decide (c < attr_GetCode x)); [|lia]. exfalso.
        assert (Hxq : x ∈ q) by (apply list_elem_of_filter; done).
        destruct q; [by apply elem_of_nil in Hxq | rewrite len_cons in Hq; pose proof (len_nonneg q); lia]. }
      apply StronglySorted_app_2.
      * intros x y Hx Hy. rewrite Forall_forall in Hpre. specialize (Hpre x Hx).
        apply elem_of_cons in Hy as [->|Hy]; [done|]. apply list_elem_of_singleton in Hy as ->. lia.
      * by apply StronglySorted_app_1_l in Hs.
      * repeat constructor. done.
    + intros Hl Hsort. assert (exists x, x ∈ q) as (x & Hx).
      { destruct q as [|x q]; [rewrite len_nil in Hl; lia | exists x; by left]. }
      apply list_elem_of_filter in Hx as [Hcx Hx].
      apply StronglySorted_app_1_elem_of with (x1 := x) (x2 := attr) in Hsort; [fold c in Hsort; lia | done | by left].
Qed.

Lemma add_path_attr_position_witness :
  ~ StronglySorted (fun x y => attr_GetCode x < attr_GetCode y)
      (AddPathAttrToPathAttrsByCode
         [AOrigin (NewBGPPathAttrOrigin 0); AASPath NewBGPPathAttrASPath; AClusterList NewBGPPathAttrClusterList;
          AMPReachNLRI NewBGPPathAttrMPReachNLRI] 5 (ALocalPref NewBGPPathAttrLocalPref)).
Proof.
  refine (proj2 (proj2 (add_path_attr_position _ (ALocalPref NewBGPPathAttrLocalPref) _)) _).
  - repeat constructor.
  - vm_compute. congruence.
Defined.

Lemma getType_app pre pa post code :
  code ∉ codes pre -> attr_GetCode pa = code -> getTypeFromPathAttrs (pre ++ pa :: post) code = Some pa.
Proof.
  induction pre as [|qa pre IH]; intros Hni Hc; cbn [app getTypeFromPathAttrs].
  - by rewrite Hc, Z.eqb_refl.
  - apply not_elem_of_cons in Hni as [Hne Hni]. zif. by apply IH.
Qed.

(** A code that occurs splits the list at its first attribute. *)
Lemma codes_split code pas :
  code ∈ codes pas -> exists pre pa post, pas = pre ++ pa :: post /\ attr_GetCode pa = code /\ code ∉ codes pre.
Proof.
  induction pas as [|qa pas IH]; intros Hin; [by apply elem_of_nil in Hin|].
  destruct (decide (attr_GetCode qa = code)) as [Hc|Hc].
  - exists [], qa, pas. split; [done|]. split; [done | apply not_elem_of_nil].
  - apply elem_of_cons in Hin as [Hin|Hin]; [done|]. destruct (IH Hin) as (pre & pa & post & -> & Hpa & Hni).
    exists (qa :: pre), pa, post. split; [done|]. split; [done|]. by apply not_elem_of_cons.
Qed.

(** [SetLocalPref] on a message that has path attributes: afterwards the LOCAL_PREF found in it
    has the given value, and the other attributes are those there were, in the same order. On a
    message without attributes nothing is set. *)
Theorem set_local_pref_correct (pas : list BGPPathAttr) (pref : Z) :
  attrs_typed pas ->
  (pas = [] -> SetLocalPref pas pref = Ok []) /\
  (pas <> [] -> exists pas' a, SetLocalPref pas pref = Ok pas' /\
     getTypeFromPathAttrs pas' BGPPathAttrTypeLocalPref = Some (ALocalPref a) /\ lp_Value a = pref /\
     filter (fun pa => attr_GetCode pa <> BGPPathAttrTypeLocalPref) pas'
     = filter (fun pa => attr_GetCode pa <> BGPPathAttrTypeLocalPref) pas).
Proof.
  intros Ht. split; [by intros ->|]. intros Hne. destruct (set_local_pref_typed pas pref Ht) as [Hn Hs].
  unfold SetLocalPref. destruct (decide (BGPPathAttrTypeLocalPref ∈ codes pas)) as [Hin|Hni].
  - destruct (codes_split _ _ Hin) as (pre & pa & post & -> & Hc & Hni).
    unfold attrs_typed in Ht. rewrite Forall_app, Forall_cons in Ht.
    destruct (typed_LocalPref pa (proj1 (proj2 Ht)) Hc) as (a & ->).
    rewrite (Hs pre a post eq_refl Hni Hc), bind_Ok.
    eexists _, {| lp_base := lp_base a; lp_Value := pref |}. split; [reflexivity|].
    split; [by apply getType_app|]. split; [done|]. by rewrite !filter_app, !filter_cons_False by (intros H; by apply H).
  - rewrite Hn, bind_Ok by done. destruct pas as [|pa pas]; [done|]. cbn match.
    destruct (first_greater_app (pa :: pas) BGPPathAttrTypeLocalPref) as (pre & post & He & -> & _ & _).
    rewrite He in *. rewrite insert_at_length.
    eexists _, {| lp_base := lp_base NewBGPPathAttrLocalPref; lp_Value := pref |}. split; [reflexivity|].
    split; [apply getType_app; [|done] | split; [done|]].
    + intros Hin. apply Hni. unfold codes in *. rewrite fmap_app. apply elem_of_app. by left.
    + rewrite !filter_app, filter_cons_False by (intros H; by apply H). done.
Qed.

Lemma set_local_pref_correct_witness :
  exists pas' a, SetLocalPref [AOrigin (NewBGPPathAttrOrigin 0); AClusterList NewBGPPathAttrClusterList] 200 = Ok pas' /\
    getTypeFromPathAttrs pas' BGPPathAttrTypeLocalPref = Some (ALocalPref a) /\ lp_Value a = 200.
Proof.
  destruct (set_local_pref_correct [AOrigin (NewBGPPathAttrOrigin 0); AClusterList NewBGPPathAttrClusterList] 200)
    as [_ H]; [by repeat constructor|].
  destruct H as (pas' & a & H1 & H2 & H3 & _); [discriminate|].
  exists pas', a. split; [exact H1 | split; [exact H2 | exact H3]].
Defined.

Lemma first_greater_split pre g post code :
  Forall (fun pa => attr_GetCode pa <= code) pre -> code < attr_GetCode g ->
  first_greater (pre ++ g :: post) code = length pre.
Proof.
  intros Hpre Hg. induction Hpre as [|pa pre Hpa _ IH]; cbn [app first_greater]; rewrite Z.gtb_ltb; zif; [done|].
  by rewrite IH.
Qed.

Lemma find_code_none pas code : code ∉ codes pas -> find_code pas code = None.
Proof.
  intros Hni. unfold find_code. rewrite (proj2 (list_find_None _ _)); [done|].
  apply Forall_forall. intros pa Hpa Hc. apply Hni. rewrite <- Hc. by apply list_elem_of_fmap_2.
Qed.

(** What route reflection does to a message that has neither ORIGINATOR_ID nor CLUSTER_LIST:
    [AddOriginatorId] and [AddClusterId] add their attribute where it belongs, but cut the list
    there: every attribute with a greater code, MP_REACH_NLRI among them, is lost. *)
Theorem reflection_drops_attributes (pre : list BGPPathAttr) (g : BGPPathAttr) (post : list BGPPathAttr)
    (id : bytes) (cluster : Z) :
  (Forall (fun pa => attr_GetCode pa <= BGPPathAttrTypeOriginatorId) pre ->
   BGPPathAttrTypeOriginatorId < attr_GetCode g ->
   BGPPathAttrTypeOriginatorId ∉ codes (pre ++ g :: post) ->
   AddOriginatorId (pre ++ g :: post) id = (pre ++ [AOriginatorId (NewBGPPathAttrOriginatorId id)], true)) /\
  (Forall (fun pa => attr_GetCode pa <= BGPPathAttrTypeClusterList) pre ->
   BGPPathAttrTypeClusterList < attr_GetCode g ->
   BGPPathAttrTypeClusterList ∉ codes (pre ++ g :: post) ->
   AddClusterId (pre ++ g :: post) cluster
   = Ok (pre ++ [AClusterList (PrependId NewBGPPathAttrClusterList cluster)], true)).
Proof.
  split; intros Hpre Hg Hni.
  - unfold AddOriginatorId. rewrite find_code_none, first_greater_split, take_app_length by done. by destruct pre.
  - unfold AddClusterId. rewrite find_code_none, first_greater_split, take_app_length by done.
    unfold prepend_cluster. rewrite list_lookup_middle by done. cbn [as_ClusterList]. rewrite bind_Ok.
    replace (<[length pre := _]> _) with (pre ++ [AClusterList (PrependId NewBGPPathAttrClusterList cluster)]);
      [by destruct pre|].
    replace (length pre) with (length pre + 0)%nat by lia. by rewrite insert_app_r.
Qed.

Lemma reflection_drops_attributes_witness :
  AddOriginatorId [AOrigin (NewBGPPathAttrOrigin 0); AMPReachNLRI NewBGPPathAttrMPReachNLRI] [10; 0; 0; 1]
  = ([AOrigin (NewBGPPathAttrOrigin 0); AOriginatorId (NewBGPPathAttrOriginatorId [10; 0; 0; 1])], true).
Proof.
  apply (reflection_drops_attributes [AOrigin (NewBGPPathAttrOrigin 0)] (AMPReachNLRI NewBGPPathAttrMPReachNLRI) []
           [10; 0; 0; 1] 0).
  - constructor; [vm_compute; congruence | constructor].
  - reflexivity.
  - intros H. by apply (bool_decide_eq_true_2 _) in H.
Defined.

(** [ConvertIPBytesToUint], which the collision detection compares router identifiers with,
    drops the two middle bytes of the address: they are shifted out before they are widened. *)
Theorem convert_ip_drops_bytes (a b c d : Z) (rest : bytes) :
  bytes_ok [a; b; c; d] -> ConvertIPBytesToUint ([a; b; c; d] ++ rest) = Ok (a * 16777216 + d).
Proof.
  intros Hb. inversion_clear Hb as [|? ? Ha Hb1]. inversion_clear Hb1 as [|? ? Hb Hc1].
  inversion_clear Hc1 as [|? ? Hc Hd1]. inversion_clear Hd1 as [|? ? Hd _].
  unfold ConvertIPBytesToUint, sget. gocbn.
  assert (H16 : u8 (Z.shiftl b 16) = 0).
  { rewrite Z.shiftl_mul_pow2 by lia. unfold u8. change (2 ^ 16) with (256 * 256). rewrite Z.mul_assoc. apply Z.mod_mul. lia. }
  assert (H8 : u8 (Z.shiftl c 8) = 0) by (rewrite Z.shiftl_mul_pow2 by lia; apply Z.mod_mul; lia).
  rewrite H16, H8, !Z.lor_0_r. unfold is_u8 in *.
  rewrite Z.shiftl_mul_pow2, u32_id by (unfold is_u32; lia). f_equal. change 16777216 with (2 ^ 24).
  rewrite <- Z.shiftl_mul_pow2 by lia. rewrite <- Z.add_lor_land.
  assert (Z.land (Z.shiftl a 24) d = 0) as ->; [|lia].
  apply Z.bits_inj'. intros n Hn. rewrite Z.land_spec, Z.bits_0, Z.shiftl_spec by lia.
  destruct (decide (n < 24)); [by rewrite Z.testbit_neg_r by lia|].
  rewrite (Z.bits_above_log2 d n), andb_false_r; [done | lia |].
  destruct (decide (d = 0)) as [->|]; [cbn; lia|]. apply Z.log2_lt_pow2; [lia|].
  apply Z.lt_le_trans with (2 ^ 8); [lia | apply Z.pow_le_mono_r; lia].
Qed.

Lemma convert_ip_drops_bytes_witness :
  ConvertIPBytesToUint [10; 1; 2; 3] = Ok 167772163 /\ ConvertIPBytesToUint [10; 9; 8; 3] = Ok 167772163.
Proof.
  split; [apply (convert_ip_drops_bytes 10 1 2 3 []) | apply (convert_ip_drops_bytes 10 9 8 3 [])];
    repeat constructor; lia.
Defined.
