(* ===== verification/BgpPath.v ===== *)
(** Paths and the decision process of the BGP RIB ([src/bgp/rib/path.go], [pathsort.go] and the
    selection half of [destination.go]): what a path records, how the preference and the next hops
    are taken from its attributes, and the tie-breaking rules that pick the best path of a
    destination, its multipaths and its additional paths.

    A [*Path] is a token ([ptr]); the memory it points to is a function from tokens. Where the
    code compares two [*Path] the model compares tokens. *)
From stdpp Require Import base numbers list gmap strings pretty.
From Stdlib Require Import ZArith Lia.
From S2P Require Import Prelude GoNet BgpBase BgpNlri BgpAttrs BgpHelpers.
Open Scope Z_scope.

Definition RouteTypeAgg : Z := 1.
Definition RouteTypeConnected : Z := 2.
Definition RouteTypeStatic : Z := 4.
Definition RouteTypeIGP : Z := 8.
Definition RouteTypeEGP : Z := 16.

Definition RouteSrcLocal : Z := 1.
Definition RouteSrcExternal : Z := 2.
Definition RouteSrcUnknown : Z := 4.

Definition RouteTypeToSource (routeType : Z) : option Z :=
  if (routeType =? RouteTypeAgg) || (routeType =? RouteTypeConnected) || (routeType =? RouteTypeStatic)
     || (routeType =? RouteTypeIGP) then Some RouteSrcLocal
  else if routeType =? RouteTypeEGP then Some RouteSrcExternal else None.
Definition getRouteSource (routeType : Z) : Z := default RouteSrcUnknown (RouteTypeToSource routeType).

Definition BGP_INTERNAL_PREF : Z := 100.
Definition BGP_EXTERNAL_PREF : Z := 100.

(** What the RIB reads of a [base.NeighborConf]. *)
Record RibNeighbor := {
  nb_Address : bytes;
  nb_PeerAS : Z;
  nb_LocalAS : Z;
  nb_BGPId : bytes;
  nb_RouterId : bytes;
  nb_ClusterId : Z;
}.
Definition nb_IsInternal (n : RibNeighbor) : bool := nb_PeerAS n =? nb_LocalAS n.
Definition nb_IsExternal (n : RibNeighbor) : bool := negb (nb_LocalAS n =? nb_PeerAS n).

Record ReachabilityInfo := {
  ri_NextHop : string;
  ri_NextHopIfType : Z;
  ri_NextHopIfIdx : Z;
  ri_Metric : Z;
}.
Record NHReachabilityInfo := { nh_nextHop : bytes; nh_reachabilityInfo : option ReachabilityInfo }.

(** The aggregated paths of an aggregate are not part of the model. *)
Record Path := {
  pt_NeighborConf : option RibNeighbor;
  pt_PathAttrs : list BGPPathAttr;
  pt_Pref : Z;
  pt_nhReachabilityInfo : gmap Z NHReachabilityInfo;
  pt_routeType : Z;
  pt_MED : Z;
  pt_LocalPref : Z;
}.

Definition IsLocal (p : Path) : bool := getRouteSource (pt_routeType p) =? RouteSrcLocal.
Definition IsAggregate (p : Path) : bool := pt_routeType p =? RouteTypeAgg.
Definition IsExternal (p : Path) : bool :=
  match pt_NeighborConf p with Some n => nb_IsExternal n | None => false end.
Definition IsInternal (p : Path) : bool :=
  match pt_NeighborConf p with Some n => nb_IsInternal n | None => false end.

(** ** Building a path *)

(** The loop of [calculatePref] over the attributes: the preference, [LocalPref] and [MED]. *)
Fixpoint pref_attrs (pas : list BGPPathAttr) (pref localPref med : Z) : result (Z * Z * Z) :=
  match pas with
  | [] => Ok (pref, localPref, med)
  | attr :: pas =>
    if attr_GetCode attr =? BGPPathAttrTypeLocalPref then
      a ← as_LocalPref attr; pref_attrs pas (lp_Value a) (lp_Value a) med
    else if attr_GetCode attr =? BGPPathAttrTypeMultiExitDisc then
      a ← as_MultiExitDisc attr; pref_attrs pas pref localPref (med_Value a)
    else pref_attrs pas pref localPref med
  end.
Definition calculatePref (neighbor : option RibNeighbor) (pas : list BGPPathAttr) : result (Z * Z * Z) :=
  r ← pref_attrs pas BGP_INTERNAL_PREF 0 0;
  let '(pref, localPref, med) := r in
  Ok (match neighbor with
      | Some n => if nb_IsExternal n then BGP_EXTERNAL_PREF else pref
      | None => pref
      end, localPref, med).

Definition set_nextHop (family : Z) (nextHop : bytes) (m : gmap Z NHReachabilityInfo) : gmap Z NHReachabilityInfo :=
  <[family := {| nh_nextHop := nextHop; nh_reachabilityInfo := m !! family ≫= nh_reachabilityInfo |}]> m.

Fixpoint nextHop_attrs (pas : list BGPPathAttr) (m : gmap Z NHReachabilityInfo)
    : result (gmap Z NHReachabilityInfo) :=
  match pas with
  | [] => Ok m
  | attr :: pas =>
    if attr_GetCode attr =? BGPPathAttrTypeNextHop then
      a ← as_NextHop attr;
      nextHop_attrs pas (set_nextHop (GetProtocolFamily AfiIP SafiUnicast) (nexthop_Value a) m)
    else nextHop_attrs pas m
  end.
Definition constructNHReachabilityInfo (pas : list BGPPathAttr) (mpReach : option BGPPathAttrMPReachNLRI)
    : result (gmap Z NHReachabilityInfo) :=
  m ← nextHop_attrs pas ∅;
  match mpReach with
  | None => Ok m
  | Some r =>
    match mpr_NextHop r with
    | None => Panic
    | Some n => Ok (set_nextHop (GetProtocolFamily (mpr_AFI r) (mpr_SAFI r)) (MPNextHop_GetNextHop n) m)
    end
  end.

Definition NewPath (peer : option RibNeighbor) (pa : list BGPPathAttr) (mpReach : option BGPPathAttrMPReachNLRI)
    (routeType : Z) : result Path :=
  r ← calculatePref peer pa;
  let '(pref, localPref, med) := r in
  m ← constructNHReachabilityInfo pa mpReach;
  Ok {| pt_NeighborConf := peer; pt_PathAttrs := pa; pt_Pref := pref; pt_nhReachabilityInfo := m;
        pt_routeType := routeType; pt_MED := med; pt_LocalPref := localPref |}.

(** ** Reading a path *)

(** The originator or the cluster list is ours: the update has come back. *)
Fixpoint valid_attrs (neighbor : option RibNeighbor) (pas : list BGPPathAttr) : result bool :=
  match pas with
  | [] => Ok true
  | attr :: pas =>
    own ← (if attr_GetCode attr =? BGPPathAttrTypeOriginatorId then
             match neighbor with
             | None => Panic
             | Some n => a ← as_OriginatorId attr; Ok (ip_Equal (nb_RouterId n) (origid_Value a))
             end
           else if attr_GetCode attr =? BGPPathAttrTypeClusterList then
             a ← as_ClusterList attr;
             match cl_Value a, neighbor with
             | [], _ => Ok false
             | _, None => Panic
             | ids, Some n => Ok (bool_decide (nb_ClusterId n ∈ ids))
             end
           else Ok false);
    if (own : bool) then Ok false else valid_attrs neighbor pas
  end.
Definition IsValid (p : Path) : result bool := valid_attrs (pt_NeighborConf p) (pt_PathAttrs p).

Definition Path_HasASLoop (p : Path) : result bool :=
  match pt_NeighborConf p with
  | None => Ok false
  | Some n => HasASLoop (pt_PathAttrs p) (nb_LocalAS n)
  end.

Definition Path_GetNumASes (p : Path) : result Z := GetNumASes (pt_PathAttrs p).
Definition Path_GetOrigin (p : Path) : result Z := GetOrigin (pt_PathAttrs p).
Definition Path_GetNumClusters (p : Path) : result Z := GetNumClusters (pt_PathAttrs p).

Definition Path_GetNextHop (p : Path) (protoFamily : Z) : bytes :=
  default [] (nh_nextHop <$> pt_nhReachabilityInfo p !! protoFamily).

(** [binary.BigEndian.Uint32(id.To4())]: it panics when [To4] is nil. *)
Fixpoint originator (pas : list BGPPathAttr) : result (option bytes) :=
  match pas with
  | [] => Ok None
  | attr :: pas =>
    if attr_GetCode attr =? BGPPathAttrTypeOriginatorId then
      a ← as_OriginatorId attr; Ok (Some (origid_Value a))
    else originator pas
  end.
Definition GetBGPId (p : Path) : result Z :=
  o ← originator (pt_PathAttrs p);
  match o, pt_NeighborConf p with
  | Some id, _ => Uint32 (default [] (To4 id))
  | None, Some n => Uint32 (default [] (To4 (nb_BGPId n)))
  | None, None => Panic
  end.

Definition GetReachability (p : Path) (protoFamily : Z) : option ReachabilityInfo :=
  pt_nhReachabilityInfo p !! protoFamily ≫= nh_reachabilityInfo.

Definition IsReachable (p : Path) (protoFamily : Z) : bool :=
  (pt_routeType p =? RouteTypeStatic) || (pt_routeType p =? RouteTypeConnected)
  || (pt_routeType p =? RouteTypeIGP)
  || match GetReachability p protoFamily with Some _ => true | None => false end.

Definition with_reach (f : gmap Z NHReachabilityInfo -> gmap Z NHReachabilityInfo) (p : Path) : Path :=
  {| pt_NeighborConf := pt_NeighborConf p; pt_PathAttrs := pt_PathAttrs p; pt_Pref := pt_Pref p;
     pt_nhReachabilityInfo := f (pt_nhReachabilityInfo p); pt_routeType := pt_routeType p;
     pt_MED := pt_MED p; pt_LocalPref := pt_LocalPref p |}.
Definition set_reach (r : option ReachabilityInfo) (n : NHReachabilityInfo) : NHReachabilityInfo :=
  {| nh_nextHop := nh_nextHop n; nh_reachabilityInfo := r |}.
Definition SetReachabilityForFamily (protoFamily : Z) (r : option ReachabilityInfo) : Path -> Path :=
  with_reach (alter (set_reach r) protoFamily).
Definition SetReachabilityForNextHop (nextHop : string) (r : option ReachabilityInfo) : Path -> Path :=
  with_reach (fmap (fun n => if bool_decide (ip_String (nh_nextHop n) = nextHop) then set_reach r n else n)).

(** [GetAS4ByteList]: the AS numbers shown for a path. *)
Definition segment_strings (type : Z) (as_ : list Z) : list string :=
  if type =? BGPASPathSegmentSet then ["{ " +:+ join ", " (pretty <$> as_) +:+ " }"]
  else if type =? BGPASPathSegmentSequence then pretty <$> as_
  else [].
Definition as4_strings (asSize : Z) (s : BGPASPathSegment) : result (list string) :=
  if asSize =? 4 then
    match s with
    | Seg4 seg => Ok (segment_strings (seg_Type (as4s_base seg)) (as4s_AS seg))
    | Seg2 _ => Panic
    end
  else
    match s with
    | Seg2 seg => Ok (segment_strings (seg_Type (as2_base seg)) (as2_AS seg))
    | Seg4 _ => Panic
    end.
Fixpoint segments_strings (asSize : Z) (ss : list BGPASPathSegment) : result (list string) :=
  match ss with
  | [] => Ok []
  | s :: ss => x ← as4_strings asSize s; xs ← segments_strings asSize ss; Ok (x ++ xs)
  end.
Fixpoint GetAS4ByteList (pas : list BGPPathAttr) : result (list string) :=
  match pas with
  | [] => Ok []
  | attr :: pas =>
    if attr_GetCode attr =? BGPPathAttrTypeASPath then
      a ← as_ASPath attr; segments_strings (aspath_ASSize a) (aspath_Value a)
    else GetAS4ByteList pas
  end.

(** ** The decision process

    [mem]: the memory of the paths. [rangeS]: the order in which [range] visits the string keys of
    a map. [gosort]: [sort.Sort] with the given [Less]. *)

(** The orders of [pathsort.go]. *)
Inductive PathSortKind :=
  | ByRouteSrc
  | ByPref
  | BySmallestAS
  | ByLowestOrigin
  | ByIBGPOrEBGPRoutes
  | ByLowestBGPId
  | ByShorterClusterLen
  | ByLowestPeerAddress.

Abbreviation ptr := Z.

Record PathSortIface := { psi_paths : list ptr; psi_iface : PathSortKind }.

(** The comparison of two addresses: the length first, then the first byte that differs. *)
Fixpoint bytes_compare (a b : bytes) : comparison :=
  match a, b with
  | x :: a, y :: b => if x <? y then Lt else if x >? y then Gt else bytes_compare a b
  | _, _ => Eq
  end.

(** [CompareNeighborAddress]: with different lengths it returns 0 and an error, which its caller
    only logs. *)
Definition CompareNeighborAddress (a b : bytes) : Z :=
  if negb (len a =? len b) then 0
  else match bytes_compare a b with Lt => -1 | Gt => 1 | Eq => 0 end.

Section decision.
Context (mem : ptr -> Path) (rangeS : list string -> list string)
  (gosort : (ptr -> ptr -> bool) -> list ptr -> list ptr) (protoFamily : Z).

Definition ltb_by (key : Path -> result Z) (i j : ptr) : result bool :=
  x ← key (mem i); y ← key (mem j); Ok (x <? y).

Definition LessPeerAddress (i j : ptr) : bool :=
  match pt_NeighborConf (mem i), pt_NeighborConf (mem j) with
  | None, _ => true
  | _, None => false
  | Some a, Some b =>
    if len (nb_Address a) <? len (nb_Address b) then true
    else if len (nb_Address b) <? len (nb_Address a) then false
    else match bytes_compare (nb_Address a) (nb_Address b) with Lt => true | _ => false end
  end.

Definition Less (k : PathSortKind) (i j : ptr) : result bool :=
  match k with
  | ByRouteSrc => Ok (getRouteSource (pt_routeType (mem i)) <? getRouteSource (pt_routeType (mem j)))
  | ByPref => Ok (pt_Pref (mem i) >? pt_Pref (mem j))
  | BySmallestAS => ltb_by Path_GetNumASes i j
  | ByLowestOrigin => ltb_by Path_GetOrigin i j
  | ByIBGPOrEBGPRoutes => Ok true
  | ByLowestBGPId => ltb_by GetBGPId i j
  | ByShorterClusterLen => ltb_by Path_GetNumClusters i j
  | ByLowestPeerAddress => Ok (LessPeerAddress i j)
  end.

(** Sorting compares every element of a slice of two or more with another: it panics if one of them
    cannot be compared. *)
Fixpoint comparable (k : PathSortKind) (ps : list ptr) : result unit :=
  match ps with
  | [] => Ok tt
  | p :: ps => _ ← Less k p p; comparable k ps
  end.
Definition sort_paths (s : PathSortIface) : result (list ptr) :=
  if len (psi_paths s) <? 2 then Ok (psi_paths s)
  else _ ← comparable (psi_iface s) (psi_paths s);
       Ok (gosort (fun i j => match Less (psi_iface s) i j with Ok b => b | _ => false end) (psi_paths s)).

(** The loop of [getRoutesWith...], which keeps the best paths at the front of the slice:
    [worse] and [better] compare the key of the path at [i] with the best one so far, [reset] gives
    the index after a better one, [n] counts the iterations left. *)
Fixpoint prune_loop (key : Path -> result Z) (worse better : Z -> Z -> bool) (reset : nat -> nat)
    (n i idx : nat) (best : Z) (updatedPaths removedPaths : list ptr) : result (nat * list ptr * list ptr) :=
  match n with
  | O => Ok (idx, updatedPaths, removedPaths)
  | S n =>
    match updatedPaths !! i with
    | None => Panic
    | Some p =>
      cur ← key (mem p);
      if worse cur best then
        prune_loop key worse better reset n (S i) idx best updatedPaths (removedPaths ++ [p])
      else if better cur best then
        prune_loop key worse better reset n (S i) (reset idx) cur (<[0%nat := p]> updatedPaths)
          (removedPaths ++ take idx updatedPaths)
      else prune_loop key worse better reset n (S i) (S idx) best (<[idx := p]> updatedPaths) removedPaths
    end
  end.

(** The end of the five functions. *)
Definition prune_done (k : PathSortKind) (prunedPaths : list PathSortIface) (r : nat * list ptr * list ptr)
    : list ptr * list PathSortIface :=
  let '(idx, updatedPaths, removedPaths) := r in
  (if (0 <? idx)%nat then take idx updatedPaths else updatedPaths,
   if len removedPaths >? 0 then prunedPaths ++ [{| psi_paths := removedPaths; psi_iface := k |}]
   else prunedPaths).

Definition prune (k : PathSortKind) (key : Path -> result Z) (worse better : Z -> Z -> bool)
    (reset : nat -> nat) (init : Z) (updatedPaths : list ptr) (prunedPaths : list PathSortIface)
    : result (list ptr * list PathSortIface) :=
  r ← prune_loop key worse better reset (length updatedPaths) 0 0 init updatedPaths [];
  Ok (prune_done k prunedPaths r).

Definition reset_1 (idx : nat) : nat := 1.

Definition getRoutesWithHighestPref :=
  prune ByPref (fun p => Ok (pt_Pref p)) Z.ltb Z.gtb reset_1 0.
Definition getRoutesWithSmallestAS :=
  prune BySmallestAS Path_GetNumASes Z.gtb Z.ltb reset_1 4096.
(** A better origin increments the index, where the other functions set it to 1. *)
Definition getRoutesWithLowestOrigin :=
  prune ByLowestOrigin Path_GetOrigin Z.gtb Z.ltb S BGPPathAttrOriginMax.
Definition getRoutesWithLowestBGPId :=
  prune ByLowestBGPId GetBGPId Z.gtb Z.ltb reset_1 4294967295.
Definition getRoutesWithShorterClusterLen :=
  prune ByShorterClusterLen Path_GetNumClusters Z.gtb Z.ltb reset_1 65535.

(** Every address is compared with the one at the front of the slice. *)
Fixpoint address_loop (n i idx : nat) (updatedPaths removedPaths : list ptr)
    : result (nat * list ptr * list ptr) :=
  match n with
  | O => Ok (idx, updatedPaths, removedPaths)
  | S n =>
    match updatedPaths !! i, updatedPaths !! 0%nat with
    | Some p, Some front =>
      match pt_NeighborConf (mem p), pt_NeighborConf (mem front) with
      | Some a, Some b =>
        let val := CompareNeighborAddress (nb_Address a) (nb_Address b) in
        if val >? 0 then address_loop n (S i) idx updatedPaths (removedPaths ++ [p])
        else if val <? 0 then
          address_loop n (S i) 1 (<[0%nat := p]> updatedPaths) (removedPaths ++ take idx updatedPaths)
        else address_loop n (S i) (S idx) (<[idx := p]> updatedPaths) removedPaths
      | _, _ => Panic
      end
    | _, _ => Panic
    end
  end.
Definition getRoutesWithLowestPeerAddress (updatedPaths : list ptr) (prunedPaths : list PathSortIface)
    : result (list ptr * list PathSortIface) :=
  r ← address_loop (length updatedPaths) 0 0 updatedPaths [];
  Ok (prune_done ByLowestPeerAddress prunedPaths r).

(** [i <= n] is [i < n + 1]: [n1] is the number of paths not removed. An internal path is replaced
    by the last one, which is examined next. *)
Fixpoint delete_internal (fuel : nat) (i n1 : nat) (updatedPaths removedPaths : list ptr)
    : result (nat * list ptr * list ptr) :=
  match fuel with
  | O => Ok (i, updatedPaths, removedPaths)
  | S fuel =>
    match updatedPaths !! i, updatedPaths !! (n1 - 1)%nat with
    | Some p, Some last =>
      match pt_NeighborConf (mem p) with
      | None => Panic
      | Some nb =>
        if nb_IsInternal nb
        then delete_internal fuel i (n1 - 1) (<[i := last]> updatedPaths) (removedPaths ++ [p])
        else delete_internal fuel (S i) n1 updatedPaths removedPaths
      end
    | _, _ => Panic
    end
  end.
(** The loop ends when [i] reaches [n1], after as many iterations as there are paths. *)
Definition deleteIBGPRoutes (updatedPaths : list ptr) (prunedPaths : list PathSortIface)
    : result (list ptr * list PathSortIface) :=
  r ← delete_internal (length updatedPaths) 0 (length updatedPaths) updatedPaths [];
  let '(i, updatedPaths, removedPaths) := r in
  Ok (take i updatedPaths,
      if len removedPaths >? 0
      then prunedPaths ++ [{| psi_paths := removedPaths; psi_iface := ByIBGPOrEBGPRoutes |}] else prunedPaths).

Definition isEBGPRoute (p : ptr) : bool := IsExternal (mem p).
Definition isIBGPRoute (p : ptr) : bool := IsInternal (mem p).

Definition removeIBGPRoutesIfEBGPExist (updatedPaths : list ptr) (prunedPaths : list PathSortIface)
    : result (list ptr * list PathSortIface) :=
  if existsb isEBGPRoute updatedPaths then deleteIBGPRoutes updatedPaths prunedPaths
  else Ok (updatedPaths, prunedPaths).

(** The paths by next hop; a path without reachability is dereferenced. *)
Fixpoint group_paths (paths : list ptr) (ecmpPathMap : gmap string (list ptr)) : result (gmap string (list ptr)) :=
  match paths with
  | [] => Ok ecmpPathMap
  | p :: paths =>
    match GetReachability (mem p) protoFamily with
    | None => Panic
    | Some r => group_paths paths (<[ri_NextHop r := default [] (ecmpPathMap !! ri_NextHop r) ++ [p]]> ecmpPathMap)
    end
  end.
(** The keys of a map in the order of [range], with their values. *)
Definition range_map {A} (m : gmap string A) : list (string * A) :=
  omap (fun k => v ← m !! k; Some (k, v)) (rangeS (map_to_list m).*1).
Definition getECMPPaths (updatedPaths : list ptr) : result (list (list ptr)) :=
  m ← group_paths updatedPaths ∅; Ok (range_map m).*2.

(** The first path of every next hop that [pathMap] does not have yet. *)
Fixpoint add_paths_loop (currPaths : list ptr) (currPathMap pathMap : gmap string ptr)
    : result (gmap string ptr * gmap string ptr) :=
  match currPaths with
  | [] => Ok (currPathMap, pathMap)
  | p :: currPaths =>
    match GetReachability (mem p) protoFamily with
    | None => Panic
    | Some r =>
      match pathMap !! ri_NextHop r with
      | None => add_paths_loop currPaths (<[ri_NextHop r := p]> currPathMap) (<[ri_NextHop r := p]> pathMap)
      | Some _ => add_paths_loop currPaths currPathMap pathMap
      end
    end
  end.
Definition addAddPaths (addPaths currPaths : list ptr) (pathMap : gmap string ptr)
    : result (list ptr * gmap string ptr) :=
  r ← add_paths_loop currPaths ∅ pathMap;
  let '(currPathMap, pathMap) := r in
  Ok (addPaths ++ (range_map currPathMap).*2, pathMap).

(** The loop over [prunedPaths], from the last stage to the first. *)
Fixpoint pruned_add_paths (stages : list PathSortIface) (addPathCount : Z) (addPaths : list ptr)
    (pathMap : gmap string ptr) : result (list ptr) :=
  match stages with
  | [] => Ok addPaths
  | s :: stages =>
    currPaths ← sort_paths s;
    r ← addAddPaths addPaths currPaths pathMap;
    let '(addPaths, pathMap) := r in
    if len addPaths >=? addPathCount then Ok (take (Z.to_nat addPathCount) addPaths)
    else pruned_add_paths stages addPathCount addPaths pathMap
  end.

(** A stage that runs when more than one path is left. *)
Definition when_many (f : list ptr -> list PathSortIface -> result (list ptr * list PathSortIface))
    (x : list ptr * list PathSortIface) : result (list ptr * list PathSortIface) :=
  if len x.1 >? 1 then f x.1 x.2 else Ok x.

Definition calculateBestPath (updatedPaths removedPaths : list ptr) (ebgpMultiPath ibgpMultiPath : bool)
    (addPathCount : Z) : result (list ptr * list (list ptr) * list ptr) :=
  let prunedPaths := [{| psi_paths := removedPaths; psi_iface := ByRouteSrc |}] in
  x ← when_many getRoutesWithHighestPref (updatedPaths, prunedPaths);
  x ← when_many getRoutesWithSmallestAS x;
  x ← when_many getRoutesWithLowestOrigin x;
  ecmpPaths ← (if (len x.1 >? 1) && ebgpMultiPath && ibgpMultiPath then getECMPPaths x.1 else Ok []);
  x ← when_many removeIBGPRoutesIfEBGPExist x;
  ecmpPaths ← (if (len x.1 >? 1) && negb (Bool.eqb ibgpMultiPath ebgpMultiPath) then
                 match x.1 with
                 | p :: _ =>
                   if (ebgpMultiPath && isEBGPRoute p) || (ibgpMultiPath && isIBGPRoute p)
                   then getECMPPaths x.1 else Ok ecmpPaths
                 | [] => Panic
                 end
               else Ok ecmpPaths);
  x ← when_many getRoutesWithLowestBGPId x;
  x ← when_many getRoutesWithShorterClusterLen x;
  x ← when_many getRoutesWithLowestPeerAddress x;
  let '(updatedPaths, prunedPaths) := x in
  r ← (if (0 <? addPathCount) && (len updatedPaths >? 1) then addAddPaths [] (drop 1 updatedPaths) ∅
       else Ok ([], ∅));
  let '(addPaths, pathMap) := r in
  addPaths ← (if len addPaths <? addPathCount then pruned_add_paths (rev prunedPaths) addPathCount addPaths pathMap
              else Ok addPaths);
  Ok (updatedPaths, ecmpPaths, addPaths).

End decision.
