(* ===== verification/BgpPathFacts.v ===== *)
(** The decision process of the BGP RIB: the paths it keeps are the least ones of a lexicographic
    order on (preference, AS path length, origin, internal or external, router identifier, cluster
    list length, peer address), whatever the order in which the paths are visited; and where the
    code departs from that. *)
From stdpp Require Import base numbers list gmap strings sorting.
From Stdlib Require Import ZArith Lia.
From S2P Require Import Prelude GoNet BgpBase BgpNlri BgpAttrs BgpHelpers BgpPath.
Open Scope Z_scope.

(** ** The lexicographic order of a list of keys, smaller is better *)

Fixpoint lex_le (ks : list (ptr -> Z)) (p q : ptr) : Prop :=
  match ks with
  | [] => True
  | k :: ks => k p < k q \/ (k p = k q /\ lex_le ks p q)
  end.

(** The elements of [l] that no element of [l] is better than. *)
Definition least (ks : list (ptr -> Z)) (l kept : list ptr) : Prop :=
  forall q, q ∈ kept <-> q ∈ l /\ forall r, r ∈ l -> lex_le ks q r.

Lemma lex_le_refl ks p : lex_le ks p p.
Proof. induction ks as [|k ks IH]; simpl; [done |]. by right. Qed.

Lemma lex_le_trans ks p q r : lex_le ks p q -> lex_le ks q r -> lex_le ks p r.
Proof.
  induction ks as [|k ks IH]; simpl; [done |].
  intros [H1|[H1 H1']] [H2|[H2 H2']]; [left; lia.. | right; split; [lia | by apply IH]].
Qed.

Lemma lex_le_total ks p q : lex_le ks p q \/ lex_le ks q p.
Proof.
  induction ks as [|k ks IH]; simpl; [by left |].
  destruct (Z.lt_trichotomy (k p) (k q)) as [H|[H|H]]; [by left; left | | by right; left].
  destruct IH; [left | right]; right; done.
Qed.

Lemma lex_le_antisym ks p q : lex_le ks p q -> lex_le ks q p -> Forall (fun k => k p = k q) ks.
Proof.
  induction ks as [|k ks IH]; simpl; [done |].
  intros [H1|[H1 H1']] [H2|[H2 H2']]; [lia.. |]. constructor; [done | by apply IH].
Qed.

Lemma lex_le_app ks ks' p q :
  lex_le (ks ++ ks') p q <-> lex_le ks p q /\ (lex_le ks q p -> lex_le ks' p q).
Proof.
  induction ks as [|k ks IH]; simpl; [tauto |]. rewrite IH. clear IH.
  assert (k p < k q \/ k p = k q \/ k q < k p) as [H|[H|H]] by lia; naive_solver lia.
Qed.

Lemma least_app ks ks' l kept kept' :
  least ks l kept -> least ks' kept kept' -> least (ks ++ ks') l kept'.
Proof.
  intros H1 H2 q. rewrite (H2 q), (H1 q). split.
  - intros [[Hq Hle] H]. split; [done |]. intros r Hr. apply lex_le_app. split; [by apply Hle |].
    intros Hrq. apply H, H1. split; [done |]. intros s Hs. eapply lex_le_trans; [exact Hrq | by apply Hle].
  - intros [Hq Hle]. split; [split; [done |] |].
    + intros r Hr. by apply (lex_le_app ks ks' q r), Hle.
    + intros r Hr. apply H1 in Hr as [Hr Hmin]. apply (lex_le_app ks ks' q r); [by apply Hle | by apply Hmin].
Qed.

Lemma least_one ks q : least ks [q] [q].
Proof.
  intros r. rewrite list_elem_of_singleton. split; [|by intros [? _]].
  intros ->. split; [done |]. intros s ->%list_elem_of_singleton. apply lex_le_refl.
Qed.

Lemma least_le ks l kept p q : least ks l kept -> p ∈ kept -> q ∈ l -> lex_le ks p q.
Proof. intros H Hp Hq. apply H in Hp as [_ Hp]. by apply Hp. Qed.

Lemma least_subseteq ks l kept : least ks l kept -> kept ⊆ l.
Proof. intros H q Hq. by apply H in Hq as [Hq _]. Qed.

(** A filter by the best key is the set of the least elements for that key. *)
Lemma least_filter (k : ptr -> Z) best l :
  Forall (fun p => best <= k p) l -> (exists p, p ∈ l /\ k p = best) ->
  least [k] l (filter (fun p => k p = best) l).
Proof.
  intros Hb (p & Hp & Hk) q. rewrite list_elem_of_filter. rewrite Forall_forall in Hb. simpl. split.
  - intros [Hq Hl]. split; [done |]. intros r Hr. specialize (Hb r Hr). lia.
  - intros [Hl Hq]. split; [|done]. specialize (Hq p Hp). specialize (Hb q Hl). lia.
Qed.

(** ** The loop shared by the stages *)

(** The best key of a list, [m] turning "better" into "smaller". *)
Definition best_key (m : Z -> Z) (k : ptr -> Z) (best : Z) (l : list ptr) : Z :=
  fold_left (fun b p => if m (k p) <? m b then k p else b) l best.

Lemma best_key_le m k : forall l best, m (best_key m k best l) <= m best /\
  Forall (fun p => m (best_key m k best l) <= m (k p)) l.
Proof.
  unfold best_key. induction l as [|p l IH]; intros best; simpl; [split; [lia | constructor] |].
  destruct (Z.ltb_spec (m (k p)) (m best)) as [Hlt|Hge].
  - destruct (IH (k p)) as [H1 H2]. split; [lia | constructor; [lia | exact H2]].
  - destruct (IH best) as [H1 H2]. split; [lia | constructor; [lia | exact H2]].
Qed.

Lemma best_key_in m k : forall l best,
  best_key m k best l = best \/ exists p, p ∈ l /\ k p = best_key m k best l.
Proof.
  unfold best_key. induction l as [|p l IH]; intros best; simpl; [by left |].
  destruct (m (k p) <? m best).
  - right. destruct (IH (k p)) as [H|(q & Hq & H)].
    + exists p. split; [left | by rewrite H].
    + exists q. split; [by right | exact H].
  - destruct (IH best) as [H|(q & Hq & H)]; [by left |]. right. exists q. split; [by right | exact H].
Qed.

Lemma list_insert_take {A} (l : list A) i p :
  (i < length l)%nat -> take (S i) (<[i := p]> l) = take i l ++ [p].
Proof.
  intros H. rewrite (take_S_r _ i p) by (by rewrite list_lookup_insert_eq).
  by rewrite take_insert_ge by lia.
Qed.

Section prune.
Context (mem : ptr -> Path) (key : Path -> result Z) (k : ptr -> Z) (m : Z -> Z).
Context (worse better : Z -> Z -> bool).
Context (m_inj : forall a b, m a = m b -> a = b).
Context (worse_m : forall a b, worse a b = (m b <? m a)) (better_m : forall a b, better a b = (m a <? m b)).

Definition keyed (ps : list ptr) : Prop := Forall (fun p => key (mem p) = Ok (k p)) ps.

Lemma prune_loop_spec : forall n i idx best arr removed,
  (n + i)%nat = length arr -> (idx <= i)%nat -> keyed (drop i arr) ->
  Forall (fun p => k p = best) (take idx arr) ->
  let best' := best_key m k best (drop i arr) in
  exists idx' arr' removed',
    prune_loop mem key worse better reset_1 n i idx best arr removed = Ok (idx', arr', removed') /\
    take idx' arr' = filter (fun p => k p = best') (take idx arr ++ drop i arr) /\
    (idx' <= length arr')%nat /\ length arr' = length arr /\
    removed' ++ take idx' arr' ≡ₚ removed ++ take idx arr ++ drop i arr.
Proof.
  induction n as [|n IH]; intros i idx best arr removed Hn Hi Hk Hb best'.
  { assert (drop i arr = []) as Hd by (apply drop_ge; lia).
    exists idx, arr, removed. subst best'. simpl. rewrite Hd, app_nil_r. unfold best_key. simpl.
    split; [done |]. split; [|split; [lia | done]].
    by rewrite filter_Forall by exact Hb. }
  destruct (lookup_lt_is_Some_2 arr i) as [p Hp]; [lia |].
  pose proof (drop_S _ _ _ Hp) as Hd.
  rewrite Hd in Hk. apply Forall_cons in Hk as [Hkp Hk].
  simpl. rewrite Hp. simpl. rewrite Hkp. simpl. rewrite worse_m, better_m.
  subst best'. rewrite Hd. unfold best_key. simpl. fold (best_key m k).
  destruct (Z.ltb_spec (m best) (m (k p))) as [Hw|Hw].
  - (* worse *)
    destruct (Z.ltb_spec (m (k p)) (m best)); [lia |].
    destruct (IH (S i) idx best arr (removed ++ [p])) as (idx' & arr' & rem' & E & Ht & Hl & Hlen & Hp'); [lia.. | done | done |].
    exists idx', arr', rem'. split; [exact E |]. split; [|split; [done | split; [done |]]].
    + rewrite Ht, !filter_app. simpl. f_equal. rewrite filter_cons, decide_False; [done |].
      pose proof (proj1 (best_key_le m k (drop (S i) arr) best)). unfold best_key in *.
      intros Heq. rewrite <- Heq in H0. lia.
    + rewrite Hp', <- app_assoc. simpl. f_equiv. by rewrite <- Permutation_middle.
  - destruct (Z.ltb_spec (m (k p)) (m best)) as [Hlt|Hge].
    + (* better *)
      assert (Hlen0 : (0 < length arr)%nat) by lia.
      destruct (IH (S i) 1%nat (k p) (<[0%nat := p]> arr) (removed ++ take idx arr))
        as (idx' & arr' & rem' & E & Ht & Hl & Hlen & Hp').
      * rewrite length_insert. lia.
      * lia.
      * by rewrite drop_insert_lt by lia.
      * rewrite list_insert_take by lia. simpl. by constructor.
      * rewrite drop_insert_lt, list_insert_take in Hp', Ht by lia. simpl in Ht, Hp'.
        rewrite length_insert in Hlen.
        exists idx', arr', rem'. split; [exact E |]. split; [|split; [done | split; [done |]]].
        -- rewrite Ht, filter_app. unfold best_key.
           rewrite (filter_none _ (take idx arr)); [done |].
           eapply Forall_impl; [exact Hb |]. intros q Hq Heq. simpl in *.
           pose proof (proj1 (best_key_le m k (drop (S i) arr) (k p))). unfold best_key in *.
           rewrite <- Heq, Hq in H. lia.
        -- rewrite Hp', <- app_assoc. done.
    + (* equal *)
      assert (Heq : k p = best) by (apply m_inj; lia).
      destruct (IH (S i) (S idx) best (<[idx := p]> arr) removed)
        as (idx' & arr' & rem' & E & Ht & Hl & Hlen & Hp').
      * rewrite length_insert. lia.
      * lia.
      * by rewrite drop_insert_lt by lia.
      * rewrite list_insert_take by lia. apply Forall_app. split; [done | by constructor].
      * rewrite drop_insert_lt, list_insert_take in Hp', Ht by lia.
        rewrite length_insert in Hlen.
        exists idx', arr', rem'. split; [exact E |]. rewrite <- app_assoc in Ht, Hp'. done.
Qed.
End prune.

(** ** One stage *)

(** The stage removes [removed], to be sorted by [kind], and keeps the least paths for [k], with
    [ordered] in the order they had. *)
Definition pruned_by (kind : PathSortKind) (removed : list ptr) : list PathSortIface :=
  if len removed >? 0 then [{| psi_paths := removed; psi_iface := kind |}] else [].

Definition stage_ok (ordered : bool)
    (f : list ptr -> list PathSortIface -> result (list ptr * list PathSortIface)) (kind : PathSortKind) (k : ptr -> Z) (ups : list ptr) : Prop :=
  forall pruned, exists kept removed,
    f ups pruned = Ok (kept, pruned ++ pruned_by kind removed) /\
    least [k] ups kept /\ kept <> [] /\ kept ++ removed ≡ₚ ups /\
    (ordered = true -> kept `sublist_of` ups).

Lemma prune_done_pruned kind pruned (idx : nat) ups removed :
  (0 < idx)%nat ->
  prune_done kind pruned (idx, ups, removed) = (take idx ups, pruned ++ pruned_by kind removed).
Proof.
  intros H. unfold prune_done, pruned_by. destruct (Nat.ltb_spec 0 idx); [|lia].
  destruct (len removed >? 0); [done | by rewrite app_nil_r].
Qed.

Lemma prune_stage mem kind key k m worse better init ups :
  (forall a b, m a = m b -> a = b) ->
  (forall a b, worse a b = (m b <? m a)) -> (forall a b, better a b = (m a <? m b)) ->
  keyed mem key k ups -> (exists p, p ∈ ups /\ m (k p) <= m init) ->
  stage_ok true (prune mem kind key worse better reset_1 init) kind (fun p => m (k p)) ups.
Proof.
  intros Hm Hw Hb Hk (p0 & Hp0 & Hinit) pruned.
  destruct (prune_loop_spec mem key k m worse better Hm Hw Hb (length ups) 0 0 init ups [])
    as (idx & arr & removed & E & Ht & Hl & _ & Hp); [lia | lia | done | by constructor |].
  simpl in *. rewrite drop_0 in *.
  set (best := best_key m k init ups) in *.
  destruct (best_key_le m k ups init) as [Hbi Hbl]. fold best in Hbi, Hbl.
  assert (Hex : exists p, p ∈ ups /\ k p = best).
  { destruct (best_key_in m k ups init) as [Heq|Hex]; [|done]. fold best in Heq. rewrite <- Heq in Hinit.
    exists p0. split; [done |]. apply Hm. rewrite Forall_forall in Hbl. specialize (Hbl p0 Hp0). lia. }
  destruct Hex as (p & Hpu & Hpk).
  assert (Hne : p ∈ take idx arr) by (rewrite Ht; by apply list_elem_of_filter).
  exists (take idx arr), removed. unfold prune. rewrite E. cbn -[prune_done].
  rewrite prune_done_pruned by (destruct idx; [by apply not_elem_of_nil in Hne | lia]).
  split; [done |]. split; [|split; [by intros Hnil; rewrite Hnil in Hne; apply not_elem_of_nil in Hne |]].
  - rewrite Ht. intros q. transitivity (q ∈ filter (fun p => m (k p) = m best) ups).
    + rewrite !list_elem_of_filter. split; intros [H1 H2]; (split; [|done]); [by rewrite H1 | by apply Hm].
    + apply (least_filter (fun p => m (k p)) (m best) ups Hbl). exists p. by rewrite Hpk.
  - split; [by rewrite Permutation_app_comm |]. intros _. rewrite Ht. apply sublist_filter.
Qed.

(** A stage that only runs when several paths are left. *)
Lemma when_many_stage ordered f kind k ups :
  ups <> [] -> (len ups > 1 -> stage_ok ordered f kind k ups) -> forall pruned, exists kept removed,
    when_many f (ups, pruned) = Ok (kept, pruned ++ pruned_by kind removed) /\
    least [k] ups kept /\ kept <> [] /\ kept ++ removed ≡ₚ ups /\
    (ordered = true -> kept `sublist_of` ups).
Proof.
  intros Hne H pruned. unfold when_many. simpl. rewrite Z.gtb_ltb.
  destruct (Z.ltb_spec 1 (len ups)) as [Hl|Hl]; [by apply H; lia |].
  destruct ups as [|p [|q ups]]; [done | | rewrite !len_cons in Hl; pose proof (len_nonneg ups); lia].
  exists [p], []. unfold pruned_by. rewrite len_nil. simpl. rewrite app_nil_r.
  split; [done |]. split; [apply least_one | done].
Qed.

Lemma StronglySorted_sublist {A} (R : A -> A -> Prop) (l1 l2 : list A) :
  l1 `sublist_of` l2 -> StronglySorted R l2 -> StronglySorted R l1.
Proof.
  induction 1 as [|x l1 l2 Hs IH|x l1 l2 Hs IH]; [done | |]; intros H; apply StronglySorted_inv in H as [H1 H2].
  - constructor; [by apply IH |]. apply Forall_forall. intros y Hy. rewrite Forall_forall in H2. apply H2.
    eapply sublist_subseteq; [exact Hs | done].
  - by apply IH.
Qed.

(** ** The stages of the decision process *)

Definition okz (r : result Z) : Z := match r with Ok z => z | _ => 0 end.

Fixpoint bytes_value (a : bytes) : Z :=
  match a with
  | [] => 0
  | x :: a => x * 256 ^ len a + bytes_value a
  end.

Lemma bytes_value_bound a : bytes_ok a -> 0 <= bytes_value a < 256 ^ len a.
Proof.
  induction a as [|x a IH]; intros H; [unfold len; simpl; lia |].
  apply Forall_cons in H as [Hx Ha]. specialize (IH Ha). unfold is_u8 in Hx.
  rewrite len_cons. simpl. rewrite Z.pow_add_r by (pose proof (len_nonneg a); lia).
  change (256 ^ 1) with 256. nia.
Qed.

Lemma bytes_compare_value a b :
  bytes_ok a -> bytes_ok b -> len a = len b -> bytes_compare a b = (bytes_value a ?= bytes_value b).
Proof.
  revert b. induction a as [|x a IH]; intros [|y b] Ha Hb Hl;
    rewrite ?len_cons, ?len_nil in Hl; try (pose proof (len_nonneg a); lia); try (pose proof (len_nonneg b); lia); [done |].
  apply Forall_cons in Ha as [Hx Ha]. apply Forall_cons in Hb as [Hy Hb].
  assert (Hab : len a = len b) by lia.
  pose proof (bytes_value_bound a Ha) as Hva. pose proof (bytes_value_bound b Hb). simpl.
  specialize (IH b Ha Hb Hab). rewrite Hab in Hva |- *. rewrite Z.gtb_ltb.
  destruct (Z.ltb_spec x y); [symmetry; apply Z.compare_lt_iff; nia |].
  destruct (Z.ltb_spec y x); [symmetry; apply Z.compare_gt_iff; nia |].
  assert (x = y) as <- by lia. rewrite IH.
  by rewrite Z.add_compare_mono_l.
Qed.

Section stages.
Context (mem : ptr -> Path) (protoFamily : Z) (alen : Z).

Definition k_pref (p : ptr) : Z := - pt_Pref (mem p).
Definition k_as (p : ptr) : Z := okz (Path_GetNumASes (mem p)).
Definition k_origin (p : ptr) : Z := okz (Path_GetOrigin (mem p)).
Definition k_internal (p : ptr) : Z := if IsInternal (mem p) then 1 else 0.
Definition k_id (p : ptr) : Z := okz (GetBGPId (mem p)).
Definition k_clusters (p : ptr) : Z := okz (Path_GetNumClusters (mem p)).
Definition key_address (p : Path) : Z :=
  match pt_NeighborConf p with Some n => bytes_value (nb_Address n) | None => 0 end.
Definition k_address (p : ptr) : Z := key_address (mem p).

(** The order of preference of RFC 4271 9.1.2.2 as the code has it. *)
Definition ranks : list (ptr -> Z) := [k_pref; k_as; k_origin; k_internal; k_id; k_clusters; k_address].

(** A path that came from a neighbour, with attributes that can be read, a next hop that is
    reachable, at most 4096 AS numbers and a defined origin. *)
Record candidate (p : ptr) : Prop := {
  cand_neighbor : exists n, pt_NeighborConf (mem p) = Some n /\ len (nb_Address n) = alen /\ bytes_ok (nb_Address n);
  cand_pref : 0 <= pt_Pref (mem p);
  cand_as : exists a, Path_GetNumASes (mem p) = Ok a /\ a <= 4096;
  cand_origin : exists o, Path_GetOrigin (mem p) = Ok o /\ o <= BGPPathAttrOriginMax;
  cand_id : exists i, GetBGPId (mem p) = Ok i /\ is_u32 i;
  cand_clusters : exists c, Path_GetNumClusters (mem p) = Ok c /\ is_u16 c;
  cand_reach : exists r, GetReachability (mem p) protoFamily = Some r;
}.

(** Among paths that tie on the preference and the AS path length, the origin does not improve
    from one to a later one. *)
Definition origins_sorted : list ptr -> Prop :=
  StronglySorted (fun p q => k_pref p = k_pref q -> k_as p = k_as q -> k_origin p <= k_origin q).

Lemma candidates_keyed key ups (k : ptr -> Z) :
  (forall p, candidate p -> key (mem p) = Ok (k p)) -> Forall candidate ups -> keyed mem key k ups.
Proof. intros H Hc. eapply Forall_impl; [exact Hc | exact H]. Qed.

Lemma simple_stage kind key k init ups :
  (forall p, candidate p -> key (mem p) = Ok (k p) /\ k p <= init) -> ups <> [] -> Forall candidate ups ->
  stage_ok true (prune mem kind key Z.gtb Z.ltb reset_1 init) kind k ups.
Proof.
  intros Hk Hne Hc. apply (prune_stage mem kind key k (fun z => z)); [done | | done | |].
  - intros a b. apply Z.gtb_ltb.
  - apply candidates_keyed; [|done]. intros p Hp. by apply Hk.
  - destruct ups as [|p ups]; [done |]. apply Forall_cons in Hc as [Hp _]. exists p. split; [left | by apply Hk].
Qed.

Lemma pref_stage ups : ups <> [] -> Forall candidate ups ->
  stage_ok true (getRoutesWithHighestPref mem) ByPref k_pref ups.
Proof.
  intros Hne Hc. apply (prune_stage mem ByPref _ (fun p => pt_Pref (mem p)) Z.opp).
  - intros a b. lia.
  - intros a b. destruct (Z.ltb_spec a b), (Z.ltb_spec (- b) (- a)); lia.
  - intros a b. rewrite Z.gtb_ltb. destruct (Z.ltb_spec b a), (Z.ltb_spec (- a) (- b)); lia.
  - by apply candidates_keyed.
  - destruct ups as [|p ups]; [done |]. apply Forall_cons in Hc as [Hp _]. exists p. split; [left |].
    pose proof (cand_pref p Hp). lia.
Qed.

Lemma as_stage ups : ups <> [] -> Forall candidate ups ->
  stage_ok true (getRoutesWithSmallestAS mem) BySmallestAS k_as ups.
Proof.
  apply simple_stage. intros p [_ _ (a & Ha & Hb) _ _ _ _]. unfold k_as. by rewrite Ha.
Qed.
Lemma id_stage ups : ups <> [] -> Forall candidate ups ->
  stage_ok true (getRoutesWithLowestBGPId mem) ByLowestBGPId k_id ups.
Proof.
  apply simple_stage. intros p [_ _ _ _ (a & Ha & Hb) _ _]. unfold k_id. rewrite Ha.
  split; [done |]. unfold is_u32 in Hb. simpl. lia.
Qed.
Lemma clusters_stage ups : ups <> [] -> Forall candidate ups ->
  stage_ok true (getRoutesWithShorterClusterLen mem) ByShorterClusterLen k_clusters ups.
Proof.
  apply simple_stage. intros p [_ _ _ _ _ (a & Ha & Hb) _]. unfold k_clusters. rewrite Ha.
  split; [done |]. unfold is_u16 in Hb. simpl. lia.
Qed.

(** The index after a better path does not matter when no path is better. *)
Lemma prune_loop_reset key (k : ptr -> Z) : forall n i idx best arr removed reset,
  keyed mem key k (drop i arr) -> (n + i)%nat = length arr -> (idx <= i)%nat ->
  Forall (fun p => best <= k p) (drop i arr) ->
  prune_loop mem key Z.gtb Z.ltb reset n i idx best arr removed
  = prune_loop mem key Z.gtb Z.ltb reset_1 n i idx best arr removed.
Proof.
  induction n as [|n IH]; intros i idx best arr removed reset Hk Hn Hi Hb; [done |].
  destruct (lookup_lt_is_Some_2 arr i) as [p Hp]; [lia |].
  pose proof (drop_S _ _ _ Hp) as Hd. unfold keyed in Hk. rewrite Hd in Hk, Hb.
  apply Forall_cons in Hk as [Hkp Hk]. apply Forall_cons in Hb as [Hbp Hb].
  simpl. rewrite Hp. simpl. rewrite Hkp. simpl. rewrite Z.gtb_ltb.
  destruct (Z.ltb_spec best (k p)); [by apply IH; [done | lia | lia | done] |].
  destruct (Z.ltb_spec (k p) best); [lia |].
  apply IH; [| | lia |]; rewrite ?length_insert, ?drop_insert_lt by lia; [done | lia | done].
Qed.

Lemma origin_stage ups : ups <> [] -> Forall candidate ups ->
  match ups with p :: _ => Forall (fun q => k_origin p <= k_origin q) ups | [] => True end ->
  stage_ok true (getRoutesWithLowestOrigin mem) ByLowestOrigin k_origin ups.
Proof.
  intros Hne Hc Hfirst.
  assert (Hk : keyed mem Path_GetOrigin k_origin ups).
  { apply candidates_keyed; [|done]. intros p [_ _ _ (o & Ho & _) _ _ _]. unfold k_origin. by rewrite Ho. }
  assert (Heq : forall pruned, getRoutesWithLowestOrigin mem ups pruned
     = prune mem ByLowestOrigin Path_GetOrigin Z.gtb Z.ltb reset_1 BGPPathAttrOriginMax ups pruned).
  { intros pruned. unfold getRoutesWithLowestOrigin, prune. f_equal.
    destruct ups as [|p ups]; [done |].
    pose proof Hk as [Hkp Hk']%Forall_cons. apply Forall_cons in Hfirst as [_ Hfirst].
    simpl length. simpl prune_loop. rewrite Hkp. simpl.
    destruct (k_origin p >? BGPPathAttrOriginMax) eqn:Hgt.
    { exfalso. apply Forall_cons in Hc as [[_ _ _ (o & Ho & Hom) _ _ _] _].
      unfold k_origin in Hgt. rewrite Ho in Hgt. simpl in Hgt. lia. }
    destruct (Z.ltb_spec (k_origin p) BGPPathAttrOriginMax) as [Hlt|Hge].
    - rewrite (prune_loop_reset _ k_origin); simpl; rewrite ?drop_0; [done | done | lia | lia | done].
    - rewrite (prune_loop_reset _ k_origin); simpl; rewrite ?drop_0; [done | done | lia | lia |].
      eapply Forall_impl; [exact Hfirst |]. simpl. intros q Hq.
      apply Forall_cons in Hc as [[_ _ _ (o & Ho & Hom) _ _ _] _].
      unfold k_origin in Hge, Hq |- *. rewrite Ho in Hge, Hq. simpl in *. lia. }
  intros pruned. rewrite Heq. revert pruned. apply simple_stage; [|done | done].
  intros p [_ _ _ (o & Ho & Hom) _ _ _]. unfold k_origin. rewrite Ho. done.
Qed.

(** *** External before internal *)

Lemma removed_last (arr : list ptr) i n p last :
  arr !! i = Some p -> arr !! n = Some last -> (i <= n)%nat ->
  take n (<[i := last]> arr) ++ [p] ≡ₚ take (S n) arr.
Proof.
  intros Hp Hl Hi. rewrite (take_S_r _ _ _ Hl).
  destruct (decide (i = n)) as [->|Hne].
  - rewrite take_insert_ge by lia. rewrite Hp in Hl. by simplify_eq.
  - rewrite take_insert_lt by lia.
    assert (Ht : take n arr !! i = Some p) by (rewrite lookup_take_lt by lia; done).
    rewrite <- (take_drop_middle _ _ _ Ht) at 2.
    rewrite insert_take_drop by (by eapply lookup_lt_Some).
    rewrite <- !app_assoc. simpl. f_equiv.
    rewrite (Permutation_app_comm _ [p]), (Permutation_app_comm _ [last]). simpl. apply Permutation_swap.
Qed.

Definition with_neighbor (p : ptr) : Prop := exists n, pt_NeighborConf (mem p) = Some n.

Lemma internal_not_external p : with_neighbor p -> IsInternal (mem p) = negb (IsExternal (mem p)).
Proof.
  intros [n Hn]. unfold IsInternal, IsExternal, nb_IsInternal, nb_IsExternal. rewrite Hn.
  by rewrite Bool.negb_involutive, Z.eqb_sym.
Qed.

Lemma delete_internal_spec : forall fuel i n arr removed,
  (fuel + i)%nat = n -> (n <= length arr)%nat -> Forall with_neighbor (take n arr) ->
  Forall (fun p => IsInternal (mem p) = false) (take i arr) ->
  Forall (fun p => IsInternal (mem p) = true) removed ->
  exists i' arr' removed',
    delete_internal mem fuel i n arr removed = Ok (i', arr', removed') /\
    Forall (fun p => IsInternal (mem p) = false) (take i' arr') /\
    Forall (fun p => IsInternal (mem p) = true) removed' /\
    take i' arr' ++ removed' ≡ₚ take n arr ++ removed.
Proof.
  induction fuel as [|fuel IH]; intros i n arr removed Hn Hl Hnb Hext Hint.
  { simpl in Hn. subst n. by exists i, arr, removed. }
  destruct (lookup_lt_is_Some_2 arr i) as [p Hp]; [lia |].
  destruct (lookup_lt_is_Some_2 arr (n - 1)) as [last Hlast]; [lia |].
  assert (Hpn : with_neighbor p).
  { rewrite Forall_forall in Hnb. apply Hnb. apply list_elem_of_lookup. exists i.
    rewrite lookup_take_lt by lia. done. }
  pose proof Hpn as [nb Hnbp].
  simpl. rewrite Hp, Hlast, Hnbp.
  destruct (nb_IsInternal nb) eqn:Hi.
  - pose proof (removed_last arr i (n - 1) p last Hp Hlast ltac:(lia)) as Hperm.
    replace (S (n - 1)) with n in Hperm by lia.
    destruct (IH i (n - 1)%nat (<[i := last]> arr) (removed ++ [p])) as (i' & arr' & rem' & E & H1 & H2 & H3).
    + lia.
    + rewrite length_insert. lia.
    + rewrite <- Hperm in Hnb. by apply Forall_app in Hnb as [Hnb _].
    + by rewrite take_insert_ge by lia.
    + apply Forall_app. split; [done |]. constructor; [|done]. unfold IsInternal. by rewrite Hnbp.
    + exists i', arr', rem'. split; [exact E |]. split; [done |]. split; [done |].
      rewrite H3, <- Hperm, <- app_assoc. f_equiv. apply Permutation_app_comm.
  - destruct (IH (S i) n arr removed) as (i' & arr' & rem' & E & H1 & H2 & H3); [lia | done | done | | done |].
    + rewrite (take_S_r _ _ _ Hp). apply Forall_app. split; [done |]. constructor; [|done].
      unfold IsInternal. by rewrite Hnbp.
    + exists i', arr', rem'. done.
Qed.

Lemma internal_stage ups : ups <> [] -> Forall candidate ups ->
  stage_ok false (removeIBGPRoutesIfEBGPExist mem) ByIBGPOrEBGPRoutes k_internal ups.
Proof.
  intros Hne Hc pruned.
  assert (Hnb : Forall with_neighbor ups).
  { eapply Forall_impl; [exact Hc |]. intros p [(n & Hn & _) _ _ _ _ _ _]. by exists n. }
  unfold removeIBGPRoutesIfEBGPExist, isEBGPRoute.
  destruct (existsb (fun p => IsExternal (mem p)) ups) eqn:Hex.
  - apply existsb_exists in Hex as (e & He & Hee). apply list_elem_of_In in He.
    destruct (delete_internal_spec (length ups) 0 (length ups) ups []) as (i & arr & removed & E & H1 & H2 & H3);
      [lia | lia | by rewrite firstn_all | by constructor | by constructor |].
    rewrite firstn_all, app_nil_r in H3.
    assert (Hke : k_internal e = 0).
    { unfold k_internal. rewrite internal_not_external by (rewrite Forall_forall in Hnb; by apply Hnb).
      by rewrite Hee. }
    assert (Hin : e ∈ take i arr).
    { rewrite <- H3 in He. apply elem_of_app in He as [He|He]; [done |].
      rewrite Forall_forall in H2. specialize (H2 e He). unfold k_internal in Hke. by rewrite H2 in Hke. }
    exists (take i arr), removed. unfold deleteIBGPRoutes. rewrite E. simpl.
    split; [|split; [|split; [intros Hnil; rewrite Hnil in Hin; by apply not_elem_of_nil in Hin | by split]]].
    + unfold pruned_by. destruct (len removed >? 0); [done | by rewrite app_nil_r].
    + intros q. rewrite <- H3 at 1. rewrite elem_of_app. simpl. rewrite Forall_forall in H1, H2. split.
      * intros Hq. split; [by left |]. intros r _. unfold k_internal. rewrite (H1 q Hq).
        destruct (IsInternal (mem r)); [left; lia | by right].
      * intros [[Hq|Hq] Hmin]; [done |]. exfalso. specialize (Hmin e He). rewrite Hke in Hmin.
        unfold k_internal in Hmin. rewrite (H2 q Hq) in Hmin. lia.
  - exists ups, []. unfold pruned_by. rewrite len_nil. simpl. rewrite !app_nil_r.
    split; [done |]. split; [|done].
    assert (Hall : forall q, q ∈ ups -> k_internal q = 1).
    { intros q Hq. unfold k_internal. rewrite internal_not_external by (rewrite Forall_forall in Hnb; by apply Hnb).
      destruct (IsExternal (mem q)) eqn:He; [|done]. exfalso.
      apply Bool.not_true_iff_false in Hex. apply Hex, existsb_exists. exists q. by rewrite <- list_elem_of_In. }
    intros q. split; [|by intros [? _]]. intros Hq. split; [done |]. intros r Hr. simpl.
    rewrite !Hall by done. by right.
Qed.

(** *** The lowest peer address *)

Lemma address_loop_prune : forall n i idx arr removed front,
  Forall candidate arr -> (n + i)%nat = length arr -> (idx <= i)%nat -> arr !! 0%nat = Some front ->
  (idx = 0%nat -> i = 0%nat) ->
  address_loop mem n i idx arr removed
  = prune_loop mem (fun p => Ok (key_address p)) Z.gtb Z.ltb reset_1 n i idx (k_address front) arr removed.
Proof.
  induction n as [|n IH]; intros i idx arr removed front Hc Hn Hi Hf H0; [done |].
  destruct (lookup_lt_is_Some_2 arr i) as [p Hp]; [lia |].
  assert (Hcp : candidate p) by (rewrite Forall_forall in Hc; apply Hc; by eapply list_elem_of_lookup_2).
  assert (Hcf : candidate front) by (rewrite Forall_forall in Hc; apply Hc; by eapply list_elem_of_lookup_2).
  destruct (cand_neighbor p Hcp) as (a & Ha & Hal & Hab).
  destruct (cand_neighbor front Hcf) as (b & Hb & Hbl & Hbb).
  assert (Hv : bytes_compare (nb_Address a) (nb_Address b) = (k_address p ?= k_address front)).
  { unfold k_address, key_address. rewrite Ha, Hb. apply bytes_compare_value; [done | done | lia]. }
  simpl. rewrite Hp, Hf, Ha, Hb. simpl. fold (k_address p).
  unfold CompareNeighborAddress. rewrite Hal, Hbl, Z.eqb_refl, Hv, !Z.gtb_ltb. simpl negb. cbv iota.
  destruct (Z.compare_spec (k_address p) (k_address front)) as [He|Hlt|Hgt]; simpl.
  - rewrite He, Z.ltb_irrefl. rewrite <- He.
    assert (Hf' : <[idx := p]> arr !! 0%nat = Some (if decide (idx = 0%nat) then p else front)).
    { case_decide as Hd; [subst idx; apply list_lookup_insert_eq; lia | by rewrite list_lookup_insert_ne]. }
    rewrite (IH (S i) (S idx) _ removed _ (Forall_insert _ _ _ _ Hc Hcp)
               ltac:(rewrite length_insert; lia) ltac:(lia) Hf' ltac:(lia)).
    case_decide as Hd; [done | by rewrite He].
  - replace (k_address front <? k_address p) with false by lia. rewrite (proj2 (Z.ltb_lt _ _) Hlt).
    unfold reset_1 at 2. apply IH; [by apply Forall_insert | rewrite length_insert; lia | lia | apply list_lookup_insert_eq; lia | lia].
  - rewrite (proj2 (Z.ltb_lt _ _) Hgt). apply IH; [done | lia | lia | done |].
    intros Hidx. specialize (H0 Hidx). subst i. rewrite Hp in Hf. simplify_eq. lia.
Qed.

Lemma address_stage ups : ups <> [] -> Forall candidate ups ->
  stage_ok true (getRoutesWithLowestPeerAddress mem) ByLowestPeerAddress k_address ups.
Proof.
  intros Hne Hc. destruct ups as [|front ups'] eqn:Hups; [done |]. rewrite <- Hups in *.
  assert (Heq : forall pruned, getRoutesWithLowestPeerAddress mem ups pruned
    = prune mem ByLowestPeerAddress (fun p => Ok (key_address p)) Z.gtb Z.ltb reset_1 (k_address front) ups pruned).
  { intros pruned. unfold getRoutesWithLowestPeerAddress, prune.
    rewrite (address_loop_prune _ _ _ _ _ front); [done | done | lia | lia | by rewrite Hups | lia]. }
  intros pruned. rewrite Heq. revert pruned.
  apply (prune_stage mem _ _ k_address (fun z => z)); [done | | done | by apply candidates_keyed |].
  - intros x y. apply Z.gtb_ltb.
  - exists front. split; [rewrite Hups; left | done].
Qed.

(** *** Multipaths and additional paths *)

Lemma if_Ok {A} (b : bool) (x y : A) : (if b then Ok x else Ok y : result A) = Ok (if b then x else y).
Proof. by destruct b. Qed.

Context (rangeS : list string -> list string) (gosort : (ptr -> ptr -> bool) -> list ptr -> list ptr).
Context (gosort_perm : forall less l, gosort less l ≡ₚ l).

Definition reachable (p : ptr) : Prop := is_Some (GetReachability (mem p) protoFamily).

Lemma candidate_reachable p : candidate p -> reachable p.
Proof. intros [_ _ _ _ _ _ (r & Hr)]. by exists r. Qed.

Lemma group_paths_ok : forall ps m, Forall reachable ps -> exists m', group_paths mem protoFamily ps m = Ok m'.
Proof.
  induction ps as [|p ps IH]; intros m H; simpl; [by exists m |].
  apply Forall_cons in H as [[r Hr] H]. rewrite Hr. by apply IH.
Qed.
Lemma getECMPPaths_ok ps : Forall reachable ps -> exists e, getECMPPaths mem rangeS protoFamily ps = Ok e.
Proof.
  intros H. unfold getECMPPaths. destruct (group_paths_ok ps ∅ H) as [m ->]. simpl. by eexists.
Qed.

Lemma add_paths_loop_ok : forall ps m1 m2, Forall reachable ps ->
  exists r, add_paths_loop mem protoFamily ps m1 m2 = Ok r.
Proof.
  induction ps as [|p ps IH]; intros m1 m2 H; simpl; [by eexists |].
  apply Forall_cons in H as [[r Hr] H]. rewrite Hr. destruct (m2 !! ri_NextHop r); by apply IH.
Qed.
Lemma addAddPaths_ok adds ps m : Forall reachable ps ->
  exists r, addAddPaths mem rangeS protoFamily adds ps m = Ok r.
Proof.
  intros H. unfold addAddPaths. destruct (add_paths_loop_ok ps ∅ m H) as [[m1 m2] ->]. simpl. by eexists.
Qed.

(** A pruned list that can be sorted and whose paths have a next hop. *)
Definition sortable (s : PathSortIface) : Prop :=
  Forall reachable (psi_paths s) /\ (psi_iface s = ByRouteSrc \/ Forall candidate (psi_paths s)).

Lemma Less_ok k p : k = ByRouteSrc \/ candidate p -> exists b, Less mem k p p = Ok b.
Proof.
  intros [->|[_ _ (a & Ha & _) (o & Ho & _) (d & Hd & _) (c & Hc & _) _]]; [by eexists |].
  destruct k; simpl; unfold ltb_by; rewrite ?Ha, ?Ho, ?Hd, ?Hc; by eexists.
Qed.
Lemma sort_paths_ok s : sortable s -> exists l, sort_paths mem gosort s = Ok l /\ l ≡ₚ psi_paths s.
Proof.
  intros [_ H]. unfold sort_paths. destruct (len (psi_paths s) <? 2); [by eexists |].
  assert (comparable mem (psi_iface s) (psi_paths s) = Ok tt) as ->.
  { induction (psi_paths s) as [|p ps IH]; [done |]. simpl.
    destruct (Less_ok (psi_iface s) p) as [b ->].
    - destruct H as [H|H]; [by left | right]. by apply Forall_cons in H as [H _].
    - simpl. apply IH. destruct H as [H|H]; [by left | right]. by apply Forall_cons in H as [_ H]. }
  simpl. eexists. split; [done |]. apply gosort_perm.
Qed.
Lemma pruned_add_paths_ok cnt : forall stages adds m, Forall sortable stages ->
  exists r, pruned_add_paths mem rangeS gosort protoFamily stages cnt adds m = Ok r.
Proof.
  induction stages as [|s stages IH]; intros adds m H; simpl; [by eexists |].
  apply Forall_cons in H as [Hs H].
  destruct (sort_paths_ok s Hs) as (l & -> & Hl). simpl.
  destruct (addAddPaths_ok adds l m) as [[adds' m'] ->]; [rewrite Hl; apply Hs |]. simpl.
  destruct (len adds' >=? cnt); [by eexists | by apply IH].
Qed.

Lemma pruned_by_sortable kind removed : Forall candidate removed -> Forall sortable (pruned_by kind removed).
Proof.
  intros H. unfold pruned_by. destruct (len removed >? 0); constructor; [|constructor].
  split; [|by right]. simpl. eapply Forall_impl; [exact H | apply candidate_reachable].
Qed.

(** One stage of the chain: the paths left are the least ones for one more key. *)
Lemma chain_stage ordered f kind k ks ups kept pruned :
  Forall candidate ups -> least ks ups kept -> kept <> [] -> kept ⊆ ups -> Forall sortable pruned ->
  (Forall candidate kept -> stage_ok ordered f kind k kept) ->
  exists kept' pruned', when_many f (kept, pruned) = Ok (kept', pruned') /\
    least (ks ++ [k]) ups kept' /\ kept' <> [] /\ kept' ⊆ ups /\ Forall sortable pruned' /\
    (ordered = true -> kept' `sublist_of` kept).
Proof.
  intros Hc Hl Hne Hsub Hs Hf.
  assert (Hck : Forall candidate kept).
  { apply Forall_forall. intros p Hp. rewrite Forall_forall in Hc. by apply Hc, Hsub. }
  destruct (when_many_stage ordered f kind k kept Hne (fun _ => Hf Hck) pruned)
    as (kept' & removed & E & Hl' & Hne' & Hp & Ho).
  assert (Hsub' : kept' ++ removed ⊆ kept) by (intros p; by rewrite Hp).
  exists kept', (pruned ++ pruned_by kind removed). split; [done |].
  split; [by eapply least_app |]. split; [done |]. split; [set_solver |]. split; [|done].
  apply Forall_app. split; [done |]. apply pruned_by_sortable. apply Forall_forall. intros p Hpr.
  rewrite Forall_forall in Hck. apply Hck, Hsub'. apply elem_of_app. by right.
Qed.

Lemma first_origin ups kept :
  least [k_pref; k_as] ups kept -> kept `sublist_of` ups -> origins_sorted ups ->
  match kept with p :: _ => Forall (fun q => k_origin p <= k_origin q) kept | [] => True end.
Proof.
  intros Hl Hsub Hs. destruct kept as [|p kept]; [done |].
  pose proof (StronglySorted_sublist _ _ _ Hsub Hs) as Hk. apply StronglySorted_inv in Hk as [_ Hk].
  constructor; [lia |]. apply Forall_forall. intros q Hq. rewrite Forall_forall in Hk.
  assert (Hpq : Forall (fun k => k p = k q) [k_pref; k_as]).
  { apply lex_le_antisym; (eapply least_le; [exact Hl | | eapply sublist_subseteq; [exact Hsub |]]);
      [left | by right | by right | left]. }
  apply Forall_cons in Hpq as [H1 Hpq]. apply Forall_cons in Hpq as [H2 _]. by apply Hk.
Qed.

Ltac next_stage := rewrite bind_Ok; cbv beta iota; cbn [fst snd].

Lemma calculateBestPath_least ups removed (e i : bool) cnt :
  ups <> [] -> Forall candidate ups -> origins_sorted ups -> Forall reachable removed ->
  exists best ecmp adds,
    calculateBestPath mem rangeS gosort protoFamily ups removed e i cnt = Ok (best, ecmp, adds) /\
    best <> [] /\ least ranks ups best.
Proof.
  intros Hne Hc Ho Hr.
  assert (Hs0 : Forall sortable [{| psi_paths := removed; psi_iface := ByRouteSrc |}]).
  { constructor; [|constructor]. split; [done | by left]. }
  assert (Hl0 : least [] ups ups) by (intros q; split; [|by intros [? _]]; intros Hq; by split).
  unfold calculateBestPath.
  destruct (chain_stage _ _ _ _ _ _ _ _ Hc Hl0 Hne (reflexivity _) Hs0 (pref_stage ups Hne))
    as (u1 & p1 & -> & Hl1 & Hne1 & Hsub1 & Hs1 & Ho1).
  next_stage. specialize (Ho1 eq_refl).
  destruct (chain_stage _ _ _ _ _ _ _ _ Hc Hl1 Hne1 Hsub1 Hs1 (as_stage u1 Hne1))
    as (u2 & p2 & -> & Hl2 & Hne2 & Hsub2 & Hs2 & Ho2).
  next_stage. specialize (Ho2 eq_refl).
  destruct (chain_stage _ _ _ _ _ _ _ _ Hc Hl2 Hne2 Hsub2 Hs2
              (fun H => origin_stage u2 Hne2 H
                 (first_origin ups u2 Hl2 (transitivity Ho2 Ho1) Ho)))
    as (u3 & p3 & -> & Hl3 & Hne3 & Hsub3 & Hs3 & _).
  next_stage.

  assert (Hr3 : Forall reachable u3).
  { apply Forall_forall. intros p Hp. rewrite Forall_forall in Hc. by apply candidate_reachable, Hc, Hsub3. }
  destruct (getECMPPaths_ok u3 Hr3) as [e3 He3]. rewrite He3.
  rewrite (if_Ok _ e3 []). next_stage.
  destruct (chain_stage _ _ _ _ _ _ _ _ Hc Hl3 Hne3 Hsub3 Hs3 (internal_stage u3 Hne3))
    as (u4 & p4 & -> & Hl4 & Hne4 & Hsub4 & Hs4 & _).
  next_stage.
  assert (Hr4 : Forall reachable u4).
  { apply Forall_forall. intros p Hp. rewrite Forall_forall in Hc. by apply candidate_reachable, Hc, Hsub4. }
  destruct (getECMPPaths_ok u4 Hr4) as [e4 He4]. rewrite He4.
  destruct u4 as [|p u4]; [done |].
  rewrite (if_Ok _ e4), if_Ok. next_stage.
  destruct (chain_stage _ _ _ _ _ _ _ _ Hc Hl4 Hne4 Hsub4 Hs4 (id_stage _ Hne4))
    as (u5 & p5 & -> & Hl5 & Hne5 & Hsub5 & Hs5 & _).
  next_stage.
  destruct (chain_stage _ _ _ _ _ _ _ _ Hc Hl5 Hne5 Hsub5 Hs5 (clusters_stage u5 Hne5))
    as (u6 & p6 & -> & Hl6 & Hne6 & Hsub6 & Hs6 & _).
  next_stage.
  destruct (chain_stage _ _ _ _ _ _ _ _ Hc Hl6 Hne6 Hsub6 Hs6 (address_stage u6 Hne6))
    as (u7 & p7 & -> & Hl7 & Hne7 & Hsub7 & Hs7 & _).
  next_stage.
  assert (Hr7 : Forall reachable (drop 1 u7)).
  { apply Forall_drop, Forall_forall. intros p' Hp. rewrite Forall_forall in Hc.
    by apply candidate_reachable, Hc, Hsub7. }
  destruct (addAddPaths_ok [] (drop 1 u7) ∅ Hr7) as [[a1 m1] Ha1]. rewrite Ha1.
  rewrite (if_Ok _ (a1, m1) ([], ∅)). next_stage.
  destruct (if (0 <? cnt) && (len u7 >? 1) then (a1, m1) else ([], ∅)) as [a2 m2].
  destruct (pruned_add_paths_ok cnt (rev p7) a2 m2) as [a3 Ha3]; [by apply Forall_rev |].
  rewrite Ha3, (if_Ok _ a3 a2). next_stage.
  exists u7. do 2 eexists. split; [done |]. split; [done | exact Hl7].
Qed.
End stages.

(** ** The rules *)

(** A stage in which all paths tie changes nothing. *)
Lemma prune_ties mem kind key (k : ptr -> Z) m worse better init v ups pruned :
  (forall a b, m a = m b -> a = b) ->
  (forall a b, worse a b = (m b <? m a)) -> (forall a b, better a b = (m a <? m b)) ->
  keyed mem key k ups -> Forall (fun p => k p = v) ups -> m v <= m init -> ups <> [] ->
  prune mem kind key worse better reset_1 init ups pruned = Ok (ups, pruned).
Proof.
  intros Hm Hw Hb Hk Hv Hi Hne.
  destruct (prune_loop_spec mem key k m worse better Hm Hw Hb (length ups) 0 0 init ups [])
    as (idx & arr & removed & E & Ht & Hl & Hlen & Hp); [lia | lia | done | by constructor |].
  simpl in *. rewrite drop_0 in *. unfold prune. rewrite E, bind_Ok.
  assert (Hbest : best_key m k init ups = v).
  { destruct ups as [|p ups]; [done |]. apply Forall_cons in Hv as [Hpv Hv].
    destruct (best_key_le m k (p :: ups) init) as [_ Hle]. apply Forall_cons in Hle as [Hle _].
    destruct (best_key_in m k (p :: ups) init) as [H|(q & Hq & H)].
    - apply Hm. rewrite H in *. subst v. lia.
    - rewrite <- H. apply elem_of_cons in Hq as [->|Hq]; [done |]. rewrite Forall_forall in Hv. by apply Hv. }
  rewrite Hbest, filter_Forall in Ht by done. rewrite Ht in Hp.
  assert (removed = []) as ->.
  { apply Permutation_length in Hp. rewrite length_app in Hp. destruct removed; [done | simpl in Hp; lia]. }
  assert (0 < idx)%nat by (destruct idx; [by rewrite <- Ht in Hne | lia]).
  rewrite prune_done_pruned by done. unfold pruned_by. rewrite len_nil. simpl. by rewrite app_nil_r, Ht.
Qed.

Section best_path.
Context (mem : ptr -> Path) (protoFamily alen : Z).
Context (rangeS : list string -> list string) (gosort : (ptr -> ptr -> bool) -> list ptr -> list ptr).

Lemma prune_ties_pref v ups pruned :
  0 <= v -> Forall (fun p => pt_Pref (mem p) = v) ups -> ups <> [] ->
  getRoutesWithHighestPref mem ups pruned = Ok (ups, pruned).
Proof.
  intros Hv H Hne. apply (prune_ties mem _ _ (fun p => pt_Pref (mem p)) Z.opp _ _ 0 v); [| | | | done | lia | done].
  - intros a b. lia.
  - intros a b. destruct (Z.ltb_spec a b), (Z.ltb_spec (- b) (- a)); lia.
  - intros a b. rewrite Z.gtb_ltb. destruct (Z.ltb_spec b a), (Z.ltb_spec (- a) (- b)); lia.
  - by apply Forall_forall.
Qed.
Lemma prune_ties_as v ups pruned :
  v <= 4096 -> Forall (fun p => Path_GetNumASes (mem p) = Ok v) ups -> ups <> [] ->
  getRoutesWithSmallestAS mem ups pruned = Ok (ups, pruned).
Proof.
  intros Hv H Hne. apply (prune_ties mem _ _ (fun _ => v) (fun z => z) _ _ 4096 v);
    [done | | done | done | by apply Forall_forall | done | done].
  intros a b. apply Z.gtb_ltb.
Qed.
Lemma ties_origin v ups pruned :
  v <= BGPPathAttrOriginMax -> Forall (fun p => Path_GetOrigin (mem p) = Ok v) ups -> ups <> [] ->
  getRoutesWithLowestOrigin mem ups pruned = Ok (ups, pruned).
Proof.
  intros Hv H Hne. unfold getRoutesWithLowestOrigin.
  rewrite <- (prune_ties mem ByLowestOrigin Path_GetOrigin (fun _ => v) (fun z => z) Z.gtb Z.ltb v v ups pruned);
    [| done | | done | done | by apply Forall_forall | done | done].
  2: { intros a b. apply Z.gtb_ltb. }
  unfold prune. f_equal. destruct ups as [|p ups]; [done |].
  pose proof H as [Hp Hu]%Forall_cons. simpl length. simpl prune_loop. rewrite Hp. simpl.
  rewrite !Z.gtb_ltb, !Z.ltb_irrefl.
  replace (BGPPathAttrOriginMax <? v) with false by lia.
  destruct (Z.ltb_spec v BGPPathAttrOriginMax);
    [| replace BGPPathAttrOriginMax with v by lia];
    (apply (prune_loop_reset mem _ (fun _ => v)); simpl; rewrite ?drop_0; [done | lia | lia |]);
    apply Forall_forall; intros; lia.
Qed.

(** Two paths of local routes that tie: the next rule reads the identifier of their neighbour, and
    they have none. *)
Lemma id_local_panics p q pruned :
  pt_NeighborConf (mem p) = None -> originator (pt_PathAttrs (mem p)) = Ok None ->
  getRoutesWithLowestBGPId mem [p; q] pruned = Panic.
Proof.
  intros Hn Ho. unfold getRoutesWithLowestBGPId, prune. simpl. unfold GetBGPId. by rewrite Ho, Hn.
Qed.

(** *** Multipaths *)

Definition next_hop (p : ptr) : option string := ri_NextHop <$> GetReachability (mem p) protoFamily.

Lemma group_paths_spec : forall ps m m',
  group_paths mem protoFamily ps m = Ok m' ->
  forall nh, m' !! nh = match filter (fun p => next_hop p = Some nh) ps with
                        | [] => m !! nh
                        | l => Some (default [] (m !! nh) ++ l)
                        end.
Proof.
  induction ps as [|p ps IH]; intros m m' H nh; simpl in H; [by simplify_eq |].
  destruct (GetReachability (mem p) protoFamily) as [r|] eqn:Hr; [|done].
  assert (Hp : next_hop p = Some (ri_NextHop r)) by (unfold next_hop; by rewrite Hr).
  rewrite (IH _ _ H nh), lookup_insert.
  destruct (decide (ri_NextHop r = nh)) as [<-|Hd].
  - rewrite filter_cons_True by done. simpl. destruct (filter _ ps); [done | by rewrite <- app_assoc].
  - rewrite filter_cons_False by (rewrite Hp; by intros [= ?]). done.
Qed.

Lemma range_map_spec {A} (m : gmap string A) :
  (forall l, rangeS l ≡ₚ l) ->
  exists ks, NoDup ks /\ (forall k, k ∈ ks <-> is_Some (m !! k)) /\
    (range_map rangeS m).*1 = ks /\ forall k v, (k, v) ∈ range_map rangeS m -> m !! k = Some v.
Proof.
  intros Hr. exists (rangeS (map_to_list m).*1).
  split; [rewrite Hr; apply NoDup_fst_map_to_list |].
  split; [|split].
  - intros k. rewrite Hr, list_elem_of_fmap. split.
    + intros ([k' v] & -> & Hin). apply elem_of_map_to_list in Hin. by eexists.
    + intros [v Hv]. exists (k, v). split; [done | by apply elem_of_map_to_list].
  - unfold range_map. assert (Forall (fun k => is_Some (m !! k)) (rangeS (map_to_list m).*1)) as Hall.
    { rewrite Hr. apply Forall_fmap, Forall_forall. intros [k v] Hin%elem_of_map_to_list. simpl. by rewrite Hin. }
    induction Hall as [|k ks [v Hv] _ IH]; [done |]. simpl. rewrite Hv. simpl. f_equal. exact IH.
  - intros k v Hin. unfold range_map in Hin. apply list_elem_of_omap in Hin as (k' & _ & Hk).
    destruct (m !! k') eqn:E; simplify_eq/=. by rewrite E.
Qed.

Lemma getECMPPaths_groups ps gs :
  (forall l, rangeS l ≡ₚ l) -> getECMPPaths mem rangeS protoFamily ps = Ok gs ->
  exists nhs, NoDup nhs /\ (forall nh, nh ∈ nhs <-> exists p, p ∈ ps /\ next_hop p = Some nh) /\
    gs = (fun nh => filter (fun p => next_hop p = Some nh) ps) <$> nhs.
Proof.
  intros Hr H. unfold getECMPPaths in H.
  destruct (group_paths mem protoFamily ps ∅) as [m| | |] eqn:Hm; [|done..]. simpl in H. simplify_eq.
  assert (Hspec : forall nh, m !! nh = match filter (fun p => next_hop p = Some nh) ps with
                                       | [] => None | l => Some l end).
  { intros nh. rewrite (group_paths_spec _ _ _ Hm nh), lookup_empty. by destruct (filter _ ps). }
  destruct (range_map_spec m Hr) as (ks & Hnd & Hks & Hfst & Hin).
  exists ks. split; [done |]. split.
  - intros nh. rewrite Hks, Hspec. split.
    + intros Hs. destruct (filter _ ps) as [|p l] eqn:Hf; [by apply is_Some_None in Hs |].
      exists p. assert (Hp : p ∈ filter (fun p => next_hop p = Some nh) ps) by (rewrite Hf; left).
      apply list_elem_of_filter in Hp as [? ?]. done.
    + intros (p & Hp & Hnh).
      assert (Hf : p ∈ filter (fun p => next_hop p = Some nh) ps) by by apply list_elem_of_filter.
      destruct (filter _ ps); [by apply not_elem_of_nil in Hf | by eexists].
  - rewrite <- Hfst, <- list_fmap_compose. apply list_fmap_ext. intros i [nh l] Hl. simpl.
    apply list_elem_of_lookup_2, Hin in Hl. rewrite Hspec in Hl. by destruct (filter _ ps); simplify_eq.
Qed.
End best_path.

(** ** Examples *)

Definition path_neighbor (n : Z) : RibNeighbor :=
  {| nb_Address := [10; 0; 0; n]; nb_PeerAS := 65000 + n; nb_LocalAS := 65000; nb_BGPId := [1; 1; 1; n];
     nb_RouterId := [9; 9; 9; 9]; nb_ClusterId := 0 |}.
Definition path_reach (nextHop : string) : ReachabilityInfo :=
  {| ri_NextHop := nextHop; ri_NextHopIfType := 0; ri_NextHopIfIdx := 1; ri_Metric := 0 |}.
Definition path_nhs (nextHop : string) : gmap Z NHReachabilityInfo :=
  {[ 257 := {| nh_nextHop := [10; 0; 0; 1]; nh_reachabilityInfo := Some (path_reach nextHop) |} ]}.
(** Path [n] comes from the external neighbour 10.0.0.n, with the given origin. *)
Definition external_path (n origin : Z) (nextHop : string) : Path :=
  {| pt_NeighborConf := Some (path_neighbor n); pt_PathAttrs := [AOrigin (NewBGPPathAttrOrigin origin)];
     pt_Pref := 100; pt_nhReachabilityInfo := path_nhs nextHop; pt_routeType := RouteTypeEGP;
     pt_MED := 0; pt_LocalPref := 0 |}.
(** A local route, without a neighbour. *)
Definition local_path (routeType : Z) : Path :=
  {| pt_NeighborConf := None; pt_PathAttrs := [AOrigin (NewBGPPathAttrOrigin 2)]; pt_Pref := 100;
     pt_nhReachabilityInfo := ∅; pt_routeType := routeType; pt_MED := 0; pt_LocalPref := 0 |}.

Definition mem_example (p : ptr) : Path := external_path p (if p =? 3 then 0 else 2) "10.0.0.1".

Lemma external_candidate mem p n origin nh :
  mem p = external_path n origin nh -> is_u8 n -> 0 <= origin <= 2 -> candidate mem 257 4 p.
Proof.
  intros Hm Hn Ho. unfold is_u8 in Hn. constructor; rewrite Hm; simpl.
  - eexists. split; [done |]. split; [done |]. repeat constructor; unfold is_u8; lia.
  - done.
  - exists 0. done.
  - exists origin. split; [done |]. unfold BGPPathAttrOriginMax. lia.
  - eexists. split; [reflexivity |]. unfold is_u32. lia.
  - exists 0. done.
  - eexists. by vm_compute.
Qed.

Lemma mem_example_candidate p : is_u8 p -> candidate mem_example 257 4 p.
Proof.
  intros H. eapply external_candidate; [reflexivity | done |]. by destruct (p =? 3).
Qed.

(** ** The properties *)

(** C25: the decision process computes what it is meant to. For candidate paths (from neighbours with
    addresses of one family, reachable, with readable attributes), of which those that tie on
    preference and AS path length come with the better origins first, it returns a result, and the
    paths it keeps are exactly those that no other path precedes in the lexicographic order:
    higher preference, shorter AS path, lower origin, external before internal, lower router
    identifier, shorter cluster list, lower peer address. *)
Theorem best_path_is_least (mem : ptr -> Path) (protoFamily alen : Z) (rangeS : list string -> list string)
    (gosort : (ptr -> ptr -> bool) -> list ptr -> list ptr) (ups removed : list ptr) (e i : bool) (cnt : Z) :
  (forall less l, gosort less l ≡ₚ l) ->
  ups <> [] -> Forall (candidate mem protoFamily alen) ups -> origins_sorted mem ups ->
  Forall (reachable mem protoFamily) removed ->
  exists best ecmp adds,
    calculateBestPath mem rangeS gosort protoFamily ups removed e i cnt = Ok (best, ecmp, adds) /\
    best <> [] /\ forall q, q ∈ best <-> q ∈ ups /\ forall r, r ∈ ups -> lex_le (ranks mem) q r.
Proof. intros. by eapply calculateBestPath_least. Qed.

Lemma best_path_is_least_witness :
  exists best ecmp adds,
    calculateBestPath mem_example (fun l => l) (fun _ l => l) 257 [3; 2; 1] [] true true 2 = Ok (best, ecmp, adds) /\
    best <> [] /\ forall q, q ∈ best <-> q ∈ [3; 2; 1] /\ forall r, r ∈ [3; 2; 1] -> lex_le (ranks mem_example) q r.
Proof.
  apply (best_path_is_least mem_example 257 4); [done | done | | | constructor].
  - repeat constructor; apply mem_example_candidate; unfold is_u8; lia.
  - repeat constructor; vm_compute; intros; congruence.
Defined.

(** The choice does not depend on the order in which the paths are visited (in the code, that of a
    map): for candidates with different peer addresses, visited in two orders that both satisfy the
    condition on origins, the same path is chosen. *)
Theorem best_path_order_independent (mem : ptr -> Path) (protoFamily alen : Z)
    (rangeS rangeS' : list string -> list string)
    (gosort : (ptr -> ptr -> bool) -> list ptr -> list ptr) (ups ups' removed removed' : list ptr) (e i : bool)
    (cnt : Z) :
  (forall less l, gosort less l ≡ₚ l) ->
  ups <> [] -> ups ≡ₚ ups' -> Forall (candidate mem protoFamily alen) ups ->
  Forall (reachable mem protoFamily) removed -> Forall (reachable mem protoFamily) removed' ->
  origins_sorted mem ups -> origins_sorted mem ups' ->
  (forall p q, p ∈ ups -> q ∈ ups -> k_address mem p = k_address mem q -> p = q) ->
  exists b rest ecmp adds rest' ecmp' adds',
    calculateBestPath mem rangeS gosort protoFamily ups removed e i cnt = Ok (b :: rest, ecmp, adds) /\
    calculateBestPath mem rangeS' gosort protoFamily ups' removed' e i cnt = Ok (b :: rest', ecmp', adds').
Proof.
  intros Hg Hne Hp Hc Hr Hr' Hs Hs' Hinj.
  destruct (calculateBestPath_least mem protoFamily alen rangeS gosort Hg ups removed e i cnt)
    as (best & ecmp & adds & E & Hb & Hl); [done.. |].
  destruct (calculateBestPath_least mem protoFamily alen rangeS' gosort Hg ups' removed' e i cnt)
    as (best' & ecmp' & adds' & E' & Hb' & Hl'); [by intros ->; apply Permutation_nil_r in Hp | by rewrite <- Hp | done | done |].
  destruct best as [|b rest]; [done |]. destruct best' as [|b' rest']; [done |].
  assert (Hbu : b ∈ ups) by (apply (least_subseteq _ _ _ Hl); left).
  assert (Hbu' : b' ∈ ups) by (rewrite Hp; apply (least_subseteq _ _ _ Hl'); left).
  assert (b' = b) as ->; [|by repeat eexists].
  apply Hinj; [done | done |].
  assert (Heq : Forall (fun k => k b' = k b) (ranks mem)).
  { apply lex_le_antisym; [eapply (least_le _ _ _ _ _ Hl'); [left | by rewrite <- Hp]
                          | eapply (least_le _ _ _ _ _ Hl); [left | done]]. }
  unfold ranks in Heq. rewrite Forall_forall in Heq. apply Heq. set_solver.
Qed.

Lemma best_path_order_independent_witness :
  exists b rest ecmp adds rest' ecmp' adds',
    calculateBestPath mem_example (fun l => l) (fun _ l => l) 257 [3; 2; 1] [] false false 0 = Ok (b :: rest, ecmp, adds) /\
    calculateBestPath mem_example (fun l => reverse l) (fun _ l => l) 257 [3; 1; 2] [] false false 0 = Ok (b :: rest', ecmp', adds').
Proof.
  apply (best_path_order_independent mem_example 257 4); [done | done | | | constructor | constructor | | |].
  - constructor. apply Permutation_swap.
  - repeat constructor; apply mem_example_candidate; unfold is_u8; lia.
  - repeat constructor; vm_compute; intros; congruence.
  - repeat constructor; vm_compute; intros; congruence.
  - intros p q Hp Hq. repeat (apply elem_of_cons in Hp as [->|Hp]); repeat (apply elem_of_cons in Hq as [->|Hq]);
      try (by apply not_elem_of_nil in Hp); try (by apply not_elem_of_nil in Hq); vm_compute; congruence.
Defined.

Ltac three_way a b := destruct (Z.ltb_spec a b); try lia.

Lemma origin_keeps_worse mem a b c o o' pruned :
  Path_GetOrigin (mem a) = Ok o -> Path_GetOrigin (mem b) = Ok o -> Path_GetOrigin (mem c) = Ok o' ->
  o' < o <= BGPPathAttrOriginMax ->
  getRoutesWithLowestOrigin mem [a; b; c] pruned
  = Ok ([c; b; c], pruned ++ [{| psi_paths := [a; b]; psi_iface := ByLowestOrigin |}]).
Proof.
  intros Ha Hb Hc Ho. unfold getRoutesWithLowestOrigin, prune. simpl.
  rewrite Ha. simpl. rewrite !Z.gtb_ltb. three_way BGPPathAttrOriginMax o.
  three_way o BGPPathAttrOriginMax; simpl; rewrite Hb; simpl; rewrite ?Z.gtb_ltb.
  - rewrite Z.ltb_irrefl. simpl. rewrite ?Hc. simpl. rewrite ?Z.gtb_ltb. three_way o o'. three_way o' o. done.
  - three_way BGPPathAttrOriginMax o. three_way o BGPPathAttrOriginMax. simpl. rewrite ?Hc. simpl.
    rewrite ?Z.gtb_ltb. three_way BGPPathAttrOriginMax o'. three_way o' BGPPathAttrOriginMax. done.
Qed.

Lemma id_second mem b c i j pruned :
  GetBGPId (mem c) = Ok j -> GetBGPId (mem b) = Ok i -> i < j -> is_u32 j ->
  exists pruned', getRoutesWithLowestBGPId mem [c; b; c] pruned = Ok ([b], pruned').
Proof.
  intros Hc Hb Hij Hj. unfold is_u32 in Hj. unfold getRoutesWithLowestBGPId, prune. simpl.
  rewrite Hc. simpl. rewrite !Z.gtb_ltb. three_way 4294967295 j.
  three_way j 4294967295; simpl; rewrite Hb; simpl; rewrite ?Z.gtb_ltb.
  - three_way j i. three_way i j. simpl. rewrite ?Hc. simpl. rewrite ?Z.gtb_ltb. three_way i j. by eexists.
  - three_way 4294967295 i. three_way i 4294967295. simpl. rewrite ?Hc. simpl. rewrite ?Z.gtb_ltb.
    three_way i j. by eexists.
Qed.

Lemma delete_external mem ups pruned :
  Forall (fun p => exists n, pt_NeighborConf (mem p) = Some n /\ nb_IsExternal n = true) ups ->
  removeIBGPRoutesIfEBGPExist mem ups pruned = Ok (ups, pruned).
Proof.
  intros H. unfold removeIBGPRoutesIfEBGPExist. destruct (existsb _ ups); [|done].
  unfold deleteIBGPRoutes.
  enough (forall fuel i, (fuel + i)%nat = length ups ->
    delete_internal mem fuel i (length ups) ups [] = Ok (length ups, ups, [])) as ->; [|lia |].
  { simpl. by rewrite firstn_all. }
  induction fuel as [|fuel IH]; intros i Hi; simpl in *; [by subst i |].
  destruct (lookup_lt_is_Some_2 ups i) as [p Hp]; [lia |].
  destruct (lookup_lt_is_Some_2 ups (length ups - 1)) as [l Hl]; [lia |]. rewrite Hp, Hl.
  rewrite Forall_forall in H. destruct (H p) as (n & Hn & He); [by eapply list_elem_of_lookup_2 |].
  rewrite Hn. unfold nb_IsInternal. unfold nb_IsExternal in He. rewrite Z.eqb_sym.
  apply negb_true_iff in He. rewrite He. apply IH. lia.
Qed.

(** The rule on the origin is wrong when a path with a better origin comes after two or more that
    tie without it: the loop forgets to empty the list it keeps. Visited in the order [a; b; c],
    with [c] the only one of the lowest origin, the worse path [b] survives, and it is chosen if
    its router identifier is lower; visited in the order [c; a; b], [c] is chosen. *)
Theorem best_path_worse_origin (mem : ptr -> Path) (protoFamily alen : Z) (rangeS : list string -> list string)
    (gosort : (ptr -> ptr -> bool) -> list ptr -> list ptr) (a b c : ptr) :
  (forall less l, gosort less l ≡ₚ l) ->
  Forall (candidate mem protoFamily alen) [a; b; c] ->
  Forall (fun p => IsExternal (mem p) = true /\ k_pref mem p = k_pref mem a /\ k_as mem p = k_as mem a) [a; b; c] ->
  k_origin mem c < k_origin mem a -> k_origin mem b = k_origin mem a -> k_id mem b < k_id mem c ->
  calculateBestPath mem rangeS gosort protoFamily [a; b; c] [] false false 0 = Ok ([b], [], []) /\
  exists rest ecmp adds,
    calculateBestPath mem rangeS gosort protoFamily [c; a; b] [] false false 0 = Ok (c :: rest, ecmp, adds).
Proof.
  intros Hg Hc Hx Hoc Hob Hid.
  pose proof Hc as [Ha [Hb [Hcc _]%Forall_cons]%Forall_cons]%Forall_cons.
  pose proof Hx as [_ [[_ [Hpb Hab]] [[_ [Hpc Hac]] _]%Forall_cons]%Forall_cons]%Forall_cons.
  split.
  - destruct (cand_as _ _ _ _ Ha) as (n & Hn & Hn'). destruct (cand_as _ _ _ _ Hb) as (nb & Hnb & _).
    destruct (cand_as _ _ _ _ Hcc) as (nc & Hnc & _).
    destruct (cand_origin _ _ _ _ Ha) as (o & Ho & Ho'). destruct (cand_origin _ _ _ _ Hb) as (ob & Hob' & _).
    destruct (cand_origin _ _ _ _ Hcc) as (oc & Hoc' & _).
    destruct (cand_id _ _ _ _ Hb) as (ib & Hib & _). destruct (cand_id _ _ _ _ Hcc) as (ic & Hic & Hic').
    unfold k_pref, k_as, k_origin, k_id in *. rewrite Hn, Hnb, Hnc, Ho, Hob', Hoc', Hib, Hic in *. simpl in *.
    subst nb nc ob.
    assert (He : Forall (fun p => exists n, pt_NeighborConf (mem p) = Some n /\ nb_IsExternal n = true) [c; b; c]).
    { assert (Hall : Forall (fun p => exists n, pt_NeighborConf (mem p) = Some n /\ nb_IsExternal n = true) [a; b; c]).
      { eapply Forall_impl; [exact Hx |]. intros p [H _]. unfold IsExternal in H.
        destruct (pt_NeighborConf (mem p)) as [n'|]; [by exists n' | done]. }
      rewrite Forall_forall in *. intros p Hp. apply Hall. set_solver. }
    unfold calculateBestPath, when_many. simpl fst. simpl snd. change (len [a; b; c] >? 1) with true.
    cbv iota. rewrite (prune_ties_pref mem (pt_Pref (mem a))); [| by apply cand_pref in Ha | repeat constructor; lia | done].
    rewrite bind_Ok. simpl fst. simpl snd. change (len [a; b; c] >? 1) with true. cbv iota.
    rewrite (prune_ties_as mem n) by (done || by repeat constructor).
    rewrite bind_Ok. simpl fst. simpl snd. change (len [a; b; c] >? 1) with true. cbv iota.
    rewrite (origin_keeps_worse mem a b c o oc) by (done || lia).
    rewrite bind_Ok. simpl fst. simpl snd. change (len [c; b; c] >? 1) with true. simpl andb. cbv iota.
    rewrite bind_Ok, delete_external by done.
    rewrite bind_Ok. simpl fst. simpl snd. change (len [c; b; c] >? 1) with true. simpl.
    destruct (id_second mem b c ib ic ([{| psi_paths := []; psi_iface := ByRouteSrc |}] ++
      [{| psi_paths := [a; b]; psi_iface := ByLowestOrigin |}]) Hic Hib Hid Hic') as [pr E].
    simpl in E. rewrite E. done.
  - destruct (calculateBestPath_least mem protoFamily alen rangeS gosort Hg [c; a; b] [] false false 0)
      as (best & ecmp & adds & E & Hne & Hl); [done | | | constructor |].
    + by rewrite !Forall_cons, Forall_nil.
    + repeat constructor; intros; lia.
    + destruct best as [|q rest]; [done |]. exists rest, ecmp, adds.
      enough (q = c) as -> by done.
      assert (Hq : lex_le (ranks mem) q c) by (apply (least_le _ _ _ _ _ Hl); left).
      assert (Hqin : q ∈ [c; a; b]) by (apply (least_subseteq _ _ _ Hl); left).
      simpl in Hq. apply elem_of_cons in Hqin as [->|Hqin]; [done |].
      exfalso. apply elem_of_cons in Hqin as [->|Hqin]; [lia |].
      apply list_elem_of_singleton in Hqin as ->. lia.
Qed.

Lemma best_path_worse_origin_witness :
  calculateBestPath mem_example (fun l => l) (fun _ l => l) 257 [2; 1; 3] [] false false 0 = Ok ([1], [], []) /\
  exists rest ecmp adds,
    calculateBestPath mem_example (fun l => l) (fun _ l => l) 257 [3; 2; 1] [] false false 0 = Ok (3 :: rest, ecmp, adds).
Proof.
  apply (best_path_worse_origin mem_example 257 4); [done | | | by vm_compute..].
  - repeat constructor; apply mem_example_candidate; unfold is_u8; lia.
  - repeat constructor.
Defined.

(** Two local routes for the same prefix (an aggregate and a connected route, for example) that tie
    on preference, AS path length and origin, without ORIGINATOR_ID: the decision process reads the
    router identifier of the neighbour they came from, and panics. *)
Theorem local_paths_panic (mem : ptr -> Path) (protoFamily : Z) (rangeS : list string -> list string)
    (gosort : (ptr -> ptr -> bool) -> list ptr -> list ptr) (p q : ptr) (removed : list ptr) (e i : bool)
    (cnt n o : Z) :
  pt_NeighborConf (mem p) = None -> pt_NeighborConf (mem q) = None ->
  0 <= pt_Pref (mem p) -> pt_Pref (mem q) = pt_Pref (mem p) ->
  Path_GetNumASes (mem p) = Ok n -> Path_GetNumASes (mem q) = Ok n -> n <= 4096 ->
  Path_GetOrigin (mem p) = Ok o -> Path_GetOrigin (mem q) = Ok o -> o <= BGPPathAttrOriginMax ->
  originator (pt_PathAttrs (mem p)) = Ok None ->
  calculateBestPath mem rangeS gosort protoFamily [p; q] removed e i cnt = Panic.
Proof.
  intros Hp Hq Hpref Hpq Hn Hn' Hn4 Ho Ho' Ho4 Hor.
  unfold calculateBestPath, when_many. simpl fst. simpl snd. change (len [p; q] >? 1) with true. cbv iota.
  rewrite (prune_ties_pref mem (pt_Pref (mem p))) by (done || by repeat constructor).
  rewrite bind_Ok. simpl fst. simpl snd. change (len [p; q] >? 1) with true. cbv iota.
  rewrite (prune_ties_as mem n) by (done || by repeat constructor).
  rewrite bind_Ok. simpl fst. simpl snd. change (len [p; q] >? 1) with true. cbv iota.
  rewrite (ties_origin mem o) by (done || by repeat constructor).
  rewrite bind_Ok. simpl fst. simpl snd. change (len [p; q] >? 1) with true. simpl andb.
  assert (Hno : removeIBGPRoutesIfEBGPExist mem [p; q] [{| psi_paths := removed; psi_iface := ByRouteSrc |}]
    = Ok ([p; q], [{| psi_paths := removed; psi_iface := ByRouteSrc |}])).
  { unfold removeIBGPRoutesIfEBGPExist, isEBGPRoute, IsExternal. simpl. by rewrite Hp, Hq. }
  assert (Hg : forall g, getECMPPaths mem rangeS protoFamily [p; q] = g -> (exists x, g = Ok x) \/ g = Panic).
  { intros g <-. unfold getECMPPaths. simpl.
    destruct (GetReachability (mem p) protoFamily), (GetReachability (mem q) protoFamily); simpl; eauto. }
  assert (Hnot : isEBGPRoute mem p = false /\ isIBGPRoute mem p = false).
  { unfold isEBGPRoute, isIBGPRoute, IsExternal, IsInternal. by rewrite Hp. }
  destruct Hnot as [Hne Hni].
  destruct (e && i).
  - destruct (Hg _ eq_refl) as [[x ->]| ->]; [|done].
    rewrite bind_Ok. simpl fst. simpl snd. cbv iota. rewrite Hno, bind_Ok. simpl fst. simpl snd.
    cbv beta iota. rewrite Hne, Hni, !andb_false_r. simpl orb. cbv iota. rewrite if_Ok, bind_Ok.
    change (len [p; q] >? 1) with true. cbv iota. by rewrite id_local_panics.
  - rewrite bind_Ok. simpl fst. simpl snd. cbv iota. rewrite Hno, bind_Ok. simpl fst. simpl snd.
    cbv beta iota. rewrite Hne, Hni, !andb_false_r. simpl orb. cbv iota. rewrite if_Ok, bind_Ok.
    change (len [p; q] >? 1) with true. cbv iota. by rewrite id_local_panics.
Qed.

Lemma local_paths_panic_witness :
  calculateBestPath (fun p => local_path (if p =? 1 then RouteTypeAgg else RouteTypeConnected)) (fun l => l)
    (fun _ l => l) 257 [1; 2] [] false false 0 = Panic.
Proof. apply (local_paths_panic _ _ _ _ _ _ _ _ _ _ 0 2); by vm_compute. Defined.

(** the multipaths of a destination: the candidates are split by next hop, one group for every next
    hop that occurs and no other, each group holding all the paths with that next hop, in order. *)
Theorem multipath_groups (mem : ptr -> Path) (protoFamily : Z) (rangeS : list string -> list string) (ps : list ptr) :
  (forall l, rangeS l ≡ₚ l) -> Forall (reachable mem protoFamily) ps ->
  exists nhs, NoDup nhs /\ (forall nh, nh ∈ nhs <-> exists p, p ∈ ps /\ next_hop mem protoFamily p = Some nh) /\
    getECMPPaths mem rangeS protoFamily ps
    = Ok ((fun nh => filter (fun p => next_hop mem protoFamily p = Some nh) ps) <$> nhs).
Proof.
  intros Hr H. destruct (getECMPPaths_ok mem protoFamily rangeS ps H) as [gs E].
  destruct (getECMPPaths_groups mem protoFamily rangeS ps gs Hr E) as (nhs & Hnd & Hin & ->).
  by exists nhs.
Qed.

Lemma multipath_groups_witness :
  exists nhs, NoDup nhs /\
    (forall nh, nh ∈ nhs <-> exists p, p ∈ [1; 2; 3] /\ next_hop mem_example 257 p = Some nh) /\
    getECMPPaths mem_example (fun l => l) 257 [1; 2; 3]
    = Ok ((fun nh => filter (fun p => next_hop mem_example 257 p = Some nh) [1; 2; 3]) <$> nhs).
Proof.
  apply (multipath_groups mem_example 257 (fun l => l)); [done |].
  repeat constructor; eexists; by vm_compute.
Defined.
