(* ===== verification/BgpDest.v ===== *)
(** A destination of the BGP RIB ([src/bgp/rib/destination.go], [route.go], [ipv4Route.go]): the
    paths to a prefix by peer and path identifier, their routes, and the selection of the paths
    that are installed and announced.

    A [*Route] and the [*bgpd.PathInfo] made with it are one token ([rptr]); [d_routes] is the
    memory of the routes of a destination. Logging and the times of the routes are dropped. *)
From stdpp Require Import base numbers list gmap strings.
From Stdlib Require Import ZArith Lia.
From S2P Require Import Prelude GoNet BgpBase BgpNlri BgpAttrs BgpHelpers BgpPath.
Open Scope Z_scope.

Inductive RouteAction := RouteActionNone | RouteActionAdd | RouteActionReplace | RouteActionDelete.

(** The fields of the route and of its [PathInfo]; the origin is a number, not its text. *)
Record Route := {
  r_path : ptr;
  r_NextHop : string;
  r_Metric : Z;
  r_LocalPref : Z;
  r_Path : list string;
  r_PathId : Z;
  r_ValidPath : bool;
  r_BestPath : bool;
  r_MultiPath : bool;
  r_AdditionalPath : bool;
  r_Origin : Z;
  r_routeListIdx : Z;
  r_action : RouteAction;
  r_OutPathId : Z;
}.

Abbreviation rptr := Z.

Record Destination := {
  d_NLRI : NLRI;
  d_protoFamily : Z;
  d_peerPathMap : gmap string (gmap Z ptr);
  d_LocRibPath : option ptr;
  d_LocRibPathRoute : option rptr;
  d_ecmpPaths : gmap ptr rptr;
  d_pathRouteMap : gmap ptr rptr;
  d_AddPaths : list ptr;
  d_maxPathId : Z;
  d_pathIds : list Z;
  d_recalculate : bool;
  d_Paths : list rptr;
  d_PathInfoRouteMap : gmap rptr rptr;
  d_routes : gmap rptr Route;
  d_nextRoute : rptr;
}.

Definition set_d_peerPathMap (v : gmap string (gmap Z ptr)) (d : Destination) : Destination :=
  {| d_NLRI := d_NLRI d; d_protoFamily := d_protoFamily d; d_peerPathMap := v; d_LocRibPath :=
     d_LocRibPath d; d_LocRibPathRoute := d_LocRibPathRoute d; d_ecmpPaths := d_ecmpPaths d;
     d_pathRouteMap := d_pathRouteMap d; d_AddPaths := d_AddPaths d; d_maxPathId := d_maxPathId d;
     d_pathIds := d_pathIds d; d_recalculate := d_recalculate d; d_Paths := d_Paths d;
     d_PathInfoRouteMap := d_PathInfoRouteMap d; d_routes := d_routes d; d_nextRoute :=
     d_nextRoute d |}.
Definition set_d_LocRibPath (v : option ptr) (d : Destination) : Destination :=
  {| d_NLRI := d_NLRI d; d_protoFamily := d_protoFamily d; d_peerPathMap := d_peerPathMap d;
     d_LocRibPath := v; d_LocRibPathRoute := d_LocRibPathRoute d; d_ecmpPaths := d_ecmpPaths d;
     d_pathRouteMap := d_pathRouteMap d; d_AddPaths := d_AddPaths d; d_maxPathId := d_maxPathId d;
     d_pathIds := d_pathIds d; d_recalculate := d_recalculate d; d_Paths := d_Paths d;
     d_PathInfoRouteMap := d_PathInfoRouteMap d; d_routes := d_routes d; d_nextRoute :=
     d_nextRoute d |}.
Definition set_d_LocRibPathRoute (v : option rptr) (d : Destination) : Destination :=
  {| d_NLRI := d_NLRI d; d_protoFamily := d_protoFamily d; d_peerPathMap := d_peerPathMap d;
     d_LocRibPath := d_LocRibPath d; d_LocRibPathRoute := v; d_ecmpPaths := d_ecmpPaths d;
     d_pathRouteMap := d_pathRouteMap d; d_AddPaths := d_AddPaths d; d_maxPathId := d_maxPathId d;
     d_pathIds := d_pathIds d; d_recalculate := d_recalculate d; d_Paths := d_Paths d;
     d_PathInfoRouteMap := d_PathInfoRouteMap d; d_routes := d_routes d; d_nextRoute :=
     d_nextRoute d |}.
Definition set_d_ecmpPaths (v : gmap ptr rptr) (d : Destination) : Destination :=
  {| d_NLRI := d_NLRI d; d_protoFamily := d_protoFamily d; d_peerPathMap := d_peerPathMap d;
     d_LocRibPath := d_LocRibPath d; d_LocRibPathRoute := d_LocRibPathRoute d; d_ecmpPaths := v;
     d_pathRouteMap := d_pathRouteMap d; d_AddPaths := d_AddPaths d; d_maxPathId := d_maxPathId d;
     d_pathIds := d_pathIds d; d_recalculate := d_recalculate d; d_Paths := d_Paths d;
     d_PathInfoRouteMap := d_PathInfoRouteMap d; d_routes := d_routes d; d_nextRoute :=
     d_nextRoute d |}.
Definition set_d_pathRouteMap (v : gmap ptr rptr) (d : Destination) : Destination :=
  {| d_NLRI := d_NLRI d; d_protoFamily := d_protoFamily d; d_peerPathMap := d_peerPathMap d;
     d_LocRibPath := d_LocRibPath d; d_LocRibPathRoute := d_LocRibPathRoute d; d_ecmpPaths :=
     d_ecmpPaths d; d_pathRouteMap := v; d_AddPaths := d_AddPaths d; d_maxPathId := d_maxPathId d;
     d_pathIds := d_pathIds d; d_recalculate := d_recalculate d; d_Paths := d_Paths d;
     d_PathInfoRouteMap := d_PathInfoRouteMap d; d_routes := d_routes d; d_nextRoute :=
     d_nextRoute d |}.
Definition set_d_AddPaths (v : list ptr) (d : Destination) : Destination :=
  {| d_NLRI := d_NLRI d; d_protoFamily := d_protoFamily d; d_peerPathMap := d_peerPathMap d;
     d_LocRibPath := d_LocRibPath d; d_LocRibPathRoute := d_LocRibPathRoute d; d_ecmpPaths :=
     d_ecmpPaths d; d_pathRouteMap := d_pathRouteMap d; d_AddPaths := v; d_maxPathId :=
     d_maxPathId d; d_pathIds := d_pathIds d; d_recalculate := d_recalculate d; d_Paths := d_Paths
     d; d_PathInfoRouteMap := d_PathInfoRouteMap d; d_routes := d_routes d; d_nextRoute :=
     d_nextRoute d |}.
Definition set_d_maxPathId (v : Z) (d : Destination) : Destination :=
  {| d_NLRI := d_NLRI d; d_protoFamily := d_protoFamily d; d_peerPathMap := d_peerPathMap d;
     d_LocRibPath := d_LocRibPath d; d_LocRibPathRoute := d_LocRibPathRoute d; d_ecmpPaths :=
     d_ecmpPaths d; d_pathRouteMap := d_pathRouteMap d; d_AddPaths := d_AddPaths d; d_maxPathId :=
     v; d_pathIds := d_pathIds d; d_recalculate := d_recalculate d; d_Paths := d_Paths d;
     d_PathInfoRouteMap := d_PathInfoRouteMap d; d_routes := d_routes d; d_nextRoute :=
     d_nextRoute d |}.
Definition set_d_pathIds (v : list Z) (d : Destination) : Destination :=
  {| d_NLRI := d_NLRI d; d_protoFamily := d_protoFamily d; d_peerPathMap := d_peerPathMap d;
     d_LocRibPath := d_LocRibPath d; d_LocRibPathRoute := d_LocRibPathRoute d; d_ecmpPaths :=
     d_ecmpPaths d; d_pathRouteMap := d_pathRouteMap d; d_AddPaths := d_AddPaths d; d_maxPathId :=
     d_maxPathId d; d_pathIds := v; d_recalculate := d_recalculate d; d_Paths := d_Paths d;
     d_PathInfoRouteMap := d_PathInfoRouteMap d; d_routes := d_routes d; d_nextRoute :=
     d_nextRoute d |}.
Definition set_d_recalculate (v : bool) (d : Destination) : Destination :=
  {| d_NLRI := d_NLRI d; d_protoFamily := d_protoFamily d; d_peerPathMap := d_peerPathMap d;
     d_LocRibPath := d_LocRibPath d; d_LocRibPathRoute := d_LocRibPathRoute d; d_ecmpPaths :=
     d_ecmpPaths d; d_pathRouteMap := d_pathRouteMap d; d_AddPaths := d_AddPaths d; d_maxPathId :=
     d_maxPathId d; d_pathIds := d_pathIds d; d_recalculate := v; d_Paths := d_Paths d;
     d_PathInfoRouteMap := d_PathInfoRouteMap d; d_routes := d_routes d; d_nextRoute :=
     d_nextRoute d |}.
Definition set_d_Paths (v : list rptr) (d : Destination) : Destination :=
  {| d_NLRI := d_NLRI d; d_protoFamily := d_protoFamily d; d_peerPathMap := d_peerPathMap d;
     d_LocRibPath := d_LocRibPath d; d_LocRibPathRoute := d_LocRibPathRoute d; d_ecmpPaths :=
     d_ecmpPaths d; d_pathRouteMap := d_pathRouteMap d; d_AddPaths := d_AddPaths d; d_maxPathId :=
     d_maxPathId d; d_pathIds := d_pathIds d; d_recalculate := d_recalculate d; d_Paths := v;
     d_PathInfoRouteMap := d_PathInfoRouteMap d; d_routes := d_routes d; d_nextRoute :=
     d_nextRoute d |}.
Definition set_d_PathInfoRouteMap (v : gmap rptr rptr) (d : Destination) : Destination :=
  {| d_NLRI := d_NLRI d; d_protoFamily := d_protoFamily d; d_peerPathMap := d_peerPathMap d;
     d_LocRibPath := d_LocRibPath d; d_LocRibPathRoute := d_LocRibPathRoute d; d_ecmpPaths :=
     d_ecmpPaths d; d_pathRouteMap := d_pathRouteMap d; d_AddPaths := d_AddPaths d; d_maxPathId :=
     d_maxPathId d; d_pathIds := d_pathIds d; d_recalculate := d_recalculate d; d_Paths := d_Paths
     d; d_PathInfoRouteMap := v; d_routes := d_routes d; d_nextRoute := d_nextRoute d |}.
Definition set_d_routes (v : gmap rptr Route) (d : Destination) : Destination :=
  {| d_NLRI := d_NLRI d; d_protoFamily := d_protoFamily d; d_peerPathMap := d_peerPathMap d;
     d_LocRibPath := d_LocRibPath d; d_LocRibPathRoute := d_LocRibPathRoute d; d_ecmpPaths :=
     d_ecmpPaths d; d_pathRouteMap := d_pathRouteMap d; d_AddPaths := d_AddPaths d; d_maxPathId :=
     d_maxPathId d; d_pathIds := d_pathIds d; d_recalculate := d_recalculate d; d_Paths := d_Paths
     d; d_PathInfoRouteMap := d_PathInfoRouteMap d; d_routes := v; d_nextRoute := d_nextRoute d
     |}.
Definition set_d_nextRoute (v : rptr) (d : Destination) : Destination :=
  {| d_NLRI := d_NLRI d; d_protoFamily := d_protoFamily d; d_peerPathMap := d_peerPathMap d;
     d_LocRibPath := d_LocRibPath d; d_LocRibPathRoute := d_LocRibPathRoute d; d_ecmpPaths :=
     d_ecmpPaths d; d_pathRouteMap := d_pathRouteMap d; d_AddPaths := d_AddPaths d; d_maxPathId :=
     d_maxPathId d; d_pathIds := d_pathIds d; d_recalculate := d_recalculate d; d_Paths := d_Paths
     d; d_PathInfoRouteMap := d_PathInfoRouteMap d; d_routes := d_routes d; d_nextRoute := v |}.

Definition NewDestination (nlri : NLRI) (protoFamily : Z) : Destination :=
  {| d_NLRI := nlri; d_protoFamily := protoFamily; d_peerPathMap := ∅; d_LocRibPath := None;
     d_LocRibPathRoute := None; d_ecmpPaths := ∅; d_pathRouteMap := ∅; d_AddPaths := [];
     d_maxPathId := 1; d_pathIds := []; d_recalculate := false; d_Paths := [];
     d_PathInfoRouteMap := ∅; d_routes := ∅; d_nextRoute := 0 |}.

Definition IsEmpty (d : Destination) : bool := bool_decide (d_peerPathMap d = ∅).

(** ** The fields of a route that are set after it is made *)

Definition with_flags (best multi additional : bool) (idx : Z) (action : RouteAction) (r : Route) : Route :=
  {| r_path := r_path r; r_NextHop := r_NextHop r; r_Metric := r_Metric r; r_LocalPref := r_LocalPref r;
     r_Path := r_Path r; r_PathId := r_PathId r; r_ValidPath := r_ValidPath r; r_BestPath := best;
     r_MultiPath := multi; r_AdditionalPath := additional; r_Origin := r_Origin r; r_routeListIdx := idx;
     r_action := action; r_OutPathId := r_OutPathId r |}.
Definition setAction (a : RouteAction) (r : Route) : Route :=
  with_flags (r_BestPath r) (r_MultiPath r) (r_AdditionalPath r) (r_routeListIdx r) a r.
Definition setIdx (idx : Z) (r : Route) : Route :=
  with_flags (r_BestPath r) (r_MultiPath r) (r_AdditionalPath r) idx (r_action r) r.
Definition SetBestPath (b : bool) (r : Route) : Route :=
  with_flags b (r_MultiPath r) (r_AdditionalPath r) (r_routeListIdx r) (r_action r) r.
Definition SetMultiPath (b : bool) (r : Route) : Route :=
  with_flags (r_BestPath r) b (r_AdditionalPath r) (r_routeListIdx r) (r_action r) r.
Definition SetAdditionalPath (b : bool) (r : Route) : Route :=
  with_flags (r_BestPath r) (r_MultiPath r) b (r_routeListIdx r) (r_action r) r.
Definition on_route (f : Route -> Route) (r : rptr) (d : Destination) : Destination :=
  set_d_routes (alter f r (d_routes d)) d.

(** ** Path identifiers *)

Definition getNextPathId (d : Destination) : Z * Destination :=
  match last (d_pathIds d) with
  | Some pathId => (pathId, set_d_pathIds (take (length (d_pathIds d) - 1) (d_pathIds d)) d)
  | None => (d_maxPathId d, set_d_maxPathId (u32 (d_maxPathId d + 1)) d)
  end.

Definition releasePathId (pathId : Z) (d : Destination) : Destination :=
  if u32 (pathId + 1) =? d_maxPathId d then set_d_maxPathId (u32 (d_maxPathId d - 1)) d
  else set_d_pathIds (d_pathIds d ++ [pathId]) d.

Definition getPathForIP (peerIP : string) (pathId : Z) (d : Destination) : option ptr :=
  d_peerPathMap d !! peerIP ≫= fun pathMap => pathMap !! pathId.

Section dest.
Context (mem : ptr -> Path).

Definition source (p : ptr) : Z := getRouteSource (pt_routeType (mem p)).

(** ** Adding and removing paths *)

Definition NewRoute (protoFamily : Z) (path : ptr) (action : RouteAction) (inPathId outPathId : Z)
    : result Route :=
  as_ ← GetAS4ByteList (pt_PathAttrs (mem path));
  origin ← Path_GetOrigin (mem path);
  Ok {| r_path := path; r_NextHop := ip_String (Path_GetNextHop (mem path) protoFamily);
        r_Metric := s32 (pt_MED (mem path)); r_LocalPref := s32 (pt_LocalPref (mem path)); r_Path := as_;
        r_PathId := s32 inPathId; r_ValidPath := IsReachable (mem path) protoFamily; r_BestPath := false;
        r_MultiPath := false; r_AdditionalPath := false; r_Origin := origin; r_routeListIdx := -1;
        r_action := action; r_OutPathId := outPathId |}.

(** [BGPRouteState.SetPath(info, idx)] *)
Definition SetPath (info : rptr) (idx : Z) (paths : list rptr) : result (list rptr) :=
  if (0 <=? idx) && (idx <? len paths) then Ok (<[Z.to_nat idx := info]> paths) else Panic.

(** The path that is replaced keeps its entry of [pathRouteMap] and its identifier. *)
Definition forget_old (oldPath : ptr) (d : Destination) : Z * Destination :=
  let '(idx, d) :=
    match d_pathRouteMap d !! oldPath with
    | Some r => (default (-1) (r_routeListIdx <$> d_routes d !! r),
                 set_d_PathInfoRouteMap (delete r (d_PathInfoRouteMap d)) d)
    | None => (-1, d)
    end in
  (idx, if bool_decide (d_LocRibPath d = Some oldPath) then set_d_LocRibPath None d else d).

(** The assignments at the end of [AddOrUpdatePath]: the new route [rt], at [idx] of the list. *)
Definition with_route (peerIp : string) (pathId : Z) (path : ptr) (rt : Route) (idx : Z)
    (paths : list rptr) (d : Destination) : Destination :=
  let r := d_nextRoute d in
  let d := set_d_nextRoute (r + 1) (set_d_routes (<[r := setIdx idx rt]> (d_routes d)) d) in
  let d := set_d_pathRouteMap (<[path := r]> (d_pathRouteMap d)) d in
  let d := set_d_PathInfoRouteMap (<[r := r]> (d_PathInfoRouteMap d)) (set_d_Paths paths d) in
  set_d_peerPathMap (<[peerIp := <[pathId := path]> (default ∅ (d_peerPathMap d !! peerIp))]> (d_peerPathMap d)) d.

Definition mark_recalculate (path : ptr) (d : Destination) : Destination :=
  match d_LocRibPath d with
  | None => set_d_recalculate true d
  | Some l => if source l >=? source path then set_d_recalculate true d else d
  end.

(** The second half of [AddOrUpdatePath]: the new route, [idx] its place in the list of paths. *)
Definition insert_path (peerIp : string) (pathId : Z) (path : ptr) (idx : Z) (d : Destination)
    : result Destination :=
  let '(outPathId, d) := getNextPathId (mark_recalculate path d) in
  route ← NewRoute (d_protoFamily d) path RouteActionNone pathId outPathId;
  x ← (if negb (idx =? -1) then ps ← SetPath (d_nextRoute d) idx (d_Paths d); Ok (idx, ps)
       else Ok (len (d_Paths d), d_Paths d ++ [d_nextRoute d]));
  let '(idx, paths) := x in
  Ok (with_route peerIp pathId path route idx paths d).

Definition AddOrUpdatePath (peerIp : string) (pathId : Z) (path : ptr) (d : Destination)
    : result (bool * Destination) :=
  let pathMap := default ∅ (d_peerPathMap d !! peerIp) in
  let d := set_d_peerPathMap (<[peerIp := pathMap]> (d_peerPathMap d)) d in
  match pathMap !! pathId with
  | Some oldPath =>
    if oldPath =? path then Ok (false, d)
    else
      let '(idx, d) := forget_old oldPath d in
      d ← insert_path peerIp pathId path idx d; Ok (false, d)
  | None => d ← insert_path peerIp pathId path (-1) d; Ok (true, d)
  end.

(** [BGPRouteState.RemovePathAndSetLast(idx)] *)
Definition RemovePathAndSetLast (idx : Z) (l : list rptr) : result (list rptr) :=
  if idx <? len l then
    if idx <? 0 then Panic
    else match last l with
         | None => Panic
         | Some p => Ok (take (length l - 1) (<[Z.to_nat idx := p]> l))
         end
  else Ok l.

(** The part of [RemovePath] that updates the list of paths shown for the destination. *)
Definition remove_shown (r : rptr) (idx : Z) (d : Destination) : result Destination :=
  if idx =? -1 then Ok d
  else
    match last (d_Paths d) with
    | None => Panic
    | Some newPath =>
      match d_PathInfoRouteMap d !! newPath with
      | None => Ok d
      | Some newRoute =>
        let d := set_d_PathInfoRouteMap (delete r (d_PathInfoRouteMap d)) d in
        ps ← RemovePathAndSetLast idx (d_Paths d);
        Ok (on_route (setIdx idx) newRoute (set_d_Paths ps d))
      end
    end.

Definition delete_peer_path (peerIP : string) (pathId : Z) (d : Destination) : Destination :=
  let m := delete pathId (default ∅ (d_peerPathMap d !! peerIP)) in
  set_d_peerPathMap (if bool_decide (m = ∅) then delete peerIP (d_peerPathMap d)
                     else <[peerIP := m]> (d_peerPathMap d)) d.

(** A path without an entry of [pathRouteMap] has a nil route, which is dereferenced. *)
Definition RemovePath (peerIP : string) (pathId : Z) (d : Destination) : result (option ptr * Destination) :=
  match getPathForIP peerIP pathId d with
  | None => Ok (None, d)
  | Some oldPath =>
    let d := match d_ecmpPaths d !! oldPath with
             | Some _ => set_d_recalculate true d | None => d end in
    let d := if bool_decide (d_LocRibPath d = Some oldPath)
             then set_d_LocRibPath None (set_d_recalculate true d) else d in
    match d_pathRouteMap d !! oldPath ≫= fun r => pair r <$> d_routes d !! r with
    | None => Panic
    | Some (r, route) =>
      let d := releasePathId (r_OutPathId route) d in
      let d := set_d_pathRouteMap (delete oldPath (d_pathRouteMap d)) d in
      d ← remove_shown r (r_routeListIdx route) d;
      Ok (Some oldPath, delete_peer_path peerIP pathId d)
    end
  end.

Section ranges.
Context (rangeS : list string -> list string) (rangeZ : list Z -> list Z).

Fixpoint remove_ids (peerIP : string) (ids : list Z) (d : Destination) : result Destination :=
  match ids with
  | [] => Ok d
  | pathId :: ids => x ← RemovePath peerIP pathId d; remove_ids peerIP ids x.2
  end.
Definition RemoveAllPaths (peerIP : string) (d : Destination) : result Destination :=
  match d_peerPathMap d !! peerIP with
  | None => Ok d
  | Some pathMap => remove_ids peerIP (rangeZ (map_to_list pathMap).*1) d
  end.

(** The paths of the neighbours are deleted from [peerPathMap] only. *)
Definition RemoveAllNeighborPaths (d : Destination) : Destination :=
  let keep (m : gmap Z ptr) := filter (fun x => pt_NeighborConf (mem x.2) = None) m in
  let d := set_d_peerPathMap
             (filter (fun x => x.2 <> ∅ \/ d_peerPathMap d !! x.1 = Some ∅) (keep <$> d_peerPathMap d)) d in
  match d_LocRibPath d with
  | Some l => match pt_NeighborConf (mem l) with
              | Some _ => set_d_LocRibPath None (set_d_recalculate true d)
              | None => d
              end
  | None => d
  end.

(** ** The selection of routes *)

Definition updateAddPaths (addPaths : list ptr) (d : Destination) : bool * Destination :=
  if bool_decide (d_AddPaths d = addPaths) then (false, d)
  else
    let flag b d p := match d_pathRouteMap d !! p with
                      | Some r => on_route (SetAdditionalPath b) r d
                      | None => d
                      end in
    (true, fold_left (flag true) addPaths (set_d_AddPaths addPaths (fold_left (flag false) (d_AddPaths d) d))).

(** [removeAndPrepend]: [item] comes to the front of its group, and its group to the front. An
    [item] that is in no group is appended, and the groups before the last one are shifted. *)
Fixpoint find_group (item : ptr) (i : nat) (pathsList : list (list ptr)) : option (nat * nat) :=
  match pathsList with
  | [] => None
  | paths :: rest =>
    match list_find (eq item) paths with
    | Some (j, _) => Some (i, j)
    | None => find_group item (S i) rest
    end
  end.
Definition to_front {A} (i : nat) (x : A) (l : list A) : list A := x :: take i l ++ drop (S i) l.
Definition removeAndPrepend (pathsList : list (list ptr)) (item : ptr) : list (list ptr) :=
  match find_group item 0 pathsList with
  | Some (i, j) => to_front i (to_front j item (pathsList !!! i)) pathsList
  | None => to_front (length pathsList - 1) [item] (pathsList ++ [[item]])
  end.

(** [(255 << uint(8-rem))] is a byte. *)
Definition constructNetmaskFromLen (ones bits : Z) : result bytes :=
  let ip := make (bits / 8) in
  let nbytes := ones / 8 in
  let rem := ones mod 8 in
  if (bits / 8 <? 0) || (nbytes >? len ip) then Panic
  else
    let ip := replicate (Z.to_nat nbytes) 255 ++ drop (Z.to_nat nbytes) ip in
    if negb (rem =? 0) then sset ip nbytes (u8 (Z.shiftl 255 (8 - rem))) else Ok ip.

(** [config.RouteConfig]; addresses as bytes. *)
Record RouteConfig := {
  rc_Cost : Z;
  rc_IntfType : Z;
  rc_IsEBGP : bool;
  rc_NextHopIp : string;
  rc_NetworkMask : bytes;
  rc_DestinationNw : bytes;
  rc_OutgoingInterface : Z;
  rc_IsIPv6 : bool;
  rc_NullRoute : bool;
}.

Definition nlri_prefix (n : NLRI) : bytes := ip_Prefix (GetIPPrefix n).
Definition nlri_length (n : NLRI) : Z := ip_Length (GetIPPrefix n).

Definition ConstructRouteConfig (path : ptr) (reachInfo : ReachabilityInfo) (ipLength : Z) (d : Destination)
    : result RouteConfig :=
  mask ← constructNetmaskFromLen (nlri_length (d_NLRI d)) (ipLength * 8);
  Ok {| rc_Cost := ri_Metric reachInfo; rc_IntfType := ri_NextHopIfType reachInfo;
        rc_IsEBGP := IsExternal (mem path); rc_NextHopIp := ri_NextHop reachInfo; rc_NetworkMask := mask;
        rc_DestinationNw := nlri_prefix (d_NLRI d); rc_OutgoingInterface := ri_NextHopIfIdx reachInfo;
        rc_IsIPv6 := ipLength =? 16; rc_NullRoute := IsAggregate (mem path) |}.

(** What the destination asks of the route manager. *)
Inductive RibAction :=
  | CreateRoute (cfg : RouteConfig)
  | UpdateRouteAdd (cfg : RouteConfig)
  | UpdateRouteRemove (cfg : RouteConfig).

Context (gosort : (ptr -> ptr -> bool) -> list ptr -> list ptr).

(** [config.GlobalConfig], the fields used here. *)
Record RibGlobalConfig := { gc_UseMultiplePaths : bool; gc_EBGPMaxPaths : Z; gc_IBGPMaxPaths : Z }.
Context (gConf : RibGlobalConfig).

(** All paths in the order the two nested loops visit them. *)
Definition all_paths (d : Destination) : list ptr :=
  peerIP ← rangeS (map_to_list (d_peerPathMap d)).*1;
  let pathMap := default ∅ (d_peerPathMap d !! peerIP) in
  omap (fun pathId => pathMap !! pathId) (rangeZ (map_to_list pathMap).*1).

(** The loop that keeps the reachable paths of the best source without a loop. *)
Fixpoint select_source (locRibPath : option ptr) (protoFamily : Z) (paths : list ptr) (routeSrc : Z)
    (updatedPaths removedPaths : list ptr) : result (list ptr * list ptr) :=
  match paths with
  | [] => Ok (updatedPaths, removedPaths)
  | path :: paths =>
    if bool_decide (locRibPath = Some path) || negb (IsReachable (mem path) protoFamily)
    then select_source locRibPath protoFamily paths routeSrc updatedPaths removedPaths
    else
      asLoop ← Path_HasASLoop (mem path);
      if (asLoop : bool) then select_source locRibPath protoFamily paths routeSrc updatedPaths removedPaths
      else
        let currPathSource := source path in
        if currPathSource >? routeSrc
        then select_source locRibPath protoFamily paths routeSrc updatedPaths (removedPaths ++ [path])
        else if currPathSource <? routeSrc
        then select_source locRibPath protoFamily paths currPathSource [path] (removedPaths ++ updatedPaths)
        else select_source locRibPath protoFamily paths routeSrc (updatedPaths ++ [path]) removedPaths
  end.

(** The state of the loop over the groups of multipaths. *)
Record Install := {
  in_dest : Destination;
  in_action : RouteAction;
  in_firstRoute : bool;
  in_createRibRoutes : list ptr;
  in_addedRoutes : list rptr;
  in_updatedRoutes : list rptr;
}.

(** The group at [idx]: the first of its paths that is installed (in the first group, only the best
    path is looked at) is kept, and otherwise the first path of the group is installed. *)
Definition install_group (idx : nat) (paths : list ptr) (s : Install) : result Install :=
  let d := in_dest s in
  let tried := if (idx =? 0)%nat then take 1 paths else paths in
  match list_find (fun p => is_Some (d_ecmpPaths d !! p)) tried with
  | Some (_, path) =>
    let r := default 0 (d_ecmpPaths d !! path) in
    let d := on_route (setAction RouteActionReplace) r d in
    let d := if (idx =? 0)%nat then d else on_route (SetBestPath false) r d in
    Ok {| in_dest := d;
          in_action := if (idx =? 0)%nat && IsAggregate (mem path) then RouteActionReplace else in_action s;
          in_firstRoute := false; in_createRibRoutes := in_createRibRoutes s;
          in_addedRoutes := in_addedRoutes s; in_updatedRoutes := in_updatedRoutes s ++ [r] |}
  | None =>
    match paths with
    | [] => Panic
    | path :: _ =>
      match d_pathRouteMap d !! path with
      | None => Ok s
      | Some newRoute =>
        let d := on_route (setAction RouteActionAdd) newRoute d in
        let d := on_route (SetMultiPath true) newRoute d in
        create ← (if negb (IsLocal (mem path)) || IsAggregate (mem path) then
                    match GetReachability (mem path) (d_protoFamily d) with
                    | None => Panic
                    | Some _ => Ok (in_createRibRoutes s ++ [path])
                    end
                  else Ok (in_createRibRoutes s));
        let d := if (idx =? 0)%nat then on_route (SetBestPath true) newRoute d else d in
        Ok {| in_dest := set_d_ecmpPaths (<[path := newRoute]> (d_ecmpPaths d)) d;
              in_action := if (idx =? 0)%nat then RouteActionAdd else in_action s;
              in_firstRoute := in_firstRoute s; in_createRibRoutes := create;
              in_addedRoutes := in_addedRoutes s ++ [newRoute]; in_updatedRoutes := in_updatedRoutes s |}
      end
    end
  end.
Fixpoint install_groups (idx : nat) (ecmpPaths : list (list ptr)) (s : Install) : result Install :=
  match ecmpPaths with
  | [] => Ok s
  | paths :: ecmpPaths => s ← install_group idx paths s; install_groups (S idx) ecmpPaths s
  end.

(** The loop over the installed paths: those that were not kept or added are removed. *)
Fixpoint uninstall (paths : list ptr) (d : Destination) (deleted : list rptr) (trace : list RibAction)
    : result (Destination * list rptr * list RibAction) :=
  match paths with
  | [] => Ok (d, deleted, trace)
  | path :: paths =>
    match d_ecmpPaths d !! path with
    | None => uninstall paths d deleted trace
    | Some r =>
      match r_action <$> d_routes d !! r with
      | Some RouteActionNone | Some RouteActionDelete =>
        trace ← (if negb (IsLocal (mem path)) || IsAggregate (mem path) then
                   match GetReachability (mem path) (d_protoFamily d) with
                   | None => Panic
                   | Some reachInfo =>
                     cfg ← ConstructRouteConfig path reachInfo (GetAddressLengthForFamily (d_protoFamily d)) d;
                     Ok (trace ++ [UpdateRouteRemove cfg])
                   end
                 else Ok trace);
        let d := on_route (SetMultiPath false) r (on_route (SetBestPath false) r d) in
        uninstall paths (set_d_ecmpPaths (delete path (d_ecmpPaths d)) d) (deleted ++ [r]) trace
      | _ => uninstall paths (on_route (setAction RouteActionNone) r d) deleted trace
      end
    end
  end.

Fixpoint create_routes (paths : list ptr) (firstRoute : bool) (d : Destination) (trace : list RibAction)
    : result (list RibAction) :=
  match paths with
  | [] => Ok trace
  | path :: paths =>
    match GetReachability (mem path) (d_protoFamily d) with
    | None => Panic
    | Some reachInfo =>
      cfg ← ConstructRouteConfig path reachInfo (GetAddressLengthForFamily (d_protoFamily d)) d;
      create_routes paths false d (trace ++ [if firstRoute then CreateRoute cfg else UpdateRouteAdd cfg])
    end
  end.

Record Selection := {
  sel_dest : Destination;
  sel_action : RouteAction;
  sel_addPathsUpdated : bool;
  sel_added : list rptr;
  sel_updated : list rptr;
  sel_deleted : list rptr;
  sel_trace : list RibAction;
}.

(** The branch with a path left: the best path, its multipaths and additional paths. *)
Definition choose_paths (updatedPaths removedPaths : list ptr) (addPathCount : Z) (d : Destination)
    : result (bool * Install) :=
  x ← (if (len updatedPaths >? 1) || (addPathCount >? 0) then
         calculateBestPath mem rangeS gosort (d_protoFamily d) updatedPaths removedPaths
           (gc_UseMultiplePaths gConf && (gc_EBGPMaxPaths gConf >? 1))
           (gc_UseMultiplePaths gConf && (gc_IBGPMaxPaths gConf >? 1)) addPathCount
       else Ok (updatedPaths, [], []));
  let '(updatedPaths, ecmpPaths, addPaths) := x in
  let '(addPathsUpdated, d) := updateAddPaths addPaths d in
  match updatedPaths with
  | [] => Panic
  | best :: _ =>
    let ecmpPaths := removeAndPrepend ecmpPaths best in
    s ← install_groups 0 ecmpPaths
          {| in_dest := d; in_action := RouteActionNone; in_firstRoute := true; in_createRibRoutes := [];
             in_addedRoutes := []; in_updatedRoutes := [] |};
    let d := set_d_LocRibPath (Some best) (in_dest s) in
    let d := set_d_LocRibPathRoute (d_ecmpPaths d !! best) d in
    Ok (addPathsUpdated,
        {| in_dest := d; in_action := in_action s; in_firstRoute := in_firstRoute s;
           in_createRibRoutes := in_createRibRoutes s; in_addedRoutes := in_addedRoutes s;
           in_updatedRoutes := in_updatedRoutes s |})
  end.

(** The branch without one. *)
Definition no_paths (d : Destination) : Install :=
  {| in_dest := set_d_LocRibPath None
       (foldr (on_route (setAction RouteActionDelete)) d (map_to_list (d_ecmpPaths d)).*2);
     in_action := RouteActionDelete; in_firstRoute := true; in_createRibRoutes := [];
     in_addedRoutes := []; in_updatedRoutes := [] |}.

Definition SelectRouteForLocRib (addPathCount : Z) (d : Destination) : result Selection :=
  if negb (d_recalculate d) then
    Ok {| sel_dest := d; sel_action := RouteActionNone; sel_addPathsUpdated := false; sel_added := [];
          sel_updated := []; sel_deleted := []; sel_trace := [] |}
  else
    let d := set_d_recalculate false d in
    let '(routeSrc, updatedPaths) :=
      match d_LocRibPath d with
      | Some l => (source l, [l])
      | None => (RouteSrcUnknown, [])
      end in
    x ← select_source (d_LocRibPath d) (d_protoFamily d) (all_paths d) routeSrc updatedPaths [];
    let '(updatedPaths, removedPaths) := x in
    y ← (match updatedPaths with
         | [] => Ok (false, no_paths d)
         | _ => choose_paths updatedPaths removedPaths addPathCount d
         end);
    let '(addPathsUpdated, s) := y in
    z ← uninstall (rangeZ (map_to_list (d_ecmpPaths (in_dest s))).*1) (in_dest s) [] [];
    let '(d, deletedRoutes, trace) := z in
    trace ← create_routes (in_createRibRoutes s) (in_firstRoute s) d trace;
    Ok {| sel_dest := d; sel_action := in_action s; sel_addPathsUpdated := addPathsUpdated;
          sel_added := in_addedRoutes s; sel_updated := in_updatedRoutes s; sel_deleted := deletedRoutes;
          sel_trace := trace |}.
End ranges.
End dest.
