(* ===== verification/BgpDestFacts.v ===== *)
(** The table of a destination: path identifiers are never given twice, the paths, their routes and
    the list of paths shown stay in step, and where a path that is known twice breaks it; the
    selection of routes. *)
From stdpp Require Import base numbers list gmap strings sorting.
From Stdlib Require Import ZArith Lia.
From S2P Require Import Prelude GoNet BgpBase BgpNlri BgpAttrs BgpHelpers BgpPath BgpPathFacts BgpDest.
Open Scope Z_scope.

(** ** Path identifiers *)

(** The identifiers in use and the free ones are different, and below [maxPathId]. *)
Record ids_ok (d : Destination) : Prop := {
  id_route : forall p r, d_pathRouteMap d !! p = Some r -> exists rt, d_routes d !! r = Some rt /\
    r_path rt = p /\ 0 < r_OutPathId rt < d_maxPathId d /\ r_OutPathId rt ∉ d_pathIds d;
  id_inj : forall p q r s rt st, d_pathRouteMap d !! p = Some r -> d_pathRouteMap d !! q = Some s ->
    d_routes d !! r = Some rt -> d_routes d !! s = Some st -> r_OutPathId rt = r_OutPathId st -> p = q;
  id_free : NoDup (d_pathIds d) /\ Forall (fun i => 0 < i < d_maxPathId d) (d_pathIds d);
  id_fresh : forall r, is_Some (d_routes d !! r) -> r < d_nextRoute d;
  id_max : 0 < d_maxPathId d < 2 ^ 32;
}.

(** [i] is the identifier of no route. *)
Definition unused (i : Z) (d : Destination) : Prop :=
  forall p r rt, d_pathRouteMap d !! p = Some r -> d_routes d !! r = Some rt -> r_OutPathId rt <> i.

Lemma last_take {A} (l : list A) x : last l = Some x -> l = take (length l - 1) l ++ [x].
Proof.
  intros H. apply last_Some in H as [l' ->]. rewrite length_app. simpl.
  by replace (length l' + 1 - 1)%nat with (length l') by lia; rewrite take_app_length.
Qed.

Lemma getNextPathId_ok d :
  ids_ok d -> d_maxPathId d < 2 ^ 32 - 1 ->
  exists i ids mx, getNextPathId d = (i, set_d_maxPathId mx (set_d_pathIds ids d)) /\
    ids_ok (set_d_maxPathId mx (set_d_pathIds ids d)) /\ 0 < i < mx /\ i ∉ ids /\ unused i d /\
    d_maxPathId d <= mx.
Proof.
  intros [Hr Hi [Hnd Hf] Hfr Hm] Hmax. unfold getNextPathId.
  destruct (last (d_pathIds d)) as [i|] eqn:Hl.
  - pose proof (last_take _ _ Hl) as Heq. set (ids := take (length (d_pathIds d) - 1) (d_pathIds d)) in *.
    rewrite Heq in Hnd, Hf. apply NoDup_app in Hnd as (Hnd & Hdis & _).
    apply Forall_app in Hf as [Hf [Hfi _]%Forall_cons].
    assert (Hids : forall x, x ∉ d_pathIds d -> x ∉ ids) by (intros x; rewrite Heq; set_solver).
    exists i, ids, (d_maxPathId d). split; [by destruct d |]. split; [|split; [done |]].
    + constructor; simpl; [|done | done | done | done].
      intros p r Hp. destruct (Hr p r Hp) as (rt & ? & ? & ? & ?). exists rt. eauto.
    + split; [set_solver |]. split; [|lia].
      intros p r rt Hp Hrt. destruct (Hr p r Hp) as (rt' & ? & ? & ? & Hn). simplify_eq.
      intros <-. apply Hn. rewrite Heq. set_solver.
  - apply last_None in Hl. exists (d_maxPathId d), (d_pathIds d), (d_maxPathId d + 1).
    assert (u32 (d_maxPathId d + 1) = d_maxPathId d + 1) as -> by (apply u32_id; unfold is_u32; lia).
    split; [by destruct d |]. split; [|split; [lia |]].
    + constructor; simpl; [| done | | done | lia].
      * intros p r Hp. destruct (Hr p r Hp) as (rt & ? & ? & ? & ?). exists rt.
        split; [done |]. split; [done |]. split; [lia | done].
      * split; [done |]. eapply Forall_impl; [exact Hf |]. simpl. lia.
    + split; [rewrite Hl; set_solver |]. split; [|lia].
      intros p r rt Hp Hrt. destruct (Hr p r Hp) as (rt' & ? & ? & ? & Hn). simplify_eq. lia.
Qed.

Lemma releasePathId_ok d p r rt :
  ids_ok d -> d_pathRouteMap d !! p = Some r -> d_routes d !! r = Some rt ->
  exists ids mx, releasePathId (r_OutPathId rt) d = set_d_maxPathId mx (set_d_pathIds ids d) /\
    ids_ok (set_d_pathRouteMap (delete p (d_pathRouteMap d)) (set_d_maxPathId mx (set_d_pathIds ids d))).
Proof.
  intros [Hr Hi [Hnd Hf] Hfr Hm] Hp Hrt. destruct (Hr p r Hp) as (rt' & ? & Hpt & Hb & Hn). simplify_eq.
  assert (Hother : forall q s st, delete (r_path rt) (d_pathRouteMap d) !! q = Some s -> d_routes d !! s = Some st ->
    d_pathRouteMap d !! q = Some s /\ r_OutPathId st <> r_OutPathId rt).
  { intros q s st Hq Hst. apply lookup_delete_Some in Hq as [Hne Hq]. split; [done |].
    intros Heq. apply Hne. by eapply (Hi _ _ _ _ _ _ Hp Hq). }
  unfold releasePathId.
  assert (u32 (r_OutPathId rt + 1) = r_OutPathId rt + 1) as -> by (apply u32_id; unfold is_u32; lia).
  destruct (Z.eqb_spec (r_OutPathId rt + 1) (d_maxPathId d)) as [Heq|Hne].
  - assert (u32 (d_maxPathId d - 1) = d_maxPathId d - 1) as -> by (apply u32_id; unfold is_u32; lia).
    exists (d_pathIds d), (d_maxPathId d - 1). split; [by destruct d |]. constructor; simpl.
    + intros q s Hq. pose proof Hq as [Hneq Hq']%lookup_delete_Some.
      destruct (Hr q s Hq') as (st & Hst & ? & ? & ?). destruct (Hother q s st Hq Hst).
      exists st. split; [done |]. split; [done |]. split; [lia | done].
    + intros q q' s s' st st' [_ Hq]%lookup_delete_Some [_ Hq']%lookup_delete_Some. by apply Hi.
    + split; [done |]. rewrite Forall_forall in *. intros x Hx. specialize (Hf x Hx).
      assert (x <> r_OutPathId rt) by (by intros ->). lia.
    + done.
    + lia.
  - exists (d_pathIds d ++ [r_OutPathId rt]), (d_maxPathId d). split; [by destruct d |]. constructor; simpl.
    + intros q s Hq. pose proof Hq as [Hneq Hq']%lookup_delete_Some.
      destruct (Hr q s Hq') as (st & Hst & ? & ? & ?). destruct (Hother q s st Hq Hst).
      exists st. split; [done |]. split; [done |]. split; [lia | set_solver].
    + intros q q' s s' st st' [_ Hq]%lookup_delete_Some [_ Hq']%lookup_delete_Some. by apply Hi.
    + split; [apply NoDup_app; split; [done |]; split; [set_solver | apply NoDup_singleton] |].
      apply Forall_app. split; [done |]. constructor; [done | constructor].
    + done.
    + done.
Qed.

(** ** The table of paths *)

Definition current (d : Destination) (k : string * Z) (p : ptr) : Prop := getPathForIP k.1 k.2 d = Some p.

(** Every current path but the one at [skip] has a route, which is shown at its index; every place
    of the list but [gap] shows the route of a current path. *)
Record rows_ok (skip : option (string * Z)) (gap : option nat) (d : Destination) : Prop := {
  row_shown : forall k p, current d k p -> Some k <> skip -> exists r rt i,
    d_pathRouteMap d !! p = Some r /\ d_routes d !! r = Some rt /\ r_routeListIdx rt = Z.of_nat i /\
    Some i <> gap /\ d_Paths d !! i = Some r /\ d_PathInfoRouteMap d !! r = Some r;
  row_inj : forall k k' p, current d k p -> current d k' p -> k = k';
  row_owner : forall i r, d_Paths d !! i = Some r -> Some i <> gap -> exists k p rt,
    current d k p /\ Some k <> skip /\ d_pathRouteMap d !! p = Some r /\ d_routes d !! r = Some rt /\
    r_routeListIdx rt = Z.of_nat i;
}.

Definition table_ok (d : Destination) : Prop := ids_ok d /\ rows_ok None None d.

Lemma NewDestination_ok nlri fam : table_ok (NewDestination nlri fam).
Proof.
  split; constructor; unfold current, getPathForIP; simpl;
    try (intros *; rewrite ?lookup_empty, ?lookup_nil; done).
  split; constructor.
Qed.

Lemma current_insert d peer id path k p :
  current (set_d_peerPathMap (<[peer := <[id := path]> (default ∅ (d_peerPathMap d !! peer))]> (d_peerPathMap d)) d) k p
  <-> (k = (peer, id) /\ p = path) \/ (k <> (peer, id) /\ current d k p).
Proof.
  destruct k as [peer' id']. unfold current, getPathForIP. simpl.
  destruct (decide (peer = peer')) as [<-|Hne].
  - rewrite lookup_insert_eq. simpl. destruct (decide (id = id')) as [<-|Hne].
    + rewrite lookup_insert_eq. naive_solver.
    + rewrite lookup_insert_ne by done. destruct (d_peerPathMap d !! peer); simpl; [naive_solver |].
      rewrite lookup_empty. naive_solver.
  - rewrite lookup_insert_ne by done. naive_solver.
Qed.

Lemma current_delete d peer id k p :
  current (delete_peer_path peer id d) k p <-> k <> (peer, id) /\ current d k p.
Proof.
  destruct k as [peer' id']. unfold current, getPathForIP, delete_peer_path. simpl.
  set (m := delete id (default ∅ (d_peerPathMap d !! peer))).
  destruct (decide (peer = peer')) as [<-|Hne].
  - assert ((if bool_decide (m = ∅) then delete peer (d_peerPathMap d) else <[peer := m]> (d_peerPathMap d)) !! peer
      ≫= (fun pathMap => pathMap !! id') = m !! id') as ->.
    { case_bool_decide as Hm; [rewrite lookup_delete_eq, Hm; simpl; by rewrite lookup_empty |].
      by rewrite lookup_insert_eq. }
    unfold m. destruct (decide (id = id')) as [<-|Hne].
    + rewrite lookup_delete_eq. naive_solver.
    + rewrite lookup_delete_ne by done. destruct (d_peerPathMap d !! peer); simpl; [naive_solver |].
      rewrite lookup_empty. naive_solver.
  - assert ((if bool_decide (m = ∅) then delete peer (d_peerPathMap d) else <[peer := m]> (d_peerPathMap d)) !! peer'
      = d_peerPathMap d !! peer') as ->.
    { case_bool_decide; [by rewrite lookup_delete_ne | by rewrite lookup_insert_ne]. }
    naive_solver.
Qed.

(** What a selection and the bookkeeping around a change leave alone. *)
Record same_rows (d d' : Destination) : Prop := {
  same_paths : forall k p, current d' k p <-> current d k p;
  same_map : d_pathRouteMap d' = d_pathRouteMap d;
  same_shown : d_Paths d' = d_Paths d;
  same_infos : d_PathInfoRouteMap d' = d_PathInfoRouteMap d;
  same_ids : d_pathIds d' = d_pathIds d;
  same_max : d_maxPathId d' = d_maxPathId d;
  same_next : d_nextRoute d' = d_nextRoute d;
  same_nlri : d_NLRI d' = d_NLRI d /\ d_protoFamily d' = d_protoFamily d;
  same_routes : forall r, (fun rt => (r_path rt, r_OutPathId rt, r_routeListIdx rt)) <$> d_routes d' !! r
    = (fun rt => (r_path rt, r_OutPathId rt, r_routeListIdx rt)) <$> d_routes d !! r;
}.

#[export] Instance same_rows_preorder : PreOrder same_rows.
Proof.
  split; [by constructor |]. intros d1 d2 d3 [] []. constructor; try congruence.
  - intros k p. by rewrite same_paths1.
  - intuition congruence.
Qed.

Lemma same_route d d' r rt : same_rows d d' -> d_routes d !! r = Some rt -> exists rt',
  d_routes d' !! r = Some rt' /\ r_path rt' = r_path rt /\ r_OutPathId rt' = r_OutPathId rt /\
  r_routeListIdx rt' = r_routeListIdx rt.
Proof.
  intros H Hr. pose proof (same_routes _ _ H r) as He. rewrite Hr in He. simpl in He.
  destruct (d_routes d' !! r) as [rt'|]; simplify_eq/=. by exists rt'.
Qed.
Lemma same_route_back d d' r rt' : same_rows d d' -> d_routes d' !! r = Some rt' -> exists rt,
  d_routes d !! r = Some rt /\ r_path rt' = r_path rt /\ r_OutPathId rt' = r_OutPathId rt /\
  r_routeListIdx rt' = r_routeListIdx rt.
Proof.
  intros H Hr. pose proof (same_routes _ _ H r) as He. rewrite Hr in He. simpl in He.
  destruct (d_routes d !! r) as [rt|]; simplify_eq/=. by exists rt.
Qed.

(** [ids_ok] is about the paths and identifiers of the routes only. *)
Definition route_ids (rt : Route) : ptr * Z := (r_path rt, r_OutPathId rt).
Lemma ids_ok_ext d d' :
  d_pathRouteMap d' = d_pathRouteMap d -> d_pathIds d' = d_pathIds d -> d_maxPathId d' = d_maxPathId d ->
  d_nextRoute d' = d_nextRoute d -> (forall r, route_ids <$> d_routes d' !! r = route_ids <$> d_routes d !! r) ->
  ids_ok d -> ids_ok d'.
Proof.
  intros Hpr Hids Hmax Hnext Hrt [Hr Hi Hf Hfr Hm].
  assert (Hback : forall r rt', d_routes d' !! r = Some rt' ->
    exists rt, d_routes d !! r = Some rt /\ route_ids rt = route_ids rt').
  { intros r rt' Hl. specialize (Hrt r). rewrite Hl in Hrt. destruct (d_routes d !! r) as [rt|]; simplify_eq/=.
    exists rt. unfold route_ids. split; congruence. }
  constructor; rewrite ?Hpr, ?Hids, ?Hmax, ?Hnext; try done.
  - intros p r Hp. destruct (Hr p r Hp) as (rt & Hl & ? & ? & ?). specialize (Hrt r). rewrite Hl in Hrt.
    destruct (d_routes d' !! r) as [rt'|]; simplify_eq/=. exists rt'.
    split; [done |]. split; [done |]. split; [lia | congruence].
  - intros p q r s rt st Hp Hq Hl Hl' He.
    destruct (Hback _ _ Hl) as (rt0 & Hl0 & [= _ ?]). destruct (Hback _ _ Hl') as (st0 & Hl0' & [= _ ?]).
    eapply (Hi p q r s rt0 st0); [done.. | congruence].
  - intros r [rt Hl]. destruct (Hback _ _ Hl) as (rt0 & ? & _). apply Hfr. by eexists.
Qed.
Lemma same_ids_ok d d' : same_rows d d' -> ids_ok d -> ids_ok d'.
Proof.
  intros H. apply ids_ok_ext; try apply H. intros r. pose proof (same_routes _ _ H r) as He.
  destruct (d_routes d' !! r), (d_routes d !! r); simplify_eq/=; [|done].
  unfold route_ids. congruence.
Qed.

Lemma same_rows_ok skip gap d d' : same_rows d d' -> rows_ok skip gap d -> rows_ok skip gap d'.
Proof.
  intros H [Hs Hi Ho]. pose proof H as [Hc Hpr Hsh Hinf _ _ _ _ _].
  constructor; rewrite ?Hpr, ?Hsh, ?Hinf.
  - intros k p Hk%Hc Hsk. destruct (Hs k p Hk Hsk) as (r & rt & i & ? & Hrt & ? & ? & ? & ?).
    destruct (same_route _ _ _ _ H Hrt) as (rt' & ? & ? & ? & ?).
    exists r, rt', i. split; [done |]. split; [done |]. split; [congruence | done].
  - intros k k' p Hk%Hc Hk'%Hc. by eapply Hi.
  - intros i r Hr Hg. destruct (Ho i r Hr Hg) as (k & p & rt & ? & ? & ? & Hrt & ?).
    destruct (same_route _ _ _ _ H Hrt) as (rt' & ? & ? & ? & ?).
    exists k, p, rt'. rewrite Hc. split; [done |]. split; [done |]. split; [done |]. split; [done | congruence].
Qed.

Lemma same_table_ok d d' : same_rows d d' -> table_ok d -> table_ok d'.
Proof. intros H [? ?]. split; [by eapply same_ids_ok | by eapply same_rows_ok]. Qed.

Create HintDb rows.
Lemma same_recalculate b d : same_rows d (set_d_recalculate b d). Proof. by constructor. Qed.
Lemma same_LocRibPath l d : same_rows d (set_d_LocRibPath l d). Proof. by constructor. Qed.
Lemma same_LocRibPathRoute l d : same_rows d (set_d_LocRibPathRoute l d). Proof. by constructor. Qed.
Lemma same_ecmpPaths m d : same_rows d (set_d_ecmpPaths m d). Proof. by constructor. Qed.
Lemma same_AddPaths l d : same_rows d (set_d_AddPaths l d). Proof. by constructor. Qed.
Lemma same_on_route f r d :
  (forall rt, (r_path (f rt), r_OutPathId (f rt), r_routeListIdx (f rt))
              = (r_path rt, r_OutPathId rt, r_routeListIdx rt)) ->
  same_rows d (on_route f r d).
Proof.
  intros H. constructor; try done. intros r'. unfold on_route. simpl.
  destruct (decide (r = r')) as [<-|Hne]; [|by rewrite lookup_alter_ne].
  rewrite lookup_alter_eq, <- option_fmap_compose. apply option_fmap_ext. intros rt. apply H.
Qed.
Lemma same_setAction a r d : same_rows d (on_route (setAction a) r d). Proof. by apply same_on_route. Qed.
Lemma same_SetBestPath b r d : same_rows d (on_route (SetBestPath b) r d). Proof. by apply same_on_route. Qed.
Lemma same_SetMultiPath b r d : same_rows d (on_route (SetMultiPath b) r d). Proof. by apply same_on_route. Qed.
Lemma same_SetAdditionalPath b r d : same_rows d (on_route (SetAdditionalPath b) r d).
Proof. by apply same_on_route. Qed.
#[export] Hint Resolve same_recalculate same_LocRibPath same_LocRibPathRoute same_ecmpPaths same_AddPaths
  same_setAction same_SetBestPath same_SetMultiPath same_SetAdditionalPath : rows.

(** *** Adding *)

Lemma NewRoute_fields mem fam path a i o rt :
  NewRoute mem fam path a i o = Ok rt -> r_path rt = path /\ r_OutPathId rt = o.
Proof.
  unfold NewRoute. intros H. apply bind_Ok_inv in H as (x & _ & H). apply bind_Ok_inv in H as (y & _ & H).
  by simplify_eq.
Qed.

Lemma same_mark_recalculate mem path d : same_rows d (mark_recalculate mem path d).
Proof. unfold mark_recalculate. destruct (d_LocRibPath d); [destruct (_ >=? _) |]; auto with rows; reflexivity. Qed.

(** The place a new route takes: that of the route it replaces, or the end of the list. *)
Definition place (gap : option nat) (d : Destination) : nat := default (length (d_Paths d)) gap.
Definition placed (gap : option nat) (r : rptr) (l : list rptr) : list rptr :=
  match gap with Some i => <[i := r]> l | None => l ++ [r] end.
Definition gap_index (gap : option nat) : Z := match gap with Some i => Z.of_nat i | None => -1 end.
Definition gap_ok (gap : option nat) (d : Destination) : Prop :=
  match gap with Some i => (i < length (d_Paths d))%nat | None => True end.

Lemma insert_path_eq mem peer id path gap d d' :
  ids_ok d -> d_maxPathId d < 2 ^ 32 - 1 -> gap_ok gap d ->
  insert_path mem peer id path (gap_index gap) d = Ok d' ->
  exists ids mx rt, let d1 := set_d_maxPathId mx (set_d_pathIds ids (mark_recalculate mem path d)) in
    ids_ok d1 /\ d_maxPathId d <= mx /\ r_path rt = path /\ 0 < r_OutPathId rt < mx /\
    r_OutPathId rt ∉ ids /\ unused (r_OutPathId rt) d1 /\
    d' = with_route peer id path rt (Z.of_nat (place gap d)) (placed gap (d_nextRoute d) (d_Paths d)) d1.
Proof.
  intros Hok Hmax Hgap H. unfold insert_path in H.
  pose proof (same_mark_recalculate mem path d) as H0. set (d0 := mark_recalculate mem path d) in *.
  destruct (getNextPathId_ok d0) as (i & ids & mx & Hget & Hok1 & Hi & Hids & Hun & Hle);
    [by eapply same_ids_ok | by rewrite (same_max _ _ H0) |].
  rewrite Hget in H. apply bind_Ok_inv in H as (rt & Hrt & H). apply NewRoute_fields in Hrt as [Hpath Hout].
  apply bind_Ok_inv in H as (x & Hx & H). simpl in Hx. rewrite (same_shown _ _ H0), (same_next _ _ H0) in Hx.
  exists ids, mx, rt. split; [done |]. rewrite Hout. rewrite (same_max _ _ H0) in Hle.
  split; [done |]. split; [done |]. split; [done |]. split; [done |]. split; [exact Hun |].
  destruct gap as [g|]; unfold gap_index, gap_ok, place, placed in *; simpl in *.
  - replace (Z.of_nat g =? -1) with false in Hx by lia. simpl in Hx. unfold SetPath in Hx.
    replace ((0 <=? Z.of_nat g) && (Z.of_nat g <? len (d_Paths d))) with true in Hx by (unfold len; lia).
    rewrite bind_Ok, Nat2Z.id in Hx. by simplify_eq.
  - by simplify_eq.
Qed.

Lemma setIdx_fields i rt : r_path (setIdx i rt) = r_path rt /\ r_OutPathId (setIdx i rt) = r_OutPathId rt /\
  r_routeListIdx (setIdx i rt) = i.
Proof. done. Qed.

(** A route with a new identifier, for a path that has no route, fills the gap. *)
Lemma with_route_ids peer id path rt idx paths d :
  ids_ok d -> r_path rt = path -> 0 < r_OutPathId rt < d_maxPathId d -> r_OutPathId rt ∉ d_pathIds d ->
  unused (r_OutPathId rt) d -> ids_ok (with_route peer id path rt idx paths d).
Proof.
  intros [Hr Hi Hf Hfr Hm] Hp Hout Hid Hun. set (r := d_nextRoute d).
  assert (Hnew : forall q s, d_pathRouteMap d !! q = Some s -> s <> r).
  { intros q s Hq ->. destruct (Hr q r Hq) as (st & Hst & _).
    assert (r < d_nextRoute d) by (apply Hfr; by eexists). unfold r in *. lia. }
  constructor; simpl; fold r; [| | done | | done].
  - intros q s [[<- <-]|[Hne Hq]]%lookup_insert_Some.
    + exists (setIdx idx rt). rewrite lookup_insert_eq. done.
    + destruct (Hr q s Hq) as (st & ? & ? & ? & ?). exists st.
      rewrite lookup_insert_ne by (intros ->; by eapply Hnew). done.
  - intros q q' s s' st st' [[<- <-]|[Hne Hq]]%lookup_insert_Some [[<- <-]|[Hne' Hq']]%lookup_insert_Some.
    + done.
    + rewrite lookup_insert_eq, lookup_insert_ne by (intros ->; by eapply Hnew).
      intros [= <-] Hst' He. exfalso. eapply (Hun _ _ _ Hq' Hst'). by rewrite <- He.
    + rewrite lookup_insert_eq, lookup_insert_ne by (intros ->; by eapply Hnew).
      intros Hst [= <-] He. exfalso. by eapply (Hun _ _ _ Hq Hst).
    + pose proof (Hnew _ _ Hq). pose proof (Hnew _ _ Hq'). rewrite !lookup_insert_ne by done. by eapply Hi.
  - intros s Hs. apply lookup_insert_is_Some in Hs as [<-|[_ Hs]]; [lia |].
    specialize (Hfr s Hs). fold r in Hfr. lia.
Qed.

Lemma with_route_rows peer id path rt gap d :
  ids_ok d -> rows_ok (Some (peer, id)) gap d -> gap_ok gap d ->
  (forall k, current d k path -> k = (peer, id)) ->
  rows_ok None None (with_route peer id path rt (Z.of_nat (place gap d)) (placed gap (d_nextRoute d) (d_Paths d)) d).
Proof.
  intros [Hr _ _ Hfr _] [Hs Hi Ho] Hg Honly. set (r := d_nextRoute d).
  assert (Hold : forall s, is_Some (d_routes d !! s) -> s <> r).
  { intros s Hss ->. specialize (Hfr r Hss). unfold r in Hfr. lia. }
  assert (Hplace : forall i s, placed gap r (d_Paths d) !! i = Some s <->
    (i = place gap d /\ s = r) \/ (i <> place gap d /\ Some i <> gap /\ d_Paths d !! i = Some s)).
  { intros i s. unfold placed, place, gap_ok in *. destruct gap as [g|]; simpl.
    - destruct (decide (i = g)) as [->|Hne].
      + rewrite list_lookup_insert_eq by done. naive_solver.
      + rewrite list_lookup_insert_ne by done. naive_solver.
    - rewrite lookup_snoc_Some. split.
      + intros [[Hl Hi']|[-> ->]]; [right; split; [lia | done] | by left].
      + intros [[-> ->]|(Hne & _ & Hl)]; [by right | left]. split; [by eapply lookup_lt_Some | done]. }
  assert (Hcur : forall k p, current (with_route peer id path rt (Z.of_nat (place gap d))
      (placed gap r (d_Paths d)) d) k p <-> (k = (peer, id) /\ p = path) \/ (k <> (peer, id) /\ current d k p)).
  { intros k p. apply (current_insert d). }
  constructor; simpl; fold r.
  - intros k p [[-> ->]|[Hk Hc]]%Hcur _.
    + exists r, (setIdx (Z.of_nat (place gap d)) rt), (place gap d). rewrite !lookup_insert_eq.
      split; [done |]. split; [done |]. split; [done |]. split; [done |]. split; [|done].
      apply Hplace. by left.
    + destruct (Hs k p Hc) as (s & st & i & Hp & Hst & Hidx & Hgap & Hl & Hinf); [by intros [= ->] |].
      exists s, st, i. assert (s <> r) by (apply Hold; by eexists).
      rewrite lookup_insert_ne by (intros <-; by apply Hk, Honly).
      rewrite !lookup_insert_ne by done.
      split; [done |]. split; [done |]. split; [done |]. split; [done |]. split; [|done].
      apply Hplace. right. split; [|done]. unfold place. destruct gap as [g|]; simpl.
      * by intros ->.
      * apply lookup_lt_Some in Hl. lia.
  - assert (Hpath : forall k, k <> (peer, id) -> ~ current d k path) by (intros k Hk Hc; by apply Hk, Honly).
    intros k k' p [[Hk Hp]|[Hk Hc]]%Hcur [[Hk' Hp']|[Hk' Hc']]%Hcur; [congruence | | | by eapply Hi];
      subst p; exfalso; by eapply Hpath.
  - intros i s Hl%Hplace _. destruct Hl as [[-> ->]|(Hne & Hgap & Hl)].
    + exists (peer, id), path, (setIdx (Z.of_nat (place gap d)) rt). rewrite !lookup_insert_eq.
      split; [apply Hcur; by left | done].
    + destruct (Ho i s Hl Hgap) as (k & p & st & Hc & Hk & Hp & Hst & Hidx).
      exists k, p, st. assert (Hkn : k <> (peer, id)) by (by intros ->).
      rewrite lookup_insert_ne by (intros <-; by apply Hkn, Honly).
      rewrite lookup_insert_ne by (intros <-; eapply Hold; [by eexists | done]).
      split; [apply Hcur; right; split; [by intros -> | done] | done].
Qed.

Lemma same_ensure peer d :
  same_rows d (set_d_peerPathMap (<[peer := default ∅ (d_peerPathMap d !! peer)]> (d_peerPathMap d)) d).
Proof.
  constructor; try done. intros [peer' id] p. unfold current, getPathForIP. simpl.
  destruct (decide (peer = peer')) as [<-|Hne]; [|by rewrite lookup_insert_ne].
  rewrite lookup_insert_eq. destruct (d_peerPathMap d !! peer); simpl; [done |]. by rewrite lookup_empty.
Qed.

Lemma forget_old_ok d k old :
  table_ok d -> current d k old ->
  exists i d1, forget_old old d = (Z.of_nat i, d1) /\ ids_ok d1 /\ rows_ok (Some k) (Some i) d1 /\
    (i < length (d_Paths d1))%nat /\ d_pathRouteMap d1 = d_pathRouteMap d /\
    d_maxPathId d1 = d_maxPathId d /\ (forall k p, current d1 k p <-> current d k p).
Proof.
  intros [Hids [Hs Hi Ho]] Hk.
  destruct (Hs k old Hk) as (r & rt & i & Hp & Hrt & Hidx & _ & Hl & Hinf); [done |].
  set (d1 := set_d_PathInfoRouteMap (delete r (d_PathInfoRouteMap d)) d).
  assert (Hdiff : forall k' q s, current d k' q -> d_pathRouteMap d !! q = Some s -> k' <> k -> s <> r).
  { intros k' q s Hc Hq Hne ->. apply Hne. apply (Hi k' k q); [done |].
    destruct (id_route d Hids q r Hq) as (st & Hst & <- & _).
    destruct (id_route d Hids old r Hp) as (st' & Hst' & <- & _). by simplify_eq. }
  assert (Hids1 : ids_ok d1) by (destruct Hids; by constructor).
  assert (Hrows1 : rows_ok (Some k) (Some i) d1).
  { constructor; simpl.
    - intros k' q Hc Hne. destruct (Hs k' q Hc) as (s & st & j & Hq & Hst & Hj & _ & Hlj & Hinfj); [done |].
      assert (Hsr : s <> r) by (eapply Hdiff; [exact Hc | done | congruence]).
      exists s, st, j. split; [done |]. split; [done |]. split; [done |].
      split; [|split; [done | by rewrite lookup_delete_ne]].
      intros [= ->]. rewrite Hl in Hlj. by simplify_eq.
    - done.
    - intros j s Hlj Hne. destruct (Ho j s Hlj) as (k' & q & st & Hc & _ & Hq & Hst & Hj); [done |].
      exists k', q, st. split; [done |]. split; [|done].
      intros [= ->]. assert (q = old) as -> by (unfold current in *; congruence). simplify_eq.
      rewrite Hidx in Hj. apply Nat2Z.inj in Hj. by subst j. }
  exists i, (if bool_decide (d_LocRibPath d1 = Some old) then set_d_LocRibPath None d1 else d1).
  assert (Hsame : same_rows d1 (if bool_decide (d_LocRibPath d1 = Some old) then set_d_LocRibPath None d1 else d1)).
  { case_bool_decide; [auto with rows | reflexivity]. }
  unfold forget_old. rewrite Hp, Hrt. cbn [fmap option_fmap option_map default]. rewrite Hidx.
  split; [done |]. split; [by eapply same_ids_ok |]. split; [by eapply same_rows_ok |].
  rewrite (same_shown _ _ Hsame), (same_map _ _ Hsame), (same_max _ _ Hsame).
  split; [by eapply lookup_lt_Some |]. split; [done |]. split; [done |].
  intros k' p. by rewrite (same_paths _ _ Hsame).
Qed.

Lemma insert_path_ok mem peer id path gap d d' :
  ids_ok d -> rows_ok (Some (peer, id)) gap d -> gap_ok gap d -> d_maxPathId d < 2 ^ 32 - 1 ->
  (forall k, current d k path -> k = (peer, id)) ->
  insert_path mem peer id path (gap_index gap) d = Ok d' ->
  table_ok d' /\ forall k p, current d' k p <-> (k = (peer, id) /\ p = path) \/ (k <> (peer, id) /\ current d k p).
Proof.
  intros Hids Hrows Hg Hmax Hnone H.
  destruct (insert_path_eq _ _ _ _ _ _ _ Hids Hmax Hg H) as (ids & mx & rt & H1 & Hle & Hp & Hout & Hnot & Hun & ->).
  pose proof (same_mark_recalculate mem path d) as Hs. set (d0 := mark_recalculate mem path d) in *.
  set (d1 := set_d_maxPathId mx (set_d_pathIds ids d0)) in *.
  assert (Hrows1 : rows_ok (Some (peer, id)) gap d1).
  { pose proof (same_rows_ok _ _ _ _ Hs Hrows) as [? ? ?]. by constructor. }
  assert (Hplace : place gap d = place gap d1) by (unfold place, d1; simpl; by rewrite (same_shown _ _ Hs)).
  assert (Hplaced : placed gap (d_nextRoute d) (d_Paths d) = placed gap (d_nextRoute d1) (d_Paths d1)).
  { unfold d1. simpl. by rewrite (same_shown _ _ Hs), (same_next _ _ Hs). }
  split; [split |].
  - by apply with_route_ids.
  - rewrite Hplace, Hplaced. apply with_route_rows; [done | done | | ].
    + unfold gap_ok, d1 in *. simpl. by rewrite (same_shown _ _ Hs).
    + intros k Hk. apply Hnone. by apply (same_paths _ _ Hs).
  - intros k p. transitivity ((k = (peer, id) /\ p = path) \/ (k <> (peer, id) /\ current d0 k p)).
    + apply (current_insert d0).
    + by rewrite (same_paths _ _ Hs).
Qed.

Lemma AddOrUpdatePath_ok mem peer id path d b d' :
  table_ok d -> d_maxPathId d < 2 ^ 32 - 1 -> (forall k, current d k path -> k = (peer, id)) ->
  AddOrUpdatePath mem peer id path d = Ok (b, d') ->
  table_ok d' /\ (forall k p, current d' k p <-> (k = (peer, id) /\ p = path) \/ (k <> (peer, id) /\ current d k p)) /\
  b = bool_decide (getPathForIP peer id d = None).
Proof.
  intros Hok Hmax Hnone H. unfold AddOrUpdatePath in H.
  pose proof (same_ensure peer d) as Hs.
  set (d0 := set_d_peerPathMap _ d) in *. pose proof (same_table_ok _ _ Hs Hok) as Hok0.
  assert (Hget : default ∅ (d_peerPathMap d !! peer) !! id = getPathForIP peer id d).
  { unfold getPathForIP. destruct (d_peerPathMap d !! peer); simpl; [done | by rewrite lookup_empty]. }
  rewrite Hget in H. destruct (getPathForIP peer id d) as [old|] eqn:Hold.
  - assert (Hcur : current d0 (peer, id) old) by by apply (same_paths _ _ Hs).
    destruct (Z.eqb_spec old path) as [->|Hne].
    { simplify_eq. split; [done |]. split; [|done]. intros k p. rewrite (same_paths _ _ Hs). split.
      - intros Hk. destruct (decide (k = (peer, id))) as [->|]; [|by right]. unfold current in Hk. simpl in Hk.
        rewrite Hold in Hk. by simplify_eq; left.
      - intros [[-> ->]|[_ Hk]]; done. }
    destruct (forget_old_ok d0 _ _ Hok0 Hcur) as (i & d1 & Hf & Hids1 & Hrows1 & Hi & Hm1 & Hmx1 & Hc1).
    rewrite Hf in H. apply bind_Ok_inv in H as (d2 & H & Heq). simplify_eq.
    destruct (insert_path_ok mem peer id path (Some i) d1 d' Hids1 Hrows1 Hi) as [Hok2 Hc2];
      [by rewrite Hmx1, (same_max _ _ Hs) | intros k Hk; apply Hnone; by apply (same_paths _ _ Hs), Hc1 | exact H |].
    split; [done |]. split; [|done]. intros k p. by rewrite Hc2, Hc1, (same_paths _ _ Hs).
  - apply bind_Ok_inv in H as (d2 & H & Heq). simplify_eq.
    destruct (insert_path_ok mem peer id path None d0 d' (proj1 Hok0)) as [Hok2 Hc2];
      [| done | by rewrite (same_max _ _ Hs) | intros k Hk; apply Hnone; by apply (same_paths _ _ Hs) | exact H |].
    + destruct (proj2 Hok0) as [Hsh Hi Ho]. constructor; [| done |].
      * intros k p Hk _. by eapply (Hsh k p).
      * intros i r Hl _. destruct (Ho i r Hl) as (k & p & rt & Hc & _ & Hrest); [done |].
        exists k, p, rt. split; [done |]. split; [|done]. intros [= ->].
        apply (same_paths _ _ Hs) in Hc. unfold current in Hc. simpl in Hc. by rewrite Hold in Hc.
    + split; [done |]. split; [|done]. intros k p. by rewrite Hc2, (same_paths _ _ Hs).
Qed.

(** *** Removing *)

(** The last row takes the place of the one that is removed. *)
Lemma swap_remove_lookup {A} (l : list A) (x : A) i j s :
  last l = Some x -> (i < length l)%nat ->
  take (length l - 1) (<[i:=x]> l) !! j = Some s <->
  (j < length l - 1)%nat /\ ((j = i /\ s = x) \/ (j <> i /\ l !! j = Some s)).
Proof.
  intros Hl Hi. destruct (decide (j < length l - 1)%nat) as [Hj|Hj].
  - rewrite lookup_take_lt by done. destruct (decide (j = i)) as [->|Hne].
    + rewrite list_lookup_insert_eq by done. naive_solver.
    + rewrite list_lookup_insert_ne by done. naive_solver.
  - rewrite lookup_take_ge by lia. naive_solver.
Qed.

(** The owner of a row is determined by its route. *)
Lemma row_index d k p r rt i j :
  table_ok d -> current d k p -> d_pathRouteMap d !! p = Some r -> d_routes d !! r = Some rt ->
  r_routeListIdx rt = Z.of_nat i -> d_Paths d !! j = Some r -> j = i.
Proof.
  intros [Hids [_ _ Ho]] Hc Hp Hrt Hi Hl. destruct (Ho j r Hl) as (_ & q & st & _ & _ & _ & Hst & Hj); [done |].
  simplify_eq. lia.
Qed.

Lemma remove_shown_ok d k old r rt i d2 :
  table_ok d -> current d k old -> d_pathRouteMap d !! old = Some r -> d_routes d !! r = Some rt ->
  r_routeListIdx rt = Z.of_nat i -> d_Paths d !! i = Some r ->
  d_Paths d2 = d_Paths d -> d_PathInfoRouteMap d2 = d_PathInfoRouteMap d ->
  exists x, last (d_Paths d) = Some x /\
    remove_shown r (Z.of_nat i) d2 = Ok (on_route (setIdx (Z.of_nat i)) x
      (set_d_Paths (take (length (d_Paths d) - 1) (<[i := x]> (d_Paths d)))
        (set_d_PathInfoRouteMap (delete r (d_PathInfoRouteMap d)) d2))).
Proof.
  intros [Hids [Hs _ Ho]] Hc Hp Hrt Hi Hl Hsh Hinf.
  pose proof (lookup_lt_Some _ _ _ Hl) as Hlt.
  destruct (last (d_Paths d)) as [x|] eqn:Hx; [|apply last_None in Hx; rewrite Hx in Hl; done].
  exists x. split; [done |].
  assert (HxI : d_PathInfoRouteMap d !! x = Some x).
  { pose proof Hx as Hx'. rewrite last_lookup in Hx'. destruct (Ho _ _ Hx') as (k' & q & st & Hc' & _ & Hq & _); [done |].
    destruct (Hs k' q Hc') as (s & ? & ? & Hq' & _ & _ & _ & _ & HI); [done |]. by simplify_eq. }
  unfold remove_shown. rewrite Hsh, Hx, Hinf, HxI. replace (Z.of_nat i =? -1) with false by lia.
  simpl. rewrite Hsh. unfold RemovePathAndSetLast, len.
  replace (Z.of_nat i <? Z.of_nat (length (d_Paths d))) with true by lia.
  replace (Z.of_nat i <? 0) with false by lia. rewrite Hx, bind_Ok, Nat2Z.id. done.
Qed.

(** What [RemovePath] leaves: [x] is the route of the last row, which is now shown at [i]. *)
Definition removed (r x : rptr) (old : ptr) (i : nat) (ids : list Z) (mx : Z) (d : Destination) : Destination :=
  on_route (setIdx (Z.of_nat i)) x
    (set_d_Paths (take (length (d_Paths d) - 1) (<[i := x]> (d_Paths d)))
      (set_d_PathInfoRouteMap (delete r (d_PathInfoRouteMap d))
        (set_d_pathRouteMap (delete old (d_pathRouteMap d)) (set_d_maxPathId mx (set_d_pathIds ids d))))).

Lemma removed_rows d peer id old r rt i x ids mx :
  table_ok d -> current d (peer, id) old -> d_pathRouteMap d !! old = Some r -> d_routes d !! r = Some rt ->
  r_routeListIdx rt = Z.of_nat i -> d_Paths d !! i = Some r -> last (d_Paths d) = Some x ->
  rows_ok None None (delete_peer_path peer id (removed r x old i ids mx d)).
Proof.
  intros Hok Hc Hp Hrt Hi Hl Hx. pose proof Hok as [Hids [Hs Hinj Ho]].
  pose proof (lookup_lt_Some _ _ _ Hl) as Hlt. pose proof Hx as Hxl. rewrite last_lookup in Hxl.
  assert (Hcur : forall k p, current (delete_peer_path peer id (removed r x old i ids mx d)) k p <->
    k <> (peer, id) /\ current d k p) by (intros; apply (current_delete d)).
  assert (Hlook : forall j s, d_Paths (delete_peer_path peer id (removed r x old i ids mx d)) !! j = Some s <->
    (j < length (d_Paths d) - 1)%nat /\ ((j = i /\ s = x) \/ (j <> i /\ d_Paths d !! j = Some s)))
    by (intros; simpl; by apply swap_remove_lookup).
  assert (Hne : forall k q s, k <> (peer, id) -> current d k q -> d_pathRouteMap d !! q = Some s -> q <> old /\ s <> r).
  { intros k q s Hk Hq Hqs. assert (q <> old) by (intros ->; by apply Hk, (Hinj _ _ old)). split; [done |].
    intros ->. destruct (id_route d Hids q r Hqs) as (? & ? & ? & _).
    destruct (id_route d Hids old r Hp) as (? & ? & ? & _). congruence. }
  constructor; [| |]; cbn [d_pathRouteMap d_routes d_PathInfoRouteMap delete_peer_path set_d_peerPathMap removed
    on_route set_d_routes set_d_Paths set_d_PathInfoRouteMap set_d_pathRouteMap set_d_maxPathId set_d_pathIds].
  - intros k q [Hk Hq]%Hcur _. destruct (Hs k q Hq) as (s & st & j & Hqs & Hst & Hj & _ & Hlj & HI); [done |].
    destruct (Hne k q s Hk Hq Hqs) as [Hqo Hsr].
    assert (Hji : j <> i) by (intros ->; congruence).
    destruct (decide (s = x)) as [->|Hsx].
    + assert (j = length (d_Paths d) - 1)%nat by (symmetry; eapply row_index; eauto; by rewrite <- Hxl; f_equal; lia).
      exists x, (setIdx (Z.of_nat i) st), i. rewrite lookup_delete_ne, lookup_alter_eq, Hst by done.
      split; [done |]. split; [done |]. split; [done |]. split; [done |].
      split; [apply Hlook; split; [apply lookup_lt_Some in Hlj; lia | by left] | by rewrite lookup_delete_ne].
    + exists s, st, j. rewrite lookup_delete_ne, lookup_alter_ne by done.
      split; [done |]. split; [done |]. split; [done |]. split; [done |].
      split; [apply Hlook; split; [|by right] | by rewrite lookup_delete_ne].
      apply lookup_lt_Some in Hlj as Hlj'. destruct (decide (j = pred (length (d_Paths d)))) as [->|]; [congruence | lia].
  - intros k k' q [_ Hq]%Hcur [_ Hq']%Hcur. by eapply Hinj.
  - intros j s [Hj Hjs]%Hlook _. destruct Hjs as [[-> ->]|[Hji Hjl]].
    + destruct (Ho _ _ Hxl) as (k & q & st & Hq & _ & Hqs & Hst & Hidx); [done |].
      assert (k <> (peer, id)).
      { intros ->. assert (q = old) as -> by (unfold current in *; congruence). simplify_eq. lia. }
      destruct (Hne k q x) as [Hqo Hxr]; [done.. |].
      exists k, q, (setIdx (Z.of_nat i) st). rewrite lookup_delete_ne, lookup_alter_eq, Hst by done.
      split; [by apply Hcur | done].
    + destruct (Ho _ _ Hjl) as (k & q & st & Hq & _ & Hqs & Hst & Hidx); [done |].
      assert (k <> (peer, id)).
      { intros ->. assert (q = old) as -> by (unfold current in *; congruence). simplify_eq. lia. }
      destruct (Hne k q s) as [Hqo Hsr]; [done.. |].
      assert (s <> x).
      { intros ->. assert (pred (length (d_Paths d)) = j) by (eapply row_index; eauto). lia. }
      exists k, q, st. rewrite lookup_delete_ne, lookup_alter_ne by done. split; [by apply Hcur | done].
Qed.

Lemma RemovePath_ok peer id d :
  table_ok d -> exists d', RemovePath peer id d = Ok (getPathForIP peer id d, d') /\
    table_ok d' /\ forall k p, current d' k p <-> k <> (peer, id) /\ current d k p.
Proof.
  intros Hok. unfold RemovePath. destruct (getPathForIP peer id d) as [old|] eqn:Hold; cycle 1.
  { exists d. split; [done |]. split; [done |]. intros k p. split; [|by intros []].
    intros Hc. split; [|done]. intros ->. unfold current in Hc. simpl in Hc. congruence. }
  set (d1 := if bool_decide (d_LocRibPath _ = _) then _ else _).
  assert (Hsame : same_rows d d1).
  { unfold d1. destruct (d_ecmpPaths d !! old); simpl; case_bool_decide; try reflexivity;
      repeat (etransitivity; [|auto with rows; fail]); auto with rows; reflexivity. }
  pose proof (same_table_ok _ _ Hsame Hok) as Hok1.
  assert (Hc : current d1 (peer, id) old) by by apply (same_paths _ _ Hsame).
  destruct (row_shown _ _ _ (proj2 Hok1) _ _ Hc) as (r & rt & i & Hp & Hrt & Hi & _ & Hl & HI); [done |].
  rewrite Hp. simpl. rewrite Hrt. simpl.
  destruct (releasePathId_ok _ _ _ _ (proj1 Hok1) Hp Hrt) as (ids & mx & -> & Hids).
  cbn [d_pathRouteMap set_d_maxPathId set_d_pathIds]. rewrite Hi.
  edestruct (remove_shown_ok d1) as (x & Hx & Heq);
    [exact Hok1 | exact Hc | exact Hp | exact Hrt | exact Hi | exact Hl | | | rewrite Heq, bind_Ok]; [done.. |].
  eexists. split; [reflexivity |]. split; [split |].
  - eapply ids_ok_ext; [.. | exact Hids]; try done. intros s. simpl.
    destruct (decide (s = x)) as [->|]; [|by rewrite lookup_alter_ne].
    rewrite lookup_alter_eq. by destruct (d_routes d1 !! x).
  - by eapply (removed_rows d1).
  - intros k p. transitivity (k <> (peer, id) /\ current d1 k p); [apply (current_delete d1) |].
    by rewrite (same_paths _ _ Hsame).
Qed.

(** *** Selecting *)

Lemma same_trans d1 d2 d3 : same_rows d1 d2 -> same_rows d2 d3 -> same_rows d1 d3.
Proof. apply same_rows_preorder. Qed.
Lemma same_refl d : same_rows d d. Proof. reflexivity. Qed.
#[export] Hint Resolve same_refl : rows.

(** Peels one change after the other off the second state. *)
Ltac rows := repeat match goal with
  | |- same_rows ?d ?d => reflexivity
  | |- same_rows _ (if ?b then _ else _) => destruct b
  | |- same_rows _ _ => first
      [ by eauto with rows
      | eapply same_trans; [|apply same_recalculate] | eapply same_trans; [|apply same_LocRibPath]
      | eapply same_trans; [|apply same_LocRibPathRoute] | eapply same_trans; [|apply same_ecmpPaths]
      | eapply same_trans; [|apply same_AddPaths] | eapply same_trans; [|apply same_setAction]
      | eapply same_trans; [|apply same_SetBestPath] | eapply same_trans; [|apply same_SetMultiPath]
      | eapply same_trans; [|apply same_SetAdditionalPath] ]
  end.

Lemma same_fold_left {A} (f : Destination -> A -> Destination) l d :
  (forall d x, same_rows d (f d x)) -> same_rows d (fold_left f l d).
Proof.
  intros Hf. revert d. induction l as [|x l IH]; intros d; simpl; [reflexivity |].
  etransitivity; [apply Hf | apply IH].
Qed.
Lemma same_foldr {A} (f : A -> Destination -> Destination) l d :
  (forall d x, same_rows d (f x d)) -> same_rows d (foldr f d l).
Proof.
  intros Hf. induction l as [|x l IH]; simpl; [reflexivity |]. etransitivity; [exact IH | apply Hf].
Qed.

Lemma updateAddPaths_same l d : same_rows d (updateAddPaths l d).2.
Proof.
  unfold updateAddPaths. case_bool_decide; [reflexivity |]. simpl.
  etransitivity; [|apply same_fold_left]; [|intros d' p; destruct (d_pathRouteMap d' !! p); rows].
  eapply same_trans; [|apply same_AddPaths]. apply same_fold_left.
  intros d' p. destruct (d_pathRouteMap d' !! p); rows.
Qed.

Lemma install_group_same mem idx paths s s' :
  install_group mem idx paths s = Ok s' -> same_rows (in_dest s) (in_dest s').
Proof.
  unfold install_group. destruct (list_find _ _) as [[n p]|].
  - intros [= <-]. simpl. rows.
  - destruct paths as [|p paths]; [done |]. destruct (d_pathRouteMap _ !! p); [|by intros [= <-]].
    intros H. apply bind_Ok_inv in H as (c & _ & [= <-]). simpl. rows.
Qed.
Lemma install_groups_same mem idx groups s s' :
  install_groups mem idx groups s = Ok s' -> same_rows (in_dest s) (in_dest s').
Proof.
  revert idx s. induction groups as [|g groups IH]; intros idx s; simpl; [by intros [= <-] |].
  intros H. apply bind_Ok_inv in H as (s1 & H1 & H2).
  etransitivity; [by eapply install_group_same | by eapply IH].
Qed.

Lemma uninstall_same mem paths d dl tr d' dl' tr' :
  uninstall mem paths d dl tr = Ok (d', dl', tr') -> same_rows d d'.
Proof.
  revert d dl tr. induction paths as [|p paths IH]; intros d dl tr; simpl; [by intros [= <- _ _] |].
  destruct (d_ecmpPaths d !! p) as [r|]; [|apply IH].
  destruct (r_action <$> d_routes d !! r) as [[]|]; intros H.
  all: try (apply bind_Ok_inv in H as (? & _ & H)).
  all: apply IH in H; (etransitivity; [|exact H]); rows.
Qed.

Lemma SelectRouteForLocRib_same mem rangeS rangeZ gosort gConf n d sel :
  SelectRouteForLocRib mem rangeS rangeZ gosort gConf n d = Ok sel -> same_rows d (sel_dest sel).
Proof.
  unfold SelectRouteForLocRib. destruct (d_recalculate d); simpl; [|by intros [= <-]].
  set (d0 := set_d_recalculate false d). assert (H0 : same_rows d d0) by rows.
  destruct (match d_LocRibPath d with Some l => _ | None => _ end) as [src us].
  intros H. apply bind_Ok_inv in H as ([us' rs] & _ & H). apply bind_Ok_inv in H as ([b s] & Hc & H).
  apply bind_Ok_inv in H as ([[d' dl] tr] & Hu & H). apply bind_Ok_inv in H as (tr' & _ & [= <-]). simpl.
  apply uninstall_same in Hu. etransitivity; [exact H0 |]. etransitivity; [|exact Hu].
  destruct us' as [|u us'].
  - injection Hc as _ <-. simpl. rows. apply same_foldr. intros; rows.
  - unfold choose_paths in Hc. apply bind_Ok_inv in Hc as ([[up ec] ap] & _ & Hc).
    pose proof (updateAddPaths_same ap d0) as Ha. destruct (updateAddPaths ap d0) as [m d1]. simpl in Ha.
    destruct up as [|best up]; [done |]. apply bind_Ok_inv in Hc as (s1 & Hi & [= _ <-]). simpl.
    apply install_groups_same in Hi. simpl in Hi. rows. by etransitivity.
Qed.
