(* ===== verification/BgpDestSpec.v ===== *)
(** What a destination of the RIB promises: its paths are a table by peer and path identifier, and
    the list shown to the operator and the identifiers given to peers follow it; which paths the
    selection considers and what it announces. *)
From stdpp Require Import base numbers list gmap strings sorting relations.
From Stdlib Require Import ZArith Lia.
From S2P Require Import Prelude GoNet BgpBase BgpNlri BgpAttrs BgpHelpers BgpPath BgpPathFacts BgpDest BgpDestFacts.
Open Scope Z_scope.

(** ** The specification: a table of paths *)

Inductive TableOp :=
  | OpAdd (peer : string) (id : Z) (path : ptr)
  | OpRemove (peer : string) (id : Z)
  | OpSelect.
Abbreviation Table := (gmap (string * Z) ptr).
Definition apply_op (op : TableOp) (m : Table) : Table :=
  match op with
  | OpAdd peer id path => <[(peer, id) := path]> m
  | OpRemove peer id => delete (peer, id) m
  | OpSelect => m
  end.

(** What is observed of an operation: whether the path was new, and the path removed. *)
Inductive TableObs := Added (new : bool) | Removed (old : option ptr) | Selected.
Definition observe (op : TableOp) (m : Table) : TableObs :=
  match op with
  | OpAdd peer id _ => Added (bool_decide (m !! (peer, id) = None))
  | OpRemove peer id => Removed (m !! (peer, id))
  | OpSelect => Selected
  end.

Definition implements (d : Destination) (m : Table) : Prop :=
  table_ok d /\ forall k, m !! k = getPathForIP k.1 k.2 d.

(** One operation of the code. A [*Path] is added under one peer and path identifier only, and there are less than 2^32 - 1 identifiers in use. *)
Inductive table_step (mem : ptr -> Path) : TableOp -> TableObs -> Destination -> Destination -> Prop :=
  | step_add peer id path d b d' :
      d_maxPathId d < 2 ^ 32 - 1 -> (forall k, current d k path -> k = (peer, id)) ->
      AddOrUpdatePath mem peer id path d = Ok (b, d') -> table_step mem (OpAdd peer id path) (Added b) d d'
  | step_remove peer id d p d' :
      RemovePath peer id d = Ok (p, d') -> table_step mem (OpRemove peer id) (Removed p) d d'
  | step_select rangeS rangeZ gosort gConf n d sel :
      SelectRouteForLocRib mem rangeS rangeZ gosort gConf n d = Ok sel ->
      table_step mem OpSelect Selected d (sel_dest sel).

Lemma implements_new nlri fam : implements (NewDestination nlri fam) ∅.
Proof. split; [apply NewDestination_ok |]. intros k. unfold getPathForIP. simpl. by rewrite !lookup_empty. Qed.

Lemma implements_eq d d' m m' :
  table_ok d' -> implements d m ->
  (forall k, (forall p, current d' k p <-> m' !! k = Some p)) -> implements d' m'.
Proof.
  intros Hok _ H. split; [done |]. intros k. apply option_eq. intros p. symmetry. apply H.
Qed.

Lemma implements_step mem op o d d' m :
  implements d m -> table_step mem op o d d' -> implements d' (apply_op op m) /\ o = observe op m.
Proof.
  intros Hm Hs. pose proof Hm as [Hok Hl]. destruct Hs as [peer id path d b d' Hmax Hn H|peer id d p d' H|?????? sel H]; simpl.
  - destruct (AddOrUpdatePath_ok _ _ _ _ _ _ _ Hok Hmax Hn H) as (Hok' & Hc & ->).
    split; [|f_equal; by rewrite (Hl (peer, id))].
    apply (implements_eq d d' m); [done.. |]. intros k p. rewrite Hc, lookup_insert_Some, Hl. unfold current.
    naive_solver.
  - destruct (RemovePath_ok peer id d Hok) as (d'' & H' & Hok' & Hc). rewrite H in H'. simplify_eq.
    split; [|f_equal; by rewrite (Hl (peer, id))].
    apply (implements_eq d d'' m); [done.. |]. intros k p. rewrite Hc, lookup_delete_Some, Hl. unfold current.
    naive_solver.
  - split; [|done]. pose proof (SelectRouteForLocRib_same _ _ _ _ _ _ _ _ H) as Hsame.
    apply (implements_eq d (sel_dest sel) m); [by eapply same_table_ok | done |].
    intros k p. rewrite (same_paths _ _ Hsame), Hl. done.
Qed.

Lemma implements_reachable mem nlri fam d :
  rtc (fun d d' => exists op o, table_step mem op o d d') (NewDestination nlri fam) d -> exists m, implements d m.
Proof.
  intros H. assert (Hinit : exists m, implements (NewDestination nlri fam) m) by (eexists; apply implements_new).
  revert Hinit. induction H as [|d d1 d2 (op & o & Hs) _ IH]; [done |].
  intros [m Hm]. apply IH. exists (apply_op op m). by eapply implements_step.
Qed.

(** A path without a route is nobody's. *)
Lemma unrouted_only d path k : table_ok d -> d_pathRouteMap d !! path = None -> forall k', current d k' path -> k' = k.
Proof.
  intros Hok Hn k' Hc. destruct (row_shown _ _ _ (proj2 Hok) k' path Hc) as (? & ? & ? & Hp & _); [done |].
  by rewrite Hn in Hp.
Qed.

(** ** What identifiers cost *)

(** The identifiers given and not given back. *)
Definition in_use (d : Destination) : Z := d_maxPathId d - 1 - len (d_pathIds d).

Lemma getNextPathId_in_use d i d' :
  d_maxPathId d < 2 ^ 32 - 1 -> 0 < d_maxPathId d -> getNextPathId d = (i, d') -> in_use d' = in_use d + 1.
Proof.
  unfold getNextPathId, in_use. intros Hm Hp.
  assert (u32 (d_maxPathId d + 1) = d_maxPathId d + 1) as -> by (apply u32_id; unfold is_u32; lia).
  destruct (last (d_pathIds d)) eqn:Hl; intros [= <- <-]; simpl; [|lia].
  apply last_Some in Hl as [l ->]. unfold len. rewrite length_take, length_app. simpl. lia.
Qed.

Lemma same_in_use d d' : same_rows d d' -> in_use d' = in_use d.
Proof. intros H. unfold in_use. by rewrite (same_max _ _ H), (same_ids _ _ H). Qed.

Lemma insert_path_in_use mem peer id path idx d d' :
  d_maxPathId d < 2 ^ 32 - 1 -> 0 < d_maxPathId d ->
  insert_path mem peer id path idx d = Ok d' -> in_use d' = in_use d + 1.
Proof.
  intros Hm Hp H. unfold insert_path in H. pose proof (same_mark_recalculate mem path d) as Hs.
  rewrite <- (same_in_use _ _ Hs). rewrite <- (same_max _ _ Hs) in Hm, Hp.
  destruct (getNextPathId (mark_recalculate mem path d)) as [i d1] eqn:Hg.
  apply getNextPathId_in_use in Hg; [|done..]. rewrite <- Hg.
  apply bind_Ok_inv in H as (rt & _ & H). apply bind_Ok_inv in H as ([j ps] & _ & [= <-]). done.
Qed.

(** ** What a selection considers and announces *)

Section selection.
Context (mem : ptr -> Path) (protoFamily : Z) (locRibPath : option ptr).

(** A path that takes part besides the one selected before. *)
Definition eligible (p : ptr) : bool :=
  negb (bool_decide (locRibPath = Some p)) && IsReachable (mem p) protoFamily &&
  match Path_HasASLoop (mem p) with Ok b => negb b | _ => false end.

Definition least_source (src : Z) (ps : list ptr) : Z := foldr (fun p m => Z.min (source mem p) m) src ps.

Lemma least_source_snoc src ps p : least_source src (ps ++ [p]) = Z.min (source mem p) (least_source src ps).
Proof.
  unfold least_source. rewrite foldr_app. simpl. induction ps as [|q ps IH]; simpl; [lia |]. rewrite IH. lia.
Qed.
Lemma least_source_le src ps : least_source src ps <= src /\ Forall (fun p => least_source src ps <= source mem p) ps.
Proof.
  induction ps as [|p ps [IH1 IH2]]; simpl; [split; [lia | constructor] |].
  split; [lia |]. constructor; [lia |]. eapply Forall_impl; [exact IH2 |]. simpl. lia.
Qed.

(** The loop keeps, of what it has seen, the paths of the best source. *)
Lemma select_source_spec paths : forall src seen removed,
  Forall (fun p => exists b, Path_HasASLoop (mem p) = Ok b) paths ->
  (removed ≡ₚ filter (fun p => source mem p <> least_source src seen) seen) ->
  exists removed',
    select_source mem locRibPath protoFamily paths (least_source src seen)
      (filter (fun p => source mem p = least_source src seen) seen) removed
    = Ok (filter (fun p => source mem p = least_source src (seen ++ filter eligible paths))
            (seen ++ filter eligible paths), removed') /\
    removed' ≡ₚ filter (fun p => source mem p <> least_source src (seen ++ filter eligible paths))
            (seen ++ filter eligible paths).
Proof.
  induction paths as [|p paths IH]; intros src seen removed Hl Hr.
  { exists removed. by rewrite app_nil_r. }
  apply Forall_cons in Hl as [[b Hb] Hl]. simpl select_source.
  destruct (bool_decide (locRibPath = Some p) || negb (IsReachable (mem p) protoFamily)) eqn:Hskip.
  { rewrite filter_cons_False; [by apply IH |]. unfold eligible. rewrite Is_true_true.
    apply orb_true_iff in Hskip as [->| Hn%negb_true_iff]; [done |]. by rewrite Hn, andb_false_r. }
  apply orb_false_iff in Hskip as [Hn Hre]. apply negb_false_iff in Hre. rewrite Hb, bind_Ok.
  destruct b.
  { rewrite filter_cons_False; [by apply IH |]. unfold eligible. rewrite Is_true_true. by rewrite Hb, andb_false_r. }
  assert (He : eligible p) by (unfold eligible; by rewrite Hn, Hre, Hb).
  rewrite filter_cons_True by done.
  set (m := least_source src seen) in *. pose proof (least_source_snoc src seen p) as Hm. fold m in Hm.
  destruct (least_source_le src seen) as [_ Hle]. fold m in Hle.
  assert (Hnext : forall m' kept rem, m' = least_source src (seen ++ [p]) ->
    kept = filter (fun q => source mem q = m') (seen ++ [p]) ->
    rem ≡ₚ filter (fun q => source mem q <> m') (seen ++ [p]) ->
    exists removed', select_source mem locRibPath protoFamily paths m' kept rem
      = Ok (filter (fun q => source mem q = least_source src (seen ++ p :: filter eligible paths))
              (seen ++ p :: filter eligible paths), removed') /\
      removed' ≡ₚ filter (fun q => source mem q <> least_source src (seen ++ p :: filter eligible paths))
              (seen ++ p :: filter eligible paths)) 
    by (intros ? ? rem -> -> Hrem; specialize (IH src (seen ++ [p]) rem Hl Hrem); by rewrite <- app_assoc in IH).
  rewrite Z.gtb_ltb. destruct (Z.ltb_spec m (source mem p)) as [Hgt|Hge].
  - apply Hnext; [lia | |].
    + rewrite filter_app, (filter_cons_False _ p), filter_nil, app_nil_r by lia. done.
    + rewrite filter_app, Hr, (filter_cons_True _ p), filter_nil by lia. done.
  - destruct (Z.ltb_spec (source mem p) m) as [Hlt|Hge'].
    + apply Hnext; [lia | |].
      * rewrite filter_app, (filter_cons_True _ p), filter_nil, filter_none by done || (eapply Forall_impl; [exact Hle |]; simpl; lia).
        done.
      * rewrite filter_app, (filter_cons_False _ p), filter_nil, app_nil_r by naive_solver.
        rewrite (filter_Forall (fun q => source mem q <> source mem p) seen) by (eapply Forall_impl; [exact Hle |]; simpl; lia).
        rewrite Hr, Permutation_app_comm. apply filter_app_complement.
    + apply Hnext; [lia | |].
      * rewrite filter_app, (filter_cons_True _ p), filter_nil by lia. done.
      * rewrite filter_app, Hr, (filter_cons_False _ p), filter_nil, app_nil_r by lia. done.
Qed.
End selection.

(** The group of [item] and [item] in it come first. *)
Lemma find_group_lookup item : forall gs k i j,
  find_group item k gs = Some (i, j) -> (k <= i)%nat.
Proof.
  induction gs as [|g gs IH]; intros k i j H; [done |]. simpl in H.
  destruct (list_find (eq item) g) as [[j' x]|]; [simplify_eq; lia |]. apply IH in H. lia.
Qed.
Lemma removeAndPrepend_head gs item : exists rest groups, removeAndPrepend gs item = (item :: rest) :: groups.
Proof. unfold removeAndPrepend. destruct (find_group item 0 gs) as [[i j]|]; by repeat eexists. Qed.

Lemma install_group_action mem idx paths s s' :
  idx <> 0%nat -> install_group mem idx paths s = Ok s' -> in_action s' = in_action s.
Proof.
  intros Hi. unfold install_group. replace (idx =? 0)%nat with false by (symmetry; by apply Nat.eqb_neq).
  destruct (list_find _ _) as [[k p]|]; [by intros [= <-] |].
  destruct paths as [|p paths]; [done |]. destruct (d_pathRouteMap _ !! p); [|by intros [= <-]].
  intros H. by apply bind_Ok_inv in H as (c & _ & [= <-]).
Qed.
Lemma install_groups_action mem groups : forall idx s s',
  idx <> 0%nat -> install_groups mem idx groups s = Ok s' -> in_action s' = in_action s.
Proof.
  induction groups as [|g groups IH]; intros idx s s' Hi; simpl; [by intros [= <-] |].
  intros H. apply bind_Ok_inv in H as (s1 & H1 & H2).
  transitivity (in_action s1); [by eapply (IH (S idx)) | by eapply install_group_action].
Qed.

Lemma updateAddPaths_ecmp l d : d_ecmpPaths (updateAddPaths l d).2 = d_ecmpPaths d.
Proof.
  unfold updateAddPaths. case_bool_decide; [done |]. simpl.
  assert (Hf : forall b l d, d_ecmpPaths (fold_left (fun d p => match d_pathRouteMap d !! p with
    | Some r => on_route (SetAdditionalPath b) r d | None => d end) l d) = d_ecmpPaths d).
  { intros b l'. induction l' as [|p l' IH]; intros d'; simpl; [done |]. rewrite IH.
    by destruct (d_pathRouteMap d' !! p). }
  rewrite Hf. simpl. apply Hf.
Qed.

(** The fields a removal of installed paths does not touch. *)
Lemma uninstall_best mem paths : forall d dl tr d' dl' tr',
  uninstall mem paths d dl tr = Ok (d', dl', tr') -> d_LocRibPath d' = d_LocRibPath d.
Proof.
  induction paths as [|p paths IH]; intros d dl tr d' dl' tr'; simpl; [by intros [= <- _ _] |].
  destruct (d_ecmpPaths d !! p) as [r|]; [|apply IH].
  destruct (r_action <$> d_routes d !! r) as [[]|]; intros H.
  all: try (apply bind_Ok_inv in H as (? & _ & H)); by apply IH in H.
Qed.

(** What a selection with a result did. *)
Section select.
Context (mem : ptr -> Path) (rangeS : list string -> list string) (rangeZ : list Z -> list Z)
  (gosort : (ptr -> ptr -> bool) -> list ptr -> list ptr) (gConf : RibGlobalConfig) (n : Z) (d : Destination).

Definition last_best : list ptr := match d_LocRibPath d with Some l => [l] | None => [] end.
Definition last_source : Z := match d_LocRibPath d with Some l => source mem l | None => RouteSrcUnknown end.
(** The paths that take part: the one selected before and the eligible ones. *)
Definition considered : list ptr :=
  last_best ++ filter (eligible mem (d_protoFamily d) (d_LocRibPath d)) (all_paths rangeS rangeZ d).
Definition best_sourced : list ptr :=
  filter (fun p => source mem p = least_source mem last_source considered) considered.

Lemma select_inv sel :
  d_recalculate d = true -> Forall (fun p => exists b, Path_HasASLoop (mem p) = Ok b) (all_paths rangeS rangeZ d) ->
  SelectRouteForLocRib mem rangeS rangeZ gosort gConf n d = Ok sel ->
  exists removed,
    removed ≡ₚ filter (fun p => source mem p <> least_source mem last_source considered) considered /\
    match best_sourced with
    | [] => d_LocRibPath (sel_dest sel) = None /\ sel_action sel = RouteActionDelete
    | _ => exists b s, choose_paths mem rangeS gosort gConf best_sourced removed n (set_d_recalculate false d) = Ok (b, s) /\
        d_LocRibPath (sel_dest sel) = d_LocRibPath (in_dest s) /\ sel_action sel = in_action s
    end.
Proof.
  intros Hrec Hloop H. unfold SelectRouteForLocRib in H. rewrite Hrec in H. simpl negb in H. cbv iota in H.
  change (d_LocRibPath (set_d_recalculate false d)) with (d_LocRibPath d) in H.
  assert (Hinit : (match d_LocRibPath d with Some l => (source mem l, [l]) | None => (RouteSrcUnknown, []) end)
    = (least_source mem last_source last_best,
       filter (fun p => source mem p = least_source mem last_source last_best) last_best)).
  { unfold last_source, last_best. destruct (d_LocRibPath d) as [l|]; [|done]. simpl.
    rewrite Z.min_id, filter_cons_True by done. done. }
  rewrite Hinit in H.
  destruct (select_source_spec mem (d_protoFamily d) (d_LocRibPath d) (all_paths rangeS rangeZ d)
    last_source last_best [] Hloop) as (removed & Hsel & Hr).
  { unfold last_source, last_best. destruct (d_LocRibPath d) as [l|]; [|done]. simpl.
    rewrite filter_cons_False by (rewrite Z.min_id; naive_solver). done. }
  exists removed. split; [exact Hr |].
  change (all_paths rangeS rangeZ (set_d_recalculate false d)) with (all_paths rangeS rangeZ d) in H.
  simpl d_protoFamily in H. rewrite Hsel, bind_Ok in H. fold considered in H. fold best_sourced in H.
  apply bind_Ok_inv in H as ([b s] & Hc & H). apply bind_Ok_inv in H as ([[d' dl] tr] & Hu & H).
  apply bind_Ok_inv in H as (tr' & _ & [= <-]). apply uninstall_best in Hu.
  destruct best_sourced as [|q qs].
  - injection Hc as _ <-. split; [|done]. simpl sel_dest. rewrite Hu. done.
  - exists b, s. done.
Qed.

(** The branch with paths left. *)
Lemma choose_paths_inv ups removed d0 b s :
  choose_paths mem rangeS gosort gConf ups removed n d0 = Ok (b, s) ->
  exists best rest ecmp adds s1 groups rest',
    ((len ups >? 1) || (n >? 0) = false /\ best :: rest = ups \/
     exists e i, calculateBestPath mem rangeS gosort (d_protoFamily d0) ups removed e i n = Ok (best :: rest, ecmp, adds)) /\
    d_LocRibPath (in_dest s) = Some best /\ in_action s = in_action s1 /\
    install_groups mem 0 ((best :: rest') :: groups)
      {| in_dest := (updateAddPaths adds d0).2; in_action := RouteActionNone; in_firstRoute := true;
         in_createRibRoutes := []; in_addedRoutes := []; in_updatedRoutes := [] |} = Ok s1.
Proof.
  unfold choose_paths. intros H. apply bind_Ok_inv in H as ([[ups' ecmp] adds] & Hx & H).
  destruct (updateAddPaths adds d0) as [m d1] eqn:Ha. destruct ups' as [|best rest]; [done |].
  apply bind_Ok_inv in H as (s1 & Hi & [= _ <-]).
  destruct (removeAndPrepend_head ecmp best) as (rest' & groups & Heq). rewrite Heq in Hi.
  exists best, rest, ecmp, adds, s1, groups, rest'. split; [|split; [done |]; split; [done | by rewrite Ha]].
  destruct ((len ups >? 1) || (n >? 0)); [right; eauto | left; by simplify_eq].
Qed.
End select.

(** ** Examples *)

(** 10.1.0.0/16. *)
Definition prefix_example : NLRI := NIPPrefix {| ip_Length := 16; ip_Prefix := [10; 1; 0; 0] |}.
Definition dest_example : Destination := NewDestination prefix_example 257.
Definition conf_example : RibGlobalConfig := {| gc_UseMultiplePaths := true; gc_EBGPMaxPaths := 4; gc_IBGPMaxPaths := 4 |}.
(** Paths of external neighbours with different next hops: multipaths. *)
Definition mem_multi (p : ptr) : Path := external_path p 0 (if p =? 1 then "10.0.0.1" else "10.0.0.2").
Definition okd (r : result (bool * Destination)) : Destination := match r with Ok (_, d) => d | _ => dest_example end.
Definition select_example (d : Destination) : result Selection :=
  SelectRouteForLocRib mem_multi id id (fun _ l => l) conf_example 0 d.
Definition oks (r : result Selection) : Destination := match r with Ok s => sel_dest s | _ => dest_example end.
(** One path from each of two peers; selected; the best one withdrawn. *)
Definition dest_two : Destination :=
  okd (AddOrUpdatePath mem_multi "10.0.0.2" 0 2 (okd (AddOrUpdatePath mem_multi "10.0.0.1" 0 1 dest_example))).
Definition dest_switch : Destination :=
  match RemovePath "10.0.0.1" 0 (oks (select_example dest_two)) with Ok (_, d) => d | _ => dest_example end.


(** ** The properties *)

(** C6: a destination implements a table of paths indexed by peer and path identifier. A call that returns and adds,
    replaces or withdraws a path has the effect of insertion or deletion in the table and reports what the table
    reports (was the path new, which path was removed); one that returns from selecting routes leaves the table alone.
    The steps are those of [table_step]: a path is added under no second peer or identifier while it is current, and
    fewer than 2^32 - 1 path identifiers were given out. Outside of them the table is not implemented: a path that is
    current under two identifiers has one route entry, which the first withdrawal takes away, and the second
    withdrawal panics (destination.go:299). *)
Theorem destination_refines_table (mem : ptr -> Path) (op : TableOp) (o : TableObs) (d d' : Destination) (m : Table) :
  implements d m -> table_step mem op o d d' -> implements d' (apply_op op m) /\ o = observe op m.
Proof. apply implements_step. Qed.

Lemma destination_refines_table_witness :
  implements (okd (AddOrUpdatePath mem_multi "10.0.0.1" 0 1 dest_example)) (<[("10.0.0.1", 0) := 1]> ∅) /\
  Added true = observe (OpAdd "10.0.0.1" 0 1) ∅.
Proof.
  apply (destination_refines_table mem_multi (OpAdd "10.0.0.1" 0 1) (Added true) dest_example).
  - apply implements_new.
  - apply step_add; [reflexivity | | vm_compute; reflexivity].
  by eapply unrouted_only; [apply NewDestination_ok |].
Defined.

(** C7: after additions, replacements, withdrawals and selections that start with an empty destination, every one of
    which returned and, as [table_step] asks, added no path under a second peer or identifier and found fewer than
    2^32 - 1 identifiers given out: each current path has one route, the list shown has that route at exactly one
    place, and shows no other routes; no two paths are announced with the same path identifier; and a withdrawal then
    returns, with the path it removes, whether or not the peer has announced one. Of a path that was added under two
    identifiers this does not hold: its second withdrawal panics (destination.go:299). *)
Theorem destination_table_invariant (mem : ptr -> Path) (nlri : NLRI) (fam : Z) (d : Destination) :
  rtc (fun d d' => exists op o, table_step mem op o d d') (NewDestination nlri fam) d ->
  (forall k p, current d k p -> exists r rt i, d_pathRouteMap d !! p = Some r /\ d_routes d !! r = Some rt /\
     r_path rt = p /\ forall j, d_Paths d !! j = Some r <-> j = i) /\
  (forall r, r ∈ d_Paths d -> exists k p, current d k p /\ d_pathRouteMap d !! p = Some r) /\
  (forall k k' p q r s rt st, current d k p -> current d k' q -> d_pathRouteMap d !! p = Some r ->
     d_pathRouteMap d !! q = Some s -> d_routes d !! r = Some rt -> d_routes d !! s = Some st ->
     r_OutPathId rt = r_OutPathId st -> k = k') /\
  (forall peer id, exists d', RemovePath peer id d = Ok (getPathForIP peer id d, d')).
Proof.
  intros [m [Hok _]]%implements_reachable. pose proof Hok as [Hids [Hs Hi Ho]]. split; [|split; [|split]].
  - intros k p Hc. destruct (Hs k p Hc) as (r & rt & i & Hp & Hrt & Hidx & _ & Hl & _); [done |].
    exists r, rt, i. split; [done |]. split; [done |].
    split; [destruct (id_route d Hids p r Hp) as (? & ? & ? & _); by simplify_eq |].
    intros j. split; [|by intros ->]. by eapply row_index.
  - intros r [i Hl]%list_elem_of_lookup. destruct (Ho i r Hl) as (k & p & _ & Hc & _ & Hp & _); [done |]. eauto.
  - intros k k' p q r s rt st Hc Hc' Hp Hq Hrt Hst He.
    pose proof (id_inj d Hids p q r s rt st Hp Hq Hrt Hst He) as ->. by eapply Hi.
  - intros peer id. destruct (RemovePath_ok peer id d Hok) as (d' & H & _). by exists d'.
Qed.

Lemma destination_table_invariant_witness :
  exists d', RemovePath "10.0.0.1" 0 (okd (AddOrUpdatePath mem_multi "10.0.0.1" 0 1 dest_example)) = Ok (Some 1, d').
Proof.
  apply (destination_table_invariant mem_multi prefix_example 257).
  apply rtc_once. exists (OpAdd "10.0.0.1" 0 1), (Added true).
  apply step_add; [reflexivity | | vm_compute; reflexivity].
  by eapply unrouted_only; [apply NewDestination_ok |].
Defined.

(** C26: the path that a selection which returns, of a destination marked for it, leaves as the best one: it is among
    the eligible paths (reachable, without an AS loop, or selected before) of the best route source, and no other of
    them precedes it in the order of the decision process; if there is none, the prefix is withdrawn. The candidates
    are of neighbors, with attributes that can be read and are in their ranges ([candidate]); sorting returns a
    permutation; and among those that tie on preference and AS path length the origins do not improve along the list
    ([origins_sorted]). Where an origin does improve, the rule for origins keeps a worse path (destination.go:743),
    and the selected one need not be the best. *)
Theorem selected_path_is_best (mem : ptr -> Path) (alen : Z) (rangeS : list string -> list string)
    (rangeZ : list Z -> list Z) (gosort : (ptr -> ptr -> bool) -> list ptr -> list ptr) (gConf : RibGlobalConfig)
    (n : Z) (d : Destination) (sel : Selection) :
  (forall less l, gosort less l ≡ₚ l) -> d_recalculate d = true ->
  Forall (fun p => exists b, Path_HasASLoop (mem p) = Ok b) (all_paths rangeS rangeZ d) ->
  Forall (candidate mem (d_protoFamily d) alen) (best_sourced mem rangeS rangeZ d) ->
  origins_sorted mem (best_sourced mem rangeS rangeZ d) ->
  Forall (reachable mem (d_protoFamily d)) (considered mem rangeS rangeZ d) ->
  SelectRouteForLocRib mem rangeS rangeZ gosort gConf n d = Ok sel ->
  match best_sourced mem rangeS rangeZ d with
  | [] => d_LocRibPath (sel_dest sel) = None /\ sel_action sel = RouteActionDelete
  | ps => exists best, d_LocRibPath (sel_dest sel) = Some best /\ best ∈ ps /\
      forall q, q ∈ ps -> lex_le (ranks mem) best q
  end.
Proof.
  intros Hg Hrec Hloop Hc Ho Hre H. apply select_inv in H as (removed & Hr & H); [|done..].
  destruct (best_sourced mem rangeS rangeZ d) as [|p ps] eqn:Hbs; [done |].
  destruct H as (b & s & Hch & -> & _).
  apply choose_paths_inv in Hch as (best & rest & ecmp & adds & s1 & groups & rest' & Hcase & -> & _ & _).
  exists best. split; [done |]. destruct Hcase as [[Hlen Heq]|(e & i & Hcalc)].
  - apply orb_false_iff in Hlen as [Hlen _]. destruct ps as [|p' ps]; [|rewrite Z.gtb_ltb, Z.ltb_ge in Hlen; unfold len in Hlen; rewrite !length_cons in Hlen; lia].
    injection Heq as -> _. split; [left |]. intros q ->%list_elem_of_singleton. apply lex_le_refl.
  - destruct (calculateBestPath_least mem (d_protoFamily d) alen rangeS gosort Hg (p :: ps) removed e i n)
      as (kept & ec & ad & Hcalc' & _ & Hl); [done | done | done | |].
    { rewrite Hr, Forall_forall in *. intros q [_ Hq]%list_elem_of_filter. by apply Hre. }
    change (d_protoFamily (set_d_recalculate false d)) with (d_protoFamily d) in Hcalc.
    rewrite Hcalc in Hcalc'. simplify_eq. split; [eapply least_subseteq; [exact Hl | left] |].
    intros q Hq. eapply least_le; [exact Hl | left | done].
Qed.

Lemma selected_path_is_best_witness :
  exists best, d_LocRibPath (oks (select_example dest_two)) = Some best /\ best ∈ [1; 2] /\
    forall q, q ∈ [1; 2] -> lex_le (ranks mem_multi) best q.
Proof.
  assert (Hs : exists sel, select_example dest_two = Ok sel) by (eexists; vm_compute; reflexivity).
  destruct Hs as [sel Hs]. unfold oks. rewrite Hs.
  assert (Hb : best_sourced mem_multi id id dest_two = [1; 2]) by by vm_compute.
  assert (Hcand : Forall (candidate mem_multi 257 4) [1; 2]).
  { repeat constructor; (eapply external_candidate; [reflexivity | unfold is_u8; lia | lia]). }
  pose proof (selected_path_is_best mem_multi 4 id id (fun _ l => l) conf_example 0 dest_two sel) as H.
  rewrite Hb in H. apply H; [done | reflexivity | | exact Hcand | | | exact Hs].
  - vm_compute. repeat constructor; by eexists.
  - repeat constructor; vm_compute; intros; congruence.
  - vm_compute. repeat constructor; by eexists.
Defined.

(** Replacing a path leaks an identifier: the identifiers in use grow by one although the peers and
    path identifiers with a path stay the same, and the replaced path keeps its entry of
    [pathRouteMap]; a withdrawal gives only the last one back. *)
Theorem replaced_path_leaks_id (mem : ptr -> Path) (peer : string) (id : Z) (old path : ptr) (d d' : Destination)
    (b : bool) :
  table_ok d -> d_maxPathId d < 2 ^ 32 - 1 -> getPathForIP peer id d = Some old -> old <> path ->
  d_pathRouteMap d !! path = None ->
  AddOrUpdatePath mem peer id path d = Ok (b, d') ->
  b = false /\ in_use d' = in_use d + 1 /\
  (forall peer id, getPathForIP peer id d' = None <-> getPathForIP peer id d = None) /\
  d_pathRouteMap d' !! old = d_pathRouteMap d !! old /\ is_Some (d_pathRouteMap d' !! old).
Proof.
  intros Hok Hmax Hold Hne Hnone H.
  destruct (AddOrUpdatePath_ok _ _ _ _ _ _ _ Hok Hmax (unrouted_only _ _ _ Hok Hnone) H) as (_ & Hc & Hb).
  split; [by rewrite Hb, Hold |].
  destruct (row_shown _ _ _ (proj2 Hok) (peer, id) old Hold) as (r & rt & i & Hp & _); [done |].
  pose proof (same_ensure peer d) as Hs.
  assert (Hmp : 0 < d_maxPathId d) by apply Hok.
  unfold AddOrUpdatePath in H. set (d0 := set_d_peerPathMap _ d) in *.
  assert (Hget : default ∅ (d_peerPathMap d !! peer) !! id = Some old).
  { unfold getPathForIP in Hold. destruct (d_peerPathMap d !! peer); simpl in *; [done |]. done. }
  rewrite Hget in H. replace (old =? path) with false in H by lia.
  assert (Hf : exists j d1, forget_old old d0 = (j, d1) /\ d_pathRouteMap d1 = d_pathRouteMap d /\
    d_maxPathId d1 = d_maxPathId d /\ in_use d1 = in_use d).
  { destruct (forget_old old d0) as [j d1] eqn:E. exists j, d1. split; [done |]. revert E.
    unfold forget_old. simpl. rewrite Hp. intros [= _ <-]. by destruct (bool_decide _). }
  destruct Hf as (j & d1 & Hf & Hm & Hmx & Hiu). rewrite Hf in H. apply bind_Ok_inv in H as (d2 & H & [= _ <-]).
  split; [|split].
  - rewrite <- Hiu. eapply insert_path_in_use; [| | exact H]; lia.
  - intros peer' id'. rewrite !eq_None_not_Some. unfold is_Some. apply not_iff_compat.
    split; intros [p Hq].
    + apply (Hc (peer', id') p) in Hq as [[Heq _]|[_ Hq]]; [|by exists p]. injection Heq as -> ->. by exists old.
    + destruct (decide ((peer', id') = (peer, id))) as [[= -> ->]|Hk].
      * exists path. apply (Hc (peer, id) path). by left.
      * exists p. apply (Hc (peer', id') p). by right.
  - rewrite Hp. enough (d_pathRouteMap d2 !! old = Some r) as -> by done.
    unfold insert_path in H. destruct (getNextPathId _) as [i' d3] eqn:Hg.
    apply bind_Ok_inv in H as (rt' & _ & H). apply bind_Ok_inv in H as ([j' ps] & _ & [= <-]). simpl.
    rewrite lookup_insert_ne by done.
    assert (d_pathRouteMap d3 = d_pathRouteMap d1) as ->; [|by rewrite Hm].
    pose proof (same_map _ _ (same_mark_recalculate mem path d1)) as <-. unfold getNextPathId in Hg.
    destruct (last _); by simplify_eq.
Qed.

Lemma replaced_path_leaks_id_witness :
  let d := okd (AddOrUpdatePath mem_multi "10.0.0.1" 0 1 dest_example) in
  let d' := okd (AddOrUpdatePath mem_multi "10.0.0.1" 0 2 d) in
  in_use d' = in_use d + 1 /\ is_Some (d_pathRouteMap d' !! 1).
Proof.
  intros d d'. destruct (replaced_path_leaks_id mem_multi "10.0.0.1" 0 1 2 d d' false) as (_ & H1 & _ & _ & H2).
  - destruct (AddOrUpdatePath_ok mem_multi "10.0.0.1" 0 1 dest_example true d) as [H _];
      [apply NewDestination_ok | reflexivity | by eapply unrouted_only; [apply NewDestination_ok |] | by vm_compute | exact H].
  - by vm_compute.
  - by vm_compute.
  - done.
  - by vm_compute.
  - by vm_compute.
  - by split.
Defined.

(** An update that announces a prefix under two path identifiers shares one [*Path] between them:
    withdrawing one takes the route of both, and withdrawing the other then dereferences nil. *)
Theorem withdraw_two_path_ids_panics (peer peer' : string) (id id' : Z) (p : ptr) (o : option ptr) (d d' : Destination) :
  getPathForIP peer id d = Some p -> getPathForIP peer' id' d = Some p -> (peer, id) <> (peer', id') ->
  RemovePath peer id d = Ok (o, d') -> RemovePath peer' id' d' = Panic.
Proof.
  intros Hp Hp' Hne H. unfold RemovePath in H. rewrite Hp in H.
  set (d1 := if bool_decide (d_LocRibPath _ = _) then _ else _) in H.
  assert (Hsame : same_rows d d1).
  { unfold d1. destruct (d_ecmpPaths d !! p); case_bool_decide; rows. }
  clearbody d1.
  destruct (d_pathRouteMap d1 !! p) as [r|]; [|done]. simpl in H. destruct (d_routes d1 !! r) as [rt|]; [|done].
  simpl in H. apply bind_Ok_inv in H as (d2 & Hr & [= _ <-]).
  set (d3 := set_d_pathRouteMap _ _) in Hr.
  assert (Hrel : d_peerPathMap (releasePathId (r_OutPathId rt) d1) = d_peerPathMap d1 /\
    d_pathRouteMap (releasePathId (r_OutPathId rt) d1) = d_pathRouteMap d1).
  { unfold releasePathId. by destruct (_ =? _). }
  assert (Hd2 : d_peerPathMap d2 = d_peerPathMap d1 /\ d_pathRouteMap d2 !! p = None).
  { assert (Hd3 : d_peerPathMap d3 = d_peerPathMap d1 /\ d_pathRouteMap d3 !! p = None).
    { unfold d3. simpl. split; [apply Hrel | apply lookup_delete_eq]. }
    unfold remove_shown in Hr. destruct (_ =? -1); [by simplify_eq |].
    destruct (last (d_Paths d3)) as [x|]; [|done]. destruct (d_PathInfoRouteMap d3 !! x); [|by simplify_eq].
    apply bind_Ok_inv in Hr as (ps & _ & [= <-]). exact Hd3. }
  destruct Hd2 as [Hpp Hpr].
  assert (Hcur : current (delete_peer_path peer id d2) (peer', id') p).
  { apply current_delete. split; [done |]. unfold current, getPathForIP. rewrite Hpp.
    by apply (same_paths _ _ Hsame (peer', id') p). }
  unfold current in Hcur. simpl in Hcur. unfold RemovePath. rewrite Hcur.
  assert (Hnone : forall d', d_pathRouteMap d' = d_pathRouteMap d2 ->
    d_pathRouteMap d' !! p ≫= (fun r => pair r <$> d_routes d' !! r) = None) by (intros ? ->; by rewrite Hpr).
  rewrite Hnone; [done |]. destruct (d_ecmpPaths (delete_peer_path peer id d2) !! p); by destruct (bool_decide _).
Qed.

Lemma withdraw_two_path_ids_panics_witness :
  let d := okd (AddOrUpdatePath mem_multi "10.0.0.1" 2 1 (okd (AddOrUpdatePath mem_multi "10.0.0.1" 1 1 dest_example))) in
  exists o d', RemovePath "10.0.0.1" 1 d = Ok (o, d') /\ RemovePath "10.0.0.1" 2 d' = Panic.
Proof.
  intros d. destruct (RemovePath "10.0.0.1" 1 d) as [[o d']| | |] eqn:E; try (by vm_compute in E).
  exists o, d'. split; [done |].
  apply (withdraw_two_path_ids_panics "10.0.0.1" "10.0.0.1" 1 2 1 o d d'); [by vm_compute | by vm_compute | done | exact E].
Defined.

(** A change of the best path is not announced when the new one is already installed as a multipath
    (and is not an aggregate): the selection reports that nothing is to be done for the peers. *)
Theorem installed_best_path_not_announced (mem : ptr -> Path) (rangeS : list string -> list string)
    (rangeZ : list Z -> list Z) (gosort : (ptr -> ptr -> bool) -> list ptr -> list ptr) (gConf : RibGlobalConfig)
    (n : Z) (d : Destination) (sel : Selection) (best : ptr) :
  Forall (fun p => exists b, Path_HasASLoop (mem p) = Ok b) (all_paths rangeS rangeZ d) ->
  SelectRouteForLocRib mem rangeS rangeZ gosort gConf n d = Ok sel ->
  d_LocRibPath (sel_dest sel) = Some best -> is_Some (d_ecmpPaths d !! best) -> IsAggregate (mem best) = false ->
  sel_action sel = RouteActionNone.
Proof.
  intros Hloop H Hb He Ha. destruct (d_recalculate d) eqn:Hrec; cycle 1.
  { unfold SelectRouteForLocRib in H. rewrite Hrec in H. by simplify_eq/=. }
  apply select_inv in H as (removed & _ & H); [|done..].
  destruct (best_sourced mem rangeS rangeZ d) as [|p ps]; [destruct H as [H _]; congruence |].
  destruct H as (b & s & Hch & Hl & ->). rewrite Hl in Hb.
  apply choose_paths_inv in Hch as (best' & rest & ecmp & adds & s1 & groups & rest' & _ & Hl' & -> & Hi).
  assert (best' = best) as -> by congruence. simpl in Hi. apply bind_Ok_inv in Hi as (s2 & H0 & Hi).
  apply install_groups_action in Hi; [|done]. rewrite Hi.
  unfold install_group in H0. simpl in H0. rewrite updateAddPaths_ecmp in H0.
  change (d_ecmpPaths (set_d_recalculate false d)) with (d_ecmpPaths d) in H0.
  rewrite decide_True in H0 by done. simpl in H0. rewrite Ha in H0. by simplify_eq/=.
Qed.

Lemma installed_best_path_not_announced_witness :
  d_LocRibPath (oks (select_example dest_two)) = Some 1 /\ d_LocRibPath (oks (select_example dest_switch)) = Some 2 /\
  exists sel, select_example dest_switch = Ok sel /\ sel_action sel = RouteActionNone.
Proof.
  split; [by vm_compute |]. split; [by vm_compute |].
  assert (Hs : exists sel, select_example dest_switch = Ok sel) by (eexists; vm_compute; reflexivity).
  destruct Hs as [sel Hs]. exists sel. split; [done |].
  apply (installed_best_path_not_announced mem_multi id id (fun _ l => l) conf_example 0 dest_switch sel 2);
    [| exact Hs | | eexists; by vm_compute | done].
  - vm_compute. repeat constructor; by eexists.
  - assert (E : d_LocRibPath (oks (select_example dest_switch)) = Some 2) by by vm_compute.
    rewrite Hs in E. exact E.
Defined.

(** The network mask written into a route for a prefix of [ones] bits is the mask of that length, for
    addresses of both families. *)
Theorem netmask_of_length (ones bits : Z) :
  bits = 32 \/ bits = 128 -> 0 <= ones <= bits ->
  exists ip, constructNetmaskFromLen ones bits = Ok ip /\ len ip = bits / 8 /\ Forall is_u8 ip /\
    bytes_value ip = 2 ^ bits - 2 ^ (bits - ones).
Proof.
  set (right := fun bits ones => match constructNetmaskFromLen ones bits with
    | Ok ip => bool_decide (len ip = bits / 8 /\ Forall is_u8 ip /\ bytes_value ip = 2 ^ bits - 2 ^ (bits - ones))
    | _ => false
    end).
  intros Hb Ho.
  assert (Hall : forallb (fun b => forallb (right b) (seqZ 0 (b + 1))) [32; 128] = true) by by vm_compute.
  rewrite forallb_forall in Hall. specialize (Hall bits). rewrite forallb_forall in Hall.
  specialize (Hall ltac:(simpl; naive_solver) ones).
  assert (Hr : right bits ones = true) by (apply Hall, list_elem_of_In, elem_of_seqZ; lia).
  unfold right in Hr. destruct (constructNetmaskFromLen ones bits) as [ip| | |]; try done.
  apply bool_decide_eq_true_1 in Hr as (? & ? & ?). by exists ip.
Qed.

Lemma netmask_of_length_witness :
  exists ip, constructNetmaskFromLen 20 32 = Ok ip /\ len ip = 4 /\ Forall is_u8 ip /\ bytes_value ip = 2 ^ 32 - 2 ^ 12.
Proof. apply (netmask_of_length 20 32); [by left | lia]. Defined.
