(* ===== verification/BgpRouteList.v ===== *)
(** The lists of destinations that the RIB keeps for bulk reads ([src/bgp/rib/rib.go]: [routeList],
    [routeListDirty], [activeGet], [timer] and [Destination.routeListIdx]), one for each address
    family. While a bulk read is under way a destination that is removed leaves a hole, so that the
    others keep their places; the holes are squeezed out afterwards.

    The entries of the four maps for a family are made together by the first [addRoutesToRouteList],
    so they are one record per family; the mutex is taken for the whole of each operation. *)
From stdpp Require Import base numbers list gmap.
From Stdlib Require Import ZArith Lia.
From S2P Require Import Prelude GoNet BgpBase.
Open Scope Z_scope.

(** A [*Destination]. *)
Abbreviation dptr := Z.

Record RouteList := {
  rl_list : list (option dptr);
  rl_idx : gmap dptr nat;
  rl_dirty : bool;
  rl_active : bool;
}.
Abbreviation RouteLists := (gmap Z RouteList).

Definition no_routes : RouteList := {| rl_list := []; rl_idx := ∅; rl_dirty := false; rl_active := false |}.

Definition addRoute (dest : dptr) (l : RouteList) : RouteList :=
  {| rl_list := rl_list l ++ [Some dest]; rl_idx := <[dest := length (rl_list l)]> (rl_idx l);
     rl_dirty := rl_dirty l; rl_active := rl_active l |}.
Definition addRoutesToRouteList (dest : dptr) (protoFamily : Z) (ls : RouteLists) : RouteLists :=
  <[protoFamily := addRoute dest (default no_routes (ls !! protoFamily))]> ls.

(** The last destination takes the place of the one removed; it is dereferenced. *)
Definition removeRoute (dest : dptr) (l : RouteList) : result RouteList :=
  match rl_idx l !! dest with
  | None => Ok l
  | Some idx =>
    if negb (rl_active l) then
      match last (rl_list l), rl_list l !! idx with
      | Some (Some d), Some _ =>
        Ok {| rl_list := take (length (rl_list l) - 1) (<[idx := Some d]> (rl_list l));
              rl_idx := <[d := idx]> (rl_idx l); rl_dirty := rl_dirty l; rl_active := rl_active l |}
      | _, _ => Panic
      end
    else
      match rl_list l !! idx with
      | Some _ => Ok {| rl_list := <[idx := None]> (rl_list l); rl_idx := rl_idx l; rl_dirty := true;
                        rl_active := rl_active l |}
      | None => Panic
      end
  end.
Definition removeRoutesFromRouteList (dest : dptr) (protoFamily : Z) (ls : RouteLists) : result RouteLists :=
  match ls !! protoFamily with
  | None => Ok ls
  | Some l => l ← removeRoute dest l; Ok (<[protoFamily := l]> ls)
  end.

(** The inner loop of [ResetRouteList]: the last destination of [l] after [idx] and up to [modIdx]. *)
Fixpoint last_dest (idx modIdx : nat) (l : list (option dptr)) : option (nat * dptr) :=
  match modIdx with
  | O => None
  | S k =>
    if (modIdx <=? idx)%nat then None
    else match l !! modIdx with
         | Some (Some d) => Some (modIdx, d)
         | _ => last_dest idx k l
         end
  end.

(** The outer loop, with [fuel] the places that are left. *)
Fixpoint squeeze (fuel idx lastIdx : nat) (l : list (option dptr)) (idxs : gmap dptr nat)
    : list (option dptr) * gmap dptr nat :=
  match fuel with
  | O => (take idx l, idxs)
  | S fuel =>
    match l !! idx with
    | Some None =>
      match last_dest idx lastIdx l with
      | None => (take idx l, idxs)
      | Some (modIdx, d) =>
        squeeze fuel (S idx) modIdx (<[modIdx := None]> (<[idx := Some d]> l)) (<[d := idx]> idxs)
      end
    | _ => squeeze fuel (S idx) lastIdx l idxs
    end
  end.
Definition resetRoutes (l : RouteList) : RouteList :=
  if negb (rl_dirty l) then
    {| rl_list := rl_list l; rl_idx := rl_idx l; rl_dirty := rl_dirty l; rl_active := false |}
  else
    let '(list, idx) := squeeze (length (rl_list l)) 0 (length (rl_list l) - 1) (rl_list l) (rl_idx l) in
    {| rl_list := list; rl_idx := idx; rl_dirty := false; rl_active := false |}.
Definition ResetRouteList (protoFamily : Z) (ls : RouteLists) : RouteLists := alter resetRoutes protoFamily ls.
Definition ResetAllRouteLists (ls : RouteLists) : RouteLists := resetRoutes <$> ls.

(** [BulkGetBGPRoutes] reads from [index] on until it has [count] destinations with paths; it
    returns the place to go on from, or 0 at the end. [shown d]: destination [d] has paths. *)
Fixpoint read_routes (shown : dptr -> bool) (l : list (option dptr)) (count : nat) : nat * list dptr :=
  match l, count with
  | [], _ | _, O => (O, [])
  | Some d :: l, S n =>
    if shown d then let '(i, r) := read_routes shown l n in (S i, d :: r)
    else let '(i, r) := read_routes shown l count in (S i, r)
  | None :: l, _ => let '(i, r) := read_routes shown l count in (S i, r)
  end.
Definition readRoutes (shown : dptr -> bool) (index count : Z) (l : RouteList) : result (Z * list dptr * RouteList) :=
  let l := if (index =? 0) && rl_active l then resetRoutes l else l in
  let l := {| rl_list := rl_list l; rl_idx := rl_idx l; rl_dirty := rl_dirty l; rl_active := true |} in
  if (index <? 0) && (0 <? count) then Panic
  else
    let '(n, r) := if index <? 0 then (O, []) else
      read_routes shown (drop (Z.to_nat index) (rl_list l)) (Z.to_nat count) in
    let i := index + Z.of_nat n in
    Ok (if i >=? len (rl_list l) then 0 else i, r, l).
Definition BulkGetBGPRoutes (shown : dptr -> bool) (index count protoFamily : Z) (ls : RouteLists)
    : result (Z * list dptr * RouteLists) :=
  if count <? 0 then Panic
  else
    match ls !! protoFamily with
    | None => Ok (0, [], ls)
    | Some l => x ← readRoutes shown index count l; Ok (x.1.1, x.1.2, <[protoFamily := x.2]> ls)
    end.

(** ** What the lists promise *)

(** The destinations of the list. *)
Definition live (l : RouteList) : list dptr := omap id (rl_list l).
Definition holes (l : RouteList) : Prop := None ∈ rl_list l.

(** Every destination is at its index; there are holes only during a bulk read. *)
Record routes_ok (l : RouteList) : Prop := {
  ro_idx : forall i d, rl_list l !! i = Some (Some d) -> rl_idx l !! d = Some i;
  ro_holes : holes l -> rl_active l = true /\ rl_dirty l = true;
}.

Lemma elem_of_live d l : d ∈ live l <-> exists i, rl_list l !! i = Some (Some d).
Proof.
  unfold live. rewrite list_elem_of_omap. split.
  - intros (o & Ho & Hd). unfold id in Hd. subst o. by apply list_elem_of_lookup in Ho.
  - intros [i Hi]. exists (Some d). split; [by eapply list_elem_of_lookup_2 | done].
Qed.
Lemma live_NoDup l : routes_ok l -> NoDup (live l).
Proof.
  intros [Hi _]. unfold live. revert Hi. generalize (rl_idx l) as m. generalize (rl_list l) as xs.
  intros xs. assert (H : forall k (m : gmap dptr nat), (forall i d, xs !! i = Some (Some d) -> m !! d = Some (k + i)%nat) -> NoDup (omap id xs)).
  { induction xs as [|[d|] xs IH]; intros k m Hm; simpl; [constructor | |].
    - constructor; [|apply (IH (S k) m); intros i d' Hl; rewrite (Hm (S i) d' Hl); f_equal; lia].
      rewrite list_elem_of_omap. intros (o & Ho & Hd). unfold id in Hd. subst o. apply list_elem_of_lookup in Ho as [i Hl].
      pose proof (Hm 0%nat d eq_refl) as H0. rewrite (Hm (S i) d Hl) in H0. injection H0. lia.
    - apply (IH (S k) m). intros i d' Hl. rewrite (Hm (S i) d' Hl). f_equal. lia. }
  intros m Hm. by apply (H 0%nat m).
Qed.

(** *** Adding and removing *)

Lemma live_app l1 l2 : omap id (l1 ++ l2) = omap id l1 ++ omap (@id (option dptr)) l2.
Proof. apply omap_app. Qed.

Lemma addRoute_ok d l :
  routes_ok l -> d ∉ live l -> routes_ok (addRoute d l) /\ live (addRoute d l) = live l ++ [d].
Proof.
  intros [Hi Hh] Hd. split; [constructor; simpl |].
  - intros i d'. rewrite lookup_snoc_Some. intros [[Hl Hi']|[-> [= ->]]].
    + rewrite lookup_insert_ne; [by apply Hi |]. intros ->. apply Hd, elem_of_live. by exists i.
    + by rewrite lookup_insert_eq.
  - intros H. apply Hh. unfold holes in *. simpl in H. apply elem_of_app in H as [H|H]; [done |].
    by apply list_elem_of_singleton in H.
  - unfold live. simpl. apply live_app.
Qed.

Lemma live_insert_None (xs : list (option dptr)) i d :
  xs !! i = Some (Some d) -> omap id xs ≡ₚ d :: omap id (<[i := None]> xs).
Proof.
  intros H. rewrite <- (take_drop_middle _ _ _ H) at 1. rewrite insert_take_drop by by eapply lookup_lt_Some.
  rewrite !omap_app. simpl. symmetry. apply Permutation_middle.
Qed.

Lemma live_swap_remove (xs : list (option dptr)) i d e :
  xs !! i = Some (Some d) -> last xs = Some (Some e) ->
  omap id xs ≡ₚ d :: omap id (take (length xs - 1) (<[i := Some e]> xs)).
Proof.
  intros Hi Hl. apply last_Some in Hl as [ys ->].
  replace (length (ys ++ [Some e]) - 1)%nat with (length ys) by (rewrite length_app; simpl; lia).
  apply lookup_snoc_Some in Hi as [[Hlt Hi]|[-> [= ->]]].
  - rewrite insert_app_l, take_app_length' by (by rewrite ?length_insert).
    rewrite <- (take_drop_middle _ _ _ Hi) at 1. rewrite insert_take_drop by done.
    rewrite !omap_app. simpl. rewrite Permutation_app_comm. simpl. rewrite <- Permutation_middle.
    rewrite perm_swap. apply perm_skip, Permutation_middle.
  - rewrite insert_app_r_alt, take_app_length by lia. rewrite omap_app. simpl. by rewrite Permutation_app_comm.
Qed.

Lemma removeRoute_ok d l :
  routes_ok l -> d ∈ live l -> exists l', removeRoute d l = Ok l' /\ routes_ok l' /\ live l ≡ₚ d :: live l'.
Proof.
  intros Hok Hd. pose proof Hok as [Hi Hh]. apply elem_of_live in Hd as [i Hl]. unfold removeRoute.
  rewrite (Hi i d Hl). destruct (rl_active l) eqn:Ha; simpl.
  - rewrite Hl. eexists. split; [done |]. split; [constructor; simpl |].
    + intros j e Hj. apply Hi. destruct (decide (j = i)) as [->|Hne].
      * rewrite list_lookup_insert_eq in Hj by by eapply lookup_lt_Some. done.
      * by rewrite list_lookup_insert_ne in Hj.
    + done.
    + by apply live_insert_None.
  - assert (Hnh : ~ holes l) by (intros [? _]%Hh; congruence).
    destruct (last (rl_list l)) as [[e|]|] eqn:Hlast; cycle 1.
    { exfalso. apply Hnh. rewrite last_lookup in Hlast. by eapply list_elem_of_lookup_2. }
    { apply last_None in Hlast. by rewrite Hlast in Hl. }
    rewrite Hl. eexists. split; [done |]. pose proof Hlast as Hlast'. rewrite last_lookup in Hlast'.
    pose proof (lookup_lt_Some _ _ _ Hl) as Hlt.
    split; [constructor; simpl |].
    + intros j x Hj. assert (Hjl : (j < length (rl_list l) - 1)%nat).
      { apply lookup_lt_Some in Hj. rewrite length_take, length_insert in Hj. lia. }
      rewrite lookup_take_lt in Hj by done. destruct (decide (j = i)) as [->|Hne].
      * rewrite list_lookup_insert_eq in Hj by done. simplify_eq. by rewrite lookup_insert_eq.
      * rewrite list_lookup_insert_ne in Hj by done. rewrite lookup_insert_ne; [by apply Hi |].
        intros ->. pose proof (Hi _ _ Hj). pose proof (Hi _ _ Hlast'). simplify_eq. lia.
    + intros H. exfalso. apply Hnh. unfold holes in *. simpl in H. apply list_elem_of_lookup in H as [j Hj].
      assert (Hjl : (j < length (rl_list l) - 1)%nat).
      { apply lookup_lt_Some in Hj. rewrite length_take, length_insert in Hj. lia. }
      rewrite lookup_take_lt in Hj by done. destruct (decide (j = i)) as [->|Hne].
      * rewrite list_lookup_insert_eq in Hj by done. done.
      * rewrite list_lookup_insert_ne in Hj by done. by eapply list_elem_of_lookup_2.
    + by apply live_swap_remove.
Qed.

(** *** Squeezing the holes out *)

Lemma last_dest_spec idx l : forall modIdx,
  match last_dest idx modIdx l with
  | Some (k, d) => (idx < k <= modIdx)%nat /\ l !! k = Some (Some d) /\
      forall j e, (k < j <= modIdx)%nat -> l !! j <> Some (Some e)
  | None => forall j e, (idx < j <= modIdx)%nat -> l !! j <> Some (Some e)
  end.
Proof.
  induction modIdx as [|k IH]; cbn [last_dest]; [intros; lia |].
  destruct (Nat.leb_spec (S k) idx) as [Hle|Hgt]; [intros; lia |].
  destruct (l !! S k) as [[d|]|] eqn:Hk.
  - split; [lia |]. split; [done |]. intros. lia.
  - destruct (last_dest idx k l) as [[k' d]|].
    + destruct IH as (? & ? & Hr). split; [lia |]. split; [done |]. intros j e Hj.
      destruct (decide (j = S k)) as [->|]; [congruence | apply Hr; lia].
    + intros j e Hj. destruct (decide (j = S k)) as [->|]; [congruence | apply IH; lia].
  - destruct (last_dest idx k l) as [[k' d]|].
    + destruct IH as (? & ? & Hr). split; [lia |]. split; [done |]. intros j e Hj.
      destruct (decide (j = S k)) as [->|]; [congruence | apply Hr; lia].
    + intros j e Hj. destruct (decide (j = S k)) as [->|]; [congruence | apply IH; lia].
Qed.

Lemma dead_tail idx (l : list (option dptr)) :
  (forall j e, (idx <= j)%nat -> l !! j <> Some (Some e)) -> omap id l = omap id (take idx l).
Proof.
  intros H. rewrite <- (take_drop idx l) at 1. rewrite omap_app.
  enough (omap id (drop idx l) = []) as -> by apply app_nil_r.
  destruct (omap id (drop idx l)) as [|d ds] eqn:E; [done |]. exfalso.
  assert (Hd : d ∈ omap id (drop idx l)) by (rewrite E; left).
  apply list_elem_of_omap in Hd as (o & Ho & Hd). unfold id in Hd. subst o.
  apply list_elem_of_lookup in Ho as [j Hj]. rewrite lookup_drop in Hj.
  eapply (H (idx + j)%nat); [lia | exact Hj].
Qed.

Lemma squeeze_spec : forall fuel idx lastIdx l idxs,
  (fuel + idx)%nat = length l -> (forall j, (j < idx)%nat -> l !! j <> Some None) ->
  (forall j e, (lastIdx < j)%nat -> l !! j <> Some (Some e)) ->
  (forall i d, l !! i = Some (Some d) -> idxs !! d = Some i) ->
  let '(l', idxs') := squeeze fuel idx lastIdx l idxs in
  None ∉ l' /\ omap id l' ≡ₚ omap id l /\ forall i d, l' !! i = Some (Some d) -> idxs' !! d = Some i.
Proof.
  induction fuel as [|fuel IH]; intros idx lastIdx l idxs Hlen Hfull Htail Hidx; simpl.
  { simpl in Hlen. rewrite Hlen, firstn_all. split; [|done].
    intros [j Hj]%list_elem_of_lookup. pose proof (lookup_lt_Some _ _ _ Hj). eapply Hfull; [|exact Hj]. lia. }
  destruct (lookup_lt_is_Some_2 l idx) as [o Ho]; [lia |]. rewrite Ho. destruct o as [d|].
  { apply IH; [lia | | done | done]. intros j Hj. destruct (decide (j = idx)) as [->|]; [congruence | apply Hfull; lia]. }
  pose proof (last_dest_spec idx l lastIdx) as Hspec. destruct (last_dest idx lastIdx l) as [[k d]|].
  - destruct Hspec as (Hk & Hkd & Hafter).
    set (l1 := <[k := None]> (<[idx := Some d]> l)).
    assert (Hl1 : forall j, l1 !! j = if decide (j = k) then Some None else if decide (j = idx) then Some (Some d) else l !! j).
    { intros j. unfold l1. pose proof (lookup_lt_Some _ _ _ Hkd). destruct (decide (j = k)) as [->|Hjk].
      - rewrite list_lookup_insert_eq; [done |]. rewrite length_insert. done.
      - rewrite list_lookup_insert_ne by done. destruct (decide (j = idx)) as [->|].
        + by rewrite list_lookup_insert_eq by lia.
        + by rewrite list_lookup_insert_ne. }
    assert (Hperm : omap id l1 ≡ₚ omap id l).
    { unfold l1. assert (H1 : <[idx := Some d]> l !! k = Some (Some d)) by (by rewrite list_lookup_insert_ne by lia).
      pose proof (live_insert_None _ _ _ H1) as Hp.
      assert (H2 : <[idx := Some d]> l !! idx = Some (Some d)) by (rewrite list_lookup_insert_eq; [done | lia]).
      pose proof (live_insert_None _ _ _ H2) as Hp'. rewrite list_insert_insert_eq, (list_insert_id l idx None) in Hp' by done.
      rewrite Hp in Hp'. by apply Permutation_cons_inv in Hp'. }
    specialize (IH (S idx) k l1 (<[d := idx]> idxs)).
    destruct (squeeze fuel (S idx) k l1 (<[d := idx]> idxs)) as [l' idxs'].
    rewrite <- Hperm. apply IH.
    + unfold l1. rewrite !length_insert. lia.
    + intros j Hj. rewrite Hl1. repeat case_decide; [lia | done |]. apply Hfull. lia.
    + intros j e Hj. rewrite Hl1. repeat case_decide; [done | lia |].
      destruct (decide (j <= lastIdx)%nat); [apply Hafter; lia | apply Htail; lia].
    + intros j e. rewrite Hl1. repeat case_decide; [done | intros [= <-]; subst; by rewrite lookup_insert_eq |].
      intros Hj. rewrite lookup_insert_ne; [by apply Hidx |]. intros ->.
      pose proof (Hidx _ _ Hj). pose proof (Hidx _ _ Hkd). congruence.
  - split; [|split].
    + intros [j Hj]%list_elem_of_lookup. pose proof (lookup_lt_Some _ _ _ Hj) as Hlt. rewrite length_take in Hlt.
      rewrite lookup_take_lt in Hj by lia. eapply Hfull; [|exact Hj]. lia.
    + rewrite (dead_tail idx l); [done |]. intros j e Hj. destruct (decide (j = idx)) as [->|]; [congruence |].
      destruct (decide (j <= lastIdx)%nat); [apply Hspec; lia | apply Htail; lia].
    + intros j e Hj. apply Hidx. pose proof (lookup_lt_Some _ _ _ Hj) as Hlt. rewrite length_take in Hlt.
      by rewrite lookup_take_lt in Hj by lia.
Qed.

Lemma squeeze_length : forall fuel idx lastIdx l idxs,
  (length (squeeze fuel idx lastIdx l idxs).1 <= length l)%nat.
Proof.
  induction fuel as [|fuel IH]; intros idx lastIdx l idxs; simpl; [rewrite length_take; lia |].
  destruct (l !! idx) as [[d|]|]; try apply IH.
  destruct (last_dest idx lastIdx l) as [[k d]|]; [|simpl; rewrite length_take; lia].
  etransitivity; [apply IH |]. by rewrite !length_insert.
Qed.

Lemma resetRoutes_ok l :
  routes_ok l -> routes_ok (resetRoutes l) /\ ~ holes (resetRoutes l) /\ live (resetRoutes l) ≡ₚ live l.
Proof.
  intros [Hi Hh]. unfold resetRoutes. destruct (rl_dirty l) eqn:Hd; simpl; cycle 1.
  { assert (Hn : ~ holes l) by (intros [_ ?]%Hh; congruence).
    split; [by constructor |]. by split. }
  pose proof (squeeze_spec (length (rl_list l)) 0 (length (rl_list l) - 1) (rl_list l) (rl_idx l)) as H.
  destruct (squeeze _ _ _ _ _) as [l' idxs']. destruct H as (Hn & Hp & Hx).
  - lia.
  - lia.
  - intros j e Hj Hl. apply lookup_lt_Some in Hl. lia.
  - done.
  - split; [by constructor |]. by split.
Qed.

(** *** Bulk reads *)

Lemma read_routes_spec shown l : forall n, let '(k, r) := read_routes shown l n in
  (k <= length l)%nat /\ r = filter (fun d => shown d = true) (omap id (take k l)) /\ (k = length l \/ length r = n) /\
  ((0 < n)%nat -> l <> [] -> (0 < k)%nat).
Proof.
  induction l as [|o l IH]; intros n; [destruct n; simpl; (split; [lia |]; split; [done |]; split; [by left | done]) |].
  destruct o as [d|]; destruct n as [|n]; simpl; try (split; [lia |]; split; [done |]; split; [by right | lia]; fail).
  - destruct (shown d) eqn:Hd; [specialize (IH n) | specialize (IH (S n))];
      destruct (read_routes shown l _) as [k r]; destruct IH as (? & -> & ? & _); simpl.
    + split; [lia |]. rewrite filter_cons_True by done. split; [done |]. split; [|lia]. simpl. lia.
    + split; [lia |]. rewrite filter_cons_False by (by rewrite Hd). split; [done |]. split; [lia | lia].
  - specialize (IH (S n)). destruct (read_routes shown l (S n)) as [k r]. destruct IH as (? & -> & ? & _).
    simpl. split; [lia |]. split; [done |]. split; lia.
Qed.

(** One page that starts at [index]. *)
Definition at_start (index : Z) (l : RouteList) : RouteList :=
  let l := if (index =? 0) && rl_active l then resetRoutes l else l in
  {| rl_list := rl_list l; rl_idx := rl_idx l; rl_dirty := rl_dirty l; rl_active := true |}.

#[global] Arguments at_start : simpl never.

Lemma at_start_ok index l : routes_ok l ->
  routes_ok (at_start index l) /\ rl_active (at_start index l) = true /\ live (at_start index l) ≡ₚ live l.
Proof.
  intros Hok. unfold at_start. set (l0 := if (index =? 0) && rl_active l then resetRoutes l else l).
  assert (H0 : routes_ok l0 /\ live l0 ≡ₚ live l /\ (holes l0 -> rl_dirty l0 = true)).
  { unfold l0. destruct ((index =? 0) && rl_active l).
    - pose proof (resetRoutes_ok l Hok) as (H & Hn & Hp). by split.
    - split; [done |]. split; [done |]. by intros [_ ?]%(ro_holes l Hok). }
  destruct H0 as ([Hi Hh] & Hp & Hd). split; [constructor; simpl; [done | intros H; split; [done | by apply Hd]] |]. by split.
Qed.

Lemma readRoutes_spec shown index count l :
  0 <= index -> 0 < count -> exists i r, readRoutes shown index count l = Ok (i, r, at_start index l) /\
    exists k, (Z.to_nat index <= k)%nat /\
      r = filter (fun d => shown d = true) (omap id (drop (Z.to_nat index) (take k (rl_list (at_start index l))))) /\
      (i = 0 /\ (length (rl_list (at_start index l)) <= k)%nat \/
       index < i < len (rl_list (at_start index l)) /\ k = Z.to_nat i).
Proof.
  intros Hi Hc. unfold readRoutes. fold (at_start index l). set (l0 := at_start index l).
  replace (index <? 0) with false by lia. simpl andb. cbv iota.
  pose proof (read_routes_spec shown (drop (Z.to_nat index) (rl_list l0)) (Z.to_nat count)) as H.
  destruct (read_routes shown (drop (Z.to_nat index) (rl_list l0)) (Z.to_nat count)) as [k r].
  destruct H as (Hk & Hr & Hend & Hpos). rewrite length_drop in Hk, Hend.
  do 2 eexists. split; [reflexivity |]. exists (Z.to_nat index + k)%nat. split; [lia |].
  split; [rewrite Hr; by rewrite take_drop_commute |].
  unfold len in *. destruct (Z.geb_spec (index + Z.of_nat k) (Z.of_nat (length (rl_list l0)))) as [Hge|Hlt].
  - left. split; [done | lia].
  - right. assert (Hne : drop (Z.to_nat index) (rl_list l0) <> []).
    { intros E. apply (f_equal length) in E. rewrite length_drop, length_nil in E. lia. }
    specialize (Hpos ltac:(lia) Hne). lia.
Qed.

(** A whole read: pages of [count] until the next index is 0, with other changes of the list between
    them. [keeps d]: the destination [d] is not removed by the changes. *)
Inductive change (keeps : dptr -> Prop) : RouteList -> RouteList -> Prop :=
  | change_add d l : d ∉ live l -> change keeps l (addRoute d l)
  | change_remove d l l' : d ∈ live l -> ~ keeps d -> removeRoute d l = Ok l' -> change keeps l l'.
Inductive bulk_read (keeps : dptr -> Prop) (shown : dptr -> bool) (count : Z) : Z -> RouteList -> list dptr -> Prop :=
  | bulk_end index l r l' : readRoutes shown index count l = Ok (0, r, l') -> bulk_read keeps shown count index l r
  | bulk_more index l i r l' l'' r' : readRoutes shown index count l = Ok (i, r, l') -> i <> 0 ->
      rtc (change keeps) l' l'' -> bulk_read keeps shown count i l'' r' -> bulk_read keeps shown count index l (r ++ r').

(** During a read, a destination that is kept keeps its place. *)
Lemma change_place keeps l l' d p :
  routes_ok l -> rl_active l = true -> keeps d -> rl_list l !! p = Some (Some d) -> change keeps l l' ->
  routes_ok l' /\ rl_active l' = true /\ rl_list l' !! p = Some (Some d).
Proof.
  intros Hok Ha Hd Hp H. destruct H as [e l He|e l l' He Hk Hr].
  - destruct (addRoute_ok e l Hok He) as [Hok' _]. split; [done |]. split; [done |]. simpl.
    apply lookup_app_l_Some. done.
  - destruct (removeRoute_ok e l Hok He) as (l1 & Hr1 & Hok' & _). rewrite Hr in Hr1. simplify_eq.
    split; [done |]. unfold removeRoute in Hr. apply elem_of_live in He as [j Hj].
    rewrite (ro_idx l Hok _ _ Hj), Ha, Hj in Hr. simpl in Hr. simplify_eq. simpl. split; [done |].
    rewrite list_lookup_insert_ne; [done |]. intros ->. rewrite Hp in Hj. simplify_eq. done.
Qed.
Lemma changes_place keeps l l' d p :
  rtc (change keeps) l l' -> routes_ok l -> rl_active l = true -> keeps d -> rl_list l !! p = Some (Some d) ->
  routes_ok l' /\ rl_active l' = true /\ rl_list l' !! p = Some (Some d).
Proof.
  intros H. induction H as [|l l1 l2 Hc _ IH]; intros Hok Ha Hd Hp; [done |].
  destruct (change_place _ _ _ _ _ Hok Ha Hd Hp Hc) as (? & ? & ?). by apply IH.
Qed.

Definition occurrences (d : dptr) (r : list dptr) : nat := length (filter (eq d) r).

Lemma occurrences_app d r r' : occurrences d (r ++ r') = (occurrences d r + occurrences d r')%nat.
Proof. unfold occurrences. by rewrite filter_app, length_app. Qed.

(** What a page has of [d], whose place is [p]. *)
Lemma page_occurrences shown l d p i k :
  routes_ok l -> rl_list l !! p = Some (Some d) -> shown d = true -> (i <= k)%nat ->
  occurrences d (filter (fun d => shown d = true) (omap id (drop i (take k (rl_list l)))))
  = if decide (i <= p < k)%nat then 1%nat else 0%nat.
Proof.
  intros Hok Hp Hs Hik.
  assert (Hnd : NoDup (omap id (drop i (take k (rl_list l))))).
  { pose proof (live_NoDup l Hok) as Hnd. unfold live in Hnd. rewrite <- (take_drop k (rl_list l)) in Hnd.
    rewrite omap_app in Hnd. apply NoDup_app in Hnd as [Hnd _].
    rewrite <- (take_drop i (take k (rl_list l))), omap_app in Hnd. by apply NoDup_app in Hnd as (_ & _ & Hnd). }
  assert (Hin : d ∈ omap id (drop i (take k (rl_list l))) <-> (i <= p < k)%nat).
  { rewrite list_elem_of_omap. split.
    - intros (o & Ho & Hd). unfold id in Hd. subst o. apply list_elem_of_lookup in Ho as [j Hj].
      rewrite lookup_drop in Hj. pose proof (lookup_lt_Some _ _ _ Hj) as Hlt. rewrite length_take in Hlt.
      rewrite lookup_take_lt in Hj by lia. pose proof (ro_idx l Hok _ _ Hj). pose proof (ro_idx l Hok _ _ Hp).
      simplify_eq. lia.
    - intros Hb. exists (Some d). split; [|done]. apply list_elem_of_lookup. exists (p - i)%nat.
      rewrite lookup_drop. replace (i + (p - i))%nat with p by lia. rewrite lookup_take_lt by lia. done. }
  unfold occurrences. revert Hnd Hin. generalize (omap id (drop i (take k (rl_list l)))) as xs. intros xs Hnd Hin.
  rewrite list_filter_filter.
  assert (Hone : forall ys : list dptr, NoDup ys -> length (filter (fun x => d = x /\ shown x = true) ys)
    = if decide (d ∈ ys) then 1%nat else 0%nat).
  { induction ys as [|y ys IH]; intros Hy; [done |]. apply NoDup_cons in Hy as [Hny Hy]. specialize (IH Hy).
    destruct (decide (d = y)) as [<-|Hne].
    - rewrite filter_cons_True by done. simpl. rewrite IH. rewrite decide_False by done. by rewrite decide_True by left.
    - rewrite filter_cons_False by naive_solver. rewrite IH. apply decide_ext. set_solver. }
  rewrite Hone by done. apply decide_ext. exact Hin.
Qed.

Lemma page_inj (i i' : Z) (r r' : list dptr) (l l' : RouteList) :
  Ok (i, r, l) = (Ok (i', r', l') : result _) -> i = i' /\ r = r' /\ l = l'.
Proof. intros [= -> -> ->]. done. Qed.

Lemma bulk_read_occurrences keeps shown count d p index l r :
  0 < count -> keeps d -> shown d = true -> bulk_read keeps shown count index l r ->
  0 <= index -> routes_ok l -> rl_list (at_start index l) !! p = Some (Some d) ->
  occurrences d r = if decide (Z.to_nat index <= p)%nat then 1%nat else 0%nat.
Proof.
  intros Hc Hk Hs H. induction H as [index l r l' Hr|index l i r l' l'' r' Hr Hi Hch _ IH]; intros Hidx Hok Hp.
  all: destruct (readRoutes_spec shown index count l Hidx Hc) as (i' & r0 & Hr' & k & Hik & -> & Hcase).
  all: rewrite Hr in Hr'; apply page_inj in Hr' as (? & -> & ->); try subst i'.
  all: destruct (at_start_ok index l Hok) as (Hok1 & Ha1 & _); pose proof (lookup_lt_Some _ _ _ Hp) as Hlt.
  - destruct Hcase as [[_ Hle]|[? _]]; [|lia]. rewrite (page_occurrences shown _ d p) by done.
    apply decide_ext. lia.
  - destruct Hcase as [[? _]|[Hb ->]]; [done |].
    destruct (changes_place _ _ _ _ _ Hch Hok1 Ha1 Hk Hp) as (Hok2 & Ha2 & Hp2).
    assert (Hp3 : rl_list (at_start i l'') !! p = Some (Some d)).
    { unfold at_start. by replace (i =? 0) with false by lia. }
    rewrite occurrences_app, (page_occurrences shown _ d p) by done. rewrite IH by (done || lia).
    repeat case_decide; lia.
Qed.

(** A read without changes in between. *)
Fixpoint read_all (fuel : nat) (shown : dptr -> bool) (count index : Z) (l : RouteList) : result (list dptr) :=
  match fuel with
  | O => Hang
  | S fuel =>
    x ← readRoutes shown index count l;
    if x.1.1 =? 0 then Ok x.1.2 else rest ← read_all fuel shown count x.1.1 x.2; Ok (x.1.2 ++ rest)
  end.

Lemma read_all_spec shown count : 0 < count -> forall fuel index l,
  0 <= index -> (0 < fuel)%nat -> (length (rl_list (at_start index l)) < fuel + Z.to_nat index)%nat ->
  read_all fuel shown count index l
  = Ok (filter (fun d => shown d = true) (omap id (drop (Z.to_nat index) (rl_list (at_start index l))))).
Proof.
  intros Hc. induction fuel as [|fuel IH]; intros index l Hi Hpos Hf; simpl; [lia |].
  destruct (readRoutes_spec shown index count l Hi Hc) as (i & r & Hr & k & Hik & -> & Hcase).
  rewrite Hr. simpl. destruct Hcase as [[-> Hle]|[Hb ->]].
  - simpl. by rewrite take_ge by done.
  - replace (i =? 0) with false by lia. rewrite IH; [|lia | unfold len in *; lia |]; cycle 1.
    { unfold at_start at 1. replace (i =? 0) with false by lia. simpl. unfold at_start in *. simpl in *. lia. }
    simpl. unfold at_start at 2. replace (i =? 0) with false by lia. simpl.
    f_equal. rewrite <- filter_app, <- omap_app. do 2 f_equal.
    rewrite <- (take_drop (Z.to_nat i) (rl_list (at_start index l))) at 3. rewrite drop_app_le; [done |].
    rewrite length_take. unfold len in Hb. lia.
Qed.

(** ** The properties *)

(** The list kept for bulk reads holds a set of destinations, each at its index: adding one that is
    not there and removing one that is succeed and have the effect of set insertion and deletion,
    during a bulk read and outside of one, and squeezing the holes out loses nothing and leaves
    none. *)
Theorem route_list_refines_set (l : RouteList) (d : dptr) :
  routes_ok l ->
  (d ∉ live l -> routes_ok (addRoute d l) /\ live (addRoute d l) ≡ₚ d :: live l) /\
  (d ∈ live l -> exists l', removeRoute d l = Ok l' /\ routes_ok l' /\ live l ≡ₚ d :: live l' /\ d ∉ live l') /\
  (routes_ok (resetRoutes l) /\ ~ holes (resetRoutes l) /\ live (resetRoutes l) ≡ₚ live l).
Proof.
  intros Hok. split; [|split; [|by apply resetRoutes_ok]].
  - intros Hd. destruct (addRoute_ok d l Hok Hd) as [H ->]. split; [done |]. by rewrite Permutation_app_comm.
  - intros Hd. destruct (removeRoute_ok d l Hok Hd) as (l' & ? & ? & Hp). exists l'. split; [done |].
    split; [done |]. split; [done |]. pose proof (live_NoDup l Hok) as Hn. rewrite Hp in Hn.
    by apply NoDup_cons in Hn as [? _].
Qed.

(** Three destinations; the second is removed during a read. *)
Definition list_example : RouteList := addRoute 3 (addRoute 2 (addRoute 1 no_routes)).
Lemma no_routes_ok : routes_ok no_routes.
Proof. constructor; simpl; [by intros | by intros ?%not_elem_of_nil]. Qed.
Lemma list_example_ok : routes_ok list_example.
Proof.
  unfold list_example. repeat (apply addRoute_ok; [| by apply (bool_decide_eq_true_1 _); vm_compute]).
  apply no_routes_ok.
Qed.

Lemma route_list_refines_set_witness :
  exists l', removeRoute 2 list_example = Ok l' /\ routes_ok l' /\ live list_example ≡ₚ 2 :: live l' /\ 2 ∉ live l'.
Proof.
  apply (route_list_refines_set list_example 2).
  - apply list_example_ok.
  - by apply (bool_decide_eq_true_1 _); vm_compute.
Defined.

(** A bulk read, page after page until the index comes back as 0, with destinations added and removed
    between the pages, returns every destination that is there all along, and has paths, exactly
    once. *)
Theorem bulk_read_each_once (keeps : dptr -> Prop) (shown : dptr -> bool) (count : Z) (l : RouteList) (d : dptr)
    (r : list dptr) :
  routes_ok l -> 0 < count -> keeps d -> shown d = true -> d ∈ live l ->
  bulk_read keeps shown count 0 l r -> occurrences d r = 1%nat.
Proof.
  intros Hok Hc Hk Hs Hd H. destruct (at_start_ok 0 l Hok) as (_ & _ & Hp).
  rewrite <- Hp in Hd. apply elem_of_live in Hd as [p Hd].
  by rewrite (bulk_read_occurrences keeps shown count d p 0 l r).
Qed.

Lemma bulk_read_each_once_witness :
  exists r, bulk_read (fun d => d <> 2) (fun _ => true) 1 0 list_example r /\ occurrences 3 r = 1%nat.
Proof.
  assert (H : exists r, bulk_read (fun d => d <> 2) (fun _ => true) 1 0 list_example r).
  { eexists. eapply bulk_more; [by vm_compute | done | |].
    - apply rtc_once. eapply (change_remove _ 2); [| | by vm_compute].
      + by apply (bool_decide_eq_true_1 _); vm_compute.
      + intros Hn. by apply Hn.
    - eapply bulk_end. by vm_compute. }
  destruct H as [r Hr]. exists r. split; [exact Hr |].
  apply (bulk_read_each_once (fun d => d <> 2) (fun _ => true) 1 list_example 3 r).
  - apply list_example_ok.
  - lia.
  - done.
  - done.
  - by apply (bool_decide_eq_true_1 _); vm_compute.
  - exact Hr.
Defined.

(** A bulk read ends, after at most one page more than the list is long, and without changes in
    between returns the destinations that have paths, in pages of the size asked for. *)
Theorem bulk_read_ends (shown : dptr -> bool) (count : Z) (l : RouteList) :
  routes_ok l -> 0 < count -> exists r, read_all (S (length (rl_list l))) shown count 0 l = Ok r /\
    r ≡ₚ filter (fun d => shown d = true) (live l).
Proof.
  intros Hok Hc. destruct (at_start_ok 0 l Hok) as (Hok1 & _ & Hp).
  eexists. split; [apply read_all_spec; [done | lia | lia |] |].
  - unfold at_start. simpl. destruct (rl_active l); simpl; [|lia]. unfold resetRoutes. destruct (rl_dirty l); simpl; [|lia].
    pose proof (squeeze_length (length (rl_list l)) 0 (length (rl_list l) - 1) (rl_list l) (rl_idx l)) as H.
    destruct (squeeze _ _ _ _ _). simpl in *. lia.
  - rewrite drop_0. change (omap id (rl_list (at_start 0 l))) with (live (at_start 0 l)). by rewrite Hp.
Qed.

Lemma bulk_read_ends_witness :
  exists r, read_all 4 (fun _ => true) 2 0 list_example = Ok r /\ r ≡ₚ filter (fun d => true = true) [1; 2; 3].
Proof. apply (bulk_read_ends (fun _ => true) 2 list_example); [apply list_example_ok | lia]. Defined.
