(* ===== verification/BgpRib.v ===== *)
(** The routing table of the BGP daemon, the Loc-RIB ([src/bgp/rib/rib.go]): destinations by address
    family and prefix, the paths whose next hop cannot be reached, and the processing of the routes
    of an update.

    The state holds the memory of the program that the handlers share: [l_mem] for the [*Path]s,
    [l_dests] for the [*Destination]s. The route manager and the state database are other daemons:
    their calls are recorded in [l_trace]; the route manager's answer to a query for a next hop is a
    parameter. A range over a map visits the keys in an order that is a parameter. *)
From stdpp Require Import base numbers list gmap strings pretty.
From Stdlib Require Import ZArith Lia Ascii.
From S2P Require Import Prelude GoNet BgpBase BgpNlri BgpAttrs BgpHelpers BgpPath BgpDest BgpRouteList.
Open Scope Z_scope.

Definition AggregatePathId : Z := 0.

(** What happens outside: routes for the route manager, objects for the state database. *)
Inductive RibEvent :=
  | RouteMgr (a : RibAction)
  | AddObject (dest : dptr)
  | UpdateObject (dest : dptr)
  | DeleteObject (dest : dptr).

(** [map[string]map[*Path]map[*Destination][]uint32] *)
Abbreviation Unreachable := (gmap string (gmap ptr (gmap dptr (list Z)))).

(** [l_prefixes] is [State.TotalPrefixes] of the neighbours, by address. *)
Record LocRib := {
  l_mem : ptr -> Path;
  l_dests : gmap dptr Destination;
  l_nextDest : dptr;
  l_destPathMap : gmap Z (gmap string dptr);
  l_reachabilityMap : gmap string ReachabilityInfo;
  l_unreachablePaths : Unreachable;
  l_routesCount : gmap Z Z;
  l_routes : RouteLists;
  l_prefixes : gmap string Z;
  l_trace : list RibEvent;
}.

Definition set_l_mem (v : ptr -> Path) (l : LocRib) : LocRib := {| l_mem := v; l_dests := l_dests l;
  l_nextDest := l_nextDest l; l_destPathMap := l_destPathMap l; l_reachabilityMap :=
  l_reachabilityMap l; l_unreachablePaths := l_unreachablePaths l; l_routesCount := l_routesCount l;
  l_routes := l_routes l; l_prefixes := l_prefixes l; l_trace := l_trace l |}.
Definition set_l_dests (v : gmap dptr Destination) (l : LocRib) : LocRib := {| l_mem := l_mem l;
  l_dests := v; l_nextDest := l_nextDest l; l_destPathMap := l_destPathMap l; l_reachabilityMap :=
  l_reachabilityMap l; l_unreachablePaths := l_unreachablePaths l; l_routesCount := l_routesCount l;
  l_routes := l_routes l; l_prefixes := l_prefixes l; l_trace := l_trace l |}.
Definition set_l_nextDest (v : dptr) (l : LocRib) : LocRib := {| l_mem := l_mem l; l_dests :=
  l_dests l; l_nextDest := v; l_destPathMap := l_destPathMap l; l_reachabilityMap :=
  l_reachabilityMap l; l_unreachablePaths := l_unreachablePaths l; l_routesCount := l_routesCount l;
  l_routes := l_routes l; l_prefixes := l_prefixes l; l_trace := l_trace l |}.
Definition set_l_destPathMap (v : gmap Z (gmap string dptr)) (l : LocRib) : LocRib := {| l_mem :=
  l_mem l; l_dests := l_dests l; l_nextDest := l_nextDest l; l_destPathMap := v; l_reachabilityMap
  := l_reachabilityMap l; l_unreachablePaths := l_unreachablePaths l; l_routesCount := l_routesCount
  l; l_routes := l_routes l; l_prefixes := l_prefixes l; l_trace := l_trace l |}.
Definition set_l_reachabilityMap (v : gmap string ReachabilityInfo) (l : LocRib) : LocRib := {|
  l_mem := l_mem l; l_dests := l_dests l; l_nextDest := l_nextDest l; l_destPathMap := l_destPathMap
  l; l_reachabilityMap := v; l_unreachablePaths := l_unreachablePaths l; l_routesCount :=
  l_routesCount l; l_routes := l_routes l; l_prefixes := l_prefixes l; l_trace := l_trace l |}.
Definition set_l_unreachablePaths (v : Unreachable) (l : LocRib) : LocRib := {| l_mem := l_mem l;
  l_dests := l_dests l; l_nextDest := l_nextDest l; l_destPathMap := l_destPathMap l;
  l_reachabilityMap := l_reachabilityMap l; l_unreachablePaths := v; l_routesCount := l_routesCount
  l; l_routes := l_routes l; l_prefixes := l_prefixes l; l_trace := l_trace l |}.
Definition set_l_routesCount (v : gmap Z Z) (l : LocRib) : LocRib := {| l_mem := l_mem l; l_dests :=
  l_dests l; l_nextDest := l_nextDest l; l_destPathMap := l_destPathMap l; l_reachabilityMap :=
  l_reachabilityMap l; l_unreachablePaths := l_unreachablePaths l; l_routesCount := v; l_routes :=
  l_routes l; l_prefixes := l_prefixes l; l_trace := l_trace l |}.
Definition set_l_routes (v : RouteLists) (l : LocRib) : LocRib := {| l_mem := l_mem l; l_dests :=
  l_dests l; l_nextDest := l_nextDest l; l_destPathMap := l_destPathMap l; l_reachabilityMap :=
  l_reachabilityMap l; l_unreachablePaths := l_unreachablePaths l; l_routesCount := l_routesCount l;
  l_routes := v; l_prefixes := l_prefixes l; l_trace := l_trace l |}.
Definition set_l_prefixes (v : gmap string Z) (l : LocRib) : LocRib := {| l_mem := l_mem l; l_dests
  := l_dests l; l_nextDest := l_nextDest l; l_destPathMap := l_destPathMap l; l_reachabilityMap :=
  l_reachabilityMap l; l_unreachablePaths := l_unreachablePaths l; l_routesCount := l_routesCount l;
  l_routes := l_routes l; l_prefixes := v; l_trace := l_trace l |}.
Definition set_l_trace (v : list RibEvent) (l : LocRib) : LocRib := {| l_mem := l_mem l; l_dests :=
  l_dests l; l_nextDest := l_nextDest l; l_destPathMap := l_destPathMap l; l_reachabilityMap :=
  l_reachabilityMap l; l_unreachablePaths := l_unreachablePaths l; l_routesCount := l_routesCount l;
  l_routes := l_routes l; l_prefixes := l_prefixes l; l_trace := v |}.
Definition NewLocRib (mem : ptr -> Path) : LocRib :=
  {| l_mem := mem; l_dests := ∅; l_nextDest := 0; l_destPathMap := ∅; l_reachabilityMap := ∅;
     l_unreachablePaths := ∅; l_routesCount := ∅; l_routes := ∅; l_prefixes := ∅; l_trace := [] |}.

Definition emit (e : list RibEvent) (l : LocRib) : LocRib := set_l_trace (l_trace l ++ e) l.
Definition put_dest (dp : dptr) (d : Destination) (l : LocRib) : LocRib := set_l_dests (<[dp := d]> (l_dests l)) l.
Definition get_dest (dp : dptr) (l : LocRib) : result Destination :=
  match l_dests l !! dp with Some d => Ok d | None => Panic end.

(** ** Prefixes and destinations *)

Definition GetCIDR (n : NLRI) : string :=
  ip_String (nlri_prefix n) +:+ "/" +:+ pretty (nlri_length n).

Definition isIpInList (prefixes : list NLRI) (ip : NLRI) : bool :=
  existsb (fun nlri => (GetPathId nlri =? GetPathId ip) && ip_Equal (nlri_prefix nlri) (nlri_prefix ip)) prefixes.

Definition GetDestFromIPAndLen (protoFamily : Z) (ip : string) (l : LocRib) : option dptr :=
  l_destPathMap l !! protoFamily ≫= fun m => m !! ip.

(** [NewDestination], entered in the map, the list for bulk reads, and the count. *)
Definition new_dest (nlri : NLRI) (protoFamily : Z) (l : LocRib) : dptr * LocRib :=
  let dp := l_nextDest l in
  let l := set_l_nextDest (dp + 1) (put_dest dp (NewDestination nlri protoFamily) l) in
  let l := set_l_destPathMap (alter (<[GetCIDR nlri := dp]>) protoFamily (l_destPathMap l)) l in
  let l := set_l_routes (addRoutesToRouteList dp protoFamily (l_routes l)) l in
  (dp, set_l_routesCount (<[protoFamily := u32 (default 0 (l_routesCount l !! protoFamily) + 1)]> (l_routesCount l)) l).

Definition GetDest (nlri : NLRI) (protoFamily : Z) (createIfNotExist : bool) (l : LocRib)
    : option dptr * bool * LocRib :=
  match l_destPathMap l !! protoFamily with
  | None => if negb createIfNotExist then (None, false, l)
            else
              let l := set_l_destPathMap (<[protoFamily := ∅]> (l_destPathMap l)) l in
              let '(dp, l) := new_dest nlri protoFamily l in (Some dp, false, l)
  | Some nlriDestMap =>
    match nlriDestMap !! GetCIDR nlri with
    | Some dp => (Some dp, true, l)
    | None => if negb createIfNotExist then (None, false, l)
              else let '(dp, l) := new_dest nlri protoFamily l in (Some dp, false, l)
    end
  end.

(** The end of a destination. *)
Definition delete_dest (dp : dptr) (protoFamily : Z) (cidr : string) (l : LocRib) : result LocRib :=
  routes ← removeRoutesFromRouteList dp protoFamily (l_routes l);
  let l := set_l_routes routes l in
  let l := set_l_destPathMap (alter (delete cidr) protoFamily (l_destPathMap l)) l in
  Ok (set_l_routesCount (<[protoFamily := u32 (default 0 (l_routesCount l !! protoFamily) - 1)]> (l_routesCount l)) l).

(** ** Next hops *)

(** The fields of [config.NextHopInfo] that are read. *)
Record NextHopInfo := { nhi_Metric : Z; nhi_NextHopIp : string; nhi_NextHopIfType : Z; nhi_NextHopIfIndex : Z }.

(** [nextHop == "" || nextHop[0] == '0' || nextHop == "::"] *)
Definition no_next_hop (nextHop : string) : bool :=
  match nextHop with
  | EmptyString => true
  | String c _ => bool_decide (c = "0"%char) || bool_decide (nextHop = "::")
  end.

Section rib.
Context (rangeS : list string -> list string) (rangeZ : list Z -> list Z).
Context (gosort : (ptr -> ptr -> bool) -> list ptr -> list ptr) (gConf : RibGlobalConfig).
Context (GetNextHopInfo : string -> option NextHopInfo) (maxPrefixes : string -> Z).

Definition GetReachabilityInfo (ipStr : string) (l : LocRib) : option ReachabilityInfo * LocRib :=
  match l_reachabilityMap l !! ipStr with
  | Some r => (Some r, l)
  | None =>
    match GetNextHopInfo ipStr with
    | None => (None, l)
    | Some nh =>
      let nextHop := if no_next_hop (nhi_NextHopIp nh) then ipStr else nhi_NextHopIp nh in
      let r := {| ri_NextHop := nextHop; ri_NextHopIfType := nhi_NextHopIfType nh;
                  ri_NextHopIfIdx := nhi_NextHopIfIndex nh; ri_Metric := nhi_Metric nh |} in
      (Some r, set_l_reachabilityMap (<[ipStr := r]> (l_reachabilityMap l)) l)
    end
  end.

(** ** What is announced *)

(** The three results that the handlers thread through. *)
Record RibOut := {
  out_updated : gmap Z (gmap (option ptr) (list dptr));
  out_withdrawn : list dptr;
  out_addPaths : list dptr;
}.
Definition no_out : RibOut := {| out_updated := ∅; out_withdrawn := []; out_addPaths := [] |}.

Definition updateRibOutInfo (action : RouteAction) (addPathsMod : bool) (dp : dptr) (d : Destination) (o : RibOut)
    : RibOut :=
  match action with
  | RouteActionAdd | RouteActionReplace =>
    let m := default ∅ (out_updated o !! d_protoFamily d) in
    let ds := default [] (m !! d_LocRibPath d) in
    {| out_updated := <[d_protoFamily d := <[d_LocRibPath d := ds ++ [dp]]> m]> (out_updated o);
       out_withdrawn := out_withdrawn o; out_addPaths := out_addPaths o |}
  | RouteActionDelete =>
    {| out_updated := out_updated o; out_withdrawn := out_withdrawn o ++ [dp]; out_addPaths := out_addPaths o |}
  | RouteActionNone =>
    if addPathsMod then
      {| out_updated := out_updated o; out_withdrawn := out_withdrawn o; out_addPaths := out_addPaths o ++ [dp] |}
    else o
  end.

(** [dest.SelectRouteForLocRib(addPathCount)] and [updateRibOutInfo]. *)
Definition select_dest (addPathCount : Z) (dp : dptr) (l : LocRib) (o : RibOut)
    : result (RouteAction * LocRib * RibOut) :=
  d ← get_dest dp l;
  sel ← SelectRouteForLocRib (l_mem l) rangeS rangeZ gosort gConf addPathCount d;
  let l := emit (RouteMgr <$> sel_trace sel) (put_dest dp (sel_dest sel) l) in
  Ok (sel_action sel, l, updateRibOutInfo (sel_action sel) (sel_addPathsUpdated sel) dp (sel_dest sel) o).

(** [dest] is dropped when its last path is gone; the object of the state database follows. *)
Definition end_of_dest (action : RouteAction) (dp : dptr) (protoFamily : Z) (cidr : string) (l : LocRib)
    : result LocRib :=
  d ← get_dest dp l;
  if match action with RouteActionDelete => IsEmpty d | _ => false end then
    l ← delete_dest dp protoFamily cidr l; Ok (emit [DeleteObject dp] l)
  else Ok (emit [UpdateObject dp] l).

(** ** The paths with a next hop that cannot be reached *)

(** [pathIds[idx] = pathIds[len-1]; pathIds = pathIds[:len-1]] at the first occurrence of the id. *)
Definition remove_pathId (pathId : Z) (ids : list Z) : list Z :=
  match list_find (eq pathId) ids, last ids with
  | Some (idx, _), Some x => take (length ids - 1) (<[idx := x]> ids)
  | _, _ => ids
  end.
Definition forget_unreachable (nextHop : string) (p : ptr) (dp : dptr) (pathId : Z) (m : Unreachable) : Unreachable :=
  match m !! nextHop with
  | None => m
  | Some m1 =>
    let m1 :=
      match m1 !! p with
      | None => m1
      | Some m2 =>
        let m2 := match m2 !! dp with
                  | None => m2
                  | Some ids => let ids := remove_pathId pathId ids in
                                if bool_decide (ids = []) then delete dp m2 else <[dp := ids]> m2
                  end in
        if bool_decide (m2 = ∅) then delete p m1 else <[p := m2]> m1
      end in
    if bool_decide (m1 = ∅) then delete nextHop m else <[nextHop := m1]> m
  end.

(** The maps are made by [TestNHAndProcessRoutes]; writing to a map that is not there panics. *)
Definition note_unreachable (nextHop : string) (p : ptr) (dp : dptr) (pathId : Z) (m : Unreachable)
    : result Unreachable :=
  match m !! nextHop ≫= fun m1 => pair m1 <$> m1 !! p with
  | None => Panic
  | Some (m1, m2) => Ok (<[nextHop := <[p := <[dp := default [] (m2 !! dp) ++ [pathId]]> m2]> m1]> m)
  end.
Definition make_unreachable (nextHop : string) (p : ptr) (m : Unreachable) : Unreachable :=
  let m1 := default ∅ (m !! nextHop) in
  <[nextHop := <[p := default ∅ (m1 !! p)]> m1]> m.

(** ** Counting the prefixes of a neighbour *)

Definition neighbor_key (n : RibNeighbor) : string := ip_String (nb_Address n).
Definition prefix_count (n : RibNeighbor) (l : LocRib) : Z := default 0 (l_prefixes l !! neighbor_key n).
Definition set_prefix_count (n : RibNeighbor) (c : Z) (l : LocRib) : LocRib :=
  set_l_prefixes (<[neighbor_key n := c]> (l_prefixes l)) l.
Definition IncrPrefixCount (n : RibNeighbor) (l : LocRib) : LocRib :=
  set_prefix_count n (u32 (prefix_count n l + 1)) l.
Definition DecrPrefixCount (n : RibNeighbor) (l : LocRib) : LocRib :=
  set_prefix_count n (u32 (prefix_count n l - 1)) l.
(** [SetPrefixCount] ignores its argument. *)
Definition SetPrefixCount (n : RibNeighbor) (count : Z) (l : LocRib) : LocRib := set_prefix_count n 0 l.
Definition CanAcceptNewPrefix (n : RibNeighbor) (l : LocRib) : bool :=
  negb ((maxPrefixes (neighbor_key n) >? 0) && (prefix_count n l >=? maxPrefixes (neighbor_key n))).

(** ** The routes of an update *)

(** The body of the loop over the withdrawn prefixes, for one that is not announced as well;
    [remNeighbor] is [remPath.GetNeighborConf()]. *)
Definition process_withdraw (peerIP : string) (remNeighbor : option RibNeighbor) (addPathCount protoFamily : Z)
    (nlri : NLRI) (l : LocRib) (o : RibOut) : result (LocRib * RibOut) :=
  match GetDest nlri protoFamily false l with
  | (Some dp, true, _) =>
    d ← get_dest dp l;
    x ← RemovePath peerIP (GetPathId nlri) d;
    let l := put_dest dp x.2 l in
    let l := match x.1 with
             | Some old =>
               if IsReachable (l_mem l old) (d_protoFamily d) then l
               else match Path_GetNextHop (l_mem l old) (d_protoFamily d) with
                    | [] => l
                    | nextHop => set_l_unreachablePaths
                        (forget_unreachable (ip_String nextHop) old dp (GetPathId nlri) (l_unreachablePaths l)) l
                    end
             | None => l
             end in
    y ← select_dest addPathCount dp l o;
    let '(action, l, o) := y in
    let l := match x.1, remNeighbor with Some _, Some n => DecrPrefixCount n l | _, _ => l end in
    l ← end_of_dest action dp protoFamily (GetCIDR nlri) l;
    Ok (l, o)
  | _ => Ok (l, o)
  end.
Fixpoint process_withdraws (peerIP : string) (add : list NLRI) (remNeighbor : option RibNeighbor)
    (addPathCount protoFamily : Z) (rem : list NLRI) (l : LocRib) (o : RibOut) : result (LocRib * RibOut) :=
  match rem with
  | [] => Ok (l, o)
  | nlri :: rem =>
    x ← (if isIpInList add nlri then Ok (l, o)
         else process_withdraw peerIP remNeighbor addPathCount protoFamily nlri l o);
    process_withdraws peerIP add remNeighbor addPathCount protoFamily rem x.1 x.2
  end.

(** The body of the loop over the announced prefixes: whether the limit was kept. *)
Definition process_announce (peerIP : string) (addPath : ptr) (addPathCount protoFamily : Z) (nextHopStr : string)
    (nlri : NLRI) (l : LocRib) (o : RibOut) : result (bool * LocRib * RibOut) :=
  if bool_decide (ip_String (nlri_prefix nlri) = "0.0.0.0") then Ok (true, l, o)
  else
    match GetDest nlri protoFamily true l with
    | (None, _, _) => Panic
    | (Some dp, alreadyCreated, l) =>
      d ← get_dest dp l;
      let count := match getPathForIP peerIP (GetPathId nlri) d, pt_NeighborConf (l_mem l addPath) with
                   | None, Some n => if CanAcceptNewPrefix n l then Some (IncrPrefixCount n l) else None
                   | _, _ => Some l
                   end in
      match count with
      | None => Ok (false, l, o)
      | Some l =>
        x ← AddOrUpdatePath (l_mem l) peerIP (GetPathId nlri) addPath d;
        let l := put_dest dp x.2 l in
        if negb (IsReachable (l_mem l addPath) protoFamily) then
          m ← note_unreachable nextHopStr addPath dp (GetPathId nlri) (l_unreachablePaths l);
          Ok (true, set_l_unreachablePaths m l, o)
        else
          y ← select_dest addPathCount dp l o;
          let '(_, l, o) := y in
          Ok (true, emit [if (alreadyCreated : bool) then UpdateObject dp else AddObject dp] l, o)
      end
    end.
Fixpoint process_announces (peerIP : string) (addPath : ptr) (addPathCount protoFamily : Z) (nextHopStr : string)
    (add : list NLRI) (all : bool) (l : LocRib) (o : RibOut) : result (LocRib * RibOut * bool) :=
  match add with
  | [] => Ok (l, o, all)
  | nlri :: add =>
    x ← process_announce peerIP addPath addPathCount protoFamily nextHopStr nlri l o;
    let '(kept, l, o) := x in
    process_announces peerIP addPath addPathCount protoFamily nextHopStr add (all && kept) l o
  end.

Definition ProcessRoutes (peerIP : string) (add rem : list NLRI) (addPath : ptr) (remNeighbor : option RibNeighbor)
    (addPathCount protoFamily : Z) (l : LocRib) (o : RibOut) : result (LocRib * RibOut * bool) :=
  x ← process_withdraws peerIP add remNeighbor addPathCount protoFamily rem l o;
  let nextHopStr := ip_String (Path_GetNextHop (l_mem x.1 addPath) protoFamily) in
  process_announces peerIP addPath addPathCount protoFamily nextHopStr add true x.1 x.2.

(** ** A next hop that can be reached *)

Fixpoint add_path_ids (peerIP : string) (path : ptr) (mem : ptr -> Path) (ids : list Z) (d : Destination)
    : result Destination :=
  match ids with
  | [] => Ok d
  | pathId :: ids => x ← AddOrUpdatePath mem peerIP pathId path d; add_path_ids peerIP path mem ids x.2
  end.
Fixpoint reach_dests (peerIP : string) (path : ptr) (addPathCount : Z) (destinations : gmap dptr (list Z))
    (dps : list dptr) (l : LocRib) (o : RibOut) : result (LocRib * RibOut) :=
  match dps with
  | [] => Ok (l, o)
  | dp :: dps =>
    d ← get_dest dp l;
    d ← add_path_ids peerIP path (l_mem l) (default [] (destinations !! dp)) d;
    y ← select_dest addPathCount dp (put_dest dp d l) o;
    let '(_, l, o) := y in
    reach_dests peerIP path addPathCount destinations dps (emit [AddObject dp] l) o
  end.
Definition set_mem (p : ptr) (f : Path -> Path) (l : LocRib) : LocRib :=
  set_l_mem (fun q => if p =? q then f (l_mem l q) else l_mem l q) l.
Definition GetPeerIP (p : Path) : string :=
  match pt_NeighborConf p with Some n => ip_String (nb_Address n) | None => "" end.
Fixpoint reach_paths (nextHop : string) (reach : ReachabilityInfo) (addPathCount : Z)
    (paths : gmap ptr (gmap dptr (list Z))) (ps : list ptr) (l : LocRib) (o : RibOut) : result (LocRib * RibOut) :=
  match ps with
  | [] => Ok (l, o)
  | path :: ps =>
    let l := set_mem path (SetReachabilityForNextHop nextHop (Some reach)) l in
    let peerIP := GetPeerIP (l_mem l path) in
    x ← (if bool_decide (peerIP = "") then Ok (l, o)
         else let destinations := default ∅ (paths !! path) in
              reach_dests peerIP path addPathCount destinations (rangeZ (map_to_list destinations).*1) l o);
    reach_paths nextHop reach addPathCount paths ps x.1 x.2
  end.
Definition ProcessRoutesForReachableRoutes (nextHop : string) (reach : ReachabilityInfo) (addPathCount : Z)
    (l : LocRib) (o : RibOut) : result (LocRib * RibOut) :=
  match l_unreachablePaths l !! nextHop with
  | None => Ok (l, o)
  | Some paths => reach_paths nextHop reach addPathCount paths (rangeZ (map_to_list paths).*1) l o
  end.

Definition TestNHAndProcessRoutes (peerIP : string) (add remove : list NLRI) (addPath : ptr)
    (remNeighbor : option RibNeighbor) (addPathCount protoFamily : Z) (l : LocRib) (o : RibOut)
    : result (LocRib * RibOut * bool) :=
  match add with
  | [] => ProcessRoutes peerIP add remove addPath remNeighbor addPathCount protoFamily l o
  | _ =>
    match Path_GetNextHop (l_mem l addPath) protoFamily with
    | [] => Ok (l, o, true)
    | nextHop =>
      let nextHopStr := ip_String nextHop in
      let '(reach, l) := GetReachabilityInfo nextHopStr l in
      let l := set_mem addPath (SetReachabilityForFamily protoFamily reach) l in
      valid ← IsValid (l_mem l addPath);
      if negb valid then Ok (l, o, true)
      else
        let l := match reach with
                 | None => set_l_unreachablePaths (make_unreachable nextHopStr addPath (l_unreachablePaths l)) l
                 | Some _ => l
                 end in
        x ← ProcessRoutes peerIP add remove addPath remNeighbor addPathCount protoFamily l o;
        let '(l, o, all) := x in
        match reach with
        | None => Ok (l, o, all)
        | Some r => y ← ProcessRoutesForReachableRoutes nextHopStr r addPathCount l o; Ok (y.1, y.2, all)
        end
    end
  end.

Definition ProcessUpdate (neighborConf : RibNeighbor) (path : ptr) (add rem : list NLRI)
    (protoFamily addPathCount : Z) (l : LocRib) (o : RibOut) : result (LocRib * RibOut * bool) :=
  match add, rem with
  | [], [] => Ok (l, o, true)
  | _, _ => TestNHAndProcessRoutes (ip_String (nb_Address neighborConf)) add rem path
              (pt_NeighborConf (l_mem l path)) addPathCount protoFamily l o
  end.

(** The paths to announce and to withdraw after a change of policy, in the order the two maps are
    visited; the loops stop at the first family whose prefixes exceed the limit. *)
Fixpoint filtered_families (neighborConf : RibNeighbor) (path : ptr) (addPathCount : Z)
    (pfs : list (Z * (list NLRI * list NLRI))) (l : LocRib) (o : RibOut) : result (LocRib * RibOut * bool) :=
  match pfs with
  | [] => Ok (l, o, true)
  | (protoFamily, (add, rem)) :: pfs =>
    x ← TestNHAndProcessRoutes (ip_String (nb_Address neighborConf)) add rem path
          (pt_NeighborConf (l_mem l path)) addPathCount protoFamily l o;
    let '(l, o, all) := x in
    if (all : bool) then filtered_families neighborConf path addPathCount pfs l o else Ok (l, o, false)
  end.
Fixpoint ProcessFilteredRoutes (neighborConf : RibNeighbor) (addPathCount : Z)
    (filteredRoutes : list (ptr * list (Z * (list NLRI * list NLRI)))) (l : LocRib) (o : RibOut)
    : result (LocRib * RibOut * bool) :=
  match filteredRoutes with
  | [] => Ok (l, o, true)
  | (path, pfs) :: filteredRoutes =>
    x ← filtered_families neighborConf path addPathCount pfs l o;
    let '(l, o, all) := x in
    if (all : bool) then ProcessFilteredRoutes neighborConf addPathCount filteredRoutes l o else Ok (l, o, false)
  end.

Fixpoint connected_families (src : string) (path : ptr) (addPathCount : Z) (add rem : gmap Z (list NLRI))
    (pfs : list Z) (l : LocRib) (o : RibOut) : result (LocRib * RibOut) :=
  match pfs with
  | [] => Ok (l, o)
  | protoFamily :: pfs =>
    x ← ProcessRoutes src (default [] (add !! protoFamily)) (default [] (rem !! protoFamily)) path
          (pt_NeighborConf (l_mem l path)) addPathCount protoFamily l o;
    connected_families src path addPathCount add rem pfs x.1.1 x.1.2
  end.
(** The families with withdrawn routes come first and are taken out of [add]. *)
Definition ProcessConnectedRoutes (src : string) (path : ptr) (add remove : gmap Z (list NLRI)) (addPathCount : Z)
    (l : LocRib) : result (LocRib * RibOut) :=
  x ← connected_families src path addPathCount add remove (rangeZ (map_to_list remove).*1) l no_out;
  let rest := filter (fun x => remove !! x.1 = None) add in
  connected_families src path addPathCount rest ∅ (rangeZ (map_to_list rest).*1) x.1 x.2.

(** ** The end of neighbours *)

(** The two loops over the destinations: [change] is applied to each before routes are selected. *)
Fixpoint each_dest (change : LocRib -> Destination -> result Destination) (addPathCount protoFamily : Z)
    (cidrs : list string) (l : LocRib) (o : RibOut) : result (LocRib * RibOut) :=
  match cidrs with
  | [] => Ok (l, o)
  | cidr :: cidrs =>
    x ← (match GetDestFromIPAndLen protoFamily cidr l with
         | None => Ok (l, o)
         | Some dp =>
           d ← get_dest dp l;
           d ← change l d;
           y ← select_dest addPathCount dp (put_dest dp d l) o;
           let '(action, l, o) := y in
           l ← end_of_dest action dp protoFamily cidr l;
           Ok (l, o)
         end);
    each_dest change addPathCount protoFamily cidrs x.1 x.2
  end.
Fixpoint each_family (change : LocRib -> Destination -> result Destination) (addPathCount : Z) (pfs : list Z)
    (l : LocRib) (o : RibOut) : result (LocRib * RibOut) :=
  match pfs with
  | [] => Ok (l, o)
  | pf :: pfs =>
    x ← each_dest change addPathCount pf
          (rangeS (map_to_list (default ∅ (l_destPathMap l !! pf))).*1) l o;
    each_family change addPathCount pfs x.1 x.2
  end.

Definition RemoveUpdatesFromNeighbor (peerIP : string) (neighborConf : option RibNeighbor) (addPathCount : Z)
    (l : LocRib) : result (LocRib * RibOut) :=
  x ← each_family (fun _ d => RemoveAllPaths rangeZ peerIP d) addPathCount
        (rangeZ (map_to_list (l_destPathMap l)).*1) l no_out;
  Ok (match neighborConf with Some n => SetPrefixCount n 0 x.1 | None => x.1 end, x.2).

Definition RemoveUpdatesFromAllNeighbors (addPathCount : Z) (l : LocRib) : result LocRib :=
  x ← each_family (fun l d => Ok (RemoveAllNeighborPaths (l_mem l) d)) addPathCount
        (rangeZ (map_to_list (l_destPathMap l)).*1) l no_out;
  Ok x.1.

(** ** Reads *)

Definition GetLocRib (l : LocRib) : gmap Z (gmap ptr (list dptr)) :=
  map_imap (fun protoFamily ipDestMap => Some (
    fold_left (fun m cidr =>
      match ipDestMap !! cidr ≫= fun dp => l_dests l !! dp ≫= fun d => pair dp <$> d_LocRibPath d with
      | Some (dp, p) => <[p := default [] (m !! p) ++ [dp]]> m
      | None => m
      end) (rangeS (map_to_list (ipDestMap : gmap string dptr)).*1) (∅ : gmap ptr (list dptr)))) (l_destPathMap l).

Definition GetBGPRoute (prefix : string) (protocolFamily : Z) (l : LocRib) : option dptr :=
  GetDestFromIPAndLen protocolFamily prefix l.
Definition BulkGetRoutes (index count protoFamily : Z) (l : LocRib) : result (Z * list dptr * LocRib) :=
  let shown dp := match l_dests l !! dp with Some d => len (d_Paths d) >? 0 | None => false end in
  x ← BulkGetBGPRoutes shown index count protoFamily (l_routes l);
  Ok (x.1.1, x.1.2, set_l_routes x.2 l).
End rib.
