(* ===== verification/BgpRibFacts.v ===== *)
(** The routing table of the BGP daemon, operation by operation: the destinations, the lists for bulk
    reads and the counts stay in step, and what the handlers do to the paths of the table. *)
From stdpp Require Import base numbers list gmap strings.
From Stdlib Require Import ZArith Lia.
From S2P Require Import Prelude GoNet BgpBase BgpNlri BgpAttrs BgpHelpers BgpPath BgpPathFacts BgpDest BgpDestFacts BgpDestSpec BgpRouteList BgpRib.
Open Scope Z_scope.

(** ** The invariant *)

Abbreviation dest_at l pf cidr := (GetDestFromIPAndLen pf cidr l).

Record rib_ok (l : LocRib) : Prop := {
  rib_dest : forall pf cidr dp, dest_at l pf cidr = Some dp -> exists d, l_dests l !! dp = Some d /\ table_ok d /\
    d_protoFamily d = pf /\ GetCIDR (d_NLRI d) = cidr;
  rib_fresh : forall dp, is_Some (l_dests l !! dp) -> dp < l_nextDest l;
  rib_lists : forall pf rl, l_routes l !! pf = Some rl -> routes_ok rl;
  rib_listed : forall pf dp, (exists cidr, dest_at l pf cidr = Some dp) <->
    exists rl, l_routes l !! pf = Some rl /\ dp ∈ live rl;
  rib_count : forall pf, default 0 (l_routesCount l !! pf) = u32 (Z.of_nat (size (default ∅ (l_destPathMap l !! pf))));
}.

(** ** The specification: paths by family, prefix, peer and path identifier *)

Abbreviation RibKey := (Z * string * (string * Z))%type.
Abbreviation RibTable := (gmap RibKey ptr).
Definition rib_path (l : LocRib) (k : RibKey) : option ptr :=
  dest_at l k.1.1 k.1.2 ≫= fun dp => l_dests l !! dp ≫= getPathForIP k.2.1 k.2.2.
Definition rib_implements (l : LocRib) (t : RibTable) : Prop := rib_ok l /\ forall k, t !! k = rib_path l k.

Definition nlri_key (protoFamily : Z) (peer : string) (n : NLRI) : RibKey :=
  (protoFamily, GetCIDR n, (peer, GetPathId n)).
Definition announce (protoFamily : Z) (peer : string) (path : ptr) (t : RibTable) (n : NLRI) : RibTable :=
  <[nlri_key protoFamily peer n := path]> t.
Definition withdraw (protoFamily : Z) (peer : string) (t : RibTable) (n : NLRI) : RibTable :=
  delete (nlri_key protoFamily peer n) t.
Definition default_route (n : NLRI) : bool := bool_decide (ip_String (nlri_prefix n) = "0.0.0.0").
(** The two name the same address under the same path identifier; their prefix lengths may differ. *)
Definition same_address (n a : NLRI) : Prop := GetPathId a = GetPathId n /\ ip_Equal (nlri_prefix a) (nlri_prefix n) = true.
(** Withdrawals first, but not those of an address that is announced as well; the address 0.0.0.0 is not announced. *)
Definition update_table (protoFamily : Z) (peer : string) (path : ptr) (add rem : list NLRI) (t : RibTable)
    : RibTable :=
  foldl (announce protoFamily peer path)
    (foldl (withdraw protoFamily peer) t (filter (fun n => ~ Exists (fun a => same_address n a) add) rem))
    (filter (fun n => default_route n = false) add).

(** ** The parts of the state the invariant is about *)

Record same_core (l l' : LocRib) : Prop := {
  sc_dests : l_dests l' = l_dests l;
  sc_next : l_nextDest l' = l_nextDest l;
  sc_map : l_destPathMap l' = l_destPathMap l;
  sc_count : l_routesCount l' = l_routesCount l;
  sc_routes : l_routes l' = l_routes l;
}.
#[export] Instance same_core_preorder : PreOrder same_core.
Proof. split; [by constructor |]. intros l1 l2 l3 [] []. constructor; congruence. Qed.

Lemma same_core_at l l' pf cidr : same_core l l' -> dest_at l' pf cidr = dest_at l pf cidr.
Proof. intros [_ _ Hm _ _]. unfold GetDestFromIPAndLen. by rewrite Hm. Qed.
Lemma same_core_path l l' k : same_core l l' -> rib_path l' k = rib_path l k.
Proof. intros H. unfold rib_path. by rewrite (same_core_at _ _ _ _ H), (sc_dests _ _ H). Qed.
Lemma same_core_ok l l' : same_core l l' -> rib_ok l -> rib_ok l'.
Proof.
  intros H [Hd Hf Hl Hi Hc]. constructor.
  - intros pf cidr dp. rewrite (same_core_at _ _ _ _ H), (sc_dests _ _ H). apply Hd.
  - rewrite (sc_dests _ _ H), (sc_next _ _ H). exact Hf.
  - rewrite (sc_routes _ _ H). exact Hl.
  - intros pf dp. rewrite (sc_routes _ _ H), <- Hi. f_equiv. intros cidr. by rewrite (same_core_at _ _ _ _ H).
  - intros pf. rewrite (sc_count _ _ H), (sc_map _ _ H). apply Hc.
Qed.
Lemma same_core_implements l l' t : same_core l l' -> rib_implements l t -> rib_implements l' t.
Proof.
  intros H [Hok Ht]. split; [by eapply same_core_ok |]. intros k. by rewrite (same_core_path _ _ _ H).
Qed.

Lemma same_emit e l : same_core l (emit e l). Proof. by constructor. Qed.
Lemma same_unreachable m l : same_core l (set_l_unreachablePaths m l). Proof. by constructor. Qed.
Lemma same_prefix_count n c l : same_core l (set_prefix_count n c l). Proof. by constructor. Qed.
Lemma same_mem m l : same_core l (set_l_mem m l). Proof. by constructor. Qed.
Create HintDb core_same.
#[export] Hint Resolve same_emit same_unreachable same_prefix_count same_mem : core_same.

(** ** Replacing a destination *)

Lemma at_inj l pf pf' cidr cidr' dp :
  rib_ok l -> dest_at l pf cidr = Some dp -> dest_at l pf' cidr' = Some dp -> pf = pf' /\ cidr = cidr'.
Proof.
  intros Hok H H'. destruct (rib_dest l Hok _ _ _ H) as (d & Hd & _ & Hp & Hc).
  destruct (rib_dest l Hok _ _ _ H') as (d' & Hd' & _ & Hp' & Hc'). simplify_eq. done.
Qed.

Lemma put_dest_ok l pf cidr dp d d' :
  rib_ok l -> dest_at l pf cidr = Some dp -> l_dests l !! dp = Some d ->
  table_ok d' -> d_protoFamily d' = d_protoFamily d -> d_NLRI d' = d_NLRI d ->
  rib_ok (put_dest dp d' l) /\
  forall k, rib_path (put_dest dp d' l) k = if decide (k.1 = (pf, cidr)) then getPathForIP k.2.1 k.2.2 d' else rib_path l k.
Proof.
  intros Hok Hat Hd Hok' Hpf Hn. pose proof Hok as [Hde Hf Hl Hi Hc]. split.
  - constructor; simpl; [| | exact Hl | exact Hi | exact Hc].
    + intros pf' cidr' dp' Hat'. destruct (decide (dp = dp')) as [<-|Hne].
      * exists d'. rewrite lookup_insert_eq, Hpf, Hn. destruct (Hde _ _ _ Hat') as (d0 & Hd0 & _ & ? & ?).
        by simplify_eq.
      * rewrite lookup_insert_ne by done. by apply Hde.
    + intros dp' H. apply Hf. apply lookup_insert_is_Some in H as [<-|[_ H]]; [by eexists | done].
  - intros [[pf' cidr'] [peer id]]. unfold rib_path. simpl.
    change (dest_at (put_dest dp d' l) pf' cidr') with (dest_at l pf' cidr').
    destruct (decide ((pf', cidr') = (pf, cidr))) as [[= -> ->]|Hne].
    + rewrite Hat. simpl. by rewrite lookup_insert_eq.
    + destruct (dest_at l pf' cidr') as [dp'|] eqn:Hat'; simpl; [|done].
      rewrite lookup_insert_ne; [done |]. intros <-. apply Hne.
      by destruct (at_inj _ _ _ _ _ _ Hok Hat Hat') as [-> ->].
Qed.

(** ** Destinations keep their name *)

Lemma insert_path_name mem peer id path idx d d' :
  insert_path mem peer id path idx d = Ok d' -> d_protoFamily d' = d_protoFamily d /\ d_NLRI d' = d_NLRI d /\
  d_maxPathId d' <= Z.max (d_maxPathId d) (u32 (d_maxPathId d + 1)).
Proof.
  intros H. unfold insert_path in H. pose proof (same_mark_recalculate mem path d) as Hs.
  destruct (same_nlri _ _ Hs) as [Hn Hp]. pose proof (same_max _ _ Hs) as Hm.
  unfold getNextPathId in H. destruct (last (d_pathIds (mark_recalculate mem path d))).
  all: apply bind_Ok_inv in H as (rt & _ & H); apply bind_Ok_inv in H as ([j ps] & _ & [= <-]); simpl.
  all: rewrite Hn, Hp, Hm; split; [done |]; split; [done | lia].
Qed.

Lemma AddOrUpdatePath_name mem peer id path d b d' :
  AddOrUpdatePath mem peer id path d = Ok (b, d') -> d_protoFamily d' = d_protoFamily d /\ d_NLRI d' = d_NLRI d /\
  d_maxPathId d' <= Z.max (d_maxPathId d) (u32 (d_maxPathId d + 1)).
Proof.
  unfold AddOrUpdatePath. set (d0 := set_d_peerPathMap _ d). intros H.
  destruct (default ∅ (d_peerPathMap d !! peer) !! id) as [old|].
  - destruct (old =? path); [simplify_eq; simpl; split; [done |]; split; [done | lia] |].
    destruct (forget_old old d0) as [i d1] eqn:Hf. apply bind_Ok_inv in H as (d2 & H & [= _ <-]).
    apply insert_path_name in H as (-> & -> & Hm).
    assert (Hd1 : d_protoFamily d1 = d_protoFamily d /\ d_NLRI d1 = d_NLRI d /\ d_maxPathId d1 = d_maxPathId d).
    { unfold forget_old in Hf. destruct (d_pathRouteMap d0 !! old); injection Hf as _ <-; by case_bool_decide. }
    destruct Hd1 as (-> & -> & Hd1). rewrite Hd1 in Hm. done.
  - apply bind_Ok_inv in H as (d2 & H & [= _ <-]). by apply insert_path_name in H.
Qed.

Lemma RemovePath_name peer id d o d' :
  RemovePath peer id d = Ok (o, d') -> d_protoFamily d' = d_protoFamily d /\ d_NLRI d' = d_NLRI d /\
  (d_maxPathId d' = d_maxPathId d \/ d_maxPathId d' = u32 (d_maxPathId d - 1)).
Proof.
  unfold RemovePath. destruct (getPathForIP peer id d) as [old|]; [|intros [= _ <-]; by repeat split; left].
  set (d1 := if bool_decide (d_LocRibPath _ = _) then _ else _).
  assert (Hd1 : d_protoFamily d1 = d_protoFamily d /\ d_NLRI d1 = d_NLRI d /\ d_maxPathId d1 = d_maxPathId d).
  { unfold d1. destruct (d_ecmpPaths d !! old); by case_bool_decide. }
  clearbody d1. destruct (d_pathRouteMap d1 !! old) as [r|]; [|done]. simpl.
  destruct (d_routes d1 !! r) as [rt|]; [|done]. simpl. intros H. apply bind_Ok_inv in H as (d2 & H & [= _ <-]).
  destruct Hd1 as (<- & <- & <-).
  assert (Hrel : d_protoFamily (releasePathId (r_OutPathId rt) d1) = d_protoFamily d1 /\
    d_NLRI (releasePathId (r_OutPathId rt) d1) = d_NLRI d1 /\
    (d_maxPathId (releasePathId (r_OutPathId rt) d1) = d_maxPathId d1 \/
     d_maxPathId (releasePathId (r_OutPathId rt) d1) = u32 (d_maxPathId d1 - 1))).
  { unfold releasePathId. destruct (_ =? _); simpl; eauto. }
  unfold remove_shown in H. destruct (_ =? -1); [by simplify_eq |].
  destruct (last _) as [x|]; [|done]. destruct (d_PathInfoRouteMap _ !! x); [|by simplify_eq].
  apply bind_Ok_inv in H as (ps & _ & [= <-]). done.
Qed.

(** ** Finding and making a destination *)

Lemma dest_at_alter l l' pf f pf' cidr :
  l_destPathMap l' = alter f pf (l_destPathMap l) ->
  dest_at l' pf' cidr = if decide (pf = pf') then (f <$> l_destPathMap l !! pf) ≫= fun m => m !! cidr else dest_at l pf' cidr.
Proof.
  intros H. unfold GetDestFromIPAndLen. rewrite H. destruct (decide (pf = pf')) as [<-|Hne].
  - by rewrite lookup_alter_eq.
  - by rewrite lookup_alter_ne.
Qed.

Lemma not_listed l pf dp rl :
  rib_ok l -> l_nextDest l <= dp -> l_routes l !! pf = Some rl -> dp ∉ live rl.
Proof.
  intros Hok Hdp Hrl Hin. destruct (proj2 (rib_listed l Hok pf dp)) as [cidr Hat]; [by exists rl |].
  destruct (rib_dest l Hok _ _ _ Hat) as (d & Hd & _). pose proof (rib_fresh l Hok dp ltac:(by eexists)). lia.
Qed.

Lemma new_dest_ok nlri pf m l :
  rib_ok l -> l_destPathMap l !! pf = Some m -> m !! GetCIDR nlri = None ->
  let '(dp, l') := new_dest nlri pf l in
  rib_ok l' /\ dest_at l' pf (GetCIDR nlri) = Some dp /\ l_dests l' !! dp = Some (NewDestination nlri pf) /\
  (forall dp', dp' <> dp -> l_dests l' !! dp' = l_dests l !! dp') /\ forall k, rib_path l' k = rib_path l k.
Proof.
  intros Hok Hm Hnone. pose proof Hok as [Hde Hf Hl Hi Hc]. unfold new_dest. set (dp := l_nextDest l).
  set (l' := set_l_routesCount _ _).
  assert (Hat : forall pf' cidr, dest_at l' pf' cidr
    = if decide ((pf, GetCIDR nlri) = (pf', cidr)) then Some dp else dest_at l pf' cidr).
  { intros pf' cidr. rewrite (dest_at_alter l l' pf (<[GetCIDR nlri := dp]>)) by done.
    destruct (decide (pf = pf')) as [<-|Hne]; [|by rewrite decide_False by congruence].
    rewrite Hm. simpl. unfold GetDestFromIPAndLen. rewrite Hm. simpl.
    destruct (decide (GetCIDR nlri = cidr)) as [<-|Hne].
    - by rewrite decide_True, lookup_insert_eq.
    - by rewrite decide_False, lookup_insert_ne by congruence. }
  assert (Hdp : l_dests l !! dp = None).
  { destruct (l_dests l !! dp) eqn:E; [|done]. pose proof (Hf dp ltac:(by eexists)). unfold dp in *. lia. }
  assert (Hatdp : forall pf' cidr, dest_at l pf' cidr <> Some dp).
  { intros pf' cidr H. destruct (Hde _ _ _ H) as (d & Hd & _). congruence. }
  assert (Hrl : default no_routes (l_routes l !! pf) = default no_routes (l_routes l !! pf) /\
    routes_ok (default no_routes (l_routes l !! pf)) /\ dp ∉ live (default no_routes (l_routes l !! pf))).
  { split; [done |]. destruct (l_routes l !! pf) as [rl|] eqn:E; simpl.
    - split; [by eapply Hl |]. eapply not_listed; [done | | done]. unfold dp. lia.
    - split; [apply no_routes_ok | by intros ?%not_elem_of_nil]. }
  destruct Hrl as (_ & Hrl & Hndp). destruct (addRoute_ok dp _ Hrl Hndp) as [Hadd Hlive].
  split; [constructor |].
  - intros pf' cidr dp'. rewrite Hat. destruct (decide _) as [[= <- <-]|Hne].
    + intros [= <-]. exists (NewDestination nlri pf). simpl. rewrite lookup_insert_eq.
      split; [done |]. split; [apply NewDestination_ok | done].
    + intros H. simpl. rewrite lookup_insert_ne by (intros <-; by eapply Hatdp). by apply Hde.
  - intros dp' H. simpl in *. apply lookup_insert_is_Some in H as [<-|[_ H]]; [lia |]. specialize (Hf dp' H). lia.
  - intros pf' rl. simpl. unfold addRoutesToRouteList. intros [[<- <-]|[Hne H]]%lookup_insert_Some; [done | by eapply Hl].
  - intros pf' dp'. simpl. unfold addRoutesToRouteList. destruct (decide (pf = pf')) as [<-|Hne].
    + rewrite lookup_insert_eq. split.
      * intros [cidr H]. rewrite Hat in H. eexists. split; [done |]. rewrite Hlive. apply elem_of_app.
        destruct (decide _); [right; simplify_eq; left |]. left.
        destruct (proj1 (Hi pf dp') (ex_intro _ cidr H)) as (rl & -> & Hin). done.
      * intros (rl & [= <-] & Hin). rewrite Hlive in Hin. apply elem_of_app in Hin as [Hin|Hin%list_elem_of_singleton].
        -- destruct (l_routes l !! pf) as [rl|] eqn:E; simpl in Hin; [|by apply not_elem_of_nil in Hin].
           destruct (proj2 (Hi pf dp') ltac:(eauto)) as [cidr H]. exists cidr. rewrite Hat, decide_False; [done |].
           intros [= <-]. unfold GetDestFromIPAndLen in H. rewrite Hm in H. simpl in H. congruence.
        -- subst dp'. exists (GetCIDR nlri). by rewrite Hat, decide_True.
    + rewrite lookup_insert_ne by done. rewrite <- Hi. f_equiv. intros cidr. rewrite Hat, decide_False by congruence. done.
  - intros pf'. simpl. destruct (decide (pf = pf')) as [<-|Hne].
    + rewrite lookup_insert_eq, lookup_alter_eq, Hm. simpl. rewrite map_size_insert_None by done.
      rewrite Hc, Hm. simpl. rewrite Nat2Z.inj_succ. unfold u32. rewrite Zplus_mod_idemp_l. f_equal; lia.
    + rewrite lookup_insert_ne, lookup_alter_ne by done. apply Hc.
  - split; [by rewrite Hat, decide_True |]. split; [by simpl; rewrite lookup_insert_eq |].
    split; [intros dp' Hne; simpl; by rewrite lookup_insert_ne |].
    intros [[pf' cidr] [peer id]]. unfold rib_path. simpl. rewrite Hat. destruct (decide _) as [[= <- <-]|Hne].
    + simpl. rewrite lookup_insert_eq. simpl. unfold getPathForIP. simpl. rewrite lookup_empty. simpl.
      unfold GetDestFromIPAndLen. rewrite Hm. simpl. by rewrite Hnone.
    + destruct (dest_at l pf' cidr) as [dp'|] eqn:E; simpl; [|done].
      rewrite lookup_insert_ne; [done |]. intros <-. by eapply Hatdp.
Qed.

(** The rest of the state. *)
Record same_rest (l l' : LocRib) : Prop := {
  sr_mem : l_mem l' = l_mem l;
  sr_prefixes : l_prefixes l' = l_prefixes l;
  sr_unreachable : l_unreachablePaths l' = l_unreachablePaths l;
  sr_reach : l_reachabilityMap l' = l_reachabilityMap l;
}.
#[export] Instance same_rest_preorder : PreOrder same_rest.
Proof. split; [by constructor |]. intros l1 l2 l3 [] []. constructor; congruence. Qed.

Lemma family_ok l pf :
  rib_ok l -> l_destPathMap l !! pf = None ->
  rib_ok (set_l_destPathMap (<[pf := ∅]> (l_destPathMap l)) l) /\
  forall k, rib_path (set_l_destPathMap (<[pf := ∅]> (l_destPathMap l)) l) k = rib_path l k.
Proof.
  intros [Hde Hf Hl Hi Hc] Hn. set (l' := set_l_destPathMap _ l).
  assert (Hat : forall pf' cidr, dest_at l' pf' cidr = dest_at l pf' cidr).
  { intros pf' cidr. unfold GetDestFromIPAndLen, l'. simpl. destruct (decide (pf = pf')) as [<-|Hne].
    - rewrite lookup_insert_eq, Hn. simpl. apply lookup_empty.
    - by rewrite lookup_insert_ne. }
  split; [constructor; simpl |].
  - intros pf' cidr dp. rewrite Hat. apply Hde.
  - exact Hf.
  - exact Hl.
  - intros pf' dp. rewrite <- Hi. f_equiv. intros cidr. by rewrite Hat.
  - intros pf'. rewrite Hc. destruct (decide (pf = pf')) as [<-|Hne]; [by rewrite lookup_insert_eq, Hn |].
    by rewrite lookup_insert_ne.
  - intros k. unfold rib_path. rewrite Hat. done.
Qed.

Lemma GetDest_create nlri pf l :
  rib_ok l -> exists dp b l', GetDest nlri pf true l = (Some dp, b, l') /\ rib_ok l' /\
    dest_at l' pf (GetCIDR nlri) = Some dp /\ (forall k, rib_path l' k = rib_path l k) /\ same_rest l l' /\
    forall dp' d, l_dests l' !! dp' = Some d -> l_dests l !! dp' = Some d \/ d = NewDestination nlri pf.
Proof.
  intros Hok. unfold GetDest.
  assert (Hnew : forall m l1, rib_ok l1 -> l_destPathMap l1 !! pf = Some m -> m !! GetCIDR nlri = None ->
    same_rest l l1 -> l_dests l1 = l_dests l -> (forall k, rib_path l1 k = rib_path l k) ->
    exists dp b l', (let '(dp, l) := new_dest nlri pf l1 in (Some dp, false, l)) = (Some dp, b, l') /\ rib_ok l' /\
      dest_at l' pf (GetCIDR nlri) = Some dp /\ (forall k, rib_path l' k = rib_path l k) /\ same_rest l l' /\
      forall dp' d, l_dests l' !! dp' = Some d -> l_dests l !! dp' = Some d \/ d = NewDestination nlri pf).
  { intros m l1 Hok1 Hm Hn Hs Hd Hp. pose proof (new_dest_ok nlri pf m l1 Hok1 Hm Hn) as H.
    assert (Hs1 : same_rest l1 (new_dest nlri pf l1).2) by by constructor.
    destruct (new_dest nlri pf l1) as [dp l'] eqn:E. destruct H as (Hok' & Hat & Hdp & Hother & Hp').
    exists dp, false, l'. split; [done |]. split; [done |]. split; [done |].
    split; [intros k; by rewrite Hp', Hp |]. split; [by etransitivity |].
    intros dp' d Hd'. destruct (decide (dp' = dp)) as [->|Hne]; [right; congruence | left].
    by rewrite <- Hd, <- Hother. }
  destruct (l_destPathMap l !! pf) as [m|] eqn:Hm; cbn [negb]; cbv iota.
  - destruct (m !! GetCIDR nlri) as [dp|] eqn:Hdp; [|by eapply Hnew].
    exists dp, true, l. split; [done |]. split; [done |].
    split; [unfold GetDestFromIPAndLen; by rewrite Hm |]. split; [done |]. split; [reflexivity | by left].
  - destruct (family_ok l pf Hok Hm) as [Hok1 Hp1]. apply (Hnew ∅ (set_l_destPathMap (<[pf := ∅]> (l_destPathMap l)) l)); [exact Hok1 | apply lookup_insert_eq | apply lookup_empty | by constructor | done | done].
Qed.

Lemma GetDest_find nlri pf l :
  GetDest nlri pf false l = match dest_at l pf (GetCIDR nlri) with Some dp => (Some dp, true, l) | None => (None, false, l) end.
Proof.
  unfold GetDest, GetDestFromIPAndLen. destruct (l_destPathMap l !! pf) as [m|]; simpl; [|done].
  by destruct (m !! GetCIDR nlri).
Qed.

Section facts.
Context (rangeS : list string -> list string) (rangeZ : list Z -> list Z).
Context (gosort : (ptr -> ptr -> bool) -> list ptr -> list ptr) (gConf : RibGlobalConfig).

Lemma select_dest_ok cnt pf cidr dp l o a l' o' :
  rib_ok l -> dest_at l pf cidr = Some dp ->
  select_dest rangeS rangeZ gosort gConf cnt dp l o = Ok (a, l', o') ->
  rib_ok l' /\ (forall k, rib_path l' k = rib_path l k) /\ same_rest l l' /\ dest_at l' pf cidr = Some dp /\
  exists d d', l_dests l !! dp = Some d /\ l_dests l' = <[dp := d']> (l_dests l) /\ same_rows d d'.
Proof.
  intros Hok Hat H. destruct (rib_dest l Hok _ _ _ Hat) as (d & Hd & Hdok & _). unfold select_dest, get_dest in H.
  rewrite Hd, bind_Ok in H. apply bind_Ok_inv in H as (sel & Hsel & [= _ <- _]).
  pose proof (SelectRouteForLocRib_same _ _ _ _ _ _ _ _ Hsel) as Hs.
  destruct (same_nlri _ _ Hs) as [Hn Hp].
  destruct (put_dest_ok l pf cidr dp d (sel_dest sel) Hok Hat Hd) as [Hok' Hpath]; [by eapply same_table_ok | done | done |].
  assert (Hse : same_core (put_dest dp (sel_dest sel) l)
    (emit (RouteMgr <$> sel_trace sel) (put_dest dp (sel_dest sel) l))) by apply same_emit.
  split; [by eapply same_core_ok |]. split; [|split; [by constructor |]; split; [done |]].
  - intros k. rewrite (same_core_path _ _ _ Hse), Hpath. case_decide as Hk; [|done].
    destruct k as [[pf' cidr'] [peer id]]. simpl in Hk. simplify_eq. unfold rib_path. simpl. rewrite Hat. simpl.
    rewrite Hd. simpl. apply option_eq. intros p. apply (same_paths _ _ Hs (peer, id) p).
  - exists d, (sel_dest sel). done.
Qed.

Lemma delete_dest_ok pf cidr dp l d :
  rib_ok l -> dest_at l pf cidr = Some dp -> l_dests l !! dp = Some d -> IsEmpty d = true ->
  exists l', delete_dest dp pf cidr l = Ok l' /\ rib_ok l' /\ (forall k, rib_path l' k = rib_path l k) /\
    same_rest l l' /\ l_dests l' = l_dests l.
Proof.
  intros Hok Hat Hd He. pose proof Hok as [Hde Hf Hl Hi Hc].
  destruct (proj1 (Hi pf dp) (ex_intro _ cidr Hat)) as (rl & Hrl & Hin).
  destruct (removeRoute_ok dp rl (Hl _ _ Hrl) Hin) as (rl' & Hrem & Hrok & Hlive).
  assert (Hm : exists m, l_destPathMap l !! pf = Some m /\ m !! cidr = Some dp).
  { unfold GetDestFromIPAndLen in Hat. destruct (l_destPathMap l !! pf) as [m|]; [by exists m | done]. }
  destruct Hm as (m & Hm & Hmc).
  unfold delete_dest, removeRoutesFromRouteList. rewrite Hrl, Hrem, !bind_Ok.
  eexists. split; [reflexivity |]. set (l' := set_l_routesCount _ _).
  assert (Hat' : forall pf' cidr', dest_at l' pf' cidr'
    = if decide ((pf, cidr) = (pf', cidr')) then None else dest_at l pf' cidr').
  { intros pf' cidr'. rewrite (dest_at_alter l l' pf (delete cidr)) by done.
    destruct (decide (pf = pf')) as [<-|Hne]; [|by rewrite decide_False by congruence].
    rewrite Hm. simpl. unfold GetDestFromIPAndLen. rewrite Hm. simpl. destruct (decide (cidr = cidr')) as [<-|Hne].
    - by rewrite decide_True, lookup_delete_eq.
    - by rewrite decide_False, lookup_delete_ne by congruence. }
  assert (Hnd : dp ∉ live rl').
  { pose proof (live_NoDup rl (Hl _ _ Hrl)) as Hn. rewrite Hlive in Hn. by apply NoDup_cons in Hn as [? _]. }
  split; [constructor |].
  - intros pf' cidr' dp'. rewrite Hat'. case_decide; [done |]. apply Hde.
  - exact Hf.
  - intros pf' rl0. simpl. intros [[<- <-]|[Hne H]]%lookup_insert_Some; [done | by eapply Hl].
  - intros pf' dp'. simpl. destruct (decide (pf = pf')) as [<-|Hne].
    + rewrite lookup_insert_eq. split.
      * intros [cidr' H]. rewrite Hat' in H. case_decide as Hk; [done |]. exists rl'. split; [done |].
        destruct (proj1 (Hi pf dp') (ex_intro _ cidr' H)) as (rl0 & Hrl0 & Hin'). simplify_eq.
        rewrite Hlive in Hin'. apply elem_of_cons in Hin' as [->|?]; [|done]. exfalso. apply Hk.
        by destruct (at_inj _ _ _ _ _ _ Hok Hat H) as [_ ->].
      * intros (rl0 & [= <-] & Hin'). destruct (proj2 (Hi pf dp')) as [cidr' H].
        { exists rl. split; [done |]. rewrite Hlive. by right. }
        exists cidr'. rewrite Hat', decide_False; [done |]. intros [= <-]. congruence.
    + rewrite lookup_insert_ne by done. rewrite <- Hi. f_equiv. intros cidr'. by rewrite Hat', decide_False by congruence.
  - intros pf'. simpl. destruct (decide (pf = pf')) as [<-|Hne].
    + rewrite lookup_insert_eq, lookup_alter_eq, Hm. simpl. rewrite Hc, Hm. simpl.
      rewrite map_size_delete_Some by by eexists.
      assert (size m <> 0%nat) by (apply map_size_ne_0_lookup; by exists cidr, dp).
      replace (Z.of_nat (size m)) with (Z.of_nat (Nat.pred (size m)) + 1) by lia.
      unfold u32. rewrite Zminus_mod_idemp_l. f_equal. lia.
    + rewrite lookup_insert_ne, lookup_alter_ne by done. apply Hc.
  - split; [|split; [by constructor | done]].
    intros [[pf' cidr'] [peer id]]. unfold rib_path. simpl. rewrite Hat'. case_decide as Hk; [|done].
    simplify_eq. rewrite Hat. simpl. rewrite Hd. simpl. unfold IsEmpty in He. apply bool_decide_eq_true_1 in He.
    unfold getPathForIP. by rewrite He, lookup_empty.
Qed.

(** ** The handlers *)

(** [n] more identifiers can be given in every destination. *)
Definition room (n : Z) (l : LocRib) : Prop :=
  0 <= n < 2 ^ 32 - 1 /\ forall dp d, l_dests l !! dp = Some d -> d_maxPathId d + n < 2 ^ 32.

Lemma room_dests n l l' : l_dests l' = l_dests l -> room n l -> room n l'.
Proof. unfold room. by intros ->. Qed.
Lemma room_put n l dp d : room n l -> d_maxPathId d + n < 2 ^ 32 -> room n (put_dest dp d l).
Proof. intros [Hn H] Hd. split; [done |]. simpl. intros dp' d'. intros [[<- <-]|[_ Hl]]%lookup_insert_Some; [done | by eapply H]. Qed.
Lemma room_le n n' l : 0 <= n' <= n -> room n l -> room n' l.
Proof. intros Hn [H0 H]. split; [lia |]. intros dp d Hd. specialize (H dp d Hd). lia. Qed.

Lemma select_room cnt pf cidr dp l o a l' o' n :
  rib_ok l -> dest_at l pf cidr = Some dp ->
  select_dest rangeS rangeZ gosort gConf cnt dp l o = Ok (a, l', o') -> room n l -> room n l'.
Proof.
  intros Hok Hat H Hr. destruct (select_dest_ok _ _ _ _ _ _ _ _ _ Hok Hat H) as (_ & _ & _ & _ & d & d' & Hd & Hd' & Hs).
  apply (room_dests n (put_dest dp d' l)); [done |]. apply room_put; [done |]. rewrite (same_max _ _ Hs). by eapply (proj2 Hr).
Qed.

(** Dropping a destination, or not. *)
Lemma end_of_dest_ok a pf cidr dp l l' :
  rib_ok l -> dest_at l pf cidr = Some dp -> end_of_dest a dp pf cidr l = Ok l' ->
  rib_ok l' /\ (forall k, rib_path l' k = rib_path l k) /\ same_rest l l' /\ l_dests l' = l_dests l.
Proof.
  intros Hok Hat H. destruct (rib_dest l Hok _ _ _ Hat) as (d & Hd & _). unfold end_of_dest, get_dest in H.
  rewrite Hd, bind_Ok in H.
  assert (Hkeep : forall l1, Ok (emit [UpdateObject dp] l) = (Ok l1 : result _) ->
    rib_ok l1 /\ (forall k, rib_path l1 k = rib_path l k) /\ same_rest l l1 /\ l_dests l1 = l_dests l).
  { intros l1 [= <-]. pose proof (same_emit [UpdateObject dp] l) as Hs. split; [by eapply same_core_ok |].
    split; [intros k; by apply same_core_path |]. by split. }
  destruct a; try by apply Hkeep. destruct (IsEmpty d) eqn:He; [|by apply Hkeep].
  apply bind_Ok_inv in H as (l1 & H1 & [= <-]).
  destruct (delete_dest_ok pf cidr dp l d Hok Hat Hd He) as (l2 & H2 & Hok2 & Hp & Hr & Hds).
  assert (l2 = l1) as -> by congruence. pose proof (same_emit [DeleteObject dp] l1) as Hs.
  split; [by eapply same_core_ok |]. split; [intros k; by rewrite (same_core_path _ _ _ Hs), Hp |].
  split; [|done]. etransitivity; [exact Hr | by constructor].
Qed.

(** The steps of a handler after it has changed one path of a destination. *)
Lemma one_path_changed l t pf cidr dp d d' :
  rib_implements l t -> dest_at l pf cidr = Some dp -> l_dests l !! dp = Some d ->
  table_ok d' -> d_protoFamily d' = d_protoFamily d -> d_NLRI d' = d_NLRI d ->
  forall t', (forall k p, current d' k p <-> t' !! (pf, cidr, k) = Some p) ->
  (forall k, k.1 <> (pf, cidr) -> t' !! k = t !! k) ->
  rib_implements (put_dest dp d' l) t'.
Proof.
  intros [Hok Ht] Hat Hd Hok' Hpf Hn t' Hin Hout.
  destruct (put_dest_ok l pf cidr dp d d' Hok Hat Hd Hok' Hpf Hn) as [Hok2 Hp]. split; [done |].
  intros k. rewrite Hp. case_decide as Hk; [|rewrite Hout by done; apply Ht].
  destruct k as [[pf' cidr'] [peer id]]. simpl in *. simplify_eq. apply option_eq. intros p. symmetry.
  apply (Hin (peer, id) p).
Qed.

Lemma rib_path_at l t pf cidr dp d k :
  rib_implements l t -> dest_at l pf cidr = Some dp -> l_dests l !! dp = Some d ->
  t !! (pf, cidr, k) = getPathForIP k.1 k.2 d.
Proof. intros [_ Ht] Hat Hd. rewrite Ht. unfold rib_path. simpl. rewrite Hat. simpl. by rewrite Hd. Qed.

Lemma process_withdraw_ok peer rn cnt pf nlri l o l' o' t n :
  rib_implements l t -> room n l ->
  process_withdraw rangeS rangeZ gosort gConf peer rn cnt pf nlri l o = Ok (l', o') ->
  rib_implements l' (withdraw pf peer t nlri) /\ room n l' /\ l_mem l' = l_mem l.
Proof.
  intros Him Hroom H. pose proof Him as [Hok Ht]. unfold process_withdraw in H. rewrite GetDest_find in H.
  unfold withdraw, nlri_key. destruct (dest_at l pf (GetCIDR nlri)) as [dp|] eqn:Hat; cycle 1.
  { simplify_eq. rewrite delete_id; [done |]. rewrite Ht. unfold rib_path. simpl. by rewrite Hat. }
  destruct (rib_dest l Hok _ _ _ Hat) as (d & Hd & Hdok & _). unfold get_dest in H at 1. rewrite Hd, bind_Ok in H.
  destruct (RemovePath_ok peer (GetPathId nlri) d Hdok) as (d' & Hrem & Hok' & Hc). rewrite Hrem, bind_Ok in H.
  destruct (RemovePath_name _ _ _ _ _ Hrem) as (Hpf & Hnl & Hmx). simpl in H.
  set (l1 := put_dest dp d' l) in *.
  assert (Him1 : rib_implements l1 (delete (pf, GetCIDR nlri, (peer, GetPathId nlri)) t)).
  { eapply one_path_changed; [exact Him | exact Hat | exact Hd | done.. | |].
    - intros k p. rewrite lookup_delete_Some, Hc, (rib_path_at l t _ _ _ _ k Him Hat Hd). unfold current.
      naive_solver.
    - intros k Hk. apply lookup_delete_ne. naive_solver. }
  assert (Hroom1 : room n l1).
  { apply room_put; [done |]. destruct Hroom as [Hn Hr]. specialize (Hr dp d Hd). destruct (id_max d (proj1 Hdok)).
    destruct Hmx as [->| ->]; [done |]. unfold u32. rewrite Z.mod_small; lia. }
  match type of H with context [select_dest _ _ _ _ _ _ ?x _] => set (l2 := x) in * end.
  assert (Hs2 : same_core l1 l2 /\ l_mem l2 = l_mem l1).
  { unfold l2. destruct (getPathForIP peer (GetPathId nlri) d) as [old|]; [|by split].
    destruct (IsReachable _ _); [by split |]. destruct (Path_GetNextHop _ _); [by split |].
    split; [apply same_unreachable | done]. }
  clearbody l2. destruct Hs2 as [Hs2 Hm2]. pose proof (same_core_implements _ _ _ Hs2 Him1) as Him2.
  apply bind_Ok_inv in H as ([[a l3] o3] & Hsel & H).
  assert (Hat2 : dest_at l2 pf (GetCIDR nlri) = Some dp) by (rewrite (same_core_at _ _ _ _ Hs2); done).
  destruct (select_dest_ok _ _ _ _ _ _ _ _ _ (proj1 Him2) Hat2 Hsel) as (Hok3 & Hp3 & Hr3 & Hat3 & _).
  pose proof (select_room _ _ _ _ _ _ _ _ _ n (proj1 Him2) Hat2 Hsel (room_dests _ _ _ (sc_dests _ _ Hs2) Hroom1)) as Hroom3.
  match type of H with context [end_of_dest _ _ _ _ ?x] => set (l4 := x) in * end.
  assert (Hs4 : same_core l3 l4 /\ l_mem l4 = l_mem l3).
  { unfold l4. destruct (getPathForIP _ _ _), rn; simpl; (split; [|done]); try reflexivity. apply same_prefix_count. }
  clearbody l4. destruct Hs4 as [Hs4 Hm4]. apply bind_Ok_inv in H as (l5 & He & [= <- _]).
  assert (Hat4 : dest_at l4 pf (GetCIDR nlri) = Some dp) by by rewrite (same_core_at _ _ _ _ Hs4).
  destruct (end_of_dest_ok _ _ _ _ _ _ (same_core_ok _ _ Hs4 Hok3) Hat4 He) as (Hok5 & Hp5 & Hr5 & Hd5).
  split; [split; [done |] | split].
  - intros k. rewrite Hp5, (same_core_path _ _ _ Hs4), Hp3. apply Him2.
  - eapply room_dests; [exact Hd5 |]. eapply room_dests; [apply (sc_dests _ _ Hs4) | done].
  - rewrite (sr_mem _ _ Hr5), Hm4, (sr_mem _ _ Hr3), Hm2. done.
Qed.

Lemma isIpInList_spec add n : isIpInList add n = true <-> Exists (fun a => same_address n a) add.
Proof.
  unfold isIpInList, same_address. rewrite existsb_exists, List.Exists_exists.
  setoid_rewrite andb_true_iff. by setoid_rewrite Z.eqb_eq.
Qed.

Lemma process_withdraws_ok peer add rn cnt pf n : forall rem l o l' o' t,
  rib_implements l t -> room n l ->
  process_withdraws rangeS rangeZ gosort gConf peer add rn cnt pf rem l o = Ok (l', o') ->
  rib_implements l' (foldl (withdraw pf peer) t (filter (fun n => ~ Exists (fun a => same_address n a) add) rem)) /\ room n l' /\
  l_mem l' = l_mem l.
Proof.
  induction rem as [|nlri rem IH]; intros l o l' o' t Him Hroom H; simpl in H; [by simplify_eq |].
  apply bind_Ok_inv in H as ([l1 o1] & H1 & H). pose proof (isIpInList_spec add nlri) as Hs.
  destruct (isIpInList add nlri) eqn:Hin.
  - rewrite filter_cons_False by tauto. simplify_eq. by eapply IH.
  - rewrite filter_cons_True by (intros ?%Hs; done). simpl.
    destruct (process_withdraw_ok _ _ _ _ _ _ _ _ _ _ _ Him Hroom H1) as (Him1 & Hroom1 & Hm1).
    destruct (IH _ _ _ _ _ Him1 Hroom1 H) as (? & ? & Hm). split; [done |]. split; [done |]. by rewrite Hm.
Qed.

(** A path is announced under one path identifier of a prefix only. *)
Definition unshared (pf : Z) (peer : string) (path : ptr) (t : RibTable) (nlri : NLRI) : Prop :=
  forall k, t !! (pf, GetCIDR nlri, k) = Some path -> k = (peer, GetPathId nlri).

Context (maxPrefixes : string -> Z).

Lemma process_announce_ok peer path cnt pf nh nlri l o l' o' t n :
  rib_implements l t -> room (n + 1) l -> 0 <= n -> unshared pf peer path t nlri -> default_route nlri = false ->
  process_announce rangeS rangeZ gosort gConf maxPrefixes peer path cnt pf nh nlri l o = Ok (true, l', o') ->
  rib_implements l' (announce pf peer path t nlri) /\ room n l' /\ l_mem l' = l_mem l.
Proof.
  intros Him Hroom Hn Hun Hdr H. pose proof Him as [Hok Ht]. unfold process_announce in H.
  unfold default_route in Hdr. rewrite Hdr in H.
  destruct (GetDest_create nlri pf l Hok) as (dp & b & l1 & Hget & Hok1 & Hat1 & Hp1 & Hr1 & Hds1).
  rewrite Hget in H. destruct (rib_dest l1 Hok1 _ _ _ Hat1) as (d & Hd & Hdok & _).
  unfold get_dest in H at 1. rewrite Hd, bind_Ok in H.
  assert (Him1 : rib_implements l1 t) by (split; [done |]; intros k; by rewrite Hp1).
  assert (Hroom1 : room (n + 1) l1).
  { destruct Hroom as [Hb Hr]. split; [done |]. intros dp' d' Hd'.
    destruct (Hds1 dp' d' Hd') as [?| ->]; [by eapply Hr | simpl; lia]. }
  match type of H with match ?x with Some _ => _ | None => _ end = _ => destruct x as [l2|] eqn:Hcount; [|done] end.
  assert (Hs2 : same_core l1 l2 /\ l_mem l2 = l_mem l1).
  { destruct (getPathForIP peer (GetPathId nlri) d), (pt_NeighborConf (l_mem l1 path)); simplify_eq; try by split.
    destruct (CanAcceptNewPrefix _ _ _); simplify_eq. split; [apply same_prefix_count | done]. }
  clear Hcount. destruct Hs2 as [Hs2 Hm2]. pose proof (same_core_implements _ _ _ Hs2 Him1) as Him2.
  pose proof (room_dests _ _ _ (sc_dests _ _ Hs2) Hroom1) as Hroom2.
  assert (Hat2 : dest_at l2 pf (GetCIDR nlri) = Some dp) by by rewrite (same_core_at _ _ _ _ Hs2).
  assert (Hd2 : l_dests l2 !! dp = Some d) by by rewrite (sc_dests _ _ Hs2).
  pose proof (proj2 Hroom2 dp d Hd2) as Hmax.
  apply bind_Ok_inv in H as ([nw d'] & Hadd & H). simpl in H.
  assert (Hone : forall k, current d k path -> k = (peer, GetPathId nlri)).
  { intros k Hk. apply Hun. by rewrite (rib_path_at l2 t _ _ _ _ k Him2 Hat2 Hd2). }
  destruct (AddOrUpdatePath_ok _ _ _ _ _ _ _ Hdok ltac:(lia) Hone Hadd) as (Hdok' & Hc & _).
  destruct (AddOrUpdatePath_name _ _ _ _ _ _ _ Hadd) as (Hpf & Hnl & Hmx).
  set (l3 := put_dest dp d' l2) in *.
  assert (Him3 : rib_implements l3 (announce pf peer path t nlri)).
  { eapply one_path_changed; [exact Him2 | exact Hat2 | exact Hd2 | done.. | |]; unfold announce, nlri_key.
    - intros k p. rewrite lookup_insert_Some, Hc, (rib_path_at l2 t _ _ _ _ k Him2 Hat2 Hd2). unfold current.
      naive_solver.
    - intros k Hk. apply lookup_insert_ne. naive_solver. }
  assert (Hroom3 : room n l3).
  { apply room_put; [eapply room_le; [|exact Hroom2]; lia |].
    assert (u32 (d_maxPathId d + 1) = d_maxPathId d + 1)
      by (apply u32_id; unfold is_u32; destruct (id_max d (proj1 Hdok)); lia). lia. }
  destruct (negb (IsReachable (l_mem l2 path) pf)).
  - apply bind_Ok_inv in H as (m & _ & [= <- _]). pose proof (same_unreachable m l3) as Hs4.
    split; [by eapply same_core_implements |]. split; [by eapply room_dests |]. by rewrite <- (sr_mem _ _ Hr1), <- Hm2.
  - apply bind_Ok_inv in H as ([[a l4] o4] & Hsel & [= <- _]).
    assert (Hat3 : dest_at l3 pf (GetCIDR nlri) = Some dp) by done.
    destruct (select_dest_ok _ _ _ _ _ _ _ _ _ (proj1 Him3) Hat3 Hsel) as (Hok4 & Hp4 & Hr4 & _).
    pose proof (select_room _ _ _ _ _ _ _ _ _ n (proj1 Him3) Hat3 Hsel Hroom3) as Hroom4.
    set (l5 := emit _ l4). assert (Hs5 : same_core l4 l5) by apply same_emit.
    split; [apply (same_core_implements _ _ _ Hs5); split; [done |]; intros k; rewrite Hp4; apply Him3 |].
    split; [by eapply room_dests; [apply (sc_dests _ _ Hs5) |] |].
    change (l_mem l5) with (l_mem l4). rewrite (sr_mem _ _ Hr4). change (l_mem l3) with (l_mem l2).
    by rewrite Hm2, (sr_mem _ _ Hr1).
Qed.

Lemma process_announce_default peer path cnt pf nh nlri l o :
  default_route nlri = true ->
  process_announce rangeS rangeZ gosort gConf maxPrefixes peer path cnt pf nh nlri l o = Ok (true, l, o).
Proof. unfold process_announce, default_route. by intros ->. Qed.

Lemma process_announces_ok peer path cnt pf nh : forall add all l o l' o' t,
  rib_implements l t -> room (Z.of_nat (length add)) l -> NoDup (GetCIDR <$> add) ->
  Forall (unshared pf peer path t) add ->
  process_announces rangeS rangeZ gosort gConf maxPrefixes peer path cnt pf nh add all l o = Ok (l', o', true) ->
  rib_implements l' (foldl (announce pf peer path) t (filter (fun n => default_route n = false) add)).
Proof.
  induction add as [|nlri add IH]; intros all l o l' o' t Him Hroom Hnd Hun H; cbn [process_announces] in H; [by simplify_eq |].
  apply bind_Ok_inv in H as ([[kept l1] o1] & H1 & H).
  assert (Hkept : kept = true).
  { destruct kept; [done |]. exfalso. rewrite andb_false_r in H. clear -H. revert l1 o1 H.
    induction add as [|x add IH]; intros l1 o1 H; cbn [process_announces] in H; [by simplify_eq |].
    apply bind_Ok_inv in H as ([[k l2] o2] & _ & H). by eapply IH. }
  subst kept. rewrite andb_true_r in H. apply Forall_cons in Hun as [Hu Hun].
  rewrite fmap_cons in Hnd. apply NoDup_cons in Hnd as [Hnin Hnd].
  rewrite length_cons, Nat2Z.inj_succ in Hroom.
  destruct (default_route nlri) eqn:Hdr.
  - rewrite filter_cons_False by (by rewrite Hdr). rewrite process_announce_default in H1 by done. simplify_eq.
    eapply IH; [exact Him | | done | done | exact H]. eapply room_le; [|exact Hroom]. lia.
  - rewrite filter_cons_True by done. simpl foldl.
    destruct (process_announce_ok _ _ _ _ _ _ _ _ _ _ _ (Z.of_nat (length add)) Him Hroom ltac:(lia) Hu Hdr H1)
      as (Him1 & Hroom1 & _).
    eapply IH; [exact Him1 | exact Hroom1 | exact Hnd | | exact H].
    rewrite Forall_forall in *. intros x Hx k. unfold announce, nlri_key. rewrite lookup_insert_ne; [by apply Hun |].
    intros Heq. apply Hnin. injection Heq as Heq _. rewrite Heq. by apply list_elem_of_fmap_2.
Qed.
End facts.

(** ** The end of a neighbour *)

Section removal.
Context (rangeS : list string -> list string) (rangeZ : list Z -> list Z).
Context (gosort : (ptr -> ptr -> bool) -> list ptr -> list ptr) (gConf : RibGlobalConfig).

Lemma remove_ids_ok peer : forall ids d,
  table_ok d -> exists d', remove_ids peer ids d = Ok d' /\ table_ok d' /\
    d_protoFamily d' = d_protoFamily d /\ d_NLRI d' = d_NLRI d /\
    forall k p, current d' k p <-> ~ (k.1 = peer /\ k.2 ∈ ids) /\ current d k p.
Proof.
  induction ids as [|id ids IH]; intros d Hok; simpl.
  { exists d. split; [done |]. split; [done |]. split; [done |]. split; [done |]. intros k p.
    pose proof (not_elem_of_nil k.2). naive_solver. }
  destruct (RemovePath_ok peer id d Hok) as (d1 & H1 & Hok1 & Hc1). rewrite H1, bind_Ok. simpl.
  destruct (RemovePath_name _ _ _ _ _ H1) as (Hp1 & Hn1 & _).
  destruct (IH d1 Hok1) as (d2 & H2 & Hok2 & Hp2 & Hn2 & Hc2). exists d2. split; [done |]. split; [done |].
  split; [congruence |]. split; [congruence |]. intros [peer' id'] p. rewrite Hc2, Hc1. simpl. rewrite elem_of_cons.
  naive_solver.
Qed.

Context (rangeZ_perm : forall l, rangeZ l ≡ₚ l) (rangeS_perm : forall l, rangeS l ≡ₚ l).

Lemma RemoveAllPaths_ok peer d :
  table_ok d -> exists d', RemoveAllPaths rangeZ peer d = Ok d' /\ table_ok d' /\
    d_protoFamily d' = d_protoFamily d /\ d_NLRI d' = d_NLRI d /\
    forall k p, current d' k p <-> k.1 <> peer /\ current d k p.
Proof.
  intros Hok. unfold RemoveAllPaths. destruct (d_peerPathMap d !! peer) as [m|] eqn:Hm; cycle 1.
  { exists d. split; [done |]. split; [done |]. split; [done |]. split; [done |]. intros [peer' id] p. simpl.
    split; [|by intros []]. intros Hc. split; [|done]. intros ->. unfold current, getPathForIP in Hc. simpl in Hc.
    by rewrite Hm in Hc. }
  destruct (remove_ids_ok peer (rangeZ (map_to_list m).*1) d Hok) as (d' & H & Hok' & Hp & Hn & Hc).
  exists d'. split; [done |]. split; [done |]. split; [done |]. split; [done |]. intros [peer' id] p. rewrite Hc. simpl.
  split; intros [Hk Hcur]; (split; [|done]); [|naive_solver]. intros ->. apply Hk. split; [done |].
  rewrite rangeZ_perm. unfold current, getPathForIP in Hcur. simpl in Hcur. rewrite Hm in Hcur. simpl in Hcur.
  apply list_elem_of_fmap. exists (id, p). split; [done | by apply elem_of_map_to_list].
Qed.

(** A loop over destinations that keeps the paths of the keys in [Q]. *)
Context (Q : string * Z -> Prop) (Q_dec : forall k, Decision (Q k)) (change : LocRib -> Destination -> result Destination).
Context (change_ok : forall l d d', table_ok d -> change l d = Ok d' -> table_ok d' /\
  d_protoFamily d' = d_protoFamily d /\ d_NLRI d' = d_NLRI d /\ forall k p, current d' k p <-> Q k /\ current d k p).

#[local] Existing Instance Q_dec.

Definition kept (pf : Z) (cidrs : list string) (t : RibTable) : RibTable :=
  filter (fun x => ~ (x.1.1.1 = pf /\ x.1.1.2 ∈ cidrs) \/ Q x.1.2) t.

Lemma each_dest_ok cnt pf : forall cidrs l o l' o' t,
  rib_implements l t -> each_dest rangeS rangeZ gosort gConf change cnt pf cidrs l o = Ok (l', o') ->
  rib_implements l' (kept pf cidrs t).
Proof.
  induction cidrs as [|cidr cidrs IH]; intros l o l' o' t Him H; cbn [each_dest] in H.
  { simplify_eq. unfold kept. rewrite map_filter_id; [done |]. intros k p _. left. intros [_ Hn].
    by apply not_elem_of_nil in Hn. }
  apply bind_Ok_inv in H as ([l1 o1] & H1 & H).
  assert (Him1 : rib_implements l1 (kept pf [cidr] t)).
  { pose proof Him as [Hok Ht]. destruct (dest_at l pf cidr) as [dp|] eqn:Hat.
    - destruct (rib_dest l Hok _ _ _ Hat) as (d & Hd & Hdok & _). unfold get_dest in H1 at 1. rewrite Hd, bind_Ok in H1.
      apply bind_Ok_inv in H1 as (d' & Hch & H1).
      destruct (change_ok _ _ _ Hdok Hch) as (Hok' & Hpf & Hnl & Hc).
      apply bind_Ok_inv in H1 as ([[a l2] o2] & Hsel & H1). apply bind_Ok_inv in H1 as (l3 & He & [= <- _]).
      assert (Him' : rib_implements (put_dest dp d' l) (kept pf [cidr] t)).
      { eapply one_path_changed; [exact Him | exact Hat | exact Hd | done.. | |].
        - intros k p. unfold kept. rewrite map_lookup_filter_Some, Hc, (rib_path_at l t _ _ _ _ k Him Hat Hd). simpl.
          unfold current. rewrite list_elem_of_singleton. naive_solver.
        - intros k Hk. unfold kept. apply option_eq. intros p. rewrite map_lookup_filter_Some. simpl.
          split; [by intros [? _] |]. intros ?. split; [done |]. left. rewrite list_elem_of_singleton.
          intros [E1 E2]. apply Hk. destruct k as [[] ?]. simpl in *. congruence. }
      assert (Hat' : dest_at (put_dest dp d' l) pf cidr = Some dp) by done.
      destruct (select_dest_ok rangeS rangeZ gosort gConf _ _ _ _ _ _ _ _ _ (proj1 Him') Hat' Hsel) as (Hok2 & Hp2 & _ & Hat2 & _).
      destruct (end_of_dest_ok _ _ _ _ _ _ Hok2 Hat2 He) as (Hok3 & Hp3 & _).
      split; [done |]. intros k. rewrite Hp3, Hp2. apply Him'.
    - simplify_eq. split; [done |]. intros k. rewrite <- Ht. unfold kept. apply option_eq. intros p.
      rewrite map_lookup_filter_Some. simpl. split; [by intros [? _] |]. intros Hk. split; [done |]. left.
      rewrite list_elem_of_singleton. intros [E1 E2]. rewrite Ht in Hk. unfold rib_path in Hk.
      rewrite E1, E2, Hat in Hk. done. }
  replace (kept pf (cidr :: cidrs) t) with (kept pf cidrs (kept pf [cidr] t)); [by eapply IH |].
  unfold kept. rewrite map_filter_filter. apply map_filter_ext. intros k p _. simpl. rewrite !elem_of_cons, elem_of_nil.
  destruct (decide (Q k.2)); [naive_solver |]. naive_solver.
Qed.

Lemma each_family_ok cnt : forall pfs l o l' o' t,
  rib_implements l t -> each_family rangeS rangeZ gosort gConf change cnt pfs l o = Ok (l', o') ->
  rib_implements l' (filter (fun x => x.1.1.1 ∉ pfs \/ Q x.1.2) t).
Proof.
  induction pfs as [|pf pfs IH]; intros l o l' o' t Him H; cbn [each_family] in H.
  { simplify_eq. rewrite map_filter_id; [done |]. intros k p _. left. apply not_elem_of_nil. }
  apply bind_Ok_inv in H as ([l1 o1] & H1 & H).
  pose proof (each_dest_ok _ _ _ _ _ _ _ _ Him H1) as Him1.
  match type of Him1 with rib_implements _ ?x => set (t1 := x) in * end.
  replace (filter (fun x => x.1.1.1 ∉ pf :: pfs \/ Q x.1.2) t)
    with (filter (fun x : RibKey * ptr => x.1.1.1 ∉ pfs \/ Q x.1.2) t1); [by eapply IH |].
  unfold t1, kept. rewrite map_filter_filter. apply map_filter_ext. intros k p Hk. simpl.
  assert (Hin : k.1.1 = pf -> k.1.2 ∈ rangeS (map_to_list (default ∅ (l_destPathMap l !! pf))).*1).
  { intros <-. rewrite rangeS_perm. rewrite (proj2 Him) in Hk. unfold rib_path, GetDestFromIPAndLen in Hk.
    destruct (l_destPathMap l !! k.1.1) as [m|]; [|done]. simpl in *. destruct (m !! k.1.2) as [dp|] eqn:Hm; [|done].
    apply list_elem_of_fmap. exists (k.1.2, dp). split; [done | by apply elem_of_map_to_list]. }
  rewrite not_elem_of_cons. destruct (decide (Q k.2)); [naive_solver |]. destruct (decide (k.1.1 = pf)); naive_solver.
Qed.
End removal.
