(* ===== verification/BgpRibSpec.v ===== *)
(** What the routing table of the BGP daemon promises: updates of a neighbour and its removal have
    their effect on the paths of the table; and where a next hop that could not be reached, or can no
    longer be, leaves routes behind. *)
From stdpp Require Import base numbers list gmap strings.
From Stdlib Require Import ZArith Lia.
From S2P Require Import Prelude GoNet BgpBase BgpNlri BgpAttrs BgpHelpers BgpPath BgpPathFacts BgpDest BgpDestFacts BgpDestSpec BgpRouteList BgpRib BgpRibFacts.
Open Scope Z_scope.

Lemma new_rib_implements mem : rib_implements (NewLocRib mem) ∅.
Proof.
  assert (Hat : forall pf cidr, dest_at (NewLocRib mem) pf cidr = None).
  { intros. unfold GetDestFromIPAndLen. simpl. by rewrite lookup_empty. }
  split; [constructor |].
  - intros pf cidr dp. by rewrite Hat.
  - simpl. intros dp [d H]. by rewrite lookup_empty in H.
  - simpl. intros pf rl. by rewrite lookup_empty.
  - intros pf dp. split; [intros [cidr H]; by rewrite Hat in H |]. simpl. intros (rl & H & _). by rewrite lookup_empty in H.
  - simpl. intros pf. by rewrite !lookup_empty.
  - intros k. unfold rib_path. by rewrite Hat, lookup_empty.
Qed.

(** ** Examples *)

(** A path of the external neighbour 10.0.0.1, whose next hop's reachability is not known yet. *)
Definition path_via (nextHop : bytes) : Path :=
  {| pt_NeighborConf := Some (path_neighbor 1); pt_PathAttrs := [AOrigin (NewBGPPathAttrOrigin 0)]; pt_Pref := 100;
     pt_nhReachabilityInfo := {[ 257 := {| nh_nextHop := nextHop; nh_reachabilityInfo := None |} ]};
     pt_routeType := RouteTypeEGP; pt_MED := 0; pt_LocalPref := 0 |}.
(** Path 9 has a next hop of its own. *)
Definition rib_example : LocRib := NewLocRib (fun p => path_via [10; 0; 0; if p =? 9 then 9 else 1]).
(** 10.n.0.0/16 *)
Definition nlri_n (n : Z) : NLRI := NIPPrefix {| ip_Length := 16; ip_Prefix := [10; n; 0; 0] |}.
Definition hop_unreachable (s : string) : option NextHopInfo := None.
Definition hop_reachable (s : string) : option NextHopInfo :=
  Some {| nhi_Metric := 0; nhi_NextHopIp := "10.0.0.1"; nhi_NextHopIfType := 0; nhi_NextHopIfIndex := 1 |}.
(** An update of the neighbour, with the path [p]. *)
Definition update_example (hops : string -> option NextHopInfo) (p : ptr) (add rem : list NLRI) (l : LocRib)
    : result (LocRib * RibOut * bool) :=
  ProcessUpdate id id (fun _ l => l) conf_example hops (fun _ => 0) (path_neighbor 1) p add rem 257 0 l no_out.
Definition rib_of (r : result (LocRib * RibOut * bool)) : LocRib := match r with Ok (l, _, _) => l | _ => rib_example end.
Definition out_of (r : result (LocRib * RibOut * bool)) : RibOut := match r with Ok (_, o, _) => o | _ => no_out end.
Definition rib_announced : LocRib := rib_of (update_example hop_reachable 1 [nlri_n 1; nlri_n 2] [] rib_example).

(** A route that has come back: withdrawn, then re-installed by an update for another prefix. *)
Definition rib_back_1 : LocRib := rib_of (update_example hop_unreachable 1 [nlri_n 1] [] rib_example).
Definition rib_back_2 : LocRib := rib_of (update_example hop_reachable 2 [nlri_n 2] [] rib_back_1).
Definition rib_back_3 : LocRib := rib_of (update_example hop_reachable 3 [] [nlri_n 1] rib_back_2).
(** The route manager's view of 10.1.0.0/16: the last call for it. *)
Definition installs (l : LocRib) : list bool :=
  omap (fun e => match e with
    | RouteMgr (CreateRoute c) | RouteMgr (UpdateRouteAdd c) =>
      if bool_decide (rc_DestinationNw c = [10; 1; 0; 0]) then Some true else None
    | RouteMgr (UpdateRouteRemove c) =>
      if bool_decide (rc_DestinationNw c = [10; 1; 0; 0]) then Some false else None
    | _ => None
    end) (l_trace l).

(** ** The properties *)

(** C4: what an update does to the table of paths, for a call of ProcessRoutes that completes with every route accepted. The
    update names no prefix twice, its path is not yet that of another neighbor or identifier of these prefixes ([unshared]), and no
    path identifier can pass 32 bits ([room]). The paths are then what they were, less the withdrawn ones, and with
    the announced ones added, with two exceptions that are the code's: a withdrawn prefix is kept when its address, whatever
    the length, is announced under the same identifier ([same_address]: isIpInList compares no lengths), and the announced
    prefixes of the address 0.0.0.0 are skipped. The table's own records (the destinations, their tables and path identifiers, the
    lists for bulk reads, the counts) stay consistent. *)
Theorem update_refines_table (rangeS : list string -> list string) (rangeZ : list Z -> list Z)
    (gosort : (ptr -> ptr -> bool) -> list ptr -> list ptr) (gConf : RibGlobalConfig) (maxPrefixes : string -> Z)
    (peerIP : string) (add rem : list NLRI) (path : ptr) (remNeighbor : option RibNeighbor)
    (addPathCount protoFamily : Z) (l l' : LocRib) (o o' : RibOut) (t : RibTable) :
  rib_implements l t -> room (len add) l -> NoDup (GetCIDR <$> add) ->
  Forall (unshared protoFamily peerIP path t) add ->
  ProcessRoutes rangeS rangeZ gosort gConf maxPrefixes peerIP add rem path remNeighbor addPathCount protoFamily l o
    = Ok (l', o', true) ->
  rib_implements l' (update_table protoFamily peerIP path add rem t).
Proof.
  intros Him Hroom Hnd Hun H. unfold ProcessRoutes in H. apply bind_Ok_inv in H as ([l1 o1] & H1 & H).
  eapply process_withdraws_ok in H1 as (Him1 & Hroom1 & _); [| exact Him | exact Hroom].
  eapply process_announces_ok; [exact Him1 | exact Hroom1 | exact Hnd | | exact H].
  eapply Forall_impl; [exact Hun |]. intros n Hn k Hk. apply Hn. revert Hk.
  generalize (filter (fun n => ~ Exists (fun a => same_address n a) add) rem) as ws. intros ws. clear. revert t.
  induction ws as [|w ws IH]; intros t Hk; simpl in Hk; [done |]. specialize (IH _ Hk).
  unfold withdraw in IH. by apply lookup_delete_Some in IH as [_ IH].
Qed.

Lemma update_refines_table_witness :
  let l := set_l_mem (fun _ => with_reach (fun _ => path_nhs "10.0.0.1") (path_via [10; 0; 0; 1])) rib_example in
  exists l' o', ProcessRoutes id id (fun _ l => l) conf_example (fun _ => 0) "10.0.0.1" [nlri_n 1; nlri_n 2] [nlri_n 3] 1
    None 0 257 l no_out = Ok (l', o', true) /\
    rib_implements l' (update_table 257 "10.0.0.1" 1 [nlri_n 1; nlri_n 2] [nlri_n 3] ∅).
Proof.
  intros l. destruct (ProcessRoutes id id (fun _ l => l) conf_example (fun _ => 0) "10.0.0.1" [nlri_n 1; nlri_n 2]
    [nlri_n 3] 1 None 0 257 l no_out) as [[[l' o'] all]| | |] eqn:E; try (by vm_compute in E).
  assert (all = true) as -> by (vm_compute in E; congruence).
  exists l', o'. split; [done |].
  eapply (update_refines_table id id (fun _ l => l) conf_example (fun _ => 0)); [| | | | exact E].
  - apply (same_core_implements rib_example); [by constructor | apply new_rib_implements].
  - split; [unfold len; simpl; lia |]. intros dp d H. change (l_dests l) with (∅ : gmap dptr Destination) in H.
    by rewrite lookup_empty in H.
  - by apply (bool_decide_eq_true_1 _); vm_compute.
  - repeat constructor; intros k Hk; by rewrite lookup_empty in Hk.
Defined.

(** C5: when a neighbour goes, exactly its paths are taken out of the table, those of all its prefixes and families, and the
    records of the table stay consistent: for every table that implements [t], every order in which the two kinds of maps are
    visited, and a call of RemoveUpdatesFromNeighbor that returns (selecting the routes that are left can panic, as it does
    for two local paths that tie). *)
Theorem neighbor_removal_refines_table (rangeS : list string -> list string) (rangeZ : list Z -> list Z)
    (gosort : (ptr -> ptr -> bool) -> list ptr -> list ptr) (gConf : RibGlobalConfig) (peerIP : string)
    (neighborConf : option RibNeighbor) (addPathCount : Z) (l l' : LocRib) (o : RibOut) (t : RibTable) :
  (forall xs, rangeS xs ≡ₚ xs) -> (forall xs, rangeZ xs ≡ₚ xs) -> rib_implements l t ->
  RemoveUpdatesFromNeighbor rangeS rangeZ gosort gConf peerIP neighborConf addPathCount l = Ok (l', o) ->
  rib_implements l' (filter (fun x => x.1.2.1 <> peerIP) t).
Proof.
  intros HS HZ Him H. unfold RemoveUpdatesFromNeighbor in H. apply bind_Ok_inv in H as ([l1 o1] & H & [= <- _]).
  assert (Hch : forall (l : LocRib) d d', table_ok d -> RemoveAllPaths rangeZ peerIP d = Ok d' -> table_ok d' /\
    d_protoFamily d' = d_protoFamily d /\ d_NLRI d' = d_NLRI d /\
    forall k p, current d' k p <-> k.1 <> peerIP /\ current d k p).
  { intros _ d d' Hd Hr. destruct (RemoveAllPaths_ok rangeZ HZ peerIP d Hd) as (d2 & Hr2 & ? & ? & ? & ?).
    rewrite Hr in Hr2. by simplify_eq. }
  destruct (each_family_ok rangeS rangeZ gosort gConf HS (fun k => k.1 <> peerIP) (fun k => _)
    (fun _ d => RemoveAllPaths rangeZ peerIP d) Hch _ _ _ _ _ _ _ Him H) as [Hok1 Ht1].
  assert (Him1 : rib_implements l1 (filter (fun x => x.1.2.1 <> peerIP) t)).
  { split; [done |]. intros k. rewrite <- Ht1. apply option_eq. intros p. rewrite !map_lookup_filter_Some. simpl.
    split; intros [Hk Hq]; (split; [done |]); [by right |]. destruct Hq as [Hn|]; [|done]. exfalso. apply Hn.
    rewrite HZ. rewrite (proj2 Him) in Hk. unfold rib_path, GetDestFromIPAndLen in Hk.
    destruct (l_destPathMap l !! k.1.1) as [m|] eqn:Hm; [|done]. apply list_elem_of_fmap.
    exists (k.1.1, m). split; [done | by apply elem_of_map_to_list]. }
  destruct neighborConf; [|done]. eapply same_core_implements; [apply same_prefix_count | exact Him1].
Qed.

(** Two neighbours have announced prefixes, one of them both. *)
Definition announced (peer : string) (p : ptr) (ns : list NLRI) (l : LocRib) : LocRib :=
  match process_announces id id (fun _ l => l) conf_example (fun _ => 0) peer p 0 257 "10.0.0.1" ns true l no_out with
  | Ok (l, _, true) => l
  | _ => rib_example
  end.
Definition announces (peer : string) (p : ptr) (ns : list NLRI) (l : LocRib) : bool :=
  match process_announces id id (fun _ l => l) conf_example (fun _ => 0) peer p 0 257 "10.0.0.1" ns true l no_out with
  | Ok (_, _, true) => true
  | _ => false
  end.
Definition one_neighbor : LocRib := announced "10.0.0.1" 1 [nlri_n 1; nlri_n 2]
  (set_l_mem (fun _ => with_reach (fun _ => path_nhs "10.0.0.1") (path_via [10; 0; 0; 1])) rib_example).
Definition two_neighbors : LocRib := announced "10.0.0.2" 2 [nlri_n 2; nlri_n 3] one_neighbor.
Definition one_neighbor_table : RibTable := foldl (announce 257 "10.0.0.1" 1) ∅ [nlri_n 1; nlri_n 2].
Definition two_neighbors_table : RibTable := foldl (announce 257 "10.0.0.2" 2) one_neighbor_table [nlri_n 2; nlri_n 3].

Lemma announced_implements peer p ns l t :
  rib_implements l t -> map_Forall (fun _ d => d_maxPathId d + len ns < 2 ^ 32) (l_dests l) -> len ns < 2 ^ 32 - 1 ->
  NoDup (GetCIDR <$> ns) -> (forall k, t !! k <> Some p) -> filter (fun n => default_route n = false) ns = ns ->
  announces peer p ns l = true -> rib_implements (announced peer p ns l) (foldl (announce 257 peer p) t ns).
Proof.
  intros Him Hm Hn Hnd Hp Hd. unfold announces, announced.
  destruct (process_announces _ _ _ _ _ _ _ _ _ _ _ _ _ _) as [[[l' o'] []]| | |] eqn:E; try done. intros _.
  rewrite <- Hd. eapply process_announces_ok; [exact Him | | exact Hnd | | exact E].
  - split; [unfold len in Hn; lia|]. intros dp d. apply Hm.
  - apply Forall_true. intros n k Hk. by destruct (Hp _ Hk).
Qed.

Lemma two_neighbors_implements : rib_implements two_neighbors two_neighbors_table.
Proof.
  assert (H1 : rib_implements one_neighbor one_neighbor_table).
  { apply announced_implements; [|done|done| by apply (bool_decide_eq_true_1 _); vm_compute | | by vm_compute | by vm_compute];
      [|by intros k; rewrite lookup_empty].
    apply (same_core_implements rib_example); [by constructor | apply new_rib_implements]. }
  apply announced_implements; [exact H1 | by apply (bool_decide_eq_true_1 _); vm_compute | done
    | by apply (bool_decide_eq_true_1 _); vm_compute | | by vm_compute | by vm_compute].
  intros k. unfold one_neighbor_table, announce. cbn [foldl].
  rewrite !lookup_insert_Some, lookup_empty. naive_solver.
Qed.

Lemma neighbor_removal_refines_table_witness :
  exists l' o, RemoveUpdatesFromNeighbor id id (fun _ l => l) conf_example "10.0.0.1" None 0 two_neighbors = Ok (l', o) /\
    rib_implements l' (filter (fun x => x.1.2.1 <> "10.0.0.1") two_neighbors_table) /\
    size two_neighbors_table = 4%nat /\ rib_path l' (257, "10.2.0.0/16", ("10.0.0.2", 0)) = Some 2.
Proof.
  destruct (RemoveUpdatesFromNeighbor id id (fun _ l => l) conf_example "10.0.0.1" None 0 two_neighbors)
    as [[l' o]| | |] eqn:E; try (by vm_compute in E). exists l', o. split; [done |].
  assert (Him : rib_implements l' (filter (fun x => x.1.2.1 <> "10.0.0.1") two_neighbors_table)).
  { apply (neighbor_removal_refines_table id id (fun _ l => l) conf_example "10.0.0.1" None 0 two_neighbors l' o two_neighbors_table);
      [done | done | apply two_neighbors_implements | exact E]. }
  split; [exact Him|]. split; [by vm_compute|]. rewrite <- (proj2 Him). by vm_compute.
Defined.

(** A withdrawn route comes back. A path whose next hop could not be reached stays recorded as such when
    the next hop becomes reachable. The neighbour withdraws it: the prefix leaves the table and the
    route manager. The next update with that next hop, for another prefix, installs the route again
    and announces it to the peers, although the table has no such prefix any more. *)
Theorem withdrawn_route_returns :
  rib_path rib_back_2 (257, "10.1.0.0/16", ("10.0.0.1", 0)) = Some 1 /\ installs rib_back_2 = [true] /\
  rib_path rib_back_3 (257, "10.1.0.0/16", ("10.0.0.1", 0)) = None /\ installs rib_back_3 = [true; false] /\
  let r := update_example hop_reachable 4 [nlri_n 3] [] rib_back_3 in
  rib_path (rib_of r) (257, "10.1.0.0/16", ("10.0.0.1", 0)) = None /\ installs (rib_of r) = [true; false; true] /\
  (out_updated (out_of r) !! 257 ≫= fun m => m !! Some 1) = Some [0] /\
  GetDestFromIPAndLen 257 "10.1.0.0/16" (rib_of r) = None.
Proof. vm_compute. repeat split. Qed.

(** A neighbour replaces its route by one whose next hop cannot be reached: the table takes the new
    path, and nothing else happens: the old route stays with the route manager, and the peers are
    told neither of its end nor of another route. *)
Theorem unreachable_replacement_ignored :
  let l1 := rib_of (update_example hop_reachable 1 [nlri_n 1] [] rib_example) in
  let r2 := update_example hop_unreachable 9 [nlri_n 1] [] l1 in
  installs l1 = [true] /\ rib_path (rib_of r2) (257, "10.1.0.0/16", ("10.0.0.1", 0)) = Some 9 /\
  installs (rib_of r2) = [true] /\ out_updated (out_of r2) = ∅ /\ out_withdrawn (out_of r2) = [] /\
  out_addPaths (out_of r2) = [].
Proof. vm_compute. repeat split. Qed.
