(* ===== verification/BgpMsg.v ===== *)
(** BGP messages ([src/bgp/packet/bgp.go]): KEEPALIVE, NOTIFICATION, UPDATE, and [BGPMessage], the
    header with one of the four bodies. The interface [BGPBody] is an inductive type; a nil body is
    [None]. *)
From stdpp Require Import base numbers list gmap.
From Stdlib Require Import ZArith Lia.
From S2P Require Import Prelude GoNet BgpBase BgpOpen BgpNlri BgpAttrs BgpAttrCodec BgpAttrFacts BgpHelpers BgpHelperFacts.
Open Scope Z_scope.

(** ** NOTIFICATION *)

Record BGPNotification := { ErrorCode : Z; ErrorSubcode : Z; nt_Data : bytes }.

Definition BGPNotification_Encode (msg : BGPNotification) : result bytes :=
  Ok ([ErrorCode msg; ErrorSubcode msg] ++ nt_Data msg).

Definition BGPNotification_Decode (pkt : bytes) : result BGPNotification :=
  code ← sget pkt 0;
  subcode ← sget pkt 1;
  data ← (if len pkt >? 2 then slice_from pkt 2 else Ok []);
  Ok {| ErrorCode := code; ErrorSubcode := subcode; nt_Data := data |}.

(** ** UPDATE *)

Record BGPUpdate := {
  WithdrawnRoutesLen : Z;
  WithdrawnRoutes : list NLRI;
  TotalPathAttrLen : Z;
  PathAttributes : list BGPPathAttr;
  upd_NLRI : list NLRI;
}.

(** The loops that append the encoding of every item to [pkt]. *)
Fixpoint append_encoded {A} (enc : A -> result bytes) (pkt : bytes) (xs : list A) : result bytes :=
  match xs with
  | [] => Ok pkt
  | x :: xs => b ← enc x; append_encoded enc (pkt ++ b) xs
  end.

(** The two length fields are stored once their list is encoded, reduced to 16 bits. *)
Definition BGPUpdate_Encode (msg : BGPUpdate) : result bytes :=
  pkt ← append_encoded (fun route => NLRI_Encode route AfiIP) (make 2) (WithdrawnRoutes msg);
  let wdLen := len pkt in
  pkt ← PutUint16 pkt 0 (u16 (wdLen - 2));
  pkt ← append_encoded attr_Encode (pkt ++ make 2) (PathAttributes msg);
  let paLen := len pkt - wdLen in
  pkt ← PutUint16 pkt wdLen (u16 (paLen - 2));
  append_encoded (fun nlri => NLRI_Encode nlri AfiIP) pkt (upd_NLRI msg).

Definition BGPPathAttrWellKnownMandatory : list Z :=
  [BGPPathAttrTypeOrigin; BGPPathAttrTypeASPath; BGPPathAttrTypeNextHop].

(** The first loop of [checkPathAttributes]: [found] is the set of the codes seen. *)
Fixpoint repeated_code (found : list Z) (pathAttrs : list BGPPathAttr) : bool :=
  match pathAttrs with
  | [] => false
  | attr :: pas =>
    if bool_decide (attr_GetCode attr ∈ found) then true else repeated_code (attr_GetCode attr :: found) pas
  end.

Definition checkPathAttributes (pathAttrs : list BGPPathAttr) : result unit :=
  if repeated_code [] pathAttrs then bgp_err BGPUpdateMsgError BGPMalformedAttrList [] else
  match filter (fun attrType => attrType ∉ (attr_GetCode <$> pathAttrs)) BGPPathAttrWellKnownMandatory with
  | attrType :: _ => bgp_err BGPUpdateMsgError BGPMissingWellKnownAttr [attrType]
  | [] => Ok tt
  end.

Definition malformed_attrs {A} : result A := bgp_err BGPUpdateMsgError BGPMalformedAttrList [].

(** Any error of the withdrawn routes is reported as a malformed attribute list. *)
Definition decode_withdrawn (pkt : bytes) (length : Z) (data : BGPPeerAttrs) : result (list NLRI * Z) :=
  match decodeNLRI pkt [] length AfiIP data with
  | Err _ => malformed_attrs
  | r => r
  end.

(** [length] of the NLRI is an [int] converted to [uint32]. The fuel of the attribute loop is the
    announced number of bytes: an attribute takes at least 3. *)
Definition BGPUpdate_Decode (header : BGPHeader) (pkt : bytes) (data : BGPPeerAttrs) : result BGPUpdate :=
  s ← slice pkt 0 2; withdrawnRoutesLen ← Uint16 s;
  if u32 (withdrawnRoutesLen + 23) >? hd_Length header then malformed_attrs else
  s ← slice_from pkt 2;
  r ← decode_withdrawn s withdrawnRoutesLen data;
  let '(withdrawnRoutes, ipLen) := r in
  let ptr := u32 (2 + ipLen) in
  s ← slice pkt ptr (u32 (ptr + 2)); totalPathAttrLen ← Uint16 s;
  let ptr := u32 (ptr + 2) in
  if totalPathAttrLen + withdrawnRoutesLen + 23 >? hd_Length header then malformed_attrs else
  r ← item_loop u32 (BGPGetPathAttr_Decode data) attr_TotalLen (Z.to_nat totalPathAttrLen) pkt ptr
        totalPathAttrLen [];
  let '(pathAttributes, ptr, remaining) := r in
  if remaining <? 0 then malformed_attrs else
  s ← slice_from pkt ptr;
  let length := u32 (hd_Length header - 23 - withdrawnRoutesLen - totalPathAttrLen) in
  n ← decodeNLRI s [] length AfiIP data;
  Ok {| WithdrawnRoutesLen := withdrawnRoutesLen; WithdrawnRoutes := withdrawnRoutes;
        TotalPathAttrLen := totalPathAttrLen; PathAttributes := pathAttributes; upd_NLRI := n.1 |}.

(** ** Messages *)

Inductive BGPBody :=
  | BOpen (msg : BGPOpen)
  | BKeepAlive
  | BUpdate (msg : BGPUpdate)
  | BNotification (msg : BGPNotification).

Record BGPMessage := { msg_Header : BGPHeader; msg_Body : option BGPBody }.

Definition body_Encode (body : BGPBody) : result bytes :=
  match body with
  | BOpen msg => BGPOpen_Encode msg
  | BKeepAlive => Ok []
  | BUpdate msg => BGPUpdate_Encode msg
  | BNotification msg => BGPNotification_Encode msg
  end.

(** A length of 0 in the header is computed, and stays in the message: the message is returned
    with the bytes. *)
Definition BGPMessage_Encode (msg : BGPMessage) : result (bytes * BGPMessage) :=
  match msg_Body msg with
  | None => Panic
  | Some b =>
    body ← body_Encode b;
    header ← (if hd_Length (msg_Header msg) =? 0 then
                if BGPMsgHeaderLen + len body >? BGPMsgMaxLen then bgp_err 0 0 []
                else Ok {| hd_Length := u16 (BGPMsgHeaderLen + u16 (len body)); hd_Type := hd_Type (msg_Header msg) |}
              else Ok (msg_Header msg));
    pkt ← BGPHeader_Encode header;
    Ok (pkt ++ body, {| msg_Header := header; msg_Body := msg_Body msg |})
  end.

(** [NormalizeASPath(msg, data)] on the body of a decoded UPDATE. *)
Definition normalize_update (u : BGPUpdate) : result BGPUpdate :=
  pas ← NormalizeASPath (TotalPathAttrLen u) (PathAttributes u);
  Ok {| WithdrawnRoutesLen := WithdrawnRoutesLen u; WithdrawnRoutes := WithdrawnRoutes u;
        TotalPathAttrLen := TotalPathAttrLen u; PathAttributes := pas; upd_NLRI := upd_NLRI u |}.

(** A header of another type leaves the body nil, without an error. *)
Definition BGPMessage_Decode (header : BGPHeader) (pkt : bytes) (data : BGPPeerAttrs) : result BGPMessage :=
  if hd_Type header =? BGPMsgTypeOpen then
    o ← BGPOpen_Decode pkt; Ok {| msg_Header := header; msg_Body := Some (BOpen o) |}
  else if hd_Type header =? BGPMsgTypeKeepAlive then
    Ok {| msg_Header := header; msg_Body := Some BKeepAlive |}
  else if hd_Type header =? BGPMsgTypeUpdate then
    u ← BGPUpdate_Decode header pkt data;
    u ← normalize_update u;
    Ok {| msg_Header := header; msg_Body := Some (BUpdate u) |}
  else if hd_Type header =? BGPMsgTypeNotification then
    n ← BGPNotification_Decode pkt; Ok {| msg_Header := header; msg_Body := Some (BNotification n) |}
  else Ok {| msg_Header := header; msg_Body := None |}.

Definition NewBGPOpenMessage (myAS holdTime : Z) (bgpId : bytes) (optParams : list BGPOptParam) : BGPMessage :=
  {| msg_Header := {| hd_Length := 0; hd_Type := BGPMsgTypeOpen |};
     msg_Body := Some (BOpen (NewBGPOpen myAS holdTime bgpId optParams)) |}.

Definition NewBGPKeepAliveMessage : BGPMessage :=
  {| msg_Header := {| hd_Length := 19; hd_Type := BGPMsgTypeKeepAlive |}; msg_Body := Some BKeepAlive |}.

Definition NewBGPNotificationMessage (errorCode errorSubCode : Z) (data : bytes) : BGPMessage :=
  {| msg_Header := {| hd_Length := u16 (21 + u16 (len data)); hd_Type := BGPMsgTypeNotification |};
     msg_Body := Some (BNotification {| ErrorCode := errorCode; ErrorSubcode := errorSubCode; nt_Data := data |}) |}.

Definition NewBGPUpdateMessage (wdRoutes : list NLRI) (pa : list BGPPathAttr) (nlri : list NLRI) : BGPMessage :=
  {| msg_Header := {| hd_Length := 0; hd_Type := BGPMsgTypeUpdate |};
     msg_Body := Some (BUpdate {| WithdrawnRoutesLen := 0; WithdrawnRoutes := wdRoutes; TotalPathAttrLen := 0;
                                  PathAttributes := pa; upd_NLRI := nlri |}) |}.

(** ** Wire format of UPDATE *)

Definition attrs_wire (pas : list BGPPathAttr) : bytes := concat (attr_wire <$> pas).

Definition update_wire (u : BGPUpdate) : bytes :=
  be16 (len (nlris_wire (WithdrawnRoutes u))) ++ nlris_wire (WithdrawnRoutes u) ++
  be16 (len (attrs_wire (PathAttributes u))) ++ attrs_wire (PathAttributes u) ++ nlris_wire (upd_NLRI u).

(** An UPDATE a session with these peer attributes can send: its items satisfy their own
    invariants, and it fits in a message. *)
Definition update_sendable (data : BGPPeerAttrs) (u : BGPUpdate) : Prop :=
  Forall (NLRI_good (AddPathsRxActual data) AfiIP) (WithdrawnRoutes u) /\
  Forall (attr_good data) (PathAttributes u) /\
  Forall (NLRI_good (AddPathsRxActual data) AfiIP) (upd_NLRI u) /\
  len (update_wire u) <= 4077.

(** The two length fields of a decoded UPDATE, which the encoder does not read. *)
Definition with_lengths (u : BGPUpdate) : BGPUpdate :=
  {| WithdrawnRoutesLen := len (nlris_wire (WithdrawnRoutes u)); WithdrawnRoutes := WithdrawnRoutes u;
     TotalPathAttrLen := len (attrs_wire (PathAttributes u)); PathAttributes := PathAttributes u;
     upd_NLRI := upd_NLRI u |}.

Lemma append_encoded_wire {A} (enc : A -> result bytes) (w : A -> bytes) xs : forall pkt,
  Forall (fun x => enc x = Ok (w x)) xs -> append_encoded enc pkt xs = Ok (pkt ++ concat (w <$> xs)).
Proof.
  induction xs as [|x xs IH]; intros pkt H; cbn [append_encoded fmap list_fmap concat].
  { by rewrite app_nil_r. }
  inversion_clear H as [|? ? Hx Hxs]. rewrite Hx, bind_Ok, IH by done. by rewrite <- app_assoc.
Qed.

Lemma update_wire_bounds data u :
  update_sendable data u ->
  len (update_wire u) = 4 + len (nlris_wire (WithdrawnRoutes u)) + len (attrs_wire (PathAttributes u))
                          + len (nlris_wire (upd_NLRI u)) /\
  0 <= len (nlris_wire (WithdrawnRoutes u)) <= 4073 /\ 0 <= len (attrs_wire (PathAttributes u)) <= 4073 /\
  0 <= len (nlris_wire (upd_NLRI u)) <= 4073.
Proof.
  intros (_ & _ & _ & Hl). unfold update_wire in *. revert Hl. lens. intros.
  pose proof (len_nonneg (nlris_wire (WithdrawnRoutes u))). pose proof (len_nonneg (attrs_wire (PathAttributes u))).
  pose proof (len_nonneg (nlris_wire (upd_NLRI u))). lia.
Qed.

Lemma BGPUpdate_Encode_wire data u : update_sendable data u -> BGPUpdate_Encode u = Ok (update_wire u).
Proof.
  intros Hs. pose proof (update_wire_bounds data u Hs) as (_ & Hwb & Hpb & _). destruct Hs as (Hw & Hp & Hn & _).
  assert (Henc : forall ns, Forall (NLRI_good (AddPathsRxActual data) AfiIP) ns ->
    Forall (fun n => NLRI_Encode n AfiIP = Ok (NLRI_wire n)) ns).
  { intros ns H. eapply Forall_impl; [exact H|]. intros n. apply NLRI_Encode_wire. by left. }
  unfold BGPUpdate_Encode. rewrite (append_encoded_wire _ NLRI_wire), bind_Ok by auto.
  fold (nlris_wire (WithdrawnRoutes u)). cbn zeta. rewrite len_app. change (len (make 2)) with 2.
  replace (2 + _ - 2) with (len (nlris_wire (WithdrawnRoutes u))) by lia.
  rewrite (u16_id (len _)) by (unfold is_u16; lia).
  rewrite PutUint16_0, bind_Ok by done.
  rewrite (append_encoded_wire _ attr_wire), bind_Ok
    by (eapply Forall_impl; [exact Hp|]; intros pa; apply attr_Encode_wire).
  fold (attrs_wire (PathAttributes u)).
  rewrite <- !app_assoc, !len_app, len_be16. change (len (make 2)) with 2.
  match goal with |- context [u16 ?x] => replace x with (len (attrs_wire (PathAttributes u))) by lia end.
  rewrite u16_id by (unfold is_u16; lia). rewrite app_assoc, PutUint16_app, bind_Ok by (rewrite ?len_app; done).
  rewrite (append_encoded_wire _ NLRI_wire) by auto. unfold update_wire. by rewrite <- !app_assoc.
Qed.

Lemma attr_loop_wire data pas pre post :
  Forall (attr_good data) pas -> len pre + len (attrs_wire pas) < 65536 ->
  item_loop u32 (BGPGetPathAttr_Decode data) attr_TotalLen (Z.to_nat (len (attrs_wire pas)))
    (pre ++ attrs_wire pas ++ post) (len pre) (len (attrs_wire pas)) []
  = Ok (pas, len pre + len (attrs_wire pas), 0).
Proof.
  intros Hg Hl. pose proof (wires_length_le (attr_codec data) pas Hg) as Hc.
  apply (item_loop_wires u32 (attr_codec data) pas _ pre post []); [done | | done |].
  - change (wires (attr_codec data) pas) with (attrs_wire pas) in Hc. unfold len in *. lia.
  - intros z Hz. apply u32_id. change (wires (attr_codec data) pas) with (attrs_wire pas) in Hz.
    unfold is_u32. lia.
Qed.

Lemma BGPUpdate_Decode_wire data u ty :
  update_sendable data u ->
  BGPUpdate_Decode {| hd_Length := 19 + len (update_wire u); hd_Type := ty |} (update_wire u) data
  = Ok (with_lengths u).
Proof.
  intros Hs. pose proof (update_wire_bounds data u Hs) as (Hl & Hwb & Hpb & Hnb). destruct Hs as (Hw & Hp & Hn & _).
  unfold BGPUpdate_Decode, decode_withdrawn. cbn [hd_Length]. rewrite Hl. unfold update_wire, with_lengths.
  assert (HdW := fun rest => decodeNLRI_nlris (WithdrawnRoutes u) AfiIP data rest _ (or_introl eq_refl) Hw eq_refl).
  assert (HdN := fun rest => decodeNLRI_nlris (upd_NLRI u) AfiIP data rest _ (or_introl eq_refl) Hn eq_refl).
  assert (HdP := fun pre rest => attr_loop_wire data (PathAttributes u) pre rest Hp).
  generalize dependent (nlris_wire (WithdrawnRoutes u)). generalize dependent (attrs_wire (PathAttributes u)).
  generalize dependent (nlris_wire (upd_NLRI u)). intros N Hnb HdN P Hpb HdP W Hl Hwb HdW.
  rewrite slice_0, bind_Ok, <- (app_nil_r (be16 (len W))) by done.
  rewrite Uint16_be16, bind_Ok, app_nil_r by (unfold is_u16; lia).
  rewrite (u32_id (len W + 23)), Z.gtb_ltb by (unfold is_u32; lia). zif.
  rewrite (slice_from_app (be16 _)), bind_Ok, HdW, bind_Ok by (done || lia).
  rewrite (u32_id (2 + len W)), (u32_id (2 + len W + 2)) by (unfold is_u32; lia).
  rewrite (app_assoc (be16 (len W))), slice_app, bind_Ok by (rewrite len_app, ?len_be16; lia).
  rewrite <- (app_nil_r (be16 (len P))) at 1. rewrite Uint16_be16, bind_Ok, Z.gtb_ltb by (unfold is_u16; lia). zif.
  rewrite (app_assoc _ (be16 (len P))).
  assert (Hpre : 2 + len W + 2 = len ((be16 (len W) ++ W) ++ be16 (len P))) by (lens; lia).
  rewrite Hpre, HdP, bind_Ok by (rewrite <- Hpre; lia).
  cbn [Z.ltb Z.compare]. rewrite (app_assoc _ P N), slice_from_app, bind_Ok by (by rewrite (len_app _ P)).
  replace (u32 _) with (len N) by (rewrite u32_id; unfold is_u32; lia).
  rewrite <- (app_nil_r N) at 1. by rewrite HdN by lia.
Qed.

(** ** Messages *)

Definition body_type (b : BGPBody) : Z :=
  match b with
  | BOpen _ => BGPMsgTypeOpen
  | BKeepAlive => BGPMsgTypeKeepAlive
  | BUpdate _ => BGPMsgTypeUpdate
  | BNotification _ => BGPMsgTypeNotification
  end.

Definition body_wire (b : BGPBody) : bytes :=
  match b with
  | BOpen o => open_wire o
  | BKeepAlive => []
  | BUpdate u => update_wire u
  | BNotification n => [ErrorCode n; ErrorSubcode n] ++ nt_Data n
  end.

(** What a body satisfies to be sent in a session with four-byte AS numbers: the UPDATEs of such a
    session carry neither AS4_PATH nor AS4_AGGREGATOR. *)
Definition body_good (data : BGPPeerAttrs) (b : BGPBody) : Prop :=
  match b with
  | BOpen o => open_good o
  | BKeepAlive => True
  | BUpdate u =>
    update_sendable data u /\ ASSize data = 4 /\
    BGPPathAttrTypeAS4Path ∉ codes (PathAttributes u) /\ BGPPathAttrTypeAS4Aggregator ∉ codes (PathAttributes u)
  | BNotification n => len (nt_Data n) <= 4075
  end.

(** What the receiver has: the length fields of an UPDATE are those read. *)
Definition body_read (b : BGPBody) : BGPBody :=
  match b with BUpdate u => BUpdate (with_lengths u) | b => b end.

Lemma attr_good_typed data pas : Forall (attr_good data) pas -> attrs_typed pas.
Proof. intros H. eapply Forall_impl; [exact H|]. by intros pa (_ & _ & Hc & _). Qed.

Lemma normalize_sendable data u :
  update_sendable data u -> ASSize data = 4 -> BGPPathAttrTypeAS4Path ∉ codes (PathAttributes u) ->
  BGPPathAttrTypeAS4Aggregator ∉ codes (PathAttributes u) ->
  normalize_update (with_lengths u) = Ok (with_lengths u).
Proof.
  intros (_ & Hp & _) H4 Hn17 Hn18. unfold normalize_update. cbn [with_lengths TotalPathAttrLen PathAttributes].
  rewrite NormalizeASPath_id; [done | by eapply attr_good_typed | | done | done].
  intros a Ha. rewrite Forall_forall in Hp. destruct (Hp _ Ha) as (_ & _ & _ & _ & Hz & _). by rewrite Hz.
Qed.

Lemma body_wire_len data b : body_good data b -> 0 <= len (body_wire b) <= 4077.
Proof.
  split; [apply len_nonneg|]. destruct b; cbn [body_wire body_good] in *.
  - destruct H as (_ & _ & Hid & _ & Hl & Hb). unfold open_wire. lens. lia.
  - rewrite len_nil. lia.
  - by destruct H as ((_ & _ & _ & H) & _).
  - lens. lia.
Qed.

Lemma body_Encode_wire data b : body_good data b -> body_Encode b = Ok (body_wire b).
Proof.
  destruct b; cbn [body_good body_Encode body_wire]; intros H.
  - by apply BGPOpen_Encode_wire.
  - done.
  - by apply (BGPUpdate_Encode_wire data), H.
  - done.
Qed.

Lemma BGPNotification_Decode_wire n :
  BGPNotification_Decode ([ErrorCode n; ErrorSubcode n] ++ nt_Data n) = Ok n.
Proof.
  unfold BGPNotification_Decode. lens. destruct n as [c s d]. cbn [ErrorCode ErrorSubcode nt_Data].
  rewrite Z.gtb_ltb. destruct (Z.ltb_spec 2 (1 + (1 + 0) + len d)).
  - rewrite (slice_from_app [c; s]) by done. reflexivity.
  - pose proof (len_nonneg d). destruct d; [reflexivity | rewrite len_cons in *; pose proof (len_nonneg d); lia].
Qed.

Lemma BGPMessage_Decode_wire data b :
  body_good data b ->
  BGPMessage_Decode {| hd_Length := 19 + len (body_wire b); hd_Type := body_type b |} (body_wire b) data
  = Ok {| msg_Header := {| hd_Length := 19 + len (body_wire b); hd_Type := body_type b |};
          msg_Body := Some (body_read b) |}.
Proof.
  unfold BGPMessage_Decode. cbn [hd_Type]. destruct b; cbn [body_good body_type body_wire body_read]; intros H;
    cbn [Z.eqb Pos.eqb BGPMsgTypeOpen BGPMsgTypeKeepAlive BGPMsgTypeUpdate BGPMsgTypeNotification].
  - by rewrite BGPOpen_Decode_wire, bind_Ok.
  - done.
  - destruct H as (Hs & H4 & H17 & H18).
    by rewrite BGPUpdate_Decode_wire, bind_Ok, (normalize_sendable data), bind_Ok by done.
  - by rewrite BGPNotification_Decode_wire, bind_Ok.
Qed.

(** ** The decoder on arbitrary bytes *)

Lemma base_of_bind {A} (f : bytes -> result A) (c : A -> BGPPathAttr) pkt pa
    (Hf : forall a, f pkt = Ok a -> BGPPathAttrBase_Decode pkt = Ok (attr_base (c a))) :
  (a ← f pkt; Ok (c a)) = Ok pa -> BGPPathAttrBase_Decode pkt = Ok (attr_base pa).
Proof. intros (a & Ha & [= <-])%bind_Ok_inv. by apply Hf. Qed.

(** Every attribute keeps the header its decoder read. *)
Lemma attr_Decode_base data pkt pa :
  BGPGetPathAttr_Decode data pkt = Ok pa -> BGPPathAttrBase_Decode pkt = Ok (attr_base pa).
Proof.
  unfold BGPGetPathAttr_Decode. intros (code & _ & H)%bind_Ok_inv. revert H.
  repeat match goal with |- (if ?b then _ else _) = _ -> _ => destruct b end;
    intros (a & Ha & [= <-])%bind_Ok_inv; cbn [attr_base atomic_base]; try exact Ha; revert Ha;
    unfold BGPPathAttrOrigin_Decode, BGPPathAttrASPath_Decode, BGPPathAttrNextHop_Decode,
      BGPPathAttrMultiExitDisc_Decode, BGPPathAttrLocalPref_Decode, BGPPathAttrAggregator_Decode,
      BGPPathAttrOriginatorId_Decode, BGPPathAttrClusterList_Decode, BGPPathAttrMPReachNLRI_Decode,
      BGPPathAttrMPUnreachNLRI_Decode, BGPPathAttrAS4Path_Decode, BGPPathAttrAS4Aggregator_Decode,
      BGPPathAttrUnknown_Decode;
    intros (b & Hb & Ha)%bind_Ok_inv; rewrite Hb; f_equal;
    repeat match goal with
    | H : (_ ≫= _) = Ok _ |- _ => apply bind_Ok_inv in H as (? & _ & H)
    | H : (if _ then _ else _) = Ok _ |- _ => case_match
    | H : Ok _ = Ok _ |- _ => injection H as <-; reflexivity
    | H : bgp_err _ _ _ = Ok _ |- _ => discriminate H
    end.
Qed.

Lemma attr_Decode_TotalLen data pkt pa :
  bytes_ok pkt -> BGPGetPathAttr_Decode data pkt = Ok pa -> 3 <= attr_TotalLen pa.
Proof.
  intros Hb Hd%attr_Decode_base. apply Base_Decode_bounds in Hd as [Hl Hn]; [|done].
  unfold attr_TotalLen, BGPPathAttrBase_TotalLen. rewrite path_end_bound by done. unfold is_u16 in Hl. lia.
Qed.

Lemma decode_withdrawn_no_hang pkt length data :
  len pkt < 2 ^ 31 -> decode_withdrawn pkt length data <> Hang.
Proof.
  intros Hl. unfold decode_withdrawn. pose proof (decodeNLRI_no_hang pkt [] length AfiIP data Hl).
  by destruct (decodeNLRI _ _ _ _ _).
Qed.

Lemma len_drop (s : bytes) i : len (drop i s) <= len s.
Proof. unfold len. rewrite length_drop. lia. Qed.

Lemma BGPUpdate_Decode_no_hang header pkt data :
  bytes_ok pkt -> len pkt < 2 ^ 31 -> ASSize data = 4 -> BGPUpdate_Decode header pkt data <> Hang.
Proof.
  intros Hb Hl H4 H. unfold BGPUpdate_Decode in H. hang_inv.
  - discriminate.
  - eapply decode_withdrawn_no_hang; [|exact H].
    match goal with Hs : slice_from _ 2 = Ok _ |- _ => apply Decode_slice_from_len in Hs end. lia.
  - discriminate.
  - revert H. apply item_loop_no_hang; [| |done].
    + intros i pa Hd. apply attr_Decode_TotalLen in Hd; [lia | by apply bytes_ok_drop].
    + intros i. apply attr_Decode_no_hang; [by apply bytes_ok_drop | pose proof (len_drop pkt i); lia | done].
  - discriminate.
  - revert H. apply decodeNLRI_no_hang.
    repeat match goal with Hs : slice_from _ _ = Ok _ |- _ => apply Decode_slice_from_len in Hs end. lia.
Qed.

(** ** [checkPathAttributes] *)

Lemma repeated_code_spec pas : forall found,
  repeated_code found pas = false <-> NoDup (codes pas) /\ (forall c, c ∈ codes pas -> c ∉ found).
Proof.
  induction pas as [|pa pas IH]; intros found; cbn [repeated_code].
  { split; [|done]. intros _. split; [constructor | intros c Hc; by apply elem_of_nil in Hc]. }
  change (codes (pa :: pas)) with (attr_GetCode pa :: codes pas). rewrite NoDup_cons.
  case_bool_decide as Hin; [|rewrite IH].
  - split; [discriminate|]. intros [_ H]. exfalso. apply (H (attr_GetCode pa)); [by left | done].
  - setoid_rewrite elem_of_cons. naive_solver.
Qed.

(** ** Properties *)

(** C30: a message survives in a session with four-byte AS numbers if it is well formed ([body_good]): a KEEPALIVE, a
    NOTIFICATION with at most 4075 bytes of data, an OPEN as in C39, or an UPDATE of at most 4096 bytes whose prefixes
    and attributes have the lengths, flags and values of their types, of known families, without AS4_PATH and
    AS4_AGGREGATOR. Excluded are UPDATEs with an IPv6 next hop that carries a link-local part of its own
    (MPNextHopIP6), which the decoder never makes. With the header's length left at 0, [BGPMessage.Encode] writes at
    most 4096 bytes whose header announces exactly their number and the type of the body, and [Decode] of the header
    and of the bytes after it gives back the body (for an UPDATE, with its two length fields filled in;
    [NormalizeASPath] changes nothing). *)
Theorem message_roundtrip (data : BGPPeerAttrs) (b : BGPBody) :
  body_good data b ->
  exists pkt h,
    BGPMessage_Encode {| msg_Header := {| hd_Length := 0; hd_Type := body_type b |}; msg_Body := Some b |}
    = Ok (pkt, {| msg_Header := h; msg_Body := Some b |}) /\
    len pkt <= 4096 /\ BGPHeader_Decode pkt = Ok h /\ hd_Length h = len pkt /\ hd_Type h = body_type b /\
    BGPMessage_Decode h (drop 19 pkt) data = Ok {| msg_Header := h; msg_Body := Some (body_read b) |}.
Proof.
  intros Hg. pose proof (body_wire_len data b Hg) as Hl.
  exists (replicate 16 255 ++ be16 (19 + len (body_wire b)) ++ body_type b :: body_wire b),
    {| hd_Length := 19 + len (body_wire b); hd_Type := body_type b |}.
  split; [|split; [|split; [|split; [|split; [done|]]]]].
  - unfold BGPMessage_Encode. cbn [msg_Body msg_Header hd_Length hd_Type].
    rewrite (body_Encode_wire data), bind_Ok by done. cbn [Z.eqb]. unfold BGPMsgHeaderLen, BGPMsgMaxLen.
    rewrite Z.gtb_ltb. zif. rewrite bind_Ok, (u16_id (len _)), u16_id by (unfold is_u16; lia).
    rewrite BGPHeader_Encode_wire, bind_Ok. cbn [hd_Length hd_Type]. by rewrite <- !app_assoc.
  - lens. change (len (replicate 16 255)) with 16. lia.
  - apply BGPHeader_Decode_wire. unfold is_u16. lia.
  - cbn [hd_Length]. lens. change (len (replicate 16 255)) with 16. lia.
  - change (drop 19 (replicate 16 255 ++ be16 ?l ++ ?t :: ?w)) with w. by apply BGPMessage_Decode_wire.
Qed.

Definition update_example : BGPUpdate :=
  {| WithdrawnRoutesLen := 0; WithdrawnRoutes := []; TotalPathAttrLen := 0;
     PathAttributes := [AOrigin (NewBGPPathAttrOrigin 0)]; upd_NLRI := nlri_example |}.

Lemma message_roundtrip_witness :
  exists pkt h, BGPHeader_Decode pkt = Ok h /\ hd_Length h = 32 /\
    BGPMessage_Decode h (drop 19 pkt) as4_attrs
    = Ok {| msg_Header := h; msg_Body := Some (BUpdate (with_lengths update_example)) |}.
Proof.
  destruct (message_roundtrip as4_attrs (BUpdate update_example)) as (pkt & h & He & _ & Hh & Hl & _ & Hd).
  - split; [|split; [reflexivity | split; intros H; by apply (bool_decide_eq_true_2 _) in H]].
    split; [constructor|]. split; [|split; [exact nlri_example_good | vm_compute; congruence]].
    constructor; [|constructor]. split; [vm_compute; repeat split; congruence|].
    split; [reflexivity|]. split; [reflexivity | cbn; lia].
  - exists pkt, h. split; [exact Hh|]. split; [|exact Hd]. rewrite Hl.
    vm_compute in He. injection He as <- _. reflexivity.
Defined.

(** The length limit is applied to messages whose header length is 0, and only to them: such a
    message of more than 4096 bytes is an error, and a shorter one's header gets its length. A
    NOTIFICATION from [NewBGPNotificationMessage] has its length set, so it is never refused: with
    more than 4075 bytes of data it is encoded beyond the maximum. *)
Theorem message_length_limit (b : BGPBody) (w : bytes) (code subcode : Z) (d : bytes) :
  body_Encode b = Ok w ->
  (4096 < 19 + len w ->
   exists e, BGPMessage_Encode {| msg_Header := {| hd_Length := 0; hd_Type := body_type b |}; msg_Body := Some b |}
             = Err e) /\
  (19 + len w <= 4096 ->
   exists pkt m, BGPMessage_Encode {| msg_Header := {| hd_Length := 0; hd_Type := body_type b |}; msg_Body := Some b |}
                 = Ok (pkt, m) /\ len pkt = 19 + len w /\ hd_Length (msg_Header m) = len pkt) /\
  (len d <= 65000 ->
   exists pkt m, BGPMessage_Encode (NewBGPNotificationMessage code subcode d) = Ok (pkt, m) /\
     len pkt = 21 + len d /\ hd_Length (msg_Header m) = len pkt).
Proof.
  intros Hw. pose proof (len_nonneg w). pose proof (len_nonneg d). split; [|split]; intros Hl.
  - unfold BGPMessage_Encode. cbn [msg_Body msg_Header hd_Length hd_Type].
    rewrite Hw, bind_Ok. cbn [Z.eqb]. unfold BGPMsgHeaderLen, BGPMsgMaxLen. zif. by eexists.
  - unfold BGPMessage_Encode. cbn [msg_Body msg_Header hd_Length hd_Type].
    rewrite Hw, bind_Ok. cbn [Z.eqb]. unfold BGPMsgHeaderLen, BGPMsgMaxLen. rewrite Z.gtb_ltb. zif.
    rewrite bind_Ok, BGPHeader_Encode_wire, bind_Ok. eexists _, _. split; [reflexivity|].
    cbn [hd_Length hd_Type msg_Header]. rewrite (u16_id (len w)), u16_id by (unfold is_u16; lia).
    lens. change (len (replicate 16 255)) with 16. lia.
  - unfold NewBGPNotificationMessage, BGPMessage_Encode. cbn [msg_Body msg_Header hd_Length body_Encode].
    unfold BGPNotification_Encode. rewrite bind_Ok. cbn [ErrorCode ErrorSubcode nt_Data].
    rewrite (u16_id (len d)), u16_id by (unfold is_u16; lia). zif.
    rewrite bind_Ok, BGPHeader_Encode_wire, bind_Ok. eexists _, _. split; [reflexivity|].
    cbn [hd_Length hd_Type msg_Header]. lens. change (len (replicate 16 255)) with 16. lia.
Qed.

Lemma message_length_limit_witness :
  exists pkt m, BGPMessage_Encode (NewBGPNotificationMessage 3 1 (make 5000)) = Ok (pkt, m) /\ len pkt = 5021.
Proof.
  destruct (message_length_limit BKeepAlive [] 3 1 (make 5000) eq_refl) as (_ & _ & H).
  destruct H as (pkt & m & H1 & H2 & _); [vm_compute; congruence|].
  exists pkt, m. split; [exact H1 | rewrite H2; vm_compute; reflexivity].
Defined.

(** What [BGPUpdate.Decode] accepts, on arbitrary bytes: prefixes that are well formed for IPv4,
    and parts whose lengths add up to the length in the header, each of them the number of bytes
    announced for it. *)
Theorem update_decode_lengths (header : BGPHeader) (pkt : bytes) (data : BGPPeerAttrs) (u : BGPUpdate) :
  bytes_ok pkt -> len pkt < 2 ^ 31 -> is_u16 (hd_Length header) ->
  BGPUpdate_Decode header pkt data = Ok u ->
  Forall (NLRI_good (AddPathsRxActual data) AfiIP) (WithdrawnRoutes u) /\
  Forall (NLRI_good (AddPathsRxActual data) AfiIP) (upd_NLRI u) /\
  nlris_len (WithdrawnRoutes u) = WithdrawnRoutesLen u /\
  foldr (fun pa n => attr_TotalLen pa + n) 0 (PathAttributes u) = TotalPathAttrLen u /\
  hd_Length header = 23 + WithdrawnRoutesLen u + TotalPathAttrLen u + nlris_len (upd_NLRI u).
Proof.
  intros Hb Hl Hh. unfold BGPUpdate_Decode.
  intros (s & Hs & (w & Hw & H)%bind_Ok_inv)%bind_Ok_inv. destruct (_ >? _) eqn:Hc1 in H; [discriminate|].
  apply slice_inv in Hs as (_ & _ & -> & _). apply Uint16_range in Hw; [|by apply bytes_ok_take, bytes_ok_drop].
  apply bind_Ok_inv in H as (s & (Hs1 & -> & Hs2)%slice_from_inv & H).
  apply bind_Ok_inv in H as ([wd ipLen] & Hwd & H).
  unfold decode_withdrawn in Hwd. unfold is_u16 in *.
  destruct (decodeNLRI_cases (drop (Z.to_nat 2) pkt) w AfiIP data) as [[e He]|(ns & He & Hns & Hnl)];
    [by left | by apply bytes_ok_drop | lia | lia | by rewrite He in Hwd |].
  rewrite He in Hwd. injection Hwd as <- <-.
  apply bind_Ok_inv in H as (s & Hs & H). apply slice_inv in Hs as (_ & _ & -> & _).
  apply bind_Ok_inv in H as (p & Hp & H). apply Uint16_range in Hp; [|by apply bytes_ok_take, bytes_ok_drop].
  unfold is_u16 in *. destruct (_ >? _) eqn:Hc2 in H; [discriminate|]. zhyp.
  apply bind_Ok_inv in H as ([[pas ptr] rem] & Hpas & H). destruct (rem <? 0) eqn:Hrem; [discriminate|]. zhyp.
  assert (Hrem' : rem <= 0) by (eapply item_loop_rem, Hpas).
  apply item_loop_total in Hpas as (ys & -> & Hsum). cbn [app] in *.
  apply bind_Ok_inv in H as (s & (Hp1 & -> & Hp2)%slice_from_inv & H).
  apply bind_Ok_inv in H as ([n ip] & Hn & [= <-]). cbn [fst WithdrawnRoutes upd_NLRI PathAttributes WithdrawnRoutesLen TotalPathAttrLen].
  rewrite u32_id in Hn by (unfold is_u32; lia).
  destruct (decodeNLRI_cases (drop (Z.to_nat ptr) pkt) (hd_Length header - 23 - w - p) AfiIP data)
    as [[e He2]|(ns' & He2 & Hns' & Hnl')];
    [by left | by apply bytes_ok_drop | lia | lia | by rewrite He2 in Hn |].
  rewrite He2 in Hn. injection Hn as <- <-. repeat split; (done || lia).
Qed.

Lemma update_decode_lengths_witness :
  exists u, BGPUpdate_Decode {| hd_Length := 32; hd_Type := 2 |} (update_wire update_example) as4_attrs = Ok u /\
    nlris_len (upd_NLRI u) = 5 /\ 32 = 23 + WithdrawnRoutesLen u + TotalPathAttrLen u + nlris_len (upd_NLRI u).
Proof.
  exists (with_lengths update_example).
  assert (H : BGPUpdate_Decode {| hd_Length := 32; hd_Type := 2 |} (update_wire update_example) as4_attrs
              = Ok (with_lengths update_example)) by (vm_compute; reflexivity).
  split; [exact H|]. split; [reflexivity|].
  apply (update_decode_lengths {| hd_Length := 32; hd_Type := 2 |} (update_wire update_example) as4_attrs); [..|exact H].
  - vm_compute. repeat constructor; vm_compute; congruence.
  - reflexivity.
  - unfold is_u16. cbn. lia.
Defined.

(** C37: in a session with four-byte AS numbers, decoding a message that is not an OPEN always
    ends, whatever its header says and whatever its bytes are: the attribute loop, the loops inside
    the attributes and the prefix loops all advance. *)
Theorem message_decode_terminates (header : BGPHeader) (pkt : bytes) (data : BGPPeerAttrs) :
  bytes_ok pkt -> len pkt < 2 ^ 31 -> ASSize data = 4 -> hd_Type header <> BGPMsgTypeOpen ->
  BGPMessage_Decode header pkt data <> Hang.
Proof.
  intros Hb Hl H4 Ht H. unfold BGPMessage_Decode in H.
  destruct (hd_Type header =? BGPMsgTypeOpen) eqn:?; [by zhyp|].
  hang_inv.
  - by eapply BGPUpdate_Decode_no_hang.
  - unfold normalize_update in H. hang_inv. by eapply NormalizeASPath_no_hang.
  - unfold BGPNotification_Decode in H. hang_inv.
Qed.

Lemma message_decode_terminates_witness :
  BGPMessage_Decode {| hd_Length := 32; hd_Type := 2 |} (update_wire update_example) as4_attrs <> Hang.
Proof.
  apply message_decode_terminates; [|reflexivity | reflexivity | discriminate].
  vm_compute. repeat constructor; vm_compute; congruence.
Defined.

(** No decoder of a body checks that its fixed part is there: a message whose header announces 19
    bytes (no body) makes the decoder panic, for all three types that have a fixed part. *)
Theorem empty_body_panics (length type : Z) (data : BGPPeerAttrs) :
  type ∈ [BGPMsgTypeOpen; BGPMsgTypeUpdate; BGPMsgTypeNotification] ->
  BGPMessage_Decode {| hd_Length := length; hd_Type := type |} [] data = Panic.
Proof.
  intros Ht. repeat (apply elem_of_cons in Ht as [->|Ht]; [reflexivity|]). by apply elem_of_nil in Ht.
Qed.

Lemma empty_body_panics_witness : BGPMessage_Decode {| hd_Length := 19; hd_Type := 2 |} [] as4_attrs = Panic.
Proof. apply empty_body_panics. right. left. Defined.

(** [checkPathAttributes] accepts exactly the lists in which no code is repeated and ORIGIN,
    AS_PATH and NEXT_HOP are present; a repeated code is a malformed attribute list, and the first
    missing one of the three is reported with its code. But [BGPUpdate.Decode] does not call it: it
    accepts an UPDATE that announces a prefix without any attribute. *)
Theorem check_path_attributes_spec (pas : list BGPPathAttr) (data : BGPPeerAttrs) :
  (checkPathAttributes pas = Ok tt <->
   NoDup (codes pas) /\ Forall (fun c => c ∈ codes pas) BGPPathAttrWellKnownMandatory) /\
  (AddPathsRxActual data = false ->
   exists u, BGPUpdate_Decode {| hd_Length := 27; hd_Type := 2 |} [0; 0; 0; 0; 24; 10; 1; 2] data = Ok u /\
     PathAttributes u = [] /\ len (upd_NLRI u) = 1).
Proof.
  split.
  - unfold checkPathAttributes. destruct (repeated_code [] pas) eqn:Hr.
    + split; [discriminate|]. intros [Hnd _]. rewrite (proj2 (repeated_code_spec pas [])) in Hr; [done|].
      split; [done | intros c _; apply not_elem_of_nil].
    + apply repeated_code_spec in Hr as [Hnd _]. destruct (filter _ _) as [|c l] eqn:Hf.
      * split; [|done]. intros _. split; [done|]. apply Forall_forall. intros c Hc.
        destruct (decide (c ∈ codes pas)) as [|Hni]; [done | exfalso].
        apply (not_elem_of_nil c). rewrite <- Hf. by apply list_elem_of_filter.
      * split; [discriminate|]. intros [_ Hall]. exfalso.
        assert (Hc : c ∈ c :: l) by left. rewrite <- Hf in Hc. apply list_elem_of_filter in Hc as [Hc Hin].
        rewrite Forall_forall in Hall. by apply Hc, Hall.
  - intros Ha. unfold BGPUpdate_Decode, decodeNLRI, decode_withdrawn, decodeNLRI. rewrite Ha.
    eexists. split; [vm_compute; reflexivity|]. split; reflexivity.
Qed.

Lemma check_path_attributes_spec_witness :
  exists u, BGPUpdate_Decode {| hd_Length := 27; hd_Type := 2 |} [0; 0; 0; 0; 24; 10; 1; 2] as4_attrs = Ok u /\
    PathAttributes u = [] /\ len (upd_NLRI u) = 1.
Proof. apply (proj2 (check_path_attributes_spec [] as4_attrs)). reflexivity. Defined.
