(* ===== verification/BgpFsm.v ===== *)
(** The session state machine of a BGP neighbour ([src/bgp/fsm/fsm.go]) with the parts of its
    manager and connection it calls ([src/bgp/fsm/fsm_manager.go], [src/bgp/fsm/conn.go]): the
    state, the operations, and one step of the loop of [FSM.StartFSM].

    A call of the Go code that leaves the FSM (a write to the connection, a value sent on a channel
    of the server, the start or stop of an outgoing connection) is an [Action] appended to the
    trace. The channels are taken to have room, and waits on them to end; [BgpReader] has the goroutines
    of a connection and the wait for them. At the end is one step of the loop of the manager
    ([FSMManager.Init]), which runs beside the FSMs. The logging is dropped. *)
From stdpp Require Import base numbers list gmap.
From Stdlib Require Import ZArith Lia.
From S2P Require Import Prelude GoNet BgpBase BgpOpen BgpNlri BgpAttrs BgpHelpers BgpMsg.
Open Scope Z_scope.

Definition BGPIdleHoldTimeDefault : Z := 5.
Definition BGPRestartTimeDefault : Z := 1.

(** A key that the map does not have gives 0. *)
Definition IdleHoldTimeInterval (t : Z) : Z :=
  if t =? 5 then 10 else if t =? 10 then 30 else if t =? 60 then 120 else if t =? 120 then 180
  else if t =? 180 then 300 else if t =? 300 then 500 else 0.

(** [BGPEventNone] is the zero value of the Go type. *)
Inductive BGPFSMEvent :=
  | BGPEventNone
  | BGPEventManualStart
  | BGPEventManualStop
  | BGPEventAutoStart
  | BGPEventManualStartPassTcpEst
  | BGPEventAutoStartPassTcpEst
  | BGPEventAutoStartDampPeerOscl
  | BGPEventAutoStartDampPeerOsclPassTcpEst
  | BGPEventAutoStop
  | BGPEventConnRetryTimerExp
  | BGPEventHoldTimerExp
  | BGPEventKeepAliveTimerExp
  | BGPEventDelayOpenTimerExp
  | BGPEventIdleHoldTimerExp
  | BGPEventTcpConnValid
  | BGPEventTcpCrInvalid
  | BGPEventTcpCrAcked
  | BGPEventTcpConnConfirmed
  | BGPEventTcpConnFails
  | BGPEventBGPOpen
  | BGPEventBGPOpenDelayOpenTimer
  | BGPEventHeaderErr
  | BGPEventOpenMsgErr
  | BGPEventOpenCollisionDump
  | BGPEventNotifMsgVerErr
  | BGPEventNotifMsg
  | BGPEventKeepAliveMsg
  | BGPEventUpdateMsg
  | BGPEventUpdateMsgErr.

(** The states; the idle one carries the field [passive] of [IdleState]. *)
Inductive BaseState :=
  | IdleState (passive : bool)
  | ConnectState
  | ActiveState
  | OpenSentState
  | OpenConfirmState
  | EstablishedState.

Definition NewIdleState : BaseState := IdleState false.

(** [config.BGPFSMState] *)
Definition BGPFSMIdle : Z := 1.
Definition BGPFSMOpensent : Z := 4.
Definition BGPFSMEstablished : Z := 6.
Definition state_of (s : BaseState) : Z :=
  match s with
  | IdleState _ => BGPFSMIdle
  | ConnectState => 2
  | ActiveState => 3
  | OpenSentState => BGPFSMOpensent
  | OpenConfirmState => 5
  | EstablishedState => BGPFSMEstablished
  end.

(** [config.ConnDir] *)
Definition ConnDirOut : Z := 0.
Definition ConnDirIn : Z := 1.
Definition ConnDirInvalid : Z := 2.

Inductive PeerType := PeerTypeInternal | PeerTypeExternal.

(** A [net.Conn] is a token. *)
Record PeerConnDir := { connDir : Z; conn : Z }.
Record PeerConn := { pc_dir : Z; pc_conn : Z; pc_id : Z }.

(** The [data interface{}] of an event. *)
Inductive EventData :=
  | DNil
  | DConn (c : PeerConnDir)
  | DErr
  | DMsg (m : BGPMessage)
  | DMsgErr (e : BGPMessageError).

(** A timer is stopped, or armed with the seconds it was last reset to. [Stop] does not take back
    an expiry that is already in the timer's channel, so every expiry may be read in every
    state. *)
Definition timer : Type := option Z.

Record FSM := {
  State : BaseState;
  fsm_id : Z;
  peerType : PeerType;
  peerConn : option PeerConn;
  outTCPConn : option Z;
  connId : Z;
  event : BGPFSMEvent;
  connectRetryCounter : Z;
  connectRetryTime : Z;
  connectRetryTimer : timer;
  holdTime : Z;
  holdTimer : timer;
  keepAliveTime : Z;
  keepAliveTimer : timer;
  restartTime : Z;
  restartTimer : timer;
  passiveTcpEst : bool;
  dampPeerOscl : bool;
  idleHoldTime : Z;
  idleHoldTimer : timer;
  afiSafiMap : gset Z;
  close : bool;
}.

(** The manager's map of FSMs, seen from a running FSM: an entry points to that FSM, or to
    another one. *)
Inductive fsm_ref := Self | Other (f : FSM).

Record FSMManager := {
  fsms : gmap Z fsm_ref;
  acceptConn : bool;
  activeFSM : Z;
}.

Inductive Action :=
  | Write (c : Z) (pkt : bytes) (ok : bool)
  | StartReading (c : Z)
  | StopReading (c : Z)
  | ConnectToPeer (out : Z)
  | StopConn (out : Z)
  | CloseConn (c : Z)
  | PeerUp (c : Z)
  | PeerDown
  | FSMStateChange (state : Z)
  | SetPeerAttrs (bgpId : bytes) (asSize holdT keepT : Z) (addPathFamily : gmap Z (gmap Z Z))
  | CloseFSM (fsm : Z)
  | NewConn (fsm : Z) (dir c : Z)
  | TcpConnFail (fsm : Z)
  | StartedFSM (fsm : Z)
  | PassiveToFSM (fsm : Z)
  | ConnToFSM (fsm dir c : Z)
  | EventToFSM (fsm : Z) (ev : BGPFSMEvent) (reason : Z)
  | BfdToFSM (fsm : Z) (up : bool)
  | NotificationSent
  | NotificationReceived
  | PktToServer (m : BGPMessage).

Record Ctx := { self : FSM; mgr : FSMManager; trace : list Action }.

(** ** The configuration, and what the environment answers during a step *)

Record NeighborConf := {
  conf_HoldTime : Z;
  conf_KeepaliveTime : Z;
  conf_ConnectRetryTime : Z;
  conf_MaxPrefixesRestartTimer : Z;
  conf_LocalAS : Z;
  conf_AddPathsRx : bool;
  conf_AddPathsMaxTx : Z;
  conf_AfiSafiMap : gmap Z bool;
  conf_BfdEnable : bool;
  conf_Broadcast : bool;       (* the neighbour's address is [net.IPv4bcast] *)
  gConf_AS : Z;
  gConf_RouterId : bytes;
}.

(** [w_write n]: whether a write succeeds when [n] actions came before it in the trace. [w_range]:
    the order in which Go's [range] visits the keys of a map. [w_rand], [w_outId]: the numbers the
    random generators draw. [w_UseBfdState], [w_BfdDown]: what the server last wrote into
    [Neighbor.State.UseBfdState], and whether [BfdNeighborState] is "down". *)
Record World := {
  w_write : nat -> bool;
  w_range : list Z -> list Z;
  w_rand : Z * Z;
  w_outId : Z;
  w_UseBfdState : bool;
  w_BfdDown : bool;
}.

(** ** Assignments to the fields *)

Definition set_State (v : BaseState) (f : FSM) : FSM :=
  {| State := v; fsm_id := fsm_id f; peerType := peerType f; peerConn := peerConn f; outTCPConn :=
     outTCPConn f; connId := connId f; event := event f; connectRetryCounter := connectRetryCounter
     f; connectRetryTime := connectRetryTime f; connectRetryTimer := connectRetryTimer f; holdTime
     := holdTime f; holdTimer := holdTimer f; keepAliveTime := keepAliveTime f; keepAliveTimer :=
     keepAliveTimer f; restartTime := restartTime f; restartTimer := restartTimer f; passiveTcpEst
     := passiveTcpEst f; dampPeerOscl := dampPeerOscl f; idleHoldTime := idleHoldTime f;
     idleHoldTimer := idleHoldTimer f; afiSafiMap := afiSafiMap f; close := close f |}.
Definition set_peerType (v : PeerType) (f : FSM) : FSM :=
  {| State := State f; fsm_id := fsm_id f; peerType := v; peerConn := peerConn f; outTCPConn := outTCPConn
     f; connId := connId f; event := event f; connectRetryCounter := connectRetryCounter f;
     connectRetryTime := connectRetryTime f; connectRetryTimer := connectRetryTimer f; holdTime :=
     holdTime f; holdTimer := holdTimer f; keepAliveTime := keepAliveTime f; keepAliveTimer :=
     keepAliveTimer f; restartTime := restartTime f; restartTimer := restartTimer f; passiveTcpEst
     := passiveTcpEst f; dampPeerOscl := dampPeerOscl f; idleHoldTime := idleHoldTime f;
     idleHoldTimer := idleHoldTimer f; afiSafiMap := afiSafiMap f; close := close f |}.
Definition set_peerConn (v : option PeerConn) (f : FSM) : FSM :=
  {| State := State f; fsm_id := fsm_id f; peerType := peerType f; peerConn := v; outTCPConn := outTCPConn
     f; connId := connId f; event := event f; connectRetryCounter := connectRetryCounter f;
     connectRetryTime := connectRetryTime f; connectRetryTimer := connectRetryTimer f; holdTime :=
     holdTime f; holdTimer := holdTimer f; keepAliveTime := keepAliveTime f; keepAliveTimer :=
     keepAliveTimer f; restartTime := restartTime f; restartTimer := restartTimer f; passiveTcpEst
     := passiveTcpEst f; dampPeerOscl := dampPeerOscl f; idleHoldTime := idleHoldTime f;
     idleHoldTimer := idleHoldTimer f; afiSafiMap := afiSafiMap f; close := close f |}.
Definition set_outTCPConn (v : option Z) (f : FSM) : FSM :=
  {| State := State f; fsm_id := fsm_id f; peerType := peerType f; peerConn := peerConn f; outTCPConn := v;
     connId := connId f; event := event f; connectRetryCounter := connectRetryCounter f;
     connectRetryTime := connectRetryTime f; connectRetryTimer := connectRetryTimer f; holdTime :=
     holdTime f; holdTimer := holdTimer f; keepAliveTime := keepAliveTime f; keepAliveTimer :=
     keepAliveTimer f; restartTime := restartTime f; restartTimer := restartTimer f; passiveTcpEst
     := passiveTcpEst f; dampPeerOscl := dampPeerOscl f; idleHoldTime := idleHoldTime f;
     idleHoldTimer := idleHoldTimer f; afiSafiMap := afiSafiMap f; close := close f |}.
Definition set_connId (v : Z) (f : FSM) : FSM :=
  {| State := State f; fsm_id := fsm_id f; peerType := peerType f; peerConn := peerConn f; outTCPConn :=
     outTCPConn f; connId := v; event := event f; connectRetryCounter := connectRetryCounter f;
     connectRetryTime := connectRetryTime f; connectRetryTimer := connectRetryTimer f; holdTime :=
     holdTime f; holdTimer := holdTimer f; keepAliveTime := keepAliveTime f; keepAliveTimer :=
     keepAliveTimer f; restartTime := restartTime f; restartTimer := restartTimer f; passiveTcpEst
     := passiveTcpEst f; dampPeerOscl := dampPeerOscl f; idleHoldTime := idleHoldTime f;
     idleHoldTimer := idleHoldTimer f; afiSafiMap := afiSafiMap f; close := close f |}.
Definition set_event (v : BGPFSMEvent) (f : FSM) : FSM :=
  {| State := State f; fsm_id := fsm_id f; peerType := peerType f; peerConn := peerConn f; outTCPConn :=
     outTCPConn f; connId := connId f; event := v; connectRetryCounter := connectRetryCounter f;
     connectRetryTime := connectRetryTime f; connectRetryTimer := connectRetryTimer f; holdTime :=
     holdTime f; holdTimer := holdTimer f; keepAliveTime := keepAliveTime f; keepAliveTimer :=
     keepAliveTimer f; restartTime := restartTime f; restartTimer := restartTimer f; passiveTcpEst
     := passiveTcpEst f; dampPeerOscl := dampPeerOscl f; idleHoldTime := idleHoldTime f;
     idleHoldTimer := idleHoldTimer f; afiSafiMap := afiSafiMap f; close := close f |}.
Definition set_connectRetryCounter (v : Z) (f : FSM) : FSM :=
  {| State := State f; fsm_id := fsm_id f; peerType := peerType f; peerConn := peerConn f; outTCPConn :=
     outTCPConn f; connId := connId f; event := event f; connectRetryCounter := v; connectRetryTime
     := connectRetryTime f; connectRetryTimer := connectRetryTimer f; holdTime := holdTime f;
     holdTimer := holdTimer f; keepAliveTime := keepAliveTime f; keepAliveTimer := keepAliveTimer f;
     restartTime := restartTime f; restartTimer := restartTimer f; passiveTcpEst := passiveTcpEst f;
     dampPeerOscl := dampPeerOscl f; idleHoldTime := idleHoldTime f; idleHoldTimer := idleHoldTimer
     f; afiSafiMap := afiSafiMap f; close := close f |}.
Definition set_connectRetryTimer (v : timer) (f : FSM) : FSM :=
  {| State := State f; fsm_id := fsm_id f; peerType := peerType f; peerConn := peerConn f; outTCPConn :=
     outTCPConn f; connId := connId f; event := event f; connectRetryCounter := connectRetryCounter
     f; connectRetryTime := connectRetryTime f; connectRetryTimer := v; holdTime := holdTime f;
     holdTimer := holdTimer f; keepAliveTime := keepAliveTime f; keepAliveTimer := keepAliveTimer f;
     restartTime := restartTime f; restartTimer := restartTimer f; passiveTcpEst := passiveTcpEst f;
     dampPeerOscl := dampPeerOscl f; idleHoldTime := idleHoldTime f; idleHoldTimer := idleHoldTimer
     f; afiSafiMap := afiSafiMap f; close := close f |}.
Definition set_holdTime (v : Z) (f : FSM) : FSM :=
  {| State := State f; fsm_id := fsm_id f; peerType := peerType f; peerConn := peerConn f; outTCPConn :=
     outTCPConn f; connId := connId f; event := event f; connectRetryCounter := connectRetryCounter
     f; connectRetryTime := connectRetryTime f; connectRetryTimer := connectRetryTimer f; holdTime
     := v; holdTimer := holdTimer f; keepAliveTime := keepAliveTime f; keepAliveTimer :=
     keepAliveTimer f; restartTime := restartTime f; restartTimer := restartTimer f; passiveTcpEst
     := passiveTcpEst f; dampPeerOscl := dampPeerOscl f; idleHoldTime := idleHoldTime f;
     idleHoldTimer := idleHoldTimer f; afiSafiMap := afiSafiMap f; close := close f |}.
Definition set_holdTimer (v : timer) (f : FSM) : FSM :=
  {| State := State f; fsm_id := fsm_id f; peerType := peerType f; peerConn := peerConn f; outTCPConn :=
     outTCPConn f; connId := connId f; event := event f; connectRetryCounter := connectRetryCounter
     f; connectRetryTime := connectRetryTime f; connectRetryTimer := connectRetryTimer f; holdTime
     := holdTime f; holdTimer := v; keepAliveTime := keepAliveTime f; keepAliveTimer :=
     keepAliveTimer f; restartTime := restartTime f; restartTimer := restartTimer f; passiveTcpEst
     := passiveTcpEst f; dampPeerOscl := dampPeerOscl f; idleHoldTime := idleHoldTime f;
     idleHoldTimer := idleHoldTimer f; afiSafiMap := afiSafiMap f; close := close f |}.
Definition set_keepAliveTime (v : Z) (f : FSM) : FSM :=
  {| State := State f; fsm_id := fsm_id f; peerType := peerType f; peerConn := peerConn f; outTCPConn :=
     outTCPConn f; connId := connId f; event := event f; connectRetryCounter := connectRetryCounter
     f; connectRetryTime := connectRetryTime f; connectRetryTimer := connectRetryTimer f; holdTime
     := holdTime f; holdTimer := holdTimer f; keepAliveTime := v; keepAliveTimer := keepAliveTimer
     f; restartTime := restartTime f; restartTimer := restartTimer f; passiveTcpEst := passiveTcpEst
     f; dampPeerOscl := dampPeerOscl f; idleHoldTime := idleHoldTime f; idleHoldTimer :=
     idleHoldTimer f; afiSafiMap := afiSafiMap f; close := close f |}.
Definition set_keepAliveTimer (v : timer) (f : FSM) : FSM :=
  {| State := State f; fsm_id := fsm_id f; peerType := peerType f; peerConn := peerConn f; outTCPConn :=
     outTCPConn f; connId := connId f; event := event f; connectRetryCounter := connectRetryCounter
     f; connectRetryTime := connectRetryTime f; connectRetryTimer := connectRetryTimer f; holdTime
     := holdTime f; holdTimer := holdTimer f; keepAliveTime := keepAliveTime f; keepAliveTimer := v;
     restartTime := restartTime f; restartTimer := restartTimer f; passiveTcpEst := passiveTcpEst f;
     dampPeerOscl := dampPeerOscl f; idleHoldTime := idleHoldTime f; idleHoldTimer := idleHoldTimer
     f; afiSafiMap := afiSafiMap f; close := close f |}.
Definition set_restartTime (v : Z) (f : FSM) : FSM :=
  {| State := State f; fsm_id := fsm_id f; peerType := peerType f; peerConn := peerConn f; outTCPConn :=
     outTCPConn f; connId := connId f; event := event f; connectRetryCounter := connectRetryCounter
     f; connectRetryTime := connectRetryTime f; connectRetryTimer := connectRetryTimer f; holdTime
     := holdTime f; holdTimer := holdTimer f; keepAliveTime := keepAliveTime f; keepAliveTimer :=
     keepAliveTimer f; restartTime := v; restartTimer := restartTimer f; passiveTcpEst :=
     passiveTcpEst f; dampPeerOscl := dampPeerOscl f; idleHoldTime := idleHoldTime f; idleHoldTimer
     := idleHoldTimer f; afiSafiMap := afiSafiMap f; close := close f |}.
Definition set_restartTimer (v : timer) (f : FSM) : FSM :=
  {| State := State f; fsm_id := fsm_id f; peerType := peerType f; peerConn := peerConn f; outTCPConn :=
     outTCPConn f; connId := connId f; event := event f; connectRetryCounter := connectRetryCounter
     f; connectRetryTime := connectRetryTime f; connectRetryTimer := connectRetryTimer f; holdTime
     := holdTime f; holdTimer := holdTimer f; keepAliveTime := keepAliveTime f; keepAliveTimer :=
     keepAliveTimer f; restartTime := restartTime f; restartTimer := v; passiveTcpEst :=
     passiveTcpEst f; dampPeerOscl := dampPeerOscl f; idleHoldTime := idleHoldTime f; idleHoldTimer
     := idleHoldTimer f; afiSafiMap := afiSafiMap f; close := close f |}.
Definition set_passiveTcpEst (v : bool) (f : FSM) : FSM :=
  {| State := State f; fsm_id := fsm_id f; peerType := peerType f; peerConn := peerConn f; outTCPConn :=
     outTCPConn f; connId := connId f; event := event f; connectRetryCounter := connectRetryCounter
     f; connectRetryTime := connectRetryTime f; connectRetryTimer := connectRetryTimer f; holdTime
     := holdTime f; holdTimer := holdTimer f; keepAliveTime := keepAliveTime f; keepAliveTimer :=
     keepAliveTimer f; restartTime := restartTime f; restartTimer := restartTimer f; passiveTcpEst
     := v; dampPeerOscl := dampPeerOscl f; idleHoldTime := idleHoldTime f; idleHoldTimer :=
     idleHoldTimer f; afiSafiMap := afiSafiMap f; close := close f |}.
Definition set_idleHoldTime (v : Z) (f : FSM) : FSM :=
  {| State := State f; fsm_id := fsm_id f; peerType := peerType f; peerConn := peerConn f; outTCPConn :=
     outTCPConn f; connId := connId f; event := event f; connectRetryCounter := connectRetryCounter
     f; connectRetryTime := connectRetryTime f; connectRetryTimer := connectRetryTimer f; holdTime
     := holdTime f; holdTimer := holdTimer f; keepAliveTime := keepAliveTime f; keepAliveTimer :=
     keepAliveTimer f; restartTime := restartTime f; restartTimer := restartTimer f; passiveTcpEst
     := passiveTcpEst f; dampPeerOscl := dampPeerOscl f; idleHoldTime := v; idleHoldTimer :=
     idleHoldTimer f; afiSafiMap := afiSafiMap f; close := close f |}.
Definition set_idleHoldTimer (v : timer) (f : FSM) : FSM :=
  {| State := State f; fsm_id := fsm_id f; peerType := peerType f; peerConn := peerConn f; outTCPConn :=
     outTCPConn f; connId := connId f; event := event f; connectRetryCounter := connectRetryCounter
     f; connectRetryTime := connectRetryTime f; connectRetryTimer := connectRetryTimer f; holdTime
     := holdTime f; holdTimer := holdTimer f; keepAliveTime := keepAliveTime f; keepAliveTimer :=
     keepAliveTimer f; restartTime := restartTime f; restartTimer := restartTimer f; passiveTcpEst
     := passiveTcpEst f; dampPeerOscl := dampPeerOscl f; idleHoldTime := idleHoldTime f;
     idleHoldTimer := v; afiSafiMap := afiSafiMap f; close := close f |}.
Definition set_afiSafiMap (v : gset Z) (f : FSM) : FSM :=
  {| State := State f; fsm_id := fsm_id f; peerType := peerType f; peerConn := peerConn f; outTCPConn :=
     outTCPConn f; connId := connId f; event := event f; connectRetryCounter := connectRetryCounter
     f; connectRetryTime := connectRetryTime f; connectRetryTimer := connectRetryTimer f; holdTime
     := holdTime f; holdTimer := holdTimer f; keepAliveTime := keepAliveTime f; keepAliveTimer :=
     keepAliveTimer f; restartTime := restartTime f; restartTimer := restartTimer f; passiveTcpEst
     := passiveTcpEst f; dampPeerOscl := dampPeerOscl f; idleHoldTime := idleHoldTime f;
     idleHoldTimer := idleHoldTimer f; afiSafiMap := v; close := close f |}.
Definition set_close (v : bool) (f : FSM) : FSM :=
  {| State := State f; fsm_id := fsm_id f; peerType := peerType f; peerConn := peerConn f; outTCPConn :=
     outTCPConn f; connId := connId f; event := event f; connectRetryCounter := connectRetryCounter
     f; connectRetryTime := connectRetryTime f; connectRetryTimer := connectRetryTimer f; holdTime
     := holdTime f; holdTimer := holdTimer f; keepAliveTime := keepAliveTime f; keepAliveTimer :=
     keepAliveTimer f; restartTime := restartTime f; restartTimer := restartTimer f; passiveTcpEst
     := passiveTcpEst f; dampPeerOscl := dampPeerOscl f; idleHoldTime := idleHoldTime f;
     idleHoldTimer := idleHoldTimer f; afiSafiMap := afiSafiMap f; close := v |}.

(** ** Sequences of calls *)

Definition op : Type := Ctx -> result Ctx.

Declare Scope fsm_scope.
Delimit Scope fsm_scope with fsm.
Open Scope fsm_scope.
Notation "a ;; b" := (fun c : Ctx => (a : op) c ≫= (b : op))
  (at level 100, b at level 200, right associativity) : fsm_scope.

Definition skip : op := fun c => Ok c.
Definition modify (g : FSM -> FSM) : op := fun c => Ok {| self := g (self c); mgr := mgr c; trace := trace c |}.
Definition set_mgr (g : FSMManager -> FSMManager) : op :=
  fun c => Ok {| self := self c; mgr := g (mgr c); trace := trace c |}.
Definition act (a : Action) : op := fun c => Ok {| self := self c; mgr := mgr c; trace := trace c ++ [a] |}.

Definition set_acceptConn (b : bool) (m : FSMManager) : FSMManager :=
  {| fsms := fsms m; acceptConn := b; activeFSM := activeFSM m |}.
Definition set_activeFSM (i : Z) (m : FSMManager) : FSMManager :=
  {| fsms := fsms m; acceptConn := acceptConn m; activeFSM := i |}.
Definition delete_fsm (i : Z) (m : FSMManager) : FSMManager :=
  {| fsms := delete i (fsms m); acceptConn := acceptConn m; activeFSM := activeFSM m |}.

Section fsm.
Context (conf : NeighborConf) (w : World).

(** ** Timers and counters *)

Definition StopConnectRetryTimer : op := modify (set_connectRetryTimer None).
Definition StartConnectRetryTimer : op :=
  StopConnectRetryTimer ;; modify (fun f => set_connectRetryTimer (Some (connectRetryTime f)) f).
Definition StopRestartTimer : op := modify (set_restartTimer None).
Definition StartRestartTimer : op :=
  StopRestartTimer ;; modify (fun f => set_restartTimer (Some (restartTime f)) f).
Definition ApplyAutomaticStart : op := StartRestartTimer.

(** [holdTime] is unsigned: the test [holdTime < 0] of the code is never true. *)
Definition SetHoldTime (holdT keepaliveT : Z) : op :=
  if (holdT <? 0) || ((holdT >? 0) && (holdT <? 3)) then skip
  else modify (fun f => set_keepAliveTime keepaliveT (set_holdTime holdT f)).
Definition StopHoldTimer : op := modify (set_holdTimer None).
Definition StartHoldTimer : op :=
  StopHoldTimer ;; modify (fun f => if negb (holdTime f =? 0) then set_holdTimer (Some (holdTime f)) f else f).
Definition StopKeepAliveTimer : op := modify (set_keepAliveTimer None).
Definition StartKeepAliveTimer : op :=
  StopKeepAliveTimer ;;
  modify (fun f => if negb (keepAliveTime f =? 0) then set_keepAliveTimer (Some (keepAliveTime f)) f else f).
Definition SetConnectRetryCounter (value : Z) : op := modify (set_connectRetryCounter value).
Definition IncrConnectRetryCounter : op :=
  modify (fun f => set_connectRetryCounter (connectRetryCounter f + 1) f).
Definition SetIdleHoldTime (seconds : Z) : op := modify (set_idleHoldTime seconds).
Definition StopIdleHoldTimer : op := modify (set_idleHoldTimer None).
Definition StartIdleHoldTimer : op :=
  StopIdleHoldTimer ;;
  modify (fun f => if (idleHoldTime f >? 0) && (idleHoldTime f <=? 300)
                   then set_idleHoldTimer (Some (idleHoldTime f)) f else f).
Definition SetPassiveTcpEstablishment (flag : bool) : op := modify (set_passiveTcpEst flag).

(** ** The manager's side *)

Definition mgr_AcceptPeerConn : op := set_mgr (set_acceptConn true).
Definition mgr_RejectPeerConn : op := set_mgr (set_acceptConn false).
Definition AcceptPeerConn : op := mgr_AcceptPeerConn.
Definition RejectPeerConn : op := mgr_RejectPeerConn.

Definition fsmEstablished (i c : Z) : op := fun x =>
  match fsms (mgr x) !! i with
  | Some _ => (set_mgr (set_activeFSM i) ;; act (PeerUp c)) x
  | None => Ok x
  end.
Definition fsmBroken (i : Z) : op := fun x =>
  if activeFSM (mgr x) =? i then (set_mgr (set_activeFSM ConnDirInvalid) ;; act PeerDown) x else Ok x.
Definition fsmStateChange (i state : Z) : op := fun x =>
  if (activeFSM (mgr x) =? i) || (activeFSM (mgr x) =? ConnDirInvalid)
  then act (FSMStateChange state) x else Ok x.
Definition fsmClose (i : Z) : op := fun x =>
  match fsms (mgr x) !! i with
  | Some _ => (act (CloseFSM i) ;; fsmBroken i ;; set_mgr (delete_fsm i)) x
  | None => Ok x
  end.

Definition deref (x : Ctx) (r : fsm_ref) : FSM := match r with Self => self x | Other f => f end.

(** The keys of the map in the order [range] visits them. *)
Definition range_fsms (x : Ctx) : list Z := w_range w (map_to_list (fsms (mgr x))).*1.

Fixpoint find_dir (x : Ctx) (dir : Z) (ids : list Z) : Z :=
  match ids with
  | [] => ConnDirInvalid
  | i :: ids =>
    match peerConn ∘ deref x <$> fsms (mgr x) !! i with
    | Some (Some c) => if pc_dir c =? dir then i else find_dir x dir ids
    | _ => find_dir x dir ids
    end
  end.
Definition getFSMIdByDir (x : Ctx) (dir : Z) : Z := find_dir x dir (range_fsms x).

(** The loop of [receivedBGPOpenMessage]: an entry deleted before it is reached is not visited.
    The variable [closeFSMId] of the loop body shadows the one of the function. *)
Fixpoint collisions (i dir localBGPId bgpIdInt : Z) (ids : list Z) (closeConnDir : Z) (x : Ctx)
    : result (Z * Ctx) :=
  match ids with
  | [] => Ok (closeConnDir, x)
  | j :: ids =>
    match fsms (mgr x) !! j with
    | None => collisions i dir localBGPId bgpIdInt ids closeConnDir x
    | Some r =>
      let state := state_of (State (deref x r)) in
      if negb (j =? i) && (state >=? BGPFSMOpensent) then
        let closeConnDir := if state =? BGPFSMEstablished then dir
                            else if localBGPId >? bgpIdInt then ConnDirIn else ConnDirOut in
        x ← fsmClose (getFSMIdByDir x closeConnDir) x;
        collisions i dir localBGPId bgpIdInt ids closeConnDir x
      else collisions i dir localBGPId bgpIdInt ids closeConnDir x
    end
  end.

(** The outer [closeFSMId] keeps its initial value, so the attributes are always set. *)
Definition receivedBGPOpenMessage (i dir : Z) (openMsg : BGPOpen) (x : Ctx) : result (bool * Ctx) :=
  localBGPId ← ConvertIPBytesToUint (default [] (To4 (gConf_RouterId conf)));
  bgpIdInt ← ConvertIPBytesToUint (default [] (To4 (op_BGPId openMsg)));
  r ← collisions i dir localBGPId bgpIdInt (range_fsms x) ConnDirInvalid x;
  let '(closeConnDir, x) := r in
  asSize ← GetASSize openMsg;
  x ← match fsms (mgr x) !! i with
      | Some r => act (SetPeerAttrs (op_BGPId openMsg) asSize (holdTime (deref x r))
                         (keepAliveTime (deref x r)) (GetAddPathFamily openMsg)) x
      | None => Ok x
      end;
  Ok (negb (closeConnDir =? dir), x).

(** ** The connection *)

(** [packet, _ := msg.Encode()]: when the encoder fails, nothing is written. *)
Definition encoded (m : BGPMessage) : result bytes :=
  match BGPMessage_Encode m with
  | Ok (pkt, _) => Ok pkt
  | Err _ => Ok []
  | Panic => Panic
  | Hang => Hang
  end.

(** [( *fsm.peerConn.conn).Write(packet)]; [on_ok] runs when it returns no error. *)
Definition conn_Write (m : BGPMessage) (on_ok : op) : op := fun x =>
  pkt ← encoded m;
  match peerConn (self x) with
  | None => Panic
  | Some c =>
    let ok := w_write w (length (trace x)) in
    (act (Write (pc_conn c) pkt ok) ;; if ok then on_ok else skip) x
  end.

(** [gConf.RouterId.To4().String()], parsed again by [NewBGPOpenMessage]. *)
Definition router_id : bytes :=
  match To4 (gConf_RouterId conf) with Some ip => default [] (To16 ip) | None => [] end.

Definition open_message (holdT : Z) : BGPMessage :=
  NewBGPOpenMessage (conf_LocalAS conf) (u16 holdT) router_id
    (ConstructOptParams (conf_LocalAS conf) (w_range w (map_to_list (conf_AfiSafiMap conf)).*1)
       (conf_AddPathsRx conf) (conf_AddPathsMaxTx conf)).

Definition sendOpenMessage : op := fun x => conn_Write (open_message (holdTime (self x))) skip x.
Definition sendKeepAliveMessage : op := conn_Write NewBGPKeepAliveMessage skip ;; StartKeepAliveTimer.
Definition SendNotificationMessage (code subCode : Z) (data : bytes) : op :=
  conn_Write (NewBGPNotificationMessage code subCode data) (act NotificationSent).

Definition SetPeerConn (data : EventData) : op := fun x =>
  match peerConn (self x) with
  | Some _ => Ok x
  | None =>
    let connId' := if w.(w_rand).1 =? connId (self x) then u32 (connId (self x) + 1) else w.(w_rand).2 in
    match data with
    | DConn c =>
      (modify (set_connId connId') ;;
       modify (set_peerConn (Some {| pc_dir := connDir c; pc_conn := conn c; pc_id := connId' |})) ;;
       act (StartReading (conn c))) x
    | _ => Panic
    end
  end.

(** The wait for the reader on [exitCh] is taken to its end here. [BgpReader] has the goroutines it waits for: it ends
    when [pktRxCh] and [outConnErrCh], which the FSM does not read meanwhile, have room for what is being read
    ([clear_ends]), and not when [pktRxCh] is full ([clear_deadlocks]). *)
Definition ClearPeerConn : op := fun x =>
  match peerConn (self x) with
  | None => Ok x
  | Some c =>
    (StopKeepAliveTimer ;; StopHoldTimer ;; modify (set_connId 0) ;;
     act (StopReading (pc_conn c)) ;; modify (set_peerConn None)) x
  end.

Definition ConnEstablished : op := fun x =>
  match peerConn (self x) with
  | None => Panic
  | Some c => fsmEstablished (fsm_id (self x)) (pc_conn c) x
  end.
Definition ConnBroken : op := fun x => fsmBroken (fsm_id (self x)) x.

(** The addresses handed to [ConnectToPeer] are not part of the model. *)
Definition InitiateConnToPeer : op := fun x =>
  if conf_Broadcast conf then Ok x
  else match outTCPConn (self x) with
       | None => (modify (set_outTCPConn (Some (w_outId w))) ;; act (ConnectToPeer (w_outId w))) x
       | Some _ => Ok x
       end.

Definition StopConnToPeer : op := fun x =>
  match outTCPConn (self x) with
  | Some o => (act (StopConn o) ;; modify (set_outTCPConn None)) x
  | None => Ok x
  end.

Definition HandleAnotherConnection (data : EventData) : op := fun x =>
  match data with
  | DConn c => act (NewConn (fsm_id (self x)) (connDir c) (conn c)) x
  | _ => Panic
  end.

(** ** Changing state *)

Definition leave (s : BaseState) : op :=
  match s with
  | IdleState _ => StopIdleHoldTimer
  | OpenConfirmState | EstablishedState => SetHoldTime (conf_HoldTime conf) (conf_KeepaliveTime conf)
  | ConnectState | ActiveState | OpenSentState => skip
  end.

Definition is_established (s : BaseState) : bool := state_of s =? BGPFSMEstablished.

(** [ChangeState] with the [enter] methods as an argument. *)
Definition ChangeState_with (enter : BaseState -> op) (newState : BaseState) : op := fun x =>
  if close (self x) then Ok x
  else
    let oldState := State (self x) in
    (leave oldState ;; modify (set_State newState) ;; enter newState ;;
     (fun x =>
        if is_established oldState && negb (is_established (State (self x))) then ConnBroken x
        else if negb (is_established oldState) && is_established (State (self x)) then ConnEstablished x
        else Ok x) ;;
     (fun x => fsmStateChange (fsm_id (self x)) (state_of (State (self x))) x)) x.

(** [enter] and [ChangeState] call each other: only [ConnectState.enter] changes state again, to
    the active state, so one level of recursion is enough. *)
Fixpoint enter_fuel (n : nat) (s : BaseState) : op :=
  match s with
  | IdleState _ => StopKeepAliveTimer ;; StopHoldTimer ;; RejectPeerConn ;; ApplyAutomaticStart
  | ConnectState =>
    if w_UseBfdState w && conf_BfdEnable conf && w_BfdDown w then
      match n with
      | O => fun _ => Hang
      | S n => ChangeState_with (enter_fuel n) ActiveState
      end
    else AcceptPeerConn ;; InitiateConnToPeer
  | ActiveState => AcceptPeerConn
  | OpenSentState | OpenConfirmState => skip
  | EstablishedState => SetIdleHoldTime BGPIdleHoldTimeDefault
  end.
Definition enter : BaseState -> op := enter_fuel 1.
Definition ChangeState (newState : BaseState) : op := ChangeState_with enter newState.

(** ** Messages *)

(** [body.MyAS] is the 16-bit field of the message. *)
Definition ProcessOpenMessage (pkt : BGPMessage) (x : Ctx) : result (bool * Ctx) :=
  match msg_Body pkt with
  | Some (BOpen body) =>
    x ← (if op_HoldTime body <? holdTime (self x)
         then SetHoldTime (op_HoldTime body) (op_HoldTime body / 3) else skip) x;
    x ← modify (set_peerType (if op_MyAS body =? gConf_AS conf then PeerTypeInternal else PeerTypeExternal)) x;
    x ← modify (fun f => set_afiSafiMap
                  (filter (fun k => conf_AfiSafiMap conf !! k = Some true) (GetProtocolFromOpenMsg body)
                   ∪ afiSafiMap f) f) x;
    match peerConn (self x) with
    | None => Panic
    | Some c => receivedBGPOpenMessage (fsm_id (self x)) (pc_dir c) body x
    end
  | _ => Panic
  end.

(** The loop over the path attributes only logs. *)
Definition ProcessUpdateMessage (pkt : BGPMessage) : op :=
  match msg_Body pkt with
  | Some (BUpdate _) => act (PktToServer pkt)
  | _ => fun _ => Panic
  end.

(** ** The handlers of the states *)

Definition IdleState_processEvent (passive : bool) (ev : BGPFSMEvent) : op :=
  match ev with
  | BGPEventManualStart | BGPEventAutoStart =>
    SetConnectRetryCounter 0 ;; StartConnectRetryTimer ;; ChangeState ConnectState
  | BGPEventManualStartPassTcpEst | BGPEventAutoStartPassTcpEst =>
    SetConnectRetryCounter 0 ;; StartConnectRetryTimer ;; ChangeState ActiveState
  | BGPEventAutoStartDampPeerOscl =>
    (fun x => SetIdleHoldTime (IdleHoldTimeInterval (idleHoldTime (self x))) x) ;;
    StartIdleHoldTimer ;; modify (set_State (IdleState false))
  | BGPEventAutoStartDampPeerOsclPassTcpEst =>
    (fun x => SetIdleHoldTime (IdleHoldTimeInterval (idleHoldTime (self x))) x) ;;
    StartIdleHoldTimer ;; modify (set_State (IdleState true))
  | BGPEventIdleHoldTimerExp =>
    StartConnectRetryTimer ;; ChangeState (if passive then ActiveState else ConnectState)
  | _ => skip
  end.

Definition ConnectState_processEvent (ev : BGPFSMEvent) (data : EventData) : op :=
  match ev with
  | BGPEventManualStop =>
    StopConnToPeer ;; SetConnectRetryCounter 0 ;; StopConnectRetryTimer ;; ChangeState NewIdleState
  | BGPEventConnRetryTimerExp =>
    StopConnToPeer ;; StartConnectRetryTimer ;; InitiateConnToPeer
  | BGPEventTcpCrAcked | BGPEventTcpConnConfirmed =>
    StopConnectRetryTimer ;; SetPeerConn data ;; sendOpenMessage ;;
    SetHoldTime (conf_HoldTime conf) (conf_KeepaliveTime conf) ;; StartHoldTimer ;;
    ChangeState OpenSentState
  | BGPEventTcpConnFails =>
    StopConnectRetryTimer ;; StopConnToPeer ;; ChangeState NewIdleState
  | BGPEventHeaderErr | BGPEventOpenMsgErr | BGPEventNotifMsgVerErr
  | BGPEventAutoStop | BGPEventHoldTimerExp | BGPEventKeepAliveTimerExp | BGPEventIdleHoldTimerExp
  | BGPEventBGPOpen | BGPEventOpenCollisionDump | BGPEventNotifMsg | BGPEventKeepAliveMsg
  | BGPEventUpdateMsg | BGPEventUpdateMsgErr =>
    StopConnectRetryTimer ;; StopConnToPeer ;; IncrConnectRetryCounter ;; ChangeState NewIdleState
  | _ => skip
  end.

Definition ActiveState_processEvent (ev : BGPFSMEvent) (data : EventData) : op :=
  match ev with
  | BGPEventManualStop =>
    StopConnToPeer ;; SetConnectRetryCounter 0 ;; StopConnectRetryTimer ;; ChangeState NewIdleState
  | BGPEventConnRetryTimerExp => StartConnectRetryTimer ;; ChangeState ConnectState
  | BGPEventTcpCrAcked | BGPEventTcpConnConfirmed =>
    StopConnectRetryTimer ;; SetPeerConn data ;; sendOpenMessage ;;
    SetHoldTime (conf_HoldTime conf) (conf_KeepaliveTime conf) ;; StartHoldTimer ;;
    ChangeState OpenSentState
  | BGPEventTcpConnFails =>
    StartConnectRetryTimer ;; StopConnToPeer ;; ClearPeerConn ;; IncrConnectRetryCounter ;;
    ChangeState NewIdleState
  | BGPEventHeaderErr | BGPEventOpenMsgErr | BGPEventNotifMsgVerErr
  | BGPEventAutoStop | BGPEventHoldTimerExp | BGPEventKeepAliveTimerExp | BGPEventIdleHoldTimerExp
  | BGPEventBGPOpen | BGPEventOpenCollisionDump | BGPEventNotifMsg | BGPEventKeepAliveMsg
  | BGPEventUpdateMsg | BGPEventUpdateMsgErr =>
    StopConnectRetryTimer ;; ClearPeerConn ;; StopConnToPeer ;; IncrConnectRetryCounter ;;
    ChangeState NewIdleState
  | _ => skip
  end.

(** The calls with which the last three states drop a session. *)
Definition drop_session : op :=
  StopConnectRetryTimer ;; ClearPeerConn ;; StopConnToPeer ;; IncrConnectRetryCounter ;;
  ChangeState NewIdleState.
Definition notify_and_drop (code subCode : Z) (data : bytes) : op :=
  SendNotificationMessage code subCode data ;; drop_session.
Definition report_error (data : EventData) : op :=
  match data with
  | DMsgErr e => notify_and_drop (TypeCode e) (SubTypeCode e) (Data e)
  | _ => fun _ => Panic
  end.

(** The body of [if st.fsm.ProcessOpenMessage(bgpMsg) { ... }] *)
Definition open_accepted (r : bool * Ctx) : result Ctx :=
  if r.1 then (sendKeepAliveMessage ;; StartHoldTimer ;; ChangeState OpenConfirmState) r.2 else Ok r.2.

Definition OpenSentState_processEvent (ev : BGPFSMEvent) (data : EventData) : op :=
  match ev with
  | BGPEventManualStop =>
    SendNotificationMessage BGPCease 0 [] ;; StopConnectRetryTimer ;; ClearPeerConn ;;
    StopConnToPeer ;; SetConnectRetryCounter 0 ;; ChangeState NewIdleState
  | BGPEventAutoStop | BGPEventOpenCollisionDump => notify_and_drop BGPCease 0 []
  | BGPEventHoldTimerExp => notify_and_drop BGPHoldTimerExpired 0 []
  | BGPEventTcpCrAcked | BGPEventTcpConnConfirmed => HandleAnotherConnection data
  | BGPEventTcpConnFails =>
    ClearPeerConn ;; StopConnToPeer ;; StartConnectRetryTimer ;; ChangeState ActiveState
  | BGPEventBGPOpen =>
    StopConnectRetryTimer ;;
    match data with
    | DMsg bgpMsg => fun x => r ← ProcessOpenMessage bgpMsg x; open_accepted r
    | _ => fun _ => Panic
    end
  | BGPEventHeaderErr | BGPEventOpenMsgErr => report_error data
  | BGPEventNotifMsgVerErr =>
    StopConnectRetryTimer ;; ClearPeerConn ;; StopConnToPeer ;; ChangeState NewIdleState
  | BGPEventConnRetryTimerExp | BGPEventKeepAliveTimerExp | BGPEventDelayOpenTimerExp
  | BGPEventIdleHoldTimerExp | BGPEventBGPOpenDelayOpenTimer | BGPEventNotifMsg
  | BGPEventKeepAliveMsg | BGPEventUpdateMsg | BGPEventUpdateMsgErr =>
    notify_and_drop BGPFSMError 0 []
  | _ => skip
  end.

Definition OpenConfirmState_processEvent (ev : BGPFSMEvent) (data : EventData) : op :=
  match ev with
  | BGPEventManualStop =>
    SendNotificationMessage BGPCease 0 [] ;; ClearPeerConn ;; StopConnToPeer ;;
    StopConnectRetryTimer ;; SetConnectRetryCounter 0 ;; ChangeState NewIdleState
  | BGPEventAutoStop | BGPEventOpenCollisionDump => notify_and_drop BGPCease 0 []
  | BGPEventHoldTimerExp => notify_and_drop BGPHoldTimerExpired 0 []
  | BGPEventKeepAliveTimerExp => sendKeepAliveMessage
  | BGPEventTcpCrAcked | BGPEventTcpConnConfirmed => HandleAnotherConnection data
  | BGPEventTcpConnFails | BGPEventNotifMsg => drop_session
  | BGPEventHeaderErr | BGPEventOpenMsgErr => report_error data
  | BGPEventNotifMsgVerErr =>
    StopConnectRetryTimer ;; ClearPeerConn ;; StopConnToPeer ;; ChangeState NewIdleState
  | BGPEventKeepAliveMsg => StartHoldTimer ;; ChangeState EstablishedState
  | BGPEventConnRetryTimerExp | BGPEventDelayOpenTimerExp | BGPEventIdleHoldTimerExp
  | BGPEventBGPOpenDelayOpenTimer | BGPEventUpdateMsg | BGPEventUpdateMsgErr =>
    notify_and_drop BGPCease 0 []
  | _ => skip
  end.

Definition EstablishedState_processEvent (ev : BGPFSMEvent) (data : EventData) : op :=
  match ev with
  | BGPEventManualStop =>
    SendNotificationMessage BGPCease 0 [] ;; StopConnectRetryTimer ;; ClearPeerConn ;;
    StopConnToPeer ;; SetConnectRetryCounter 0 ;; ChangeState NewIdleState
  | BGPEventAutoStop | BGPEventOpenCollisionDump => notify_and_drop BGPCease 0 []
  | BGPEventHoldTimerExp => notify_and_drop BGPHoldTimerExpired 0 []
  | BGPEventKeepAliveTimerExp => sendKeepAliveMessage
  | BGPEventTcpCrAcked | BGPEventTcpConnConfirmed => HandleAnotherConnection data
  | BGPEventTcpConnFails | BGPEventNotifMsgVerErr | BGPEventNotifMsg => drop_session
  | BGPEventKeepAliveMsg => StartHoldTimer
  | BGPEventUpdateMsg =>
    StartHoldTimer ;;
    match data with DMsg bgpMsg => ProcessUpdateMessage bgpMsg | _ => fun _ => Panic end
  | BGPEventUpdateMsgErr => report_error data
  | BGPEventConnRetryTimerExp | BGPEventDelayOpenTimerExp | BGPEventIdleHoldTimerExp
  | BGPEventOpenMsgErr | BGPEventBGPOpenDelayOpenTimer | BGPEventHeaderErr =>
    notify_and_drop BGPFSMError 0 []
  | _ => skip
  end.

Definition processEvent (s : BaseState) (ev : BGPFSMEvent) (data : EventData) : op :=
  match s with
  | IdleState passive => IdleState_processEvent passive ev
  | ConnectState => ConnectState_processEvent ev data
  | ActiveState => ActiveState_processEvent ev data
  | OpenSentState => OpenSentState_processEvent ev data
  | OpenConfirmState => OpenConfirmState_processEvent ev data
  | EstablishedState => EstablishedState_processEvent ev data
  end.

Definition ProcessEvent (ev : BGPFSMEvent) (data : EventData) : op :=
  modify (set_event ev) ;; (fun x => processEvent (State (self x)) ev data x).

(** ** The inputs of the loop of [StartFSM] *)

(** A message with a type that has no case leaves the event at 0. *)
Definition ProcessPacket (msg : BGPMessage) (msgErr : option BGPMessageError) : op :=
  match msgErr with
  | Some e =>
    ProcessEvent (if TypeCode e =? BGPMsgHeaderError then BGPEventHeaderErr
                  else if TypeCode e =? BGPOpenMsgError then BGPEventOpenMsgErr
                  else if TypeCode e =? BGPUpdateMsgError then BGPEventUpdateMsgErr
                  else BGPEventNone) (DMsgErr e)
  | None =>
    let ty := hd_Type (msg_Header msg) in
    if ty =? BGPMsgTypeOpen then ProcessEvent BGPEventBGPOpen (DMsg msg)
    else if ty =? BGPMsgTypeUpdate then ProcessEvent BGPEventUpdateMsg (DMsg msg)
    else if ty =? BGPMsgTypeNotification then
      act NotificationReceived ;;
      match msg_Body msg with
      | Some (BNotification _) => ProcessEvent BGPEventNotifMsg (DMsg msg)
      | _ => fun _ => Panic
      end
    else if ty =? BGPMsgTypeKeepAlive then ProcessEvent BGPEventKeepAliveMsg (DMsg msg)
    else ProcessEvent BGPEventNone (DMsg msg)
  end.

Definition sendAutoStartEvent : op := fun x =>
  let f := self x in
  ProcessEvent (if passiveTcpEst f
                then if dampPeerOscl f then BGPEventAutoStartDampPeerOsclPassTcpEst
                     else BGPEventAutoStartPassTcpEst
                else if dampPeerOscl f then BGPEventAutoStartDampPeerOscl else BGPEventAutoStart) DNil x.

Definition BGPCmdReasonMaxPrefixExceeded : Z := 1.

(** What the loop selects. The transmission of updates ([pktTxCh]) is not modelled. *)
Inductive Input :=
  | OutConn (c : Z)
  | OutConnErr (errId : Z)
  | InConn (c : Z)
  | Close
  | PassiveTcpEst (b : bool)
  | PktRx (msg : BGPMessage) (msgErr : option BGPMessageError)
  | EventRx (ev : BGPFSMEvent) (reason : Z)
  | BfdStatus (up : bool)
  | ConnectRetryTimer
  | HoldTimer
  | KeepAliveTimer
  | IdleHoldTimer
  | RestartTimer.

(** One iteration of the loop, which returns after [Close]. What the manager does by itself, as the reports of StopFSM and
    Cleanup to the server, is in [mgr_handle]. *)
Definition handle (i : Input) : op := fun x =>
  match i with
  | OutConn c =>
    match outTCPConn (self x) with
    | None => act (CloseConn c) x
    | Some _ =>
      (StopConnToPeer ;; modify (set_outTCPConn None) ;;
       ProcessEvent BGPEventTcpCrAcked (DConn {| connDir := ConnDirOut; conn := c |})) x
    end
  | OutConnErr errId =>
    (StopConnToPeer ;;
     (fun x =>
        if negb (errId =? 0) && negb (errId =? connId (self x)) then Ok x
        else (modify (set_outTCPConn None) ;; ProcessEvent BGPEventTcpConnFails DErr ;;
              (fun x => if close (self x) then Ok x else act (TcpConnFail (fsm_id (self x))) x)) x)) x
  | InConn c => ProcessEvent BGPEventTcpConnConfirmed (DConn {| connDir := ConnDirIn; conn := c |}) x
  | Close => (modify (set_close true) ;; ProcessEvent BGPEventManualStop DNil) x
  | PassiveTcpEst b => SetPassiveTcpEstablishment b x
  | PktRx msg msgErr => ProcessPacket msg msgErr x
  | EventRx ev reason =>
    ((if reason =? BGPCmdReasonMaxPrefixExceeded
      then modify (set_restartTime (conf_MaxPrefixesRestartTimer conf)) else skip) ;;
     ProcessEvent ev DNil ;; modify (set_restartTime BGPRestartTimeDefault) ;;
     ProcessEvent BGPEventAutoStart DNil) x
  | BfdStatus up =>
    ((if negb up then ProcessEvent BGPEventAutoStop DNil
      else if state_of (State (self x)) <? BGPFSMOpensent then ProcessEvent BGPEventAutoStop DNil
      else skip) ;;
     ProcessEvent BGPEventAutoStart DNil) x
  | ConnectRetryTimer => ProcessEvent BGPEventConnRetryTimerExp DNil x
  | HoldTimer => ProcessEvent BGPEventHoldTimerExp DNil x
  | KeepAliveTimer => ProcessEvent BGPEventKeepAliveTimerExp DNil x
  | IdleHoldTimer => ProcessEvent BGPEventIdleHoldTimerExp DNil x
  | RestartTimer => sendAutoStartEvent x
  end.

(** What [StartFSM] does before the loop. *)
Definition StartFSM : op := fun x => (enter (State (self x)) ;; ProcessEvent BGPEventAutoStart DNil) x.
End fsm.

(** [NewFSM] and [Init]: the managers start an FSM in the idle, the active or the connect state. *)
Definition NewFSM (conf : NeighborConf) (i : Z) (state : BaseState) : FSM :=
  {| State := state; fsm_id := i; peerType := PeerTypeInternal; peerConn := None; outTCPConn := None;
     connId := 0; event := BGPEventNone; connectRetryCounter := 0;
     connectRetryTime := conf_ConnectRetryTime conf; connectRetryTimer := None;
     holdTime := conf_HoldTime conf; holdTimer := None; keepAliveTime := conf_KeepaliveTime conf;
     keepAliveTimer := None; restartTime := BGPRestartTimeDefault; restartTimer := None;
     passiveTcpEst := false; dampPeerOscl := false; idleHoldTime := BGPIdleHoldTimeDefault;
     idleHoldTimer := None; afiSafiMap := ∅; close := false |}.

(** ** The loop of the manager

    It runs beside the FSMs and shares its record with them, under a lock. What it sends to an FSM is an action of the
    trace here, and an input of that FSM later. *)

Definition BGPCmdReasonNone : Z := 0.
Definition insert_fsm (i : Z) (r : fsm_ref) (m : FSMManager) : FSMManager :=
  {| fsms := <[i := r]> (fsms m); acceptConn := acceptConn m; activeFSM := activeFSM m |}.

(** What the loop of [FSMManager.Init] selects. *)
Inductive MgrInput :=
  | AcceptCh (c : Z)
  | tcpConnFailCh (fsm : Z)
  | newConnCh (fsm dir c : Z)
  | StopFSMCh
  | CloseCh
  | CommandCh (ev : BGPFSMEvent) (reason : Z)
  | BfdStatusCh (up : bool).

Section manager.
Context (conf : NeighborConf) (w : World).

(** [for id, fsm := range mgr.fsms]: an entry deleted before it is reached is not visited. *)
Fixpoint each_fsm (body : Z -> op) (ids : list Z) (x : Ctx) : result Ctx :=
  match ids with
  | [] => Ok x
  | i :: ids =>
    x ← (match fsms (mgr x) !! i with Some _ => body i x | None => Ok x end);
    each_fsm body ids x
  end.
Definition range_mgr (body : Z -> op) : op := fun x => each_fsm body (range_fsms w x) x.

Definition StopFSM : op :=
  range_mgr (fun i => act (EventToFSM i BGPEventTcpConnFails BGPCmdReasonNone) ;; fsmBroken i).
Definition Cleanup : op :=
  range_mgr (fun i => act (CloseFSM i) ;; fsmBroken i ;; fsmStateChange i BGPFSMIdle ;; set_mgr (delete_fsm i)).
Definition handleBfdStatusChange (up : bool) : op := range_mgr (fun i => act (BfdToFSM i up)).
Definition fsmTcpConnFailed (i : Z) : op := fun x =>
  if negb (Z.of_nat (size (fsms (mgr x))) =? 1) && negb (activeFSM (mgr x) =? i) then fsmClose i x else Ok x.

Definition getNewId (i : Z) : Z := u8 (i + 1) mod 2.
(** With [createFSMForNewConnection]: the new FSM runs on its own. *)
Definition handleAnotherConnection (i dir c : Z) : op := fun x =>
  match fsms (mgr x) !! i with
  | Some _ => Ok x
  | None =>
    (set_mgr (insert_fsm i (Other (NewFSM conf i (if dir =? ConnDirOut then ConnectState else ActiveState)))) ;;
     act (StartedFSM i) ;; act (PassiveToFSM i) ;; act (ConnToFSM i dir c)) x
  end.

(** A connection of the peer goes to the first FSM the second loop visits, if none has one. *)
Definition accept_conn (c : Z) : op := fun x =>
  if negb (acceptConn (mgr x)) then act (CloseConn c) x
  else if existsb (fun i => match peerConn ∘ deref x <$> fsms (mgr x) !! i with
                            | Some (Some p) => pc_dir p =? ConnDirIn
                            | _ => false
                            end) (range_fsms w x) then act (CloseConn c) x
  else match range_fsms w x with i :: _ => act (ConnToFSM i ConnDirIn c) x | [] => Ok x end.

Definition is_command (ev : BGPFSMEvent) : bool :=
  match ev with
  | BGPEventManualStart | BGPEventManualStop | BGPEventAutoStop | BGPEventManualStartPassTcpEst => true
  | _ => false
  end.

(** One iteration of the loop, which returns after [CloseCh]. *)
Definition mgr_handle (i : MgrInput) : op := fun x =>
  match i with
  | AcceptCh c => accept_conn c x
  | tcpConnFailCh i => fsmTcpConnFailed i x
  | newConnCh i dir c => handleAnotherConnection (getNewId i) dir c x
  | StopFSMCh => StopFSM x
  | CloseCh => Cleanup x
  | CommandCh ev reason => if is_command ev then range_mgr (fun i => act (EventToFSM i ev reason)) x else Ok x
  | BfdStatusCh up => handleBfdStatusChange up x
  end.
End manager.
