(* ===== verification/BgpFsmFacts.v ===== *)
(** The session state machine is safe: its invariant, the absence of panics, what the end of a
    session leaves behind, the timers it keeps, the collision of two connections. *)
From stdpp Require Import base numbers list gmap.
From Stdlib Require Import ZArith Lia.
From S2P Require Import Prelude GoNet BgpBase BgpOpen BgpNlri BgpAttrs BgpAttrCodec BgpHelpers BgpMsg BgpFsm.
Open Scope Z_scope.

(** ** Total correctness of a sequence of calls *)

Definition ends (r : result Ctx) (Q : Ctx -> Prop) : Prop := exists x, r = Ok x /\ Q x.

Lemma ends_bind r (b : op) Q : ends r (fun y => ends (b y) Q) -> ends (r ≫= b) Q.
Proof. intros (y & -> & H). by rewrite bind_Ok. Qed.
Lemma ends_Ok y (Q : Ctx -> Prop) : Q y -> ends (Ok y) Q.
Proof. by exists y. Qed.
Lemma ends_mono r (Q R : Ctx -> Prop) : ends r Q -> (forall y, Q y -> R y) -> ends r R.
Proof. intros (y & ? & ?) HQ. exists y. auto. Qed.

(** ** Messages the machine sends are always encoded *)

Lemma encoded_notification code subcode data : exists pkt, encoded (NewBGPNotificationMessage code subcode data) = Ok pkt.
Proof.
  unfold encoded, BGPMessage_Encode, NewBGPNotificationMessage. cbn [msg_Body body_Encode].
  destruct (BGPNotification_Encode _) as [b|e| |] eqn:Hb; [|eauto|discriminate..].
  rewrite bind_Ok. cbn [msg_Header hd_Length hd_Type].
  destruct (_ =? 0); [destruct (_ >? _)|]; cbn; eauto.
Qed.

Lemma open_encoded conf w h :
  is_u32 (conf_LocalAS conf) -> len (w_range w (map_to_list (conf_AfiSafiMap conf)).*1) <= 23 ->
  To4 (gConf_RouterId conf) <> None -> exists pkt, encoded (open_message conf w h) = Ok pkt.
Proof.
  intros Has Hn Hid. unfold encoded, open_message, NewBGPOpenMessage, BGPMessage_Encode.
  cbn [msg_Body body_Encode]. unfold NewBGPOpen.
  destruct (ConstructOptParams_advertised (conf_LocalAS conf) _ (conf_AddPathsRx conf) (conf_AddPathsMaxTx conf) Has Hn)
    as (l & -> & -> & Hl).
  destruct (To4 (gConf_RouterId conf)) as [ip|] eqn:Hip; [clear Hid|done].
  assert (Hr : To4 (router_id conf) = Some ip).
  { unfold router_id. rewrite Hip. pose proof (To4_len _ _ Hip) as H4. unfold To16. zif.
    apply len_4_inv in H4 as (a & b & c & d & ->). reflexivity. }
  erewrite BGPOpen_Encode_To4 by exact Hr.
  cbn [op_Version op_MyAS op_HoldTime op_OptParamLen op_OptParams].
  rewrite BGPOpen_Encode_wire.
  - rewrite bind_Ok. cbn [msg_Header hd_Length hd_Type Z.eqb].
    match goal with |- context [if ?b then bgp_err _ _ _ else _] => destruct b end; cbn; eauto.
  - apply NewBGPOpen_good; [done | apply u16_range | by eapply To4_len | | done | done].
    apply advertised_good; [done | apply add_path_flags_u8 | lia].
Qed.

Lemma encoded_keepalive : exists pkt, encoded NewBGPKeepAliveMessage = Ok pkt.
Proof. by eexists. Qed.

(** ** What an OPEN needs to be processed without a panic *)

Definition open_received (m : BGPOpen) : Prop :=
  len (op_BGPId m) = 4 /\ exists n, GetASSize m = Ok n.

Lemma BGPOpen_Decode_received pkt m : bytes_ok pkt -> BGPOpen_Decode pkt = Ok m -> open_received m.
Proof.
  intros Hb H. unfold BGPOpen_Decode in H.
  apply bind_Ok_inv in H as (v & _ & H). apply bind_Ok_inv in H as (? & _ & H).
  apply bind_Ok_inv in H as (a & _ & H). apply bind_Ok_inv in H as (? & _ & H).
  apply bind_Ok_inv in H as (h & _ & H). apply bind_Ok_inv in H as (ip & Hip & H).
  apply bind_Ok_inv in H as (l & _ & H). apply bind_Ok_inv in H as ([[ps off] rem] & Hl & H).
  destruct (rem <? 0); [discriminate|]. injection H as <-.
  apply slice_inv in Hip as (_ & _ & _ & Hip).
  split; [cbn; by rewrite To4_4|]. unfold GetASSize. cbn [op_OptParams].
  assert (Hps : Forall (fun p => exists c, p = OptCapability c) ps).
  { eapply item_loop_Forall; [exact Hb | | constructor | exact Hl].
    intros s y _ Hx. unfold decode_opt_param in Hx.
    apply bind_Ok_inv in Hx as (? & _ & Hx). apply bind_Ok_inv in Hx as (c & _ & [= <-]). by eexists. }
  clear - Hps. induction Hps as [|? ps (c & ->) _ IH]; cbn [opt_params_as_size]; [by eexists|].
  repeat case_match; eauto.
Qed.

(** ** The invariant *)

Definition has_conn (s : BaseState) : bool :=
  match s with OpenSentState | OpenConfirmState | EstablishedState => true | _ => false end.

Record conf_ok (conf : NeighborConf) : Prop := {
  ok_LocalAS : is_u32 (conf_LocalAS conf);
  ok_RouterId : exists ip, To4 (gConf_RouterId conf) = Some ip;
  ok_families : (size (conf_AfiSafiMap conf) <= 23)%nat;
  ok_HoldTime : conf_HoldTime conf = 0 \/ 3 <= conf_HoldTime conf;
}.
Definition world_ok (w : World) : Prop := forall l, w_range w l ≡ₚ l.

Record fsm_inv (conf : NeighborConf) (f : FSM) : Prop := {
  inv_conn : if has_conn (State f) then exists c, peerConn f = Some c /\ pc_id c = connId f
             else peerConn f = None /\ holdTimer f = None /\ keepAliveTimer f = None;
  inv_out : match State f with IdleState _ | ActiveState => outTCPConn f = None | _ => True end;
  inv_idle : match State f with IdleState _ => True | _ => idleHoldTimer f = None end;
  inv_hold : holdTime f = 0 \/ 3 <= holdTime f <= conf_HoldTime conf;
  inv_est : State f = EstablishedState -> holdTime f = conf_HoldTime conf;
  inv_running : close f = false;
}.

(** ** What each call does to the FSM's own record *)

Definition does (a : op) (g : FSM -> FSM) (x : Ctx) : Prop := ends (a x) (fun y => self y = g (self x)).

Lemma does_seq (a b : op) g h x :
  does a g x -> (forall y, self y = g (self x) -> does b h y) -> does (a ;; b)%fsm (fun f => h (g f)) x.
Proof.
  intros (y & Hy & Hg) Hb. destruct (Hb y Hg) as (z & Hz & Hh). exists z.
  rewrite Hy, bind_Ok, Hz. split; [done|]. by rewrite Hh, Hg.
Qed.
Lemma does_modify g x : does (modify g) g x.
Proof. by eexists. Qed.
Lemma does_act e x : does (act e) (fun f => f) x.
Proof. by eexists. Qed.
Lemma does_set_mgr g x : does (set_mgr g) (fun f => f) x.
Proof. by eexists. Qed.
Lemma does_skip x : does skip (fun f => f) x.
Proof. by eexists. Qed.
Lemma does_ext a g h x : does a g x -> g (self x) = h (self x) -> does a h x.
Proof. intros (y & Hy & Hg) He. exists y. by rewrite <- He. Qed.

Section does.
Context (conf : NeighborConf) (w : World).
Implicit Types (x : Ctx) (f : FSM).

Definition hold_set (holdT keepT : Z) f : FSM :=
  if (holdT <? 0) || ((holdT >? 0) && (holdT <? 3)) then f
  else set_keepAliveTime keepT (set_holdTime holdT f).
Definition cleared f : FSM :=
  match peerConn f with
  | None => f
  | Some _ => set_peerConn None (set_connId 0 (set_holdTimer None (set_keepAliveTimer None f)))
  end.
Definition keepalive_armed f : FSM :=
  set_keepAliveTimer (if keepAliveTime f =? 0 then None else Some (keepAliveTime f)) f.
Definition hold_armed f : FSM := set_holdTimer (if holdTime f =? 0 then None else Some (holdTime f)) f.
Definition idle_armed f : FSM :=
  set_idleHoldTimer (if (idleHoldTime f >? 0) && (idleHoldTime f <=? 300) then Some (idleHoldTime f) else None) f.
Definition connecting f : FSM :=
  if conf_Broadcast conf then f
  else match outTCPConn f with None => set_outTCPConn (Some (w_outId w)) f | Some _ => f end.

Lemma does_SetHoldTime h k x : does (SetHoldTime h k) (hold_set h k) x.
Proof. unfold SetHoldTime, hold_set, does. destruct (_ || _); by eexists. Qed.
Lemma does_ClearPeerConn x : does ClearPeerConn cleared x.
Proof. unfold does, ClearPeerConn, cleared. destruct (peerConn (self x)); by eexists. Qed.
Lemma does_StopConnToPeer x : does StopConnToPeer (set_outTCPConn None) x.
Proof.
  unfold does, StopConnToPeer. destruct (outTCPConn (self x)) eqn:Ho; [by eexists|].
  exists x. split; [done|]. destruct x as [[] ? ?]. cbn in *. by subst.
Qed.
Lemma does_StartConnectRetryTimer x :
  does StartConnectRetryTimer (fun f => set_connectRetryTimer (Some (connectRetryTime f)) f) x.
Proof. by eexists. Qed.
Lemma does_StartHoldTimer x : does StartHoldTimer hold_armed x.
Proof. eexists. split; [done|]. unfold hold_armed. cbn. by destruct (holdTime (self x) =? 0). Qed.
Lemma does_StartKeepAliveTimer x : does StartKeepAliveTimer keepalive_armed x.
Proof. eexists. split; [done|]. unfold keepalive_armed. cbn. by destruct (keepAliveTime (self x) =? 0). Qed.
Lemma does_StartIdleHoldTimer x : does StartIdleHoldTimer idle_armed x.
Proof. eexists. split; [done|]. unfold idle_armed. cbn. by destruct (_ && _). Qed.
Lemma does_InitiateConnToPeer x : does (InitiateConnToPeer conf w) connecting x.
Proof.
  unfold does, InitiateConnToPeer, connecting.
  destruct (conf_Broadcast conf); [by eexists|]. destruct (outTCPConn (self x)); by eexists.
Qed.

Lemma does_conn_Write m on_ok c pkt x :
  encoded m = Ok pkt -> peerConn (self x) = Some c -> (forall y, does on_ok (fun f => f) y) ->
  does (conn_Write w m on_ok) (fun f => f) x.
Proof.
  intros He Hc Hok. unfold does, conn_Write. rewrite He, bind_Ok, Hc.
  apply ends_bind, ends_Ok. destruct (w_write _ _); [|by eexists].
  match goal with |- ends (on_ok ?y) _ => exact (Hok y) end.
Qed.
Lemma does_SendNotificationMessage code subCode data c x :
  peerConn (self x) = Some c -> does (SendNotificationMessage w code subCode data) (fun f => f) x.
Proof.
  destruct (encoded_notification code subCode data) as (pkt & He). intros Hc.
  eapply does_conn_Write; [done..|]. intros. apply does_act.
Qed.
Lemma does_sendKeepAliveMessage c x :
  peerConn (self x) = Some c -> does (sendKeepAliveMessage w) keepalive_armed x.
Proof.
  destruct encoded_keepalive as (pkt & He). intros Hc.
  eapply does_ext; [|reflexivity]. apply does_seq.
  - eapply does_conn_Write; [done..|]. apply does_skip.
  - intros. apply does_StartKeepAliveTimer.
Qed.

(** ** Changing state *)

Definition left_ f : FSM :=
  match State f with
  | IdleState _ => set_idleHoldTimer None f
  | OpenConfirmState | EstablishedState => hold_set (conf_HoldTime conf) (conf_KeepaliveTime conf) f
  | _ => f
  end.
Definition bfd_down : bool := w_UseBfdState w && conf_BfdEnable conf && w_BfdDown w.
Definition entered (s : BaseState) f : FSM :=
  match s with
  | IdleState _ => set_restartTimer (Some (restartTime f)) (set_holdTimer None (set_keepAliveTimer None f))
  | ConnectState => if bfd_down then set_State ActiveState (left_ f) else connecting f
  | EstablishedState => set_idleHoldTime BGPIdleHoldTimeDefault f
  | _ => f
  end.
Definition changed (s : BaseState) f : FSM := entered s (set_State s (left_ f)).

Lemma does_leave s x : State (self x) = s -> does (leave conf s) left_ x.
Proof.
  intros <-. unfold left_, does, leave. destruct (State (self x)); try (by eexists); apply does_SetHoldTime.
Qed.

Lemma peerConn_left f : peerConn (left_ f) = peerConn f.
Proof. unfold left_, hold_set. destruct (State f); try done; by destruct (_ || _). Qed.
Lemma close_left f : close (left_ f) = close f.
Proof. unfold left_, hold_set. destruct (State f); try done; by destruct (_ || _). Qed.
Lemma peerConn_entered s f : peerConn (entered s f) = peerConn f.
Proof.
  unfold entered, connecting. destruct s; try done. destruct bfd_down; [apply peerConn_left|].
  by repeat case_match.
Qed.

Lemma does_fsmBroken i x : does (fsmBroken i) (fun f => f) x.
Proof. unfold does, fsmBroken. case_match; by eexists. Qed.
Lemma does_fsmStateChange i state x : does (fsmStateChange i state) (fun f => f) x.
Proof. unfold does, fsmStateChange. case_match; by eexists. Qed.
Lemma does_fsmEstablished i c x : does (fsmEstablished i c) (fun f => f) x.
Proof. unfold does, fsmEstablished. case_match; by eexists. Qed.

Lemma does_ChangeState_with (en : BaseState -> op) (s : BaseState) x :
  close (self x) = false -> (forall y, close (self y) = false -> does (en s) (entered s) y) ->
  (is_established (State (changed s (self x))) = true -> exists c, peerConn (self x) = Some c) ->
  does (ChangeState_with conf en s) (changed s) x.
Proof.
  intros Hcl Hen Hest. unfold does, ChangeState_with. rewrite Hcl.
  destruct (does_leave _ x eq_refl) as (y1 & He1 & H1). rewrite He1, bind_Ok.
  destruct (does_modify (set_State s) y1) as (y2 & He2 & H2). rewrite He2, bind_Ok.
  destruct (Hen y2) as (y3 & He3 & H3); [rewrite H2, H1; cbn; by rewrite close_left|].
  rewrite He3, bind_Ok. rewrite H2, H1 in H3. fold (changed s (self x)) in H3.
  apply ends_bind. apply (ends_mono _ (fun y => self y = self y3)).
  - destruct (is_established (State (self x)) && _).
    { apply does_fsmBroken. }
    destruct (_ && _) eqn:Hb; [|by apply ends_Ok]. apply andb_true_iff in Hb as [_ Hb].
    rewrite H3 in Hb. destruct (Hest Hb) as (c & Hc). unfold ConnEstablished.
    replace (peerConn (self y3)) with (Some c); [apply does_fsmEstablished|].
    rewrite H3. unfold changed. rewrite peerConn_entered. cbn. by rewrite peerConn_left.
  - intros y Hy. eapply ends_mono; [apply does_fsmStateChange|]. cbn. intros z ->. by rewrite Hy, H3.
Qed.

Lemma does_enter_fuel n s x :
  close (self x) = false -> (n <> 0%nat \/ s <> ConnectState) ->
  does (enter_fuel conf w n s) (entered s) x.
Proof.
  intros Hcl Hn. destruct s; try by (destruct n; eexists).
  - destruct n as [|n]; [by destruct Hn|]. unfold does. cbn [enter_fuel]. unfold entered, bfd_down.
    destruct (_ && _).
    + apply does_ChangeState_with; [done | | done]. intros y Hy. destruct n; by eexists.
    + eapply (does_seq _ _ (fun f => f)); [apply does_set_mgr | intros; apply does_InitiateConnToPeer].
Qed.

Lemma does_ChangeState_closed s x :
  close (self x) = true -> does (ChangeState conf w s) (fun f => f) x.
Proof. intros Hcl. unfold does, ChangeState, ChangeState_with. rewrite Hcl. by eexists. Qed.

Lemma does_ChangeState s x :
  close (self x) = false -> (s = EstablishedState -> exists c, peerConn (self x) = Some c) ->
  does (ChangeState conf w s) (changed s) x.
Proof.
  intros Hcl Hs. apply does_ChangeState_with; [done | |].
  - intros y Hy. apply does_enter_fuel; [done | by left].
  - intros He. apply Hs. clear - He. unfold changed, entered, connecting in He.
    destruct s; try done; cbn in He; repeat case_match; cbn in He; done.
Qed.
End does.

(** ** The OPEN of the peer *)

Section open_message.
Context (conf : NeighborConf) (w : World).

Lemma does_fsmClose i x : does (fsmClose i) (fun f => f) x.
Proof.
  unfold does, fsmClose. destruct (fsms (mgr x) !! i); [|by eexists].
  apply ends_bind. eapply ends_mono; [apply does_act|]. intros y Hy.
  apply ends_bind. eapply ends_mono; [apply does_fsmBroken|]. intros z Hz.
  eapply ends_mono; [apply does_set_mgr|]. intros v Hv. cbn in *. congruence.
Qed.

Lemma collisions_self i dir l r ids : forall d x,
  exists d' x', collisions w i dir l r ids d x = Ok (d', x') /\ self x' = self x.
Proof.
  induction ids as [|j ids IH]; intros d x; cbn [collisions]; [by eexists _, _|].
  destruct (fsms (mgr x) !! j); [|apply IH]. destruct (_ && _); [|apply IH].
  match goal with |- context [fsmClose ?k x] => destruct (does_fsmClose k x) as (y & -> & Hy) end.
  rewrite bind_Ok. match goal with |- context [collisions w i dir l r ids ?d y] =>
    destruct (IH d y) as (d' & x' & He & Hx) end.
  exists d', x'. split; [exact He | congruence].
Qed.

Lemma ConvertIPBytesToUint_4 b : len b = 4 -> exists n, ConvertIPBytesToUint b = Ok n.
Proof. intros (b0 & b1 & b2 & b3 & ->)%len_4_inv. by eexists. Qed.

Lemma receivedBGPOpenMessage_self i dir m x :
  conf_ok conf -> open_received m ->
  exists ok x', receivedBGPOpenMessage conf w i dir m x = Ok (ok, x') /\ self x' = self x.
Proof.
  intros Hconf [Hid (n & Has)]. unfold receivedBGPOpenMessage. destruct (ok_RouterId _ Hconf) as (ip & Hip).
  rewrite Hip, (To4_4 (op_BGPId m)) by done. cbn [default].
  destruct (ConvertIPBytesToUint_4 ip) as (a & Ha); [by eapply To4_len|].
  destruct (ConvertIPBytesToUint_4 (op_BGPId m)) as (b & Hb); [done|].
  unfold id. rewrite Ha, bind_Ok, Hb, bind_Ok.
  edestruct collisions_self as (d & y & -> & Hy). rewrite bind_Ok, Has, bind_Ok.
  destruct (fsms (mgr y) !! i); [|by eexists _, _]. by eexists _, _.
Qed.

Definition negotiated_hold (body : BGPOpen) (f : FSM) : FSM :=
  if op_HoldTime body <? holdTime f then hold_set (op_HoldTime body) (op_HoldTime body / 3) f else f.
Definition opened (body : BGPOpen) (f : FSM) : FSM :=
  set_afiSafiMap (filter (fun k => conf_AfiSafiMap conf !! k = Some true) (GetProtocolFromOpenMsg body)
                  ∪ afiSafiMap f)
    (set_peerType (if op_MyAS body =? gConf_AS conf then PeerTypeInternal else PeerTypeExternal)
      (negotiated_hold body f)).

Lemma ProcessOpenMessage_self pkt body c x :
  conf_ok conf -> msg_Body pkt = Some (BOpen body) -> open_received body -> peerConn (self x) = Some c ->
  exists ok x', ProcessOpenMessage conf w pkt x = Ok (ok, x') /\ self x' = opened body (self x).
Proof.
  intros Hconf Hb Hm Hc. unfold ProcessOpenMessage. rewrite Hb.
  assert (Hneg : does (if op_HoldTime body <? holdTime (self x)
                       then SetHoldTime (op_HoldTime body) (op_HoldTime body / 3) else skip)
                      (negotiated_hold body) x).
  { unfold does, negotiated_hold. case_match; [apply does_SetHoldTime | by eexists]. }
  destruct Hneg as (y & Hy & Hs). rewrite Hy, bind_Ok. cbn [modify]. unfold modify. rewrite !bind_Ok.
  cbn [self].
  assert (Hcy : peerConn (self y) = Some c).
  { rewrite Hs. unfold negotiated_hold, hold_set. repeat case_match; done. }
  cbn [peerConn set_afiSafiMap set_peerType]. rewrite Hcy.
  edestruct receivedBGPOpenMessage_self as (ok & x' & He & Hx); [done..|].
  exists ok, x'. split; [exact He|]. rewrite Hx. cbn [self]. rewrite Hs.
  unfold opened, negotiated_hold, hold_set. repeat case_match; done.
Qed.
End open_message.

(** ** Every event keeps the invariant *)

(** The data that goes with an event. *)
Definition data_ok (ev : BGPFSMEvent) (data : EventData) : Prop :=
  match ev with
  | BGPEventTcpCrAcked | BGPEventTcpConnConfirmed => exists c, data = DConn c
  | BGPEventBGPOpen => exists m body, data = DMsg m /\ msg_Body m = Some (BOpen body) /\ open_received body
  | BGPEventUpdateMsg => exists m u, data = DMsg m /\ msg_Body m = Some (BUpdate u)
  | BGPEventHeaderErr | BGPEventOpenMsgErr | BGPEventUpdateMsgErr => exists e, data = DMsgErr e
  | _ => True
  end.

Section processEvent_inv.
Context (conf : NeighborConf) (w : World) (Hconf : conf_ok conf) (Hw : world_ok w).
Implicit Types (x : Ctx) (f : FSM).
Local Abbreviation keeps r := (ends r (fun y => fsm_inv conf (self y))).

Lemma hold_set_conf f :
  hold_set (conf_HoldTime conf) (conf_KeepaliveTime conf) f
  = set_keepAliveTime (conf_KeepaliveTime conf) (set_holdTime (conf_HoldTime conf) f).
Proof.
  unfold hold_set. destruct (ok_HoldTime _ Hconf) as [-> | H3]; [done|]. rewrite Z.gtb_ltb.
  destruct (conf_HoldTime conf <? 0) eqn:?; [zhyp; lia|]. cbn [orb].
  destruct (_ && _) eqn:Hb; [|done]. apply andb_true_iff in Hb as [_ Hb]. zhyp. lia.
Qed.

Lemma does_sendOpenMessage c x : peerConn (self x) = Some c -> does (sendOpenMessage conf w) (fun f => f) x.
Proof.
  intros Hc. unfold does, sendOpenMessage. destruct (ok_RouterId _ Hconf) as (ip & Hip).
  destruct (open_encoded conf w (holdTime (self x))) as (pkt & He).
  - apply Hconf.
  - unfold len. rewrite (Hw _), length_fmap, length_map_to_list. pose proof (ok_families _ Hconf). lia.
  - congruence.
  - eapply does_conn_Write; [done..|]. apply does_skip.
Qed.

Lemma does_SetPeerConn c x :
  peerConn (self x) = None ->
  exists i, does (SetPeerConn w (DConn c))
    (fun f => set_peerConn (Some {| pc_dir := connDir c; pc_conn := conn c; pc_id := i |}) (set_connId i f)) x.
Proof. intros Hc. eexists. unfold does, SetPeerConn. rewrite Hc. eexists. split; reflexivity. Qed.

Lemma inv_ChangeState s x :
  close (self x) = false -> (s = EstablishedState -> exists c, peerConn (self x) = Some c) ->
  fsm_inv conf (changed conf w s (self x)) -> keeps (ChangeState conf w s x).
Proof. intros Hcl He Hi. eapply ends_mono; [by apply does_ChangeState|]. cbn. by intros y ->. Qed.
End processEvent_inv.

(** Compute a literal record of the FSM. *)
Ltac fsm_cbn := cbv beta iota zeta delta [State fsm_id peerType peerConn outTCPConn connId event
  connectRetryCounter connectRetryTime connectRetryTimer holdTime holdTimer keepAliveTime keepAliveTimer
  restartTime restartTimer passiveTcpEst dampPeerOscl idleHoldTime idleHoldTimer afiSafiMap close
  set_State set_peerType set_peerConn set_outTCPConn set_connId set_event set_connectRetryCounter
  set_connectRetryTimer set_holdTime set_holdTimer set_keepAliveTime set_keepAliveTimer set_restartTime
  set_restartTimer set_passiveTcpEst set_idleHoldTime set_idleHoldTimer set_afiSafiMap set_close
  cleared changed entered left_ hold_armed keepalive_armed idle_armed has_conn NewIdleState].
Tactic Notation "fsm_cbn_in" hyp(H) := cbv beta iota zeta delta [State fsm_id peerType peerConn outTCPConn connId event
  connectRetryCounter connectRetryTime connectRetryTimer holdTime holdTimer keepAliveTime keepAliveTimer
  restartTime restartTimer passiveTcpEst dampPeerOscl idleHoldTime idleHoldTimer afiSafiMap close
  set_State set_peerType set_peerConn set_outTCPConn set_connId set_event set_connectRetryCounter
  set_connectRetryTimer set_holdTime set_holdTimer set_keepAliveTime set_keepAliveTimer set_restartTime
  set_restartTimer set_passiveTcpEst set_idleHoldTime set_idleHoldTimer set_afiSafiMap set_close
  cleared changed entered left_ hold_armed keepalive_armed idle_armed has_conn NewIdleState] in H.

(** One call of a handler: [Hx] holds the FSM's record before it, and after it. *)
Ltac does_lemma Hx :=
  first
  [ apply does_SetHoldTime | apply does_ClearPeerConn | apply does_StopConnToPeer
  | apply does_StartConnectRetryTimer | apply does_StartHoldTimer | apply does_StartIdleHoldTimer | apply does_InitiateConnToPeer
  | eapply does_SendNotificationMessage; rewrite Hx; reflexivity
  | eapply does_sendKeepAliveMessage; rewrite Hx; reflexivity
  | eapply does_sendOpenMessage; [eassumption | eassumption | rewrite Hx; reflexivity]
  | apply does_modify | apply does_act | apply does_set_mgr
  | apply does_ChangeState_closed; rewrite Hx; reflexivity
  | apply does_ChangeState; rewrite Hx; [reflexivity | first [discriminate | intros _; by eexists]] ].
Ltac does_next Hx :=
  let y := fresh "y" in let H := fresh "H" in
  cbn beta; intros y H; rewrite Hx in H; fsm_cbn_in H; rewrite ?hold_set_conf in H by eassumption;
  fsm_cbn_in H; clear Hx; rename H into Hx.
Ltac does_call Hx :=
  lazymatch goal with
  | |- ends (SetPeerConn ?w (DConn ?c) ?x) _ =>
    let i := fresh "i" in let Hd := fresh "Hd" in
    destruct (does_SetPeerConn w c x) as (i & Hd); [rewrite Hx; reflexivity|];
    eapply ends_mono; [exact Hd | clear Hd; does_next Hx]
  | _ => eapply ends_mono; [does_lemma Hx | does_next Hx]
  end.
Ltac does_go Hx :=
  cbn beta; repeat lazymatch goal with
  | |- ends (_ ≫= _) _ => apply ends_bind; does_call Hx
  | |- ends _ _ => does_call Hx
  end.

(** What is left to show after the last call. *)
Ltac inv_done Hx :=
  rewrite Hx; match goal with H : conf_ok _ |- _ => pose proof (ok_HoldTime _ H) end;
  try destruct (bfd_down _ _); unfold connecting; try destruct (conf_Broadcast _);
  fsm_cbn; repeat match goal with |- context [match ?o with Some _ => _ | None => _ end] => destruct o end;
  split; fsm_cbn; try done; eauto; try lia.

(** The state of the FSM, and its record. *)
Ltac inv_open x Hx :=
  let Hc := fresh "Hc" in let Ho := fresh "Ho" in let Hi := fresh "Hi" in let Hh := fresh "Hh" in
  let He := fresh "He" in let Hr := fresh "Hr" in
  intros [Hc Ho Hi Hh He Hr] Hs; destruct (self x) as [s] eqn:Hx;
  fsm_cbn_in Hc; fsm_cbn_in Ho; fsm_cbn_in Hi; fsm_cbn_in Hh; fsm_cbn_in He; fsm_cbn_in Hr; fsm_cbn_in Hs.

Section states_inv.
Context (conf : NeighborConf) (w : World) (Hconf : conf_ok conf) (Hw : world_ok w).
Implicit Types (x : Ctx) (f : FSM).
Local Abbreviation keeps r := (ends r (fun y => fsm_inv conf (self y))).


Lemma drop_session_inv x :
  fsm_inv conf (self x) -> has_conn (State (self x)) = true -> keeps (drop_session conf w x).
Proof.
  inv_open x Hx. destruct s; try discriminate. all: destruct Hc as (c & -> & Hcid); subst.
  all: unfold drop_session, IncrConnectRetryCounter, StopConnectRetryTimer.
  all: does_go Hx; inv_done Hx.
Qed.

Lemma notify_and_drop_inv code subCode data x :
  fsm_inv conf (self x) -> has_conn (State (self x)) = true ->
  keeps (notify_and_drop conf w code subCode data x).
Proof.
  intros Hinv Hs. unfold notify_and_drop. apply ends_bind.
  pose proof (inv_conn _ _ Hinv) as Hc. rewrite Hs in Hc. destruct Hc as (c & Hc & _).
  eapply ends_mono; [by eapply does_SendNotificationMessage|]. cbn. intros y Hy.
  apply drop_session_inv; by rewrite Hy.
Qed.

(** An event the state ignores, or one that ends the session. *)
Ltac easy_event Hinv Hs :=
  cbv beta iota; try lazymatch goal with
  | |- ends (skip _) _ => by apply ends_Ok
  | |- ends (notify_and_drop _ _ _ _ _ _) _ => apply notify_and_drop_inv; [exact Hinv | by rewrite Hs]
  | |- ends (drop_session _ _ _) _ => apply drop_session_inv; [exact Hinv | by rewrite Hs]
  end.

Lemma IdleState_inv p ev x :
  fsm_inv conf (self x) -> State (self x) = IdleState p -> keeps (IdleState_processEvent conf w p ev x).
Proof.
  intros Hinv Hs0. destruct ev; unfold IdleState_processEvent; easy_event Hinv Hs0.
  all: revert Hinv Hs0; inv_open x Hx; subst s; destruct Hc as (-> & -> & ->); subst.
  all: unfold SetConnectRetryCounter, SetIdleHoldTime.
  all: try destruct p; does_go Hx; inv_done Hx.
Qed.

Lemma ConnectState_inv ev data x :
  fsm_inv conf (self x) -> State (self x) = ConnectState -> data_ok ev data ->
  keeps (ConnectState_processEvent conf w ev data x).
Proof.
  intros Hinv Hs0 Hd. destruct ev; unfold ConnectState_processEvent; easy_event Hinv Hs0.
  all: revert Hinv Hs0; inv_open x Hx; subst s; destruct Hc as (-> & -> & ->); subst.
  all: unfold SetConnectRetryCounter, IncrConnectRetryCounter, StopConnectRetryTimer.
  all: try destruct Hd as (c & ->).
  all: does_go Hx; inv_done Hx.
Qed.

Lemma ActiveState_inv ev data x :
  fsm_inv conf (self x) -> State (self x) = ActiveState -> data_ok ev data ->
  keeps (ActiveState_processEvent conf w ev data x).
Proof.
  intros Hinv Hs0 Hd. destruct ev; unfold ActiveState_processEvent; easy_event Hinv Hs0.
  all: revert Hinv Hs0; inv_open x Hx; subst s; destruct Hc as (-> & -> & ->); subst.
  all: unfold SetConnectRetryCounter, IncrConnectRetryCounter, StopConnectRetryTimer.
  all: try destruct Hd as (c & ->).
  all: does_go Hx; inv_done Hx.
Qed.

Lemma report_error_inv e x :
  fsm_inv conf (self x) -> has_conn (State (self x)) = true -> keeps (report_error conf w (DMsgErr e) x).
Proof. apply notify_and_drop_inv. Qed.

Lemma HandleAnotherConnection_inv c x :
  fsm_inv conf (self x) -> keeps (HandleAnotherConnection (DConn c) x).
Proof. intros H. by apply ends_Ok. Qed.

(** The end of the handling of an accepted OPEN. *)
Lemma open_accepted_inv c r :
  State (self r.2) = OpenSentState -> peerConn (self r.2) = Some c -> 
  fsm_inv conf (self r.2) -> keeps (open_accepted conf w r).
Proof.
  destruct r as [ok x]. cbn [snd]. intros Hs0 Hc0 Hinv. unfold open_accepted. cbn [fst snd].
  destruct ok; [|by apply ends_Ok].
  revert Hinv Hs0. inv_open x Hx. subst s. fsm_cbn_in Hc0. subst. destruct Hc as (c' & [= <-] & <-).
  does_go Hx; inv_done Hx.
Qed.

Lemma hold_ok body f :
  fsm_inv conf f -> let f' := negotiated_hold body f in holdTime f' = 0 \/ 3 <= holdTime f' <= conf_HoldTime conf.
Proof.
  intros [_ _ _ Hh _ _]. unfold negotiated_hold, hold_set. destruct (_ <? _) eqn:?; [|done].
  destruct (_ || _) eqn:Hb; [done|]. apply orb_false_iff in Hb as [Hb1 Hb2]. cbn. zhyp.
  rewrite Z.gtb_ltb in Hb2. destruct (0 <? op_HoldTime body) eqn:?; [|zhyp; left; lia].
  cbn [andb] in Hb2. zhyp. lia.
Qed.

Lemma opened_inv body f :
  fsm_inv conf f -> State f = OpenSentState -> fsm_inv conf (opened conf body f).
Proof.
  intros Hinv Hs. pose proof (hold_ok body f Hinv) as Hh. cbn zeta in Hh. unfold opened.
  assert (He : forall g, negotiated_hold body f = g -> holdTime g = 0 \/ 3 <= holdTime g <= conf_HoldTime conf ->
    State g = State f /\ peerConn g = peerConn f /\ connId g = connId f /\ idleHoldTimer g = idleHoldTimer f /\
    close g = close f).
  { intros g <- _. unfold negotiated_hold, hold_set. by repeat case_match. }
  destruct (He _ eq_refl Hh) as (H1 & H2 & H3 & H4 & H5). destruct Hinv as [Hc Ho Hi _ _ Hr].
  rewrite Hs in *. split; cbn; rewrite ?H1; cbn; try done; try congruence. by rewrite H2, H3.
Qed.

Lemma OpenSentState_inv ev data x :
  fsm_inv conf (self x) -> State (self x) = OpenSentState -> data_ok ev data ->
  keeps (OpenSentState_processEvent conf w ev data x).
Proof.
  intros Hinv Hs0 Hd. destruct ev; unfold OpenSentState_processEvent; easy_event Hinv Hs0.
  all: try (destruct Hd as (e & ->); by apply report_error_inv; [|rewrite Hs0]).
  all: try (destruct Hd as (c & ->); by apply HandleAnotherConnection_inv).
  3: {
    destruct Hd as (m & body & -> & Hb & Hm). apply ends_bind.
    eapply ends_mono; [apply does_modify|]. cbv beta. intros y Hy.
    assert (Hiy : fsm_inv conf (self y)).
    { rewrite Hy. destruct Hinv. split; cbn; try done. }
    assert (Hsy : State (self y) = OpenSentState) by by rewrite Hy.
    pose proof (inv_conn _ _ Hiy) as Hc. rewrite Hsy in Hc. destruct Hc as (c & Hc & _).
    destruct (ProcessOpenMessage_self conf w m body c y) as (ok & z & -> & Hz); [done..|].
    rewrite bind_Ok. apply (open_accepted_inv c); cbn [snd]; rewrite Hz.
    - unfold opened, negotiated_hold, hold_set. cbn. repeat case_match; done.
    - unfold opened, negotiated_hold, hold_set. cbn. repeat case_match; done.
    - by apply opened_inv. }
  all: revert Hinv Hs0; inv_open x Hx; subst s; destruct Hc as (c & -> & <-); subst.
  all: unfold SetConnectRetryCounter, IncrConnectRetryCounter, StopConnectRetryTimer.
  all: does_go Hx; inv_done Hx.
Qed.

Lemma OpenConfirmState_inv ev data x :
  fsm_inv conf (self x) -> State (self x) = OpenConfirmState -> data_ok ev data ->
  keeps (OpenConfirmState_processEvent conf w ev data x).
Proof.
  intros Hinv Hs0 Hd. destruct ev; unfold OpenConfirmState_processEvent; easy_event Hinv Hs0.
  all: try (destruct Hd as (e & ->); by apply report_error_inv; [|rewrite Hs0]).
  all: try (destruct Hd as (c & ->); by apply HandleAnotherConnection_inv).
  all: revert Hinv Hs0; inv_open x Hx; subst s; destruct Hc as (c & -> & <-); subst.
  all: unfold SetConnectRetryCounter, IncrConnectRetryCounter, StopConnectRetryTimer.
  all: does_go Hx; inv_done Hx.
Qed.

Lemma EstablishedState_inv ev data x :
  fsm_inv conf (self x) -> State (self x) = EstablishedState -> data_ok ev data ->
  keeps (EstablishedState_processEvent conf w ev data x).
Proof.
  intros Hinv Hs0 Hd. destruct ev; unfold EstablishedState_processEvent; easy_event Hinv Hs0.
  all: try (destruct Hd as (e & ->); by apply report_error_inv; [|rewrite Hs0]).
  all: try (destruct Hd as (c & ->); by apply HandleAnotherConnection_inv).
  all: revert Hinv Hs0; inv_open x Hx; subst s; destruct Hc as (c & -> & <-); subst.
  all: unfold SetConnectRetryCounter, IncrConnectRetryCounter, StopConnectRetryTimer.
  all: try (destruct Hd as (m & u & -> & Hm); unfold ProcessUpdateMessage; rewrite Hm).
  all: does_go Hx; inv_done Hx.
Qed.
End states_inv.

(** ** Reachable sessions *)

(** A packet handed over by the reader is the result of [BGPMessage.Decode]; the manager forwards
    these commands only. *)
Definition input_ok (i : Input) : Prop :=
  match i with
  | PktRx msg None => exists pkt data, bytes_ok pkt /\ BGPMessage_Decode (msg_Header msg) pkt data = Ok msg
  | EventRx ev _ =>
    ev ∈ [BGPEventManualStart; BGPEventManualStop; BGPEventAutoStop; BGPEventManualStartPassTcpEst;
          BGPEventTcpConnFails]
  | _ => True
  end.

(** The managers start a session in one of three states. *)
Definition started (conf : NeighborConf) (x : Ctx) : Prop :=
  exists w i s m t, world_ok w /\ s ∈ [NewIdleState; ActiveState; ConnectState] /\
    StartFSM conf w {| self := NewFSM conf i s; mgr := m; trace := t |} = Ok x.

(** A step of the FSM's loop, or of another goroutine that changes the manager. *)
Inductive fsm_step (conf : NeighborConf) : Ctx -> Ctx -> Prop :=
  | step_handle w i x y : world_ok w -> input_ok i -> close (self x) = false ->
      handle conf w i x = Ok y -> fsm_step conf x y
  | step_manager x m : fsm_step conf x {| self := self x; mgr := m; trace := trace x |}.

Definition reachable (conf : NeighborConf) (x : Ctx) : Prop :=
  exists x0, started conf x0 /\ rtc (fsm_step conf) x0 x.

Section handle_inv.
Context (conf : NeighborConf) (w : World) (Hconf : conf_ok conf) (Hw : world_ok w).
Implicit Types (x : Ctx).
Local Abbreviation keeps r := (ends r (fun y => fsm_inv conf (self y))).

Lemma inv_field g x :
  fsm_inv conf (self x) ->
  (forall f, State (g f) = State f /\ peerConn (g f) = peerConn f /\ connId (g f) = connId f /\
    holdTimer (g f) = holdTimer f /\ keepAliveTimer (g f) = keepAliveTimer f /\ outTCPConn (g f) = outTCPConn f /\
    idleHoldTimer (g f) = idleHoldTimer f /\ holdTime (g f) = holdTime f /\ close (g f) = close f) ->
  fsm_inv conf (g (self x)).
Proof.
  intros [Hc Ho Hi Hh He Hr] Hg. destruct (Hg (self x)) as (H1 & H2 & H3 & H4 & H5 & H6 & H7 & H8 & H9).
  split; rewrite ?H1, ?H2, ?H3, ?H4, ?H5, ?H6, ?H7, ?H8, ?H9; done.
Qed.

Lemma ProcessEvent_inv ev data x :
  fsm_inv conf (self x) -> data_ok ev data -> keeps (ProcessEvent conf w ev data x).
Proof.
  intros Hinv Hd. unfold ProcessEvent. apply ends_bind, ends_Ok. set (y := {| self := _ |}).
  assert (Hy : fsm_inv conf (self y)) by (by apply inv_field). clearbody y.
  unfold processEvent. destruct (State (self y)) eqn:Hs.
  - by apply IdleState_inv.
  - by apply ConnectState_inv.
  - by apply ActiveState_inv.
  - by apply OpenSentState_inv.
  - by apply OpenConfirmState_inv.
  - by apply EstablishedState_inv.
Qed.

(** The body of a decoded message fits its type. *)
Lemma decoded_body msg pkt data :
  bytes_ok pkt -> BGPMessage_Decode (msg_Header msg) pkt data = Ok msg ->
  let ty := hd_Type (msg_Header msg) in
  (ty = BGPMsgTypeOpen -> exists o, msg_Body msg = Some (BOpen o) /\ open_received o) /\
  (ty = BGPMsgTypeUpdate -> exists u, msg_Body msg = Some (BUpdate u)) /\
  (ty = BGPMsgTypeNotification -> exists n, msg_Body msg = Some (BNotification n)).
Proof.
  intros Hb Hdec. cbn zeta. unfold BGPMessage_Decode in Hdec.
  unfold BGPMsgTypeOpen, BGPMsgTypeUpdate, BGPMsgTypeNotification, BGPMsgTypeKeepAlive in *.
  repeat split; intros Ht; rewrite Ht in Hdec; cbn [Z.eqb Pos.eqb] in Hdec.
  - apply bind_Ok_inv in Hdec as (o & Ho & [= <-]). exists o. split; [done|]. by eapply BGPOpen_Decode_received.
  - apply bind_Ok_inv in Hdec as (u & _ & Hdec). apply bind_Ok_inv in Hdec as (u' & _ & [= <-]). by exists u'.
  - apply bind_Ok_inv in Hdec as (n & _ & [= <-]). by exists n.
Qed.

Lemma ProcessPacket_inv msg msgErr x :
  input_ok (PktRx msg msgErr) -> fsm_inv conf (self x) -> keeps (ProcessPacket conf w msg msgErr x).
Proof.
  intros Hi Hinv. unfold ProcessPacket. destruct msgErr as [e|].
  { apply ProcessEvent_inv; [done|]. repeat case_match; cbn; eauto. }
  destruct Hi as (pkt & data & Hb & Hdec). destruct (decoded_body _ _ _ Hb Hdec) as (Ho & Hu & Hn).
  destruct (_ =? BGPMsgTypeOpen) eqn:Hto.
  { zhyp. destruct (Ho Hto) as (o & Hm & Hr). apply ProcessEvent_inv; [done|]. cbn. eauto. }
  destruct (_ =? BGPMsgTypeUpdate) eqn:Htu.
  { zhyp. destruct (Hu Htu) as (u & Hm). apply ProcessEvent_inv; [done|]. cbn. eauto. }
  destruct (_ =? BGPMsgTypeNotification) eqn:Htn.
  { zhyp. destruct (Hn Htn) as (n & Hm). rewrite Hm. apply ends_bind, ends_Ok. by apply ProcessEvent_inv. }
  by destruct (_ =? BGPMsgTypeKeepAlive); apply ProcessEvent_inv.
Qed.

Lemma SetField_inv g x :
  fsm_inv conf (self x) ->
  (forall f, State (g f) = State f /\ peerConn (g f) = peerConn f /\ connId (g f) = connId f /\
    holdTimer (g f) = holdTimer f /\ keepAliveTimer (g f) = keepAliveTimer f /\ outTCPConn (g f) = outTCPConn f /\
    idleHoldTimer (g f) = idleHoldTimer f /\ holdTime (g f) = holdTime f /\ close (g f) = close f) ->
  keeps (modify g x).
Proof. intros Hinv Hg. apply ends_Ok. by apply inv_field. Qed.

(** Dropping the outgoing connection keeps the invariant. *)
Lemma StopConnToPeer_inv x : fsm_inv conf (self x) -> keeps (StopConnToPeer x).
Proof.
  intros [Hc Ho Hi Hh He Hr]. eapply ends_mono; [apply does_StopConnToPeer|]. cbn beta. intros y ->.
  split; cbn; try done. by destruct (State (self x)).
Qed.
Lemma clear_out_inv x : fsm_inv conf (self x) -> keeps (modify (set_outTCPConn None) x).
Proof.
  intros [Hc Ho Hi Hh He Hr]. apply ends_Ok. split; cbn; try done. by destruct (State (self x)).
Qed.

Local Ltac inv_seq := apply ends_bind; eapply ends_mono; [|cbn beta; intros ? ?].

Lemma handle_inv i x :
  i <> Close -> input_ok i -> fsm_inv conf (self x) -> keeps (handle conf w i x).
Proof.
  intros Hcl Hi Hinv. destruct i; cbn [handle]; try (by apply ProcessEvent_inv).
  - destruct (outTCPConn (self x)); [|by apply ends_Ok]. 
    inv_seq; [by apply StopConnToPeer_inv|]. inv_seq; [by apply clear_out_inv|].
    apply ProcessEvent_inv; cbn; eauto.
  - inv_seq; [by apply StopConnToPeer_inv|]. destruct (_ && _); [by apply ends_Ok|].
    inv_seq; [by apply clear_out_inv|]. inv_seq; [by apply ProcessEvent_inv|].
    by destruct (close _); apply ends_Ok.
  - apply ProcessEvent_inv; cbn; eauto.
  - by apply SetField_inv.
  - by apply ProcessPacket_inv.
  - inv_seq; [destruct (_ =? _); [by apply SetField_inv | by apply ends_Ok]|].
    inv_seq; [apply ProcessEvent_inv; [done|] | inv_seq; [by apply SetField_inv | by apply ProcessEvent_inv]].
    cbn in Hi. rewrite !elem_of_cons in Hi. by destruct Hi as [->|[->|[->|[->|[->|Hi%elem_of_nil]]]]].
  - inv_seq; [destruct (negb _); [|destruct (_ <? _)]; [by apply ProcessEvent_inv.. | by apply ends_Ok]
      | by apply ProcessEvent_inv].
  - apply ProcessEvent_inv; [done|]. by repeat case_match.
Qed.

Lemma Close_releases x :
  fsm_inv conf (self x) ->
  ends (handle conf w Close x) (fun y =>
    close (self y) = true /\ peerConn (self y) = None /\ outTCPConn (self y) = None /\
    holdTimer (self y) = None /\ keepAliveTimer (self y) = None).
Proof.
  intros Hinv. pose proof (eq_refl : State (self x) = State (self x)) as Hs. revert Hinv Hs. inv_open x Hx.
  clear Hs. cbn [handle]. unfold ProcessEvent.
  destruct s; [destruct Hc as (-> & -> & ->)..| | |]; try destruct Hc as (c & -> & <-); subst.
  all: cbn beta; do 2 (apply ends_bind; does_call Hx); rewrite Hx; fsm_cbn.
  all: cbv [processEvent IdleState_processEvent ConnectState_processEvent ActiveState_processEvent
    OpenSentState_processEvent OpenConfirmState_processEvent EstablishedState_processEvent];
    unfold SetConnectRetryCounter, StopConnectRetryTimer.
  all: try (apply ends_Ok; rewrite Hx; fsm_cbn; done).
  all: does_go Hx; rewrite Hx; fsm_cbn; done.
Qed.

Lemma NewFSM_inv i s :
  s ∈ [NewIdleState; ActiveState; ConnectState] -> fsm_inv conf (NewFSM conf i s).
Proof.
  intros Hs. pose proof (ok_HoldTime _ Hconf). rewrite !elem_of_cons in Hs.
  destruct Hs as [->|[->|[->|Hs%elem_of_nil]]]; [..|done]; split; cbn; try done; lia.
Qed.

Lemma StartFSM_inv i s m t :
  s ∈ [NewIdleState; ActiveState; ConnectState] ->
  keeps (StartFSM conf w {| self := NewFSM conf i s; mgr := m; trace := t |}).
Proof.
  intros Hs. pose proof (NewFSM_inv i s Hs) as Hinv. unfold StartFSM. cbn [self].
  set (x := {| self := NewFSM conf i s; mgr := m; trace := t |}).
  apply ends_bind. eapply ends_mono; [apply does_enter_fuel; [done | by left]|]. cbn beta. intros y Hy.
  apply ProcessEvent_inv; [|done]. rewrite Hy.
  rewrite !elem_of_cons in Hs. pose proof (ok_HoldTime _ Hconf).
  destruct Hs as [->|[->|[->|Hs%elem_of_nil]]]; [..|done]; subst x; cbn [self NewFSM State entered].
  - split; cbn; try done; lia.
  - exact Hinv.
  - destruct (bfd_down _ _); unfold connecting; [|destruct (conf_Broadcast _)]; split; cbn; try done; lia.
Qed.
End handle_inv.

#[export] Instance Close_dec (i : Input) : Decision (i = Close).
Proof. destruct i; first [by left | by right]. Defined.

Lemma reachable_inv conf x : conf_ok conf -> reachable conf x -> close (self x) = false -> fsm_inv conf (self x).
Proof.
  intros Hconf (x0 & Hst & Hr).
  assert (H0 : fsm_inv conf (self x0)).
  { destruct Hst as (w & i & s & m & t & Hw & Hs & He).
    destruct (StartFSM_inv conf w Hconf Hw i s m t Hs) as (y & Hy & Hinv). rewrite He in Hy. by injection Hy as ->. }
  clear Hst. revert H0. induction Hr as [x|x y z Hstep Hr IH]; intros Hinv Hcl; [done|].
  destruct Hstep as [w i x y Hw Hi Hrun He | x m]; [|by apply IH].
  destruct (decide (i = Close)) as [->|Hne].
  - exfalso. destruct (Close_releases conf w x Hinv) as (y' & Hy' & Hc & _). rewrite He in Hy'.
    injection Hy' as ->. clear - Hr Hcl Hc. induction Hr as [x|x y z Hstep Hr IH]; [congruence|].
    destruct Hstep; [congruence|]. by apply IH.
  - apply IH; [|done]. destruct (handle_inv conf w Hconf Hw i x Hne Hi Hinv) as (y' & Hy' & Hinv').
    rewrite He in Hy'. by injection Hy' as ->.
Qed.

(** ** Properties of every session *)

Definition fsm_conf_example : NeighborConf := {|
  conf_HoldTime := 180; conf_KeepaliveTime := 60; conf_ConnectRetryTime := 120;
  conf_MaxPrefixesRestartTimer := 50; conf_LocalAS := 65001; conf_AddPathsRx := false;
  conf_AddPathsMaxTx := 0; conf_AfiSafiMap := {[257 := true]}; conf_BfdEnable := false;
  conf_Broadcast := false; gConf_AS := 65001; gConf_RouterId := [10; 0; 0; 1] |}.
Definition world_example : World := {|
  w_write := fun _ => true; w_range := fun l => l; w_rand := (17, 42); w_outId := 5;
  w_UseBfdState := false; w_BfdDown := false |}.
Definition mgr_example : FSMManager := {| fsms := {[0 := Self]}; acceptConn := false; activeFSM := 2 |}.

Lemma conf_example_ok : conf_ok fsm_conf_example.
Proof. split; cbn; [split; lia | by eexists | vm_compute; lia | lia]. Qed.
Lemma world_example_ok : world_ok world_example.
Proof. intros l. reflexivity. Qed.

(** A session after [StartFSM]: it is connecting. *)
Definition connect_example : Ctx :=
  match StartFSM fsm_conf_example world_example
          {| self := NewFSM fsm_conf_example 0 NewIdleState; mgr := mgr_example; trace := [] |} with
  | Ok x => x
  | _ => {| self := NewFSM fsm_conf_example 0 NewIdleState; mgr := mgr_example; trace := [] |}
  end.
Lemma connect_example_reachable : reachable fsm_conf_example connect_example.
Proof.
  exists connect_example. split; [|done].
  exists world_example, 0, NewIdleState, mgr_example, []. split; [apply world_example_ok|].
  split; [by left | by vm_compute].
Qed.



(** C2: the invariant of a session. A connection to the peer exists exactly in OpenSent, OpenConfirm
    and Established, with the identifier the FSM compares read errors with; without it the hold and
    keepalive timers are stopped. No outgoing attempt runs in Idle and Active. The idle hold timer
    only runs in Idle. The hold time is 0 or between 3 seconds and the configured value, and is the
    configured one in Established. *)
Theorem session_invariant (conf : NeighborConf) (x : Ctx) :
  conf_ok conf -> reachable conf x -> close (self x) = false -> fsm_inv conf (self x).
Proof. apply reachable_inv. Qed.

Lemma session_invariant_witness :
  State (self connect_example) = ConnectState /\ fsm_inv fsm_conf_example (self connect_example).
Proof.
  split; [vm_compute; reflexivity|].
  apply (session_invariant fsm_conf_example connect_example).
  - exact conf_example_ok.
  - exact connect_example_reachable.
  - vm_compute. reflexivity.
Defined.
