(* ===== verification/BgpFsmSpec.v ===== *)
(** What a session shows to the rest of the server and to the peer: the abstract link it refines,
    what it does when it ends, the timers it runs with, the collision of two connections. *)
From stdpp Require Import base numbers list gmap.
From Stdlib Require Import ZArith Lia.
From S2P Require Import Prelude GoNet BgpBase BgpOpen BgpNlri BgpAttrs BgpAttrCodec BgpHelpers BgpMsg BgpFsm BgpFsmFacts.
Open Scope Z_scope.

(** ** The abstract link

    For the server a session is a link that comes up and goes down, and a state. *)

(** [link up t]: the state of the link after the actions [t], [None] when they are out of order. *)
Fixpoint link (up : bool) (t : list Action) : option bool :=
  match t with
  | [] => Some up
  | PeerUp _ :: t => if up then None else link true t
  | PeerDown :: t => if up then link false t else None
  | _ :: t => link up t
  end.

(** The state last reported. *)
Fixpoint shown (s : option Z) (t : list Action) : option Z :=
  match t with
  | [] => s
  | FSMStateChange n :: t => shown (Some n) t
  | _ :: t => shown s t
  end.

Definition link_action (a : Action) : bool := match a with PeerUp _ | PeerDown => true | _ => false end.
Definition quiet (a : Action) : Prop :=
  link_action a = false /\ match a with FSMStateChange _ => False | _ => True end.

Lemma link_app up t t' : link up (t ++ t') = link up t ≫= fun u => link u t'.
Proof.
  revert up. induction t as [|a t IH]; intros up; [done|]. destruct a; cbn; rewrite ?IH; try done; by destruct up.
Qed.
Lemma shown_app s t t' : shown s (t ++ t') = shown (shown s t) t'.
Proof. revert s. induction t as [|a t IH]; intros s; [done|]. destruct a; cbn; by rewrite ?IH. Qed.
Lemma link_no_link up t : Forall (fun a => link_action a = false) t -> link up t = Some up.
Proof. induction 1 as [|a t Ha _ IH]; [done|]. by destruct a. Qed.
Lemma shown_quiet s t : Forall quiet t -> shown s t = s.
Proof. induction 1 as [|a t [_ Ha] _ IH]; [done|]. by destruct a. Qed.

(** The manager has this FSM, or none any more, which only happens when it [stops] sessions. *)
Definition alone (stops : bool) (x : Ctx) : Prop :=
  fsms (mgr x) = {[fsm_id (self x) := Self]} \/ stops = true /\ fsms (mgr x) = ∅.
(** The link is [up] for the manager and the server, which is only so in [est]ablished; a manager that does not stop
    sessions has it up in all of it. *)
Record linked (stops est up : bool) (x : Ctx) : Prop := {
  linked_id : fsm_id (self x) <> ConnDirInvalid;
  linked_fsms : alone stops x;
  linked_active : activeFSM (mgr x) = if up then fsm_id (self x) else ConnDirInvalid;
  linked_link : link false (trace x) = Some up;
  linked_up : up = true -> est = true;
  linked_est : stops = false -> up = est;
}.
(** The only FSM of its manager, seen by the server. *)
Record refines (stops : bool) (x : Ctx) : Prop := {
  ref_linked : exists up, linked stops (is_established (State (self x))) up x;
  ref_shown : stops = false -> shown None (trace x) = Some (state_of (State (self x)));
}.

(** What every call but the changes of state keeps, and what [enter] keeps. *)
Definition same_link (x y : Ctx) : Prop :=
  fsm_id (self y) = fsm_id (self x) /\ fsms (mgr y) = fsms (mgr x) /\ activeFSM (mgr y) = activeFSM (mgr x) /\
  exists t, trace y = trace x ++ t /\ Forall (fun a => link_action a = false) t.
Definition frame (x y : Ctx) : Prop :=
  state_of (State (self y)) = state_of (State (self x)) /\
  fsm_id (self y) = fsm_id (self x) /\ fsms (mgr y) = fsms (mgr x) /\ activeFSM (mgr y) = activeFSM (mgr x) /\
  exists t, trace y = trace x ++ t /\ Forall quiet t.

#[export] Instance same_link_preorder : PreOrder same_link.
Proof.
  split; [intros x; repeat split; exists []; by rewrite app_nil_r|].
  intros x y z (H1 & H2 & H3 & t & H4 & H5) (K1 & K2 & K3 & u & K4 & K5).
  split; [congruence|split; [congruence|split; [congruence|]]].
  exists (t ++ u). rewrite K4, H4, <- app_assoc. split; [done|]. by apply Forall_app.
Qed.
#[export] Instance frame_preorder : PreOrder frame.
Proof.
  split; [intros x; repeat split; exists []; by rewrite app_nil_r|].
  intros x y z (H0 & H1 & H2 & H3 & t & H4 & H5) (K0 & K1 & K2 & K3 & u & K4 & K5).
  split; [congruence|split; [congruence|split; [congruence|split; [congruence|]]]].
  exists (t ++ u). rewrite K4, H4, <- app_assoc. split; [done|]. by apply Forall_app.
Qed.

Lemma frame_same_link x y : frame x y -> same_link x y.
Proof.
  intros (_ & H1 & H2 & H3 & t & H4 & H5). split; [done|split; [done|split; [done|]]]. exists t. split; [done|].
  eapply Forall_impl; [exact H5|]. by intros a [? _].
Qed.

Lemma same_link_linked stops est up x y : same_link x y -> linked stops est up x -> linked stops est up y.
Proof.
  intros (H1 & H2 & H3 & t & H4 & H5) [R1 R2 R3 R4 R5 R6].
  split; unfold alone in *; rewrite ?H1, ?H2, ?H3, ?H4; try done. rewrite link_app, R4. by apply link_no_link.
Qed.

Lemma frame_refines stops x y : frame x y -> refines stops x -> refines stops y.
Proof.
  intros Hf [[up Hl] Hs]. pose proof Hf as (H0 & _ & _ & _ & t & H4 & H5). split.
  - exists up. unfold is_established. rewrite H0. by eapply same_link_linked; [apply frame_same_link|].
  - intros Ht. rewrite H0, H4, shown_app, (Hs Ht). by apply shown_quiet.
Qed.

(** ** The calls that leave the link alone *)

Definition framed (a : op) : Prop := forall x y, a x = Ok y -> frame x y.
Definition steady (stops : bool) (a : op) : Prop := forall x y, refines stops x -> a x = Ok y -> refines stops y.

Create HintDb fsm.

Section framed.
Implicit Types (a b : op) (x y : Ctx).

Lemma framed_seq a b : framed a -> framed b -> framed (a ;; b)%fsm.
Proof. intros Ha Hb x z (y & Hy & Hz)%bind_Ok_inv. by etransitivity; [apply Ha | apply Hb]. Qed.
Lemma framed_skip : framed skip.
Proof. by intros x y [= <-]. Qed.
Lemma framed_panic : framed (fun _ => Panic).
Proof. by intros x y. Qed.
Lemma framed_modify g :
  (forall f, state_of (State (g f)) = state_of (State f) /\ fsm_id (g f) = fsm_id f) -> framed (modify g).
Proof.
  intros Hg x y [= <-]. destruct (Hg (self x)). repeat split; try done. exists []. by rewrite app_nil_r.
Qed.
Lemma framed_act e : quiet e -> framed (act e).
Proof. intros Hq x y [= <-]. repeat split. exists [e]. by repeat constructor; apply Hq. Qed.
Lemma framed_if (c : bool) a b : framed a -> framed b -> framed (if c then a else b).
Proof. by destruct c. Qed.
Lemma framed_case (c : Ctx -> bool) a b :
  framed a -> framed b -> framed (fun x => if c x then a x else b x).
Proof. intros Ha Hb x y. destruct (c x); [apply Ha | apply Hb]. Qed.
Lemma framed_set_acceptConn (v : bool) : framed (set_mgr (set_acceptConn v)).
Proof. intros x y [= <-]. repeat split; try done. exists []. by rewrite app_nil_r. Qed.

Lemma framed_SetHoldTime h k : framed (SetHoldTime h k).
Proof. unfold SetHoldTime. apply framed_if; [apply framed_skip | by apply framed_modify]. Qed.
Lemma framed_StartHoldTimer : framed StartHoldTimer.
Proof. apply framed_seq; apply framed_modify; intros f; [done|]. by destruct (negb _). Qed.
Lemma framed_StartKeepAliveTimer : framed StartKeepAliveTimer.
Proof. apply framed_seq; apply framed_modify; intros f; [done|]. by destruct (negb _). Qed.
Lemma framed_StartConnectRetryTimer : framed StartConnectRetryTimer.
Proof. by apply framed_seq; apply framed_modify. Qed.
Lemma framed_StartRestartTimer : framed StartRestartTimer.
Proof. by apply framed_seq; apply framed_modify. Qed.
Lemma framed_StartIdleHoldTimer : framed StartIdleHoldTimer.
Proof. apply framed_seq; apply framed_modify; intros f; [done|]. by destruct (_ && _). Qed.

Lemma framed_conn_Write w m on_ok : framed on_ok -> framed (conn_Write w m on_ok).
Proof.
  intros Ha x y (pkt & _ & Hy)%bind_Ok_inv. destruct (peerConn (self x)); [|discriminate].
  apply bind_Ok_inv in Hy as (z & Hz & Hy). etransitivity; [by eapply framed_act; [|exact Hz]|].
  eapply framed_if; [exact Ha | apply framed_skip | exact Hy].
Qed.
Lemma framed_sendKeepAliveMessage w : framed (sendKeepAliveMessage w).
Proof. apply framed_seq; [apply framed_conn_Write, framed_skip | apply framed_StartKeepAliveTimer]. Qed.
Lemma framed_SendNotificationMessage w c s d : framed (SendNotificationMessage w c s d).
Proof. by apply framed_conn_Write, framed_act. Qed.
Lemma framed_sendOpenMessage conf w : framed (sendOpenMessage conf w).
Proof. intros x y. apply framed_conn_Write, framed_skip. Qed.

Lemma framed_SetPeerConn w data : framed (SetPeerConn w data).
Proof.
  intros x y. unfold SetPeerConn. destruct (peerConn (self x)); [by intros [= <-]|].
  destruct data; try discriminate. intros H. revert H. apply framed_seq; [by apply framed_modify|].
  apply framed_seq; [by apply framed_modify | by apply framed_act].
Qed.
Lemma framed_ClearPeerConn : framed ClearPeerConn.
Proof.
  intros x y. unfold ClearPeerConn. destruct (peerConn (self x)); [|by intros [= <-]].
  apply framed_seq; [by apply framed_modify|]. apply framed_seq; [by apply framed_modify|].
  apply framed_seq; [by apply framed_modify|]. apply framed_seq; [by apply framed_act | by apply framed_modify].
Qed.
Lemma framed_StopConnToPeer : framed StopConnToPeer.
Proof.
  intros x y. unfold StopConnToPeer. destruct (outTCPConn (self x)); [|by intros [= <-]].
  by apply framed_seq; [apply framed_act | apply framed_modify].
Qed.
Lemma framed_InitiateConnToPeer conf w : framed (InitiateConnToPeer conf w).
Proof.
  intros x y. unfold InitiateConnToPeer. destruct (conf_Broadcast conf); [by intros [= <-]|].
  destruct (outTCPConn (self x)); [by intros [= <-]|].
  by apply framed_seq; [apply framed_modify | apply framed_act].
Qed.
Lemma framed_HandleAnotherConnection data : framed (HandleAnotherConnection data).
Proof.
  intros x y. unfold HandleAnotherConnection. destruct data; try discriminate. by apply framed_act.
Qed.
Lemma framed_ProcessUpdateMessage m : framed (ProcessUpdateMessage m).
Proof. unfold ProcessUpdateMessage. destruct (msg_Body m) as [[]|]; try apply framed_panic. by apply framed_act. Qed.
Lemma framed_leave conf s : framed (leave conf s).
Proof. destruct s; try apply framed_skip; [by apply framed_modify | apply framed_SetHoldTime..]. Qed.
End framed.

#[export] Hint Resolve framed_seq framed_skip framed_panic framed_if framed_set_acceptConn framed_SetHoldTime
  framed_StartHoldTimer framed_StartKeepAliveTimer framed_StartConnectRetryTimer framed_StartRestartTimer
  framed_StartIdleHoldTimer framed_sendKeepAliveMessage framed_SendNotificationMessage framed_sendOpenMessage
  framed_SetPeerConn framed_ClearPeerConn framed_StopConnToPeer framed_InitiateConnToPeer
  framed_HandleAnotherConnection framed_ProcessUpdateMessage framed_leave : fsm.
#[export] Hint Extern 2 (framed (modify _)) => apply framed_modify; intros ?; split; reflexivity : fsm.
#[export] Hint Extern 2 (framed (act _)) => apply framed_act; split; [reflexivity | exact I] : fsm.

(** ** Changing state keeps the link right *)

Section steady.
Context (conf : NeighborConf) (w : World) (stops : bool).
Implicit Types (a b : op) (x y : Ctx).

Lemma steady_framed a : framed a -> steady stops a.
Proof. intros Ha x y Hr Hy. by eapply frame_refines; [apply Ha|]. Qed.
Lemma steady_seq a b : steady stops a -> steady stops b -> steady stops (a ;; b)%fsm.
Proof. intros Ha Hb x z Hr (y & Hy & Hz)%bind_Ok_inv. eapply Hb; [|exact Hz]. by eapply Ha. Qed.
Lemma steady_bind a b x y : steady stops a -> steady stops b -> refines stops x -> a x ≫= b = Ok y -> refines stops y.
Proof. intros Ha Hb. exact (steady_seq a b Ha Hb x y). Qed.
Lemma steady_if (c : bool) a b : steady stops a -> steady stops b -> steady stops (if c then a else b).
Proof. by destruct c. Qed.
Lemma steady_case (c : Ctx -> bool) a b :
  steady stops a -> steady stops b -> steady stops (fun x => if c x then a x else b x).
Proof. intros Ha Hb x y. destruct (c x); [apply Ha | apply Hb]. Qed.

Lemma link_set_State s x y : modify (set_State s) x = Ok y -> same_link x y.
Proof. intros [= <-]. repeat split; try done. exists []. by rewrite app_nil_r. Qed.

Lemma link_fsmStateChange i s x y : fsmStateChange i s x = Ok y -> same_link x y.
Proof.
  unfold fsmStateChange. case_match; [|by intros [= <-]].
  intros [= <-]. repeat split; try done. exists [FSMStateChange s]. by repeat constructor.
Qed.

(** A change of state between two states that are not Established. *)
Lemma link_ChangeState_idle (en : BaseState -> op) s x y :
  (forall x' y', State (self x') = s -> en s x' = Ok y' -> same_link x' y' /\ is_established (State (self y')) = false) ->
  is_established (State (self x)) = false -> ChangeState_with conf en s x = Ok y ->
  same_link x y /\ is_established (State (self y)) = false.
Proof.
  intros Hen Hs H. unfold ChangeState_with in H. destruct (close (self x)) eqn:Hcl.
  { injection H as <-. by split; [reflexivity|]. }
  apply bind_Ok_inv in H as (x1 & H1 & H). apply bind_Ok_inv in H as (x2 & H2 & H).
  apply bind_Ok_inv in H as (x3 & H3 & H).
  destruct (Hen x2 x3) as [L3 N3]; [by injection H2 as <- | done |].
  rewrite Hs, N3 in H. cbn [andb negb] in H. rewrite bind_Ok in H.
  apply framed_leave in H1. apply frame_same_link in H1. apply link_set_State in H2.
  assert (Hself : self y = self x3).
  { unfold fsmStateChange in H. case_match; by injection H as <-. }
  apply link_fsmStateChange in H. split; [|by rewrite Hself].
  by do 3 (etransitivity; [eassumption|]).
Qed.

Lemma framed_enter_fuel n s : s <> ConnectState -> framed (enter_fuel conf w n s).
Proof.
  intros Hs. destruct s; try done; destruct n; cbn [enter_fuel];
    unfold StopKeepAliveTimer, StopHoldTimer, RejectPeerConn, mgr_RejectPeerConn, ApplyAutomaticStart,
      AcceptPeerConn, mgr_AcceptPeerConn, SetIdleHoldTime; eauto 10 with fsm.
Qed.

Lemma enter_link n s x y :
  State (self x) = s -> enter_fuel conf w n s x = Ok y ->
  same_link x y /\ is_established (State (self y)) = is_established s.
Proof.
  intros Hs H.
  assert (Hfr : forall a, framed a -> a x = Ok y -> same_link x y /\ is_established (State (self y)) = is_established s).
  { intros a Ha Hy. apply Ha in Hy as Hf. split; [by apply frame_same_link|].
    unfold is_established. by rewrite (proj1 Hf), Hs. }
  destruct s; try (revert H; apply Hfr, framed_enter_fuel; discriminate).
  assert (Hc : framed (AcceptPeerConn ;; InitiateConnToPeer conf w)%fsm).
  { unfold AcceptPeerConn, mgr_AcceptPeerConn. eauto with fsm. }
  destruct n as [|n]; cbn [enter_fuel] in H.
  { destruct (_ && _); [discriminate|]. by apply (Hfr _ Hc). }
  destruct (_ && _); [|by apply (Hfr _ Hc)].
  eapply (link_ChangeState_idle (enter_fuel conf w n)); [|by rewrite Hs | exact H].
  intros x' y' Hs' Hy'. apply framed_enter_fuel in Hy' as Hf; [|discriminate].
  split; [by apply frame_same_link|]. unfold is_established. by rewrite (proj1 Hf), Hs'.
Qed.

(** The last calls of [ChangeState]: the link first, then the state. *)
Lemma linked_report old new up x y :
  linked stops old up x -> is_established (State (self x)) = new ->
  (if old && negb new then ConnBroken x else if negb old && new then ConnEstablished x else Ok x) = Ok y ->
  self y = self x /\ exists up', linked stops new up' y.
Proof.
  intros [Hid Hfs Hact Hl Hup He] Hn Hy. destruct old, new; cbn [andb negb] in Hy.
  - injection Hy as <-. split; [done|]. by exists up.
  - unfold ConnBroken, fsmBroken in Hy. destruct up.
    + rewrite Hact, Z.eqb_refl in Hy. injection Hy as <-. split; [done|]. exists false. split; try done. cbn. by rewrite link_app, Hl.
    + rewrite Hact, (proj2 (Z.eqb_neq _ _)) in Hy by congruence. injection Hy as <-. split; [done|]. by exists false.
  - destruct up; [by specialize (Hup eq_refl)|]. unfold ConnEstablished in Hy. destruct (peerConn (self x)); [|discriminate].
    unfold fsmEstablished in Hy. destruct Hfs as [Hfs|[Hst Hfs]]; rewrite Hfs in Hy.
    + rewrite lookup_singleton_eq in Hy. injection Hy as <-. split; [done|]. exists true. split; try done.
      * by left.
      * cbn. by rewrite link_app, Hl.
    + rewrite lookup_empty in Hy. injection Hy as <-. split; [done|]. exists false. split; try done; [by right | congruence].
  - injection Hy as <-. split; [done|]. by exists up.
Qed.
Lemma linked_reported est up i st x y : linked stops est up x -> i = fsm_id (self x) -> fsmStateChange i st x = Ok y ->
  linked stops est up y /\ self y = self x /\ shown None (trace y) = Some st.
Proof.
  intros [Hid Hfs Hact Hl Hup He] -> H. unfold fsmStateChange in H.
  assert (Hr : (activeFSM (mgr x) =? fsm_id (self x)) || (activeFSM (mgr x) =? ConnDirInvalid) = true).
  { rewrite Hact. destruct up; [by rewrite Z.eqb_refl | apply orb_true_r]. }
  rewrite Hr in H. injection H as <-. split; [split; try done; cbn; by rewrite link_app, Hl|]. split; [done|].
  cbn. by rewrite shown_app.
Qed.

Lemma ChangeState_refines s up x y :
  linked stops (is_established (State (self x))) up x -> close (self x) = false ->
  ChangeState conf w s x = Ok y -> refines stops y.
Proof.
  intros Hl Hcl H. unfold ChangeState, ChangeState_with in H. rewrite Hcl in H.
  apply bind_Ok_inv in H as (x1 & H1 & H). apply bind_Ok_inv in H as (x2 & H2 & H).
  apply bind_Ok_inv in H as (x3 & H3 & H). apply bind_Ok_inv in H as (x4 & H4 & H).
  assert (H2' := H2). apply framed_leave in H1. apply frame_same_link in H1. apply link_set_State in H2.
  destruct (enter_link 1 s x2 x3) as [H3' _]; [by injection H2' as <- | done |].
  assert (Hl3 : linked stops (is_established (State (self x))) up x3).
  { eapply same_link_linked; [|exact Hl]. by do 2 (etransitivity; [eassumption|]). }
  destruct (linked_report _ _ _ _ _ Hl3 eq_refl H4) as (Hs & up' & Hl4).
  destruct (linked_reported _ _ _ _ _ _ Hl4 eq_refl H) as (Hl5 & Hs5 & Hsh).
  split; [exists up'; by rewrite Hs5, Hs | intros _; by rewrite Hsh, Hs5].
Qed.

Lemma steady_ChangeState s : steady stops (ChangeState conf w s).
Proof.
  intros x y [[up Hl] Hsh] H. destruct (close (self x)) eqn:Hcl; [|by eapply ChangeState_refines].
  unfold ChangeState, ChangeState_with in H. rewrite Hcl in H. injection H as <-. split; [by exists up | done].
Qed.
End steady.

#[export] Hint Resolve steady_framed steady_seq steady_if steady_ChangeState : fsm.

(** ** Every input keeps the link right *)

Section handlers.
Context (conf : NeighborConf) (w : World) (stops : bool).
Implicit Types (a b : op) (x y : Ctx).

(** Every entry of the manager's map is that of [i]. *)
Definition only (i : Z) (x : Ctx) : Prop := forall j, is_Some (fsms (mgr x) !! j) -> j = i.
Lemma only_alone x : alone stops x -> only (fsm_id (self x)) x.
Proof.
  intros [Hf|[_ Hf]] j [v Hj]; rewrite Hf in Hj; [by apply lookup_singleton_Some in Hj as [<- _] | by rewrite lookup_empty in Hj].
Qed.

Lemma collisions_alone i dir l r ids : forall d x d' y,
  only i x -> collisions w i dir l r ids d x = Ok (d', y) -> d' = d /\ y = x.
Proof.
  induction ids as [|j ids IH]; intros d x d' y Hf; cbn [collisions]; [by intros [= <- <-]|].
  destruct (fsms (mgr x) !! j) eqn:Hj; [|by apply IH].
  rewrite (Hf j) by (by eexists). rewrite Z.eqb_refl. cbn [negb andb]. by apply IH.
Qed.

(** Without another session an OPEN is accepted. *)
Lemma receivedBGPOpenMessage_alone i dir m x ok y :
  only i x -> receivedBGPOpenMessage conf w i dir m x = Ok (ok, y) ->
  frame x y /\ ok = negb (ConnDirInvalid =? dir).
Proof.
  intros Hf H. unfold receivedBGPOpenMessage in H.
  apply bind_Ok_inv in H as (a & _ & H). apply bind_Ok_inv in H as (b & _ & H).
  apply bind_Ok_inv in H as ([d z] & Hz & H). destruct (collisions_alone _ _ _ _ _ _ _ _ _ Hf Hz) as [-> ->].
  apply bind_Ok_inv in H as (n & _ & H). apply bind_Ok_inv in H as (z & Hz' & [= <- <-]).
  split; [|done]. destruct (fsms (mgr x) !! i); [by eapply framed_act; [|exact Hz'] | by injection Hz' as <-].
Qed.

Lemma ProcessOpenMessage_alone m x ok y :
  refines stops x -> ProcessOpenMessage conf w m x = Ok (ok, y) -> refines stops y.
Proof.
  intros Hr H. unfold ProcessOpenMessage in H. destruct (msg_Body m) as [[body| | |]|]; try discriminate.
  apply bind_Ok_inv in H as (x1 & H1 & H). apply bind_Ok_inv in H as (x2 & H2 & H).
  apply bind_Ok_inv in H as (x3 & H3 & H).
  assert (F1 : frame x x1).
  { destruct (_ <? _); [by apply framed_SetHoldTime in H1 | by apply framed_skip in H1]. }
  apply framed_modify in H2; [|done]. apply framed_modify in H3; [|done].
  assert (F : frame x x3) by (by do 2 (etransitivity; [eassumption|])).
  apply (frame_refines stops) in F as F3; [|done]. destruct (peerConn (self x3)); [|discriminate].
  apply receivedBGPOpenMessage_alone in H as [Hf _]; [by eapply frame_refines|].
  destruct F3 as [[up Hl] _]. by apply only_alone, Hl.
Qed.

Lemma steady_idle_field p x y :
  refines stops x -> state_of (State (self x)) = BGPFSMIdle -> modify (set_State (IdleState p)) x = Ok y -> refines stops y.
Proof.
  intros Hr Hs H. eapply frame_refines; [|exact Hr]. injection H as <-. repeat split; try done.
  exists []. by rewrite app_nil_r.
Qed.

Lemma steady_damp p x y :
  refines stops x -> state_of (State (self x)) = BGPFSMIdle ->
  ((fun x => SetIdleHoldTime (IdleHoldTimeInterval (idleHoldTime (self x))) x) ;; StartIdleHoldTimer ;;
   modify (set_State (IdleState p)))%fsm x = Ok y -> refines stops y.
Proof.
  intros Hr Hs H. apply bind_Ok_inv in H as (x1 & H1 & H). apply bind_Ok_inv in H as (x2 & H2 & H).
  apply framed_modify in H1; [|done]. apply framed_StartIdleHoldTimer in H2.
  assert (F : frame x x2) by (by etransitivity).
  eapply steady_idle_field; [by eapply frame_refines | | exact H]. by rewrite (proj1 F).
Qed.

Lemma steady_drop_session : steady stops (drop_session conf w).
Proof. unfold drop_session, StopConnectRetryTimer, IncrConnectRetryCounter. eauto 20 with fsm. Qed.
Lemma steady_notify_and_drop c s d : steady stops (notify_and_drop conf w c s d).
Proof. unfold notify_and_drop. pose proof steady_drop_session. eauto with fsm. Qed.
Lemma steady_report_error data : steady stops (report_error conf w data).
Proof.
  pose proof steady_notify_and_drop. unfold report_error. destruct data; eauto with fsm.
Qed.
Lemma steady_open_accepted r : refines stops r.2 -> forall y, open_accepted conf w r = Ok y -> refines stops y.
Proof.
  intros Hr y. unfold open_accepted. destruct r.1; [|by intros [= <-]].
  assert (Hs : steady stops (sendKeepAliveMessage w ;; StartHoldTimer ;; ChangeState conf w OpenConfirmState)%fsm)
    by eauto 20 with fsm.
  by apply Hs.
Qed.

Local Hint Resolve steady_drop_session steady_notify_and_drop steady_report_error : fsm.
Local Ltac steady_go :=
  unfold SetConnectRetryCounter, StopConnectRetryTimer, IncrConnectRetryCounter; eauto 20 with fsm.

Lemma steady_processEvent ev data x y :
  refines stops x -> processEvent conf w (State (self x)) ev data x = Ok y -> refines stops y.
Proof.
  intros Hr. unfold processEvent. destruct (State (self x)) eqn:Hs.
  - destruct ev; first
      [ match goal with |- ?a x = _ -> _ => assert (Ha : steady stops a) by (unfold IdleState_processEvent; steady_go) end;
        by apply Ha
      | apply steady_damp; [done | by rewrite Hs] ].
  - assert (Ha : steady stops (ConnectState_processEvent conf w ev data)); [|by apply Ha].
    unfold ConnectState_processEvent. destruct ev; steady_go.
  - assert (Ha : steady stops (ActiveState_processEvent conf w ev data)); [|by apply Ha].
    unfold ActiveState_processEvent. destruct ev; steady_go.
  - destruct ev; try (match goal with |- ?a x = _ -> _ =>
      assert (Ha : steady stops a) by (unfold OpenSentState_processEvent; steady_go) end; by apply Ha).
    intros (x1 & H1 & H)%bind_Ok_inv. injection H1 as <-. destruct data; try discriminate.
    apply bind_Ok_inv in H as (r & Hp & H). eapply steady_open_accepted; [|exact H].
    destruct r as [ok z]. eapply ProcessOpenMessage_alone; [|exact Hp].
    eapply frame_refines; [|exact Hr]. by apply (framed_modify (set_connectRetryTimer None)).
  - assert (Ha : steady stops (OpenConfirmState_processEvent conf w ev data)); [|by apply Ha].
    unfold OpenConfirmState_processEvent. destruct ev; steady_go.
  - assert (Ha : steady stops (EstablishedState_processEvent conf w ev data)); [|by apply Ha].
    unfold EstablishedState_processEvent. destruct ev; steady_go. destruct data; steady_go.
Qed.

Lemma steady_ProcessEvent ev data : steady stops (ProcessEvent conf w ev data).
Proof.
  intros x y Hr (x1 & H1 & H)%bind_Ok_inv. eapply steady_processEvent; [|exact H].
  eapply frame_refines; [|exact Hr]. by eapply framed_modify; [|exact H1].
Qed.
Local Hint Resolve steady_ProcessEvent : fsm.

Lemma steady_ProcessPacket m e : steady stops (ProcessPacket conf w m e).
Proof.
  unfold ProcessPacket. destruct e; [by eauto with fsm|].
  do 2 (apply steady_if; [by eauto with fsm|]). apply steady_if; [|by eauto with fsm].
  apply steady_seq; [by eauto with fsm|]. destruct (msg_Body m) as [[]|]; by eauto with fsm.
Qed.

Lemma steady_handle i : steady stops (handle conf w i).
Proof.
  assert (Hs : forall v, steady stops (SetPassiveTcpEstablishment v)) by (intros; apply steady_framed; by apply framed_modify).
  intros x y Hr. destruct i; cbn [handle].
  - destruct (outTCPConn (self x)); [apply (steady_seq stops StopConnToPeer); [by eauto with fsm | | done]
      | apply (steady_framed stops (act _)); by eauto with fsm].
    eauto with fsm.
  - apply (steady_seq stops StopConnToPeer); [by eauto with fsm | | done].
    apply (steady_case stops (fun x => _)); [by eauto with fsm|].
    repeat (apply steady_seq; [by eauto with fsm|]). apply (steady_case stops (fun x => close (self x))).
    + intros x' y' Hr' [= <-]. done.
    + intros x' y' Hr'. apply (steady_framed stops (act _)); [by eauto with fsm | done].
  - by apply steady_ProcessEvent.
  - apply (steady_seq stops (modify (set_close true))); [by eauto with fsm..|done].
  - by apply Hs.
  - by apply steady_ProcessPacket.
  - eapply steady_bind; [by eauto with fsm | by eauto 10 with fsm | done].
  - eapply steady_bind; [by eauto with fsm | by eauto 10 with fsm | done].
  - by apply steady_ProcessEvent.
  - by apply steady_ProcessEvent.
  - by apply steady_ProcessEvent.
  - by apply steady_ProcessEvent.
  - by apply steady_ProcessEvent.
Qed.
End handlers.

(** ** What the manager does keeps the link right *)

Section manager.
Context (conf : NeighborConf) (w : World) (stops : bool).
Implicit Types (x y : Ctx).

Lemma each_fsm_steady (body : Z -> op) :
  (forall x y, refines stops x -> fsms (mgr x) = {[fsm_id (self x) := Self]} -> body (fsm_id (self x)) x = Ok y -> refines stops y) ->
  steady stops (range_mgr w body).
Proof.
  intros Hb x y. unfold range_mgr. generalize (range_fsms w x). intros ids. revert x.
  induction ids as [|i ids IH]; intros x Hr H; cbn [each_fsm] in H; [by injection H as <-|].
  apply bind_Ok_inv in H as (x1 & H1 & H). eapply IH; [|exact H].
  destruct (fsms (mgr x) !! i) eqn:Hi; [|by injection H1 as <-].
  pose proof Hr as [[up [_ [Hf|[_ Hf]] _ _ _ _]] _]; rewrite Hf in Hi; [|by rewrite lookup_empty in Hi].
  apply lookup_singleton_Some in Hi as [<- _]. by eapply Hb.
Qed.

(** The manager takes the link down while the session goes on. *)
Lemma broken_refines x y : stops = true -> refines stops x -> fsmBroken (fsm_id (self x)) x = Ok y ->
  refines stops y /\ self y = self x /\ fsms (mgr y) = fsms (mgr x) /\ activeFSM (mgr y) = ConnDirInvalid.
Proof.
  intros Hst [[up [Hid Hfs Hact Hl Hup He]] _] H. unfold fsmBroken in H. destruct up.
  - rewrite Hact, Z.eqb_refl in H. injection H as <-. split; [|done]. split; [|congruence].
    exists false. split; try done; [cbn; by rewrite link_app, Hl | congruence].
  - rewrite Hact, (proj2 (Z.eqb_neq _ _)) in H by congruence. injection H as <-. split; [|done].
    split; [|congruence]. by exists false.
Qed.
Lemma quiet_refines x y e : refines stops x -> act e x = Ok y -> quiet e -> refines stops y.
Proof. intros Hr Hy He. eapply (steady_framed stops (act e)); [by apply framed_act | exact Hr | exact Hy]. Qed.

Lemma StopFSM_refines : stops = true -> steady stops (StopFSM w).
Proof.
  intros Hst. apply each_fsm_steady. intros x y Hr _ (x1 & H1 & H)%bind_Ok_inv.
  assert (Hs : self x1 = self x) by (by injection H1 as <-). apply quiet_refines in H1; [|done..].
  rewrite <- Hs in H. by apply broken_refines in H as [? _].
Qed.

Lemma Cleanup_refines : stops = true -> steady stops (Cleanup w).
Proof.
  intros Hst. apply each_fsm_steady. intros x y Hr Hf H.
  apply bind_Ok_inv in H as (x1 & H1 & H). apply bind_Ok_inv in H as (x2 & H2 & H).
  apply bind_Ok_inv in H as (x3 & H3 & H).
  assert (Hs : self x1 = self x /\ fsms (mgr x1) = fsms (mgr x)) by (by injection H1 as <-). apply quiet_refines in H1; [|done..].
  destruct Hs as [Hs Hf1]. rewrite <- Hs in H2, H3. apply broken_refines in H2 as (Hr2 & Hs2 & Hf2 & Ha2); [|done..].
  destruct Hr2 as [[up Hl] _]. destruct (linked_reported stops _ _ _ _ _ _ Hl (eq_sym (f_equal fsm_id Hs2)) H3) as (Hl3 & Hs3 & _).
  assert (Hf3 : fsms (mgr x3) = {[fsm_id (self x3) := Self]}).
  { unfold fsmStateChange in H3. case_match; injection H3 as <-; cbn; rewrite Hf2, Hf1, Hf, Hs2, Hs; done. }
  injection H as <-. split; [|congruence]. exists up. rewrite <- Hs3 in Hl3. destruct Hl3 as [L1 L2 L3 L4 L5 L6].
  split; try done. right. split; [done|]. cbn [mgr delete_fsm fsms]. rewrite Hf3.
  cbn [self]. rewrite <- Hs, <- Hs2, <- Hs3. apply delete_singleton_eq.
Qed.

(** The inputs of the manager that make no second session, nor stop any when it does not. *)
Definition keeps_alone (i : MgrInput) : bool :=
  match i with newConnCh _ _ _ => false | StopFSMCh | CloseCh => stops | _ => true end.

Lemma steady_mgr_handle i : keeps_alone i = true -> steady stops (mgr_handle conf w i).
Proof.
  intros Hi. assert (Hq : forall e : Z -> Action, (forall j, quiet (e j)) -> steady stops (range_mgr w (fun j => act (e j)))).
  { intros e He. apply each_fsm_steady. intros x y Hr _ H. by eapply (steady_framed stops (act _)); [apply framed_act | |exact H]. }
  destruct i; try discriminate Hi; intros x y Hr H; cbn [mgr_handle] in H.
  - unfold accept_conn in H. destruct (negb _); [by apply (quiet_refines _ _ _ Hr H)|]. destruct (existsb _ _); [by apply (quiet_refines _ _ _ Hr H)|].
    destruct (range_fsms w x); [by injection H as <- | by apply (quiet_refines _ _ _ Hr H)].
  - unfold fsmTcpConnFailed in H. pose proof Hr as [[up [_ [Hf|[_ Hf]] _ _ _ _]] _]; rewrite Hf in H.
    + rewrite map_size_singleton in H. by injection H as <-.
    + unfold fsmClose in H. rewrite Hf, lookup_empty in H. by destruct (_ && _); injection H as <-.
  - by eapply StopFSM_refines.
  - by eapply Cleanup_refines.
  - destruct (is_command ev); [|by injection H as <-]. by eapply (Hq (fun j => EventToFSM j ev reason)).
  - by eapply (Hq (fun j => BfdToFSM j up)).
Qed.
End manager.

(** ** Properties *)

(** The only session of a neighbour, just started. *)
Definition started_alone (conf : NeighborConf) (x : Ctx) : Prop :=
  exists w i, i <> ConnDirInvalid /\
    StartFSM conf w {| self := NewFSM conf i NewIdleState;
                       mgr := {| fsms := {[i := Self]}; acceptConn := false; activeFSM := ConnDirInvalid |};
                       trace := [] |} = Ok x.
(** The session handles an input, or its manager one of its own. *)
Definition fsm_runs (stops : bool) (conf : NeighborConf) (x y : Ctx) : Prop :=
  exists w, (exists i, handle conf w i x = Ok y) \/ (exists i, keeps_alone stops i = true /\ mgr_handle conf w i x = Ok y).

Lemma modify_self g x y : modify g x = Ok y -> self y = g (self x).
Proof. by intros [= <-]. Qed.

Lemma idle_start_refines conf w stops x y :
  State (self x) = NewIdleState -> close (self x) = false -> linked stops false false x ->
  IdleState_processEvent conf w false BGPEventAutoStart x = Ok y -> refines stops y.
Proof.
  intros Hs Hcl Hl H. unfold IdleState_processEvent in H.
  apply bind_Ok_inv in H as (x1 & H1 & H). apply bind_Ok_inv in H as (x2 & H2 & H).
  assert (Hc2 : close (self x2) = false).
  { apply modify_self in H1. unfold StartConnectRetryTimer in H2. apply bind_Ok_inv in H2 as (x3 & H3 & H2).
    apply modify_self in H3. apply modify_self in H2. rewrite H2, H3, H1. exact Hcl. }
  apply framed_modify in H1; [|done]. apply framed_StartConnectRetryTimer in H2.
  assert (F : frame x x2) by (by etransitivity).
  assert (He : is_established (State (self x2)) = false) by (unfold is_established; by rewrite (proj1 F), Hs).
  eapply (ChangeState_refines conf w stops _ false); [rewrite He | exact Hc2 | exact H].
  by eapply same_link_linked; [apply frame_same_link, F|].
Qed.

Lemma StartFSM_refines conf w stops x0 x :
  State (self x0) = NewIdleState -> close (self x0) = false -> linked stops false false x0 ->
  StartFSM conf w x0 = Ok x -> refines stops x.
Proof.
  intros S1 S2 S3 H. unfold StartFSM in H.
  apply bind_Ok_inv in H as (x1 & H1 & H). rewrite S1 in H1.
  destruct (does_enter_fuel conf w 1 NewIdleState x0) as (x1' & H1' & Hs); [done | by left |].
  assert (x1' = x1) as -> by (unfold enter in H1; congruence).
  apply (framed_enter_fuel conf w 1) in H1; [|discriminate].
  assert (Hst : State (self x1) = NewIdleState) by (rewrite Hs; exact S1).
  assert (Hcl : close (self x1) = false) by (rewrite Hs; exact S2).
  unfold ProcessEvent in H. apply bind_Ok_inv in H as (x2 & H2 & H). apply modify_self in H2 as E2.
  apply framed_modify in H2; [|done].
  assert (Hst2 : State (self x2) = NewIdleState) by (rewrite E2; exact Hst).
  assert (Hcl2 : close (self x2) = false) by (rewrite E2; exact Hcl).
  rewrite Hst2 in H. eapply idle_start_refines; [exact Hst2 | exact Hcl2 | |exact H].
  eapply same_link_linked; [|exact S3]. etransitivity; by apply frame_same_link.
Qed.

Lemma started_refines conf stops x : started_alone conf x -> refines stops x.
Proof. intros (w & i & Hi & H). eapply StartFSM_refines; [..|exact H]; try done. split; try done. by left. Qed.


Definition open_example_msg : BGPMessage :=
  {| msg_Header := {| hd_Length := 37; hd_Type := 1 |};
     msg_Body := Some (BOpen {| op_Version := 4; op_MyAS := 65002; op_HoldTime := 90; op_BGPId := [10; 0; 0; 2];
                                op_OptParamLen := 0; op_OptParams := [] |}) |}.

(** The session after a list of inputs. *)
Fixpoint run_inputs (conf : NeighborConf) (w : World) (inputs : list Input) (x : Ctx) : result Ctx :=
  match inputs with
  | [] => Ok x
  | i :: inputs => x ← handle conf w i x; run_inputs conf w inputs x
  end.
Lemma run_inputs_runs conf w stops inputs : forall x y, run_inputs conf w inputs x = Ok y -> rtc (fsm_runs stops conf) x y.
Proof.
  induction inputs as [|i inputs IH]; intros x y; cbn; [by intros [= <-]|].
  intros (z & Hz & H)%bind_Ok_inv. eapply rtc_l; [by exists w; left; exists i | by apply IH].
Qed.

Definition session_inputs : list Input := [OutConn 7; PktRx open_example_msg None; PktRx NewBGPKeepAliveMessage None].


(** ** The collision of two connections *)

Section collision.
Context (conf : NeighborConf) (w : World) (Hw : world_ok w).
Implicit Types (x : Ctx).

(** Two FSMs of a neighbour have connections in the two directions; the running one reads an OPEN,
    the other one has sent its own. [local] and [remote] are the numbers the identifiers of the two
    speakers are converted to. *)
Record colliding x (m : BGPOpen) (local remote : Z) : Prop := {
  col_ids : exists i j g c cg, fsms (mgr x) = {[i := Self; j := Other g]} /\ i <> j /\ i <> ConnDirInvalid /\
    j <> ConnDirInvalid /\ fsm_id (self x) = i /\
    (State g = OpenSentState \/ State g = OpenConfirmState) /\
    peerConn (self x) = Some c /\ peerConn g = Some cg /\
    (pc_dir c = ConnDirOut /\ pc_dir cg = ConnDirIn \/ pc_dir c = ConnDirIn /\ pc_dir cg = ConnDirOut);
  col_local : exists ip, To4 (gConf_RouterId conf) = Some ip /\ ConvertIPBytesToUint ip = Ok local;
  col_remote : len (op_BGPId m) = 4 /\ ConvertIPBytesToUint (op_BGPId m) = Ok remote;
  col_size : exists n, GetASSize m = Ok n;
}.

(** After [m], the only FSM left is the one with the connection of direction [d]. *)
Definition survives x (m : BGPOpen) (d : Z) : Prop :=
  exists c y k r ck, peerConn (self x) = Some c /\
    receivedBGPOpenMessage conf w (fsm_id (self x)) (pc_dir c) m x = Ok (pc_dir c =? d, y) /\
    fsms (mgr y) = {[k := r]} /\ peerConn (deref y r) = Some ck /\ pc_dir ck = d.

Lemma range_two x i j r s :
  fsms (mgr x) = {[i := r; j := s]} -> i <> j -> range_fsms w x = [i; j] \/ range_fsms w x = [j; i].
Proof.
  intros Hf Hij. apply Permutation_length_2_inv. unfold range_fsms.
  rewrite (Hw _), Hf, map_to_list_insert, map_to_list_singleton by (rewrite lookup_singleton_None; congruence). done.
Qed.

(** The FSM of a direction, when the two directions differ. *)
Lemma getFSMIdByDir_two x i j r s ci cj :
  fsms (mgr x) = {[i := r; j := s]} -> i <> j -> peerConn (deref x r) = Some ci ->
  peerConn (deref x s) = Some cj -> pc_dir ci <> pc_dir cj ->
  getFSMIdByDir w x (pc_dir ci) = i /\ getFSMIdByDir w x (pc_dir cj) = j.
Proof.
  intros Hf Hij Hi Hj Hd.
  assert (Li : fsms (mgr x) !! i = Some r) by (by rewrite Hf, lookup_insert, decide_True).
  assert (Lj : fsms (mgr x) !! j = Some s) by (by rewrite Hf, lookup_insert_ne, lookup_singleton, decide_True).
  unfold getFSMIdByDir.
  destruct (range_two x i j r s Hf Hij) as [-> | ->]; cbn [find_dir]; rewrite Li, Lj; cbn; rewrite Hi, Hj, !Z.eqb_refl;
    rewrite (proj2 (Z.eqb_neq _ _)) by congruence; done.
Qed.

Lemma fsmClose_found i x r :
  fsms (mgr x) !! i = Some r ->
  exists y, fsmClose i x = Ok y /\ self y = self x /\ fsms (mgr y) = delete i (fsms (mgr x)).
Proof.
  intros Hi. unfold fsmClose. rewrite Hi.
  destruct (does_act (CloseFSM i) x) as (y1 & E1 & H1). rewrite E1, bind_Ok.
  destruct (does_fsmBroken i y1) as (y2 & E2 & H2). rewrite E2, bind_Ok.
  eexists. split; [reflexivity|]. cbn. split; [congruence|].
  assert (fsms (mgr y2) = fsms (mgr y1)) as -> by (unfold fsmBroken in E2; case_match; by injection E2 as <-).
  by injection E1 as <-.
Qed.

(** The loop over the two sessions closes the one whose connection has the direction that loses. *)
Lemma collisions_two x i j g c cg local remote ids :
  fsms (mgr x) = {[i := Self; j := Other g]} -> i <> j ->
  (State g = OpenSentState \/ State g = OpenConfirmState) ->
  peerConn (self x) = Some c -> peerConn g = Some cg ->
  (pc_dir c = ConnDirOut /\ pc_dir cg = ConnDirIn \/ pc_dir c = ConnDirIn /\ pc_dir cg = ConnDirOut) ->
  ids = [i; j] \/ ids = [j; i] ->
  let closed := if local >? remote then ConnDirIn else ConnDirOut in
  exists y, collisions w i (pc_dir c) local remote ids ConnDirInvalid x = Ok (closed, y) /\ self y = self x /\
    fsms (mgr y) = if pc_dir c =? closed then {[j := Other g]} else {[i := Self]}.
Proof.
  intros Hf Hij Hs Hc Hcg Hd Hids closed.
  assert (Li : fsms (mgr x) !! i = Some Self) by (by rewrite Hf, lookup_insert, decide_True).
  assert (Lj : fsms (mgr x) !! j = Some (Other g)).
  { by rewrite Hf, lookup_insert_ne, lookup_singleton, decide_True. }
  assert (Hst : state_of (State g) >=? BGPFSMOpensent = true) by (by destruct Hs as [-> | ->]).
  assert (Hne : state_of (State g) =? BGPFSMEstablished = false) by (by destruct Hs as [-> | ->]).
  assert (Hji : j =? i = false) by (apply Z.eqb_neq; congruence).
  destruct (getFSMIdByDir_two x i j Self (Other g) c cg) as [Gi Gj]; try done.
  { unfold ConnDirOut, ConnDirIn in Hd. lia. }
  set (k := if pc_dir c =? closed then i else j).
  assert (Hk : getFSMIdByDir w x closed = k).
  { subst k closed. destruct Hd as [[D1 D2]|[D1 D2]], (local >? remote); rewrite D1 in *; rewrite D2 in *; cbn; done. }
  assert (Lk : exists r, fsms (mgr x) !! k = Some r) by (subst k; case_match; by eexists).
  destruct Lk as (r & Lk). destruct (fsmClose_found k x r Lk) as (y & Hy & Hself & Hdel).
  exists y. split; [|split; [done|]].
  - destruct Hids as [-> | ->]; cbn [collisions]; rewrite ?Li, ?Lj; cbn [deref]; rewrite ?Z.eqb_refl, ?Hji;
      cbn [negb andb]; rewrite ?Lj; cbn [deref]; rewrite ?Hst, ?Hne, ?Hji; cbn [negb andb]; fold closed; rewrite ?Hk, Hy, bind_Ok;
      [done|]. rewrite Hdel. destruct (delete k (fsms (mgr x)) !! i); [|done].
    cbn [negb andb]. done.
  - rewrite Hdel, Hf. subst k. destruct (pc_dir c =? closed).
    + rewrite delete_insert_eq. apply delete_id,  lookup_singleton_None. congruence.
    + rewrite delete_insert_ne by congruence. by rewrite delete_singleton_eq.
Qed.
End collision.

Lemma collision_survivor conf w x m local remote :
  world_ok w -> colliding conf x m local remote ->
  survives conf w x m (if local >? remote then ConnDirOut else ConnDirIn).
Proof.
  intros Hw [(i & j & g & c & cg & Hf & Hij & Hi & Hj & Hid & Hs & Hc & Hcg & Hd) (ip & Hip & Hl) (H4 & Hr) (n & Hn)].
  set (closed := if local >? remote then ConnDirIn else ConnDirOut).
  destruct (collisions_two w Hw x i j g c cg local remote (range_fsms w x) Hf Hij Hs Hc Hcg Hd) as (y & Hy & Hself & Hfs).
  { by eapply range_two. }
  fold closed in Hy, Hfs. exists c. unfold receivedBGPOpenMessage. rewrite Hid.
  destruct (pc_dir c =? closed) eqn:Hclosed.
  - exists y, j, (Other g), cg. split; [done|].
    rewrite Hip, (To4_4 (op_BGPId m)) by done. cbn [default from_option]. unfold id.
    rewrite Hl, bind_Ok, Hr, bind_Ok, Hy, bind_Ok, Hn, bind_Ok.
    rewrite Hfs, lookup_singleton_ne, bind_Ok by congruence. zhyp.
    split; [|split; [done|split; [done|]]].
    + repeat f_equal. rewrite <- Hclosed, Z.eqb_refl. cbn. symmetry. apply Z.eqb_neq.
      subst closed. destruct (local >? remote); rewrite Hclosed; discriminate.
    + subst closed. destruct (local >? remote), Hd as [[D1 D2]|[D1 D2]]; congruence.
  - rewrite Hip, (To4_4 (op_BGPId m)) by done. cbn [default from_option]. unfold id.
    destruct (does_act (SetPeerAttrs (op_BGPId m) n (holdTime (self y)) (keepAliveTime (self y)) (GetAddPathFamily m)) y)
      as (z & Hz & Hzs).
    exists z, i, Self, c. split; [done|].
    rewrite Hl, bind_Ok, Hr, bind_Ok, Hy, bind_Ok, Hn, bind_Ok.
    rewrite Hfs, lookup_singleton, decide_True by done. cbn [deref]. rewrite Hz, bind_Ok.
    assert (pc_dir c = if local >? remote then ConnDirOut else ConnDirIn) as Hdir.
    { zhyp. subst closed. destruct (local >? remote), Hd as [[D1 D2]|[D1 D2]]; congruence. }
    split; [|split; [injection Hz as <-; exact Hfs | split; [by rewrite Hzs, Hself | done]]].
    rewrite <- Hdir, Z.eqb_refl, Z.eqb_sym, Hclosed. done.
Qed.

(** C35: the collision of two connections between speakers A and B, both with an OPEN sent on each.
    Each speaker keeps its outgoing connection if the number its own identifier is converted to is
    greater, and otherwise the incoming one. So with different numbers they keep the same TCP
    connection, opened by the speaker with the greater one. The conversion is not injective: when
    two identifiers are converted to the same number, each speaker closes its outgoing connection
    and keeps the incoming one, which the other has closed. *)
Theorem collision_resolution (confA confB : NeighborConf) (wA wB : World) (xA xB : Ctx)
    (fromB fromA : BGPOpen) (a b : Z) :
  world_ok wA -> world_ok wB -> colliding confA xA fromB a b -> colliding confB xB fromA b a ->
  (a > b -> survives confA wA xA fromB ConnDirOut /\ survives confB wB xB fromA ConnDirIn) /\
  (a < b -> survives confA wA xA fromB ConnDirIn /\ survives confB wB xB fromA ConnDirOut) /\
  (a = b -> survives confA wA xA fromB ConnDirIn /\ survives confB wB xB fromA ConnDirIn).
Proof.
  intros HwA HwB HA%(collision_survivor confA wA) HB%(collision_survivor confB wB); [|done..].
  rewrite Z.gtb_ltb in HA, HB. split; [|split]; intros Hab; revert HA HB; zif; done.
Qed.

(** Two speakers, 10.1.0.1 and 10.2.0.1, that opened a connection to each other. *)
Definition colliding_fsm (i dir : Z) : FSM :=
  set_State OpenSentState (set_peerConn (Some {| pc_dir := dir; pc_conn := 100 + i; pc_id := 1 |})
    (NewFSM fsm_conf_example i NewIdleState)).
Definition colliding_ctx : Ctx :=
  {| self := colliding_fsm 0 ConnDirOut;
     mgr := {| fsms := {[0 := Self; 1 := Other (colliding_fsm 1 ConnDirIn)]}; acceptConn := true; activeFSM := 2 |};
     trace := [] |}.
Definition conf_with_id (id : bytes) : NeighborConf := {|
  conf_HoldTime := 180; conf_KeepaliveTime := 60; conf_ConnectRetryTime := 120;
  conf_MaxPrefixesRestartTimer := 50; conf_LocalAS := 65001; conf_AddPathsRx := false;
  conf_AddPathsMaxTx := 0; conf_AfiSafiMap := ∅; conf_BfdEnable := false;
  conf_Broadcast := false; gConf_AS := 65001; gConf_RouterId := id |}.
Definition open_with_id (id : bytes) : BGPOpen :=
  {| op_Version := 4; op_MyAS := 65002; op_HoldTime := 90; op_BGPId := id; op_OptParamLen := 0; op_OptParams := [] |}.

Lemma collision_resolution_witness :
  [10; 1; 0; 1] <> [10; 2; 0; 1] /\
  survives (conf_with_id [10; 1; 0; 1]) world_example colliding_ctx (open_with_id [10; 2; 0; 1]) ConnDirIn /\
  survives (conf_with_id [10; 2; 0; 1]) world_example colliding_ctx (open_with_id [10; 1; 0; 1]) ConnDirIn.
Proof.
  split; [discriminate|].
  destruct (collision_resolution (conf_with_id [10; 1; 0; 1]) (conf_with_id [10; 2; 0; 1]) world_example world_example
    colliding_ctx colliding_ctx (open_with_id [10; 2; 0; 1]) (open_with_id [10; 1; 0; 1]) 167772161 167772161)
    as (_ & _ & H); [apply world_example_ok | apply world_example_ok | | | exact (H eq_refl)].
  - split; [|by eexists | by split | by eexists].
    exists 0, 1, (colliding_fsm 1 ConnDirIn), {| pc_dir := 0; pc_conn := 100; pc_id := 1 |},
      {| pc_dir := 1; pc_conn := 101; pc_id := 1 |}.
    repeat (split; [first [reflexivity | discriminate | left; reflexivity]|]). left. by split.
  - split; [|by eexists | by split | by eexists].
    exists 0, 1, (colliding_fsm 1 ConnDirIn), {| pc_dir := 0; pc_conn := 100; pc_id := 1 |},
      {| pc_dir := 1; pc_conn := 101; pc_id := 1 |}.
    repeat (split; [first [reflexivity | discriminate | left; reflexivity]|]). left. by split.
Defined.

(** ** The end of a session *)

(** What a session with a connection does on an event that ends it: [Some (Some n)], it sends the
    NOTIFICATION [n] first. *)
Definition drop_reason (s : BaseState) (ev : BGPFSMEvent) (data : EventData) : option (option (Z * Z * bytes)) :=
  let error :=
    match data with DMsgErr e => Some (Some (TypeCode e, SubTypeCode e, Data e)) | _ => None end in
  let unexpected := Some (Some (match s with OpenConfirmState => BGPCease | _ => BGPFSMError end, 0, [])) in
  match ev with
  | BGPEventManualStop | BGPEventAutoStop | BGPEventOpenCollisionDump => Some (Some (BGPCease, 0, []))
  | BGPEventHoldTimerExp => Some (Some (BGPHoldTimerExpired, 0, []))
  | BGPEventNotifMsgVerErr => Some None
  | BGPEventNotifMsg => match s with OpenSentState => unexpected | _ => Some None end
  | BGPEventTcpConnFails => match s with OpenSentState => None | _ => Some None end
  | BGPEventHeaderErr | BGPEventOpenMsgErr => match s with EstablishedState => unexpected | _ => error end
  | BGPEventUpdateMsgErr => match s with EstablishedState => error | _ => unexpected end
  | BGPEventUpdateMsg => match s with EstablishedState => None | _ => unexpected end
  | BGPEventKeepAliveMsg | BGPEventKeepAliveTimerExp => match s with OpenSentState => unexpected | _ => None end
  | BGPEventConnRetryTimerExp | BGPEventDelayOpenTimerExp | BGPEventIdleHoldTimerExp
  | BGPEventBGPOpenDelayOpenTimer => unexpected
  | _ => None
  end.

Definition notification_bytes (n : Z * Z * bytes) : bytes :=
  match encoded (NewBGPNotificationMessage n.1.1 n.1.2 n.2) with Ok pkt => pkt | _ => [] end.

(** The actions, in order: the NOTIFICATION, the end of the connection and of an outgoing attempt,
    the link down for the server, the state. *)
Definition notify_trace (w : World) (x : Ctx) (c : PeerConn) (n : option (Z * Z * bytes)) : list Action :=
  match n with
  | None => []
  | Some n =>
    let ok := w_write w (length (trace x)) in
    Write (pc_conn c) (notification_bytes n) ok :: if ok then [NotificationSent] else []
  end.
Definition release_trace (x : Ctx) (c : PeerConn) : list Action :=
  StopReading (pc_conn c) :: match outTCPConn (self x) with Some o => [StopConn o] | None => [] end.
Definition report_trace (x : Ctx) : list Action :=
  (if is_established (State (self x)) && (activeFSM (mgr x) =? fsm_id (self x)) then [PeerDown] else []) ++
  (if (activeFSM (mgr x) =? fsm_id (self x)) || (activeFSM (mgr x) =? ConnDirInvalid)
   then [FSMStateChange BGPFSMIdle] else []).

Section teardown.
Context (conf : NeighborConf) (w : World).
Implicit Types (x y : Ctx).

(** A call with its effect on the record and the trace; the manager is left alone. *)
Local Abbreviation traces a g t x :=
  ((a : op) x = Ok {| self := g (self x); mgr := mgr x; trace := trace x ++ t |}).

Lemma traces_ClearPeerConn c x :
  peerConn (self x) = Some c -> traces ClearPeerConn cleared [StopReading (pc_conn c)] x.
Proof. intros Hc. unfold ClearPeerConn, cleared. by rewrite Hc. Qed.
Lemma traces_StopConnToPeer x :
  traces StopConnToPeer (set_outTCPConn None)
    (match outTCPConn (self x) with Some o => [StopConn o] | None => [] end) x.
Proof.
  unfold StopConnToPeer. destruct (outTCPConn (self x)) eqn:Ho; [done|].
  rewrite app_nil_r. destruct x as [[] ? ?]. cbn in *. by subst.
Qed.
Lemma traces_SendNotificationMessage code sub d c x :
  peerConn (self x) = Some c ->
  traces (SendNotificationMessage w code sub d) (fun f => f) (notify_trace w x c (Some (code, sub, d))) x.
Proof.
  intros Hc. unfold SendNotificationMessage, conn_Write, notify_trace, notification_bytes. cbn [fst snd].
  destruct (encoded_notification code sub d) as (pkt & ->). rewrite bind_Ok, Hc. unfold act. rewrite bind_Ok.
  destruct (w_write w (length (trace x))); cbn; [by rewrite <- app_assoc | done].
Qed.

Lemma modify_eq g x : modify g x = Ok {| self := g (self x); mgr := mgr x; trace := trace x |}.
Proof. done. Qed.

(** What is left of a session that ended. *)
Record session_over x y : Prop := {
  over_state : State (self y) = NewIdleState;
  over_conn : peerConn (self y) = None /\ connId (self y) = 0 /\ outTCPConn (self y) = None;
  over_timers : holdTimer (self y) = None /\ keepAliveTimer (self y) = None /\ connectRetryTimer (self y) = None;
  over_restart : restartTimer (self y) = Some (restartTime (self x));
  over_mgr : acceptConn (mgr y) = false /\
    (is_established (State (self x)) = true -> activeFSM (mgr y) <> fsm_id (self x));
}.

Lemma enter_Idle x :
  enter conf w NewIdleState x
  = Ok {| self := entered conf w NewIdleState (self x); mgr := set_acceptConn false (mgr x); trace := trace x |}.
Proof. done. Qed.

Lemma finish_drop x f t :
  fsm_id (self x) <> ConnDirInvalid -> close f = false -> State f = State (self x) -> fsm_id f = fsm_id (self x) ->
  restartTime f = restartTime (self x) -> peerConn f = None -> connId f = 0 -> outTCPConn f = None ->
  connectRetryTimer f = None ->
  ends (ChangeState conf w NewIdleState {| self := f; mgr := mgr x; trace := trace x ++ t |})
    (fun y => trace y = trace x ++ t ++ report_trace x /\ session_over x y).
Proof.
  intros Hid Hcl Hs Hi Hrt Hp Hc Ho Hct. unfold ChangeState, ChangeState_with. cbn [self]. rewrite Hcl.
  set (x0 := {| self := f; mgr := _; trace := _ |}).
  assert (Hl : exists f1, leave conf (State f) x0 = Ok {| self := f1; mgr := mgr x; trace := trace x ++ t |} /\
    fsm_id f1 = fsm_id f /\ restartTime f1 = restartTime f /\ peerConn f1 = None /\ connId f1 = 0 /\ outTCPConn f1 = None /\
    connectRetryTimer f1 = None).
  { destruct (State f); cbn [leave]; try (by exists f);
      try (unfold SetHoldTime; destruct (_ || _); [by exists f|]); (eexists; split; [reflexivity | done]). }
  clearbody x0. destruct Hl as (f1 & -> & L1 & L2 & L3 & L4 & L5 & L6). rewrite bind_Ok, modify_eq, bind_Ok.
  rewrite enter_Idle, bind_Ok. cbn [self mgr trace set_State].
  change (is_established (State (entered conf w NewIdleState (set_State NewIdleState f1)))) with false.
  rewrite Hs. cbn [negb]. rewrite !andb_false_r, andb_true_r.
  unfold ConnBroken, fsmBroken, fsmStateChange, report_trace. cbn [self mgr trace activeFSM set_acceptConn].
  change (fsm_id (entered conf w NewIdleState (set_State NewIdleState f1))) with (fsm_id f1). rewrite L1, Hi.
  assert (Hover : forall m t', acceptConn m = false ->
    (is_established (State (self x)) = true -> activeFSM m <> fsm_id (self x)) ->
    session_over x {| self := entered conf w NewIdleState (set_State NewIdleState f1); mgr := m; trace := t' |}).
  { intros m t' Ha Hm. split; cbn; try done. by rewrite L2, Hrt. }
  destruct (is_established (State (self x))) eqn:He; cbn [andb].
  - destruct (activeFSM (mgr x) =? fsm_id (self x)) eqn:Ha; cbn [orb app].
    + apply ends_bind, ends_Ok. cbn [self mgr trace activeFSM set_activeFSM].
      change (fsm_id (entered conf w NewIdleState (set_State NewIdleState f1))) with (fsm_id f1). rewrite L1, Hi.
      rewrite Z.eqb_refl, orb_true_r. apply ends_Ok. split; [cbn; by rewrite <- !app_assoc|].
      apply Hover; [done|]. cbn. congruence.
    + apply ends_bind, ends_Ok. cbn [self mgr trace activeFSM].
      change (fsm_id (entered conf w NewIdleState (set_State NewIdleState f1))) with (fsm_id f1). rewrite L1, Hi.
      cbn [set_acceptConn activeFSM]. rewrite Ha. cbn [orb]. zhyp.
      destruct (_ =? ConnDirInvalid); apply ends_Ok; (split; [cbn; by rewrite <- ?app_assoc, ?app_nil_r|]); by apply Hover.
  - apply ends_bind, ends_Ok. cbn [self mgr trace activeFSM].
    change (fsm_id (entered conf w NewIdleState (set_State NewIdleState f1))) with (fsm_id f1). rewrite L1, Hi.
    cbn [set_acceptConn activeFSM app].
    destruct (_ || _); apply ends_Ok; (split; [cbn; by rewrite <- ?app_assoc, ?app_nil_r|]); by apply Hover.
Qed.

Local Abbreviation drops r x c n :=
  (ends r (fun y => trace y = trace x ++ notify_trace w x c n ++ release_trace x c ++ report_trace x /\ session_over x y)).

Lemma cleared_some f c :
  peerConn f = Some c -> cleared f = set_peerConn None (set_connId 0 (set_holdTimer None (set_keepAliveTimer None f))).
Proof. intros Hc. unfold cleared. by rewrite Hc. Qed.

(** Run the calls up to the change of state; [Hc]: the connection. *)
Local Ltac run_calls Hc :=
  cbn beta; repeat (
    first [ rewrite modify_eq | erewrite traces_SendNotificationMessage by exact Hc
          | erewrite traces_ClearPeerConn by exact Hc | rewrite traces_StopConnToPeer ];
    rewrite bind_Ok; cbn [self mgr trace]);
  erewrite cleared_some by exact Hc.
Local Ltac drop_end t :=
  eapply ends_mono; [apply (finish_drop _ _ t); try done|];
  cbn beta; intros y [Hy Ho]; split; [|exact Ho]; rewrite Hy; by rewrite <- ?app_assoc.

Lemma drop_session_drops x c :
  fsm_id (self x) <> ConnDirInvalid -> close (self x) = false -> peerConn (self x) = Some c ->
  drops (drop_session conf w x) x c None.
Proof.
  intros Hid Hcl Hc. unfold drop_session, StopConnectRetryTimer, IncrConnectRetryCounter. run_calls Hc.
  rewrite <- !app_assoc. drop_end (release_trace x c).
Qed.
Lemma notify_and_drop_drops code sub d x c :
  fsm_id (self x) <> ConnDirInvalid -> close (self x) = false -> peerConn (self x) = Some c ->
  drops (notify_and_drop conf w code sub d x) x c (Some (code, sub, d)).
Proof.
  intros Hid Hcl Hc. unfold notify_and_drop, drop_session, StopConnectRetryTimer, IncrConnectRetryCounter.
  run_calls Hc. rewrite <- !app_assoc. drop_end (notify_trace w x c (Some (code, sub, d)) ++ release_trace x c).
Qed.

Lemma silent_drops x c :
  fsm_id (self x) <> ConnDirInvalid -> close (self x) = false -> peerConn (self x) = Some c ->
  drops ((StopConnectRetryTimer ;; ClearPeerConn ;; StopConnToPeer ;; ChangeState conf w NewIdleState)%fsm x) x c None.
Proof.
  intros Hid Hcl Hc. unfold StopConnectRetryTimer. run_calls Hc.
  rewrite <- !app_assoc. drop_end (release_trace x c).
Qed.

(** [ManualStop], in the two orders of the code. *)
Lemma manual_stop_drops x c :
  fsm_id (self x) <> ConnDirInvalid -> close (self x) = false -> peerConn (self x) = Some c ->
  drops ((SendNotificationMessage w BGPCease 0 [] ;; StopConnectRetryTimer ;; ClearPeerConn ;;
    StopConnToPeer ;; SetConnectRetryCounter 0 ;; ChangeState conf w NewIdleState)%fsm x) x c (Some (BGPCease, 0, [])).
Proof.
  intros Hid Hcl Hc. unfold StopConnectRetryTimer, SetConnectRetryCounter. run_calls Hc.
  rewrite <- !app_assoc. drop_end (notify_trace w x c (Some (BGPCease, 0, [])) ++ release_trace x c).
Qed.
Lemma manual_stop_confirm_drops x c :
  fsm_id (self x) <> ConnDirInvalid -> close (self x) = false -> peerConn (self x) = Some c ->
  drops ((SendNotificationMessage w BGPCease 0 [] ;; ClearPeerConn ;; StopConnToPeer ;;
    StopConnectRetryTimer ;; SetConnectRetryCounter 0 ;; ChangeState conf w NewIdleState)%fsm x) x c (Some (BGPCease, 0, [])).
Proof.
  intros Hid Hcl Hc. unfold StopConnectRetryTimer, SetConnectRetryCounter. run_calls Hc.
  rewrite <- !app_assoc. drop_end (notify_trace w x c (Some (BGPCease, 0, [])) ++ release_trace x c).
Qed.
End teardown.


(** A session of [fsm_conf_example] in Established. *)
Definition established_example : Ctx :=
  match run_inputs fsm_conf_example world_example
          [OutConn 7; PktRx open_example_msg None; PktRx NewBGPKeepAliveMessage None] connect_example with
  | Ok x => x
  | _ => connect_example
  end.


(** ** The timers of a session *)

Section hold_time.
Context (conf : NeighborConf) (w : World) (Hconf : conf_ok conf) (Hw : world_ok w).
Implicit Types (x : Ctx).

(** The only session of its manager accepts every OPEN. *)
Lemma ProcessOpenMessage_accepts m body c x :
  msg_Body m = Some (BOpen body) -> open_received body -> peerConn (self x) = Some c ->
  pc_dir c <> ConnDirInvalid -> fsms (mgr x) = {[fsm_id (self x) := Self]} ->
  exists y, ProcessOpenMessage conf w m x = Ok (true, y) /\ self y = opened conf body (self x).
Proof.
  intros Hb Hm Hc Hd Hf. destruct (ProcessOpenMessage_self conf w m body c x) as (ok & y & Hy & Hs); [done..|].
  exists y. split; [|done]. enough (ok = true) as <- by done.
  unfold ProcessOpenMessage in Hy. rewrite Hb in Hy.
  apply bind_Ok_inv in Hy as (x1 & H1 & Hy). apply bind_Ok_inv in Hy as (x2 & H2 & Hy).
  apply bind_Ok_inv in Hy as (x3 & H3 & Hy).
  assert (F1 : frame x x1).
  { destruct (_ <? _); [by apply framed_SetHoldTime in H1 | by apply framed_skip in H1]. }
  assert (P3 : peerConn (self x3) = Some c).
  { apply modify_self in H3. apply modify_self in H2. rewrite H3. cbn. rewrite H2. cbn.
    destruct (_ <? _); [|by injection H1 as <-]. destruct (does_SetHoldTime (op_HoldTime body) (op_HoldTime body / 3) x) as (x1' & E & Hx1).
    rewrite H1 in E. injection E as <-. rewrite Hx1. unfold hold_set. by destruct (_ || _). }
  apply framed_modify in H2; [|done]. apply framed_modify in H3; [|done].
  assert (F : frame x x3) by (by do 2 (etransitivity; [eassumption|])).
  rewrite P3 in Hy. destruct F as (_ & F1' & F2 & _).
  apply receivedBGPOpenMessage_alone in Hy as [_ ->]; [|apply (only_alone false); left; by rewrite F2, F1'].
  by rewrite (proj2 (Z.eqb_neq _ _)) by congruence.
Qed.

Lemma negotiated_hold_smaller body f :
  op_HoldTime body = 0 \/ 3 <= op_HoldTime body -> op_HoldTime body < holdTime f ->
  negotiated_hold body f = set_keepAliveTime (op_HoldTime body / 3) (set_holdTime (op_HoldTime body) f).
Proof.
  intros Hb Hl. unfold negotiated_hold, hold_set. zif. rewrite Z.gtb_ltb. destruct (_ && _) eqn:Hc; [|done]. exfalso.
  apply andb_true_iff in Hc as [H1 H2]. zhyp. lia.
Qed.

(** The OPEN is accepted and followed. *)
Lemma open_followed m body c x :
  fsm_inv conf (self x) -> State (self x) = OpenSentState -> fsms (mgr x) = {[fsm_id (self x) := Self]} ->
  peerConn (self x) = Some c -> pc_dir c <> ConnDirInvalid -> msg_Body m = Some (BOpen body) -> open_received body ->
  op_HoldTime body = 0 \/ 3 <= op_HoldTime body -> op_HoldTime body < holdTime (self x) ->
  ends (ProcessEvent conf w BGPEventBGPOpen (DMsg m) x) (fun y =>
    State (self y) = OpenConfirmState /\ holdTime (self y) = op_HoldTime body /\
    keepAliveTime (self y) = op_HoldTime body / 3 /\
    holdTimer (self y) = if op_HoldTime body =? 0 then None else Some (op_HoldTime body)).
Proof.
  intros Hinv Hs Hf Hc Hd Hm Hr Hh Hlt. unfold ProcessEvent. rewrite modify_eq, bind_Ok. cbn [self mgr trace set_event State].
  rewrite Hs. cbn [processEvent]. unfold OpenSentState_processEvent, StopConnectRetryTimer. rewrite modify_eq, bind_Ok.
  cbn [self mgr trace]. set (x1 := {| self := _; mgr := _; trace := _ |}).
  destruct (ProcessOpenMessage_accepts m body c x1) as (y & Hy & Hself); [done..|].
  rewrite Hy, bind_Ok. unfold open_accepted. cbn [fst snd]. unfold opened in Hself.
  rewrite negotiated_hold_smaller in Hself by done. subst x1. cbn [self] in Hself. clear Hy.
  pose proof (inv_running _ _ Hinv) as Hcl. clear Hinv.
  destruct (self x) as [s] eqn:Hx. fsm_cbn_in Hs. fsm_cbn_in Hc. fsm_cbn_in Hcl. fsm_cbn_in Hself. subst.
  does_go Hself. rewrite Hself. fsm_cbn. split; [done|]. split; [done|]. split; [done|]. by destruct (_ =? 0).
Qed.

(** A KEEPALIVE in OpenConfirm, and one in Established. *)
Lemma keepalive_establishes k y :
  fsm_inv conf (self y) -> State (self y) = OpenConfirmState ->
  ends (ProcessEvent conf w BGPEventKeepAliveMsg (DMsg k) y) (fun z => fsm_inv conf (self z) /\
    State (self z) = EstablishedState /\ keepAliveTime (self z) = conf_KeepaliveTime conf).
Proof.
  intros Hinv Hs. destruct (ProcessEvent_inv conf w Hconf Hw BGPEventKeepAliveMsg (DMsg k) y Hinv I) as (z & Hz & Hi).
  exists z. split; [done|]. split; [done|].
  enough (ends (ProcessEvent conf w BGPEventKeepAliveMsg (DMsg k) y) (fun z => State (self z) = EstablishedState /\
    keepAliveTime (self z) = conf_KeepaliveTime conf)) as (z' & Hz' & H) by (rewrite Hz in Hz'; by injection Hz' as ->).
  clear z Hz Hi. unfold ProcessEvent. rewrite modify_eq, bind_Ok. cbn [self set_event State].
  rewrite Hs. cbn [processEvent]. unfold OpenConfirmState_processEvent.
  set (y1 := {| self := _; mgr := _; trace := _ |}).
  assert (Hi1 : fsm_inv conf (self y1)) by (by apply inv_field). assert (Hs1 : State (self y1) = OpenConfirmState) by done.
  clearbody y1. clear Hinv Hs. revert Hi1 Hs1. inv_open y1 Hx. subst. destruct Hc as (c & -> & <-).
  does_go Hx. rewrite Hx. by fsm_cbn.
Qed.
Lemma keepalive_rearms k z :
  fsm_inv conf (self z) -> State (self z) = EstablishedState ->
  ends (ProcessEvent conf w BGPEventKeepAliveMsg (DMsg k) z) (fun u =>
    holdTimer (self u) = if conf_HoldTime conf =? 0 then None else Some (conf_HoldTime conf)).
Proof.
  intros Hinv Hs. unfold ProcessEvent. rewrite modify_eq, bind_Ok. cbn [self set_event State].
  rewrite Hs. cbn [processEvent]. unfold EstablishedState_processEvent.
  eapply ends_mono; [apply does_StartHoldTimer|]. cbn beta. intros u ->. cbn. by rewrite (inv_est _ _ Hinv Hs).
Qed.
End hold_time.

(** The hold time. An OPEN with a smaller hold time (0, or at least 3 seconds), accepted in
    OpenSent, is followed: the session keeps the peer's hold time and a third of it as keepalive
    time in OpenConfirm, and its hold timer runs with it. But the KEEPALIVE that establishes the
    session sets both times back to the configured ones: from the next message on the hold timer
    runs with the configured hold time, not the negotiated one. *)
Theorem negotiated_hold_time_lost (conf : NeighborConf) (w : World) (x : Ctx) (c : PeerConn) (m : BGPMessage)
    (body : BGPOpen) (k : BGPMessage) :
  conf_ok conf -> world_ok w -> fsm_inv conf (self x) -> State (self x) = OpenSentState ->
  fsms (mgr x) = {[fsm_id (self x) := Self]} -> peerConn (self x) = Some c -> pc_dir c <> ConnDirInvalid ->
  msg_Body m = Some (BOpen body) -> open_received body ->
  (op_HoldTime body = 0 \/ 3 <= op_HoldTime body) -> op_HoldTime body < holdTime (self x) ->
  exists y z u,
    ProcessEvent conf w BGPEventBGPOpen (DMsg m) x = Ok y /\ State (self y) = OpenConfirmState /\
    holdTime (self y) = op_HoldTime body /\ keepAliveTime (self y) = op_HoldTime body / 3 /\
    holdTimer (self y) = (if op_HoldTime body =? 0 then None else Some (op_HoldTime body)) /\
    ProcessEvent conf w BGPEventKeepAliveMsg (DMsg k) y = Ok z /\ State (self z) = EstablishedState /\
    holdTime (self z) = conf_HoldTime conf /\ keepAliveTime (self z) = conf_KeepaliveTime conf /\
    ProcessEvent conf w BGPEventKeepAliveMsg (DMsg k) z = Ok u /\
    holdTimer (self u) = (if conf_HoldTime conf =? 0 then None else Some (conf_HoldTime conf)).
Proof.
  intros Hconf Hw Hinv Hs Hf Hc Hd Hm Hr Hh Hlt.
  destruct (open_followed conf w Hconf m body c x) as (y & Hy & Y1 & Y2 & Y3 & Y4); [done..|].
  destruct (ProcessEvent_inv conf w Hconf Hw BGPEventBGPOpen (DMsg m) x Hinv) as (y' & Hy' & Hiy); [cbn; eauto|].
  rewrite Hy in Hy'. injection Hy' as <-.
  destruct (keepalive_establishes conf w Hconf Hw k y Hiy Y1) as (z & Hz & Hiz & Z1 & Z2).
  destruct (keepalive_rearms conf w k z Hiz Z1) as (u & Hu & U1).
  exists y, z, u. repeat (split; [done|]). split; [by apply inv_est|]. done.
Qed.

(** A session of [fsm_conf_example] in OpenSent. *)
Definition opensent_example : Ctx :=
  match handle fsm_conf_example world_example (OutConn 7) connect_example with Ok x => x | _ => connect_example end.
Lemma opensent_example_reachable : reachable fsm_conf_example opensent_example.
Proof.
  destruct connect_example_reachable as (x0 & Hs & Hr). exists x0. split; [done|].
  eapply rtc_r; [exact Hr|]. apply (step_handle _ world_example (OutConn 7)); by vm_compute.
Qed.

Lemma negotiated_hold_time_lost_witness :
  exists y z u, ProcessEvent fsm_conf_example world_example BGPEventBGPOpen (DMsg open_example_msg) opensent_example = Ok y /\
    holdTimer (self y) = Some 90 /\
    ProcessEvent fsm_conf_example world_example BGPEventKeepAliveMsg (DMsg NewBGPKeepAliveMessage) y = Ok z /\
    ProcessEvent fsm_conf_example world_example BGPEventKeepAliveMsg (DMsg NewBGPKeepAliveMessage) z = Ok u /\
    holdTimer (self u) = Some 180.
Proof.
  destruct (negotiated_hold_time_lost fsm_conf_example world_example opensent_example {| pc_dir := 0; pc_conn := 7; pc_id := 42 |}
    open_example_msg {| op_Version := 4; op_MyAS := 65002; op_HoldTime := 90; op_BGPId := [10; 0; 0; 2];
                        op_OptParamLen := 0; op_OptParams := [] |} NewBGPKeepAliveMessage)
    as (y & z & u & H1 & _ & _ & _ & H2 & H3 & _ & _ & _ & H4 & H5).
  - exact conf_example_ok.
  - exact world_example_ok.
  - apply reachable_inv; [exact conf_example_ok | exact opensent_example_reachable | vm_compute; reflexivity].
  - vm_compute. reflexivity.
  - vm_compute. reflexivity.
  - vm_compute. reflexivity.
  - discriminate.
  - reflexivity.
  - split; [reflexivity | by exists 2].
  - right. cbn. lia.
  - vm_compute. reflexivity.
  - exists y, z, u. split; [exact H1|]. split; [rewrite H2; reflexivity|]. split; [exact H3|]. split; [exact H4|].
    rewrite H5. reflexivity.
Defined.
