(* ===== verification/BgpReader.v ===== *)
(** The goroutines that read from a peer ([PeerConn.StartReading] and [PeerConn.ReadPkt] of [src/bgp/fsm/conn.go]) and
    the wait of [FSM.ClearPeerConn] for their end ([src/bgp/fsm/fsm.go]): a transition system with the
    channels they share, when the wait ends, and when it does not. *)
From stdpp Require Import base numbers list relations.
From Stdlib Require Import Lia.
From S2P Require Import Prelude.
Open Scope nat_scope.

(** ** The goroutines

    All channels but the two queues are unbuffered: a send and its receive are one step. *)

(** The capacities of [pktRxCh] and [outConnErrCh]. *)
Definition pkt_room : nat := 2.
Definition err_room : nat := 3.

(** [StartReading]: about to send on [readCh], in its select, about to send on [stopReadingCh], on [p.exitCh]; returned. *)
Inductive StartReadingAt := SendRead | AtSelect | SendStop | SendExit | Returned.
(** [ReadPkt]: in its select, reading from the connection, about to send a packet, an error, the result of the
    read ([true]: go on), on [exitCh]; returned. *)
Inductive ReadPktAt := Idling | Reading | SendPkt (ok : bool) | SendErr | SendDone (ok : bool) | Exiting | Gone.
(** The FSM: in its loop, in [ClearPeerConn] before [StopReading] was received, in its wait, after it. *)
Inductive FsmAt := InLoop | Stopping | WaitExit | Cleared.

Record Conn := {
  fsm_at : FsmAt;
  start_at : StartReadingAt;
  read_at : ReadPktAt;
  stopReading : bool;
  readError : bool;
  pktRx : nat;
  outConnErr : nat;
}.

(** The connection as [SetPeerConn] starts it; packets and errors may be left from before. *)
Definition StartedConn (pkts errs : nat) : Conn :=
  {| fsm_at := InLoop; start_at := SendRead; read_at := Idling; stopReading := false; readError := false;
     pktRx := pkts; outConnErr := errs |}.

Definition set_fsm (v : FsmAt) (c : Conn) : Conn :=
  {| fsm_at := v; start_at := start_at c; read_at := read_at c; stopReading := stopReading c; readError := readError c;
     pktRx := pktRx c; outConnErr := outConnErr c |}.
Definition set_ends (s : StartReadingAt) (r : ReadPktAt) (c : Conn) : Conn :=
  {| fsm_at := fsm_at c; start_at := s; read_at := r; stopReading := stopReading c; readError := readError c;
     pktRx := pktRx c; outConnErr := outConnErr c |}.
Definition set_flags (stop err : bool) (c : Conn) : Conn :=
  {| fsm_at := fsm_at c; start_at := start_at c; read_at := read_at c; stopReading := stop; readError := err;
     pktRx := pktRx c; outConnErr := outConnErr c |}.
Definition set_queues (pkts errs : nat) (c : Conn) : Conn :=
  {| fsm_at := fsm_at c; start_at := start_at c; read_at := read_at c; stopReading := stopReading c;
     readError := readError c; pktRx := pkts; outConnErr := errs |}.

(** [case readOk := <-doneReadingCh]. *)
Definition done_reading (ok : bool) (c : Conn) : Conn :=
  if stopReading c then set_ends SendStop Idling c
  else if ok then set_ends SendRead Idling c
  else set_ends AtSelect Idling (set_flags false true c).
(** [case <-p.stopCh]. *)
Definition stop_received (c : Conn) : Conn :=
  set_ends (if readError c then SendStop else AtSelect) (read_at c) (set_flags true (readError c) c).

(** The steps of the goroutines of the connection. A read ends, by its deadline if by nothing else: with the deadline,
    an error, a packet (or a header that is wrong) after which reading goes on or not. *)
Inductive reader_step : Conn -> Conn -> Prop :=
  | read_asked c : start_at c = SendRead -> read_at c = Idling -> reader_step c (set_ends AtSelect Reading c)
  | read_deadline c : read_at c = Reading -> reader_step c (set_ends (start_at c) (SendDone true) c)
  | read_failed c : read_at c = Reading -> reader_step c (set_ends (start_at c) SendErr c)
  | read_packet c ok : read_at c = Reading -> reader_step c (set_ends (start_at c) (SendPkt ok) c)
  | packet_sent c ok : read_at c = SendPkt ok -> pktRx c < pkt_room ->
      reader_step c (set_queues (S (pktRx c)) (outConnErr c) (set_ends (start_at c) (SendDone ok) c))
  | error_sent c : read_at c = SendErr -> outConnErr c < err_room ->
      reader_step c (set_queues (pktRx c) (S (outConnErr c)) (set_ends (start_at c) (SendDone false) c))
  | read_done c ok : read_at c = SendDone ok -> start_at c = AtSelect -> reader_step c (done_reading ok c)
  | stop_asked c : fsm_at c = Stopping -> start_at c = AtSelect -> reader_step c (set_fsm WaitExit (stop_received c))
  | stop_sent c : start_at c = SendStop -> read_at c = Idling -> reader_step c (set_ends AtSelect Exiting c)
  | exit_sent c : start_at c = AtSelect -> read_at c = Exiting -> reader_step c (set_ends SendExit Gone c)
  | exited c : start_at c = SendExit -> fsm_at c = WaitExit -> reader_step c (set_fsm Cleared (set_ends Returned (read_at c) c)).
(** Those of the FSM in its loop: it takes from the queues, or calls [ClearPeerConn]. *)
Inductive loop_step : Conn -> Conn -> Prop :=
  | take_packet c n : fsm_at c = InLoop -> pktRx c = S n -> loop_step c (set_queues n (outConnErr c) c)
  | take_error c n : fsm_at c = InLoop -> outConnErr c = S n -> loop_step c (set_queues (pktRx c) n c)
  | clear c : fsm_at c = InLoop -> loop_step c (set_fsm Stopping c).
Definition conn_step (c d : Conn) : Prop := reader_step c d \/ loop_step c d.
Definition conn_reachable (c : Conn) : Prop := exists pkts errs, rtc conn_step (StartedConn pkts errs) c.

(** ** What holds in every state *)

Definition ends_ok (c : Conn) : Prop :=
  match start_at c, read_at c with
  | SendRead, Idling => stopReading c = false /\ readError c = false
  | AtSelect, (Reading | SendPkt _ | SendErr | SendDone _) => readError c = false
  | AtSelect, Idling => stopReading c = false /\ readError c = true
  | AtSelect, Exiting | SendStop, Idling | SendExit, Gone | Returned, Gone => stopReading c = true
  | _, _ => False
  end.
Record conn_ok (c : Conn) : Prop := {
  conn_ends : ends_ok c;
  conn_stop : stopReading c = true <-> fsm_at c = WaitExit \/ fsm_at c = Cleared;
  conn_over : fsm_at c = Cleared <-> start_at c = Returned;
}.

Lemma conn_ok_step c d : conn_step c d -> conn_ok c -> conn_ok d.
Proof.
  intros H [He Hs Ho]. destruct H as [H|H]; inversion H; subst; clear H; destruct c as [f s r st er p q];
    unfold ends_ok in *; cbn in *; simplify_eq; (split; unfold ends_ok, done_reading, stop_received in *; cbn in *);
    repeat case_match; cbn in *; simplify_eq; naive_solver.
Qed.
Lemma conn_reachable_ok c : conn_reachable c -> conn_ok c.
Proof.
  intros (p & q & H). assert (Hn : conn_ok (StartedConn p q)) by (split; cbn; naive_solver).
  induction H as [|c d e Hs _ IH]; [done|]. by eapply IH, conn_ok_step.
Qed.

(** ** The wait of [ClearPeerConn] *)

(** A packet or an error is held up by a full queue. *)
Definition held_up (c : Conn) : Prop :=
  (exists ok, read_at c = SendPkt ok) /\ pkt_room <= pktRx c \/ read_at c = SendErr /\ err_room <= outConnErr c.

(** An FSM in [ClearPeerConn] waits for something that can go on, unless a queue it does not read then is full. *)
Lemma clear_goes_on c : conn_reachable c -> fsm_at c = Stopping \/ fsm_at c = WaitExit -> held_up c \/ exists d, reader_step c d.
Proof.
  intros [He Hs Ho]%conn_reachable_ok Hf. unfold held_up.
  destruct (read_at c) eqn:Hr; unfold ends_ok in He; rewrite Hr in He; destruct (start_at c) eqn:Hst; try done.
  - right. eexists. by apply read_asked.
  - right. destruct Hf as [Hf|Hf]; [eexists; by apply stop_asked|]. destruct He as [He _]. pose proof (proj2 Hs (or_introl Hf)). congruence.
  - right. eexists. by apply stop_sent.
  - right. eexists. by apply read_deadline.
  - destruct (decide (pktRx c < pkt_room)); [right; eexists; by eapply packet_sent|]. left. left. split; [by eexists | lia].
  - destruct (decide (outConnErr c < err_room)); [right; eexists; by apply error_sent|]. left. right. split; [done | lia].
  - right. eexists. by eapply read_done.
  - right. eexists. by apply exit_sent.
  - destruct Hf as [Hf|Hf]; [destruct (proj1 Hs He); congruence|]. right. eexists. by apply exited.
  - pose proof (proj2 Ho eq_refl). destruct Hf; congruence.
Qed.

(** Once [StopReading] was received, at most six steps are left. *)
Definition steps_left (c : Conn) : nat :=
  match start_at c, read_at c with
  | AtSelect, Reading => 6
  | AtSelect, (SendPkt _ | SendErr) => 5
  | AtSelect, SendDone _ => 4
  | SendStop, _ => 3
  | AtSelect, Exiting => 2
  | SendExit, _ => 1
  | _, _ => 0
  end.
Lemma stopping_ends c d : conn_ok c -> fsm_at c = WaitExit -> reader_step c d -> steps_left d < steps_left c.
Proof.
  intros [He Hs Ho] Hf H. assert (Hst : stopReading c = true) by naive_solver.
  inversion H; subst; clear H; destruct c as [f s r st er p q]; unfold ends_ok, steps_left, done_reading in *; cbn in *;
    simplify_eq; repeat case_match; simplify_eq; cbn in *; try lia; naive_solver.
Qed.

(** There is room for what is read last. *)
Definition has_room (c : Conn) : Prop :=
  (read_at c = Reading \/ (exists ok, read_at c = SendPkt ok) -> pktRx c < pkt_room) /\
  (read_at c = Reading \/ read_at c = SendErr -> outConnErr c < err_room).
Lemma room_stays c d : conn_ok c -> fsm_at c = WaitExit -> reader_step c d -> has_room c ->
  has_room d /\ (fsm_at d = WaitExit \/ fsm_at d = Cleared).
Proof.
  intros [He Hs Ho] Hf H [Hp Hq]. assert (Hst : stopReading c = true) by naive_solver. unfold has_room.
  inversion H; subst; clear H; destruct c as [f s r st er p q]; unfold ends_ok, done_reading in *; cbn in *;
    simplify_eq; cbn; naive_solver.
Qed.

(** [ClearPeerConn] ends: when [StopReading] was received and the queues have room for what is being read, every run of
    the goroutines of the connection, however they are scheduled, comes to the end of the wait. *)
Theorem clear_ends c d : conn_reachable c -> fsm_at c = WaitExit -> has_room c -> rtc reader_step c d ->
  exists e, rtc reader_step d e /\ fsm_at e = Cleared.
Proof.
  intros Hc Hf Hr Hd.
  assert (H : conn_reachable d /\ has_room d /\ (fsm_at d = WaitExit \/ fsm_at d = Cleared)).
  { revert Hc Hf Hr. induction Hd as [c|c d e Hs Hd IH]; intros Hc Hf Hr; [by auto|].
    destruct (room_stays c d) as [Hr' Hf']; [by apply conn_reachable_ok | done..|].
    assert (Hrd : conn_reachable d).
    { destruct Hc as (p & q & Hc). exists p, q. eapply rtc_r; [exact Hc | by left]. }
    destruct Hf' as [Hf'|Hf']; [by apply IH|]. enough (d = e) as <- by auto.
    destruct Hd as [|d d' e Hs' _]; [done|]. exfalso. apply conn_reachable_ok in Hrd as [He _ Ho].
    assert (Hst : start_at d = Returned) by naive_solver. unfold ends_ok in He. rewrite Hst in He.
    destruct (read_at d) eqn:Hrd'; try done. inversion Hs'; subst; congruence. }
  clear c Hc Hf Hr Hd. destruct H as (Hc & Hr & Hf). remember (steps_left d) as n eqn:Hn. revert d Hn Hc Hr Hf.
  induction (lt_wf n) as [n _ IH]. intros d -> Hc Hr [Hf|Hf]; [|by exists d].
  destruct (clear_goes_on d Hc (or_intror Hf)) as [Hh|[e He]].
  { exfalso. destruct Hr as [Hp Hq]. destruct Hh as [[[ok Ho] Hh]|[Ho Hh]].
    - specialize (Hp (or_intror (ex_intro _ ok Ho))). lia.
    - specialize (Hq (or_intror Ho)). lia. }
  destruct (room_stays d e) as [Hr' Hf']; [by apply conn_reachable_ok | done..|].
  destruct (IH (steps_left e)) with (d := e) as (x & Hx & Hfx); [by apply stopping_ends, He; [apply conn_reachable_ok|] | done | | done..|].
  { destruct Hc as (p & q & Hc). exists p, q. eapply rtc_r; [exact Hc | by left]. }
  exists x. split; [by eapply rtc_l | done].
Qed.

(** It does not end when the peer sends three packets while the FSM is in the handler that calls it: the queue is full,
    the reader holds the third packet, and nothing can happen any more. *)
Definition stuck_conn : Conn :=
  {| fsm_at := WaitExit; start_at := AtSelect; read_at := SendPkt true; stopReading := true; readError := false;
     pktRx := 2; outConnErr := 0 |}.
Theorem clear_deadlocks : conn_reachable stuck_conn /\ forall d, ~ conn_step stuck_conn d.
Proof.
  split; [|by intros d [H|H]; inversion H; subst; cbn in *; try discriminate; unfold pkt_room in *; lia].
  exists 0, 0. set (c := StartedConn 0 0).
  assert (Hread : forall n (f : FsmAt), n < 2 -> rtc conn_step (set_queues n 0 (set_fsm f c)) (set_queues (S n) 0 (set_fsm f c))).
  { intros n f Hn. eapply rtc_l; [left; by apply read_asked|]. eapply rtc_l; [left; by apply (read_packet _ true)|].
    eapply rtc_l; [left; by eapply packet_sent|]. eapply rtc_l; [left; by eapply read_done|]. done. }
  eapply rtc_l; [right; by apply clear|]. etransitivity; [apply (Hread 0 Stopping); lia|].
  etransitivity; [apply (Hread 1 Stopping); lia|]. eapply rtc_l; [left; by apply read_asked|].
  eapply rtc_l; [left; by apply (read_packet _ true)|]. eapply rtc_l; [left; by apply stop_asked|]. done.
Qed.
