(* ===== verification/VrrpPkt.v ===== *)
(** The VRRP packet ([src/vrrp/server/vrrpdProtocolRx.go], [vrrpdProtocolTx.go]) and the data of
    [vrrpdGlobal.go]: the header, its checksum, how it is encoded, decoded and checked, and the
    advertisement a virtual router sends. *)
From stdpp Require Import base numbers list gmap strings pretty.
From Stdlib Require Import ZArith Lia.
From S2P Require Import Prelude GoNet.
Open Scope Z_scope.

Definition VRRP_GROUP_IP : string := "224.0.0.18".
Definition VRRP_PROTOCOL_MAC : string := "01:00:5e:00:00:12".
Definition VRRP_PROTO_ID : Z := 112.
Definition VRRP_TTL : Z := 255.
Definition VRRP_VERSION2 : Z := 2.
Definition VRRP_VERSION3 : Z := 3.
Definition VRRP_PKT_TYPE_ADVERTISEMENT : Z := 1.
Definition VRRP_RSVD : Z := 0.
Definition VRRP_HDR_CREATE_CHECKSUM : Z := 0.
Definition VRRP_HEADER_SIZE_EXCLUDING_IPVX : Z := 8.
Definition VRRP_IPV4_HEADER_MIN_SIZE : Z := 20.
Definition VRRP_HEADER_MIN_SIZE : Z := 20.
Definition VRRP_MASTER_PRIORITY : Z := 255.
Definition VRRP_IGNORE_PRIORITY : Z := 65535.
Definition VRRP_MASTER_DOWN_PRIORITY : Z := 0.
Definition VRRP_IEEE_MAC_ADDR : string := "00-00-5E-00-01-".
Definition VRRP_UNINTIALIZE_STATE : string := "Un-Initialize".
Definition VRRP_INITIALIZE_STATE : string := "Initialize".
Definition VRRP_BACKUP_STATE : string := "Backup".
Definition VRRP_MASTER_STATE : string := "Master".

Record VrrpPktHeader := {
  Version : Z;
  Type_ : Z;
  VirtualRtrId : Z;
  vh_Priority : Z;
  CountIPv4Addr : Z;
  Rsvd : Z;
  MaxAdverInt : Z;
  CheckSum : Z;
  IPv4Addr : list bytes;
}.

(** The errors of [VrrpCheckHeader]. *)
Inductive vrrp_error :=
  | VRRP_INCORRECT_VERSION
  | VRRP_CHECKSUM_ERR
  | VRRP_INCORRECT_FIELDS
  | VRRP_SAME_OWNER
  | VRRP_MISSING_VRID_CONFIG.
#[export] Instance vrrp_error_eq_dec : EqDecision vrrp_error.
Proof. solve_decision. Defined.
Abbreviation vresult := (outcome vrrp_error).

(** The configuration of a virtual router (a thrift object: what the daemon reads of it). *)
Record VrrpIntf := {
  IfIndex : Z;
  VRID : Z;
  Priority : Z;
  VirtualIPv4Addr : string;
  AdvertisementInterval : Z;
  PreemptMode : bool;
  AcceptMode : bool;
}.

Record VrrpGlobalStateInfo := {
  AdverRx : Z;
  AdverTx : Z;
  MasterIp : string;
  LastAdverRx : string;
  LastAdverTx : string;
  PreviousFsmState : string;
  CurrentFsmState : string;
  ReasonForTransition : string;
}.

(** [g_locks]: the four pointers to locks are set (they are set together). A timer is the number
    of the object [time.AfterFunc] returned; [g_pHandle]: there is a pcap handle. *)
Record VrrpGlobalInfo := {
  g_IntfConfig : VrrpIntf;
  g_VirtualRouterMACAddress : string;
  g_MasterAdverInterval : Z;
  g_SkewTime : Z;
  g_MasterDownValue : Z;
  g_MasterDownTimer : option nat;
  g_AdverTimer : option nat;
  g_IpAddr : string;
  g_pHandle : bool;
  g_StateName : string;
  g_StateInfo : VrrpGlobalStateInfo;
  g_locks : bool;
}.

(** ** Receiving *)

Fixpoint decode_addrs (n : nat) (buf : bytes) (baseIpByte : Z) : vresult (list bytes) :=
  match n with
  | O => Ok []
  | S n => ip ← slice buf baseIpByte (baseIpByte + 4);
           ips ← decode_addrs n buf (baseIpByte + 4);
           Ok (ip :: ips)
  end.

(** [data] and what its array holds behind it: a slice expression is bounded by the capacity. *)
Definition VrrpDecodeHeader (data spare : bytes) : vresult VrrpPktHeader :=
  let buf := data ++ spare in
  b0 ← sget data 0;
  b1 ← sget data 1;
  b2 ← sget data 2;
  b3 ← sget data 3;
  s ← slice buf 4 6;
  rsvdAdver ← Uint16 s;
  s ← slice buf 6 8;
  c ← Uint16 s;
  ips ← decode_addrs (Z.to_nat b3) buf 8;
  Ok {| Version := Z.shiftr b0 4; Type_ := Z.land b0 15; VirtualRtrId := b1; vh_Priority := b2;
        CountIPv4Addr := b3; Rsvd := u8 (Z.shiftr rsvdAdver 13); MaxAdverInt := Z.land rsvdAdver 8191;
        CheckSum := c; IPv4Addr := ips |}.

(** The sum of the 16-bit words; an odd length ends in an index out of range. *)
Fixpoint sum_words (content : bytes) (csum : Z) : vresult Z :=
  match content with
  | [] => Ok csum
  | [_] => Panic
  | a :: b :: content => sum_words content (u32 (u32 (csum + u32 (Z.shiftl a 8)) + b))
  end.

Definition VrrpComputeChecksum (version : Z) (content : bytes) : vresult Z :=
  if version =? VRRP_VERSION2 then
    csum ← sum_words content 0;
    Ok (Z.lxor (u16 (u32 (Z.shiftr csum 16 + csum))) 65535)
  else if version =? VRRP_VERSION3 then Ok 0
  else Ok 0.

(** One of the advertised addresses is the address of the interface. *)
Fixpoint same_owner (n : nat) (ips : list bytes) (addr : string) : vresult unit :=
  match n with
  | O => Ok tt
  | S n => match ips with
           | [] => Panic
           | ip :: ips => if bool_decide (addr = ip_String ip) then Err VRRP_SAME_OWNER else same_owner n ips addr
           end
  end.

(** [gblInfo] is the entry of the virtual router, the zero value when there is none. *)
Definition VrrpCheckHeader (gblInfo : VrrpGlobalInfo) (hdr : VrrpPktHeader) (layerContent spare : bytes)
  : vresult unit :=
  if negb (Version hdr =? VRRP_VERSION2) && negb (Version hdr =? VRRP_VERSION3) then Err VRRP_INCORRECT_VERSION
  else
    _ ← slice (layerContent ++ spare) 6 8;
    let layerContent := take (length layerContent) (blit (layerContent ++ spare) 6 (be16 0)) in
    chksum ← VrrpComputeChecksum (Version hdr) layerContent;
    if negb (chksum =? CheckSum hdr) then Err VRRP_CHECKSUM_ERR
    else if (CountIPv4Addr hdr =? 0) || (MaxAdverInt hdr =? 0) || (Type_ hdr =? 0) then Err VRRP_INCORRECT_FIELDS
    else
      _ ← (if bool_decide (VirtualIPv4Addr (g_IntfConfig gblInfo) = "")
           then same_owner (Z.to_nat (CountIPv4Addr hdr)) (IPv4Addr hdr) (g_IpAddr gblInfo)
           else Ok tt);
      if VRID (g_IntfConfig gblInfo) =? 0 then Err VRRP_MISSING_VRID_CONFIG else Ok tt.

(** ** Sending *)

Fixpoint encode_addrs (n : nat) (ips : list bytes) (buf : bytes) (baseIpByte : Z) : vresult bytes :=
  match n with
  | O => Ok buf
  | S n =>
    _ ← slice buf baseIpByte (baseIpByte + 4);
    match ips with
    | [] => Panic
    | ip :: ips =>
      buf ← gocopy buf baseIpByte (default [] (To4 ip));
      encode_addrs n ips buf (baseIpByte + 4)
    end
  end.

(** The length is computed in 8 bits. *)
Definition VrrpEncodeHeader (hdr : VrrpPktHeader) : vresult (bytes * Z) :=
  let pktLen := u8 (VRRP_HEADER_SIZE_EXCLUDING_IPVX + u8 (CountIPv4Addr hdr * 4)) in
  let pktLen := if pktLen <? VRRP_HEADER_MIN_SIZE then VRRP_HEADER_MIN_SIZE else pktLen in
  let buf := make pktLen in
  buf ← sset buf 0 (Z.lor (u8 (Z.shiftl (Version hdr) 4)) (Type_ hdr));
  buf ← sset buf 1 (VirtualRtrId hdr);
  buf ← sset buf 2 (vh_Priority hdr);
  buf ← sset buf 3 (CountIPv4Addr hdr);
  let rsvdAdver := Z.lor (u16 (Z.shiftl (Rsvd hdr) 13)) (MaxAdverInt hdr) in
  buf ← PutUint16 buf 4 rsvdAdver;
  buf ← PutUint16 buf 6 (CheckSum hdr);
  buf ← encode_addrs (Z.to_nat (CountIPv4Addr hdr)) (IPv4Addr hdr) buf 8;
  c ← VrrpComputeChecksum (Version hdr) buf;
  buf ← PutUint16 buf 6 c;
  Ok (buf, pktLen).

(** The address advertised: that of the interface when no virtual address is configured. *)
Definition advertised_ip (gblInfo : VrrpGlobalInfo) : option bytes :=
  if bool_decide (VirtualIPv4Addr (g_IntfConfig gblInfo) = "")
  then fst <$> ParseCIDR (g_IpAddr gblInfo)
  else ParseIP (VirtualIPv4Addr (g_IntfConfig gblInfo)).

Definition vrrp_header (gblInfo : VrrpGlobalInfo) : VrrpPktHeader :=
  {| Version := VRRP_VERSION2; Type_ := VRRP_PKT_TYPE_ADVERTISEMENT;
     VirtualRtrId := u8 (VRID (g_IntfConfig gblInfo)); vh_Priority := u8 (Priority (g_IntfConfig gblInfo));
     CountIPv4Addr := 1; Rsvd := VRRP_RSVD;
     MaxAdverInt := u16 (AdvertisementInterval (g_IntfConfig gblInfo)); CheckSum := VRRP_HDR_CREATE_CHECKSUM;
     IPv4Addr := [default [] (advertised_ip gblInfo)] |}.
Definition VrrpCreateVrrpHeader (gblInfo : VrrpGlobalInfo) : vresult (bytes * Z) :=
  VrrpEncodeHeader (vrrp_header gblInfo).

(** The layers handed to the packet library; [None] is a [nil] address. *)
Record VrrpTxPkt := {
  tx_SrcMAC : option bytes;
  tx_DstMAC : option bytes;
  tx_Protocol : Z;
  tx_Length : Z;
  tx_TTL : Z;
  tx_SrcIP : option bytes;
  tx_DstIP : option bytes;
  tx_payload : bytes;
}.
Definition VrrpCreateSendPkt (gblInfo : VrrpGlobalInfo) (vrrpEncHdr : bytes) (hdrLen : Z) : VrrpTxPkt :=
  {| tx_SrcMAC := ParseMAC (g_VirtualRouterMACAddress gblInfo); tx_DstMAC := ParseMAC VRRP_PROTOCOL_MAC;
     tx_Protocol := VRRP_PROTO_ID; tx_Length := u16 (VRRP_IPV4_HEADER_MIN_SIZE + hdrLen);
     tx_TTL := VRRP_TTL; tx_SrcIP := fst <$> ParseCIDR (g_IpAddr gblInfo); tx_DstIP := ParseIP VRRP_GROUP_IP;
     tx_payload := vrrpEncHdr |}.

(** The address [VrrpCreateGblInfo] gives to a virtual router. *)
Definition virtual_mac (vrid : Z) : string :=
  if vrid <? 10 then VRRP_IEEE_MAC_ADDR +:+ "0" +:+ pretty vrid else VRRP_IEEE_MAC_ADDR +:+ pretty vrid.

(** ** Examples: the packet of the tests *)

Definition test_header : VrrpPktHeader :=
  {| Version := 2; Type_ := 1; VirtualRtrId := 1; vh_Priority := 100; CountIPv4Addr := 1; Rsvd := 0;
     MaxAdverInt := 1; CheckSum := 0; IPv4Addr := [IPv4 192 168 0 1] |}.
Definition test_bytes : bytes := [33; 1; 100; 1; 0; 1; 186; 82; 192; 168; 0; 1; 0; 0; 0; 0; 0; 0; 0; 0].
Example encode_test : VrrpEncodeHeader test_header = Ok (test_bytes, 20).
Proof. reflexivity. Qed.
Example decode_test :
  VrrpDecodeHeader test_bytes [] =
  Ok {| Version := 2; Type_ := 1; VirtualRtrId := 1; vh_Priority := 100; CountIPv4Addr := 1; Rsvd := 0;
        MaxAdverInt := 1; CheckSum := 47698; IPv4Addr := [[192; 168; 0; 1]] |}.
Proof. reflexivity. Qed.
