(* ===== verification/VrrpPktFacts.v ===== *)
(** What the VRRP packet code does: which bytes decode, the checksum against the internet checksum,
    round trip, and an advertisement from one router to another. *)
From stdpp Require Import base numbers list gmap strings pretty.
From Stdlib Require Import ZArith Lia.
From S2P Require Import Prelude GoNet VrrpPkt.
Open Scope Z_scope.

(** ** Decoding *)

Lemma decode_addrs_app qs : forall pre post,
  Forall (fun q => len q = 4) qs ->
  decode_addrs (length qs) (pre ++ concat qs ++ post) (len pre) = Ok qs.
Proof.
  induction qs as [|q qs IH]; intros pre post Hq; cbn; [done|].
  apply Forall_cons in Hq as [H4 Hq]. rewrite <- !app_assoc.
  rewrite (slice_app pre q) by lia. cbn.
  rewrite (app_assoc pre q). replace (len pre + 4) with (len (pre ++ q)) by (lens; lia).
  by rewrite IH.
Qed.

Lemma decode_addrs_ok n : forall buf base,
  0 <= base -> base + 4 * Z.of_nat n <= len buf -> exists ips, decode_addrs n buf base = Ok ips.
Proof.
  induction n as [|n IH]; intros buf base H0 H; cbn; [eauto|].
  assert (Hs : exists s, slice (E := vrrp_error) buf base (base + 4) = Ok s).
  { unfold slice, len in *. zif. eauto. }
  destruct Hs as (s & ->). cbn. destruct (IH buf (base + 4)) as (ips & ->); [lia..|]. cbn. eauto.
Qed.

Lemma decode_addrs_panic n : forall buf base,
  0 <= base -> 0 < Z.of_nat n -> len buf < base + 4 * Z.of_nat n -> decode_addrs n buf base = Panic.
Proof.
  induction n as [|n IH]; intros buf base H0 Hn H; cbn; [lia|].
  destruct (Z.le_gt_cases (base + 4) (len buf)).
  - assert (Hs : exists s, slice (E := vrrp_error) buf base (base + 4) = Ok s).
    { unfold slice, len in *. zif. eauto. }
    destruct Hs as (s & ->). cbn. by rewrite IH by lia.
  - assert (Hs : slice (E := vrrp_error) buf base (base + 4) = Panic).
    { unfold slice, len in *. zif. done. }
    by rewrite Hs.
Qed.

(** The header decoder accepts a payload exactly when the four fixed bytes are there and the array behind
    the payload is long enough for the fields and for as many addresses as the count announces;
    on anything else it panics: no length is checked before it runs. *)
Theorem vrrp_decode_total b0 b1 b2 b3 data spare :
  0 <= b3 ->
  (forall k, (k < 4)%nat -> VrrpDecodeHeader (take k (b0 :: b1 :: b2 :: b3 :: data)) [] = Panic) /\
  (8 + 4 * b3 <= 4 + len data + len spare ->
   exists h, VrrpDecodeHeader (b0 :: b1 :: b2 :: b3 :: data) spare = Ok h /\ CountIPv4Addr h = b3) /\
  (4 + len data + len spare < 8 + 4 * b3 -> VrrpDecodeHeader (b0 :: b1 :: b2 :: b3 :: data) spare = Panic).
Proof.
  intros H3. split; [|split].
  - intros k Hk. do 4 (destruct k as [|k]; [reflexivity|]). lia.
  - intros H. unfold VrrpDecodeHeader. cbn [app]. gocbn.
    destruct (decode_addrs_ok (Z.to_nat b3) (b0 :: b1 :: b2 :: b3 :: data ++ spare) 8) as (ips & Hips);
      [lia | lens; lia |].
    destruct (data ++ spare) as [|c0 [|c1 [|c2 [|c3 rest]]]] eqn:Hd;
      try (apply (f_equal len) in Hd; revert Hd; lens; intros; lia).
    cbn. rewrite Hips. cbn. eauto.
  - intros H. unfold VrrpDecodeHeader. cbn [app]. gocbn.
    assert (Hl : len (data ++ spare) = len data + len spare) by (by lens).
    destruct (data ++ spare) as [|c0 [|c1 [|c2 [|c3 rest]]]] eqn:Hd; try reflexivity.
    cbn. rewrite decode_addrs_panic; [done | lia | | rewrite <- Hd in *; revert Hl; lens; lia].
    revert Hl. lens. pose proof (len_nonneg rest). lia.
Qed.

(** ** The checksum *)

Fixpoint words (content : bytes) : list Z :=
  match content with
  | a :: b :: content => (a * 256 + b) :: words content
  | _ => []
  end.
Definition word_sum (content : bytes) : Z := foldr Z.add 0 (words content).

(** RFC 1071: the complement of the one's complement sum of the 16-bit words. *)
Definition ones_add (a b : Z) : Z := if a + b <? 65536 then a + b else a + b - 65535.
Definition ones_sum (l : list Z) : Z := foldr ones_add 0 l.
Definition inet_checksum (content : bytes) : Z := 65535 - ones_sum (words content).

(** Induction on the 16-bit words of an even number of bytes. *)
Lemma words_ind (P : bytes -> Prop) :
  P [] -> (forall a b l, is_u8 a -> is_u8 b -> bytes_ok l -> len l mod 2 = 0 -> P l -> P (a :: b :: l)) ->
  forall l, bytes_ok l -> len l mod 2 = 0 -> P l.
Proof.
  intros Hn Hc. fix self 1. intros [|a [|b l]] Hok Hl; [done | by revert Hl; lens |].
  apply Forall_cons in Hok as [Ha Hok]. apply Forall_cons in Hok as [Hb Hok].
  assert (Hl' : len l mod 2 = 0) by (revert Hl; lens; intros; Z.div_mod_to_equations; lia).
  apply Hc; auto.
Qed.

Lemma word_sum_bounds l : bytes_ok l -> len l mod 2 = 0 -> 0 <= word_sum l <= 65535 * (len l / 2).
Proof.
  revert l. apply words_ind; [vm_compute; by split|]. intros a b l Ha Hb Hok Hl IH.
  unfold word_sum in *. cbn. lens. unfold is_u8 in *. Z.div_mod_to_equations. lia.
Qed.

Lemma sum_words_ok l : bytes_ok l -> len l mod 2 = 0 -> len l <= 65536 -> forall s,
  0 <= s -> s + word_sum l < 4294967296 -> sum_words l s = Ok (s + word_sum l).
Proof.
  revert l. apply (words_ind (fun l => len l <= 65536 -> forall s, 0 <= s -> s + word_sum l < 4294967296 ->
    sum_words l s = Ok (s + word_sum l))).
  - intros _ s Hs _. cbn. f_equal. unfold word_sum. cbn. lia.
  - intros a b l Ha Hb Hok Hl IH Hlen s Hs Hsum. revert Hlen. lens. intros Hlen. pose proof (word_sum_bounds l Hok Hl).
    unfold word_sum in Hsum. cbn in Hsum. fold (word_sum l) in Hsum.
    unfold is_u8 in *. cbn [sum_words]. rewrite Z.shiftl_mul_pow2 by lia. change (2 ^ 8) with 256.
    rewrite (u32_id (a * 256)) by (unfold is_u32; lia). rewrite (u32_id (s + _)) by (unfold is_u32; lia).
    rewrite u32_id by (unfold is_u32; lia). rewrite IH by lia. unfold word_sum. cbn. f_equal. lia.
Qed.

Lemma lxor_65535 x : is_u16 x -> Z.lxor x 65535 = 65535 - x.
Proof.
  intros H. unfold is_u16 in H.
  assert (Hs : Z.lxor x 65535 + x = 65535).
  { rewrite <- Z.lxor_nilpotent with (a := 0), Z.lxor_0_r in *.
    rewrite Z.add_nocarry_lxor.
    - rewrite (Z.lxor_comm x), Z.lxor_assoc, Z.lxor_nilpotent. apply Z.lxor_0_r.
    - apply Z.bits_inj'. intros n Hn. rewrite Z.land_spec, Z.lxor_spec, Z.bits_0.
      destruct (Z.le_gt_cases 16 n).
      + rewrite (Z.bits_above_log2 x n); [by rewrite andb_false_r | lia |].
        destruct (decide (x = 0)) as [->|]; [cbn; lia|].
        apply Z.log2_lt_pow2; [lia|]. apply Z.lt_le_trans with (2 ^ 16); [lia|]. apply Z.pow_le_mono_r; lia.
      + change 65535 with (Z.ones 16). rewrite Z.ones_spec_low by lia. by destruct (Z.testbit x n). }
  lia.
Qed.

(** One fold of the carries, the way the code does it. *)
Definition fold_once (s : Z) : Z := s mod 65536 + s / 65536.

Lemma checksum_value l :
  bytes_ok l -> len l mod 2 = 0 -> len l <= 65536 ->
  VrrpComputeChecksum VRRP_VERSION2 l = Ok (65535 - u16 (fold_once (word_sum l))).
Proof.
  intros Hok Hl Hlen. pose proof (word_sum_bounds l Hok Hl) as Hb.
  assert (word_sum l < 4294901761) by (revert Hb; Z.div_mod_to_equations; lia).
  unfold VrrpComputeChecksum. rewrite Z.eqb_refl, sum_words_ok by (done || lia). cbn.
  rewrite lxor_65535 by apply u16_range. rewrite Z.shiftr_div_pow2 by lia. change (2 ^ 16) with 65536.
  do 2 f_equal. unfold u32, u16, fold_once. rewrite Z.add_0_l.
  generalize dependent (word_sum l). intros s Hb Hs. Z.div_mod_to_equations. lia.
Qed.

Lemma ones_sum_value l : bytes_ok l -> len l mod 2 = 0 ->
  ones_sum (words l) = if word_sum l =? 0 then 0 else (word_sum l - 1) mod 65535 + 1.
Proof.
  revert l. apply words_ind; [done|]. intros a b l Ha Hb Hok Hl IH.
  pose proof (word_sum_bounds l Hok Hl) as Hs. unfold word_sum, ones_sum in *. cbn. rewrite IH.
  generalize dependent (foldr Z.add 0 (words l)). intros s IH Hs.
  unfold ones_add, is_u8 in *.
  destruct (s =? 0) eqn:E; zhyp.
  - subst. rewrite !Z.add_0_r. zif. destruct (a * 256 + b =? 0) eqn:E0; zhyp; [lia|].
    rewrite Z.mod_small by lia. lia.
  - destruct (a * 256 + b + s =? 0) eqn:E0; zhyp; [Z.div_mod_to_equations; lia|].
    destruct (a * 256 + b + ((s - 1) mod 65535 + 1) <? 65536) eqn:E1; zhyp;
      Z.div_mod_to_equations; lia.
Qed.

(** The checksum of version 2 is the internet checksum of RFC 1071 as long as folding the carries of
    the sum once leaves no carry; when a carry is left it is lost and the result is one more than the
    internet checksum, so packets of other implementations with such a sum are refused. *)
Theorem vrrp_checksum_rfc1071 content :
  bytes_ok content -> len content mod 2 = 0 -> len content <= 65536 ->
  VrrpComputeChecksum VRRP_VERSION2 content =
  Ok (if fold_once (word_sum content) <? 65536 then inet_checksum content else inet_checksum content + 1).
Proof.
  intros Hok Hl Hlen. rewrite checksum_value by done. f_equal. unfold inet_checksum.
  rewrite ones_sum_value by done. pose proof (word_sum_bounds content Hok Hl) as Hb.
  assert (Hs : 0 <= word_sum content < 4294901761) by (revert Hb; Z.div_mod_to_equations; lia). clear Hb.
  unfold fold_once. generalize dependent (word_sum content). intros s Hs.
  destruct (s =? 0) eqn:E; zhyp; [subst; reflexivity|].
  unfold u16. destruct (s mod 65536 + s / 65536 <? 65536) eqn:E1; zhyp; Z.div_mod_to_equations; lia.
Qed.

Lemma vrrp_checksum_rfc1071_witness :
  VrrpComputeChecksum VRRP_VERSION2 [33; 1; 100; 1; 0; 1; 0; 0] = Ok (inet_checksum [33; 1; 100; 1; 0; 1; 0; 0]) /\
  VrrpComputeChecksum VRRP_VERSION2 [255; 255; 255; 255; 0; 1] = Ok (inet_checksum [255; 255; 255; 255; 0; 1] + 1).
Proof.
  split.
  - apply (vrrp_checksum_rfc1071 [33; 1; 100; 1; 0; 1; 0; 0]); [|done|vm_compute; discriminate].
    repeat constructor; vm_compute; (discriminate || reflexivity).
  - apply (vrrp_checksum_rfc1071 [255; 255; 255; 255; 0; 1]); [|done|vm_compute; discriminate].
    repeat constructor; vm_compute; (discriminate || reflexivity).
Defined.

(** ** Encoding *)

(** The addresses of a header that can be sent, in 4 bytes. *)
Definition v4_addrs (hdr : VrrpPktHeader) : list bytes := default [] ∘ To4 <$> IPv4Addr hdr.

Record vrrp_good (hdr : VrrpPktHeader) : Prop := {
  good_Version : Version hdr = VRRP_VERSION2 \/ Version hdr = VRRP_VERSION3;
  good_Type : 0 <= Type_ hdr < 16;
  good_VRID : is_u8 (VirtualRtrId hdr);
  good_Priority : is_u8 (vh_Priority hdr);
  good_Count : CountIPv4Addr hdr = len (IPv4Addr hdr);
  good_fits : CountIPv4Addr hdr <= 61;
  good_Rsvd : 0 <= Rsvd hdr < 8;
  good_Adver : 0 <= MaxAdverInt hdr < 8192;
  good_addrs : Forall (fun ip => exists q, To4 ip = Some q /\ bytes_ok q) (IPv4Addr hdr);
}.

(** The wire format with checksum [c]. *)
Definition vrrp_pad (hdr : VrrpPktHeader) : Z := Z.max 0 (12 - 4 * CountIPv4Addr hdr).
Definition vrrp_wire (hdr : VrrpPktHeader) (c : Z) : bytes :=
  [Version hdr * 16 + Type_ hdr; VirtualRtrId hdr; vh_Priority hdr; CountIPv4Addr hdr]
    ++ be16 (Rsvd hdr * 8192 + MaxAdverInt hdr) ++ be16 c ++ concat (v4_addrs hdr) ++ make (vrrp_pad hdr).

Lemma v4_addrs_len4 hdr : vrrp_good hdr -> Forall (fun q => len q = 4) (v4_addrs hdr).
Proof.
  intros G. unfold v4_addrs. rewrite Forall_fmap. eapply Forall_impl; [exact (good_addrs _ G)|].
  intros ip (q & Hq & _). cbn. rewrite Hq. by eapply To4_len.
Qed.

Lemma len_concat4 (qs : list bytes) : Forall (fun q => len q = 4) qs -> len (concat qs) = 4 * len qs.
Proof. induction 1 as [|q qs Hq _ IH]; cbn; lens; [done | lia]. Qed.

Lemma len_v4_addrs hdr : vrrp_good hdr -> len (concat (v4_addrs hdr)) = 4 * CountIPv4Addr hdr.
Proof.
  intros G. rewrite len_concat4 by by apply v4_addrs_len4. rewrite (good_Count _ G).
  unfold v4_addrs, len. by rewrite length_fmap.
Qed.

Lemma v4_addrs_ok hdr : vrrp_good hdr -> bytes_ok (concat (v4_addrs hdr)).
Proof.
  intros G. unfold v4_addrs. pose proof (good_addrs _ G) as H. revert H.
  induction 1 as [|ip ips (q & Hq & Hok) _ IH]; cbn; [constructor|].
  rewrite Hq. by apply bytes_ok_app.
Qed.

Lemma count_nonneg hdr : vrrp_good hdr -> 0 <= CountIPv4Addr hdr.
Proof. intros G. rewrite (good_Count _ G). apply len_nonneg. Qed.

Lemma len_wire hdr c : vrrp_good hdr ->
  len (vrrp_wire hdr c) = 8 + 4 * CountIPv4Addr hdr + vrrp_pad hdr.
Proof.
  intros G. unfold vrrp_wire. lens. rewrite len_v4_addrs by done.
  rewrite len_make by (unfold vrrp_pad; lia). lia.
Qed.

Lemma wire_ok hdr c : vrrp_good hdr -> bytes_ok (vrrp_wire hdr c).
Proof.
  intros G. pose proof (count_nonneg _ G). destruct G. unfold vrrp_wire, VRRP_VERSION2, VRRP_VERSION3 in *.
  rewrite !bytes_ok_app. repeat split.
  - repeat constructor; unfold is_u8 in *; lia.
  - apply be16_ok.
  - apply be16_ok.
  - by apply v4_addrs_ok.
  - apply bytes_ok_make.
Qed.

Lemma wire_even hdr c : vrrp_good hdr -> len (vrrp_wire hdr c) mod 2 = 0.
Proof.
  intros G. rewrite len_wire by done. unfold vrrp_pad.
  destruct (Z.max_spec 0 (12 - 4 * CountIPv4Addr hdr)) as [[_ ->]|[_ ->]]; Z.div_mod_to_equations; lia.
Qed.

Lemma encode_addrs_wire ips : forall pre junk post,
  Forall (fun ip => exists q, To4 ip = Some q /\ bytes_ok q) ips -> len junk = 4 * len ips ->
  encode_addrs (length ips) ips (pre ++ junk ++ post) (len pre)
  = Ok (pre ++ concat (default [] ∘ To4 <$> ips) ++ post).
Proof.
  induction ips as [|ip ips IH]; intros pre junk post Hips Hj; cbn.
  - destruct junk; [done|]. revert Hj. lens. pose proof (len_nonneg junk). lia.
  - apply Forall_cons in Hips as [(q & Hq & _) Hips]. rewrite Hq. cbn.
    pose proof (To4_len _ _ Hq) as H4. revert Hj. lens. intros Hj. pose proof (len_nonneg ips).
    rewrite <- (take_drop 4 junk), <- app_assoc.
    assert (Ht : len (take 4 junk) = 4) by (unfold len in *; rewrite length_take; lia).
    rewrite slice_app by lia. cbn. rewrite gocopy_app by (unfold len in *; lia). cbn.
    rewrite (app_assoc pre q). replace (len pre + 4) with (len (pre ++ q)) by (lens; lia).
    rewrite IH; [by rewrite <- !app_assoc | done |].
    unfold len in *. rewrite length_drop. lia.
Qed.

Lemma lor_add a b n : 0 <= n -> 0 <= b < 2 ^ n -> Z.lor (Z.shiftl a n) b = a * 2 ^ n + b.
Proof.
  intros Hn Hb. rewrite <- Z.shiftl_mul_pow2 by done. symmetry. apply Z.add_nocarry_lor.
  apply Z.bits_inj'. intros k Hk. rewrite Z.land_spec, Z.bits_0.
  destruct (Z.le_gt_cases n k); [|by rewrite Z.shiftl_spec_low].
  destruct (decide (b = 0)) as [->|]; [by rewrite Z.bits_0, andb_false_r|].
  assert (Hlog : Z.log2 b < k).
  { apply Z.log2_lt_pow2; [lia|]. apply Z.lt_le_trans with (2 ^ n); [lia|]. apply Z.pow_le_mono_r; lia. }
  rewrite (Z.bits_above_log2 b k) by lia. apply andb_false_r.
Qed.

Lemma be16_0 : be16 0 = [0; 0].
Proof. reflexivity. Qed.

(** What the encoder computes: the wire format, with the checksum of the wire format itself. *)
Lemma encode_wire hdr :
  vrrp_good hdr ->
  VrrpEncodeHeader hdr =
  (c ← VrrpComputeChecksum (Version hdr) (vrrp_wire hdr (CheckSum hdr));
   Ok (vrrp_wire hdr c, 8 + 4 * CountIPv4Addr hdr + vrrp_pad hdr)).
Proof.
  intros G. pose proof (count_nonneg _ G) as Hc. pose proof (good_fits _ G) as Hf.
  unfold VrrpEncodeHeader, VRRP_HEADER_SIZE_EXCLUDING_IPVX, VRRP_HEADER_MIN_SIZE.
  rewrite (u8_id (CountIPv4Addr hdr * 4)) by (unfold is_u8; lia). rewrite u8_id by (unfold is_u8; lia).
  set (pktLen := if _ <? 20 then 20 else _).
  assert (Hp : pktLen = 8 + 4 * CountIPv4Addr hdr + vrrp_pad hdr).
  { unfold pktLen, vrrp_pad. destruct (_ <? 20) eqn:E; zhyp; lia. }
  clearbody pktLen. subst pktLen.
  replace (8 + 4 * CountIPv4Addr hdr + vrrp_pad hdr)
    with (8 + (4 * CountIPv4Addr hdr + vrrp_pad hdr)) at 1 by lia.
  rewrite make_add, (make_add (4 * _)) by (unfold vrrp_pad; lia).
  change (make 8) with [0; 0; 0; 0; 0; 0; 0; 0].
  pose proof (good_Rsvd _ G). pose proof (good_Adver _ G). pose proof (good_Type _ G).
  assert (Hv : 0 <= Version hdr < 16) by (destruct (good_Version _ G) as [-> | ->]; by vm_compute).
  rewrite (u8_id (Z.shiftl _ 4)), (u16_id (Z.shiftl _ 13))
    by (rewrite Z.shiftl_mul_pow2 by lia; unfold is_u8, is_u16; lia).
  rewrite !lor_add by lia. change (2 ^ 4) with 16. change (2 ^ 13) with 8192.
  cbn [app]. set (tail := make (4 * CountIPv4Addr hdr) ++ make (vrrp_pad hdr)).
  unfold sset at 1 2 3 4, PutUint16 at 1 2. gocbn. rewrite take_nil, drop_0. cbn [app]. subst tail.
  match goal with |- context [encode_addrs _ _ (?a :: ?b :: ?c :: ?d :: ?e :: ?f :: ?g :: ?h :: _) 8] =>
    pose proof (encode_addrs_wire (IPv4Addr hdr) [a; b; c; d; e; f; g; h]
                  (make (4 * CountIPv4Addr hdr)) (make (vrrp_pad hdr)) (good_addrs _ G)) as He
  end.
  rewrite len_make, (good_Count _ G) in He by lia. specialize (He eq_refl).
  cbn [app len length] in He. change (len [_; _; _; _; _; _; _; _]) with 8 in He.
  rewrite (good_Count _ G) at 1. rewrite to_nat_len, <- (good_Count _ G) in *.
  rewrite He. cbn [mbind outcome_bind].
  unfold vrrp_wire, v4_addrs. cbn [app].
  destruct (VrrpComputeChecksum _ _); [|reflexivity..]. cbn. by rewrite take_nil, drop_0.
Qed.

Lemma checksum_total hdr c0 : vrrp_good hdr ->
  exists c, VrrpComputeChecksum (Version hdr) (vrrp_wire hdr c0) = Ok c /\ is_u16 c.
Proof.
  intros G. pose proof (wire_ok hdr c0 G). pose proof (wire_even hdr c0 G).
  pose proof (len_wire hdr c0 G). pose proof (good_fits _ G). pose proof (count_nonneg _ G).
  destruct (good_Version _ G) as [-> | ->].
  - rewrite checksum_value; [|done|done|unfold vrrp_pad in *; lia]. eexists. split; [done|].
    pose proof (u16_range (fold_once (word_sum (vrrp_wire hdr c0)))). unfold is_u16 in *. lia.
  - exists 0. split; [done | unfold is_u16; lia].
Qed.

Lemma decode_wire hdr c spare : vrrp_good hdr -> is_u16 c ->
  VrrpDecodeHeader (vrrp_wire hdr c) spare =
  Ok {| Version := Version hdr; Type_ := Type_ hdr; VirtualRtrId := VirtualRtrId hdr;
        vh_Priority := vh_Priority hdr; CountIPv4Addr := CountIPv4Addr hdr; Rsvd := Rsvd hdr;
        MaxAdverInt := MaxAdverInt hdr; CheckSum := c; IPv4Addr := v4_addrs hdr |}.
Proof.
  intros G Hc. pose proof (good_Rsvd _ G). pose proof (good_Adver _ G). pose proof (good_Type _ G).
  unfold VrrpDecodeHeader, vrrp_wire. cbn [app be16]. gocbn.
  rewrite (be16_split (Rsvd hdr * 8192 + MaxAdverInt hdr)) by (unfold is_u16; lia).
  rewrite (be16_split c) by done.
  match goal with |- context [decode_addrs _ (?a :: ?b :: ?c :: ?d :: ?e :: ?f :: ?g :: ?h :: _) 8] =>
    pose proof (decode_addrs_app (v4_addrs hdr) [a; b; c; d; e; f; g; h] (make (vrrp_pad hdr) ++ spare)
                  (v4_addrs_len4 _ G)) as Hd
  end.
  change (len [_; _; _; _; _; _; _; _]) with 8 in Hd. cbn [app] in Hd. rewrite <- app_assoc.
  assert (Hn : Z.to_nat (CountIPv4Addr hdr) = length (v4_addrs hdr)).
  { rewrite (good_Count _ G), to_nat_len. unfold v4_addrs. by rewrite length_fmap. }
  rewrite Hn, Hd, bind_Ok. do 2 f_equal.
  - rewrite Z.shiftr_div_pow2 by lia. change (2 ^ 4) with 16. Z.div_mod_to_equations. lia.
  - change 15 with (Z.ones 4). rewrite Z.land_ones by lia. change (2 ^ 4) with 16. Z.div_mod_to_equations. lia.
  - rewrite Z.shiftr_div_pow2 by lia. change (2 ^ 13) with 8192.
    rewrite u8_id; unfold is_u8; Z.div_mod_to_equations; lia.
  - change 8191 with (Z.ones 13). rewrite Z.land_ones by lia. change (2 ^ 13) with 8192.
    Z.div_mod_to_equations. lia.
Qed.

(** The header as it is read back, with checksum [c]. *)
Definition header_read (hdr : VrrpPktHeader) (c : Z) : VrrpPktHeader :=
  {| Version := Version hdr; Type_ := Type_ hdr; VirtualRtrId := VirtualRtrId hdr;
     vh_Priority := vh_Priority hdr; CountIPv4Addr := CountIPv4Addr hdr; Rsvd := Rsvd hdr;
     MaxAdverInt := MaxAdverInt hdr; CheckSum := c; IPv4Addr := v4_addrs hdr |}.
(** What the receiver asks of a header besides its version and checksum. *)
Record wanted (info : VrrpGlobalInfo) (hdr : VrrpPktHeader) : Prop := {
  wanted_fields : CountIPv4Addr hdr <> 0 /\ MaxAdverInt hdr <> 0 /\ Type_ hdr <> 0;
  wanted_address : VirtualIPv4Addr (g_IntfConfig info) <> "";
  wanted_VRID : VRID (g_IntfConfig info) <> 0;
}.

Lemma zero_checksum hdr c spare :
  vrrp_good hdr ->
  take (length (vrrp_wire hdr c)) (blit (vrrp_wire hdr c ++ spare) 6 (be16 0)) = vrrp_wire hdr 0.
Proof.
  intros G.
  replace (vrrp_wire hdr c ++ spare)
    with (([Version hdr * 16 + Type_ hdr; VirtualRtrId hdr; vh_Priority hdr; CountIPv4Addr hdr]
            ++ be16 (Rsvd hdr * 8192 + MaxAdverInt hdr)) ++ be16 c ++
          ((concat (v4_addrs hdr) ++ make (vrrp_pad hdr)) ++ spare))
    by (unfold vrrp_wire; by rewrite <- !app_assoc).
  change 6%nat with (length ([Version hdr * 16 + Type_ hdr; VirtualRtrId hdr; vh_Priority hdr; CountIPv4Addr hdr]
            ++ be16 (Rsvd hdr * 8192 + MaxAdverInt hdr))).
  rewrite blit_app by reflexivity. rewrite !app_assoc.
  replace (((([Version hdr * 16 + Type_ hdr; VirtualRtrId hdr; vh_Priority hdr; CountIPv4Addr hdr]
            ++ be16 (Rsvd hdr * 8192 + MaxAdverInt hdr)) ++ be16 0) ++ concat (v4_addrs hdr)) ++ make (vrrp_pad hdr))
    with (vrrp_wire hdr 0) by (unfold vrrp_wire; by rewrite <- !app_assoc).
  apply take_app_length'. unfold vrrp_wire. by rewrite !length_app.
Qed.

(** The receiver computes the checksum with the field at zero. *)
Lemma check_wire info hdr c spare : vrrp_good hdr -> wanted info hdr ->
  VrrpComputeChecksum (Version hdr) (vrrp_wire hdr 0) = Ok c ->
  VrrpCheckHeader info (header_read hdr c) (vrrp_wire hdr c) spare = Ok tt.
Proof.
  intros G [(Hn & Ha & Ht) Hip Hid] Hc. unfold VrrpCheckHeader. cbn [header_read Version CheckSum CountIPv4Addr MaxAdverInt Type_].
  destruct (good_Version _ G) as [Hv|Hv]; rewrite Hv in *; cbn [negb andb Z.eqb Pos.eqb VRRP_VERSION2 VRRP_VERSION3].
  all: change (slice (vrrp_wire hdr c ++ spare) 6 8) with (Ok (E := vrrp_error) (be16 c)); rewrite bind_Ok, zero_checksum by done.
  all: rewrite Hc, bind_Ok, Z.eqb_refl; cbn [negb].
  all: rewrite (proj2 (Z.eqb_neq _ _) Hn), (proj2 (Z.eqb_neq _ _) Ha), (proj2 (Z.eqb_neq _ _) Ht); cbn [orb].
  all: rewrite bool_decide_eq_false_2, bind_Ok, (proj2 (Z.eqb_neq _ _) Hid) by done; done.
Qed.

(** C29: encoding a header that fits ([vrrp_good]: version 2 or 3, fields in the range of their bits, as many addresses as it counts, at most 61, of
    IPv4) and decoding the result gives the header back, with its checksum filled in and its addresses in 4 bytes. The checksum is computed over the
    bytes with the checksum field that the header came with. When that field was 0, as it is in the headers the daemon builds, or the version is 3, a virtual router
    with an address and an identifier accepts the bytes, if the count, the interval and the type are not 0. With another value in the field of a version 2 header the
    receiver, which computes with 0, may disagree; with 62 addresses or more the encoder panics (encode_too_many). *)
Theorem vrrp_header_roundtrip hdr spare :
  vrrp_good hdr ->
  exists pkt c,
    VrrpEncodeHeader hdr = Ok (pkt, len pkt) /\
    VrrpComputeChecksum (Version hdr) (vrrp_wire hdr (CheckSum hdr)) = Ok c /\
    VrrpDecodeHeader pkt spare = Ok (header_read hdr c) /\
    (CheckSum hdr = 0 \/ Version hdr = VRRP_VERSION3 ->
     forall info, wanted info hdr -> VrrpCheckHeader info (header_read hdr c) pkt spare = Ok tt).
Proof.
  intros G. rewrite encode_wire by done.
  destruct (checksum_total hdr (CheckSum hdr) G) as (c & Hc & Hrange). rewrite Hc, bind_Ok.
  exists (vrrp_wire hdr c), c. rewrite <- (len_wire hdr c) by done. split; [done|]. split; [done|].
  split; [by apply decode_wire|]. intros Hz info Hw. apply check_wire; [done..|].
  destruct Hz as [Hz|Hz]; [by rewrite <- Hz | by rewrite Hz in *].
Qed.

Definition test_info (vrid prio : Z) (vip addr : string) : VrrpGlobalInfo :=
  {| g_IntfConfig := {| IfIndex := 7; VRID := vrid; Priority := prio; VirtualIPv4Addr := vip;
                        AdvertisementInterval := 1; PreemptMode := true; AcceptMode := false |};
     g_VirtualRouterMACAddress := virtual_mac vrid; g_MasterAdverInterval := 1; g_SkewTime := 0;
     g_MasterDownValue := 3; g_MasterDownTimer := None; g_AdverTimer := None; g_IpAddr := addr; g_pHandle := true;
     g_StateName := VRRP_INITIALIZE_STATE;
     g_StateInfo := {| AdverRx := 0; AdverTx := 0; MasterIp := ""; LastAdverRx := ""; LastAdverTx := "";
                       PreviousFsmState := ""; CurrentFsmState := ""; ReasonForTransition := "" |};
     g_locks := true |}.

Lemma vrrp_header_roundtrip_witness :
  vrrp_good test_header /\
  exists pkt c, VrrpEncodeHeader test_header = Ok (pkt, len pkt) /\
    VrrpDecodeHeader pkt [] = Ok (header_read test_header c) /\
    VrrpCheckHeader (test_info 1 100 "10.0.0.9" "10.0.0.1/24") (header_read test_header c) pkt [] = Ok tt.
Proof.
  assert (G : vrrp_good test_header).
  { split; try (unfold is_u8; cbn; lia); [by left | reflexivity |].
    constructor; [|constructor]. exists [192; 168; 0; 1]. split; [reflexivity|].
    repeat constructor; unfold is_u8; lia. }
  split; [exact G|]. destruct (vrrp_header_roundtrip test_header [] G) as (pkt & c & He & _ & Hd & Hk).
  exists pkt, c. split; [exact He|]. split; [exact Hd|]. apply Hk; [by left|]. by split.
Defined.

Lemma vrrp_decode_total_witness :
  VrrpDecodeHeader [] [] = Panic /\ VrrpDecodeHeader [33; 1; 100; 1; 0; 1; 0; 0] [] = Panic /\
  exists h, VrrpDecodeHeader test_bytes [] = Ok h /\ CountIPv4Addr h = 1.
Proof.
  split; [|split].
  - exact (proj1 (vrrp_decode_total 33 1 100 1 [] [] ltac:(lia)) 0%nat ltac:(lia)).
  - apply (proj2 (proj2 (vrrp_decode_total 33 1 100 1 [0; 1; 0; 0] [] ltac:(lia)))). by vm_compute.
  - apply (proj1 (proj2 (vrrp_decode_total 33 1 100 1 (drop 4 test_bytes) [] ltac:(lia)))). by vm_compute.
Defined.

(** The encoder computes the length in 8 bits: with 62 addresses or more it writes behind its buffer. *)
Lemma encode_too_many hdr : 62 <= CountIPv4Addr hdr < 256 -> VrrpEncodeHeader hdr = Panic.
Proof.
  intros Hc. unfold VrrpEncodeHeader, VRRP_HEADER_SIZE_EXCLUDING_IPVX, VRRP_HEADER_MIN_SIZE.
  set (pktLen := if _ <? 20 then 20 else _).
  assert (Hp : 20 <= pktLen < 8 + 4 * CountIPv4Addr hdr).
  { unfold pktLen. pose proof (u8_range (8 + u8 (CountIPv4Addr hdr * 4))) as Hr. unfold is_u8 in Hr.
    destruct (_ <? 20) eqn:E; zhyp; lia. }
  clearbody pktLen.
  assert (Hset : forall b i v, 0 <= i < len b -> exists b', sset (E := vrrp_error) b i v = Ok b' /\ len b' = len b).
  { intros b i v Hi. unfold sset, len in *. zif. eexists. split; [done|]. by rewrite length_insert. }
  assert (Hput : forall b i v, 0 <= i <= len b - 2 -> exists b', PutUint16 (E := vrrp_error) b i v = Ok b' /\ len b' = len b).
  { intros b i v Hi. unfold PutUint16, len in *. zif. eexists. split; [done|]. rewrite length_blit; lia. }
  assert (Henc : forall n ips b base, 0 <= base -> 0 < Z.of_nat n -> len b < base + 4 * Z.of_nat n ->
    encode_addrs n ips b base = Panic).
  { induction n as [|n IH]; intros ips b base H0 Hn Hl; [lia|]. cbn [encode_addrs].
    destruct (Z.le_gt_cases (base + 4) (len b)).
    - assert (Hs : exists s, slice (E := vrrp_error) b base (base + 4) = Ok s)
        by (unfold slice, len in *; zif; eauto).
      destruct Hs as (s & ->). cbn. destruct ips as [|ip ips]; [done|].
      unfold gocopy, len in *. zif. cbn. apply IH; [lia..|].
      rewrite length_blit; lia.
    - assert (Hs : slice (E := vrrp_error) b base (base + 4) = Panic) by (unfold slice, len in *; zif; done).
      by rewrite Hs. }
  assert (Hm : len (make pktLen) = pktLen) by (apply len_make; lia).
  repeat match goal with
  | |- context [sset ?b ?i ?v] =>
      destruct (Hset b i v) as (? & -> & ?); [lia|]; rewrite bind_Ok
  | |- context [PutUint16 ?b ?i ?v ≫= _] =>
      destruct (Hput b i v) as (? & -> & ?); [lia|]; rewrite bind_Ok
  end.
  rewrite Henc; [done | lia..].
Qed.

(** ** An advertisement from one router to another *)

Lemma vrrp_header_good g ip q :
  advertised_ip g = Some ip -> To4 ip = Some q -> bytes_ok q ->
  1 <= AdvertisementInterval (g_IntfConfig g) <= 8191 -> vrrp_good (vrrp_header g).
Proof.
  intros Hip Hq Hok Hadv.
  split.
  - by left.
  - change (0 <= 1 < 16). lia.
  - apply u8_range.
  - apply u8_range.
  - reflexivity.
  - change (1 <= 61). lia.
  - change (0 <= 0 < 8). lia.
  - change (0 <= u16 (AdvertisementInterval (g_IntfConfig g)) < 8192). rewrite u16_id by (unfold is_u16; lia). lia.
  - unfold vrrp_header, IPv4Addr. rewrite Hip. constructor; [eauto | constructor].
Qed.

(** An advertisement built by a router is decoded by its receiver into the router's identifier, priority,
    interval and address, and passes every check of the receiver, whatever virtual router the receiver is
    itself configured for: the identifier of the packet is not compared with it. *)
Theorem vrrp_advertisement_accepted g g' ip q spare spare' :
  advertised_ip g = Some ip -> To4 ip = Some q -> bytes_ok q ->
  1 <= AdvertisementInterval (g_IntfConfig g) <= 8191 ->
  VRID (g_IntfConfig g') <> 0 ->
  (VirtualIPv4Addr (g_IntfConfig g') = "" -> g_IpAddr g' <> ip_String q) ->
  exists pkt hdr,
    VrrpCreateVrrpHeader g = Ok (pkt, 20) /\
    VrrpDecodeHeader pkt spare = Ok hdr /\
    VrrpCheckHeader g' hdr pkt spare' = Ok tt /\
    VirtualRtrId hdr = u8 (VRID (g_IntfConfig g)) /\ vh_Priority hdr = u8 (Priority (g_IntfConfig g)) /\
    MaxAdverInt hdr = AdvertisementInterval (g_IntfConfig g) /\ IPv4Addr hdr = [q].
Proof.
  intros Hip Hq Hok Hadv Hvrid Hown.
  pose proof (vrrp_header_good g ip q Hip Hq Hok Hadv) as G.
  destruct (checksum_total (vrrp_header g) 0 G) as (c & Hc & Hr).
  assert (Hqs : v4_addrs (vrrp_header g) = [q]) by (unfold v4_addrs; cbn; by rewrite Hip; cbn; rewrite Hq).
  exists (vrrp_wire (vrrp_header g) c). eexists. split; [|split; [by apply decode_wire|]].
  { unfold VrrpCreateVrrpHeader. rewrite encode_wire by done. change (CheckSum (vrrp_header g)) with 0.
    by rewrite Hc. }
  cbn [VirtualRtrId vh_Priority MaxAdverInt IPv4Addr]. rewrite Hqs.
  assert (Hm : MaxAdverInt (vrrp_header g) = AdvertisementInterval (g_IntfConfig g))
    by (unfold vrrp_header, MaxAdverInt; apply u16_id; unfold is_u16; lia).
  split; [|by rewrite Hm].
  unfold VrrpCheckHeader. cbn [Version CheckSum CountIPv4Addr MaxAdverInt Type_ IPv4Addr].
  change (CountIPv4Addr (vrrp_header g)) with 1.
  change (Type_ (vrrp_header g)) with 1.
  change (negb (Version (vrrp_header g) =? VRRP_VERSION2) && negb (Version (vrrp_header g) =? VRRP_VERSION3)) with false.
  assert (Hs : exists s, slice (E := vrrp_error) (vrrp_wire (vrrp_header g) c ++ spare') 6 8 = Ok s).
  { unfold slice. pose proof (len_wire (vrrp_header g) c G) as Hl. pose proof (len_nonneg spare').
    unfold vrrp_pad in Hl. change (CountIPv4Addr (vrrp_header g)) with 1 in Hl.
    unfold len in *. rewrite length_app. zif. eauto. }
  destruct Hs as (s & ->). rewrite bind_Ok, zero_checksum by done. rewrite Hc, bind_Ok, Z.eqb_refl, Hm. cbn [negb].
  zif. change (1 =? 0) with false. cbn [orb].
  destruct (bool_decide (VirtualIPv4Addr (g_IntfConfig g') = "")) eqn:Ev.
  - apply bool_decide_eq_true in Ev. change (Z.to_nat 1) with 1%nat. cbn [same_owner].
    rewrite bool_decide_eq_false_2 by auto. rewrite bind_Ok. by zif.
  - rewrite bind_Ok. by zif.
Qed.

Lemma vrrp_advertisement_accepted_witness :
  exists pkt hdr,
    VrrpCreateVrrpHeader (test_info 1 100 "10.0.0.9" "10.0.0.1/24") = Ok (pkt, 20) /\
    VrrpDecodeHeader pkt [] = Ok hdr /\
    VrrpCheckHeader (test_info 2 50 "10.0.0.8" "10.0.0.2/24") hdr pkt [] = Ok tt /\
    VirtualRtrId hdr = 1 /\ vh_Priority hdr = 100 /\ MaxAdverInt hdr = 1 /\ IPv4Addr hdr = [[10; 0; 0; 9]].
Proof.
  refine (vrrp_advertisement_accepted (test_info 1 100 "10.0.0.9" "10.0.0.1/24")
            (test_info 2 50 "10.0.0.8" "10.0.0.2/24") (IPv4 10 0 0 9) [10; 0; 0; 9] [] [] _ _ _ _ _ _);
    [reflexivity | reflexivity | | cbn; lia | discriminate | discriminate].
  repeat constructor; vm_compute; (discriminate || reflexivity).
Defined.

(** A packet of version 3 is refused unless its checksum is zero. *)
Lemma vrrp_v3_checksum g hdr content spare :
  Version hdr = VRRP_VERSION3 -> 8 <= len content + len spare -> CheckSum hdr <> 0 ->
  VrrpCheckHeader g hdr content spare = Err VRRP_CHECKSUM_ERR.
Proof.
  intros Hv Hl Hc. unfold VrrpCheckHeader. rewrite Hv. cbn [VRRP_VERSION2 VRRP_VERSION3 Z.eqb Pos.eqb negb andb].
  unfold slice. rewrite <- len_app in Hl. unfold len in Hl. zif. cbn. by destruct (CheckSum hdr).
Qed.

(** ** The address of a virtual router *)

(** The MAC address of virtual router [v] is 00-00-5E-00-01-v; the code prints [v] in decimal where the
    address is read as hexadecimal: it is right for 1 to 9 only, the addresses of 10 to 99 are those
    of other virtual routers, and from 100 on it is no address at all. *)
Theorem virtual_mac_value v :
  1 <= v <= 255 ->
  ParseMAC (virtual_mac v) =
  if v <? 10 then Some [0; 0; 94; 0; 1; v]
  else if v <? 100 then Some [0; 0; 94; 0; 1; v / 10 * 16 + v mod 10] else None.
Proof.
  intros Hv.
  assert (Hall : Forall (fun n => ParseMAC (virtual_mac (Z.of_nat n)) =
    if Z.of_nat n <? 10 then Some [0; 0; 94; 0; 1; Z.of_nat n]
    else if Z.of_nat n <? 100 then Some [0; 0; 94; 0; 1; Z.of_nat n / 10 * 16 + Z.of_nat n mod 10] else None)
    (seq 1 255)).
  { eapply bool_decide_eq_true_1. vm_compute. reflexivity. }
  rewrite Forall_forall in Hall. specialize (Hall (Z.to_nat v)).
  rewrite Z2Nat.id in Hall by lia. apply Hall, elem_of_seq. lia.
Qed.

Lemma virtual_mac_value_witness :
  ParseMAC (virtual_mac 5) = Some [0; 0; 94; 0; 1; 5] /\ ParseMAC (virtual_mac 16) = Some [0; 0; 94; 0; 1; 22] /\
  ParseMAC (virtual_mac 200) = None.
Proof.
  split; [|split]; [exact (virtual_mac_value 5 ltac:(lia)) | exact (virtual_mac_value 16 ltac:(lia)) |
                    exact (virtual_mac_value 200 ltac:(lia))].
Defined.
