(* ===== verification/VrrpServer.v ===== *)
(** The VRRP server ([src/vrrp/server/vrrpdFsm.go], [vrrpdServer.go], [vrrpdIntf.go] and the goroutines
    of [vrrpdProtocolRx.go], [vrrpdProtocolTx.go]).

    The server is a set of goroutines that share the maps of [VrrpServer] without a lock: the channel
    handler ([VrrpChannelHanlder]), the callbacks of timers, the subscriber of interface events. A
    goroutine is a [proc]: what it does next to the shared state, to a channel, or to the outside.
    The locks of an entry protect local copies only and are never held across a channel operation:
    what is left of them is that locking through a nil pointer crashes. *)
From stdpp Require Import base numbers list gmap strings pretty.
From Stdlib Require Import ZArith Lia.
From S2P Require Import Prelude GoNet VrrpPkt.
Open Scope Z_scope.

(** ** Messages *)

(** A captured packet, as the packet library hands it out: its layers, if it has them. *)
Record IPv4Layer := {
  l_TTL : Z;
  l_SrcIP : bytes;
  l_DstIP : bytes;
  l_payload : option (bytes * bytes);   (** the payload, and the rest of its array *)
}.
Record Packet := { p_DstMAC : option bytes; p_IPv4 : option IPv4Layer }.

Record VrrpFsm := { f_key : string; f_vrrpHdr : option VrrpPktHeader; f_inPkt : option Packet }.
Record VrrpTxChannelInfo := { t_key : string; t_priority : Z }.
Record VrrpPktChannelInfo := { r_pkt : Packet; r_key : string; r_IfIndex : Z }.
Record VrrpUpdateConfig := { u_OldConfig : VrrpIntf; u_NewConfig : VrrpIntf; u_AttrSet : list bool }.

Definition VRRP_RX_BUF_CHANNEL_SIZE : nat := 100.
Definition VRRP_TX_BUF_CHANNEL_SIZE : nat := 1.
Definition VRRP_FSM_CHANNEL_SIZE : nat := 1.
Definition VRRP_INTF_CONFIG_CH_SIZE : nat := 1.

(** ** The shared state *)

(** The functions given to [time.AfterFunc]. *)
Inductive TimerFunc := MasterDownExpired (key : string) | AdverExpired (key : string).
(** A timer: its function, and the delay in seconds it is running with. *)
Record Timer := { tm_func : TimerFunc; tm_running : option Z }.

Record VrrpServer := {
  vrrpGblInfo : gmap string VrrpGlobalInfo;
  vrrpIntfStateSlice : list string;
  vrrpLinuxIfIndex2AsicdIfIndex : gset Z;
  vrrpIfIndexIpAddr : gmap Z string;
  vrrpVlanId2Name : gmap Z string;
  vrrpMacConfigAdded : bool;
  VrrpCreateIntfConfigCh : list VrrpIntf;
  VrrpDeleteIntfConfigCh : list VrrpIntf;
  VrrpUpdateIntfConfigCh : list VrrpUpdateConfig;
  vrrpRxPktCh : list VrrpPktChannelInfo;
  vrrpTxPktCh : list VrrpTxChannelInfo;
  vrrpFsmCh : list VrrpFsm;
  timers : list Timer;
  listeners : list string;   (** the goroutines [VrrpReceivePackets], by key *)
}.

Definition set_vrrpGblInfo (x : gmap string VrrpGlobalInfo) (s : VrrpServer) : VrrpServer :=
  {| vrrpGblInfo := x; vrrpIntfStateSlice := vrrpIntfStateSlice s;
     vrrpLinuxIfIndex2AsicdIfIndex := vrrpLinuxIfIndex2AsicdIfIndex s;
     vrrpIfIndexIpAddr := vrrpIfIndexIpAddr s; vrrpVlanId2Name := vrrpVlanId2Name s;
     vrrpMacConfigAdded := vrrpMacConfigAdded s; VrrpCreateIntfConfigCh := VrrpCreateIntfConfigCh s;
     VrrpDeleteIntfConfigCh := VrrpDeleteIntfConfigCh s; VrrpUpdateIntfConfigCh := VrrpUpdateIntfConfigCh s;
     vrrpRxPktCh := vrrpRxPktCh s; vrrpTxPktCh := vrrpTxPktCh s; vrrpFsmCh := vrrpFsmCh s;
     timers := timers s; listeners := listeners s |}.
Definition set_vrrpIntfStateSlice (x : list string) (s : VrrpServer) : VrrpServer :=
  {| vrrpGblInfo := vrrpGblInfo s; vrrpIntfStateSlice := x;
     vrrpLinuxIfIndex2AsicdIfIndex := vrrpLinuxIfIndex2AsicdIfIndex s;
     vrrpIfIndexIpAddr := vrrpIfIndexIpAddr s; vrrpVlanId2Name := vrrpVlanId2Name s;
     vrrpMacConfigAdded := vrrpMacConfigAdded s; VrrpCreateIntfConfigCh := VrrpCreateIntfConfigCh s;
     VrrpDeleteIntfConfigCh := VrrpDeleteIntfConfigCh s; VrrpUpdateIntfConfigCh := VrrpUpdateIntfConfigCh s;
     vrrpRxPktCh := vrrpRxPktCh s; vrrpTxPktCh := vrrpTxPktCh s; vrrpFsmCh := vrrpFsmCh s;
     timers := timers s; listeners := listeners s |}.
Definition set_vrrpLinuxIfIndex2AsicdIfIndex (x : gset Z) (s : VrrpServer) : VrrpServer :=
  {| vrrpGblInfo := vrrpGblInfo s; vrrpIntfStateSlice := vrrpIntfStateSlice s;
     vrrpLinuxIfIndex2AsicdIfIndex := x; vrrpIfIndexIpAddr := vrrpIfIndexIpAddr s;
     vrrpVlanId2Name := vrrpVlanId2Name s; vrrpMacConfigAdded := vrrpMacConfigAdded s;
     VrrpCreateIntfConfigCh := VrrpCreateIntfConfigCh s; VrrpDeleteIntfConfigCh := VrrpDeleteIntfConfigCh s;
     VrrpUpdateIntfConfigCh := VrrpUpdateIntfConfigCh s; vrrpRxPktCh := vrrpRxPktCh s;
     vrrpTxPktCh := vrrpTxPktCh s; vrrpFsmCh := vrrpFsmCh s; timers := timers s;
     listeners := listeners s |}.
Definition set_vrrpIfIndexIpAddr (x : gmap Z string) (s : VrrpServer) : VrrpServer :=
  {| vrrpGblInfo := vrrpGblInfo s; vrrpIntfStateSlice := vrrpIntfStateSlice s;
     vrrpLinuxIfIndex2AsicdIfIndex := vrrpLinuxIfIndex2AsicdIfIndex s; vrrpIfIndexIpAddr := x;
     vrrpVlanId2Name := vrrpVlanId2Name s; vrrpMacConfigAdded := vrrpMacConfigAdded s;
     VrrpCreateIntfConfigCh := VrrpCreateIntfConfigCh s; VrrpDeleteIntfConfigCh := VrrpDeleteIntfConfigCh s;
     VrrpUpdateIntfConfigCh := VrrpUpdateIntfConfigCh s; vrrpRxPktCh := vrrpRxPktCh s;
     vrrpTxPktCh := vrrpTxPktCh s; vrrpFsmCh := vrrpFsmCh s; timers := timers s;
     listeners := listeners s |}.
Definition set_vrrpVlanId2Name (x : gmap Z string) (s : VrrpServer) : VrrpServer :=
  {| vrrpGblInfo := vrrpGblInfo s; vrrpIntfStateSlice := vrrpIntfStateSlice s;
     vrrpLinuxIfIndex2AsicdIfIndex := vrrpLinuxIfIndex2AsicdIfIndex s;
     vrrpIfIndexIpAddr := vrrpIfIndexIpAddr s; vrrpVlanId2Name := x;
     vrrpMacConfigAdded := vrrpMacConfigAdded s; VrrpCreateIntfConfigCh := VrrpCreateIntfConfigCh s;
     VrrpDeleteIntfConfigCh := VrrpDeleteIntfConfigCh s; VrrpUpdateIntfConfigCh := VrrpUpdateIntfConfigCh s;
     vrrpRxPktCh := vrrpRxPktCh s; vrrpTxPktCh := vrrpTxPktCh s; vrrpFsmCh := vrrpFsmCh s;
     timers := timers s; listeners := listeners s |}.
Definition set_vrrpMacConfigAdded (x : bool) (s : VrrpServer) : VrrpServer :=
  {| vrrpGblInfo := vrrpGblInfo s; vrrpIntfStateSlice := vrrpIntfStateSlice s;
     vrrpLinuxIfIndex2AsicdIfIndex := vrrpLinuxIfIndex2AsicdIfIndex s;
     vrrpIfIndexIpAddr := vrrpIfIndexIpAddr s; vrrpVlanId2Name := vrrpVlanId2Name s;
     vrrpMacConfigAdded := x; VrrpCreateIntfConfigCh := VrrpCreateIntfConfigCh s;
     VrrpDeleteIntfConfigCh := VrrpDeleteIntfConfigCh s; VrrpUpdateIntfConfigCh := VrrpUpdateIntfConfigCh s;
     vrrpRxPktCh := vrrpRxPktCh s; vrrpTxPktCh := vrrpTxPktCh s; vrrpFsmCh := vrrpFsmCh s;
     timers := timers s; listeners := listeners s |}.
Definition set_VrrpCreateIntfConfigCh (x : list VrrpIntf) (s : VrrpServer) : VrrpServer :=
  {| vrrpGblInfo := vrrpGblInfo s; vrrpIntfStateSlice := vrrpIntfStateSlice s;
     vrrpLinuxIfIndex2AsicdIfIndex := vrrpLinuxIfIndex2AsicdIfIndex s;
     vrrpIfIndexIpAddr := vrrpIfIndexIpAddr s; vrrpVlanId2Name := vrrpVlanId2Name s;
     vrrpMacConfigAdded := vrrpMacConfigAdded s; VrrpCreateIntfConfigCh := x;
     VrrpDeleteIntfConfigCh := VrrpDeleteIntfConfigCh s; VrrpUpdateIntfConfigCh := VrrpUpdateIntfConfigCh s;
     vrrpRxPktCh := vrrpRxPktCh s; vrrpTxPktCh := vrrpTxPktCh s; vrrpFsmCh := vrrpFsmCh s;
     timers := timers s; listeners := listeners s |}.
Definition set_VrrpDeleteIntfConfigCh (x : list VrrpIntf) (s : VrrpServer) : VrrpServer :=
  {| vrrpGblInfo := vrrpGblInfo s; vrrpIntfStateSlice := vrrpIntfStateSlice s;
     vrrpLinuxIfIndex2AsicdIfIndex := vrrpLinuxIfIndex2AsicdIfIndex s;
     vrrpIfIndexIpAddr := vrrpIfIndexIpAddr s; vrrpVlanId2Name := vrrpVlanId2Name s;
     vrrpMacConfigAdded := vrrpMacConfigAdded s; VrrpCreateIntfConfigCh := VrrpCreateIntfConfigCh s;
     VrrpDeleteIntfConfigCh := x; VrrpUpdateIntfConfigCh := VrrpUpdateIntfConfigCh s;
     vrrpRxPktCh := vrrpRxPktCh s; vrrpTxPktCh := vrrpTxPktCh s; vrrpFsmCh := vrrpFsmCh s;
     timers := timers s; listeners := listeners s |}.
Definition set_VrrpUpdateIntfConfigCh (x : list VrrpUpdateConfig) (s : VrrpServer) : VrrpServer :=
  {| vrrpGblInfo := vrrpGblInfo s; vrrpIntfStateSlice := vrrpIntfStateSlice s;
     vrrpLinuxIfIndex2AsicdIfIndex := vrrpLinuxIfIndex2AsicdIfIndex s;
     vrrpIfIndexIpAddr := vrrpIfIndexIpAddr s; vrrpVlanId2Name := vrrpVlanId2Name s;
     vrrpMacConfigAdded := vrrpMacConfigAdded s; VrrpCreateIntfConfigCh := VrrpCreateIntfConfigCh s;
     VrrpDeleteIntfConfigCh := VrrpDeleteIntfConfigCh s; VrrpUpdateIntfConfigCh := x;
     vrrpRxPktCh := vrrpRxPktCh s; vrrpTxPktCh := vrrpTxPktCh s; vrrpFsmCh := vrrpFsmCh s;
     timers := timers s; listeners := listeners s |}.
Definition set_vrrpRxPktCh (x : list VrrpPktChannelInfo) (s : VrrpServer) : VrrpServer :=
  {| vrrpGblInfo := vrrpGblInfo s; vrrpIntfStateSlice := vrrpIntfStateSlice s;
     vrrpLinuxIfIndex2AsicdIfIndex := vrrpLinuxIfIndex2AsicdIfIndex s;
     vrrpIfIndexIpAddr := vrrpIfIndexIpAddr s; vrrpVlanId2Name := vrrpVlanId2Name s;
     vrrpMacConfigAdded := vrrpMacConfigAdded s; VrrpCreateIntfConfigCh := VrrpCreateIntfConfigCh s;
     VrrpDeleteIntfConfigCh := VrrpDeleteIntfConfigCh s; VrrpUpdateIntfConfigCh := VrrpUpdateIntfConfigCh s;
     vrrpRxPktCh := x; vrrpTxPktCh := vrrpTxPktCh s; vrrpFsmCh := vrrpFsmCh s; timers := timers s;
     listeners := listeners s |}.
Definition set_vrrpTxPktCh (x : list VrrpTxChannelInfo) (s : VrrpServer) : VrrpServer :=
  {| vrrpGblInfo := vrrpGblInfo s; vrrpIntfStateSlice := vrrpIntfStateSlice s;
     vrrpLinuxIfIndex2AsicdIfIndex := vrrpLinuxIfIndex2AsicdIfIndex s;
     vrrpIfIndexIpAddr := vrrpIfIndexIpAddr s; vrrpVlanId2Name := vrrpVlanId2Name s;
     vrrpMacConfigAdded := vrrpMacConfigAdded s; VrrpCreateIntfConfigCh := VrrpCreateIntfConfigCh s;
     VrrpDeleteIntfConfigCh := VrrpDeleteIntfConfigCh s; VrrpUpdateIntfConfigCh := VrrpUpdateIntfConfigCh s;
     vrrpRxPktCh := vrrpRxPktCh s; vrrpTxPktCh := x; vrrpFsmCh := vrrpFsmCh s; timers := timers s;
     listeners := listeners s |}.
Definition set_vrrpFsmCh (x : list VrrpFsm) (s : VrrpServer) : VrrpServer :=
  {| vrrpGblInfo := vrrpGblInfo s; vrrpIntfStateSlice := vrrpIntfStateSlice s;
     vrrpLinuxIfIndex2AsicdIfIndex := vrrpLinuxIfIndex2AsicdIfIndex s;
     vrrpIfIndexIpAddr := vrrpIfIndexIpAddr s; vrrpVlanId2Name := vrrpVlanId2Name s;
     vrrpMacConfigAdded := vrrpMacConfigAdded s; VrrpCreateIntfConfigCh := VrrpCreateIntfConfigCh s;
     VrrpDeleteIntfConfigCh := VrrpDeleteIntfConfigCh s; VrrpUpdateIntfConfigCh := VrrpUpdateIntfConfigCh s;
     vrrpRxPktCh := vrrpRxPktCh s; vrrpTxPktCh := vrrpTxPktCh s; vrrpFsmCh := x; timers := timers s;
     listeners := listeners s |}.
Definition set_timers (x : list Timer) (s : VrrpServer) : VrrpServer :=
  {| vrrpGblInfo := vrrpGblInfo s; vrrpIntfStateSlice := vrrpIntfStateSlice s;
     vrrpLinuxIfIndex2AsicdIfIndex := vrrpLinuxIfIndex2AsicdIfIndex s;
     vrrpIfIndexIpAddr := vrrpIfIndexIpAddr s; vrrpVlanId2Name := vrrpVlanId2Name s;
     vrrpMacConfigAdded := vrrpMacConfigAdded s; VrrpCreateIntfConfigCh := VrrpCreateIntfConfigCh s;
     VrrpDeleteIntfConfigCh := VrrpDeleteIntfConfigCh s; VrrpUpdateIntfConfigCh := VrrpUpdateIntfConfigCh s;
     vrrpRxPktCh := vrrpRxPktCh s; vrrpTxPktCh := vrrpTxPktCh s; vrrpFsmCh := vrrpFsmCh s; timers := x;
     listeners := listeners s |}.
Definition set_listeners (x : list string) (s : VrrpServer) : VrrpServer :=
  {| vrrpGblInfo := vrrpGblInfo s; vrrpIntfStateSlice := vrrpIntfStateSlice s;
     vrrpLinuxIfIndex2AsicdIfIndex := vrrpLinuxIfIndex2AsicdIfIndex s;
     vrrpIfIndexIpAddr := vrrpIfIndexIpAddr s; vrrpVlanId2Name := vrrpVlanId2Name s;
     vrrpMacConfigAdded := vrrpMacConfigAdded s; VrrpCreateIntfConfigCh := VrrpCreateIntfConfigCh s;
     VrrpDeleteIntfConfigCh := VrrpDeleteIntfConfigCh s; VrrpUpdateIntfConfigCh := VrrpUpdateIntfConfigCh s;
     vrrpRxPktCh := vrrpRxPktCh s; vrrpTxPktCh := vrrpTxPktCh s; vrrpFsmCh := vrrpFsmCh s;
     timers := timers s; listeners := x |}.

Definition set_g_IntfConfig (x : VrrpIntf) (g : VrrpGlobalInfo) : VrrpGlobalInfo :=
  {| g_IntfConfig := x; g_VirtualRouterMACAddress := g_VirtualRouterMACAddress g;
     g_MasterAdverInterval := g_MasterAdverInterval g; g_SkewTime := g_SkewTime g;
     g_MasterDownValue := g_MasterDownValue g; g_MasterDownTimer := g_MasterDownTimer g;
     g_AdverTimer := g_AdverTimer g; g_IpAddr := g_IpAddr g; g_pHandle := g_pHandle g;
     g_StateName := g_StateName g; g_StateInfo := g_StateInfo g; g_locks := g_locks g |}.
Definition set_g_VirtualRouterMACAddress (x : string) (g : VrrpGlobalInfo) : VrrpGlobalInfo :=
  {| g_IntfConfig := g_IntfConfig g; g_VirtualRouterMACAddress := x;
     g_MasterAdverInterval := g_MasterAdverInterval g; g_SkewTime := g_SkewTime g;
     g_MasterDownValue := g_MasterDownValue g; g_MasterDownTimer := g_MasterDownTimer g;
     g_AdverTimer := g_AdverTimer g; g_IpAddr := g_IpAddr g; g_pHandle := g_pHandle g;
     g_StateName := g_StateName g; g_StateInfo := g_StateInfo g; g_locks := g_locks g |}.
Definition set_g_MasterAdverInterval (x : Z) (g : VrrpGlobalInfo) : VrrpGlobalInfo :=
  {| g_IntfConfig := g_IntfConfig g; g_VirtualRouterMACAddress := g_VirtualRouterMACAddress g;
     g_MasterAdverInterval := x; g_SkewTime := g_SkewTime g; g_MasterDownValue := g_MasterDownValue g;
     g_MasterDownTimer := g_MasterDownTimer g; g_AdverTimer := g_AdverTimer g; g_IpAddr := g_IpAddr g;
     g_pHandle := g_pHandle g; g_StateName := g_StateName g; g_StateInfo := g_StateInfo g;
     g_locks := g_locks g |}.
Definition set_g_SkewTime (x : Z) (g : VrrpGlobalInfo) : VrrpGlobalInfo :=
  {| g_IntfConfig := g_IntfConfig g; g_VirtualRouterMACAddress := g_VirtualRouterMACAddress g;
     g_MasterAdverInterval := g_MasterAdverInterval g; g_SkewTime := x;
     g_MasterDownValue := g_MasterDownValue g; g_MasterDownTimer := g_MasterDownTimer g;
     g_AdverTimer := g_AdverTimer g; g_IpAddr := g_IpAddr g; g_pHandle := g_pHandle g;
     g_StateName := g_StateName g; g_StateInfo := g_StateInfo g; g_locks := g_locks g |}.
Definition set_g_MasterDownValue (x : Z) (g : VrrpGlobalInfo) : VrrpGlobalInfo :=
  {| g_IntfConfig := g_IntfConfig g; g_VirtualRouterMACAddress := g_VirtualRouterMACAddress g;
     g_MasterAdverInterval := g_MasterAdverInterval g; g_SkewTime := g_SkewTime g; g_MasterDownValue := x;
     g_MasterDownTimer := g_MasterDownTimer g; g_AdverTimer := g_AdverTimer g; g_IpAddr := g_IpAddr g;
     g_pHandle := g_pHandle g; g_StateName := g_StateName g; g_StateInfo := g_StateInfo g;
     g_locks := g_locks g |}.
Definition set_g_MasterDownTimer (x : option nat) (g : VrrpGlobalInfo) : VrrpGlobalInfo :=
  {| g_IntfConfig := g_IntfConfig g; g_VirtualRouterMACAddress := g_VirtualRouterMACAddress g;
     g_MasterAdverInterval := g_MasterAdverInterval g; g_SkewTime := g_SkewTime g;
     g_MasterDownValue := g_MasterDownValue g; g_MasterDownTimer := x; g_AdverTimer := g_AdverTimer g;
     g_IpAddr := g_IpAddr g; g_pHandle := g_pHandle g; g_StateName := g_StateName g;
     g_StateInfo := g_StateInfo g; g_locks := g_locks g |}.
Definition set_g_AdverTimer (x : option nat) (g : VrrpGlobalInfo) : VrrpGlobalInfo :=
  {| g_IntfConfig := g_IntfConfig g; g_VirtualRouterMACAddress := g_VirtualRouterMACAddress g;
     g_MasterAdverInterval := g_MasterAdverInterval g; g_SkewTime := g_SkewTime g;
     g_MasterDownValue := g_MasterDownValue g; g_MasterDownTimer := g_MasterDownTimer g; g_AdverTimer := x;
     g_IpAddr := g_IpAddr g; g_pHandle := g_pHandle g; g_StateName := g_StateName g;
     g_StateInfo := g_StateInfo g; g_locks := g_locks g |}.
Definition set_g_IpAddr (x : string) (g : VrrpGlobalInfo) : VrrpGlobalInfo :=
  {| g_IntfConfig := g_IntfConfig g; g_VirtualRouterMACAddress := g_VirtualRouterMACAddress g;
     g_MasterAdverInterval := g_MasterAdverInterval g; g_SkewTime := g_SkewTime g;
     g_MasterDownValue := g_MasterDownValue g; g_MasterDownTimer := g_MasterDownTimer g;
     g_AdverTimer := g_AdverTimer g; g_IpAddr := x; g_pHandle := g_pHandle g; g_StateName := g_StateName g;
     g_StateInfo := g_StateInfo g; g_locks := g_locks g |}.
Definition set_g_pHandle (x : bool) (g : VrrpGlobalInfo) : VrrpGlobalInfo :=
  {| g_IntfConfig := g_IntfConfig g; g_VirtualRouterMACAddress := g_VirtualRouterMACAddress g;
     g_MasterAdverInterval := g_MasterAdverInterval g; g_SkewTime := g_SkewTime g;
     g_MasterDownValue := g_MasterDownValue g; g_MasterDownTimer := g_MasterDownTimer g;
     g_AdverTimer := g_AdverTimer g; g_IpAddr := g_IpAddr g; g_pHandle := x; g_StateName := g_StateName g;
     g_StateInfo := g_StateInfo g; g_locks := g_locks g |}.
Definition set_g_StateName (x : string) (g : VrrpGlobalInfo) : VrrpGlobalInfo :=
  {| g_IntfConfig := g_IntfConfig g; g_VirtualRouterMACAddress := g_VirtualRouterMACAddress g;
     g_MasterAdverInterval := g_MasterAdverInterval g; g_SkewTime := g_SkewTime g;
     g_MasterDownValue := g_MasterDownValue g; g_MasterDownTimer := g_MasterDownTimer g;
     g_AdverTimer := g_AdverTimer g; g_IpAddr := g_IpAddr g; g_pHandle := g_pHandle g; g_StateName := x;
     g_StateInfo := g_StateInfo g; g_locks := g_locks g |}.
Definition set_g_StateInfo (x : VrrpGlobalStateInfo) (g : VrrpGlobalInfo) : VrrpGlobalInfo :=
  {| g_IntfConfig := g_IntfConfig g; g_VirtualRouterMACAddress := g_VirtualRouterMACAddress g;
     g_MasterAdverInterval := g_MasterAdverInterval g; g_SkewTime := g_SkewTime g;
     g_MasterDownValue := g_MasterDownValue g; g_MasterDownTimer := g_MasterDownTimer g;
     g_AdverTimer := g_AdverTimer g; g_IpAddr := g_IpAddr g; g_pHandle := g_pHandle g;
     g_StateName := g_StateName g; g_StateInfo := x; g_locks := g_locks g |}.
Definition set_g_locks (x : bool) (g : VrrpGlobalInfo) : VrrpGlobalInfo :=
  {| g_IntfConfig := g_IntfConfig g; g_VirtualRouterMACAddress := g_VirtualRouterMACAddress g;
     g_MasterAdverInterval := g_MasterAdverInterval g; g_SkewTime := g_SkewTime g;
     g_MasterDownValue := g_MasterDownValue g; g_MasterDownTimer := g_MasterDownTimer g;
     g_AdverTimer := g_AdverTimer g; g_IpAddr := g_IpAddr g; g_pHandle := g_pHandle g;
     g_StateName := g_StateName g; g_StateInfo := g_StateInfo g; g_locks := x |}.

(** The zero values a missing entry of the map has. *)
Definition zero_intf : VrrpIntf :=
  {| IfIndex := 0; VRID := 0; Priority := 0; VirtualIPv4Addr := ""; AdvertisementInterval := 0;
     PreemptMode := false; AcceptMode := false |}.
Definition zero_info : VrrpGlobalInfo :=
  {| g_IntfConfig := zero_intf; g_VirtualRouterMACAddress := ""; g_MasterAdverInterval := 0; g_SkewTime := 0;
     g_MasterDownValue := 0; g_MasterDownTimer := None; g_AdverTimer := None; g_IpAddr := ""; g_pHandle := false;
     g_StateName := "";
     g_StateInfo := {| AdverRx := 0; AdverTx := 0; MasterIp := ""; LastAdverRx := ""; LastAdverTx := "";
                       PreviousFsmState := ""; CurrentFsmState := ""; ReasonForTransition := "" |};
     g_locks := false |}.

(** ** Goroutines *)

Record SubIPv4Intf := { si_IpAddr : string; si_IntfRef : string; si_Enable : bool; si_MacAddr : string }.

(** Calls of other daemons, the kernel and the packet library; they return whether they succeeded. *)
Inductive Extern :=
  | UpdateSubIPv4Intf (config : SubIPv4Intf) (attrset : list bool)
  | EnablePacketReception
  | DisablePacketReception
  | OpenLive (ifIndex : Z)
  | InterfaceByName (name : string)
  | WritePacketData (pkt : VrrpTxPkt).

(** What a goroutine does next: it ends with a result; acts on the shared state; sends on a buffered
    channel; receives from or sends on [vrrpPktSend], which has no buffer; calls something outside;
    reads the clock; starts the channel handler; or panics. *)
Inductive proc (A : Type) : Type :=
  | Ret (a : A)
  | Atomic (X : Type) (f : VrrpServer -> X * VrrpServer) (k : X -> proc A)
  | SendTx (m : VrrpTxChannelInfo) (k : proc A)
  | SendFsm (m : VrrpFsm) (k : proc A)
  | WaitSent (k : proc A)
  | SignalSent (k : proc A)
  | Call (c : Extern) (k : bool -> proc A)
  | Now (k : string -> proc A)
  | GoHandler (k : proc A)
  | Crash.
Arguments Ret {A} a.
Arguments Atomic {A X} f k.
Arguments SendTx {A} m k.
Arguments SendFsm {A} m k.
Arguments WaitSent {A} k.
Arguments SignalSent {A} k.
Arguments Call {A} c k.
Arguments Now {A} k.
Arguments GoHandler {A} k.
Arguments Crash {A}.

#[export] Instance proc_ret : MRet proc := fun A a => Ret a.
Fixpoint pbind {A B} (h : A -> proc B) (p : proc A) : proc B :=
  match p with
  | Ret a => h a
  | Atomic f k => Atomic f (fun x => pbind h (k x))
  | SendTx m k => SendTx m (pbind h k)
  | SendFsm m k => SendFsm m (pbind h k)
  | WaitSent k => WaitSent (pbind h k)
  | SignalSent k => SignalSent (pbind h k)
  | Call c k => Call c (fun b => pbind h (k b))
  | Now k => Now (fun t => pbind h (k t))
  | GoHandler k => GoHandler (pbind h k)
  | Crash => Crash
  end.
#[export] Instance proc_bind : MBind proc := @pbind.

Definition atomic {X} (f : VrrpServer -> X * VrrpServer) : proc X := Atomic f Ret.
Definition get {X} (f : VrrpServer -> X) : proc X := atomic (fun s => (f s, s)).
Definition update_server (f : VrrpServer -> VrrpServer) : proc () := atomic (fun s => (tt, f s)).
Definition call (c : Extern) : proc bool := Call c Ret.
Definition now : proc string := Now Ret.
Definition send_tx (m : VrrpTxChannelInfo) : proc () := SendTx m (Ret tt).
Definition send_fsm (m : VrrpFsm) : proc () := SendFsm m (Ret tt).
Definition wait_sent : proc () := WaitSent (Ret tt).
Definition signal_sent : proc () := SignalSent (Ret tt).

(** [svr.vrrpGblInfo[key]], with and without the second result, and the assignment. *)
Definition load (key : string) : proc (option VrrpGlobalInfo) := get (fun s => vrrpGblInfo s !! key).
Definition load_value (key : string) : proc VrrpGlobalInfo :=
  get (fun s => default zero_info (vrrpGblInfo s !! key)).
Definition store (key : string) (g : VrrpGlobalInfo) : proc () :=
  update_server (fun s => set_vrrpGblInfo (<[key := g]> (vrrpGblInfo s)) s).

(** [gblInfo.xxxLock.Lock()] *)
Definition lock (g : VrrpGlobalInfo) : proc () := if g_locks g then Ret tt else Crash.

(** [time.AfterFunc(d, f)], and [t.Reset(d)] and [t.Stop()], which a nil timer does not survive. *)
Definition AfterFunc (d : Z) (f : TimerFunc) : proc nat :=
  atomic (fun s => (length (timers s), set_timers (timers s ++ [{| tm_func := f; tm_running := Some d |}]) s)).
Definition set_running (r : option Z) (t : Timer) : Timer := {| tm_func := tm_func t; tm_running := r |}.
Definition timer_Reset (t : option nat) (d : Z) : proc () :=
  match t with
  | Some i => update_server (fun s => set_timers (alter (set_running (Some d)) i (timers s)) s)
  | None => Crash
  end.
Definition timer_Stop (t : option nat) : proc () :=
  match t with
  | Some i => update_server (fun s => set_timers (alter (set_running None) i (timers s)) s)
  | None => Crash
  end.

(** ** The state machine ([vrrpdFsm.go]) *)

Definition has_slash (s : string) : bool := bool_decide (47 ∈ char_codes s).
Definition VrrpUpdateSubIntf (gblInfo : VrrpGlobalInfo) (configure : bool) : proc () :=
  let vip := VirtualIPv4Addr (g_IntfConfig gblInfo) in
  let vip := if has_slash vip then vip else vip +:+ "/32" in
  let config := {| si_IpAddr := vip; si_IntfRef := pretty (IfIndex (g_IntfConfig gblInfo));
                   si_Enable := configure; si_MacAddr := g_VirtualRouterMACAddress gblInfo |} in
  _ ← call (UpdateSubIPv4Intf config [false; false; false; configure; true]);
  Ret tt.

Definition set_state_info (currentSt reason : string) (gblInfo : VrrpGlobalInfo) : VrrpGlobalInfo :=
  let i := g_StateInfo gblInfo in
  set_g_StateInfo
    {| AdverRx := AdverRx i; AdverTx := AdverTx i; MasterIp := MasterIp i; LastAdverRx := LastAdverRx i;
       LastAdverTx := LastAdverTx i; PreviousFsmState := g_StateName gblInfo; CurrentFsmState := currentSt;
       ReasonForTransition := reason |} gblInfo.

Definition VrrpUpdateStateInfo (key reason currentSt : string) : proc () :=
  r ← load key;
  match r with
  | None => Ret tt
  | Some gblInfo =>
    _ ← lock gblInfo;
    store key (set_state_info currentSt reason gblInfo)
  end.

(** The callback of the advertisement timer. *)
Definition adver_timer_func (key : string) : proc () :=
  _ ← send_tx {| t_key := key; t_priority := VRRP_IGNORE_PRIORITY |};
  _ ← wait_sent;
  r ← load key;
  match r with
  | None => Ret tt
  | Some gblInfo =>
    _ ← timer_Reset (g_AdverTimer gblInfo) (AdvertisementInterval (g_IntfConfig gblInfo));
    store key gblInfo
  end.

Definition VrrpHandleMasterAdverTimer (key : string) : proc () :=
  r ← load key;
  match r with
  | None => Ret tt
  | Some gblInfo =>
    t ← AfterFunc (AdvertisementInterval (g_IntfConfig gblInfo)) (AdverExpired key);
    let gblInfo := set_g_AdverTimer (Some t) gblInfo in
    _ ← lock gblInfo;
    store key (set_g_StateName VRRP_MASTER_STATE gblInfo)
  end.

Definition VrrpTransitionToMaster (key reason : string) : proc () :=
  _ ← send_tx {| t_key := key; t_priority := VRRP_IGNORE_PRIORITY |};
  _ ← wait_sent;
  _ ← VrrpUpdateStateInfo key reason VRRP_MASTER_STATE;
  r ← load key;
  match r with
  | None => Ret tt
  | Some gblInfo =>
    _ ← VrrpUpdateSubIntf gblInfo true;
    VrrpHandleMasterAdverTimer key
  end.

(** The callback of the master down timer. *)
Definition master_down_func (key : string) : proc () := VrrpTransitionToMaster key "Master Down Timer expired".

Definition VrrpHandleMasterDownTimer (key : string) : proc () :=
  r ← load key;
  match r with
  | None => Ret tt
  | Some gblInfo =>
    gblInfo ←
      match g_MasterDownTimer gblInfo with
      | Some t =>
        _ ← lock gblInfo;
        _ ← timer_Reset (Some t) (g_MasterDownValue gblInfo);
        Ret gblInfo
      | None =>
        _ ← lock gblInfo;
        t ← AfterFunc (g_MasterDownValue gblInfo) (MasterDownExpired key);
        Ret (set_g_MasterDownTimer (Some t) gblInfo)
      end;
    _ ← lock gblInfo;
    store key (set_g_StateName VRRP_BACKUP_STATE gblInfo)
  end.

(** 32-bit arithmetic, in whole seconds; Go's division truncates. *)
Definition VrrpCalculateDownValue (AdvertisementInterval : Z) (gblInfo : VrrpGlobalInfo) : VrrpGlobalInfo :=
  let gblInfo := set_g_MasterAdverInterval AdvertisementInterval gblInfo in
  let gblInfo :=
    if negb (Priority (g_IntfConfig gblInfo) =? 0) && negb (g_MasterAdverInterval gblInfo =? 0)
    then set_g_SkewTime
           (Z.quot (s32 (s32 (256 - Priority (g_IntfConfig gblInfo)) * g_MasterAdverInterval gblInfo)) 256) gblInfo
    else gblInfo in
  set_g_MasterDownValue (s32 (s32 (3 * g_MasterAdverInterval gblInfo) + g_SkewTime gblInfo)) gblInfo.

Definition VrrpTransitionToBackup (key : string) (AdvertisementInterval : Z) (reason : string) : proc () :=
  r ← load key;
  match r with
  | None => Ret tt
  | Some gblInfo =>
    _ ← VrrpUpdateSubIntf gblInfo false;
    _ ← lock gblInfo;
    _ ← store key (VrrpCalculateDownValue AdvertisementInterval gblInfo);
    _ ← VrrpUpdateStateInfo key reason VRRP_BACKUP_STATE;
    VrrpHandleMasterDownTimer key
  end.

Definition VrrpInitState (key : string) : proc () :=
  r ← load key;
  match r with
  | None => Ret tt
  | Some gblInfo =>
    if Priority (g_IntfConfig gblInfo) =? VRRP_MASTER_PRIORITY
    then VrrpTransitionToMaster key "Priority is 255"
    else VrrpTransitionToBackup key (AdvertisementInterval (g_IntfConfig gblInfo)) "Priority is not 255"
  end.

(** What an advertisement leaves in the statistics of a backup router. *)
Definition note_advert (src time : string) (gblInfo : VrrpGlobalInfo) : VrrpGlobalInfo :=
  let i := g_StateInfo gblInfo in
  set_g_StateInfo
    {| AdverRx := u32 (AdverRx i + 1); AdverTx := AdverTx i; MasterIp := src; LastAdverRx := time;
       LastAdverTx := LastAdverTx i; PreviousFsmState := PreviousFsmState i; CurrentFsmState := g_StateName gblInfo;
       ReasonForTransition := ReasonForTransition i |} gblInfo.

(** The part of [VrrpBackupState] that handles an advertisement. *)
Definition backup_advert (ipHdr : IPv4Layer) (vrrpHdr : VrrpPktHeader) (key : string) (gblInfo : VrrpGlobalInfo)
  : proc () :=
  _ ← lock gblInfo;
  time ← now;
  let gblInfo := note_advert (ip_String (l_SrcIP ipHdr)) time gblInfo in
  _ ← store key gblInfo;
  if vh_Priority vrrpHdr =? 0 then
    _ ← lock gblInfo;
    _ ← store key (set_g_MasterDownValue (g_SkewTime gblInfo) gblInfo);
    VrrpHandleMasterDownTimer key
  else if negb (PreemptMode (g_IntfConfig gblInfo)) then
    if vh_Priority vrrpHdr >=? u8 (Priority (g_IntfConfig gblInfo)) then
      _ ← lock gblInfo;
      _ ← store key (VrrpCalculateDownValue (MaxAdverInt vrrpHdr) gblInfo);
      VrrpHandleMasterDownTimer key
    else Ret tt
  else if vh_Priority vrrpHdr >=? u8 (Priority (g_IntfConfig gblInfo)) then Ret tt
  else VrrpTransitionToMaster key "Preempt is true and local Priority is higher than remote".

(** A nil packet or header is dereferenced. *)
Definition VrrpBackupState (inPkt : option Packet) (vrrpHdr : option VrrpPktHeader) (key : string) : proc () :=
  match inPkt with
  | None => Crash
  | Some pkt =>
    match p_DstMAC pkt with
    | None => Ret tt
    | Some DstMAC =>
      r ← load key;
      match r with
      | None => Ret tt
      | Some gblInfo =>
        if bool_decide (mac_String DstMAC = g_VirtualRouterMACAddress gblInfo) then Ret tt
        else match p_IPv4 pkt with
             | None => Ret tt
             | Some ipHdr =>
               if bool_decide (ip_String (l_DstIP ipHdr) = g_IpAddr gblInfo) then Ret tt
               else match vrrpHdr with
                    | None => Crash
                    | Some hdr =>
                      if Type_ hdr =? VRRP_PKT_TYPE_ADVERTISEMENT then backup_advert ipHdr hdr key gblInfo
                      else Ret tt
                    end
             end
      end
    end
  end.

(** The remote master is the better one: the test of [VrrpMasterState]. *)
Definition new_master (vrrpHdr : VrrpPktHeader) (ipHdr : IPv4Layer) (gblInfo : VrrpGlobalInfo) : bool :=
  (vh_Priority vrrpHdr >? Priority (g_IntfConfig gblInfo))
  || ((vh_Priority vrrpHdr =? Priority (g_IntfConfig gblInfo))
      && match bytes_Compare (l_SrcIP ipHdr) (default [] (ParseIP (g_IpAddr gblInfo))) with Gt => true | _ => false end).

Definition VrrpMasterState (inPkt : option Packet) (vrrpHdr : option VrrpPktHeader) (key : string) : proc () :=
  match vrrpHdr with
  | None => Crash
  | Some hdr =>
    if vh_Priority hdr =? VRRP_MASTER_DOWN_PRIORITY then
      _ ← send_tx {| t_key := key; t_priority := VRRP_IGNORE_PRIORITY |};
      _ ← wait_sent;
      VrrpHandleMasterAdverTimer key
    else
      match inPkt with
      | None => Crash
      | Some pkt =>
        match p_IPv4 pkt with
        | None => Ret tt
        | Some ipHdr =>
          r ← load key;
          match r with
          | None => Ret tt
          | Some gblInfo =>
            if new_master hdr ipHdr gblInfo then
              _ ← match g_AdverTimer gblInfo with Some t => timer_Stop (Some t) | None => Ret tt end;
              _ ← store key gblInfo;
              VrrpTransitionToBackup key (MaxAdverInt hdr)
                "Remote Priority is higher OR (priority are equal AND remote ip is higher than local ip)"
            else Ret tt
          end
        end
      end
  end.

Definition VrrpFsmStart (fsmObj : VrrpFsm) : proc () :=
  let key := f_key fsmObj in
  r ← load key;
  match r with
  | None => Ret tt
  | Some gblInfo =>
    _ ← lock gblInfo;
    if bool_decide (g_StateName gblInfo = VRRP_INITIALIZE_STATE) then VrrpInitState key
    else if bool_decide (g_StateName gblInfo = VRRP_BACKUP_STATE)
         then VrrpBackupState (f_inPkt fsmObj) (f_vrrpHdr fsmObj) key
    else if bool_decide (g_StateName gblInfo = VRRP_MASTER_STATE)
         then VrrpMasterState (f_inPkt fsmObj) (f_vrrpHdr fsmObj) key
    else Ret tt
  end.

(** The interface index a key starts with; [strings.Split(key, "_")]. *)
Definition key_ifindex (key : string) : Z :=
  s32 (Atoi (match cut 95 (char_codes key) with Some (a, _) => a | None => char_codes key end)).
Definition key_has_vrid (key : string) : bool := bool_decide (95 ∈ char_codes key).

(** Here and in [intf_up] the range is over the keys the slice has when the loop starts. The code reads the array of the slice as it
    goes on, and a deletion by the other goroutine in between shifts that array in place (the [append] of VrrpDeleteGblInfo), so that a key
    can be missed and the last one be seen twice: runs with a deletion in the middle of a range are not those of the code in this. *)
Fixpoint stop_timers (IfIndex : Z) (keys : list string) : proc () :=
  match keys with
  | [] => Ret tt
  | key :: keys =>
    if negb (key_ifindex key =? IfIndex) then stop_timers IfIndex keys
    else
      r ← load key;
      if negb (key_has_vrid key) then Crash
      else match r with
           | None => Ret tt
           | Some gblInfo =>
             _ ← match g_MasterDownTimer gblInfo with Some t => timer_Stop (Some t) | None => Ret tt end;
             _ ← match g_AdverTimer gblInfo with Some t => timer_Stop (Some t) | None => Ret tt end;
             _ ← lock gblInfo;
             _ ← (if bool_decide (g_StateName gblInfo = VRRP_MASTER_STATE) then
                    _ ← send_tx {| t_key := key; t_priority := VRRP_MASTER_DOWN_PRIORITY |};
                    wait_sent
                  else Ret tt);
             _ ← store key (set_g_StateName VRRP_INITIALIZE_STATE gblInfo);
             stop_timers IfIndex keys
           end
  end.
Definition VrrpStopTimers (IfIndex : Z) : proc () := keys ← get vrrpIntfStateSlice; stop_timers IfIndex keys.
Definition VrrpHandleIntfShutdownEvent (IfIndex : Z) : proc () := VrrpStopTimers IfIndex.

Fixpoint intf_up (IfIndex : Z) (keys : list string) : proc () :=
  match keys with
  | [] => Ret tt
  | key :: keys =>
    if negb (key_ifindex key =? IfIndex) then intf_up IfIndex keys
    else
      r ← load key;
      match r with
      | None => if key_has_vrid key then Ret tt else Crash
      | Some gblInfo =>
        _ ← send_fsm {| f_key := key; f_vrrpHdr := None; f_inPkt := None |};
        intf_up IfIndex keys
      end
  end.
Definition VrrpHandleIntfUpEvent (IfIndex : Z) : proc () := keys ← get vrrpIntfStateSlice; intf_up IfIndex keys.

(** ** Packets ([vrrpdProtocolRx.go], [vrrpdProtocolTx.go]) *)

(** An error or a refusal drops the packet; the header of an accepted one goes to the state machine. *)
Definition VrrpCheckRcvdPkt (packet : Packet) (key : string) : proc () :=
  gblInfo ← load_value key;
  _ ← lock gblInfo;
  if bool_decide (g_StateName gblInfo = VRRP_INITIALIZE_STATE) then Ret tt
  else match p_IPv4 packet with
       | None => Ret tt
       | Some ipHdr =>
         if negb (l_TTL ipHdr =? VRRP_TTL) then Ret tt
         else match l_payload ipHdr with
              | None => Ret tt
              | Some (ipPayload, spare) =>
                match VrrpDecodeHeader ipPayload spare with
                | Ok vrrpHeader =>
                  gblInfo ← load_value key;
                  match VrrpCheckHeader gblInfo vrrpHeader ipPayload spare with
                  | Ok _ => send_fsm {| f_key := key; f_vrrpHdr := Some vrrpHeader; f_inPkt := Some packet |}
                  | Err _ => Ret tt
                  | _ => Crash
                  end
                | Err _ => Ret tt
                | _ => Crash
                end
              end
       end.

Definition VrrpUpdateProtocolMacEntry (add : bool) : proc () :=
  if add then
    inserted ← call EnablePacketReception;
    if (inserted : bool) then update_server (set_vrrpMacConfigAdded true) else Ret tt
  else
    deleted ← call DisablePacketReception;
    if (deleted : bool) then update_server (set_vrrpMacConfigAdded false) else Ret tt.

Definition VrrpInitPacketListener (key : string) (IfIndex : Z) : proc () :=
  ok ← get (fun s => bool_decide (IfIndex ∈ vrrpLinuxIfIndex2AsicdIfIndex s));
  if negb (ok : bool) then Ret tt
  else
    opened ← call (OpenLive IfIndex);
    if negb (opened : bool) then Ret tt
    else
      gblInfo ← load_value key;
      _ ← lock gblInfo;
      _ ← store key (set_g_pHandle true gblInfo);
      update_server (fun s => set_listeners (listeners s ++ [key]) s).

(** The statistics of a sent advertisement. *)
Definition VrrpUpdateMasterTimerStateInfo (time : string) (gblInfo : VrrpGlobalInfo) : VrrpGlobalInfo :=
  let i := g_StateInfo gblInfo in
  set_g_StateInfo
    {| AdverRx := AdverRx i; AdverTx := u32 (AdverTx i + 1); MasterIp := MasterIp i; LastAdverRx := LastAdverRx i;
       LastAdverTx := time; PreviousFsmState := PreviousFsmState i; CurrentFsmState := CurrentFsmState i;
       ReasonForTransition := ReasonForTransition i |} gblInfo.

Definition set_Priority (p : Z) (c : VrrpIntf) : VrrpIntf :=
  {| IfIndex := IfIndex c; VRID := VRID c; Priority := p; VirtualIPv4Addr := VirtualIPv4Addr c;
     AdvertisementInterval := AdvertisementInterval c; PreemptMode := PreemptMode c; AcceptMode := AcceptMode c |}.

Definition VrrpSendPkt (key : string) (priority : Z) : proc () :=
  r ← load key;
  match r with
  | None => Ret tt
  | Some gblInfo =>
    _ ← lock gblInfo;
    if negb (g_pHandle gblInfo) then Ret tt
    else
      let sent := if priority =? VRRP_MASTER_DOWN_PRIORITY
                  then set_g_IntfConfig (set_Priority (s32 priority) (g_IntfConfig gblInfo)) gblInfo else gblInfo in
      match VrrpCreateVrrpHeader sent with
      | Ok (vrrpEncHdr, hdrLen) =>
        _ ← call (WritePacketData (VrrpCreateSendPkt sent vrrpEncHdr hdrLen));
        time ← now;
        _ ← store key (VrrpUpdateMasterTimerStateInfo time gblInfo);
        signal_sent
      | Err _ => Ret tt
      | _ => Crash
      end
  end.

(** ** Configuration ([vrrpdServer.go]) *)

Definition intf_key (config : VrrpIntf) : string := pretty (IfIndex config) +:+ "_" +:+ pretty (VRID config).

Definition VrrpUpdateIntfIpAddr (addrs : gmap Z string) (gblInfo : VrrpGlobalInfo) : VrrpGlobalInfo :=
  set_g_IpAddr (default "" (addrs !! IfIndex (g_IntfConfig gblInfo))) gblInfo.

(** The entry of a new configuration, made of the entry [gblInfo] the key had. *)
Definition created_info (config : VrrpIntf) (addrs : gmap Z string) (gblInfo : VrrpGlobalInfo) : VrrpGlobalInfo :=
  let gblInfo := set_g_IntfConfig
    {| IfIndex := IfIndex config; VRID := VRID config; Priority := Priority config;
       VirtualIPv4Addr := VirtualIPv4Addr config;
       AdvertisementInterval := if AdvertisementInterval config =? 0 then 1 else AdvertisementInterval config;
       PreemptMode := PreemptMode config; AcceptMode := AcceptMode config |} gblInfo in
  let gblInfo := set_g_VirtualRouterMACAddress (virtual_mac (VRID config)) gblInfo in
  let gblInfo := set_g_locks true gblInfo in
  set_g_StateName VRRP_INITIALIZE_STATE (VrrpUpdateIntfIpAddr addrs gblInfo).

Definition VrrpCreateGblInfo (config : VrrpIntf) : proc () :=
  let key := intf_key config in
  gblInfo ← load_value key;
  addrs ← get vrrpIfIndexIpAddr;
  _ ← store key (created_info config addrs gblInfo);
  _ ← update_server (fun s => set_vrrpIntfStateSlice (vrrpIntfStateSlice s ++ [key]) s);
  _ ← VrrpInitPacketListener key (IfIndex config);
  added ← get vrrpMacConfigAdded;
  _ ← (if negb (added : bool) then VrrpUpdateProtocolMacEntry true else Ret tt);
  send_fsm {| f_key := key; f_vrrpHdr := None; f_inPkt := None |}.

(** The first occurrence of [key] is cut out. *)
Fixpoint remove_key (key : string) (keys : list string) : list string :=
  match keys with
  | [] => []
  | k :: keys => if bool_decide (k = key) then keys else k :: remove_key key keys
  end.

Definition VrrpDeleteGblInfo (config : VrrpIntf) : proc () :=
  let key := intf_key config in
  r ← load key;
  _ ← match r with Some gblInfo => VrrpUpdateSubIntf gblInfo false | None => Ret tt end;
  _ ← update_server (fun s => set_vrrpGblInfo (delete key (vrrpGblInfo s)) s);
  _ ← update_server (fun s => set_vrrpIntfStateSlice (remove_key key (vrrpIntfStateSlice s)) s);
  n ← get (fun s => length (vrrpIntfStateSlice s));
  if Nat.eqb n 0 then VrrpUpdateProtocolMacEntry false else Ret tt.

(** The loop over [attrset]: attribute [elem] and those after it. *)
Fixpoint update_attrs (newconfig : VrrpIntf) (elem : nat) (attrset : list bool) (c : VrrpIntf) (updDownTimer : bool)
  : VrrpIntf * bool :=
  match attrset with
  | [] => (c, updDownTimer)
  | false :: attrset => update_attrs newconfig (S elem) attrset c updDownTimer
  | true :: attrset =>
    let '(c, upd) :=
      match elem with
      | 2%nat => (set_Priority (Priority newconfig) c, updDownTimer)
      | 3%nat => ({| IfIndex := IfIndex c; VRID := VRID c; Priority := Priority c;
                     VirtualIPv4Addr := VirtualIPv4Addr newconfig; AdvertisementInterval := AdvertisementInterval c;
                     PreemptMode := PreemptMode c; AcceptMode := AcceptMode c |}, updDownTimer)
      | 4%nat => ({| IfIndex := IfIndex c; VRID := VRID c; Priority := Priority c;
                     VirtualIPv4Addr := VirtualIPv4Addr c;
                     AdvertisementInterval := AdvertisementInterval newconfig;
                     PreemptMode := PreemptMode c; AcceptMode := AcceptMode c |}, true)
      | 5%nat => ({| IfIndex := IfIndex c; VRID := VRID c; Priority := Priority c;
                     VirtualIPv4Addr := VirtualIPv4Addr c; AdvertisementInterval := AdvertisementInterval c;
                     PreemptMode := PreemptMode newconfig; AcceptMode := AcceptMode c |}, updDownTimer)
      | 6%nat => ({| IfIndex := IfIndex c; VRID := VRID c; Priority := Priority c;
                     VirtualIPv4Addr := VirtualIPv4Addr c; AdvertisementInterval := AdvertisementInterval c;
                     PreemptMode := PreemptMode c; AcceptMode := AcceptMode newconfig |}, updDownTimer)
      | _ => (c, updDownTimer)
      end in
    update_attrs newconfig (S elem) attrset c upd
  end.

Definition VrrpUpdateIntf (origconfig newconfig : VrrpIntf) (attrset : list bool) : proc () :=
  let key := intf_key origconfig in
  r ← load key;
  match r with
  | None => Ret tt
  | Some gblInfo =>
    let '(c, updDownTimer) := update_attrs newconfig 0 attrset (g_IntfConfig gblInfo) false in
    let gblInfo := set_g_IntfConfig c gblInfo in
    if (updDownTimer : bool) then
      _ ← lock gblInfo;
      _ ← store key (VrrpCalculateDownValue (AdvertisementInterval (g_IntfConfig gblInfo)) gblInfo);
      VrrpHandleMasterDownTimer key
    else store key gblInfo
  end.

(** ** Interfaces ([vrrpdIntf.go]) *)

Section interfaces.
(** [asicdCommonDefs.GetIntfTypeFromIfIndex] and [GetIntfIdFromIfIndex], and the constants of
    [commonDefs] and [asicdCommonDefs], which are other repositories. *)
Context (GetIntfTypeFromIfIndex GetIntfIdFromIfIndex : Z -> Z)
        (IfTypeVirtual IfTypeSecondary INTF_STATE_UP INTF_STATE_DOWN NOTIFY_IPV4INTF_CREATE NOTIFY_IPV4INTF_DELETE
         NOTIFY_VLAN_CREATE NOTIFY_VLAN_DELETE : Z).

Definition VrrpCreateIfIndexEntry (IfIndex : Z) (IpAddr : string) : proc () :=
  update_server (fun s => set_vrrpIfIndexIpAddr (<[IfIndex := IpAddr]> (vrrpIfIndexIpAddr s)) s).

Definition VrrpCreateVlanEntry (vlanId : Z) (vlanName : string) : proc () :=
  update_server (fun s => set_vrrpVlanId2Name (<[vlanId := vlanName]> (vrrpVlanId2Name s)) s).

Definition VrrpMapIfIndexToLinuxIfIndex (IfIndex : Z) : proc () :=
  found ← get (fun s => bool_decide (IfIndex ∈ vrrpLinuxIfIndex2AsicdIfIndex s));
  if (found : bool) then Ret tt
  else
    name ← get (fun s => vrrpVlanId2Name s !! GetIntfIdFromIfIndex IfIndex);
    match name with
    | None => Ret tt
    | Some vlanName =>
      exists_ ← call (InterfaceByName vlanName);
      if (exists_ : bool)
      then update_server (fun s => set_vrrpLinuxIfIndex2AsicdIfIndex ({[IfIndex]} ∪ vrrpLinuxIfIndex2AsicdIfIndex s) s)
      else Ret tt
    end.

Definition VrrpUpdateVlanGblInfo (vlanId : Z) (vlanName : string) (msgType : Z) : proc () :=
  if msgType =? NOTIFY_VLAN_CREATE then VrrpCreateVlanEntry vlanId vlanName
  else if msgType =? NOTIFY_VLAN_DELETE then update_server (fun s => set_vrrpVlanId2Name (delete vlanId (vrrpVlanId2Name s)) s)
  else Ret tt.

Definition VrrpUpdateIPv4GblInfo (IfIndex : Z) (IpAddr : string) (msgType : Z) : proc () :=
  let ifType := GetIntfTypeFromIfIndex IfIndex in
  if (ifType =? IfTypeVirtual) || (ifType =? IfTypeSecondary) then Ret tt
  else if msgType =? NOTIFY_IPV4INTF_CREATE then
    _ ← VrrpCreateIfIndexEntry IfIndex IpAddr;
    VrrpMapIfIndexToLinuxIfIndex IfIndex
  else if msgType =? NOTIFY_IPV4INTF_DELETE
       then update_server (fun s => set_vrrpIfIndexIpAddr (delete IfIndex (vrrpIfIndexIpAddr s)) s)
  else Ret tt.

Definition VrrpUpdateL3IntfStateChange (IfIndex IfState : Z) : proc () :=
  let ifType := GetIntfTypeFromIfIndex IfIndex in
  if (ifType =? IfTypeVirtual) || (ifType =? IfTypeSecondary) then Ret tt
  else if IfState =? INTF_STATE_UP then VrrpHandleIntfUpEvent IfIndex
  else if IfState =? INTF_STATE_DOWN then VrrpHandleIntfShutdownEvent IfIndex
  else Ret tt.

(** The checks of a configuration before it is handed to the server ([rpc/vrrpdRPC.go]). *)
Inductive config_error := VRRP_INVALID_VRID | VRRP_VLAN_NOT_CREATED | VRRP_IPV4_INTF_NOT_CREATED | VRRP_NEED_UNIQUE_INFO.
Definition VrrpValidateIntfConfig (s : VrrpServer) (IfIndex : Z) : outcome config_error unit :=
  match vrrpVlanId2Name s !! GetIntfIdFromIfIndex IfIndex with
  | None => Err VRRP_VLAN_NOT_CREATED
  | Some _ => if bool_decide (IfIndex ∈ vrrpLinuxIfIndex2AsicdIfIndex s) then Ok tt else Err VRRP_IPV4_INTF_NOT_CREATED
  end.
Definition VrrpCheckConfig (s : VrrpServer) (config : VrrpIntf) : outcome config_error unit :=
  if VRID config =? 0 then Err VRRP_INVALID_VRID else VrrpValidateIntfConfig s (IfIndex config).
(** The configuration a call sends to the server. *)
Definition CreateVrrpIntf (s : VrrpServer) (config : VrrpIntf) : outcome config_error VrrpIntf :=
  _ ← VrrpCheckConfig s config; Ok config.
Definition UpdateVrrpIntf (s : VrrpServer) (origconfig newconfig : VrrpIntf) (attrset : list bool)
  : outcome config_error VrrpUpdateConfig :=
  if negb (IfIndex origconfig =? IfIndex newconfig) || negb (VRID origconfig =? VRID newconfig)
  then Err VRRP_NEED_UNIQUE_INFO
  else _ ← VrrpCheckConfig s origconfig; _ ← VrrpCheckConfig s newconfig;
       Ok {| u_OldConfig := origconfig; u_NewConfig := newconfig; u_AttrSet := attrset |}.

(** What the subscriber goroutine does with an event of asicd. *)
Inductive interface_event : proc () -> Prop :=
  | ev_vlan vlanId vlanName msgType : interface_event (VrrpUpdateVlanGblInfo vlanId vlanName msgType)
  | ev_ipv4 IfIndex IpAddr msgType : interface_event (VrrpUpdateIPv4GblInfo IfIndex IpAddr msgType)
  | ev_l3 IfIndex IfState : interface_event (VrrpUpdateL3IntfStateChange IfIndex IfState).
End interfaces.

(** ** Reading the state *)

Record VrrpIntfState := {
  is_IfIndex : Z; is_VRID : Z; is_IntfIpAddr : string; is_Priority : Z; is_VirtualIPv4Addr : string;
  is_AdvertisementInterval : Z; is_PreemptMode : bool; is_VirtualRouterMACAddress : string; is_SkewTime : Z;
  is_MasterDownTimer : Z; is_VrrpState : string;
}.
Definition VrrpPopulateIntfState (infos : gmap string VrrpGlobalInfo) (key : string) : option VrrpIntfState :=
  gblInfo ← infos !! key;
  let c := g_IntfConfig gblInfo in
  Some {| is_IfIndex := IfIndex c; is_VRID := VRID c; is_IntfIpAddr := g_IpAddr gblInfo; is_Priority := Priority c;
          is_VirtualIPv4Addr := VirtualIPv4Addr c; is_AdvertisementInterval := AdvertisementInterval c;
          is_PreemptMode := PreemptMode c; is_VirtualRouterMACAddress := g_VirtualRouterMACAddress gblInfo;
          is_SkewTime := g_SkewTime gblInfo; is_MasterDownTimer := g_MasterDownValue gblInfo;
          is_VrrpState := g_StateName gblInfo |}.

Record VrrpVridState := {
  vs_IfIndex : Z; vs_VRID : Z; vs_AdverRx : Z; vs_AdverTx : Z; vs_CurrentState : string; vs_PreviousState : string;
  vs_LastAdverRx : string; vs_LastAdverTx : string; vs_MasterIp : string; vs_TransitionReason : string;
}.
Definition VrrpPopulateVridState (infos : gmap string VrrpGlobalInfo) (key : string) : option VrrpVridState :=
  gblInfo ← infos !! key;
  let i := g_StateInfo gblInfo in
  Some {| vs_IfIndex := IfIndex (g_IntfConfig gblInfo); vs_VRID := VRID (g_IntfConfig gblInfo);
          vs_AdverRx := s32 (AdverRx i); vs_AdverTx := s32 (AdverTx i); vs_CurrentState := CurrentFsmState i;
          vs_PreviousState := PreviousFsmState i; vs_LastAdverRx := LastAdverRx i; vs_LastAdverTx := LastAdverTx i;
          vs_MasterIp := MasterIp i; vs_TransitionReason := ReasonForTransition i |}.

(** A page of [cnt] entries from entry [idx] on: the next index, the number of entries, the entries
    ([None]: one left at its zero value). [nextIdx] is never set to anything but 0. The slice is not nil:
    some router has been configured. *)
Fixpoint bulk_loop {A} (populate : string -> option A) (keys : list string) (cnt : nat) : list (option A) :=
  match cnt, keys with
  | S cnt, key :: keys => populate key :: bulk_loop populate keys cnt
  | _, _ => []
  end.
Definition get_bulk {A} (populate : string -> option A) (keys : list string) (idx cnt : Z)
  : outcome unit (Z * Z * list (option A)) :=
  if cnt <? 0 then Panic
  else if (0 <? cnt) && (idx <? 0) then Panic
  else let entries := bulk_loop populate (drop (Z.to_nat idx) keys) (Z.to_nat cnt) in
       Ok (0, len entries, entries ++ replicate (Z.to_nat cnt - length entries) None).
Definition VrrpGetBulkVrrpIntfStates (s : VrrpServer) (idx cnt : Z) :=
  get_bulk (VrrpPopulateIntfState (vrrpGblInfo s)) (vrrpIntfStateSlice s) idx cnt.
Definition VrrpGetBulkVrrpVridStates (s : VrrpServer) (idx cnt : Z) :=
  get_bulk (VrrpPopulateVridState (vrrpGblInfo s)) (vrrpIntfStateSlice s) idx cnt.

(** ** The goroutines *)

(** [VrrpReadDB] and the end of [VrrpStartServer]: the stored configurations are created before the
    channel handler is started. *)
Fixpoint VrrpReadDB (objList : list VrrpIntf) : proc () :=
  match objList with
  | [] => Ret tt
  | obj :: objList => _ ← VrrpCreateGblInfo obj; VrrpReadDB objList
  end.
Definition VrrpStartServer (objList : list VrrpIntf) : proc () :=
  _ ← VrrpReadDB objList;
  GoHandler (Ret tt).

(** A case of the [select] of [VrrpChannelHanlder]. *)
Inductive ChannelMsg :=
  | CreateMsg (intfConf : VrrpIntf)
  | DeleteMsg (delConf : VrrpIntf)
  | FsmMsg (fsmInfo : VrrpFsm)
  | TxMsg (sendInfo : VrrpTxChannelInfo)
  | RxMsg (rcvdInfo : VrrpPktChannelInfo)
  | UpdateMsg (updConfg : VrrpUpdateConfig).

Definition VrrpChannelHanlder (m : ChannelMsg) : proc () :=
  match m with
  | CreateMsg intfConf => VrrpCreateGblInfo intfConf
  | DeleteMsg delConf => VrrpDeleteGblInfo delConf
  | FsmMsg fsmInfo => VrrpFsmStart fsmInfo
  | TxMsg sendInfo => VrrpSendPkt (t_key sendInfo) (t_priority sendInfo)
  | RxMsg rcvdInfo => VrrpCheckRcvdPkt (r_pkt rcvdInfo) (r_key rcvdInfo)
  | UpdateMsg updConfg => VrrpUpdateIntf (u_OldConfig updConfg) (u_NewConfig updConfg) (u_AttrSet updConfg)
  end.

(** A receive that is ready: the message, and the state without it. *)
Inductive ready (s : VrrpServer) : ChannelMsg -> VrrpServer -> Prop :=
  | ready_create m l : VrrpCreateIntfConfigCh s = m :: l -> ready s (CreateMsg m) (set_VrrpCreateIntfConfigCh l s)
  | ready_delete m l : VrrpDeleteIntfConfigCh s = m :: l -> ready s (DeleteMsg m) (set_VrrpDeleteIntfConfigCh l s)
  | ready_fsm m l : vrrpFsmCh s = m :: l -> ready s (FsmMsg m) (set_vrrpFsmCh l s)
  | ready_tx m l : vrrpTxPktCh s = m :: l -> ready s (TxMsg m) (set_vrrpTxPktCh l s)
  | ready_rx m l : vrrpRxPktCh s = m :: l -> ready s (RxMsg m) (set_vrrpRxPktCh l s)
  | ready_update m l : VrrpUpdateIntfConfigCh s = m :: l -> ready s (UpdateMsg m) (set_VrrpUpdateIntfConfigCh l s).

Definition timer_func (f : TimerFunc) : proc () :=
  match f with
  | MasterDownExpired key => master_down_func key
  | AdverExpired key => adver_timer_func key
  end.

(** A step a goroutine takes by itself; [b] and [t] are what a call and the clock return. A send on a
    full channel waits. *)
Definition gstep (b : bool) (t : string) (p : proc ()) (s : VrrpServer) : option (proc () * VrrpServer) :=
  match p with
  | Atomic f k => let '(x, s') := f s in Some (k x, s')
  | SendTx m k => if (length (vrrpTxPktCh s) <? VRRP_TX_BUF_CHANNEL_SIZE)%nat
                  then Some (k, set_vrrpTxPktCh (vrrpTxPktCh s ++ [m]) s) else None
  | SendFsm m k => if (length (vrrpFsmCh s) <? VRRP_FSM_CHANNEL_SIZE)%nat
                   then Some (k, set_vrrpFsmCh (vrrpFsmCh s ++ [m]) s) else None
  | Call c k => Some (k b, s)
  | Now k => Some (k t, s)
  | Ret _ | WaitSent _ | SignalSent _ | GoHandler _ | Crash => None
  end.

Inductive Handler := NotStarted | Idle | Running (p : proc ()).

(** The daemon: the channel handler, the other goroutines, and whether a panic has ended it. *)
Record Config := {
  c_server : VrrpServer;
  c_handler : Handler;
  c_others : list (proc ());
  c_crashed : bool;
}.

(** The goroutines that run, the handler being number 0; what one of them becomes. *)
Definition thread (c : Config) (i : nat) : option (proc ()) :=
  match i with
  | O => match c_handler c with Running p => Some p | _ => None end
  | S i => c_others c !! i
  end.
Definition set_thread (i : nat) (p : proc ()) (c : Config) : Config :=
  match i with
  | O => {| c_server := c_server c; c_handler := Running p; c_others := c_others c; c_crashed := c_crashed c |}
  | S i => {| c_server := c_server c; c_handler := c_handler c; c_others := <[i := p]> (c_others c);
              c_crashed := c_crashed c |}
  end.
Definition set_server (s : VrrpServer) (c : Config) : Config :=
  {| c_server := s; c_handler := c_handler c; c_others := c_others c; c_crashed := c_crashed c |}.
Definition set_handler (h : Handler) (c : Config) : Config :=
  {| c_server := c_server c; c_handler := h; c_others := c_others c; c_crashed := c_crashed c |}.
Definition spawn (p : proc ()) (c : Config) : Config :=
  {| c_server := c_server c; c_handler := c_handler c; c_others := c_others c ++ [p]; c_crashed := c_crashed c |}.
Definition crash (c : Config) : Config :=
  {| c_server := c_server c; c_handler := c_handler c; c_others := c_others c; c_crashed := true |}.

(** What comes from outside: a captured packet of an interface that is listened to, a configuration. *)
Inductive outside : VrrpServer -> VrrpServer -> Prop :=
  | out_packet s pkt key i : key ∈ listeners s -> (length (vrrpRxPktCh s) < VRRP_RX_BUF_CHANNEL_SIZE)%nat ->
      outside s (set_vrrpRxPktCh (vrrpRxPktCh s ++ [{| r_pkt := pkt; r_key := key; r_IfIndex := i |}]) s)
  | out_create s m : (length (VrrpCreateIntfConfigCh s) < VRRP_INTF_CONFIG_CH_SIZE)%nat -> VRID m <> 0 ->
      outside s (set_VrrpCreateIntfConfigCh (VrrpCreateIntfConfigCh s ++ [m]) s)
  | out_delete s m : (length (VrrpDeleteIntfConfigCh s) < VRRP_INTF_CONFIG_CH_SIZE)%nat ->
      outside s (set_VrrpDeleteIntfConfigCh (VrrpDeleteIntfConfigCh s ++ [m]) s)
  | out_update s m : (length (VrrpUpdateIntfConfigCh s) < VRRP_INTF_CONFIG_CH_SIZE)%nat ->
      outside s (set_VrrpUpdateIntfConfigCh (VrrpUpdateIntfConfigCh s ++ [m]) s).

Section steps.
(** The programs the subscriber may run. It runs one at a time; here any number may overlap. *)
Context (subscriber : proc () -> Prop).

Inductive step : Config -> Config -> Prop :=
  | step_thread c i p b t p' s' : c_crashed c = false -> thread c i = Some p ->
      gstep b t p (c_server c) = Some (p', s') -> step c (set_server s' (set_thread i p' c))
  | step_sent c i j k k' : c_crashed c = false -> i <> j ->
      thread c i = Some (SignalSent k) -> thread c j = Some (WaitSent k') ->
      step c (set_thread j k' (set_thread i k c))
  | step_crash c i : c_crashed c = false -> thread c i = Some Crash -> step c (crash c)
  | step_start c i k : c_crashed c = false -> thread c i = Some (GoHandler k) -> c_handler c = NotStarted ->
      step c (set_handler Idle (set_thread i k c))
  | step_select c m s' : c_crashed c = false -> c_handler c = Idle -> ready (c_server c) m s' ->
      step c (set_handler (Running (VrrpChannelHanlder m)) (set_server s' c))
  | step_done c : c_crashed c = false -> c_handler c = Running (Ret tt) -> step c (set_handler Idle c)
  | step_timer c i f d : c_crashed c = false ->
      timers (c_server c) !! i = Some {| tm_func := f; tm_running := Some d |} ->
      step c (spawn (timer_func f) (set_server (set_timers (alter (set_running None) i (timers (c_server c))) (c_server c)) c))
  | step_outside c s' : c_crashed c = false -> outside (c_server c) s' -> step c (set_server s' c)
  | step_event c p : c_crashed c = false -> subscriber p -> step c (spawn p c).

Inductive steps : Config -> Config -> Prop :=
  | steps_refl c : steps c c
  | steps_step c1 c2 c3 : step c1 c2 -> steps c2 c3 -> steps c1 c3.

(** The daemon with what it has learnt of the interfaces, about to read its configurations. *)
Definition daemon_start (s : VrrpServer) (objList : list VrrpIntf) : Config :=
  {| c_server := s; c_handler := NotStarted; c_others := [VrrpStartServer objList]; c_crashed := false |}.
End steps.

(** [VrrpInitGlobalDS] *)
Definition VrrpInitGlobalDS : VrrpServer :=
  {| vrrpGblInfo := ∅; vrrpIntfStateSlice := []; vrrpLinuxIfIndex2AsicdIfIndex := ∅; vrrpIfIndexIpAddr := ∅;
     vrrpVlanId2Name := ∅; vrrpMacConfigAdded := false; VrrpCreateIntfConfigCh := []; VrrpDeleteIntfConfigCh := [];
     VrrpUpdateIntfConfigCh := []; vrrpRxPktCh := []; vrrpTxPktCh := []; vrrpFsmCh := []; timers := [];
     listeners := [] |}.
