(* ===== verification/VrrpServerFacts.v ===== *)
(** The goroutines of the VRRP server: running one of them by itself, which of them can ever signal
    that a packet was sent, and what follows for the channel handler. *)
From stdpp Require Import base numbers list gmap strings pretty.
From Stdlib Require Import ZArith Lia.
From S2P Require Import Prelude GoNet VrrpPkt VrrpPktFacts VrrpServer.
Open Scope Z_scope.

(** ** Properties of a program *)

(** The program never signals a sent packet. *)
Fixpoint no_signal {A} (p : proc A) : Prop :=
  match p with
  | Ret _ | Crash => True
  | Atomic f k => forall x, no_signal (k x)
  | SendTx _ k | SendFsm _ k | WaitSent k | GoHandler k => no_signal k
  | SignalSent _ => False
  | Call _ k => forall b, no_signal (k b)
  | Now k => forall t, no_signal (k t)
  end.

(** At least [n] times, the program sends to the state machine before it ends, or, with [g], before
    it starts the channel handler; it touches the channel in no other way. *)
Fixpoint must_send {A} (g : bool) (n : nat) (p : proc A) : Prop :=
  match p with
  | Ret _ => n = O
  | GoHandler _ => g = true /\ n = O
  | Crash => True
  | Atomic f k => (forall s, vrrpFsmCh (f s).2 = vrrpFsmCh s) /\ forall x, must_send g n (k x)
  | SendFsm _ k => must_send g (pred n) k
  | SendTx _ k | WaitSent k | SignalSent k => must_send g n k
  | Call _ k => forall b, must_send g n (k b)
  | Now k => forall t, must_send g n (k t)
  end.

Lemma no_signal_bind {A B} (p : proc A) (h : A -> proc B) :
  no_signal p -> (forall a, no_signal (h a)) -> no_signal (p ≫= h).
Proof. change (p ≫= h) with (pbind h p). induction p; cbn; auto. Qed.

Lemma must_send_mono {A} g (p : proc A) : forall n m, (m <= n)%nat -> must_send g n p -> must_send g m p.
Proof.
  induction p; cbn; intros n m' Hm Hp; eauto; try lia.
  - destruct Hp. split; eauto.
  - eapply IHp; [|exact Hp]. lia.
  - destruct Hp; split; [done | lia].
Qed.

Lemma must_send_bind {A B} g (p : proc A) (h : A -> proc B) m : (forall a, must_send g m (h a)) ->
  forall n, must_send false n p -> must_send g (n + m) (p ≫= h).
Proof.
  intros Hh. change (p ≫= h) with (pbind h p). induction p; cbn; intros n Hp; auto.
  - by subst n.
  - destruct Hp. auto.
  - apply must_send_mono with (pred n + m)%nat; [lia | auto].
  - by destruct Hp.
Qed.

Create HintDb nosig.
#[local] Hint Resolve no_signal_bind : nosig.

(** Every program but [VrrpSendPkt] is built without a signal. *)
Ltac no_signal :=
  repeat first
    [ progress intros
    | progress cbn [no_signal lock call now send_tx send_fsm wait_sent mret proc_ret]
    | progress (unfold load, load_value, store, get, update_server, atomic, AfterFunc, timer_Reset, timer_Stop, lock)
    | apply no_signal_bind
    | case_match
    | done ].

Section no_signal.
Context (GetIntfTypeFromIfIndex GetIntfIdFromIfIndex : Z -> Z)
        (IfTypeVirtual IfTypeSecondary INTF_STATE_UP INTF_STATE_DOWN NOTIFY_IPV4INTF_CREATE NOTIFY_IPV4INTF_DELETE
         NOTIFY_VLAN_CREATE NOTIFY_VLAN_DELETE : Z).
Let event := interface_event GetIntfTypeFromIfIndex GetIntfIdFromIfIndex IfTypeVirtual IfTypeSecondary
  INTF_STATE_UP INTF_STATE_DOWN NOTIFY_IPV4INTF_CREATE NOTIFY_IPV4INTF_DELETE NOTIFY_VLAN_CREATE NOTIFY_VLAN_DELETE.

Lemma timer_no_signal f : no_signal (timer_func f).
Proof.
  destruct f; unfold timer_func, master_down_func, adver_timer_func, VrrpTransitionToMaster, VrrpUpdateStateInfo,
    VrrpUpdateSubIntf, VrrpHandleMasterAdverTimer; no_signal.
Qed.

Lemma stop_timers_no_signal i keys : no_signal (stop_timers i keys).
Proof. induction keys; cbn [stop_timers]; no_signal. Qed.
Lemma intf_up_no_signal i keys : no_signal (intf_up i keys).
Proof. induction keys; cbn [intf_up]; no_signal. Qed.
#[local] Hint Resolve stop_timers_no_signal intf_up_no_signal : core.

Lemma event_no_signal p : event p -> no_signal p.
Proof.
  destruct 1.
  - unfold VrrpUpdateVlanGblInfo, VrrpCreateVlanEntry; no_signal.
  - unfold VrrpUpdateIPv4GblInfo, VrrpCreateIfIndexEntry, VrrpMapIfIndexToLinuxIfIndex; no_signal.
  - unfold VrrpUpdateL3IntfStateChange, VrrpHandleIntfUpEvent, VrrpHandleIntfShutdownEvent, VrrpStopTimers; no_signal;
      auto.
Qed.
End no_signal.

(** The programs of the other goroutines never start the channel handler. *)
Ltac no_start :=
  repeat first
    [ progress intros
    | progress cbn [must_send lock call now send_tx send_fsm wait_sent mret proc_ret]
    | progress (unfold load, load_value, store, get, update_server, atomic, AfterFunc, timer_Reset, timer_Stop, lock)
    | apply (must_send_bind _ _ _ 0) with (n := 0%nat)
    | case_match
    | split
    | done ].

Section no_start.
Context (GetIntfTypeFromIfIndex GetIntfIdFromIfIndex : Z -> Z)
        (IfTypeVirtual IfTypeSecondary INTF_STATE_UP INTF_STATE_DOWN NOTIFY_IPV4INTF_CREATE NOTIFY_IPV4INTF_DELETE
         NOTIFY_VLAN_CREATE NOTIFY_VLAN_DELETE : Z).

Lemma timer_no_start f : must_send false 0 (timer_func f).
Proof.
  destruct f; unfold timer_func, master_down_func, adver_timer_func, VrrpTransitionToMaster, VrrpUpdateStateInfo,
    VrrpUpdateSubIntf, VrrpHandleMasterAdverTimer; no_start.
Qed.

Lemma stop_timers_no_start i keys : must_send false 0 (stop_timers i keys).
Proof. induction keys; cbn [stop_timers]; no_start. Qed.
Lemma intf_up_no_start i keys : must_send false 0 (intf_up i keys).
Proof. induction keys; cbn [intf_up]; no_start. Qed.

Lemma event_no_start p :
  interface_event GetIntfTypeFromIfIndex GetIntfIdFromIfIndex IfTypeVirtual IfTypeSecondary
    INTF_STATE_UP INTF_STATE_DOWN NOTIFY_IPV4INTF_CREATE NOTIFY_IPV4INTF_DELETE NOTIFY_VLAN_CREATE NOTIFY_VLAN_DELETE p ->
  must_send false 0 p.
Proof.
  destruct 1.
  - unfold VrrpUpdateVlanGblInfo, VrrpCreateVlanEntry; no_start.
  - unfold VrrpUpdateIPv4GblInfo, VrrpCreateIfIndexEntry, VrrpMapIfIndexToLinuxIfIndex; no_start.
  - unfold VrrpUpdateL3IntfStateChange, VrrpHandleIntfUpEvent, VrrpHandleIntfShutdownEvent, VrrpStopTimers; no_start;
      auto using stop_timers_no_start, intf_up_no_start.
Qed.
End no_start.

Lemma CreateGblInfo_no_signal config : no_signal (VrrpCreateGblInfo config).
Proof. unfold VrrpCreateGblInfo, VrrpInitPacketListener, VrrpUpdateProtocolMacEntry; no_signal. Qed.

Lemma StartServer_no_signal objList : no_signal (VrrpStartServer objList).
Proof.
  unfold VrrpStartServer. apply no_signal_bind; [|done].
  induction objList; cbn [VrrpReadDB]; [done|]. apply no_signal_bind; [apply CreateGblInfo_no_signal | done].
Qed.

Lemma CreateGblInfo_sends config : must_send false 1 (VrrpCreateGblInfo config).
Proof.
  unfold VrrpCreateGblInfo, VrrpInitPacketListener, VrrpUpdateProtocolMacEntry, lock.
  repeat first [progress intros | split | progress cbn | case_match | done].
Qed.

Lemma StartServer_sends objList : must_send true (length objList) (VrrpStartServer objList).
Proof.
  unfold VrrpStartServer. replace (length objList) with (length objList + 0)%nat by lia.
  apply must_send_bind; [intros; by split|].
  induction objList as [|o l IH]; [done|]. apply (must_send_bind false (VrrpCreateGblInfo o) (fun _ => VrrpReadDB l) (length l)) with (n := 1%nat); [done|].
  apply CreateGblInfo_sends.
Qed.

(** ** Running one goroutine *)

(** [p] runs by itself until it ends or waits; [b] answers the calls, [t] is the time. *)
Fixpoint exec (b : Extern -> bool) (t : string) (p : proc ()) (s : VrrpServer) : proc () * VrrpServer :=
  match p with
  | Atomic f k => let '(x, s') := f s in exec b t (k x) s'
  | SendTx m k => if (length (vrrpTxPktCh s) <? VRRP_TX_BUF_CHANNEL_SIZE)%nat
                  then exec b t k (set_vrrpTxPktCh (vrrpTxPktCh s ++ [m]) s) else (p, s)
  | SendFsm m k => if (length (vrrpFsmCh s) <? VRRP_FSM_CHANNEL_SIZE)%nat
                   then exec b t k (set_vrrpFsmCh (vrrpFsmCh s ++ [m]) s) else (p, s)
  | Call c k => exec b t (k (b c)) s
  | Now k => exec b t (k t) s
  | Ret _ | WaitSent _ | SignalSent _ | GoHandler _ | Crash => (p, s)
  end.

Lemma steps_trans S c1 c2 c3 : steps S c1 c2 -> steps S c2 c3 -> steps S c1 c3.
Proof. induction 1; eauto using steps. Qed.

Lemma set_thread_twice i p q s s' c : thread c i = Some q ->
  set_server s (set_thread i p (set_server s' (set_thread i q c))) = set_server s (set_thread i p c).
Proof. destruct c, i; cbn; intros; [done|]. by rewrite list_insert_insert_eq. Qed.

Lemma thread_set_thread i p q c : thread c i = Some q -> thread (set_thread i p c) i = Some p.
Proof. destruct i; cbn; [done|]. intros H. apply list_lookup_insert_eq. by eapply lookup_lt_Some. Qed.

Lemma thread_set_server i s c : thread (set_server s c) i = thread c i.
Proof. by destruct i. Qed.
Lemma set_thread_id i p c : thread c i = Some p -> set_server (c_server c) (set_thread i p c) = c.
Proof.
  destruct c as [s h o x], i as [|i]; cbn.
  - destruct h; try done. by intros [= <-].
  - intros H. by rewrite list_insert_id.
Qed.

(** What a goroutine does by itself is a run of the daemon. *)
Lemma exec_steps S b t p : forall c i s,
  c_crashed c = false -> thread c i = Some p ->
  steps S (set_server s c)
    (set_server (exec b t p s).2 (set_thread i (exec b t p s).1 (set_server s c))).
Proof.
  assert (Hone : forall b' q q' s s' c i, c_crashed c = false -> thread c i = Some q ->
    gstep b' t q s = Some (q', s') -> step S (set_server s c) (set_server s' (set_thread i q' c))).
  { intros b' q q' s s' c i Hc Hi Hg.
    assert (E : set_server s' (set_thread i q' c) = set_server s' (set_thread i q' (set_server s c)))
      by (by destruct c, i).
    rewrite E.
    eapply step_thread; [done | by rewrite thread_set_server | exact Hg]. }
  assert (Hfin : forall q c i s, thread c i = Some q ->
    steps S (set_server s c) (set_server s (set_thread i q (set_server s c)))).
  { intros q c i s Hi. pose proof (set_thread_id i q (set_server s c)) as E. cbn in E. rewrite E; [constructor|].
    by rewrite thread_set_server. }
  assert (Hcont : forall b' q q' s s' c i, c_crashed c = false -> thread c i = Some q ->
    gstep b' t q s = Some (q', s') ->
    steps S (set_server s' (set_thread i q' c))
      (set_server (exec b t q' s').2 (set_thread i (exec b t q' s').1 (set_server s' (set_thread i q' c)))) ->
    steps S (set_server s c) (set_server (exec b t q' s').2 (set_thread i (exec b t q' s').1 (set_server s c)))).
  { intros b' q q' s s' c i Hc Hi Hg Hrest. eapply steps_step; [by eapply Hone|].
    replace (set_server (exec b t q' s').2 (set_thread i (exec b t q' s').1 (set_server s c)))
      with (set_server (exec b t q' s').2 (set_thread i (exec b t q' s').1 (set_server s' (set_thread i q' c))));
      [done|].
    destruct c, i; cbn; [done|]. by rewrite list_insert_insert_eq. }
  assert (Hthr : forall q q' c i, thread c i = Some q -> thread (set_thread i q' c) i = Some q')
    by (intros; by eapply thread_set_thread).
  assert (Hcr : forall q' c i, c_crashed c = false -> c_crashed (set_thread i q' c) = false) by (by intros ? ? []).
  induction p as [a|X f k IH|m k IH|m k IH|k IH|k IH|e k IH|k IH|k IH|]; intros c i s Hc Hi; cbn [exec];
    try (by apply Hfin).
  - destruct (f s) as [x s'] eqn:Hf. eapply (Hcont true); [done | exact Hi | unfold gstep; by rewrite Hf |].
    apply IH; eauto.
  - destruct (_ <? _)%nat eqn:Hl; [|by apply Hfin].
    eapply (Hcont true); [done | exact Hi | unfold gstep; by rewrite Hl |]. apply IH; eauto.
  - destruct (_ <? _)%nat eqn:Hl; [|by apply Hfin].
    eapply (Hcont true); [done | exact Hi | unfold gstep; by rewrite Hl |]. apply IH; eauto.
  - eapply (Hcont (b e)); [done | exact Hi | done |]. apply IH; eauto.
  - eapply (Hcont true); [done | exact Hi | done |]. apply IH; eauto.
Qed.
