(* ===== verification/VrrpSpec.v ===== *)
(** What the VRRP daemon guarantees as a whole, and where it stops: the channel handler against the
    signal only itself can give, the start with stored configurations, the decisions of a backup and a
    master router, and the invariant of the entries under every interleaving. *)
From stdpp Require Import base numbers list gmap strings pretty.
From Stdlib Require Import ZArith Lia.
From S2P Require Import Prelude GoNet VrrpPkt VrrpPktFacts VrrpServer VrrpServerFacts.
Open Scope Z_scope.

Section daemon.
Context (GetIntfTypeFromIfIndex GetIntfIdFromIfIndex : Z -> Z)
        (IfTypeVirtual IfTypeSecondary INTF_STATE_UP INTF_STATE_DOWN NOTIFY_IPV4INTF_CREATE NOTIFY_IPV4INTF_DELETE
         NOTIFY_VLAN_CREATE NOTIFY_VLAN_DELETE : Z).

(** The runs of the daemon with the subscriber of interface events. *)
Definition runs : Config -> Config -> Prop :=
  steps (interface_event GetIntfTypeFromIfIndex GetIntfIdFromIfIndex IfTypeVirtual IfTypeSecondary
    INTF_STATE_UP INTF_STATE_DOWN NOTIFY_IPV4INTF_CREATE NOTIFY_IPV4INTF_DELETE NOTIFY_VLAN_CREATE NOTIFY_VLAN_DELETE).

(** The program waits, now or after its next send, for a packet to be sent. *)
Definition blocked (p : proc ()) : Prop :=
  match p with
  | WaitSent _ => True
  | SendTx _ (WaitSent _) => True
  | _ => False
  end.

Lemma gstep_no_signal b t p s p' s' : no_signal p -> gstep b t p s = Some (p', s') -> no_signal p'.
Proof.
  destruct p; cbn; try discriminate; intros H Hg.
  - destruct (f s); by simplify_eq.
  - destruct (length _ <=? 0)%nat; by simplify_eq.
  - destruct (length _ <=? 0)%nat; by simplify_eq.
  - by simplify_eq.
  - by simplify_eq.
Qed.

(** Every goroutine but the channel handler leaves the signalling to it. *)
Definition only_handler_signals (c : Config) : Prop := Forall no_signal (c_others c).

Lemma Forall_set_thread (P : proc () -> Prop) i p c :
  Forall P (c_others c) -> P p -> Forall P (c_others (set_thread i p c)).
Proof. intros H Hp. destruct i; [done|]. by apply Forall_insert. Qed.

Lemma step_only_handler c c' S :
  (forall p, S p -> no_signal p) -> only_handler_signals c -> step S c c' -> only_handler_signals c'.
Proof.
  unfold only_handler_signals. intros HS H Hs. destruct Hs as
    [c i p b t p' s' Hc Hi Hg|c i j k k' Hc Hij Hi Hj|c i Hc Hi|c i k Hc Hi Hh|c m s' Hc Hh Hr|c Hc Hh|c i f d Hc Hi|c s' Hc Ho|c p Hc Hp];
    cbn [c_others set_server set_handler crash spawn]; try done.
  - destruct i as [|i]; [done|]. cbn in Hi. apply Forall_set_thread; [done|].
    eapply gstep_no_signal; [|exact Hg]. by eapply Forall_lookup_1.
  - assert (Hk : Forall no_signal (c_others (set_thread i k c))).
    { destruct i as [|i]; [done|]. cbn in Hi. pose proof (Forall_lookup_1 _ _ _ _ H Hi) as []. }
    destruct j as [|j]; [done|]. apply Forall_set_thread; [done|]. cbn in Hj.
    exact (Forall_lookup_1 _ _ _ _ H Hj).
  - destruct i as [|i]; [done|]. apply Forall_set_thread; [done|]. cbn in Hi. exact (Forall_lookup_1 _ _ _ _ H Hi).
  - apply Forall_app. split; [done|]. constructor; [apply timer_no_signal | done].
  - apply Forall_app. split; [done|]. constructor; auto.
Qed.

Lemma step_blocked c c' S p :
  (forall p, S p -> no_signal p) -> only_handler_signals c ->
  c_handler c = Running p -> blocked p -> step S c c' ->
  exists p', c_handler c' = Running p' /\ blocked p'.
Proof.
  intros HS Hsig Hp Hb Hs. destruct Hs as
    [c i q b t q' s' Hc Hi Hg|c i j k k' Hc Hij Hi Hj|c i Hc Hi|c i k Hc Hi Hh|c m s' Hc Hh Hr|c Hc Hh|c i f d Hc Hi|c s' Hc Ho|c q Hc Hq];
    cbn [c_handler set_server set_handler crash spawn]; eauto; try congruence.
  - destruct i as [|i]; [|cbn; eauto]. cbn in Hi. rewrite Hp in Hi. simplify_eq.
    destruct q; try done. cbn in Hg. destruct (length _ <=? 0)%nat; [|done]. simplify_eq.
    exists q'. split; [done|]. by destruct q'.
  - destruct i as [|i].
    + cbn in Hi. rewrite Hp in Hi. by simplify_eq.
    + cbn in Hi. pose proof (Forall_lookup_1 _ _ _ _ Hsig Hi) as [].
  - rewrite Hp in Hh. by simplify_eq.
Qed.

(** C28: whenever the channel handler itself runs VrrpTransitionToMaster (a router of priority 255 whose interface
    came up, or a backup that preempts), it waits for the signal that the advertisement was sent. Only the handler can
    give that signal, so in every continuation it waits for ever: no packet, configuration or transition of any router
    is handled any more. *)
Theorem master_transition_deadlocks s objList c key reason c' :
  runs (daemon_start s objList) c ->
  c_handler c = Running (VrrpTransitionToMaster key reason) ->
  runs c c' ->
  exists p, c_handler c' = Running p /\ blocked p.
Proof.
  intros H0 Hh H1.
  assert (HS : forall p, interface_event GetIntfTypeFromIfIndex GetIntfIdFromIfIndex IfTypeVirtual IfTypeSecondary
    INTF_STATE_UP INTF_STATE_DOWN NOTIFY_IPV4INTF_CREATE NOTIFY_IPV4INTF_DELETE NOTIFY_VLAN_CREATE NOTIFY_VLAN_DELETE p
    -> no_signal p) by (intros p; apply event_no_signal).
  assert (Hsig : only_handler_signals c).
  { clear Hh H1 c'. assert (Hs : only_handler_signals (daemon_start s objList))
      by (repeat constructor; apply StartServer_no_signal).
    revert Hs. induction H0; eauto using step_only_handler. }
  assert (Hb : blocked (VrrpTransitionToMaster key reason)) by done.
  revert Hh Hb. generalize (VrrpTransitionToMaster key reason) as p. clear H0.
  induction H1 as [|c c1 c2 Hst _ IH]; intros p Hp Hb; [eauto|].
  destruct (step_blocked _ _ _ _ HS Hsig Hp Hb Hst) as (p' & Hp' & Hb').
  eapply IH; [by eapply step_only_handler | exact Hp' | exact Hb'].
Qed.

(** What a step leaves of a program that still has to send [n] messages, and of the channel. *)
Lemma gstep_sends g b t p s p' s' n :
  must_send g n p -> gstep b t p s = Some (p', s') ->
  exists n', must_send g n' p' /\ (n + length (vrrpFsmCh s) <= n' + length (vrrpFsmCh s'))%nat /\
             (length (vrrpFsmCh s) <= 1 -> length (vrrpFsmCh s') <= 1)%nat /\
             (length (vrrpFsmCh s) <= length (vrrpFsmCh s'))%nat.
Proof.
  destruct p; cbn [gstep must_send]; try discriminate; intros H Hg.
  - destruct H as [Hf H]. specialize (Hf s). destruct (f s) as [x s1]. cbn in Hf. simplify_eq.
    exists n. rewrite Hf. auto with lia.
  - destruct (_ <? _)%nat; [|done]. simplify_eq. exists n. cbn. auto with lia.
  - unfold VRRP_FSM_CHANNEL_SIZE in Hg. destruct (_ <? 1)%nat eqn:Hl; [|done]. simplify_eq.
    apply Nat.ltb_lt in Hl. exists (pred n). cbn. rewrite length_app. cbn. split; [done|]. lia.
  - simplify_eq. exists n. auto with lia.
  - simplify_eq. exists n. auto with lia.
Qed.

(** The main goroutine still has to send [n] messages; no other starts the handler. *)
Definition still_sends (n : nat) (i : nat) (p : proc ()) : Prop :=
  match i with O => must_send true n p | S _ => must_send false 0 p end.
Definition goroutines_ok (n : nat) (l : list (proc ())) : Prop :=
  (0 < length l)%nat /\ forall i p, l !! i = Some p -> still_sends n i p.

Lemma goroutines_insert n n' i p l :
  goroutines_ok n l -> still_sends n' i p -> (i <> O -> n' = n) -> goroutines_ok n' (<[i := p]> l).
Proof.
  intros [Hl H] Hp Hn. split; [by rewrite length_insert|]. intros j q Hq.
  destruct (decide (j = i)) as [->|Hij].
  - apply list_lookup_insert_Some in Hq as [(_ & -> & _) | [? _]]; done.
  - rewrite list_lookup_insert_ne in Hq by done. specialize (H _ _ Hq).
    destruct j; [|done]. destruct i; [done|]. by rewrite Hn.
Qed.

Lemma goroutines_app n p l : goroutines_ok n l -> must_send false 0 p -> goroutines_ok n (l ++ [p]).
Proof.
  intros [Hl H] Hp. split; [rewrite length_app; lia|]. intros i q Hq.
  apply lookup_app_Some in Hq as [Hq | [Hi Hq]]; [eauto|].
  destruct i; [lia|]. apply list_lookup_singleton_Some in Hq as [_ <-]. done.
Qed.

(** The daemon has not started its handler, and what the main goroutine has to send does not fit. *)
Definition starting (c : Config) : Prop :=
  c_handler c = NotStarted /\ (length (vrrpFsmCh (c_server c)) <= 1)%nat /\
  exists n, goroutines_ok n (c_others c) /\ (2 <= n + length (vrrpFsmCh (c_server c)))%nat.

Lemma step_starting c c' S : (forall p, S p -> must_send false 0 p) -> starting c -> step S c c' -> starting c'.
Proof.
  intros HS (Hh & Hl & n & Hg & H2) Hs. destruct Hs as
    [c i p b t p' s' Hc Hi Hstep|c i j k k' Hc Hij Hi Hj|c i Hc Hi|c i k Hc Hi Hh'|c m s' Hc Hh' Hr|c Hc Hh'|c i f d Hc Hi|c s' Hc Hout|c p Hc Hp];
    try congruence; unfold starting;
    try (destruct i as [|i]; cbn in Hi; [by rewrite Hh in Hi|]).
  - pose proof (proj2 Hg _ _ Hi) as Hsend. cbn. destruct i as [|i].
    + destruct (gstep_sends _ _ _ _ _ _ _ _ Hsend Hstep) as (n' & Hn' & Hle & H1 & _).
      split; [done|]. split; [auto|]. exists n'. split; [by eapply goroutines_insert | lia].
    + destruct (gstep_sends _ _ _ _ _ _ _ _ Hsend Hstep) as (n' & Hn' & Hle & H1 & Hmono).
      split; [done|]. split; [auto|]. exists n. split; [|lia]. eapply goroutines_insert; [done | | done].
      eapply must_send_mono; [|exact Hn']. lia.
  - destruct j as [|j]; cbn in Hj; [by rewrite Hh in Hj|]. cbn. split; [done|]. split; [done|]. exists n.
    pose proof (proj2 Hg _ _ Hi) as Hsi. pose proof (proj2 Hg _ _ Hj) as Hsj.
    split; [|done]. eapply goroutines_insert; [eapply goroutines_insert; [done | | done] | | done].
    + by destruct i.
    + by destruct j.
  - cbn. eauto.
  - pose proof (proj2 Hg _ _ Hi) as Hsend. destruct i; cbn in Hsend; [|by destruct Hsend].
    destruct Hsend as [_ ->]. lia.
  - cbn. split; [done|]. split; [done|]. exists n. split; [|done]. apply goroutines_app; [done | apply timer_no_start].
  - cbn. destruct Hout; cbn; eauto.
  - cbn. split; [done|]. split; [done|]. exists n. split; [|done]. apply goroutines_app; auto.
Qed.

(** With two stored configurations or more the daemon never starts: each of them is announced to the
    state machine on a channel of one place, whose reader is started after all of them. *)
Theorem stored_configurations_hang s objList c :
  vrrpFsmCh s = [] -> (2 <= length objList)%nat -> runs (daemon_start s objList) c -> c_handler c = NotStarted.
Proof.
  intros Hs Hn Hr.
  assert (H : starting (daemon_start s objList)).
  { split; [done|]. cbn. rewrite Hs. split; [cbn; lia|]. exists (length objList). split; [|cbn; lia].
    split; [cbn; lia|]. intros [|i] p Hp; [|done]. injection Hp as <-. apply StartServer_sends. }
  assert (Hstart : starting c); [|by destruct Hstart].
  clear Hs Hn. induction Hr as [|c c1 c2 Hst _ IH]; [done|]. apply IH.
  eapply step_starting; [intros p; apply event_no_start | exact H | exact Hst].
Qed.
End daemon.

(** ** A run: one stored router with priority 255 *)

Definition runs0 : Config -> Config -> Prop := runs (fun _ => 0) (fun _ => 0) 1 2 3 4 5 6 7 8.

(** The daemon has learnt of interface 7 and its address. *)
Definition example_server : VrrpServer :=
  set_vrrpLinuxIfIndex2AsicdIfIndex {[7]} (set_vrrpIfIndexIpAddr {[7 := "10.0.0.1/24"]} VrrpInitGlobalDS).
Definition example_intf (vrid prio : Z) (preempt : bool) : VrrpIntf :=
  {| IfIndex := 7; VRID := vrid; Priority := prio; VirtualIPv4Addr := "10.0.0.9"; AdvertisementInterval := 1;
     PreemptMode := preempt; AcceptMode := false |}.

Definition ok_calls : Extern -> bool := fun _ => true.

(** The configuration once goroutine [i] has run as far as it goes by itself. *)
Definition let_run (i : nat) (c : Config) : Config :=
  match thread c i with
  | Some p => set_server (exec ok_calls "now" p (c_server c)).2
                         (set_thread i (exec ok_calls "now" p (c_server c)).1 c)
  | None => c
  end.

Lemma let_run_steps i c : c_crashed c = false -> runs0 c (let_run i c).
Proof.
  intros Hc. unfold let_run. destruct (thread c i) as [p|] eqn:Hp; [|constructor].
  pose proof (exec_steps (interface_event (fun _ => 0) (fun _ => 0) 1 2 3 4 5 6 7 8) ok_calls "now" p c i (c_server c) Hc Hp) as H.
  assert (E : set_server (c_server c) c = c) by by destruct c. by rewrite E in H.
Qed.

Lemma runs0_trans c1 c2 c3 : runs0 c1 c2 -> runs0 c2 c3 -> runs0 c1 c3.
Proof. apply steps_trans. Qed.

(** The handler has been started and has received the message of the router. *)
Definition selected (cfg : VrrpIntf) : Config :=
  let c := let_run 1 (daemon_start example_server [cfg]) in
  let c := set_handler Idle (set_thread 1 (Ret tt) c) in
  set_handler (Running (VrrpChannelHanlder (FsmMsg {| f_key := intf_key cfg; f_vrrpHdr := None; f_inPkt := None |})))
    (set_server (set_vrrpFsmCh [] (c_server c)) c).

Lemma selected_runs cfg :
  thread (let_run 1 (daemon_start example_server [cfg])) 1 = Some (GoHandler (Ret tt)) ->
  vrrpFsmCh (c_server (let_run 1 (daemon_start example_server [cfg]))) =
    [{| f_key := intf_key cfg; f_vrrpHdr := None; f_inPkt := None |}] ->
  runs0 (daemon_start example_server [cfg]) (selected cfg).
Proof.
  intros Hgo Hch. eapply runs0_trans; [by apply (let_run_steps 1)|].
  eapply steps_step; [by eapply (step_start _ _ 1) |].
  eapply steps_step; [|constructor].
  by apply (step_select _ _ (FsmMsg {| f_key := intf_key cfg; f_vrrpHdr := None; f_inPkt := None |})); [ | | constructor].
Qed.

Lemma owner_selected : runs0 (daemon_start example_server [example_intf 1 255 false]) (selected (example_intf 1 255 false)).
Proof. apply selected_runs; vm_compute; reflexivity. Qed.

Lemma owner_transition : exists c, runs0 (daemon_start example_server [example_intf 1 255 false]) c /\
  c_crashed c = false /\ c_handler c = Running (VrrpTransitionToMaster "7_1" "Priority is 255").
Proof.
  eexists. split; [|split].
  - eapply runs0_trans; [apply owner_selected|].
    eapply steps_step; [eapply (step_thread _ _ 0 _ true ""); reflexivity|].
    eapply steps_step; [eapply (step_thread _ _ 0 _ true ""); reflexivity|].
    constructor.
  - reflexivity.
  - vm_compute. reflexivity.
Qed.

Lemma master_transition_deadlocks_witness :
  exists c, runs0 (daemon_start example_server [example_intf 1 255 false]) c /\
    c_handler c = Running (VrrpTransitionToMaster "7_1" "Priority is 255") /\
    exists p, c_handler (let_run 0 c) = Running p /\ blocked p.
Proof.
  destruct owner_transition as (c & Hr & Hc & Hh). exists c. split; [exact Hr|]. split; [exact Hh|].
  exact (master_transition_deadlocks (fun _ => 0) (fun _ => 0) 1 2 3 4 5 6 7 8 example_server _ c "7_1" _ _ Hr Hh
           (let_run_steps 0 c Hc)).
Defined.

Lemma stored_configurations_hang_witness :
  runs0 (daemon_start VrrpInitGlobalDS [example_intf 1 100 false; example_intf 2 100 false])
        (let_run 1 (daemon_start VrrpInitGlobalDS [example_intf 1 100 false; example_intf 2 100 false])) /\
  c_handler (let_run 1 (daemon_start VrrpInitGlobalDS [example_intf 1 100 false; example_intf 2 100 false])) = NotStarted.
Proof.
  split; [by apply let_run_steps|].
  apply (stored_configurations_hang (fun _ => 0) (fun _ => 0) 1 2 3 4 5 6 7 8 VrrpInitGlobalDS
           [example_intf 1 100 false; example_intf 2 100 false]); [reflexivity | cbn; lia | by apply let_run_steps].
Defined.

(** ** A backup router *)

(** What an advertisement makes of a backup router: it restarts the master down timer with the entry
    given, ignores it, or becomes master. *)
Inductive backup_action := Rearm (g : VrrpGlobalInfo) | Ignore | BecomeMaster.

(** RFC 5798, 6.4.2, with the priority of the advertisement. *)
Definition rfc_backup (g : VrrpGlobalInfo) (hdr : VrrpPktHeader) : backup_action :=
  if vh_Priority hdr =? 0 then Rearm (set_g_MasterDownValue (g_SkewTime g) g)
  else if negb (PreemptMode (g_IntfConfig g)) || (vh_Priority hdr >=? Priority (g_IntfConfig g))
  then Rearm (VrrpCalculateDownValue (MaxAdverInt hdr) g)
  else Ignore.

(** The code. *)
Definition code_backup (g : VrrpGlobalInfo) (hdr : VrrpPktHeader) : backup_action :=
  if vh_Priority hdr =? 0 then Rearm (set_g_MasterDownValue (g_SkewTime g) g)
  else match PreemptMode (g_IntfConfig g), vh_Priority hdr >=? Priority (g_IntfConfig g) with
       | false, true => Rearm (VrrpCalculateDownValue (MaxAdverInt hdr) g)
       | true, false => BecomeMaster
       | _, _ => Ignore
       end.

(** The state after an action: the entry, and the master down timer [t]. *)
Definition rearmed (key : string) (t : nat) (g : VrrpGlobalInfo) (s : VrrpServer) : VrrpServer :=
  set_timers (alter (set_running (Some (g_MasterDownValue g))) t (timers s))
    (set_vrrpGblInfo (<[key := set_g_StateName VRRP_BACKUP_STATE g]> (vrrpGblInfo s)) s).
Definition stored (key : string) (g : VrrpGlobalInfo) (s : VrrpServer) : VrrpServer :=
  set_vrrpGblInfo (<[key := g]> (vrrpGblInfo s)) s.

Definition performs (a : backup_action) (key : string) (t : nat) (g : VrrpGlobalInfo) (s : VrrpServer)
  (r : proc () * VrrpServer) : Prop :=
  match a with
  | Rearm g' => r = (Ret tt, rearmed key t g' s)
  | Ignore => r = (Ret tt, stored key g s)
  | BecomeMaster => blocked r.1 /\ vrrpTxPktCh r.2 = [{| t_key := key; t_priority := VRRP_IGNORE_PRIORITY |}]
  end.

(** An advertisement that reached the interface of the router, not addressed to itself. *)
Record advert_for (g : VrrpGlobalInfo) (pkt : Packet) (ip : IPv4Layer) (hdr : VrrpPktHeader) : Prop := {
  adv_mac : exists mac, p_DstMAC pkt = Some mac /\ mac_String mac <> g_VirtualRouterMACAddress g;
  adv_ip : p_IPv4 pkt = Some ip /\ ip_String (l_DstIP ip) <> g_IpAddr g;
  adv_type : Type_ hdr = VRRP_PKT_TYPE_ADVERTISEMENT;
}.

Lemma stored_twice key g g' s : stored key g (stored key g' s) = stored key g s.
Proof. unfold stored, set_vrrpGblInfo. cbn. by rewrite insert_insert_eq. Qed.

Lemma exec_HandleMasterDownTimer b time key g t s :
  vrrpGblInfo s !! key = Some g -> g_locks g = true -> g_MasterDownTimer g = Some t ->
  exec b time (VrrpHandleMasterDownTimer key) s = (Ret tt, rearmed key t g s).
Proof. intros Hg Hl Ht. cbn. rewrite Hg. cbn. rewrite Ht. unfold lock. rewrite Hl. cbn. rewrite Hl. reflexivity. Qed.

Lemma performs_Rearm b time key g g' t s :
  vrrpGblInfo s !! key = Some g -> g_locks g' = true -> g_MasterDownTimer g' = Some t ->
  exec b time (_ ← store key g'; VrrpHandleMasterDownTimer key) s = (Ret tt, rearmed key t g' s).
Proof.
  intros Hg Hl Ht. cbn [exec store update_server atomic mbind proc_bind pbind]. 
  rewrite (exec_HandleMasterDownTimer b time key g' t); [|by cbn; rewrite lookup_insert_eq|done|done].
  unfold rearmed, set_timers, set_vrrpGblInfo. cbn. by rewrite insert_insert_eq.
Qed.

Lemma CalculateDownValue_locks i g : g_locks (VrrpCalculateDownValue i g) = g_locks g.
Proof. unfold VrrpCalculateDownValue. by destruct (negb _ && negb _). Qed.
Lemma CalculateDownValue_timer i g : g_MasterDownTimer (VrrpCalculateDownValue i g) = g_MasterDownTimer g.
Proof. unfold VrrpCalculateDownValue. by destruct (negb _ && negb _). Qed.

Lemma exec_bind_Ret b t (p : proc ()) (h : () -> proc ()) : forall s s' x,
  exec b t p s = (Ret x, s') -> exec b t (p ≫= h) s = exec b t (h x) s'.
Proof.
  change (p ≫= h) with (pbind h p). induction p; cbn; intros s s' x Hp; eauto; try discriminate.
  - by simplify_eq.
  - destruct (f s). eauto.
  - destruct (_ <=? _)%nat; [eauto | discriminate].
  - destruct (_ <=? _)%nat; [eauto | discriminate].
Qed.

(** The handler of the state the entry is in. *)
Definition fsm_state (state : string) (f : VrrpFsm) : proc () :=
  if bool_decide (state = VRRP_INITIALIZE_STATE) then VrrpInitState (f_key f)
  else if bool_decide (state = VRRP_BACKUP_STATE) then VrrpBackupState (f_inPkt f) (f_vrrpHdr f) (f_key f)
  else if bool_decide (state = VRRP_MASTER_STATE) then VrrpMasterState (f_inPkt f) (f_vrrpHdr f) (f_key f)
  else Ret tt.

Lemma exec_FsmStart b time f g s :
  vrrpGblInfo s !! f_key f = Some g -> g_locks g = true ->
  exec b time (VrrpFsmStart f) s = exec b time (fsm_state (g_StateName g) f) s.
Proof.
  intros Hg Hl. unfold VrrpFsmStart, load, get, atomic. cbn [exec mbind proc_bind pbind].
  rewrite Hg. unfold lock. by rewrite Hl.
Qed.

(** C27: what the code does with an advertisement in the backup state, and where that is RFC 5798: with a
    priority of zero, or without preemption when the remote priority is not lower. With preemption
    the advertisements of a better master do not restart the master down timer, which therefore expires
    under a living master; without preemption those of a worse master are ignored too and it is taken
    over; and a worse master is preempted at once, by the handler itself, which then waits for ever. *)
Theorem backup_advertisement s key g t pkt ip hdr b time :
  vrrpGblInfo s !! key = Some g -> g_StateName g = VRRP_BACKUP_STATE -> g_locks g = true ->
  g_MasterDownTimer g = Some t -> advert_for g pkt ip hdr -> vrrpTxPktCh s = [] ->
  is_u8 (Priority (g_IntfConfig g)) ->
  let g' := note_advert (ip_String (l_SrcIP ip)) time g in
  performs (code_backup g' hdr) key t g' s
    (exec b time (VrrpFsmStart {| f_key := key; f_vrrpHdr := Some hdr; f_inPkt := Some pkt |}) s) /\
  (code_backup g' hdr = rfc_backup g' hdr <->
   vh_Priority hdr = 0 \/ (PreemptMode (g_IntfConfig g) = false /\ Priority (g_IntfConfig g) <= vh_Priority hdr)).
Proof.
  intros Hg Hst Hl Ht A Htx Hp g'.
  destruct A as [(mac & Hmac & Hne) [Hip Hdst] Hty].
  split.
  - assert (Hrun : exec b time (VrrpFsmStart {| f_key := key; f_vrrpHdr := Some hdr; f_inPkt := Some pkt |}) s =
      exec b time (backup_advert ip hdr key g) s).
    { rewrite (exec_FsmStart b time _ g) by done. rewrite Hst.
      unfold fsm_state. cbn [f_key f_inPkt f_vrrpHdr].
      change (bool_decide (VRRP_BACKUP_STATE = VRRP_INITIALIZE_STATE)) with false.
      change (bool_decide (VRRP_BACKUP_STATE = VRRP_BACKUP_STATE)) with true. cbn iota.
      unfold VrrpBackupState. rewrite Hmac. unfold load, get, atomic. cbn [exec mbind proc_bind pbind].
      by rewrite Hg, (bool_decide_eq_false_2 _ Hne), Hip, (bool_decide_eq_false_2 _ Hdst), Hty. }
    rewrite Hrun. unfold backup_advert, lock. rewrite Hl. cbn [exec now store update_server atomic mbind proc_bind pbind].
    assert (Hgg : g_locks g' = true /\ g_MasterDownTimer g' = Some t) by done. destruct Hgg as [Hl' Ht'].
    change (note_advert (ip_String (l_SrcIP ip)) time g) with g'.
    fold (stored key g' s).
    assert (Hg' : vrrpGblInfo (stored key g' s) !! key = Some g') by (by cbn; rewrite lookup_insert_eq).
    assert (Hpre : PreemptMode (g_IntfConfig g') = PreemptMode (g_IntfConfig g)) by done.
    assert (Hpri : u8 (Priority (g_IntfConfig g')) = Priority (g_IntfConfig g')) by (by apply u8_id).
    unfold code_backup. rewrite Hpri.
    destruct (vh_Priority hdr =? 0); [|destruct (PreemptMode (g_IntfConfig g')) eqn:Epre, (vh_Priority hdr >=? _) eqn:Epr];
      cbn [negb performs].
    + rewrite Hl'. cbn [mbind proc_bind pbind].
      etransitivity; [by apply (performs_Rearm b time key g' (set_g_MasterDownValue (g_SkewTime g') g') t)|].
      unfold rearmed, stored, set_vrrpGblInfo, set_timers. cbn. by rewrite insert_insert_eq.
    + done.
    + cbn. rewrite Htx. by split.
    + rewrite Hl'. cbn [mbind proc_bind pbind].
      etransitivity; [apply (performs_Rearm b time key g' (VrrpCalculateDownValue (MaxAdverInt hdr) g') t)|].
      * done.
      * by rewrite CalculateDownValue_locks.
      * by rewrite CalculateDownValue_timer.
      * unfold rearmed, stored, set_vrrpGblInfo, set_timers. cbn. by rewrite insert_insert_eq.
    + done.
  - unfold code_backup, rfc_backup. change (PreemptMode (g_IntfConfig g')) with (PreemptMode (g_IntfConfig g)).
    change (Priority (g_IntfConfig g')) with (Priority (g_IntfConfig g)). rewrite Z.geb_leb.
    destruct (Priority (g_IntfConfig g) <=? vh_Priority hdr) eqn:E1; zhyp;
      (destruct (vh_Priority hdr =? 0) eqn:E0; zhyp; [by intuition|]);
      destruct (PreemptMode (g_IntfConfig g)); cbn; intuition (congruence || lia).
Qed.

(** A backup router with priority 50 that preempts, and the advertisement of a master with priority 200. *)
Definition backup_info : VrrpGlobalInfo :=
  set_g_StateName VRRP_BACKUP_STATE (set_g_MasterDownTimer (Some 0%nat) (test_info 1 50 "10.0.0.9" "10.0.0.2/24")).
Definition backup_server : VrrpServer :=
  set_timers [{| tm_func := MasterDownExpired "7_1"; tm_running := Some 3 |}]
    (set_vrrpGblInfo {["7_1" := backup_info]} VrrpInitGlobalDS).
Definition master_packet : Packet :=
  {| p_DstMAC := Some [1; 0; 94; 0; 0; 18];
     p_IPv4 := Some {| l_TTL := 255; l_SrcIP := [10; 0; 0; 1]; l_DstIP := [224; 0; 0; 18]; l_payload := None |} |}.
Definition master_header : VrrpPktHeader :=
  {| Version := 2; Type_ := 1; VirtualRtrId := 1; vh_Priority := 200; CountIPv4Addr := 1; Rsvd := 0; MaxAdverInt := 1;
     CheckSum := 0; IPv4Addr := [[10; 0; 0; 9]] |}.

Lemma backup_advertisement_witness :
  performs Ignore "7_1" 0 (note_advert "10.0.0.1" "now" backup_info) backup_server
    (exec ok_calls "now" (VrrpFsmStart {| f_key := "7_1"; f_vrrpHdr := Some master_header; f_inPkt := Some master_packet |})
       backup_server) /\
  (Ignore = rfc_backup (note_advert "10.0.0.1" "now" backup_info) master_header <-> 200 = 0 \/ true = false /\ 50 <= 200).
Proof.
  apply (backup_advertisement backup_server "7_1" backup_info 0 master_packet
    {| l_TTL := 255; l_SrcIP := [10; 0; 0; 1]; l_DstIP := [224; 0; 0; 18]; l_payload := None |} master_header ok_calls "now");
    try reflexivity.
  - split; [|split|reflexivity].
    + eexists. split; [reflexivity | vm_compute; discriminate].
    + reflexivity.
    + vm_compute. discriminate.
  - unfold is_u8. cbn. lia.
Defined.

(** ** A master router *)

(** The state in which a master has yielded: the advertisement timer is stopped, the master down timer runs. *)
Definition yielded (key : string) (adver down : nat) (g : VrrpGlobalInfo) (s : VrrpServer) : VrrpServer :=
  let s := set_timers (alter (set_running None) adver (timers s)) s in
  rearmed key down g s.

(** Two masters of equal priority: the one with the greater address has to stay. The code compares the
    address of the packet with its own address parsed without its mask length, which is never an address
    as the interface's is configured with one: whatever the two addresses are, a master that hears an
    equal one yields, and so do both of them. *)
Theorem equal_priority_always_yields s key g pkt ip hdr b time addr adver down :
  vrrpGblInfo s !! key = Some g -> g_StateName g = VRRP_MASTER_STATE -> g_locks g = true ->
  g_AdverTimer g = Some adver -> g_MasterDownTimer g = Some down ->
  p_IPv4 pkt = Some ip -> l_SrcIP ip <> [] ->
  ParseCIDR (g_IpAddr g) = Some addr ->
  vh_Priority hdr = Priority (g_IntfConfig g) -> vh_Priority hdr <> 0 ->
  exists reason,
    exec b time (VrrpFsmStart {| f_key := key; f_vrrpHdr := Some hdr; f_inPkt := Some pkt |}) s =
    (Ret tt, yielded key adver down
               (set_state_info VRRP_BACKUP_STATE reason (VrrpCalculateDownValue (MaxAdverInt hdr) g)) s).
Proof.
  intros Hg Hst Hl Ha Hd Hip Hsrc Hcidr Hp H0.
  exists "Remote Priority is higher OR (priority are equal AND remote ip is higher than local ip)".
  rewrite (exec_FsmStart b time _ g) by done. rewrite Hst. unfold fsm_state. cbn [f_key f_inPkt f_vrrpHdr].
  change (bool_decide (VRRP_MASTER_STATE = VRRP_INITIALIZE_STATE)) with false.
  change (bool_decide (VRRP_MASTER_STATE = VRRP_BACKUP_STATE)) with false.
  change (bool_decide (VRRP_MASTER_STATE = VRRP_MASTER_STATE)) with true. cbn iota.
  unfold VrrpMasterState. destruct (vh_Priority hdr =? VRRP_MASTER_DOWN_PRIORITY) eqn:E; [by zhyp|].
  rewrite Hip. unfold load, get, atomic. cbn [exec mbind proc_bind pbind]. rewrite Hg.
  assert (Hn : new_master hdr ip g = true).
  { unfold new_master. rewrite Hp, Z.eqb_refl, (ParseIP_CIDR _ _ Hcidr). cbn. apply orb_true_iff. right.
    by destruct (l_SrcIP ip). }
  rewrite Hn, Ha. unfold timer_Stop, update_server, atomic. cbn [exec mbind proc_bind pbind store update_server atomic].
  unfold VrrpTransitionToBackup, load, get, atomic. cbn [exec mbind proc_bind pbind]. cbn [vrrpGblInfo set_vrrpGblInfo set_timers].
  rewrite lookup_insert_eq. unfold VrrpUpdateSubIntf, call, lock. cbn [exec mbind proc_bind pbind]. rewrite Hl.
  cbn [exec mbind proc_bind pbind store update_server atomic].
  set (g1 := VrrpCalculateDownValue (MaxAdverInt hdr) g).
  assert (Hl1 : g_locks g1 = true) by (unfold g1; by rewrite CalculateDownValue_locks).
  assert (Hd1 : g_MasterDownTimer g1 = Some down) by (unfold g1; by rewrite CalculateDownValue_timer).
  unfold VrrpUpdateStateInfo at 1, load, get, atomic. cbn [exec mbind proc_bind pbind].
  cbn [vrrpGblInfo set_vrrpGblInfo set_timers]. rewrite lookup_insert_eq. unfold lock. rewrite Hl1.
  cbn [exec mbind proc_bind pbind store update_server atomic].
  erewrite exec_HandleMasterDownTimer; [|cbn; by rewrite lookup_insert_eq | done | done].
  f_equal. unfold yielded, rearmed, set_timers, set_vrrpGblInfo. cbn. by rewrite !insert_insert_eq.
Qed.

Definition master_info : VrrpGlobalInfo :=
  set_g_AdverTimer (Some 1%nat) (set_g_StateName VRRP_MASTER_STATE
    (set_g_MasterDownTimer (Some 0%nat) (test_info 1 200 "10.0.0.9" "10.0.0.2/24"))).
Definition master_server : VrrpServer :=
  set_timers [{| tm_func := MasterDownExpired "7_1"; tm_running := None |};
              {| tm_func := AdverExpired "7_1"; tm_running := Some 1 |}]
    (set_vrrpGblInfo {["7_1" := master_info]} VrrpInitGlobalDS).

(** 10.0.0.2 yields to 10.0.0.1. *)
Lemma equal_priority_always_yields_witness :
  exists reason,
    exec ok_calls "now" (VrrpFsmStart {| f_key := "7_1"; f_vrrpHdr := Some master_header; f_inPkt := Some master_packet |})
      master_server =
    (Ret tt, yielded "7_1" 1 0 (set_state_info VRRP_BACKUP_STATE reason (VrrpCalculateDownValue 1 master_info)) master_server).
Proof.
  apply (equal_priority_always_yields master_server "7_1" master_info master_packet
    {| l_TTL := 255; l_SrcIP := [10; 0; 0; 1]; l_DstIP := [224; 0; 0; 18]; l_payload := None |} master_header ok_calls "now"
    (IPv4 10 0 0 2, 24)); try reflexivity; discriminate.
Defined.

(** ** Crashes *)

(** Deleting a router removes its entry but not the goroutine that captures its packets: the next VRRP
    packet on the interface is checked against the entry that is gone, and the lock of the zero entry is a
    nil pointer, which ends the daemon. *)
Theorem packet_after_delete_crashes config s pkt i b t :
  intf_key config ∈ listeners s -> (length (vrrpRxPktCh s) < VRRP_RX_BUF_CHANNEL_SIZE)%nat ->
  let s' := (exec b t (VrrpDeleteGblInfo config) s).2 in
  let rx := {| r_pkt := pkt; r_key := intf_key config; r_IfIndex := i |} in
  (exec b t (VrrpDeleteGblInfo config) s).1 = Ret tt /\
  outside s' (set_vrrpRxPktCh (vrrpRxPktCh s' ++ [rx]) s') /\
  exec b t (VrrpChannelHanlder (RxMsg rx)) s' = (Crash, s').
Proof.
  intros Hl Hrx.
  assert (H : (exec b t (VrrpDeleteGblInfo config) s).1 = Ret tt /\
    listeners (exec b t (VrrpDeleteGblInfo config) s).2 = listeners s /\
    vrrpRxPktCh (exec b t (VrrpDeleteGblInfo config) s).2 = vrrpRxPktCh s /\
    vrrpGblInfo (exec b t (VrrpDeleteGblInfo config) s).2 !! intf_key config = None).
  { unfold VrrpDeleteGblInfo, VrrpUpdateProtocolMacEntry. cbn.
    destruct (vrrpGblInfo s !! intf_key config) as [g|]; cbn;
      (destruct (length _ =? 0)%nat; cbn; [destruct (b DisablePacketReception); cbn|]);
      by rewrite lookup_delete_eq. }
  destruct H as (H1 & H2 & H3 & H4). cbv zeta. split; [done|].
  revert H2 H3 H4. generalize ((exec b t (VrrpDeleteGblInfo config) s).2) as s'. intros s' H2 H3 H4. split.
  - apply out_packet; [by rewrite H2 | by rewrite H3].
  - cbn. by rewrite H4.
Qed.

Lemma packet_after_delete_crashes_witness :
  let s := set_listeners ["7_1"] backup_server in
  let s' := (exec ok_calls "now" (VrrpDeleteGblInfo (example_intf 1 50 true)) s).2 in
  let rx := {| r_pkt := master_packet; r_key := "7_1"; r_IfIndex := 7 |} in
  (exec ok_calls "now" (VrrpDeleteGblInfo (example_intf 1 50 true)) s).1 = Ret tt /\
  outside s' (set_vrrpRxPktCh (vrrpRxPktCh s' ++ [rx]) s') /\
  exec ok_calls "now" (VrrpChannelHanlder (RxMsg rx)) s' = (Crash, s').
Proof.
  refine (packet_after_delete_crashes (example_intf 1 50 true) (set_listeners ["7_1"] backup_server) master_packet 7
            ok_calls "now" _ _).
  - vm_compute. left.
  - vm_compute. lia.
Defined.

(** The event of an interface that comes up carries no packet: a router that is already backup or master
    dereferences a nil pointer. *)
Lemma up_event_crashes s key g b t :
  vrrpGblInfo s !! key = Some g -> g_locks g = true ->
  g_StateName g = VRRP_BACKUP_STATE \/ g_StateName g = VRRP_MASTER_STATE ->
  exec b t (VrrpFsmStart {| f_key := key; f_vrrpHdr := None; f_inPkt := None |}) s = (Crash, s).
Proof. intros Hg Hl Hst. rewrite (exec_FsmStart b t _ g) by done. by destruct Hst as [-> | ->]. Qed.

(** Changing the advertisement interval of a master makes it a backup whose advertisement timer runs on. *)
Lemma interval_update_demotes s key g down b t c c' :
  intf_key c = key -> vrrpGblInfo s !! key = Some g -> g_locks g = true -> g_MasterDownTimer g = Some down ->
  let s' := (exec b t (VrrpUpdateIntf c c' [false; false; false; false; true; false; false]) s).2 in
  exists g', vrrpGblInfo s' !! key = Some g' /\ g_StateName g' = VRRP_BACKUP_STATE /\ g_AdverTimer g' = g_AdverTimer g /\
    timers s' = alter (set_running (Some (g_MasterDownValue g'))) down (timers s).
Proof.
  intros <- Hg Hl Hd. unfold VrrpUpdateIntf, load, get, atomic. cbn [exec mbind proc_bind pbind]. rewrite Hg.
  cbn [update_attrs]. set (g1 := set_g_IntfConfig _ g). unfold lock. change (g_locks g1) with (g_locks g). rewrite Hl.
  cbn [mbind proc_bind pbind]. set (g2 := VrrpCalculateDownValue _ g1).
  change (fun _ : () => VrrpHandleMasterDownTimer (intf_key c)) with (fun _ : () => VrrpHandleMasterDownTimer (intf_key c)).
  rewrite (performs_Rearm b t (intf_key c) g g2 down s Hg).
  - exists (set_g_StateName VRRP_BACKUP_STATE g2). cbn. rewrite lookup_insert_eq. repeat split.
    unfold g2, VrrpCalculateDownValue. by destruct (negb _ && negb _).
  - unfold g2. by rewrite CalculateDownValue_locks.
  - unfold g2. by rewrite CalculateDownValue_timer.
Qed.

(** The next index of a page is always 0: a reader is never sent on to the routers after the first page. *)
Lemma bulk_next_is_0 {A} (populate : string -> option A) keys idx cnt r :
  get_bulk populate keys idx cnt = Ok r -> r.1.1 = 0.
Proof. unfold get_bulk. repeat case_match; intros [= <-]; done. Qed.
