(* ===== verification/VrrpInv.v ===== *)
(** The invariant of the VRRP entries under every interleaving of the goroutines.

    The goroutines read an entry, work on their copy and store it back without a lock, so an entry may
    be overwritten with an old one. The proof is by rely and guarantee: a program is checked with
    every state that respects the invariant and extends the last one it saw ([wp]), and must itself
    leave such a state. *)
From stdpp Require Import base numbers list gmap strings pretty.
From Stdlib Require Import ZArith Lia.
From S2P Require Import Prelude GoNet VrrpPkt VrrpServer VrrpServerFacts VrrpSpec.
Open Scope Z_scope.

(** ** The invariant *)

(** Timer [t] exists and runs [f]. *)
Definition has_timer (s : VrrpServer) (t : nat) (f : TimerFunc) : Prop :=
  exists tm, timers s !! t = Some tm /\ tm_func tm = f.

Record entry_ok (s : VrrpServer) (key : string) (g : VrrpGlobalInfo) : Prop := {
  ok_locks : g_locks g = true;
  ok_key : key = intf_key (g_IntfConfig g);
  ok_mac : g_VirtualRouterMACAddress g = virtual_mac (VRID (g_IntfConfig g));
  ok_state : g_StateName g = VRRP_INITIALIZE_STATE \/ g_StateName g = VRRP_BACKUP_STATE \/
             g_StateName g = VRRP_MASTER_STATE;
  ok_down : forall t, g_MasterDownTimer g = Some t -> has_timer s t (MasterDownExpired key);
  ok_adver : forall t, g_AdverTimer g = Some t -> has_timer s t (AdverExpired key);
  ok_backup : g_StateName g = VRRP_BACKUP_STATE -> g_MasterDownTimer g <> None;
  ok_master : g_StateName g = VRRP_MASTER_STATE -> g_AdverTimer g <> None;
}.

Definition entries_ok (s : VrrpServer) : Prop := forall key g, vrrpGblInfo s !! key = Some g -> entry_ok s key g.

(** Timers are never forgotten, and keep their function. *)
Definition ext (s s' : VrrpServer) : Prop := forall t f, has_timer s t f -> has_timer s' t f.

#[export] Instance ext_preorder : PreOrder ext.
Proof. split; unfold ext; [auto | intros x y z; auto]. Qed.

Lemma entry_ok_ext s s' key g : ext s s' -> entry_ok s key g -> entry_ok s' key g.
Proof. intros He []. split; eauto. Qed.

(** ** Programs that respect it *)

Fixpoint wp {A} (p : proc A) (s : VrrpServer) (Q : A -> VrrpServer -> Prop) : Prop :=
  match p with
  | Ret a => Q a s
  | Atomic f k => forall s1, ext s s1 -> entries_ok s1 ->
      entries_ok (f s1).2 /\ ext s1 (f s1).2 /\ wp (k (f s1).1) (f s1).2 Q
  | SendTx _ k | SendFsm _ k | WaitSent k | SignalSent k | GoHandler k => wp k s Q
  | Call _ k => forall b, wp (k b) s Q
  | Now k => forall t, wp (k t) s Q
  | Crash => True
  end.
Definition respects (p : proc ()) (s : VrrpServer) : Prop := wp p s (fun _ _ => True).

Lemma wp_ext {A} (p : proc A) : forall s s' (Q : A -> VrrpServer -> Prop),
  (forall a s s', ext s s' -> Q a s -> Q a s') -> ext s s' -> wp p s Q -> wp p s' Q.
Proof.
  induction p; cbn; intros s s' Q HQ He Hp; eauto. intros s1 H1 Hi. apply Hp; [|done]. by transitivity s'.
Qed.

Lemma wp_bind {A B} (p : proc A) (h : A -> proc B) : forall s (Q : B -> VrrpServer -> Prop),
  wp p s (fun a s => wp (h a) s Q) -> wp (p ≫= h) s Q.
Proof.
  change (p ≫= h) with (pbind h p). induction p; cbn; intros s Q Hp; eauto.
  intros s1 He Hi. destruct (Hp s1 He Hi) as (? & ? & ?). auto.
Qed.

Lemma wp_mono {A} (p : proc A) : forall s (Q Q' : A -> VrrpServer -> Prop),
  (forall a s', ext s s' -> Q a s' -> Q' a s') -> wp p s Q -> wp p s Q'.
Proof.
  induction p; cbn; intros s Q Q' HQ Hp; eauto.
  - apply HQ; [reflexivity | done].
  - intros s1 He Hi. destruct (Hp s1 He Hi) as (? & He' & Hk). split; [done|]. split; [done|].
    eapply H; [|exact Hk]. intros a s' Hs'. apply HQ. transitivity s1; [done|]. by transitivity (f s1).2.
Qed.

Section rules.
Context {A : Type} (s : VrrpServer) (Q : A -> VrrpServer -> Prop).

Lemma wp_load key k :
  (forall s1, ext s s1 -> wp (k None) s1 Q) ->
  (forall s1 g, ext s s1 -> entry_ok s1 key g -> wp (k (Some g)) s1 Q) ->
  wp (load key ≫= k) s Q.
Proof.
  intros Hn Hs s1 He Hi. cbn. split; [done|]. split; [reflexivity|].
  destruct (vrrpGblInfo s1 !! key) as [g|] eqn:Hg; cbn; [apply Hs; [done | by apply Hi] | by apply Hn].
Qed.

Lemma wp_load_value key k :
  (forall s1, ext s s1 -> wp (k zero_info) s1 Q) ->
  (forall s1 g, ext s s1 -> entry_ok s1 key g -> wp (k g) s1 Q) ->
  wp (load_value key ≫= k) s Q.
Proof.
  intros Hn Hs s1 He Hi. cbn. split; [done|]. split; [reflexivity|].
  destruct (vrrpGblInfo s1 !! key) as [g|] eqn:Hg; cbn; [apply Hs; [done | by apply Hi] | by apply Hn].
Qed.

Lemma store_ok s1 key g : ext s s1 -> entries_ok s1 -> entry_ok s key g ->
  entries_ok (set_vrrpGblInfo (<[key := g]> (vrrpGblInfo s1)) s1) /\
  ext s1 (set_vrrpGblInfo (<[key := g]> (vrrpGblInfo s1)) s1).
Proof.
  intros He Hi Hg. assert (Hx : ext s1 (set_vrrpGblInfo (<[key := g]> (vrrpGblInfo s1)) s1)) by (intros t f; done).
  split; [|done]. intros k g' Hk. cbn in Hk. eapply entry_ok_ext; [exact Hx|].
  apply lookup_insert_Some in Hk as [[<- <-] | [_ Hk]]; [exact (entry_ok_ext _ _ _ _ He Hg) | by apply Hi].
Qed.

Lemma wp_store key g k :
  entry_ok s key g -> (forall s1, ext s s1 -> wp (k tt) s1 Q) -> wp (store key g ≫= k) s Q.
Proof.
  intros Hg Hk s1 He Hi. destruct (store_ok s1 key g He Hi Hg) as [H1 H2].
  split; [exact H1|]. split; [exact H2|]. apply Hk. cbn. by transitivity s1.
Qed.

Lemma wp_lock g k : (g_locks g = true -> wp (k tt) s Q) -> wp (lock g ≫= k) s Q.
Proof. unfold lock. destruct (g_locks g); cbn; auto. Qed.

(** Reading, and writing what is neither an entry nor a timer. *)
Lemma wp_get {X} (f : VrrpServer -> X) k : (forall x s1, ext s s1 -> wp (k x) s1 Q) -> wp (get f ≫= k) s Q.
Proof. intros Hk s1 He Hi. cbn. split; [done|]. split; [reflexivity|]. auto. Qed.
Lemma wp_modify f k :
  (forall s1, vrrpGblInfo (f s1) ⊆ vrrpGblInfo s1 /\ timers (f s1) = timers s1) ->
  (forall s1, ext s s1 -> wp (k tt) s1 Q) -> wp (update_server f ≫= k) s Q.
Proof.
  intros Hf Hk s1 He Hi. destruct (Hf s1) as [Hg Ht]. cbn.
  assert (Hx : ext s1 (f s1)) by (intros t g; unfold has_timer; by rewrite Ht).
  split; [|split; [done | apply Hk; by transitivity s1]].
  intros key g H. eapply entry_ok_ext; [done|]. apply Hi. by eapply lookup_weaken.
Qed.

Lemma has_timer_alter r t s1 : ext s1 (set_timers (alter (set_running r) t (timers s1)) s1).
Proof.
  intros i f (tm & Hi & Hf). unfold has_timer. cbn. rewrite list_lookup_alter.
  case_decide; subst; rewrite Hi; by eexists.
Qed.
Lemma timers_ok s1 l : ext s1 (set_timers l s1) -> entries_ok s1 -> entries_ok (set_timers l s1).
Proof. intros He Hi key g Hg. eapply entry_ok_ext; [exact He | by apply Hi]. Qed.

Lemma wp_Reset t d k : (forall s1, ext s s1 -> wp (k tt) s1 Q) -> wp (timer_Reset t d ≫= k) s Q.
Proof.
  intros Hk. destruct t as [t|]; [|done]. intros s1 He Hi. cbn. pose proof (has_timer_alter (Some d) t s1) as Hx.
  split; [by apply timers_ok|]. split; [done|]. apply Hk. by transitivity s1.
Qed.
Lemma wp_Stop t k : (forall s1, ext s s1 -> wp (k tt) s1 Q) -> wp (timer_Stop t ≫= k) s Q.
Proof.
  intros Hk. destruct t as [t|]; [|done]. intros s1 He Hi. cbn. pose proof (has_timer_alter None t s1) as Hx.
  split; [by apply timers_ok|]. split; [done|]. apply Hk. by transitivity s1.
Qed.
Lemma wp_AfterFunc d f k :
  (forall s1 t, ext s s1 -> has_timer s1 t f -> wp (k t) s1 Q) -> wp (AfterFunc d f ≫= k) s Q.
Proof.
  intros Hk s1 He Hi. cbn.
  assert (Hx : ext s1 (set_timers (timers s1 ++ [{| tm_func := f; tm_running := Some d |}]) s1)).
  { intros i f' (tm & Ht & Hf). exists tm. cbn. split; [by apply lookup_app_l_Some | done]. }
  split; [by apply timers_ok|]. split; [done|]. apply Hk; [by transitivity s1|].
  eexists. cbn. rewrite list_lookup_middle by done. by split.
Qed.
End rules.

Lemma wp_tail {A} (p : proc A) : forall s Q, wp (p ≫= Ret) s Q -> wp p s Q.
Proof.
  change (p ≫= Ret) with (pbind Ret p). induction p; cbn; intros s Q Hp; eauto.
  intros s1 He Hi. destruct (Hp s1 He Hi) as (? & ? & ?). auto.
Qed.

Lemma wp_grows {A} (p : proc A) : forall s Q, wp p s Q -> wp p s (fun a s' => Q a s' /\ ext s s').
Proof.
  induction p; cbn; intros s Q Hp; eauto.
  - split; [done | reflexivity].
  - intros s1 He Hi. destruct (Hp s1 He Hi) as (? & He' & Hk). split; [done|]. split; [done|].
    eapply wp_mono; [|apply H; exact Hk]. cbn. intros a s' _ [HQ Hx]. split; [done|].
    transitivity s1; [done|]. by transitivity (f s1).2.
Qed.

Lemma wp_seq {A B} (p : proc A) (h : A -> proc B) s Q :
  wp p s (fun _ _ => True) -> (forall a s', ext s s' -> wp (h a) s' Q) -> wp (p ≫= h) s Q.
Proof.
  intros Hp Hh. apply wp_bind. eapply wp_mono; [|apply wp_grows; exact Hp]. cbn. intros a s' _ [_ He]. auto.
Qed.

(** ** The programs of the server *)

(** An entry that differs in its statistics and the like only. *)
Definition same_entry (g g' : VrrpGlobalInfo) : Prop :=
  g_locks g' = g_locks g /\ IfIndex (g_IntfConfig g') = IfIndex (g_IntfConfig g) /\
  VRID (g_IntfConfig g') = VRID (g_IntfConfig g) /\
  g_VirtualRouterMACAddress g' = g_VirtualRouterMACAddress g /\ g_StateName g' = g_StateName g /\
  g_MasterDownTimer g' = g_MasterDownTimer g /\ g_AdverTimer g' = g_AdverTimer g.

Lemma entry_ok_core s key g g' : same_entry g g' -> entry_ok s key g -> entry_ok s key g'.
Proof.
  intros (E1 & E2 & E3 & E4 & E5 & E6 & E7) []. unfold intf_key in *.
  split; rewrite ?E1, ?E4, ?E5, ?E6, ?E7; unfold intf_key; rewrite ?E2, ?E3; done.
Qed.

Lemma CalculateDownValue_core i g : same_entry g (VrrpCalculateDownValue i g).
Proof. unfold VrrpCalculateDownValue. by destruct (negb _ && negb _). Qed.
Lemma update_attrs_core new l : forall elem c upd,
  IfIndex (update_attrs new elem l c upd).1 = IfIndex c /\ VRID (update_attrs new elem l c upd).1 = VRID c.
Proof.
  induction l as [|[] l IH]; intros elem c upd; cbn [update_attrs]; [done| |apply IH].
  assert (Hc : forall e c' u, IfIndex c' = IfIndex c /\ VRID c' = VRID c ->
    IfIndex (update_attrs new e l c' u).1 = IfIndex c /\ VRID (update_attrs new e l c' u).1 = VRID c).
  { intros e c' u [<- <-]. apply IH. }
  do 7 (destruct elem as [|elem]; [by apply Hc|]). by apply Hc.
Qed.

(** The two states a timer comes with. *)
Lemma entry_ok_to_backup s key g t :
  entry_ok s key g -> has_timer s t (MasterDownExpired key) ->
  entry_ok s key (set_g_StateName VRRP_BACKUP_STATE (set_g_MasterDownTimer (Some t) g)).
Proof. intros [] Ht. split; cbn; auto; try discriminate; by intros ? [= <-]. Qed.
Lemma entry_ok_to_master s key g t :
  entry_ok s key g -> has_timer s t (AdverExpired key) ->
  entry_ok s key (set_g_StateName VRRP_MASTER_STATE (set_g_AdverTimer (Some t) g)).
Proof. intros [] Ht. split; cbn; auto; try discriminate; by intros ? [= <-]. Qed.
Lemma entry_ok_to_init s key g : entry_ok s key g -> entry_ok s key (set_g_StateName VRRP_INITIALIZE_STATE g).
Proof. intros []. split; cbn; auto; discriminate. Qed.

Create HintDb vrrp.
#[export] Hint Resolve entry_ok_to_backup entry_ok_to_master entry_ok_to_init : vrrp.
#[export] Hint Extern 2 (same_entry _ _) => (by repeat split) : vrrp.

(** One step of a program. *)
Ltac entry :=
  match goal with
  | H : entry_ok ?s ?key ?g |- entry_ok ?s ?key ?g' => apply (entry_ok_core s key g); [by repeat split | exact H]
  | H : ext ?s ?s' |- entry_ok ?s' ?key ?g' => apply (entry_ok_ext s s'); [exact H|]; clear H; entry
  end.
Ltac wp_step :=
  first
    [ apply wp_load; [intros ? ?|intros ? ? ? ?]
    | apply wp_store; [|intros ? ?]
    | apply wp_lock; intros ?
    | apply wp_get; intros ? ? ?
    | apply wp_Reset; intros ? ?
    | apply wp_Stop; intros ? ?
    | apply wp_AfterFunc; intros ? ? ? ?
    | progress cbn [wp call now send_tx send_fsm wait_sent signal_sent mbind proc_bind pbind lock]; intros
    | done ].

Lemma UpdateStateInfo_ok s key reason st : respects (VrrpUpdateStateInfo key reason st) s.
Proof. unfold respects, VrrpUpdateStateInfo. repeat wp_step. entry. Qed.

Lemma UpdateSubIntf_ok s g b : respects (VrrpUpdateSubIntf g b) s.
Proof. unfold respects, VrrpUpdateSubIntf. repeat wp_step. Qed.

Lemma HandleMasterAdverTimer_ok s key : respects (VrrpHandleMasterAdverTimer key) s.
Proof.
  unfold respects, VrrpHandleMasterAdverTimer. repeat wp_step. apply entry_ok_to_master; [entry | done].
Qed.

Lemma TransitionToMaster_ok s key reason : respects (VrrpTransitionToMaster key reason) s.
Proof.
  unfold respects, VrrpTransitionToMaster.
  apply wp_seq; [done|intros ? ? _]. apply wp_seq; [done|intros ? ? _].
  apply wp_seq; [apply UpdateStateInfo_ok|intros ? ? _]. wp_step; [done|].
  apply wp_seq; [apply UpdateSubIntf_ok|intros ? ? _]. apply HandleMasterAdverTimer_ok.
Qed.

Lemma entry_ok_backup s key g t :
  entry_ok s key g -> g_MasterDownTimer g = Some t -> entry_ok s key (set_g_StateName VRRP_BACKUP_STATE g).
Proof. intros [] Ht. split; cbn; auto; try discriminate. by rewrite Ht. Qed.

Lemma HandleMasterDownTimer_ok s key : respects (VrrpHandleMasterDownTimer key) s.
Proof.
  unfold respects, VrrpHandleMasterDownTimer. wp_step; [done|].
  apply wp_bind. destruct (g_MasterDownTimer g) as [t|] eqn:Ht.
  - repeat wp_step. eapply entry_ok_backup; [entry | exact Ht].
  - repeat wp_step. apply entry_ok_to_backup; [entry | done].
Qed.

(** Store an entry with a new down value, and restart the timer. *)
Lemma rearm_ok s key g :
  entry_ok s key g -> wp (_ ← store key g; VrrpHandleMasterDownTimer key) s (fun _ _ => True).
Proof. intros Hg. wp_step; [done|]. apply HandleMasterDownTimer_ok. Qed.

Lemma CalculateDownValue_ok s key g i : entry_ok s key g -> entry_ok s key (VrrpCalculateDownValue i g).
Proof. apply entry_ok_core, CalculateDownValue_core. Qed.

Lemma TransitionToBackup_ok s key i reason : respects (VrrpTransitionToBackup key i reason) s.
Proof.
  unfold respects, VrrpTransitionToBackup. wp_step; [done|].
  apply wp_seq; [apply UpdateSubIntf_ok|intros ? s2 ?]. wp_step. wp_step.
  - apply CalculateDownValue_ok. entry.
  - apply wp_seq; [apply UpdateStateInfo_ok|intros ? ? _]. apply HandleMasterDownTimer_ok.
Qed.

Lemma InitState_ok s key : respects (VrrpInitState key) s.
Proof.
  unfold respects, VrrpInitState. wp_step; [done|].
  destruct (_ =? _); [apply TransitionToMaster_ok | apply TransitionToBackup_ok].
Qed.

Lemma backup_advert_ok s ip hdr key g : entry_ok s key g -> respects (backup_advert ip hdr key g) s.
Proof.
  intros Hg. unfold respects, backup_advert. wp_step. wp_step.
  set (g' := note_advert _ _ g).
  assert (Hg' : entry_ok s key g') by (unfold g'; entry).
  clearbody g'. wp_step; [done|]. destruct (_ =? 0).
  - wp_step. apply rearm_ok. entry.
  - destruct (negb _); [|destruct (_ >=? _); [done | apply TransitionToMaster_ok]].
    destruct (_ >=? _); [|done]. wp_step. apply rearm_ok. apply CalculateDownValue_ok. entry.
Qed.

Lemma BackupState_ok s inPkt hdr key : respects (VrrpBackupState inPkt hdr key) s.
Proof.
  unfold respects, VrrpBackupState. destruct inPkt as [pkt|]; [|done]. destruct (p_DstMAC pkt); [|done].
  wp_step; [done|]. destruct (bool_decide _); [done|]. destruct (p_IPv4 pkt); [|done].
  destruct (bool_decide _); [done|]. destruct hdr; [|done]. destruct (_ =? _); [|done]. by apply backup_advert_ok.
Qed.

(** Stopping a timer that may be nil, as the code does it. *)
Lemma stop_opt_ok s (t : option nat) :
  wp (match t with Some t => timer_Stop (Some t) | None => Ret tt end) s (fun _ _ => True).
Proof. destruct t; [|done]. apply wp_tail, wp_Stop. done. Qed.

Lemma MasterState_ok s inPkt hdr key : respects (VrrpMasterState inPkt hdr key) s.
Proof.
  unfold respects, VrrpMasterState. destruct hdr as [h|]; [|done]. destruct (_ =? _).
  - apply wp_seq; [done|intros ? ? _]. apply wp_seq; [done|intros ? ? _]. apply HandleMasterAdverTimer_ok.
  - destruct inPkt as [pkt|]; [|done]. destruct (p_IPv4 pkt); [|done]. wp_step; [done|].
    destruct (new_master _ _ _); [|done].
    apply wp_seq; [apply stop_opt_ok|intros ? ? ?].
    wp_step; [entry|]. apply TransitionToBackup_ok.
Qed.

Lemma FsmStart_ok s f : respects (VrrpFsmStart f) s.
Proof.
  unfold respects, VrrpFsmStart. wp_step; [done|]. wp_step.
  destruct (bool_decide _); [apply InitState_ok|]. destruct (bool_decide _); [apply BackupState_ok|].
  destruct (bool_decide _); [apply MasterState_ok | done].
Qed.

Lemma adver_timer_ok s key : respects (adver_timer_func key) s.
Proof. unfold respects, adver_timer_func. repeat wp_step. entry. Qed.

Lemma timer_ok s f : respects (timer_func f) s.
Proof.
  destruct f as [key|key]; cbn [timer_func]; [unfold master_down_func; apply TransitionToMaster_ok | apply adver_timer_ok].
Qed.

Lemma stop_timers_ok i keys : forall s, respects (stop_timers i keys) s.
Proof.
  induction keys as [|key keys IH]; intros s; [done|]. unfold respects. cbn [stop_timers].
  destruct (negb _); [apply IH|]. wp_step; [by destruct (negb _)|]. destruct (negb _); [done|].
  apply wp_seq; [apply stop_opt_ok|intros ? ? ?].
  apply wp_seq; [apply stop_opt_ok|intros ? ? ?]. wp_step.
  apply wp_seq; [destruct (bool_decide _); repeat wp_step|intros ? ? ?].
  wp_step; [|apply IH]. apply entry_ok_to_init. entry.
Qed.
Lemma intf_up_ok i keys : forall s, respects (intf_up i keys) s.
Proof.
  induction keys as [|key keys IH]; intros s; [done|]. unfold respects. cbn [intf_up].
  destruct (negb _); [apply IH|]. wp_step; [by destruct (key_has_vrid _)|].
  apply wp_seq; [done|intros ? ? _]. apply IH.
Qed.

Lemma CheckRcvdPkt_ok s pkt key : respects (VrrpCheckRcvdPkt pkt key) s.
Proof.
  unfold respects, VrrpCheckRcvdPkt. apply wp_seq; [by repeat wp_step|intros g s1 _]. wp_step.
  destruct (bool_decide _); [done|]. destruct (p_IPv4 pkt); [|done]. destruct (negb _); [done|].
  destruct (l_payload _) as [[? ?]|]; [|done]. destruct (VrrpDecodeHeader _ _); [|done..].
  apply wp_seq; [by repeat wp_step|intros g' s2 _]. by destruct (VrrpCheckHeader _ _ _ _).
Qed.

Lemma SendPkt_ok s key p : respects (VrrpSendPkt key p) s.
Proof.
  unfold respects, VrrpSendPkt. wp_step; [done|]. wp_step. destruct (negb _); [done|].
  destruct (VrrpCreateVrrpHeader _) as [[? ?]| | |]; [|done..]. repeat wp_step. entry.
Qed.

(** What only grows the other maps. *)
Lemma modify_ok s f :
  (forall s1, vrrpGblInfo (f s1) ⊆ vrrpGblInfo s1 /\ timers (f s1) = timers s1) -> respects (update_server f) s.
Proof. intros Hf. apply wp_tail, wp_modify; done. Qed.

Lemma created_ok s config addrs g :
  g = zero_info \/ entry_ok s (intf_key config) g -> entry_ok s (intf_key config) (created_info config addrs g).
Proof.
  intros Hg. assert (Ht : (forall t, g_MasterDownTimer g = Some t -> has_timer s t (MasterDownExpired (intf_key config))) /\
    (forall t, g_AdverTimer g = Some t -> has_timer s t (AdverExpired (intf_key config)))).
  { destruct Hg as [-> | []]; split; intros; discriminate || auto. }
  destruct Ht. split; cbn; auto; discriminate.
Qed.

Lemma InitPacketListener_ok s key i : respects (VrrpInitPacketListener key i) s.
Proof.
  unfold respects, VrrpInitPacketListener. apply wp_get. intros ok s1 He. destruct (negb ok); [done|].
  apply wp_seq; [done|intros opened s2 He2]. destruct (negb opened); [done|].
  apply wp_load_value; [intros s3 He3; by apply wp_lock|]. intros s3 g He3 Hg. wp_step.
  wp_step; [entry|]. by apply modify_ok.
Qed.

Lemma UpdateProtocolMacEntry_ok s b : respects (VrrpUpdateProtocolMacEntry b) s.
Proof. destruct b; intros []; try done; by apply modify_ok. Qed.

Lemma CreateGblInfo_ok s config : respects (VrrpCreateGblInfo config) s.
Proof.
  unfold respects, VrrpCreateGblInfo.
  assert (Hrest : forall s1 g, g = zero_info \/ entry_ok s1 (intf_key config) g ->
    wp (addrs ← get vrrpIfIndexIpAddr;
        _ ← store (intf_key config) (created_info config addrs g);
        _ ← update_server (fun s => set_vrrpIntfStateSlice (vrrpIntfStateSlice s ++ [intf_key config]) s);
        _ ← VrrpInitPacketListener (intf_key config) (IfIndex config);
        added ← get vrrpMacConfigAdded;
        _ ← (if negb (added : bool) then VrrpUpdateProtocolMacEntry true else Ret tt);
        send_fsm {| f_key := intf_key config; f_vrrpHdr := None; f_inPkt := None |}) s1 (fun _ _ => True)).
  { intros s1 g Hg. apply wp_get. intros addrs s2 He2.
    wp_step; [apply created_ok; destruct Hg as [-> | Hg]; [by left | right; entry]|].
    apply wp_seq; [by apply modify_ok|intros ? ? _]. apply wp_seq; [apply InitPacketListener_ok|intros ? ? _].
    apply wp_get. intros added ? _. apply wp_seq; [|done].
    destruct (negb added); [apply UpdateProtocolMacEntry_ok | done]. }
  apply wp_load_value; intros; apply Hrest; auto.
Qed.

Lemma DeleteGblInfo_ok s config : respects (VrrpDeleteGblInfo config) s.
Proof.
  unfold respects, VrrpDeleteGblInfo.
  assert (Hrest : forall s1, wp (_ ← update_server (fun s => set_vrrpGblInfo (delete (intf_key config) (vrrpGblInfo s)) s);
      _ ← update_server (fun s => set_vrrpIntfStateSlice (remove_key (intf_key config) (vrrpIntfStateSlice s)) s);
      n ← get (fun s => length (vrrpIntfStateSlice s));
      if Nat.eqb n 0 then VrrpUpdateProtocolMacEntry false else Ret tt) s1 (fun _ _ => True)).
  { intros s1. apply wp_seq; [apply modify_ok; intros; split; [apply delete_subseteq | done]|intros ? ? _].
    apply wp_seq; [by apply modify_ok|intros ? ? _]. apply wp_get. intros n ? _.
    destruct (Nat.eqb n 0); [apply UpdateProtocolMacEntry_ok | done]. }
  apply wp_load; [intros s1 _; apply (Hrest s1)|]. intros s1 g _ _.
  apply wp_seq; [apply UpdateSubIntf_ok|intros ? ? _; apply Hrest].
Qed.

Lemma UpdateIntf_ok s c c' l : respects (VrrpUpdateIntf c c' l) s.
Proof.
  unfold respects, VrrpUpdateIntf. wp_step; [done|].
  destruct (update_attrs c' 0 l (g_IntfConfig g) false) as [c1 upd] eqn:Hu.
  assert (Hg : entry_ok s1 (intf_key c) (set_g_IntfConfig c1 g)).
  { pose proof (update_attrs_core c' l 0 (g_IntfConfig g) false) as Hc. rewrite Hu in Hc.
    apply (entry_ok_core s1 _ g); [by repeat split; cbn; apply Hc || idtac; destruct Hc | done]. }
  destruct upd.
  - wp_step. apply rearm_ok. by apply CalculateDownValue_ok.
  - apply wp_tail. by wp_step.
Qed.

Lemma handler_ok s m : respects (VrrpChannelHanlder m) s.
Proof.
  destruct m; cbn [VrrpChannelHanlder];
    [apply CreateGblInfo_ok | apply DeleteGblInfo_ok | apply FsmStart_ok | apply SendPkt_ok | apply CheckRcvdPkt_ok
    | apply UpdateIntf_ok].
Qed.

Lemma StartServer_ok s objList : respects (VrrpStartServer objList) s.
Proof.
  unfold respects, VrrpStartServer. apply wp_seq; [|done]. revert s.
  induction objList as [|o l IH]; intros s; [done|]. cbn [VrrpReadDB].
  apply wp_seq; [apply CreateGblInfo_ok|intros; apply IH].
Qed.

Section invariant.
Context (GetIntfTypeFromIfIndex GetIntfIdFromIfIndex : Z -> Z)
        (IfTypeVirtual IfTypeSecondary INTF_STATE_UP INTF_STATE_DOWN NOTIFY_IPV4INTF_CREATE NOTIFY_IPV4INTF_DELETE
         NOTIFY_VLAN_CREATE NOTIFY_VLAN_DELETE : Z).
Let event := interface_event GetIntfTypeFromIfIndex GetIntfIdFromIfIndex IfTypeVirtual IfTypeSecondary
  INTF_STATE_UP INTF_STATE_DOWN NOTIFY_IPV4INTF_CREATE NOTIFY_IPV4INTF_DELETE NOTIFY_VLAN_CREATE NOTIFY_VLAN_DELETE.

Lemma event_ok s p : event p -> respects p s.
Proof.
  destruct 1.
  - unfold VrrpUpdateVlanGblInfo, VrrpCreateVlanEntry. repeat (destruct (_ =? _); [by apply modify_ok|]). done.
  - unfold VrrpUpdateIPv4GblInfo. destruct (_ || _); [done|]. destruct (_ =? _).
    + apply wp_seq; [by apply modify_ok|intros ? ? _]. unfold VrrpMapIfIndexToLinuxIfIndex.
      apply wp_get. intros [] ? _; [done|]. apply wp_get. intros [name|] ? _; [|done].
      apply wp_seq; [done|intros [] ? _]; [by apply modify_ok | done].
    + destruct (_ =? _); [by apply modify_ok | done].
  - unfold VrrpUpdateL3IntfStateChange, VrrpHandleIntfUpEvent, VrrpHandleIntfShutdownEvent, VrrpStopTimers.
    destruct (_ || _); [done|]. destruct (_ =? _); [apply wp_get; intros; apply intf_up_ok|].
    destruct (_ =? _); [apply wp_get; intros; apply stop_timers_ok | done].
Qed.

(** Every goroutine respects the invariant from here on. *)
Definition config_ok (c : Config) : Prop :=
  entries_ok (c_server c) /\ forall i p, thread c i = Some p -> respects p (c_server c).

Lemma respects_ext p s s' : ext s s' -> respects p s -> respects p s'.
Proof. apply wp_ext. done. Qed.

(** A change of what is neither an entry nor a timer. *)
Lemma same_entries s s' : vrrpGblInfo s' = vrrpGblInfo s -> timers s' = timers s ->
  ext s s' /\ (entries_ok s -> entries_ok s').
Proof.
  intros Hg Ht. assert (He : ext s s') by (intros t f; unfold has_timer; by rewrite Ht).
  split; [done|]. intros Hi key g H. rewrite Hg in H. eapply entry_ok_ext; [exact He | by apply Hi].
Qed.

Lemma gstep_ok b t p s p' s' :
  entries_ok s -> respects p s -> gstep b t p s = Some (p', s') ->
  entries_ok s' /\ ext s s' /\ respects p' s'.
Proof.
  intros Hi Hp Hs. unfold respects in *. destruct p; cbn in Hp, Hs; try discriminate.
  - destruct (Hp s) as (H1 & H2 & H3); [reflexivity | done|]. destruct (f s). by simplify_eq.
  - destruct (_ <=? _)%nat; [|done]. simplify_eq.
    destruct (same_entries s (set_vrrpTxPktCh (vrrpTxPktCh s ++ [m]) s)) as [He Hg]; [done..|].
    split; [auto|]. split; [done|]. by eapply respects_ext.
  - destruct (_ <=? _)%nat; [|done]. simplify_eq.
    destruct (same_entries s (set_vrrpFsmCh (vrrpFsmCh s ++ [m]) s)) as [He Hg]; [done..|].
    split; [auto|]. split; [done|]. by eapply respects_ext.
  - simplify_eq. split; [done|]. split; [reflexivity | auto].
  - simplify_eq. split; [done|]. split; [reflexivity | auto].
Qed.

(** A new state, and threads that are old ones or respect the invariant. *)
Lemma config_ok_next c c' :
  config_ok c -> entries_ok (c_server c') -> ext (c_server c) (c_server c') ->
  (forall i p, thread c' i = Some p -> (exists j, thread c j = Some p) \/ respects p (c_server c')) -> config_ok c'.
Proof.
  intros [Hi Ht] Hi' He Hth. split; [done|]. intros i p Hp.
  destruct (Hth i p Hp) as [(j & Hj) | Hr]; [|done]. eapply respects_ext; [exact He | by eapply Ht].
Qed.

Lemma thread_set_thread_inv i q c j p : thread (set_thread i q c) j = Some p -> p = q \/ thread c j = Some p.
Proof.
  destruct i as [|i], j as [|j]; cbn; auto.
  - intros [= ->]. auto.
  - intros H. apply list_lookup_insert_Some in H as [(_ & <- & _) | [_ ?]]; auto.
Qed.

Lemma thread_spawn_inv p c i q : thread (spawn p c) i = Some q -> q = p \/ thread c i = Some q.
Proof.
  destruct i as [|i]; cbn; auto. intros H. apply lookup_app_Some in H as [H | [_ H]]; [auto|].
  apply list_lookup_singleton_Some in H as [_ <-]. auto.
Qed.

Lemma step_ok c c' : config_ok c -> step event c c' -> config_ok c'.
Proof.
  intros Hok Hs. pose proof Hok as [Hi Ht]. destruct Hs as
    [c i p b t p' s' Hc Hp Hstep|c i j k k' Hc Hij Hp Hp'|c i Hc Hp|c i k Hc Hp Hh|c m s' Hc Hh Hr|c Hc Hh|c i f d Hc Htm|c s' Hc Ho|c p Hc He].
  - destruct (gstep_ok b t p (c_server c) p' s' Hi (Ht _ _ Hp) Hstep) as (Hi' & He & Hr).
    apply (config_ok_next c); [done..|]. intros j q Hq. rewrite thread_set_server in Hq.
    apply thread_set_thread_inv in Hq as [-> | Hq]; [by right | left; eauto].
  - apply (config_ok_next c); [done | by destruct i, j | by destruct i, j |]. intros n q Hq.
    assert (Es : c_server (set_thread j k' (set_thread i k c)) = c_server c) by by destruct i, j.
    rewrite Es. apply thread_set_thread_inv in Hq as [-> | Hq]; [right; exact (Ht _ _ Hp')|].
    apply thread_set_thread_inv in Hq as [-> | Hq]; [right; exact (Ht _ _ Hp) | left; eauto].
  - apply (config_ok_next c); [done | done | done |]. intros j q Hq. left. by exists j.
  - assert (Es : c_server (set_handler Idle (set_thread i k c)) = c_server c) by by destruct i.
    apply (config_ok_next c); rewrite ?Es; [done | done | done |]. intros [|j] q Hq; [done|].
    assert (Hq' : thread (set_thread i k c) (S j) = Some q) by done.
    apply thread_set_thread_inv in Hq' as [-> | Hq']; [right; exact (Ht _ _ Hp) | left; eauto].
  - assert (Hss : vrrpGblInfo s' = vrrpGblInfo (c_server c) /\ timers s' = timers (c_server c)) by by destruct Hr.
    destruct Hss as [H1 H2]. destruct (same_entries (c_server c) s' H1 H2) as [He Hx].
    apply (config_ok_next c); [done | cbn; auto | done |]. intros [|j] q Hq.
    + injection Hq as <-. right. apply handler_ok.
    + left. by exists (S j).
  - apply (config_ok_next c); [done | done | done |]. intros [|j] q Hq; [done|]. left. by exists (S j).
  - apply (config_ok_next c); [done | | |].
    + cbn. apply timers_ok; [apply has_timer_alter | done].
    + apply has_timer_alter.
    + intros j q Hq. apply thread_spawn_inv in Hq as [-> | Hq]; [right; apply timer_ok|].
      rewrite thread_set_server in Hq. left; eauto.
  - assert (Hss : vrrpGblInfo s' = vrrpGblInfo (c_server c) /\ timers s' = timers (c_server c)) by by destruct Ho.
    destruct Hss as [H1 H2]. destruct (same_entries (c_server c) s' H1 H2) as [Hx1 Hx2].
    apply (config_ok_next c); [done | cbn; auto | done |]. intros j q Hq. rewrite thread_set_server in Hq. left; eauto.
  - apply (config_ok_next c); [done | done | done |]. intros j q Hq.
    apply thread_spawn_inv in Hq as [-> | Hq]; [right; by apply event_ok | left; eauto].
Qed.

(** C19: however the goroutines interleave, every entry has its locks, the key and the MAC address of its
    configuration and one of the three states; its timers are timers of its own key; a backup router has
    a master down timer and a master an advertisement timer. *)
Theorem vrrp_invariant s objList c :
  vrrpGblInfo s = ∅ ->
  runs GetIntfTypeFromIfIndex GetIntfIdFromIfIndex IfTypeVirtual IfTypeSecondary INTF_STATE_UP INTF_STATE_DOWN
    NOTIFY_IPV4INTF_CREATE NOTIFY_IPV4INTF_DELETE NOTIFY_VLAN_CREATE NOTIFY_VLAN_DELETE (daemon_start s objList) c ->
  entries_ok (c_server c).
Proof.
  intros Hs Hr.
  assert (Hok : config_ok (daemon_start s objList)).
  { split; [intros key g; cbn; by rewrite Hs, lookup_empty|]. intros [|[|i]] p Hp; [done | | done].
    injection Hp as <-. apply StartServer_ok. }
  assert (Hc : config_ok c); [|by destruct Hc]. clear Hs. unfold runs in Hr.
  induction Hr as [|c c1 c2 Hst _ IH]; [done|]. apply IH. by eapply step_ok.
Qed.
End invariant.

Lemma vrrp_invariant_witness :
  runs0 (daemon_start example_server [example_intf 1 100 false]) (let_run 0 (selected (example_intf 1 100 false))) /\
  entries_ok (c_server (let_run 0 (selected (example_intf 1 100 false)))) /\
  (g_StateName <$> (vrrpGblInfo (c_server (let_run 0 (selected (example_intf 1 100 false)))) !! "7_1")) = Some VRRP_BACKUP_STATE.
Proof.
  assert (Hr : runs0 (daemon_start example_server [example_intf 1 100 false]) (let_run 0 (selected (example_intf 1 100 false)))).
  { eapply runs0_trans; [apply selected_runs; vm_compute; reflexivity | by apply let_run_steps]. }
  split; [exact Hr|]. split; [|vm_compute; reflexivity].
  exact (vrrp_invariant (fun _ => 0) (fun _ => 0) 1 2 3 4 5 6 7 8 example_server _ _ eq_refl Hr).
Defined.
