(* ===== verification/BfdPacket.v ===== *)
(** The BFD control packet ([src/bfd/server/bfdControl.go], [bfdAuth.go]): its fields, its encoding
    and decoding, and the authentication section. *)
From stdpp Require Import base numbers list strings.
From Stdlib Require Import ZArith Lia.
From S2P Require Import Prelude GoCrypto.
Open Scope Z_scope.

(** ** Sessions, events and diagnostics (integer types with named values) *)

Abbreviation BfdSessionState := Z.
Definition STATE_ADMIN_DOWN : BfdSessionState := 0.
Definition STATE_DOWN : BfdSessionState := 1.
Definition STATE_INIT : BfdSessionState := 2.
Definition STATE_UP : BfdSessionState := 3.

(** The zero value is no event. *)
Inductive BfdSessionEvent :=
  | NO_EVENT
  | REMOTE_DOWN
  | REMOTE_INIT
  | REMOTE_UP
  | TIMEOUT
  | ADMIN_DOWN
  | ADMIN_UP
  | REMOTE_ADMIN_DOWN.

Definition DIAG_NONE : Z := 0.
Definition DIAG_TIME_EXPIRED : Z := 1.
Definition DIAG_NEIGHBOR_SIGNAL_DOWN : Z := 3.
Definition DIAG_ADMIN_DOWN : Z := 7.

Definition ConvertBfdSessionStateValToStr (state : BfdSessionState) : string :=
  if state =? STATE_ADMIN_DOWN then "admin_down"
  else if state =? STATE_DOWN then "down"
  else if state =? STATE_INIT then "init"
  else if state =? STATE_UP then "up"
  else "".

Definition ConvertBfdSessionDiagValToStr (diag : Z) : string :=
  nth (Z.to_nat diag)
    ["None"; "Control detection timer expired"; "Echo function failed"; "Neighbor signaled session down";
     "Forwarding plane reset"; "Path down"; "Concatanated path down"; "Administratively down";
     "Reverse concatenated path down"] "".

(** ** Authentication *)

Abbreviation AuthenticationType := Z.
Definition BFD_AUTH_TYPE_SIMPLE : AuthenticationType := 1.
Definition BFD_AUTH_TYPE_KEYED_MD5 : AuthenticationType := 2.
Definition BFD_AUTH_TYPE_METICULOUS_MD5 : AuthenticationType := 3.
Definition BFD_AUTH_TYPE_KEYED_SHA1 : AuthenticationType := 4.
Definition BFD_AUTH_TYPE_METICULOUS_SHA1 : AuthenticationType := 5.

Definition ConvertBfdAuthTypeStrToVal (authType : string) : AuthenticationType :=
  if bool_decide (authType = "simple") then BFD_AUTH_TYPE_SIMPLE
  else if bool_decide (authType = "keyedmd5") then BFD_AUTH_TYPE_KEYED_MD5
  else if bool_decide (authType = "metmd5") then BFD_AUTH_TYPE_METICULOUS_MD5
  else if bool_decide (authType = "keyedsha1") then BFD_AUTH_TYPE_KEYED_SHA1
  else if bool_decide (authType = "metsha1") then BFD_AUTH_TYPE_METICULOUS_SHA1
  else 0.

Definition ConvertBfdAuthTypeValToStr (authType : AuthenticationType) : string :=
  if authType =? BFD_AUTH_TYPE_SIMPLE then "simple"
  else if authType =? BFD_AUTH_TYPE_KEYED_MD5 then "keyedmd5"
  else if authType =? BFD_AUTH_TYPE_METICULOUS_MD5 then "metmd5"
  else if authType =? BFD_AUTH_TYPE_KEYED_SHA1 then "keyedsha1"
  else if authType =? BFD_AUTH_TYPE_METICULOUS_SHA1 then "metsha1"
  else "".

Definition is_md5 (t : AuthenticationType) : bool :=
  (t =? BFD_AUTH_TYPE_KEYED_MD5) || (t =? BFD_AUTH_TYPE_METICULOUS_MD5).
Definition is_sha1 (t : AuthenticationType) : bool :=
  (t =? BFD_AUTH_TYPE_KEYED_SHA1) || (t =? BFD_AUTH_TYPE_METICULOUS_SHA1).

Record BfdAuthHeader := { ah_Type : AuthenticationType; AuthKeyID : Z; SequenceNumber : Z; AuthData : bytes }.

Inductive bfd_error :=
  | PacketLengthMismatch
  | PacketTooShort
  | InvalidMD5Length
  | InvalidSHA1Length
  | UnsupportedAuthType.
#[export] Instance bfd_error_eq_dec : EqDecision bfd_error.
Proof. solve_decision. Defined.
Abbreviation bresult := (outcome bfd_error).

(** The section without a digest: the key itself is in the packet. Nothing calls it. *)
Definition createBfdAuthHeader (h : BfdAuthHeader) : bytes :=
  let length := if negb (ah_Type h =? BFD_AUTH_TYPE_SIMPLE) then u8 (len (AuthData h) + 8)
                else u8 (len (AuthData h) + 3) in
  [ah_Type h; length; AuthKeyID h] ++
  (if negb (ah_Type h =? BFD_AUTH_TYPE_SIMPLE) then 0 :: be32 (SequenceNumber h) else []) ++
  AuthData h.

Definition getBfdAuthenticationLength (h : BfdAuthHeader) : Z :=
  if ah_Type h =? BFD_AUTH_TYPE_SIMPLE then u8 (len (AuthData h) + 3)
  else if is_md5 (ah_Type h) then 24
  else if is_sha1 (ah_Type h) then 28
  else 0.

(** A slice expression is bounded by the capacity, and the array goes on behind [data]: where that makes
    [data[4:8]] succeed on a short section, [data[8:]] panics. *)
Definition decodeBfdAuthHeader (data : bytes) : bresult BfdAuthHeader :=
  t ← sget data 0;
  length ← sget data 1;
  if length >? 0 then
    key ← sget data 2;
    if t =? BFD_AUTH_TYPE_SIMPLE then
      d ← slice_from data 3;
      Ok {| ah_Type := t; AuthKeyID := key; SequenceNumber := 0; AuthData := d |}
    else if is_md5 t then
      s ← slice data 4 8; seq ← Uint32 s;
      d ← slice_from data 8;
      if negb (len d =? 16) then Err InvalidMD5Length
      else Ok {| ah_Type := t; AuthKeyID := key; SequenceNumber := seq; AuthData := d |}
    else if is_sha1 t then
      s ← slice data 4 8; seq ← Uint32 s;
      d ← slice_from data 8;
      if negb (len d =? 20) then Err InvalidSHA1Length
      else Ok {| ah_Type := t; AuthKeyID := key; SequenceNumber := seq; AuthData := d |}
    else Err UnsupportedAuthType
  else Ok {| ah_Type := t; AuthKeyID := 0; SequenceNumber := 0; AuthData := [] |}.

(** ** The control packet *)

(** The intervals are [time.Duration]s that hold a number of microseconds. *)
Record BfdControlPacket := {
  Version : Z;
  Diagnostic : Z;
  State : BfdSessionState;
  Poll : bool;
  Final : bool;
  ControlPlaneIndependent : bool;
  AuthPresent : bool;
  Demand : bool;
  Multipoint : bool;
  DetectMult : Z;
  MyDiscriminator : Z;
  YourDiscriminator : Z;
  DesiredMinTxInterval : Z;
  RequiredMinRxInterval : Z;
  RequiredMinEchoRxInterval : Z;
  AuthHeader : option BfdAuthHeader;
}.

Definition DEFAULT_BFD_VERSION : Z := 1.
Definition DEFAULT_DETECT_MULTI : Z := 3.
Definition DEFAULT_DESIRED_MIN_TX_INTERVAL : Z := 250000.
Definition DEFAULT_REQUIRED_MIN_RX_INTERVAL : Z := 250000.
Definition DEFAULT_REQUIRED_MIN_ECHO_RX_INTERVAL : Z := 0.
Definition DEFAULT_CONTROL_PACKET_LEN : Z := 24.
Definition STARTUP_TX_INTERVAL : Z := 2000000.
Definition STARTUP_RX_INTERVAL : Z := 2000000.
Definition TX_JITTER : Z := 10.

Definition BFD_MP : Z := 1.
Definition BFD_DEMAND : Z := 2.
Definition BFD_AUTH_PRESENT : Z := 4.
Definition BFD_CP_INDEPENDENT : Z := 8.
Definition BFD_FINAL : Z := 16.
Definition BFD_POLL : Z := 32.

(** What [CreateBfdControlPacket] writes for an authentication section of [authLength] > 0, after the
    bytes [buf]. The digests are computed over the packet with the key in the place of the digest, the
    key not padded. *)
Definition auth_section (buf : bytes) (authLength : Z) (h : BfdAuthHeader) : bytes :=
  let buf := buf ++ [ah_Type h; authLength; AuthKeyID h] ++
             (if negb (ah_Type h =? BFD_AUTH_TYPE_SIMPLE) then 0 :: be32 (SequenceNumber h) else []) in
  let copiedBuf := buf in
  if ah_Type h =? BFD_AUTH_TYPE_SIMPLE then buf ++ AuthData h
  else if is_md5 (ah_Type h) then buf ++ md5_Sum (copiedBuf ++ AuthData h)
  else if is_sha1 (ah_Type h) then buf ++ sha1_Sum (copiedBuf ++ AuthData h)
  else buf.

Definition CreateBfdControlPacket (p : BfdControlPacket) : bytes :=
  let flags := 0 in
  let length := DEFAULT_CONTROL_PACKET_LEN in
  let b0 := Z.lor (u8 (Z.shiftl (Version p) 5)) (Z.land (u8 (Diagnostic p)) 31) in
  let flags := if Poll p then Z.lor flags BFD_POLL else flags in
  let flags := if Final p then Z.lor flags BFD_FINAL else flags in
  let flags := if ControlPlaneIndependent p then Z.lor flags BFD_CP_INDEPENDENT else flags in
  let '(flags, authLength, length) :=
    match AuthPresent p, AuthHeader p with
    | true, Some h =>
      let authLength := getBfdAuthenticationLength h in
      (Z.lor flags BFD_AUTH_PRESENT, authLength, u8 (length + authLength))
    | _, _ => (flags, 0, length)
    end in
  let flags := if Demand p then Z.lor flags BFD_DEMAND else flags in
  let flags := if Multipoint p then Z.lor flags BFD_MP else flags in
  let buf := [b0; Z.lor (u8 (Z.shiftl (u8 (State p)) 6)) flags; DetectMult p; length] ++
             be32 (MyDiscriminator p) ++ be32 (YourDiscriminator p) ++
             be32 (u32 (DesiredMinTxInterval p)) ++ be32 (u32 (RequiredMinRxInterval p)) ++
             be32 (u32 (RequiredMinEchoRxInterval p)) in
  match AuthHeader p with
  | Some h => if authLength >? 0 then auth_section buf authLength h else buf
  | None => buf
  end.

(** The bit [m] of a byte. *)
Definition flag (b m : Z) : bool := negb (Z.land b m =? 0).

(** Callers only decode packets of at least 24 bytes; on shorter ones the first index or slice out
    of range panics. *)
Definition DecodeBfdControlPacket (data : bytes) : bresult BfdControlPacket :=
  b0 ← sget data 0;
  b1 ← sget data 1;
  b2 ← sget data 2;
  length ← sget data 3;
  if negb (u8 (len data) =? length) then Err PacketLengthMismatch else
  s ← slice data 4 8; my ← Uint32 s;
  s ← slice data 8 12; your ← Uint32 s;
  s ← slice data 12 16; tx ← Uint32 s;
  s ← slice data 16 20; rx ← Uint32 s;
  s ← slice data 20 24; echo ← Uint32 s;
  auth ←
    (if flag b1 BFD_AUTH_PRESENT then
       if len data >? 24 then d ← slice_from data 24; h ← decodeBfdAuthHeader d; Ok (Some h)
       else Err PacketTooShort
     else Ok None);
  Ok {| Version := Z.shiftr (Z.land b0 224) 5; Diagnostic := Z.land b0 31;
        State := Z.shiftr (Z.land b1 208) 6;
        Poll := flag b1 BFD_POLL; Final := flag b1 BFD_FINAL;
        ControlPlaneIndependent := flag b1 BFD_CP_INDEPENDENT; AuthPresent := flag b1 BFD_AUTH_PRESENT;
        Demand := flag b1 BFD_DEMAND; Multipoint := flag b1 BFD_MP;
        DetectMult := b2; MyDiscriminator := my; YourDiscriminator := your;
        DesiredMinTxInterval := tx; RequiredMinRxInterval := rx; RequiredMinEchoRxInterval := echo;
        AuthHeader := auth |}.

Definition NewBfdControlPacketDefault : BfdControlPacket :=
  {| Version := DEFAULT_BFD_VERSION; Diagnostic := DIAG_NONE; State := STATE_DOWN; Poll := false;
     Final := false; ControlPlaneIndependent := false; AuthPresent := false; Demand := false;
     Multipoint := false; DetectMult := DEFAULT_DETECT_MULTI; MyDiscriminator := 0; YourDiscriminator := 0;
     DesiredMinTxInterval := DEFAULT_DESIRED_MIN_TX_INTERVAL;
     RequiredMinRxInterval := DEFAULT_REQUIRED_MIN_RX_INTERVAL;
     RequiredMinEchoRxInterval := DEFAULT_REQUIRED_MIN_ECHO_RX_INTERVAL; AuthHeader := None |}.

(** ** Assignments to the fields *)

Definition set_Diagnostic (v : Z) (p : BfdControlPacket) : BfdControlPacket :=
  {| Version := Version p; Diagnostic := v; State := State p; Poll := Poll p; Final := Final p;
     ControlPlaneIndependent := ControlPlaneIndependent p; AuthPresent := AuthPresent p; Demand := Demand
     p; Multipoint := Multipoint p; DetectMult := DetectMult p; MyDiscriminator := MyDiscriminator p;
     YourDiscriminator := YourDiscriminator p; DesiredMinTxInterval := DesiredMinTxInterval p;
     RequiredMinRxInterval := RequiredMinRxInterval p; RequiredMinEchoRxInterval :=
     RequiredMinEchoRxInterval p; AuthHeader := AuthHeader p |}.
Definition set_State (v : BfdSessionState) (p : BfdControlPacket) : BfdControlPacket :=
  {| Version := Version p; Diagnostic := Diagnostic p; State := v; Poll := Poll p; Final := Final p;
     ControlPlaneIndependent := ControlPlaneIndependent p; AuthPresent := AuthPresent p; Demand := Demand
     p; Multipoint := Multipoint p; DetectMult := DetectMult p; MyDiscriminator := MyDiscriminator p;
     YourDiscriminator := YourDiscriminator p; DesiredMinTxInterval := DesiredMinTxInterval p;
     RequiredMinRxInterval := RequiredMinRxInterval p; RequiredMinEchoRxInterval :=
     RequiredMinEchoRxInterval p; AuthHeader := AuthHeader p |}.
Definition set_Poll (v : bool) (p : BfdControlPacket) : BfdControlPacket :=
  {| Version := Version p; Diagnostic := Diagnostic p; State := State p; Poll := v; Final := Final p;
     ControlPlaneIndependent := ControlPlaneIndependent p; AuthPresent := AuthPresent p; Demand := Demand
     p; Multipoint := Multipoint p; DetectMult := DetectMult p; MyDiscriminator := MyDiscriminator p;
     YourDiscriminator := YourDiscriminator p; DesiredMinTxInterval := DesiredMinTxInterval p;
     RequiredMinRxInterval := RequiredMinRxInterval p; RequiredMinEchoRxInterval :=
     RequiredMinEchoRxInterval p; AuthHeader := AuthHeader p |}.
Definition set_Final (v : bool) (p : BfdControlPacket) : BfdControlPacket :=
  {| Version := Version p; Diagnostic := Diagnostic p; State := State p; Poll := Poll p; Final := v;
     ControlPlaneIndependent := ControlPlaneIndependent p; AuthPresent := AuthPresent p; Demand := Demand
     p; Multipoint := Multipoint p; DetectMult := DetectMult p; MyDiscriminator := MyDiscriminator p;
     YourDiscriminator := YourDiscriminator p; DesiredMinTxInterval := DesiredMinTxInterval p;
     RequiredMinRxInterval := RequiredMinRxInterval p; RequiredMinEchoRxInterval :=
     RequiredMinEchoRxInterval p; AuthHeader := AuthHeader p |}.
Definition set_AuthPresent (v : bool) (p : BfdControlPacket) : BfdControlPacket :=
  {| Version := Version p; Diagnostic := Diagnostic p; State := State p; Poll := Poll p; Final := Final p;
     ControlPlaneIndependent := ControlPlaneIndependent p; AuthPresent := v; Demand := Demand p;
     Multipoint := Multipoint p; DetectMult := DetectMult p; MyDiscriminator := MyDiscriminator p;
     YourDiscriminator := YourDiscriminator p; DesiredMinTxInterval := DesiredMinTxInterval p;
     RequiredMinRxInterval := RequiredMinRxInterval p; RequiredMinEchoRxInterval :=
     RequiredMinEchoRxInterval p; AuthHeader := AuthHeader p |}.
Definition set_Demand (v : bool) (p : BfdControlPacket) : BfdControlPacket :=
  {| Version := Version p; Diagnostic := Diagnostic p; State := State p; Poll := Poll p; Final := Final p;
     ControlPlaneIndependent := ControlPlaneIndependent p; AuthPresent := AuthPresent p; Demand := v;
     Multipoint := Multipoint p; DetectMult := DetectMult p; MyDiscriminator := MyDiscriminator p;
     YourDiscriminator := YourDiscriminator p; DesiredMinTxInterval := DesiredMinTxInterval p;
     RequiredMinRxInterval := RequiredMinRxInterval p; RequiredMinEchoRxInterval :=
     RequiredMinEchoRxInterval p; AuthHeader := AuthHeader p |}.
Definition set_DetectMult (v : Z) (p : BfdControlPacket) : BfdControlPacket :=
  {| Version := Version p; Diagnostic := Diagnostic p; State := State p; Poll := Poll p; Final := Final p;
     ControlPlaneIndependent := ControlPlaneIndependent p; AuthPresent := AuthPresent p; Demand := Demand
     p; Multipoint := Multipoint p; DetectMult := v; MyDiscriminator := MyDiscriminator p;
     YourDiscriminator := YourDiscriminator p; DesiredMinTxInterval := DesiredMinTxInterval p;
     RequiredMinRxInterval := RequiredMinRxInterval p; RequiredMinEchoRxInterval :=
     RequiredMinEchoRxInterval p; AuthHeader := AuthHeader p |}.
Definition set_MyDiscriminator (v : Z) (p : BfdControlPacket) : BfdControlPacket :=
  {| Version := Version p; Diagnostic := Diagnostic p; State := State p; Poll := Poll p; Final := Final p;
     ControlPlaneIndependent := ControlPlaneIndependent p; AuthPresent := AuthPresent p; Demand := Demand
     p; Multipoint := Multipoint p; DetectMult := DetectMult p; MyDiscriminator := v; YourDiscriminator :=
     YourDiscriminator p; DesiredMinTxInterval := DesiredMinTxInterval p; RequiredMinRxInterval :=
     RequiredMinRxInterval p; RequiredMinEchoRxInterval := RequiredMinEchoRxInterval p; AuthHeader :=
     AuthHeader p |}.
Definition set_YourDiscriminator (v : Z) (p : BfdControlPacket) : BfdControlPacket :=
  {| Version := Version p; Diagnostic := Diagnostic p; State := State p; Poll := Poll p; Final := Final p;
     ControlPlaneIndependent := ControlPlaneIndependent p; AuthPresent := AuthPresent p; Demand := Demand
     p; Multipoint := Multipoint p; DetectMult := DetectMult p; MyDiscriminator := MyDiscriminator p;
     YourDiscriminator := v; DesiredMinTxInterval := DesiredMinTxInterval p; RequiredMinRxInterval :=
     RequiredMinRxInterval p; RequiredMinEchoRxInterval := RequiredMinEchoRxInterval p; AuthHeader :=
     AuthHeader p |}.
Definition set_DesiredMinTxInterval (v : Z) (p : BfdControlPacket) : BfdControlPacket :=
  {| Version := Version p; Diagnostic := Diagnostic p; State := State p; Poll := Poll p; Final := Final p;
     ControlPlaneIndependent := ControlPlaneIndependent p; AuthPresent := AuthPresent p; Demand := Demand
     p; Multipoint := Multipoint p; DetectMult := DetectMult p; MyDiscriminator := MyDiscriminator p;
     YourDiscriminator := YourDiscriminator p; DesiredMinTxInterval := v; RequiredMinRxInterval :=
     RequiredMinRxInterval p; RequiredMinEchoRxInterval := RequiredMinEchoRxInterval p; AuthHeader :=
     AuthHeader p |}.
Definition set_RequiredMinRxInterval (v : Z) (p : BfdControlPacket) : BfdControlPacket :=
  {| Version := Version p; Diagnostic := Diagnostic p; State := State p; Poll := Poll p; Final := Final p;
     ControlPlaneIndependent := ControlPlaneIndependent p; AuthPresent := AuthPresent p; Demand := Demand
     p; Multipoint := Multipoint p; DetectMult := DetectMult p; MyDiscriminator := MyDiscriminator p;
     YourDiscriminator := YourDiscriminator p; DesiredMinTxInterval := DesiredMinTxInterval p;
     RequiredMinRxInterval := v; RequiredMinEchoRxInterval := RequiredMinEchoRxInterval p; AuthHeader :=
     AuthHeader p |}.
Definition set_AuthHeader (v : option BfdAuthHeader) (p : BfdControlPacket) : BfdControlPacket :=
  {| Version := Version p; Diagnostic := Diagnostic p; State := State p; Poll := Poll p; Final := Final p;
     ControlPlaneIndependent := ControlPlaneIndependent p; AuthPresent := AuthPresent p; Demand := Demand
     p; Multipoint := Multipoint p; DetectMult := DetectMult p; MyDiscriminator := MyDiscriminator p;
     YourDiscriminator := YourDiscriminator p; DesiredMinTxInterval := DesiredMinTxInterval p;
     RequiredMinRxInterval := RequiredMinRxInterval p; RequiredMinEchoRxInterval :=
     RequiredMinEchoRxInterval p; AuthHeader := v |}.
