(* ===== verification/BfdPacketFacts.v ===== *)
(** Facts about the BFD control packet: packets are decoded as they were encoded, what the decoder does
    on any bytes, and what its authentication section is worth. *)
From stdpp Require Import base numbers list strings.
From Stdlib Require Import ZArith Lia.
From S2P Require Import Prelude GoCrypto BfdPacket.
Open Scope Z_scope.

(** ** The first two bytes *)

(** Properties of small numbers are checked one by one. *)
Lemma below_n n (f : Z -> bool) : forallb (fun k => f (Z.of_nat k)) (seq 0 n) = true ->
  forall x, 0 <= x < Z.of_nat n -> f x = true.
Proof.
  intros H x Hx. rewrite forallb_forall in H. rewrite <- (Z2Nat.id x) by lia.
  apply H, in_seq. lia.
Qed.

Definition byte0 (v d : Z) : Z := Z.lor (u8 (Z.shiftl v 5)) (Z.land (u8 d) 31).
Lemma byte0_fields v d : 0 <= v < 8 -> 0 <= d < 32 ->
  Z.shiftr (Z.land (byte0 v d) 224) 5 = v /\ Z.land (byte0 v d) 31 = d.
Proof.
  intros Hv Hd.
  set (f := fun v d => (Z.shiftr (Z.land (byte0 v d) 224) 5 =? v) && (Z.land (byte0 v d) 31 =? d)).
  assert (H : f v d = true).
  { apply (below_n 8 (fun v => forallb (fun k => f v (Z.of_nat k)) (seq 0 32))) with (x := v) in Hv;
      [|vm_compute; reflexivity].
    by apply (below_n 32 (f v)). }
  apply andb_true_iff in H as [H1%Z.eqb_eq H2%Z.eqb_eq]. done.
Qed.

Definition byte1 (state : Z) (poll final cp auth demand mp : bool) : Z :=
  let flags := if poll then Z.lor 0 BFD_POLL else 0 in
  let flags := if final then Z.lor flags BFD_FINAL else flags in
  let flags := if cp then Z.lor flags BFD_CP_INDEPENDENT else flags in
  let flags := if auth then Z.lor flags BFD_AUTH_PRESENT else flags in
  let flags := if demand then Z.lor flags BFD_DEMAND else flags in
  let flags := if mp then Z.lor flags BFD_MP else flags in
  Z.lor (u8 (Z.shiftl (u8 state) 6)) flags.
Lemma byte1_fields state po fi cp au de mp : 0 <= state < 4 ->
  let b := byte1 state po fi cp au de mp in
  Z.shiftr (Z.land b 208) 6 = state /\ flag b BFD_POLL = po /\ flag b BFD_FINAL = fi /\
  flag b BFD_CP_INDEPENDENT = cp /\ flag b BFD_AUTH_PRESENT = au /\ flag b BFD_DEMAND = de /\
  flag b BFD_MP = mp.
Proof.
  intros Hs. assert (state = 0 \/ state = 1 \/ state = 2 \/ state = 3) as [-> | [-> | [-> | ->]]] by lia;
    destruct po, fi, cp, au, de, mp; vm_compute; auto 10.
Qed.

(** ** Reading the fixed part *)

(** The 24 bytes of a packet. *)
Definition fixed_part (b0 b1 mult length my your tx rx echo : Z) : bytes :=
  [b0; b1; mult; length] ++ be32 my ++ be32 your ++ be32 tx ++ be32 rx ++ be32 echo.

Lemma slice4 {E} p v t i j : i = len p -> j = len p + 4 -> is_u32 v ->
  slice (E := E) (p ++ be32 v ++ t) i j = Ok (be32 v).
Proof. intros -> -> _. by apply slice_app. Qed.

Lemma read4 {E B} p v t i j (k : Z -> outcome E B) : i = len p -> j = len p + 4 -> is_u32 v ->
  (s ← slice (p ++ be32 v ++ t) i j; x ← Uint32 s; k x) = k v.
Proof.
  intros Hi Hj Hv. rewrite (slice4 p v t i j Hi Hj Hv), bind_Ok.
  rewrite <- (app_nil_r (be32 v)). by rewrite Uint32_be32, bind_Ok.
Qed.

(** The packet with the fields of the fixed part, and the authentication section given. *)
Definition fixed_packet (b0 b1 mult my your tx rx echo : Z) (auth : option BfdAuthHeader) : BfdControlPacket :=
  {| Version := Z.shiftr (Z.land b0 224) 5; Diagnostic := Z.land b0 31;
     State := Z.shiftr (Z.land b1 208) 6;
     Poll := flag b1 BFD_POLL; Final := flag b1 BFD_FINAL;
     ControlPlaneIndependent := flag b1 BFD_CP_INDEPENDENT; AuthPresent := flag b1 BFD_AUTH_PRESENT;
     Demand := flag b1 BFD_DEMAND; Multipoint := flag b1 BFD_MP;
     DetectMult := mult; MyDiscriminator := my; YourDiscriminator := your;
     DesiredMinTxInterval := tx; RequiredMinRxInterval := rx; RequiredMinEchoRxInterval := echo;
     AuthHeader := auth |}.

Lemma decode_fixed b0 b1 mult length my your tx rx echo tail :
  is_u32 my -> is_u32 your -> is_u32 tx -> is_u32 rx -> is_u32 echo ->
  DecodeBfdControlPacket (fixed_part b0 b1 mult length my your tx rx echo ++ tail) =
  if negb (u8 (24 + len tail) =? length) then Err PacketLengthMismatch
  else if flag b1 BFD_AUTH_PRESENT then
    if len tail >? 0 then
      h ← decodeBfdAuthHeader tail; Ok (fixed_packet b0 b1 mult my your tx rx echo (Some h))
    else Err PacketTooShort
  else Ok (fixed_packet b0 b1 mult my your tx rx echo None).
Proof.
  intros Hmy Hyour Htx Hrx Hecho. unfold DecodeBfdControlPacket.
  set (data := fixed_part _ _ _ _ _ _ _ _ _ ++ tail).
  assert (Hl : len data = 24 + len tail).
  { unfold data, fixed_part. lens. lia. }
  change (sget data 0) with (Ok (E := bfd_error) b0). change (sget data 1) with (Ok (E := bfd_error) b1).
  change (sget data 2) with (Ok (E := bfd_error) mult). change (sget data 3) with (Ok (E := bfd_error) length).
  rewrite !bind_Ok, Hl. destruct (negb _); [done|].
  rewrite (read4 [b0; b1; mult; length] my (be32 your ++ be32 tx ++ be32 rx ++ be32 echo ++ tail)) by done.
  rewrite (read4 ([b0; b1; mult; length] ++ be32 my) your (be32 tx ++ be32 rx ++ be32 echo ++ tail)) by done.
  rewrite (read4 ([b0; b1; mult; length] ++ be32 my ++ be32 your) tx (be32 rx ++ be32 echo ++ tail)) by done.
  rewrite (read4 ([b0; b1; mult; length] ++ be32 my ++ be32 your ++ be32 tx) rx (be32 echo ++ tail)) by done.
  rewrite (read4 ([b0; b1; mult; length] ++ be32 my ++ be32 your ++ be32 tx ++ be32 rx) echo tail) by done.
  destruct (flag b1 BFD_AUTH_PRESENT) eqn:Hf; [|by rewrite bind_Ok; unfold fixed_packet; rewrite Hf].
  replace (24 + len tail >? 24) with (len tail >? 0) by (rewrite !Z.gtb_ltb; apply eq_true_iff_eq; lia).
  destruct (_ >? _); [|done].
  rewrite (slice_from_app (fixed_part b0 b1 mult length my your tx rx echo) tail) by done.
  rewrite bind_Ok. destruct (decodeBfdAuthHeader tail); [|done..]. rewrite !bind_Ok.
  unfold fixed_packet. by rewrite Hf.
Qed.

(** ** Round trip *)

(** An authentication section whose fields fit the format; a password takes no sequence number. *)
Definition auth_good (h : BfdAuthHeader) : Prop :=
  is_u32 (SequenceNumber h) /\
  (ah_Type h = BFD_AUTH_TYPE_SIMPLE /\ len (AuthData h) <= 228 /\ SequenceNumber h = 0 \/
   is_md5 (ah_Type h) = true \/ is_sha1 (ah_Type h) = true).

Record bfd_good (p : BfdControlPacket) : Prop := {
  good_Version : 0 <= Version p < 8;
  good_Diagnostic : 0 <= Diagnostic p < 32;
  good_State : 0 <= State p < 4;
  good_My : is_u32 (MyDiscriminator p);
  good_Your : is_u32 (YourDiscriminator p);
  good_Tx : is_u32 (DesiredMinTxInterval p);
  good_Rx : is_u32 (RequiredMinRxInterval p);
  good_Echo : is_u32 (RequiredMinEchoRxInterval p);
  good_auth : match AuthPresent p, AuthHeader p with
              | true, Some h => auth_good h
              | true, None => False
              | false, h => h = None
              end;
}.

(** What the receiver finds in the section: the password, or the digest of the packet up to it and the
    key. *)
Definition on_wire (wire : bytes) (h : BfdAuthHeader) : BfdAuthHeader :=
  {| ah_Type := ah_Type h; AuthKeyID := AuthKeyID h; SequenceNumber := SequenceNumber h;
     AuthData := if ah_Type h =? BFD_AUTH_TYPE_SIMPLE then AuthData h
                 else if is_md5 (ah_Type h) then md5_Sum (take 32 wire ++ AuthData h)
                 else sha1_Sum (take 32 wire ++ AuthData h) |}.

Definition fixed_of (p : BfdControlPacket) (length : Z) : bytes :=
  fixed_part (byte0 (Version p) (Diagnostic p))
    (byte1 (State p) (Poll p) (Final p) (ControlPlaneIndependent p) (AuthPresent p) (Demand p) (Multipoint p))
    (DetectMult p) length (MyDiscriminator p) (YourDiscriminator p) (DesiredMinTxInterval p)
    (RequiredMinRxInterval p) (RequiredMinEchoRxInterval p).

Lemma len_fixed p length : len (fixed_of p length) = 24.
Proof. reflexivity. Qed.

Lemma encode_fixed p : bfd_good p ->
  CreateBfdControlPacket p =
  match AuthHeader p with
  | None => fixed_of p 24
  | Some h => let alen := getBfdAuthenticationLength h in
              auth_section (fixed_of p (u8 (24 + alen))) alen h
  end.
Proof.
  intros []. unfold CreateBfdControlPacket. rewrite !u32_id by done.
  destruct (AuthPresent p) eqn:Hp, (AuthHeader p) as [h|] eqn:Hh; try done.
  - replace (getBfdAuthenticationLength h >? 0) with true.
    { unfold fixed_of. by rewrite Hp. }
    destruct good_auth0 as [_ [(Ht & Hl & _) | [Hm | Hs]]]; unfold getBfdAuthenticationLength.
    + rewrite Ht. cbn. pose proof (len_nonneg (AuthData h)). rewrite u8_id by (unfold is_u8; lia). by zif.
    + rewrite Hm. destruct (ah_Type h =? BFD_AUTH_TYPE_SIMPLE) eqn:Ht; [|done].
      apply Z.eqb_eq in Ht. by rewrite Ht in Hm.
    + rewrite Hs. destruct (ah_Type h =? BFD_AUTH_TYPE_SIMPLE) eqn:Ht.
      { apply Z.eqb_eq in Ht. by rewrite Ht in Hs. }
      by destruct (is_md5 (ah_Type h)).
  - unfold fixed_of. by rewrite Hp.
Qed.

Lemma decode_encoded p length tail : bfd_good p ->
  DecodeBfdControlPacket (fixed_of p length ++ tail) =
  if negb (u8 (24 + len tail) =? length) then Err PacketLengthMismatch
  else if AuthPresent p then
    if len tail >? 0 then h ← decodeBfdAuthHeader tail; Ok (set_AuthHeader (Some h) p)
    else Err PacketTooShort
  else Ok (set_AuthHeader None p).
Proof.
  intros []. unfold fixed_of. rewrite decode_fixed by done.
  destruct (byte0_fields (Version p) (Diagnostic p)) as [H0 H1]; [done..|].
  pose proof (byte1_fields (State p) (Poll p) (Final p) (ControlPlaneIndependent p) (AuthPresent p)
    (Demand p) (Multipoint p) good_State0) as Hb. cbv zeta in Hb.
  unfold fixed_packet. rewrite H0, H1. by destruct Hb as (-> & -> & -> & -> & -> & -> & ->).
Qed.

(** A section with a sequence number and a digest of the right size. *)
Lemma decode_digest t alen key seq d n : is_u32 seq -> alen > 0 -> len d = n ->
  is_md5 t = true /\ n = 16 \/ is_sha1 t = true /\ n = 20 ->
  decodeBfdAuthHeader ([t; alen; key; 0] ++ be32 seq ++ d) =
  Ok {| ah_Type := t; AuthKeyID := key; SequenceNumber := seq; AuthData := d |}.
Proof.
  intros Hseq Ha Hd Ht. unfold decodeBfdAuthHeader. cbn [app].
  change (sget (t :: _) 0) with (Ok (E := bfd_error) t). change (sget (t :: _) 1) with (Ok (E := bfd_error) alen).
  change (sget (t :: _) 2) with (Ok (E := bfd_error) key). rewrite !bind_Ok.
  rewrite (proj2 (Z.gtb_lt _ _)) by lia.
  change (t :: alen :: key :: 0 :: be32 seq ++ d) with ([t; alen; key; 0] ++ be32 seq ++ d).
  rewrite !(read4 [t; alen; key; 0] seq d) by done.
  rewrite (app_assoc _ (be32 seq) d).
  rewrite !(slice_from_app ([t; alen; key; 0] ++ be32 seq) d 8) by done. rewrite !bind_Ok, Hd.
  assert (Hns : (t =? BFD_AUTH_TYPE_SIMPLE) = false).
  { apply Z.eqb_neq. intros ->. by destruct Ht as [[? _] | [? _]]. }
  rewrite Hns. destruct Ht as [[Ht ->] | [Ht ->]]; rewrite Ht; cbn; [done|].
  destruct (is_md5 t) eqn:Hm; [|done].
  unfold is_md5, is_sha1, BFD_AUTH_TYPE_KEYED_MD5, BFD_AUTH_TYPE_METICULOUS_MD5, BFD_AUTH_TYPE_KEYED_SHA1,
    BFD_AUTH_TYPE_METICULOUS_SHA1 in *. lia.
Qed.

(** The section is decoded as it was written. *)
Lemma decode_section pre h alen : auth_good h -> len pre = 24 -> alen = getBfdAuthenticationLength h ->
  exists tail, auth_section pre alen h = pre ++ tail /\ len tail = alen /\ 0 < alen /\ 24 + alen < 256 /\
    decodeBfdAuthHeader tail = Ok (on_wire (auth_section pre alen h) h).
Proof.
  intros [Hseq Hh] Hpre Halen. unfold auth_section, on_wire. unfold getBfdAuthenticationLength in Halen.
  destruct Hh as [(Ht & Hl & Hs0) | Hh].
  - rewrite Ht in *. cbn in Halen |- *. pose proof (len_nonneg (AuthData h)).
    rewrite u8_id in Halen by (unfold is_u8; lia).
    exists ([1; alen; AuthKeyID h] ++ AuthData h). split; [by rewrite <- !app_assoc|].
    split; [lens; lia|]. split; [lia|]. split; [lia|]. unfold decodeBfdAuthHeader. cbn [app].
    unfold sget, slice_from. gocbn. zif. gocbn. by rewrite Hs0.
  - assert (Hns : (ah_Type h =? BFD_AUTH_TYPE_SIMPLE) = false).
    { apply Z.eqb_neq. intros Ht. rewrite Ht in Hh. by destruct Hh. }
    rewrite Hns in *. cbn [negb].
    set (body := pre ++ [ah_Type h; alen; AuthKeyID h] ++ 0 :: be32 (SequenceNumber h)).
    assert (Htake : forall d, take 32 (body ++ d) = body).
    { intros d. assert (Hb : length body = 32%nat).
      { apply Nat2Z.inj. change (len body = 32). unfold body. lens. lia. }
      rewrite <- Hb. by apply take_app_length. }
    assert (Hbody : forall d, body ++ d = pre ++ [ah_Type h; alen; AuthKeyID h; 0] ++ be32 (SequenceNumber h) ++ d).
    { intros d. unfold body. by rewrite <- app_assoc. }
    destruct (is_md5 (ah_Type h)) eqn:Hm.
    + exists ([ah_Type h; alen; AuthKeyID h; 0] ++ be32 (SequenceNumber h) ++ md5_Sum (body ++ AuthData h)).
      rewrite Hbody, <- Hbody, Htake. split; [done|]. split; [lens; rewrite len_md5_Sum; lia|].
      split; [lia|]. split; [lia|].
      rewrite (decode_digest _ _ _ _ _ 16); [done | done | lia | apply len_md5_Sum | auto].
    + destruct Hh as [|Hs]; [done|]. rewrite Hs in *.
      exists ([ah_Type h; alen; AuthKeyID h; 0] ++ be32 (SequenceNumber h) ++ sha1_Sum (body ++ AuthData h)).
      rewrite Hbody, <- Hbody, Htake. split; [done|]. split; [lens; rewrite len_sha1_Sum; lia|].
      split; [lia|]. split; [lia|].
      rewrite (decode_digest _ _ _ _ _ 20); [done | done | lia | apply len_sha1_Sum | auto].
Qed.

Lemma bfd_packet_decodes p : bfd_good p ->
  DecodeBfdControlPacket (CreateBfdControlPacket p) =
  Ok (set_AuthHeader (on_wire (CreateBfdControlPacket p) <$> AuthHeader p) p).
Proof.
  intros Hp. rewrite encode_fixed by done.
  destruct (AuthHeader p) as [h|] eqn:Hh; cbn [fmap option_fmap option_map].
  - pose proof (good_auth p Hp) as Ha. destruct (AuthPresent p) eqn:Hpr; [|congruence].
    rewrite Hh in Ha. set (alen := getBfdAuthenticationLength h). cbv zeta.
    destruct (decode_section (fixed_of p (u8 (24 + alen))) h alen) as (tail & He & Hl & Ha0 & Hu & Hd); [done..|].
    rewrite u8_id in * by (unfold is_u8; lia). rewrite He at 1. rewrite decode_encoded, Hpr, Hl by done.
    rewrite u8_id by (unfold is_u8; lia). rewrite Z.eqb_refl. cbn [negb]. zif.
    by rewrite Hd, bind_Ok.
  - rewrite <- (app_nil_r (fixed_of p 24)), decode_encoded by done.
    pose proof (good_auth p Hp) as Ha. rewrite Hh in Ha. by destruct (AuthPresent p).
Qed.

(** C31: a control packet whose fields fit their widths is decoded as it was encoded, with or without
    authentication; instead of the key the receiver finds the digest. *)
Theorem bfd_packet_roundtrip p : bfd_good p ->
  DecodeBfdControlPacket (CreateBfdControlPacket p) =
  Ok (set_AuthHeader (on_wire (CreateBfdControlPacket p) <$> AuthHeader p) p).
Proof. apply bfd_packet_decodes. Qed.

Lemma bfd_packet_roundtrip_witness :
  let p := set_AuthHeader (Some {| ah_Type := BFD_AUTH_TYPE_KEYED_SHA1; AuthKeyID := 7; SequenceNumber := 1;
                                   AuthData := [115; 101; 99; 114; 101; 116] |})
             {| Version := 1; Diagnostic := 0; State := STATE_UP; Poll := true; Final := false;
                ControlPlaneIndependent := false; AuthPresent := true; Demand := false; Multipoint := false;
                DetectMult := 3; MyDiscriminator := 17; YourDiscriminator := 4294967295;
                DesiredMinTxInterval := 250000; RequiredMinRxInterval := 250000;
                RequiredMinEchoRxInterval := 0; AuthHeader := None |} in
  bfd_good p /\ len (CreateBfdControlPacket p) = 52 /\
  DecodeBfdControlPacket (CreateBfdControlPacket p) =
    Ok (set_AuthHeader (on_wire (CreateBfdControlPacket p) <$> AuthHeader p) p).
Proof.
  intros p. assert (Hp : bfd_good p).
  { constructor; try (cbn; unfold is_u32, STATE_UP; lia). cbn. split; [unfold is_u32; cbn; lia|]. right; right. reflexivity. }
  split; [exact Hp|]. split; [vm_compute; reflexivity|]. exact (bfd_packet_roundtrip p Hp).
Defined.

(** ** Any bytes *)

Lemma be32_of (a b c d : Z) : bytes_ok [a; b; c; d] -> exists v, is_u32 v /\ [a; b; c; d] = be32 v.
Proof.
  intros H. unfold bytes_ok in H. rewrite !Forall_cons in H. destruct H as (Ha & Hb & Hc & Hd & _).
  unfold is_u8 in *. exists (a * 16777216 + b * 65536 + c * 256 + d). split; [unfold is_u32; lia|].
  unfold be32, u8. repeat (f_equal; try (Z.div_mod_to_equations; lia)).
Qed.

Lemma cut4 (s : bytes) n : 4 <= n -> bytes_ok s -> n <= len s ->
  exists v t, is_u32 v /\ s = be32 v ++ t /\ bytes_ok t /\ n - 4 <= len t.
Proof.
  intros Hn Hs Hl. destruct s as [|a [|b [|c [|d t]]]]; repeat rewrite ?len_cons, ?len_nil in Hl; try lia.
  change (a :: b :: c :: d :: t) with ([a; b; c; d] ++ t) in *. apply bytes_ok_app in Hs as [Hs Ht].
  destruct (be32_of _ _ _ _ Hs) as (v & Hv & ->). exists v, t. repeat split; try done; try apply Hv. lia.
Qed.

Lemma split_packet data : bytes_ok data -> 24 <= len data ->
  exists b0 b1 mult length my your tx rx echo tail,
    data = fixed_part b0 b1 mult length my your tx rx echo ++ tail /\
    is_u8 b0 /\ is_u8 b1 /\ is_u8 mult /\ is_u8 length /\
    is_u32 my /\ is_u32 your /\ is_u32 tx /\ is_u32 rx /\ is_u32 echo /\ bytes_ok tail.
Proof.
  intros Hb Hl.
  destruct data as [|b0 [|b1 [|mult [|length s]]]]; repeat rewrite ?len_cons, ?len_nil in Hl; try lia.
  unfold bytes_ok in Hb. rewrite !Forall_cons in Hb. destruct Hb as (? & ? & ? & ? & Hb).
  destruct (cut4 s 20) as (my & t1 & ? & -> & ? & ?); [lia | done | lia |].
  destruct (cut4 t1 16) as (your & t2 & ? & -> & ? & ?); [lia | done | lia |].
  destruct (cut4 t2 12) as (tx & t3 & ? & -> & ? & ?); [lia | done | lia |].
  destruct (cut4 t3 8) as (rx & t4 & ? & -> & ? & ?); [lia | done | lia |].
  destruct (cut4 t4 4) as (echo & t5 & ? & -> & ? & ?); [lia | done | lia |].
  exists b0, b1, mult, length, my, your, tx, rx, echo, t5.
  split; [reflexivity|]. by repeat (split; [assumption|]).
Qed.

(** An authentication section that ends before what the decoder reads of it. *)
Definition short_section (s : bytes) : bool :=
  match s with
  | [] => false
  | [_] => true
  | [_; length] => length >? 0
  | t :: length :: _ => (length >? 0) && (is_md5 t || is_sha1 t) && (len s <? 8)
  end.

Lemma decode_auth_panics s : s <> [] ->
  (decodeBfdAuthHeader s = Panic <-> short_section s = true) /\ decodeBfdAuthHeader s <> Hang.
Proof.
  intros Hs. destruct s as [|t [|l [|k s]]]; [done | by split | |].
  { unfold decodeBfdAuthHeader, short_section. gocbn. by destruct (l >? 0). }
  unfold decodeBfdAuthHeader, short_section. rewrite <- andb_assoc. unfold sget, slice, slice_from. gocbn.
  destruct (l >? 0); [|by split]. gocbn.
  destruct (t =? BFD_AUTH_TYPE_SIMPLE) eqn:Ht.
  { apply Z.eqb_eq in Ht as ->. by split. }
  destruct s as [|x1 [|x2 [|x3 [|x4 [|x5 s]]]]]; try (destruct (is_md5 t), (is_sha1 t); by split).
  replace (len _ <? 8) with false by (symmetry; apply Z.ltb_ge; rewrite !len_cons; pose proof (len_nonneg s); lia).
  gocbn. rewrite andb_false_r. destruct (is_md5 t), (is_sha1 t); try destruct (negb _); by split.
Qed.

Lemma masked b0 b1 : is_u8 b0 -> is_u8 b1 ->
  0 <= Z.shiftr (Z.land b0 224) 5 < 8 /\ 0 <= Z.shiftr (Z.land b1 208) 6 < 4.
Proof.
  intros H0 H1.
  apply (below_n 256 (fun b => (0 <=? Z.shiftr (Z.land b 224) 5) && (Z.shiftr (Z.land b 224) 5 <? 8))) in H0;
    [|vm_compute; reflexivity].
  apply (below_n 256 (fun b => (0 <=? Z.shiftr (Z.land b 208) 6) && (Z.shiftr (Z.land b 208) 6 <? 4))) in H1;
    [|vm_compute; reflexivity].
  lia.
Qed.

(** The bytes on which the daemon crashes. *)
Definition crashes (data : bytes) : bool :=
  match data with
  | _ :: b1 :: _ :: length :: _ =>
    (u8 (len data) =? length) && flag b1 BFD_AUTH_PRESENT && short_section (drop 24 data)
  | _ => false
  end.

(** On every datagram of at least 24 bytes (the server drops shorter ones) the decoder ends; it panics
    exactly when the authentication bit is set and the section that follows is cut short, as in
    a datagram of 25 bytes, and that ends the daemon; and what it returns has its fields in range. *)
Theorem bfd_decode_total data : bytes_ok data -> 24 <= len data ->
  (DecodeBfdControlPacket data = Panic <-> crashes data = true) /\
  DecodeBfdControlPacket data <> Hang /\
  forall p, DecodeBfdControlPacket data = Ok p ->
    0 <= Version p < 8 /\ 0 <= State p < 4 /\ is_u8 (DetectMult p) /\
    is_u32 (MyDiscriminator p) /\ is_u32 (YourDiscriminator p) /\ is_u32 (DesiredMinTxInterval p) /\
    is_u32 (RequiredMinRxInterval p) /\ (AuthPresent p = true -> AuthHeader p <> None).
Proof.
  intros Hb Hl.
  destruct (split_packet data Hb Hl) as (b0 & b1 & mult & length & my & your & tx & rx & echo & tail & -> &
    Hb0 & Hb1 & Hm & _ & Hmy & Hyour & Htx & Hrx & Hecho & _).
  rewrite decode_fixed by done.
  assert (Hc : crashes (fixed_part b0 b1 mult length my your tx rx echo ++ tail) =
          (u8 (24 + len tail) =? length) && flag b1 BFD_AUTH_PRESENT && short_section tail).
  { unfold crashes. cbn [fixed_part app]. do 2 f_equal. f_equal. f_equal. lens. lia. }
  rewrite Hc. clear Hc Hb Hl.
  assert (Hfix : forall auth, let p := fixed_packet b0 b1 mult my your tx rx echo auth in
    0 <= Version p < 8 /\ 0 <= State p < 4 /\ is_u8 (DetectMult p) /\
    is_u32 (MyDiscriminator p) /\ is_u32 (YourDiscriminator p) /\ is_u32 (DesiredMinTxInterval p) /\
    is_u32 (RequiredMinRxInterval p)).
  { intros auth p. destruct (masked b0 b1 Hb0 Hb1). by repeat (split; [assumption|]). }
  destruct (u8 _ =? length); cbn [negb andb]; [|by repeat split].
  destruct (flag b1 BFD_AUTH_PRESENT) eqn:Hf; cbn [andb].
  - destruct tail as [|x tail]; [by repeat split|]. rewrite (proj2 (Z.gtb_lt (len _) 0)); cycle 1.
    { rewrite len_cons. pose proof (len_nonneg tail). lia. }
    destruct (decode_auth_panics (x :: tail)) as [Hp Hh]; [done|].
    destruct (decodeBfdAuthHeader (x :: tail)) as [h | e | |] eqn:Hd; cbn; [| | | done].
    + split; [rewrite <- Hp; by split|]. split; [done|]. intros p [= <-].
      by destruct (Hfix (Some h)) as (? & ? & ? & ? & ? & ? & ?).
    + split; [rewrite <- Hp; by split | by split].
    + split; [rewrite <- Hp; by split | by split].
  - split; [by split|]. split; [done|]. intros p [= <-].
    destruct (Hfix None) as (? & ? & ? & ? & ? & ? & ?). repeat (split; [assumption|]).
    cbn [AuthPresent fixed_packet]. by rewrite Hf.
Qed.

Lemma bfd_decode_total_witness :
  let data := [32; 196; 3; 25] ++ replicate 21 0 in
  bytes_ok data /\ crashes data = true /\ DecodeBfdControlPacket data = Panic.
Proof.
  intros data.
  assert (Hb : bytes_ok data).
  { unfold data. apply bytes_ok_app. split; [repeat constructor; unfold is_u8; lia | apply (bytes_ok_make 21)]. }
  split; [exact Hb|]. split; [vm_compute; reflexivity|].
  apply (bfd_decode_total data Hb); [vm_compute; discriminate | vm_compute; reflexivity].
Defined.

(** ** The second byte of any packet that is encoded *)

Definition second (w : bytes) : Z := nth 1 w 0.
Definition wire_state (w : bytes) : BfdSessionState := Z.shiftr (Z.land (second w) 208) 6.

Lemma encode_second p : second (CreateBfdControlPacket p) =
  byte1 (State p) (Poll p) (Final p) (ControlPlaneIndependent p)
    (AuthPresent p && match AuthHeader p with Some _ => true | None => false end) (Demand p) (Multipoint p).
Proof.
  unfold CreateBfdControlPacket, second, byte1.
  destruct (AuthPresent p), (AuthHeader p) as [h|]; cbn [andb]; try reflexivity.
  all: destruct (_ >? 0); [|reflexivity]; unfold auth_section;
    destruct (ah_Type h =? BFD_AUTH_TYPE_SIMPLE), (is_md5 (ah_Type h)), (is_sha1 (ah_Type h)); reflexivity.
Qed.
Lemma encode_state p : 0 <= State p < 4 -> wire_state (CreateBfdControlPacket p) = State p.
Proof. intros Hs. unfold wire_state. rewrite encode_second. by apply byte1_fields. Qed.
Lemma encode_final p : 0 <= State p < 4 -> flag (second (CreateBfdControlPacket p)) BFD_FINAL = Final p.
Proof. intros Hs. rewrite encode_second. by apply byte1_fields. Qed.
Lemma decode_state w p : DecodeBfdControlPacket w = Ok p -> State p = wire_state w.
Proof.
  unfold DecodeBfdControlPacket, wire_state, second.
  intros (b0 & _ & H)%bind_Ok_inv. apply bind_Ok_inv in H as (b1 & Hb1 & H).
  assert (Hn : nth 1 w 0 = b1).
  { unfold sget in Hb1. cbn in Hb1. destruct w as [|? [|? ?]]; try done. by injection Hb1 as <-. }
  rewrite Hn. clear Hn Hb1.
  apply bind_Ok_inv in H as (b2 & _ & H). apply bind_Ok_inv in H as (l & _ & H).
  destruct (negb _); [done|]. repeat apply bind_Ok_inv in H as (? & _ & H). by injection H as <-.
Qed.
