(* ===== verification/BfdSession.v ===== *)
(** A BFD session ([src/bfd/server/bfdSession.go], and the session handlers of [bfdLag.go]): its state, the
    state machine, what it does with a received packet, what it sends, its timers.

    A handler maps the session to the session: the goroutines that run them (the server of the session,
    its timers, the session manager) are taken to run one handler at a time. What leaves the daemon is
    recorded in the session: the notifications published and the packets written. *)
From stdpp Require Import base numbers list strings.
From Stdlib Require Import ZArith Lia SpecFloat.
From S2P Require Import Prelude GoNet GoCrypto BfdPacket.
Open Scope Z_scope.

(** ** The session *)

(** What the daemon reports of a session. [AuthType], [AuthSeqKnown] and [SentAuthSeq] are never set. *)
Record SessionState := {
  st_IpAddr : string;
  st_LocalAddr : string;
  st_SessionId : Z;
  st_ParamName : string;
  st_Interface : string;
  st_InterfaceSpecific : bool;
  st_PerLinkSession : bool;
  st_LocalMacAddr : bytes;
  st_RemoteMacAddr : bytes;
  st_RegisteredProtocols : list bool;
  st_SessionState : BfdSessionState;
  st_RemoteSessionState : BfdSessionState;
  st_LocalDiscriminator : Z;
  st_RemoteDiscriminator : Z;
  st_LocalDiagType : Z;
  st_DesiredMinTxInterval : Z;
  st_RequiredMinRxInterval : Z;
  st_RemoteMinRxInterval : Z;
  st_DetectionMultiplier : Z;
  st_RemoteDetectionMultiplier : Z;
  st_DemandMode : bool;
  st_RemoteDemandMode : bool;
  st_ReceivedAuthSeq : Z;
  st_NumTxPackets : Z;
  st_NumRxPackets : Z;
  st_ToDownCount : Z;
  st_ToUpCount : Z;
  st_UpTime : Z;
}.

Definition set_st_IpAddr (v : string) (st : SessionState) : SessionState :=
  {| st_IpAddr := v; st_LocalAddr := st_LocalAddr st; st_SessionId := st_SessionId st; st_ParamName :=
     st_ParamName st; st_Interface := st_Interface st; st_InterfaceSpecific := st_InterfaceSpecific st;
     st_PerLinkSession := st_PerLinkSession st; st_LocalMacAddr := st_LocalMacAddr st; st_RemoteMacAddr :=
     st_RemoteMacAddr st; st_RegisteredProtocols := st_RegisteredProtocols st; st_SessionState :=
     st_SessionState st; st_RemoteSessionState := st_RemoteSessionState st; st_LocalDiscriminator :=
     st_LocalDiscriminator st; st_RemoteDiscriminator := st_RemoteDiscriminator st; st_LocalDiagType :=
     st_LocalDiagType st; st_DesiredMinTxInterval := st_DesiredMinTxInterval st; st_RequiredMinRxInterval
     := st_RequiredMinRxInterval st; st_RemoteMinRxInterval := st_RemoteMinRxInterval st;
     st_DetectionMultiplier := st_DetectionMultiplier st; st_RemoteDetectionMultiplier :=
     st_RemoteDetectionMultiplier st; st_DemandMode := st_DemandMode st; st_RemoteDemandMode :=
     st_RemoteDemandMode st; st_ReceivedAuthSeq := st_ReceivedAuthSeq st; st_NumTxPackets :=
     st_NumTxPackets st; st_NumRxPackets := st_NumRxPackets st; st_ToDownCount := st_ToDownCount st;
     st_ToUpCount := st_ToUpCount st; st_UpTime := st_UpTime st |}.
Definition set_st_LocalAddr (v : string) (st : SessionState) : SessionState :=
  {| st_IpAddr := st_IpAddr st; st_LocalAddr := v; st_SessionId := st_SessionId st; st_ParamName :=
     st_ParamName st; st_Interface := st_Interface st; st_InterfaceSpecific := st_InterfaceSpecific st;
     st_PerLinkSession := st_PerLinkSession st; st_LocalMacAddr := st_LocalMacAddr st; st_RemoteMacAddr :=
     st_RemoteMacAddr st; st_RegisteredProtocols := st_RegisteredProtocols st; st_SessionState :=
     st_SessionState st; st_RemoteSessionState := st_RemoteSessionState st; st_LocalDiscriminator :=
     st_LocalDiscriminator st; st_RemoteDiscriminator := st_RemoteDiscriminator st; st_LocalDiagType :=
     st_LocalDiagType st; st_DesiredMinTxInterval := st_DesiredMinTxInterval st; st_RequiredMinRxInterval
     := st_RequiredMinRxInterval st; st_RemoteMinRxInterval := st_RemoteMinRxInterval st;
     st_DetectionMultiplier := st_DetectionMultiplier st; st_RemoteDetectionMultiplier :=
     st_RemoteDetectionMultiplier st; st_DemandMode := st_DemandMode st; st_RemoteDemandMode :=
     st_RemoteDemandMode st; st_ReceivedAuthSeq := st_ReceivedAuthSeq st; st_NumTxPackets :=
     st_NumTxPackets st; st_NumRxPackets := st_NumRxPackets st; st_ToDownCount := st_ToDownCount st;
     st_ToUpCount := st_ToUpCount st; st_UpTime := st_UpTime st |}.
Definition set_st_ParamName (v : string) (st : SessionState) : SessionState :=
  {| st_IpAddr := st_IpAddr st; st_LocalAddr := st_LocalAddr st; st_SessionId := st_SessionId st;
     st_ParamName := v; st_Interface := st_Interface st; st_InterfaceSpecific := st_InterfaceSpecific st;
     st_PerLinkSession := st_PerLinkSession st; st_LocalMacAddr := st_LocalMacAddr st; st_RemoteMacAddr :=
     st_RemoteMacAddr st; st_RegisteredProtocols := st_RegisteredProtocols st; st_SessionState :=
     st_SessionState st; st_RemoteSessionState := st_RemoteSessionState st; st_LocalDiscriminator :=
     st_LocalDiscriminator st; st_RemoteDiscriminator := st_RemoteDiscriminator st; st_LocalDiagType :=
     st_LocalDiagType st; st_DesiredMinTxInterval := st_DesiredMinTxInterval st; st_RequiredMinRxInterval
     := st_RequiredMinRxInterval st; st_RemoteMinRxInterval := st_RemoteMinRxInterval st;
     st_DetectionMultiplier := st_DetectionMultiplier st; st_RemoteDetectionMultiplier :=
     st_RemoteDetectionMultiplier st; st_DemandMode := st_DemandMode st; st_RemoteDemandMode :=
     st_RemoteDemandMode st; st_ReceivedAuthSeq := st_ReceivedAuthSeq st; st_NumTxPackets :=
     st_NumTxPackets st; st_NumRxPackets := st_NumRxPackets st; st_ToDownCount := st_ToDownCount st;
     st_ToUpCount := st_ToUpCount st; st_UpTime := st_UpTime st |}.
Definition set_st_InterfaceSpecific (v : bool) (st : SessionState) : SessionState :=
  {| st_IpAddr := st_IpAddr st; st_LocalAddr := st_LocalAddr st; st_SessionId := st_SessionId st;
     st_ParamName := st_ParamName st; st_Interface := st_Interface st; st_InterfaceSpecific := v;
     st_PerLinkSession := st_PerLinkSession st; st_LocalMacAddr := st_LocalMacAddr st; st_RemoteMacAddr :=
     st_RemoteMacAddr st; st_RegisteredProtocols := st_RegisteredProtocols st; st_SessionState :=
     st_SessionState st; st_RemoteSessionState := st_RemoteSessionState st; st_LocalDiscriminator :=
     st_LocalDiscriminator st; st_RemoteDiscriminator := st_RemoteDiscriminator st; st_LocalDiagType :=
     st_LocalDiagType st; st_DesiredMinTxInterval := st_DesiredMinTxInterval st; st_RequiredMinRxInterval
     := st_RequiredMinRxInterval st; st_RemoteMinRxInterval := st_RemoteMinRxInterval st;
     st_DetectionMultiplier := st_DetectionMultiplier st; st_RemoteDetectionMultiplier :=
     st_RemoteDetectionMultiplier st; st_DemandMode := st_DemandMode st; st_RemoteDemandMode :=
     st_RemoteDemandMode st; st_ReceivedAuthSeq := st_ReceivedAuthSeq st; st_NumTxPackets :=
     st_NumTxPackets st; st_NumRxPackets := st_NumRxPackets st; st_ToDownCount := st_ToDownCount st;
     st_ToUpCount := st_ToUpCount st; st_UpTime := st_UpTime st |}.
Definition set_st_RemoteMacAddr (v : bytes) (st : SessionState) : SessionState :=
  {| st_IpAddr := st_IpAddr st; st_LocalAddr := st_LocalAddr st; st_SessionId := st_SessionId st;
     st_ParamName := st_ParamName st; st_Interface := st_Interface st; st_InterfaceSpecific :=
     st_InterfaceSpecific st; st_PerLinkSession := st_PerLinkSession st; st_LocalMacAddr :=
     st_LocalMacAddr st; st_RemoteMacAddr := v; st_RegisteredProtocols := st_RegisteredProtocols st;
     st_SessionState := st_SessionState st; st_RemoteSessionState := st_RemoteSessionState st;
     st_LocalDiscriminator := st_LocalDiscriminator st; st_RemoteDiscriminator := st_RemoteDiscriminator
     st; st_LocalDiagType := st_LocalDiagType st; st_DesiredMinTxInterval := st_DesiredMinTxInterval st;
     st_RequiredMinRxInterval := st_RequiredMinRxInterval st; st_RemoteMinRxInterval :=
     st_RemoteMinRxInterval st; st_DetectionMultiplier := st_DetectionMultiplier st;
     st_RemoteDetectionMultiplier := st_RemoteDetectionMultiplier st; st_DemandMode := st_DemandMode st;
     st_RemoteDemandMode := st_RemoteDemandMode st; st_ReceivedAuthSeq := st_ReceivedAuthSeq st;
     st_NumTxPackets := st_NumTxPackets st; st_NumRxPackets := st_NumRxPackets st; st_ToDownCount :=
     st_ToDownCount st; st_ToUpCount := st_ToUpCount st; st_UpTime := st_UpTime st |}.
Definition set_st_RegisteredProtocols (v : list bool) (st : SessionState) : SessionState :=
  {| st_IpAddr := st_IpAddr st; st_LocalAddr := st_LocalAddr st; st_SessionId := st_SessionId st;
     st_ParamName := st_ParamName st; st_Interface := st_Interface st; st_InterfaceSpecific :=
     st_InterfaceSpecific st; st_PerLinkSession := st_PerLinkSession st; st_LocalMacAddr :=
     st_LocalMacAddr st; st_RemoteMacAddr := st_RemoteMacAddr st; st_RegisteredProtocols := v;
     st_SessionState := st_SessionState st; st_RemoteSessionState := st_RemoteSessionState st;
     st_LocalDiscriminator := st_LocalDiscriminator st; st_RemoteDiscriminator := st_RemoteDiscriminator
     st; st_LocalDiagType := st_LocalDiagType st; st_DesiredMinTxInterval := st_DesiredMinTxInterval st;
     st_RequiredMinRxInterval := st_RequiredMinRxInterval st; st_RemoteMinRxInterval :=
     st_RemoteMinRxInterval st; st_DetectionMultiplier := st_DetectionMultiplier st;
     st_RemoteDetectionMultiplier := st_RemoteDetectionMultiplier st; st_DemandMode := st_DemandMode st;
     st_RemoteDemandMode := st_RemoteDemandMode st; st_ReceivedAuthSeq := st_ReceivedAuthSeq st;
     st_NumTxPackets := st_NumTxPackets st; st_NumRxPackets := st_NumRxPackets st; st_ToDownCount :=
     st_ToDownCount st; st_ToUpCount := st_ToUpCount st; st_UpTime := st_UpTime st |}.
Definition set_st_SessionState (v : BfdSessionState) (st : SessionState) : SessionState :=
  {| st_IpAddr := st_IpAddr st; st_LocalAddr := st_LocalAddr st; st_SessionId := st_SessionId st;
     st_ParamName := st_ParamName st; st_Interface := st_Interface st; st_InterfaceSpecific :=
     st_InterfaceSpecific st; st_PerLinkSession := st_PerLinkSession st; st_LocalMacAddr :=
     st_LocalMacAddr st; st_RemoteMacAddr := st_RemoteMacAddr st; st_RegisteredProtocols :=
     st_RegisteredProtocols st; st_SessionState := v; st_RemoteSessionState := st_RemoteSessionState st;
     st_LocalDiscriminator := st_LocalDiscriminator st; st_RemoteDiscriminator := st_RemoteDiscriminator
     st; st_LocalDiagType := st_LocalDiagType st; st_DesiredMinTxInterval := st_DesiredMinTxInterval st;
     st_RequiredMinRxInterval := st_RequiredMinRxInterval st; st_RemoteMinRxInterval :=
     st_RemoteMinRxInterval st; st_DetectionMultiplier := st_DetectionMultiplier st;
     st_RemoteDetectionMultiplier := st_RemoteDetectionMultiplier st; st_DemandMode := st_DemandMode st;
     st_RemoteDemandMode := st_RemoteDemandMode st; st_ReceivedAuthSeq := st_ReceivedAuthSeq st;
     st_NumTxPackets := st_NumTxPackets st; st_NumRxPackets := st_NumRxPackets st; st_ToDownCount :=
     st_ToDownCount st; st_ToUpCount := st_ToUpCount st; st_UpTime := st_UpTime st |}.
Definition set_st_RemoteSessionState (v : BfdSessionState) (st : SessionState) : SessionState :=
  {| st_IpAddr := st_IpAddr st; st_LocalAddr := st_LocalAddr st; st_SessionId := st_SessionId st;
     st_ParamName := st_ParamName st; st_Interface := st_Interface st; st_InterfaceSpecific :=
     st_InterfaceSpecific st; st_PerLinkSession := st_PerLinkSession st; st_LocalMacAddr :=
     st_LocalMacAddr st; st_RemoteMacAddr := st_RemoteMacAddr st; st_RegisteredProtocols :=
     st_RegisteredProtocols st; st_SessionState := st_SessionState st; st_RemoteSessionState := v;
     st_LocalDiscriminator := st_LocalDiscriminator st; st_RemoteDiscriminator := st_RemoteDiscriminator
     st; st_LocalDiagType := st_LocalDiagType st; st_DesiredMinTxInterval := st_DesiredMinTxInterval st;
     st_RequiredMinRxInterval := st_RequiredMinRxInterval st; st_RemoteMinRxInterval :=
     st_RemoteMinRxInterval st; st_DetectionMultiplier := st_DetectionMultiplier st;
     st_RemoteDetectionMultiplier := st_RemoteDetectionMultiplier st; st_DemandMode := st_DemandMode st;
     st_RemoteDemandMode := st_RemoteDemandMode st; st_ReceivedAuthSeq := st_ReceivedAuthSeq st;
     st_NumTxPackets := st_NumTxPackets st; st_NumRxPackets := st_NumRxPackets st; st_ToDownCount :=
     st_ToDownCount st; st_ToUpCount := st_ToUpCount st; st_UpTime := st_UpTime st |}.
Definition set_st_RemoteDiscriminator (v : Z) (st : SessionState) : SessionState :=
  {| st_IpAddr := st_IpAddr st; st_LocalAddr := st_LocalAddr st; st_SessionId := st_SessionId st;
     st_ParamName := st_ParamName st; st_Interface := st_Interface st; st_InterfaceSpecific :=
     st_InterfaceSpecific st; st_PerLinkSession := st_PerLinkSession st; st_LocalMacAddr :=
     st_LocalMacAddr st; st_RemoteMacAddr := st_RemoteMacAddr st; st_RegisteredProtocols :=
     st_RegisteredProtocols st; st_SessionState := st_SessionState st; st_RemoteSessionState :=
     st_RemoteSessionState st; st_LocalDiscriminator := st_LocalDiscriminator st; st_RemoteDiscriminator
     := v; st_LocalDiagType := st_LocalDiagType st; st_DesiredMinTxInterval := st_DesiredMinTxInterval st;
     st_RequiredMinRxInterval := st_RequiredMinRxInterval st; st_RemoteMinRxInterval :=
     st_RemoteMinRxInterval st; st_DetectionMultiplier := st_DetectionMultiplier st;
     st_RemoteDetectionMultiplier := st_RemoteDetectionMultiplier st; st_DemandMode := st_DemandMode st;
     st_RemoteDemandMode := st_RemoteDemandMode st; st_ReceivedAuthSeq := st_ReceivedAuthSeq st;
     st_NumTxPackets := st_NumTxPackets st; st_NumRxPackets := st_NumRxPackets st; st_ToDownCount :=
     st_ToDownCount st; st_ToUpCount := st_ToUpCount st; st_UpTime := st_UpTime st |}.
Definition set_st_LocalDiagType (v : Z) (st : SessionState) : SessionState :=
  {| st_IpAddr := st_IpAddr st; st_LocalAddr := st_LocalAddr st; st_SessionId := st_SessionId st;
     st_ParamName := st_ParamName st; st_Interface := st_Interface st; st_InterfaceSpecific :=
     st_InterfaceSpecific st; st_PerLinkSession := st_PerLinkSession st; st_LocalMacAddr :=
     st_LocalMacAddr st; st_RemoteMacAddr := st_RemoteMacAddr st; st_RegisteredProtocols :=
     st_RegisteredProtocols st; st_SessionState := st_SessionState st; st_RemoteSessionState :=
     st_RemoteSessionState st; st_LocalDiscriminator := st_LocalDiscriminator st; st_RemoteDiscriminator
     := st_RemoteDiscriminator st; st_LocalDiagType := v; st_DesiredMinTxInterval :=
     st_DesiredMinTxInterval st; st_RequiredMinRxInterval := st_RequiredMinRxInterval st;
     st_RemoteMinRxInterval := st_RemoteMinRxInterval st; st_DetectionMultiplier := st_DetectionMultiplier
     st; st_RemoteDetectionMultiplier := st_RemoteDetectionMultiplier st; st_DemandMode := st_DemandMode
     st; st_RemoteDemandMode := st_RemoteDemandMode st; st_ReceivedAuthSeq := st_ReceivedAuthSeq st;
     st_NumTxPackets := st_NumTxPackets st; st_NumRxPackets := st_NumRxPackets st; st_ToDownCount :=
     st_ToDownCount st; st_ToUpCount := st_ToUpCount st; st_UpTime := st_UpTime st |}.
Definition set_st_DesiredMinTxInterval (v : Z) (st : SessionState) : SessionState :=
  {| st_IpAddr := st_IpAddr st; st_LocalAddr := st_LocalAddr st; st_SessionId := st_SessionId st;
     st_ParamName := st_ParamName st; st_Interface := st_Interface st; st_InterfaceSpecific :=
     st_InterfaceSpecific st; st_PerLinkSession := st_PerLinkSession st; st_LocalMacAddr :=
     st_LocalMacAddr st; st_RemoteMacAddr := st_RemoteMacAddr st; st_RegisteredProtocols :=
     st_RegisteredProtocols st; st_SessionState := st_SessionState st; st_RemoteSessionState :=
     st_RemoteSessionState st; st_LocalDiscriminator := st_LocalDiscriminator st; st_RemoteDiscriminator
     := st_RemoteDiscriminator st; st_LocalDiagType := st_LocalDiagType st; st_DesiredMinTxInterval := v;
     st_RequiredMinRxInterval := st_RequiredMinRxInterval st; st_RemoteMinRxInterval :=
     st_RemoteMinRxInterval st; st_DetectionMultiplier := st_DetectionMultiplier st;
     st_RemoteDetectionMultiplier := st_RemoteDetectionMultiplier st; st_DemandMode := st_DemandMode st;
     st_RemoteDemandMode := st_RemoteDemandMode st; st_ReceivedAuthSeq := st_ReceivedAuthSeq st;
     st_NumTxPackets := st_NumTxPackets st; st_NumRxPackets := st_NumRxPackets st; st_ToDownCount :=
     st_ToDownCount st; st_ToUpCount := st_ToUpCount st; st_UpTime := st_UpTime st |}.
Definition set_st_RequiredMinRxInterval (v : Z) (st : SessionState) : SessionState :=
  {| st_IpAddr := st_IpAddr st; st_LocalAddr := st_LocalAddr st; st_SessionId := st_SessionId st;
     st_ParamName := st_ParamName st; st_Interface := st_Interface st; st_InterfaceSpecific :=
     st_InterfaceSpecific st; st_PerLinkSession := st_PerLinkSession st; st_LocalMacAddr :=
     st_LocalMacAddr st; st_RemoteMacAddr := st_RemoteMacAddr st; st_RegisteredProtocols :=
     st_RegisteredProtocols st; st_SessionState := st_SessionState st; st_RemoteSessionState :=
     st_RemoteSessionState st; st_LocalDiscriminator := st_LocalDiscriminator st; st_RemoteDiscriminator
     := st_RemoteDiscriminator st; st_LocalDiagType := st_LocalDiagType st; st_DesiredMinTxInterval :=
     st_DesiredMinTxInterval st; st_RequiredMinRxInterval := v; st_RemoteMinRxInterval :=
     st_RemoteMinRxInterval st; st_DetectionMultiplier := st_DetectionMultiplier st;
     st_RemoteDetectionMultiplier := st_RemoteDetectionMultiplier st; st_DemandMode := st_DemandMode st;
     st_RemoteDemandMode := st_RemoteDemandMode st; st_ReceivedAuthSeq := st_ReceivedAuthSeq st;
     st_NumTxPackets := st_NumTxPackets st; st_NumRxPackets := st_NumRxPackets st; st_ToDownCount :=
     st_ToDownCount st; st_ToUpCount := st_ToUpCount st; st_UpTime := st_UpTime st |}.
Definition set_st_RemoteMinRxInterval (v : Z) (st : SessionState) : SessionState :=
  {| st_IpAddr := st_IpAddr st; st_LocalAddr := st_LocalAddr st; st_SessionId := st_SessionId st;
     st_ParamName := st_ParamName st; st_Interface := st_Interface st; st_InterfaceSpecific :=
     st_InterfaceSpecific st; st_PerLinkSession := st_PerLinkSession st; st_LocalMacAddr :=
     st_LocalMacAddr st; st_RemoteMacAddr := st_RemoteMacAddr st; st_RegisteredProtocols :=
     st_RegisteredProtocols st; st_SessionState := st_SessionState st; st_RemoteSessionState :=
     st_RemoteSessionState st; st_LocalDiscriminator := st_LocalDiscriminator st; st_RemoteDiscriminator
     := st_RemoteDiscriminator st; st_LocalDiagType := st_LocalDiagType st; st_DesiredMinTxInterval :=
     st_DesiredMinTxInterval st; st_RequiredMinRxInterval := st_RequiredMinRxInterval st;
     st_RemoteMinRxInterval := v; st_DetectionMultiplier := st_DetectionMultiplier st;
     st_RemoteDetectionMultiplier := st_RemoteDetectionMultiplier st; st_DemandMode := st_DemandMode st;
     st_RemoteDemandMode := st_RemoteDemandMode st; st_ReceivedAuthSeq := st_ReceivedAuthSeq st;
     st_NumTxPackets := st_NumTxPackets st; st_NumRxPackets := st_NumRxPackets st; st_ToDownCount :=
     st_ToDownCount st; st_ToUpCount := st_ToUpCount st; st_UpTime := st_UpTime st |}.
Definition set_st_DetectionMultiplier (v : Z) (st : SessionState) : SessionState :=
  {| st_IpAddr := st_IpAddr st; st_LocalAddr := st_LocalAddr st; st_SessionId := st_SessionId st;
     st_ParamName := st_ParamName st; st_Interface := st_Interface st; st_InterfaceSpecific :=
     st_InterfaceSpecific st; st_PerLinkSession := st_PerLinkSession st; st_LocalMacAddr :=
     st_LocalMacAddr st; st_RemoteMacAddr := st_RemoteMacAddr st; st_RegisteredProtocols :=
     st_RegisteredProtocols st; st_SessionState := st_SessionState st; st_RemoteSessionState :=
     st_RemoteSessionState st; st_LocalDiscriminator := st_LocalDiscriminator st; st_RemoteDiscriminator
     := st_RemoteDiscriminator st; st_LocalDiagType := st_LocalDiagType st; st_DesiredMinTxInterval :=
     st_DesiredMinTxInterval st; st_RequiredMinRxInterval := st_RequiredMinRxInterval st;
     st_RemoteMinRxInterval := st_RemoteMinRxInterval st; st_DetectionMultiplier := v;
     st_RemoteDetectionMultiplier := st_RemoteDetectionMultiplier st; st_DemandMode := st_DemandMode st;
     st_RemoteDemandMode := st_RemoteDemandMode st; st_ReceivedAuthSeq := st_ReceivedAuthSeq st;
     st_NumTxPackets := st_NumTxPackets st; st_NumRxPackets := st_NumRxPackets st; st_ToDownCount :=
     st_ToDownCount st; st_ToUpCount := st_ToUpCount st; st_UpTime := st_UpTime st |}.
Definition set_st_RemoteDetectionMultiplier (v : Z) (st : SessionState) : SessionState :=
  {| st_IpAddr := st_IpAddr st; st_LocalAddr := st_LocalAddr st; st_SessionId := st_SessionId st;
     st_ParamName := st_ParamName st; st_Interface := st_Interface st; st_InterfaceSpecific :=
     st_InterfaceSpecific st; st_PerLinkSession := st_PerLinkSession st; st_LocalMacAddr :=
     st_LocalMacAddr st; st_RemoteMacAddr := st_RemoteMacAddr st; st_RegisteredProtocols :=
     st_RegisteredProtocols st; st_SessionState := st_SessionState st; st_RemoteSessionState :=
     st_RemoteSessionState st; st_LocalDiscriminator := st_LocalDiscriminator st; st_RemoteDiscriminator
     := st_RemoteDiscriminator st; st_LocalDiagType := st_LocalDiagType st; st_DesiredMinTxInterval :=
     st_DesiredMinTxInterval st; st_RequiredMinRxInterval := st_RequiredMinRxInterval st;
     st_RemoteMinRxInterval := st_RemoteMinRxInterval st; st_DetectionMultiplier := st_DetectionMultiplier
     st; st_RemoteDetectionMultiplier := v; st_DemandMode := st_DemandMode st; st_RemoteDemandMode :=
     st_RemoteDemandMode st; st_ReceivedAuthSeq := st_ReceivedAuthSeq st; st_NumTxPackets :=
     st_NumTxPackets st; st_NumRxPackets := st_NumRxPackets st; st_ToDownCount := st_ToDownCount st;
     st_ToUpCount := st_ToUpCount st; st_UpTime := st_UpTime st |}.
Definition set_st_DemandMode (v : bool) (st : SessionState) : SessionState :=
  {| st_IpAddr := st_IpAddr st; st_LocalAddr := st_LocalAddr st; st_SessionId := st_SessionId st;
     st_ParamName := st_ParamName st; st_Interface := st_Interface st; st_InterfaceSpecific :=
     st_InterfaceSpecific st; st_PerLinkSession := st_PerLinkSession st; st_LocalMacAddr :=
     st_LocalMacAddr st; st_RemoteMacAddr := st_RemoteMacAddr st; st_RegisteredProtocols :=
     st_RegisteredProtocols st; st_SessionState := st_SessionState st; st_RemoteSessionState :=
     st_RemoteSessionState st; st_LocalDiscriminator := st_LocalDiscriminator st; st_RemoteDiscriminator
     := st_RemoteDiscriminator st; st_LocalDiagType := st_LocalDiagType st; st_DesiredMinTxInterval :=
     st_DesiredMinTxInterval st; st_RequiredMinRxInterval := st_RequiredMinRxInterval st;
     st_RemoteMinRxInterval := st_RemoteMinRxInterval st; st_DetectionMultiplier := st_DetectionMultiplier
     st; st_RemoteDetectionMultiplier := st_RemoteDetectionMultiplier st; st_DemandMode := v;
     st_RemoteDemandMode := st_RemoteDemandMode st; st_ReceivedAuthSeq := st_ReceivedAuthSeq st;
     st_NumTxPackets := st_NumTxPackets st; st_NumRxPackets := st_NumRxPackets st; st_ToDownCount :=
     st_ToDownCount st; st_ToUpCount := st_ToUpCount st; st_UpTime := st_UpTime st |}.
Definition set_st_RemoteDemandMode (v : bool) (st : SessionState) : SessionState :=
  {| st_IpAddr := st_IpAddr st; st_LocalAddr := st_LocalAddr st; st_SessionId := st_SessionId st;
     st_ParamName := st_ParamName st; st_Interface := st_Interface st; st_InterfaceSpecific :=
     st_InterfaceSpecific st; st_PerLinkSession := st_PerLinkSession st; st_LocalMacAddr :=
     st_LocalMacAddr st; st_RemoteMacAddr := st_RemoteMacAddr st; st_RegisteredProtocols :=
     st_RegisteredProtocols st; st_SessionState := st_SessionState st; st_RemoteSessionState :=
     st_RemoteSessionState st; st_LocalDiscriminator := st_LocalDiscriminator st; st_RemoteDiscriminator
     := st_RemoteDiscriminator st; st_LocalDiagType := st_LocalDiagType st; st_DesiredMinTxInterval :=
     st_DesiredMinTxInterval st; st_RequiredMinRxInterval := st_RequiredMinRxInterval st;
     st_RemoteMinRxInterval := st_RemoteMinRxInterval st; st_DetectionMultiplier := st_DetectionMultiplier
     st; st_RemoteDetectionMultiplier := st_RemoteDetectionMultiplier st; st_DemandMode := st_DemandMode
     st; st_RemoteDemandMode := v; st_ReceivedAuthSeq := st_ReceivedAuthSeq st; st_NumTxPackets :=
     st_NumTxPackets st; st_NumRxPackets := st_NumRxPackets st; st_ToDownCount := st_ToDownCount st;
     st_ToUpCount := st_ToUpCount st; st_UpTime := st_UpTime st |}.
Definition set_st_NumTxPackets (v : Z) (st : SessionState) : SessionState :=
  {| st_IpAddr := st_IpAddr st; st_LocalAddr := st_LocalAddr st; st_SessionId := st_SessionId st;
     st_ParamName := st_ParamName st; st_Interface := st_Interface st; st_InterfaceSpecific :=
     st_InterfaceSpecific st; st_PerLinkSession := st_PerLinkSession st; st_LocalMacAddr :=
     st_LocalMacAddr st; st_RemoteMacAddr := st_RemoteMacAddr st; st_RegisteredProtocols :=
     st_RegisteredProtocols st; st_SessionState := st_SessionState st; st_RemoteSessionState :=
     st_RemoteSessionState st; st_LocalDiscriminator := st_LocalDiscriminator st; st_RemoteDiscriminator
     := st_RemoteDiscriminator st; st_LocalDiagType := st_LocalDiagType st; st_DesiredMinTxInterval :=
     st_DesiredMinTxInterval st; st_RequiredMinRxInterval := st_RequiredMinRxInterval st;
     st_RemoteMinRxInterval := st_RemoteMinRxInterval st; st_DetectionMultiplier := st_DetectionMultiplier
     st; st_RemoteDetectionMultiplier := st_RemoteDetectionMultiplier st; st_DemandMode := st_DemandMode
     st; st_RemoteDemandMode := st_RemoteDemandMode st; st_ReceivedAuthSeq := st_ReceivedAuthSeq st;
     st_NumTxPackets := v; st_NumRxPackets := st_NumRxPackets st; st_ToDownCount := st_ToDownCount st;
     st_ToUpCount := st_ToUpCount st; st_UpTime := st_UpTime st |}.
Definition set_st_NumRxPackets (v : Z) (st : SessionState) : SessionState :=
  {| st_IpAddr := st_IpAddr st; st_LocalAddr := st_LocalAddr st; st_SessionId := st_SessionId st;
     st_ParamName := st_ParamName st; st_Interface := st_Interface st; st_InterfaceSpecific :=
     st_InterfaceSpecific st; st_PerLinkSession := st_PerLinkSession st; st_LocalMacAddr :=
     st_LocalMacAddr st; st_RemoteMacAddr := st_RemoteMacAddr st; st_RegisteredProtocols :=
     st_RegisteredProtocols st; st_SessionState := st_SessionState st; st_RemoteSessionState :=
     st_RemoteSessionState st; st_LocalDiscriminator := st_LocalDiscriminator st; st_RemoteDiscriminator
     := st_RemoteDiscriminator st; st_LocalDiagType := st_LocalDiagType st; st_DesiredMinTxInterval :=
     st_DesiredMinTxInterval st; st_RequiredMinRxInterval := st_RequiredMinRxInterval st;
     st_RemoteMinRxInterval := st_RemoteMinRxInterval st; st_DetectionMultiplier := st_DetectionMultiplier
     st; st_RemoteDetectionMultiplier := st_RemoteDetectionMultiplier st; st_DemandMode := st_DemandMode
     st; st_RemoteDemandMode := st_RemoteDemandMode st; st_ReceivedAuthSeq := st_ReceivedAuthSeq st;
     st_NumTxPackets := st_NumTxPackets st; st_NumRxPackets := v; st_ToDownCount := st_ToDownCount st;
     st_ToUpCount := st_ToUpCount st; st_UpTime := st_UpTime st |}.
Definition set_st_ToDownCount (v : Z) (st : SessionState) : SessionState :=
  {| st_IpAddr := st_IpAddr st; st_LocalAddr := st_LocalAddr st; st_SessionId := st_SessionId st;
     st_ParamName := st_ParamName st; st_Interface := st_Interface st; st_InterfaceSpecific :=
     st_InterfaceSpecific st; st_PerLinkSession := st_PerLinkSession st; st_LocalMacAddr :=
     st_LocalMacAddr st; st_RemoteMacAddr := st_RemoteMacAddr st; st_RegisteredProtocols :=
     st_RegisteredProtocols st; st_SessionState := st_SessionState st; st_RemoteSessionState :=
     st_RemoteSessionState st; st_LocalDiscriminator := st_LocalDiscriminator st; st_RemoteDiscriminator
     := st_RemoteDiscriminator st; st_LocalDiagType := st_LocalDiagType st; st_DesiredMinTxInterval :=
     st_DesiredMinTxInterval st; st_RequiredMinRxInterval := st_RequiredMinRxInterval st;
     st_RemoteMinRxInterval := st_RemoteMinRxInterval st; st_DetectionMultiplier := st_DetectionMultiplier
     st; st_RemoteDetectionMultiplier := st_RemoteDetectionMultiplier st; st_DemandMode := st_DemandMode
     st; st_RemoteDemandMode := st_RemoteDemandMode st; st_ReceivedAuthSeq := st_ReceivedAuthSeq st;
     st_NumTxPackets := st_NumTxPackets st; st_NumRxPackets := st_NumRxPackets st; st_ToDownCount := v;
     st_ToUpCount := st_ToUpCount st; st_UpTime := st_UpTime st |}.
Definition set_st_ToUpCount (v : Z) (st : SessionState) : SessionState :=
  {| st_IpAddr := st_IpAddr st; st_LocalAddr := st_LocalAddr st; st_SessionId := st_SessionId st;
     st_ParamName := st_ParamName st; st_Interface := st_Interface st; st_InterfaceSpecific :=
     st_InterfaceSpecific st; st_PerLinkSession := st_PerLinkSession st; st_LocalMacAddr :=
     st_LocalMacAddr st; st_RemoteMacAddr := st_RemoteMacAddr st; st_RegisteredProtocols :=
     st_RegisteredProtocols st; st_SessionState := st_SessionState st; st_RemoteSessionState :=
     st_RemoteSessionState st; st_LocalDiscriminator := st_LocalDiscriminator st; st_RemoteDiscriminator
     := st_RemoteDiscriminator st; st_LocalDiagType := st_LocalDiagType st; st_DesiredMinTxInterval :=
     st_DesiredMinTxInterval st; st_RequiredMinRxInterval := st_RequiredMinRxInterval st;
     st_RemoteMinRxInterval := st_RemoteMinRxInterval st; st_DetectionMultiplier := st_DetectionMultiplier
     st; st_RemoteDetectionMultiplier := st_RemoteDetectionMultiplier st; st_DemandMode := st_DemandMode
     st; st_RemoteDemandMode := st_RemoteDemandMode st; st_ReceivedAuthSeq := st_ReceivedAuthSeq st;
     st_NumTxPackets := st_NumTxPackets st; st_NumRxPackets := st_NumRxPackets st; st_ToDownCount :=
     st_ToDownCount st; st_ToUpCount := v; st_UpTime := st_UpTime st |}.
Definition set_st_UpTime (v : Z) (st : SessionState) : SessionState :=
  {| st_IpAddr := st_IpAddr st; st_LocalAddr := st_LocalAddr st; st_SessionId := st_SessionId st;
     st_ParamName := st_ParamName st; st_Interface := st_Interface st; st_InterfaceSpecific :=
     st_InterfaceSpecific st; st_PerLinkSession := st_PerLinkSession st; st_LocalMacAddr :=
     st_LocalMacAddr st; st_RemoteMacAddr := st_RemoteMacAddr st; st_RegisteredProtocols :=
     st_RegisteredProtocols st; st_SessionState := st_SessionState st; st_RemoteSessionState :=
     st_RemoteSessionState st; st_LocalDiscriminator := st_LocalDiscriminator st; st_RemoteDiscriminator
     := st_RemoteDiscriminator st; st_LocalDiagType := st_LocalDiagType st; st_DesiredMinTxInterval :=
     st_DesiredMinTxInterval st; st_RequiredMinRxInterval := st_RequiredMinRxInterval st;
     st_RemoteMinRxInterval := st_RemoteMinRxInterval st; st_DetectionMultiplier := st_DetectionMultiplier
     st; st_RemoteDetectionMultiplier := st_RemoteDetectionMultiplier st; st_DemandMode := st_DemandMode
     st; st_RemoteDemandMode := st_RemoteDemandMode st; st_ReceivedAuthSeq := st_ReceivedAuthSeq st;
     st_NumTxPackets := st_NumTxPackets st; st_NumRxPackets := st_NumRxPackets st; st_ToDownCount :=
     st_ToDownCount st; st_ToUpCount := st_ToUpCount st; st_UpTime := v |}.

(** A timer: stopped, or running with a delay in milliseconds. *)
Inductive Timer := Stopped | Running (ms : Z).

(** The timers are nil pointers until the client of the session starts. [s_channels]: the channels of the
    session have been made; [s_serverRuns], [s_clientRuns]: a goroutine reads the channel that
    stops the server or the client; [s_txConn]: there is a socket. *)
Record BfdSession := {
  state : SessionState;
  s_rxInterval : Z;
  s_sessionTimer : option Timer;
  s_txInterval : Z;
  s_txTimer : option Timer;
  s_txJitter : Z;
  s_bfdPacket : BfdControlPacket;
  s_bfdPacketBuf : bytes;
  s_ReceivedPacketCh : list BfdControlPacket;
  s_pollSequence : bool;
  s_pollSequenceFinal : bool;
  s_pollChanged : bool;
  s_authEnabled : bool;
  s_authType : AuthenticationType;
  s_authSeqNum : Z;
  s_authKeyId : Z;
  s_authData : string;
  s_txConn : bool;
  s_useDedicatedMac : bool;
  s_paramChanged : bool;
  s_remoteParamChanged : bool;
  s_stateChanged : bool;
  s_isClientActive : bool;
  s_movedToDownState : bool;
  s_notifiedState : bool;
  s_channels : bool;
  s_serverRuns : bool;
  s_clientRuns : bool;
  s_notifications : list (string * bool);
  s_sent : list bytes;
}.

Definition set_state (v : SessionState) (s : BfdSession) : BfdSession :=
  {| state := v; s_rxInterval := s_rxInterval s; s_sessionTimer := s_sessionTimer s; s_txInterval :=
     s_txInterval s; s_txTimer := s_txTimer s; s_txJitter := s_txJitter s; s_bfdPacket := s_bfdPacket s;
     s_bfdPacketBuf := s_bfdPacketBuf s; s_ReceivedPacketCh := s_ReceivedPacketCh s; s_pollSequence :=
     s_pollSequence s; s_pollSequenceFinal := s_pollSequenceFinal s; s_pollChanged := s_pollChanged s;
     s_authEnabled := s_authEnabled s; s_authType := s_authType s; s_authSeqNum := s_authSeqNum s;
     s_authKeyId := s_authKeyId s; s_authData := s_authData s; s_txConn := s_txConn s; s_useDedicatedMac
     := s_useDedicatedMac s; s_paramChanged := s_paramChanged s; s_remoteParamChanged :=
     s_remoteParamChanged s; s_stateChanged := s_stateChanged s; s_isClientActive := s_isClientActive s;
     s_movedToDownState := s_movedToDownState s; s_notifiedState := s_notifiedState s; s_channels :=
     s_channels s; s_serverRuns := s_serverRuns s; s_clientRuns := s_clientRuns s; s_notifications :=
     s_notifications s; s_sent := s_sent s |}.
Definition set_s_rxInterval (v : Z) (s : BfdSession) : BfdSession :=
  {| state := state s; s_rxInterval := v; s_sessionTimer := s_sessionTimer s; s_txInterval := s_txInterval
     s; s_txTimer := s_txTimer s; s_txJitter := s_txJitter s; s_bfdPacket := s_bfdPacket s; s_bfdPacketBuf
     := s_bfdPacketBuf s; s_ReceivedPacketCh := s_ReceivedPacketCh s; s_pollSequence := s_pollSequence s;
     s_pollSequenceFinal := s_pollSequenceFinal s; s_pollChanged := s_pollChanged s; s_authEnabled :=
     s_authEnabled s; s_authType := s_authType s; s_authSeqNum := s_authSeqNum s; s_authKeyId :=
     s_authKeyId s; s_authData := s_authData s; s_txConn := s_txConn s; s_useDedicatedMac :=
     s_useDedicatedMac s; s_paramChanged := s_paramChanged s; s_remoteParamChanged := s_remoteParamChanged
     s; s_stateChanged := s_stateChanged s; s_isClientActive := s_isClientActive s; s_movedToDownState :=
     s_movedToDownState s; s_notifiedState := s_notifiedState s; s_channels := s_channels s; s_serverRuns
     := s_serverRuns s; s_clientRuns := s_clientRuns s; s_notifications := s_notifications s; s_sent :=
     s_sent s |}.
Definition set_s_sessionTimer (v : option Timer) (s : BfdSession) : BfdSession :=
  {| state := state s; s_rxInterval := s_rxInterval s; s_sessionTimer := v; s_txInterval := s_txInterval
     s; s_txTimer := s_txTimer s; s_txJitter := s_txJitter s; s_bfdPacket := s_bfdPacket s; s_bfdPacketBuf
     := s_bfdPacketBuf s; s_ReceivedPacketCh := s_ReceivedPacketCh s; s_pollSequence := s_pollSequence s;
     s_pollSequenceFinal := s_pollSequenceFinal s; s_pollChanged := s_pollChanged s; s_authEnabled :=
     s_authEnabled s; s_authType := s_authType s; s_authSeqNum := s_authSeqNum s; s_authKeyId :=
     s_authKeyId s; s_authData := s_authData s; s_txConn := s_txConn s; s_useDedicatedMac :=
     s_useDedicatedMac s; s_paramChanged := s_paramChanged s; s_remoteParamChanged := s_remoteParamChanged
     s; s_stateChanged := s_stateChanged s; s_isClientActive := s_isClientActive s; s_movedToDownState :=
     s_movedToDownState s; s_notifiedState := s_notifiedState s; s_channels := s_channels s; s_serverRuns
     := s_serverRuns s; s_clientRuns := s_clientRuns s; s_notifications := s_notifications s; s_sent :=
     s_sent s |}.
Definition set_s_txInterval (v : Z) (s : BfdSession) : BfdSession :=
  {| state := state s; s_rxInterval := s_rxInterval s; s_sessionTimer := s_sessionTimer s; s_txInterval :=
     v; s_txTimer := s_txTimer s; s_txJitter := s_txJitter s; s_bfdPacket := s_bfdPacket s; s_bfdPacketBuf
     := s_bfdPacketBuf s; s_ReceivedPacketCh := s_ReceivedPacketCh s; s_pollSequence := s_pollSequence s;
     s_pollSequenceFinal := s_pollSequenceFinal s; s_pollChanged := s_pollChanged s; s_authEnabled :=
     s_authEnabled s; s_authType := s_authType s; s_authSeqNum := s_authSeqNum s; s_authKeyId :=
     s_authKeyId s; s_authData := s_authData s; s_txConn := s_txConn s; s_useDedicatedMac :=
     s_useDedicatedMac s; s_paramChanged := s_paramChanged s; s_remoteParamChanged := s_remoteParamChanged
     s; s_stateChanged := s_stateChanged s; s_isClientActive := s_isClientActive s; s_movedToDownState :=
     s_movedToDownState s; s_notifiedState := s_notifiedState s; s_channels := s_channels s; s_serverRuns
     := s_serverRuns s; s_clientRuns := s_clientRuns s; s_notifications := s_notifications s; s_sent :=
     s_sent s |}.
Definition set_s_txTimer (v : option Timer) (s : BfdSession) : BfdSession :=
  {| state := state s; s_rxInterval := s_rxInterval s; s_sessionTimer := s_sessionTimer s; s_txInterval :=
     s_txInterval s; s_txTimer := v; s_txJitter := s_txJitter s; s_bfdPacket := s_bfdPacket s;
     s_bfdPacketBuf := s_bfdPacketBuf s; s_ReceivedPacketCh := s_ReceivedPacketCh s; s_pollSequence :=
     s_pollSequence s; s_pollSequenceFinal := s_pollSequenceFinal s; s_pollChanged := s_pollChanged s;
     s_authEnabled := s_authEnabled s; s_authType := s_authType s; s_authSeqNum := s_authSeqNum s;
     s_authKeyId := s_authKeyId s; s_authData := s_authData s; s_txConn := s_txConn s; s_useDedicatedMac
     := s_useDedicatedMac s; s_paramChanged := s_paramChanged s; s_remoteParamChanged :=
     s_remoteParamChanged s; s_stateChanged := s_stateChanged s; s_isClientActive := s_isClientActive s;
     s_movedToDownState := s_movedToDownState s; s_notifiedState := s_notifiedState s; s_channels :=
     s_channels s; s_serverRuns := s_serverRuns s; s_clientRuns := s_clientRuns s; s_notifications :=
     s_notifications s; s_sent := s_sent s |}.
Definition set_s_txJitter (v : Z) (s : BfdSession) : BfdSession :=
  {| state := state s; s_rxInterval := s_rxInterval s; s_sessionTimer := s_sessionTimer s; s_txInterval :=
     s_txInterval s; s_txTimer := s_txTimer s; s_txJitter := v; s_bfdPacket := s_bfdPacket s;
     s_bfdPacketBuf := s_bfdPacketBuf s; s_ReceivedPacketCh := s_ReceivedPacketCh s; s_pollSequence :=
     s_pollSequence s; s_pollSequenceFinal := s_pollSequenceFinal s; s_pollChanged := s_pollChanged s;
     s_authEnabled := s_authEnabled s; s_authType := s_authType s; s_authSeqNum := s_authSeqNum s;
     s_authKeyId := s_authKeyId s; s_authData := s_authData s; s_txConn := s_txConn s; s_useDedicatedMac
     := s_useDedicatedMac s; s_paramChanged := s_paramChanged s; s_remoteParamChanged :=
     s_remoteParamChanged s; s_stateChanged := s_stateChanged s; s_isClientActive := s_isClientActive s;
     s_movedToDownState := s_movedToDownState s; s_notifiedState := s_notifiedState s; s_channels :=
     s_channels s; s_serverRuns := s_serverRuns s; s_clientRuns := s_clientRuns s; s_notifications :=
     s_notifications s; s_sent := s_sent s |}.
Definition set_s_bfdPacket (v : BfdControlPacket) (s : BfdSession) : BfdSession :=
  {| state := state s; s_rxInterval := s_rxInterval s; s_sessionTimer := s_sessionTimer s; s_txInterval :=
     s_txInterval s; s_txTimer := s_txTimer s; s_txJitter := s_txJitter s; s_bfdPacket := v;
     s_bfdPacketBuf := s_bfdPacketBuf s; s_ReceivedPacketCh := s_ReceivedPacketCh s; s_pollSequence :=
     s_pollSequence s; s_pollSequenceFinal := s_pollSequenceFinal s; s_pollChanged := s_pollChanged s;
     s_authEnabled := s_authEnabled s; s_authType := s_authType s; s_authSeqNum := s_authSeqNum s;
     s_authKeyId := s_authKeyId s; s_authData := s_authData s; s_txConn := s_txConn s; s_useDedicatedMac
     := s_useDedicatedMac s; s_paramChanged := s_paramChanged s; s_remoteParamChanged :=
     s_remoteParamChanged s; s_stateChanged := s_stateChanged s; s_isClientActive := s_isClientActive s;
     s_movedToDownState := s_movedToDownState s; s_notifiedState := s_notifiedState s; s_channels :=
     s_channels s; s_serverRuns := s_serverRuns s; s_clientRuns := s_clientRuns s; s_notifications :=
     s_notifications s; s_sent := s_sent s |}.
Definition set_s_bfdPacketBuf (v : bytes) (s : BfdSession) : BfdSession :=
  {| state := state s; s_rxInterval := s_rxInterval s; s_sessionTimer := s_sessionTimer s; s_txInterval :=
     s_txInterval s; s_txTimer := s_txTimer s; s_txJitter := s_txJitter s; s_bfdPacket := s_bfdPacket s;
     s_bfdPacketBuf := v; s_ReceivedPacketCh := s_ReceivedPacketCh s; s_pollSequence := s_pollSequence s;
     s_pollSequenceFinal := s_pollSequenceFinal s; s_pollChanged := s_pollChanged s; s_authEnabled :=
     s_authEnabled s; s_authType := s_authType s; s_authSeqNum := s_authSeqNum s; s_authKeyId :=
     s_authKeyId s; s_authData := s_authData s; s_txConn := s_txConn s; s_useDedicatedMac :=
     s_useDedicatedMac s; s_paramChanged := s_paramChanged s; s_remoteParamChanged := s_remoteParamChanged
     s; s_stateChanged := s_stateChanged s; s_isClientActive := s_isClientActive s; s_movedToDownState :=
     s_movedToDownState s; s_notifiedState := s_notifiedState s; s_channels := s_channels s; s_serverRuns
     := s_serverRuns s; s_clientRuns := s_clientRuns s; s_notifications := s_notifications s; s_sent :=
     s_sent s |}.
Definition set_s_ReceivedPacketCh (v : list BfdControlPacket) (s : BfdSession) : BfdSession :=
  {| state := state s; s_rxInterval := s_rxInterval s; s_sessionTimer := s_sessionTimer s; s_txInterval :=
     s_txInterval s; s_txTimer := s_txTimer s; s_txJitter := s_txJitter s; s_bfdPacket := s_bfdPacket s;
     s_bfdPacketBuf := s_bfdPacketBuf s; s_ReceivedPacketCh := v; s_pollSequence := s_pollSequence s;
     s_pollSequenceFinal := s_pollSequenceFinal s; s_pollChanged := s_pollChanged s; s_authEnabled :=
     s_authEnabled s; s_authType := s_authType s; s_authSeqNum := s_authSeqNum s; s_authKeyId :=
     s_authKeyId s; s_authData := s_authData s; s_txConn := s_txConn s; s_useDedicatedMac :=
     s_useDedicatedMac s; s_paramChanged := s_paramChanged s; s_remoteParamChanged := s_remoteParamChanged
     s; s_stateChanged := s_stateChanged s; s_isClientActive := s_isClientActive s; s_movedToDownState :=
     s_movedToDownState s; s_notifiedState := s_notifiedState s; s_channels := s_channels s; s_serverRuns
     := s_serverRuns s; s_clientRuns := s_clientRuns s; s_notifications := s_notifications s; s_sent :=
     s_sent s |}.
Definition set_s_pollSequence (v : bool) (s : BfdSession) : BfdSession :=
  {| state := state s; s_rxInterval := s_rxInterval s; s_sessionTimer := s_sessionTimer s; s_txInterval :=
     s_txInterval s; s_txTimer := s_txTimer s; s_txJitter := s_txJitter s; s_bfdPacket := s_bfdPacket s;
     s_bfdPacketBuf := s_bfdPacketBuf s; s_ReceivedPacketCh := s_ReceivedPacketCh s; s_pollSequence := v;
     s_pollSequenceFinal := s_pollSequenceFinal s; s_pollChanged := s_pollChanged s; s_authEnabled :=
     s_authEnabled s; s_authType := s_authType s; s_authSeqNum := s_authSeqNum s; s_authKeyId :=
     s_authKeyId s; s_authData := s_authData s; s_txConn := s_txConn s; s_useDedicatedMac :=
     s_useDedicatedMac s; s_paramChanged := s_paramChanged s; s_remoteParamChanged := s_remoteParamChanged
     s; s_stateChanged := s_stateChanged s; s_isClientActive := s_isClientActive s; s_movedToDownState :=
     s_movedToDownState s; s_notifiedState := s_notifiedState s; s_channels := s_channels s; s_serverRuns
     := s_serverRuns s; s_clientRuns := s_clientRuns s; s_notifications := s_notifications s; s_sent :=
     s_sent s |}.
Definition set_s_pollSequenceFinal (v : bool) (s : BfdSession) : BfdSession :=
  {| state := state s; s_rxInterval := s_rxInterval s; s_sessionTimer := s_sessionTimer s; s_txInterval :=
     s_txInterval s; s_txTimer := s_txTimer s; s_txJitter := s_txJitter s; s_bfdPacket := s_bfdPacket s;
     s_bfdPacketBuf := s_bfdPacketBuf s; s_ReceivedPacketCh := s_ReceivedPacketCh s; s_pollSequence :=
     s_pollSequence s; s_pollSequenceFinal := v; s_pollChanged := s_pollChanged s; s_authEnabled :=
     s_authEnabled s; s_authType := s_authType s; s_authSeqNum := s_authSeqNum s; s_authKeyId :=
     s_authKeyId s; s_authData := s_authData s; s_txConn := s_txConn s; s_useDedicatedMac :=
     s_useDedicatedMac s; s_paramChanged := s_paramChanged s; s_remoteParamChanged := s_remoteParamChanged
     s; s_stateChanged := s_stateChanged s; s_isClientActive := s_isClientActive s; s_movedToDownState :=
     s_movedToDownState s; s_notifiedState := s_notifiedState s; s_channels := s_channels s; s_serverRuns
     := s_serverRuns s; s_clientRuns := s_clientRuns s; s_notifications := s_notifications s; s_sent :=
     s_sent s |}.
Definition set_s_pollChanged (v : bool) (s : BfdSession) : BfdSession :=
  {| state := state s; s_rxInterval := s_rxInterval s; s_sessionTimer := s_sessionTimer s; s_txInterval :=
     s_txInterval s; s_txTimer := s_txTimer s; s_txJitter := s_txJitter s; s_bfdPacket := s_bfdPacket s;
     s_bfdPacketBuf := s_bfdPacketBuf s; s_ReceivedPacketCh := s_ReceivedPacketCh s; s_pollSequence :=
     s_pollSequence s; s_pollSequenceFinal := s_pollSequenceFinal s; s_pollChanged := v; s_authEnabled :=
     s_authEnabled s; s_authType := s_authType s; s_authSeqNum := s_authSeqNum s; s_authKeyId :=
     s_authKeyId s; s_authData := s_authData s; s_txConn := s_txConn s; s_useDedicatedMac :=
     s_useDedicatedMac s; s_paramChanged := s_paramChanged s; s_remoteParamChanged := s_remoteParamChanged
     s; s_stateChanged := s_stateChanged s; s_isClientActive := s_isClientActive s; s_movedToDownState :=
     s_movedToDownState s; s_notifiedState := s_notifiedState s; s_channels := s_channels s; s_serverRuns
     := s_serverRuns s; s_clientRuns := s_clientRuns s; s_notifications := s_notifications s; s_sent :=
     s_sent s |}.
Definition set_s_authEnabled (v : bool) (s : BfdSession) : BfdSession :=
  {| state := state s; s_rxInterval := s_rxInterval s; s_sessionTimer := s_sessionTimer s; s_txInterval :=
     s_txInterval s; s_txTimer := s_txTimer s; s_txJitter := s_txJitter s; s_bfdPacket := s_bfdPacket s;
     s_bfdPacketBuf := s_bfdPacketBuf s; s_ReceivedPacketCh := s_ReceivedPacketCh s; s_pollSequence :=
     s_pollSequence s; s_pollSequenceFinal := s_pollSequenceFinal s; s_pollChanged := s_pollChanged s;
     s_authEnabled := v; s_authType := s_authType s; s_authSeqNum := s_authSeqNum s; s_authKeyId :=
     s_authKeyId s; s_authData := s_authData s; s_txConn := s_txConn s; s_useDedicatedMac :=
     s_useDedicatedMac s; s_paramChanged := s_paramChanged s; s_remoteParamChanged := s_remoteParamChanged
     s; s_stateChanged := s_stateChanged s; s_isClientActive := s_isClientActive s; s_movedToDownState :=
     s_movedToDownState s; s_notifiedState := s_notifiedState s; s_channels := s_channels s; s_serverRuns
     := s_serverRuns s; s_clientRuns := s_clientRuns s; s_notifications := s_notifications s; s_sent :=
     s_sent s |}.
Definition set_s_authType (v : AuthenticationType) (s : BfdSession) : BfdSession :=
  {| state := state s; s_rxInterval := s_rxInterval s; s_sessionTimer := s_sessionTimer s; s_txInterval :=
     s_txInterval s; s_txTimer := s_txTimer s; s_txJitter := s_txJitter s; s_bfdPacket := s_bfdPacket s;
     s_bfdPacketBuf := s_bfdPacketBuf s; s_ReceivedPacketCh := s_ReceivedPacketCh s; s_pollSequence :=
     s_pollSequence s; s_pollSequenceFinal := s_pollSequenceFinal s; s_pollChanged := s_pollChanged s;
     s_authEnabled := s_authEnabled s; s_authType := v; s_authSeqNum := s_authSeqNum s; s_authKeyId :=
     s_authKeyId s; s_authData := s_authData s; s_txConn := s_txConn s; s_useDedicatedMac :=
     s_useDedicatedMac s; s_paramChanged := s_paramChanged s; s_remoteParamChanged := s_remoteParamChanged
     s; s_stateChanged := s_stateChanged s; s_isClientActive := s_isClientActive s; s_movedToDownState :=
     s_movedToDownState s; s_notifiedState := s_notifiedState s; s_channels := s_channels s; s_serverRuns
     := s_serverRuns s; s_clientRuns := s_clientRuns s; s_notifications := s_notifications s; s_sent :=
     s_sent s |}.
Definition set_s_authSeqNum (v : Z) (s : BfdSession) : BfdSession :=
  {| state := state s; s_rxInterval := s_rxInterval s; s_sessionTimer := s_sessionTimer s; s_txInterval :=
     s_txInterval s; s_txTimer := s_txTimer s; s_txJitter := s_txJitter s; s_bfdPacket := s_bfdPacket s;
     s_bfdPacketBuf := s_bfdPacketBuf s; s_ReceivedPacketCh := s_ReceivedPacketCh s; s_pollSequence :=
     s_pollSequence s; s_pollSequenceFinal := s_pollSequenceFinal s; s_pollChanged := s_pollChanged s;
     s_authEnabled := s_authEnabled s; s_authType := s_authType s; s_authSeqNum := v; s_authKeyId :=
     s_authKeyId s; s_authData := s_authData s; s_txConn := s_txConn s; s_useDedicatedMac :=
     s_useDedicatedMac s; s_paramChanged := s_paramChanged s; s_remoteParamChanged := s_remoteParamChanged
     s; s_stateChanged := s_stateChanged s; s_isClientActive := s_isClientActive s; s_movedToDownState :=
     s_movedToDownState s; s_notifiedState := s_notifiedState s; s_channels := s_channels s; s_serverRuns
     := s_serverRuns s; s_clientRuns := s_clientRuns s; s_notifications := s_notifications s; s_sent :=
     s_sent s |}.
Definition set_s_authKeyId (v : Z) (s : BfdSession) : BfdSession :=
  {| state := state s; s_rxInterval := s_rxInterval s; s_sessionTimer := s_sessionTimer s; s_txInterval :=
     s_txInterval s; s_txTimer := s_txTimer s; s_txJitter := s_txJitter s; s_bfdPacket := s_bfdPacket s;
     s_bfdPacketBuf := s_bfdPacketBuf s; s_ReceivedPacketCh := s_ReceivedPacketCh s; s_pollSequence :=
     s_pollSequence s; s_pollSequenceFinal := s_pollSequenceFinal s; s_pollChanged := s_pollChanged s;
     s_authEnabled := s_authEnabled s; s_authType := s_authType s; s_authSeqNum := s_authSeqNum s;
     s_authKeyId := v; s_authData := s_authData s; s_txConn := s_txConn s; s_useDedicatedMac :=
     s_useDedicatedMac s; s_paramChanged := s_paramChanged s; s_remoteParamChanged := s_remoteParamChanged
     s; s_stateChanged := s_stateChanged s; s_isClientActive := s_isClientActive s; s_movedToDownState :=
     s_movedToDownState s; s_notifiedState := s_notifiedState s; s_channels := s_channels s; s_serverRuns
     := s_serverRuns s; s_clientRuns := s_clientRuns s; s_notifications := s_notifications s; s_sent :=
     s_sent s |}.
Definition set_s_authData (v : string) (s : BfdSession) : BfdSession :=
  {| state := state s; s_rxInterval := s_rxInterval s; s_sessionTimer := s_sessionTimer s; s_txInterval :=
     s_txInterval s; s_txTimer := s_txTimer s; s_txJitter := s_txJitter s; s_bfdPacket := s_bfdPacket s;
     s_bfdPacketBuf := s_bfdPacketBuf s; s_ReceivedPacketCh := s_ReceivedPacketCh s; s_pollSequence :=
     s_pollSequence s; s_pollSequenceFinal := s_pollSequenceFinal s; s_pollChanged := s_pollChanged s;
     s_authEnabled := s_authEnabled s; s_authType := s_authType s; s_authSeqNum := s_authSeqNum s;
     s_authKeyId := s_authKeyId s; s_authData := v; s_txConn := s_txConn s; s_useDedicatedMac :=
     s_useDedicatedMac s; s_paramChanged := s_paramChanged s; s_remoteParamChanged := s_remoteParamChanged
     s; s_stateChanged := s_stateChanged s; s_isClientActive := s_isClientActive s; s_movedToDownState :=
     s_movedToDownState s; s_notifiedState := s_notifiedState s; s_channels := s_channels s; s_serverRuns
     := s_serverRuns s; s_clientRuns := s_clientRuns s; s_notifications := s_notifications s; s_sent :=
     s_sent s |}.
Definition set_s_txConn (v : bool) (s : BfdSession) : BfdSession :=
  {| state := state s; s_rxInterval := s_rxInterval s; s_sessionTimer := s_sessionTimer s; s_txInterval :=
     s_txInterval s; s_txTimer := s_txTimer s; s_txJitter := s_txJitter s; s_bfdPacket := s_bfdPacket s;
     s_bfdPacketBuf := s_bfdPacketBuf s; s_ReceivedPacketCh := s_ReceivedPacketCh s; s_pollSequence :=
     s_pollSequence s; s_pollSequenceFinal := s_pollSequenceFinal s; s_pollChanged := s_pollChanged s;
     s_authEnabled := s_authEnabled s; s_authType := s_authType s; s_authSeqNum := s_authSeqNum s;
     s_authKeyId := s_authKeyId s; s_authData := s_authData s; s_txConn := v; s_useDedicatedMac :=
     s_useDedicatedMac s; s_paramChanged := s_paramChanged s; s_remoteParamChanged := s_remoteParamChanged
     s; s_stateChanged := s_stateChanged s; s_isClientActive := s_isClientActive s; s_movedToDownState :=
     s_movedToDownState s; s_notifiedState := s_notifiedState s; s_channels := s_channels s; s_serverRuns
     := s_serverRuns s; s_clientRuns := s_clientRuns s; s_notifications := s_notifications s; s_sent :=
     s_sent s |}.
Definition set_s_useDedicatedMac (v : bool) (s : BfdSession) : BfdSession :=
  {| state := state s; s_rxInterval := s_rxInterval s; s_sessionTimer := s_sessionTimer s; s_txInterval :=
     s_txInterval s; s_txTimer := s_txTimer s; s_txJitter := s_txJitter s; s_bfdPacket := s_bfdPacket s;
     s_bfdPacketBuf := s_bfdPacketBuf s; s_ReceivedPacketCh := s_ReceivedPacketCh s; s_pollSequence :=
     s_pollSequence s; s_pollSequenceFinal := s_pollSequenceFinal s; s_pollChanged := s_pollChanged s;
     s_authEnabled := s_authEnabled s; s_authType := s_authType s; s_authSeqNum := s_authSeqNum s;
     s_authKeyId := s_authKeyId s; s_authData := s_authData s; s_txConn := s_txConn s; s_useDedicatedMac
     := v; s_paramChanged := s_paramChanged s; s_remoteParamChanged := s_remoteParamChanged s;
     s_stateChanged := s_stateChanged s; s_isClientActive := s_isClientActive s; s_movedToDownState :=
     s_movedToDownState s; s_notifiedState := s_notifiedState s; s_channels := s_channels s; s_serverRuns
     := s_serverRuns s; s_clientRuns := s_clientRuns s; s_notifications := s_notifications s; s_sent :=
     s_sent s |}.
Definition set_s_paramChanged (v : bool) (s : BfdSession) : BfdSession :=
  {| state := state s; s_rxInterval := s_rxInterval s; s_sessionTimer := s_sessionTimer s; s_txInterval :=
     s_txInterval s; s_txTimer := s_txTimer s; s_txJitter := s_txJitter s; s_bfdPacket := s_bfdPacket s;
     s_bfdPacketBuf := s_bfdPacketBuf s; s_ReceivedPacketCh := s_ReceivedPacketCh s; s_pollSequence :=
     s_pollSequence s; s_pollSequenceFinal := s_pollSequenceFinal s; s_pollChanged := s_pollChanged s;
     s_authEnabled := s_authEnabled s; s_authType := s_authType s; s_authSeqNum := s_authSeqNum s;
     s_authKeyId := s_authKeyId s; s_authData := s_authData s; s_txConn := s_txConn s; s_useDedicatedMac
     := s_useDedicatedMac s; s_paramChanged := v; s_remoteParamChanged := s_remoteParamChanged s;
     s_stateChanged := s_stateChanged s; s_isClientActive := s_isClientActive s; s_movedToDownState :=
     s_movedToDownState s; s_notifiedState := s_notifiedState s; s_channels := s_channels s; s_serverRuns
     := s_serverRuns s; s_clientRuns := s_clientRuns s; s_notifications := s_notifications s; s_sent :=
     s_sent s |}.
Definition set_s_remoteParamChanged (v : bool) (s : BfdSession) : BfdSession :=
  {| state := state s; s_rxInterval := s_rxInterval s; s_sessionTimer := s_sessionTimer s; s_txInterval :=
     s_txInterval s; s_txTimer := s_txTimer s; s_txJitter := s_txJitter s; s_bfdPacket := s_bfdPacket s;
     s_bfdPacketBuf := s_bfdPacketBuf s; s_ReceivedPacketCh := s_ReceivedPacketCh s; s_pollSequence :=
     s_pollSequence s; s_pollSequenceFinal := s_pollSequenceFinal s; s_pollChanged := s_pollChanged s;
     s_authEnabled := s_authEnabled s; s_authType := s_authType s; s_authSeqNum := s_authSeqNum s;
     s_authKeyId := s_authKeyId s; s_authData := s_authData s; s_txConn := s_txConn s; s_useDedicatedMac
     := s_useDedicatedMac s; s_paramChanged := s_paramChanged s; s_remoteParamChanged := v; s_stateChanged
     := s_stateChanged s; s_isClientActive := s_isClientActive s; s_movedToDownState := s_movedToDownState
     s; s_notifiedState := s_notifiedState s; s_channels := s_channels s; s_serverRuns := s_serverRuns s;
     s_clientRuns := s_clientRuns s; s_notifications := s_notifications s; s_sent := s_sent s |}.
Definition set_s_stateChanged (v : bool) (s : BfdSession) : BfdSession :=
  {| state := state s; s_rxInterval := s_rxInterval s; s_sessionTimer := s_sessionTimer s; s_txInterval :=
     s_txInterval s; s_txTimer := s_txTimer s; s_txJitter := s_txJitter s; s_bfdPacket := s_bfdPacket s;
     s_bfdPacketBuf := s_bfdPacketBuf s; s_ReceivedPacketCh := s_ReceivedPacketCh s; s_pollSequence :=
     s_pollSequence s; s_pollSequenceFinal := s_pollSequenceFinal s; s_pollChanged := s_pollChanged s;
     s_authEnabled := s_authEnabled s; s_authType := s_authType s; s_authSeqNum := s_authSeqNum s;
     s_authKeyId := s_authKeyId s; s_authData := s_authData s; s_txConn := s_txConn s; s_useDedicatedMac
     := s_useDedicatedMac s; s_paramChanged := s_paramChanged s; s_remoteParamChanged :=
     s_remoteParamChanged s; s_stateChanged := v; s_isClientActive := s_isClientActive s;
     s_movedToDownState := s_movedToDownState s; s_notifiedState := s_notifiedState s; s_channels :=
     s_channels s; s_serverRuns := s_serverRuns s; s_clientRuns := s_clientRuns s; s_notifications :=
     s_notifications s; s_sent := s_sent s |}.
Definition set_s_isClientActive (v : bool) (s : BfdSession) : BfdSession :=
  {| state := state s; s_rxInterval := s_rxInterval s; s_sessionTimer := s_sessionTimer s; s_txInterval :=
     s_txInterval s; s_txTimer := s_txTimer s; s_txJitter := s_txJitter s; s_bfdPacket := s_bfdPacket s;
     s_bfdPacketBuf := s_bfdPacketBuf s; s_ReceivedPacketCh := s_ReceivedPacketCh s; s_pollSequence :=
     s_pollSequence s; s_pollSequenceFinal := s_pollSequenceFinal s; s_pollChanged := s_pollChanged s;
     s_authEnabled := s_authEnabled s; s_authType := s_authType s; s_authSeqNum := s_authSeqNum s;
     s_authKeyId := s_authKeyId s; s_authData := s_authData s; s_txConn := s_txConn s; s_useDedicatedMac
     := s_useDedicatedMac s; s_paramChanged := s_paramChanged s; s_remoteParamChanged :=
     s_remoteParamChanged s; s_stateChanged := s_stateChanged s; s_isClientActive := v; s_movedToDownState
     := s_movedToDownState s; s_notifiedState := s_notifiedState s; s_channels := s_channels s;
     s_serverRuns := s_serverRuns s; s_clientRuns := s_clientRuns s; s_notifications := s_notifications s;
     s_sent := s_sent s |}.
Definition set_s_movedToDownState (v : bool) (s : BfdSession) : BfdSession :=
  {| state := state s; s_rxInterval := s_rxInterval s; s_sessionTimer := s_sessionTimer s; s_txInterval :=
     s_txInterval s; s_txTimer := s_txTimer s; s_txJitter := s_txJitter s; s_bfdPacket := s_bfdPacket s;
     s_bfdPacketBuf := s_bfdPacketBuf s; s_ReceivedPacketCh := s_ReceivedPacketCh s; s_pollSequence :=
     s_pollSequence s; s_pollSequenceFinal := s_pollSequenceFinal s; s_pollChanged := s_pollChanged s;
     s_authEnabled := s_authEnabled s; s_authType := s_authType s; s_authSeqNum := s_authSeqNum s;
     s_authKeyId := s_authKeyId s; s_authData := s_authData s; s_txConn := s_txConn s; s_useDedicatedMac
     := s_useDedicatedMac s; s_paramChanged := s_paramChanged s; s_remoteParamChanged :=
     s_remoteParamChanged s; s_stateChanged := s_stateChanged s; s_isClientActive := s_isClientActive s;
     s_movedToDownState := v; s_notifiedState := s_notifiedState s; s_channels := s_channels s;
     s_serverRuns := s_serverRuns s; s_clientRuns := s_clientRuns s; s_notifications := s_notifications s;
     s_sent := s_sent s |}.
Definition set_s_notifiedState (v : bool) (s : BfdSession) : BfdSession :=
  {| state := state s; s_rxInterval := s_rxInterval s; s_sessionTimer := s_sessionTimer s; s_txInterval :=
     s_txInterval s; s_txTimer := s_txTimer s; s_txJitter := s_txJitter s; s_bfdPacket := s_bfdPacket s;
     s_bfdPacketBuf := s_bfdPacketBuf s; s_ReceivedPacketCh := s_ReceivedPacketCh s; s_pollSequence :=
     s_pollSequence s; s_pollSequenceFinal := s_pollSequenceFinal s; s_pollChanged := s_pollChanged s;
     s_authEnabled := s_authEnabled s; s_authType := s_authType s; s_authSeqNum := s_authSeqNum s;
     s_authKeyId := s_authKeyId s; s_authData := s_authData s; s_txConn := s_txConn s; s_useDedicatedMac
     := s_useDedicatedMac s; s_paramChanged := s_paramChanged s; s_remoteParamChanged :=
     s_remoteParamChanged s; s_stateChanged := s_stateChanged s; s_isClientActive := s_isClientActive s;
     s_movedToDownState := s_movedToDownState s; s_notifiedState := v; s_channels := s_channels s;
     s_serverRuns := s_serverRuns s; s_clientRuns := s_clientRuns s; s_notifications := s_notifications s;
     s_sent := s_sent s |}.
Definition set_s_channels (v : bool) (s : BfdSession) : BfdSession :=
  {| state := state s; s_rxInterval := s_rxInterval s; s_sessionTimer := s_sessionTimer s; s_txInterval :=
     s_txInterval s; s_txTimer := s_txTimer s; s_txJitter := s_txJitter s; s_bfdPacket := s_bfdPacket s;
     s_bfdPacketBuf := s_bfdPacketBuf s; s_ReceivedPacketCh := s_ReceivedPacketCh s; s_pollSequence :=
     s_pollSequence s; s_pollSequenceFinal := s_pollSequenceFinal s; s_pollChanged := s_pollChanged s;
     s_authEnabled := s_authEnabled s; s_authType := s_authType s; s_authSeqNum := s_authSeqNum s;
     s_authKeyId := s_authKeyId s; s_authData := s_authData s; s_txConn := s_txConn s; s_useDedicatedMac
     := s_useDedicatedMac s; s_paramChanged := s_paramChanged s; s_remoteParamChanged :=
     s_remoteParamChanged s; s_stateChanged := s_stateChanged s; s_isClientActive := s_isClientActive s;
     s_movedToDownState := s_movedToDownState s; s_notifiedState := s_notifiedState s; s_channels := v;
     s_serverRuns := s_serverRuns s; s_clientRuns := s_clientRuns s; s_notifications := s_notifications s;
     s_sent := s_sent s |}.
Definition set_s_serverRuns (v : bool) (s : BfdSession) : BfdSession :=
  {| state := state s; s_rxInterval := s_rxInterval s; s_sessionTimer := s_sessionTimer s; s_txInterval :=
     s_txInterval s; s_txTimer := s_txTimer s; s_txJitter := s_txJitter s; s_bfdPacket := s_bfdPacket s;
     s_bfdPacketBuf := s_bfdPacketBuf s; s_ReceivedPacketCh := s_ReceivedPacketCh s; s_pollSequence :=
     s_pollSequence s; s_pollSequenceFinal := s_pollSequenceFinal s; s_pollChanged := s_pollChanged s;
     s_authEnabled := s_authEnabled s; s_authType := s_authType s; s_authSeqNum := s_authSeqNum s;
     s_authKeyId := s_authKeyId s; s_authData := s_authData s; s_txConn := s_txConn s; s_useDedicatedMac
     := s_useDedicatedMac s; s_paramChanged := s_paramChanged s; s_remoteParamChanged :=
     s_remoteParamChanged s; s_stateChanged := s_stateChanged s; s_isClientActive := s_isClientActive s;
     s_movedToDownState := s_movedToDownState s; s_notifiedState := s_notifiedState s; s_channels :=
     s_channels s; s_serverRuns := v; s_clientRuns := s_clientRuns s; s_notifications := s_notifications
     s; s_sent := s_sent s |}.
Definition set_s_clientRuns (v : bool) (s : BfdSession) : BfdSession :=
  {| state := state s; s_rxInterval := s_rxInterval s; s_sessionTimer := s_sessionTimer s; s_txInterval :=
     s_txInterval s; s_txTimer := s_txTimer s; s_txJitter := s_txJitter s; s_bfdPacket := s_bfdPacket s;
     s_bfdPacketBuf := s_bfdPacketBuf s; s_ReceivedPacketCh := s_ReceivedPacketCh s; s_pollSequence :=
     s_pollSequence s; s_pollSequenceFinal := s_pollSequenceFinal s; s_pollChanged := s_pollChanged s;
     s_authEnabled := s_authEnabled s; s_authType := s_authType s; s_authSeqNum := s_authSeqNum s;
     s_authKeyId := s_authKeyId s; s_authData := s_authData s; s_txConn := s_txConn s; s_useDedicatedMac
     := s_useDedicatedMac s; s_paramChanged := s_paramChanged s; s_remoteParamChanged :=
     s_remoteParamChanged s; s_stateChanged := s_stateChanged s; s_isClientActive := s_isClientActive s;
     s_movedToDownState := s_movedToDownState s; s_notifiedState := s_notifiedState s; s_channels :=
     s_channels s; s_serverRuns := s_serverRuns s; s_clientRuns := v; s_notifications := s_notifications
     s; s_sent := s_sent s |}.
Definition set_s_notifications (v : list (string * bool)) (s : BfdSession) : BfdSession :=
  {| state := state s; s_rxInterval := s_rxInterval s; s_sessionTimer := s_sessionTimer s; s_txInterval :=
     s_txInterval s; s_txTimer := s_txTimer s; s_txJitter := s_txJitter s; s_bfdPacket := s_bfdPacket s;
     s_bfdPacketBuf := s_bfdPacketBuf s; s_ReceivedPacketCh := s_ReceivedPacketCh s; s_pollSequence :=
     s_pollSequence s; s_pollSequenceFinal := s_pollSequenceFinal s; s_pollChanged := s_pollChanged s;
     s_authEnabled := s_authEnabled s; s_authType := s_authType s; s_authSeqNum := s_authSeqNum s;
     s_authKeyId := s_authKeyId s; s_authData := s_authData s; s_txConn := s_txConn s; s_useDedicatedMac
     := s_useDedicatedMac s; s_paramChanged := s_paramChanged s; s_remoteParamChanged :=
     s_remoteParamChanged s; s_stateChanged := s_stateChanged s; s_isClientActive := s_isClientActive s;
     s_movedToDownState := s_movedToDownState s; s_notifiedState := s_notifiedState s; s_channels :=
     s_channels s; s_serverRuns := s_serverRuns s; s_clientRuns := s_clientRuns s; s_notifications := v;
     s_sent := s_sent s |}.
Definition set_s_sent (v : list bytes) (s : BfdSession) : BfdSession :=
  {| state := state s; s_rxInterval := s_rxInterval s; s_sessionTimer := s_sessionTimer s; s_txInterval :=
     s_txInterval s; s_txTimer := s_txTimer s; s_txJitter := s_txJitter s; s_bfdPacket := s_bfdPacket s;
     s_bfdPacketBuf := s_bfdPacketBuf s; s_ReceivedPacketCh := s_ReceivedPacketCh s; s_pollSequence :=
     s_pollSequence s; s_pollSequenceFinal := s_pollSequenceFinal s; s_pollChanged := s_pollChanged s;
     s_authEnabled := s_authEnabled s; s_authType := s_authType s; s_authSeqNum := s_authSeqNum s;
     s_authKeyId := s_authKeyId s; s_authData := s_authData s; s_txConn := s_txConn s; s_useDedicatedMac
     := s_useDedicatedMac s; s_paramChanged := s_paramChanged s; s_remoteParamChanged :=
     s_remoteParamChanged s; s_stateChanged := s_stateChanged s; s_isClientActive := s_isClientActive s;
     s_movedToDownState := s_movedToDownState s; s_notifiedState := s_notifiedState s; s_channels :=
     s_channels s; s_serverRuns := s_serverRuns s; s_clientRuns := s_clientRuns s; s_notifications :=
     s_notifications s; s_sent := v |}.

Definition upd_state (f : SessionState -> SessionState) (s : BfdSession) : BfdSession := set_state (f (state s)) s.
Definition upd_packet (f : BfdControlPacket -> BfdControlPacket) (s : BfdSession) : BfdSession :=
  set_s_bfdPacket (f (s_bfdPacket s)) s.
Definition SessionStateOf (s : BfdSession) : BfdSessionState := st_SessionState (state s).
Definition RemoteSessionStateOf (s : BfdSession) : BfdSessionState := st_RemoteSessionState (state s).

(** Methods on a nil timer panic. *)
Abbreviation sresult := (outcome Empty_set).
Definition reset_txTimer (ms : Z) (s : BfdSession) : sresult BfdSession :=
  match s_txTimer s with None => Panic | Some _ => Ok (set_s_txTimer (Some (Running ms)) s) end.
Definition stop_txTimer (s : BfdSession) : sresult BfdSession :=
  match s_txTimer s with None => Panic | Some _ => Ok (set_s_txTimer (Some Stopped) s) end.
Definition reset_sessionTimer (ms : Z) (s : BfdSession) : sresult BfdSession :=
  match s_sessionTimer s with None => Panic | Some _ => Ok (set_s_sessionTimer (Some (Running ms)) s) end.
Definition stop_sessionTimer (s : BfdSession) : sresult BfdSession :=
  match s_sessionTimer s with None => Panic | Some _ => Ok (set_s_sessionTimer (Some Stopped) s) end.

(** ** Notifications *)

Definition GetBfdSessionNotification (s : BfdSession) : bool :=
  (SessionStateOf s =? STATE_UP) || (SessionStateOf s =? STATE_ADMIN_DOWN) ||
  (RemoteSessionStateOf s =? STATE_ADMIN_DOWN).

Definition SendBfdNotification (s : BfdSession) : BfdSession :=
  let bfdState := GetBfdSessionNotification s in
  if negb (Bool.eqb bfdState (s_notifiedState s)) then
    let s := set_s_notifiedState bfdState s in
    set_s_notifications (s_notifications s ++ [(st_IpAddr (state s), bfdState)]) s
  else s.

(** ** Transitions *)

Definition IsSessionActive (s : BfdSession) : bool := s_isClientActive s.

Definition ResetLocalSessionParams (s : BfdSession) : BfdSession :=
  upd_state (fun st => set_st_ToDownCount 0 (set_st_ToUpCount 0 (set_st_NumTxPackets 0 (set_st_NumRxPackets 0
    (set_st_SessionState STATE_DOWN st))))) s.

Definition ResetRemoteSessionParams (s : BfdSession) : BfdSession :=
  set_s_remoteParamChanged true
    (upd_state (fun st => set_st_RemoteSessionState STATE_DOWN (set_st_RemoteDiscriminator 0 st)) s).

(** [(STARTUP_RX_INTERVAL * m) / 1000] in 32 bits *)
Definition startup_rx (m : Z) : Z := Z.quot (s32 (STARTUP_RX_INTERVAL * m)) 1000.

Definition LocalAdminDown (s : BfdSession) : sresult BfdSession :=
  let s := upd_state (set_st_SessionState STATE_ADMIN_DOWN) s in
  let s := upd_state (set_st_LocalDiagType DIAG_ADMIN_DOWN) s in
  let s := set_s_stateChanged true s in
  let s := SendBfdNotification s in
  let s := set_s_txInterval (STARTUP_TX_INTERVAL / 1000) s in
  s ← reset_txTimer 0 s;
  let s := set_s_rxInterval (startup_rx (st_DetectionMultiplier (state s))) s in
  stop_sessionTimer s.

Definition RemoteAdminDown (s : BfdSession) : sresult BfdSession :=
  let s := upd_state (set_st_RemoteSessionState STATE_ADMIN_DOWN) s in
  let s := upd_state (set_st_LocalDiagType DIAG_NEIGHBOR_SIGNAL_DOWN) s in
  let s := SendBfdNotification s in
  let s := set_s_txInterval (STARTUP_TX_INTERVAL / 1000) s in
  s ← reset_txTimer 0 s;
  let s := set_s_rxInterval (startup_rx (st_DetectionMultiplier (state s))) s in
  stop_sessionTimer s.

Definition MoveToDownState (s : BfdSession) : sresult BfdSession :=
  let s := upd_state (set_st_SessionState STATE_DOWN) s in
  let s := upd_state (fun st => set_st_ToDownCount (u32 (st_ToDownCount st + 1)) st) s in
  let s := set_s_movedToDownState true s in
  let s := set_s_useDedicatedMac true s in
  let s := set_s_stateChanged true s in
  let s := if (s_authType s =? BFD_AUTH_TYPE_KEYED_MD5) || (s_authType s =? BFD_AUTH_TYPE_KEYED_SHA1)
           then set_s_authSeqNum (u32 (s_authSeqNum s + 1)) s else s in
  let s := SendBfdNotification s in
  let s := set_s_txInterval (STARTUP_TX_INTERVAL / 1000) s in
  s ← reset_txTimer (s_txInterval s) s;
  let s := set_s_rxInterval (startup_rx (st_DetectionMultiplier (state s))) s in
  reset_sessionTimer (s_rxInterval s) s.

Definition MoveToInitState (s : BfdSession) : BfdSession :=
  let s := upd_state (set_st_SessionState STATE_INIT) s in
  set_s_movedToDownState false (set_s_useDedicatedMac true (set_s_stateChanged true s)).

(** [now]: the time the clock shows. *)
Definition MoveToUpState (now : Z) (s : BfdSession) : BfdSession :=
  let s := upd_state (set_st_SessionState STATE_UP) s in
  let s := upd_state (set_st_UpTime now) s in
  let s := upd_state (fun st => set_st_ToUpCount (u32 (st_ToUpCount st + 1)) st) s in
  let s := set_s_movedToDownState false (set_s_stateChanged true s) in
  let s := upd_state (set_st_LocalDiagType DIAG_NONE) s in
  SendBfdNotification s.

(** The error on an inactive session is dropped by every caller. *)
Definition EventHandler (now : Z) (event : BfdSessionEvent) (s : BfdSession) : sresult BfdSession :=
  if negb (IsSessionActive s) then Ok s
  else if SessionStateOf s =? STATE_ADMIN_DOWN then Ok s
  else if SessionStateOf s =? STATE_DOWN then
    match event with
    | REMOTE_DOWN => Ok (MoveToInitState s)
    | REMOTE_INIT => Ok (MoveToUpState now s)
    | ADMIN_UP => MoveToDownState s
    | ADMIN_DOWN => LocalAdminDown s
    | REMOTE_ADMIN_DOWN => RemoteAdminDown s
    | TIMEOUT | REMOTE_UP | NO_EVENT => Ok s
    end
  else if SessionStateOf s =? STATE_INIT then
    match event with
    | REMOTE_INIT | REMOTE_UP => Ok (MoveToUpState now s)
    | TIMEOUT => MoveToDownState s
    | ADMIN_DOWN => LocalAdminDown s
    | REMOTE_ADMIN_DOWN => RemoteAdminDown s
    | REMOTE_DOWN | ADMIN_UP | NO_EVENT => Ok s
    end
  else if SessionStateOf s =? STATE_UP then
    match event with
    | REMOTE_DOWN | TIMEOUT => MoveToDownState s
    | ADMIN_DOWN => LocalAdminDown s
    | REMOTE_ADMIN_DOWN => RemoteAdminDown s
    | REMOTE_INIT | REMOTE_UP | ADMIN_UP | NO_EVENT => Ok s
    end
  else Ok s.

(** ** Polling, and what the packets carry *)

Definition InitiatePollSequence (s : BfdSession) : BfdSession :=
  if negb (s_pollSequence s) then set_s_pollChanged true (set_s_pollSequence true s) else s.

Definition ProcessPollSequence (bfdPacket : BfdControlPacket) (s : BfdSession) : BfdSession :=
  if negb (SessionStateOf s =? STATE_ADMIN_DOWN) then
    let s := if Poll bfdPacket then set_s_pollChanged true (set_s_pollSequenceFinal true s) else s in
    if Final bfdPacket then set_s_pollChanged true (set_s_pollSequence false s) else s
  else s.

(** [int32(float32(txInterval) * (1 - float32(txJitter)/100))], in binary32 arithmetic. *)
Definition float32 (z : Z) : spec_float := binary_normalize 24 128 z 0 false.
Definition trunc (f : spec_float) : Z :=
  match f with
  | S754_finite sign m e =>
    let a := if e >=? 0 then Z.shiftl (Zpos m) e else Z.shiftr (Zpos m) (- e) in
    if sign then - a else a
  | _ => 0
  end.
Definition ApplyTxJitter (s : BfdSession) : Z :=
  trunc (SFmul 24 128 (float32 (s_txInterval s))
           (SFsub 24 128 (float32 1) (SFdiv 24 128 (float32 (s_txJitter s)) (float32 100)))).

Definition NeedBfdPacketUpdate (s : BfdSession) : bool :=
  s_paramChanged s || s_remoteParamChanged s || s_pollChanged s || s_stateChanged s.

(** The intervals and the demand bit, which depend on both ends being up. *)
Definition update_intervals (s : BfdSession) : sresult BfdSession :=
  if (SessionStateOf s =? STATE_UP) && (RemoteSessionStateOf s =? STATE_UP) then
    let s :=
      if (DesiredMinTxInterval (s_bfdPacket s) =? STARTUP_TX_INTERVAL) ||
         (RequiredMinRxInterval (s_bfdPacket s) =? STARTUP_RX_INTERVAL) then
        let s := upd_packet (set_DesiredMinTxInterval (st_DesiredMinTxInterval (state s))) s in
        let s := upd_packet (set_RequiredMinRxInterval (st_RequiredMinRxInterval (state s))) s in
        InitiatePollSequence s
      else s in
    let wasDemand := Demand (s_bfdPacket s) in
    let s := upd_packet (set_Demand (st_DemandMode (state s))) s in
    let isDemand := Demand (s_bfdPacket s) in
    s ← (if negb wasDemand && isDemand then stop_sessionTimer s else Ok s);
    if wasDemand && negb isDemand then reset_sessionTimer (s_rxInterval s) s else Ok s
  else
    Ok (upd_packet (set_RequiredMinRxInterval STARTUP_RX_INTERVAL)
          (upd_packet (set_DesiredMinTxInterval STARTUP_TX_INTERVAL) s)).

(** The authentication section of the packet is a nil pointer unless the packet came with one. *)
Definition update_auth (s : BfdSession) : sresult BfdSession :=
  if s_authEnabled s then
    let s := upd_packet (set_AuthPresent true) s in
    match AuthHeader (s_bfdPacket s) with
    | None => Panic
    | Some h =>
      let seq := if negb (s_authType s =? BFD_AUTH_TYPE_SIMPLE) then s_authSeqNum s else SequenceNumber h in
      let s := if (s_authType s =? BFD_AUTH_TYPE_METICULOUS_MD5) || (s_authType s =? BFD_AUTH_TYPE_METICULOUS_SHA1)
               then set_s_authSeqNum (u32 (s_authSeqNum s + 1)) s else s in
      Ok (upd_packet (set_AuthHeader (Some {| ah_Type := s_authType s; AuthKeyID := u8 (s_authKeyId s);
            SequenceNumber := seq; AuthData := char_codes (s_authData s) |})) s)
    end
  else Ok (upd_packet (set_AuthPresent false) s).

Definition UpdateBfdSessionControlPacket (s : BfdSession) : sresult BfdSession :=
  let s := upd_packet (set_Diagnostic (st_LocalDiagType (state s))) s in
  let s := upd_packet (set_State (SessionStateOf s)) s in
  let s := upd_packet (set_DetectMult (u8 (st_DetectionMultiplier (state s)))) s in
  let s := upd_packet (set_MyDiscriminator (st_LocalDiscriminator (state s))) s in
  let s := upd_packet (set_YourDiscriminator (st_RemoteDiscriminator (state s))) s in
  s ← update_intervals s;
  let s := upd_packet (set_Poll (s_pollSequence s)) s in
  let s := set_s_pollSequence false s in
  let s := upd_packet (set_Final (s_pollSequenceFinal s)) s in
  let s := set_s_pollSequenceFinal false s in
  s ← update_auth s;
  Ok (set_s_remoteParamChanged false (set_s_stateChanged false (set_s_paramChanged false
       (set_s_pollChanged false s)))).

Definition refresh_packet (s : BfdSession) : sresult BfdSession :=
  s ← UpdateBfdSessionControlPacket s;
  Ok (set_s_bfdPacketBuf (CreateBfdControlPacket (s_bfdPacket s)) s).

(** The function of the transmit timer. [written]: the socket took the packet. The packet is built again
    after it is sent, to clear the flags it was sent with. *)
Definition SendPeriodicControlPackets (written : bool) (s : BfdSession) : sresult BfdSession :=
  let packetUpdated := NeedBfdPacketUpdate s in
  s ← (if packetUpdated then refresh_packet s else Ok s);
  if negb (s_txConn s) then Panic else
  let s := if written
           then upd_state (fun st => set_st_NumTxPackets (u32 (st_NumTxPackets st + 1)) st)
                  (set_s_sent (s_sent s ++ [s_bfdPacketBuf s]) s)
           else s in
  s ← (if packetUpdated then refresh_packet s else Ok s);
  let s := if (SessionStateOf s =? STATE_UP) || (RemoteSessionStateOf s =? STATE_UP)
           then set_s_txInterval (Z.quot (st_DesiredMinTxInterval (state s)) 1000) s else s in
  reset_txTimer (ApplyTxJitter s) s.

(** The function of the session timer. *)
Definition HandleSessionTimeout (now : Z) (s : BfdSession) : sresult BfdSession :=
  let s := if s_movedToDownState s then set_s_movedToDownState false (ResetRemoteSessionParams s) else s in
  let s := upd_state (set_st_LocalDiagType DIAG_TIME_EXPIRED) s in
  s ← EventHandler now TIMEOUT s;
  reset_sessionTimer (s_rxInterval s) s.

(** ** Receiving *)

Definition CanProcessBfdControlPacket (p : BfdControlPacket) : bool :=
  (Version p =? DEFAULT_BFD_VERSION) && negb (DetectMult p =? 0) && negb (Multipoint p) &&
  negb (MyDiscriminator p =? 0).

(** [binary.Write] of the packet: a struct with fields of type [int], of pointers and of slices is no
    fixed-size value, so it writes nothing and returns an error, which is dropped. *)
Definition binary_Write_packet (p : BfdControlPacket) : bytes := [].

Definition AuthenticateReceivedControlPacket (s : BfdSession) (p : BfdControlPacket) : sresult bool :=
  if negb (AuthPresent p) then Ok true
  else match AuthHeader p with
  | None => Panic
  | Some h =>
    Ok (if ah_Type h =? s_authType s then
          if ah_Type h =? BFD_AUTH_TYPE_SIMPLE then
            (AuthKeyID h =? s_authKeyId s) && bool_decide (AuthData h = char_codes (s_authData s))
          else if (SequenceNumber h >=? st_ReceivedAuthSeq (state s)) && (AuthKeyID h =? s_authKeyId s) then
            let copiedPacket := set_AuthHeader (Some {| ah_Type := ah_Type h; AuthKeyID := AuthKeyID h;
                                  SequenceNumber := SequenceNumber h; AuthData := char_codes (s_authData s) |}) p in
            let binBuf := binary_Write_packet copiedPacket in
            if is_md5 (ah_Type h) then bool_decide (AuthData h = md5_Sum binBuf)
            else if is_sha1 (ah_Type h) then bool_decide (AuthData h = sha1_Sum binBuf)
            else false
          else false
        else false)
  end.

Definition CheckAnyRemoteParamChanged (p : BfdControlPacket) (s : BfdSession) : BfdSession :=
  let st := state s in
  let s := if negb (st_RemoteSessionState st =? State p) ||
              negb (st_RemoteDiscriminator st =? MyDiscriminator p) ||
              negb (st_RemoteMinRxInterval st =? s32 (RequiredMinRxInterval p))
           then set_s_remoteParamChanged true s else s in
  let s := upd_state (set_st_RemoteSessionState (State p)) s in
  let s := upd_state (set_st_RemoteDiscriminator (MyDiscriminator p)) s in
  let s := upd_state (set_st_RemoteMinRxInterval (s32 (RequiredMinRxInterval p))) s in
  upd_state (set_st_RemoteDetectionMultiplier (DetectMult p)) s.

Definition RemoteChangedDemandMode (p : BfdControlPacket) (s : BfdSession) : sresult BfdSession :=
  let wasDemandMode := st_RemoteDemandMode (state s) in
  let s := upd_state (set_st_RemoteDemandMode (Demand p)) s in
  let isDemandMode := st_RemoteDemandMode (state s) in
  s ← (if isDemandMode then stop_txTimer s else Ok s);
  if wasDemandMode && negb isDemandMode then reset_txTimer (ApplyTxJitter s) s else Ok s.

(** The detection time that the packet asks for. *)
Definition packet_rx (p : BfdControlPacket) (s : BfdSession) : Z :=
  if (SessionStateOf s =? STATE_UP) && (RemoteSessionStateOf s =? STATE_UP)
  then Z.quot (s32 (s32 (DesiredMinTxInterval p) * DetectMult p)) 1000
  else startup_rx (DetectMult p).

(** The event the state in the packet is, with what else it changes. *)
Definition remote_event (s : BfdSession) : sresult (BfdSession * BfdSessionEvent) :=
  let r := RemoteSessionStateOf s in
  if r =? STATE_DOWN then
    Ok (if negb (SessionStateOf s =? STATE_DOWN)
        then upd_state (set_st_LocalDiagType DIAG_NEIGHBOR_SIGNAL_DOWN) s else s, REMOTE_DOWN)
  else if r =? STATE_INIT then Ok (s, REMOTE_INIT)
  else if r =? STATE_UP then
    s ← (if SessionStateOf s =? STATE_UP then
           if negb (s_txInterval s =? Z.quot (st_DesiredMinTxInterval (state s)) 1000)
           then reset_txTimer 0 (set_s_txInterval (Z.quot (st_DesiredMinTxInterval (state s)) 1000) s)
           else Ok s
         else Ok s);
    Ok (s, REMOTE_UP)
  else if r =? STATE_ADMIN_DOWN then Ok (s, REMOTE_ADMIN_DOWN)
  else Ok (s, NO_EVENT).

Definition ProcessBfdPacket (now : Z) (p : BfdControlPacket) (s : BfdSession) : sresult BfdSession :=
  authenticated ← AuthenticateReceivedControlPacket s p;
  if negb (authenticated : bool) then Ok s
  else if negb (CanProcessBfdControlPacket p) then Ok s
  else
    let s := set_s_rxInterval (packet_rx p s) s in
    let s := CheckAnyRemoteParamChanged p s in
    s ← RemoteChangedDemandMode p s;
    let s := ProcessPollSequence p s in
    s ← (if (s_rxInterval s =? 0) || (SessionStateOf s =? STATE_ADMIN_DOWN) ||
            (RemoteSessionStateOf s =? STATE_ADMIN_DOWN)
         then stop_sessionTimer s else Ok s);
    r ← remote_event s;
    EventHandler now r.2 r.1.

(** One turn of the session's server: a packet from its channel. *)
Definition StartSessionServer (now : Z) (p : BfdControlPacket) (s : BfdSession) : sresult BfdSession :=
  ProcessBfdPacket now p (upd_state (fun st => set_st_NumRxPackets (u32 (st_NumRxPackets st + 1)) st) s).

(** ** Starting and stopping *)

(** [dialled]: the addresses resolved and the socket was opened. Otherwise the session is reported as
    failed (the second component) and tried again later. *)
Definition StartSessionClient (dialled : bool) (s : BfdSession) : BfdSession * bool :=
  if negb dialled then (s, true)
  else
    let s := set_s_txConn true s in
    let s := set_s_txTimer (Some (Running (s_txInterval s))) s in
    let s := set_s_sessionTimer (Some (Running (s_rxInterval s))) s in
    (set_s_clientRuns true (set_s_isClientActive true s), false).

(** What the client does when it is told to stop: its timers stop and its socket closes. *)
Definition stop_client (s : BfdSession) : BfdSession :=
  set_s_clientRuns false
    (set_s_txTimer ((fun _ => Stopped) <$> s_txTimer s) (set_s_sessionTimer ((fun _ => Stopped) <$> s_sessionTimer s) s)).

Definition StopBfdSession (now : Z) (s : BfdSession) : sresult BfdSession :=
  s ← EventHandler now ADMIN_DOWN s;
  Ok (upd_state (set_st_LocalDiagType DIAG_ADMIN_DOWN) s).

Definition StartBfdSession (now : Z) (s : BfdSession) : sresult BfdSession :=
  s ← reset_sessionTimer (s_rxInterval s) s;
  s ← reset_txTimer (ApplyTxJitter s) s;
  let s := upd_state (set_st_SessionState STATE_DOWN) s in
  EventHandler now ADMIN_UP s.

(** The owners are numbered from 1; 0 is what an unknown name gives. *)
Definition MAX_APPS : Z := 5.
Definition CheckIfAnyProtocolRegistered (s : BfdSession) : bool :=
  existsb id (take (Z.to_nat MAX_APPS - 1) (drop 1 (st_RegisteredProtocols (state s)))).

(** ** Sessions on the links of an aggregate *)

(** The client of such a session opens a capture handle ([opened]) and arms its timers; unlike the other one
    it does not mark the session active. *)
Definition perlink_rx (s : BfdSession) : Z :=
  Z.quot (s32 (st_RequiredMinRxInterval (state s) * st_DetectionMultiplier (state s))) 1000.
Definition StartPerLinkSessionClient (opened : bool) (s : BfdSession) : BfdSession * bool :=
  if negb opened then (s, true)
  else
    let s := set_s_sessionTimer (Some (Running (perlink_rx s))) s in
    let s := set_s_txTimer (Some (Running (Z.quot (st_DesiredMinTxInterval (state s)) 1000))) s in
    (set_s_clientRuns true s, false).

Definition perlink_transmit (written : bool) (s : BfdSession) : sresult BfdSession :=
  s ← UpdateBfdSessionControlPacket s;
  let bfdPacket := CreateBfdControlPacket (s_bfdPacket s) in
  if written then
    let s := if SessionStateOf s =? STATE_UP then set_s_useDedicatedMac false s else s in
    let s := set_s_sent (s_sent s ++ [bfdPacket]) s in
    let s := upd_state (fun st => set_st_NumTxPackets (u32 (st_NumTxPackets st + 1)) st) s in
    reset_txTimer (Z.quot (st_DesiredMinTxInterval (state s)) 1000) s
  else Ok s.

Definition perlink_timeout (now : Z) (s : BfdSession) : sresult BfdSession :=
  let s := upd_state (set_st_LocalDiagType DIAG_TIME_EXPIRED) s in
  s ← EventHandler now TIMEOUT s;
  reset_sessionTimer (perlink_rx s) s.

(** A packet for the session, from [SrcMAC] to [DstMAC]. *)
Definition perlink_receive (now : Z) (SrcMAC DstMAC : bytes) (p : BfdControlPacket) (s : BfdSession)
  : sresult BfdSession :=
  let s := if bool_decide (st_RemoteMacAddr (state s) = SrcMAC) then s
           else upd_state (set_st_RemoteMacAddr DstMAC) s in
  let s := upd_state (fun st => set_st_NumRxPackets (u32 (st_NumRxPackets st + 1)) st) s in
  ProcessBfdPacket now p s.

(** ** New sessions ([bfdSessionServer.go], [bfdConfig.go]) *)

Record SessionParamState := {
  sp_Name : string;
  sp_NumSessions : Z;
  sp_LocalMultiplier : Z;
  sp_DesiredMinTxInterval : Z;
  sp_RequiredMinRxInterval : Z;
  sp_RequiredMinEchoRxInterval : Z;
  sp_DemandEnabled : bool;
  sp_AuthenticationEnabled : bool;
  sp_AuthenticationType : AuthenticationType;
  sp_AuthenticationKeyId : Z;
  sp_AuthenticationData : string;
}.

Definition bfdDedicatedMac : string := "01:00:5E:90:00:01".

(** The session [NewNormalBfdSession] makes for the identifier [sessionId]: [mac] is the address of the interface,
    [jitter] the random number, [ParamName] the name of [param], the parameters found. *)
Definition new_session (sessionId : Z) (mac : bytes) (jitter : Z) (Interface LocalIp DestIp ParamName : string)
    (param : SessionParamState) (PerLink : bool) (Protocol : Z) : BfdSession :=
  {| state :=
       {| st_IpAddr := DestIp; st_LocalAddr := LocalIp; st_SessionId := sessionId; st_ParamName := ParamName;
          st_Interface := Interface; st_InterfaceSpecific := false; st_PerLinkSession := PerLink;
          st_LocalMacAddr := if PerLink then mac else [];
          st_RemoteMacAddr := if PerLink then default [] (ParseMAC bfdDedicatedMac) else [];
          st_RegisteredProtocols := <[Z.to_nat Protocol := true]> (replicate (Z.to_nat MAX_APPS) false);
          st_SessionState := STATE_DOWN; st_RemoteSessionState := STATE_DOWN;
          st_LocalDiscriminator := u32 sessionId; st_RemoteDiscriminator := 0; st_LocalDiagType := DIAG_NONE;
          st_DesiredMinTxInterval := sp_DesiredMinTxInterval param;
          st_RequiredMinRxInterval := sp_RequiredMinRxInterval param; st_RemoteMinRxInterval := 0;
          st_DetectionMultiplier := sp_LocalMultiplier param; st_RemoteDetectionMultiplier := 0;
          st_DemandMode := sp_DemandEnabled param; st_RemoteDemandMode := false; st_ReceivedAuthSeq := 0;
          st_NumTxPackets := 0; st_NumRxPackets := 0; st_ToDownCount := 0; st_ToUpCount := 0; st_UpTime := 0 |};
     s_rxInterval := startup_rx (sp_LocalMultiplier param); s_sessionTimer := None;
     s_txInterval := STARTUP_TX_INTERVAL / 1000; s_txTimer := None; s_txJitter := jitter;
     s_bfdPacket := NewBfdControlPacketDefault; s_bfdPacketBuf := []; s_ReceivedPacketCh := [];
     s_pollSequence := false; s_pollSequenceFinal := false; s_pollChanged := false;
     s_authEnabled := sp_AuthenticationEnabled param; s_authType := u8 (sp_AuthenticationType param); s_authSeqNum := 1;
     s_authKeyId := u32 (sp_AuthenticationKeyId param); s_authData := sp_AuthenticationData param;
     s_txConn := false; s_useDedicatedMac := PerLink; s_paramChanged := true; s_remoteParamChanged := false;
     s_stateChanged := false; s_isClientActive := false; s_movedToDownState := false; s_notifiedState := false;
     s_channels := false; s_serverRuns := false; s_clientRuns := false; s_notifications := []; s_sent := [] |}.
