(* ===== verification/BfdSessionFacts.v ===== *)
(** Facts about a BFD session: its state machine on the few fields it depends on ([Core]), what each handler
    does to them, what it sends and what it leaves in the buffer. *)
From stdpp Require Import base numbers list strings.
From Stdlib Require Import ZArith Lia.
From S2P Require Import Prelude GoNet GoCrypto BfdPacket BfdPacketFacts BfdSession.
Open Scope Z_scope.

(** ** The core of a session

    What the state machine depends on, without packets, intervals and counters. *)
Record Core := {
  c_ip : string;
  c_local : BfdSessionState;
  c_remote : BfdSessionState;
  c_moved : bool;               (** [movedToDownState] *)
  c_notified : bool;
  c_notifications : list (string * bool);
}.
Definition core (s : BfdSession) : Core :=
  {| c_ip := st_IpAddr (state s); c_local := SessionStateOf s; c_remote := RemoteSessionStateOf s;
     c_moved := s_movedToDownState s; c_notified := s_notifiedState s; c_notifications := s_notifications s |}.

(** The session is told of a change of what is reported: up, or down by the will of an administrator. *)
Definition c_up (c : Core) : bool :=
  (c_local c =? STATE_UP) || (c_local c =? STATE_ADMIN_DOWN) || (c_remote c =? STATE_ADMIN_DOWN).
Definition notify (c : Core) : Core :=
  if Bool.eqb (c_up c) (c_notified c) then c
  else {| c_ip := c_ip c; c_local := c_local c; c_remote := c_remote c; c_moved := c_moved c;
          c_notified := c_up c; c_notifications := c_notifications c ++ [(c_ip c, c_up c)] |}.
Definition goto (local remote : BfdSessionState) (moved : bool) (c : Core) : Core :=
  {| c_ip := c_ip c; c_local := local; c_remote := remote; c_moved := moved;
     c_notified := c_notified c; c_notifications := c_notifications c |}.

Lemma core_notification s : core (SendBfdNotification s) = notify (core s).
Proof.
  unfold SendBfdNotification, notify. change (GetBfdSessionNotification s) with (c_up (core s)).
  cbn [c_notified core]. by destruct (Bool.eqb _ _).
Qed.

(** What stays as it is while the state machine runs: the client is running, with its timers. *)
Record runs (s : BfdSession) : Prop := {
  runs_active : s_isClientActive s = true;
  runs_session_timer : s_sessionTimer s <> None;
  runs_tx_timer : s_txTimer s <> None;
  runs_conn : s_txConn s = true;
  runs_no_auth : s_authEnabled s = false;
}.

(** The transitions, on the core. *)
Definition c_down (c : Core) : Core := notify (goto STATE_DOWN (c_remote c) true c).
Definition c_local_admin_down (c : Core) : Core := notify (goto STATE_ADMIN_DOWN (c_remote c) (c_moved c) c).
Definition c_remote_admin_down (c : Core) : Core := notify (goto (c_local c) STATE_ADMIN_DOWN (c_moved c) c).
Definition c_init (c : Core) : Core := goto STATE_INIT (c_remote c) false c.
Definition c_go_up (c : Core) : Core := notify (goto STATE_UP (c_remote c) false c).

(** A notification as assignments. *)
Lemma notification_eq s : SendBfdNotification s =
  set_s_notifications
    (if Bool.eqb (GetBfdSessionNotification s) (s_notifiedState s) then s_notifications s
     else s_notifications s ++ [(st_IpAddr (state s), GetBfdSessionNotification s)])
    (set_s_notifiedState (GetBfdSessionNotification s) s).
Proof.
  unfold SendBfdNotification. destruct (Bool.eqb _ _) eqn:He; [|done].
  apply Bool.eqb_prop in He. rewrite He. by destruct s.
Qed.

Ltac keep := match goal with H : runs _ |- runs _ => destruct H; constructor; first [assumption | discriminate] end.

Section timers.
Context (s : BfdSession) (H : runs s).
Lemma reset_tx ms : reset_txTimer ms s = Ok (set_s_txTimer (Some (Running ms)) s).
Proof. unfold reset_txTimer. destruct H. by destruct (s_txTimer s). Qed.
Lemma stop_tx : stop_txTimer s = Ok (set_s_txTimer (Some Stopped) s).
Proof. unfold stop_txTimer. destruct H. by destruct (s_txTimer s). Qed.
Lemma reset_session ms : reset_sessionTimer ms s = Ok (set_s_sessionTimer (Some (Running ms)) s).
Proof. unfold reset_sessionTimer. destruct H. by destruct (s_sessionTimer s). Qed.
Lemma stop_session : stop_sessionTimer s = Ok (set_s_sessionTimer (Some Stopped) s).
Proof. unfold stop_sessionTimer. destruct H. by destruct (s_sessionTimer s). Qed.
End timers.

Ltac timers :=
  repeat first [ rewrite reset_tx by keep | rewrite stop_tx by keep | rewrite reset_session by keep
               | rewrite stop_session by keep | rewrite bind_Ok ].

(** A transition that ends with a core. *)
Definition reaches (r : sresult BfdSession) (c : Core) : Prop := exists s', r = Ok s' /\ runs s' /\ core s' = c.
(** Cut a handler at its notification: what precedes it only assigns. *)
Ltac notifies :=
  match goal with Hr : runs _ |- reaches _ ?c =>
    match goal with |- context [SendBfdNotification ?y] =>
      let x := fresh "x" in let Hx := fresh "Hx" in
      set (x := y); assert (Hx : runs x) by (subst x; keep);
      let c' := eval red in c in
      match c' with notify ?d => change c with (notify d); replace d with (core x) by reflexivity end;
      clearbody x; clear Hr; rewrite <- core_notification; rewrite notification_eq
    end
  end.
Ltac reach := eexists; split; [reflexivity|]; split; [keep | reflexivity].

Lemma MoveToDownState_core s : runs s -> reaches (MoveToDownState s) (c_down (core s)).
Proof. intros Hr. unfold MoveToDownState. destruct (_ || _); notifies; timers; reach. Qed.
Lemma LocalAdminDown_core s : runs s -> reaches (LocalAdminDown s) (c_local_admin_down (core s)).
Proof. intros Hr. unfold LocalAdminDown. notifies. timers. reach. Qed.
Lemma RemoteAdminDown_core s : runs s -> reaches (RemoteAdminDown s) (c_remote_admin_down (core s)).
Proof. intros Hr. unfold RemoteAdminDown. notifies. timers. reach. Qed.
Lemma MoveToUpState_core now s : runs s -> reaches (Ok (MoveToUpState now s)) (c_go_up (core s)).
Proof. intros Hr. unfold MoveToUpState. notifies. reach. Qed.
Lemma MoveToInitState_core s : runs s -> reaches (Ok (MoveToInitState s)) (c_init (core s)).
Proof. intros Hr. reach. Qed.

(** ** Events *)

(** The state machine on the core, by event. *)
Definition c_event (event : BfdSessionEvent) (c : Core) : Core :=
  if c_local c =? STATE_ADMIN_DOWN then c
  else match event with
  | NO_EVENT => c
  | REMOTE_DOWN => if c_local c =? STATE_DOWN then c_init c else if c_local c =? STATE_INIT then c else c_down c
  | REMOTE_INIT => if c_local c =? STATE_UP then c else c_go_up c
  | REMOTE_UP => if c_local c =? STATE_INIT then c_go_up c else c
  | TIMEOUT => if c_local c =? STATE_DOWN then c else c_down c
  | ADMIN_UP => if c_local c =? STATE_DOWN then c_down c else c
  | ADMIN_DOWN => c_local_admin_down c
  | REMOTE_ADMIN_DOWN => c_remote_admin_down c
  end.

Definition is_state (x : Z) : Prop := 0 <= x < 4.
Lemma is_state_cases x : is_state x -> x = STATE_ADMIN_DOWN \/ x = STATE_DOWN \/ x = STATE_INIT \/ x = STATE_UP.
Proof. unfold is_state, STATE_ADMIN_DOWN, STATE_DOWN, STATE_INIT, STATE_UP. lia. Qed.

Lemma reaches_same s : runs s -> reaches (Ok s) (core s).
Proof. intros. exists s. auto. Qed.

Lemma EventHandler_core now event s : runs s -> is_state (SessionStateOf s) ->
  reaches (EventHandler now event s) (c_event event (core s)).
Proof.
  intros Hr Hs. unfold EventHandler, c_event, IsSessionActive. rewrite (runs_active s Hr). cbn [negb].
  change (c_local (core s)) with (SessionStateOf s).
  destruct (is_state_cases _ Hs) as [H | [H | [H | H]]]; rewrite H; cbn; destruct event;
    auto using reaches_same, MoveToDownState_core, LocalAdminDown_core, RemoteAdminDown_core,
      MoveToUpState_core, MoveToInitState_core.
Qed.

(** ** The packet a session sends *)

Definition both_up (s : BfdSession) : bool := (SessionStateOf s =? STATE_UP) && (RemoteSessionStateOf s =? STATE_UP).
(** The packet still has the intervals of the start. *)
Definition starting (pk : BfdControlPacket) : bool :=
  (DesiredMinTxInterval pk =? STARTUP_TX_INTERVAL) || (RequiredMinRxInterval pk =? STARTUP_RX_INTERVAL).

Definition built (s : BfdSession) : BfdControlPacket :=
  let pk := s_bfdPacket s in
  {| Version := Version pk; Diagnostic := st_LocalDiagType (state s); State := SessionStateOf s;
     Poll := s_pollSequence s || (both_up s && starting pk); Final := s_pollSequenceFinal s;
     ControlPlaneIndependent := ControlPlaneIndependent pk; AuthPresent := false;
     Demand := if both_up s then st_DemandMode (state s) else Demand pk; Multipoint := Multipoint pk;
     DetectMult := u8 (st_DetectionMultiplier (state s));
     MyDiscriminator := st_LocalDiscriminator (state s); YourDiscriminator := st_RemoteDiscriminator (state s);
     DesiredMinTxInterval := if both_up s then if starting pk then st_DesiredMinTxInterval (state s)
                                               else DesiredMinTxInterval pk
                             else STARTUP_TX_INTERVAL;
     RequiredMinRxInterval := if both_up s then if starting pk then st_RequiredMinRxInterval (state s)
                                                else RequiredMinRxInterval pk
                              else STARTUP_RX_INTERVAL;
     RequiredMinEchoRxInterval := RequiredMinEchoRxInterval pk; AuthHeader := AuthHeader pk |}.

(** The session after the packet is built. *)
Record sending (s s' : BfdSession) : Prop := {
  sending_packet : s_bfdPacket s' = built s;
  sending_state : state s' = state s;
  sending_core : core s' = core s;
  sending_poll : s_pollSequence s' = false;
  sending_final : s_pollSequenceFinal s' = false;
  sending_no_update : NeedBfdPacketUpdate s' = false;
  sending_sent : s_sent s' = s_sent s;
  sending_runs : runs s';
}.

(** The step on the intervals. *)
Record intervals (s s' : BfdSession) : Prop := {
  intervals_packet : s_bfdPacket s' =
    let pk := s_bfdPacket s in
    if both_up s
    then set_Demand (st_DemandMode (state s))
           (if starting pk
            then set_RequiredMinRxInterval (st_RequiredMinRxInterval (state s))
                   (set_DesiredMinTxInterval (st_DesiredMinTxInterval (state s)) pk)
            else pk)
    else set_RequiredMinRxInterval STARTUP_RX_INTERVAL (set_DesiredMinTxInterval STARTUP_TX_INTERVAL pk);
  intervals_state : state s' = state s;
  intervals_core : core s' = core s;
  intervals_poll : s_pollSequence s' = s_pollSequence s || (both_up s && starting (s_bfdPacket s));
  intervals_final : s_pollSequenceFinal s' = s_pollSequenceFinal s;
  intervals_sent : s_sent s' = s_sent s;
  intervals_runs : runs s';
}.

Lemma initiate_eq x : InitiatePollSequence x =
  set_s_pollChanged (negb (s_pollSequence x) || s_pollChanged x) (set_s_pollSequence true x).
Proof. unfold InitiatePollSequence. destruct x as [? ? ? ? ? ? ? ? ? poll]. by destruct poll. Qed.

(** The second half of the step: the demand bit, and the session timer it suspends. *)
Lemma demand_spec s : runs s -> exists s',
  (let wasDemand := Demand (s_bfdPacket s) in
   let s := upd_packet (set_Demand (st_DemandMode (state s))) s in
   let isDemand := Demand (s_bfdPacket s) in
   s ← (if negb wasDemand && isDemand then stop_sessionTimer s else Ok s);
   if wasDemand && negb isDemand then reset_sessionTimer (s_rxInterval s) s else Ok s) = Ok s' /\
  s_bfdPacket s' = set_Demand (st_DemandMode (state s)) (s_bfdPacket s) /\ state s' = state s /\
  core s' = core s /\ s_pollSequence s' = s_pollSequence s /\
  s_pollSequenceFinal s' = s_pollSequenceFinal s /\ s_sent s' = s_sent s /\ runs s'.
Proof.
  intros Hr. cbv zeta.
  change (Demand (s_bfdPacket (upd_packet (set_Demand (st_DemandMode (state s))) s))) with (st_DemandMode (state s)).
  destruct (Demand (s_bfdPacket s)), (st_DemandMode (state s)); cbn [negb andb]; timers;
    (eexists; split; [reflexivity|]; do 6 (split; [reflexivity|]); keep).
Qed.

Lemma intervals_spec s : runs s -> exists s', update_intervals s = Ok s' /\ intervals s s'.
Proof.
  intros Hr. unfold update_intervals. fold (both_up s). fold (starting (s_bfdPacket s)).
  destruct (both_up s) eqn:Hup.
  - set (s1 := if starting (s_bfdPacket s) then _ else s).
    assert (H1 : runs s1 /\ state s1 = state s /\ core s1 = core s /\
      s_bfdPacket s1 = (if starting (s_bfdPacket s)
            then set_RequiredMinRxInterval (st_RequiredMinRxInterval (state s))
                   (set_DesiredMinTxInterval (st_DesiredMinTxInterval (state s)) (s_bfdPacket s))
            else s_bfdPacket s) /\
      s_pollSequence s1 = s_pollSequence s || starting (s_bfdPacket s) /\
      s_pollSequenceFinal s1 = s_pollSequenceFinal s /\ s_sent s1 = s_sent s).
    { subst s1. destruct (starting _); rewrite ?initiate_eq, ?orb_true_r, ?orb_false_r;
        (split; [keep|]); repeat split; reflexivity. }
    destruct H1 as (Hr1 & Hst & Hc & Hp & Hpoll & Hfin & Hsent). clearbody s1.
    destruct (demand_spec s1 Hr1) as (s2 & He & Hp2 & Hst2 & Hc2 & Hpoll2 & Hfin2 & Hsent2 & Hr2).
    exists s2. split; [exact He|]. constructor; rewrite ?Hup; cbn [andb]; congruence.
  - eexists. split; [reflexivity|].
    constructor; rewrite ?Hup; cbn [andb]; rewrite ?orb_false_r; first [reflexivity | keep].
Qed.

Lemma Update_spec s : runs s -> exists s', UpdateBfdSessionControlPacket s = Ok s' /\ sending s s'.
Proof.
  intros Hr. unfold UpdateBfdSessionControlPacket.
  set (s1 := upd_packet (set_YourDiscriminator _) _).
  assert (Hr1 : runs s1) by (subst s1; keep).
  assert (H1 : s_bfdPacket s1 = set_YourDiscriminator (st_RemoteDiscriminator (state s))
    (set_MyDiscriminator (st_LocalDiscriminator (state s)) (set_DetectMult (u8 (st_DetectionMultiplier (state s)))
    (set_State (SessionStateOf s) (set_Diagnostic (st_LocalDiagType (state s)) (s_bfdPacket s)))))) by reflexivity.
  assert (H2 : state s1 = state s /\ core s1 = core s /\ s_pollSequence s1 = s_pollSequence s /\
    s_pollSequenceFinal s1 = s_pollSequenceFinal s /\ s_sent s1 = s_sent s /\ both_up s1 = both_up s)
    by by repeat split.
  clearbody s1. destruct H2 as (Hst1 & Hc1 & Hp1 & Hf1 & Hs1 & Hb1).
  destruct (intervals_spec s1 Hr1) as (s2 & -> & [Hpk Hst Hc Hp Hf Hs Hr2]). rewrite bind_Ok. unfold update_auth.
  change (s_authEnabled (set_s_pollSequenceFinal ?a ?x)) with (s_authEnabled x).
  cbn [s_authEnabled set_s_pollSequenceFinal upd_packet set_s_bfdPacket set_s_pollSequence].
  rewrite (runs_no_auth s2 Hr2), bind_Ok. eexists. split; [reflexivity|].
  constructor.
  - transitivity (set_AuthPresent false (set_Final (s_pollSequenceFinal s2) (set_Poll (s_pollSequence s2) (s_bfdPacket s2))));
      [reflexivity|].
    rewrite Hpk, Hp, Hf, Hf1, Hp1, H1, Hst1, Hb1. unfold built.
    change (starting (set_YourDiscriminator _ _)) with (starting (s_bfdPacket s)).
    destruct (both_up s), (starting (s_bfdPacket s)); reflexivity.
  - by transitivity (state s2); [|congruence].
  - by transitivity (core s2); [|congruence].
  - reflexivity.
  - reflexivity.
  - reflexivity.
  - by transitivity (s_sent s2); [|congruence].
  - keep.
Qed.

(** ** Transmission *)

(** What the transmit timer writes: the packet built anew when something changed. *)
Definition to_send (s : BfdSession) : bytes :=
  if NeedBfdPacketUpdate s then CreateBfdControlPacket (built s) else s_bfdPacketBuf s.
(** What it leaves in the buffer: the packet again, with the intervals settled and the flags cleared. *)
Definition settled (s : BfdSession) : BfdControlPacket :=
  let pk := built s in
  set_Final false (set_Poll (both_up s && starting pk)
    (if both_up s && starting pk
     then set_RequiredMinRxInterval (st_RequiredMinRxInterval (state s))
            (set_DesiredMinTxInterval (st_DesiredMinTxInterval (state s)) pk)
     else pk)).
Definition left_over (s : BfdSession) : bytes :=
  if NeedBfdPacketUpdate s then CreateBfdControlPacket (settled s) else s_bfdPacketBuf s.

(** After the timer ran. *)
Record sent (written : bool) (s s' : BfdSession) : Prop := {
  sent_runs : runs s';
  sent_core : core s' = core s;
  sent_wire : s_sent s' = s_sent s ++ (if written then [to_send s] else []);
  sent_buffer : s_bfdPacketBuf s' = left_over s;
  sent_no_update : NeedBfdPacketUpdate s' = false;
  sent_discriminators : st_LocalDiscriminator (state s') = st_LocalDiscriminator (state s) /\
                        st_RemoteDiscriminator (state s') = st_RemoteDiscriminator (state s);
  sent_packet : s_bfdPacket s' = if NeedBfdPacketUpdate s then settled s else s_bfdPacket s;
  sent_diag : st_LocalDiagType (state s') = st_LocalDiagType (state s);
  sent_mult : st_DetectionMultiplier (state s') = st_DetectionMultiplier (state s);
}.

Lemma built_again s s' : sending s s' -> built s' = settled s.
Proof.
  intros [Hp Hst Hc Hpoll Hfin _ _ _]. unfold built at 1. rewrite Hp, Hst, Hpoll, Hfin.
  assert (Hu : both_up s' = both_up s) by (unfold both_up, SessionStateOf, RemoteSessionStateOf; by rewrite Hst).
  assert (Hl : SessionStateOf s' = SessionStateOf s) by (unfold SessionStateOf; by rewrite Hst).
  rewrite Hu, Hl. unfold settled. destruct (both_up s) eqn:Hb; cbn [andb orb].
  - destruct (starting (built s)) eqn:Hs; unfold built; rewrite ?Hb; reflexivity.
  - unfold built. rewrite Hb. reflexivity.
Qed.

Lemma refresh_spec s : runs s -> exists s', refresh_packet s = Ok s' /\
  sending s s' /\ s_bfdPacketBuf s' = CreateBfdControlPacket (built s).
Proof.
  intros Hr. unfold refresh_packet. destruct (Update_spec s Hr) as (s1 & -> & [Hp Hst Hc Hpoll Hfin Hn Hs Hr1]).
  rewrite bind_Ok. eexists. split; [reflexivity|]. split.
  - constructor; [exact Hp | exact Hst | exact Hc | exact Hpoll | exact Hfin | exact Hn | exact Hs | keep].
  - by rewrite Hp.
Qed.

Lemma refresh_if (b : bool) s : runs s ->
  exists s', (if b then refresh_packet s else Ok s) = Ok s' /\ runs s' /\ core s' = core s /\ s_sent s' = s_sent s /\
    state s' = state s /\ s_bfdPacketBuf s' = (if b then CreateBfdControlPacket (built s) else s_bfdPacketBuf s) /\
    s_bfdPacket s' = (if b then built s else s_bfdPacket s) /\
    NeedBfdPacketUpdate s' = (if b then false else NeedBfdPacketUpdate s) /\
    (b = true -> built s' = settled s).
Proof.
  intros Hr. destruct b; [|exists s; repeat split; try done; by apply Hr].
  destruct (refresh_spec s Hr) as (s1 & -> & Hs & Hb). exists s1. pose proof (built_again s s1 Hs).
  destruct Hs. by repeat (split; [done|]).
Qed.

Lemma Send_spec written s : runs s -> exists s', SendPeriodicControlPackets written s = Ok s' /\ sent written s s'.
Proof.
  intros Hr. unfold SendPeriodicControlPackets.
  destruct (refresh_if (NeedBfdPacketUpdate s) s Hr) as (s1 & -> & Hr1 & Hc1 & Hs1 & Hst1 & Hb1 & Hp1 & Hn1 & Hset).
  rewrite bind_Ok. rewrite (runs_conn s1 Hr1). cbn [negb].
  set (s2 := if written then _ else s1).
  assert (H2 : runs s2 /\ core s2 = core s /\ s_bfdPacketBuf s2 = s_bfdPacketBuf s1 /\
     NeedBfdPacketUpdate s2 = NeedBfdPacketUpdate s1 /\ built s2 = built s1 /\ s_bfdPacket s2 = s_bfdPacket s1 /\
     s_sent s2 = s_sent s ++ (if written then [s_bfdPacketBuf s1] else []) /\
     st_LocalDiscriminator (state s2) = st_LocalDiscriminator (state s) /\
     st_RemoteDiscriminator (state s2) = st_RemoteDiscriminator (state s) /\
     st_LocalDiagType (state s2) = st_LocalDiagType (state s) /\
     st_DetectionMultiplier (state s2) = st_DetectionMultiplier (state s)).
  { subst s2. rewrite <- Hst1, <- Hs1, <- Hc1. destruct written; [|rewrite app_nil_r]; (split; [keep|]); by repeat split. }
  destruct H2 as (Hr2 & Hc2 & Hb2 & Hn2 & Hbu2 & Hp2 & Hs2 & Hl2 & Hd2 & Hg2 & Hm2). clearbody s2.
  destruct (refresh_if (NeedBfdPacketUpdate s) s2 Hr2) as (s3 & -> & Hr3 & Hc3 & Hs3 & Hst3 & Hb3 & Hp3 & Hn3 & _).
  rewrite bind_Ok.
  assert (H3 : core s3 = core s /\ s_sent s3 = s_sent s ++ (if written then [to_send s] else []) /\
    s_bfdPacketBuf s3 = left_over s /\ NeedBfdPacketUpdate s3 = false /\
    s_bfdPacket s3 = (if NeedBfdPacketUpdate s then settled s else s_bfdPacket s)).
  { unfold to_send, left_over. rewrite Hc3, Hs3, Hb3, Hn3, Hp3, Hs2, Hb2, Hn2, Hn1, Hp2, Hbu2, Hb1, Hp1.
    destruct (NeedBfdPacketUpdate s) eqn:Hn; [rewrite Hset by done|]; by repeat split. }
  destruct H3 as (Hc4 & Hs4 & Hb4 & Hn4 & Hp4). rewrite <- Hst3 in Hl2, Hd2, Hg2, Hm2.
  destruct (_ || _); timers; eexists; (split; [reflexivity|]);
    (constructor; [keep | exact Hc4 | exact Hs4 | exact Hb4 | exact Hn4 | split; [exact Hl2 | exact Hd2]
                  | exact Hp4 | exact Hg2 | exact Hm2]).
Qed.

(** ** Reception *)

Definition event_of (r : BfdSessionState) : BfdSessionEvent :=
  if r =? STATE_DOWN then REMOTE_DOWN
  else if r =? STATE_INIT then REMOTE_INIT
  else if r =? STATE_UP then REMOTE_UP
  else if r =? STATE_ADMIN_DOWN then REMOTE_ADMIN_DOWN
  else NO_EVENT.
Definition c_packet (r : BfdSessionState) (c : Core) : Core :=
  c_event (event_of r) (goto (c_local c) r (c_moved c) c).

(** A packet that the codec can give. *)
Record packet_ok (p : BfdControlPacket) : Prop := {
  packet_state : is_state (State p);
  packet_auth : AuthPresent p = true -> AuthHeader p <> None;
}.

(** The packet is processed: it is authentic, and well-formed in the fields the code checks. *)
Definition accepts (s : BfdSession) (p : BfdControlPacket) : bool :=
  match AuthenticateReceivedControlPacket s p with Ok true => CanProcessBfdControlPacket p | _ => false end.

Lemma authenticate_total s p : packet_ok p -> exists b, AuthenticateReceivedControlPacket s p = Ok b.
Proof.
  intros []. unfold AuthenticateReceivedControlPacket. destruct (AuthPresent p); cbn [negb]; [|eauto].
  destruct (AuthHeader p); [eauto | by destruct packet_auth0].
Qed.

(** The diagnostic fits the packet. *)
Definition diag_ok (s : BfdSession) : Prop := 0 <= st_LocalDiagType (state s) < 32.

(** What no transition touches. *)
Record same_io (s s' : BfdSession) : Prop := {
  same_sent : s_sent s' = s_sent s;
  same_buffer : s_bfdPacketBuf s' = s_bfdPacketBuf s;
  same_discriminators : st_LocalDiscriminator (state s') = st_LocalDiscriminator (state s) /\
                        st_RemoteDiscriminator (state s') = st_RemoteDiscriminator (state s);
  same_demand : st_RemoteDemandMode (state s') = st_RemoteDemandMode (state s);
  same_final : s_pollSequenceFinal s' = s_pollSequenceFinal s;
  same_changed : s_pollChanged s' = s_pollChanged s;
  same_packet : s_bfdPacket s' = s_bfdPacket s;
  same_mult : st_DetectionMultiplier (state s') = st_DetectionMultiplier (state s);
  same_need : NeedBfdPacketUpdate s = true -> NeedBfdPacketUpdate s' = true;
  same_diag : diag_ok s -> diag_ok s';
}.
#[export] Instance same_io_preorder : PreOrder same_io.
Proof.
  split.
  - intros s. by constructor.
  - intros x y z [] []. constructor; try congruence; auto. destruct same_discriminators0, same_discriminators1.
    split; congruence.
Qed.
Ltac same_need :=
  unfold NeedBfdPacketUpdate; cbn [s_paramChanged s_remoteParamChanged s_pollChanged s_stateChanged];
  first [ exact id | intros _; repeat rewrite ?orb_true_r, ?orb_true_l; reflexivity ].
Ltac same_diag := unfold diag_ok; first [ exact id | intros _; split; [discriminate | reflexivity] ].
Ltac same :=
  constructor; [reflexivity | reflexivity | split; reflexivity | reflexivity | reflexivity | reflexivity | reflexivity
               | reflexivity | same_need | same_diag].

Lemma notification_io s : same_io s (SendBfdNotification s).
Proof. rewrite notification_eq. same. Qed.

(** One step of a handler that only assigns. *)
Ltac io_step x y := apply (transitivity (y := y)).
Lemma reset_tx_io ms s s' : reset_txTimer ms s = Ok s' -> same_io s s'.
Proof. unfold reset_txTimer. destruct (s_txTimer s); [|done]. intros [= <-]. same. Qed.
Lemma reset_session_io ms s s' : reset_sessionTimer ms s = Ok s' -> same_io s s'.
Proof. unfold reset_sessionTimer. destruct (s_sessionTimer s); [|done]. intros [= <-]. same. Qed.
Lemma stop_session_io s s' : stop_sessionTimer s = Ok s' -> same_io s s'.
Proof. unfold stop_sessionTimer. destruct (s_sessionTimer s); [|done]. intros [= <-]. same. Qed.

Lemma admin_tail_io s s' m : (s ← reset_txTimer 0 s; stop_sessionTimer (set_s_rxInterval (m s) s)) = Ok s' -> same_io s s'.
Proof.
  intros (s1 & H1 & H2)%bind_Ok_inv. transitivity s1; [by eapply reset_tx_io|].
  transitivity (set_s_rxInterval (m s1) s1); [same | by eapply stop_session_io].
Qed.
Lemma MoveToDownState_io s s' : MoveToDownState s = Ok s' -> same_io s s'.
Proof.
  unfold MoveToDownState. intros (s1 & H1 & H2)%bind_Ok_inv. apply reset_tx_io in H1. apply reset_session_io in H2.
  transitivity s1; [|transitivity (set_s_rxInterval (startup_rx (st_DetectionMultiplier (state s1))) s1); [same | exact H2]].
  etransitivity; [|exact H1].
  match goal with |- same_io _ (set_s_txInterval _ (SendBfdNotification ?x)) =>
    transitivity x; [destruct (_ || _); same|]; transitivity (SendBfdNotification x); [apply notification_io | same]
  end.
Qed.
Lemma LocalAdminDown_io s s' : LocalAdminDown s = Ok s' -> same_io s s'.
Proof.
  unfold LocalAdminDown. intros H%(admin_tail_io _ _ (fun s => startup_rx (st_DetectionMultiplier (state s)))).
  etransitivity; [|exact H].
  match goal with |- same_io _ (set_s_txInterval _ (SendBfdNotification ?x)) =>
    transitivity x; [same|]; transitivity (SendBfdNotification x); [apply notification_io | same]
  end.
Qed.
Lemma RemoteAdminDown_io s s' : RemoteAdminDown s = Ok s' -> same_io s s'.
Proof.
  unfold RemoteAdminDown. intros H%(admin_tail_io _ _ (fun s => startup_rx (st_DetectionMultiplier (state s)))).
  etransitivity; [|exact H].
  match goal with |- same_io _ (set_s_txInterval _ (SendBfdNotification ?x)) =>
    transitivity x; [same|]; transitivity (SendBfdNotification x); [apply notification_io | same]
  end.
Qed.
Lemma MoveToUpState_io now s : same_io s (MoveToUpState now s).
Proof.
  unfold MoveToUpState.
  match goal with |- same_io _ (SendBfdNotification ?x) =>
    transitivity x; [same | apply notification_io]
  end.
Qed.
Lemma MoveToInitState_io s : same_io s (MoveToInitState s).
Proof. same. Qed.

Lemma EventHandler_io now event s s' : EventHandler now event s = Ok s' -> same_io s s'.
Proof.
  unfold EventHandler. destruct (negb _); [intros [= <-]; same|].
  destruct (_ =? _); [intros [= <-]; same|].
  assert (Hok : forall x, same_io s x -> Ok (E := Empty_set) x = Ok s' -> same_io s s') by (by intros x Hx [= <-]).
  destruct (_ =? _); [|destruct (_ =? _); [|destruct (_ =? _); [|by apply Hok]]]; destruct event;
    match goal with
    | |- MoveToDownState _ = _ -> _ => apply MoveToDownState_io
    | |- LocalAdminDown _ = _ -> _ => apply LocalAdminDown_io
    | |- RemoteAdminDown _ = _ -> _ => apply RemoteAdminDown_io
    | |- Ok (MoveToInitState _) = _ -> _ => apply Hok, MoveToInitState_io
    | |- Ok (MoveToUpState _ _) = _ -> _ => apply Hok, MoveToUpState_io
    | |- _ => by apply Hok
    end.
Qed.

(** The answer to a poll is owed. *)
Definition owes (p : BfdControlPacket) (s : BfdSession) : bool :=
  negb (SessionStateOf s =? STATE_ADMIN_DOWN) && Poll p.

(** After an accepted packet. *)
Record received (p : BfdControlPacket) (s s' : BfdSession) : Prop := {
  received_runs : runs s';
  received_core : core s' = c_packet (State p) (core s);
  received_sent : s_sent s' = s_sent s;
  received_buffer : s_bfdPacketBuf s' = s_bfdPacketBuf s;
  received_local : st_LocalDiscriminator (state s') = st_LocalDiscriminator (state s);
  received_remote : st_RemoteDiscriminator (state s') = MyDiscriminator p;
  received_demand : st_RemoteDemandMode (state s') = Demand p;
  received_final : s_pollSequenceFinal s' = owes p s || s_pollSequenceFinal s;
  received_changed : owes p s = true -> s_pollChanged s' = true;
  received_packet : s_bfdPacket s' = s_bfdPacket s;
  received_mult : st_DetectionMultiplier (state s') = st_DetectionMultiplier (state s);
  received_diag : diag_ok s -> diag_ok s';
  received_need : NeedBfdPacketUpdate s = true \/ State p <> RemoteSessionStateOf s -> NeedBfdPacketUpdate s' = true;
}.

(** A part of the processing that keeps the core. *)
Definition keeps (r : sresult BfdSession) (s : BfdSession) : Prop :=
  exists s', r = Ok s' /\ runs s' /\ core s' = core s /\ same_io s s'.
Ltac kept := eexists; split; [reflexivity|]; split; [keep|]; split; [reflexivity | same].

Lemma stop_session_keeps s : runs s -> keeps (stop_sessionTimer s) s.
Proof. intros Hr. timers. kept. Qed.
Lemma Ok_keeps s : runs s -> keeps (Ok s) s.
Proof. intros Hr. exists s. by repeat (split; [done|]). Qed.

Lemma remote_event_spec s : runs s -> is_state (RemoteSessionStateOf s) ->
  exists s', remote_event s = Ok (s', event_of (RemoteSessionStateOf s)) /\ runs s' /\ core s' = core s /\ same_io s s'.
Proof.
  intros Hr Hs. unfold remote_event, event_of. destruct (is_state_cases _ Hs) as [-> | [-> | [-> | ->]]]; cbn.
  - kept.
  - destruct (SessionStateOf s =? STATE_DOWN); cbn [negb]; kept.
  - kept.
  - destruct (SessionStateOf s =? STATE_UP); [|rewrite bind_Ok; kept].
    destruct (s_txInterval s =? _); cbn [negb]; timers; kept.
Qed.

Lemma demand_mode_spec p s : runs s -> exists s', RemoteChangedDemandMode p s = Ok s' /\ runs s' /\ core s' = core s /\
  same_io (upd_state (set_st_RemoteDemandMode (Demand p)) s) s'.
Proof.
  intros Hr. unfold RemoteChangedDemandMode.
  set (s1 := upd_state (set_st_RemoteDemandMode (Demand p)) s).
  assert (Hr1 : runs s1) by (subst s1; keep). assert (Hc : core s1 = core s) by reflexivity.
  change (st_RemoteDemandMode (state s1)) with (Demand p). rewrite <- Hc. clearbody s1. clear Hr Hc.
  destruct (Demand p), (st_RemoteDemandMode (state s)); cbn [negb andb]; timers; kept.
Qed.

Lemma poll_spec p s : runs s ->
  let s' := ProcessPollSequence p s in
  runs s' /\ core s' = core s /\ s_sent s' = s_sent s /\ s_bfdPacketBuf s' = s_bfdPacketBuf s /\ state s' = state s /\
  s_pollSequenceFinal s' = owes p s || s_pollSequenceFinal s /\
  (owes p s = true -> s_pollChanged s' = true) /\ s_bfdPacket s' = s_bfdPacket s /\
  (NeedBfdPacketUpdate s = true -> NeedBfdPacketUpdate s' = true).
Proof.
  intros Hr. cbv zeta. unfold ProcessPollSequence, owes.
  destruct (negb _), (Poll p), (Final p); (split; [keep|]); repeat (split; [done|]); same_need.
Qed.

Lemma check_spec p s : runs s ->
  let s' := CheckAnyRemoteParamChanged p s in
  runs s' /\ core s' = goto (c_local (core s)) (State p) (c_moved (core s)) (core s) /\ s_sent s' = s_sent s /\
  s_bfdPacketBuf s' = s_bfdPacketBuf s /\ st_LocalDiscriminator (state s') = st_LocalDiscriminator (state s) /\
  st_RemoteDiscriminator (state s') = MyDiscriminator p /\ s_pollSequenceFinal s' = s_pollSequenceFinal s /\
  s_bfdPacket s' = s_bfdPacket s /\ st_DetectionMultiplier (state s') = st_DetectionMultiplier (state s) /\
  st_LocalDiagType (state s') = st_LocalDiagType (state s) /\
  (NeedBfdPacketUpdate s = true \/ State p <> RemoteSessionStateOf s -> NeedBfdPacketUpdate s' = true).
Proof.
  intros Hr. cbv zeta. unfold CheckAnyRemoteParamChanged.
  destruct (_ || _) eqn:Hch; (split; [keep|]); repeat (split; [reflexivity|]).
  - intros _. unfold NeedBfdPacketUpdate. cbn [s_paramChanged s_remoteParamChanged]. by rewrite orb_true_r.
  - intros [Hn | Hne]; [exact Hn|]. exfalso. apply Hne. symmetry.
    destruct (st_RemoteSessionState (state s) =? State p) eqn:He; [by apply Z.eqb_eq in He | done].
Qed.

Lemma Process_spec now p s : runs s -> is_state (SessionStateOf s) -> packet_ok p ->
  exists s', ProcessBfdPacket now p s = Ok s' /\ if accepts s p then received p s s' else s' = s.
Proof.
  intros Hr Hs Hp. unfold ProcessBfdPacket, accepts. destruct (authenticate_total s p Hp) as [b Hb]. rewrite Hb, bind_Ok.
  destruct b; cbn [negb]; [|by exists s]. destruct (CanProcessBfdControlPacket p); cbn [negb]; [|by exists s].
  set (s0 := set_s_rxInterval (packet_rx p s) s). assert (Hr0 : runs s0) by (subst s0; keep).
  destruct (check_spec p s0 Hr0) as (Hr1 & Hc1 & Hse1 & Hb1 & Hl1 & Hd1 & Hf1 & Hp1 & Hm1 & Hg1 & Hn1).
  set (s1 := CheckAnyRemoteParamChanged p s0) in *.
  change (core s0) with (core s) in Hc1. change (s_sent s0) with (s_sent s) in Hse1.
  change (s_bfdPacketBuf s0) with (s_bfdPacketBuf s) in Hb1.
  change (st_LocalDiscriminator (state s0)) with (st_LocalDiscriminator (state s)) in Hl1.
  change (s_pollSequenceFinal s0) with (s_pollSequenceFinal s) in Hf1.
  change (s_bfdPacket s0) with (s_bfdPacket s) in Hp1.
  change (st_DetectionMultiplier (state s0)) with (st_DetectionMultiplier (state s)) in Hm1.
  change (st_LocalDiagType (state s0)) with (st_LocalDiagType (state s)) in Hg1.
  change (NeedBfdPacketUpdate s0) with (NeedBfdPacketUpdate s) in Hn1.
  change (RemoteSessionStateOf s0) with (RemoteSessionStateOf s) in Hn1. clearbody s1. clear Hr0 s0 Hb.
  destruct (demand_mode_spec p s1 Hr1) as (s2 & -> & Hr2 & Hc2 & Hio2). rewrite bind_Ok.
  destruct (poll_spec p s2 Hr2) as (Hr3 & Hc3 & Hse3 & Hb3 & Hst3 & Hf3 & Hch3 & Hp3 & Hn3). set (s3 := ProcessPollSequence p s2) in *. clearbody s3.
  set (stops := (s_rxInterval s3 =? 0) || _ || _).
  assert (H4 : keeps (if stops then stop_sessionTimer s3 else Ok s3) s3).
  { destruct stops; auto using stop_session_keeps, Ok_keeps. }
  destruct H4 as (s4 & -> & Hr4 & Hc4 & Hio4). rewrite bind_Ok.
  assert (Hcore : core s4 = goto (c_local (core s)) (State p) (c_moved (core s)) (core s)) by congruence.
  assert (Hremote : RemoteSessionStateOf s4 = State p) by exact (f_equal c_remote Hcore).
  assert (Hlocal : SessionStateOf s4 = SessionStateOf s) by exact (f_equal c_local Hcore).
  destruct (remote_event_spec s4 Hr4) as (s5 & He5 & Hr5 & Hc5 & Hio5); [rewrite Hremote; apply Hp|].
  rewrite He5, bind_Ok, Hremote. cbn [fst snd].
  destruct (EventHandler_core now (event_of (State p)) s5 Hr5) as (s6 & He6 & Hr6 & Hc6).
  { change (is_state (c_local (core s5))). rewrite Hc5. change (is_state (SessionStateOf s4)). by rewrite Hlocal. }
  rewrite He6. exists s6. split; [done|]. apply EventHandler_io in He6.
  assert (Hio : same_io s3 s6) by (etransitivity; [exact Hio4|]; etransitivity; [exact Hio5 | exact He6]).
  assert (Howes : owes p s2 = owes p s).
  { unfold owes. change (SessionStateOf s2) with (c_local (core s2)). rewrite Hc2.
    change (c_local (core s1)) with (SessionStateOf s1).
    change (SessionStateOf s1) with (c_local (core s1)). by rewrite Hc1. }
  destruct Hio as [Hsent Hbuf [Hloc Hrem] Hdem Hfin Hch Hpk Hmu Hne Hdi],
    Hio2 as [Hsent2 Hbuf2 [Hloc2 Hrem2] Hdem2 Hfin2 _ Hpk2 Hmu2 Hne2 Hdi2].
  unfold diag_ok in *. rewrite Hst3 in Hloc, Hrem, Hdem, Hmu, Hdi. rewrite Howes in Hf3, Hch3.
  constructor; [done | | | | | | | | | by rewrite Hpk, Hp3, Hpk2 | by rewrite Hmu, Hmu2 | | by auto].
  - unfold c_packet. by rewrite Hc6, Hc5, Hcore.
  - by rewrite Hsent, Hse3, Hsent2.
  - by rewrite Hbuf, Hb3, Hbuf2.
  - by rewrite Hloc, Hloc2.
  - by rewrite Hrem, Hrem2.
  - by rewrite Hdem, Hdem2.
  - rewrite Hfin, Hf3, Hfin2. cbn [s_pollSequenceFinal upd_state set_state]. by rewrite <- Hf1.
  - intros Ho. by rewrite Hch, Hch3.
  - unfold diag_ok. rewrite <- Hg1. auto.
Qed.
