(* ===== verification/BfdSpec.v ===== *)
(** What a BFD session promises: its state machine refines a small one, which is that of RFC 5880 but for the
    administrative state of the other end; it never crashes; what it notifies; polls are answered. Where
    it does not keep to the RFC, the input that shows it. *)
From stdpp Require Import base numbers list strings.
From Stdlib Require Import ZArith Lia.
From S2P Require Import Prelude GoNet GoCrypto BfdPacket BfdPacketFacts BfdSession BfdSessionFacts.
Open Scope Z_scope.

(** ** Inputs of a session whose client runs *)

Inductive session_event :=
  | Received (now : Z) (p : BfdControlPacket)
  | TxTimer (written : bool)
  | SessionTimer (now : Z)
  | AdminUp (now : Z)
  | AdminDown (now : Z).
Definition session_handle (e : session_event) (s : BfdSession) : sresult BfdSession :=
  match e with
  | Received now p => StartSessionServer now p s
  | TxTimer written => SendPeriodicControlPackets written s
  | SessionTimer now => HandleSessionTimeout now s
  | AdminUp now => StartBfdSession now s
  | AdminDown now => StopBfdSession now s
  end.
Definition session_run (es : list session_event) (s : BfdSession) : sresult BfdSession :=
  foldl (fun r e => s ← r; session_handle e s) (Ok s) es.

Definition event_ok (e : session_event) : Prop := match e with Received _ p => packet_ok p | _ => True end.

(** The same inputs on the core; [accepted]: a packet is processed. *)
Definition c_handle (accepted : BfdControlPacket -> bool) (e : session_event) (c : Core) : Core :=
  match e with
  | Received _ p => if accepted p then c_packet (State p) c else c
  | TxTimer _ => c
  | SessionTimer _ => c_event TIMEOUT (if c_moved c then goto (c_local c) STATE_DOWN false c else c)
  | AdminUp _ => c_event ADMIN_UP (goto STATE_DOWN (c_remote c) (c_moved c) c)
  | AdminDown _ => c_event ADMIN_DOWN c
  end.

(** What has been published is an alternation of up and down. *)
Fixpoint published (last : bool) (l : list bool) : option bool :=
  match l with
  | [] => Some last
  | b :: l => if Bool.eqb b last then None else published b l
  end.

Record core_ok (c : Core) : Prop := {
  ok_local : is_state (c_local c);
  ok_remote : is_state (c_remote c);
  ok_published : published false (snd <$> c_notifications c) = Some (c_notified c);
  ok_address : Forall (fun n => n.1 = c_ip c) (c_notifications c);
  ok_up : c_up c = true -> c_notified c = true;
}.
Definition session_ok (s : BfdSession) : Prop := runs s /\ core_ok (core s).

(** ** The invariant on the core *)

Lemma published_snoc l : forall b b', published b (l ++ [b']) =
  match published b l with Some x => if Bool.eqb b' x then None else Some b' | None => None end.
Proof.
  induction l as [|x l IH]; intros b b'; cbn; [done|]. destruct (Bool.eqb x b); [done | apply IH].
Qed.

(** What holds of a core before it is notified. *)
Record core_pre (c : Core) : Prop := {
  pre_local : is_state (c_local c);
  pre_remote : is_state (c_remote c);
  pre_published : published false (snd <$> c_notifications c) = Some (c_notified c);
  pre_address : Forall (fun n => n.1 = c_ip c) (c_notifications c);
}.
Lemma core_ok_pre c : core_ok c -> core_pre c.
Proof. by intros []. Qed.

Lemma notify_ok c : core_pre c -> core_ok (notify c).
Proof.
  intros []. unfold notify. destruct (Bool.eqb _ _) eqn:He.
  { apply Bool.eqb_prop in He. by constructor; [.. | rewrite He]. }
  constructor; cbn; try done.
  - rewrite fmap_app. change (snd <$> [(c_ip c, c_up c)]) with [c_up c].
    by rewrite published_snoc, pre_published0, He.
  - by apply Forall_app; split; [|constructor].
Qed.

Lemma goto_pre local remote moved c : core_pre c -> is_state local -> is_state remote ->
  core_pre (goto local remote moved c).
Proof. intros [] ? ?. by constructor. Qed.

Lemma state_0 : is_state STATE_ADMIN_DOWN. Proof. by unfold is_state, STATE_ADMIN_DOWN. Qed.
Lemma state_1 : is_state STATE_DOWN. Proof. by unfold is_state, STATE_DOWN. Qed.
Lemma state_2 : is_state STATE_INIT. Proof. by unfold is_state, STATE_INIT. Qed.
Lemma state_3 : is_state STATE_UP. Proof. by unfold is_state, STATE_UP. Qed.

(** A core that an event is about to change: it may be up without a notification only if the event makes one. *)
Lemma c_event_ok event c : core_pre c -> (c_up c = true -> c_notified c = true \/ event = REMOTE_ADMIN_DOWN /\
    c_local c <> STATE_ADMIN_DOWN) -> core_ok (c_event event c).
Proof.
  intros Hp Hup. assert (Hsame : event <> REMOTE_ADMIN_DOWN -> core_ok c).
  { intros Hne. destruct Hp. constructor; try done. intros Hu. by destruct (Hup Hu) as [|[? _]]. }
  assert (Hinit : event = REMOTE_DOWN -> c_local c = STATE_DOWN -> core_ok (c_init c)).
  { intros -> Hd. destruct Hp. constructor; try done; try apply state_2. unfold c_up. cbn. intros Hu.
    destruct Hup as [|[? _]]; [|done..]. unfold c_up. rewrite Hd. by cbn. }
  unfold c_event, c_down, c_local_admin_down, c_remote_admin_down, c_go_up.
  destruct (c_local c =? STATE_ADMIN_DOWN) eqn:H0.
  { apply Z.eqb_eq in H0. destruct Hp. constructor; try done. intros Hu. by destruct (Hup Hu) as [|[_ ?]]. }
  assert (Hg : forall l r m, is_state l -> is_state r -> core_ok (notify (goto l r m c))).
  { intros. by apply notify_ok, goto_pre. }
  pose proof (pre_local c Hp). pose proof (pre_remote c Hp).
  destruct event; repeat case_match; zhyp; auto using state_0, state_1, state_2, state_3.
Qed.

Lemma c_packet_ok r c : core_ok c -> is_state r -> core_ok (c_packet r c).
Proof.
  intros Hc Hr. unfold c_packet. apply c_event_ok; [by apply goto_pre; [apply core_ok_pre | apply Hc |]|].
  unfold c_up. cbn. intros Hu. destruct (r =? STATE_ADMIN_DOWN) eqn:Hd.
  - apply Z.eqb_eq in Hd as ->. destruct (c_local c =? STATE_ADMIN_DOWN) eqn:Hl.
    + left. apply (ok_up c Hc). unfold c_up. by rewrite Hl, orb_true_r.
    + right. by apply Z.eqb_neq in Hl.
  - left. apply (ok_up c Hc). unfold c_up. rewrite orb_false_r in Hu. by rewrite Hu.
Qed.

(** ** The handlers refine the state machine on the core *)

Lemma Timeout_spec now s : runs s -> is_state (SessionStateOf s) ->
  exists s', HandleSessionTimeout now s = Ok s' /\ runs s' /\
    core s' = c_event TIMEOUT (if c_moved (core s) then goto (c_local (core s)) STATE_DOWN false (core s) else core s).
Proof.
  intros Hr Hs. unfold HandleSessionTimeout.
  set (s1 := if s_movedToDownState s then _ else s).
  assert (H1 : runs s1 /\ core s1 =
    (if c_moved (core s) then goto (c_local (core s)) STATE_DOWN false (core s) else core s)).
  { subst s1. cbn [c_moved core]. destruct (s_movedToDownState s); [split; [keep | reflexivity] | done]. }
  destruct H1 as (Hr1 & Hc1). rewrite <- Hc1.
  assert (Hl1 : SessionStateOf s1 = SessionStateOf s).
  { change (SessionStateOf s1) with (c_local (core s1)). rewrite Hc1. by destruct (c_moved _). }
  clearbody s1.
  set (s2 := upd_state (set_st_LocalDiagType DIAG_TIME_EXPIRED) s1).
  assert (Hr2 : runs s2) by (subst s2; keep).
  destruct (EventHandler_core now TIMEOUT s2 Hr2) as (s3 & -> & Hr3 & Hc3); [by change (SessionStateOf s2) with (SessionStateOf s1); rewrite Hl1|].
  rewrite bind_Ok. timers. eexists. split; [reflexivity|]. split; [keep | exact Hc3].
Qed.

Lemma Start_spec now s : runs s ->
  exists s', StartBfdSession now s = Ok s' /\ runs s' /\
    core s' = c_event ADMIN_UP (goto STATE_DOWN (c_remote (core s)) (c_moved (core s)) (core s)).
Proof.
  intros Hr. unfold StartBfdSession. timers.
  match goal with |- context [EventHandler _ _ ?y] => set (s1 := y) end.
  assert (Hr1 : runs s1) by (subst s1; keep). assert (Hs1 : is_state (SessionStateOf s1)) by apply state_1.
  change (goto STATE_DOWN _ _ _) with (core s1). clearbody s1. by apply EventHandler_core.
Qed.

Lemma Stop_spec now s : runs s -> is_state (SessionStateOf s) ->
  exists s', StopBfdSession now s = Ok s' /\ runs s' /\ core s' = c_event ADMIN_DOWN (core s).
Proof.
  intros Hr Hs. unfold StopBfdSession.
  destruct (EventHandler_core now ADMIN_DOWN s Hr Hs) as (s1 & -> & Hr1 & Hc1). rewrite bind_Ok.
  eexists. split; [reflexivity|]. split; [keep | exact Hc1].
Qed.

Lemma accepts_count s p : accepts (upd_state (fun st => set_st_NumRxPackets (u32 (st_NumRxPackets st + 1)) st) s) p = accepts s p.
Proof. reflexivity. Qed.

Lemma c_handle_ok accepted e c : core_ok c -> event_ok e -> core_ok (c_handle accepted e c).
Proof.
  intros Hc He. destruct e as [now p | w | now | now | now]; cbn [c_handle].
  - destruct (accepted p); [|done]. apply c_packet_ok; [done | apply He].
  - done.
  - assert (Hm : core_pre (if c_moved c then goto (c_local c) STATE_DOWN false c else c)).
    { apply core_ok_pre in Hc. destruct (c_moved c); [|done]. apply goto_pre; [done | apply Hc | apply state_1]. }
    apply c_event_ok; [done|]. intros Hu. left. destruct (c_moved c); [|by apply Hc].
    cbn. apply (ok_up c Hc). unfold c_up in *. cbn in Hu. rewrite orb_false_r in Hu. by rewrite Hu.
  - apply c_event_ok; [apply goto_pre; [by apply core_ok_pre | apply state_1 | apply Hc]|].
    intros Hu. left. cbn. apply (ok_up c Hc). unfold c_up in *. cbn in Hu. by rewrite Hu, orb_true_r.
  - apply c_event_ok; [by apply core_ok_pre|]. intros Hu. left. by apply Hc.
Qed.

Lemma handle_spec e s : session_ok s -> event_ok e ->
  exists s', session_handle e s = Ok s' /\ session_ok s' /\ core s' = c_handle (accepts s) e (core s).
Proof.
  intros [Hr Hc] He.
  assert (H : exists s', session_handle e s = Ok s' /\ runs s' /\ core s' = c_handle (accepts s) e (core s)).
  { destruct e as [now p | w | now | now | now]; cbn [session_handle c_handle].
    - unfold StartSessionServer. set (s1 := upd_state _ s). assert (Hr1 : runs s1) by (subst s1; keep).
      change (accepts s p) with (accepts s1 p). change (core s) with (core s1).
      assert (Hs1 : is_state (SessionStateOf s1)) by apply Hc. clearbody s1.
      destruct (Process_spec now p s1 Hr1 Hs1 He) as (s' & -> & Hs'). exists s'. split; [done|].
      destruct (accepts s1 p); [by destruct Hs' | by subst].
    - destruct (Send_spec w s Hr) as (s' & -> & []). eauto.
    - apply Timeout_spec; [done | apply Hc].
    - by apply Start_spec.
    - apply Stop_spec; [done | apply Hc]. }
  destruct H as (s' & Hs' & Hr' & Hc'). exists s'. split; [done|]. split; [|done]. split; [done|].
  rewrite Hc'. by apply c_handle_ok.
Qed.

(** ** Theorems *)

(** C20: a running session without authentication (it has an active client, armed timers, a connection and no
    authentication, and satisfies the invariant: [session_ok]) refines the small state machine: whatever packet as the
    decoder makes them, timer or order of the administrator comes, its handler ends normally, keeps the invariant, and
    changes the local and remote state and the notifications as the machine on the core does. A session with
    authentication ends the daemon when its first packet is built (authentication_crashes), and one on a link of an
    aggregate has no active client and handles nothing (perlink_never_up): of these the theorem says nothing. *)
Theorem session_refines_core e s : session_ok s -> event_ok e ->
  exists s', session_handle e s = Ok s' /\ session_ok s' /\ core s' = c_handle (accepts s) e (core s).
Proof. apply handle_spec. Qed.

Lemma run_snoc es e s : session_run (es ++ [e]) s = (s' ← session_run es s; session_handle e s').
Proof. unfold session_run. by rewrite foldl_app. Qed.

(** C21: from any sequence of inputs a running session without authentication comes out running: no handler panics,
    the states stay in their range; its notifications are an alternation of up and down for its address that ends with
    what it last reported, and a session that is up, or whose ends were shut by an administrator, is reported up.
    Running is [session_ok]: an active client, armed timers, a connection, no authentication; the packets received
    have a state of RFC 5880 and, if they say they are authenticated, the section ([packet_ok]). With authentication
    the first transmission panics (authentication_crashes). *)
Theorem session_invariant_run es s : session_ok s -> Forall event_ok es ->
  exists s', session_run es s = Ok s' /\ session_ok s'.
Proof.
  intros Hs. induction es as [|e es IH] using rev_ind; intros He.
  - by exists s.
  - apply Forall_app in He as [Hes [He _]%Forall_cons]. destruct (IH Hes) as (s1 & H1 & Hs1).
    destruct (handle_spec e s1 Hs1 He) as (s2 & H2 & Hs2 & _). exists s2. by rewrite run_snoc, H1.
Qed.

(** *** RFC 5880, 6.8.6 *)

(** The state after a packet, given the state in the packet. *)
Definition rfc_state (local remote : BfdSessionState) : BfdSessionState :=
  if local =? STATE_ADMIN_DOWN then STATE_ADMIN_DOWN
  else if remote =? STATE_ADMIN_DOWN then STATE_DOWN
  else if local =? STATE_DOWN then
    if remote =? STATE_DOWN then STATE_INIT else if remote =? STATE_INIT then STATE_UP else STATE_DOWN
  else if local =? STATE_INIT then
    if (remote =? STATE_INIT) || (remote =? STATE_UP) then STATE_UP else STATE_INIT
  else if remote =? STATE_DOWN then STATE_DOWN else STATE_UP.

Lemma c_local_notify c : c_local (notify c) = c_local c.
Proof. unfold notify. by destruct (Bool.eqb _ _). Qed.
Lemma c_remote_notify c : c_remote (notify c) = c_remote c.
Proof. unfold notify. by destruct (Bool.eqb _ _). Qed.

Lemma c_packet_local r c : is_state (c_local c) -> is_state r ->
  c_local (c_packet r c) = if r =? STATE_ADMIN_DOWN then c_local c else rfc_state (c_local c) r.
Proof.
  intros Hl Hr. unfold c_packet, c_event, c_down, c_remote_admin_down, c_go_up. cbn [goto c_local].
  destruct (is_state_cases _ Hl) as [-> | [-> | [-> | ->]]], (is_state_cases _ Hr) as [-> | [-> | [-> | ->]]];
    cbn; rewrite ?c_local_notify; reflexivity.
Qed.
Lemma c_packet_remote r c : is_state (c_local c) -> is_state r -> c_remote (c_packet r c) = r.
Proof.
  intros Hl Hr. unfold c_packet, c_event, c_down, c_remote_admin_down, c_go_up. cbn [goto c_local].
  destruct (is_state_cases _ Hl) as [-> | [-> | [-> | ->]]], (is_state_cases _ Hr) as [-> | [-> | [-> | ->]]];
    cbn; rewrite ?c_remote_notify; reflexivity.
Qed.

(** C33: a packet that is accepted moves a session that is running (active client, armed timers, connection, no
    authentication: [session_ok]) as RFC 5880 says, but for one state of the packet: when the other end is shut by its
    administrator, the session stays in the state it is in (up, say) instead of going down. Of sessions that are not
    running nothing is said: one on a link of an aggregate, whose client is never active, is moved by no packet
    (perlink_never_up). *)
Theorem packet_moves_as_rfc5880 now p s : session_ok s -> packet_ok p -> accepts s p = true ->
  exists s', StartSessionServer now p s = Ok s' /\ session_ok s' /\
    SessionStateOf s' = (if State p =? STATE_ADMIN_DOWN then SessionStateOf s else rfc_state (SessionStateOf s) (State p)) /\
    RemoteSessionStateOf s' = State p.
Proof.
  intros Hs Hp Ha. destruct (handle_spec (Received now p) s Hs Hp) as (s' & He & Hs' & Hc). cbn in Hc. rewrite Ha in Hc.
  exists s'. split; [exact He|]. split; [done|].
  change (SessionStateOf s') with (c_local (core s')). change (RemoteSessionStateOf s') with (c_remote (core s')).
  rewrite Hc. destruct Hs as [_ []]. split; [apply c_packet_local; [done | apply Hp] | apply c_packet_remote; [done | apply Hp]].
Qed.

(** When no packet comes in time the session goes down and the protocols that watch it are told, unless an
    administrator shut one of the ends. *)
Theorem timeout_takes_down now s : session_ok s ->
  SessionStateOf s <> STATE_ADMIN_DOWN -> RemoteSessionStateOf s <> STATE_ADMIN_DOWN ->
  SessionStateOf s <> STATE_DOWN ->
  exists s', HandleSessionTimeout now s = Ok s' /\ session_ok s' /\
    SessionStateOf s' = STATE_DOWN /\ s_notifiedState s' = false.
Proof.
  intros Hs Ha Hra Hd. destruct (handle_spec (SessionTimer now) s Hs I) as (s' & He & Hs' & Hc).
  exists s'. split; [exact He|]. split; [done|]. cbn [c_handle] in Hc.
  change (SessionStateOf s') with (c_local (core s')). change (s_notifiedState s') with (c_notified (core s')).
  rewrite Hc. clear He Hs' Hc. set (c := if c_moved (core s) then _ else _).
  assert (Hl : c_local c = SessionStateOf s) by (subst c; by destruct (c_moved _)).
  assert (Hr : c_remote c <> STATE_ADMIN_DOWN) by (subst c; by destruct (c_moved _)).
  unfold c_event. rewrite Hl, (proj2 (Z.eqb_neq _ _) Ha), (proj2 (Z.eqb_neq _ _) Hd). unfold c_down.
  split; [by rewrite c_local_notify|].
  unfold notify. assert (Hu : c_up (goto STATE_DOWN (c_remote c) true c) = false).
  { unfold c_up. cbn. by apply Z.eqb_neq. }
  rewrite Hu. by destruct (Bool.eqb _ _) eqn:Hb; [apply Bool.eqb_prop in Hb|].
Qed.

(** *** Polls *)

Definition final_bit (w : bytes) : bool := flag (second w) BFD_FINAL.

(** A poll is answered once: the next packet that is sent has the final bit, and the one after it does not. *)
Theorem poll_answered_once now p s : session_ok s -> packet_ok p -> accepts s p = true ->
  Poll p = true -> SessionStateOf s <> STATE_ADMIN_DOWN ->
  exists s1 s2 s3 w w',
    StartSessionServer now p s = Ok s1 /\
    SendPeriodicControlPackets true s1 = Ok s2 /\ s_sent s2 = s_sent s1 ++ [w] /\ final_bit w = true /\
    SendPeriodicControlPackets true s2 = Ok s3 /\ s_sent s3 = s_sent s2 ++ [w'] /\ final_bit w' = false.
Proof.
  intros [Hr Hc] Hp Ha Hpoll Hl. set (s0 := upd_state (fun st => set_st_NumRxPackets (u32 (st_NumRxPackets st + 1)) st) s).
  assert (Hr0 : runs s0) by (subst s0; keep).
  destruct (Process_spec now p s0 Hr0) as (s1 & He1 & H1); [apply Hc | done|].
  change (accepts s0 p) with (accepts s p) in H1. rewrite Ha in H1. destruct H1 as [Hr1 Hc1 _ _ _ _ _ Hf Hch].
  assert (Ho : owes p s0 = true).
  { unfold owes. change (SessionStateOf s0) with (SessionStateOf s). rewrite (proj2 (Z.eqb_neq _ _) Hl). by rewrite Hpoll. }
  rewrite Ho in Hf. specialize (Hch Ho).
  assert (Hs1 : is_state (SessionStateOf s1)).
  { change (is_state (c_local (core s1))). rewrite Hc1. apply c_packet_ok; [apply Hc | apply Hp]. }
  assert (Hn1 : NeedBfdPacketUpdate s1 = true) by (unfold NeedBfdPacketUpdate; rewrite Hch; by rewrite orb_true_r).
  destruct (Send_spec true s1 Hr1) as (s2 & He2 & [Hr2 Hc2 Hw2 Hb2 Hn2 _]).
  destruct (Send_spec true s2 Hr2) as (s3 & He3 & [_ _ Hw3 _ _ _]).
  exists s1, s2, s3, (to_send s1), (to_send s2). do 3 (split; [done|]). split.
  { unfold to_send, final_bit. rewrite Hn1, encode_final by done. exact Hf. }
  do 2 (split; [done|]). unfold to_send. rewrite Hn2, Hb2. unfold left_over, final_bit. rewrite Hn1.
  assert (Hst : State (settled s1) = SessionStateOf s1) by (unfold settled; by destruct (both_up s1 && _)).
  rewrite encode_final by (by rewrite Hst). unfold settled. by destruct (_ && _).
Qed.

(** *** Authentication *)

Lemma demand_auth s : s_sessionTimer s <> None -> exists s',
  (let wasDemand := Demand (s_bfdPacket s) in
   let s := upd_packet (set_Demand (st_DemandMode (state s))) s in
   let isDemand := Demand (s_bfdPacket s) in
   s ← (if negb wasDemand && isDemand then stop_sessionTimer s else Ok s);
   if wasDemand && negb isDemand then reset_sessionTimer (s_rxInterval s) s else Ok s) = Ok s' /\
  s_authEnabled s' = s_authEnabled s /\ AuthHeader (s_bfdPacket s') = AuthHeader (s_bfdPacket s).
Proof.
  intros Ht. cbv zeta.
  set (s1 := upd_packet (set_Demand (st_DemandMode (state s))) s).
  assert (H1 : s_authEnabled s1 = s_authEnabled s /\ AuthHeader (s_bfdPacket s1) = AuthHeader (s_bfdPacket s) /\
    s_sessionTimer s1 <> None) by done.
  clearbody s1. destruct H1 as (<- & <- & Ht1). unfold stop_sessionTimer, reset_sessionTimer.
  destruct (s_sessionTimer s1) eqn:Hst; [|done].
  destruct (Demand (s_bfdPacket s)), (Demand (s_bfdPacket s1)); cbn [negb andb]; rewrite bind_Ok, ?Hst; eauto.
Qed.
Lemma intervals_auth s : s_sessionTimer s <> None -> exists s', update_intervals s = Ok s' /\
  s_authEnabled s' = s_authEnabled s /\ AuthHeader (s_bfdPacket s') = AuthHeader (s_bfdPacket s).
Proof.
  intros Ht. unfold update_intervals. fold (starting (s_bfdPacket s)). destruct (_ && _); [|eauto].
  set (s1 := if starting (s_bfdPacket s) then _ else s).
  assert (H1 : s_authEnabled s1 = s_authEnabled s /\ AuthHeader (s_bfdPacket s1) = AuthHeader (s_bfdPacket s) /\
    s_sessionTimer s1 <> None) by (subst s1; rewrite initiate_eq; by destruct (starting _)).
  clearbody s1. destruct H1 as (<- & <- & Ht1). by apply demand_auth.
Qed.

(** With authentication configured, a session cannot send anything: the packet it fills in has no authentication
    section, the pointer to it is nil, and the transmit timer ends the daemon. *)
Theorem authentication_crashes written s :
  s_authEnabled s = true -> AuthHeader (s_bfdPacket s) = None -> s_paramChanged s = true ->
  (s_sessionTimer s <> None) -> SendPeriodicControlPackets written s = Panic.
Proof.
  intros Ha Hh Hp Ht. unfold SendPeriodicControlPackets, NeedBfdPacketUpdate. rewrite Hp. cbn [orb].
  assert (Hu : UpdateBfdSessionControlPacket s = Panic).
  { unfold UpdateBfdSessionControlPacket.
    set (s1 := upd_packet (set_YourDiscriminator _) _).
    assert (H1 : s_authEnabled s1 = true /\ AuthHeader (s_bfdPacket s1) = None /\ s_sessionTimer s1 <> None) by done.
    clearbody s1. destruct H1 as (Ha1 & Hh1 & Ht1).
    destruct (intervals_auth s1 Ht1) as (s2 & -> & Ha2 & Hh2). rewrite Ha1 in Ha2. rewrite Hh1 in Hh2.
    rewrite bind_Ok. unfold update_auth.
    set (s3 := set_s_pollSequenceFinal false _).
    assert (H3 : s_authEnabled s3 = true /\ AuthHeader (s_bfdPacket s3) = None) by done. clearbody s3.
    destruct H3 as [-> Hh3]. change (AuthHeader (s_bfdPacket (upd_packet (set_AuthPresent true) s3))) with (AuthHeader (s_bfdPacket s3)).
    by rewrite Hh3. }
  unfold refresh_packet. by rewrite Hu.
Qed.

Section digest.
Context (s : BfdSession) (p : BfdControlPacket) (h : BfdAuthHeader).
Hypotheses (Hp : AuthPresent p = true) (Hh : AuthHeader p = Some h).
Hypotheses (Ht : ah_Type h = s_authType s) (Hk : AuthKeyID h = s_authKeyId s).

Lemma digest_accepted (f : bytes -> bytes) :
  is_md5 (ah_Type h) = true /\ f = md5_Sum \/ is_sha1 (ah_Type h) = true /\ f = sha1_Sum ->
  st_ReceivedAuthSeq (state s) <= SequenceNumber h ->
  AuthenticateReceivedControlPacket s p = Ok (bool_decide (AuthData h = f [])).
Proof.
  intros Hf Hseq. unfold AuthenticateReceivedControlPacket. rewrite Hp, Hh. cbn [negb].
  rewrite Ht, Z.eqb_refl, Hk, Z.eqb_refl. rewrite Ht in Hf.
  assert (Hns : (s_authType s =? BFD_AUTH_TYPE_SIMPLE) = false).
  { apply Z.eqb_neq. intros Hs. rewrite Hs in Hf. by destruct Hf as [[? _] | [? _]]. }
  rewrite Hns. replace (_ >=? _) with true by (symmetry; rewrite Z.geb_leb; by apply Z.leb_le). cbn [andb].
  destruct Hf as [[Hf ->] | [Hf ->]]; rewrite Hf; [done|].
  destruct (is_md5 (s_authType s)) eqn:Hm; [|done].
  unfold is_md5, is_sha1, BFD_AUTH_TYPE_KEYED_MD5, BFD_AUTH_TYPE_METICULOUS_MD5, BFD_AUTH_TYPE_KEYED_SHA1,
    BFD_AUTH_TYPE_METICULOUS_SHA1 in *. lia.
Qed.
End digest.

(** Keyed authentication does not depend on the key or the packet: the digest is compared with that of no bytes at
    all. Whoever knows the type and the number of the key is authenticated, and whoever knows the key is not. *)
Theorem authentication_ignores_key s p h :
  AuthPresent p = true -> AuthHeader p = Some h -> ah_Type h = s_authType s -> AuthKeyID h = s_authKeyId s ->
  st_ReceivedAuthSeq (state s) <= SequenceNumber h ->
  (is_md5 (ah_Type h) = true ->
   AuthenticateReceivedControlPacket s p =
     Ok (bool_decide (AuthData h = [212; 29; 140; 217; 143; 0; 178; 4; 233; 128; 9; 152; 236; 248; 66; 126]))) /\
  (is_sha1 (ah_Type h) = true ->
   AuthenticateReceivedControlPacket s p =
     Ok (bool_decide (AuthData h = [218; 57; 163; 238; 94; 107; 75; 13; 50; 85; 191; 239; 149; 96; 24; 144; 175; 216; 7; 9]))).
Proof.
  intros Hp Hh Ht Hk Hs.
  split; intros Hd; [rewrite (digest_accepted s p h Hp Hh Ht Hk md5_Sum) | rewrite (digest_accepted s p h Hp Hh Ht Hk sha1_Sum)];
    auto; do 2 f_equal; vm_compute; reflexivity.
Qed.

(** *** Sessions on the links of an aggregate *)

Inductive perlink_event :=
  | LinkReceived (now : Z) (SrcMAC DstMAC : bytes) (p : BfdControlPacket)
  | LinkTx (written : bool)
  | LinkTimeout (now : Z)
  | LinkStop (now : Z)
  | LinkStart (now : Z).
Definition perlink_handle (e : perlink_event) (s : BfdSession) : sresult BfdSession :=
  match e with
  | LinkReceived now src dst p => perlink_receive now src dst p s
  | LinkTx written => perlink_transmit written s
  | LinkTimeout now => perlink_timeout now s
  | LinkStop now => StopBfdSession now s
  | LinkStart now => StartBfdSession now s
  end.

Definition stuck_down (s : BfdSession) : Prop := s_isClientActive s = false /\ SessionStateOf s = STATE_DOWN.
Lemma inactive_event now e s : s_isClientActive s = false -> EventHandler now e s = Ok s.
Proof. intros H. unfold EventHandler, IsSessionActive. by rewrite H. Qed.

Lemma stuck_timer (f : option Timer -> BfdSession -> BfdSession) (r : option Timer) (t : Timer) s s' :
  (forall v, s_isClientActive (f v s) = s_isClientActive s /\ SessionStateOf (f v s) = SessionStateOf s) ->
  stuck_down s -> match r with None => Panic | Some _ => Ok (E := Empty_set) (f (Some t) s) end = Ok s' -> stuck_down s'.
Proof. intros Hf Hs. destruct r; [|done]. intros [= <-]. destruct (Hf (Some t)), Hs. split; congruence. Qed.
Lemma stuck_tx ms s s' : stuck_down s -> reset_txTimer ms s = Ok s' -> stuck_down s'.
Proof. by apply (stuck_timer set_s_txTimer). Qed.
Lemma stuck_stop_tx s s' : stuck_down s -> stop_txTimer s = Ok s' -> stuck_down s'.
Proof. by apply (stuck_timer set_s_txTimer). Qed.
Lemma stuck_session ms s s' : stuck_down s -> reset_sessionTimer ms s = Ok s' -> stuck_down s'.
Proof. by apply (stuck_timer set_s_sessionTimer). Qed.
Lemma stuck_stop_session s s' : stuck_down s -> stop_sessionTimer s = Ok s' -> stuck_down s'.
Proof. by apply (stuck_timer set_s_sessionTimer). Qed.

Lemma stuck_demand p s s' : stuck_down s -> RemoteChangedDemandMode p s = Ok s' -> stuck_down s'.
Proof.
  intros Hs H. unfold RemoteChangedDemandMode in H.
  set (s1 := upd_state _ s) in H. assert (H1 : stuck_down s1) by done. clearbody s1. clear Hs.
  apply bind_Ok_inv in H as (s2 & H2 & H3). assert (Hs2 : stuck_down s2).
  { destruct (st_RemoteDemandMode (state s1)); [by eapply stuck_stop_tx | by injection H2 as <-]. }
  destruct (_ && _); [by eapply stuck_tx | by injection H3 as <-].
Qed.
Lemma stuck_remote_event s r : stuck_down s -> remote_event s = Ok r -> stuck_down r.1.
Proof.
  intros Hs. unfold remote_event. destruct (_ =? STATE_DOWN).
  { intros [= <-]. cbn [fst]. by destruct (negb _). }
  destruct (_ =? STATE_INIT); [by intros [= <-]|]. destruct (_ =? STATE_UP); [|by destruct (_ =? _); intros [= <-]].
  intros (s1 & H1 & [= <-])%bind_Ok_inv. cbn [fst].
  rewrite (proj2 Hs) in H1. cbn in H1. by injection H1 as <-.
Qed.
Lemma stuck_process now p s s' : stuck_down s -> ProcessBfdPacket now p s = Ok s' -> stuck_down s'.
Proof.
  intros Hs. unfold ProcessBfdPacket. intros (b & _ & H)%bind_Ok_inv. destruct (negb b); [by injection H as <-|].
  destruct (negb _); [by injection H as <-|].
  assert (H1 : stuck_down (CheckAnyRemoteParamChanged p (set_s_rxInterval (packet_rx p s) s))).
  { unfold CheckAnyRemoteParamChanged. by destruct (_ || _). }
  set (s1 := CheckAnyRemoteParamChanged p _) in *. clearbody s1.
  apply bind_Ok_inv in H as (s2 & H2%stuck_demand & H); [|done].
  assert (H3 : stuck_down (ProcessPollSequence p s2)).
  { unfold ProcessPollSequence. by destruct (negb _), (Poll p), (Final p). }
  set (s3 := ProcessPollSequence p s2) in *. clearbody s3.
  apply bind_Ok_inv in H as (s4 & H4 & H).
  assert (Hs4 : stuck_down s4) by (destruct (_ || _); [by eapply stuck_stop_session | by injection H4 as <-]).
  apply bind_Ok_inv in H as (r & Hr%stuck_remote_event & H); [|done].
  rewrite inactive_event in H by apply Hr. by injection H as <-.
Qed.
Lemma stuck_auth s s' : stuck_down s -> update_auth s = Ok s' -> stuck_down s'.
Proof.
  intros Hs H. unfold update_auth in H. destruct (s_authEnabled s); [|by injection H as <-].
  destruct (AuthHeader _); [|done]. injection H as <-. by destruct (_ || _).
Qed.
Lemma stuck_intervals s s' : stuck_down s -> update_intervals s = Ok s' -> stuck_down s'.
Proof.
  intros Hs. unfold update_intervals. assert (Hu : (SessionStateOf s =? STATE_UP) = false) by (by rewrite (proj2 Hs)).
  rewrite Hu. cbn [andb]. by intros [= <-].
Qed.
Lemma stuck_update s s' : stuck_down s -> UpdateBfdSessionControlPacket s = Ok s' -> stuck_down s'.
Proof.
  intros Hs. unfold UpdateBfdSessionControlPacket.
  set (s1 := upd_packet (set_YourDiscriminator _) _). assert (H1 : stuck_down s1) by done. clearbody s1.
  intros (s2 & H2%stuck_intervals & H)%bind_Ok_inv; [|done].
  set (s3 := set_s_pollSequenceFinal _ _) in H. assert (H3 : stuck_down s3) by done. clearbody s3.
  apply bind_Ok_inv in H as (s4 & H4%stuck_auth & H); [|done]. by injection H as <-.
Qed.

Lemma stuck_eq s s' : s_isClientActive s' = s_isClientActive s -> SessionStateOf s' = SessionStateOf s ->
  stuck_down s -> stuck_down s'.
Proof. intros H1 H2 [? ?]. split; congruence. Qed.
Lemma stuck_receive now src dst p s s' : stuck_down s -> perlink_receive now src dst p s = Ok s' -> stuck_down s'.
Proof.
  intros Hs. unfold perlink_receive. apply stuck_process. apply (stuck_eq s); [| |done]; by destruct (bool_decide _).
Qed.
Lemma stuck_transmit w s s' : stuck_down s -> perlink_transmit w s = Ok s' -> stuck_down s'.
Proof.
  intros Hs. unfold perlink_transmit. intros (s1 & H1%stuck_update & H)%bind_Ok_inv; [|done].
  destruct w; [|by injection H as <-]. revert H. apply stuck_tx.
  apply (stuck_eq s1); [| |done]; by destruct (_ =? _).
Qed.
Lemma stuck_timeout now s s' : stuck_down s -> perlink_timeout now s = Ok s' -> stuck_down s'.
Proof.
  intros Hs. unfold perlink_timeout. rewrite inactive_event by apply Hs. rewrite bind_Ok. by apply stuck_session.
Qed.
Lemma stuck_stop now s s' : stuck_down s -> StopBfdSession now s = Ok s' -> stuck_down s'.
Proof. intros Hs. unfold StopBfdSession. rewrite inactive_event by apply Hs. by intros [= <-]. Qed.
Lemma stuck_start now s s' : stuck_down s -> StartBfdSession now s = Ok s' -> stuck_down s'.
Proof.
  intros Hs. unfold StartBfdSession. intros (s1 & H1%stuck_session & H)%bind_Ok_inv; [|done].
  apply bind_Ok_inv in H as (s2 & H2%stuck_tx & H); [|done]. rewrite inactive_event in H by apply H2.
  injection H as <-. split; [apply H2 | done].
Qed.

(** A session on a link of an aggregate never leaves the down state: its client does not mark it active, and
    the state machine of an inactive session handles no event. *)
Theorem perlink_never_up e s s' : s_isClientActive s = false -> SessionStateOf s = STATE_DOWN ->
  perlink_handle e s = Ok s' -> s_isClientActive s' = false /\ SessionStateOf s' = STATE_DOWN.
Proof.
  intros Ha Hd. assert (Hs : stuck_down s) by done.
  destruct e; revert Hs; [apply stuck_receive | apply stuck_transmit | apply stuck_timeout | apply stuck_stop | apply stuck_start].
Qed.

(** *** Detection time *)

(** The fields that decide the detection of failures. *)
Definition rx_of (s : BfdSession) : Z * option Timer * Z * Z :=
  (s_rxInterval s, s_sessionTimer s, SessionStateOf s, RemoteSessionStateOf s).

Lemma demand_mode_rx p s s' : RemoteChangedDemandMode p s = Ok s' -> rx_of s' = rx_of s.
Proof.
  unfold RemoteChangedDemandMode. set (s1 := upd_state _ s). assert (H1 : rx_of s1 = rx_of s) by done. rewrite <- H1.
  clearbody s1. intros (s2 & H2 & H3)%bind_Ok_inv. transitivity (rx_of s2).
  - destruct (_ && _); [|by injection H3 as <-].
    unfold reset_txTimer in H3. destruct (s_txTimer s2); [|done]. by injection H3 as <-.
  - destruct (st_RemoteDemandMode (state s1)); [|by injection H2 as <-].
    unfold stop_txTimer in H2. destruct (s_txTimer s1); [|done]. by injection H2 as <-.
Qed.
Lemma poll_rx p s : rx_of (ProcessPollSequence p s) = rx_of s.
Proof. unfold ProcessPollSequence. by destruct (negb _), (Poll p), (Final p). Qed.
Lemma check_rx p s : rx_of (CheckAnyRemoteParamChanged p s) = (s_rxInterval s, s_sessionTimer s, SessionStateOf s, State p).
Proof. unfold CheckAnyRemoteParamChanged. by destruct (_ || _). Qed.

Lemma remote_up_rx s s' e : RemoteSessionStateOf s = STATE_UP -> remote_event s = Ok (s', e) ->
  rx_of s' = rx_of s /\ e = REMOTE_UP.
Proof.
  intros Hr. unfold remote_event. rewrite Hr. cbn [Z.eqb Pos.eqb STATE_UP STATE_DOWN STATE_INIT].
  intros (s1 & H1 & [= <- <-])%bind_Ok_inv. split; [|done].
  destruct (_ =? STATE_UP); [|by injection H1 as <-]. destruct (negb _); [|by injection H1 as <-].
  unfold reset_txTimer in H1. cbn [s_txTimer set_s_txInterval] in H1.
  destruct (s_txTimer s); [|done]. by injection H1 as <-.
Qed.

Lemma up_event now s s' : SessionStateOf s = STATE_UP -> EventHandler now REMOTE_UP s = Ok s' -> s' = s.
Proof.
  intros Hl. unfold EventHandler. destruct (negb _); [by intros [= <-]|]. rewrite Hl.
  cbn [Z.eqb Pos.eqb STATE_UP STATE_DOWN STATE_INIT STATE_ADMIN_DOWN]. by intros [= <-].
Qed.

Lemma process_up now p s s' : runs s -> accepts s p = true -> SessionStateOf s = STATE_UP -> State p = STATE_UP ->
  ProcessBfdPacket now p s = Ok s' ->
  s_rxInterval s' = packet_rx p s /\ (s_rxInterval s' = 0 -> s_sessionTimer s' = Some Stopped) /\
  SessionStateOf s' = STATE_UP.
Proof.
  unfold accepts, ProcessBfdPacket. intros Hr Ha Hl Hst He.
  destruct (AuthenticateReceivedControlPacket s p) as [[] | | |]; try done. rewrite bind_Ok in He. cbn [negb] in He.
  rewrite Ha in He. cbn [negb] in He.
  pose proof (check_rx p (set_s_rxInterval (packet_rx p s) s)) as H1.
  destruct (check_spec p (set_s_rxInterval (packet_rx p s) s)) as [Hr1 _]; [keep|].
  set (s1 := CheckAnyRemoteParamChanged p _) in *. clearbody s1.
  destruct (demand_mode_spec p s1 Hr1) as (s2 & H2 & Hr2 & _). rewrite H2, bind_Ok in He. apply demand_mode_rx in H2.
  destruct (poll_spec p s2 Hr2) as (Hr3 & _). pose proof (poll_rx p s2) as H3.
  set (s3 := ProcessPollSequence p s2) in *. clearbody s3. rewrite H2, H1, Hst in H3. injection H3 as Hi3 _ Hl3 Hre3.
  cbn in Hi3. change (SessionStateOf (set_s_rxInterval _ s)) with (SessionStateOf s) in Hl3. rewrite Hl in Hl3.
  rewrite Hl3, Hre3 in He. cbn [Z.eqb Pos.eqb STATE_UP STATE_ADMIN_DOWN orb] in He. rewrite !orb_false_r in He.
  apply bind_Ok_inv in He as (s4 & H4 & He). rewrite <- Hi3.
  assert (Hs4 : s_rxInterval s4 = s_rxInterval s3 /\ (s_rxInterval s3 = 0 -> s_sessionTimer s4 = Some Stopped) /\
    SessionStateOf s4 = STATE_UP /\ RemoteSessionStateOf s4 = STATE_UP).
  { destruct (s_rxInterval s3 =? 0) eqn:Hz.
    - rewrite stop_session in H4 by done. by injection H4 as <-.
    - injection H4 as <-. apply Z.eqb_neq in Hz. by repeat split. }
  destruct Hs4 as (<- & Ht4 & Hl4 & Hre4).
  apply bind_Ok_inv in He as ([s5 e] & H5 & He). apply remote_up_rx in H5 as [H5 ->]; [|done].
  injection H5 as Hi5 Ht5 Hl5 Hre5. apply up_event in He as ->; [|cbn [fst]; congruence]. cbn [fst].
  rewrite Hi5, Ht5, Hl5. auto.
Qed.

(** What a packet of a session that is up does to the detection time of one that is up: it becomes the interval and
    the multiplier in the packet, in 32-bit arithmetic, whatever interval this end wants (RFC 5880 takes the
    greater of the two); and when it is less than a millisecond the detection of failures is switched off with
    the session up. *)
Theorem detection_time now p s : session_ok s -> packet_ok p -> accepts s p = true ->
  SessionStateOf s = STATE_UP -> RemoteSessionStateOf s = STATE_UP -> State p = STATE_UP ->
  exists s', StartSessionServer now p s = Ok s' /\ SessionStateOf s' = STATE_UP /\
    s_rxInterval s' = Z.quot (s32 (s32 (DesiredMinTxInterval p) * DetectMult p)) 1000 /\
    (s_rxInterval s' = 0 -> s_sessionTimer s' = Some Stopped).
Proof.
  intros Hs Hp Ha Hl Hr Hst. destruct (handle_spec (Received now p) s Hs Hp) as (s' & He & _). exists s'.
  split; [exact He|]. cbn [session_handle] in He. unfold StartSessionServer in He.
  apply process_up in He as (Hi & Ht & Hl'); [|destruct Hs as [? _]; keep | exact Ha | exact Hl | exact Hst].
  split; [done|]. split; [|done]. rewrite Hi. unfold packet_rx.
  match goal with |- (if ?b then _ else _) = _ => replace b with true; [done|] end.
  change (true = both_up s). unfold both_up. by rewrite Hl, Hr.
Qed.

(** ** New sessions, and the theorems on them *)

Lemma new_session_ok id mac jitter intf local dest name param perlink proto :
  sp_AuthenticationEnabled param = false ->
  session_ok (StartSessionClient true (new_session id mac jitter intf local dest name param perlink proto)).1.
Proof.
  intros Ha. split; [by constructor|].
  constructor; [apply state_1 | apply state_1 | reflexivity | constructor | discriminate].
Qed.

Definition default_param : SessionParamState :=
  {| sp_Name := "default"; sp_NumSessions := 0; sp_LocalMultiplier := DEFAULT_DETECT_MULTI;
     sp_DesiredMinTxInterval := DEFAULT_DESIRED_MIN_TX_INTERVAL;
     sp_RequiredMinRxInterval := DEFAULT_REQUIRED_MIN_RX_INTERVAL;
     sp_RequiredMinEchoRxInterval := DEFAULT_REQUIRED_MIN_ECHO_RX_INTERVAL; sp_DemandEnabled := false;
     sp_AuthenticationEnabled := false; sp_AuthenticationType := 0; sp_AuthenticationKeyId := 0;
     sp_AuthenticationData := "" |}.
Definition example_session : BfdSession :=
  (StartSessionClient true (new_session 5 [] 0 "" "10.0.0.1" "10.0.0.2" "default" default_param false 2)).1.
Lemma example_ok : session_ok example_session.
Proof. by apply new_session_ok. Qed.

(** A packet of the other end. *)
Definition example_packet (state : BfdSessionState) (tx : Z) (poll : bool) : BfdControlPacket :=
  set_MyDiscriminator 9 (set_DesiredMinTxInterval tx (set_Poll poll (set_State state NewBfdControlPacketDefault))).
Lemma example_packet_ok state tx poll : is_state state -> packet_ok (example_packet state tx poll).
Proof. intros Hs. by constructor. Qed.

Lemma session_refines_core_witness :
  exists s', session_handle (Received 0 (example_packet STATE_INIT 250000 false)) example_session = Ok s' /\
    session_ok s' /\ SessionStateOf s' = STATE_UP /\ s_notifications s' = [("10.0.0.2", true)].
Proof.
  destruct (session_refines_core (Received 0 (example_packet STATE_INIT 250000 false)) example_session example_ok)
    as (s' & He & Hs & Hc); [by apply example_packet_ok|].
  exists s'. split; [exact He|]. split; [exact Hs|].
  split; [exact (f_equal c_local Hc) | exact (f_equal c_notifications Hc)].
Defined.

Lemma session_invariant_run_witness :
  exists s', session_run [Received 0 (example_packet STATE_DOWN 250000 false); TxTimer true; SessionTimer 1; AdminDown 2;
                          AdminUp 3; TxTimer false] example_session = Ok s' /\ session_ok s'.
Proof.
  apply session_invariant_run; [exact example_ok|].
  constructor; [by apply example_packet_ok | repeat constructor].
Defined.

Lemma packet_moves_as_rfc5880_witness :
  exists s', StartSessionServer 0 (example_packet STATE_DOWN 250000 false) example_session = Ok s' /\
    SessionStateOf s' = STATE_INIT /\ RemoteSessionStateOf s' = STATE_DOWN.
Proof.
  destruct (packet_moves_as_rfc5880 0 (example_packet STATE_DOWN 250000 false) example_session example_ok)
    as (s' & He & _ & Hl & Hr); [by apply example_packet_ok | reflexivity|].
  exists s'. split; [exact He|]. split; [exact Hl | exact Hr].
Defined.

(** The session after a packet in the init state: up, with the other end still in init, then up. *)
Definition example_up (n : nat) : BfdSession :=
  match session_run (take n [Received 0 (example_packet STATE_INIT 250000 false);
                             Received 1 (example_packet STATE_UP 250000 false)]) example_session with
  | Ok s => s | _ => example_session end.
Lemma example_up_ok n : session_ok (example_up n).
Proof.
  unfold example_up.
  match goal with |- context [session_run ?es ?s] =>
    assert (H : exists s', session_run es s = Ok s' /\ session_ok s') end.
  { set (es := take n _). assert (He : Forall event_ok es).
    { apply Forall_take. repeat constructor; cbn; intros; discriminate. }
    clearbody es. induction es as [|e es IH] using rev_ind; [by exists example_session; split; [|apply example_ok]|].
    apply Forall_app in He as [Hes [He _]%Forall_cons]. destruct (IH Hes) as (s1 & H1 & Hs1).
    destruct (handle_spec e s1 Hs1 He) as (s2 & H2 & Hs2 & _). exists s2. by rewrite run_snoc, H1. }
  by destruct H as (s' & -> & ?).
Qed.

Lemma timeout_takes_down_witness :
  SessionStateOf (example_up 1) = STATE_UP /\ s_notifiedState (example_up 1) = true /\
  exists s', HandleSessionTimeout 7 (example_up 1) = Ok s' /\ SessionStateOf s' = STATE_DOWN /\ s_notifiedState s' = false.
Proof.
  split; [vm_compute; reflexivity|]. split; [vm_compute; reflexivity|].
  destruct (timeout_takes_down 7 (example_up 1) (example_up_ok 1)) as (s' & He & _ & Hl & Hn);
    [vm_compute; discriminate ..|]. eauto.
Defined.

Lemma poll_answered_once_witness :
  exists s1 s2 s3 w w',
    StartSessionServer 7 (example_packet STATE_UP 250000 true) (example_up 2) = Ok s1 /\
    SendPeriodicControlPackets true s1 = Ok s2 /\ s_sent s2 = s_sent s1 ++ [w] /\ final_bit w = true /\
    SendPeriodicControlPackets true s2 = Ok s3 /\ s_sent s3 = s_sent s2 ++ [w'] /\ final_bit w' = false.
Proof.
  apply (poll_answered_once 7 _ (example_up 2) (example_up_ok 2));
    [apply example_packet_ok, state_3 | vm_compute; reflexivity | reflexivity | vm_compute; discriminate].
Defined.

Definition keyed_param : SessionParamState :=
  {| sp_Name := "keyed"; sp_NumSessions := 0; sp_LocalMultiplier := DEFAULT_DETECT_MULTI;
     sp_DesiredMinTxInterval := DEFAULT_DESIRED_MIN_TX_INTERVAL;
     sp_RequiredMinRxInterval := DEFAULT_REQUIRED_MIN_RX_INTERVAL;
     sp_RequiredMinEchoRxInterval := DEFAULT_REQUIRED_MIN_ECHO_RX_INTERVAL; sp_DemandEnabled := false;
     sp_AuthenticationEnabled := true; sp_AuthenticationType := BFD_AUTH_TYPE_KEYED_MD5; sp_AuthenticationKeyId := 1;
     sp_AuthenticationData := "secret" |}.
Definition keyed_session : BfdSession :=
  (StartSessionClient true (new_session 6 [] 0 "" "10.0.0.1" "10.0.0.2" "keyed" keyed_param false 2)).1.

Lemma authentication_crashes_witness : SendPeriodicControlPackets true keyed_session = Panic.
Proof. apply authentication_crashes; [reflexivity | reflexivity | reflexivity | discriminate]. Defined.

(** The packet of a peer with the right key, and that of one without it. *)
Definition keyed_packet (data : bytes) : BfdControlPacket :=
  set_AuthPresent true (set_AuthHeader (Some {| ah_Type := BFD_AUTH_TYPE_KEYED_MD5; AuthKeyID := 1; SequenceNumber := 1;
                                               AuthData := data |}) (example_packet STATE_DOWN 250000 false)).
Lemma authentication_ignores_key_witness :
  (exists p, DecodeBfdControlPacket (CreateBfdControlPacket (keyed_packet (char_codes "secret"))) = Ok p /\
             AuthenticateReceivedControlPacket keyed_session p = Ok false) /\
  AuthenticateReceivedControlPacket keyed_session (keyed_packet (md5_Sum [])) = Ok true.
Proof.
  split.
  - eexists. split; [vm_compute; reflexivity|].
    match goal with |- AuthenticateReceivedControlPacket ?s ?p = _ =>
      refine (eq_trans (proj1 (authentication_ignores_key s p _ eq_refl eq_refl eq_refl eq_refl _) eq_refl) _);
        [vm_compute; discriminate | vm_compute; reflexivity] end.
  - match goal with |- AuthenticateReceivedControlPacket ?s ?p = _ =>
      refine (eq_trans (proj1 (authentication_ignores_key s p _ eq_refl eq_refl eq_refl eq_refl _) eq_refl) _);
        [vm_compute; discriminate | vm_compute; reflexivity] end.
Defined.

Lemma perlink_never_up_witness :
  let s := (StartPerLinkSessionClient true (new_session 7 [] 0 "" "10.0.0.1" "10.0.0.2" "default" default_param true 2)).1 in
  exists s', perlink_handle (LinkReceived 0 [] [] (example_packet STATE_INIT 250000 false)) s = Ok s' /\
    SessionStateOf s' = STATE_DOWN.
Proof.
  intros s. assert (H : exists s', perlink_handle (LinkReceived 0 [] [] (example_packet STATE_INIT 250000 false)) s = Ok s')
    by (eexists; vm_compute; reflexivity).
  destruct H as (s' & H). exists s'. split; [exact H|].
  exact (proj2 (perlink_never_up _ s s' eq_refl eq_refl H)).
Defined.

(** An interval of zero switches the detection off; a long one gives a negative time. *)
Lemma detection_time_witness :
  (exists s', StartSessionServer 7 (example_packet STATE_UP 0 false) (example_up 2) = Ok s' /\
     SessionStateOf s' = STATE_UP /\ s_sessionTimer s' = Some Stopped) /\
  exists s', StartSessionServer 7 (example_packet STATE_UP 1000000000 false) (example_up 2) = Ok s' /\
     s_rxInterval s' = -1294967.
Proof.
  split.
  - destruct (detection_time 7 (example_packet STATE_UP 0 false) (example_up 2) (example_up_ok 2))
      as (s' & He & Hl & Hi & Ht); [apply example_packet_ok, state_3 | vm_compute; reflexivity ..|].
    exists s'. split; [exact He|]. split; [exact Hl|]. apply Ht. rewrite Hi. vm_compute. reflexivity.
  - destruct (detection_time 7 (example_packet STATE_UP 1000000000 false) (example_up 2) (example_up_ok 2))
      as (s' & He & _ & Hi & _); [apply example_packet_ok, state_3 | vm_compute; reflexivity ..|].
    exists s'. split; [exact He|]. rewrite Hi. vm_compute. reflexivity.
Defined.
