(* ===== verification/BfdPair.v ===== *)
(** Two BFD sessions that talk to each other over a network that loses, repeats and reorders packets: an end is up
    only when both ends have heard each other (the three-way handshake), and the handshake can complete. *)
From stdpp Require Import base numbers list strings relations.
From Stdlib Require Import ZArith Lia.
From S2P Require Import Prelude GoNet GoCrypto BfdPacket BfdPacketFacts BfdSession BfdSessionFacts BfdSpec.
Open Scope Z_scope.

(** ** The pair *)

(** [heard x]: the end has accepted a packet of the other one. *)
Record Pair := { end_a : BfdSession; end_b : BfdSession; heard_a : bool; heard_b : bool }.

(** A timer or an administrator. *)
Definition local_event (e : session_event) : Prop := match e with Received _ _ => False | _ => True end.

(** Any packet the other end ever wrote may arrive, at any time and any number of times. *)
Inductive pair_step : Pair -> Pair -> Prop :=
  | local_a e a a' b ha hb : local_event e -> session_handle e a = Ok a' ->
      pair_step {| end_a := a; end_b := b; heard_a := ha; heard_b := hb |}
                {| end_a := a'; end_b := b; heard_a := ha; heard_b := hb |}
  | local_b e a b b' ha hb : local_event e -> session_handle e b = Ok b' ->
      pair_step {| end_a := a; end_b := b; heard_a := ha; heard_b := hb |}
                {| end_a := a; end_b := b'; heard_a := ha; heard_b := hb |}
  | arrive_a now w p a a' b ha hb : w ∈ s_sent b -> DecodeBfdControlPacket w = Ok p ->
      session_handle (Received now p) a = Ok a' ->
      pair_step {| end_a := a; end_b := b; heard_a := ha; heard_b := hb |}
                {| end_a := a'; end_b := b; heard_a := ha || accepts a p; heard_b := hb |}
  | arrive_b now w p a b b' ha hb : w ∈ s_sent a -> DecodeBfdControlPacket w = Ok p ->
      session_handle (Received now p) b = Ok b' ->
      pair_step {| end_a := a; end_b := b; heard_a := ha; heard_b := hb |}
                {| end_a := a; end_b := b'; heard_a := ha; heard_b := hb || accepts b p |}.
Definition pair_steps : Pair -> Pair -> Prop := rtc pair_step.

(** A session that has just been set up: down, nothing sent, nothing in the buffer. *)
Definition fresh (s : BfdSession) : Prop :=
  session_ok s /\ SessionStateOf s = STATE_DOWN /\ RemoteSessionStateOf s = STATE_DOWN /\ s_sent s = [] /\
  s_bfdPacketBuf s = [].
Definition pair_start (a b : BfdSession) : Pair := {| end_a := a; end_b := b; heard_a := false; heard_b := false |}.

(** ** What is on the wire *)

Lemma decode_packet_ok w p : DecodeBfdControlPacket w = Ok p -> packet_ok p.
Proof.
  unfold DecodeBfdControlPacket. intros (b0 & _ & H)%bind_Ok_inv. apply bind_Ok_inv in H as (b1 & _ & H).
  apply bind_Ok_inv in H as (b2 & _ & H). apply bind_Ok_inv in H as (l & _ & H).
  destruct (negb _); [done|]. do 10 apply bind_Ok_inv in H as (? & _ & H).
  apply bind_Ok_inv in H as (auth & Hauth & [= <-]). constructor; cbn.
  - change 208 with (Z.land 255 208). rewrite Z.land_assoc. change 255 with (Z.ones 8). rewrite Z.land_ones by lia.
    apply (masked 0 (b1 mod 2 ^ 8)); [by unfold is_u8 | apply Z.mod_pos_bound; lia].
  - intros Hf. rewrite Hf in Hauth. destruct (_ >? _); [|done].
    apply bind_Ok_inv in Hauth as (? & _ & Hauth). by apply bind_Ok_inv in Hauth as (? & _ & [= <-]).
Qed.

(** The session, or a packet, says that the other end was heard. *)
Definition claims (st : BfdSessionState) : Prop := st = STATE_INIT \/ st = STATE_UP.

(** An end claims to have heard the other only when it has. *)
Record honest (s : BfdSession) (heard : bool) : Prop := {
  honest_ok : session_ok s;
  honest_state : claims (SessionStateOf s) -> heard = true;
  honest_sent : forall w, w ∈ s_sent s -> claims (wire_state w) -> heard = true;
  honest_buffer : claims (wire_state (s_bfdPacketBuf s)) -> heard = true;
}.

Lemma built_state s : State (built s) = SessionStateOf s.
Proof. reflexivity. Qed.
Lemma settled_state s : State (settled s) = SessionStateOf s.
Proof. unfold settled. by destruct (_ && _). Qed.

Lemma c_event_local event c : event = TIMEOUT \/ event = ADMIN_UP \/ event = ADMIN_DOWN ->
  claims (c_local (c_event event c)) -> claims (c_local c).
Proof.
  unfold c_event, c_down, c_local_admin_down, claims.
  intros [-> | [-> | ->]]; destruct (c_local c =? STATE_ADMIN_DOWN); try done;
    repeat case_match; rewrite ?c_local_notify; cbn; unfold STATE_DOWN, STATE_ADMIN_DOWN, STATE_INIT, STATE_UP in *;
    zhyp; lia.
Qed.

Lemma local_claims accepted e c : local_event e -> claims (c_local (c_handle accepted e c)) -> claims (c_local c).
Proof.
  intros He. destruct e as [| w | now | now | now]; [done | done | | |]; cbn [c_handle]; intros H.
  - apply c_event_local in H; [|auto]. by destruct (c_moved c).
  - apply c_event_local in H; [|auto]. cbn in H. unfold claims, STATE_DOWN, STATE_INIT, STATE_UP in H. lia.
  - by apply c_event_local in H; [|auto].
Qed.

(** The handlers of timeouts and of the administrator write nothing. *)
Definition wire_of (s : BfdSession) : list bytes * bytes := (s_sent s, s_bfdPacketBuf s).
Lemma io_wire s s' : same_io s s' -> wire_of s' = wire_of s.
Proof. unfold wire_of. by intros [-> -> _ _ _ _]. Qed.

Lemma Timeout_wire now s s' : HandleSessionTimeout now s = Ok s' -> wire_of s' = wire_of s.
Proof.
  unfold HandleSessionTimeout. intros (s1 & H1%EventHandler_io%io_wire & H2%reset_session_io%io_wire)%bind_Ok_inv.
  rewrite H2, H1. by destruct (s_movedToDownState s).
Qed.
Lemma Start_wire now s s' : StartBfdSession now s = Ok s' -> wire_of s' = wire_of s.
Proof.
  unfold StartBfdSession. intros (s1 & H1%reset_session_io%io_wire & H)%bind_Ok_inv.
  apply bind_Ok_inv in H as (s2 & H2%reset_tx_io%io_wire & H%EventHandler_io%io_wire).
  by rewrite H, <- H1, <- H2.
Qed.
Lemma Stop_wire now s s' : StopBfdSession now s = Ok s' -> wire_of s' = wire_of s.
Proof. unfold StopBfdSession. intros (s1 & <-%EventHandler_io%io_wire & [= <-])%bind_Ok_inv. done. Qed.

(** ** The ends stay honest *)

Lemma honest_local e s s' heard : local_event e -> honest s heard -> session_handle e s = Ok s' -> honest s' heard.
Proof.
  intros He [Hok Hst Hse Hbu] H.
  destruct (handle_spec e s Hok) as (s1 & H1 & Hok' & Hc); [by destruct e|]. rewrite H in H1. injection H1 as <-.
  assert (Hst' : claims (SessionStateOf s') -> heard = true).
  { intros Hcl. apply Hst. change (claims (c_local (core s))).
    change (SessionStateOf s') with (c_local (core s')) in Hcl. rewrite Hc in Hcl. by eapply local_claims. }
  assert (Hsame : wire_of s' = wire_of s -> honest s' heard).
  { intros [= Hs Hb]. constructor; [done | done | by rewrite Hs | by rewrite Hb]. }
  destruct e as [| w | now | now | now]; [done | | | |]; cbn [session_handle] in H;
    [| by eapply Hsame, Timeout_wire | by eapply Hsame, Start_wire | by eapply Hsame, Stop_wire].
  destruct (Send_spec w s (proj1 Hok)) as (s2 & H2 & [_ Hc2 Hw Hb _ _]). rewrite H in H2. injection H2 as <-.
  assert (Hstate : is_state (SessionStateOf s)) by apply Hok.
  constructor; [done | done | |].
  - intros x Hx Hcl. rewrite Hw in Hx. apply elem_of_app in Hx as [Hx | Hx]; [eauto|].
    destruct w; [|by apply elem_of_nil in Hx]. apply list_elem_of_singleton in Hx as ->.
    unfold to_send in Hcl. destruct (NeedBfdPacketUpdate s); [|auto]. rewrite encode_state in Hcl by done. auto.
  - rewrite Hb. unfold left_over. destruct (NeedBfdPacketUpdate s); [|auto].
    rewrite encode_state by (by rewrite settled_state). rewrite settled_state. auto.
Qed.

Lemma honest_arrive now p s s' heard : packet_ok p -> honest s heard -> session_handle (Received now p) s = Ok s' ->
  honest s' (heard || accepts s p).
Proof.
  intros Hp [Hok Hst Hse Hbu] H.
  destruct (handle_spec (Received now p) s Hok Hp) as (s1 & H1 & Hok' & Hc). rewrite H in H1. injection H1 as <-.
  cbn [session_handle] in H. unfold StartSessionServer in H. set (s0 := upd_state _ s) in H.
  assert (H0 : runs s0 /\ is_state (SessionStateOf s0) /\ accepts s0 p = accepts s p /\ wire_of s0 = wire_of s).
  { destruct Hok as [Hr Hc0]. split; [subst s0; keep|]. split; [apply Hc0 | done]. }
  destruct H0 as (Hr0 & Hs0 & Ha0 & Hw0). clearbody s0.
  destruct (Process_spec now p s0 Hr0 Hs0 Hp) as (s2 & H2 & H3). rewrite H in H2. injection H2 as <-.
  assert (Hw : wire_of s' = wire_of s).
  { destruct (accepts s0 p); [|by subst s']. destruct H3. rewrite <- Hw0. unfold wire_of. by f_equal. }
  injection Hw as Hws Hwb.
  destruct (accepts s p) eqn:Ha.
  - rewrite orb_true_r. constructor; [done | done | done | done].
  - rewrite orb_false_r. constructor; [done | | by rewrite Hws | by rewrite Hwb].
    change (claims (c_local (core s')) -> heard = true). rewrite Hc. cbn [c_handle]. by rewrite Ha.
Qed.

(** ** The handshake *)

Lemma up_needs_claim p c : is_state (c_local c) -> is_state (State p) ->
  c_local (c_packet (State p) c) = STATE_UP -> c_local c = STATE_UP \/ claims (State p).
Proof.
  intros Hl Hp. rewrite c_packet_local by done. unfold claims.
  destruct (is_state_cases _ Hl) as [-> | [-> | [-> | ->]]], (is_state_cases _ Hp) as [-> | [-> | [-> | ->]]];
    cbn; intros Hx; first [discriminate | by left | by right; left | by right; right].
Qed.

(** An end that is up knows that the other one has heard it. *)
Definition confirmed (s : BfdSession) (other_heard : bool) : Prop := SessionStateOf s = STATE_UP -> other_heard = true.

Lemma confirmed_local e s s' h heard : local_event e -> honest s heard -> session_handle e s = Ok s' ->
  confirmed s h -> confirmed s' h.
Proof.
  intros He [Hok _ _ _] H Hcf. destruct (handle_spec e s Hok) as (s1 & H1 & _ & Hc); [by destruct e|].
  rewrite H in H1. injection H1 as <-. unfold confirmed in *.
  change (SessionStateOf s) with (c_local (core s)) in Hcf. change (SessionStateOf s') with (c_local (core s')).
  rewrite Hc. destruct e as [| w | now | now | now]; [done | done | | |]; cbn [c_handle]; intros Hu; apply Hcf.
  - revert Hu. unfold c_event, c_down. set (c := if c_moved (core s) then _ else _).
    assert (Hl : c_local c = c_local (core s)) by (subst c; by destruct (c_moved _)). rewrite Hl.
    destruct (_ =? STATE_ADMIN_DOWN); [congruence|]. destruct (_ =? STATE_DOWN); [congruence|]. by rewrite c_local_notify.
  - revert Hu. unfold c_event, c_down. cbn. by rewrite c_local_notify.
  - revert Hu. unfold c_event, c_local_admin_down. destruct (_ =? STATE_ADMIN_DOWN); [done|]. by rewrite c_local_notify.
Qed.

Lemma confirmed_arrive now w p s s' heard other h : honest s heard -> honest other h -> w ∈ s_sent other ->
  DecodeBfdControlPacket w = Ok p -> session_handle (Received now p) s = Ok s' -> confirmed s h -> confirmed s' h.
Proof.
  intros [Hok _ _ _] [_ _ Hsent _] Hw Hd H Hcf Hu. pose proof (decode_packet_ok w p Hd) as Hp.
  destruct (handle_spec (Received now p) s Hok Hp) as (s1 & H1 & _ & Hc). rewrite H in H1. injection H1 as <-.
  change (SessionStateOf s') with (c_local (core s')) in Hu. rewrite Hc in Hu. cbn [c_handle] in Hu.
  destruct (accepts s p); [|by apply Hcf].
  apply up_needs_claim in Hu as [Hu | Hcl]; [by apply Hcf | | apply Hok | apply Hp].
  apply (Hsent w Hw). by rewrite <- (decode_state w p Hd).
Qed.

Record pair_ok (x : Pair) : Prop := {
  ok_a : honest (end_a x) (heard_a x);
  ok_b : honest (end_b x) (heard_b x);
  ok_a_up : confirmed (end_a x) (heard_b x);
  ok_b_up : confirmed (end_b x) (heard_a x);
}.

Lemma pair_step_ok x y : pair_ok x -> pair_step x y -> pair_ok y.
Proof.
  intros [Ha Hb Hau Hbu] H. destruct H; cbn [end_a end_b heard_a heard_b] in *.
  - constructor; cbn [end_a end_b heard_a heard_b]; eauto using honest_local, confirmed_local.
  - constructor; cbn [end_a end_b heard_a heard_b]; eauto using honest_local, confirmed_local.
  - constructor; cbn [end_a end_b heard_a heard_b]; eauto using honest_arrive, decode_packet_ok, confirmed_arrive.
    intros Hu. by rewrite Hbu.
  - constructor; cbn [end_a end_b heard_a heard_b]; eauto using honest_arrive, decode_packet_ok, confirmed_arrive.
    intros Hu. by rewrite Hau.
Qed.

Lemma fresh_honest s : fresh s -> honest s false.
Proof.
  intros (Hok & Hl & _ & Hs & Hb). constructor; [done | | |].
  - rewrite Hl. unfold claims, STATE_DOWN, STATE_INIT, STATE_UP. lia.
  - rewrite Hs. by intros w Hw%elem_of_nil.
  - rewrite Hb. intros [Hc | Hc]; discriminate Hc.
Qed.

(** C22: however packets are lost, repeated or reordered between two sessions, whatever their timers and administrators
    do: an end that is up has heard the other one and has been heard by it. *)
Theorem up_means_both_heard a b x : fresh a -> fresh b -> pair_steps (pair_start a b) x ->
  (SessionStateOf (end_a x) = STATE_UP -> heard_a x = true /\ heard_b x = true) /\
  (SessionStateOf (end_b x) = STATE_UP -> heard_a x = true /\ heard_b x = true).
Proof.
  intros Ha Hb Hs.
  assert (Hok : pair_ok (pair_start a b)).
  { constructor; cbn; [by apply fresh_honest | by apply fresh_honest | |]; unfold confirmed.
    - destruct Ha as (_ & -> & _). done.
    - destruct Hb as (_ & -> & _). done. }
  assert (Hx : pair_ok x).
  { clear Ha Hb. induction Hs as [|x y z H _ IH]; [done|]. apply IH. by eapply pair_step_ok. }
  destruct Hx as [[_ Hsa _ _] [_ Hsb _ _] Hau Hbu].
  split; intros Hu; (split; [|auto]); auto; [apply Hsa | apply Hsb]; by right.
Qed.

(** ** The handshake completes *)

(** A session whose packets the other end accepts: no authentication, and fields that fit the packet. *)
Record speaker (s : BfdSession) : Prop := {
  speaker_runs : runs s;
  speaker_state : is_state (SessionStateOf s) /\ is_state (RemoteSessionStateOf s);
  speaker_version : Version (s_bfdPacket s) = DEFAULT_BFD_VERSION;
  speaker_multipoint : Multipoint (s_bfdPacket s) = false;
  speaker_auth : AuthHeader (s_bfdPacket s) = None;
  speaker_echo : is_u32 (RequiredMinEchoRxInterval (s_bfdPacket s));
  speaker_diag : diag_ok s;
  speaker_mult : u8 (st_DetectionMultiplier (state s)) <> 0;
  speaker_ids : is_u32 (st_LocalDiscriminator (state s)) /\ st_LocalDiscriminator (state s) <> 0 /\
                is_u32 (st_RemoteDiscriminator (state s));
}.

Lemma built_good s : speaker s -> both_up s = false -> bfd_good (built s).
Proof.
  intros [] Hb. constructor; cbn; rewrite ?Hb; try done; try apply speaker_ids0.
  - rewrite speaker_version0. done.
  - apply speaker_state0.
Qed.

(** What a speaker that has something new to say writes is read, and accepted. *)
Lemma transmit s : speaker s -> both_up s = false -> NeedBfdPacketUpdate s = true ->
  exists s' w, SendPeriodicControlPackets true s = Ok s' /\ speaker s' /\ core s' = core s /\
    s_sent s' = s_sent s ++ [w] /\ DecodeBfdControlPacket w = Ok (built s).
Proof.
  intros Hs Hb Hn. destruct (Send_spec true s (speaker_runs s Hs)) as (s' & He & [Hr Hc Hw _ _ [Hl Hd] Hp Hg Hm]).
  exists s', (to_send s). split; [done|].
  assert (Hcl : SessionStateOf s' = SessionStateOf s) by exact (f_equal c_local Hc).
  assert (Hcr : RemoteSessionStateOf s' = RemoteSessionStateOf s) by exact (f_equal c_remote Hc).
  rewrite Hn in Hp. split; [|split; [done|split; [exact Hw|]]].
  - destruct Hs. constructor; rewrite ?Hcl, ?Hcr, ?Hp, ?Hl, ?Hd, ?Hm; unfold diag_ok; rewrite ?Hg; try done.
    all: unfold settled; rewrite Hb; done.
  - unfold to_send. rewrite Hn, bfd_packet_decodes by by apply built_good. unfold built. cbn. by rewrite (speaker_auth s Hs).
Qed.

Lemma accepts_built s s' : speaker s -> accepts s' (built s) = true.
Proof.
  intros []. unfold accepts, AuthenticateReceivedControlPacket, CanProcessBfdControlPacket. cbn.
  rewrite speaker_version0, speaker_multipoint0. cbn.
  destruct speaker_ids0 as (_ & Hi & _). rewrite (proj2 (Z.eqb_neq _ _) speaker_mult0), (proj2 (Z.eqb_neq _ _) Hi). done.
Qed.

(** A speaker hears another one. *)
Lemma hear now s other : speaker s -> speaker other ->
  exists s', session_handle (Received now (built other)) s = Ok s' /\ speaker s' /\
    SessionStateOf s' = (if SessionStateOf other =? STATE_ADMIN_DOWN then SessionStateOf s
                         else rfc_state (SessionStateOf s) (SessionStateOf other)) /\
    RemoteSessionStateOf s' = SessionStateOf other /\
    (NeedBfdPacketUpdate s = true \/ SessionStateOf other <> RemoteSessionStateOf s -> NeedBfdPacketUpdate s' = true).
Proof.
  intros Hs Ho. cbn [session_handle]. unfold StartSessionServer. set (s0 := upd_state _ s).
  assert (H0 : speaker s0 /\ core s0 = core s /\ NeedBfdPacketUpdate s0 = NeedBfdPacketUpdate s).
  { split; [|done]. destruct Hs. constructor; try done. subst s0. keep. }
  destruct H0 as (Hs0 & Hc0 & Hn0). clearbody s0.
  change (SessionStateOf s) with (c_local (core s)). change (RemoteSessionStateOf s) with (c_remote (core s)).
  rewrite <- Hc0, <- Hn0. clear Hc0 Hn0 Hs s. destruct (speaker_state s0 Hs0) as [Hl Hr].
  assert (Hp : packet_ok (built other)) by (constructor; [apply Ho | done]).
  destruct (Process_spec now (built other) s0 (speaker_runs s0 Hs0) Hl Hp) as (s' & He & H). exists s'. split; [done|].
  rewrite (accepts_built other s0 Ho) in H. destruct H as [Hr' Hc _ _ Hlo Hre _ _ _ Hpk Hmu Hdi Hne].
  cbn [State built] in Hc, Hne. destruct (speaker_state other Ho) as [Hol _].
  assert (Hl' : SessionStateOf s' = if SessionStateOf other =? STATE_ADMIN_DOWN then c_local (core s0)
                         else rfc_state (c_local (core s0)) (SessionStateOf other)).
  { change (SessionStateOf s') with (c_local (core s')). rewrite Hc. by apply c_packet_local. }
  assert (Hr2 : RemoteSessionStateOf s' = SessionStateOf other).
  { change (RemoteSessionStateOf s') with (c_remote (core s')). rewrite Hc. by apply c_packet_remote. }
  split; [|done]. destruct Hs0. constructor; rewrite ?Hpk, ?Hmu, ?Hlo, ?Hre; try done; auto.
  - split; [|by rewrite Hr2]. rewrite Hl'. destruct (_ =? STATE_ADMIN_DOWN); [done|].
    destruct (is_state_cases _ Hl) as [H | [H | [H | H]]], (is_state_cases _ Hol) as [-> | [-> | [-> | ->]]];
      change (c_local (core s0)) with (SessionStateOf s0); rewrite H; cbn;
      auto using state_0, state_1, state_2, state_3.
  - destruct speaker_ids0 as (? & ? & _), Ho as [_ _ _ _ _ _ _ _ (? & ? & _)]. done.
Qed.

(** The transmit timer fires, and one datagram is written, which is read as [p]. *)
Definition says (s : BfdSession) (p : BfdControlPacket) (s' : BfdSession) : Prop :=
  session_handle (TxTimer true) s = Ok s' /\ exists w, s_sent s' = s_sent s ++ [w] /\ DecodeBfdControlPacket w = Ok p.
(** A speaker that is not up, or knows that the other is not, says its state. *)
Lemma speaks s : speaker s -> both_up s = false -> NeedBfdPacketUpdate s = true ->
  exists p s', says s p s' /\ p = built s /\ State p = SessionStateOf s /\ speaker s' /\ SessionStateOf s' = SessionStateOf s /\
    RemoteSessionStateOf s' = RemoteSessionStateOf s.
Proof.
  intros Hs Hb Hn. destruct (transmit s Hs Hb Hn) as (s' & w & Ht & Hs' & Hc & Hw & Hd). exists (built s), s'.
  split; [split; [exact Ht|]; by exists w|]. split; [done|]. split; [apply built_state|]. split; [done|].
  split; [exact (f_equal c_local Hc) | exact (f_equal c_remote Hc)].
Qed.

(** The three packets as steps of the pair. *)
Lemma handshake_steps n1 n2 n3 a b a1 p1 b1 p2 b2 a2 p3 a3 b3 : says a p1 a1 -> session_handle (Received n1 p1) b = Ok b1 -> says b1 p2 b2 ->
  session_handle (Received n2 p2) a1 = Ok a2 -> says a2 p3 a3 -> session_handle (Received n3 p3) b2 = Ok b3 ->
  pair_steps (pair_start a b) {| end_a := a3; end_b := b3; heard_a := accepts a1 p2; heard_b := accepts b p1 || accepts b2 p3 |}.
Proof.
  intros (T1 & w1 & W1 & D1) H1 (T2 & w2 & W2 & D2) H2 (T3 & w3 & W3 & D3) H3.
  assert (Hin : forall s w s', s_sent s' = s_sent s ++ [w] -> w ∈ s_sent s') by (intros s w s' ->; apply elem_of_app; right; by left).
  unfold pair_steps, pair_start.
  eapply rtc_l; [by eapply (local_a (TxTimer true))|]. eapply rtc_l; [eapply arrive_b; [by eapply Hin | done | exact H1]|].
  eapply rtc_l; [by eapply (local_b (TxTimer true))|]. eapply rtc_l; [eapply arrive_a; [by eapply Hin | done | exact H2]|].
  eapply rtc_l; [by eapply (local_a (TxTimer true))|]. eapply rtc_once. cbn [orb].
  eapply arrive_b; [by eapply Hin | done | exact H3].
Qed.

Lemma handshake_run n1 n2 n3 a b : fresh a -> fresh b -> speaker a -> speaker b ->
  NeedBfdPacketUpdate a = true -> NeedBfdPacketUpdate b = true ->
  exists p1 a1 b1 p2 b2 a2 p3 a3 b3,
    says a p1 a1 /\ State p1 = STATE_DOWN /\
    session_handle (Received n1 p1) b = Ok b1 /\ SessionStateOf b1 = STATE_INIT /\ RemoteSessionStateOf b1 = STATE_DOWN /\
    says b1 p2 b2 /\ State p2 = STATE_INIT /\
    session_handle (Received n2 p2) a1 = Ok a2 /\ SessionStateOf a2 = STATE_UP /\ RemoteSessionStateOf a2 = STATE_INIT /\
    says a2 p3 a3 /\ State p3 = STATE_UP /\ SessionStateOf a3 = STATE_UP /\
    session_handle (Received n3 p3) b2 = Ok b3 /\ SessionStateOf b3 = STATE_UP /\ RemoteSessionStateOf b3 = STATE_UP /\
    accepts b p1 = true /\ accepts a1 p2 = true /\ accepts b2 p3 = true.
Proof.
  intros (_ & Hla & Hra & _) (_ & Hlb & Hrb & _) Ha Hb Hna Hnb.
  destruct (speaks a Ha) as (p1 & a1 & S1 & P1 & T1 & Ha1 & La1 & Ra1); [unfold both_up; by rewrite Hla | done|].
  destruct (hear n1 b a Hb Ha) as (b1 & H1 & Hb1 & Lb1 & Rb1 & Nb1). rewrite <- P1 in H1. rewrite Hla, Hlb in Lb1. rewrite Hla in Rb1.
  change (SessionStateOf b1 = STATE_INIT) in Lb1. specialize (Nb1 (or_introl Hnb)).
  destruct (speaks b1 Hb1) as (p2 & b2 & S2 & P2 & T2 & Hb2 & Lb2 & Rb2); [unfold both_up; by rewrite Lb1 | done|].
  destruct (hear n2 a1 b1 Ha1 Hb1) as (a2 & H2 & Ha2 & La2 & Ra2 & Na2). rewrite <- P2 in H2. rewrite Lb1, La1, Hla in La2. rewrite Lb1 in Ra2.
  change (SessionStateOf a2 = STATE_UP) in La2. assert (Hn2 : NeedBfdPacketUpdate a2 = true) by (apply Na2; right; by rewrite Lb1, Ra1, Hra).
  destruct (speaks a2 Ha2) as (p3 & a3 & S3 & P3 & T3 & Ha3 & La3 & _); [unfold both_up; by rewrite Ra2, andb_false_r | done|].
  destruct (hear n3 b2 a2 Hb2 Ha2) as (b3 & H3 & Hb3 & Lb3 & Rb3 & _). rewrite <- P3 in H3. rewrite La2, Lb2, Lb1 in Lb3. rewrite La2 in Rb3.
  change (SessionStateOf b3 = STATE_UP) in Lb3. exists p1, a1, b1, p2, b2, a2, p3, a3, b3. rewrite T1, T2, T3, Hla, Lb1, La2, La3.
  subst p1 p2 p3. split_and!; try done; by apply accepts_built.
Qed.

(** C34: two fresh sessions come up in three packets when none is lost. Both run with their timers, without authentication, with a detection
    multiplier other than zero and something to say ([fresh], [speaker]). When the first sends, it says that it is down, and the second, which
    receives it, is in the init state; what the second then sends says init, and takes the first up; what the first then sends says up, and takes
    the second up. Each packet is accepted, whatever the time, and these steps are steps of the pair. *)
Theorem handshake_completes n1 n2 n3 a b : fresh a -> fresh b -> speaker a -> speaker b ->
  NeedBfdPacketUpdate a = true -> NeedBfdPacketUpdate b = true ->
  exists p1 a1 b1 p2 b2 a2 p3 a3 b3,
    says a p1 a1 /\ State p1 = STATE_DOWN /\
    session_handle (Received n1 p1) b = Ok b1 /\ SessionStateOf b1 = STATE_INIT /\ RemoteSessionStateOf b1 = STATE_DOWN /\
    says b1 p2 b2 /\ State p2 = STATE_INIT /\
    session_handle (Received n2 p2) a1 = Ok a2 /\ SessionStateOf a2 = STATE_UP /\ RemoteSessionStateOf a2 = STATE_INIT /\
    says a2 p3 a3 /\ State p3 = STATE_UP /\ SessionStateOf a3 = STATE_UP /\
    session_handle (Received n3 p3) b2 = Ok b3 /\ SessionStateOf b3 = STATE_UP /\ RemoteSessionStateOf b3 = STATE_UP /\
    pair_steps (pair_start a b) {| end_a := a3; end_b := b3; heard_a := true; heard_b := true |}.
Proof.
  intros Fa Fb Ha Hb Na Nb. destruct (handshake_run n1 n2 n3 a b Fa Fb Ha Hb Na Nb)
    as (p1 & a1 & b1 & p2 & b2 & a2 & p3 & a3 & b3 & S1 & T1 & H1 & L1 & R1 & S2 & T2 & H2 & L2 & R2 & S3 & T3 & L3 & H3 & L4 & R4 & A1 & A2 & A3).
  pose proof (handshake_steps _ _ _ _ _ _ _ _ _ _ _ _ _ _ S1 H1 S2 H2 S3 H3) as Hsteps. rewrite A1, A2 in Hsteps.
  by exists p1, a1, b1, p2, b2, a2, p3, a3, b3.
Qed.

(** Sessions as [NewNormalBfdSession] makes them, once their clients run. *)
Definition side (id : Z) (ip : string) : BfdSession :=
  (StartSessionClient true (new_session id [] 3 "" "" ip "default" default_param false 3)).1.
Lemma side_fresh id ip : fresh (side id ip).
Proof. split; [by apply new_session_ok|]. by repeat split. Qed.
Lemma side_speaker id ip : 0 < id < 1024 -> speaker (side id ip).
Proof.
  intros Hid. constructor; try done; try (by constructor).
  change (is_u32 (u32 id) /\ u32 id <> 0 /\ is_u32 0). rewrite u32_id by (unfold is_u32; lia). unfold is_u32. lia.
Qed.

Lemma handshake_completes_witness : exists a3 b3,
  pair_steps (pair_start (side 5 "10.0.0.2") (side 9 "10.0.0.1")) {| end_a := a3; end_b := b3; heard_a := true; heard_b := true |} /\
  SessionStateOf a3 = STATE_UP /\ SessionStateOf b3 = STATE_UP.
Proof.
  destruct (handshake_completes 1 2 3 (side 5 "10.0.0.2") (side 9 "10.0.0.1"))
    as (p1 & a1 & b1 & p2 & b2 & a2 & p3 & a3 & b3 & _ & _ & _ & _ & _ & _ & _ & _ & _ & _ & _ & _ & La & _ & Lb & _ & Hs);
    [apply side_fresh | apply side_fresh | apply side_speaker; lia | apply side_speaker; lia | reflexivity | reflexivity |].
  exists a3, b3. split; [exact Hs|]. split; [exact La | exact Lb].
Defined.

Lemma up_means_both_heard_witness :
  exists x, pair_steps (pair_start (side 5 "10.0.0.2") (side 9 "10.0.0.1")) x /\
    SessionStateOf (end_a x) = STATE_UP /\ heard_a x = true /\ heard_b x = true.
Proof.
  destruct (handshake_run 1 2 3 (side 5 "10.0.0.2") (side 9 "10.0.0.1"))
    as (p1 & a1 & b1 & p2 & b2 & a2 & p3 & a3 & b3 & S1 & _ & H1 & _ & _ & S2 & _ & H2 & _ & _ & S3 & _ & L3 & H3 & _);
    [apply side_fresh | apply side_fresh | apply side_speaker; lia | apply side_speaker; lia | reflexivity | reflexivity |].
  pose proof (handshake_steps _ _ _ _ _ _ _ _ _ _ _ _ _ _ S1 H1 S2 H2 S3 H3) as Hx. eexists. split; [exact Hx|]. split; [exact L3|].
  exact (proj1 (up_means_both_heard _ _ _ (side_fresh _ _) (side_fresh _ _) Hx) L3).
Defined.
