(* ===== verification/BfdServer.v ===== *)
(** The BFD server ([src/bfd/server/bfdSessionServer.go], [bfdSessionParam.go], [bfdGlobalConf.go],
    [bfdSessionGetBulk.go], [bfdInfra.go], [server.go]): the tables of sessions and parameters, the requests of
    protocols and administrators, dispatch of packets, bulk reads, and what it knows of interfaces.

    Sessions are pointers into a heap, as the two maps that hold them share them. A send on a channel nobody
    reads, now or later, is [Hang]. What the daemon asks of other parts is a parameter: the route manager,
    the interfaces of the system, random numbers, and the order in which a map is ranged over. *)
From stdpp Require Import base numbers list gmap strings.
From Stdlib Require Import ZArith Lia.
From S2P Require Import Prelude GoNet GoCrypto BfdPacket BfdSession.
Open Scope Z_scope.

Definition MAX_NUM_SESSIONS : Z := 1024.
Definition PACKET_QUEUE_SIZE : nat := 128.

(** The owners and operations of [bfddCommonDefs]. *)
Definition DISC : Z := 1.
Definition USER : Z := 2.
Definition BGP : Z := 3.
Definition OSPF : Z := 4.
Definition ConvertBfdSessionOwnerStrToVal (owner : string) : Z :=
  if bool_decide (owner = "discover") then DISC
  else if bool_decide (owner = "user") then USER
  else if bool_decide (owner = "bgp") then BGP
  else if bool_decide (owner = "ospf") then OSPF
  else 0.
Inductive BfdSessionOperation := CREATE | DELETE | ADMINUP | ADMINDOWN.

Record BfdSessionMgmt := {
  DestIp : string;
  ParamName : string;
  Interface : string;
  Protocol : Z;
  PerLink : bool;
  ForceDel : bool;
}.
(** A request of an administrator or a protocol. *)
Record SessionConfig := {
  sc_DestIp : string;
  sc_ParamName : string;
  sc_Interface : string;
  sc_PerLink : bool;
  sc_Protocol : Z;
  sc_Operation : BfdSessionOperation;
}.
Record GlobalState := {
  gs_Vrf : string;
  gs_Enable : bool;
  gs_NumSessions : Z;
  gs_NumUpSessions : Z;
  gs_NumDownSessions : Z;
  gs_NumAdminDownSessions : Z;
}.
Record PortProperty := { pp_Name : string; pp_VlanName : string; pp_VlanId : Z; pp_IpAddr : string }.
Record VlanProperty := { vp_Name : string; vp_UntagPorts : list Z; vp_IpAddr : string }.
Record SessionParamConfig := {
  pc_Name : string;
  pc_LocalMultiplier : Z;
  pc_DesiredMinTxInterval : Z;
  pc_RequiredMinRxInterval : Z;
  pc_RequiredMinEchoRxInterval : Z;
  pc_DemandEnabled : bool;
  pc_AuthenticationEnabled : bool;
  pc_AuthenticationType : AuthenticationType;
  pc_AuthenticationKeyId : Z;
  pc_AuthenticationData : string;
}.

(** [heap]: the sessions by pointer. *)
Record BFDServer := {
  heap : gmap nat BfdSession;
  nextPtr : nat;
  Vrf : string;
  Enabled : bool;
  NumSessions : Z;
  Sessions : gmap Z nat;
  SessionsIdSlice : list Z;
  SessionsByIp : gmap string nat;
  InactiveSessionsIdSlice : list Z;
  NumSessionParams : Z;
  SessionParams : gmap string SessionParamState;
  NumUpSessions : Z;
  NumDownSessions : Z;
  NumAdminDownSessions : Z;
  tobeCreatedSessions : gmap string BfdSessionMgmt;
  CreatedSessionCh : list Z;
  FailedSessionClientCh : list Z;
  portPropertyMap : gmap Z PortProperty;
  vlanPropertyMap : gmap Z VlanProperty;
  lagPropertyMap : gmap Z (list Z);
}.

Definition set_heap (x : gmap nat BfdSession) (srv : BFDServer) : BFDServer :=
  {| heap := x; nextPtr := nextPtr srv; Vrf := Vrf srv; Enabled := Enabled srv; NumSessions := NumSessions
     srv; Sessions := Sessions srv; SessionsIdSlice := SessionsIdSlice srv; SessionsByIp := SessionsByIp
     srv; InactiveSessionsIdSlice := InactiveSessionsIdSlice srv; NumSessionParams := NumSessionParams
     srv; SessionParams := SessionParams srv; NumUpSessions := NumUpSessions srv; NumDownSessions :=
     NumDownSessions srv; NumAdminDownSessions := NumAdminDownSessions srv; tobeCreatedSessions :=
     tobeCreatedSessions srv; CreatedSessionCh := CreatedSessionCh srv; FailedSessionClientCh :=
     FailedSessionClientCh srv; portPropertyMap := portPropertyMap srv; vlanPropertyMap := vlanPropertyMap
     srv; lagPropertyMap := lagPropertyMap srv |}.
Definition set_nextPtr (x : nat) (srv : BFDServer) : BFDServer :=
  {| heap := heap srv; nextPtr := x; Vrf := Vrf srv; Enabled := Enabled srv; NumSessions := NumSessions
     srv; Sessions := Sessions srv; SessionsIdSlice := SessionsIdSlice srv; SessionsByIp := SessionsByIp
     srv; InactiveSessionsIdSlice := InactiveSessionsIdSlice srv; NumSessionParams := NumSessionParams
     srv; SessionParams := SessionParams srv; NumUpSessions := NumUpSessions srv; NumDownSessions :=
     NumDownSessions srv; NumAdminDownSessions := NumAdminDownSessions srv; tobeCreatedSessions :=
     tobeCreatedSessions srv; CreatedSessionCh := CreatedSessionCh srv; FailedSessionClientCh :=
     FailedSessionClientCh srv; portPropertyMap := portPropertyMap srv; vlanPropertyMap := vlanPropertyMap
     srv; lagPropertyMap := lagPropertyMap srv |}.
Definition set_Vrf (x : string) (srv : BFDServer) : BFDServer :=
  {| heap := heap srv; nextPtr := nextPtr srv; Vrf := x; Enabled := Enabled srv; NumSessions :=
     NumSessions srv; Sessions := Sessions srv; SessionsIdSlice := SessionsIdSlice srv; SessionsByIp :=
     SessionsByIp srv; InactiveSessionsIdSlice := InactiveSessionsIdSlice srv; NumSessionParams :=
     NumSessionParams srv; SessionParams := SessionParams srv; NumUpSessions := NumUpSessions srv;
     NumDownSessions := NumDownSessions srv; NumAdminDownSessions := NumAdminDownSessions srv;
     tobeCreatedSessions := tobeCreatedSessions srv; CreatedSessionCh := CreatedSessionCh srv;
     FailedSessionClientCh := FailedSessionClientCh srv; portPropertyMap := portPropertyMap srv;
     vlanPropertyMap := vlanPropertyMap srv; lagPropertyMap := lagPropertyMap srv |}.
Definition set_Enabled (x : bool) (srv : BFDServer) : BFDServer :=
  {| heap := heap srv; nextPtr := nextPtr srv; Vrf := Vrf srv; Enabled := x; NumSessions := NumSessions
     srv; Sessions := Sessions srv; SessionsIdSlice := SessionsIdSlice srv; SessionsByIp := SessionsByIp
     srv; InactiveSessionsIdSlice := InactiveSessionsIdSlice srv; NumSessionParams := NumSessionParams
     srv; SessionParams := SessionParams srv; NumUpSessions := NumUpSessions srv; NumDownSessions :=
     NumDownSessions srv; NumAdminDownSessions := NumAdminDownSessions srv; tobeCreatedSessions :=
     tobeCreatedSessions srv; CreatedSessionCh := CreatedSessionCh srv; FailedSessionClientCh :=
     FailedSessionClientCh srv; portPropertyMap := portPropertyMap srv; vlanPropertyMap := vlanPropertyMap
     srv; lagPropertyMap := lagPropertyMap srv |}.
Definition set_NumSessions (x : Z) (srv : BFDServer) : BFDServer :=
  {| heap := heap srv; nextPtr := nextPtr srv; Vrf := Vrf srv; Enabled := Enabled srv; NumSessions := x;
     Sessions := Sessions srv; SessionsIdSlice := SessionsIdSlice srv; SessionsByIp := SessionsByIp srv;
     InactiveSessionsIdSlice := InactiveSessionsIdSlice srv; NumSessionParams := NumSessionParams srv;
     SessionParams := SessionParams srv; NumUpSessions := NumUpSessions srv; NumDownSessions :=
     NumDownSessions srv; NumAdminDownSessions := NumAdminDownSessions srv; tobeCreatedSessions :=
     tobeCreatedSessions srv; CreatedSessionCh := CreatedSessionCh srv; FailedSessionClientCh :=
     FailedSessionClientCh srv; portPropertyMap := portPropertyMap srv; vlanPropertyMap := vlanPropertyMap
     srv; lagPropertyMap := lagPropertyMap srv |}.
Definition set_Sessions (x : gmap Z nat) (srv : BFDServer) : BFDServer :=
  {| heap := heap srv; nextPtr := nextPtr srv; Vrf := Vrf srv; Enabled := Enabled srv; NumSessions :=
     NumSessions srv; Sessions := x; SessionsIdSlice := SessionsIdSlice srv; SessionsByIp := SessionsByIp
     srv; InactiveSessionsIdSlice := InactiveSessionsIdSlice srv; NumSessionParams := NumSessionParams
     srv; SessionParams := SessionParams srv; NumUpSessions := NumUpSessions srv; NumDownSessions :=
     NumDownSessions srv; NumAdminDownSessions := NumAdminDownSessions srv; tobeCreatedSessions :=
     tobeCreatedSessions srv; CreatedSessionCh := CreatedSessionCh srv; FailedSessionClientCh :=
     FailedSessionClientCh srv; portPropertyMap := portPropertyMap srv; vlanPropertyMap := vlanPropertyMap
     srv; lagPropertyMap := lagPropertyMap srv |}.
Definition set_SessionsIdSlice (x : list Z) (srv : BFDServer) : BFDServer :=
  {| heap := heap srv; nextPtr := nextPtr srv; Vrf := Vrf srv; Enabled := Enabled srv; NumSessions :=
     NumSessions srv; Sessions := Sessions srv; SessionsIdSlice := x; SessionsByIp := SessionsByIp srv;
     InactiveSessionsIdSlice := InactiveSessionsIdSlice srv; NumSessionParams := NumSessionParams srv;
     SessionParams := SessionParams srv; NumUpSessions := NumUpSessions srv; NumDownSessions :=
     NumDownSessions srv; NumAdminDownSessions := NumAdminDownSessions srv; tobeCreatedSessions :=
     tobeCreatedSessions srv; CreatedSessionCh := CreatedSessionCh srv; FailedSessionClientCh :=
     FailedSessionClientCh srv; portPropertyMap := portPropertyMap srv; vlanPropertyMap := vlanPropertyMap
     srv; lagPropertyMap := lagPropertyMap srv |}.
Definition set_SessionsByIp (x : gmap string nat) (srv : BFDServer) : BFDServer :=
  {| heap := heap srv; nextPtr := nextPtr srv; Vrf := Vrf srv; Enabled := Enabled srv; NumSessions :=
     NumSessions srv; Sessions := Sessions srv; SessionsIdSlice := SessionsIdSlice srv; SessionsByIp := x;
     InactiveSessionsIdSlice := InactiveSessionsIdSlice srv; NumSessionParams := NumSessionParams srv;
     SessionParams := SessionParams srv; NumUpSessions := NumUpSessions srv; NumDownSessions :=
     NumDownSessions srv; NumAdminDownSessions := NumAdminDownSessions srv; tobeCreatedSessions :=
     tobeCreatedSessions srv; CreatedSessionCh := CreatedSessionCh srv; FailedSessionClientCh :=
     FailedSessionClientCh srv; portPropertyMap := portPropertyMap srv; vlanPropertyMap := vlanPropertyMap
     srv; lagPropertyMap := lagPropertyMap srv |}.
Definition set_InactiveSessionsIdSlice (x : list Z) (srv : BFDServer) : BFDServer :=
  {| heap := heap srv; nextPtr := nextPtr srv; Vrf := Vrf srv; Enabled := Enabled srv; NumSessions :=
     NumSessions srv; Sessions := Sessions srv; SessionsIdSlice := SessionsIdSlice srv; SessionsByIp :=
     SessionsByIp srv; InactiveSessionsIdSlice := x; NumSessionParams := NumSessionParams srv;
     SessionParams := SessionParams srv; NumUpSessions := NumUpSessions srv; NumDownSessions :=
     NumDownSessions srv; NumAdminDownSessions := NumAdminDownSessions srv; tobeCreatedSessions :=
     tobeCreatedSessions srv; CreatedSessionCh := CreatedSessionCh srv; FailedSessionClientCh :=
     FailedSessionClientCh srv; portPropertyMap := portPropertyMap srv; vlanPropertyMap := vlanPropertyMap
     srv; lagPropertyMap := lagPropertyMap srv |}.
Definition set_NumSessionParams (x : Z) (srv : BFDServer) : BFDServer :=
  {| heap := heap srv; nextPtr := nextPtr srv; Vrf := Vrf srv; Enabled := Enabled srv; NumSessions :=
     NumSessions srv; Sessions := Sessions srv; SessionsIdSlice := SessionsIdSlice srv; SessionsByIp :=
     SessionsByIp srv; InactiveSessionsIdSlice := InactiveSessionsIdSlice srv; NumSessionParams := x;
     SessionParams := SessionParams srv; NumUpSessions := NumUpSessions srv; NumDownSessions :=
     NumDownSessions srv; NumAdminDownSessions := NumAdminDownSessions srv; tobeCreatedSessions :=
     tobeCreatedSessions srv; CreatedSessionCh := CreatedSessionCh srv; FailedSessionClientCh :=
     FailedSessionClientCh srv; portPropertyMap := portPropertyMap srv; vlanPropertyMap := vlanPropertyMap
     srv; lagPropertyMap := lagPropertyMap srv |}.
Definition set_SessionParams (x : gmap string SessionParamState) (srv : BFDServer) : BFDServer :=
  {| heap := heap srv; nextPtr := nextPtr srv; Vrf := Vrf srv; Enabled := Enabled srv; NumSessions :=
     NumSessions srv; Sessions := Sessions srv; SessionsIdSlice := SessionsIdSlice srv; SessionsByIp :=
     SessionsByIp srv; InactiveSessionsIdSlice := InactiveSessionsIdSlice srv; NumSessionParams :=
     NumSessionParams srv; SessionParams := x; NumUpSessions := NumUpSessions srv; NumDownSessions :=
     NumDownSessions srv; NumAdminDownSessions := NumAdminDownSessions srv; tobeCreatedSessions :=
     tobeCreatedSessions srv; CreatedSessionCh := CreatedSessionCh srv; FailedSessionClientCh :=
     FailedSessionClientCh srv; portPropertyMap := portPropertyMap srv; vlanPropertyMap := vlanPropertyMap
     srv; lagPropertyMap := lagPropertyMap srv |}.
Definition set_tobeCreatedSessions (x : gmap string BfdSessionMgmt) (srv : BFDServer) : BFDServer :=
  {| heap := heap srv; nextPtr := nextPtr srv; Vrf := Vrf srv; Enabled := Enabled srv; NumSessions :=
     NumSessions srv; Sessions := Sessions srv; SessionsIdSlice := SessionsIdSlice srv; SessionsByIp :=
     SessionsByIp srv; InactiveSessionsIdSlice := InactiveSessionsIdSlice srv; NumSessionParams :=
     NumSessionParams srv; SessionParams := SessionParams srv; NumUpSessions := NumUpSessions srv;
     NumDownSessions := NumDownSessions srv; NumAdminDownSessions := NumAdminDownSessions srv;
     tobeCreatedSessions := x; CreatedSessionCh := CreatedSessionCh srv; FailedSessionClientCh :=
     FailedSessionClientCh srv; portPropertyMap := portPropertyMap srv; vlanPropertyMap := vlanPropertyMap
     srv; lagPropertyMap := lagPropertyMap srv |}.
Definition set_CreatedSessionCh (x : list Z) (srv : BFDServer) : BFDServer :=
  {| heap := heap srv; nextPtr := nextPtr srv; Vrf := Vrf srv; Enabled := Enabled srv; NumSessions :=
     NumSessions srv; Sessions := Sessions srv; SessionsIdSlice := SessionsIdSlice srv; SessionsByIp :=
     SessionsByIp srv; InactiveSessionsIdSlice := InactiveSessionsIdSlice srv; NumSessionParams :=
     NumSessionParams srv; SessionParams := SessionParams srv; NumUpSessions := NumUpSessions srv;
     NumDownSessions := NumDownSessions srv; NumAdminDownSessions := NumAdminDownSessions srv;
     tobeCreatedSessions := tobeCreatedSessions srv; CreatedSessionCh := x; FailedSessionClientCh :=
     FailedSessionClientCh srv; portPropertyMap := portPropertyMap srv; vlanPropertyMap := vlanPropertyMap
     srv; lagPropertyMap := lagPropertyMap srv |}.
Definition set_FailedSessionClientCh (x : list Z) (srv : BFDServer) : BFDServer :=
  {| heap := heap srv; nextPtr := nextPtr srv; Vrf := Vrf srv; Enabled := Enabled srv; NumSessions :=
     NumSessions srv; Sessions := Sessions srv; SessionsIdSlice := SessionsIdSlice srv; SessionsByIp :=
     SessionsByIp srv; InactiveSessionsIdSlice := InactiveSessionsIdSlice srv; NumSessionParams :=
     NumSessionParams srv; SessionParams := SessionParams srv; NumUpSessions := NumUpSessions srv;
     NumDownSessions := NumDownSessions srv; NumAdminDownSessions := NumAdminDownSessions srv;
     tobeCreatedSessions := tobeCreatedSessions srv; CreatedSessionCh := CreatedSessionCh srv;
     FailedSessionClientCh := x; portPropertyMap := portPropertyMap srv; vlanPropertyMap :=
     vlanPropertyMap srv; lagPropertyMap := lagPropertyMap srv |}.
Definition set_portPropertyMap (x : gmap Z PortProperty) (srv : BFDServer) : BFDServer :=
  {| heap := heap srv; nextPtr := nextPtr srv; Vrf := Vrf srv; Enabled := Enabled srv; NumSessions :=
     NumSessions srv; Sessions := Sessions srv; SessionsIdSlice := SessionsIdSlice srv; SessionsByIp :=
     SessionsByIp srv; InactiveSessionsIdSlice := InactiveSessionsIdSlice srv; NumSessionParams :=
     NumSessionParams srv; SessionParams := SessionParams srv; NumUpSessions := NumUpSessions srv;
     NumDownSessions := NumDownSessions srv; NumAdminDownSessions := NumAdminDownSessions srv;
     tobeCreatedSessions := tobeCreatedSessions srv; CreatedSessionCh := CreatedSessionCh srv;
     FailedSessionClientCh := FailedSessionClientCh srv; portPropertyMap := x; vlanPropertyMap :=
     vlanPropertyMap srv; lagPropertyMap := lagPropertyMap srv |}.
Definition set_vlanPropertyMap (x : gmap Z VlanProperty) (srv : BFDServer) : BFDServer :=
  {| heap := heap srv; nextPtr := nextPtr srv; Vrf := Vrf srv; Enabled := Enabled srv; NumSessions :=
     NumSessions srv; Sessions := Sessions srv; SessionsIdSlice := SessionsIdSlice srv; SessionsByIp :=
     SessionsByIp srv; InactiveSessionsIdSlice := InactiveSessionsIdSlice srv; NumSessionParams :=
     NumSessionParams srv; SessionParams := SessionParams srv; NumUpSessions := NumUpSessions srv;
     NumDownSessions := NumDownSessions srv; NumAdminDownSessions := NumAdminDownSessions srv;
     tobeCreatedSessions := tobeCreatedSessions srv; CreatedSessionCh := CreatedSessionCh srv;
     FailedSessionClientCh := FailedSessionClientCh srv; portPropertyMap := portPropertyMap srv;
     vlanPropertyMap := x; lagPropertyMap := lagPropertyMap srv |}.
Definition set_lagPropertyMap (x : gmap Z (list Z)) (srv : BFDServer) : BFDServer :=
  {| heap := heap srv; nextPtr := nextPtr srv; Vrf := Vrf srv; Enabled := Enabled srv; NumSessions :=
     NumSessions srv; Sessions := Sessions srv; SessionsIdSlice := SessionsIdSlice srv; SessionsByIp :=
     SessionsByIp srv; InactiveSessionsIdSlice := InactiveSessionsIdSlice srv; NumSessionParams :=
     NumSessionParams srv; SessionParams := SessionParams srv; NumUpSessions := NumUpSessions srv;
     NumDownSessions := NumDownSessions srv; NumAdminDownSessions := NumAdminDownSessions srv;
     tobeCreatedSessions := tobeCreatedSessions srv; CreatedSessionCh := CreatedSessionCh srv;
     FailedSessionClientCh := FailedSessionClientCh srv; portPropertyMap := portPropertyMap srv;
     vlanPropertyMap := vlanPropertyMap srv; lagPropertyMap := x |}.

Definition NewBFDServer : BFDServer :=
  {| heap := ∅; nextPtr := 0%nat; Vrf := ""; Enabled := false; NumSessions := 0; Sessions := ∅; SessionsIdSlice := [];
     SessionsByIp := ∅; InactiveSessionsIdSlice := []; NumSessionParams := 0; SessionParams := ∅; NumUpSessions := 0; NumDownSessions := 0; NumAdminDownSessions := 0;
     tobeCreatedSessions := ∅; CreatedSessionCh := []; FailedSessionClientCh := []; portPropertyMap := ∅;
     vlanPropertyMap := ∅; lagPropertyMap := ∅ |}.
Definition initBfdGlobalConfDefault (srv : BFDServer) : BFDServer := set_Enabled true srv.

(** ** Sessions by pointer *)

(** [server.bfdGlobal.Sessions[id]] with its fields; a missing session is a nil pointer, and reading it panics. *)
Definition session (srv : BFDServer) (id : Z) : option BfdSession :=
  match Sessions srv !! id with Some p => heap srv !! p | None => None end.
(** A method on the session: it changes the object both maps point to. *)
Definition on_session (id : Z) (f : BfdSession -> sresult BfdSession) (srv : BFDServer) : sresult BFDServer :=
  match Sessions srv !! id with
  | None => Panic
  | Some p =>
    match heap srv !! p with
    | None => Panic
    | Some s => s ← f s; Ok (set_heap (<[p := s]> (heap srv)) srv)
    end
  end.

(** [session.SessionStopClientCh <- true], [session.SessionStopServerCh <- true] *)
Definition send_stop_client (s : BfdSession) : sresult BfdSession := if s_clientRuns s then Ok (stop_client s) else Hang.
Definition send_stop_server (s : BfdSession) : sresult BfdSession := if s_serverRuns s then Ok (set_s_serverRuns false s) else Hang.
Definition stop_goroutines (s : BfdSession) : sresult BfdSession :=
  s ← (if IsSessionActive s then send_stop_client s else Ok s);
  send_stop_server s.

(** ** Packets *)

Definition receive (p : BfdControlPacket) (s : BfdSession) : sresult BfdSession :=
  if IsSessionActive s && negb (s_rxInterval s =? 0) then
    match s_sessionTimer s with
    | None => Ok s
    | Some _ =>
      s ← reset_sessionTimer (s_rxInterval s) s;
      if Nat.ltb (length (s_ReceivedPacketCh s)) PACKET_QUEUE_SIZE
      then Ok (set_s_ReceivedPacketCh (s_ReceivedPacketCh s ++ [p]) s) else Hang
    end
  else Ok s.

Definition DispatchReceivedBfdPacket (ipAddr : string) (p : BfdControlPacket) (srv : BFDServer) : sresult BFDServer :=
  let sessionId := s32 (YourDiscriminator p) in
  let ptr := match Sessions srv !! sessionId with Some x => Some x | None => SessionsByIp srv !! ipAddr end in
  match ptr with
  | None => Ok srv
  | Some x =>
    match heap srv !! x with
    | None => Panic
    | Some s => s ← receive p s; Ok (set_heap (<[x := s]> (heap srv)) srv)
    end
  end.

(** One datagram of [StartBfdSesionServer]; one that cannot be decoded is dropped. *)
Definition StartBfdSesionServer (ipAddr : string) (data : bytes) (srv : BFDServer) : sresult BFDServer :=
  if len data >=? DEFAULT_CONTROL_PACKET_LEN then
    match DecodeBfdControlPacket data with
    | Ok p => DispatchReceivedBfdPacket ipAddr p srv
    | Err _ => Ok srv
    | Panic => Panic
    | Hang => Hang
    end
  else Ok srv.

(** The turn of the session's server: a packet from its queue. *)
Definition session_turn (now : Z) (s : BfdSession) : sresult BfdSession :=
  if s_serverRuns s then
    match s_ReceivedPacketCh s with
    | [] => Ok s
    | p :: q => StartSessionServer now p (set_s_ReceivedPacketCh q s)
    end
  else Ok s.

(** A packet that the capture of session [own] hands over, until that session is gone; the packet is for the
    session that it names. *)
Definition StartPerLinkSessionServer (now own : Z) (SrcMAC DstMAC myMAC : bytes) (data : bytes) (srv : BFDServer)
  : sresult BFDServer :=
  if bool_decide (Sessions srv !! own = None) then Ok srv
  else if bool_decide (SrcMAC = myMAC) then Ok srv
  else if len data >=? DEFAULT_CONTROL_PACKET_LEN then
    match DecodeBfdControlPacket data with
    | Ok p =>
      let sessionId := s32 (YourDiscriminator p) in
      if sessionId =? 0 then Ok srv else on_session sessionId (perlink_receive now SrcMAC DstMAC p) srv
    | Err _ => Ok srv
    | Panic => Panic
    | Hang => Hang
    end
  else Ok srv.

(** ** Starting sessions *)

Definition created (PerLink : bool) (s : BfdSession) : BfdSession :=
  let s := set_s_ReceivedPacketCh [] (set_s_channels true s) in
  let s := set_s_isClientActive false s in
  if PerLink then s else set_s_serverRuns true s.

(** The two cases of [StartBfdSessionRxTx]: a session that was created, one whose client failed. The clients
    are goroutines, which run [StartSessionClient] or [StartPerLinkSessionClient] ([client_started]). *)
Definition StartBfdSessionRxTx_created (srv : BFDServer) : sresult BFDServer :=
  match CreatedSessionCh srv with
  | [] => Ok srv
  | id :: q =>
    let srv := set_CreatedSessionCh q srv in
    match Sessions srv !! id with
    | None => Ok srv
    | Some _ => on_session id (fun s => Ok (created (st_PerLinkSession (state s)) s)) srv
    end
  end.
Definition StartBfdSessionRxTx_failed (srv : BFDServer) : BFDServer :=
  match FailedSessionClientCh srv with
  | [] => srv
  | id :: q =>
    let srv := set_FailedSessionClientCh q srv in
    match Sessions srv !! id with
    | None => srv
    | Some _ => set_InactiveSessionsIdSlice (InactiveSessionsIdSlice srv ++ [id]) srv
    end
  end.
Definition client_started (id : Z) (connected : bool) (srv : BFDServer) : sresult BFDServer :=
  match session srv id with
  | None => Panic
  | Some s =>
    let '(s', failed) := if st_PerLinkSession (state s) then StartPerLinkSessionClient connected s
                         else StartSessionClient connected s in
    srv ← on_session id (fun _ => Ok s') srv;
    Ok (if failed then set_FailedSessionClientCh (FailedSessionClientCh srv ++ [id]) srv else srv)
  end.

(** One tick of [StartSessionRetryHandler]: the identifiers of the clients it starts, and the list it leaves. *)
Fixpoint retry (fuel : nat) (srv : BFDServer) (i : nat) (ids started : list Z) : list Z * list Z :=
  match fuel with
  | O => (ids, started)
  | S fuel =>
    match ids !! i with
    | None => (ids, started)
    | Some id =>
      match session srv id with
      | None => retry fuel srv (S i) ids started
      | Some s => retry fuel srv (S i) (take i ids ++ drop (S i) ids)
                    (if s_isClientActive s then started else started ++ [id])
      end
    end
  end.
Definition StartSessionRetryHandler (srv : BFDServer) : BFDServer * list Z :=
  let ids := InactiveSessionsIdSlice srv in
  let '(ids', started) := retry (length ids) srv 0 ids [] in
  (set_InactiveSessionsIdSlice ids' srv, started).

(** ** Interfaces *)

(** A VLAN was created or deleted. *)
Definition updateVlanPropertyMap (create : bool) (VlanId : Z) (VlanName : string) (UntagPorts : list Z) (srv : BFDServer)
  : BFDServer :=
  if create then
    let ent := default {| vp_Name := ""; vp_UntagPorts := []; vp_IpAddr := "" |} (vlanPropertyMap srv !! VlanId) in
    set_vlanPropertyMap (<[VlanId := {| vp_Name := VlanName; vp_UntagPorts := UntagPorts; vp_IpAddr := vp_IpAddr ent |}]>
      (vlanPropertyMap srv)) srv
  else set_vlanPropertyMap (delete VlanId (vlanPropertyMap srv)) srv.

Definition updatePortPropertyMap (create : bool) (VlanId : Z) (VlanName : string) (UntagPorts : list Z) (srv : BFDServer)
  : BFDServer :=
  set_portPropertyMap
    (foldl (fun m portNum =>
       let ent := default {| pp_Name := ""; pp_VlanName := ""; pp_VlanId := 0; pp_IpAddr := "" |} (m !! portNum) in
       <[portNum := {| pp_Name := pp_Name ent; pp_VlanName := if create then VlanName else "";
                       pp_VlanId := if create then VlanId else 0; pp_IpAddr := pp_IpAddr ent |}]> m)
       (portPropertyMap srv) UntagPorts) srv.

Definition updateLagPropertyMap (create : bool) (IfIndex : Z) (IfIndexList : list Z) (srv : BFDServer) : BFDServer :=
  if create then
    match lagPropertyMap srv !! IfIndex with
    | Some _ => srv
    | None => set_lagPropertyMap (<[IfIndex := IfIndexList]> (lagPropertyMap srv)) srv
    end
  else set_lagPropertyMap (delete IfIndex (lagPropertyMap srv)) srv.

Definition IsLinkLocalUnicast (ip : bytes) : bool :=
  match To4 ip with
  | Some [a; b; _; _] => (a =? 169) && (b =? 254)
  | _ => match ip with
         | a :: b :: _ => (len ip =? 16) && (a =? 254) && (Z.land b 192 =? 128)
         | _ => false
         end
  end.

(** The key of a session: a link-local IPv6 address gets its interface. *)
Definition session_ip (DestIp Interface : string) : string :=
  if bool_decide (Interface = "") then DestIp
  else match ParseIP DestIp with
       | None => DestIp
       | Some ip => match To4 ip with
                    | Some _ => DestIp
                    | None => if IsLinkLocalUnicast ip then DestIp +:+ "%" +:+ Interface else DestIp
                    end
       end.

(** What the daemon asks of other parts. *)
Class Env := {
  (** The route manager: the interface and the local address towards a destination, if it is reachable. *)
  GetRouteReachabilityInfo : string -> option (Z * string);
  (** The switch: types of interfaces, and the hardware addresses of the system's interfaces. *)
  GetIntfTypeFromIfIndex : Z -> Z;
  IfTypeVlan : Z;
  IfTypePort : Z;
  IfTypeLag : Z;
  InterfaceByName : string -> option bytes;
  (** The random numbers drawn: identifiers, by a generator that is new for each session (there are [n] when it is made), and the
      jitter. *)
  Int31n (n : Z) : N -> Z;
  jitter : Z;
  (** The order in which a map is ranged over. *)
  order : gmap Z nat -> list Z;
  order_names : gmap string BfdSessionMgmt -> list string;
}.

Section server.
Context {env : Env}.

Definition getLinuxIntfName (srv : BFDServer) (ifIndex : Z) : outcome () string :=
  let ifType := GetIntfTypeFromIfIndex ifIndex in
  if ifType =? IfTypeVlan then Ok (default "" (vp_Name <$> vlanPropertyMap srv !! ifIndex))
  else if ifType =? IfTypePort then Ok (default "" (pp_Name <$> portPropertyMap srv !! ifIndex))
  else Err tt.
(** The name without the error: empty if there is one. *)
Definition intf_name (srv : BFDServer) (ifIndex : Z) : string :=
  match getLinuxIntfName srv ifIndex with Ok n => n | _ => "" end.

(** ** Identifiers: drawn until one is free and not 0 *)

Fixpoint draw (fuel : nat) (seed : Z) (k : N) (sessions : gmap Z nat) : sresult Z :=
  match fuel with
  | O => Hang
  | S fuel =>
    let sessionId := Int31n seed k in
    if bool_decide (is_Some (sessions !! sessionId)) then draw fuel seed (N.succ k) sessions
    else if negb (sessionId =? 0) then Ok sessionId
    else draw fuel seed (N.succ k) sessions
  end.
Definition GetNewSessionId (fuel : nat) (srv : BFDServer) : sresult Z :=
  if NumSessions srv <? MAX_NUM_SESSIONS then draw fuel (NumSessions srv) 0%N (Sessions srv) else Ok 0.

(** ** Creation *)

Definition NewNormalBfdSession (fuel : nat) (Interface LocalIp DestIp ParamName : string) (PerLink : bool) (Protocol : Z)
    (srv : BFDServer) : sresult (option Z * BFDServer) :=
  sessionId ← GetNewSessionId fuel srv;
  if sessionId =? 0 then Ok (None, srv)
  else if (Protocol <? 0) || (MAX_APPS <=? Protocol) then Panic
  else
    let exist := bool_decide (is_Some (SessionParams srv !! ParamName)) in
    let name := if exist then ParamName else "default" in
    match SessionParams srv !! name with
    | None => Panic
    | Some param =>
      let param' := {| sp_Name := sp_Name param; sp_NumSessions := s32 (sp_NumSessions param + 1);
        sp_LocalMultiplier := sp_LocalMultiplier param; sp_DesiredMinTxInterval := sp_DesiredMinTxInterval param;
        sp_RequiredMinRxInterval := sp_RequiredMinRxInterval param;
        sp_RequiredMinEchoRxInterval := sp_RequiredMinEchoRxInterval param; sp_DemandEnabled := sp_DemandEnabled param;
        sp_AuthenticationEnabled := sp_AuthenticationEnabled param; sp_AuthenticationType := sp_AuthenticationType param;
        sp_AuthenticationKeyId := sp_AuthenticationKeyId param; sp_AuthenticationData := sp_AuthenticationData param |} in
      let srv := set_SessionParams (<[name := param']> (SessionParams srv)) srv in
      let s := new_session sessionId (default [] (InterfaceByName Interface)) jitter Interface LocalIp DestIp name param
                 PerLink Protocol in
      let p := nextPtr srv in
      let srv := set_nextPtr (S p) (set_heap (<[p := s]> (heap srv)) srv) in
      let srv := set_Sessions (<[sessionId := p]> (Sessions srv)) srv in
      let srv := set_SessionsByIp (<[DestIp := p]> (SessionsByIp srv)) srv in
      let srv := set_NumSessions (u32 (NumSessions srv + 1)) srv in
      let srv := set_SessionsIdSlice (SessionsIdSlice srv ++ [sessionId]) srv in
      Ok (Some sessionId, set_CreatedSessionCh (CreatedSessionCh srv ++ [sessionId]) srv)
    end.

Fixpoint perlink_sessions (fuel : nat) (links : list Z) (IfIndex : Z) (LocalIp DestIp ParamName : string) (Protocol : Z)
    (srv : BFDServer) : sresult BFDServer :=
  match links with
  | [] => Ok srv
  | _ :: links =>
    r ← NewNormalBfdSession fuel (intf_name srv IfIndex) LocalIp DestIp ParamName true Protocol srv;
    perlink_sessions fuel links IfIndex LocalIp DestIp ParamName Protocol r.2
  end.
Definition NewPerLinkBfdSessions (fuel : nat) (IfIndex : Z) (LocalIp DestIp ParamName : string) (Protocol : Z)
    (srv : BFDServer) : sresult BFDServer :=
  match lagPropertyMap srv !! IfIndex with
  | Some links => perlink_sessions fuel links IfIndex LocalIp DestIp ParamName Protocol srv
  | None => Ok srv
  end.

(** Without a session ([None]) for any reason but one: a session that could not get an identifier is dereferenced. *)
Definition NewBfdSession (fuel : nat) (DestIp ParamName Interface : string) (Protocol : Z) (PerLink : bool)
    (srv : BFDServer) : sresult (option Z * BFDServer) :=
  let interfaceSpecific := negb (bool_decide (Interface = "")) in
  match GetRouteReachabilityInfo DestIp with
  | None => Ok (None, srv)
  | Some (IfIndex, localIp) =>
    let IfType := GetIntfTypeFromIfIndex IfIndex in
    if match getLinuxIntfName srv IfIndex with
       | Ok IfName => interfaceSpecific && negb (bool_decide (IfName = Interface))
       | _ => false
       end
    then Ok (None, srv)
    else if (IfType =? IfTypeLag) && PerLink then
      srv ← NewPerLinkBfdSessions fuel IfIndex localIp DestIp ParamName Protocol srv;
      Ok (None, srv)
    else
      r ← NewNormalBfdSession fuel Interface localIp DestIp ParamName false Protocol srv;
      match r.1 with
      | None => Panic
      | Some id =>
        srv ← on_session id (fun s => Ok (upd_state (set_st_InterfaceSpecific interfaceSpecific) s)) r.2;
        Ok (Some id, srv)
      end
  end.

(** The first session to an address, in the order of the map. *)
Definition FindBfdSession (DestIp : string) (srv : BFDServer) : option Z :=
  List.find (fun id => match session srv id with
                  | Some s => bool_decide (st_IpAddr (state s) = DestIp)
                  | None => false
                  end) (order (Sessions srv)).
Definition FindBfdSessionContainingAddr (DestIp : string) (srv : BFDServer) : option Z :=
  List.find (fun id => match session srv id with
                  | Some s => String.prefix DestIp (st_IpAddr (state s))
                  | None => false
                  end) (order (Sessions srv)).

(** [session.state.RegisteredProtocols[Protocol] = b] *)
Definition register (Protocol : Z) (b : bool) (s : BfdSession) : sresult BfdSession :=
  let l := st_RegisteredProtocols (state s) in
  if (Protocol <? 0) || (len l <=? Protocol) then Panic
  else Ok (upd_state (set_st_RegisteredProtocols (<[Z.to_nat Protocol := b]> l)) s).

(** The first component: no error. *)
Definition CreateBfdSession (fuel : nat) (m : BfdSessionMgmt) (srv : BFDServer) : sresult (bool * BFDServer) :=
  let sessionIp := session_ip (DestIp m) (Interface m) in
  match FindBfdSession sessionIp srv with
  | None =>
    r ← NewBfdSession fuel sessionIp (ParamName m) (Interface m) (Protocol m) (PerLink m) srv;
    match r.1 with
    | Some _ => Ok (true, r.2)
    | None =>
      let srv := r.2 in
      Ok (false, match tobeCreatedSessions srv !! sessionIp with
                 | Some _ => srv
                 | None => set_tobeCreatedSessions (<[sessionIp := m]> (tobeCreatedSessions srv)) srv
                 end)
    end
  | Some sessionId =>
    srv ← on_session sessionId (register (Protocol m) true) srv;
    Ok (true, srv)
  end.

(** ** Deletion *)

Fixpoint remove_id (id : Z) (ids : list Z) : sresult (list Z) :=
  match ids with
  | [] => Panic
  | x :: ids => if x =? id then Ok ids else r ← remove_id id ids; Ok (x :: r)
  end.

Definition SessionDeleteHandler (sessionId : Z) (Protocol : Z) (ForceDel : bool) (srv : BFDServer) : sresult BFDServer :=
  srv ← on_session sessionId (register Protocol false) srv;
  match session srv sessionId with
  | None => Panic
  | Some s =>
    if ForceDel || negb (CheckIfAnyProtocolRegistered s) then
      srv ← on_session sessionId stop_goroutines srv;
      match SessionParams srv !! st_ParamName (state s) with
      | None => Panic
      | Some param =>
        let param' := {| sp_Name := sp_Name param; sp_NumSessions := s32 (sp_NumSessions param - 1);
          sp_LocalMultiplier := sp_LocalMultiplier param; sp_DesiredMinTxInterval := sp_DesiredMinTxInterval param;
          sp_RequiredMinRxInterval := sp_RequiredMinRxInterval param;
          sp_RequiredMinEchoRxInterval := sp_RequiredMinEchoRxInterval param; sp_DemandEnabled := sp_DemandEnabled param;
          sp_AuthenticationEnabled := sp_AuthenticationEnabled param; sp_AuthenticationType := sp_AuthenticationType param;
          sp_AuthenticationKeyId := sp_AuthenticationKeyId param; sp_AuthenticationData := sp_AuthenticationData param |} in
        let srv := set_SessionParams (<[st_ParamName (state s) := param']> (SessionParams srv)) srv in
        let srv := set_NumSessions (u32 (NumSessions srv - 1)) srv in
        let srv := set_Sessions (delete sessionId (Sessions srv)) srv in
        let srv := set_SessionsByIp (delete (st_IpAddr (state s)) (SessionsByIp srv)) srv in
        ids ← remove_id sessionId (SessionsIdSlice srv);
        Ok (set_SessionsIdSlice ids srv)
      end
    else Ok srv
  end.

(** A method on every session to an address, in the order of the map. *)
Fixpoint each_to (DestIp : string) (f : Z -> BFDServer -> sresult BFDServer) (ids : list Z) (srv : BFDServer)
  : sresult BFDServer :=
  match ids with
  | [] => Ok srv
  | id :: ids =>
    match session srv id with
    | Some s => srv ← (if bool_decide (st_IpAddr (state s) = DestIp) then f id srv else Ok srv);
                each_to DestIp f ids srv
    | None => each_to DestIp f ids srv
    end
  end.
Definition DeletePerLinkSessions (DestIp : string) (Protocol : Z) (ForceDel : bool) (srv : BFDServer) : sresult BFDServer :=
  each_to DestIp (fun id => SessionDeleteHandler id Protocol ForceDel) (order (Sessions srv)) srv.

Definition DeleteBfdSession (m : BfdSessionMgmt) (srv : BFDServer) : sresult BFDServer :=
  let sessionIp := session_ip (DestIp m) (Interface m) in
  match FindBfdSession sessionIp srv with
  | None => Ok srv
  | Some sessionId =>
    match session srv sessionId with
    | None => Panic
    | Some s =>
      if st_PerLinkSession (state s) then DeletePerLinkSessions sessionIp (Protocol m) (ForceDel m) srv
      else SessionDeleteHandler sessionId (Protocol m) (ForceDel m) srv
    end
  end.

Definition ResetBfdSession (sessionId : Z) (srv : BFDServer) : sresult BFDServer :=
  on_session sessionId (fun s =>
    s ← stop_goroutines s;
    let s := ResetLocalSessionParams s in
    let s := set_s_isClientActive false s in
    Ok (set_s_serverRuns true s)) srv.

(** ** Administrators *)

Definition admin (perlink one : Z -> BFDServer -> sresult BFDServer) (DestIp : string) (srv : BFDServer)
  : sresult BFDServer :=
  match FindBfdSession DestIp srv with
  | None => Ok srv
  | Some sessionId =>
    match session srv sessionId with
    | None => Panic
    | Some s => if st_PerLinkSession (state s) then each_to DestIp perlink (order (Sessions srv)) srv else one sessionId srv
    end
  end.
Definition AdminUpBfdSession (now : Z) (m : BfdSessionMgmt) (srv : BFDServer) : sresult BFDServer :=
  admin (fun id => on_session id (StartBfdSession now)) (fun id => on_session id (StartBfdSession now)) (DestIp m) srv.
Definition AdminDownBfdSession (now : Z) (m : BfdSessionMgmt) (srv : BFDServer) : sresult BFDServer :=
  admin (fun id => on_session id (StopBfdSession now)) (fun id => on_session id (StopBfdSession now)) (DestIp m) srv.

(** A request of [SessionConfigCh], as the session handler serves it; it never forces a deletion. *)
Definition processSessionConfig (fuel : nat) (now : Z) (c : SessionConfig) (srv : BFDServer) : sresult BFDServer :=
  let m := {| DestIp := sc_DestIp c; ParamName := sc_ParamName c; Interface := sc_Interface c; Protocol := sc_Protocol c;
              PerLink := sc_PerLink c; ForceDel := false |} in
  match sc_Operation c with
  | CREATE => r ← CreateBfdSession fuel m srv; Ok r.2
  | DELETE => DeleteBfdSession m srv
  | ADMINUP => AdminUpBfdSession now m srv
  | ADMINDOWN => AdminDownBfdSession now m srv
  end.

Fixpoint each_id (f : Z -> BFDServer -> sresult BFDServer) (ids : list Z) (srv : BFDServer) : sresult BFDServer :=
  match ids with
  | [] => Ok srv
  | id :: ids => srv ← f id srv; each_id f ids srv
  end.
Definition processGlobalConfig (now : Z) (vrf : string) (enable : bool) (srv : BFDServer) : sresult BFDServer :=
  let wasEnabled := Enabled srv in
  let srv := set_Enabled enable (set_Vrf vrf srv) in
  let isEnabled := Enabled srv in
  each_id (fun id srv =>
    srv ← (if negb wasEnabled && isEnabled then on_session id (StartBfdSession now) srv else Ok srv);
    if wasEnabled && negb isEnabled then on_session id (StopBfdSession now) srv else Ok srv)
    (SessionsIdSlice srv) srv.

Definition SendAdminUpToAllNeighbors (now : Z) (srv : BFDServer) : sresult BFDServer :=
  each_id (fun id => on_session id (StartBfdSession now)) (order (Sessions srv)) srv.
Definition SendAdminDownToAllNeighbors (now : Z) (srv : BFDServer) : sresult BFDServer :=
  each_id (fun id => on_session id (StopBfdSession now)) (order (Sessions srv)) srv.
Definition SendDeleteToAllSessions (srv : BFDServer) : sresult BFDServer :=
  each_id (fun id => on_session id (fun s => s ← send_stop_client s; send_stop_server s)) (order (Sessions srv)) srv.

(** ** Next hops *)

Fixpoint recreate (fuel : nat) (names : list string) (srv : BFDServer) : sresult BFDServer :=
  match names with
  | [] => Ok srv
  | name :: names =>
    match tobeCreatedSessions srv !! name with
    | None => recreate fuel names srv
    | Some m =>
      r ← CreateBfdSession fuel m srv;
      let srv := (r : bool * BFDServer).2 in
      recreate fuel names (if (r : bool * BFDServer).1 then set_tobeCreatedSessions (delete (DestIp m) (tobeCreatedSessions srv)) srv else srv)
    end
  end.
Definition HandleNextHopChange (fuel : nat) (Reachable : bool) (srv : BFDServer) : sresult BFDServer :=
  if Reachable then recreate fuel (order_names (tobeCreatedSessions srv)) srv else Ok srv.

(** ** Parameters *)

Definition use_param (param : option SessionParamState) (s : BfdSession) : BfdSession :=
  let s := match param with
    | Some p =>
      let s := upd_state (set_st_DesiredMinTxInterval (sp_DesiredMinTxInterval p)) s in
      let s := upd_state (set_st_RequiredMinRxInterval (sp_RequiredMinRxInterval p)) s in
      let s := upd_state (set_st_DetectionMultiplier (sp_LocalMultiplier p)) s in
      let s := upd_state (set_st_DemandMode (sp_DemandEnabled p)) s in
      set_s_authData (sp_AuthenticationData p) (set_s_authKeyId (u32 (sp_AuthenticationKeyId p))
        (set_s_authType (u8 (sp_AuthenticationType p)) (set_s_authEnabled (sp_AuthenticationEnabled p) s)))
    | None =>
      let s := upd_state (set_st_DesiredMinTxInterval DEFAULT_DESIRED_MIN_TX_INTERVAL) s in
      let s := upd_state (set_st_RequiredMinRxInterval DEFAULT_REQUIRED_MIN_RX_INTERVAL) s in
      let s := upd_state (set_st_DetectionMultiplier DEFAULT_DETECT_MULTI) s in
      let s := upd_state (set_st_DemandMode false) s in
      set_s_authEnabled false s
    end in
  InitiatePollSequence (set_s_paramChanged true s).

Definition UpdateBfdSessionsUsingParam (paramName : string) (srv : BFDServer) : sresult BFDServer :=
  let param := SessionParams srv !! paramName in
  each_id (fun id => on_session id (fun s =>
    Ok (if bool_decide (st_ParamName (state s) = paramName) then use_param param s else s)))
    (order (Sessions srv)) srv.

Definition processSessionParamConfig (c : SessionParamConfig) (srv : BFDServer) : sresult BFDServer :=
  let exist := bool_decide (is_Some (SessionParams srv !! pc_Name c)) in
  let n := match SessionParams srv !! pc_Name c with Some p => sp_NumSessions p | None => 0 end in
  let p := {| sp_Name := pc_Name c; sp_NumSessions := n; sp_LocalMultiplier := pc_LocalMultiplier c;
              sp_DesiredMinTxInterval := s32 (pc_DesiredMinTxInterval c * 1000);
              sp_RequiredMinRxInterval := s32 (pc_RequiredMinRxInterval c * 1000);
              sp_RequiredMinEchoRxInterval := s32 (pc_RequiredMinEchoRxInterval c * 1000);
              sp_DemandEnabled := pc_DemandEnabled c; sp_AuthenticationEnabled := pc_AuthenticationEnabled c;
              sp_AuthenticationType := pc_AuthenticationType c; sp_AuthenticationKeyId := pc_AuthenticationKeyId c;
              sp_AuthenticationData := pc_AuthenticationData c |} in
  let srv := set_SessionParams (<[pc_Name c := p]> (SessionParams srv)) srv in
  let srv := if negb exist then set_NumSessionParams (u32 (NumSessionParams srv + 1)) srv else srv in
  UpdateBfdSessionsUsingParam (pc_Name c) srv.

Definition createDefaultSessionParam (srv : BFDServer) : sresult BFDServer :=
  match SessionParams srv !! "default" with
  | Some _ => Ok srv
  | None =>
    let p := {| sp_Name := "default"; sp_NumSessions := 0; sp_LocalMultiplier := DEFAULT_DETECT_MULTI;
                sp_DesiredMinTxInterval := DEFAULT_DESIRED_MIN_TX_INTERVAL;
                sp_RequiredMinRxInterval := DEFAULT_REQUIRED_MIN_RX_INTERVAL;
                sp_RequiredMinEchoRxInterval := DEFAULT_REQUIRED_MIN_ECHO_RX_INTERVAL; sp_DemandEnabled := false;
                sp_AuthenticationEnabled := false; sp_AuthenticationType := 0; sp_AuthenticationKeyId := 0;
                sp_AuthenticationData := "" |} in
    let srv := set_SessionParams (<["default" := p]> (SessionParams srv)) srv in
    let srv := set_NumSessionParams (u32 (NumSessionParams srv + 1)) srv in
    UpdateBfdSessionsUsingParam "default" srv
  end.

Definition InitServer : sresult BFDServer := createDefaultSessionParam (initBfdGlobalConfDefault NewBFDServer).

Definition processSessionParamDelete (paramName : string) (srv : BFDServer) : sresult BFDServer :=
  match SessionParams srv !! paramName with
  | None => Ok srv
  | Some _ =>
    let srv := set_SessionParams (delete paramName (SessionParams srv)) srv in
    let srv := set_NumSessionParams (u32 (NumSessionParams srv - 1)) srv in
    UpdateBfdSessionsUsingParam paramName srv
  end.

(** ** Reads *)

(** The part of an address before the interface; the local address is not copied. *)
Definition address_of (ip : string) : string :=
  match String.index 0 "%" ip with Some n => String.substring 0 n ip | None => ip end.
Definition read_state (s : BfdSession) : SessionState :=
  set_st_LocalAddr "" (set_st_IpAddr (address_of (st_IpAddr (state s))) (state s)).

(** The loop from [idx] to [count]: what it writes to the result. *)
Fixpoint bulk (n : nat) (i : Z) (srv : BFDServer) : sresult (list (Z * SessionState)) :=
  match n with
  | O => Ok []
  | S n =>
    if i <? 0 then Panic else
    match SessionsIdSlice srv !! Z.to_nat i with
    | None => Panic
    | Some id =>
      match session srv id with
      | None => Panic
      | Some s => r ← bulk n (i + 1) srv; Ok ((i, read_state s) :: r)
      end
    end
  end.
(** The next index, the number of entries, and those of them that are written, by position; the others are zero. *)
Definition GetBulkBfdSessionStates (idx cnt : Z) (srv : BFDServer) : sresult (Z * Z * list (Z * SessionState)) :=
  let length := len (SessionsIdSlice srv) in
  let '(nextIdx, count) := if idx + cnt >=? length then (0, length - idx) else (idx + 0 + 1, 0) in
  if count <? 0 then Panic
  else
    r ← bulk (Z.to_nat (count - idx)) idx srv;
    Ok (nextIdx, count, r).

Definition GetBfdSessionState (ipAddr : string) (srv : BFDServer) : sresult (option SessionState) :=
  match FindBfdSessionContainingAddr ipAddr srv with
  | None => Ok None
  | Some id => match session srv id with Some s => Ok (Some (read_state s)) | None => Panic end
  end.

(** [params]: the parameters in the order of the map. *)
Definition GetBulkBfdSessionParamStates (idx cnt : Z) (params : list SessionParamState)
  : sresult (Z * Z * list SessionParamState) :=
  if cnt <? 0 then Panic
  else if len params >? cnt then Panic
  else Ok (0, len params, params).
Definition GetBfdGlobalState (srv : BFDServer) : GlobalState :=
  {| gs_Vrf := Vrf srv; gs_Enable := Enabled srv; gs_NumSessions := NumSessions srv; gs_NumUpSessions := NumUpSessions srv;
     gs_NumDownSessions := NumDownSessions srv; gs_NumAdminDownSessions := NumAdminDownSessions srv |}.
Definition GetBfdSessionParamState (paramName : string) (srv : BFDServer) : option SessionParamState :=
  SessionParams srv !! paramName.
(** ** The daemon *)

(** What reaches the daemon: requests, news of routes and interfaces, datagrams, and the turns of its goroutines. *)
Inductive server_event :=
  | GlobalConfigCh (now : Z) (vrf : string) (enable : bool)
  | SessionConfigCh (now : Z) (c : SessionConfig)
  | SessionParamConfigCh (c : SessionParamConfig)
  | SessionParamDeleteCh (paramName : string)
  | ResetSessionCh (sessionId : Z)
  | NextHopChange (Reachable : bool)
  | VlanNotify (create : bool) (VlanId : Z) (VlanName : string) (UntagPorts : list Z)
  | LagNotify (create : bool) (IfIndex : Z) (IfIndexList : list Z)
  | UdpPacket (ipAddr : string) (data : bytes)
  | LinkPacket (now own : Z) (SrcMAC DstMAC myMAC : bytes) (data : bytes)
  | CreatedTurn
  | FailedTurn
  | ClientTurn (id : Z) (connected : bool)
  | RetryTurn
  | ServerTurn (now id : Z)
  | TxTimeout (id : Z) (written : bool)
  | SessionTimeout (now id : Z)
  | LinkTxTimeout (id : Z) (written : bool)
  | LinkSessionTimeout (now id : Z).

(** One event. Its handler is one step: StartServer, the session handler and its retries, and the goroutines of the sessions share the tables
    without a lock in the code, and here each handler has them for itself, and what it sends is taken at once. The answers of
    the other daemons are those of the [Env] of the event. *)
Definition serve (fuel : nat) (e : server_event) (srv : BFDServer) : sresult BFDServer :=
  match e with
  | GlobalConfigCh now vrf enable => processGlobalConfig now vrf enable srv
  | SessionConfigCh now c => processSessionConfig fuel now c srv
  | SessionParamConfigCh c => processSessionParamConfig c srv
  | SessionParamDeleteCh name => processSessionParamDelete name srv
  | ResetSessionCh id => ResetBfdSession id srv
  | NextHopChange Reachable => HandleNextHopChange fuel Reachable srv
  | VlanNotify create id name ports =>
    Ok (updateVlanPropertyMap create id name ports (updatePortPropertyMap create id name ports srv))
  | LagNotify create i l => Ok (updateLagPropertyMap create i l srv)
  | UdpPacket ip data => StartBfdSesionServer ip data srv
  | LinkPacket now own src dst my data => StartPerLinkSessionServer now own src dst my data srv
  | CreatedTurn => StartBfdSessionRxTx_created srv
  | FailedTurn => Ok (StartBfdSessionRxTx_failed srv)
  | ClientTurn id connected => client_started id connected srv
  | RetryTurn => Ok (StartSessionRetryHandler srv).1
  | ServerTurn now id => on_session id (session_turn now) srv
  | TxTimeout id written => on_session id (SendPeriodicControlPackets written) srv
  | SessionTimeout now id => on_session id (HandleSessionTimeout now) srv
  | LinkTxTimeout id written => on_session id (perlink_transmit written) srv
  | LinkSessionTimeout now id => on_session id (perlink_timeout now) srv
  end.
End server.

(** A run: events, each at a time of its own, with what the other daemons answer then, the numbers drawn and the orders of maps. *)
Fixpoint serve_all (fuel : nat) (es : list (Env * server_event)) (srv : BFDServer) : sresult BFDServer :=
  match es with
  | [] => Ok srv
  | (env, e) :: es => srv ← serve (env := env) fuel e srv; serve_all fuel es srv
  end.
