(* ===== verification/BfdServerFacts.v ===== *)
(** Facts on the BFD server: what a method on a session leaves of its identity, the requests as changes of the
    tables, and the invariant of the tables. *)
From stdpp Require Import base numbers list gmap strings.
From Stdlib Require Import ZArith Lia.
From S2P Require Import Prelude GoNet GoCrypto BfdPacket BfdSession BfdServer.
Open Scope Z_scope.

(** ** The identity of a session *)

(** What no event of a session changes: its identifier, its address, its parameters, its kind and its owners. *)
Definition ident (s : BfdSession) : Z * string * string * bool * list bool :=
  (st_SessionId (state s), st_IpAddr (state s), st_ParamName (state s), st_PerLinkSession (state s),
   st_RegisteredProtocols (state s)).
Definition keeps_id (r : sresult BfdSession) (i : Z * string * string * bool * list bool) : Prop :=
  forall s', r = Ok s' -> ident s' = i.

Lemma keeps_id_bind m f i : keeps_id m i -> (forall s, ident s = i -> keeps_id (f s) i) -> keeps_id (s ← m; f s) i.
Proof. intros Hm Hf s' (s1 & H1 & H2)%bind_Ok_inv. eapply Hf; [by apply Hm | done]. Qed.
Lemma keeps_id_bind_any {A} (m : sresult A) f i : (forall x, m = Ok x -> keeps_id (f x) i) -> keeps_id (x ← m; f x) i.
Proof. intros Hf s' (x & Hx & H)%bind_Ok_inv. by eapply Hf. Qed.
Lemma keeps_id_let v f i : ident v = i -> (forall s, ident s = i -> keeps_id (f s) i) -> keeps_id (let s := v in f s) i.
Proof. intros Hv Hf. by apply Hf. Qed.
Lemma keeps_id_Ok v i : ident v = i -> keeps_id (Ok v) i.
Proof. by intros Hv s' [= <-]. Qed.
Lemma keeps_id_Panic i : keeps_id Panic i.
Proof. by intros ?. Qed.
Lemma keeps_id_Hang i : keeps_id Hang i.
Proof. by intros ?. Qed.
Create HintDb ident.
#[export] Hint Resolve keeps_id_Panic keeps_id_Hang : ident.

(** The identity through assignments and choices, one at a time. *)
Ltac ident_step :=
  first [by eauto 2 with ident |
  lazymatch goal with
  | H : ident ?s = ?i |- ident ?s = ?i => exact H
  | |- ident (if ?b then _ else _) = _ => destruct b
  | |- ident (let x := ?v in _) = _ =>
      lazymatch type of v with
      | BfdSession => let H := fresh in let y := fresh "s" in
          set (y := v); lazymatch goal with |- _ = ?i => assert (H : ident y = i); [subst y | clearbody y] end
      | _ => intros ?
      end
  | |- ident (?f ?s) = ?i =>
      let H := fresh in
      first [assert (H : forall y, ident (f y) = ident y) by (intros ?; reflexivity); rewrite H; clear H
            |assert (H : ident s = i); [|solve [eauto 2 with ident]]]
  end].
Ltac keeps_step :=
  lazymatch goal with
  | |- keeps_id (Ok _) _ => apply keeps_id_Ok; repeat ident_step
  | |- keeps_id Panic _ => apply keeps_id_Panic
  | |- keeps_id Hang _ => apply keeps_id_Hang
  | |- keeps_id (let x := ?v in _) _ =>
      lazymatch type of v with
      | BfdSession => apply keeps_id_let; [repeat ident_step | intros ? ?]
      | _ => generalize v; intros ?
      end
  | |- keeps_id (if ?b then _ else _) _ => destruct b
  | |- keeps_id (match ?b with _ => _ end) _ => destruct b
  | |- keeps_id (mbind _ ?m) _ =>
      lazymatch type of m with
      | outcome _ BfdSession => apply keeps_id_bind; [| intros ? ?]
      | _ => apply keeps_id_bind_any; intros ? ?
      end
  | |- keeps_id (?f ?s) ?i =>
      let H := fresh in assert (H : ident s = i); [repeat ident_step | solve [eauto 2 with ident]]
  end.
Ltac keeps_ident := repeat (first [by eauto 2 with ident | keeps_step]).

Section ident.
Context (i : Z * string * string * bool * list bool) (s : BfdSession) (Hs : ident s = i).

Lemma reset_tx_ident ms : keeps_id (reset_txTimer ms s) i.
Proof. unfold reset_txTimer. keeps_ident. Qed.
Lemma stop_tx_ident : keeps_id (stop_txTimer s) i.
Proof. unfold stop_txTimer. keeps_ident. Qed.
Lemma reset_session_ident ms : keeps_id (reset_sessionTimer ms s) i.
Proof. unfold reset_sessionTimer. keeps_ident. Qed.
Lemma stop_session_ident : keeps_id (stop_sessionTimer s) i.
Proof. unfold stop_sessionTimer. keeps_ident. Qed.
End ident.
#[export] Hint Resolve reset_tx_ident stop_tx_ident reset_session_ident stop_session_ident : ident.

(** The handlers of a session, one by one. *)
Section handlers.
Context (i : Z * string * string * bool * list bool).
Implicit Types s : BfdSession.

Lemma notification_ident s : ident s = i -> ident (SendBfdNotification s) = i.
Proof. intros Hs. unfold SendBfdNotification. repeat ident_step. Qed.
#[local] Hint Resolve notification_ident : ident.
Lemma reset_local_ident s : ident s = i -> ident (ResetLocalSessionParams s) = i.
Proof. intros Hs. unfold ResetLocalSessionParams. repeat ident_step. Qed.
#[local] Hint Resolve reset_local_ident : ident.
Lemma reset_remote_ident s : ident s = i -> ident (ResetRemoteSessionParams s) = i.
Proof. intros Hs. unfold ResetRemoteSessionParams. repeat ident_step. Qed.
#[local] Hint Resolve reset_remote_ident : ident.
Lemma local_admin_down_ident s : ident s = i -> keeps_id (LocalAdminDown s) i.
Proof. intros Hs. unfold LocalAdminDown. keeps_ident. Qed.
#[local] Hint Resolve local_admin_down_ident : ident.
Lemma remote_admin_down_ident s : ident s = i -> keeps_id (RemoteAdminDown s) i.
Proof. intros Hs. unfold RemoteAdminDown. keeps_ident. Qed.
#[local] Hint Resolve remote_admin_down_ident : ident.
Lemma move_down_ident s : ident s = i -> keeps_id (MoveToDownState s) i.
Proof. intros Hs. unfold MoveToDownState. keeps_ident. Qed.
#[local] Hint Resolve move_down_ident : ident.
Lemma move_init_ident s : ident s = i -> ident (MoveToInitState s) = i.
Proof. intros Hs. unfold MoveToInitState. repeat ident_step. Qed.
#[local] Hint Resolve move_init_ident : ident.
Lemma move_up_ident now s : ident s = i -> ident (MoveToUpState now s) = i.
Proof. intros Hs. unfold MoveToUpState. repeat ident_step. Qed.
#[local] Hint Resolve move_up_ident : ident.
Lemma event_ident now e s : ident s = i -> keeps_id (EventHandler now e s) i.
Proof. intros Hs. unfold EventHandler. keeps_ident. Qed.
#[local] Hint Resolve event_ident : ident.
Lemma initiate_ident s : ident s = i -> ident (InitiatePollSequence s) = i.
Proof. intros Hs. unfold InitiatePollSequence. repeat ident_step. Qed.
#[local] Hint Resolve initiate_ident : ident.
Lemma process_poll_ident p s : ident s = i -> ident (ProcessPollSequence p s) = i.
Proof. intros Hs. unfold ProcessPollSequence. repeat ident_step. Qed.
#[local] Hint Resolve process_poll_ident : ident.
Lemma intervals_ident s : ident s = i -> keeps_id (update_intervals s) i.
Proof. intros Hs. unfold update_intervals. keeps_ident. Qed.
#[local] Hint Resolve intervals_ident : ident.
Lemma auth_ident s : ident s = i -> keeps_id (update_auth s) i.
Proof. intros Hs. unfold update_auth. keeps_ident. Qed.
#[local] Hint Resolve auth_ident : ident.
Lemma update_packet_ident s : ident s = i -> keeps_id (UpdateBfdSessionControlPacket s) i.
Proof. intros Hs. unfold UpdateBfdSessionControlPacket. keeps_ident. Qed.
#[local] Hint Resolve update_packet_ident : ident.
Lemma refresh_ident s : ident s = i -> keeps_id (refresh_packet s) i.
Proof. intros Hs. unfold refresh_packet. keeps_ident. Qed.
#[local] Hint Resolve refresh_ident : ident.
Lemma periodic_ident w s : ident s = i -> keeps_id (SendPeriodicControlPackets w s) i.
Proof. intros Hs. unfold SendPeriodicControlPackets. keeps_ident. Qed.
#[local] Hint Resolve periodic_ident : ident.
Lemma timeout_ident now s : ident s = i -> keeps_id (HandleSessionTimeout now s) i.
Proof. intros Hs. unfold HandleSessionTimeout. keeps_ident. Qed.
#[local] Hint Resolve timeout_ident : ident.
Lemma check_remote_ident p s : ident s = i -> ident (CheckAnyRemoteParamChanged p s) = i.
Proof. intros Hs. unfold CheckAnyRemoteParamChanged. repeat ident_step. Qed.
#[local] Hint Resolve check_remote_ident : ident.
Lemma remote_demand_ident p s : ident s = i -> keeps_id (RemoteChangedDemandMode p s) i.
Proof. intros Hs. unfold RemoteChangedDemandMode. keeps_ident. Qed.
#[local] Hint Resolve remote_demand_ident : ident.
Lemma remote_event_ident s r : ident s = i -> remote_event s = Ok r -> ident r.1 = i.
Proof.
  intros Hs. unfold remote_event. repeat case_match;
    try (intros (s1 & Hr & [= <-])%bind_Ok_inv; revert Hr;
         lazymatch goal with |- ?m = Ok s1 -> _ => assert (H' : keeps_id m i) by keeps_ident; apply H' end);
    intros [= <-]; cbn [fst]; repeat ident_step.
Qed.
#[local] Hint Resolve remote_event_ident : ident.
Lemma process_ident now p s : ident s = i -> keeps_id (ProcessBfdPacket now p s) i.
Proof. intros Hs. unfold ProcessBfdPacket. keeps_ident. Qed.
#[local] Hint Resolve process_ident : ident.
Lemma server_ident now p s : ident s = i -> keeps_id (StartSessionServer now p s) i.
Proof. intros Hs. unfold StartSessionServer. keeps_ident. Qed.
#[local] Hint Resolve server_ident : ident.
Lemma stop_ident now s : ident s = i -> keeps_id (StopBfdSession now s) i.
Proof. intros Hs. unfold StopBfdSession. keeps_ident. Qed.
#[local] Hint Resolve stop_ident : ident.
Lemma start_ident now s : ident s = i -> keeps_id (StartBfdSession now s) i.
Proof. intros Hs. unfold StartBfdSession. keeps_ident. Qed.
#[local] Hint Resolve start_ident : ident.
Lemma link_transmit_ident w s : ident s = i -> keeps_id (perlink_transmit w s) i.
Proof. intros Hs. unfold perlink_transmit. keeps_ident. Qed.
#[local] Hint Resolve link_transmit_ident : ident.
Lemma link_timeout_ident now s : ident s = i -> keeps_id (perlink_timeout now s) i.
Proof. intros Hs. unfold perlink_timeout. keeps_ident. Qed.
#[local] Hint Resolve link_timeout_ident : ident.
Lemma link_receive_ident now src dst p s : ident s = i -> keeps_id (perlink_receive now src dst p s) i.
Proof. intros Hs. unfold perlink_receive. keeps_ident. Qed.
#[local] Hint Resolve link_receive_ident : ident.
Lemma stop_client_ident s : ident s = i -> ident (stop_client s) = i.
Proof. intros Hs. unfold stop_client. repeat ident_step. Qed.
#[local] Hint Resolve stop_client_ident : ident.
Lemma send_stop_client_ident s : ident s = i -> keeps_id (send_stop_client s) i.
Proof. intros Hs. unfold send_stop_client. keeps_ident. Qed.
#[local] Hint Resolve send_stop_client_ident : ident.
Lemma send_stop_server_ident s : ident s = i -> keeps_id (send_stop_server s) i.
Proof. intros Hs. unfold send_stop_server. keeps_ident. Qed.
#[local] Hint Resolve send_stop_server_ident : ident.
Lemma stop_goroutines_ident s : ident s = i -> keeps_id (stop_goroutines s) i.
Proof. intros Hs. unfold stop_goroutines. keeps_ident. Qed.
#[local] Hint Resolve stop_goroutines_ident : ident.
Lemma receive_ident p s : ident s = i -> keeps_id (receive p s) i.
Proof. intros Hs. unfold receive. keeps_ident. Qed.
#[local] Hint Resolve receive_ident : ident.
Lemma turn_ident now s : ident s = i -> keeps_id (session_turn now s) i.
Proof. intros Hs. unfold session_turn. keeps_ident. Qed.
#[local] Hint Resolve turn_ident : ident.
Lemma created_ident b s : ident s = i -> ident (created b s) = i.
Proof. intros Hs. unfold created. repeat ident_step. Qed.
#[local] Hint Resolve created_ident : ident.
End handlers.
#[export] Hint Resolve
  notification_ident reset_local_ident reset_remote_ident local_admin_down_ident remote_admin_down_ident move_down_ident move_init_ident move_up_ident event_ident initiate_ident process_poll_ident intervals_ident auth_ident update_packet_ident refresh_ident periodic_ident timeout_ident check_remote_ident remote_demand_ident process_ident server_ident stop_ident start_ident link_transmit_ident link_timeout_ident link_receive_ident stop_client_ident send_stop_client_ident send_stop_server_ident stop_goroutines_ident receive_ident turn_ident created_ident : ident.

(** ** The tables *)

Definition owners (s : BfdSession) : nat := length (st_RegisteredProtocols (state s)).

Record tables_ok (srv : BFDServer) : Prop := {
  t_nodup : NoDup (SessionsIdSlice srv);
  t_ids : forall id, id ∈ SessionsIdSlice srv <-> is_Some (Sessions srv !! id);
  t_num : NumSessions srv = len (SessionsIdSlice srv);
  t_range : forall id, is_Some (Sessions srv !! id) -> 0 < id < MAX_NUM_SESSIONS;
  t_object : forall id p, Sessions srv !! id = Some p ->
    exists s, heap srv !! p = Some s /\ st_SessionId (state s) = id /\ owners s = Z.to_nat MAX_APPS;
  t_fresh : forall p, is_Some (heap srv !! p) -> (p < nextPtr srv)%nat;
  t_by_ip : forall ip p, SessionsByIp srv !! ip = Some p ->
    exists id s, Sessions srv !! id = Some p /\ heap srv !! p = Some s /\ st_IpAddr (state s) = ip;
}.

(** What the invariant reads. *)
Definition tables (srv : BFDServer) :=
  (heap srv, nextPtr srv, NumSessions srv, Sessions srv, SessionsIdSlice srv, SessionsByIp srv).
Lemma tables_same srv srv' : tables srv' = tables srv -> tables_ok srv -> tables_ok srv'.
Proof.
  intros [= Hh Hn Hc Hs Hi Hip] []. constructor; rewrite ?Hh, ?Hn, ?Hc, ?Hs, ?Hi, ?Hip; try done.
Qed.

(** A session by pointer is the one with its identifier. *)
Lemma pointer_inj srv id id' p : tables_ok srv -> Sessions srv !! id = Some p -> Sessions srv !! id' = Some p -> id = id'.
Proof.
  intros H H1 H2. destruct (t_object srv H id p H1) as (s & Hs & <- & _).
  destruct (t_object srv H id' p H2) as (s' & Hs' & <- & _). congruence.
Qed.
Lemma session_Some srv id p : tables_ok srv -> Sessions srv !! id = Some p -> exists s, session srv id = Some s /\ heap srv !! p = Some s.
Proof. intros H Hp. unfold session. rewrite Hp. destruct (t_object srv H id p Hp) as (s & -> & _). eauto. Qed.
Lemma session_inv srv id s : session srv id = Some s -> exists p, Sessions srv !! id = Some p /\ heap srv !! p = Some s.
Proof. unfold session. destruct (Sessions srv !! id); [eauto | done]. Qed.

(** ** Methods *)

(** A method that leaves who the session is. *)
Definition method (f : BfdSession -> sresult BfdSession) : Prop := forall s s', f s = Ok s' ->
  st_SessionId (state s') = st_SessionId (state s) /\ st_IpAddr (state s') = st_IpAddr (state s) /\ owners s' = owners s.
Lemma ident_method f : (forall s, keeps_id (f s) (ident s)) -> method f.
Proof. intros Hf s s' H. specialize (Hf s s' H). unfold owners. injection Hf as -> -> _ _ ->. done. Qed.
Ltac is_method := apply ident_method; intros ?; eauto 2 with ident.

Lemma on_session_inv id f srv srv' : on_session id f srv = Ok srv' -> exists p s s',
  Sessions srv !! id = Some p /\ heap srv !! p = Some s /\ f s = Ok s' /\ srv' = set_heap (<[p := s']> (heap srv)) srv.
Proof.
  unfold on_session. destruct (Sessions srv !! id) as [p|] eqn:Hp; [|done].
  destruct (heap srv !! p) as [s|] eqn:Hs; [|done]. intros (s' & Hf & [= <-])%bind_Ok_inv. eauto 10.
Qed.
Lemma on_session_eq id f srv p s s' : Sessions srv !! id = Some p -> heap srv !! p = Some s -> f s = Ok s' ->
  on_session id f srv = Ok (set_heap (<[p := s']> (heap srv)) srv).
Proof. intros Hp Hs Hf. unfold on_session. by rewrite Hp, Hs, Hf. Qed.

Lemma set_session_ok srv p s s' : tables_ok srv -> heap srv !! p = Some s ->
  st_SessionId (state s') = st_SessionId (state s) -> st_IpAddr (state s') = st_IpAddr (state s) -> owners s' = owners s ->
  tables_ok (set_heap (<[p := s']> (heap srv)) srv).
Proof.
  intros [] Hs Hid Hip Ho. constructor; cbn; try done.
  - intros id q Hq. destruct (t_object0 id q Hq) as (x & Hx & Hxi & Hxo).
    destruct (decide (p = q)) as [->|]; [rewrite lookup_insert_eq | rewrite lookup_insert_ne by done; eauto].
    simplify_eq. exists s'. split; [done|]. split; congruence.
  - intros q. destruct (decide (p = q)) as [->|]; [eauto | rewrite lookup_insert_ne by done; eauto].
  - intros ip q Hq. destruct (t_by_ip0 ip q Hq) as (id & x & Hid' & Hx & Hxip).
    destruct (decide (p = q)) as [->|].
    + simplify_eq. exists id, s'. rewrite lookup_insert_eq. split; [done | split; [done | congruence]].
    + exists id, x. by rewrite lookup_insert_ne.
Qed.
Lemma on_session_ok id f srv srv' : method f -> tables_ok srv -> on_session id f srv = Ok srv' -> tables_ok srv'.
Proof.
  intros Hf H (p & s & s' & Hp & Hs & Hs' & ->)%on_session_inv.
  destruct (Hf s s' Hs') as (Hi & Hip & Ho). by eapply set_session_ok.
Qed.

(** ** Preservation *)

Definition preserves (f : BFDServer -> sresult BFDServer) : Prop :=
  forall srv srv', tables_ok srv -> f srv = Ok srv' -> tables_ok srv'.
Lemma each_id_ok f ids : (forall id, preserves (f id)) -> preserves (each_id f ids).
Proof.
  intros Hf. induction ids as [|id ids IH]; intros srv srv' H; cbn; [by intros [= <-]|].
  intros (srv1 & H1 & H2)%bind_Ok_inv. eapply IH; [by eapply Hf | done].
Qed.
Lemma on_session_preserves id f : method f -> preserves (on_session id f).
Proof. intros Hf srv srv' H. by apply on_session_ok. Qed.
Lemma same_preserves f : (forall srv, exists srv', f srv = Ok srv' /\ tables srv' = tables srv) -> preserves f.
Proof. intros Hf srv srv' H He. destruct (Hf srv) as (x & Hx & Ht). rewrite He in Hx. injection Hx as ->. by apply tables_same in Ht. Qed.

Lemma register_method P b : method (register P b).
Proof.
  intros s s'. unfold register. destruct (_ || _); [done|]. intros [= <-]. cbn. unfold owners. cbn. by rewrite length_insert.
Qed.
Lemma each_to_ok ip f ids : (forall id, preserves (f id)) -> preserves (each_to ip f ids).
Proof.
  intros Hf. induction ids as [|id ids IH]; intros srv srv' H; cbn; [by intros [= <-]|].
  destruct (session srv id) as [s|]; [|by apply IH].
  intros (srv1 & H1 & H2)%bind_Ok_inv. eapply IH; [|done]. destruct (bool_decide _); [by eapply Hf | by injection H1 as <-].
Qed.

(** ** Requests *)

(** What the daemon relies on: random numbers are in range, and ranging over a map visits its keys once. *)
Class EnvOk {env : Env} : Prop := {
  random_ok : forall n k, 0 <= Int31n n k < MAX_NUM_SESSIONS;
  order_ok : forall m id, id ∈ order m <-> is_Some (m !! id);
  order_nodup : forall m, NoDup (order m);
  order_names_ok : forall m name, name ∈ order_names m <-> is_Some (m !! name);
}.
Arguments EnvOk : clear implicits.

Section requests.
Context {env : Env} {env_ok : EnvOk env}.

Lemma draw_ok fuel seed : forall k sessions id, draw fuel seed k sessions = Ok id ->
  0 < id < MAX_NUM_SESSIONS /\ sessions !! id = None.
Proof.
  induction fuel as [|fuel IH]; intros k sessions id; cbn; [done|].
  destruct (bool_decide _) eqn:Hb; [apply IH|]. apply bool_decide_eq_false in Hb.
  destruct (negb _) eqn:Hz; [|apply IH]. intros [= <-]. pose proof (random_ok seed k). zhyp.
  split; [lia | by apply eq_None_not_Some].
Qed.
Lemma GetNewSessionId_ok fuel srv id : GetNewSessionId fuel srv = Ok id -> id <> 0 ->
  NumSessions srv < MAX_NUM_SESSIONS /\ 0 < id < MAX_NUM_SESSIONS /\ Sessions srv !! id = None.
Proof.
  unfold GetNewSessionId. destruct (_ <? _) eqn:Hn; [|intros [= <-]; done].
  intros Hd%draw_ok _. zhyp. split; [lia | done].
Qed.

Lemma ids_length srv : tables_ok srv -> len (SessionsIdSlice srv) < MAX_NUM_SESSIONS.
Proof.
  intros [Hn Hi _ Hr _ _ _].
  assert (Hs : SessionsIdSlice srv ⊆ Z.of_nat <$> seq 1 (Z.to_nat MAX_NUM_SESSIONS - 1)).
  { intros id Hid. apply Hi, Hr in Hid. apply list_elem_of_fmap. exists (Z.to_nat id).
    split; [lia|]. apply elem_of_seq. unfold MAX_NUM_SESSIONS in *. lia. }
  assert (Hle : (length (SessionsIdSlice srv) <= length (Z.of_nat <$> seq 1 (Z.to_nat MAX_NUM_SESSIONS - 1)))%nat)
    by (apply submseteq_length, NoDup_submseteq; done).
  rewrite length_fmap, length_seq in Hle. unfold len, MAX_NUM_SESSIONS in *. lia.
Qed.

(** A session enters the tables. *)
Definition enter_tables (id : Z) (s : BfdSession) (srv : BFDServer) : BFDServer :=
  let p := nextPtr srv in
  set_SessionsIdSlice (SessionsIdSlice srv ++ [id]) (set_NumSessions (u32 (NumSessions srv + 1))
    (set_SessionsByIp (<[st_IpAddr (state s) := p]> (SessionsByIp srv)) (set_Sessions (<[id := p]> (Sessions srv))
      (set_nextPtr (S p) (set_heap (<[p := s]> (heap srv)) srv))))).
Lemma enter_ok id s srv : tables_ok srv -> 0 < id < MAX_NUM_SESSIONS -> Sessions srv !! id = None ->
  st_SessionId (state s) = id -> owners s = Z.to_nat MAX_APPS -> tables_ok (enter_tables id s srv).
Proof.
  intros Hok Hr Hf Hid Ho. pose proof (ids_length srv Hok) as Hl. destruct Hok.
  assert (Hfresh : heap srv !! nextPtr srv = None).
  { apply eq_None_not_Some. intros H%t_fresh0. lia. }
  constructor; cbn.
  - apply NoDup_app. split; [done|]. split; [|apply NoDup_singleton].
    intros x Hx ->%list_elem_of_singleton. apply t_ids0 in Hx. rewrite Hf in Hx. by destruct Hx.
  - intros x. rewrite elem_of_app, list_elem_of_singleton, t_ids0, lookup_insert_is_Some. 
    destruct (decide (id = x)); naive_solver.
  - rewrite len_app, t_num0. change (len [id]) with 1. apply u32_id. unfold is_u32, MAX_NUM_SESSIONS in *.
    pose proof (len_nonneg (SessionsIdSlice srv)). lia.
  - intros x [->|[_ Hx]]%lookup_insert_is_Some; auto.
  - intros x p. destruct (decide (id = x)) as [->|].
    + rewrite lookup_insert_eq. intros [= <-]. rewrite lookup_insert_eq. eauto.
    + rewrite lookup_insert_ne by done. intros Hx. destruct (t_object0 x p Hx) as (y & Hy & Hyi & Hyo).
      exists y. rewrite lookup_insert_ne by congruence. done.
  - intros p. destruct (decide (nextPtr srv = p)) as [->|]; [lia|]. rewrite lookup_insert_ne by done.
    intros H%t_fresh0. lia.
  - intros ip p. destruct (decide (st_IpAddr (state s) = ip)) as [<-|].
    + rewrite lookup_insert_eq. intros [= <-]. exists id, s. by rewrite !lookup_insert_eq.
    + rewrite lookup_insert_ne by done. intros Hx. destruct (t_by_ip0 ip p Hx) as (x & y & Hxy & Hy & Hyip).
      exists x, y. rewrite !lookup_insert_ne by congruence. done.
Qed.

(** What [NewNormalBfdSession] does when it makes a session. *)
Lemma NewNormal_inv fuel Interface LocalIp DestIp ParamName PerLink Protocol srv r :
  NewNormalBfdSession fuel Interface LocalIp DestIp ParamName PerLink Protocol srv = Ok r ->
  r = (None, srv) \/ exists id name param params s,
    GetNewSessionId fuel srv = Ok id /\ id <> 0 /\ 0 <= Protocol < MAX_APPS /\
    SessionParams srv !! name = Some param /\ 
    s = new_session id (default [] (InterfaceByName Interface)) jitter Interface LocalIp DestIp name param PerLink Protocol /\
    r = (Some id, set_CreatedSessionCh (CreatedSessionCh srv ++ [id]) (enter_tables id s (set_SessionParams params srv))).
Proof.
  unfold NewNormalBfdSession. intros (id & Hid & H)%bind_Ok_inv.
  destruct (id =? 0) eqn:Hz; [injection H as <-; by left | right].
  destruct (_ || _) eqn:Hp; [done|].
  match type of H with context [if ?b then ParamName else "default"] => set (name := if b then ParamName else "default") in * end.
  destruct (SessionParams srv !! name) as [param|] eqn:Hparam; [|done].
  injection H as <-. zhyp. eexists id, name, param, _, _. repeat split; try done; lia.
Qed.

Lemma new_session_owners id mac j Interface LocalIp DestIp name param PerLink Protocol :
  owners (new_session id mac j Interface LocalIp DestIp name param PerLink Protocol) = Z.to_nat MAX_APPS.
Proof. unfold owners. cbn [state new_session st_RegisteredProtocols]. by rewrite length_insert. Qed.

Lemma NewNormal_ok fuel Interface LocalIp DestIp ParamName PerLink Protocol srv r : tables_ok srv ->
  NewNormalBfdSession fuel Interface LocalIp DestIp ParamName PerLink Protocol srv = Ok r -> tables_ok r.2.
Proof.
  intros Hok [->|(id & name & param & params & s & Hid & Hz & _ & _ & -> & ->)]%NewNormal_inv; [done|].
  destruct (GetNewSessionId_ok fuel srv id Hid Hz) as (_ & Hr & Hf).
  apply (tables_same (enter_tables id (new_session id (default [] (InterfaceByName Interface)) jitter Interface LocalIp DestIp name param PerLink Protocol) (set_SessionParams params srv))); [done|].
  apply enter_ok; try done; [by eapply (tables_same srv) | apply new_session_owners].
Qed.

Lemma perlink_sessions_ok fuel links IfIndex LocalIp DestIp ParamName Protocol :
  preserves (perlink_sessions fuel links IfIndex LocalIp DestIp ParamName Protocol).
Proof.
  induction links as [|l links IH]; intros srv srv' H; cbn; [by intros [= <-]|].
  intros (r & Hr & H')%bind_Ok_inv. eapply IH; [by eapply NewNormal_ok | done].
Qed.

Lemma interface_specific_method b : method (fun s => Ok (upd_state (set_st_InterfaceSpecific b) s)).
Proof. by intros s s' [= <-]. Qed.

Lemma NewBfdSession_ok fuel DestIp ParamName Interface Protocol PerLink srv r : tables_ok srv ->
  NewBfdSession fuel DestIp ParamName Interface Protocol PerLink srv = Ok r -> tables_ok r.2.
Proof.
  intros H. unfold NewBfdSession. destruct (GetRouteReachabilityInfo DestIp) as [[IfIndex localIp]|]; [|by intros [= <-]].
  match goal with |- context [if ?b then Ok (None, srv) else _] => destruct b end; [by intros [= <-]|].
  destruct (_ && PerLink).
  - intros (srv1 & H1 & [= <-])%bind_Ok_inv. unfold NewPerLinkBfdSessions in H1.
    destruct (lagPropertyMap srv !! IfIndex); [by eapply perlink_sessions_ok | by injection H1 as <-].
  - intros (r1 & H1 & H2)%bind_Ok_inv. apply NewNormal_ok in H1; [|done].
    destruct r1.1; [|done]. apply bind_Ok_inv in H2 as (srv2 & H2 & [= <-]).
    eapply on_session_ok; [apply interface_specific_method | done | done].
Qed.

Lemma CreateBfdSession_ok fuel m srv r : tables_ok srv -> CreateBfdSession fuel m srv = Ok r -> tables_ok r.2.
Proof.
  intros H. unfold CreateBfdSession. destruct (FindBfdSession _ srv) as [id|].
  - intros (srv1 & H1 & [= <-])%bind_Ok_inv. eapply on_session_ok; [apply register_method | done | done].
  - intros (r1 & H1 & H2)%bind_Ok_inv. apply NewBfdSession_ok in H1; [|done].
    destruct r1.1; injection H2 as <-; [done|]. cbn [snd].
    destruct (tobeCreatedSessions r1.2 !! _); [done | by apply (tables_same r1.2)].
Qed.

(** ** Deletion *)

Lemma remove_id_inv id ids ids' : remove_id id ids = Ok ids' ->
  exists l r, ids = l ++ id :: r /\ ids' = l ++ r.
Proof.
  revert ids'. induction ids as [|x ids IH]; intros ids'; cbn; [done|].
  destruct (x =? id) eqn:Hx; zhyp.
  - intros [= <-]. subst. by exists [], ids.
  - intros (r & Hr & [= <-])%bind_Ok_inv. destruct (IH r Hr) as (l & r' & -> & ->). by exists (x :: l), r'.
Qed.
Lemma remove_id_spec id ids : id ∈ ids -> exists ids', remove_id id ids = Ok ids'.
Proof.
  induction ids as [|x ids IH]; [by intros ?%elem_of_nil|]. cbn. destruct (x =? id) eqn:Hx; [eauto|]. zhyp.
  intros [->|H]%elem_of_cons; [done|]. destruct (IH H) as (r & ->). rewrite bind_Ok. eauto.
Qed.

(** A session leaves the tables. *)
Definition leave_tables (id : Z) (ip : string) (ids : list Z) (srv : BFDServer) : BFDServer :=
  set_SessionsIdSlice ids (set_SessionsByIp (delete ip (SessionsByIp srv)) (set_Sessions (delete id (Sessions srv))
    (set_NumSessions (u32 (NumSessions srv - 1)) srv))).
Lemma leave_ok id s ids srv : tables_ok srv -> session srv id = Some s -> remove_id id (SessionsIdSlice srv) = Ok ids ->
  tables_ok (leave_tables id (st_IpAddr (state s)) ids srv).
Proof.
  intros Hok (p & Hp & Hs)%session_inv (l & r & Hl & ->)%remove_id_inv.
  pose proof (ids_length srv Hok) as Hlen. destruct Hok. rewrite Hl in *.
  assert (Hperm : l ++ id :: r ≡ₚ id :: (l ++ r)) by (symmetry; apply Permutation_middle).
  rewrite Hperm, NoDup_cons in t_nodup0. destruct t_nodup0 as [Hnot Hnd].
  constructor; cbn.
  - done.
  - intros x. specialize (t_ids0 x). rewrite Hperm, elem_of_cons in t_ids0.
    rewrite lookup_delete_is_Some. destruct (decide (id = x)) as [->|]; [naive_solver|]. naive_solver.
  - rewrite t_num0, !len_app, !len_cons. pose proof (len_nonneg l). pose proof (len_nonneg r).
    rewrite len_app, len_cons in Hlen. unfold MAX_NUM_SESSIONS in *. rewrite u32_id; [lia | unfold is_u32; lia].
  - intros x [_ Hx]%lookup_delete_is_Some. auto.
  - intros x q [_ Hx]%lookup_delete_Some. auto.
  - done.
  - intros ip q [Hne Hq]%lookup_delete_Some. destruct (t_by_ip0 ip q Hq) as (x & y & Hx & Hy & Hip).
    exists x, y. split; [|done]. rewrite lookup_delete_ne; [done|]. intros ->. congruence.
Qed.

Lemma Delete_inv id P force srv srv' : SessionDeleteHandler id P force srv = Ok srv' -> exists srv1 s,
  on_session id (register P false) srv = Ok srv1 /\ session srv1 id = Some s /\
  ((force || negb (CheckIfAnyProtocolRegistered s) = false /\ srv' = srv1) \/
   (force || negb (CheckIfAnyProtocolRegistered s) = true /\ exists srv2 params ids,
     on_session id stop_goroutines srv1 = Ok srv2 /\ remove_id id (SessionsIdSlice srv2) = Ok ids /\
     srv' = leave_tables id (st_IpAddr (state s)) ids (set_SessionParams params srv2))).
Proof.
  unfold SessionDeleteHandler. intros (srv1 & H1 & H)%bind_Ok_inv. exists srv1.
  destruct (session srv1 id) as [s|] eqn:Hs; [|done]. exists s. split; [done|]. split; [done|].
  destruct (_ || _); [right | left; by injection H as <-].
  split; [done|]. apply bind_Ok_inv in H as (srv2 & H2 & H).
  destruct (SessionParams srv2 !! _); [|done]. apply bind_Ok_inv in H as (ids & Hids & [= <-]).
  by eexists srv2, _, ids.
Qed.

Lemma stop_method : method stop_goroutines.
Proof. is_method. Qed.

Lemma stopped_session id srv srv' s : on_session id stop_goroutines srv = Ok srv' -> session srv id = Some s ->
  exists s', session srv' id = Some s' /\ st_IpAddr (state s') = st_IpAddr (state s).
Proof.
  intros (p & x & x' & Hp & Hx & Hstop & ->)%on_session_inv. unfold session. cbn. rewrite Hp, lookup_insert_eq, Hx.
  intros [= <-]. exists x'. split; [done|]. by apply (stop_method _ _ Hstop).
Qed.

Lemma Delete_ok id P force : preserves (SessionDeleteHandler id P force).
Proof.
  intros srv srv' H (srv1 & s & H1 & Hs & [[_ ->] | [_ (srv2 & params & ids & H2 & Hids & ->)]])%Delete_inv.
  - by eapply (on_session_ok id _ srv); [apply register_method | |].
  - assert (Hok1 : tables_ok srv1) by (eapply (on_session_ok id _ srv); [apply register_method | done | done]).
    assert (Hok2 : tables_ok srv2) by (eapply on_session_ok; [apply stop_method | done | done]).
    destruct (stopped_session id srv1 srv2 s H2 Hs) as (s' & Hs' & <-).
    apply leave_ok; [by eapply (tables_same srv2) | done | done].
Qed.
Lemma DeleteBfdSession_ok m : preserves (DeleteBfdSession m).
Proof.
  intros srv srv' H. unfold DeleteBfdSession. destruct (FindBfdSession _ srv) as [id|]; [|by intros [= <-]].
  destruct (session srv id) as [s|]; [|done]. destruct (st_PerLinkSession (state s)); [|by apply Delete_ok].
  apply each_to_ok; [|done]. intros x. apply Delete_ok.
Qed.

(** ** Every event *)

Lemma reset_method : method (fun s => s ← stop_goroutines s;
  let s := ResetLocalSessionParams s in let s := set_s_isClientActive false s in Ok (set_s_serverRuns true s)).
Proof. apply ident_method. intros s. keeps_ident. Qed.

Lemma admin_ok perlink one ip : (forall id, preserves (perlink id)) -> (forall id, preserves (one id)) ->
  preserves (admin perlink one ip).
Proof.
  intros Hp Ho srv srv' H. unfold admin. destruct (FindBfdSession ip srv) as [id|]; [|by intros [= <-]].
  destruct (session srv id) as [s|]; [|done]. destruct (st_PerLinkSession _); [by apply each_to_ok | by apply Ho].
Qed.
Lemma start_method now : method (StartBfdSession now).
Proof. is_method. Qed.
Lemma stop_session_method now : method (StopBfdSession now).
Proof. is_method. Qed.
Lemma use_param_method param name : method (fun s =>
  Ok (if bool_decide (st_ParamName (state s) = name) then use_param param s else s)).
Proof.
  apply ident_method. intros s. apply keeps_id_Ok. destruct (bool_decide _); [|done].
  unfold use_param. apply initiate_ident. destruct param; repeat ident_step.
Qed.

Lemma processGlobalConfig_ok now vrf enable : preserves (processGlobalConfig now vrf enable).
Proof.
  intros srv srv' H. unfold processGlobalConfig. apply each_id_ok; [|by eapply (tables_same srv)].
  intros id x x' Hx (y & Hy & Hyx)%bind_Ok_inv.
  assert (tables_ok y).
  { destruct (negb _ && _); [eapply on_session_ok; [apply start_method | exact Hx | done] | by injection Hy as <-]. }
  destruct (_ && negb _); [eapply on_session_ok; [apply stop_session_method | | done] | injection Hyx as <-]; done.
Qed.
Lemma UpdateUsingParam_ok name : preserves (UpdateBfdSessionsUsingParam name).
Proof.
  intros srv srv' H. apply each_id_ok; [|done]. intros id. apply on_session_preserves, use_param_method.
Qed.
Lemma recreate_ok fuel names : preserves (recreate fuel names).
Proof.
  induction names as [|name names IH]; intros srv srv' H; cbn; [by intros [= <-]|].
  destruct (tobeCreatedSessions srv !! name) as [m|]; [|by apply IH].
  intros (r & Hr%CreateBfdSession_ok & H2)%bind_Ok_inv; [|done].
  eapply IH; [|exact H2]. destruct r.1; [by apply (tables_same r.2) | done].
Qed.

Lemma receive_method p : method (receive p).
Proof. is_method. Qed.
Lemma dispatch_ok ip p : preserves (DispatchReceivedBfdPacket ip p).
Proof.
  intros srv srv' H. unfold DispatchReceivedBfdPacket.
  match goal with |- context [match ?x with Some y => match heap srv !! y with _ => _ end | None => _ end] => destruct x as [q|] end;
    [|by intros [= <-]].
  destruct (heap srv !! q) as [s|] eqn:Hs; [|done]. intros (s' & Hr & [= <-])%bind_Ok_inv.
  destruct (receive_method p s s' Hr) as (Hi & Hip & Ho). by eapply set_session_ok.
Qed.
Lemma udp_ok ip data : preserves (StartBfdSesionServer ip data).
Proof.
  intros srv srv' H. unfold StartBfdSesionServer. destruct (_ >=? _); [|by intros [= <-]].
  destruct (DecodeBfdControlPacket data); try done; [by apply dispatch_ok | by intros [= <-]].
Qed.
Lemma link_ok now own src dst my data : preserves (StartPerLinkSessionServer now own src dst my data).
Proof.
  intros srv srv' H. unfold StartPerLinkSessionServer. destruct (bool_decide _); [by intros [= <-]|].
  destruct (bool_decide _); [by intros [= <-]|].
  destruct (_ >=? _); [|by intros [= <-]].
  destruct (DecodeBfdControlPacket data); try done; [|by intros [= <-]].
  destruct (_ =? 0); [by intros [= <-]|]. apply on_session_ok; [is_method | done].
Qed.
Lemma rxtx_created_ok : preserves StartBfdSessionRxTx_created.
Proof.
  intros srv srv' H. unfold StartBfdSessionRxTx_created. destruct (CreatedSessionCh srv) as [|id q]; [by intros [= <-]|].
  cbn. destruct (Sessions srv !! id); [|intros [= <-]; by apply (tables_same srv)].
  apply on_session_ok; [|by apply (tables_same srv)]. apply ident_method. intros s. apply keeps_id_Ok, created_ident. done.
Qed.
Lemma client_ident connected (s : BfdSession) :
  ident ((if st_PerLinkSession (state s) then StartPerLinkSessionClient connected s else StartSessionClient connected s).1) = ident s.
Proof.
  unfold StartPerLinkSessionClient, StartSessionClient.
  destruct (st_PerLinkSession _), (negb connected); cbn [fst]; repeat ident_step; done.
Qed.
Lemma client_ok id connected : preserves (client_started id connected).
Proof.
  intros srv srv' H. unfold client_started. destruct (session srv id) as [s|] eqn:Hs; [|done].
  pose proof (client_ident connected s) as Hi.
  destruct (if st_PerLinkSession (state s) then _ else _) as [s' failed]. cbn [fst] in Hi.
  intros (srv1 & (p & x & x' & Hp & Hx & [= <-] & ->)%on_session_inv & [= <-])%bind_Ok_inv.
  assert (x = s) as -> by (unfold session in Hs; rewrite Hp in Hs; congruence).
  assert (Hok : tables_ok (set_heap (<[p := s']> (heap srv)) srv))
    by (injection Hi as ? ? _ _ Ho; apply (set_session_ok srv p s); unfold owners; congruence).
  destruct failed; [by apply (tables_same (set_heap (<[p := s']> (heap srv)) srv)) | done].
Qed.

Lemma serve_ok fuel e : preserves (serve fuel e).
Proof.
  intros srv srv' H. destruct e; cbn [serve].
  - by apply processGlobalConfig_ok.
  - unfold processSessionConfig. destruct (sc_Operation c).
    + intros (r & Hr & [= <-])%bind_Ok_inv. by eapply CreateBfdSession_ok.
    + by apply DeleteBfdSession_ok.
    + apply admin_ok; try done; intros id; apply on_session_preserves, start_method.
    + apply admin_ok; try done; intros id; apply on_session_preserves, stop_session_method.
  - apply UpdateUsingParam_ok. destruct (negb _); by apply (tables_same srv).
  - unfold processSessionParamDelete. destruct (SessionParams srv !! paramName); [|by intros [= <-]].
    apply UpdateUsingParam_ok. by apply (tables_same srv).
  - apply on_session_ok; [apply reset_method | done].
  - unfold HandleNextHopChange. destruct Reachable; [by apply recreate_ok | by intros [= <-]].
  - intros [= <-]. by destruct create; apply (tables_same srv).
  - intros [= <-]. unfold updateLagPropertyMap.
    destruct create; [destruct (lagPropertyMap srv !! IfIndex)|]; by apply (tables_same srv).
  - by apply udp_ok.
  - by apply link_ok.
  - by apply rxtx_created_ok.
  - intros [= <-]. unfold StartBfdSessionRxTx_failed. destruct (FailedSessionClientCh srv) as [|id q]; [done|].
    cbn. destruct (Sessions srv !! id); by apply (tables_same srv).
  - by apply client_ok.
  - intros [= <-]. unfold StartSessionRetryHandler. destruct (retry _ _ _ _ _). by apply (tables_same srv).
  - apply on_session_ok; [is_method | done].
  - apply on_session_ok; [is_method | done].
  - apply on_session_ok; [is_method | done].
  - apply on_session_ok; [is_method | done].
  - apply on_session_ok; [is_method | done].
Qed.
Lemma tables_empty srv : Sessions srv = ∅ -> SessionsByIp srv = ∅ -> heap srv = ∅ -> SessionsIdSlice srv = [] ->
  NumSessions srv = 0 -> tables_ok srv.
Proof.
  intros Hs Hip Hh Hi Hn. constructor; rewrite ?Hs, ?Hip, ?Hh, ?Hi, ?Hn; try done.
  - constructor.
  - intros id. rewrite lookup_empty, elem_of_nil. by split; [|intros []].
  - intros id. rewrite lookup_empty. by intros [].
  - intros p. rewrite lookup_empty. by intros [].
Qed.
Lemma new_server_ok : tables_ok NewBFDServer.
Proof. by apply tables_empty. Qed.
Lemma init_server_ok srv : InitServer = Ok srv -> tables_ok srv.
Proof.
  unfold InitServer, createDefaultSessionParam. cbn. apply UpdateUsingParam_ok. by apply tables_empty.
Qed.
End requests.

(** The daemon relies on this at every event. *)
Definition envs_ok (es : list (Env * server_event)) : Prop := Forall (fun x => EnvOk x.1) es.
Lemma serve_all_ok fuel es : envs_ok es -> preserves (serve_all fuel es).
Proof.
  induction es as [|[env e] es IH]; intros He srv srv' H; cbn; [by intros [= <-]|].
  apply Forall_cons in He as [He Hes]. intros (x & Hx & Hs)%bind_Ok_inv. eapply (IH Hes); [|exact Hs]. by eapply (serve_ok (env_ok := He)).
Qed.
