(* ===== verification/BfdServerSpec.v ===== *)
(** What the BFD server promises: its tables agree, its sessions are the registrations of protocols, datagrams reach
    the session they name; and where it stops: identifiers that run out, parameters deleted under a session, reads. *)
From stdpp Require Import base numbers list gmap strings sets.
From Stdlib Require Import ZArith Lia.
From S2P Require Import Prelude GoNet GoCrypto BfdPacket BfdSession BfdServer BfdServerFacts.
Open Scope Z_scope.

(** ** The identities of the sessions *)

Definition idents (srv : BFDServer) (id : Z) := ident <$> session srv id.
Definition same_idents (srv srv' : BFDServer) : Prop := forall id, idents srv' id = idents srv id.
#[export] Instance same_idents_preorder : PreOrder same_idents.
Proof. split; [by intros srv id | intros x y z Hxy Hyz id; by rewrite Hyz, Hxy]. Qed.

Definition identical (f : BFDServer -> sresult BFDServer) : Prop := forall srv srv', f srv = Ok srv' -> same_idents srv srv'.

Lemma sessions_same srv srv' : heap srv' = heap srv -> Sessions srv' = Sessions srv -> same_idents srv srv'.
Proof. intros Hh Hs id. unfold idents, session. by rewrite Hh, Hs. Qed.
Lemma set_object_idents srv p s s' : heap srv !! p = Some s -> ident s' = ident s ->
  same_idents srv (set_heap (<[p := s']> (heap srv)) srv).
Proof.
  intros Hp Hi id. unfold idents, session. cbn. destruct (Sessions srv !! id) as [q|]; [|done].
  destruct (decide (p = q)) as [->|]; [rewrite lookup_insert_eq, Hp; cbn; congruence | by rewrite lookup_insert_ne].
Qed.
Lemma on_session_identical id f : (forall s, keeps_id (f s) (ident s)) -> identical (on_session id f).
Proof.
  intros Hf srv srv' (p & s & s' & Hp & Hs & Hs' & ->)%on_session_inv. eapply set_object_idents; [done|]. by apply Hf.
Qed.
Lemma each_id_identical f ids : (forall id, identical (f id)) -> identical (each_id f ids).
Proof.
  intros Hf. induction ids as [|id ids IH]; intros srv srv'; cbn; [by intros [= <-]|].
  intros (x & Hx & Hr)%bind_Ok_inv. transitivity x; [by eapply Hf | by apply IH].
Qed.
Lemma each_to_identical ip f ids : (forall id, identical (f id)) -> identical (each_to ip f ids).
Proof.
  intros Hf. induction ids as [|id ids IH]; intros srv srv'; cbn; [by intros [= <-]|].
  destruct (session srv id); [|by apply IH]. intros (x & Hx & Hr)%bind_Ok_inv.
  transitivity x; [destruct (bool_decide _); [by eapply Hf | by injection Hx as <-] | by apply IH].
Qed.
Ltac keeps := intros ?; eauto 2 with ident.

Section server.
Context {env : Env} {env_ok : EnvOk env}.

Lemma admin_identical perlink one ip : (forall id, identical (perlink id)) -> (forall id, identical (one id)) ->
  identical (admin perlink one ip).
Proof.
  intros Hp Ho srv srv'. unfold admin. destruct (FindBfdSession ip srv) as [id|]; [|by intros [= <-]].
  destruct (session srv id) as [s|]; [|done]. destruct (st_PerLinkSession _); [by apply each_to_identical | by apply Ho].
Qed.
Lemma global_identical now vrf enable : identical (processGlobalConfig now vrf enable).
Proof.
  intros srv srv' H. transitivity (set_Enabled enable (set_Vrf vrf srv)); [by apply sessions_same|].
  revert H. unfold processGlobalConfig. apply each_id_identical. intros id x x' (y & Hy & Hx)%bind_Ok_inv. transitivity y.
  - destruct (negb _ && _); [by eapply on_session_identical in Hy; [|keeps] | by injection Hy as <-].
  - destruct (_ && negb _); [by eapply on_session_identical in Hx; [|keeps] | by injection Hx as <-].
Qed.
Lemma use_param_identical name : identical (UpdateBfdSessionsUsingParam name).
Proof.
  intros srv srv'. apply each_id_identical. intros id. apply on_session_identical. intros s.
  apply keeps_id_Ok. destruct (bool_decide _); [|done].
  unfold use_param. apply initiate_ident. destruct (SessionParams srv !! name); repeat ident_step.
Qed.
Lemma dispatch_identical ip p : identical (DispatchReceivedBfdPacket ip p).
Proof.
  intros srv srv'. unfold DispatchReceivedBfdPacket.
  match goal with |- context [match ?x with Some y => match heap srv !! y with _ => _ end | None => _ end] => destruct x as [q|] end;
    [|by intros [= <-]].
  destruct (heap srv !! q) as [s|] eqn:Hs; [|done]. intros (s' & Hr & [= <-])%bind_Ok_inv.
  eapply set_object_idents; [done|]. by eapply receive_ident.
Qed.

(** The events that are no requests for sessions. *)
Definition request (e : server_event) : option SessionConfig := match e with SessionConfigCh _ c => Some c | _ => None end.
Lemma other_identical fuel e : request e = None -> e <> NextHopChange true -> identical (serve fuel e).
Proof.
  intros He Hn srv srv'. destruct e; cbn [serve]; try done.
  - apply global_identical.
  - unfold processSessionParamConfig.
    intros H%use_param_identical. etransitivity; [|exact H]. by destruct (negb _); apply sessions_same.
  - unfold processSessionParamDelete. destruct (SessionParams srv !! paramName); [|by intros [= <-]].
    intros H%use_param_identical. etransitivity; [|exact H]. by apply sessions_same.
  - apply on_session_identical. intros s. keeps_ident.
  - destruct Reachable; [done|]. by intros [= <-].
  - intros [= <-]. by destruct create; apply sessions_same.
  - intros [= <-]. unfold updateLagPropertyMap. destruct create; [destruct (lagPropertyMap srv !! IfIndex)|]; by apply sessions_same.
  - unfold StartBfdSesionServer. destruct (_ >=? _); [|by intros [= <-]].
    destruct (DecodeBfdControlPacket data); try done; [apply dispatch_identical | by intros [= <-]].
  - unfold StartPerLinkSessionServer. destruct (bool_decide _); [by intros [= <-]|]. destruct (bool_decide _); [by intros [= <-]|].
    destruct (_ >=? _); [|by intros [= <-]]. destruct (DecodeBfdControlPacket data); try done; [|by intros [= <-]].
    destruct (_ =? 0); [by intros [= <-]|]. apply on_session_identical. keeps.
  - unfold StartBfdSessionRxTx_created. destruct (CreatedSessionCh srv) as [|id q]; [by intros [= <-]|]. cbn.
    destruct (Sessions srv !! id); [|intros [= <-]; by apply sessions_same].
    intros H. transitivity (set_CreatedSessionCh q srv); [by apply sessions_same|]. revert H.
    apply on_session_identical. intros s. by apply keeps_id_Ok, created_ident.
  - intros [= <-]. unfold StartBfdSessionRxTx_failed. destruct (FailedSessionClientCh srv) as [|id q]; [done|]. cbn.
    destruct (Sessions srv !! id); by apply sessions_same.
  - unfold client_started. destruct (session srv id) as [s|] eqn:Hs; [|done].
    pose proof (client_ident connected s) as Hi. destruct (if st_PerLinkSession (state s) then _ else _) as [s' failed]. cbn [fst] in Hi.
    intros (srv1 & (p & x & x' & Hp & Hx & [= <-] & ->)%on_session_inv & [= <-])%bind_Ok_inv.
    assert (x = s) as -> by (unfold session in Hs; rewrite Hp in Hs; congruence).
    transitivity (set_heap (<[p := s']> (heap srv)) srv); [by apply (set_object_idents srv p s)|].
    by destruct failed; apply sessions_same.
  - intros [= <-]. unfold StartSessionRetryHandler. destruct (retry _ _ _ _ _). by apply sessions_same.
  - apply on_session_identical. keeps.
  - apply on_session_identical. keeps.
  - apply on_session_identical. keeps.
  - apply on_session_identical. keeps.
  - apply on_session_identical. keeps.
Qed.
End server.

(** ** Registrations *)

(** The protocols that own a session. *)
Definition owners_of (s : BfdSession) : gset Z :=
  list_to_set (filter (fun P => st_RegisteredProtocols (state s) !! Z.to_nat P = Some true) [1; 2; 3; 4]).
(** Who watches which address. *)
Abbreviation Registrations := (gmap string (gset Z)).
Definition represents (srv : BFDServer) (A : Registrations) : Prop :=
  forall ip W, A !! ip = Some W <-> exists id s, session srv id = Some s /\ st_IpAddr (state s) = ip /\ owners_of s = W.
(** No session is on a link of an aggregate, and no two are to one address. *)
Definition plain (srv : BFDServer) : Prop := forall id s, session srv id = Some s ->
  st_PerLinkSession (state s) = false /\
  forall id' s', session srv id' = Some s' -> st_IpAddr (state s') = st_IpAddr (state s) -> id' = id.

(** The requests as changes of the registrations; [created]: a session to a new address could be made. *)
Definition regs_step (created : bool) (ip : string) (op : BfdSessionOperation) (P : Z) (A : Registrations) : Registrations :=
  match op with
  | CREATE => match A !! ip with
              | Some W => <[ip := {[P]} ∪ W]> A
              | None => if created then <[ip := {[P]}]> A else A
              end
  | DELETE => match A !! ip with
              | Some W => if decide (W ∖ {[P]} = ∅) then delete ip A else <[ip := W ∖ {[P]}]> A
              | None => A
              end
  | ADMINUP | ADMINDOWN => A
  end.

Lemma elem_of_owners s P : P ∈ owners_of s <-> 1 <= P < MAX_APPS /\ st_RegisteredProtocols (state s) !! Z.to_nat P = Some true.
Proof.
  unfold owners_of. rewrite elem_of_list_to_set, list_elem_of_filter. unfold MAX_APPS.
  assert (Hin : P ∈ [1; 2; 3; 4] <-> 1 <= P < 5).
  { rewrite !elem_of_cons, elem_of_nil. lia. }
  rewrite Hin. tauto.
Qed.
Lemma ident_owners s s' : ident s' = ident s -> owners_of s' = owners_of s /\ st_IpAddr (state s') = st_IpAddr (state s) /\
  st_PerLinkSession (state s') = st_PerLinkSession (state s).
Proof. unfold owners_of. by intros [= _ -> _ -> ->]. Qed.

Lemma same_idents_sym srv srv' : same_idents srv srv' -> same_idents srv' srv.
Proof. intros H id. by rewrite H. Qed.
Lemma same_session srv srv' id s : same_idents srv srv' -> session srv id = Some s ->
  exists s', session srv' id = Some s' /\ ident s' = ident s.
Proof.
  intros H Hs. specialize (H id). unfold idents in H. rewrite Hs in H.
  destruct (session srv' id) as [s'|]; [|done]. injection H as H. exists s'. split; [done|]. unfold ident. congruence.
Qed.
Lemma represents_same srv srv' A : same_idents srv srv' -> represents srv A -> represents srv' A.
Proof.
  intros H HA ip W. rewrite (HA ip W). split; intros (id & s & Hs & Hip & Ho).
  - destruct (same_session srv srv' id s H Hs) as (s' & Hs' & (Hw & Hi & _)%ident_owners). exists id, s'. split; [done|]. by rewrite Hi, Hw.
  - destruct (same_session srv' srv id s (same_idents_sym _ _ H) Hs) as (s' & Hs' & (Hw & Hi & _)%ident_owners).
    exists id, s'. split; [done|]. by rewrite Hi, Hw.
Qed.
Lemma plain_same srv srv' : same_idents srv srv' -> plain srv -> plain srv'.
Proof.
  intros H Hp id s Hs. apply same_idents_sym in H.
  destruct (same_session srv' srv id s H Hs) as (x & Hx & (_ & Hi & Hl)%ident_owners).
  destruct (Hp id x Hx) as [Hl' Hu]. split; [congruence|]. intros id' s' Hs' Hip.
  destruct (same_session srv' srv id' s' H Hs') as (x' & Hx' & (_ & Hi' & _)%ident_owners).
  apply (Hu id' x' Hx'). congruence.
Qed.

(** *** A session entering, changing and leaving *)

Lemma represents_None srv A ip : represents srv A -> A !! ip = None <->
  forall id s, session srv id = Some s -> st_IpAddr (state s) <> ip.
Proof.
  intros H. rewrite eq_None_not_Some. split.
  - intros Hn id s Hs Hip. apply Hn. exists (owners_of s). apply H. eauto.
  - intros Hn [W HS]. apply H in HS as (id & s & Hs & Hip & _). by eapply Hn.
Qed.

(** One session changes: it enters if there was none. *)
Lemma represents_insert srv srv' A id s W : represents srv A -> plain srv ->
  (forall x, session srv' x = if decide (x = id) then Some s else session srv x) ->
  (forall s0, session srv id = Some s0 -> st_IpAddr (state s0) = st_IpAddr (state s)) ->
  (session srv id = None -> A !! st_IpAddr (state s) = None) -> st_PerLinkSession (state s) = false ->
  owners_of s = W -> represents srv' (<[st_IpAddr (state s) := W]> A) /\ plain srv'.
Proof.
  intros HA Hp Hx Hold Hnew Hl HS.
  assert (Hid : session srv' id = Some s) by (rewrite Hx; by destruct (decide _)).
  assert (Huniq : forall x y, session srv x = Some y -> st_IpAddr (state y) = st_IpAddr (state s) -> x = id).
  { intros x y Hy Hip. destruct (session srv id) as [s0|] eqn:Hs0.
    - apply (proj2 (Hp id s0 Hs0) x y Hy). rewrite Hip. symmetry. by apply Hold.
    - specialize (Hnew eq_refl). rewrite (represents_None srv A _ HA) in Hnew. by destruct (Hnew x y Hy). }
  split.
  - intros ip T. destruct (decide (st_IpAddr (state s) = ip)) as [<-|Hne].
    + rewrite lookup_insert_eq. split; [intros [= <-]; eauto|].
      intros (x & y & Hy & Hip & Ho). rewrite Hx in Hy. destruct (decide (x = id)); [congruence|].
      apply Huniq in Hy; [done | done].
    + rewrite lookup_insert_ne by done. rewrite (HA ip T). split; intros (x & y & Hy & Hip & Ho).
      * exists x, y. rewrite Hx. destruct (decide (x = id)) as [->|]; [|done].
        apply Hold in Hy. congruence.
      * rewrite Hx in Hy. destruct (decide (x = id)); [congruence | eauto].
  - intros x y Hy. rewrite Hx in Hy. destruct (decide (x = id)) as [->|Hne].
    + injection Hy as <-. split; [done|]. intros x' y' Hy' Hip. rewrite Hx in Hy'.
      destruct (decide (x' = id)); [done | by eapply Huniq].
    + destruct (Hp x y Hy) as [Hly Huy]. split; [done|]. intros x' y' Hy' Hip. rewrite Hx in Hy'.
      destruct (decide (x' = id)) as [->|]; [|by eapply Huy].
      injection Hy' as <-. symmetry in Hip. by destruct Hne; eapply Huniq.
Qed.

Lemma represents_delete srv srv' A id s : represents srv A -> plain srv -> session srv id = Some s ->
  (forall x, session srv' x = if decide (x = id) then None else session srv x) ->
  represents srv' (delete (st_IpAddr (state s)) A) /\ plain srv'.
Proof.
  intros HA Hp Hs Hx. destruct (Hp id s Hs) as [_ Hu]. split.
  - intros ip T. rewrite lookup_delete_Some, (HA ip T). split.
    + intros (Hne & x & y & Hy & Hip & Ho). exists x, y. rewrite Hx. destruct (decide (x = id)) as [->|]; [congruence | done].
    + intros (x & y & Hy & Hip & Ho). rewrite Hx in Hy. destruct (decide (x = id)); [done|].
      split; [|eauto]. intros Heq. subst ip. by destruct (Hu x y Hy).
  - intros x y Hy. rewrite Hx in Hy. destruct (decide (x = id)); [done|]. destruct (Hp x y Hy) as [Hly Huy]. split; [done|].
    intros x' y' Hy'. rewrite Hx in Hy'. destruct (decide (x' = id)); [done|]. by apply Huy.
Qed.

Lemma session_on id f srv srv' : tables_ok srv -> on_session id f srv = Ok srv' -> exists s s',
  session srv id = Some s /\ f s = Ok s' /\ forall x, session srv' x = if decide (x = id) then Some s' else session srv x.
Proof.
  intros Hok (p & s & s' & Hp & Hs & Hf & ->)%on_session_inv. exists s, s'. unfold session at 1. rewrite Hp. split; [done|]. split; [done|].
  intros x. unfold session. cbn. destruct (decide (x = id)) as [->|Hne]; [by rewrite Hp, lookup_insert_eq|].
  destruct (Sessions srv !! x) as [q|] eqn:Hq; [|done]. rewrite lookup_insert_ne; [done|].
  intros ->. by destruct Hne; eapply pointer_inj.
Qed.
Lemma session_enter id s srv : tables_ok srv -> forall x, session (enter_tables id s srv) x = if decide (x = id) then Some s else session srv x.
Proof.
  intros Hok x. unfold session. cbn. destruct (decide (x = id)) as [->|]; [by rewrite lookup_insert_eq, lookup_insert_eq|].
  rewrite lookup_insert_ne by done. destruct (Sessions srv !! x) as [q|] eqn:Hq; [|done]. rewrite lookup_insert_ne; [done|].
  intros <-. destruct (t_object srv Hok x _ Hq) as (y & Hy & _).
  pose proof (t_fresh srv Hok (nextPtr srv) (ex_intro _ y Hy)). lia.
Qed.
Lemma session_leave id ip ids srv x : session (leave_tables id ip ids srv) x = if decide (x = id) then None else session srv x.
Proof.
  unfold session. cbn. destruct (decide (x = id)) as [->|]; [by rewrite lookup_delete_eq | by rewrite lookup_delete_ne].
Qed.

(** *** Owners *)

Lemma owners_register s s' P b : 1 <= P < MAX_APPS -> register P b s = Ok s' ->
  owners_of s' = (if b then {[P]} ∪ owners_of s else owners_of s ∖ {[P]}) /\
  st_IpAddr (state s') = st_IpAddr (state s) /\ st_PerLinkSession (state s') = st_PerLinkSession (state s).
Proof.
  intros HP. unfold register. destruct (_ || _) eqn:Hr; [done|]. intros [= <-]. zhyp. split; [|done].
  apply set_eq. intros Q. 
  assert (Hq : Q ∈ owners_of (upd_state (set_st_RegisteredProtocols (<[Z.to_nat P:=b]> (st_RegisteredProtocols (state s)))) s) <->
    1 <= Q < MAX_APPS /\ <[Z.to_nat P:=b]> (st_RegisteredProtocols (state s)) !! Z.to_nat Q = Some true) by apply elem_of_owners.
  rewrite Hq. clear Hq. 
  assert (Hlen : (Z.to_nat P < length (st_RegisteredProtocols (state s)))%nat) by (unfold len in *; lia).
  destruct (decide (P = Q)) as [->|Hne].
  - rewrite list_lookup_insert_eq by done. destruct b; set_solver.
  - rewrite list_lookup_insert_ne by lia. rewrite <- elem_of_owners. destruct b; set_solver.
Qed.
Lemma nobody s : owners s = Z.to_nat MAX_APPS -> CheckIfAnyProtocolRegistered s = bool_decide (owners_of s <> ∅).
Proof.
  unfold owners, owners_of, CheckIfAnyProtocolRegistered. intros H.
  destruct (st_RegisteredProtocols (state s)) as [|b0 [|b1 [|b2 [|b3 [|b4 [|]]]]]]; try done.
  destruct b1, b2, b3, b4; reflexivity.
Qed.

Section registrations.
Context {env : Env} {env_ok : EnvOk env}.

Lemma Find_spec ip srv : match FindBfdSession ip srv with
  | Some id => exists s, session srv id = Some s /\ st_IpAddr (state s) = ip
  | None => forall id s, session srv id = Some s -> st_IpAddr (state s) <> ip
  end.
Proof.
  unfold FindBfdSession. destruct (List.find _ _) as [id|] eqn:Hf.
  - apply find_some in Hf as [_ Hs]. destruct (session srv id) as [s|]; [|done]. exists s. by apply bool_decide_eq_true in Hs.
  - intros id s Hs Hip. apply find_none with (x := id) in Hf.
    + rewrite Hs in Hf. by apply bool_decide_eq_false in Hf.
    + apply list_elem_of_In, order_ok. apply session_inv in Hs as (p & -> & _). eauto.
Qed.

(** A session to [ip] can be made: there is a route, over the interface that is asked for. *)
Definition can_create (srv : BFDServer) (ip Interface : string) : bool :=
  match GetRouteReachabilityInfo ip with
  | None => false
  | Some (i, _) => match getLinuxIntfName srv i with
                   | Ok n => bool_decide (Interface = "") || bool_decide (n = Interface)
                   | _ => true
                   end
  end.

(** A session that was just made. *)
Lemma new_session_facts id mac j Interface LocalIp DestIp name param PerLink P s :
  s = new_session id mac j Interface LocalIp DestIp name param PerLink P ->
  st_SessionId (state s) = id /\ st_IpAddr (state s) = DestIp /\ st_PerLinkSession (state s) = PerLink /\
  owners s = Z.to_nat MAX_APPS /\ st_RegisteredProtocols (state s) = <[Z.to_nat P := true]> (replicate (Z.to_nat MAX_APPS) false).
Proof. intros ->. repeat split. apply new_session_owners. Qed.
Lemma new_owners s P : 1 <= P < MAX_APPS ->
  st_RegisteredProtocols (state s) = <[Z.to_nat P := true]> (replicate (Z.to_nat MAX_APPS) false) -> owners_of s = {[P]}.
Proof.
  intros HP Hr. apply set_eq. intros Q. rewrite elem_of_owners, elem_of_singleton, Hr. destruct (decide (Q = P)) as [->|Hne].
  - split; [done|]. intros _. split; [done|]. rewrite list_lookup_insert_eq; [done|]. rewrite length_replicate. unfold MAX_APPS in *. lia.
  - split; [|done]. intros [HQ Hl]. rewrite list_lookup_insert_ne in Hl by lia. by apply lookup_replicate in Hl as [? _].
Qed.
Lemma NewNormal_session fuel Interface LocalIp DestIp name PerLink P srv id srv' : tables_ok srv ->
  NewNormalBfdSession fuel Interface LocalIp DestIp name PerLink P srv = Ok (Some id, srv') ->
  tables_ok srv' /\ session srv id = None /\ exists s, (forall x, session srv' x = if decide (x = id) then Some s else session srv x) /\
    st_IpAddr (state s) = DestIp /\ st_PerLinkSession (state s) = PerLink /\ (1 <= P < MAX_APPS -> owners_of s = {[P]}).
Proof.
  intros Hok H. split; [exact (NewNormal_ok _ _ _ _ _ _ _ _ _ Hok H)|].
  apply NewNormal_inv in H as [? | (id' & n & param & params & s & Hid & Hz & HP & _ & Hs & [= <- ->])]; [done|].
  destruct (GetNewSessionId_ok fuel srv id Hid Hz) as (_ & Hr & Hf). split; [by unfold session; rewrite Hf|].
  apply new_session_facts in Hs as (_ & Hip & Hl & _ & Hreg). exists s.
  assert (Hok' : tables_ok (set_SessionParams params srv)) by (by apply (tables_same srv)).
  pose proof (session_enter id s (set_SessionParams params srv) Hok') as Hx.
  split; [exact Hx|]. split; [done|]. split; [done|]. intros HP'. by apply new_owners.
Qed.

(** Creation to a new address, on no link of an aggregate. *)
Lemma Create_new fuel ip name Interface P srv r : tables_ok srv ->
  NewBfdSession fuel ip name Interface P false srv = Ok r ->
  if can_create srv ip Interface
  then exists id s, r.1 = Some id /\ session srv id = None /\
         (forall x, session r.2 x = if decide (x = id) then Some s else session srv x) /\
         st_IpAddr (state s) = ip /\ st_PerLinkSession (state s) = false /\ (1 <= P < MAX_APPS -> owners_of s = {[P]})
  else r = (None, srv).
Proof.
  intros Hok. unfold NewBfdSession, can_create. destruct (GetRouteReachabilityInfo ip) as [[i l]|]; [|by intros [= <-]].
  rewrite andb_false_r.
  assert (Hb : match getLinuxIntfName srv i with
    | Ok n => negb (bool_decide (Interface = "")) && negb (bool_decide (n = Interface)) | _ => false end =
    negb match getLinuxIntfName srv i with
    | Ok n => bool_decide (Interface = "") || bool_decide (n = Interface) | _ => true end)
    by (destruct (getLinuxIntfName srv i); try done; by rewrite negb_orb).
  rewrite Hb. clear Hb. destruct (match getLinuxIntfName srv i with Ok _ => _ | _ => true end); cbn [negb]; [|by intros [= <-]].
  intros ([[id|] srv1] & H1 & H)%bind_Ok_inv; [|done]. cbn [fst snd] in H.
  apply NewNormal_session in H1 as (Hok1 & Hnone & s & Hx & Hip & Hl & Ho); [|done].
  apply bind_Ok_inv in H as (srv2 & H2 & [= <-]). 
  destruct (session_on id _ _ _ Hok1 H2) as (s1 & s2 & Hs1 & [= Hs2] & Hx2).
  rewrite Hx, decide_True in Hs1 by done. injection Hs1 as <-.
  assert (Hi : ident s2 = ident s) by (by rewrite <- Hs2).
  apply ident_owners in Hi as (Hio & Hii & Hil).
  exists id, s2. split; [done|]. split; [done|]. split.
  { intros x. cbn [snd]. rewrite Hx2, Hx. by destruct (decide (x = id)). }
  split; [congruence|]. split; [congruence|]. intros HP. rewrite Hio. by apply Ho.
Qed.

Lemma create_refines fuel m srv r A : tables_ok srv -> plain srv -> represents srv A -> PerLink m = false ->
  1 <= Protocol m < MAX_APPS -> CreateBfdSession fuel m srv = Ok r ->
  let ip := session_ip (DestIp m) (Interface m) in
  represents r.2 (regs_step (can_create srv ip (Interface m)) ip CREATE (Protocol m) A) /\ plain r.2.
Proof.
  intros Hok Hp HA Hl HP. unfold CreateBfdSession. set (ip := session_ip _ _). cbn [regs_step].
  pose proof (Find_spec ip srv) as Hf. destruct (FindBfdSession ip srv) as [id|].
  - destruct Hf as (s & Hs & Hip). intros (srv1 & H1 & [= <-])%bind_Ok_inv. cbn [snd].
    destruct (session_on id _ _ _ Hok H1) as (x & s' & Hs' & Hr & Hx). rewrite Hs in Hs'. injection Hs' as <-.
    destruct (owners_register s s' _ _ HP Hr) as (Ho & Hip' & Hl').
    assert (HAip : A !! ip = Some (owners_of s)) by (apply HA; eauto). rewrite HAip, <- Hip, <- Hip', <- Ho.
    apply (represents_insert srv srv1 A id s'); try done.
    + intros s0 Hs0. rewrite Hs in Hs0. injection Hs0 as <-. done.
    + by rewrite Hs.
    + rewrite Hl'. apply (Hp id s Hs).
  - rewrite (proj2 (represents_None srv A ip HA)) by done.
    rewrite Hl. intros (r1 & H1 & H2)%bind_Ok_inv. pose proof (Create_new _ _ _ _ _ _ _ Hok H1) as Hc.
    destruct (can_create srv ip (Interface m)).
    + destruct Hc as (id & s & Hr1 & Hnone & Hx & Hip & Hls & Ho). rewrite Hr1 in H2. injection H2 as <-. cbn [snd].
      rewrite <- Hip, <- (Ho HP). apply (represents_insert srv r1.2 A id s); try done.
      * intros s0. by rewrite Hnone.
      * intros _. rewrite Hip. by apply (represents_None srv A ip HA).
    + rewrite Hc in H2. injection H2 as <-. cbn [snd].
      assert (Hsame : forall x : BFDServer, heap x = heap srv -> Sessions x = Sessions srv -> represents x A /\ plain x).
      { intros x Hh Hss. pose proof (sessions_same srv x Hh Hss). split; [by eapply represents_same | by eapply plain_same]. }
      destruct (tobeCreatedSessions srv !! ip); by apply Hsame.
Qed.

Lemma delete_refines m srv srv' A : tables_ok srv -> plain srv -> represents srv A -> ForceDel m = false ->
  1 <= Protocol m < MAX_APPS -> DeleteBfdSession m srv = Ok srv' ->
  let ip := session_ip (DestIp m) (Interface m) in
  forall created, represents srv' (regs_step created ip DELETE (Protocol m) A) /\ plain srv'.
Proof.
  intros Hok Hp HA Hforce HP. unfold DeleteBfdSession. set (ip := session_ip _ _). intros H created. cbn [regs_step].
  pose proof (Find_spec ip srv) as Hf. destruct (FindBfdSession ip srv) as [id|].
  2: { rewrite (proj2 (represents_None srv A ip HA)) by done. by injection H as <-. }
  destruct Hf as (s & Hs & Hip). rewrite Hs, (proj1 (Hp id s Hs)), Hforce in H.
  assert (HAip : A !! ip = Some (owners_of s)) by (apply HA; eauto). rewrite HAip.
  apply Delete_inv in H as (srv1 & s1 & H1 & Hs1 & H). cbn [orb] in H.
  assert (Hok1 : tables_ok srv1) by (eapply (on_session_ok id _ srv); [apply register_method | done | done]).
  destruct (session_on id _ _ _ Hok H1) as (x & s' & Hs' & Hr & Hx). rewrite Hs in Hs'. injection Hs' as <-.
  rewrite Hx, decide_True in Hs1 by done. injection Hs1 as <-.
  destruct (owners_register s s' _ _ HP Hr) as (Ho & Hip' & Hl').
  assert (HA1 : represents srv1 (<[ip := owners_of s ∖ {[Protocol m]}]> A) /\ plain srv1).
  { rewrite <- Hip, <- Hip', <- Ho. apply (represents_insert srv srv1 A id s'); try done.
    + intros s0 Hs0. rewrite Hs in Hs0. injection Hs0 as <-. done.
    + by rewrite Hs.
    + rewrite Hl'. apply (Hp id s Hs). }
  assert (Hw : owners s' = Z.to_nat MAX_APPS).
  { assert (Hs1 : session srv1 id = Some s') by (by rewrite Hx, decide_True).
    apply session_inv in Hs1 as (p & Hp1 & Hp2). destruct (t_object srv1 Hok1 id p Hp1) as (y & Hy & _ & Hyo). congruence. }
  rewrite (nobody s' Hw), Ho in H.
  destruct H as [[Hn ->] | [Hn (srv2 & params & ids & H2 & Hids & ->)]].
  - apply negb_false_iff, bool_decide_eq_true in Hn. by rewrite decide_False.
  - apply negb_true_iff, bool_decide_eq_false, dec_stable in Hn. rewrite decide_True by done.
    assert (Hsame : same_idents srv1 srv2) by (eapply on_session_identical; [|exact H2]; keeps).
    destruct HA1 as [HA1 Hp1]. apply (represents_same _ _ _ Hsame) in HA1. apply (plain_same _ _ Hsame) in Hp1.
    destruct (stopped_session id srv1 srv2 s' H2) as (s2 & Hs2 & Hip2); [by rewrite Hx, decide_True|].
    assert (Hd : represents (leave_tables id (st_IpAddr (state s')) ids (set_SessionParams params srv2))
                   (delete (st_IpAddr (state s2)) (<[ip := owners_of s ∖ {[Protocol m]}]> A)) /\
                 plain (leave_tables id (st_IpAddr (state s')) ids (set_SessionParams params srv2))).
    { apply (represents_delete srv2 _ _ id s2); try done. intros y.
      exact (session_leave id (st_IpAddr (state s')) ids (set_SessionParams params srv2) y). }
    rewrite Hip2, Hip', Hip, delete_insert_eq in Hd. exact Hd.
Qed.

(** The owners of a request are protocols, and its session is on no link of an aggregate. *)
Definition plain_request (e : server_event) : Prop :=
  e <> NextHopChange true /\
  match request e with Some c => sc_PerLink c = false /\ 1 <= sc_Protocol c < MAX_APPS | None => True end.
(** What the event does to the registrations. *)
Definition regs_event (srv : BFDServer) (e : server_event) (A : Registrations) : Registrations :=
  match request e with
  | Some c => let ip := session_ip (sc_DestIp c) (sc_Interface c) in
              regs_step (can_create srv ip (sc_Interface c)) ip (sc_Operation c) (sc_Protocol c) A
  | None => A
  end.

Lemma event_refines fuel e srv srv' A : tables_ok srv -> plain srv -> represents srv A -> plain_request e ->
  serve fuel e srv = Ok srv' -> represents srv' (regs_event srv e A) /\ plain srv'.
Proof.
  intros Hok Hp HA [Hn Hr] H. unfold regs_event.
  assert (Hsame : same_idents srv srv' -> represents srv' A /\ plain srv').
  { intros Hs. split; [by eapply represents_same | by eapply plain_same]. }
  destruct (request e) as [c|] eqn:He; [|by apply Hsame; eapply other_identical].
  destruct e; try done. injection He as ->. destruct Hr as [Hl HP]. cbn [serve] in H. unfold processSessionConfig in H.
  destruct (sc_Operation c) eqn:Hop.
  - apply bind_Ok_inv in H as (r & Hc & [= <-]). by apply (create_refines _ _ _ _ A Hok Hp HA) in Hc.
  - by apply (delete_refines _ _ _ A Hok Hp HA) with (created := can_create srv (session_ip (sc_DestIp c) (sc_Interface c)) (sc_Interface c)) in H.
  - apply Hsame. revert H. apply admin_identical; intros id; apply on_session_identical; keeps.
  - apply Hsame. revert H. apply admin_identical; intros id; apply on_session_identical; keeps.
Qed.
End registrations.

(** ** The daemon's promises *)

(** *** A concrete daemon *)

(** Everything is reachable over one interface, an aggregate of links or not, and numbers are drawn in turn. *)
Definition example_env (lag : bool) : Env := {|
  GetRouteReachabilityInfo := fun ip => if bool_decide (ip = "10.9.9.9") then None else Some (7, "10.0.0.1");
  GetIntfTypeFromIfIndex := fun _ => if lag then 3 else 1;
  IfTypeVlan := 1; IfTypePort := 2; IfTypeLag := 3;
  InterfaceByName := fun _ => None;
  Int31n := fun _ k => Z.of_N (N.succ k) mod MAX_NUM_SESSIONS;
  jitter := 0;
  order := fun m => (map_to_list m).*1;
  order_names := fun m => (map_to_list m).*1;
|}.
Lemma elem_of_keys `{Countable K} {A} (m : gmap K A) k : k ∈ (map_to_list m).*1 <-> is_Some (m !! k).
Proof.
  rewrite list_elem_of_fmap. split.
  - intros ([k' a] & -> & Hk%elem_of_map_to_list). eauto.
  - intros [a Ha]. exists (k, a). split; [done | by apply elem_of_map_to_list].
Qed.
Lemma example_env_ok lag : EnvOk (example_env lag).
Proof.
  constructor.
  - intros n k. unfold Int31n, example_env, MAX_NUM_SESSIONS. apply Z.mod_pos_bound. lia.
  - intros m id. apply elem_of_keys.
  - intros m. apply NoDup_fst_map_to_list.
  - intros m name. apply elem_of_keys.
Qed.

(** The state after events, when there is one. *)
Definition srv_of (r : sresult BFDServer) : BFDServer := match r with Ok srv => srv | _ => NewBFDServer end.
Lemma srv_of_ok r : is_ok r = true -> r = Ok (srv_of r).
Proof. by destruct r. Qed.
Definition example_config (ip param : string) (P : Z) (links : bool) (op : BfdSessionOperation) : SessionConfig :=
  {| sc_DestIp := ip; sc_ParamName := param; sc_Interface := ""; sc_PerLink := links; sc_Protocol := P; sc_Operation := op |}.
Definition example_start (lag : bool) : BFDServer := srv_of (InitServer (env := example_env lag)).
Lemma example_start_ok lag : InitServer (env := example_env lag) = Ok (example_start lag).
Proof. by apply srv_of_ok; destruct lag; vm_compute. Qed.

(** C24: whatever reaches the daemon after it starts, in any order, and whatever the other daemons answer and the numbers drawn are at each
    event, its tables agree, as far as each handler ends: the identifiers are listed once each and are those of the sessions, the count is
    their number, each is in range and names the session that carries it, and the table by address never holds a session that was deleted.
    Each handler is one step: that goroutines share the tables without a lock is left aside. *)
Theorem server_tables {env : Env} {env_ok : EnvOk env} fuel es srv0 srv : InitServer = Ok srv0 -> envs_ok es ->
  serve_all fuel es srv0 = Ok srv -> tables_ok srv.
Proof. intros H0 He H. eapply (serve_all_ok _ _ He); [by apply init_server_ok | done]. Qed.

(** The registrations after events; a session is made when the daemon's state at that point, and what it is answered, allow it. *)
Fixpoint regs_run (fuel : nat) (es : list (Env * server_event)) (srv : BFDServer) (A : Registrations) : Registrations :=
  match es with
  | [] => A
  | (env, e) :: es => match serve (env := env) fuel e srv with
                      | Ok srv' => regs_run fuel es srv' (regs_event (env := env) srv e A)
                      | _ => A
                      end
  end.
Definition watched (A : Registrations) : Prop := forall ip W, A !! ip = Some W -> W <> ∅.
Definition plain_requests (es : list (Env * server_event)) : Prop := Forall (fun x => plain_request x.2) es.

Lemma step_watched created ip op P A : watched A -> watched (regs_step created ip op P A).
Proof.
  intros HA. destruct op; cbn; try done.
  - intros ip' W. destruct (A !! ip) as [V|] eqn:Hv; [|destruct created; [|apply HA]];
      (destruct (decide (ip = ip')) as [->|]; [rewrite lookup_insert_eq; intros [= <-]; set_solver | rewrite lookup_insert_ne by done; apply HA]).
  - destruct (A !! ip) as [V|] eqn:Hv; [|done]. intros ip' W. destruct (decide _) as [|He].
    + intros [_ H]%lookup_delete_Some. by eapply HA.
    + destruct (decide (ip = ip')) as [->|]; [rewrite lookup_insert_eq; by intros [= <-] | rewrite lookup_insert_ne by done; apply HA].
Qed.
Lemma run_refines fuel es : forall srv srv' A, tables_ok srv -> plain srv -> represents srv A -> watched A -> envs_ok es ->
  plain_requests es -> serve_all fuel es srv = Ok srv' ->
  represents srv' (regs_run fuel es srv A) /\ watched (regs_run fuel es srv A).
Proof.
  induction es as [|[env e] es IH]; intros srv srv' A Hok Hp HA Hw Hv He; cbn; [by intros [= <-]|].
  apply Forall_cons in He as [He Hes]. apply Forall_cons in Hv as [Hv Hvs]. intros (x & Hx & H)%bind_Ok_inv. rewrite Hx.
  destruct (event_refines (env := env) (env_ok := Hv) fuel e srv x A) as [HA' Hp']; try done.
  eapply IH; try done; [by eapply (serve_ok (env_ok := Hv))|]. unfold regs_event. destruct (request e); [by apply step_watched | done].
Qed.
Lemma start_registrations {env : Env} srv : InitServer = Ok srv -> plain srv /\ represents srv ∅.
Proof.
  unfold InitServer, createDefaultSessionParam. cbn. intros H%use_param_identical.
  split; [eapply plain_same | eapply represents_same]; try exact H.
  - intros id s. unfold session. cbn. by rewrite lookup_empty.
  - intros ip W. rewrite lookup_empty. split; [done|]. intros (id & s & Hs & _).
    unfold session in Hs. cbn in Hs. by rewrite lookup_empty in Hs.
Qed.

(** C23: the sessions are the registrations of the protocols. The events are any the daemon can handle, with any answers of the other
    daemons, but their requests are of the known protocols, none asks for sessions on the links of an aggregate, and no next hop is announced
    as reachable again (which makes sessions of earlier requests, theirs having left or not). A protocol registers with a request for an
    address that a session exists to, or that the route manager can reach then, over the interface that is asked for; a request
    for an address that cannot be reached registers nothing. After the events there is a session to an address exactly if some protocol
    registered for it and has not left, and the session's owners are those protocols. *)
Theorem registrations_refined {env : Env} {env_ok : EnvOk env} fuel es srv0 srv : InitServer = Ok srv0 -> envs_ok es -> plain_requests es ->
  serve_all fuel es srv0 = Ok srv ->
  represents srv (regs_run fuel es srv0 ∅) /\ watched (regs_run fuel es srv0 ∅).
Proof.
  intros H0 Hv He H. destruct (start_registrations srv0 H0) as [Hp HA].
  eapply run_refines; try done. by apply init_server_ok.
Qed.

Section promises.
Context {env : Env} {env_ok : EnvOk env}.

(** *** Datagrams *)

Lemma by_ip_session srv ip p : tables_ok srv -> SessionsByIp srv !! ip = Some p ->
  exists id s, Sessions srv !! id = Some p /\ session srv id = Some s /\ st_IpAddr (state s) = ip.
Proof.
  intros Hok (id & s & Hid & Hs & Hip)%(t_by_ip srv Hok). exists id, s. split; [done|]. split; [|done]. unfold session. by rewrite Hid.
Qed.
Lemma set_one_session srv id p s' : tables_ok srv -> Sessions srv !! id = Some p ->
  forall x, session (set_heap (<[p := s']> (heap srv)) srv) x = if decide (x = id) then Some s' else session srv x.
Proof.
  intros Hok Hp x. unfold session. cbn. destruct (decide (x = id)) as [->|Hne]; [by rewrite Hp, lookup_insert_eq|].
  destruct (Sessions srv !! x) as [q|] eqn:Hq; [|done]. rewrite lookup_insert_ne; [done|].
  intros ->. by destruct Hne; eapply pointer_inj.
Qed.

(** A datagram is for one session: the one whose identifier it carries, wherever it came from; only if there is
    none, the one to its sender. No other session changes. *)
Theorem datagram_reaches_session ip data p srv srv' : tables_ok srv -> DEFAULT_CONTROL_PACKET_LEN <= len data ->
  DecodeBfdControlPacket data = Ok p -> StartBfdSesionServer ip data srv = Ok srv' ->
  let named := s32 (YourDiscriminator p) in
  (session srv named = None /\ SessionsByIp srv !! ip = None /\ srv' = srv) \/
  exists id s s', session srv id = Some s /\ receive p s = Ok s' /\
    (id = named \/ session srv named = None /\ st_IpAddr (state s) = ip) /\
    forall x, session srv' x = if decide (x = id) then Some s' else session srv x.
Proof.
  intros Hok Hlen Hdec. unfold StartBfdSesionServer. rewrite Hdec. destruct (_ >=? _) eqn:Hl; zhyp; [|lia].
  unfold DispatchReceivedBfdPacket. destruct (Sessions srv !! s32 (YourDiscriminator p)) as [q|] eqn:Hq.
  - destruct (session_Some srv _ q Hok Hq) as (s & Hs & Hh). rewrite Hh. intros (s' & Hr & [= <-])%bind_Ok_inv.
    right. exists (s32 (YourDiscriminator p)), s, s'. split; [done|]. split; [done|]. split; [by left|]. by apply set_one_session.
  - assert (Hnone : session srv (s32 (YourDiscriminator p)) = None) by (unfold session; by rewrite Hq).
    destruct (SessionsByIp srv !! ip) as [q|] eqn:Hip; [|intros [= <-]; by left].
    destruct (by_ip_session srv ip q Hok Hip) as (id & s & Hid & Hs & Hsip).
    destruct (heap srv !! q) as [x|] eqn:Hx; [|done].
    assert (x = s) as -> by (unfold session in Hs; rewrite Hid in Hs; congruence).
    intros (s' & Hr & [= <-])%bind_Ok_inv. right. exists id, s, s'. split; [done|]. split; [done|]. split; [by right|]. by apply set_one_session.
Qed.

(** *** Where the daemon stops *)

Lemma all_identifiers srv id : tables_ok srv -> NumSessions srv = MAX_NUM_SESSIONS - 1 -> 0 < id < MAX_NUM_SESSIONS ->
  is_Some (Sessions srv !! id).
Proof.
  intros [Hn Hi Hc Hr _ _ _] Hfull Hid. apply Hi. rewrite Hc in Hfull.
  set (all := Z.of_nat <$> seq 1 (Z.to_nat MAX_NUM_SESSIONS - 1)).
  assert (Hsub : SessionsIdSlice srv ⊆+ all).
  { apply NoDup_submseteq; [done|]. intros x Hx. apply Hi, Hr in Hx. apply list_elem_of_fmap. exists (Z.to_nat x).
    split; [lia|]. apply elem_of_seq. unfold MAX_NUM_SESSIONS in *. lia. }
  assert (Hperm : SessionsIdSlice srv ≡ₚ all).
  { apply submseteq_length_Permutation; [done|]. unfold all. rewrite length_fmap, length_seq. unfold len, MAX_NUM_SESSIONS in *. lia. }
  rewrite Hperm. apply list_elem_of_fmap. exists (Z.to_nat id). split; [lia|]. apply elem_of_seq. unfold MAX_NUM_SESSIONS in *. lia.
Qed.
Lemma draw_hangs seed sessions fuel : (forall id, 0 < id < MAX_NUM_SESSIONS -> is_Some (sessions !! id)) ->
  forall k, draw fuel seed k sessions = Hang.
Proof.
  intros Hall. induction fuel as [|fuel IH]; intros k; cbn; [done|]. destruct (bool_decide _) eqn:Hb; [apply IH|].
  apply bool_decide_eq_false in Hb. destruct (Int31n seed k =? 0) eqn:Hz; [apply IH|]. zhyp.
  destruct Hb. apply Hall. pose proof (random_ok seed k). lia.
Qed.

(** With 1023 sessions every identifier but 0 is taken, yet the limit of 1024 is not reached: creating a session to
    another address draws numbers for ever, and the session handler serves nothing any more. *)
Theorem no_identifier_left fuel m srv : tables_ok srv -> NumSessions srv = MAX_NUM_SESSIONS - 1 -> PerLink m = false ->
  (let ip := session_ip (DestIp m) (Interface m) in can_create srv ip (Interface m) = true /\ FindBfdSession ip srv = None) ->
  CreateBfdSession fuel m srv = Hang.
Proof.
  intros Hok Hfull Hl [Hc Hf]. unfold CreateBfdSession. rewrite Hf, Hl. unfold NewBfdSession, can_create in *.
  destruct (GetRouteReachabilityInfo _) as [[i l]|]; [|done]. rewrite andb_false_r.
  assert (Hn : NewNormalBfdSession fuel (Interface m) l (session_ip (DestIp m) (Interface m)) (ParamName m) false (Protocol m) srv = Hang).
  { unfold NewNormalBfdSession, GetNewSessionId. rewrite Hfull. change (MAX_NUM_SESSIONS - 1 <? MAX_NUM_SESSIONS) with true. cbn match.
    rewrite draw_hangs; [done|]. intros id. by apply all_identifiers. }
  rewrite Hn. destruct (getLinuxIntfName srv i); cbn in Hc |- *; try done.
  destruct (bool_decide (Interface m = "")), (bool_decide (_ = Interface m)); done.
Qed.

Lemma only_owner P s s' : register P false s = Ok s' -> 1 <= P < MAX_APPS -> owners_of s = {[P]} ->
  owners s = Z.to_nat MAX_APPS -> CheckIfAnyProtocolRegistered s' = false.
Proof.
  intros Hr HP Ho Hw. destruct (owners_register s s' P false HP Hr) as (Ho' & _).
  rewrite nobody; [|by destruct (register_method P false s s' Hr) as (_ & _ & ->)].
  apply bool_decide_eq_false. rewrite Ho', Ho. intros H. apply H. set_solver.
Qed.

(** When the parameters of a session were deleted, the protocol that leaves it last stops the daemon: the count of the
    deleted parameters is written through a nil pointer. *)
Theorem delete_without_parameters m srv id s : tables_ok srv -> 1 <= Protocol m < MAX_APPS ->
  FindBfdSession (session_ip (DestIp m) (Interface m)) srv = Some id -> session srv id = Some s ->
  st_PerLinkSession (state s) = false -> owners_of s = {[Protocol m]} ->
  s_serverRuns s = true -> s_clientRuns s = true -> SessionParams srv !! st_ParamName (state s) = None ->
  DeleteBfdSession m srv = Panic.
Proof.
  intros Hok HP Hf Hs Hl Ho Hsr Hcr Hparam. unfold DeleteBfdSession. rewrite Hf, Hs, Hl.
  destruct (session_inv srv id s Hs) as (p & Hp & Hh). destruct (t_object srv Hok id p Hp) as (s0 & Hs0 & _ & Hw).
  assert (s0 = s) as -> by congruence.
  assert (Hreg : exists s', register (Protocol m) false s = Ok s').
  { unfold register. destruct (_ || _) eqn:Hb; [|eauto]. zhyp. unfold owners, len, MAX_APPS in *. lia. }
  destruct Hreg as [s' Hreg]. pose proof (only_owner _ _ _ Hreg HP Ho Hw) as Hnone.
  assert (Hio : s_serverRuns s' = true /\ s_clientRuns s' = true /\ st_ParamName (state s') = st_ParamName (state s)).
  { unfold register in Hreg. destruct (_ || _); [done|]. by injection Hreg as <-. }
  destruct Hio as (Hsr' & Hcr' & Hn').
  unfold SessionDeleteHandler. rewrite (on_session_eq id _ srv p s s' Hp Hh Hreg), bind_Ok.
  set (srv1 := set_heap _ srv).
  assert (Hs1 : session srv1 id = Some s') by (unfold session, srv1; cbn; by rewrite Hp, lookup_insert_eq).
  rewrite Hs1, Hnone, orb_true_r.
  assert (Hstop : exists s2, stop_goroutines s' = Ok s2).
  { unfold stop_goroutines, send_stop_client, send_stop_server. rewrite Hcr'. destruct (IsSessionActive s'); rewrite bind_Ok; cbn;
      [|rewrite Hsr'; eauto]. rewrite Hsr'. eauto. }
  destruct Hstop as [s2 Hstop].
  rewrite (on_session_eq id _ srv1 p s' s2); [|done | unfold srv1; cbn; by rewrite lookup_insert_eq | done].
  rewrite bind_Ok. cbn [SessionParams set_heap srv1]. unfold srv1. cbn [SessionParams set_heap]. by rewrite Hn', Hparam.
Qed.

(** *** Reads *)

Definition no_param : SessionParamState :=
  {| sp_Name := ""; sp_NumSessions := 0; sp_LocalMultiplier := 0; sp_DesiredMinTxInterval := 0; sp_RequiredMinRxInterval := 0;
     sp_RequiredMinEchoRxInterval := 0; sp_DemandEnabled := false; sp_AuthenticationEnabled := false; sp_AuthenticationType := 0;
     sp_AuthenticationKeyId := 0; sp_AuthenticationData := "" |}.
Definition session_at (srv : BFDServer) (id : Z) : BfdSession :=
  default (new_session 0 [] 0 "" "" "" "" no_param false 0) (session srv id).
Definition state_shown (srv : BFDServer) (id : Z) : SessionState := read_state (session_at srv id).
Lemma bulk_spec srv : tables_ok srv -> forall n i, (i + n <= length (SessionsIdSlice srv))%nat ->
  bulk n (Z.of_nat i) srv =
  Ok (imap (fun k id => (Z.of_nat (i + k), state_shown srv id)) (take n (drop i (SessionsIdSlice srv)))).
Proof.
  intros Hok. induction n as [|n IH]; intros i Hi; [done|]. cbn [bulk]. destruct (Z.of_nat i <? 0) eqn:Hz; zhyp; [lia|].
  rewrite Nat2Z.id. destruct (lookup_lt_is_Some_2 (SessionsIdSlice srv) i) as [id Hid]; [lia|]. rewrite Hid.
  assert (Hsome : is_Some (Sessions srv !! id)) by (apply (t_ids srv Hok); by eapply list_elem_of_lookup_2).
  destruct Hsome as [p Hp]. destruct (session_Some srv id p Hok Hp) as (s & Hs & _). rewrite Hs.
  replace (Z.of_nat i + 1) with (Z.of_nat (S i)) by lia. rewrite IH by lia. rewrite bind_Ok.
  rewrite (drop_S _ _ _ Hid). cbn. unfold state_shown at 2, session_at. rewrite Hs. do 2 f_equal; [by rewrite Nat.add_0_r|].
  apply imap_ext. intros k x _. cbn. f_equal. lia.
Qed.

(** Reading the sessions in bulk: from 0 and for at least as many as there are, all are read, in order. A shorter read
    returns nothing and moves on by one; a read of the end from the middle or later counts sessions and shows none. *)
Theorem bulk_read_sessions idx cnt srv : tables_ok srv -> 0 <= idx <= len (SessionsIdSlice srv) -> 0 <= cnt ->
  let n := len (SessionsIdSlice srv) in
  GetBulkBfdSessionStates idx cnt srv =
    if idx + cnt <? n then Ok (idx + 1, 0, [])
    else if n <=? 2 * idx then Ok (0, n - idx, [])
    else Ok (0, n - idx, imap (fun k id => (idx + Z.of_nat k, state_shown srv id))
                           (take (Z.to_nat (n - 2 * idx)) (drop (Z.to_nat idx) (SessionsIdSlice srv)))).
Proof.
  intros Hok Hidx Hcnt n. unfold GetBulkBfdSessionStates. fold n.
  destruct (idx + cnt <? n) eqn:Hlt; zhyp.
    destruct (idx + cnt >=? n) eqn:Hge; zhyp; [lia|]. cbn match. change (0 <? 0) with false. cbn match.
    replace (Z.to_nat (0 - idx)) with 0%nat by lia. cbn. do 3 f_equal. lia.
  - destruct (idx + cnt >=? n) eqn:Hge; zhyp; [|lia]. destruct (n - idx <? 0) eqn:Hneg; zhyp; [lia|].
    destruct (n <=? 2 * idx) eqn:Hh; zhyp.
    + by replace (Z.to_nat (n - idx - idx)) with 0%nat by lia.
    + replace (bulk (Z.to_nat (n - idx - idx)) idx srv) with (bulk (Z.to_nat (n - 2 * idx)) (Z.of_nat (Z.to_nat idx)) srv)
        by (f_equal; lia).
      rewrite bulk_spec; [|done | unfold n, len in *; lia]. rewrite bind_Ok. do 2 f_equal.
      apply imap_ext. intros k x _. cbn. f_equal. lia.
Qed.
End promises.

(** ** The theorems at a concrete daemon *)

Definition example_fuel : nat := 1100.
Definition example_envs (lag : bool) (es : list server_event) : list (Env * server_event) := (fun e => (example_env lag, e)) <$> es.
Lemma example_envs_ok lag es : envs_ok (example_envs lag es).
Proof. apply Forall_forall. intros x (e & -> & _)%list_elem_of_fmap. apply example_env_ok. Qed.
Definition example_run (lag : bool) (es : list server_event) : BFDServer :=
  srv_of (serve_all example_fuel (example_envs lag es) (example_start lag)).
Definition SetUp (ip param : string) (P : Z) : server_event := SessionConfigCh 0 (example_config ip param P false CREATE).
Definition TakeDown (ip : string) (P : Z) : server_event := SessionConfigCh 0 (example_config ip "" P false DELETE).

(** Two protocols watch one address, one watches another, one leaves; the sessions run meanwhile. *)
Definition example_events : list server_event :=
  [SetUp "10.0.0.2" "default" BGP; CreatedTurn; ClientTurn 1 true; SetUp "10.0.0.2" "default" OSPF; SetUp "10.0.0.3" "" OSPF;
   CreatedTurn; ClientTurn 2 true; TxTimeout 1 true; SessionTimeout 5 2; TakeDown "10.0.0.2" BGP; TakeDown "10.0.0.3" OSPF;
   SetUp "10.9.9.9" "" BGP; NextHopChange false].

Lemma example_tables lag es : is_ok (serve_all example_fuel (example_envs lag es) (example_start lag)) = true -> tables_ok (example_run lag es).
Proof.
  intros H%srv_of_ok. eapply (serve_all_ok _ _ (example_envs_ok lag es)); [|exact H].
  eapply (init_server_ok (env := example_env lag)), example_start_ok.
Qed.

Lemma server_tables_witness : tables_ok (example_run false example_events) /\
  SessionsIdSlice (example_run false example_events) = [1] /\ NumSessions (example_run false example_events) = 1.
Proof.
  split; [|by vm_compute].
  exact (server_tables (env := example_env false) (env_ok := example_env_ok false) example_fuel _ _ _
    (example_start_ok false) (example_envs_ok false example_events)
    (srv_of_ok (serve_all example_fuel (example_envs false example_events) (example_start false)) eq_refl)).
Defined.

Lemma registrations_refined_witness :
  represents (example_run false example_events)
    (regs_run example_fuel (example_envs false example_events) (example_start false) ∅) /\
  regs_run example_fuel (example_envs false example_events) (example_start false) ∅ = {["10.0.0.2" := {[OSPF]}]}.
Proof.
  split; [|by vm_compute].
  assert (He : plain_requests (example_envs false example_events)).
  { unfold example_envs, example_events, plain_requests. cbn [fmap list_fmap]. repeat (apply Forall_cons; split; [split; [discriminate | by vm_compute]|]). apply Forall_nil. done. }
  exact (proj1 (registrations_refined (env := example_env false) (env_ok := example_env_ok false) example_fuel _ _ _
    (example_start_ok false) (example_envs_ok false example_events) He
    (srv_of_ok (serve_all example_fuel (example_envs false example_events) (example_start false)) eq_refl))).
Defined.

(** A datagram that names session 1, from an address that is not that session's. *)
Definition example_datagram : bytes :=
  CreateBfdControlPacket (set_YourDiscriminator 1 (set_MyDiscriminator 9 NewBfdControlPacketDefault)).
Lemma datagram_reaches_session_witness : exists id s s',
  session (example_run false example_events) id = Some s /\ st_IpAddr (state s) = "10.0.0.2" /\
  session (srv_of (StartBfdSesionServer "192.0.2.66" example_datagram (example_run false example_events))) id = Some s' /\
  length (s_ReceivedPacketCh s') = 1%nat.
Proof.
  assert (Hok : tables_ok (example_run false example_events)) by (apply example_tables; by vm_compute).
  destruct (DecodeBfdControlPacket example_datagram) as [p | | |] eqn:Hd; [| by vm_compute in Hd ..].
  assert (Hy : YourDiscriminator p = 1) by (vm_compute in Hd; by injection Hd as <-).
  assert (Hl : DEFAULT_CONTROL_PACKET_LEN <= len example_datagram) by (vm_compute; discriminate).
  assert (Hr : StartBfdSesionServer "192.0.2.66" example_datagram (example_run false example_events) =
    Ok (srv_of (StartBfdSesionServer "192.0.2.66" example_datagram (example_run false example_events))))
    by (apply srv_of_ok; by vm_compute).
  destruct (datagram_reaches_session "192.0.2.66" example_datagram p _ _ Hok Hl Hd Hr)
    as [(H & _) | (id & s & s' & Hs & Hrec & Hid & Hx)].
  - rewrite Hy in H. by vm_compute in H.
  - assert (id = 1) as ->.
    { destruct Hid as [-> | [Hn _]]; [by rewrite Hy | rewrite Hy in Hn; by vm_compute in Hn]. }
    exists 1, s, s'. split; [done|]. split; [vm_compute in Hs; by injection Hs as <-|].
    rewrite Hx, decide_True by done. split; [done|]. revert Hrec. vm_compute in Hs. injection Hs as <-.
    vm_compute in Hd. injection Hd as <-. vm_compute. by intros [= <-].
Defined.

(** An aggregate of 1023 links takes an identifier for each. *)
Definition full_events : list server_event :=
  [LagNotify true 7 (Z.of_nat <$> seq 1 1023); SessionConfigCh 0 (example_config "10.0.0.2" "" BGP true CREATE)].
Definition another : BfdSessionMgmt :=
  {| DestIp := "10.0.0.3"; ParamName := ""; Interface := ""; Protocol := OSPF; PerLink := false; ForceDel := false |}.
Lemma full_runs : is_ok (serve_all example_fuel (example_envs true full_events) (example_start true)) = true.
Proof. by vm_compute. Qed.
Definition is_full (srv : BFDServer) : bool :=
  (NumSessions srv =? MAX_NUM_SESSIONS - 1) && bool_decide (FindBfdSession (env := example_env true) "10.0.0.3" srv = None).
Lemma is_full_spec srv : is_full srv = true ->
  NumSessions srv = MAX_NUM_SESSIONS - 1 /\ FindBfdSession (env := example_env true) "10.0.0.3" srv = None.
Proof. unfold is_full. intros [Hn Hf]%andb_prop. split; [by apply Z.eqb_eq in Hn | by apply bool_decide_eq_true in Hf]. Qed.
Lemma full_state : is_full (example_run true full_events) = true.
Proof. by vm_compute. Qed.
Lemma full_daemon : exists srv, tables_ok srv /\ NumSessions srv = MAX_NUM_SESSIONS - 1 /\
  FindBfdSession (env := example_env true) "10.0.0.3" srv = None.
Proof.
  exact (ex_intro _ (example_run true full_events) (conj (example_tables true full_events full_runs) (is_full_spec _ full_state))).
Qed.
Lemma no_identifier_left_witness : exists srv, NumSessions srv = MAX_NUM_SESSIONS - 1 /\
  forall fuel, CreateBfdSession (env := example_env true) fuel another srv = Hang.
Proof.
  destruct full_daemon as (srv & Hok & Hn & Hf). exists srv. split; [done|]. intros fuel.
  by apply (no_identifier_left (env := example_env true) (env_ok := example_env_ok true)).
Defined.

(** A session with parameters of its own, which an administrator deletes. *)
Definition fast : SessionParamConfig :=
  {| pc_Name := "fast"; pc_LocalMultiplier := 3; pc_DesiredMinTxInterval := 50; pc_RequiredMinRxInterval := 50;
     pc_RequiredMinEchoRxInterval := 0; pc_DemandEnabled := false; pc_AuthenticationEnabled := false; pc_AuthenticationType := 0;
     pc_AuthenticationKeyId := 0; pc_AuthenticationData := "" |}.
Definition fast_events : list server_event :=
  [SessionParamConfigCh fast; SetUp "10.0.0.2" "fast" BGP; CreatedTurn; ClientTurn 1 true; SessionParamDeleteCh "fast"].
Definition leaving : BfdSessionMgmt :=
  {| DestIp := "10.0.0.2"; ParamName := ""; Interface := ""; Protocol := BGP; PerLink := false; ForceDel := false |}.
Lemma delete_without_parameters_witness :
  DeleteBfdSession (env := example_env false) leaving (example_run false fast_events) = Panic.
Proof.
  apply (delete_without_parameters (env := example_env false) (env_ok := example_env_ok false) leaving _ 1
    (session_at (example_run false fast_events) 1)); [apply example_tables; by vm_compute | done | by vm_compute ..].
Defined.

Lemma bulk_read_sessions_witness :
  GetBulkBfdSessionStates 0 20 (example_run false example_events) =
    Ok (0, 1, [(0, state_shown (example_run false example_events) 1)]) /\
  GetBulkBfdSessionStates 0 0 (example_run false example_events) = Ok (1, 0, []).
Proof.
  assert (Hok : tables_ok (example_run false example_events)) by (apply example_tables; by vm_compute).
  assert (Hl : SessionsIdSlice (example_run false example_events) = [1]) by (by vm_compute).
  assert (Hn : len (SessionsIdSlice (example_run false example_events)) = 1) by (by rewrite Hl).
  pose proof (bulk_read_sessions 0 20 _ Hok) as H1. pose proof (bulk_read_sessions 0 0 _ Hok) as H2.
  rewrite Hn, Hl in H1, H2. split; [apply H1; lia | apply H2; lia].
Defined.
