(* ===== verification/OspfUtil.v ===== *)
(** Utilities of the OSPF daemon: identifiers in dotted or integer form, checksums of packets and of LSAs. *)
From stdpp Require Import base numbers list strings pretty.
From Stdlib Require Import ZArith Lia.
From S2P Require Import Prelude GoNet.
Open Scope Z_scope.

(** ** Loops that count upwards: [for i := i0; i < i0 + n; i++ { a = body(i, a) }] *)

Fixpoint for_upto {E A} (n : nat) (i : nat) (body : nat -> A -> outcome E A) (a : A) : outcome E A :=
  match n with
  | O => Ok a
  | S n => a ← body i a; for_upto n (S i) body a
  end.

(** What the body keeps, the loop keeps; and the loop ends. *)
Lemma for_upto_rule {E A} (P : nat -> A -> Prop) (body : nat -> A -> outcome E A) n : forall i a,
  (forall j b, (i <= j < i + n)%nat -> P j b -> exists b', body j b = Ok b' /\ P (S j) b') ->
  P i a -> exists b, for_upto n i body a = Ok b /\ P (i + n)%nat b.
Proof.
  induction n as [|n IH]; intros i a Hb Ha; cbn [for_upto].
  { exists a. by rewrite Nat.add_0_r. }
  destruct (Hb i a) as (b & -> & Hp); [lia | done |]. rewrite bind_Ok.
  rewrite <- Nat.add_succ_comm. apply IH; [|done]. intros j c Hj. apply Hb. lia.
Qed.

(** The daemon's functions return no error of their own where they can panic. *)
Abbreviation go := (outcome Empty_set).

(** ** Identifiers *)

(** A string is read as the list of its character codes. *)
Module Util.

Definition big : Z := 16777215.

Fixpoint dtoi_loop (rest : list Z) (i0 i n : Z) : Z * Z * bool :=
  let stop := if i =? i0 then (0, i, false) else (n, i, true) in
  match rest with
  | c :: rest =>
    if (48 <=? c) && (c <=? 57) then
      let n := n * 10 + (c - 48) in
      if n >=? big then (0, i, false) else dtoi_loop rest i0 (i + 1) n
    else stop
  | [] => stop
  end.
Definition dtoi (s : list Z) (i0 : Z) : Z * Z * bool := dtoi_loop (drop (Z.to_nat i0) s) i0 i0 0.

(** The octets that are left to read: all but the first are preceded by a dot. *)
Fixpoint octets (k : nat) (first : bool) (s : list Z) (i : Z) : option (bytes * Z) :=
  match k with
  | O => Some ([], i)
  | S k =>
    if i >=? len s then None
    else
      i ← (if first then Some i
           else c ← s !! Z.to_nat i; if c =? 46 then Some (i + 1) else None);
      let '(n, i, ok) := dtoi s i in
      if negb ok || (n >? 255) then None
      else '(p, i) ← octets k false s i; Some (n :: p, i)
  end.

(** [None] is nil. *)
Definition parseIPFmt (s : string) : option bytes :=
  '(p, i) ← octets 4 true (char_codes s) 0;
  if negb (i =? len (char_codes s)) then None else Some p.

Definition convertAuthKey (s : string) : option bytes :=
  '(p, i) ← octets 8 true (char_codes s) 0;
  if negb (i =? len (char_codes s)) then None else Some p.

(** [strconv.ParseUint(str, 10, 32)] *)
Definition ParseUint32 (l : list Z) : option Z :=
  if bool_decide (l = []) then None
  else v ← decimal l 0; if v <? 4294967296 then Some v else None.

Definition parseIntFmt (str : string) : option bytes :=
  i ← ParseUint32 (char_codes str);
  Some [u8 (Z.land i 255); u8 (Z.shiftr (Z.land i 65280) 8);
        u8 (Z.shiftr (Z.land i 16711680) 16); u8 (Z.shiftr (Z.land i 4278190080) 24)].

Definition convertAreaOrRouterId (str : string) : option bytes :=
  if existsb (fun c => c =? 46) (char_codes str) then parseIPFmt str else parseIntFmt str.

(** nil has no first byte *)
Definition convertIPv4ToUint32 (ip : bytes) : go Z :=
  b0 ← sget ip 0; let val := u32 (0 + b0) in
  b1 ← sget ip 1; let val := u32 (Z.shiftl val 8 + b1) in
  b2 ← sget ip 2; let val := u32 (Z.shiftl val 8 + b2) in
  b3 ← sget ip 3; let val := u32 (Z.shiftl val 8 + b3) in
  Ok val.

Definition convertAreaOrRouterIdUint32 (str : string) : go Z :=
  convertIPv4ToUint32 (default [] (convertAreaOrRouterId str)).

Definition convertUint32ToIPv4 (val : Z) : string :=
  let p0 := Z.land val 255 in
  let p1 := Z.land (Z.shiftr val 8) 255 in
  let p2 := Z.land (Z.shiftr val 16) 255 in
  let p3 := Z.land (Z.shiftr val 24) 255 in
  pretty p3 +:+ "." +:+ pretty p2 +:+ "." +:+ pretty p1 +:+ "." +:+ pretty p0.

Definition convertIPInByteToString (ip : bytes) : go string :=
  v ← convertIPv4ToUint32 ip; Ok (convertUint32ToIPv4 v).

Definition bytesEqual (x y : bytes) : bool :=
  if negb (len x =? len y) then false
  else forallb (fun '(b, c) => c =? b) (combine x y).

(** The loop runs to the one before the last byte, which is then read: there must be one. *)
Definition convertByteToOctetString (data : bytes) : go string :=
  last ← sget data (len data - 1);
  Ok (foldr String.append "" ((fun b => pretty b +:+ ":") <$> take (length data - 1) data) +:+ pretty last).

(** ** The checksum of a packet *)

Fixpoint csum_pairs (pkt : bytes) (csum : Z) : go Z :=
  match pkt with
  | [] => Ok csum
  | [_] => Panic
  | a :: b :: pkt => csum_pairs pkt (u32 (u32 (csum + u32 (Z.shiftl a 8)) + b))
  end.

(** The carry is folded once, as in the code: what that addition carries itself is lost. The theorems on packets that are received
    have the condition that it carries nothing ([one_carry]). *)
Definition computeCheckSum (pkt : bytes) : go Z :=
  csum ← csum_pairs pkt 0;
  Ok (65535 - u16 (Z.shiftr csum 16 + csum)).

(** ** The Fletcher checksum of an LSA *)

Definition MODX : nat := 4102.
Definition FLETCHER_CHECKSUM_VALIDATE : Z := 65535.

(** Blocks of [MODX] bytes, after each of which the sums are reduced. *)
Fixpoint fletcher_block (data : bytes) (c0 c1 : Z) : Z * Z :=
  match data with
  | [] => (c0, c1)
  | b :: data => fletcher_block data (c0 + b) (c1 + (c0 + b))
  end.
Fixpoint fletcher_loop (fuel : nat) (data : bytes) (c0 c1 : Z) : go (Z * Z) :=
  match data, fuel with
  | [], _ => Ok (c0, c1)
  | _, O => Hang
  | _, S fuel =>
    let '(c0, c1) := fletcher_block (take MODX data) c0 c1 in
    fletcher_loop fuel (drop MODX data) (Z.rem c0 255) (Z.rem c1 255)
  end.

(** Unless it validates, the function clears the two bytes at [offset]: the data it leaves comes first. *)
Definition computeFletcherChecksum (data : bytes) (offset : Z) : go (bytes * Z) :=
  data ← (if negb (offset =? FLETCHER_CHECKSUM_VALIDATE) then PutUint16 data offset 0 else Ok data);
  '(c0, c1) ← fletcher_loop (length data) data 0 0;
  let x := Z.rem ((len data - offset - 1) * c0 - c1) 255 in
  let x := if x <=? 0 then x + 255 else x in
  let y := 510 - c0 - x in
  let y := if y >? 255 then y - 255 else y in
  let checksum := if offset =? FLETCHER_CHECKSUM_VALIDATE then Z.shiftl c1 8 + c0
                  else Z.lor (Z.shiftl x 8) (Z.land y 255) in
  Ok (data, u16 checksum).

End Util.

(** ** Facts about identifiers *)

Lemma char_codes_app a b : char_codes (a +:+ b) = char_codes a ++ char_codes b.
Proof.
  induction a as [|c a IH]; [done|]. change (String c a +:+ b) with (String c (a +:+ b)).
  unfold char_codes in *. cbn. f_equal. exact IH.
Qed.

Definition digits_ok (b : Z) : bool :=
  match char_codes (pretty b) with
  | [x] => (48 <=? x) && (x <=? 57) && (x - 48 =? b)
  | [x; y] => forallb (fun x => (48 <=? x) && (x <=? 57)) [x; y] && ((x - 48) * 10 + (y - 48) =? b)
  | [x; y; z] => forallb (fun x => (48 <=? x) && (x <=? 57)) [x; y; z] &&
                 (((x - 48) * 10 + (y - 48)) * 10 + (z - 48) =? b)
  | _ => false
  end.

Lemma below_nat n (f : Z -> bool) : forallb (fun k => f (Z.of_nat k)) (seq 0 n) = true ->
  forall x, 0 <= x < Z.of_nat n -> f x = true.
Proof.
  intros H x Hx. rewrite forallb_forall in H. rewrite <- (Z2Nat.id x) by lia.
  apply H, in_seq. lia.
Qed.

Lemma digits_byte b : is_u8 b -> digits_ok b = true.
Proof. apply (below_nat 256). vm_compute. reflexivity. Qed.

Definition ends_number (tail : list Z) : Prop := match tail with c :: _ => c = 46 | [] => True end.

(** A byte that was printed is read up to what follows it. *)
Lemma dtoi_byte pre b tail i : is_u8 b -> ends_number tail -> i = len pre ->
  Util.dtoi (pre ++ char_codes (pretty b) ++ tail) i = (b, i + len (char_codes (pretty b)), true).
Proof.
  intros Hb Ht ->. unfold Util.dtoi. rewrite to_nat_len, drop_app_length.
  pose proof (len_nonneg pre) as Hp. set (i := len pre) in *. clearbody i.
  assert (Hstop : forall j n, i < j -> Util.dtoi_loop tail i j n = (n, j, true)).
  { intros j n Hj. destruct tail as [|c tail]; cbn; [by zif|]. cbn in Ht. subst c. cbn. by zif. }
  pose proof (digits_byte b Hb) as Hd. unfold digits_ok in Hd. unfold is_u8 in Hb.
  destruct (char_codes (pretty b)) as [|x [|y [|z [|w l]]]]; try discriminate; cbn [forallb] in Hd;
    rewrite ?andb_true_iff in Hd; destruct_and?; zhyp; cbn [Util.dtoi_loop app len length]; unfold Util.big;
    repeat (zif; rewrite (Z.geb_leb _ 16777215)); zif; rewrite Hstop by lia; lens; unfold len; cbn [length]; f_equal; try f_equal; lia.
Qed.

Lemma octets_byte k (first : bool) pre b tail i : is_u8 b -> ends_number tail -> i = len pre ->
  Util.octets (S k) first (pre ++ (if first then [] else [46]) ++ char_codes (pretty b) ++ tail) i =
  '(p, j) ← Util.octets k false
      (pre ++ (if first then [] else [46]) ++ char_codes (pretty b) ++ tail)
      (i + len ((if first then [] else [46]) ++ char_codes (pretty b)));
  Some (b :: p, j).
Proof.
  intros Hb Ht Hi. cbn [Util.octets].
  assert (Hl : 1 <= len (char_codes (pretty b))).
  { pose proof (digits_byte b Hb) as Hd. unfold digits_ok in Hd.
    destruct (char_codes (pretty b)); [discriminate|]. rewrite len_cons. pose proof (len_nonneg l). lia. }
  assert (Hge : (i >=? len (pre ++ (if first then [] else [46]) ++ char_codes (pretty b) ++ tail)) = false).
  { rewrite Z.geb_leb. apply Z.leb_gt. lens. pose proof (len_nonneg tail).
    pose proof (len_nonneg (if first then [] else [46])). lia. }
  rewrite Hge. unfold is_u8 in Hb.
  destruct first; cbn [app].
  - cbn [mbind option_bind]. rewrite (dtoi_byte pre b tail i) by done.
    cbn [negb orb]. rewrite Z.gtb_ltb, (proj2 (Z.ltb_ge _ _)) by lia. done.
  - replace (Z.to_nat i) with (length pre) by (subst i; by rewrite to_nat_len).
    rewrite list_lookup_middle by done. cbn [mbind option_bind]. rewrite Z.eqb_refl. cbn [option_bind].
    change (pre ++ 46 :: char_codes (pretty b) ++ tail) with (pre ++ [46] ++ char_codes (pretty b) ++ tail).
    rewrite (app_assoc pre [46]). cbn [mbind option_bind].
    rewrite (dtoi_byte (pre ++ [46]) b tail (i + 1)) by (done || (lens; lia)).
    cbn [negb orb]. rewrite Z.gtb_ltb, (proj2 (Z.ltb_ge _ _)) by lia.
    by rewrite len_cons, Z.add_assoc.
Qed.

Lemma has_dot a b l : existsb (fun c => c =? 46) (a ++ 46 :: b ++ l) = true.
Proof. rewrite existsb_app. cbn. by rewrite orb_true_r. Qed.

Lemma parse_printed_octets b0 b1 b2 b3 : is_u8 b0 -> is_u8 b1 -> is_u8 b2 -> is_u8 b3 ->
  Util.convertAreaOrRouterId (pretty b0 +:+ "." +:+ pretty b1 +:+ "." +:+ pretty b2 +:+ "." +:+ pretty b3) =
  Some [b0; b1; b2; b3].
Proof.
  intros H0 H1 H2 H3. unfold Util.convertAreaOrRouterId, Util.parseIPFmt. rewrite !char_codes_app.
  change (char_codes ".") with [46].
  set (d0 := char_codes (pretty b0)). set (d1 := char_codes (pretty b1)).
  set (d2 := char_codes (pretty b2)). set (d3 := char_codes (pretty b3)).
  assert (E : d0 ++ [46] ++ d1 ++ [46] ++ d2 ++ [46] ++ d3 =
              d0 ++ [46] ++ d1 ++ [46] ++ d2 ++ [46] ++ d3 ++ []) by by rewrite app_nil_r.
  rewrite existsb_app. cbn [app existsb]. rewrite orb_true_r.
  change (d0 ++ 46 :: d1 ++ 46 :: d2 ++ 46 :: d3) with (d0 ++ [46] ++ d1 ++ [46] ++ d2 ++ [46] ++ d3).
  rewrite E.
  pose proof (octets_byte 3 true [] b0 ([46] ++ d1 ++ [46] ++ d2 ++ [46] ++ d3 ++ []) 0 H0 eq_refl eq_refl) as S0.
  pose proof (octets_byte 2 false d0 b1 ([46] ++ d2 ++ [46] ++ d3 ++ []) (0 + len d0) H1 eq_refl eq_refl) as S1.
  pose proof (octets_byte 1 false (d0 ++ [46] ++ d1) b2 ([46] ++ d3 ++ []) (0 + len d0 + len ([46] ++ d1)) H2 eq_refl
    ltac:(lens; lia)) as S2.
  pose proof (octets_byte 0 false (d0 ++ [46] ++ d1 ++ [46] ++ d2) b3 []
    (0 + len d0 + len ([46] ++ d1) + len ([46] ++ d2)) H3 I ltac:(lens; lia)) as S3.
  fold d0 in S0. fold d1 in S1. fold d2 in S2. fold d3 in S3.
  rewrite <- app_assoc in S2. rewrite <- !app_assoc in S3. cbn [app] in S0, S1, S2, S3 |- *.
  rewrite S0, S1, S2, S3. cbn [Util.octets mbind option_bind].
  rewrite (proj2 (Z.eqb_eq _ _)); [done|]. lens. lia.
Qed.

Lemma uint32_of_octets v : is_u32 v ->
  let p k := Z.land (Z.shiftr v k) 255 in
  is_u8 (p 24) /\ is_u8 (p 16) /\ is_u8 (p 8) /\ is_u8 (Z.land v 255) /\
  Util.convertIPv4ToUint32 [p 24; p 16; p 8; Z.land v 255] = Ok v.
Proof.
  intros Hv p. subst p. cbv beta.
  change 255 with (Z.ones 8). rewrite !Z.land_ones by lia. rewrite !Z.shiftr_div_pow2 by lia.
  change (2 ^ 8) with 256. change (2 ^ 24) with 16777216. change (2 ^ 16) with 65536.
  pose proof (be32_split v Hv) as Hs. unfold u8 in Hs.
  assert (Hm : forall x, is_u8 (x mod 256)) by (intros; apply u8_range).
  repeat (split; [apply Hm|]). unfold Util.convertIPv4ToUint32, sget. gocbn. rewrite !Z.shiftl_mul_pow2 by lia.
  change (2 ^ 8) with 256.
  pose proof (Hm (v / 16777216)). pose proof (Hm (v / 65536)). pose proof (Hm (v / 256)). pose proof (Hm v).
  unfold is_u8, is_u32 in *.
  rewrite (u32_id (0 + _)) by (unfold is_u32; lia). rewrite (u32_id (_ * 256 + (v / 65536) mod 256)) by (unfold is_u32; lia).
  rewrite (u32_id (_ * 256 + (v / 256) mod 256)) by (unfold is_u32; lia). rewrite u32_id by (unfold is_u32; lia).
  f_equal. lia.
Qed.

Lemma printed_identifier v : is_u32 v ->
  Util.convertAreaOrRouterIdUint32 (Util.convertUint32ToIPv4 v) = Ok v.
Proof.
  intros Hv. destruct (uint32_of_octets v Hv) as (H0 & H1 & H2 & H3 & Hc).
  unfold Util.convertAreaOrRouterIdUint32, Util.convertUint32ToIPv4. by rewrite parse_printed_octets.
Qed.

(** ** Facts about the Fletcher checksum *)

(** Congruence modulo 255. *)
Definition cong (a b : Z) : Prop := exists k, a = b + 255 * k.

#[global] Instance cong_equiv : Equivalence cong.
Proof.
  split.
  - intros a. by exists 0; lia.
  - intros a b [k ->]. exists (- k). lia.
  - intros a b c [k ->] [l ->]. exists (l + k). lia.
Qed.
#[global] Instance cong_add : Proper (cong ==> cong ==> cong) Z.add.
Proof. intros a b [k ->] c d [l ->]. exists (k + l). lia. Qed.
#[global] Instance cong_sub : Proper (cong ==> cong ==> cong) Z.sub.
Proof. intros a b [k ->] c d [l ->]. exists (k - l). lia. Qed.
#[global] Instance cong_mul n : Proper (cong ==> cong) (Z.mul n).
Proof. intros a b [k ->]. exists (n * k). lia. Qed.

Lemma cong_rem a : cong (Z.rem a 255) a.
Proof. exists (- Z.quot a 255). pose proof (Z.quot_rem' a 255). lia. Qed.

Lemma cong_small a : cong a 0 -> 0 <= a < 255 -> a = 0.
Proof. intros [k ->] H. lia. Qed.

(** The two sums of a text: each byte weighs as many as the bytes from it on. *)
Fixpoint sum0 (d : bytes) : Z := match d with [] => 0 | b :: d => b + sum0 d end.
Fixpoint sum1 (d : bytes) : Z := match d with [] => 0 | b :: d => (1 + len d) * b + sum1 d end.

Lemma sum0_app a b : sum0 (a ++ b) = sum0 a + sum0 b.
Proof. induction a as [|x a IH]; cbn; [done|]. rewrite IH. lia. Qed.
Lemma sum1_app a b : sum1 (a ++ b) = sum1 a + len b * sum0 a + sum1 b.
Proof. induction a as [|x a IH]; cbn; [lia|]. rewrite IH, len_app. lia. Qed.
Lemma sum0_nonneg d : bytes_ok d -> 0 <= sum0 d.
Proof. induction 1 as [|b d Hb _ IH]; cbn; [lia|]. unfold is_u8 in Hb. lia. Qed.

Lemma fletcher_block_sums d : forall c0 c1,
  Util.fletcher_block d c0 c1 = (c0 + sum0 d, c1 + len d * c0 + sum1 d).
Proof.
  induction d as [|b d IH]; intros c0 c1; cbn [Util.fletcher_block sum0 sum1]; lens; [f_equal; lia|].
  rewrite IH. f_equal; lia.
Qed.

Lemma sum1_nonneg d : bytes_ok d -> 0 <= sum1 d.
Proof. induction 1 as [|b d Hb _ IH]; cbn; [lia|]. unfold is_u8 in Hb. pose proof (len_nonneg d). nia. Qed.

Lemma fletcher_loop_sums : forall fuel d c0 c1,
  (length d <= fuel)%nat -> bytes_ok d -> 0 <= c0 < 255 -> 0 <= c1 < 255 ->
  exists e0 e1, Util.fletcher_loop fuel d c0 c1 = Ok (e0, e1) /\ 0 <= e0 < 255 /\ 0 <= e1 < 255 /\
    cong e0 (c0 + sum0 d) /\ cong e1 (c1 + len d * c0 + sum1 d).
Proof.
  induction fuel as [|fuel IH]; intros d c0 c1 Hf Hd H0 H1; (destruct d as [|b d];
    [exists c0, c1; repeat split; try lia; [exists 0; cbn; lia | exists 0; cbn; lens; lia]|]); [cbn in Hf; lia|].
  cbn [Util.fletcher_loop]. set (l := b :: d) in *. rewrite fletcher_block_sums.
  pose proof (take_drop Util.MODX l) as Hl. set (x := take Util.MODX l) in *. set (y := drop Util.MODX l) in *.
  assert (Hy : (length y <= fuel)%nat).
  { unfold y. rewrite length_drop. change Util.MODX with 4102%nat. cbn [length] in *. unfold l in *. cbn [length] in *. lia. }
  assert (bytes_ok x /\ bytes_ok y) as [Hx Hyb] by (apply bytes_ok_app; congruence).
  clearbody x y. pose proof (sum0_nonneg x Hx). pose proof (sum1_nonneg x Hx). pose proof (len_nonneg x).
  destruct (IH y (Z.rem (c0 + sum0 x) 255) (Z.rem (c1 + len x * c0 + sum1 x) 255)) as (e0 & e1 & -> & ? & ? & E0 & E1).
  { done. } { done. } { apply Z.rem_bound_pos; lia. } { apply Z.rem_bound_pos; nia. }
  exists e0, e1. split; [done|]. do 2 (split; [done|]). rewrite E0, E1, !cong_rem, <- Hl.
  rewrite sum0_app, sum1_app, len_app. split; [exists 0; lia | exists 0; lia].
Qed.

Lemma sum0_be16_0 p t : sum0 (p ++ [0; 0] ++ t) = sum0 p + sum0 t.
Proof. rewrite sum0_app. cbn. lia. Qed.

Lemma Fletcher_validate d : bytes_ok d -> 
  exists e0 e1, Util.computeFletcherChecksum d Util.FLETCHER_CHECKSUM_VALIDATE = Ok (d, e1 * 256 + e0) /\
    0 <= e0 < 255 /\ 0 <= e1 < 255 /\ cong e0 (sum0 d) /\ cong e1 (sum1 d).
Proof.
  intros Hd. unfold Util.computeFletcherChecksum. rewrite Z.eqb_refl. cbn [negb]. rewrite bind_Ok.
  destruct (fletcher_loop_sums (length d) d 0 0) as (e0 & e1 & -> & ? & ? & E0 & E1); [done|done|lia|lia|].
  exists e0, e1. rewrite bind_Ok, Z.shiftl_mul_pow2 by lia. change (2 ^ 8) with 256.
  rewrite u16_id by (unfold is_u16; lia). repeat split; try done; try lia.
  rewrite E1. exists 0. lia.
Qed.

Lemma lor_shift8 x y : 0 <= y < 256 -> Z.lor (Z.shiftl x 8) y = x * 256 + y.
Proof.
  intros Hy. assert (H : Z.land (Z.shiftl x 8) y = 0).
  { rewrite <- (Z.mod_small y (2 ^ 8)) by done. apply Z.bits_inj'. intros n Hn. rewrite Z.land_spec, Z.bits_0.
    destruct (decide (n < 8)); [rewrite Z.shiftl_spec_low by done; done|].
    by rewrite Z.mod_pow2_bits_high, andb_false_r by lia. }
  pose proof (Z.add_lor_land (Z.shiftl x 8) y) as E. rewrite H, Z.shiftl_mul_pow2 in E by lia.
  rewrite Z.shiftl_mul_pow2 by lia. change (2 ^ 8) with 256 in *. lia.
Qed.

(** The two bytes that make both sums vanish. *)
Lemma Fletcher_compute p a b t : bytes_ok p -> bytes_ok t -> len p <> 65535 ->
  exists x y, Util.computeFletcherChecksum (p ++ [a; b] ++ t) (len p) = Ok (p ++ [0; 0] ++ t, x * 256 + y) /\
    1 <= x <= 255 /\ 1 <= y <= 255 /\
    bytes_ok (p ++ [x; y] ++ t) /\ cong (sum0 (p ++ [x; y] ++ t)) 0 /\ cong (sum1 (p ++ [x; y] ++ t)) 0.
Proof.
  intros Hp Ht Hl. unfold Util.computeFletcherChecksum.
  rewrite (proj2 (Z.eqb_neq _ _)) by done. cbn [negb]. rewrite PutUint16_app, bind_Ok by done.
  change (be16 0) with [0; 0]. set (d := p ++ [0; 0] ++ t).
  assert (Hd : bytes_ok d).
  { unfold d. rewrite !bytes_ok_app. repeat split; [done| |done]. repeat constructor; unfold is_u8; lia. }
  destruct (fletcher_loop_sums (length d) d 0 0) as (c0 & c1 & -> & H0 & H1 & E0 & E1); [done|done|lia|lia|].
  rewrite bind_Ok. set (r := Z.rem _ 255).
  assert (Hr : - 255 < r < 255).
  { subst r. pose proof (Z.rem_bound_abs ((len d - len p - 1) * c0 - c1) 255 ltac:(lia)). lia. }
  assert (Er : cong r ((len d - len p - 1) * c0 - c1)) by apply cong_rem. clearbody r.
  set (x := if r <=? 0 then r + 255 else r).
  assert (1 <= x <= 255 /\ cong x r) as [Hx Ex].
  { unfold x. destruct (r <=? 0) eqn:?; zhyp; (split; [lia|]); [exists 1 | exists 0]; lia. }
  clearbody x. set (y := if 510 - c0 - x >? 255 then 510 - c0 - x - 255 else 510 - c0 - x).
  assert (1 <= y <= 255 /\ cong y (0 - c0 - x)) as [Hy Ey].
  { unfold y. destruct (_ >? _) eqn:?; zhyp; (split; [lia|]); [exists 1 | exists 2]; lia. }
  clearbody y. exists x, y. split; [|split; [done|split; [done|]]].
  - f_equal. f_equal. change 255 with (Z.ones 8) at 1. rewrite Z.land_ones, Z.mod_small by lia.
    rewrite lor_shift8 by lia. apply u16_id. unfold is_u16. lia.
  - split.
    { rewrite !bytes_ok_app. repeat split; [done| |done]. repeat constructor; unfold is_u8; lia. }
    assert (E : sum0 d = sum0 p + sum0 t /\ sum1 d = sum1 p + len p * 0 + (2 + len t) * sum0 p + sum1 t).
    { unfold d. rewrite sum0_app, !sum1_app. cbn. lens. split; [|unfold len; cbn]; lia. }
    assert (El : len d = len p + 2 + len t) by (unfold d; lens; lia).
    rewrite !sum0_app, !sum1_app. cbn [sum0 sum1]. lens.
    destruct E as [F0 F1]. rewrite F0 in E0. rewrite F1 in E1. rewrite El in E1, Er. clear F0 F1 El Hd. clear d.
    set (n := len t) in *. set (m := len p) in *. clearbody n m.
    clear Hp Ht Hl. set (s0 := sum0 p) in *. set (t0 := sum0 t) in *. set (s1 := sum1 p) in *. set (t1 := sum1 t) in *.
    clearbody s0 t0 s1 t1.
    destruct E0 as [k0 E0], E1 as [k1 E1], Er as [k2 Er], Ex as [k3 Ex], Ey as [k4 Ey]. split.
    + exists (k4 - k0). lia.
    + exists (k2 + k3 - k1 + (n + 1) * k4). unfold len in *. cbn [length] in *. nia.
Qed.

Lemma Fletcher_zero d : bytes_ok d -> cong (sum0 d) 0 -> cong (sum1 d) 0 ->
  Util.computeFletcherChecksum d Util.FLETCHER_CHECKSUM_VALIDATE = Ok (d, 0).
Proof.
  intros Hd H0 H1. destruct (Fletcher_validate d Hd) as (e0 & e1 & -> & ? & ? & E0 & E1).
  rewrite (cong_small e0), (cong_small e1); [done|..]; try done; by etransitivity.
Qed.

(** Zeros after a text whose sums vanish change nothing. *)
Lemma sums_padded d k : cong (sum0 d) 0 -> cong (sum1 d) 0 ->
  cong (sum0 (d ++ make k)) 0 /\ cong (sum1 (d ++ make k)) 0.
Proof.
  assert (Z0 : sum0 (make k) = 0 /\ sum1 (make k) = 0).
  { unfold make. induction (Z.to_nat k) as [|n [IH0 IH1]]; cbn [replicate sum0 sum1]; [done|]. rewrite IH0, IH1. lia. }
  destruct Z0 as [Z0 Z1]. rewrite sum0_app, sum1_app, Z0, Z1. intros [i ->] [j ->]. split.
  - exists i. lia.
  - exists (j + len (make k) * i). lia.
Qed.
