(* ===== verification/OspfLsa.v ===== *)
(** Link state advertisements of the OSPF daemon: their data and their codecs. *)
From stdpp Require Import base numbers list strings gmap countable.
From Stdlib Require Import ZArith Lia.
From S2P Require Import Prelude GoNet OspfUtil.
Open Scope Z_scope.

(** ** Data *)

Definition RouterLSA : Z := 1.
Definition NetworkLSA : Z := 2.
Definition Summary3LSA : Z := 3.
Definition Summary4LSA : Z := 4.
Definition ASExternalLSA : Z := 5.

Record LsaKey := {
  LSType : Z;
  LSId : Z;
  AdvRouter : Z;
}.
#[global] Instance LsaKey_eq_dec : EqDecision LsaKey.
Proof. solve_decision. Defined.
#[global] Instance LsaKey_countable : Countable LsaKey.
Proof.
  refine (inj_countable' (fun k => (LSType k, LSId k, AdvRouter k))
    (fun '(t, i, r) => {| LSType := t; LSId := i; AdvRouter := r |}) _).
  by intros [].
Defined.

Record TOSDetail := {
  TOS : Z;
  TOSMetric : Z;
}.
Record LinkDetail := {
  LinkId : Z;
  LinkData : Z;
  LinkType : Z;
  NumOfTOS : Z;   (** uint8 *)
  LinkMetric : Z;
  TOSDetails : list TOSDetail;
}.
Record LsaMetadata := {
  LSAge : Z;
  Options : Z;
  LSSequenceNum : Z;   (** int, of 64 bits *)
  LSChecksum : Z;
  LSLen : Z;
}.
Record LsaHeader := {
  H_LSAge : Z;
  H_Options : Z;
  H_LSType : Z;
  H_LinkId : Z;
  H_Adv_router : Z;
  H_LSSequenceNum : Z;
  H_LSChecksum : Z;
  H_length : Z;
}.
(** LS type 1 *)
Record RouterLsa := {
  R_LsaMd : LsaMetadata;
  R_BitV : bool;
  R_BitE : bool;
  R_BitB : bool;
  NumOfLinks : Z;
  LinkDetails : list LinkDetail;
}.
(** LS type 2 *)
Record NetworkLsa := {
  N_LsaMd : LsaMetadata;
  N_Netmask : Z;
  AttachedRtr : list Z;
}.
(** LS types 3 and 4 *)
Record SummaryTOSDetail := {
  S_TOS : Z;
  S_TOSMetric : Z;
}.
Record SummaryLsa := {
  S_LsaMd : LsaMetadata;
  S_Netmask : Z;
  S_Metric : Z;
  SummaryTOSDetails : list SummaryTOSDetail;
}.
(** LS type 5 *)
Record ASExtTOSDetail := {
  X_BitE : bool;
  X_TOS : Z;
  X_TOSMetric : Z;
  TOSFwdAddr : Z;
  TOSExtRouteTag : Z;
}.
Record ASExternalLsa := {
  E_LsaMd : LsaMetadata;
  E_Netmask : Z;
  E_BitE : bool;
  E_Metric : Z;
  FwdAddr : Z;
  ExtRouteTag : Z;
  ASExtTOSDetails : list ASExtTOSDetail;
}.

(** Assignments to fields. *)
Definition set_LSAge (v : Z) (m : LsaMetadata) : LsaMetadata :=
  {| LSAge := v; Options := Options m; LSSequenceNum := LSSequenceNum m; LSChecksum := LSChecksum m; LSLen
     := LSLen m |}.
Definition set_Options (v : Z) (m : LsaMetadata) : LsaMetadata :=
  {| LSAge := LSAge m; Options := v; LSSequenceNum := LSSequenceNum m; LSChecksum := LSChecksum m; LSLen
     := LSLen m |}.
Definition set_LSSequenceNum (v : Z) (m : LsaMetadata) : LsaMetadata :=
  {| LSAge := LSAge m; Options := Options m; LSSequenceNum := v; LSChecksum := LSChecksum m; LSLen :=
     LSLen m |}.
Definition set_LSChecksum (v : Z) (m : LsaMetadata) : LsaMetadata :=
  {| LSAge := LSAge m; Options := Options m; LSSequenceNum := LSSequenceNum m; LSChecksum := v; LSLen :=
     LSLen m |}.
Definition set_LSLen (v : Z) (m : LsaMetadata) : LsaMetadata :=
  {| LSAge := LSAge m; Options := Options m; LSSequenceNum := LSSequenceNum m; LSChecksum := LSChecksum m;
     LSLen := v |}.
Definition set_R_LsaMd (v : LsaMetadata) (l : RouterLsa) : RouterLsa :=
  {| R_LsaMd := v; R_BitV := R_BitV l; R_BitE := R_BitE l; R_BitB := R_BitB l; NumOfLinks := NumOfLinks l;
     LinkDetails := LinkDetails l |}.
Definition set_N_LsaMd (v : LsaMetadata) (l : NetworkLsa) : NetworkLsa :=
  {| N_LsaMd := v; N_Netmask := N_Netmask l; AttachedRtr := AttachedRtr l |}.
Definition set_S_LsaMd (v : LsaMetadata) (l : SummaryLsa) : SummaryLsa :=
  {| S_LsaMd := v; S_Netmask := S_Netmask l; S_Metric := S_Metric l; SummaryTOSDetails :=
     SummaryTOSDetails l |}.
Definition set_E_LsaMd (v : LsaMetadata) (l : ASExternalLsa) : ASExternalLsa :=
  {| E_LsaMd := v; E_Netmask := E_Netmask l; E_BitE := E_BitE l; E_Metric := E_Metric l; FwdAddr :=
     FwdAddr l; ExtRouteTag := ExtRouteTag l; ASExtTOSDetails := ASExtTOSDetails l |}.

(** The zero values of Go, which the [New...] functions return. *)
Definition NewLsaKey : LsaKey := {| LSType := 0; LSId := 0; AdvRouter := 0 |}.
Definition zero_md : LsaMetadata := {| LSAge := 0; Options := 0; LSSequenceNum := 0; LSChecksum := 0; LSLen := 0 |}.
Definition NewRouterLsa : RouterLsa :=
  {| R_LsaMd := zero_md; R_BitV := false; R_BitE := false; R_BitB := false; NumOfLinks := 0; LinkDetails := [] |}.
Definition NewNetworkLsa : NetworkLsa := {| N_LsaMd := zero_md; N_Netmask := 0; AttachedRtr := [] |}.
Definition NewSummaryLsa : SummaryLsa :=
  {| S_LsaMd := zero_md; S_Netmask := 0; S_Metric := 0; SummaryTOSDetails := [] |}.
Definition NewASExternalLsa : ASExternalLsa :=
  {| E_LsaMd := zero_md; E_Netmask := 0; E_BitE := false; E_Metric := 0; FwdAddr := 0; ExtRouteTag := 0;
     ASExtTOSDetails := [] |}.

Definition InitialSequenceNumber : Z := 2147483649.
Definition MaxSequenceNumber : Z := 2147483647.
Definition LSA_MAX_AGE : Z := 32767.
Definition LSA_MAX_AGE_DIFF : Z := 32767.
Definition OSPF_LSA_HEADER_SIZE : Z := 20.

Definition P2PLink : Z := 1.
Definition TransitLink : Z := 2.
Definition StubLink : Z := 3.
Definition VirtualLink : Z := 4.

(** ** Reading and writing parts of a slice *)

Definition u16_at (s : bytes) (i : Z) : go Z := t ← slice s i (i + 2); Uint16 t.
Definition u32_at (s : bytes) (i : Z) : go Z := t ← slice s i (i + 4); Uint32 t.

(** [copy(dst[i:j], src)] *)
Definition copy_to (dst : bytes) (i j : Z) (src : bytes) : go bytes :=
  _ ← slice (E := Empty_set) dst i j;
  gocopy dst i (take (Z.to_nat (j - i)) src).

(** [l[i]] for a slice of structs *)
Definition nth_go {E A} (l : list A) (i : nat) : outcome E A := match l !! i with Some x => Ok x | None => Panic end.

(** ** The header *)

Definition encodeLsaHeader (lsaMd : LsaMetadata) (lsakey : LsaKey) : bytes :=
  be16 (LSAge lsaMd) ++ [Options lsaMd; LSType lsakey] ++ be32 (LSId lsakey) ++ be32 (AdvRouter lsakey) ++
  be32 (u32 (LSSequenceNum lsaMd)) ++ [0; 0] ++ be16 (LSLen lsaMd).

Definition decodeLsaHeader (data : bytes) : go LsaHeader :=
  age ← u16_at data 0; options ← sget data 2; type ← sget data 3;
  id ← u32_at data 4; adv ← u32_at data 8; seq ← u32_at data 12;
  checksum ← u16_at data 16; length ← u16_at data 18;
  Ok {| H_LSAge := age; H_Options := options; H_LSType := type; H_LinkId := id; H_Adv_router := adv;
        H_LSSequenceNum := seq; H_LSChecksum := checksum; H_length := length |}.

(** The first statements of the decoders of LSAs. *)
Definition decode_md (data : bytes) : go (LsaMetadata * LsaKey) :=
  age ← u16_at data 0; options ← sget data 2; type ← sget data 3;
  id ← u32_at data 4; adv ← u32_at data 8; seq ← u32_at data 12;
  checksum ← u16_at data 16; length ← u16_at data 18;
  Ok ({| LSAge := age; Options := options; LSSequenceNum := seq; LSChecksum := checksum; LSLen := length |},
      {| LSType := type; LSId := id; AdvRouter := adv |}).

(** ** Router LSAs *)

Definition decode_tos (data : bytes) (j : nat) (st : list TOSDetail * Z) : go (list TOSDetail * Z) :=
  let '(tos, start) := st in
  let t := u8 start in
  let start := start + 2 in
  metric ← u16_at data start;
  Ok (tos ++ [{| TOS := t; TOSMetric := metric |}], start + 2).

Definition decode_link (data : bytes) (i : nat) (st : list LinkDetail * Z) : go (list LinkDetail * Z) :=
  let '(links, start) := st in
  id ← u32_at data start; let start := start + 4 in
  ldata ← u32_at data start; let start := start + 4 in
  type ← sget data start; let start := start + 1 in
  numOfTOS ← sget data start; let start := start + 1 in
  metric ← u16_at data start; let start := start + 2 in
  '(tos, start) ← for_upto (Z.to_nat numOfTOS) 0 (decode_tos data) ([], start);
  Ok (links ++ [{| LinkId := id; LinkData := ldata; LinkType := type; NumOfTOS := numOfTOS;
                   LinkMetric := metric; TOSDetails := tos |}], start).

Definition decodeRouterLsa (data : bytes) : go (RouterLsa * LsaKey) :=
  '(md, key) ← decode_md data;
  bits ← sget data 20;
  numOfLinks ← u16_at data 22;
  '(links, _) ← for_upto (Z.to_nat numOfLinks) 0 (decode_link data) ([], 24);
  Ok ({| R_LsaMd := md; R_BitV := negb (Z.land bits 4 =? 0); R_BitE := negb (Z.land bits 2 =? 0);
         R_BitB := negb (Z.land bits 1 =? 0); NumOfLinks := numOfLinks; LinkDetails := links |}, key).

Definition encode_tos (lDetail : LinkDetail) (i : nat) (st : bytes * Z) : go (bytes * Z) :=
  let '(lData, start) := st in
  let stop := start + 4 in
  d ← nth_go (TOSDetails lDetail) i;
  lData ← sset lData start (TOS d);
  lData ← PutUint16 lData (start + 2) (TOSMetric d);
  Ok (lData, stop).

Definition encodeLinkData (lDetail : LinkDetail) (length : Z) : go bytes :=
  let lData := make length in
  lData ← PutUint32 lData 0 (LinkId lDetail);
  lData ← PutUint32 lData 4 (LinkData lDetail);
  lData ← sset lData 8 (LinkType lDetail);
  lData ← sset lData 9 (NumOfTOS lDetail);
  lData ← PutUint16 lData 10 (LinkMetric lDetail);
  '(lData, _) ← for_upto (Z.to_nat (NumOfTOS lDetail)) 0 (encode_tos lDetail) (lData, 12);
  Ok lData.

(** The size of a link is computed in 8 bits. *)
Definition encode_link (lsa : RouterLsa) (i : nat) (st : bytes * Z) : go (bytes * Z) :=
  let '(rtrLsa, start) := st in
  link ← nth_go (LinkDetails lsa) i;
  let size := u8 (12 + u8 (4 * NumOfTOS link)) in
  let stop := start + size in
  linkData ← encodeLinkData link size;
  rtrLsa ← copy_to rtrLsa start stop linkData;
  Ok (rtrLsa, stop).

Definition encodeRouterLsa (lsa : RouterLsa) (lsakey : LsaKey) : go bytes :=
  let rtrLsa := make (LSLen (R_LsaMd lsa)) in
  rtrLsa ← copy_to rtrLsa 0 20 (encodeLsaHeader (R_LsaMd lsa) lsakey);
  let val := 0 in
  let val := if R_BitV lsa then Z.lor val 4 else val in
  let val := if R_BitE lsa then Z.lor val 2 else val in
  let val := if R_BitB lsa then Z.lor val 1 else val in
  rtrLsa ← sset rtrLsa 20 val;
  rtrLsa ← PutUint16 rtrLsa 22 (NumOfLinks lsa);
  '(rtrLsa, _) ← for_upto (Z.to_nat (NumOfLinks lsa)) 0 (encode_link lsa) (rtrLsa, 24);
  Ok rtrLsa.

(** ** Network LSAs *)

Definition encode_attached (lsa : NetworkLsa) (i : nat) (st : bytes * Z) : go (bytes * Z) :=
  let '(nLsa, start) := st in
  let stop := start + 4 in
  rtr ← nth_go (AttachedRtr lsa) i;
  nLsa ← PutUint32 nLsa start rtr;
  Ok (nLsa, stop).

(** The empty list stands for nil. *)
Definition encodeNetworkLsa (lsa : NetworkLsa) (lsakey : LsaKey) : go bytes :=
  if LSLen (N_LsaMd lsa) =? 0 then Ok []
  else
    let nLsa := make (LSLen (N_LsaMd lsa)) in
    nLsa ← copy_to nLsa 0 20 (encodeLsaHeader (N_LsaMd lsa) lsakey);
    nLsa ← PutUint32 nLsa 20 (N_Netmask lsa);
    let numOfAttachedRtr := Z.quot (LSLen (N_LsaMd lsa) - OSPF_LSA_HEADER_SIZE - 4) 4 in
    '(nLsa, _) ← for_upto (Z.to_nat numOfAttachedRtr) 0 (encode_attached lsa) (nLsa, 24);
    Ok nLsa.

Definition decode_attached (data : bytes) (i : nat) (st : list Z * Z) : go (list Z * Z) :=
  let '(rtrs, start) := st in
  rtr ← u32_at data start;
  Ok (rtrs ++ [rtr], start + 4).

Definition decodeNetworkLsa (data : bytes) : go (NetworkLsa * LsaKey) :=
  '(md, key) ← decode_md data;
  netmask ← u32_at data 20;
  let numOfAttachedRtr := Z.quot (LSLen md - OSPF_LSA_HEADER_SIZE - 4) 4 in
  if numOfAttachedRtr <? 0 then Panic
  else
    '(rtrs, _) ← for_upto (Z.to_nat numOfAttachedRtr) 0 (decode_attached data) ([], 24);
    Ok ({| N_LsaMd := md; N_Netmask := netmask; AttachedRtr := rtrs |}, key).

(** ** Summary LSAs *)

Definition encode_summary_tos (lsa : SummaryLsa) (i : nat) (st : bytes * Z) : go (bytes * Z) :=
  let '(sLsa, start) := st in
  let stop := start + 4 in
  d ← nth_go (SummaryTOSDetails lsa) i;
  let temp := u32 (Z.shiftl (S_TOS d) 24) in
  let temp := Z.lor temp (S_TOSMetric d) in
  sLsa ← PutUint32 sLsa start temp;
  Ok (sLsa, stop).

Definition encodeSummaryLsa (lsa : SummaryLsa) (lsakey : LsaKey) : go bytes :=
  let sLsa := make (LSLen (S_LsaMd lsa)) in
  sLsa ← copy_to sLsa 0 20 (encodeLsaHeader (S_LsaMd lsa) lsakey);
  sLsa ← PutUint32 sLsa 20 (S_Netmask lsa);
  sLsa ← PutUint32 sLsa 24 (S_Metric lsa);
  let numOfTOS := Z.quot (LSLen (S_LsaMd lsa) - OSPF_LSA_HEADER_SIZE - 8) 8 in
  if numOfTOS <=? 0 then Ok sLsa
  else
    '(sLsa, _) ← for_upto (Z.to_nat numOfTOS) 0 (encode_summary_tos lsa) (sLsa, 28);
    Ok sLsa.

Definition decode_summary_tos (data : bytes) (i : nat) (st : list SummaryTOSDetail * Z)
  : go (list SummaryTOSDetail * Z) :=
  let '(tos, start) := st in
  temp ← u32_at data start;
  Ok (tos ++ [{| S_TOS := u8 (Z.shiftr (Z.lor 4278190080 temp) 24); S_TOSMetric := Z.lor 16777215 temp |}], start + 4).

Definition decodeSummaryLsa (data : bytes) : go (SummaryLsa * LsaKey) :=
  '(md, key) ← decode_md data;
  netmask ← u32_at data 20;
  temp ← u32_at data 24;
  let metric := Z.land 16777215 temp in
  let numOfTOS := Z.quot (LSLen md - OSPF_LSA_HEADER_SIZE - 8) 8 in
  if numOfTOS <=? 0 then
    Ok ({| S_LsaMd := md; S_Netmask := netmask; S_Metric := metric; SummaryTOSDetails := [] |}, key)
  else
    '(tos, _) ← for_upto (Z.to_nat numOfTOS) 0 (decode_summary_tos data) ([], 28);
    Ok ({| S_LsaMd := md; S_Netmask := netmask; S_Metric := metric; SummaryTOSDetails := tos |}, key).

(** ** AS external LSAs *)

Definition encode_ext_tos (lsa : ASExternalLsa) (i : nat) (st : bytes * Z) : go (bytes * Z) :=
  let '(eLsa, start) := st in
  d ← nth_go (ASExtTOSDetails lsa) i;
  let temp := if X_BitE d then 2147483648 else 0 in
  let temp := Z.lor (Z.lor temp (u32 (Z.shiftl (X_TOS d) 24))) (X_TOSMetric d) in
  eLsa ← PutUint32 eLsa start temp; let start := start + 4 in
  eLsa ← PutUint32 eLsa start (TOSFwdAddr d); let start := start + 4 in
  eLsa ← PutUint32 eLsa start (TOSExtRouteTag d); let start := start + 4 in
  Ok (eLsa, start).

Definition encodeASExternalLsa (lsa : ASExternalLsa) (lsakey : LsaKey) : go bytes :=
  let eLsa := make (LSLen (E_LsaMd lsa)) in
  eLsa ← copy_to eLsa 0 20 (encodeLsaHeader (E_LsaMd lsa) lsakey);
  eLsa ← PutUint32 eLsa 20 (E_Netmask lsa);
  let temp := if E_BitE lsa then 2147483648 else 0 in
  let temp := Z.lor temp (E_Metric lsa) in
  eLsa ← PutUint32 eLsa 24 temp;
  eLsa ← PutUint32 eLsa 28 (FwdAddr lsa);
  eLsa ← PutUint32 eLsa 32 (ExtRouteTag lsa);
  let numOfTOS := Z.quot (LSLen (E_LsaMd lsa) - OSPF_LSA_HEADER_SIZE - 16) 8 in
  '(eLsa, _) ← for_upto (Z.to_nat numOfTOS) 0 (encode_ext_tos lsa) (eLsa, 36);
  Ok eLsa.

Definition decode_ext_tos (data : bytes) (i : nat) (st : list ASExtTOSDetail * Z) : go (list ASExtTOSDetail * Z) :=
  let '(tos, start) := st in
  temp ← u32_at data start; let start := start + 4 in
  fwd ← u32_at data start; let start := start + 4 in
  tag ← u32_at data start; let start := start + 4 in
  Ok (tos ++ [{| X_BitE := negb (Z.land temp 2147483648 =? 0);
                 X_TOS := u8 (Z.shiftr (Z.land temp 2130706432) 24); X_TOSMetric := Z.lor 16777215 temp;
                 TOSFwdAddr := fwd; TOSExtRouteTag := tag |}], start).

Definition decodeASExternalLsa (data : bytes) : go (ASExternalLsa * LsaKey) :=
  '(md, key) ← decode_md data;
  netmask ← u32_at data 20;
  e ← sget data 24;
  temp ← u32_at data 24;
  fwd ← u32_at data 28;
  tag ← u32_at data 32;
  let numOfTOS := Z.quot (LSLen md - OSPF_LSA_HEADER_SIZE - 16) 8 in
  if numOfTOS <? 0 then Panic
  else
    '(tos, _) ← for_upto (Z.to_nat numOfTOS) 0 (decode_ext_tos data) ([], 36);
    Ok ({| E_LsaMd := md; E_Netmask := netmask; E_BitE := negb (e =? 0); E_Metric := Z.land 16777215 temp;
           FwdAddr := fwd; ExtRouteTag := tag; ASExtTOSDetails := tos |}, key).

(** ** The checksum

    What the senders of LSAs do with what an encoder returned: [pkt[2:]] shares its array with [pkt]. *)
Definition install_checksum (LsaEnc : bytes) : go bytes :=
  s ← slice_from LsaEnc 2;
  '(s, checkSum) ← Util.computeFletcherChecksum s 14;
  PutUint16 (take 2 LsaEnc ++ s) 16 checkSum.

(** The checksum that the generators of LSAs store. *)
Definition lsa_checksum (LsaEnc : bytes) : go Z :=
  s ← slice_from LsaEnc 2;
  '(_, checkSum) ← Util.computeFletcherChecksum s 14;
  Ok checkSum.

Definition validateChecksum (data : bytes) : go bool :=
  s ← slice_from data 2;
  '(_, csum) ← Util.computeFletcherChecksum s Util.FLETCHER_CHECKSUM_VALIDATE;
  Ok (csum =? 0).
