(* ===== verification/OspfLsaFacts.v ===== *)
(** Facts about LSAs: what is flooded is accepted and read back; what the decoders lose; what they do on
    malformed bytes. *)
From stdpp Require Import base numbers list strings gmap.
From Stdlib Require Import ZArith Lia.
From S2P Require Import Prelude GoNet OspfUtil OspfLsa.
Open Scope Z_scope.

(** ** Reading fields *)

Lemma u16_at_app p v t i : i = len p -> is_u16 v -> u16_at (p ++ be16 v ++ t) i = Ok v.
Proof.
  intros -> Hv. unfold u16_at. rewrite (slice_app p (be16 v) t) by done. rewrite bind_Ok.
  rewrite <- (app_nil_r (be16 v)). by apply Uint16_be16.
Qed.
Lemma u32_at_app p v t i : i = len p -> is_u32 v -> u32_at (p ++ be32 v ++ t) i = Ok v.
Proof.
  intros -> Hv. unfold u32_at. rewrite (slice_app p (be32 v) t) by done. rewrite bind_Ok.
  rewrite <- (app_nil_r (be32 v)). by apply Uint32_be32.
Qed.

Lemma u16_at_eq p v t d i : d = p ++ be16 v ++ t -> i = len p -> is_u16 v -> u16_at d i = Ok v.
Proof. intros ->. apply u16_at_app. Qed.
Lemma u32_at_eq p v t d i : d = p ++ be32 v ++ t -> i = len p -> is_u32 v -> u32_at d i = Ok v.
Proof. intros ->. apply u32_at_app. Qed.

(** Read the field [v] of [d], which [p] precedes and [t] follows. *)
Ltac field := first [assumption | done | by rewrite <- ?app_assoc | (lens; lia) | (unfold is_u16; lia)].
Ltac rd16 p v t d i := rewrite (u16_at_eq p v t d i) by field.
Ltac rd32 p v t d i := rewrite (u32_at_eq p v t d i) by field.

(** ** Loops *)

(** Items of a constant size, written one after the other into zeros. *)
Section items.
Context {X : Type} (w : X -> bytes) (good : X -> Prop) (k : Z).

Lemma encode_items (body : nat -> bytes * Z -> go (bytes * Z)) (xs : list X) :
  0 <= k -> (forall x, good x -> len (w x) = k) ->
  (forall i x pre post, xs !! i = Some x -> good x ->
     body i (pre ++ make k ++ post, len pre) = Ok (pre ++ w x ++ post, len pre + k)) ->
  Forall good xs -> forall pre post,
  for_upto (length xs) 0 body (pre ++ make (k * len xs) ++ post, len pre) =
  Ok (pre ++ concat (w <$> xs) ++ post, len pre + k * len xs).
Proof.
  intros Hk Hw Hbody Hg.
  enough (H : forall ys zs, xs = zs ++ ys -> forall pre post,
    for_upto (length ys) (length zs) body (pre ++ make (k * len ys) ++ post, len pre) =
    Ok (pre ++ concat (w <$> ys) ++ post, len pre + k * len ys)) by (intros; by apply (H xs [])).
  induction ys as [|y ys IH]; intros zs -> pre post.
  { cbn. rewrite len_nil, Z.mul_0_r, Z.add_0_r. done. }
  cbn [length for_upto fmap list_fmap concat]. rewrite len_cons.
  pose proof (len_nonneg ys). replace (k * (1 + len ys)) with (k + k * len ys) by lia.
  rewrite make_add by nia. rewrite <- !app_assoc.
  rewrite (Hbody (length zs) y) by (by rewrite ?list_lookup_middle || (apply Forall_app in Hg as [_ Hg]; by inversion Hg)).
  rewrite bind_Ok. assert (Hy : good y) by (apply Forall_app in Hg as [_ Hg]; by inversion Hg).
  replace (S (length zs)) with (length (zs ++ [y])) by (rewrite length_app; cbn; lia).
  rewrite (app_assoc pre (w y)). replace (len pre + k) with (len (pre ++ w y)) by (rewrite len_app, Hw; done).
  rewrite IH by by rewrite <- app_assoc. rewrite <- app_assoc. do 2 f_equal. rewrite len_app, Hw by done. lia.
Qed.

Lemma decode_items (data : bytes) (body : nat -> list X * Z -> go (list X * Z)) (xs : list X) :
  (forall x, good x -> len (w x) = k) ->
  (forall i x acc pre post, good x -> data = pre ++ w x ++ post ->
     body i (acc, len pre) = Ok (acc ++ [x], len pre + k)) ->
  Forall good xs -> forall i pre post acc,
  data = pre ++ concat (w <$> xs) ++ post ->
  for_upto (length xs) i body (acc, len pre) = Ok (acc ++ xs, len pre + k * len xs).
Proof.
  intros Hw Hbody. induction 1 as [|x xs Hx _ IH]; intros i pre post acc Hd; cbn.
  { rewrite len_nil, Z.mul_0_r, Z.add_0_r, app_nil_r. done. }
  cbn in Hd. rewrite <- app_assoc in Hd.
  rewrite (Hbody i x acc pre (concat (w <$> xs) ++ post)) by done.
  rewrite bind_Ok. replace (len pre + k) with (len (pre ++ w x)) by (rewrite len_app, Hw; done).
  rewrite (IH (S i) (pre ++ w x) post) by (by rewrite <- ?app_assoc).
  rewrite <- app_assoc. do 2 f_equal. rewrite len_app, len_cons, Hw by done. lia.
Qed.
End items.

(** ** The header on the wire *)

Definition header_wire (cs : Z) (md : LsaMetadata) (key : LsaKey) : bytes :=
  be16 (LSAge md) ++ [Options md; LSType key] ++ be32 (LSId key) ++ be32 (AdvRouter key) ++
  be32 (LSSequenceNum md) ++ be16 cs ++ be16 (LSLen md).

(** An LSA of [n] bytes whose fields fit theirs. *)
Record header_good (n : Z) (md : LsaMetadata) (key : LsaKey) : Prop := {
  good_age : is_u16 (LSAge md);
  good_options : is_u8 (Options md);
  good_seq : is_u32 (LSSequenceNum md);
  good_len : LSLen md = n;
  good_type : is_u8 (LSType key);
  good_id : is_u32 (LSId key);
  good_adv : is_u32 (AdvRouter key);
}.

Lemma len_header cs md key : len (header_wire cs md key) = 20.
Proof. reflexivity. Qed.

Lemma encode_header n md key : header_good n md key -> encodeLsaHeader md key = header_wire 0 md key.
Proof. intros []. unfold encodeLsaHeader, header_wire. by rewrite u32_id. Qed.

Lemma header_ok cs n md key : header_good n md key -> bytes_ok (header_wire cs md key).
Proof.
  intros []. unfold header_wire. rewrite !bytes_ok_app.
  repeat split; auto with wire. unfold bytes_ok. auto.
Qed.

Lemma decode_header cs n md key rest : header_good n md key -> 0 <= n < 65536 -> is_u16 cs ->
  decode_md (header_wire cs md key ++ rest) = Ok (set_LSChecksum cs md, key).
Proof.
  intros [] Hn Hcs. unfold header_wire, decode_md. rewrite <- !app_assoc.
  assert (is_u16 (LSLen md)) by (unfold is_u16; lia).
  set (a := be16 (LSAge md)). set (o := [Options md; LSType key]). set (i := be32 (LSId key)).
  set (r := be32 (AdvRouter key)). set (q := be32 (LSSequenceNum md)). set (c := be16 cs). set (n' := be16 (LSLen md)).
  set (d := a ++ o ++ _).
  rewrite (u16_at_eq [] (LSAge md) (o ++ i ++ r ++ q ++ c ++ n' ++ rest) d 0) by done.
  change (sget d 2) with (Ok (E := Empty_set) (Options md)).
  change (sget d 3) with (Ok (E := Empty_set) (LSType key)). rewrite !bind_Ok.
  rewrite (u32_at_eq (a ++ o) (LSId key) (r ++ q ++ c ++ n' ++ rest) d 4) by done.
  rewrite (u32_at_eq (a ++ o ++ i) (AdvRouter key) (q ++ c ++ n' ++ rest) d 8) by done.
  rewrite (u32_at_eq (a ++ o ++ i ++ r) (LSSequenceNum md) (c ++ n' ++ rest) d 12) by done.
  rewrite (u16_at_eq (a ++ o ++ i ++ r ++ q) cs (n' ++ rest) d 16) by done.
  rewrite (u16_at_eq (a ++ o ++ i ++ r ++ q ++ c) (LSLen md) rest d 18) by done.
  rewrite !bind_Ok.
  destruct md, key; done.
Qed.

Lemma copy_header hdr t : len hdr = 20 ->
  copy_to (make 20 ++ t) 0 20 hdr = Ok (hdr ++ t).
Proof.
  intros Hh. unfold copy_to. rewrite (slice_0 (make 20) t) by done. rewrite bind_Ok.
  rewrite take_ge by (unfold len in Hh; lia).
  apply (gocopy_app [] (make 20) t hdr); [done|]. unfold len in Hh. rewrite length_make. lia.
Qed.

(** ** Router LSAs without types of service *)

Record link_good (l : LinkDetail) : Prop := {
  good_LinkId : is_u32 (LinkId l);
  good_LinkData : is_u32 (LinkData l);
  good_LinkType : is_u8 (LinkType l);
  good_NumOfTOS : NumOfTOS l = 0;
  good_LinkMetric : is_u16 (LinkMetric l);
  good_TOSDetails : TOSDetails l = [];
}.

Definition link_wire (l : LinkDetail) : bytes :=
  be32 (LinkId l) ++ be32 (LinkData l) ++ [LinkType l; 0] ++ be16 (LinkMetric l).

Lemma encode_link_data l : link_good l -> encodeLinkData l 12 = Ok (link_wire l).
Proof. intros []. unfold encodeLinkData. rewrite good_NumOfTOS0. reflexivity. Qed.

Lemma copy_to_app (h x t y : bytes) i j : i = len h -> j = len h + len x -> len x = len y ->
  copy_to (h ++ x ++ t) i j y = Ok (h ++ y ++ t).
Proof.
  intros -> -> Hxy. unfold copy_to. rewrite (slice_app h x t) by done. rewrite bind_Ok.
  unfold len in Hxy. rewrite take_ge by (unfold len; lia). apply gocopy_app; [done | lia].
Qed.

Lemma len_make_eq {A} (x : list A) k : len x = k -> len (make k) = len x.
Proof. intros <-. apply len_make, len_nonneg. Qed.

Lemma encode_links lsa : Forall link_good (LinkDetails lsa) -> forall pre post,
  for_upto (length (LinkDetails lsa)) 0 (encode_link lsa) (pre ++ make (12 * len (LinkDetails lsa)) ++ post, len pre) =
  Ok (pre ++ concat (link_wire <$> LinkDetails lsa) ++ post, len pre + 12 * len (LinkDetails lsa)).
Proof.
  apply encode_items; [lia | reflexivity |]. intros i x pre post Hi Hx. unfold encode_link, nth_go.
  rewrite Hi, bind_Ok, (good_NumOfTOS x Hx). change (u8 (12 + u8 (4 * 0))) with 12.
  rewrite encode_link_data, bind_Ok by done.
  by rewrite (copy_to_app pre (make 12) post (link_wire x)), bind_Ok by done.
Qed.

Lemma decode_links data xs : Forall link_good xs -> forall i pre post acc,
  data = pre ++ concat (link_wire <$> xs) ++ post ->
  for_upto (length xs) i (decode_link data) (acc, len pre) = Ok (acc ++ xs, len pre + 12 * len xs).
Proof.
  apply decode_items; [reflexivity|]. intros i [id ld ty tos me td] acc pre post [] Hd. unfold link_wire in Hd.
  cbn [LinkId LinkData LinkType NumOfTOS LinkMetric TOSDetails] in *. subst tos td. unfold decode_link.
  rewrite <- !app_assoc in Hd.
  rd32 pre id (be32 ld ++ [ty; 0] ++ be16 me ++ post) data (len pre).
  rd32 (pre ++ be32 id) ld ([ty; 0] ++ be16 me ++ post) data (len pre + 4).
  rd16 (pre ++ be32 id ++ be32 ld ++ [ty; 0]) me post data (len pre + 4 + 4 + 1 + 1).
  assert (H1 : sget (E := Empty_set) data (len pre + 4 + 4) = Ok ty).
  { subst data. rewrite (app_assoc pre), (app_assoc (pre ++ _)). apply sget_app. lens. lia. }
  assert (H2 : sget (E := Empty_set) data (len pre + 4 + 4 + 1) = Ok 0).
  { subst data. change ([ty; 0] ++ be16 me ++ post) with ([ty] ++ 0 :: be16 me ++ post).
    rewrite (app_assoc pre), (app_assoc (pre ++ _)), (app_assoc ((pre ++ _) ++ _)). apply sget_app. lens. lia. }
  rewrite H1, H2, !bind_Ok. change (Z.to_nat 0) with 0%nat. cbn [for_upto]. rewrite bind_Ok. do 2 f_equal. lia.
Qed.

Definition router_bits (lsa : RouterLsa) : Z :=
  Z.lor (Z.lor (if R_BitV lsa then 4 else 0) (if R_BitE lsa then 2 else 0)) (if R_BitB lsa then 1 else 0).
Definition router_wire (cs : Z) (lsa : RouterLsa) (key : LsaKey) : bytes :=
  header_wire cs (R_LsaMd lsa) key ++ [router_bits lsa; 0] ++ be16 (NumOfLinks lsa) ++
  concat (link_wire <$> LinkDetails lsa).

Record router_good (lsa : RouterLsa) (key : LsaKey) : Prop := {
  router_links : Forall link_good (LinkDetails lsa);
  router_number : NumOfLinks lsa = len (LinkDetails lsa);
  router_size : 24 + 12 * len (LinkDetails lsa) < 65536;
  router_header : header_good (24 + 12 * len (LinkDetails lsa)) (R_LsaMd lsa) key;
}.

Lemma encode_router lsa key : router_good lsa key -> encodeRouterLsa lsa key = Ok (router_wire 0 lsa key).
Proof.
  intros [Hl Hn Hs Hh]. unfold encodeRouterLsa. rewrite (encode_header _ _ _ Hh), (good_len _ _ _ Hh).
  pose proof (len_nonneg (LinkDetails lsa)).
  replace (24 + 12 * len (LinkDetails lsa)) with (20 + (4 + 12 * len (LinkDetails lsa))) by lia.
  rewrite make_add, copy_header, bind_Ok, make_add by (lia || done).
  unfold router_wire. set (h := header_wire 0 (R_LsaMd lsa) key). assert (Hlen : len h = 20) by done. clearbody h.
  change (make 4) with ([0] ++ [0; 0; 0]). rewrite <- app_assoc. cbn [app].
  rewrite sset_app, bind_Ok by done.
  change (0 :: 0 :: 0 :: make (12 * len (LinkDetails lsa))) with ([0] ++ [0; 0] ++ make (12 * len (LinkDetails lsa))).
  set (v := if R_BitB lsa then _ else _).
  replace v with (router_bits lsa) by (unfold v, router_bits; destruct (R_BitV lsa), (R_BitE lsa), (R_BitB lsa); done).
  clear v. change (router_bits lsa :: [0] ++ ?x) with ([router_bits lsa; 0] ++ x).
  rewrite (app_assoc h). rewrite PutUint16_app, bind_Ok by (done || (lens; lia)).
  rewrite Hn, to_nat_len. rewrite (app_assoc _ (be16 _)).
  set (pre := (h ++ [router_bits lsa; 0]) ++ be16 (len (LinkDetails lsa))).
  replace 24 with (len pre) by (unfold pre; lens; lia).
  rewrite <- (app_nil_r (make _)), encode_links, bind_Ok, app_nil_r by done.
  unfold pre. by rewrite <- !app_assoc.
Qed.

Lemma decode_router cs lsa key tail : router_good lsa key -> is_u16 cs ->
  decodeRouterLsa (router_wire cs lsa key ++ tail) = Ok (set_R_LsaMd (set_LSChecksum cs (R_LsaMd lsa)) lsa, key).
Proof.
  intros [Hl Hn Hs Hh] Hcs. pose proof (len_nonneg (LinkDetails lsa)).
  unfold router_wire, decodeRouterLsa. rewrite <- !app_assoc.
  rewrite (decode_header _ _ _ _ _ Hh), bind_Ok by (done || lia).
  set (h := header_wire cs (R_LsaMd lsa) key). assert (Hlen : len h = 20) by done. clearbody h.
  set (d := h ++ _).
  assert (H1 : sget (E := Empty_set) d 20 = Ok (router_bits lsa)) by by apply sget_app.
  rewrite H1, bind_Ok.
  rd16 (h ++ [router_bits lsa; 0]) (NumOfLinks lsa) (concat (link_wire <$> LinkDetails lsa) ++ tail) d 22.
  rewrite bind_Ok, Hn, to_nat_len.
  replace 24 with (len (h ++ [router_bits lsa; 0] ++ be16 (len (LinkDetails lsa)))) by (lens; lia).
  rewrite (decode_links d _ Hl 0 _ tail []), bind_Ok by by unfold d; rewrite <- !app_assoc, Hn.
  destruct lsa as [md v e b n l]; cbn in Hn. subst n. by destruct v, e, b.
Qed.

(** ** Network LSAs *)

Record network_good (lsa : NetworkLsa) (key : LsaKey) : Prop := {
  network_mask : is_u32 (N_Netmask lsa);
  network_routers : Forall is_u32 (AttachedRtr lsa);
  network_size : 24 + 4 * len (AttachedRtr lsa) < 65536;
  network_header : header_good (24 + 4 * len (AttachedRtr lsa)) (N_LsaMd lsa) key;
}.
Definition network_wire (cs : Z) (lsa : NetworkLsa) (key : LsaKey) : bytes :=
  header_wire cs (N_LsaMd lsa) key ++ be32 (N_Netmask lsa) ++ concat (be32 <$> AttachedRtr lsa).

Lemma network_count n : Z.quot (24 + 4 * n - OSPF_LSA_HEADER_SIZE - 4) 4 = n.
Proof. unfold OSPF_LSA_HEADER_SIZE. replace (24 + 4 * n - 20 - 4) with (n * 4) by lia. by rewrite Z.quot_mul. Qed.

Lemma encode_network lsa key : network_good lsa key -> encodeNetworkLsa lsa key = Ok (network_wire 0 lsa key).
Proof.
  intros [Hm Hr Hs Hh]. unfold encodeNetworkLsa. rewrite (encode_header _ _ _ Hh), (good_len _ _ _ Hh).
  pose proof (len_nonneg (AttachedRtr lsa)). zif. rewrite network_count, to_nat_len.
  replace (24 + 4 * len (AttachedRtr lsa)) with (20 + (4 + 4 * len (AttachedRtr lsa))) by lia.
  rewrite make_add, copy_header, bind_Ok, make_add by (lia || done).
  unfold network_wire. set (h := header_wire 0 (N_LsaMd lsa) key). assert (Hlen : len h = 20) by done. clearbody h.
  rewrite PutUint32_app, bind_Ok by (done || by rewrite length_make).
  rewrite (app_assoc h). replace 24 with (len (h ++ be32 (N_Netmask lsa))) by (lens; lia).
  rewrite <- (app_nil_r (make _)).
  rewrite (encode_items be32 is_u32 4 _ (AttachedRtr lsa)), bind_Ok, app_nil_r, <- app_assoc; try done.
  intros i x pre post Hi _. unfold encode_attached, nth_go. rewrite Hi, bind_Ok.
  by rewrite PutUint32_app, bind_Ok by (done || by rewrite length_make).
Qed.

Lemma decode_network cs lsa key tail : network_good lsa key -> is_u16 cs ->
  decodeNetworkLsa (network_wire cs lsa key ++ tail) =
  Ok (set_N_LsaMd (set_LSChecksum cs (N_LsaMd lsa)) lsa, key).
Proof.
  intros [Hm Hr Hs Hh] Hcs. pose proof (len_nonneg (AttachedRtr lsa)).
  unfold network_wire, decodeNetworkLsa. rewrite <- !app_assoc.
  rewrite (decode_header _ _ _ _ _ Hh), bind_Ok by (done || lia). cbn [LSLen set_LSChecksum].
  rewrite (good_len _ _ _ Hh), network_count, to_nat_len.
  set (h := header_wire cs (N_LsaMd lsa) key). assert (Hlen : len h = 20) by done. clearbody h.
  set (d := h ++ _).
  rd32 h (N_Netmask lsa) (concat (be32 <$> AttachedRtr lsa) ++ tail) d 20. rewrite bind_Ok. zif.
  replace 24 with (len (h ++ be32 (N_Netmask lsa))) by (lens; lia).
  rewrite (decode_items be32 is_u32 4 d (decode_attached d) (AttachedRtr lsa)) with (post := tail), bind_Ok; try done.
  - intros i x acc pre post Hx Hd. unfold decode_attached. rd32 pre x post d (len pre). done.
  - unfold d. by rewrite <- !app_assoc.
Qed.

(** ** Summary and AS external LSAs without types of service *)

Record summary_good (lsa : SummaryLsa) (key : LsaKey) : Prop := {
  summary_mask : is_u32 (S_Netmask lsa);
  summary_metric : 0 <= S_Metric lsa < 16777216;
  summary_tos : SummaryTOSDetails lsa = [];
  summary_header : header_good 28 (S_LsaMd lsa) key;
}.
Definition summary_wire (cs : Z) (lsa : SummaryLsa) (key : LsaKey) : bytes :=
  header_wire cs (S_LsaMd lsa) key ++ be32 (S_Netmask lsa) ++ be32 (S_Metric lsa).

Lemma encode_summary lsa key : summary_good lsa key -> encodeSummaryLsa lsa key = Ok (summary_wire 0 lsa key).
Proof.
  intros [Hm Hc Ht Hh]. unfold encodeSummaryLsa. rewrite (encode_header _ _ _ Hh), (good_len _ _ _ Hh).
  unfold summary_wire. set (h := header_wire 0 (S_LsaMd lsa) key). assert (Hlen : len h = 20) by done. clearbody h.
  change (make 28) with (make 20 ++ [0; 0; 0; 0] ++ [0; 0; 0; 0]). rewrite copy_header, bind_Ok by done.
  rewrite PutUint32_app, bind_Ok by done. rewrite (app_assoc h), <- (app_nil_r [0; 0; 0; 0]).
  rewrite PutUint32_app, bind_Ok by (done || (lens; lia)). by rewrite app_nil_r, <- app_assoc.
Qed.

Lemma land_24 v : 0 <= v < 16777216 -> Z.land 16777215 v = v.
Proof. intros. rewrite Z.land_comm. change 16777215 with (Z.ones 24). rewrite Z.land_ones by lia. by apply Z.mod_small. Qed.

Lemma decode_summary cs lsa key tail : summary_good lsa key -> is_u16 cs ->
  decodeSummaryLsa (summary_wire cs lsa key ++ tail) =
  Ok (set_S_LsaMd (set_LSChecksum cs (S_LsaMd lsa)) lsa, key).
Proof.
  intros [Hm Hc Ht Hh] Hcs. unfold summary_wire, decodeSummaryLsa. rewrite <- !app_assoc.
  rewrite (decode_header _ _ _ _ _ Hh), bind_Ok by (done || lia). cbn [LSLen set_LSChecksum].
  rewrite (good_len _ _ _ Hh). set (h := header_wire cs (S_LsaMd lsa) key). assert (Hlen : len h = 20) by done. clearbody h.
  set (d := h ++ _). rd32 h (S_Netmask lsa) (be32 (S_Metric lsa) ++ tail) d 20. rewrite bind_Ok.
  rewrite (u32_at_eq (h ++ be32 (S_Netmask lsa)) (S_Metric lsa) tail d 24), bind_Ok; [|field|field|unfold is_u32; lia].
  change (Z.quot (28 - OSPF_LSA_HEADER_SIZE - 8) 8 <=? 0) with true. cbv iota zeta.
  rewrite land_24 by done. destruct lsa; cbn in Ht. by subst.
Qed.

Record external_good (lsa : ASExternalLsa) (key : LsaKey) : Prop := {
  external_mask : is_u32 (E_Netmask lsa);
  external_metric : 0 <= E_Metric lsa < 16777216;
  external_fwd : is_u32 (FwdAddr lsa);
  external_tag : is_u32 (ExtRouteTag lsa);
  external_tos : ASExtTOSDetails lsa = [];
  external_header : header_good 36 (E_LsaMd lsa) key;
}.
Definition external_metric_field (lsa : ASExternalLsa) : Z :=
  (if E_BitE lsa then 2147483648 else 0) + E_Metric lsa.
Definition external_wire (cs : Z) (lsa : ASExternalLsa) (key : LsaKey) : bytes :=
  header_wire cs (E_LsaMd lsa) key ++ be32 (E_Netmask lsa) ++ be32 (external_metric_field lsa) ++
  be32 (FwdAddr lsa) ++ be32 (ExtRouteTag lsa).

Lemma lor_bit31 v : 0 <= v < 16777216 -> Z.lor 2147483648 v = 2147483648 + v.
Proof.
  intros Hv. change 2147483648 with (Z.shiftl 128 24) at 1.
  assert (H : Z.land (Z.shiftl 128 24) v = 0).
  { rewrite <- (Z.mod_small v (2 ^ 24)) by done. apply Z.bits_inj'. intros n Hn. rewrite Z.land_spec, Z.bits_0.
    destruct (decide (n < 24)); [rewrite Z.shiftl_spec_low by done; done|].
    by rewrite Z.mod_pow2_bits_high, andb_false_r by lia. }
  pose proof (Z.add_lor_land (Z.shiftl 128 24) v) as E. rewrite H in E. change (Z.shiftl 128 24) with 2147483648 in *. lia.
Qed.

Lemma encode_external lsa key : external_good lsa key -> encodeASExternalLsa lsa key = Ok (external_wire 0 lsa key).
Proof.
  intros [Hm Hc Hf Hg Ht Hh]. unfold encodeASExternalLsa. rewrite (encode_header _ _ _ Hh), (good_len _ _ _ Hh).
  unfold external_wire. set (h := header_wire 0 (E_LsaMd lsa) key). assert (Hlen : len h = 20) by done. clearbody h.
  change (make 36) with (make 20 ++ [0; 0; 0; 0] ++ [0; 0; 0; 0] ++ [0; 0; 0; 0] ++ [0; 0; 0; 0]).
  rewrite copy_header, bind_Ok, PutUint32_app, bind_Ok by done. rewrite (app_assoc h).
  rewrite PutUint32_app, bind_Ok by (done || (lens; lia)). rewrite (app_assoc (h ++ _)).
  rewrite PutUint32_app, bind_Ok by (done || (lens; lia)). rewrite (app_assoc (_ ++ _)), <- (app_nil_r [0; 0; 0; 0]).
  rewrite PutUint32_app, bind_Ok by (done || (lens; lia)). rewrite app_nil_r, <- !app_assoc. cbn [for_upto Z.to_nat].
  change (Z.to_nat (Z.quot (36 - OSPF_LSA_HEADER_SIZE - 16) 8)) with 0%nat. cbn [for_upto]. rewrite bind_Ok.
  replace (Z.lor (if E_BitE lsa then 2147483648 else 0) (E_Metric lsa)) with (external_metric_field lsa); [done|].
  unfold external_metric_field. destruct (E_BitE lsa); [by rewrite lor_bit31 | done].
Qed.

Lemma external_metric_split (lsa : ASExternalLsa) : 0 <= E_Metric lsa < 16777216 ->
  let v := external_metric_field lsa in
  is_u32 v /\ Z.land 16777215 v = E_Metric lsa /\ negb (u8 (v / 16777216) =? 0) = E_BitE lsa.
Proof.
  intros Hc v. unfold v, external_metric_field. rewrite Z.land_comm. change 16777215 with (Z.ones 24).
  rewrite Z.land_ones by lia. change (2 ^ 24) with 16777216. destruct (E_BitE lsa).
  - replace ((2147483648 + E_Metric lsa) / 16777216) with 128.
    2: { apply (Z.div_unique_pos _ _ _ (E_Metric lsa)); lia. }
    replace ((2147483648 + E_Metric lsa) mod 16777216) with (E_Metric lsa).
    2: { apply (Z.mod_unique_pos _ _ 128); lia. }
    repeat split; unfold is_u32; lia.
  - rewrite Z.add_0_l, Z.div_small, Z.mod_small by lia. repeat split; unfold is_u32; lia.
Qed.

Lemma decode_external cs lsa key tail : external_good lsa key -> is_u16 cs ->
  decodeASExternalLsa (external_wire cs lsa key ++ tail) =
  Ok (set_E_LsaMd (set_LSChecksum cs (E_LsaMd lsa)) lsa, key).
Proof.
  intros [Hm Hc Hf Hg Ht Hh] Hcs. unfold external_wire, decodeASExternalLsa. rewrite <- !app_assoc.
  rewrite (decode_header _ _ _ _ _ Hh), bind_Ok by (done || lia). cbn [LSLen set_LSChecksum].
  rewrite (good_len _ _ _ Hh). set (h := header_wire cs (E_LsaMd lsa) key). assert (Hlen : len h = 20) by done. clearbody h.
  destruct (external_metric_split lsa Hc) as (Hv & Hl & Hb). set (v := external_metric_field lsa) in *. clearbody v.
  set (m := be32 (E_Netmask lsa)). set (f := be32 (FwdAddr lsa)). set (t := be32 (ExtRouteTag lsa)).
  assert (len m = 4 /\ len f = 4 /\ len t = 4) as (Em & Ef & Et) by done.
  set (d := h ++ _). rd32 h (E_Netmask lsa) (be32 v ++ f ++ t ++ tail) d 20.
  rd32 (h ++ m) v (f ++ t ++ tail) d 24. rd32 (h ++ m ++ be32 v) (FwdAddr lsa) (t ++ tail) d 28.
  rd32 (h ++ m ++ be32 v ++ f) (ExtRouteTag lsa) tail d 32.
  assert (H1 : sget (E := Empty_set) d 24 = Ok (u8 (v / 16777216))).
  { unfold d. rewrite (app_assoc h). apply sget_app. unfold m. lens. lia. }
  rewrite H1, !bind_Ok. change (Z.quot (36 - OSPF_LSA_HEADER_SIZE - 16) 8) with 0.
  cbn [Z.ltb Z.compare]. change (Z.to_nat 0) with 0%nat. cbn [for_upto]. rewrite bind_Ok, Hl, Hb.
  destruct lsa; cbn in Ht. by subst.
Qed.

(** ** The checksum of what is flooded *)

Lemma install_checksum_ok a p z0 z1 t : bytes_ok a -> bytes_ok p -> bytes_ok t -> len a = 2 -> len p = 14 ->
  exists cs, is_u16 cs /\ lsa_checksum (a ++ p ++ [z0; z1] ++ t) = Ok cs /\
    install_checksum (a ++ p ++ [z0; z1] ++ t) = Ok (a ++ p ++ be16 cs ++ t) /\
    forall k, validateChecksum ((a ++ p ++ be16 cs ++ t) ++ make k) = Ok true.
Proof.
  intros Ha Hp Ht La Lp. unfold install_checksum, lsa_checksum.
  destruct (Fletcher_compute p z0 z1 t Hp Ht ltac:(lia)) as (x & y & E & Hx & Hy & Hok & S0 & S1).
  rewrite slice_from_app, !bind_Ok by done. rewrite <- Lp, E, !bind_Ok.
  replace (take 2 _) with a.
  2: { symmetry. unfold len in La. replace 2%nat with (length a) by lia. apply take_app_length. }
  exists (x * 256 + y). unfold is_u16. split; [lia|].
  assert (Eb : be16 (x * 256 + y) = [x; y] \/ y = 256).
  { left. unfold be16, u8. rewrite Z.div_add_l, (Z.div_small y) by lia. rewrite Z.add_0_r, Z.mod_small by lia.
    do 2 f_equal. symmetry. apply (Z.mod_unique_pos _ _ x); lia. }
  destruct Eb as [Eb | ?]; [|lia].
  split; [done|]. split.
  - rewrite (app_assoc a p). rewrite PutUint16_app by (done || (lens; lia)). by rewrite <- app_assoc.
  - intros k. unfold validateChecksum. rewrite <- app_assoc. rewrite slice_from_app, bind_Ok by done.
    rewrite Eb. destruct (sums_padded _ k S0 S1) as [P0 P1].
    rewrite Fletcher_zero; [done| |done|done]. rewrite bytes_ok_app. auto with wire.
Qed.

Lemma install_wire n md key body : header_good n md key -> bytes_ok body ->
  exists cs, is_u16 cs /\ lsa_checksum (header_wire 0 md key ++ body) = Ok cs /\
    install_checksum (header_wire 0 md key ++ body) = Ok (header_wire cs md key ++ body) /\
    forall k, validateChecksum ((header_wire cs md key ++ body) ++ make k) = Ok true.
Proof.
  intros [] Hb. unfold header_wire.
  set (p := [Options md; LSType key] ++ be32 (LSId key) ++ be32 (AdvRouter key) ++ be32 (LSSequenceNum md)).
  assert (Hp : bytes_ok p).
  { unfold p. rewrite !bytes_ok_app. repeat split; auto with wire. unfold bytes_ok. auto. }
  destruct (install_checksum_ok (be16 (LSAge md)) p 0 0 (be16 (LSLen md) ++ body)) as (cs & Hcs & E0 & E & V);
    [auto with wire | done | | done | done |].
  { rewrite bytes_ok_app. auto with wire. }
  exists cs. split; [done|]. unfold p in *. rewrite <- !app_assoc in *. split; [exact E0|]. split; [exact E|]. intros k. specialize (V k).
  by rewrite <- !app_assoc in V.
Qed.

Lemma concat_ok {X} (w : X -> bytes) (xs : list X) :
  Forall (fun x => bytes_ok (w x)) xs -> bytes_ok (concat (w <$> xs)).
Proof. induction 1 as [|x xs Hx _ IH]; cbn; [constructor | by apply bytes_ok_app]. Qed.

Lemma router_body_ok lsa key : router_good lsa key ->
  bytes_ok ([router_bits lsa; 0] ++ be16 (NumOfLinks lsa) ++ concat (link_wire <$> LinkDetails lsa)).
Proof.
  intros [Hl _ _ _]. rewrite !bytes_ok_app. repeat split; auto with wire.
  - assert (is_u8 0) by done. unfold bytes_ok. constructor; [|auto].
    unfold router_bits, is_u8. destruct (R_BitV lsa), (R_BitE lsa), (R_BitB lsa); done.
  - apply concat_ok. eapply Forall_impl; [exact Hl|]. intros l []. unfold link_wire. rewrite !bytes_ok_app.
    assert (is_u8 0) by done. repeat split; auto with wire. unfold bytes_ok. auto.
Qed.

(** [lsa] is encoded, the checksum that its originator stores is written into it, and a receiver that has it with any number of zeros
    behind it (DecodeLSAUpd pads what it cuts from the packet) accepts the checksum and decodes [lsa]. *)
Definition sent_and_read {T} (enc : T -> LsaKey -> go bytes) (dec : bytes -> go (T * LsaKey))
    (with_cs : Z -> T -> T) (lsa : T) (key : LsaKey) : Prop :=
  exists d data cs, enc lsa key = Ok d /\ lsa_checksum d = Ok cs /\ install_checksum d = Ok data /\ is_u16 cs /\
    forall k, validateChecksum (data ++ make k) = Ok true /\ dec (data ++ make k) = Ok (with_cs cs lsa, key).

Lemma sent_and_read_wire {T} enc dec (with_cs : Z -> T -> T) lsa key n md body :
  header_good n md key -> bytes_ok body -> enc lsa key = Ok (header_wire 0 md key ++ body) ->
  (forall cs tail, is_u16 cs -> dec ((header_wire cs md key ++ body) ++ tail) = Ok (with_cs cs lsa, key)) ->
  sent_and_read enc dec with_cs lsa key.
Proof.
  intros Hh Hb He Hd. destruct (install_wire n md key body Hh Hb) as (cs & Hcs & Hl & Hi & Hv).
  exists (header_wire 0 md key ++ body), (header_wire cs md key ++ body), cs.
  do 4 (split; [done|]). intros k. split; [apply Hv | by apply Hd].
Qed.

Definition router_cs (cs : Z) (l : RouterLsa) : RouterLsa := set_R_LsaMd (set_LSChecksum cs (R_LsaMd l)) l.
Definition network_cs (cs : Z) (l : NetworkLsa) : NetworkLsa := set_N_LsaMd (set_LSChecksum cs (N_LsaMd l)) l.
Definition summary_cs (cs : Z) (l : SummaryLsa) : SummaryLsa := set_S_LsaMd (set_LSChecksum cs (S_LsaMd l)) l.
Definition external_cs (cs : Z) (l : ASExternalLsa) : ASExternalLsa := set_E_LsaMd (set_LSChecksum cs (E_LsaMd l)) l.

Lemma router_sent lsa key : router_good lsa key -> sent_and_read encodeRouterLsa decodeRouterLsa router_cs lsa key.
Proof.
  intros Hg. eapply sent_and_read_wire; [exact (router_header _ _ Hg) | exact (router_body_ok _ _ Hg) | by apply encode_router |].
  intros. by apply decode_router.
Qed.
Lemma network_sent lsa key : network_good lsa key -> sent_and_read encodeNetworkLsa decodeNetworkLsa network_cs lsa key.
Proof.
  intros Hg. eapply sent_and_read_wire; [exact (network_header _ _ Hg) | | by apply encode_network | intros; by apply decode_network].
  rewrite bytes_ok_app. split; [auto with wire|]. apply concat_ok. by apply Forall_true; auto with wire.
Qed.
Lemma summary_sent lsa key : summary_good lsa key -> sent_and_read encodeSummaryLsa decodeSummaryLsa summary_cs lsa key.
Proof.
  intros Hg. eapply sent_and_read_wire; [exact (summary_header _ _ Hg) | | by apply encode_summary | intros; by apply decode_summary].
  rewrite bytes_ok_app. auto with wire.
Qed.
Lemma external_sent lsa key : external_good lsa key -> sent_and_read encodeASExternalLsa decodeASExternalLsa external_cs lsa key.
Proof.
  intros Hg. eapply sent_and_read_wire; [exact (external_header _ _ Hg) | | by apply encode_external | intros; by apply decode_external].
  rewrite !bytes_ok_app. auto with wire.
Qed.

(** C32: what a router floods, another accepts and reads back, for LSAs of every kind whose fields fit theirs and
    that have no entries for types of service: the checksum that is written validates, whatever zeros
    follow, and the LSA decoded is the one encoded, with that checksum. *)
Theorem lsa_roundtrip key :
  (forall lsa, router_good lsa key -> sent_and_read encodeRouterLsa decodeRouterLsa router_cs lsa key) /\
  (forall lsa, network_good lsa key -> sent_and_read encodeNetworkLsa decodeNetworkLsa network_cs lsa key) /\
  (forall lsa, summary_good lsa key -> sent_and_read encodeSummaryLsa decodeSummaryLsa summary_cs lsa key) /\
  (forall lsa, external_good lsa key ->
     sent_and_read encodeASExternalLsa decodeASExternalLsa external_cs lsa key).
Proof. auto using router_sent, network_sent, summary_sent, external_sent. Qed.

Definition sample_md (n : Z) : LsaMetadata :=
  {| LSAge := 1; Options := 2; LSSequenceNum := InitialSequenceNumber; LSChecksum := 0; LSLen := n |}.
Definition sample_key : LsaKey := {| LSType := 1; LSId := 16843009; AdvRouter := 16843009 |}.
Definition sample_link (id type metric : Z) : LinkDetail :=
  {| LinkId := id; LinkData := 4294967040; LinkType := type; NumOfTOS := 0; LinkMetric := metric; TOSDetails := [] |}.

Lemma sample_header n : header_good n (sample_md n) sample_key.
Proof. split; try done; unfold is_u16, is_u8, is_u32; cbn; unfold InitialSequenceNumber; lia. Qed.

Lemma lsa_roundtrip_witness :
  sent_and_read encodeRouterLsa decodeRouterLsa router_cs
    {| R_LsaMd := sample_md 48; R_BitV := false; R_BitE := true; R_BitB := true; NumOfLinks := 2;
       LinkDetails := [sample_link 167772160 3 10; sample_link 33686018 1 20] |} sample_key /\
  sent_and_read encodeASExternalLsa decodeASExternalLsa external_cs
    {| E_LsaMd := sample_md 36; E_Netmask := 4278190080; E_BitE := true; E_Metric := 20; FwdAddr := 0;
       ExtRouteTag := 0; ASExtTOSDetails := [] |} sample_key.
Proof.
  assert (Hl : forall id type metric, is_u32 id -> is_u8 type -> is_u16 metric -> link_good (sample_link id type metric)).
  { intros. split; try done. }
  split; apply (lsa_roundtrip sample_key).
  - split; [|done|done|apply (sample_header 48)]. repeat constructor; apply Hl; unfold is_u32, is_u8, is_u16; lia.
  - by split.
Defined.

(** ** What is lost *)

Definition one_tos : RouterLsa :=
  {| R_LsaMd := set_LSLen 40 zero_md; R_BitV := false; R_BitE := false; R_BitB := false; NumOfLinks := 1;
     LinkDetails := [{| LinkId := 1; LinkData := 2; LinkType := 3; NumOfTOS := 1; LinkMetric := 10;
                        TOSDetails := [{| TOS := 8; TOSMetric := 20 |}] |}] |}.

(** The decoder of router LSAs takes the position of a type of service in the packet for its value. *)
Lemma router_tos_lost : exists d lsa key,
  encodeRouterLsa one_tos NewLsaKey = Ok d /\ decodeRouterLsa d = Ok (lsa, key) /\
  TOSDetails <$> LinkDetails one_tos = [[{| TOS := 8; TOSMetric := 20 |}]] /\
  TOSDetails <$> LinkDetails lsa = [[{| TOS := 36; TOSMetric := 20 |}]].
Proof. repeat eexists. Qed.

Definition one_summary_tos (tos metric : Z) : SummaryLsa :=
  {| S_LsaMd := set_LSLen 36 zero_md; S_Netmask := 0; S_Metric := 10;
     SummaryTOSDetails := [{| S_TOS := tos; S_TOSMetric := metric |}] |}.

(** The decoder of summary LSAs reads every type of service as 255, and sets the low 24 bits of its metric. *)
Lemma summary_tos_lost : exists d lsa key,
  encodeSummaryLsa (one_summary_tos 8 20) NewLsaKey = Ok d /\ decodeSummaryLsa d = Ok (lsa, key) /\
  SummaryTOSDetails lsa = [{| S_TOS := 255; S_TOSMetric := 150994943 |}].
Proof. repeat eexists. Qed.

(** A link with 61 types of service: its size is computed in 8 bits, and is 0. *)
Definition many_tos : RouterLsa :=
  {| R_LsaMd := set_LSLen 280 zero_md; R_BitV := false; R_BitE := false; R_BitB := false; NumOfLinks := 1;
     LinkDetails := [{| LinkId := 1; LinkData := 2; LinkType := 3; NumOfTOS := 61; LinkMetric := 10;
                        TOSDetails := replicate 61 {| TOS := 8; TOSMetric := 20 |} |}] |}.
Lemma many_tos_crash : encodeRouterLsa many_tos NewLsaKey = Panic.
Proof. reflexivity. Qed.

(** ** The decoders on any bytes *)

Definition decodes {T} (o : go T) (b : bool) : Prop := if b then is_ok o = true else o = Panic.

(** A loop that reads items of [k] bytes each. *)
Lemma decode_loop_total {X} (body : nat -> list X * Z -> go (list X * Z)) (k l : Z) : 0 < k ->
  (forall i acc start, 0 <= start -> if start + k <=? l then exists x, body i (acc, start) = Ok (acc ++ [x], start + k)
                                    else body i (acc, start) = Panic) ->
  forall n i acc start, 0 <= start -> start <= l ->
  if start + k * Z.of_nat n <=? l
  then exists xs, for_upto n i body (acc, start) = Ok (acc ++ xs, start + k * Z.of_nat n) /\ length xs = n
  else for_upto n i body (acc, start) = Panic.
Proof.
  intros Hk Hbody. induction n as [|n IH]; intros i acc start Hs Hl.
  { change (Z.of_nat 0) with 0. rewrite Z.mul_0_r, Z.add_0_r. zif. exists []. cbn. by rewrite app_nil_r. }
  cbn [for_upto]. specialize (Hbody i acc start Hs).
  replace (start + k * Z.of_nat (S n)) with (start + k + k * Z.of_nat n) by lia.
  destruct (start + k <=? l) eqn:E; zhyp.
  - destruct Hbody as [x ->]. rewrite bind_Ok. specialize (IH (S i) (acc ++ [x]) (start + k) ltac:(lia) ltac:(lia)).
    destruct (_ <=? l); [|done]. destruct IH as (xs & -> & <-). exists (x :: xs). by rewrite <- app_assoc.
  - rewrite Hbody. assert (H : (start + k + k * Z.of_nat n <=? l) = false) by (apply Z.leb_gt; nia). by rewrite H.
Qed.

Lemma slice_total {E} (s : bytes) i j : 0 <= i <= j ->
  if j <=? len s then exists t, slice (E := E) s i j = Ok t /\ len t = j - i else slice (E := E) s i j = Panic.
Proof.
  intros H. unfold slice, len. destruct (Z.leb_spec j (Z.of_nat (length s))).
  - zif. eexists. split; [done|]. rewrite length_take, length_drop. lia.
  - zif. done.
Qed.

Lemma u32_at_total s i : 0 <= i -> if i + 4 <=? len s then exists v, u32_at s i = Ok v else u32_at s i = Panic.
Proof.
  intros Hi. unfold u32_at. pose proof (slice_total (E := Empty_set) s i (i + 4) ltac:(lia)) as H.
  destruct (_ <=? _); [|by rewrite H]. destruct H as (t & -> & Ht). rewrite bind_Ok.
  destruct t as [|a [|b [|c [|d t]]]]; unfold len in Ht; cbn in Ht; try lia. by eexists.
Qed.
Lemma u16_at_total s i : 0 <= i -> if i + 2 <=? len s then exists v, u16_at s i = Ok v else u16_at s i = Panic.
Proof.
  intros Hi. unfold u16_at. pose proof (slice_total (E := Empty_set) s i (i + 2) ltac:(lia)) as H.
  destruct (_ <=? _); [|by rewrite H]. destruct H as (t & -> & Ht). rewrite bind_Ok.
  destruct t as [|a [|b t]]; unfold len in Ht; cbn in Ht; try lia. by eexists.
Qed.
Lemma sget_total {E} (s : bytes) i : 0 <= i -> if i + 1 <=? len s then exists v, sget (E := E) s i = Ok v else sget (E := E) s i = Panic.
Proof.
  intros Hi. destruct (Z.leb_spec (i + 1) (len s)); [apply sget_ok; lia|].
  unfold sget, len in *. zif. rewrite lookup_ge_None_2 by lia. done.
Qed.

(** The field of the header that tells how long the LSA is. *)
Definition length_field (data : bytes) : Z := match u16_at data 18 with Ok v => v | _ => 0 end.

Lemma decode_md_total data : if 20 <=? len data then exists md key, decode_md data = Ok (md, key) /\ LSLen md = length_field data
  else decode_md data = Panic.
Proof.
  unfold decode_md, length_field.
  pose proof (u16_at_total data 0 ltac:(lia)) as H0. pose proof (sget_total (E := Empty_set) data 2 ltac:(lia)) as H2.
  pose proof (sget_total (E := Empty_set) data 3 ltac:(lia)) as H3. pose proof (u32_at_total data 4 ltac:(lia)) as H4.
  pose proof (u32_at_total data 8 ltac:(lia)) as H8. pose proof (u32_at_total data 12 ltac:(lia)) as H12.
  pose proof (u16_at_total data 16 ltac:(lia)) as H16. pose proof (u16_at_total data 18 ltac:(lia)) as H18.
  destruct (Z.leb_spec 20 (len data)) as [Hl | Hl].
  - repeat match goal with H : context [?a <=? ?b] |- _ => rewrite (proj2 (Z.leb_le a b)) in H by lia end.
    destruct H0 as [? ->], H2 as [? ->], H3 as [? ->], H4 as [? ->], H8 as [? ->], H12 as [? ->], H16 as [? ->], H18 as [? ->].
    by repeat eexists.
  - assert (E : u16_at data 18 = Panic) by (rewrite (proj2 (Z.leb_gt _ _)) in H18 by lia; done).
    rewrite E. repeat (match goal with H : if ?b then _ else _ |- _ => destruct b end);
    repeat match goal with H : ∃ v, _ = Ok v |- _ => destruct H as [? H] end;
    repeat match goal with H : ?x = Ok _ |- context [?x] => rewrite H, bind_Ok
      | H : ?x = Panic |- context [?x] => rewrite H end; done.
Qed.

Definition quot_fits (data : bytes) (start size per : Z) : bool :=
  start + size * Z.quot (length_field data - start) per <=? len data.

Lemma decode_counted {X T} (data : bytes) (body : nat -> list X * Z -> go (list X * Z)) (k start n : Z)
    (f : list X -> T) : 0 < k ->
  (forall i acc pos, 0 <= pos -> if pos + k <=? len data then exists x, body i (acc, pos) = Ok (acc ++ [x], pos + k)
                                 else body i (acc, pos) = Panic) ->
  0 <= start -> start <= len data -> 0 <= n ->
  decodes ('(xs, _) ← for_upto (Z.to_nat n) 0 body ([], start); Ok (f xs)) (start + k * n <=? len data).
Proof.
  intros Hk Hbody Hs Hl Hn. pose proof (decode_loop_total body k (len data) Hk Hbody (Z.to_nat n) 0 [] start Hs Hl) as H.
  rewrite Z2Nat.id in H by done. destruct (_ <=? len data); [|by rewrite H]. by destruct H as (xs & -> & _).
Qed.

(** Read the next field, or find that it is not there. *)
Ltac use_total H :=
  first [ rewrite (proj2 (Z.leb_le _ _)) in H by lia; let v := fresh "v" in destruct H as [v H]; rewrite H, bind_Ok; clear H
        | rewrite (proj2 (Z.leb_gt _ _)) in H by lia; rewrite H; clear H ].
Ltac read_field m :=
  lazymatch m with
  | u32_at ?d ?i => let H := fresh in pose proof (u32_at_total d i ltac:(lia)) as H; use_total H
  | sget ?d ?i => let H := fresh in pose proof (sget_total (E := Empty_set) d i ltac:(lia)) as H; use_total H
  end.
Ltac field_ok :=
  lazymatch goal with
  | |- decodes (mbind _ ?m) _ => read_field m
  | |- mbind _ ?m = _ => read_field m
  | |- exists _, mbind _ ?m = _ => read_field m
  end.

Lemma network_total data :
  decodes (decodeNetworkLsa data)
    ((24 <=? len data) && (0 <=? Z.quot (length_field data - 24) 4) && quot_fits data 24 4 4).
Proof.
  unfold decodeNetworkLsa, OSPF_LSA_HEADER_SIZE, quot_fits. pose proof (decode_md_total data) as Hm.
  destruct (Z.leb_spec 20 (len data)).
  2: { rewrite Hm. rewrite (proj2 (Z.leb_gt 24 _)) by lia. done. }
  destruct Hm as (md & key & -> & Hlen). rewrite bind_Ok, Hlen.
  replace (length_field data - 20 - 4) with (length_field data - 24) by lia.
  destruct (Z.leb_spec 24 (len data)); [|by field_ok]. field_ok. cbn [andb].
  set (q := Z.quot _ 4). destruct (Z.leb_spec 0 q); [zif | by zif]. cbn [andb].
  apply (decode_counted data (decode_attached data) 4 24 q (fun r => _)); try lia.
  intros i acc pos Hp. unfold decode_attached. pose proof (u32_at_total data pos Hp) as Hu.
  destruct (pos + 4 <=? len data); [destruct Hu as [w ->]; by exists w | by rewrite Hu].
Qed.

Lemma summary_total data :
  decodes (decodeSummaryLsa data)
    ((28 <=? len data) && ((Z.quot (length_field data - 28) 8 <=? 0) || quot_fits data 28 4 8)).
Proof.
  unfold decodeSummaryLsa, OSPF_LSA_HEADER_SIZE, quot_fits. pose proof (decode_md_total data) as Hm.
  destruct (Z.leb_spec 20 (len data)).
  2: { rewrite Hm. rewrite (proj2 (Z.leb_gt 28 _)) by lia. done. }
  destruct Hm as (md & key & -> & Hlen). rewrite bind_Ok, Hlen.
  replace (length_field data - 20 - 8) with (length_field data - 28) by lia.
  destruct (Z.leb_spec 24 (len data)); [field_ok|rewrite (proj2 (Z.leb_gt 28 _)) by lia; by field_ok].
  destruct (Z.leb_spec 28 (len data)); [|by field_ok]. field_ok. cbn [andb].
  set (q := Z.quot _ 8). destruct (Z.leb_spec q 0); [done|]. cbn [orb].
  apply (decode_counted data (decode_summary_tos data) 4 28 q (fun r => _)); try lia.
  intros i acc pos Hp. unfold decode_summary_tos. pose proof (u32_at_total data pos Hp) as Hu.
  destruct (pos + 4 <=? len data); [destruct Hu as [w ->]; by eexists | by rewrite Hu].
Qed.

Lemma external_total data :
  decodes (decodeASExternalLsa data)
    ((36 <=? len data) && (0 <=? Z.quot (length_field data - 36) 8) && quot_fits data 36 12 8).
Proof.
  unfold decodeASExternalLsa, OSPF_LSA_HEADER_SIZE, quot_fits. pose proof (decode_md_total data) as Hm.
  destruct (Z.leb_spec 20 (len data)).
  2: { rewrite Hm. rewrite (proj2 (Z.leb_gt 36 _)) by lia. done. }
  destruct Hm as (md & key & -> & Hlen). rewrite bind_Ok, Hlen.
  replace (length_field data - 20 - 16) with (length_field data - 36) by lia.
  destruct (Z.leb_spec 36 (len data)).
  2: { cbn [andb]. destruct (Z.leb_spec 24 (len data)); [field_ok | by field_ok].
       destruct (Z.leb_spec 25 (len data)); [field_ok | by field_ok].
       destruct (Z.leb_spec 28 (len data)); [field_ok | by field_ok].
       destruct (Z.leb_spec 32 (len data)); [field_ok; by field_ok | by field_ok]. }
  do 5 field_ok. cbn [andb].
  set (q := Z.quot _ 8). destruct (Z.leb_spec 0 q); [zif | by zif]. cbn [andb].
  apply (decode_counted data (decode_ext_tos data) 12 36 q (fun r => _)); try lia.
  intros i acc pos Hp. unfold decode_ext_tos.
  destruct (Z.leb_spec (pos + 12) (len data)); [do 3 field_ok; replace (pos + 4 + 4 + 4) with (pos + 12) by lia; by eexists|].
  destruct (Z.leb_spec (pos + 4) (len data)); [field_ok | by field_ok].
  destruct (Z.leb_spec (pos + 4 + 4) (len data)); [field_ok; by field_ok | by field_ok].
Qed.

(** Router LSAs: what the decoder returns has the numbers of links and of types of service it announces. *)
Definition router_formed (lsa : RouterLsa) : Prop :=
  NumOfLinks lsa = len (LinkDetails lsa) /\
  Forall (fun l => is_u8 (NumOfTOS l) /\ NumOfTOS l = len (TOSDetails l)) (LinkDetails lsa).

Definition ok_or_panic {T} (o : go T) (P : T -> Prop) : Prop :=
  match o with Ok x => P x | Panic => True | Hang | Err _ => False end.

Lemma ok_or_panic_bind {A B} (m : go A) (f : A -> go B) (P : A -> Prop) (Q : B -> Prop) :
  ok_or_panic m P -> (forall x, P x -> ok_or_panic (f x) Q) -> ok_or_panic (x ← m; f x) Q.
Proof. destruct m; cbn; auto. Qed.

Lemma ok_or_panic_loop {A} (body : nat -> A -> go A) (P : nat -> A -> Prop) :
  (forall i a, P i a -> ok_or_panic (body i a) (P (S i))) ->
  forall n i a, P i a -> ok_or_panic (for_upto n i body a) (P (i + n)%nat).
Proof.
  intros Hb. induction n as [|n IH]; intros i a Ha; cbn [for_upto]; [by rewrite Nat.add_0_r|].
  eapply ok_or_panic_bind; [by apply Hb|]. intros x Hx. rewrite <- Nat.add_succ_comm. by apply IH.
Qed.

Lemma u16_at_ok_or_panic s i : ok_or_panic (u16_at s i) (fun v => bytes_ok s -> is_u16 v).
Proof.
  unfold u16_at. destruct (slice s i (i + 2)) as [t|[]| |] eqn:E; cbn; try done.
  - destruct (Uint16 t) as [v|[]| |] eqn:Ev; cbn; try done.
    + intros Hs. apply slice_inv in E as (_ & _ & -> & _). eapply Uint16_range; [|exact Ev].
      by apply bytes_ok_take, bytes_ok_drop.
    + by destruct t as [|? [|? ?]].
  - by apply slice_no_hang in E.
Qed.
Lemma u32_at_ok_or_panic s i : ok_or_panic (u32_at s i) (fun v => bytes_ok s -> is_u32 v).
Proof.
  unfold u32_at. destruct (slice s i (i + 4)) as [t|[]| |] eqn:E; cbn; try done.
  - destruct (Uint32 t) as [v|[]| |] eqn:Ev; cbn; try done.
    + intros Hs. apply slice_inv in E as (_ & _ & -> & _). eapply Uint32_range; [|exact Ev].
      by apply bytes_ok_take, bytes_ok_drop.
    + by destruct t as [|? [|? [|? [|? ?]]]].
  - by apply slice_no_hang in E.
Qed.
Lemma sget_ok_or_panic (s : bytes) i : ok_or_panic (sget s i) (fun v => bytes_ok s -> is_u8 v).
Proof.
  destruct (sget s i) as [v|[]| |] eqn:E; cbn; try done.
  - intros Hs. by eapply sget_range.
  - by apply sget_no_hang in E.
Qed.
#[export] Hint Resolve u16_at_ok_or_panic u32_at_ok_or_panic sget_ok_or_panic : wire.

Definition key_ok (key : LsaKey) : Prop := is_u8 (LSType key) /\ is_u32 (LSId key) /\ is_u32 (AdvRouter key).
Definition md_ok (md : LsaMetadata) : Prop :=
  is_u16 (LSAge md) /\ is_u8 (Options md) /\ is_u32 (LSSequenceNum md) /\ is_u16 (LSChecksum md) /\ is_u16 (LSLen md).

Ltac ok_step := eapply ok_or_panic_bind; [solve [auto with wire] | intros ? ?].

Lemma decode_md_ok data : bytes_ok data ->
  ok_or_panic (decode_md data) (fun p => md_ok p.1 /\ key_ok p.2).
Proof. intros Hd. unfold decode_md. do 8 ok_step. cbn. unfold md_ok, key_ok. cbn. auto 20. Qed.

Lemma decode_tos_ok data j st : len st.1 = Z.of_nat j ->
  ok_or_panic (decode_tos data j st) (fun st => len st.1 = Z.of_nat (S j)).
Proof. destruct st as [tos start]. cbn. intros Hl. ok_step. cbn. rewrite len_app, Hl, len_cons, len_nil. lia. Qed.

Lemma decode_link_ok data i st : bytes_ok data ->
  (fun i st => len st.1 = Z.of_nat i /\ Forall (fun l => is_u8 (NumOfTOS l) /\ NumOfTOS l = len (TOSDetails l)) st.1) i st ->
  ok_or_panic (decode_link data i st) (fun st => len st.1 = Z.of_nat (S i) /\
    Forall (fun l => is_u8 (NumOfTOS l) /\ NumOfTOS l = len (TOSDetails l)) st.1).
Proof.
  intros Hd. destruct st as [links start]. cbn. intros [Hl Hf]. do 3 ok_step.
  eapply ok_or_panic_bind; [apply sget_ok_or_panic|]. intros n Hn. ok_step.
  eapply ok_or_panic_bind.
  { eapply (ok_or_panic_loop (decode_tos data) (fun j st => len st.1 = Z.of_nat j)); [|done].
    intros. by apply decode_tos_ok. }
  intros [tos stop] Ht. cbn in *. specialize (Hn Hd). rewrite len_app, Hl, len_cons, len_nil. split; [lia|].
  apply Forall_app. split; [done|]. repeat constructor; cbn; try apply Hn. unfold is_u8 in Hn. lia.
Qed.

Lemma router_ok data : bytes_ok data ->
  ok_or_panic (decodeRouterLsa data) (fun p => router_formed p.1 /\ md_ok (R_LsaMd p.1) /\ key_ok p.2).
Proof.
  intros Hd. unfold decodeRouterLsa. eapply ok_or_panic_bind; [by apply decode_md_ok|]. intros [md key] [Hmd Hk].
  ok_step. eapply ok_or_panic_bind; [apply u16_at_ok_or_panic|]. intros n Hn. specialize (Hn Hd).
  eapply ok_or_panic_bind.
  { eapply (ok_or_panic_loop (decode_link data) (fun i st => len st.1 = Z.of_nat i /\
      Forall (fun l => is_u8 (NumOfTOS l) /\ NumOfTOS l = len (TOSDetails l)) st.1)); [|by cbn].
    intros. by apply decode_link_ok. }
  intros [links stop] [Hl Hf]. cbn in *. unfold is_u16 in Hn. split; [|done]. split; cbn; [lia | done].
Qed.

(** C40: on any bytes no decoder of LSAs loops. With L the length field, and divisions towards zero as Go's: that of
    network LSAs returns a value when there are 24 bytes, n = (L-24)/4 is not negative and there are 4n more; that of
    summary LSAs when there are 28 bytes and n = (L-28)/8 is not positive or there are 4n more (the code reads 4 bytes
    for every 8 of the length); that of AS external LSAs when there are 36 bytes, n = (L-36)/8 is not negative and
    there are 12n more (12 bytes for every 8). They panic otherwise. What the decoder of router LSAs returns has as
    many links, and as many types of service in each link, as it says; it returns or panics. *)
Theorem lsa_decode_total data : bytes_ok data ->
  ok_or_panic (decodeRouterLsa data) (fun p => router_formed p.1) /\
  decodes (decodeNetworkLsa data)
    ((24 <=? len data) && (0 <=? Z.quot (length_field data - 24) 4) && quot_fits data 24 4 4) /\
  decodes (decodeSummaryLsa data)
    ((28 <=? len data) && ((Z.quot (length_field data - 28) 8 <=? 0) || quot_fits data 28 4 8)) /\
  decodes (decodeASExternalLsa data)
    ((36 <=? len data) && (0 <=? Z.quot (length_field data - 36) 8) && quot_fits data 36 12 8).
Proof.
  intros Hd. split; [|split; [apply network_total | split; [apply summary_total | apply external_total]]].
  pose proof (router_ok data Hd) as H. destruct (decodeRouterLsa data); try done. apply H.
Qed.

(** An AS external LSA with two types of service, as RFC 2328 lays it out. *)
Definition two_tos_external : bytes :=
  be16 0 ++ [2; 5] ++ be32 167772160 ++ be32 16843009 ++ be32 InitialSequenceNumber ++ be16 0 ++ be16 60 ++
  be32 4278190080 ++ be32 10 ++ be32 0 ++ be32 0 ++
  be32 (8 * 16777216 + 20) ++ be32 0 ++ be32 0 ++ be32 (16 * 16777216 + 30) ++ be32 0 ++ be32 0.
Lemma two_tos_external_crash : len two_tos_external = 60 /\ decodeASExternalLsa two_tos_external = Panic.
Proof. split; vm_compute; reflexivity. Qed.

Lemma lsa_decode_total_witness : exists data, bytes_ok data /\
  decodes (decodeASExternalLsa data)
    ((36 <=? len data) && (0 <=? Z.quot (length_field data - 36) 8) && quot_fits data 36 12 8) /\
  decodeASExternalLsa data = Panic.
Proof.
  assert (H : bytes_ok two_tos_external).
  { unfold two_tos_external. rewrite !bytes_ok_app. repeat split; auto with wire. unfold bytes_ok, is_u8.
    repeat constructor; lia. }
  exists two_tos_external. split; [exact H|]. split; [exact (proj2 (proj2 (proj2 (lsa_decode_total two_tos_external H))))|].
  vm_compute. reflexivity.
Defined.
