(* ===== verification/OspfState.v ===== *)
(** The state of the OSPF daemon ([src/ospf/server/server.go] and the files that declare its parts): link state
    databases, areas, interfaces, neighbors, the graph and the tree of the SPF calculation, routing tables.

    The three goroutines of the daemon that use this state hand it over on unbuffered channels; what they
    send to the goroutines that write the database and to the neighbor machine, and the calls of the
    route manager, are appended to [out]. *)
From stdpp Require Import base numbers list gmap strings.
From Stdlib Require Import ZArith Lia.
From S2P Require Import Prelude GoNet OspfUtil OspfLsa.
Open Scope Z_scope.

(** A map of the code is ranged over in an order that is a parameter: any order of its keys, which may be another one for
    another content. The parameter is that of one event: runs of events (of the database, of the ticker, of an interface) have an order for
    each. Within an event, maps with the same content are visited in the same order, while Go may choose again. *)
Class MapOrder := range : forall {K A : Type} `{Countable K}, gmap K A -> list K.
Class MapOrderOk {mo : MapOrder} : Prop :=
  range_keys : forall (K A : Type) `{Countable K} (m : gmap K A), range m ≡ₚ (map_to_list m).*1.

(** [for _, x := range l] *)
Fixpoint for_each {E A B} (body : A -> B -> outcome E B) (l : list A) (b : B) : outcome E B :=
  match l with
  | [] => Ok b
  | x :: l => b ← body x b; for_each body l b
  end.
(** [for k, a := range m], of a map whose other entries the body leaves alone. *)
Definition for_map {mo : MapOrder} {E K A B} `{Countable K} (m : gmap K A) (body : K -> A -> B -> outcome E B) (b : B)
  : outcome E B := for_each (fun k b => match m !! k with Some a => body k a b | None => Ok b end) (range m) b.

(** What the body keeps holds at the end: [I] of the elements that were visited. *)
Lemma for_each_rule {E A B} (I : list A -> B -> Prop) (body : A -> B -> outcome E B) l : forall pre b,
  (forall done x rest b, pre ++ l = done ++ x :: rest -> I done b -> exists b', body x b = Ok b' /\ I (done ++ [x]) b') ->
  I pre b -> exists b', for_each body l b = Ok b' /\ I (pre ++ l) b'.
Proof.
  induction l as [|x l IH]; intros pre b Hb HI; cbn [for_each]; [rewrite app_nil_r; by exists b|].
  destruct (Hb pre x l b eq_refl HI) as (b' & -> & HI'). rewrite bind_Ok.
  destruct (IH (pre ++ [x]) b') as (b'' & -> & HI''); [|done | exists b''; by rewrite <- app_assoc in HI''].
  intros done y rest c. rewrite <- app_assoc. apply Hb.
Qed.

(** The same for the entries of a map: [I] of the keys that were visited. *)
Lemma for_map_rule {mo : MapOrder} {mok : MapOrderOk} {E K A B} `{Countable K} (m : gmap K A) (I : gset K -> B -> Prop)
    (body : K -> A -> B -> outcome E B) b :
  (forall seen k a b, m !! k = Some a -> k ∉ seen -> I seen b -> exists b', body k a b = Ok b' /\ I ({[k]} ∪ seen) b') ->
  I ∅ b -> exists b', for_map m body b = Ok b' /\ I (dom m) b'.
Proof.
  intros Hb H0. unfold for_map. pose proof (range_keys K A m) as Hp.
  assert (Hnd : NoDup (range m)) by (rewrite Hp; apply NoDup_fst_map_to_list).
  destruct (for_each_rule (fun l b => I (list_to_set l) b) (fun k b => match m !! k with Some a => body k a b | None => Ok b end) (range m) [] b)
    as (b' & -> & HI); [|done|].
  - intros done x rest c E1 HI. cbn in E1. assert (Hx : x ∈ range m) by (rewrite E1; set_solver).
    rewrite Hp in Hx. apply list_elem_of_fmap in Hx as ([k a] & -> & Hk). apply elem_of_map_to_list in Hk. cbn [fst] in *. rewrite Hk.
    destruct (Hb (list_to_set done) k a c Hk) as (c' & Hc & HI'); [|done|].
    + rewrite elem_of_list_to_set. rewrite E1 in Hnd. apply NoDup_app in Hnd as (_ & Hd & _). intros Hin. apply (Hd k Hin). by left.
    + exists c'. split; [done|].
      replace (list_to_set (C := gset K) (done ++ [k])) with ({[k]} ∪ list_to_set (C := gset K) done); [done|].
      apply set_eq. intros y. rewrite elem_of_list_to_set. set_solver.
  - exists b'. split; [done|]. cbn [app] in HI. replace (dom m) with (list_to_set (C := gset K) (range m)); [done|].
    apply set_eq. intros k. rewrite elem_of_list_to_set, Hp, elem_of_dom, list_elem_of_fmap. split.
    + intros ([k' a] & -> & Hk). apply elem_of_map_to_list in Hk. by exists a.
    + intros [a Ha]. exists (k, a). split; [done|]. by apply elem_of_map_to_list.
Qed.

(** ** Link state databases *)

(** [LSDatabase{}] has nil maps; those that [initLSDatabase] makes are [Some] of this. *)
Record LSDatabase := {
  RouterLsaMap : gmap LsaKey RouterLsa;
  NetworkLsaMap : gmap LsaKey NetworkLsa;
  Summary3LsaMap : gmap LsaKey SummaryLsa;
  Summary4LsaMap : gmap LsaKey SummaryLsa;
  ASExternalLsaMap : gmap LsaKey ASExternalLsa;
}.
Definition empty_lsdb : LSDatabase :=
  {| RouterLsaMap := ∅; NetworkLsaMap := ∅; Summary3LsaMap := ∅; Summary4LsaMap := ∅; ASExternalLsaMap := ∅ |}.
Definition set_RouterLsaMap (x : gmap LsaKey RouterLsa) (d : LSDatabase) : LSDatabase :=
  {| RouterLsaMap := x; NetworkLsaMap := NetworkLsaMap d; Summary3LsaMap := Summary3LsaMap d;
     Summary4LsaMap := Summary4LsaMap d; ASExternalLsaMap := ASExternalLsaMap d |}.
Definition set_NetworkLsaMap (x : gmap LsaKey NetworkLsa) (d : LSDatabase) : LSDatabase :=
  {| RouterLsaMap := RouterLsaMap d; NetworkLsaMap := x; Summary3LsaMap := Summary3LsaMap d;
     Summary4LsaMap := Summary4LsaMap d; ASExternalLsaMap := ASExternalLsaMap d |}.
Definition set_Summary3LsaMap (x : gmap LsaKey SummaryLsa) (d : LSDatabase) : LSDatabase :=
  {| RouterLsaMap := RouterLsaMap d; NetworkLsaMap := NetworkLsaMap d; Summary3LsaMap := x; Summary4LsaMap
     := Summary4LsaMap d; ASExternalLsaMap := ASExternalLsaMap d |}.
Definition set_Summary4LsaMap (x : gmap LsaKey SummaryLsa) (d : LSDatabase) : LSDatabase :=
  {| RouterLsaMap := RouterLsaMap d; NetworkLsaMap := NetworkLsaMap d; Summary3LsaMap := Summary3LsaMap d;
     Summary4LsaMap := x; ASExternalLsaMap := ASExternalLsaMap d |}.
Definition set_ASExternalLsaMap (x : gmap LsaKey ASExternalLsa) (d : LSDatabase) : LSDatabase :=
  {| RouterLsaMap := RouterLsaMap d; NetworkLsaMap := NetworkLsaMap d; Summary3LsaMap := Summary3LsaMap d;
     Summary4LsaMap := Summary4LsaMap d; ASExternalLsaMap := x |}.

Record LsdbSliceEnt := {
  le_AreaId : Z;
  le_LSType : Z;
  le_LSId : Z;
  le_AdvRtr : Z;
}.

(** ** Areas, interfaces, neighbors *)

Record IntfConfKey := {
  ik_IPAddr : string;
  ik_IntfIdx : Z;
}.
#[global] Instance IntfConfKey_eq_dec : EqDecision IntfConfKey.
Proof. solve_decision. Defined.
#[global] Instance IntfConfKey_countable : Countable IntfConfKey.
Proof.
  refine (inj_countable' (fun x => (ik_IPAddr x, ik_IntfIdx x)) (fun '(a0, a1) => Build_IntfConfKey a0 a1) _).
  by intros [].
Defined.

Record NeighborConfKey := {
  nk_IPAddr : string;
  nk_IntfIdx : Z;
}.
#[global] Instance NeighborConfKey_eq_dec : EqDecision NeighborConfKey.
Proof. solve_decision. Defined.
#[global] Instance NeighborConfKey_countable : Countable NeighborConfKey.
Proof.
  refine (inj_countable' (fun x => (nk_IPAddr x, nk_IntfIdx x)) (fun '(a0, a1) => Build_NeighborConfKey a0 a1) _).
  by intros [].
Defined.

Record AreaConf := {
  ImportAsExtern : Z;
  StubDefaultCost : Z;
  TransitCapability : bool;
  IntfListMap : gmap IntfConfKey bool;
}.
Definition set_TransitCapability (x : bool) (a : AreaConf) : AreaConf :=
  {| ImportAsExtern := ImportAsExtern a; StubDefaultCost := StubDefaultCost a; TransitCapability := x;
     IntfListMap := IntfListMap a |}.

(** [config.IfType], [config.IfState], [config.NbrState] *)
Definition Broadcast : Z := 1.
Definition NumberedP2P : Z := 3.
Definition UnnumberedP2P : Z := 4.
Definition Waiting : Z := 3.
Definition NbrExchange : Z := 6.
Definition NbrLoading : Z := 7.
Definition NbrFull : Z := 8.

Record NeighborData := {
  TwoWayStatus : bool;
  RtrPrio : Z;
  DRtr : bytes;
  BDRtr : bytes;
  nd_NbrIP : Z;
  FullState : bool;
}.
(** [HelloIntervalTicker]: there is a ticker. [WaitTimer]: none, or one that runs ([true]) or does not. *)
Record IntfConf := {
  IfAreaId : bytes;
  IfType : Z;
  NeighborMap : gmap NeighborConfKey NeighborData;
  IfDRIp : bytes;
  IfFSMState : Z;
  IfDRtrId : Z;
  IfIpAddr : bytes;
  IfNetmask : bytes;
  IfCost : Z;
  IfRtrPriority : Z;
  IfHelloInterval : Z;
  IfRtrDeadInterval : Z;
  IfAuthKey : bytes;
  IfAuthType : Z;
  IfBDRIp : bytes;
  IfBDRtrId : Z;
  IfEvents : Z;
  HelloIntervalTicker : bool;
  WaitTimer : option bool;
  IfMacAddr : bytes;
}.
(** What a lookup returns that finds nothing. *)
Definition zero_intf : IntfConf :=
  {| IfAreaId := []; IfType := 0; NeighborMap := ∅; IfDRIp := []; IfFSMState := 0; IfDRtrId := 0;
     IfIpAddr := []; IfNetmask := []; IfCost := 0; IfRtrPriority := 0; IfHelloInterval := 0; IfRtrDeadInterval := 0;
     IfAuthKey := []; IfAuthType := 0; IfBDRIp := []; IfBDRtrId := 0; IfEvents := 0; HelloIntervalTicker := false;
     WaitTimer := None; IfMacAddr := [] |}.
Record OspfNeighborEntry := {
  OspfNbrRtrId : Z;
  OspfNbrIPAddr : bytes;
  nb_intfConfKey : IntfConfKey;
  OspfNbrState : Z;
}.
Definition zero_nbr : OspfNeighborEntry :=
  {| OspfNbrRtrId := 0; OspfNbrIPAddr := []; nb_intfConfKey := {| ik_IPAddr := ""; ik_IntfIdx := 0 |};
     OspfNbrState := 0 |}.
Record IpProperty := {
  IfId : Z;
  ip_IfType : Z;
}.

(** ** The SPF calculation *)

Record VertexKey := {
  vk_Type : Z;
  ID : Z;
  AdvRtr : Z;
}.
#[global] Instance VertexKey_eq_dec : EqDecision VertexKey.
Proof. solve_decision. Defined.
#[global] Instance VertexKey_countable : Countable VertexKey.
Proof.
  refine (inj_countable' (fun x => (vk_Type x, ID x, AdvRtr x)) (fun '(a0, a1, a2) => Build_VertexKey a0 a1 a2) _).
  by intros [].
Defined.

Definition RouterVertex : Z := 0.
Definition SNetworkVertex : Z := 1.
Definition TNetworkVertex : Z := 2.

Abbreviation Path := (list VertexKey).

Record TreeVertex := {
  Paths : list Path;
  Distance : Z;
  NumOfPaths : nat;
}.
Record StubVertex := {
  sv_NbrVertexKey : VertexKey;
  sv_NbrVertexCost : Z;
  sv_LinkData : Z;
  sv_LsaKey : LsaKey;
  sv_AreaId : Z;
  sv_LinkStateId : Z;
}.
Record Vertex := {
  NbrVertexKey : list VertexKey;
  NbrVertexCost : list Z;
  v_LinkData : gmap VertexKey Z;
  v_LsaKey : LsaKey;
  v_AreaId : Z;
  Visited : bool;
  LinkStateId : Z;
}.
Definition zero_vertex : Vertex :=
  {| NbrVertexKey := []; NbrVertexCost := []; v_LinkData := ∅; v_LsaKey := NewLsaKey; v_AreaId := 0;
     Visited := false; LinkStateId := 0 |}.
Definition set_Visited (x : bool) (w : Vertex) : Vertex :=
  {| NbrVertexKey := NbrVertexKey w; NbrVertexCost := NbrVertexCost w; v_LinkData := v_LinkData w;
     v_LsaKey := v_LsaKey w; v_AreaId := v_AreaId w; Visited := x; LinkStateId := LinkStateId w |}.

(** ** Routing tables *)

Inductive DestType := Network | InternalRouter | ASBdrRouter | AreaBdrRouter | ASAreaBdrRouter.
#[global] Instance DestType_eq_dec : EqDecision DestType.
Proof. solve_decision. Defined.
Definition DestType_value (d : DestType) : Z :=
  match d with Network => 0 | InternalRouter => 1 | ASBdrRouter => 2 | AreaBdrRouter => 3 | ASAreaBdrRouter => 4 end.
#[global] Instance DestType_countable : Countable DestType.
Proof.
  refine (inj_countable' DestType_value (fun z => if z =? 0 then Network else if z =? 1 then InternalRouter
    else if z =? 2 then ASBdrRouter else if z =? 3 then AreaBdrRouter else ASAreaBdrRouter) _).
  by intros [].
Defined.
(** In the order of precedence. *)
Inductive PathType := IntraArea | InterArea | Type1Ext | Type2Ext.
#[global] Instance PathType_eq_dec : EqDecision PathType.
Proof. solve_decision. Defined.

Record NextHop := {
  IfIPAddr : Z;
  IfIdx : Z;
  NextHopIP : Z;
  nh_AdvRtr : Z;
}.
#[global] Instance NextHop_eq_dec : EqDecision NextHop.
Proof. solve_decision. Defined.
#[global] Instance NextHop_countable : Countable NextHop.
Proof.
  refine (inj_countable' (fun x => (IfIPAddr x, IfIdx x, NextHopIP x, nh_AdvRtr x)) (fun '(a0, a1, a2, a3) => Build_NextHop a0 a1 a2 a3) _).
  by intros [].
Defined.

Record RoutingTblEntryKey := {
  DestId : Z;
  AddrMask : Z;
  rk_DestType : DestType;
}.
#[global] Instance RoutingTblEntryKey_eq_dec : EqDecision RoutingTblEntryKey.
Proof. solve_decision. Defined.
#[global] Instance RoutingTblEntryKey_countable : Countable RoutingTblEntryKey.
Proof.
  refine (inj_countable' (fun x => (DestId x, AddrMask x, rk_DestType x)) (fun '(a0, a1, a2) => Build_RoutingTblEntryKey a0 a1 a2) _).
  by intros [].
Defined.

(** The next hops are the keys of a map to [true]. *)
Record RoutingTblEntry := {
  OptCapabilities : Z;
  re_PathType : PathType;
  Cost : Z;
  Type2Cost : Z;
  LSOrigin : LsaKey;
  re_NumOfPaths : nat;
  NextHops : gmap NextHop bool;
}.
Record GlobalRoutingTblEntry := {
  ge_AreaId : Z;
  RoutingTblEnt : RoutingTblEntry;
}.

(** ** Messages *)

(** [ospfFloodMsg.lsOp] *)
Inductive LsaOp := LSAFLOOD | LSASELFLOOD | LSAINTF | LSAAGE | LSASUMMARYFLOOD | LSAEXTFLOOD | LSAROUTERFLOOD.

(** [NeighCreateMsg], [NeighChangeMsg] *)
Record NeighMsg := {
  nm_RouterId : Z;
  nm_NbrIP : Z;
  nm_TwoWayStatus : bool;
  nm_RtrPrio : Z;
  nm_DRtr : bytes;
  nm_BDRtr : bytes;
}.
Record IntfToNeighMsg := {
  im_IntfConfKey : IntfConfKey;
  im_RouterId : Z;
  im_RtrPrio : Z;
  im_NeighborIP : bytes;
  im_nbrDeadTimer : Z;
  im_TwoWayStatus : bool;
}.
Record ospfLSAHeader := {
  ls_age : Z;
  ls_options : Z;
  ls_type : Z;
  link_state_id : Z;
  adv_router_id : Z;
  ls_sequence_num : Z;
  ls_checksum : Z;
  ls_len : Z;
}.
Record ospfDatabaseDescriptionData := {
  dd_options : Z;
  interface_mtu : Z;
  dd_sequence_number : Z;
  ibit : bool;
  mbit : bool;
  msbit : bool;
  lsa_headers : list ospfLSAHeader;
}.
Record ospfLSAReq := {
  req_ls_type : Z;
  req_link_state_id : Z;
  req_adv_router_id : Z;
}.

Inductive Out :=
  | DbLsdb (op : bool) (ent : LsdbSliceEnt)
  | DbRoute (op : bool) (rKey : RoutingTblEntryKey)
  | DbEvent
  | DelLsdb (ent : LsdbSliceEnt)
  | DelRouteState (rKey : RoutingTblEntryKey)
  | CreateIPv4Route (rKey : RoutingTblEntryKey) (metric : Z) (nextHopIp : Z) (ifc : IpProperty)
  | DeleteIPv4Route (rKey : RoutingTblEntryKey) (nextHopIp : Z)
  | Flood (op : LsaOp) (intfKey : IntfConfKey) (nbrKey : NeighborConfKey) (areaId lsType linkid : Z) (lsaKey : LsaKey)
      (pkt : bytes)
  | NeighborIntfEvent (intfKey : IntfConfKey)
  | AckTx (headers : bytes) (nbrKey : NeighborConfKey)
  | LsdbUpdateMsg (MsgType AreaId : Z) (Data : bytes)
  | SendPkt (key : IntfConfKey) (pkt : bytes)
  | StateChange (areaId : Z) (intfKey : IntfConfKey)
  | DrChange (areaId : Z) (intfKey : IntfConfKey) (oldstate newstate : Z)
  | NeighCreate (intfKey : IntfConfKey) (msg : NeighMsg)
  | NeighChange (intfKey : IntfConfKey) (msg : NeighMsg)
  | BackupSeen (intfKey : IntfConfKey) (RouterId : Z) (BDRId DRId : bytes)
  | HelloRecvd (msg : IntfToNeighMsg)
  | DbdEvent (nbrKey : NeighborConfKey) (data : ospfDatabaseDescriptionData)
  | LsaReqEvent (nbrKey : NeighborConfKey) (reqs : list ospfLSAReq)
  | LsaUpdEvent (nbrKey : NeighborConfKey) (areaId : Z) (data beyond : bytes)
  | LsaAckEvent (nbrKey : NeighborConfKey) (headers : list ospfLSAHeader)
  | DoneCalcSPF.

Record OSPFServer := {
  AreaLsdb : gmap Z (option LSDatabase);
  AreaSelfOrigLsa : gmap Z (option (gmap LsaKey bool));
  LsdbSlice : list LsdbSliceEnt;
  maxAgeLsaMap : gmap LsaKey bytes;
  RouterId : bytes;
  AreaBdrRtrStatus : bool;
  AreaConfMap : gmap string AreaConf;
  IntfConfMap : gmap IntfConfKey IntfConf;
  NeighborConfigMap : gmap NeighborConfKey OspfNeighborEntry;
  ospfIntfToNbrMap : gmap IntfConfKey (list NeighborConfKey);
  ipPropertyMap : gmap Z IpProperty;
  ribdClientHdl : bool;
  AreaGraph : gmap VertexKey Vertex;
  AreaStubs : gmap VertexKey StubVertex;
  SPFTree : gmap VertexKey TreeVertex;
  TempAreaRoutingTbl : gmap Z (gmap RoutingTblEntryKey RoutingTblEntry);
  GlobalRoutingTbl : gmap RoutingTblEntryKey GlobalRoutingTblEntry;
  OldGlobalRoutingTbl : gmap RoutingTblEntryKey GlobalRoutingTblEntry;
  TempGlobalRoutingTbl : gmap RoutingTblEntryKey GlobalRoutingTblEntry;
  SummaryLsDb : gmap Z (gmap LsaKey SummaryLsa);
  Version : Z;
  IPToMAC : gmap NeighborConfKey bytes;
  out : list Out;
}.
Definition set_AreaLsdb (x : gmap Z (option LSDatabase)) (s : OSPFServer) : OSPFServer :=
  {| AreaLsdb := x; AreaSelfOrigLsa := AreaSelfOrigLsa s; LsdbSlice := LsdbSlice s; maxAgeLsaMap :=
     maxAgeLsaMap s; RouterId := RouterId s; AreaBdrRtrStatus := AreaBdrRtrStatus s; AreaConfMap :=
     AreaConfMap s; IntfConfMap := IntfConfMap s; NeighborConfigMap := NeighborConfigMap s;
     ospfIntfToNbrMap := ospfIntfToNbrMap s; ipPropertyMap := ipPropertyMap s; ribdClientHdl :=
     ribdClientHdl s; AreaGraph := AreaGraph s; AreaStubs := AreaStubs s; SPFTree := SPFTree s;
     TempAreaRoutingTbl := TempAreaRoutingTbl s; GlobalRoutingTbl := GlobalRoutingTbl s;
     OldGlobalRoutingTbl := OldGlobalRoutingTbl s; TempGlobalRoutingTbl := TempGlobalRoutingTbl s;
     SummaryLsDb := SummaryLsDb s; Version := Version s;
     IPToMAC := IPToMAC s; out := out s |}.
Definition set_AreaSelfOrigLsa (x : gmap Z (option (gmap LsaKey bool))) (s : OSPFServer) : OSPFServer :=
  {| AreaLsdb := AreaLsdb s; AreaSelfOrigLsa := x; LsdbSlice := LsdbSlice s; maxAgeLsaMap := maxAgeLsaMap
     s; RouterId := RouterId s; AreaBdrRtrStatus := AreaBdrRtrStatus s; AreaConfMap := AreaConfMap s;
     IntfConfMap := IntfConfMap s; NeighborConfigMap := NeighborConfigMap s; ospfIntfToNbrMap :=
     ospfIntfToNbrMap s; ipPropertyMap := ipPropertyMap s; ribdClientHdl := ribdClientHdl s; AreaGraph :=
     AreaGraph s; AreaStubs := AreaStubs s; SPFTree := SPFTree s; TempAreaRoutingTbl := TempAreaRoutingTbl
     s; GlobalRoutingTbl := GlobalRoutingTbl s; OldGlobalRoutingTbl := OldGlobalRoutingTbl s;
     TempGlobalRoutingTbl := TempGlobalRoutingTbl s; SummaryLsDb := SummaryLsDb s; Version := Version s;
     IPToMAC := IPToMAC s; out := out s |}.
Definition set_LsdbSlice (x : list LsdbSliceEnt) (s : OSPFServer) : OSPFServer :=
  {| AreaLsdb := AreaLsdb s; AreaSelfOrigLsa := AreaSelfOrigLsa s; LsdbSlice := x; maxAgeLsaMap :=
     maxAgeLsaMap s; RouterId := RouterId s; AreaBdrRtrStatus := AreaBdrRtrStatus s; AreaConfMap :=
     AreaConfMap s; IntfConfMap := IntfConfMap s; NeighborConfigMap := NeighborConfigMap s;
     ospfIntfToNbrMap := ospfIntfToNbrMap s; ipPropertyMap := ipPropertyMap s; ribdClientHdl :=
     ribdClientHdl s; AreaGraph := AreaGraph s; AreaStubs := AreaStubs s; SPFTree := SPFTree s;
     TempAreaRoutingTbl := TempAreaRoutingTbl s; GlobalRoutingTbl := GlobalRoutingTbl s;
     OldGlobalRoutingTbl := OldGlobalRoutingTbl s; TempGlobalRoutingTbl := TempGlobalRoutingTbl s;
     SummaryLsDb := SummaryLsDb s; Version := Version s;
     IPToMAC := IPToMAC s; out := out s |}.
Definition set_maxAgeLsaMap (x : gmap LsaKey bytes) (s : OSPFServer) : OSPFServer :=
  {| AreaLsdb := AreaLsdb s; AreaSelfOrigLsa := AreaSelfOrigLsa s; LsdbSlice := LsdbSlice s; maxAgeLsaMap
     := x; RouterId := RouterId s; AreaBdrRtrStatus := AreaBdrRtrStatus s; AreaConfMap := AreaConfMap s;
     IntfConfMap := IntfConfMap s; NeighborConfigMap := NeighborConfigMap s; ospfIntfToNbrMap :=
     ospfIntfToNbrMap s; ipPropertyMap := ipPropertyMap s; ribdClientHdl := ribdClientHdl s; AreaGraph :=
     AreaGraph s; AreaStubs := AreaStubs s; SPFTree := SPFTree s; TempAreaRoutingTbl := TempAreaRoutingTbl
     s; GlobalRoutingTbl := GlobalRoutingTbl s; OldGlobalRoutingTbl := OldGlobalRoutingTbl s;
     TempGlobalRoutingTbl := TempGlobalRoutingTbl s; SummaryLsDb := SummaryLsDb s; Version := Version s;
     IPToMAC := IPToMAC s; out := out s |}.
Definition set_RouterId (x : bytes) (s : OSPFServer) : OSPFServer :=
  {| AreaLsdb := AreaLsdb s; AreaSelfOrigLsa := AreaSelfOrigLsa s; LsdbSlice := LsdbSlice s; maxAgeLsaMap
     := maxAgeLsaMap s; RouterId := x; AreaBdrRtrStatus := AreaBdrRtrStatus s; AreaConfMap := AreaConfMap
     s; IntfConfMap := IntfConfMap s; NeighborConfigMap := NeighborConfigMap s; ospfIntfToNbrMap :=
     ospfIntfToNbrMap s; ipPropertyMap := ipPropertyMap s; ribdClientHdl := ribdClientHdl s; AreaGraph :=
     AreaGraph s; AreaStubs := AreaStubs s; SPFTree := SPFTree s; TempAreaRoutingTbl := TempAreaRoutingTbl
     s; GlobalRoutingTbl := GlobalRoutingTbl s; OldGlobalRoutingTbl := OldGlobalRoutingTbl s;
     TempGlobalRoutingTbl := TempGlobalRoutingTbl s; SummaryLsDb := SummaryLsDb s; Version := Version s;
     IPToMAC := IPToMAC s; out := out s |}.
Definition set_AreaBdrRtrStatus (x : bool) (s : OSPFServer) : OSPFServer :=
  {| AreaLsdb := AreaLsdb s; AreaSelfOrigLsa := AreaSelfOrigLsa s; LsdbSlice := LsdbSlice s; maxAgeLsaMap
     := maxAgeLsaMap s; RouterId := RouterId s; AreaBdrRtrStatus := x; AreaConfMap := AreaConfMap s;
     IntfConfMap := IntfConfMap s; NeighborConfigMap := NeighborConfigMap s; ospfIntfToNbrMap :=
     ospfIntfToNbrMap s; ipPropertyMap := ipPropertyMap s; ribdClientHdl := ribdClientHdl s; AreaGraph :=
     AreaGraph s; AreaStubs := AreaStubs s; SPFTree := SPFTree s; TempAreaRoutingTbl := TempAreaRoutingTbl
     s; GlobalRoutingTbl := GlobalRoutingTbl s; OldGlobalRoutingTbl := OldGlobalRoutingTbl s;
     TempGlobalRoutingTbl := TempGlobalRoutingTbl s; SummaryLsDb := SummaryLsDb s; Version := Version s;
     IPToMAC := IPToMAC s; out := out s |}.
Definition set_AreaConfMap (x : gmap string AreaConf) (s : OSPFServer) : OSPFServer :=
  {| AreaLsdb := AreaLsdb s; AreaSelfOrigLsa := AreaSelfOrigLsa s; LsdbSlice := LsdbSlice s; maxAgeLsaMap
     := maxAgeLsaMap s; RouterId := RouterId s; AreaBdrRtrStatus := AreaBdrRtrStatus s; AreaConfMap := x;
     IntfConfMap := IntfConfMap s; NeighborConfigMap := NeighborConfigMap s; ospfIntfToNbrMap :=
     ospfIntfToNbrMap s; ipPropertyMap := ipPropertyMap s; ribdClientHdl := ribdClientHdl s; AreaGraph :=
     AreaGraph s; AreaStubs := AreaStubs s; SPFTree := SPFTree s; TempAreaRoutingTbl := TempAreaRoutingTbl
     s; GlobalRoutingTbl := GlobalRoutingTbl s; OldGlobalRoutingTbl := OldGlobalRoutingTbl s;
     TempGlobalRoutingTbl := TempGlobalRoutingTbl s; SummaryLsDb := SummaryLsDb s; Version := Version s;
     IPToMAC := IPToMAC s; out := out s |}.
Definition set_IntfConfMap (x : gmap IntfConfKey IntfConf) (s : OSPFServer) : OSPFServer :=
  {| AreaLsdb := AreaLsdb s; AreaSelfOrigLsa := AreaSelfOrigLsa s; LsdbSlice := LsdbSlice s; maxAgeLsaMap
     := maxAgeLsaMap s; RouterId := RouterId s; AreaBdrRtrStatus := AreaBdrRtrStatus s; AreaConfMap :=
     AreaConfMap s; IntfConfMap := x; NeighborConfigMap := NeighborConfigMap s; ospfIntfToNbrMap :=
     ospfIntfToNbrMap s; ipPropertyMap := ipPropertyMap s; ribdClientHdl := ribdClientHdl s; AreaGraph :=
     AreaGraph s; AreaStubs := AreaStubs s; SPFTree := SPFTree s; TempAreaRoutingTbl := TempAreaRoutingTbl
     s; GlobalRoutingTbl := GlobalRoutingTbl s; OldGlobalRoutingTbl := OldGlobalRoutingTbl s;
     TempGlobalRoutingTbl := TempGlobalRoutingTbl s; SummaryLsDb := SummaryLsDb s; Version := Version s;
     IPToMAC := IPToMAC s; out := out s |}.
Definition set_NeighborConfigMap (x : gmap NeighborConfKey OspfNeighborEntry) (s : OSPFServer) : OSPFServer :=
  {| AreaLsdb := AreaLsdb s; AreaSelfOrigLsa := AreaSelfOrigLsa s; LsdbSlice := LsdbSlice s; maxAgeLsaMap
     := maxAgeLsaMap s; RouterId := RouterId s; AreaBdrRtrStatus := AreaBdrRtrStatus s; AreaConfMap :=
     AreaConfMap s; IntfConfMap := IntfConfMap s; NeighborConfigMap := x; ospfIntfToNbrMap :=
     ospfIntfToNbrMap s; ipPropertyMap := ipPropertyMap s; ribdClientHdl := ribdClientHdl s; AreaGraph :=
     AreaGraph s; AreaStubs := AreaStubs s; SPFTree := SPFTree s; TempAreaRoutingTbl := TempAreaRoutingTbl
     s; GlobalRoutingTbl := GlobalRoutingTbl s; OldGlobalRoutingTbl := OldGlobalRoutingTbl s;
     TempGlobalRoutingTbl := TempGlobalRoutingTbl s; SummaryLsDb := SummaryLsDb s; Version := Version s;
     IPToMAC := IPToMAC s; out := out s |}.
Definition set_ospfIntfToNbrMap (x : gmap IntfConfKey (list NeighborConfKey)) (s : OSPFServer) : OSPFServer :=
  {| AreaLsdb := AreaLsdb s; AreaSelfOrigLsa := AreaSelfOrigLsa s; LsdbSlice := LsdbSlice s; maxAgeLsaMap
     := maxAgeLsaMap s; RouterId := RouterId s; AreaBdrRtrStatus := AreaBdrRtrStatus s; AreaConfMap :=
     AreaConfMap s; IntfConfMap := IntfConfMap s; NeighborConfigMap := NeighborConfigMap s;
     ospfIntfToNbrMap := x; ipPropertyMap := ipPropertyMap s; ribdClientHdl := ribdClientHdl s; AreaGraph
     := AreaGraph s; AreaStubs := AreaStubs s; SPFTree := SPFTree s; TempAreaRoutingTbl :=
     TempAreaRoutingTbl s; GlobalRoutingTbl := GlobalRoutingTbl s; OldGlobalRoutingTbl :=
     OldGlobalRoutingTbl s; TempGlobalRoutingTbl := TempGlobalRoutingTbl s; SummaryLsDb := SummaryLsDb s; Version := Version s;
     IPToMAC := IPToMAC s; out := out s |}.
Definition set_ipPropertyMap (x : gmap Z IpProperty) (s : OSPFServer) : OSPFServer :=
  {| AreaLsdb := AreaLsdb s; AreaSelfOrigLsa := AreaSelfOrigLsa s; LsdbSlice := LsdbSlice s; maxAgeLsaMap
     := maxAgeLsaMap s; RouterId := RouterId s; AreaBdrRtrStatus := AreaBdrRtrStatus s; AreaConfMap :=
     AreaConfMap s; IntfConfMap := IntfConfMap s; NeighborConfigMap := NeighborConfigMap s;
     ospfIntfToNbrMap := ospfIntfToNbrMap s; ipPropertyMap := x; ribdClientHdl := ribdClientHdl s;
     AreaGraph := AreaGraph s; AreaStubs := AreaStubs s; SPFTree := SPFTree s; TempAreaRoutingTbl :=
     TempAreaRoutingTbl s; GlobalRoutingTbl := GlobalRoutingTbl s; OldGlobalRoutingTbl :=
     OldGlobalRoutingTbl s; TempGlobalRoutingTbl := TempGlobalRoutingTbl s; SummaryLsDb := SummaryLsDb s; Version := Version s;
     IPToMAC := IPToMAC s; out := out s |}.
Definition set_ribdClientHdl (x : bool) (s : OSPFServer) : OSPFServer :=
  {| AreaLsdb := AreaLsdb s; AreaSelfOrigLsa := AreaSelfOrigLsa s; LsdbSlice := LsdbSlice s; maxAgeLsaMap
     := maxAgeLsaMap s; RouterId := RouterId s; AreaBdrRtrStatus := AreaBdrRtrStatus s; AreaConfMap :=
     AreaConfMap s; IntfConfMap := IntfConfMap s; NeighborConfigMap := NeighborConfigMap s;
     ospfIntfToNbrMap := ospfIntfToNbrMap s; ipPropertyMap := ipPropertyMap s; ribdClientHdl := x;
     AreaGraph := AreaGraph s; AreaStubs := AreaStubs s; SPFTree := SPFTree s; TempAreaRoutingTbl :=
     TempAreaRoutingTbl s; GlobalRoutingTbl := GlobalRoutingTbl s; OldGlobalRoutingTbl :=
     OldGlobalRoutingTbl s; TempGlobalRoutingTbl := TempGlobalRoutingTbl s; SummaryLsDb := SummaryLsDb s; Version := Version s;
     IPToMAC := IPToMAC s; out := out s |}.
Definition set_AreaGraph (x : gmap VertexKey Vertex) (s : OSPFServer) : OSPFServer :=
  {| AreaLsdb := AreaLsdb s; AreaSelfOrigLsa := AreaSelfOrigLsa s; LsdbSlice := LsdbSlice s; maxAgeLsaMap
     := maxAgeLsaMap s; RouterId := RouterId s; AreaBdrRtrStatus := AreaBdrRtrStatus s; AreaConfMap :=
     AreaConfMap s; IntfConfMap := IntfConfMap s; NeighborConfigMap := NeighborConfigMap s;
     ospfIntfToNbrMap := ospfIntfToNbrMap s; ipPropertyMap := ipPropertyMap s; ribdClientHdl :=
     ribdClientHdl s; AreaGraph := x; AreaStubs := AreaStubs s; SPFTree := SPFTree s; TempAreaRoutingTbl
     := TempAreaRoutingTbl s; GlobalRoutingTbl := GlobalRoutingTbl s; OldGlobalRoutingTbl :=
     OldGlobalRoutingTbl s; TempGlobalRoutingTbl := TempGlobalRoutingTbl s; SummaryLsDb := SummaryLsDb s; Version := Version s;
     IPToMAC := IPToMAC s; out := out s |}.
Definition set_AreaStubs (x : gmap VertexKey StubVertex) (s : OSPFServer) : OSPFServer :=
  {| AreaLsdb := AreaLsdb s; AreaSelfOrigLsa := AreaSelfOrigLsa s; LsdbSlice := LsdbSlice s; maxAgeLsaMap
     := maxAgeLsaMap s; RouterId := RouterId s; AreaBdrRtrStatus := AreaBdrRtrStatus s; AreaConfMap :=
     AreaConfMap s; IntfConfMap := IntfConfMap s; NeighborConfigMap := NeighborConfigMap s;
     ospfIntfToNbrMap := ospfIntfToNbrMap s; ipPropertyMap := ipPropertyMap s; ribdClientHdl :=
     ribdClientHdl s; AreaGraph := AreaGraph s; AreaStubs := x; SPFTree := SPFTree s; TempAreaRoutingTbl
     := TempAreaRoutingTbl s; GlobalRoutingTbl := GlobalRoutingTbl s; OldGlobalRoutingTbl :=
     OldGlobalRoutingTbl s; TempGlobalRoutingTbl := TempGlobalRoutingTbl s; SummaryLsDb := SummaryLsDb s; Version := Version s;
     IPToMAC := IPToMAC s; out := out s |}.
Definition set_SPFTree (x : gmap VertexKey TreeVertex) (s : OSPFServer) : OSPFServer :=
  {| AreaLsdb := AreaLsdb s; AreaSelfOrigLsa := AreaSelfOrigLsa s; LsdbSlice := LsdbSlice s; maxAgeLsaMap
     := maxAgeLsaMap s; RouterId := RouterId s; AreaBdrRtrStatus := AreaBdrRtrStatus s; AreaConfMap :=
     AreaConfMap s; IntfConfMap := IntfConfMap s; NeighborConfigMap := NeighborConfigMap s;
     ospfIntfToNbrMap := ospfIntfToNbrMap s; ipPropertyMap := ipPropertyMap s; ribdClientHdl :=
     ribdClientHdl s; AreaGraph := AreaGraph s; AreaStubs := AreaStubs s; SPFTree := x; TempAreaRoutingTbl
     := TempAreaRoutingTbl s; GlobalRoutingTbl := GlobalRoutingTbl s; OldGlobalRoutingTbl :=
     OldGlobalRoutingTbl s; TempGlobalRoutingTbl := TempGlobalRoutingTbl s; SummaryLsDb := SummaryLsDb s; Version := Version s;
     IPToMAC := IPToMAC s; out := out s |}.
Definition set_TempAreaRoutingTbl (x : gmap Z (gmap RoutingTblEntryKey RoutingTblEntry)) (s : OSPFServer) : OSPFServer :=
  {| AreaLsdb := AreaLsdb s; AreaSelfOrigLsa := AreaSelfOrigLsa s; LsdbSlice := LsdbSlice s; maxAgeLsaMap
     := maxAgeLsaMap s; RouterId := RouterId s; AreaBdrRtrStatus := AreaBdrRtrStatus s; AreaConfMap :=
     AreaConfMap s; IntfConfMap := IntfConfMap s; NeighborConfigMap := NeighborConfigMap s;
     ospfIntfToNbrMap := ospfIntfToNbrMap s; ipPropertyMap := ipPropertyMap s; ribdClientHdl :=
     ribdClientHdl s; AreaGraph := AreaGraph s; AreaStubs := AreaStubs s; SPFTree := SPFTree s;
     TempAreaRoutingTbl := x; GlobalRoutingTbl := GlobalRoutingTbl s; OldGlobalRoutingTbl :=
     OldGlobalRoutingTbl s; TempGlobalRoutingTbl := TempGlobalRoutingTbl s; SummaryLsDb := SummaryLsDb s; Version := Version s;
     IPToMAC := IPToMAC s; out := out s |}.
Definition set_GlobalRoutingTbl (x : gmap RoutingTblEntryKey GlobalRoutingTblEntry) (s : OSPFServer) : OSPFServer :=
  {| AreaLsdb := AreaLsdb s; AreaSelfOrigLsa := AreaSelfOrigLsa s; LsdbSlice := LsdbSlice s; maxAgeLsaMap
     := maxAgeLsaMap s; RouterId := RouterId s; AreaBdrRtrStatus := AreaBdrRtrStatus s; AreaConfMap :=
     AreaConfMap s; IntfConfMap := IntfConfMap s; NeighborConfigMap := NeighborConfigMap s;
     ospfIntfToNbrMap := ospfIntfToNbrMap s; ipPropertyMap := ipPropertyMap s; ribdClientHdl :=
     ribdClientHdl s; AreaGraph := AreaGraph s; AreaStubs := AreaStubs s; SPFTree := SPFTree s;
     TempAreaRoutingTbl := TempAreaRoutingTbl s; GlobalRoutingTbl := x; OldGlobalRoutingTbl :=
     OldGlobalRoutingTbl s; TempGlobalRoutingTbl := TempGlobalRoutingTbl s; SummaryLsDb := SummaryLsDb s; Version := Version s;
     IPToMAC := IPToMAC s; out := out s |}.
Definition set_OldGlobalRoutingTbl (x : gmap RoutingTblEntryKey GlobalRoutingTblEntry) (s : OSPFServer) : OSPFServer :=
  {| AreaLsdb := AreaLsdb s; AreaSelfOrigLsa := AreaSelfOrigLsa s; LsdbSlice := LsdbSlice s; maxAgeLsaMap
     := maxAgeLsaMap s; RouterId := RouterId s; AreaBdrRtrStatus := AreaBdrRtrStatus s; AreaConfMap :=
     AreaConfMap s; IntfConfMap := IntfConfMap s; NeighborConfigMap := NeighborConfigMap s;
     ospfIntfToNbrMap := ospfIntfToNbrMap s; ipPropertyMap := ipPropertyMap s; ribdClientHdl :=
     ribdClientHdl s; AreaGraph := AreaGraph s; AreaStubs := AreaStubs s; SPFTree := SPFTree s;
     TempAreaRoutingTbl := TempAreaRoutingTbl s; GlobalRoutingTbl := GlobalRoutingTbl s;
     OldGlobalRoutingTbl := x; TempGlobalRoutingTbl := TempGlobalRoutingTbl s; SummaryLsDb := SummaryLsDb
     s; Version := Version s; IPToMAC := IPToMAC s; out := out s |}.
Definition set_TempGlobalRoutingTbl (x : gmap RoutingTblEntryKey GlobalRoutingTblEntry) (s : OSPFServer) : OSPFServer :=
  {| AreaLsdb := AreaLsdb s; AreaSelfOrigLsa := AreaSelfOrigLsa s; LsdbSlice := LsdbSlice s; maxAgeLsaMap
     := maxAgeLsaMap s; RouterId := RouterId s; AreaBdrRtrStatus := AreaBdrRtrStatus s; AreaConfMap :=
     AreaConfMap s; IntfConfMap := IntfConfMap s; NeighborConfigMap := NeighborConfigMap s;
     ospfIntfToNbrMap := ospfIntfToNbrMap s; ipPropertyMap := ipPropertyMap s; ribdClientHdl :=
     ribdClientHdl s; AreaGraph := AreaGraph s; AreaStubs := AreaStubs s; SPFTree := SPFTree s;
     TempAreaRoutingTbl := TempAreaRoutingTbl s; GlobalRoutingTbl := GlobalRoutingTbl s;
     OldGlobalRoutingTbl := OldGlobalRoutingTbl s; TempGlobalRoutingTbl := x; SummaryLsDb := SummaryLsDb
     s; Version := Version s; IPToMAC := IPToMAC s; out := out s |}.
Definition set_SummaryLsDb (x : gmap Z (gmap LsaKey SummaryLsa)) (s : OSPFServer) : OSPFServer :=
  {| AreaLsdb := AreaLsdb s; AreaSelfOrigLsa := AreaSelfOrigLsa s; LsdbSlice := LsdbSlice s; maxAgeLsaMap
     := maxAgeLsaMap s; RouterId := RouterId s; AreaBdrRtrStatus := AreaBdrRtrStatus s; AreaConfMap :=
     AreaConfMap s; IntfConfMap := IntfConfMap s; NeighborConfigMap := NeighborConfigMap s;
     ospfIntfToNbrMap := ospfIntfToNbrMap s; ipPropertyMap := ipPropertyMap s; ribdClientHdl :=
     ribdClientHdl s; AreaGraph := AreaGraph s; AreaStubs := AreaStubs s; SPFTree := SPFTree s;
     TempAreaRoutingTbl := TempAreaRoutingTbl s; GlobalRoutingTbl := GlobalRoutingTbl s;
     OldGlobalRoutingTbl := OldGlobalRoutingTbl s; TempGlobalRoutingTbl := TempGlobalRoutingTbl s;
     SummaryLsDb := x; Version := Version s;
     IPToMAC := IPToMAC s; out := out s |}.
Definition set_IPToMAC (x : gmap NeighborConfKey bytes) (s : OSPFServer) : OSPFServer :=
  {| AreaLsdb := AreaLsdb s; AreaSelfOrigLsa := AreaSelfOrigLsa s; LsdbSlice := LsdbSlice s; maxAgeLsaMap
     := maxAgeLsaMap s; RouterId := RouterId s; AreaBdrRtrStatus := AreaBdrRtrStatus s; AreaConfMap :=
     AreaConfMap s; IntfConfMap := IntfConfMap s; NeighborConfigMap := NeighborConfigMap s;
     ospfIntfToNbrMap := ospfIntfToNbrMap s; ipPropertyMap := ipPropertyMap s; ribdClientHdl :=
     ribdClientHdl s; AreaGraph := AreaGraph s; AreaStubs := AreaStubs s; SPFTree := SPFTree s;
     TempAreaRoutingTbl := TempAreaRoutingTbl s; GlobalRoutingTbl := GlobalRoutingTbl s;
     OldGlobalRoutingTbl := OldGlobalRoutingTbl s; TempGlobalRoutingTbl := TempGlobalRoutingTbl s;
     SummaryLsDb := SummaryLsDb s; Version := Version s;
     IPToMAC := x; out := out s |}.
Definition set_out (x : list Out) (s : OSPFServer) : OSPFServer :=
  {| AreaLsdb := AreaLsdb s; AreaSelfOrigLsa := AreaSelfOrigLsa s; LsdbSlice := LsdbSlice s; maxAgeLsaMap
     := maxAgeLsaMap s; RouterId := RouterId s; AreaBdrRtrStatus := AreaBdrRtrStatus s; AreaConfMap :=
     AreaConfMap s; IntfConfMap := IntfConfMap s; NeighborConfigMap := NeighborConfigMap s;
     ospfIntfToNbrMap := ospfIntfToNbrMap s; ipPropertyMap := ipPropertyMap s; ribdClientHdl :=
     ribdClientHdl s; AreaGraph := AreaGraph s; AreaStubs := AreaStubs s; SPFTree := SPFTree s;
     TempAreaRoutingTbl := TempAreaRoutingTbl s; GlobalRoutingTbl := GlobalRoutingTbl s;
     OldGlobalRoutingTbl := OldGlobalRoutingTbl s; TempGlobalRoutingTbl := TempGlobalRoutingTbl s;
     SummaryLsDb := SummaryLsDb s; Version := Version s;
     IPToMAC := IPToMAC s; out := x |}.
Definition put (o : Out) (s : OSPFServer) : OSPFServer := set_out (out s ++ [o]) s.

(** [server.AreaLsdb[lsdbKey]] when only read: nothing is found in nil maps. *)
Definition lsdb_of (s : OSPFServer) (areaId : Z) : LSDatabase :=
  default empty_lsdb (default None (AreaLsdb s !! areaId)).
Definition area_exists (s : OSPFServer) (areaId : Z) : bool := bool_decide (is_Some (AreaLsdb s !! areaId)).
