(* ===== verification/OspfSpf.v ===== *)
(** The SPF calculation of an area ([src/ospf/server/ospfSPF.go]): the graph that is built from its link state
    database, and the shortest paths from the router itself. *)
From stdpp Require Import base numbers list gmap strings sorting.
From Stdlib Require Import ZArith Lia.
From S2P Require Import Prelude GoNet OspfUtil OspfLsa OspfState.
Open Scope Z_scope.

(** [sort.Sort]: the result is ordered, and how elements that are not ordered come out is not specified. *)
Class SortImpl := sort_Sort : forall {A : Type}, (A -> A -> bool) -> list A -> list A.
Class SortOk {so : SortImpl} : Prop := {
  sort_perm : forall (A : Type) (less : A -> A -> bool) l, sort_Sort less l ≡ₚ l;
  sort_ordered : forall (A : Type) (less : A -> A -> bool) l,
    (forall x y, x ∈ l -> y ∈ l -> less x y = true -> less y x = false) ->
    (forall x y z, x ∈ l -> y ∈ l -> z ∈ l -> less y x = false -> less z y = false -> less z x = false) ->
    StronglySorted (fun x y => less y x = false) (sort_Sort less l);
}.

(** ** The graph *)

Section graph.
Context {mo : MapOrder}.

Definition check : bool := true.

(** [None] is the error. *)
Definition findSelfOrigRouterLsaKey (ent : gmap LsaKey bool) : option LsaKey :=
  list_find (fun key => LSType key = RouterLSA) (range ent) ≫= (fun r => Some r.2).

Fixpoint first_link (links : list LinkDetail) (n i : nat) (network netmask : Z) : go bool :=
  match n with
  | O => Ok false
  | S n =>
    link ← nth_go links i;
    if Z.land (LinkId link) netmask =? network then
      if LinkType link =? StubLink then Ok false
      else if LinkType link =? TransitLink then Ok true
      else first_link links n (S i) network netmask
    else first_link links n (S i) network netmask
  end.

Definition checkRouterLsaConsistency (s : OSPFServer) (areaId rtrId network netmask : Z) : go bool :=
  if negb (area_exists s areaId) then Ok false
  else match RouterLsaMap (lsdb_of s areaId) !! {| LSType := RouterLSA; LSId := rtrId; AdvRouter := rtrId |} with
       | None => Ok false
       | Some lsaEnt => first_link (LinkDetails lsaEnt) (Z.to_nat (NumOfLinks lsaEnt)) 0 network netmask
       end.

(** The key, and whether there is an error: without a database the zero key comes without one. *)
Definition findNetworkLsa (s : OSPFServer) (areaId LSId : Z) : LsaKey * bool :=
  if negb (area_exists s areaId) then (NewLsaKey, false)
  else match list_find (fun key => OspfLsa.LSId key = LSId /\ LSType key = NetworkLSA)
               (range (NetworkLsaMap (lsdb_of s areaId))) with
       | Some (_, key) => (key, false)
       | None => (NewLsaKey, true)
       end.
Definition findRouterLsa (s : OSPFServer) (areaId LSId : Z) : bool :=
  if negb (area_exists s areaId) then false
  else bool_decide (RouterLsaMap (lsdb_of s areaId) !! {| LSType := RouterLSA; OspfLsa.LSId := LSId; AdvRouter := LSId |} = None).

Definition add_neighbor (vKey : VertexKey) (cost lData : Z) (ent : Vertex) : Vertex :=
  {| NbrVertexKey := NbrVertexKey ent ++ [vKey]; NbrVertexCost := NbrVertexCost ent ++ [cost];
     v_LinkData := <[vKey := lData]> (v_LinkData ent);
     v_LsaKey := v_LsaKey ent; v_AreaId := v_AreaId ent; Visited := Visited ent; LinkStateId := LinkStateId ent |}.
Definition finish_vertex (areaId : Z) (lsaKey : LsaKey) (ent : Vertex) : Vertex :=
  {| NbrVertexKey := NbrVertexKey ent; NbrVertexCost := NbrVertexCost ent; v_LinkData := v_LinkData ent;
     v_AreaId := areaId; v_LsaKey := lsaKey; Visited := false; LinkStateId := LSId lsaKey |}.

Definition router_key (id : Z) : VertexKey := {| vk_Type := RouterVertex; ID := id; AdvRtr := id |}.

Fixpoint attached_routers (s : OSPFServer) (areaId network netmask : Z) (rtrs : list Z) (ent : Vertex) : go Vertex :=
  match rtrs with
  | [] => Ok ent
  | Rtr :: rtrs =>
    ret ← checkRouterLsaConsistency s areaId Rtr network netmask;
    attached_routers s areaId network netmask rtrs
      (if (ret : bool) then add_neighbor (router_key Rtr) 0 netmask ent else ent)
  end.

(** A link of a router LSA: the vertex so far, the server, and whether an error ended the loop. *)
Definition router_link (areaId : Z) (lsaKey : LsaKey) (vertexKey : VertexKey) (lsaEnt : RouterLsa) (i : nat)
    (st : Vertex * OSPFServer * bool) : go (Vertex * OSPFServer * bool) :=
  let '(ent, s, err) := st in
  if err then Ok st
  else
    linkDetail ← nth_go (LinkDetails lsaEnt) i;
    if LinkType linkDetail =? TransitLink then
      let '(nLsaKey, err) := findNetworkLsa s areaId (LinkId linkDetail) in
      if err then (if check then Ok (ent, s, false) else Ok (ent, s, true))
      else
        let vKey := {| vk_Type := TNetworkVertex; ID := LinkId linkDetail; AdvRtr := AdvRouter nLsaKey |} in
        Ok (add_neighbor vKey (LinkMetric linkDetail) (LinkData linkDetail) ent, s, false)
    else if LinkType linkDetail =? StubLink then
      let vKey := {| vk_Type := SNetworkVertex; ID := LinkId linkDetail; AdvRtr := AdvRouter lsaKey |} in
      let sentry := {| sv_NbrVertexKey := vertexKey; sv_NbrVertexCost := LinkMetric linkDetail;
                       sv_LinkData := LinkData linkDetail; sv_AreaId := areaId; sv_LsaKey := lsaKey;
                       sv_LinkStateId := LSId lsaKey |} in
      Ok (ent, set_AreaStubs (<[vKey := sentry]> (AreaStubs s)) s, false)
    else if LinkType linkDetail =? P2PLink then
      if findRouterLsa s areaId (LinkId linkDetail) then Ok (ent, s, true)
      else Ok (add_neighbor (router_key (LinkId linkDetail)) (LinkMetric linkDetail) (LinkData linkDetail) ent, s, false)
    else Ok (ent, s, false).

Definition mark_transit (lsaEnt : RouterLsa) (areaId : Z) (s : OSPFServer) : OSPFServer :=
  if R_BitV lsaEnt then
    let area := Util.convertUint32ToIPv4 areaId in
    match AreaConfMap s !! area with
    | Some aEnt => if TransitCapability aEnt then s
                   else set_AreaConfMap (<[area := set_TransitCapability true aEnt]> (AreaConfMap s)) s
    | None => s
    end
  else s.

(** The last loop of both functions: the neighbors that are not in the graph yet. [visit] tells whether it
    failed; the error ends the loop unless [check] is set. *)
Fixpoint each_neighbor (visit : VertexKey -> OSPFServer -> go (OSPFServer * bool)) (l : list VertexKey)
    (s : OSPFServer) : go (OSPFServer * bool) :=
  match l with
  | [] => Ok (s, false)
  | vKey :: l =>
    if bool_decide (is_Some (AreaGraph s !! vKey)) then each_neighbor visit l s
    else
      '(s, err) ← visit vKey s;
      if (err : bool) then (if check then each_neighbor visit l s else Ok (s, true)) else each_neighbor visit l s
  end.

Definition lsa_key_of (type : Z) (vKey : VertexKey) : LsaKey := {| LSType := type; LSId := ID vKey; AdvRouter := AdvRtr vKey |}.

(** [UpdateAreaGraphNetworkLsa] and [UpdateAreaGraphRouterLsa], which call each other. The result is whether they
    return an error. *)
Fixpoint update_graph (fuel : nat) (lsa : NetworkLsa + RouterLsa) (lsaKey : LsaKey) (areaId : Z) (s : OSPFServer)
  : go (OSPFServer * bool) :=
  match fuel with
  | O => Hang
  | S fuel =>
    match lsa with
    | inl lsaEnt =>
      let vertexKey := {| vk_Type := TNetworkVertex; ID := LSId lsaKey; AdvRtr := AdvRouter lsaKey |} in
      if bool_decide (is_Some (AreaGraph s !! vertexKey)) then Ok (s, false)
      else
        let netmask := N_Netmask lsaEnt in
        let network := Z.land (LSId lsaKey) netmask in
        ent ← attached_routers s areaId network netmask (AttachedRtr lsaEnt) zero_vertex;
        if bool_decide (NbrVertexKey ent = []) then Ok (s, false)
        else
          let s := set_AreaGraph (<[vertexKey := finish_vertex areaId lsaKey ent]> (AreaGraph s)) s in
          if negb (area_exists s areaId) then Ok (s, true)
          else each_neighbor (fun vKey s =>
                 let lsaKey := lsa_key_of RouterLSA vKey in
                 match RouterLsaMap (lsdb_of s areaId) !! lsaKey with
                 | None => Ok (s, true)
                 | Some lsaEnt => update_graph fuel (inr lsaEnt) lsaKey areaId s
                 end) (NbrVertexKey ent) s
    | inr lsaEnt =>
      let vertexKey := {| vk_Type := RouterVertex; ID := LSId lsaKey; AdvRtr := AdvRouter lsaKey |} in
      if bool_decide (is_Some (AreaGraph s !! vertexKey)) then Ok (s, false)
      else
        let s := mark_transit lsaEnt areaId s in
        '(ent, s, err) ← for_upto (Z.to_nat (NumOfLinks lsaEnt)) 0 (router_link areaId lsaKey vertexKey lsaEnt)
                           (zero_vertex, s, false);
        if (err : bool) then Ok (s, true)
        else if bool_decide (NbrVertexKey ent = []) then
          self ← Util.convertIPv4ToUint32 (RouterId s);
          if AdvRouter lsaKey =? self then
            Ok (set_AreaGraph (<[vertexKey := finish_vertex areaId lsaKey ent]> (AreaGraph s)) s, false)
          else Ok (s, true)
        else
          let s := set_AreaGraph (<[vertexKey := finish_vertex areaId lsaKey ent]> (AreaGraph s)) s in
          if negb (area_exists s areaId) then Ok (s, true)
          else each_neighbor (fun vKey s =>
                 if vk_Type vKey =? TNetworkVertex then
                   let lsaKey := lsa_key_of NetworkLSA vKey in
                   match NetworkLsaMap (lsdb_of s areaId) !! lsaKey with
                   | None => Ok (s, true)
                   | Some lsaEnt => update_graph fuel (inl lsaEnt) lsaKey areaId s
                   end
                 else if vk_Type vKey =? RouterVertex then
                   let lsaKey := lsa_key_of RouterLSA vKey in
                   match RouterLsaMap (lsdb_of s areaId) !! lsaKey with
                   | None => Ok (s, true)
                   | Some lsaEnt => update_graph fuel (inr lsaEnt) lsaKey areaId s
                   end
                 else Ok (s, false)) (NbrVertexKey ent) s
    end
  end.

(** Every call but those that return at once adds a vertex of its own. *)
Definition graph_fuel (s : OSPFServer) (areaId : Z) : nat :=
  S (size (RouterLsaMap (lsdb_of s areaId)) + size (NetworkLsaMap (lsdb_of s areaId))).
Definition UpdateAreaGraphNetworkLsa (lsaEnt : NetworkLsa) (lsaKey : LsaKey) (areaId : Z) (s : OSPFServer) : go (OSPFServer * bool) :=
  update_graph (graph_fuel s areaId) (inl lsaEnt) lsaKey areaId s.
Definition UpdateAreaGraphRouterLsa (lsaEnt : RouterLsa) (lsaKey : LsaKey) (areaId : Z) (s : OSPFServer) : go (OSPFServer * bool) :=
  update_graph (graph_fuel s areaId) (inr lsaEnt) lsaKey areaId s.

Definition zero_vkey : VertexKey := {| vk_Type := 0; ID := 0; AdvRtr := 0 |}.

(** The key of the router itself, and whether there is an error. *)
Definition CreateAreaGraph (areaId : Z) (s : OSPFServer) : go (OSPFServer * VertexKey * bool) :=
  if negb (area_exists s areaId) then Ok (s, zero_vkey, true)
  else match AreaSelfOrigLsa s !! areaId with
       | None => Ok (s, zero_vkey, true)
       | Some selfOrigLsaEnt =>
         match findSelfOrigRouterLsaKey (default ∅ selfOrigLsaEnt) with
         | None => Ok (s, zero_vkey, true)
         | Some selfRtrLsaKey =>
           match RouterLsaMap (lsdb_of s areaId) !! selfRtrLsaKey with
           | None => Ok (s, zero_vkey, true)
           | Some lsaEnt =>
             '(s, err) ← UpdateAreaGraphRouterLsa lsaEnt selfRtrLsaKey areaId s;
             let err := if check then false else (err : bool) in
             Ok (s, {| vk_Type := RouterVertex; ID := LSId selfRtrLsaKey; AdvRtr := AdvRouter selfRtrLsaKey |}, err)
           end
         end
       end.
End graph.

(** ** Shortest paths *)

Inductive spf_error := NoVertex | NoNeighbor | NotInTree.

Record VertexData := {
  vKey : VertexKey;
  distance : Z;
}.

(** [VertexDataArr.Less] *)
Definition VertexDataArr_Less (x y : VertexData) : bool :=
  if distance x =? distance y then
    if vk_Type (vKey x) =? vk_Type (vKey y) then false
    else if (vk_Type (vKey x) =? RouterVertex) && (vk_Type (vKey y) =? TNetworkVertex) then false
    else if (vk_Type (vKey x) =? TNetworkVertex) && (vk_Type (vKey y) =? RouterVertex) then true
    else distance x <? distance y
  else distance x <? distance y.

(** The first [NumOfPaths] paths of an entry. *)
Definition paths_of (e : TreeVertex) : outcome spf_error (list Path) :=
  foldr (fun l acc => p ← nth_go (Paths e) l; ps ← acc; Ok (p :: ps)) (Ok []) (seq 0 (NumOfPaths e)).

(** The entry of a vertex that is found for the first time. *)
Definition new_entry : TreeVertex := {| Paths := [[]]; Distance := 65280; NumOfPaths := 1 |}.

(** One neighbor [verKey] of [u]. The paths of its entry are set to nil before those of [u] are read: when they
    are the same vertex they share their array. *)
Definition relax (u verKey : VertexKey) (cost : Z) (tEnt tEntry : TreeVertex) : outcome spf_error TreeVertex :=
  let cleared (ps : list Path) : list Path := if decide (u = verKey) then (fun _ => []) <$> ps else ps in
  let d := u16 (Distance tEntry + cost) in
  if Distance tEnt >? d then
    _ ← paths_of tEnt;
    ps ← paths_of tEntry;
    Ok {| Paths := (fun p => p ++ [u]) <$> cleared ps; Distance := d; NumOfPaths := NumOfPaths tEntry |}
  else if Distance tEnt =? d then
    old ← paths_of tEnt;
    ps ← paths_of tEntry;
    Ok {| Paths := old ++ ((fun p => p ++ [u]) <$> cleared ps); Distance := Distance tEnt;
          NumOfPaths := NumOfPaths tEntry + NumOfPaths tEnt |}
  else Ok tEnt.

Definition relax_neighbor (graph : gmap VertexKey Vertex) (ent : Vertex) (u : VertexKey) (i : nat)
    (st : gmap VertexKey TreeVertex * list VertexData)
  : outcome spf_error (gmap VertexKey TreeVertex * list VertexData) :=
  let '(tree, verArr) := st in
  verKey ← nth_go (NbrVertexKey ent) i;
  cost ← nth_go (NbrVertexCost ent) i;
  match graph !! verKey with
  | None => Err NoNeighbor
  | Some _ =>
    match tree !! u with
    | None => Err NotInTree
    | Some tEntry =>
      tEnt ← relax u verKey cost (default new_entry (tree !! verKey)) tEntry;
      let verArr := match tree !! verKey with
                    | None => verArr ++ [{| vKey := verKey; distance := Distance tEnt |}]
                    | Some _ => verArr
                    end in
      Ok (<[verKey := tEnt]> tree, verArr)
    end
  end.

Section dijkstra.
Context {so : SortImpl}.

(** The loop over [treeVSlice]: what is left of it, in order. *)
Fixpoint dijkstra_loop (fuel : nat) (graph : gmap VertexKey Vertex) (tree : gmap VertexKey TreeVertex)
    (treeVSlice : list VertexData) : outcome spf_error (gmap VertexKey Vertex * gmap VertexKey TreeVertex) :=
  match treeVSlice with
  | [] => Ok (graph, tree)
  | x :: rest =>
    match fuel with
    | O => Hang
    | S fuel =>
      match graph !! vKey x with
      | None => Err NoVertex
      | Some ent =>
        '(tree, verArr) ← for_upto (length (NbrVertexKey ent)) 0 (relax_neighbor graph ent (vKey x)) (tree, []);
        let rest := rest ++ verArr in
        let rest := if 0 <? len rest then sort_Sort VertexDataArr_Less rest else rest in
        dijkstra_loop fuel (<[vKey x := set_Visited true ent]> graph) tree rest
      end
    end
  end.

(** The entry of the root is made unless there is one. *)
Definition root_entry : TreeVertex := {| Paths := [[]]; Distance := 0; NumOfPaths := 1 |}.
Definition ExecuteDijkstra (vKey : VertexKey) (s : OSPFServer) : outcome spf_error OSPFServer :=
  let tree := match SPFTree s !! vKey with
              | None => <[vKey := root_entry]> (SPFTree s)
              | Some _ => SPFTree s
              end in
  '(graph, tree) ← dijkstra_loop (S (size (AreaGraph s))) (AreaGraph s) tree [{| vKey := vKey; distance := 0 |}];
  Ok (set_SPFTree tree (set_AreaGraph graph s)).
End dijkstra.
