(* ===== verification/OspfSpfFacts.v ===== *)
(** What the calculation of shortest paths computes: on a graph that is closed under links it ends, finds every
    vertex that can be reached, and what it records are paths of the length it records. *)
From stdpp Require Import base numbers list gmap strings sorting.
From Stdlib Require Import ZArith Lia.
From S2P Require Import Prelude GoNet OspfUtil OspfLsa OspfState OspfSpf.
Open Scope Z_scope.

(** ** Paths of a graph *)

Definition edge (g : gmap VertexKey Vertex) (u v : VertexKey) (c : Z) : Prop :=
  exists ent i, g !! u = Some ent /\ NbrVertexKey ent !! i = Some v /\ NbrVertexCost ent !! i = Some c.

(** [walk g r p v n]: [p] are the vertices before [v] on a way of length [n] from [r] to [v]. *)
Inductive walk (g : gmap VertexKey Vertex) (r : VertexKey) : Path -> VertexKey -> Z -> Prop :=
  | walk_root : walk g r [] r 0
  | walk_step p u v n c : walk g r p u n -> edge g u v c -> walk g r (p ++ [u]) v (n + c).

(** Every link of the graph leads to another of its vertices and costs at most [C]. *)
Record graph_ok (C : Z) (g : gmap VertexKey Vertex) : Prop := {
  graph_costs u ent : g !! u = Some ent -> length (NbrVertexCost ent) = length (NbrVertexKey ent);
  graph_closed u v c : edge g u v c -> is_Some (g !! v);
  graph_simple u v c : edge g u v c -> u <> v;
  graph_bound u v c : edge g u v c -> 0 <= c <= C;
}.

(** Graphs with the same links. *)
Definition same_links (g h : gmap VertexKey Vertex) : Prop :=
  forall u, (fun e => (NbrVertexKey e, NbrVertexCost e)) <$> g !! u = (fun e => (NbrVertexKey e, NbrVertexCost e)) <$> h !! u.

#[global] Instance same_links_equiv : Equivalence same_links.
Proof. split; [by intros g u | by intros g h H u | intros g h k H1 H2 u; by rewrite H1]. Qed.

Lemma same_links_Some g h u ent : same_links g h -> g !! u = Some ent ->
  exists ent', h !! u = Some ent' /\ NbrVertexKey ent' = NbrVertexKey ent /\ NbrVertexCost ent' = NbrVertexCost ent.
Proof.
  intros H Hu. specialize (H u). rewrite Hu in H. destruct (h !! u) as [ent'|]; [|discriminate].
  exists ent'. cbn in H. by simplify_eq.
Qed.

Lemma same_links_visited g u ent b : g !! u = Some ent -> same_links g (<[u := set_Visited b ent]> g).
Proof.
  intros Hu v. destruct (decide (u = v)) as [<- |]; [by rewrite lookup_insert_eq, Hu | by rewrite lookup_insert_ne].
Qed.

(** ** Entries of the tree *)

Lemma paths_of_all e : NumOfPaths e = length (Paths e) -> paths_of e = Ok (Paths e).
Proof.
  intros H. unfold paths_of. rewrite H. clear H.
  enough (Hg : forall l pre, foldr (fun i acc => p ← nth_go (pre ++ l) i; ps ← acc; Ok (E := spf_error) (p :: ps)) (Ok [])
    (seq (length pre) (length l)) = Ok l) by apply (Hg _ []).
  induction l as [|x l IH]; intros pre; cbn; [done|].
  assert (E : nth_go (E := spf_error) (pre ++ x :: l) (length pre) = Ok x) by (unfold nth_go; by rewrite list_lookup_middle).
  rewrite E, bind_Ok.
  specialize (IH (pre ++ [x])). rewrite length_app, Nat.add_1_r, <- app_assoc in IH. cbn in IH. by rewrite IH.
Qed.

Section tree.
Context (g : gmap VertexKey Vertex) (r : VertexKey).

Record entry_ok (B : Z) (v : VertexKey) (e : TreeVertex) : Prop := {
  entry_number : NumOfPaths e = length (Paths e);
  entry_some : Paths e <> [];
  entry_range : 0 <= Distance e <= B;
  entry_walks : Forall (fun p => walk g r p v (Distance e)) (Paths e);
}.

Lemma entry_ok_mono B B' v e : B <= B' -> entry_ok B v e -> entry_ok B' v e.
Proof. intros ? []. split; try done. lia. Qed.

Lemma walks_snoc u v n c ps : edge g u v c -> Forall (fun p => walk g r p u n) ps ->
  Forall (fun p => walk g r p v (n + c)) ((fun p => p ++ [u]) <$> ps).
Proof. intros He H. apply Forall_fmap. eapply Forall_impl; [exact H|]. intros p Hp. by apply walk_step. Qed.

(** The new distance is the least of the old one and the one through [u]. *)
Lemma relax_ok B B' u v c (old : option TreeVertex) eu :
  edge g u v c -> u <> v -> 0 <= c -> B + c <= B' -> B <= B' -> B' < 65280 ->
  (forall e, old = Some e -> entry_ok B' v e) -> entry_ok B u eu ->
  exists e, relax u v c (default new_entry old) eu = Ok e /\ entry_ok B' v e /\
    Distance e = match old with Some e0 => Z.min (Distance e0) (Distance eu + c) | None => Distance eu + c end.
Proof.
  intros He Huv Hc HB HB' Hlim Hold [Hn Hs Hr Hw]. unfold relax. destruct (decide (u = v)) as [|_]; [done|].
  rewrite u16_id by (unfold is_u16; lia). set (d := Distance eu + c).
  assert (Hnew : entry_ok B' v {| Paths := (fun p => p ++ [u]) <$> Paths eu; Distance := d; NumOfPaths := NumOfPaths eu |}).
  { split; cbn; [by rewrite length_fmap | by destruct (Paths eu) | unfold d; lia | by apply walks_snoc]. }
  rewrite (paths_of_all eu Hn). destruct old as [e0|]; cbn [default from_option id].
  - destruct (Hold e0 eq_refl) as [Hn0 Hs0 Hr0 Hw0]. rewrite (paths_of_all e0 Hn0), !bind_Ok.
    destruct (Distance e0 >? d) eqn:E; zhyp; [eexists; split; [done|split; [done|cbn; lia]]|].
    destruct (Distance e0 =? d) eqn:E2; zhyp; [|exists e0; split; [done|split; [by split|lia]]].
    eexists. split; [done|]. split; [|cbn; lia]. split; cbn.
    + rewrite length_app, length_fmap, Hn, Hn0. lia.
    + intros [? _]%app_nil. done.
    + done.
    + apply Forall_app. split; [done|]. rewrite E2. by apply walks_snoc.
  - rewrite (paths_of_all new_entry eq_refl), !bind_Ok. cbn [Distance new_entry].
    rewrite (proj2 (Z.gtb_lt _ _)) by (unfold d; lia). eexists. split; [done|]. by split.
Qed.
End tree.

(** ** One vertex of the loop *)

Section visit.
Context (g : gmap VertexKey Vertex) (r : VertexKey) (C : Z) (Hg : graph_ok C g) (HC : 0 <= C).
Context (cur : gmap VertexKey Vertex) (Hcur : same_links g cur).
Context (u : VertexKey) (ent : Vertex) (Hu : cur !! u = Some ent).
Context (B : Z) (HB : 0 <= B /\ B + C < 65280) (tree0 : gmap VertexKey TreeVertex) (eu : TreeVertex).

Definition link (i : nat) (v : VertexKey) (c : Z) : Prop := NbrVertexKey ent !! i = Some v /\ NbrVertexCost ent !! i = Some c.

Lemma link_edge i v c : link i v c -> edge g u v c.
Proof.
  intros [Hv Hc]. symmetry in Hcur. destruct (same_links_Some cur g u ent Hcur Hu) as (ent' & Hu' & Ek & Ec).
  exists ent', i. by rewrite Ek, Ec.
Qed.
Lemma edge_link v c : edge g u v c -> exists i, link i v c.
Proof.
  intros (ent' & i & Hu' & Hv & Hc). destruct (same_links_Some g cur u ent' Hcur Hu') as (e & Hu2 & Ek & Ec).
  rewrite Hu in Hu2. simplify_eq. exists i. unfold link. by rewrite Ek, Ec.
Qed.

(** After the first [i] neighbors: the tree, and the vertices that are new in it. *)
Record visited (i : nat) (st : gmap VertexKey TreeVertex * list VertexData) : Prop := {
  vis_self : st.1 !! u = Some eu;
  vis_ok v e : st.1 !! v = Some e -> entry_ok g r (B + C) v e;
  vis_graph v : is_Some (st.1 !! v) -> is_Some (g !! v);
  vis_dom v : is_Some (st.1 !! v) <-> is_Some (tree0 !! v) \/ v ∈ vKey <$> st.2;
  vis_nodup : NoDup (vKey <$> st.2);
  vis_new x : x ∈ st.2 -> tree0 !! vKey x = None;
  vis_edges j v c : (j < i)%nat -> link j v c -> exists e, st.1 !! v = Some e /\ Distance e <= Distance eu + c;
  vis_old v e : tree0 !! v = Some e -> exists e', st.1 !! v = Some e' /\ Distance e' <= Distance e;
  vis_from v e : st.1 !! v = Some e ->
    (exists e0, tree0 !! v = Some e0 /\ Distance e = Distance e0) \/ exists c, edge g u v c /\ Distance e = Distance eu + c;
  vis_dist x : x ∈ st.2 -> exists c, edge g u (vKey x) c /\ distance x = Distance eu + c;
}.

Lemma relax_neighbor_visited i st : (i < length (NbrVertexKey ent))%nat -> entry_ok g r B u eu -> visited i st ->
  exists st', relax_neighbor cur ent u i st = Ok st' /\ visited (S i) st'.
Proof.
  intros Hi Heu [Hself Hok Hgr Hdom Hnd Hnew Hed Hold Hfrom Hdist]. destruct st as [tree ver]. cbn [fst snd] in *.
  unfold relax_neighbor, nth_go.
  destruct (lookup_lt_is_Some_2 (NbrVertexKey ent) i Hi) as [v Hv]. rewrite Hv, bind_Ok.
  assert (Hlc : length (NbrVertexCost ent) = length (NbrVertexKey ent)).
  { symmetry in Hcur. destruct (same_links_Some cur g u ent Hcur Hu) as (ent' & Hu' & Ek & Ec).
    rewrite <- Ek, <- Ec. by apply (graph_costs C g Hg u). }
  destruct (lookup_lt_is_Some_2 (NbrVertexCost ent) i ltac:(lia)) as [c Hc]. rewrite Hc, bind_Ok.
  assert (He : edge g u v c) by (by apply (link_edge i)).
  destruct (graph_closed C g Hg u v c He) as [gv Hgv]. pose proof (graph_simple C g Hg u v c He) as Hne.
  pose proof (graph_bound C g Hg u v c He) as Hcb.
  destruct (same_links_Some g cur v gv Hcur Hgv) as (gv' & -> & _ & _). rewrite Hself.
  destruct (relax_ok g r B (B + C) u v c (tree !! v) eu He Hne) as (e & -> & Heok & Hde); [lia..| |done|].
  { intros e0 He0. by apply Hok. }
  rewrite bind_Ok. eexists. split; [done|].
  assert (Hin : is_Some (<[v := e]> tree !! v)) by (by rewrite lookup_insert_eq).
  split; cbn [fst snd].
  - by rewrite lookup_insert_ne.
  - intros w ew. destruct (decide (v = w)) as [<- |]; [rewrite lookup_insert_eq; by intros [= <-] | rewrite lookup_insert_ne by done; apply Hok].
  - intros w. destruct (decide (v = w)) as [<- |]; [by rewrite Hgv | rewrite lookup_insert_ne by done; apply Hgr].
  - intros w. destruct (tree !! v) as [ev|] eqn:Ev.
    + destruct (decide (v = w)) as [<- |]; [|rewrite lookup_insert_ne by done; apply Hdom].
      rewrite lookup_insert_eq. split; [intros _; apply Hdom; by rewrite Ev | done].
    + rewrite fmap_app, elem_of_app. cbn. rewrite list_elem_of_singleton.
      destruct (decide (v = w)) as [<- |]; [rewrite lookup_insert_eq; split; [by auto | done]|].
      rewrite lookup_insert_ne, Hdom by done. naive_solver.
  - destruct (tree !! v) eqn:Ev; [done|]. rewrite fmap_app. apply NoDup_app. split; [done|]. cbn. split.
    + intros w Hw ->%list_elem_of_singleton. assert (is_Some (tree !! v)) by (apply Hdom; by right). rewrite Ev in *. by destruct H.
    + apply NoDup_singleton.
  - intros x. destruct (tree !! v) eqn:Ev; [apply Hnew|]. rewrite elem_of_app, list_elem_of_singleton.
    intros [Hx | ->]; [by apply Hnew|]. cbn. apply eq_None_not_Some. intros Hs.
    assert (is_Some (tree !! v)) as [? ?] by (apply Hdom; by left). congruence.
  - intros j w cw Hj Hl. destruct (decide (v = w)) as [<- |Hvw].
    + exists e. rewrite lookup_insert_eq. split; [done|]. rewrite Hde. destruct (decide (j = i)) as [-> |].
      * destruct Hl as [_ Hl]. rewrite Hc in Hl. simplify_eq. destruct (tree !! v); lia.
      * destruct (Hed j v cw ltac:(lia) Hl) as (e1 & He1 & Hle). rewrite He1. lia.
    + rewrite lookup_insert_ne by done. apply (Hed j); [|done]. destruct Hl as [Hl _].
      destruct (decide (j = i)) as [-> |]; [congruence | lia].
  - intros w ew Hw. destruct (Hold w ew Hw) as (e1 & He1 & Hle). destruct (decide (v = w)) as [<- |].
    + exists e. rewrite lookup_insert_eq. split; [done|]. rewrite Hde, He1. lia.
    + exists e1. by rewrite lookup_insert_ne.
  - intros w ew. destruct (decide (v = w)) as [<- |]; [|rewrite lookup_insert_ne by done; apply Hfrom].
    rewrite lookup_insert_eq. intros [= <-]. destruct (tree !! v) as [ev|] eqn:Ev; [|right; by exists c].
    destruct (Z.min_spec (Distance ev) (Distance eu + c)) as [[_ Hm] | [_ Hm]]; [|right; exists c; by rewrite Hde].
    rewrite Hde, Hm. by apply Hfrom.
  - intros x. destruct (tree !! v) eqn:Ev; [apply Hdist|]. rewrite elem_of_app, list_elem_of_singleton.
    intros [Hx | ->]; [by apply Hdist|]. exists c. cbn. by rewrite Hde.
Qed.

Lemma visit_neighbors : entry_ok g r B u eu -> visited 0 (tree0, []) ->
  exists st, for_upto (length (NbrVertexKey ent)) 0 (relax_neighbor cur ent u) (tree0, []) = Ok st /\
    visited (length (NbrVertexKey ent)) st.
Proof.
  intros Heu H0. apply (for_upto_rule visited); [|done]. intros j st Hj Hst.
  apply relax_neighbor_visited; [lia | done | done].
Qed.
End visit.

(** ** The loop *)

Section loop.
Context {so : SortImpl} {sok : SortOk}.
Context (g : gmap VertexKey Vertex) (r : VertexKey) (C : Z) (Hg : graph_ok C g) (HC : 0 <= C).
Context (Hlim : Z.of_nat (size g) * C < 65280).

(** [D] are the vertices whose links were followed, [Q] those that wait. *)
Record spf_inv (D : list VertexKey) (tree : gmap VertexKey TreeVertex) (Q : list VertexData) : Prop := {
  inv_ok v e : tree !! v = Some e -> entry_ok g r (Z.of_nat (length D) * C) v e;
  inv_graph v : is_Some (tree !! v) -> is_Some (g !! v);
  inv_dom v : is_Some (tree !! v) <-> v ∈ D ++ (vKey <$> Q);
  inv_nodup : NoDup (D ++ (vKey <$> Q));
  inv_edges u v c : u ∈ D -> edge g u v c -> is_Some (tree !! v);
}.

Lemma spf_inv_size D tree Q : spf_inv D tree Q -> (length D + length Q <= size g)%nat.
Proof.
  intros [_ Hgr Hdom Hnd _]. rewrite <- (length_fmap vKey Q), <- length_app, <- size_dom.
  rewrite <- (size_list_to_set (C := gset VertexKey) _ Hnd). apply subseteq_size. intros v Hv.
  apply elem_of_list_to_set, Hdom in Hv. by apply elem_of_dom, Hgr.
Qed.

Lemma spf_inv_bound D tree x rest : spf_inv D tree (x :: rest) -> Z.of_nat (length D) * C + C < 65280.
Proof. intros H. apply spf_inv_size in H. cbn in H. nia. Qed.

(** What is known when the links of a vertex have been followed. *)
Record step_of (D : list VertexKey) (tree : gmap VertexKey TreeVertex) (x : VertexData) (rest : list VertexData)
    (eu : TreeVertex) (tree' : gmap VertexKey TreeVertex) (rest' : list VertexData) : Prop := {
  step_entry : tree !! vKey x = Some eu;
  step_entry' : tree' !! vKey x = Some eu;
  step_edges v c : edge g (vKey x) v c -> exists e, tree' !! v = Some e /\ Distance e <= Distance eu + c;
  step_old v e : tree !! v = Some e -> exists e', tree' !! v = Some e' /\ Distance e' <= Distance e;
  step_from v e : tree' !! v = Some e ->
    (exists e0, tree !! v = Some e0 /\ Distance e = Distance e0) \/
    exists c, edge g (vKey x) v c /\ Distance e = Distance eu + c;
  step_rest y : y ∈ rest' -> y ∈ rest \/ tree !! vKey y = None /\ exists c, edge g (vKey x) (vKey y) c /\ distance y = Distance eu + c;
  step_sorted : exists l, rest' = sort_Sort VertexDataArr_Less l;
}.

Lemma spf_step D tree x rest cur : same_links g cur -> spf_inv D tree (x :: rest) ->
  exists ent tree' ver eu, cur !! vKey x = Some ent /\
    for_upto (length (NbrVertexKey ent)) 0 (relax_neighbor cur ent (vKey x)) (tree, []) = Ok (tree', ver) /\
    let l := rest ++ ver in
    let rest' := if 0 <? len l then sort_Sort VertexDataArr_Less l else l in
    spf_inv (D ++ [vKey x]) tree' rest' /\ step_of D tree x rest eu tree' rest'.
Proof.
  intros Hcur Hinv. pose proof (spf_inv_bound _ _ _ _ Hinv) as Hb. destruct Hinv as [Hok Hgr Hdom Hnd Hed].
  assert (Hx : is_Some (tree !! vKey x)) by (apply Hdom; rewrite elem_of_app; right; left).
  destruct Hx as [eu Heu]. destruct (Hgr (vKey x) (ex_intro _ _ Heu)) as [ent0 Hent0].
  destruct (same_links_Some g cur _ ent0 Hcur Hent0) as (ent & Hent & _ & _).
  destruct (visit_neighbors g r C Hg HC cur Hcur (vKey x) ent Hent (Z.of_nat (length D) * C) ltac:(nia) tree eu)
    as ([tree' ver] & Hrun & [Vself Vok Vgr Vdom Vnd Vnew Ved Vold Vfrom Vdist]).
  { by apply Hok. }
  { split; cbn; try done.
    - intros v e Hv. eapply entry_ok_mono; [|by apply Hok]. lia.
    - intros v. rewrite elem_of_nil. naive_solver.
    - constructor.
    - by intros y ?%elem_of_nil.
    - intros j v c Hj. lia.
    - intros v e Hv. exists e. split; [done|lia].
    - intros v e Hv. left. by exists e.
    - by intros y ?%elem_of_nil. }
  cbn [fst snd] in *. exists ent, tree', ver, eu. split; [done|]. split; [done|]. cbv zeta.
  set (l := rest ++ ver). set (rest' := if 0 <? len l then sort_Sort VertexDataArr_Less l else l).
  assert (Hperm : rest' ≡ₚ l) by (unfold rest'; destruct (0 <? len l); [apply sort_perm | done]).
  assert (Hkeys : (D ++ [vKey x]) ++ (vKey <$> rest') ≡ₚ (D ++ (vKey <$> x :: rest)) ++ (vKey <$> ver)).
  { rewrite Hperm. unfold l. rewrite fmap_app, <- !app_assoc. done. }
  split.
  - split.
    + intros v e Hv. eapply entry_ok_mono; [|by apply Vok]. rewrite length_app. cbn. lia.
    + done.
    + intros v. rewrite Hkeys, elem_of_app, <- Hdom. apply Vdom.
    + rewrite Hkeys. apply NoDup_app. split; [done|]. split; [|done].
      intros v Hv Hv'. apply Hdom in Hv. apply list_elem_of_fmap in Hv' as (y & -> & Hy). apply Vnew in Hy.
      rewrite Hy in Hv. by destruct Hv.
    + intros v w c Hv He. rewrite elem_of_app, list_elem_of_singleton in Hv. destruct Hv as [Hv | ->].
      * apply Vdom. left. by eapply Hed.
      * destruct (edge_link g cur Hcur (vKey x) ent Hent w c He) as (i & Hi).
        destruct (Ved i w c) as (e & He' & _); [apply lookup_lt_Some with w, Hi | done |]. by rewrite He'.
  - split; [done | done | | done | done | |].
    + intros v c He. destruct (edge_link g cur Hcur (vKey x) ent Hent v c He) as (i & Hi).
      apply (Ved i); [apply lookup_lt_Some with v, Hi | done].
    + intros y Hy. rewrite Hperm in Hy. apply elem_of_app in Hy as [Hy | Hy]; [by left|]. right.
      split; [by apply Vnew | by apply Vdist].
    + unfold rest'. destruct (0 <? len l) eqn:E; [by exists l|]. exists []. apply Z.ltb_ge in E.
      assert (l = []) as ->. { destruct l; [done|]. rewrite len_cons in E. pose proof (len_nonneg l). lia. }
      symmetry. apply Permutation_nil. symmetry. apply sort_perm.
Qed.

(** The loop ends, and what every step keeps holds at its end. *)
Lemma spf_loop (X : list VertexKey -> gmap VertexKey TreeVertex -> list VertexData -> Prop) :
  (forall D tree x rest eu tree' rest', spf_inv D tree (x :: rest) -> X D tree (x :: rest) ->
     spf_inv (D ++ [vKey x]) tree' rest' -> step_of D tree x rest eu tree' rest' -> X (D ++ [vKey x]) tree' rest') ->
  forall fuel cur D tree Q, (size g <= fuel + length D)%nat -> same_links g cur -> spf_inv D tree Q -> X D tree Q ->
  exists cur' tree' D', dijkstra_loop fuel cur tree Q = Ok (cur', tree') /\ same_links g cur' /\
    spf_inv D' tree' [] /\ X D' tree' [].
Proof.
  intros HX. induction fuel as [|fuel IH]; intros cur D tree Q Hf Hcur Hinv Hx.
  { pose proof (spf_inv_size _ _ _ Hinv). destruct Q; [|cbn in *; lia]. cbn. by exists cur, tree, D. }
  destruct Q as [|x rest]; [cbn; by exists cur, tree, D|].
  destruct (spf_step D tree x rest cur Hcur Hinv) as (ent & tree' & ver & eu & Hent & Hrun & Hinv' & Hstep).
  cbn [dijkstra_loop]. rewrite Hent, Hrun, bind_Ok. cbv zeta in Hinv', Hstep.
  eapply IH; [| |exact Hinv' | by eapply HX].
  - rewrite length_app. cbn. lia.
  - etransitivity; [exact Hcur | by apply same_links_visited].
Qed.
End loop.
