(* ===== verification/OspfSpfSpec.v ===== *)
(** The paths the SPF calculation finds, against those there are: it reaches what can be reached; its paths are
    shortest where all links of routers cost the same, and need not be where they do not. *)
From stdpp Require Import base numbers list gmap strings sorting.
From Stdlib Require Import ZArith Lia.
From S2P Require Import Prelude GoNet OspfUtil OspfLsa OspfState OspfSpf OspfSpfFacts.
Open Scope Z_scope.

(** ** Sorting by insertion, an implementation of [sort.Sort] *)

Section insertion.
Context {A : Type} (less : A -> A -> bool).

Fixpoint insert_sorted (x : A) (l : list A) : list A :=
  match l with
  | [] => [x]
  | y :: l => if less y x then y :: insert_sorted x l else x :: y :: l
  end.
Fixpoint insertion_sort (l : list A) : list A :=
  match l with
  | [] => []
  | x :: l => insert_sorted x (insertion_sort l)
  end.

Lemma insert_sorted_perm x l : insert_sorted x l ≡ₚ x :: l.
Proof. induction l as [|y l IH]; cbn; [done|]. destruct (less y x); [|done]. rewrite IH. constructor. Qed.
Lemma insertion_sort_perm l : insertion_sort l ≡ₚ l.
Proof. induction l as [|x l IH]; cbn; [done|]. by rewrite insert_sorted_perm, IH. Qed.

Let ordered := StronglySorted (fun x y => less y x = false).

Lemma insert_sorted_ordered x l :
  (forall y z, y ∈ x :: l -> z ∈ x :: l -> less y z = true -> less z y = false) ->
  (forall a b c, a ∈ x :: l -> b ∈ x :: l -> c ∈ x :: l -> less b a = false -> less c b = false -> less c a = false) ->
  ordered l -> ordered (insert_sorted x l).
Proof.
  intros Ha Ht. induction 1 as [|y l Hl IH Hy]; cbn; [repeat constructor|].
  destruct (less y x) eqn:E.
  - constructor.
    + apply IH; intros.
      * apply Ha; set_solver.
      * eapply (Ht a b c); set_solver.
    + rewrite insert_sorted_perm. constructor; [|done]. apply Ha; [set_solver..|done].
  - constructor; [by constructor|]. constructor; [done|]. rewrite Forall_forall in Hy |- *.
    intros z Hz. apply (Ht x y z); [set_solver..|done|]. by apply Hy.
Qed.
Lemma insertion_sort_ordered l :
  (forall y z, y ∈ l -> z ∈ l -> less y z = true -> less z y = false) ->
  (forall a b c, a ∈ l -> b ∈ l -> c ∈ l -> less b a = false -> less c b = false -> less c a = false) ->
  ordered (insertion_sort l).
Proof.
  induction l as [|x l IH]; intros Ha Ht; cbn; [constructor|].
  apply insert_sorted_ordered.
  - intros y z. rewrite insertion_sort_perm. apply Ha.
  - intros a b c. rewrite insertion_sort_perm. apply Ht.
  - apply IH; [intros; apply Ha; set_solver | intros a b c ???; apply (Ht a b c); set_solver].
Qed.
End insertion.

Definition insertion : SortImpl := @insertion_sort.
Lemma insertion_ok : @SortOk insertion.
Proof. split; [exact @insertion_sort_perm | exact @insertion_sort_ordered]. Qed.

(** ** What is reached *)

Section spec.
Context {so : SortImpl} {sok : SortOk}.

Lemma initial_inv g r C : is_Some (g !! r) ->
  spf_inv g r C [] {[r := root_entry]} [{| vKey := r; distance := 0 |}].
Proof.
  intros Hr. split.
  - intros v e [<- <-]%lookup_singleton_Some. split; cbn; [done|done|lia|]. repeat constructor.
  - by intros v [e [<- _]%lookup_singleton_Some].
  - intros v. cbn. rewrite list_elem_of_singleton. split; [by intros [e [<- _]%lookup_singleton_Some] | intros ->; by rewrite lookup_singleton_eq].
  - apply NoDup_singleton.
  - by intros u v c ?%elem_of_nil.
Qed.

(** Everything there is a way to is in the tree. *)
Lemma walk_in_tree g r C D tree p v n : spf_inv g r C D tree [] -> r ∈ D -> walk g r p v n -> v ∈ D.
Proof.
  intros Hinv Hr. induction 1 as [|p u v n c _ IH He]; [done|].
  pose proof (inv_edges _ _ _ _ _ _ Hinv u v c IH He) as Hv.
  apply (inv_dom _ _ _ _ _ _ Hinv) in Hv. by rewrite app_nil_r in Hv.
Qed.

Lemma root_in_tree g r C D tree : spf_inv g r C D tree [] -> is_Some (tree !! r) -> r ∈ D.
Proof. intros Hinv H. apply (inv_dom _ _ _ _ _ _ Hinv) in H. by rewrite app_nil_r in H. Qed.

Lemma run_spf g r C s (X : list VertexKey -> gmap VertexKey TreeVertex -> list VertexData -> Prop) :
  AreaGraph s = g -> graph_ok C g -> 0 <= C -> Z.of_nat (size g) * C < 65280 -> is_Some (g !! r) -> SPFTree s = ∅ ->
  (forall D tree x rest eu tree' rest', spf_inv g r C D tree (x :: rest) -> X D tree (x :: rest) ->
     spf_inv g r C (D ++ [vKey x]) tree' rest' -> step_of g D tree x rest eu tree' rest' -> X (D ++ [vKey x]) tree' rest') ->
  X [] {[r := root_entry]} [{| vKey := r; distance := 0 |}] ->
  exists s' D, ExecuteDijkstra r s = Ok s' /\ same_links g (AreaGraph s') /\
    spf_inv g r C D (SPFTree s') [] /\ X D (SPFTree s') [].
Proof.
  intros <- Hg HC Hlim Hr Ht HX H0. unfold ExecuteDijkstra. rewrite Ht, lookup_empty.
  destruct (spf_loop (AreaGraph s) r C Hg HC Hlim X HX (S (size (AreaGraph s))) (AreaGraph s) [] (<[r := root_entry]> ∅)
    [{| vKey := r; distance := 0 |}]) as (g' & tree' & D' & -> & Hsl & Hinv & HX'); [cbn; lia | done | by apply initial_inv | done |].
  rewrite bind_Ok. eexists _, D'. split; [done|]. cbn. done.
Qed.

(** On a graph whose links all lead to vertices of the graph, none of them to the vertex itself, and whose costs
    cannot add up to 65280, the calculation ends without an error; the vertices of its tree are those there is a
    way to from the root, and the paths of each of them -- as many as the entry says, and at least one -- are
    ways to it of the length the entry says. *)
Theorem spf_finds_paths s r C : graph_ok C (AreaGraph s) -> 0 <= C -> Z.of_nat (size (AreaGraph s)) * C < 65280 ->
  is_Some (AreaGraph s !! r) -> SPFTree s = ∅ ->
  exists s', ExecuteDijkstra r s = Ok s' /\ same_links (AreaGraph s) (AreaGraph s') /\
    (forall v, is_Some (SPFTree s' !! v) <-> exists p n, walk (AreaGraph s) r p v n) /\
    (forall v e, SPFTree s' !! v = Some e -> NumOfPaths e = length (Paths e) /\ Paths e <> [] /\
       forall p, p ∈ Paths e -> walk (AreaGraph s) r p v (Distance e)).
Proof.
  intros Hg HC Hlim Hr Ht.
  destruct (run_spf (AreaGraph s) r C s (fun D tree Q => is_Some (tree !! r))) as (s' & D & -> & Hsl & Hinv & Hroot); try done.
  { intros D tree x rest eu tree' rest' _ [e He] _ Hst. destruct (step_old _ _ _ _ _ _ _ _ Hst r e He) as (e' & He' & _). by exists e'. }
  { by rewrite lookup_singleton_eq. }
  exists s'. split; [done|]. split; [done|]. pose proof (inv_ok _ _ _ _ _ _ Hinv) as Hok. split.
  - intros v. split.
    + intros [e He]. destruct (Hok v e He) as [_ Hs _ Hw]. destruct (Paths e) as [|p ps]; [done|].
      inversion Hw. by exists p, (Distance e).
    + intros (p & n & Hw). apply (inv_dom _ _ _ _ _ _ Hinv). rewrite app_nil_r.
      eapply walk_in_tree; [exact Hinv | by eapply root_in_tree | exact Hw].
  - intros v e He. destruct (Hok v e He) as [Hn Hs _ Hw]. split; [done|]. split; [done|]. by apply Forall_forall.
Qed.

(** ** Shortest paths *)

(** All links of routers cost [c], those of networks nothing; networks lead to routers. *)
Record uniform (c : Z) (g : gmap VertexKey Vertex) : Prop := {
  uniform_pos : 0 < c;
  uniform_types v : is_Some (g !! v) -> vk_Type v = RouterVertex \/ vk_Type v = TNetworkVertex;
  uniform_router u v k : edge g u v k -> vk_Type u = RouterVertex -> k = c;
  uniform_network u v k : edge g u v k -> vk_Type u = TNetworkVertex -> k = 0 /\ vk_Type v = RouterVertex;
}.

(** The order in which vertices are visited: by distance, and networks before routers. *)
Definition rank (v : VertexKey) (d : Z) : Z := 2 * d + (if decide (vk_Type v = RouterVertex) then 1 else 0).

Lemma VertexDataArr_Less_rank x y : vk_Type (vKey x) = RouterVertex \/ vk_Type (vKey x) = TNetworkVertex ->
  vk_Type (vKey y) = RouterVertex \/ vk_Type (vKey y) = TNetworkVertex ->
  VertexDataArr_Less x y = (rank (vKey x) (distance x) <? rank (vKey y) (distance y)).
Proof.
  intros Hx Hy. unfold VertexDataArr_Less, rank. apply eq_true_iff_eq. rewrite Z.ltb_lt.
  destruct Hx as [-> | ->], Hy as [-> | ->]; cbn -[Z.mul];
    destruct (Z.eqb_spec (distance x) (distance y)); repeat case_decide; try done; rewrite ?Z.ltb_lt; split; (lia || done).
Qed.

Lemma queue_sorted l : (forall y, y ∈ l -> vk_Type (vKey y) = RouterVertex \/ vk_Type (vKey y) = TNetworkVertex) ->
  forall x rest, sort_Sort VertexDataArr_Less l = x :: rest -> forall y, y ∈ rest -> rank (vKey x) (distance x) <= rank (vKey y) (distance y).
Proof.
  intros Hty x rest Hs y Hy.
  assert (Hin : forall z, z ∈ x :: rest -> z ∈ l) by (intros z; rewrite <- Hs; by rewrite sort_perm).
  pose proof (sort_ordered VertexData VertexDataArr_Less l) as Hso. rewrite Hs in Hso. 
  assert (HS : StronglySorted (fun a b => VertexDataArr_Less b a = false) (x :: rest)).
  { apply Hso.
    - intros a b Ha Hb. rewrite !VertexDataArr_Less_rank by auto. rewrite Z.ltb_lt, Z.ltb_ge. lia.
    - intros a b c Ha Hb Hc. rewrite !VertexDataArr_Less_rank by auto. rewrite !Z.ltb_ge. lia. }
  inversion_clear HS as [|? ? _ HF]. rewrite Forall_forall in HF. specialize (HF y Hy).
  rewrite VertexDataArr_Less_rank in HF by (apply Hty, Hin; set_solver). by apply Z.ltb_ge in HF.
Qed.

Section shortest.
Context (g : gmap VertexKey Vertex) (r : VertexKey) (C c : Z) (Hun : uniform c g).

Definition dist (tree : gmap VertexKey TreeVertex) (v : VertexKey) (d : Z) : Prop := exists e, tree !! v = Some e /\ Distance e = d.

Lemma dist_fun tree v d d' : dist tree v d -> dist tree v d' -> d = d'.
Proof. intros (e & He & <-) (e' & He' & <-). congruence. Qed.

(** The vertices that were visited come before those that wait, which are in order; a distance is that of a
    visited vertex and a link more; no link of a visited vertex leads to a vertex that is too far away. *)
Record bfs_inv (D : list VertexKey) (tree : gmap VertexKey TreeVertex) (Q : list VertexData) : Prop := {
  bfs_root : dist tree r 0;
  bfs_queue x : x ∈ Q -> dist tree (vKey x) (distance x);
  bfs_multiple v d : dist tree v d -> (c | d);
  bfs_before v d x : v ∈ D -> dist tree v d -> x ∈ Q -> rank v d <= rank (vKey x) (distance x);
  bfs_head x rest y : Q = x :: rest -> y ∈ rest -> rank (vKey x) (distance x) <= rank (vKey y) (distance y);
  bfs_from v d : dist tree v d -> d = 0 \/ exists u du k, u ∈ D /\ dist tree u du /\ edge g u v k /\ d = du + k;
  bfs_edges u v k du : u ∈ D -> dist tree u du -> edge g u v k -> exists d, dist tree v d /\ d <= du + k;
}.

Lemma multiple_gap a b : (c | a) -> (c | b) -> a < b -> a + c <= b.
Proof. intros [x ->] [y ->] H. pose proof (uniform_pos c g Hun).
  assert (x < y) by nia. nia. Qed.

(** A link of the next vertex to be visited does not lead nearer to a vertex than a visited one that comes before. *)
Lemma link_far u v k du u' k' du' : edge g u v k -> edge g u' v k' -> is_Some (g !! u) -> is_Some (g !! u') ->
  (c | du) -> (c | du') -> rank u' du' <= rank u du -> du' + k' <= du + k.
Proof.
  intros He He' Hu Hu' Hm Hm' Hr. pose proof (uniform_pos c g Hun) as Hc. unfold rank in Hr.
  destruct (uniform_types c g Hun u Hu) as [E | E], (uniform_types c g Hun u' Hu') as [E' | E'];
    rewrite E, E' in Hr; repeat case_decide; try done.
  - rewrite (uniform_router c g Hun u v k He E), (uniform_router c g Hun u' v k' He' E'). lia.
  - rewrite (uniform_router c g Hun u v k He E). destruct (uniform_network c g Hun u' v k' He' E') as [-> _]. lia.
  - destruct (uniform_network c g Hun u v k He E) as [-> _]. rewrite (uniform_router c g Hun u' v k' He' E').
    pose proof (multiple_gap du' du Hm' Hm). lia.
  - destruct (uniform_network c g Hun u v k He E) as [-> _], (uniform_network c g Hun u' v k' He' E') as [-> _]. lia.
Qed.

(** ... and leads to a vertex that comes after it. *)
Lemma link_after u v k du : edge g u v k -> is_Some (g !! u) -> rank u du <= rank v (du + k).
Proof.
  intros He Hu. pose proof (uniform_pos c g Hun) as Hc. unfold rank.
  destruct (uniform_types c g Hun u Hu) as [E | E]; rewrite E.
  - rewrite (uniform_router c g Hun u v k He E). repeat case_decide; try done; lia.
  - destruct (uniform_network c g Hun u v k He E) as [-> ->]. repeat case_decide; try done; lia.
Qed.

Lemma edge_multiple u v k : edge g u v k -> is_Some (g !! u) -> (c | k).
Proof.
  intros He Hu. destruct (uniform_types c g Hun u Hu) as [E | E].
  - rewrite (uniform_router c g Hun u v k He E). reflexivity.
  - destruct (uniform_network c g Hun u v k He E) as [-> _]. apply Z.divide_0_r.
Qed.

Section step.
Context (D : list VertexKey) (tree : gmap VertexKey TreeVertex) (x : VertexData) (rest : list VertexData) (eu : TreeVertex)
  (tree' : gmap VertexKey TreeVertex) (rest' : list VertexData).
Context (Hinv : spf_inv g r C D tree (x :: rest)) (HX : bfs_inv D tree (x :: rest))
  (Hinv' : spf_inv g r C (D ++ [vKey x]) tree' rest') (Hst : step_of g D tree x rest eu tree' rest').

Lemma head_dist : dist tree (vKey x) (distance x) /\ Distance eu = distance x.
Proof.
  pose proof (bfs_queue _ _ _ HX x ltac:(set_solver)) as H. split; [done|].
  destruct H as (e & He & <-). rewrite (step_entry _ _ _ _ _ _ _ _ Hst) in He. by simplify_eq.
Qed.

Lemma in_graph v d : dist tree v d -> is_Some (g !! v).
Proof. intros (e & He & _). apply (inv_graph _ _ _ _ _ _ Hinv). by rewrite He. Qed.

(** Vertices that are in the tree keep their distances. *)
Lemma dist_kept v d : dist tree v d -> dist tree' v d.
Proof.
  intros Hv. destruct Hv as (e & He & <-). destruct (step_old _ _ _ _ _ _ _ _ Hst v e He) as (e' & He' & Hle).
  exists e'. split; [done|]. destruct head_dist as [Hx Ex].
  destruct (step_from _ _ _ _ _ _ _ _ Hst v e' He') as [(e0 & He0 & ->) | (k & Hk & Hd)]; [congruence|].
  apply Z.le_antisymm; [done|]. rewrite Hd, Ex.
  assert (Hv : dist tree v (Distance e)) by (by exists e).
  destruct (bfs_from _ _ _ HX v _ Hv) as [-> | (u & du & k' & Hu & Hdu & He'' & ->)].
  - pose proof (inv_ok _ _ _ _ _ _ Hinv' v e' He') as [_ _ Hr _]. lia.
  - apply (link_far (vKey x) v k (distance x) u k' du Hk He''); [by eapply in_graph| by eapply in_graph| | |].
    + by eapply bfs_multiple.
    + by eapply bfs_multiple.
    + apply (bfs_before _ _ _ HX); [done | done | set_solver].
Qed.

Lemma dist_from v d : dist tree' v d -> dist tree v d \/ exists k, edge g (vKey x) v k /\ d = distance x + k.
Proof.
  intros (e & He & <-). destruct head_dist as [_ Ex].
  destruct (step_from _ _ _ _ _ _ _ _ Hst v e He) as [(e0 & He0 & ->) | (k & Hk & ->)]; [left; by exists e0|].
  right. exists k. by rewrite Ex.
Qed.

Lemma dist_visited v d : v ∈ D -> dist tree' v d -> dist tree v d.
Proof.
  intros Hv Hd. assert (is_Some (tree !! v)) as [e He].
  { apply (inv_dom _ _ _ _ _ _ Hinv). apply elem_of_app. by left. }
  assert (H : dist tree v (Distance e)) by (by exists e).
  by rewrite (dist_fun _ _ _ _ Hd (dist_kept _ _ H)).
Qed.

Lemma rest_after y : y ∈ rest' -> rank (vKey x) (distance x) <= rank (vKey y) (distance y).
Proof.
  intros Hy. destruct head_dist as [Hx Ex]. destruct (step_rest _ _ _ _ _ _ _ _ Hst y Hy) as [Hy' | (_ & k & Hk & ->)].
  - by apply (bfs_head _ _ _ HX x rest).
  - rewrite Ex. apply link_after; [done | by eapply in_graph].
Qed.

Lemma bfs_step : bfs_inv (D ++ [vKey x]) tree' rest'.
Proof.
  destruct head_dist as [Hx Ex]. split.
  - apply dist_kept, HX.
  - intros y Hy. destruct (step_rest _ _ _ _ _ _ _ _ Hst y Hy) as [Hy' | (Hn & k & Hk & Hd)].
    { apply dist_kept, HX. by right. }
    assert (is_Some (tree' !! vKey y)) as [e He].
    { apply (inv_dom _ _ _ _ _ _ Hinv'). apply elem_of_app. right. by apply list_elem_of_fmap_2. }
    exists e. split; [done|]. destruct (step_edges _ _ _ _ _ _ _ _ Hst _ _ Hk) as (e' & He' & Hle).
    rewrite He in He'. simplify_eq. destruct (step_from _ _ _ _ _ _ _ _ Hst _ _ He) as [(e0 & He0 & _) | (k' & Hk' & Hd')]; [congruence|].
    enough (k = k') by congruence.
    destruct (uniform_types c g Hun (vKey x) (in_graph _ _ Hx)) as [E | E].
    + by rewrite (uniform_router c g Hun _ _ _ Hk E), (uniform_router c g Hun _ _ _ Hk' E).
    + by rewrite (proj1 (uniform_network c g Hun _ _ _ Hk E)), (proj1 (uniform_network c g Hun _ _ _ Hk' E)).
  - intros v d [Hd | (k & Hk & ->)]%dist_from; [by eapply bfs_multiple|]. apply Z.divide_add_r.
    + by eapply bfs_multiple.
    + by eapply edge_multiple, in_graph.
  - intros v d y [Hv | ->%list_elem_of_singleton]%elem_of_app Hd Hy.
    + etransitivity; [|by apply rest_after]. apply (bfs_before _ _ _ HX); [done | by apply dist_visited | set_solver].
    + rewrite (dist_fun _ _ _ _ Hd (dist_kept _ _ Hx)). by apply rest_after.
  - intros y tl z -> Hz. destruct (step_sorted _ _ _ _ _ _ _ _ Hst) as [l Hl]. apply (queue_sorted l) with tl; [|done|done].
    intros w Hw. apply (uniform_types c g Hun), (inv_graph _ _ _ _ _ _ Hinv'), (inv_dom _ _ _ _ _ _ Hinv').
    apply elem_of_app. right. apply list_elem_of_fmap_2. rewrite Hl. by rewrite sort_perm.
  - intros v d [Hd | (k & Hk & ->)]%dist_from.
    + destruct (bfs_from _ _ _ HX v d Hd) as [-> | (u & du & k & Hu & Hdu & Hk & ->)]; [by left|]. right.
      exists u, du, k. split; [set_solver|]. split; [by apply dist_kept | done].
    + right. exists (vKey x), (distance x), k. split; [set_solver|]. split; [by apply dist_kept | done].
  - intros u v k du [Hu | ->%list_elem_of_singleton]%elem_of_app Hdu Hk.
    + apply dist_visited in Hdu; [|done]. destruct (bfs_edges _ _ _ HX u v k du Hu Hdu Hk) as (d & Hd & Hle).
      exists d. split; [by apply dist_kept | done].
    + rewrite (dist_fun _ _ _ _ Hdu (dist_kept _ _ Hx)). destruct (step_edges _ _ _ _ _ _ _ _ Hst _ _ Hk) as (e & He & Hle).
      exists (Distance e). split; [by exists e | by rewrite <- Ex].
Qed.
End step.

Lemma bfs_walk D tree p v n : bfs_inv D tree [] -> spf_inv g r C D tree [] -> walk g r p v n ->
  exists d, dist tree v d /\ d <= n.
Proof.
  intros HX Hinv. induction 1 as [|p u v n k _ (d & Hd & Hle) He]; [by exists 0; split; [apply HX|]|].
  assert (Hu : u ∈ D).
  { destruct Hd as (e & Hd & _). rewrite <- (app_nil_r D). apply (inv_dom _ _ _ _ _ _ Hinv). by rewrite Hd. }
  destruct (bfs_edges _ _ _ HX u v k d Hu Hd He) as (d' & Hd' & Hle'). exists d'. split; [done | lia].
Qed.
End shortest.

(** C8: where all links of routers cost the same, something, and those of networks, which lead to routers, nothing,
    every vertex that there is a way to has an entry; its distance is that of a shortest way, and its paths, at least
    one, are shortest ways. The graph is closed (every link leads to a vertex of it), no vertex is linked to itself,
    costs are from 0 to C, C times the number of vertices is below 65280, the root is in the graph and the tree empty.
    The bound is needed: beyond it 16-bit distances wrap (spf_wraps) and vertices keep the entry they were made with
    (spf_stays_new); so is that the costs are the same (spf_not_shortest). *)
Theorem spf_shortest_uniform s r C c : graph_ok C (AreaGraph s) -> 0 <= C -> Z.of_nat (size (AreaGraph s)) * C < 65280 ->
  is_Some (AreaGraph s !! r) -> SPFTree s = ∅ -> uniform c (AreaGraph s) ->
  exists s', ExecuteDijkstra r s = Ok s' /\
    forall v p n, walk (AreaGraph s) r p v n ->
      exists e, SPFTree s' !! v = Some e /\ Distance e <= n /\ Paths e <> [] /\
        Forall (fun q => walk (AreaGraph s) r q v (Distance e)) (Paths e).
Proof.
  intros Hg HC Hlim Hr Ht Hun.
  destruct (run_spf (AreaGraph s) r C s (bfs_inv (AreaGraph s) r c)) as (s' & D & -> & Hsl & Hinv & HX); try done.
  { intros. by eapply bfs_step. }
  { assert (H0 : forall v d, dist {[r := root_entry]} v d -> v = r /\ d = 0).
    { by intros v d (e & [<- <-]%lookup_singleton_Some & <-). }
    assert (Hr0 : dist {[r := root_entry]} r 0) by (exists root_entry; by rewrite lookup_singleton_eq).
    split; try done.
    - by intros x ->%list_elem_of_singleton.
    - intros v d [_ ->]%H0. apply Z.divide_0_r.
    - by intros v d x ?%elem_of_nil.
    - intros x rest y [= <- <-] ?%elem_of_nil. done.
    - intros v d [_ ->]%H0. by left.
    - by intros u v k du ?%elem_of_nil. }
  exists s'. split; [done|]. intros v p n Hw.
  destruct (bfs_walk _ _ C c D _ p v n HX Hinv Hw) as (d & (e & He & <-) & Hle). exists e. split; [done|]. split; [done|].
  destruct (inv_ok _ _ _ _ _ _ Hinv v e He) as [_ Hs _ Hp]. by split.
Qed.
End spec.

(** ** Graphs that satisfy the assumptions *)

(** The links of a graph. *)
Definition links (g : gmap VertexKey Vertex) : list (VertexKey * VertexKey * Z) :=
  '(u, ent) ← map_to_list g; (fun p => (u, p.1, p.2)) <$> zip (NbrVertexKey ent) (NbrVertexCost ent).

Lemma edge_links g u v c : edge g u v c -> (u, v, c) ∈ links g.
Proof.
  intros (ent & i & Hu & Hv & Hc). apply list_elem_of_bind. exists (u, ent). split; [|by apply elem_of_map_to_list].
  apply list_elem_of_fmap. exists (v, c). split; [done|]. apply list_elem_of_lookup. exists i.
  apply lookup_zip_with_Some. by exists v, c.
Qed.

Definition graph_okb (C : Z) (g : gmap VertexKey Vertex) : bool :=
  forallb (fun '(_, ent) => bool_decide (length (NbrVertexCost ent) = length (NbrVertexKey ent))) (map_to_list g) &&
  forallb (fun '(u, v, c) => bool_decide (is_Some (g !! v)) && bool_decide (u <> v) && (0 <=? c) && (c <=? C)) (links g).

Lemma graph_okb_ok C g : graph_okb C g = true -> graph_ok C g.
Proof.
  unfold graph_okb. rewrite andb_true_iff, !forallb_forall. intros [Hl He].
  assert (Hed : forall u v c, edge g u v c -> is_Some (g !! v) /\ u <> v /\ 0 <= c <= C).
  { intros u v c H%edge_links%list_elem_of_In. specialize (He _ H). cbn in He.
    rewrite !andb_true_iff, !bool_decide_eq_true, !Z.leb_le in He. naive_solver. }
  split; [|intros u v c H; apply (Hed u v c H)..].
  intros u ent H%elem_of_map_to_list%list_elem_of_In. specialize (Hl _ H). cbn in Hl. by rewrite bool_decide_eq_true in Hl.
Qed.

Definition router_type (v : VertexKey) : bool := vk_Type v =? RouterVertex.
Definition network_type (v : VertexKey) : bool := vk_Type v =? TNetworkVertex.
Definition uniformb (c : Z) (g : gmap VertexKey Vertex) : bool :=
  (0 <? c) && forallb (fun '(v, _) => router_type v || network_type v) (map_to_list g) &&
  forallb (fun '(u, v, k) => if router_type u then k =? c else (k =? 0) && router_type v) (links g).

Lemma uniformb_uniform c g : uniformb c g = true -> uniform c g.
Proof.
  unfold uniformb, router_type, network_type. rewrite !andb_true_iff, !forallb_forall. intros [[Hp Ht] He]. split.
  - by apply Z.ltb_lt.
  - intros v [ent H%elem_of_map_to_list%list_elem_of_In]. specialize (Ht _ H). cbn in Ht.
    by rewrite orb_true_iff, !Z.eqb_eq in Ht.
  - intros u v k H%edge_links%list_elem_of_In E. specialize (He _ H). cbn in He. rewrite E in He. by apply Z.eqb_eq in He.
  - intros u v k H%edge_links%list_elem_of_In E. specialize (He _ H). cbn in He. rewrite E in He.
    cbn in He. by rewrite andb_true_iff, !Z.eqb_eq in He.
Qed.

(** ** Examples *)

Definition router (id : Z) : VertexKey := {| vk_Type := RouterVertex; ID := id; AdvRtr := id |}.
Definition transit (id adv : Z) : VertexKey := {| vk_Type := TNetworkVertex; ID := id; AdvRtr := adv |}.
Definition vertex (nbrs : list (VertexKey * Z)) : Vertex :=
  {| NbrVertexKey := nbrs.*1; NbrVertexCost := nbrs.*2; v_LinkData := ∅; v_LsaKey := NewLsaKey; v_AreaId := 0;
     Visited := false; LinkStateId := 0 |}.
Definition idle (g : gmap VertexKey Vertex) : OSPFServer :=
  {| AreaLsdb := ∅; AreaSelfOrigLsa := ∅; LsdbSlice := []; maxAgeLsaMap := ∅; RouterId := []; AreaBdrRtrStatus := false;
     AreaConfMap := ∅; IntfConfMap := ∅; NeighborConfigMap := ∅; ospfIntfToNbrMap := ∅; ipPropertyMap := ∅; ribdClientHdl := true;
     AreaGraph := g; AreaStubs := ∅; SPFTree := ∅; TempAreaRoutingTbl := ∅; GlobalRoutingTbl := ∅;
     OldGlobalRoutingTbl := ∅; TempGlobalRoutingTbl := ∅; SummaryLsDb := ∅; Version := 2; IPToMAC := ∅; out := [] |}.

(** Three routers on a network, with a link from the last to a fourth. *)
Definition campus : gmap VertexKey Vertex :=
  list_to_map [(router 1, vertex [(transit 9 1, 10)]); (router 2, vertex [(transit 9 1, 10)]);
    (router 3, vertex [(transit 9 1, 10); (router 4, 10)]); (router 4, vertex [(router 3, 10)]);
    (transit 9 1, vertex [(router 1, 0); (router 2, 0); (router 3, 0)])].

Lemma spf_finds_paths_witness :
  exists s', @ExecuteDijkstra insertion (router 1) (idle campus) = Ok s' /\
    (is_Some (SPFTree s' !! router 4) <-> exists p n, walk campus (router 1) p (router 4) n).
Proof.
  destruct (@spf_finds_paths insertion insertion_ok (idle campus) (router 1) 10) as (s' & Hs & _ & H & _).
  - by apply graph_okb_ok; vm_compute.
  - lia.
  - by vm_compute.
  - by vm_compute; eexists.
  - reflexivity.
  - exists s'. split; [exact Hs | apply H].
Defined.

Lemma spf_shortest_uniform_witness :
  exists s', @ExecuteDijkstra insertion (router 1) (idle campus) = Ok s' /\
    forall p n, walk campus (router 1) p (router 4) n -> exists e, SPFTree s' !! router 4 = Some e /\ Distance e <= n.
Proof.
  destruct (@spf_shortest_uniform insertion insertion_ok (idle campus) (router 1) 10 10) as (s' & Hs & H).
  - by apply graph_okb_ok; vm_compute.
  - lia.
  - by vm_compute.
  - by vm_compute; eexists.
  - reflexivity.
  - by apply uniformb_uniform; vm_compute.
  - exists s'. split; [exact Hs|]. intros p n Hw. destruct (H _ _ _ Hw) as (e & He & Hle & _). by exists e.
Defined.

(** The distance by which a vertex waits is the one with which it was found, and a vertex is visited once: when a
    shorter way to it is found later, what lies behind it keeps the longer one. *)
Definition detour : gmap VertexKey Vertex :=
  list_to_map [(router 1, vertex [(router 2, 10); (router 3, 1)]); (router 3, vertex [(router 2, 1); (router 4, 5)]);
    (router 2, vertex [(router 4, 1)]); (router 4, vertex [(router 5, 1)]); (router 5, vertex [])].

Theorem spf_not_shortest :
  graph_ok 10 detour /\ (exists p, walk detour (router 1) p (router 5) 4) /\
  exists s', @ExecuteDijkstra insertion (router 1) (idle detour) = Ok s' /\
    Distance <$> SPFTree s' !! router 5 = Some 7.
Proof.
  split; [by apply graph_okb_ok; vm_compute|]. split.
  - assert (He : forall u ent i v c, detour !! u = Some ent -> NbrVertexKey ent !! i = Some v ->
      NbrVertexCost ent !! i = Some c -> edge detour u v c) by (intros u ent i v c H1 H2 H3; by exists ent, i).
    exists ([] ++ [router 1] ++ [router 3] ++ [router 2] ++ [router 4]). rewrite !app_assoc.
    apply (walk_step _ _ _ _ _ 3 1). 2: { by eapply (He _ _ 0%nat). }
    apply (walk_step _ _ _ _ _ 2 1). 2: { by eapply (He _ _ 0%nat). }
    apply (walk_step _ _ _ _ _ 1 1). 2: { by eapply (He _ _ 0%nat). }
    apply (walk_step _ _ _ _ _ 0 1). 2: { by eapply (He _ _ 1%nat). }
    constructor.
  - eexists. split; [vm_compute; reflexivity | reflexivity].
Qed.

(** Distances are of sixteen bits: a link of the greatest metric leads back, to less. *)
Theorem spf_wraps :
  exists s', @ExecuteDijkstra insertion (router 1) (idle (list_to_map [(router 1, vertex [(router 2, 10)]);
      (router 2, vertex [(router 3, 65535)]); (router 3, vertex [])])) = Ok s' /\
    Distance <$> SPFTree s' !! router 3 = Some 9.
Proof. eexists. split; [vm_compute; reflexivity | reflexivity]. Qed.

(** An entry that is found at the distance new entries have keeps their empty path and is given another. *)
Theorem spf_stays_new :
  exists s' e, @ExecuteDijkstra insertion (router 1) (idle (list_to_map [(router 1, vertex [(router 2, 65300)]);
      (router 2, vertex [])])) = Ok s' /\
    SPFTree s' !! router 2 = Some e /\ Distance e = 65280 /\ Paths e = [[]].
Proof. eexists _, _. split; [vm_compute; reflexivity|]. split; [reflexivity | by split]. Qed.

(** A link to a vertex that is not in the graph ends the calculation. *)
Theorem spf_open_graph :
  @ExecuteDijkstra insertion (router 1) (idle (list_to_map [(router 1, vertex [(router 2, 10); (router 3, 10)]);
    (router 3, vertex [])])) = Err NoNeighbor.
Proof. vm_compute. reflexivity. Qed.
