(* ===== verification/OspfGraphFacts.v ===== *)
(** The graph of an area: it is built from the link state database in finitely many calls, and on a database that
    is complete every link of it leads to one of its vertices. *)
From stdpp Require Import base numbers list gmap strings.
From Stdlib Require Import ZArith Lia.
From S2P Require Import Prelude GoNet OspfUtil OspfLsa OspfState OspfSpf.
Open Scope Z_scope.

Section graph.
Context {mo : MapOrder} {mok : MapOrderOk}.

(** What building the graph does not change. *)
Record keeps (s s' : OSPFServer) : Prop := {
  keeps_lsdb : AreaLsdb s' = AreaLsdb s;
  keeps_id : RouterId s' = RouterId s;
  keeps_tree : SPFTree s' = SPFTree s;
}.
#[local] Instance keeps_preorder : PreOrder keeps.
Proof. split; [done|]. intros a b c [] []. split; congruence. Qed.

Lemma keeps_reads s s' areaId : keeps s s' -> area_exists s' areaId = area_exists s areaId /\ lsdb_of s' areaId = lsdb_of s areaId.
Proof. intros []. unfold area_exists, lsdb_of. by rewrite keeps_lsdb0. Qed.
Lemma keeps_findNetworkLsa s s' areaId id : keeps s s' -> findNetworkLsa s' areaId id = findNetworkLsa s areaId id.
Proof. intros H. destruct (keeps_reads s s' areaId H) as [E1 E2]. unfold findNetworkLsa. by rewrite E1, E2. Qed.
Lemma keeps_findRouterLsa s s' areaId id : keeps s s' -> findRouterLsa s' areaId id = findRouterLsa s areaId id.
Proof. intros H. destruct (keeps_reads s s' areaId H) as [E1 E2]. unfold findRouterLsa. by rewrite E1, E2. Qed.
Lemma keeps_check s s' areaId r n m : keeps s s' ->
  checkRouterLsaConsistency s' areaId r n m = checkRouterLsaConsistency s areaId r n m.
Proof. intros H. destruct (keeps_reads s s' areaId H) as [E1 E2]. unfold checkRouterLsaConsistency. by rewrite E1, E2. Qed.

(** ** The neighbors an LSA stands for *)

Section area.
Context (s0 : OSPFServer) (areaId : Z).

Definition link_neighbor (link : LinkDetail) : option (VertexKey * Z) :=
  if LinkType link =? TransitLink then
    match findNetworkLsa s0 areaId (LinkId link) with
    | (key, false) => Some ({| vk_Type := TNetworkVertex; ID := LinkId link; AdvRtr := AdvRouter key |}, LinkMetric link)
    | (_, true) => None
    end
  else if LinkType link =? StubLink then None
  else if LinkType link =? P2PLink then Some (router_key (LinkId link), LinkMetric link)
  else None.
Definition router_neighbors (lsa : RouterLsa) : list (VertexKey * Z) :=
  omap link_neighbor (take (Z.to_nat (NumOfLinks lsa)) (LinkDetails lsa)).

Definition attaches (network netmask rtr : Z) : bool :=
  match checkRouterLsaConsistency s0 areaId rtr network netmask with Ok b => b | _ => false end.
Definition network_neighbors (lsa : NetworkLsa) (lsid : Z) : list (VertexKey * Z) :=
  (fun r => (router_key r, 0)) <$> filter (fun r => attaches (Z.land lsid (N_Netmask lsa)) (N_Netmask lsa) r = true) (AttachedRtr lsa).

(** The LSA of a vertex, and the neighbors it gives it. *)
Definition lsa_of (v : VertexKey) : option (NetworkLsa + RouterLsa) :=
  if vk_Type v =? TNetworkVertex then inl <$> NetworkLsaMap (lsdb_of s0 areaId) !! lsa_key_of NetworkLSA v
  else if vk_Type v =? RouterVertex then inr <$> RouterLsaMap (lsdb_of s0 areaId) !! lsa_key_of RouterLSA v
  else None.
Definition neighbors_of (v : VertexKey) (lsa : NetworkLsa + RouterLsa) : list (VertexKey * Z) :=
  match lsa with inl n => network_neighbors n (ID v) | inr r => router_neighbors r end.

(** Every router LSA has the links it says it has; a router at the other end of a link has an LSA, every router
    but this one a link to somewhere, and every network an attached router. *)
Record complete : Prop := {
  complete_area : area_exists s0 areaId = true;
  complete_id : exists a b c d, RouterId s0 = [a; b; c; d];
  complete_links k lsa : RouterLsaMap (lsdb_of s0 areaId) !! k = Some lsa -> (Z.to_nat (NumOfLinks lsa) <= length (LinkDetails lsa))%nat;
  complete_p2p k lsa link : RouterLsaMap (lsdb_of s0 areaId) !! k = Some lsa -> link ∈ LinkDetails lsa ->
    LinkType link = P2PLink -> findRouterLsa s0 areaId (LinkId link) = false;
  complete_router v lsa : lsa_of v = Some (inr lsa) -> router_neighbors lsa <> [] \/ Util.convertIPv4ToUint32 (RouterId s0) = Ok (AdvRtr v);
  complete_network v lsa : lsa_of v = Some (inl lsa) -> network_neighbors lsa (ID v) <> [];
}.
Context (Hc : complete).

Lemma first_link_ok links network netmask n : forall i, (i + n <= length links)%nat ->
  exists b, first_link links n i network netmask = Ok b.
Proof.
  induction n as [|n IH]; intros i Hi; cbn; [by eexists|]. unfold nth_go.
  destruct (lookup_lt_is_Some_2 links i ltac:(lia)) as [link ->]. rewrite bind_Ok.
  repeat case_match; eauto; apply IH; lia.
Qed.
Lemma check_ok r n m : exists b, checkRouterLsaConsistency s0 areaId r n m = Ok b.
Proof.
  unfold checkRouterLsaConsistency. destruct (negb _); [by eexists|].
  destruct (RouterLsaMap _ !! _) as [lsa|] eqn:E; [|by eexists]. apply first_link_ok. by eapply complete_links in E.
Qed.
Lemma attaches_lsa r n m : attaches n m r = true ->
  is_Some (RouterLsaMap (lsdb_of s0 areaId) !! {| LSType := RouterLSA; LSId := r; AdvRouter := r |}).
Proof.
  unfold attaches, checkRouterLsaConsistency. destruct (negb _); [done|]. by destruct (RouterLsaMap _ !! _).
Qed.

(** The neighbors of a vertex so far. *)
Definition has_neighbors (ent : Vertex) (l : list (VertexKey * Z)) : Prop := NbrVertexKey ent = l.*1 /\ NbrVertexCost ent = l.*2.
Lemma has_neighbors_add ent l v c d : has_neighbors ent l -> has_neighbors (add_neighbor v c d ent) (l ++ [(v, c)]).
Proof. intros [E1 E2]. split; cbn; by rewrite fmap_app, ?E1, ?E2. Qed.

Lemma attached_routers_ok s n m rtrs : keeps s0 s -> forall ent l, has_neighbors ent l ->
  exists ent', attached_routers s areaId n m rtrs ent = Ok ent' /\
    has_neighbors ent' (l ++ ((fun r => (router_key r, 0)) <$> filter (fun r => attaches n m r = true) rtrs)).
Proof.
  intros Hk. induction rtrs as [|r rtrs IH]; intros ent l Hl; cbn [attached_routers].
  { exists ent. cbn. by rewrite app_nil_r. }
  rewrite (keeps_check s0 s areaId r n m Hk). destruct (check_ok r n m) as [b Hb]. rewrite Hb, bind_Ok.
  assert (Ha : attaches n m r = b) by (unfold attaches; by rewrite Hb). rewrite filter_cons, Ha.
  destruct b; cbn [decide fmap list_fmap]; [|by apply IH].
  destruct (IH _ _ (has_neighbors_add ent l (router_key r) 0 m Hl)) as (ent' & -> & He). exists ent'. split; [done|].
  by rewrite <- app_assoc in He.
Qed.

Lemma router_links_ok s k key vertexKey lsa : keeps s0 s -> RouterLsaMap (lsdb_of s0 areaId) !! k = Some lsa ->
  exists ent s', for_upto (Z.to_nat (NumOfLinks lsa)) 0 (router_link areaId key vertexKey lsa) (zero_vertex, s, false) = Ok (ent, s', false) /\
    keeps s s' /\ AreaGraph s' = AreaGraph s /\ has_neighbors ent (router_neighbors lsa).
Proof.
  intros Hk Hl. pose proof (complete_links Hc k lsa Hl) as Hn.
  destruct (for_upto_rule (fun i st => st.2 = false /\ keeps s st.1.2 /\ AreaGraph st.1.2 = AreaGraph s /\
      has_neighbors st.1.1 (omap link_neighbor (take i (LinkDetails lsa))))
    (router_link areaId key vertexKey lsa) (Z.to_nat (NumOfLinks lsa)) 0 (zero_vertex, s, false))
    as ([[ent s'] err] & -> & He & Hks & Hg & Hnb); [| done | cbn in *; subst err; by exists ent, s'].
  intros i [[ent s1] err] Hi (He & Hk1 & Hg1 & Hnb). cbn in *. subst err. unfold nth_go.
  destruct (lookup_lt_is_Some_2 (LinkDetails lsa) i ltac:(lia)) as [link Hlink]. rewrite Hlink, bind_Ok.
  rewrite (take_S_r _ _ _ Hlink), omap_app. cbn [omap list_omap]. unfold link_neighbor.
  assert (Hk01 : keeps s0 s1) by (by transitivity s).
  destruct (LinkType link =? TransitLink) eqn:E1.
  - rewrite (keeps_findNetworkLsa s0 s1 areaId _ Hk01). destruct (findNetworkLsa s0 areaId (LinkId link)) as [nk [|]].
    + eexists. split; [done|]. by rewrite app_nil_r.
    + eexists. split; [done|]. cbn. split; [done|]. split; [done|]. split; [done|]. by apply has_neighbors_add.
  - destruct (LinkType link =? StubLink) eqn:E2.
    + eexists. split; [done|]. cbn. rewrite app_nil_r. split; [done|]. split; [|done]. by destruct Hk1; split.
    + destruct (LinkType link =? P2PLink) eqn:E3.
      * rewrite (keeps_findRouterLsa s0 s1 areaId _ Hk01). zhyp.
        rewrite (complete_p2p Hc k lsa link Hl); [|by eapply list_elem_of_lookup_2|done].
        eexists. split; [done|]. cbn. split; [done|]. split; [done|]. split; [done|]. by apply has_neighbors_add.
      * eexists. split; [done|]. by rewrite app_nil_r.
Qed.

Lemma mark_transit_keeps lsa s : keeps s (mark_transit lsa areaId s) /\ AreaGraph (mark_transit lsa areaId s) = AreaGraph s.
Proof. unfold mark_transit. repeat case_match; split; done. Qed.

(** ** One call *)

(** A graph that has grown by vertices all of whose neighbors are in it. *)
Definition from_lsdb (v : VertexKey) (ent : Vertex) : Prop :=
  exists lsa, lsa_of v = Some lsa /\ has_neighbors ent (neighbors_of v lsa).
Record grown (s s' : OSPFServer) : Prop := {
  grown_keeps : keeps s s';
  grown_old v ent : AreaGraph s !! v = Some ent -> AreaGraph s' !! v = Some ent;
  grown_new v ent : AreaGraph s' !! v = Some ent -> AreaGraph s !! v = None ->
    from_lsdb v ent /\ forall w, w ∈ NbrVertexKey ent -> is_Some (AreaGraph s' !! w);
}.
Lemma grown_refl s s' : keeps s s' -> AreaGraph s' = AreaGraph s -> grown s s'.
Proof. intros Hk E. split; [done | by rewrite E | rewrite E; congruence]. Qed.
Lemma grown_trans s s' s'' : grown s s' -> grown s' s'' -> grown s s''.
Proof.
  intros [K1 O1 N1] [K2 O2 N2]. split; [by transitivity s' | auto |]. intros v ent Hv Hn.
  destruct (AreaGraph s' !! v) as [e|] eqn:E; [|by apply N2]. pose proof (O2 v e E). simplify_eq.
  destruct (N1 v ent E Hn) as [? Hw]. split; [done|]. intros w Hin. destruct (Hw w Hin) as [x Hx]. exists x. auto.
Qed.
Lemma grown_in s s' v : grown s s' -> is_Some (AreaGraph s !! v) -> is_Some (AreaGraph s' !! v).
Proof. intros [_ O _] [e He]. exists e. auto. Qed.

Lemma each_neighbor_ok visit l : forall s,
  (forall v s1, v ∈ l -> grown s s1 -> AreaGraph s1 !! v = None ->
     exists s2, visit v s1 = Ok (s2, false) /\ grown s1 s2 /\ is_Some (AreaGraph s2 !! v)) ->
  exists s', each_neighbor visit l s = Ok (s', false) /\ grown s s' /\ forall v, v ∈ l -> is_Some (AreaGraph s' !! v).
Proof.
  induction l as [|v l IH]; intros s Hv; cbn [each_neighbor].
  { exists s. split; [done|]. split; [by apply grown_refl|]. by intros ? ?%elem_of_nil. }
  case_bool_decide as Hs.
  - destruct (IH s) as (s' & -> & Hg & Hin); [intros; apply Hv; [by right | done..]|]. exists s'. split; [done|]. split; [done|].
    intros w [-> | Hw]%elem_of_cons; [by eapply grown_in | by apply Hin].
  - apply eq_None_not_Some in Hs. destruct (Hv v s) as (s2 & -> & Hg2 & Hs2); [by left | by apply grown_refl | done |]. rewrite bind_Ok.
    destruct (IH s2) as (s' & -> & Hg & Hin).
    { intros w s1 Hw Hg1. apply Hv; [by right | by eapply grown_trans]. }
    exists s'. split; [done|]. split; [by eapply grown_trans|].
    intros w [-> | Hw]%elem_of_cons; [by eapply grown_in | by apply Hin].
Qed.

(** The vertices of the database that are not in the graph. *)
Definition lsdb_vertices : list VertexKey :=
  ((fun k => {| vk_Type := RouterVertex; ID := LSId k; AdvRtr := AdvRouter k |}) <$> (map_to_list (RouterLsaMap (lsdb_of s0 areaId))).*1) ++
  ((fun k => {| vk_Type := TNetworkVertex; ID := LSId k; AdvRtr := AdvRouter k |}) <$> (map_to_list (NetworkLsaMap (lsdb_of s0 areaId))).*1).
Definition pending (l : list VertexKey) (s : OSPFServer) : nat := length (filter (fun v => AreaGraph s !! v = None) l).
Definition missing : OSPFServer -> nat := pending lsdb_vertices.

Lemma lsa_of_vertex v lsa : lsa_of v = Some lsa -> v ∈ lsdb_vertices.
Proof.
  unfold lsa_of, lsdb_vertices. rewrite elem_of_app, !list_elem_of_fmap. intros H. destruct v as [ty id adv]. cbn in *.
  repeat case_match; zhyp; subst; try done; apply fmap_Some in H as (x & H & ->).
  - right. exists (lsa_key_of NetworkLSA {| vk_Type := TNetworkVertex; ID := id; AdvRtr := adv |}). split; [done|].
    apply list_elem_of_fmap. exists (lsa_key_of NetworkLSA {| vk_Type := TNetworkVertex; ID := id; AdvRtr := adv |}, x).
    split; [done|]. by apply elem_of_map_to_list.
  - left. exists (lsa_key_of RouterLSA {| vk_Type := RouterVertex; ID := id; AdvRtr := adv |}). split; [done|].
    apply list_elem_of_fmap. exists (lsa_key_of RouterLSA {| vk_Type := RouterVertex; ID := id; AdvRtr := adv |}, x).
    split; [done|]. by apply elem_of_map_to_list.
Qed.

Lemma pending_mono l s s' : (forall v, is_Some (AreaGraph s !! v) -> is_Some (AreaGraph s' !! v)) -> (pending l s' <= pending l s)%nat.
Proof.
  intros H. unfold pending. induction l as [|v l IH]; [done|]. rewrite !filter_cons.
  repeat case_decide; cbn; try lia. destruct (AreaGraph s !! v) eqn:E; [|done].
  destruct (H v) as [? ?]; [by rewrite E | congruence].
Qed.
Lemma pending_less l s s' v : (forall w, is_Some (AreaGraph s !! w) -> is_Some (AreaGraph s' !! w)) ->
  v ∈ l -> AreaGraph s !! v = None -> is_Some (AreaGraph s' !! v) -> (pending l s' < pending l s)%nat.
Proof.
  intros H Hv Hn Hs. apply list_elem_of_split in Hv as (l1 & l2 & ->).
  pose proof (pending_mono l1 s s' H) as H1. pose proof (pending_mono l2 s s' H) as H2. unfold pending in *.
  rewrite !filter_app, !filter_cons, !length_app. destruct Hs as [? Hs].
  rewrite decide_False by congruence. rewrite decide_True by done. cbn. lia.
Qed.

(** The vertex is entered, and then what it leads to. *)
Lemma enter_vertex s v ent nbrs visit : keeps s0 s -> lsa_of v = Some nbrs -> AreaGraph s !! v = None ->
  has_neighbors ent (neighbors_of v nbrs) ->
  let s1 := set_AreaGraph (<[v := ent]> (AreaGraph s)) s in
  (forall w s2, w ∈ NbrVertexKey ent -> grown s1 s2 -> (missing s2 < missing s)%nat -> AreaGraph s2 !! w = None ->
     exists s3, visit w s2 = Ok (s3, false) /\ grown s2 s3 /\ is_Some (AreaGraph s3 !! w)) ->
  exists s', each_neighbor visit (NbrVertexKey ent) s1 = Ok (s', false) /\ grown s s' /\ is_Some (AreaGraph s' !! v).
Proof.
  intros Hk Hl Hn Hnb s1 Hv.
  assert (Hless : forall s2, grown s1 s2 -> (missing s2 < missing s)%nat).
  { intros s2 Hg. apply (pending_less _ s s2 v); [|by eapply lsa_of_vertex | done |].
    - intros w Hw. apply (grown_in s1); [done|]. cbn. rewrite lookup_insert_is_Some. destruct (decide (v = w)); auto.
    - apply (grown_in s1); [done|]. cbn. by rewrite lookup_insert_eq. }
  destruct (each_neighbor_ok visit (NbrVertexKey ent) s1) as (s' & Hr & Hg & Hin).
  { intros w s2 Hw Hg. apply Hv; [done | done | by apply Hless]. }
  exists s'. split; [done|].
  assert (Hs' : AreaGraph s' !! v = Some ent) by (apply (grown_old _ _ Hg); cbn; by rewrite lookup_insert_eq).
  split; [|by rewrite Hs'].
  split.
  - transitivity s1; [|apply Hg]. by split.
  - intros w e He. apply (grown_old _ _ Hg). cbn. rewrite lookup_insert_ne; [done | congruence].
  - intros w e He Hw. destruct (decide (v = w)) as [<- |].
    + simplify_eq. split; [by exists nbrs | exact Hin].
    + apply (grown_new _ _ Hg); [done|]. cbn. by rewrite lookup_insert_ne.
Qed.

Lemma finish_has_neighbors k ent l : has_neighbors ent l -> has_neighbors (finish_vertex areaId k ent) l.
Proof. done. Qed.

(** What a router leads to has an LSA. *)
Lemma neighbor_lsa k r w : RouterLsaMap (lsdb_of s0 areaId) !! k = Some r -> w ∈ (router_neighbors r).*1 ->
  exists lsa, lsa_of w = Some lsa.
Proof.
  intros Hr Hw. apply list_elem_of_fmap in Hw as ([w' c] & -> & Hw). apply list_elem_of_omap in Hw as (link & Hin & Hw).
  assert (Hlink : link ∈ LinkDetails r) by (eapply subseteq_take; exact Hin).
  unfold link_neighbor in Hw. unfold lsa_of. destruct (LinkType link =? TransitLink).
  - destruct (findNetworkLsa s0 areaId (LinkId link)) as [nk [|]] eqn:Ef; [done|]. simplify_eq. cbn [fst vk_Type].
    rewrite Z.eqb_refl. unfold findNetworkLsa in Ef. rewrite (complete_area Hc) in Ef. cbn [negb] in Ef.
    destruct (list_find _ _) as [[i x]|] eqn:El; [|done]. simplify_eq. apply list_find_Some in El as (Hk & [E1 E2] & _).
    apply list_elem_of_lookup_2 in Hk. rewrite (range_keys _ _ _) in Hk.
    apply list_elem_of_fmap in Hk as ([k' nl] & -> & Hx). apply elem_of_map_to_list in Hx. exists (inl nl).
    unfold lsa_key_of. cbn in *. destruct k' as [t id adv]. cbn in *. subst. by rewrite Hx.
  - destruct (LinkType link =? StubLink); [done|]. destruct (LinkType link =? P2PLink) eqn:Ep; [|done]. zhyp. simplify_eq.
    pose proof (complete_p2p Hc k r link Hr Hlink Ep) as Hp. unfold findRouterLsa in Hp. rewrite (complete_area Hc) in Hp.
    apply bool_decide_eq_false, not_eq_None_Some in Hp as [x Hx]. exists (inr x). cbn. unfold lsa_key_of. cbn. by rewrite Hx.
Qed.

Lemma area_entered s s1 g : keeps s0 s -> s1 = set_AreaGraph g s -> negb (area_exists s1 areaId) = false.
Proof.
  intros Hk ->. destruct (keeps_reads s0 s areaId Hk) as [E _]. rewrite (complete_area Hc) in E. unfold area_exists in *.
  cbn [AreaLsdb set_AreaGraph]. by rewrite E.
Qed.

(** The loop over the neighbors of a router, with a function for the calls it makes. *)
Definition calls_ok (fuel : nat) : Prop := forall v lsa s, keeps s0 s -> lsa_of v = Some lsa -> (missing s < fuel)%nat ->
  exists s', update_graph fuel lsa (lsa_key_of (if lsa then NetworkLSA else RouterLSA) v) areaId s = Ok (s', false) /\
    grown s s' /\ is_Some (AreaGraph s' !! v).

Lemma visit_router fuel w s r : calls_ok fuel -> vk_Type w = RouterVertex -> lsa_of w = Some r -> keeps s0 s -> (missing s < fuel)%nat ->
  exists s', match RouterLsaMap (lsdb_of s areaId) !! lsa_key_of RouterLSA w with
    | None => Ok (s, true) | Some lsaEnt => update_graph fuel (inr lsaEnt) (lsa_key_of RouterLSA w) areaId s end = Ok (s', false) /\
    grown s s' /\ is_Some (AreaGraph s' !! w).
Proof.
  intros Hcall Hw Hl Hk Hm. destruct (keeps_reads s0 s areaId Hk) as [_ ->]. pose proof Hl as Hl'.
  unfold lsa_of in Hl. rewrite Hw in Hl. cbn in Hl. apply fmap_Some in Hl as (x & -> & ->). by apply (Hcall w (inr x)).
Qed.
Lemma visit_network fuel w s n : calls_ok fuel -> vk_Type w = TNetworkVertex -> lsa_of w = Some n -> keeps s0 s -> (missing s < fuel)%nat ->
  exists s', match NetworkLsaMap (lsdb_of s areaId) !! lsa_key_of NetworkLSA w with
    | None => Ok (s, true) | Some lsaEnt => update_graph fuel (inl lsaEnt) (lsa_key_of NetworkLSA w) areaId s end = Ok (s', false) /\
    grown s s' /\ is_Some (AreaGraph s' !! w).
Proof.
  intros Hcall Hw Hl Hk Hm. destruct (keeps_reads s0 s areaId Hk) as [_ ->]. pose proof Hl as Hl'.
  unfold lsa_of in Hl. rewrite Hw in Hl. cbn in Hl. apply fmap_Some in Hl as (x & -> & ->). by apply (Hcall w (inl x)).
Qed.

Lemma entered_keeps s ent v s2 : keeps s0 s -> grown (set_AreaGraph (<[v := ent]> (AreaGraph s)) s) s2 -> keeps s0 s2.
Proof. intros Hk Hg. transitivity s; [done|]. destruct (grown_keeps _ _ Hg). by split. Qed.

Lemma lsa_types v lsa : lsa_of v = Some lsa ->
  (vk_Type v = TNetworkVertex /\ exists n, lsa = inl n) \/
  (vk_Type v = RouterVertex /\ exists r, lsa = inr r /\ RouterLsaMap (lsdb_of s0 areaId) !! lsa_key_of RouterLSA v = Some r).
Proof. intros Hl. unfold lsa_of in Hl. repeat case_match; zhyp; try done; apply fmap_Some in Hl as (x & Hx & ->); eauto. Qed.

Lemma network_call fuel v n s : calls_ok fuel -> keeps s0 s -> lsa_of v = Some (inl n) -> (missing s < S fuel)%nat ->
  exists s', update_graph (S fuel) (inl n) (lsa_key_of NetworkLSA v) areaId s = Ok (s', false) /\ grown s s' /\ is_Some (AreaGraph s' !! v).
Proof.
  intros Hcall Hk Hl Hf. destruct (lsa_types v _ Hl) as [[Ht _] | (_ & ? & [=] & _)]. cbn [update_graph].
  assert (Hv : {| vk_Type := TNetworkVertex; ID := LSId (lsa_key_of NetworkLSA v); AdvRtr := AdvRouter (lsa_key_of NetworkLSA v) |} = v)
    by (rewrite <- Ht; by destruct v). rewrite Hv.
  case_bool_decide as Hg; [exists s; split; [done | split; [by apply grown_refl | done]]|]. apply eq_None_not_Some in Hg.
  destruct (attached_routers_ok s (Z.land (ID v) (N_Netmask n)) (N_Netmask n) (AttachedRtr n) Hk zero_vertex []) as (ent & Ha & Hnb); [done|].
  cbn [app] in Hnb. cbn [lsa_key_of LSId]. rewrite Ha, bind_Ok. rewrite bool_decide_false.
  2: { destruct Hnb as [-> _]. intros E%fmap_nil_inv. by apply (complete_network Hc v n Hl). }
  rewrite (area_entered s _ _ Hk eq_refl).
  apply (enter_vertex s v (finish_vertex areaId _ ent) (inl n)); [done | done | done | done |].
  intros w s2 Hw Hg2 Hm _. destruct Hnb as [Ek _]. cbn in Hw. rewrite Ek in Hw.
  apply list_elem_of_fmap in Hw as ([w' c] & -> & Hw). apply list_elem_of_fmap in Hw as (rt & [= -> ->] & Hw).
  apply list_elem_of_filter in Hw as [Hat _]. apply attaches_lsa in Hat as [r Hr].
  apply (visit_router fuel _ s2 (inr r)); [done | done | | by eapply entered_keeps | lia]. cbn. unfold lsa_key_of. cbn. by rewrite Hr.
Qed.

Lemma router_call fuel v r s : calls_ok fuel -> keeps s0 s -> lsa_of v = Some (inr r) -> (missing s < S fuel)%nat ->
  exists s', update_graph (S fuel) (inr r) (lsa_key_of RouterLSA v) areaId s = Ok (s', false) /\ grown s s' /\ is_Some (AreaGraph s' !! v).
Proof.
  intros Hcall Hk Hl Hf. destruct (lsa_types v _ Hl) as [(_ & ? & [=]) | (Ht & r' & [= <-] & Hr)]. cbn [update_graph].
  assert (Hv : {| vk_Type := RouterVertex; ID := LSId (lsa_key_of RouterLSA v); AdvRtr := AdvRouter (lsa_key_of RouterLSA v) |} = v)
    by (rewrite <- Ht; by destruct v). rewrite Hv.
  case_bool_decide as Hg; [exists s; split; [done | split; [by apply grown_refl | done]]|]. apply eq_None_not_Some in Hg.
  destruct (mark_transit_keeps r s) as [Hkm Egm].
  destruct (router_links_ok (mark_transit r areaId s) (lsa_key_of RouterLSA v) (lsa_key_of RouterLSA v) v r)
    as (ent & s1 & Hrun & Hk1 & Eg1 & Hnb); [by transitivity s | done |].
  rewrite Hrun, bind_Ok. assert (Hks1 : keeps s s1) by (by transitivity (mark_transit r areaId s)).
  assert (Hk01 : keeps s0 s1) by (by transitivity s). rewrite Egm in Eg1.
  assert (Hg1 : AreaGraph s1 !! v = None) by (by rewrite Eg1).
  assert (Hs1 : grown s s1) by (by apply grown_refl).
  assert (Hm1 : missing s1 = missing s) by (unfold missing, pending; by rewrite Eg1).
  case_bool_decide as Hemp.
  - destruct (complete_router Hc v r Hl) as [Hne | Hself]; [destruct Hnb as [E _]; rewrite E in Hemp; by apply fmap_nil_inv in Hemp|].
    rewrite (keeps_id _ _ Hk01), Hself, bind_Ok. cbn [lsa_key_of AdvRouter]. rewrite Z.eqb_refl. eexists. split; [done|].
    destruct (enter_vertex s1 v (finish_vertex areaId (lsa_key_of RouterLSA v) ent) (inr r) (fun _ s => Ok (s, false)))
      as (s' & Hr' & Hg' & Hin'); [done | done | done | done | |].
    { cbn. rewrite Hemp. by intros w s2 ?%elem_of_nil. }
    cbn [NbrVertexKey finish_vertex] in Hr'. rewrite Hemp in Hr'. cbn in Hr'. simplify_eq. split; [by eapply grown_trans | done].
  - rewrite (area_entered s1 _ _ Hk01 eq_refl).
    edestruct (enter_vertex s1 v (finish_vertex areaId (lsa_key_of RouterLSA v) ent) (inr r)) as (s' & Hr' & Hg' & Hin');
      [done | done | done | done | | exists s'; split; [exact Hr'|]; split; [by eapply grown_trans | done]].
    intros w s2 Hw Hg2 Hm _. cbn in Hw. destruct Hnb as [Ek _]. rewrite Ek in Hw.
    destruct (neighbor_lsa _ r w Hr Hw) as [lsa Hlsa]. pose proof (entered_keeps s1 _ v s2 Hk01 Hg2) as Hk2.
    cbv beta. destruct (lsa_types w lsa Hlsa) as [[Hw' _] | [Hw' _]]; rewrite Hw'; cbn.
    + eapply visit_network; [done | done | done | done | lia].
    + eapply visit_router; [done | done | done | done | lia].
Qed.

Lemma update_graph_ok fuel : calls_ok fuel.
Proof.
  induction fuel as [|fuel IH]; intros v lsa s Hk Hl Hf; [lia|].
  destruct lsa as [n | r]; [by apply network_call | by apply router_call].
Qed.

Lemma missing_fuel s : (missing s < graph_fuel s0 areaId)%nat.
Proof.
  unfold missing, pending, graph_fuel. apply Nat.lt_succ_r. etransitivity; [apply length_filter|].
  unfold lsdb_vertices. by rewrite length_app, !length_fmap, !length_map_to_list.
Qed.
End area.
End graph.
