(* ===== verification/OspfArea.v ===== *)
(** The calculation of an area from its link state database: the graph is the one the LSAs describe, and the tree
    has the routers and networks there is a way to in the database. *)
From stdpp Require Import base numbers list gmap strings.
From Stdlib Require Import ZArith Lia.
From S2P Require Import Prelude GoNet OspfUtil OspfLsa OspfState OspfSpf OspfSpfFacts OspfSpfSpec OspfGraphFacts.
Open Scope Z_scope.

Section area.
Context {mo : MapOrder} {mok : MapOrderOk}.
Context (s : OSPFServer) (areaId : Z).

(** The LSA of the router itself. *)
Definition own_lsa (root : VertexKey) : Prop :=
  vk_Type root = RouterVertex /\ is_Some (lsa_of s areaId root) /\
  exists own, AreaSelfOrigLsa s !! areaId = Some own /\
    findSelfOrigRouterLsaKey (default ∅ own) = Some (lsa_key_of RouterLSA root).

Lemma graph_built root : complete s areaId -> own_lsa root -> AreaGraph s = ∅ ->
  exists s', CreateAreaGraph areaId s = Ok (s', root, false) /\ grown s areaId s s' /\ is_Some (AreaGraph s' !! root).
Proof.
  intros Hc (Ht & [lsa Hl] & own & Ho & Hf) Hg. unfold CreateAreaGraph. rewrite (complete_area _ _ Hc). cbn [negb].
  rewrite Ho, Hf. destruct (lsa_types s areaId root lsa Hl) as [[E _] | (_ & r & -> & Hr)]; [by rewrite Ht in E|]. rewrite Hr.
  destruct (update_graph_ok s areaId Hc (graph_fuel s areaId) root (inr r) s) as (s' & Hrun & Hg' & Hin);
    [by split | done | apply missing_fuel |].
  unfold UpdateAreaGraphRouterLsa. rewrite Hrun, bind_Ok. exists s'. split; [|done]. unfold check. rewrite <- Ht. by destruct root.
Qed.

(** ** Ways in the database *)

Definition lsdb_edge (u v : VertexKey) (c : Z) : Prop := exists lsa, lsa_of s areaId u = Some lsa /\ (v, c) ∈ neighbors_of s areaId u lsa.
Inductive lsdb_walk (r : VertexKey) : Path -> VertexKey -> Z -> Prop :=
  | lsdb_root : lsdb_walk r [] r 0
  | lsdb_step p u v n c : lsdb_walk r p u n -> lsdb_edge u v c -> lsdb_walk r (p ++ [u]) v (n + c).

Lemma neighbors_lookup ent l v c : has_neighbors ent l ->
  (v, c) ∈ l <-> exists i, NbrVertexKey ent !! i = Some v /\ NbrVertexCost ent !! i = Some c.
Proof.
  intros [-> ->]. rewrite list_elem_of_lookup. split.
  - intros [i Hi]. exists i. by rewrite !list_lookup_fmap, Hi.
  - intros (i & H1 & H2). exists i. rewrite !list_lookup_fmap in *. destruct (l !! i) as [[a b]|]; [|done]. cbn in *. by simplify_eq.
Qed.

Section built.
Context (s' : OSPFServer) (root : VertexKey) (Hg : grown s areaId s s') (H0 : AreaGraph s = ∅) (Hroot : is_Some (AreaGraph s' !! root)).

Lemma built_from v ent : AreaGraph s' !! v = Some ent ->
  from_lsdb s areaId v ent /\ forall w, w ∈ NbrVertexKey ent -> is_Some (AreaGraph s' !! w).
Proof. intros Hv. apply (grown_new _ _ _ _ Hg v ent Hv). by rewrite H0, lookup_empty. Qed.

Lemma built_edge u v c : is_Some (AreaGraph s' !! u) -> edge (AreaGraph s') u v c <-> lsdb_edge u v c.
Proof.
  intros [ent Hu]. destruct (built_from u ent Hu) as [(lsa & Hl & Hn) _]. split.
  - intros (ent' & i & Hu' & H1 & H2). simplify_eq. exists lsa. split; [done|]. apply (neighbors_lookup ent _ v c Hn). by exists i.
  - intros (lsa' & Hl' & Hin). simplify_eq. apply (neighbors_lookup ent _ v c Hn) in Hin as (i & H1 & H2). by exists ent, i.
Qed.
Lemma built_closed u v c : edge (AreaGraph s') u v c -> is_Some (AreaGraph s' !! v).
Proof. intros (ent & i & Hu & H1 & _). apply (proj2 (built_from u ent Hu)). by eapply list_elem_of_lookup_2. Qed.

Lemma built_walk p v n : walk (AreaGraph s') root p v n <-> lsdb_walk root p v n.
Proof.
  split.
  - induction 1 as [|p u v n c Hw IH He]; [constructor|]. econstructor; [done|]. apply built_edge; [|done].
    destruct He as (ent & _ & Hu & _). by exists ent.
  - intros H. enough (walk (AreaGraph s') root p v n /\ is_Some (AreaGraph s' !! v)) by tauto.
    induction H as [|p u v n c Hw [IH Hin] He]; [by split; [constructor|]|].
    apply built_edge in He; [|done]. split; [by econstructor | by eapply built_closed].
Qed.

Lemma built_size : (size (AreaGraph s') <= size (RouterLsaMap (lsdb_of s areaId)) + size (NetworkLsaMap (lsdb_of s areaId)))%nat.
Proof.
  transitivity (length (lsdb_vertices s areaId)).
  - rewrite <- (length_map_to_list (AreaGraph s')), <- (length_fmap fst). apply submseteq_length, NoDup_submseteq.
    + apply NoDup_fst_map_to_list.
    + intros v Hv. apply list_elem_of_fmap in Hv as ([v' ent] & -> & Hv). apply elem_of_map_to_list in Hv.
      destruct (built_from _ ent Hv) as [(lsa & Hl & _) _]. by eapply lsa_of_vertex.
  - unfold lsdb_vertices. by rewrite length_app, !length_fmap, !length_map_to_list.
Qed.
End built.

(** No router has a point-to-point link to itself, and all metrics are at most [C]. *)
Record metrics (C : Z) : Prop := {
  metrics_pos : 0 <= C;
  metrics_simple k lsa link : RouterLsaMap (lsdb_of s areaId) !! k = Some lsa -> link ∈ LinkDetails lsa ->
    LinkType link = P2PLink -> LinkId link <> LSId k;
  metrics_bound k lsa link : RouterLsaMap (lsdb_of s areaId) !! k = Some lsa -> link ∈ LinkDetails lsa -> 0 <= LinkMetric link <= C;
}.

Lemma lsdb_edge_metric C u v c : metrics C -> lsdb_edge u v c -> u <> v /\ 0 <= c <= C.
Proof.
  intros [HC Hs Hb] (lsa & Hl & Hin). destruct (lsa_types s areaId u lsa Hl) as [[Ht [n ->]] | (Ht & r & -> & Hr)].
  - apply list_elem_of_fmap in Hin as (x & [= -> ->] & _). split; [|lia]. intros ->. done.
  - apply list_elem_of_omap in Hin as (link & Hin & Hn).
    assert (Hlink : link ∈ LinkDetails r) by (eapply subseteq_take; exact Hin).
    specialize (Hb _ r link Hr Hlink). unfold link_neighbor in Hn.
    destruct (LinkType link =? TransitLink).
    + destruct (findNetworkLsa _ _ _) as [nk [|]]; [done|]. simplify_eq. split; [|done]. intros ->. done.
    + destruct (LinkType link =? StubLink); [done|]. destruct (LinkType link =? P2PLink) eqn:E; [|done]. zhyp. simplify_eq.
      split; [|done]. intros ->. by apply (Hs _ r link Hr Hlink E).
Qed.
End area.

(** ** Databases that satisfy the assumptions *)

Definition is_nil {A} (l : list A) : bool := match l with [] => true | _ => false end.
Definition links_of (s : OSPFServer) (areaId : Z) : list (LsaKey * LinkDetail) :=
  '(k, lsa) ← map_to_list (RouterLsaMap (lsdb_of s areaId)); pair k <$> LinkDetails lsa.

Lemma links_of_in s areaId k lsa link : RouterLsaMap (lsdb_of s areaId) !! k = Some lsa -> link ∈ LinkDetails lsa ->
  In (k, link) (links_of s areaId).
Proof.
  intros Hk Hl. apply list_elem_of_In, list_elem_of_bind. exists (k, lsa). split; [|by apply elem_of_map_to_list].
  by apply list_elem_of_fmap_2.
Qed.

Definition completeb {mo : MapOrder} (s : OSPFServer) (areaId : Z) : bool :=
  area_exists s areaId && (match RouterId s with [_; _; _; _] => true | _ => false end) &&
  forallb (fun '(k, lsa) => (Z.to_nat (NumOfLinks lsa) <=? length (LinkDetails lsa))%nat) (map_to_list (RouterLsaMap (lsdb_of s areaId))) &&
  forallb (fun '(k, link) => negb (LinkType link =? P2PLink) || negb (findRouterLsa s areaId (LinkId link))) (links_of s areaId) &&
  forallb (fun v => match lsa_of s areaId v with
                    | Some (inr lsa) => negb (is_nil (router_neighbors s areaId lsa)) ||
                        (match Util.convertIPv4ToUint32 (RouterId s) with Ok i => i =? AdvRtr v | _ => false end)
                    | Some (inl lsa) => negb (is_nil (network_neighbors s areaId lsa (ID v)))
                    | None => true
                    end) (lsdb_vertices s areaId).

Lemma completeb_complete {mo : MapOrder} s areaId : completeb s areaId = true -> complete s areaId.
Proof.
  unfold completeb. rewrite !andb_true_iff, !forallb_forall. intros [[[[Ha Hi] Hn] Hp] Hv]. split.
  - done.
  - destruct (RouterId s) as [|a [|b [|c [|d [|? ?]]]]]; try discriminate. eauto.
  - intros k lsa H. apply elem_of_map_to_list, list_elem_of_In in H. specialize (Hn _ H). by apply Nat.leb_le in Hn.
  - intros k lsa link Hk Hl Ht. specialize (Hp _ (links_of_in s areaId k lsa link Hk Hl)). cbn in Hp.
    rewrite Ht in Hp. by apply negb_true_iff in Hp.
  - intros v lsa Hl. specialize (Hv v). rewrite Hl in Hv.
    apply orb_true_iff in Hv as [Hv | Hv]; [left; by destruct (router_neighbors s areaId lsa)| right |
      by apply list_elem_of_In; eapply lsa_of_vertex].
    destruct (Util.convertIPv4ToUint32 (RouterId s)); try discriminate. apply Z.eqb_eq in Hv. by subst.
  - intros v lsa Hl. specialize (Hv v). rewrite Hl in Hv. intros E. rewrite E in Hv. cbn in Hv.
    discriminate Hv. apply list_elem_of_In. by eapply lsa_of_vertex.
Qed.

Definition metricsb (s : OSPFServer) (areaId C : Z) : bool :=
  (0 <=? C) && forallb (fun '(k, link) => (negb (LinkType link =? P2PLink) || negb (LinkId link =? LSId k)) &&
    (0 <=? LinkMetric link) && (LinkMetric link <=? C)) (links_of s areaId).
Lemma metricsb_metrics s areaId C : metricsb s areaId C = true -> metrics s areaId C.
Proof.
  unfold metricsb. rewrite andb_true_iff, forallb_forall. intros [HC H]. split.
  - by apply Z.leb_le.
  - intros k lsa link Hk Hl Ht. specialize (H _ (links_of_in s areaId k lsa link Hk Hl)). cbn in H.
    rewrite !andb_true_iff, Ht in H. destruct H as [[H _] _]. by apply negb_true_iff, Z.eqb_neq in H.
  - intros k lsa link Hk Hl. specialize (H _ (links_of_in s areaId k lsa link Hk Hl)). cbn in H.
    rewrite !andb_true_iff, !Z.leb_le in H. tauto.
Qed.

(** Two routers on a network whose designated router is the second, and a third behind a link from it. *)
Definition some_link (type id data metric : Z) : LinkDetail :=
  {| LinkId := id; LinkData := data; LinkType := type; NumOfTOS := 0; LinkMetric := metric; TOSDetails := [] |}.
Definition some_router (links : list LinkDetail) : RouterLsa :=
  {| R_LsaMd := zero_md; R_BitV := false; R_BitE := false; R_BitB := false; NumOfLinks := len links; LinkDetails := links |}.
Definition own_key (id : Z) : LsaKey := {| LSType := RouterLSA; LSId := id; AdvRouter := id |}.
Definition small_lsdb : LSDatabase :=
  set_RouterLsaMap (list_to_map [(own_key 1, some_router [some_link TransitLink 2562 2561 10]);
      (own_key 2, some_router [some_link TransitLink 2562 2562 10; some_link P2PLink 3 2817 20; some_link StubLink 2816 4294967040 20]);
      (own_key 3, some_router [some_link P2PLink 2 2818 20])])
    (set_NetworkLsaMap {[ {| LSType := NetworkLSA; LSId := 2562; AdvRouter := 2 |} :=
      {| N_LsaMd := zero_md; N_Netmask := 4294967040; AttachedRtr := [2; 1] |} ]} empty_lsdb).
Definition small_area : OSPFServer :=
  set_RouterId [0; 0; 0; 1] (set_AreaSelfOrigLsa {[ 0 := Some {[ own_key 1 := true ]} ]}
    (set_AreaLsdb {[ 0 := Some small_lsdb ]} (idle ∅))).
Definition by_keys : MapOrder := fun K A _ _ m => (map_to_list m).*1.
Lemma by_keys_ok : @MapOrderOk by_keys.
Proof. intros K A ? ? m. reflexivity. Qed.

(** C9: the calculation of an area that is configured, on a database that is complete ([complete]: router LSAs have
    the links they count, the router on a point-to-point link has its LSA, every network and every other router has a
    neighbor) and has the router's own LSA, recorded among those it originated. The metrics are from 0 to C, with C
    times the number of LSAs below 65280; no router describes a point-to-point link to itself; graph and tree are
    empty before. The graph is then built and the tree calculated without an error; the vertices of the tree are the
    routers and networks there is a way to from the router itself over links that the LSAs describe, and the paths of
    an entry, of which there is at least one, are such ways, of the length the entry says. *)
Theorem area_calculated {mo : MapOrder} {mok : MapOrderOk} {so : SortImpl} {sok : SortOk} s areaId root C :
  complete s areaId -> own_lsa s areaId root -> metrics s areaId C ->
  Z.of_nat (size (RouterLsaMap (lsdb_of s areaId)) + size (NetworkLsaMap (lsdb_of s areaId))) * C < 65280 ->
  AreaGraph s = ∅ -> SPFTree s = ∅ ->
  exists s' s'', CreateAreaGraph areaId s = Ok (s', root, false) /\ ExecuteDijkstra root s' = Ok s'' /\
    (forall v, is_Some (SPFTree s'' !! v) <-> exists p n, lsdb_walk s areaId root p v n) /\
    (forall v e, SPFTree s'' !! v = Some e -> NumOfPaths e = length (Paths e) /\ Paths e <> [] /\
       forall p, p ∈ Paths e -> lsdb_walk s areaId root p v (Distance e)).
Proof.
  intros Hc Hown Hm Hlim Hg Ht. destruct (graph_built s areaId root Hc Hown Hg) as (s' & Hcr & Hgr & Hroot).
  assert (Hw : forall p v n, walk (AreaGraph s') root p v n <-> lsdb_walk s areaId root p v n) by (intros; by apply built_walk).
  destruct (spf_finds_paths s' root C) as (s'' & Hex & _ & Hr & He).
  - assert (Hed : forall u v c, edge (AreaGraph s') u v c -> lsdb_edge s areaId u v c).
    { intros u v c H. eapply built_edge; [done | done | | done]. destruct H as (ent & _ & H & _). by exists ent. }
    split.
    + intros u ent Hu. destruct (built_from s areaId s' Hgr Hg u ent Hu) as [(lsa & _ & [-> ->]) _]. by rewrite !length_fmap.
    + intros. by eapply built_closed.
    + intros u v c H. by apply (lsdb_edge_metric s areaId C u v c Hm), Hed.
    + intros u v c H. by apply (lsdb_edge_metric s areaId C u v c Hm), Hed.
  - apply (metrics_pos _ _ _ Hm).
  - pose proof (built_size s areaId s' Hgr Hg). pose proof (metrics_pos _ _ _ Hm). nia.
  - done.
  - by rewrite (keeps_tree _ _ (grown_keeps _ _ _ _ Hgr)).
  - exists s', s''. split; [done|]. split; [done|]. split.
    + intros v. rewrite Hr. by setoid_rewrite Hw.
    + intros v e Hv. destruct (He v e Hv) as (Hn & Hne & Hp). split; [done|]. split; [done|]. intros p Hin. by apply Hw, Hp.
Qed.

Lemma area_calculated_witness :
  exists s' s'', @CreateAreaGraph by_keys 0 small_area = Ok (s', router 1, false) /\
    @ExecuteDijkstra insertion (router 1) s' = Ok s'' /\
    (is_Some (SPFTree s'' !! router 3) <-> exists p n, @lsdb_walk by_keys small_area 0 (router 1) p (router 3) n).
Proof.
  destruct (@area_calculated by_keys by_keys_ok insertion insertion_ok small_area 0 (router 1) 20) as (s' & s'' & H1 & H2 & H3 & _).
  - by apply completeb_complete; vm_compute.
  - split; [reflexivity|]. split; [by vm_compute; eexists|]. exists (Some {[ own_key 1 := true ]}).
    split; [reflexivity | by vm_compute].
  - by apply metricsb_metrics; vm_compute.
  - by vm_compute.
  - reflexivity.
  - reflexivity.
  - exists s', s''. split; [exact H1|]. split; [exact H2 | apply H3].
Defined.
