(* ===== verification/OspfRoute.v ===== *)
(** The routing table of the OSPF daemon ([src/ospf/server/ospfRoutingTbl.go], [ospfMultiArea.go],
    [ospfASExternal.go] and the loop of [ospfSPF.go]): the routes of an area from its tree, those to other areas
    and outside, the calls of the route manager that bring its routes up to date, and summary LSAs. *)
From stdpp Require Import base numbers list gmap strings.
From Stdlib Require Import ZArith Lia.
From S2P Require Import Prelude GoNet OspfUtil OspfLsa OspfState OspfSpf.
Open Scope Z_scope.

Definition LSInfinity : Z := 16777215.
Definition MaxAge : Z := 3600.
Definition ImportNoExternal : Z := 2.

Section route.
Context {mo : MapOrder} {so : SortImpl}.

(** The table of an area; what is not there, or nil, is read as empty and cannot be written. *)
Definition area_tbl (s : OSPFServer) (areaId : Z) : gmap RoutingTblEntryKey RoutingTblEntry :=
  default ∅ (TempAreaRoutingTbl s !! areaId).
Definition put_entry (areaId : Z) (rKey : RoutingTblEntryKey) (rEnt : RoutingTblEntry) (s : OSPFServer) : go OSPFServer :=
  match TempAreaRoutingTbl s !! areaId with
  | None => Panic
  | Some tbl => Ok (set_TempAreaRoutingTbl (<[areaId := <[rKey := rEnt]> tbl]> (TempAreaRoutingTbl s)) s)
  end.

(** ** Routes of an area *)

(** [None] is an error. *)
Definition findP2PNextHopIP (s : OSPFServer) (vFirst vSecond : VertexKey) (areaId : Z) : option (Z * Z) :=
  if negb (area_exists s areaId) then None
  else
    firstLsa ← RouterLsaMap (lsdb_of s areaId) !! lsa_key_of RouterLSA vFirst;
    secondLsa ← RouterLsaMap (lsdb_of s areaId) !! lsa_key_of RouterLSA vSecond;
    firstLink ← List.find (fun link => LinkId link =? AdvRtr vSecond) (LinkDetails firstLsa);
    secondLink ← List.find (fun link => (LinkId link =? AdvRtr vFirst) && (LinkType link =? P2PLink)) (LinkDetails secondLsa);
    Some (LinkData firstLink, LinkData secondLink).

Definition router_dest_type (lsaEnt : RouterLsa) : DestType :=
  if R_BitB lsaEnt && R_BitE lsaEnt then ASAreaBdrRouter
  else if R_BitB lsaEnt then AreaBdrRouter
  else if R_BitE lsaEnt then ASBdrRouter
  else InternalRouter.

Definition hop_of (ip : Z * Z) : NextHop := {| IfIPAddr := ip.1; IfIdx := 0; NextHopIP := ip.2; nh_AdvRtr := 0 |}.

(** A link of the map of a vertex; 0 where there is none. *)
Definition link_data (ent : Vertex) (v : VertexKey) : Z := default 0 (v_LinkData ent !! v).
(** The addresses of the next hop over a network. *)
Definition network_hop (s : OSPFServer) (vFirst vSecond vThird : VertexKey) : option (Z * Z) :=
  gFirst ← AreaGraph s !! vFirst;
  gThird ← AreaGraph s !! vThird;
  Some (link_data gFirst vSecond, link_data gThird vSecond).

(** The next hop that a path to the router [vKey] gives, if any. *)
Definition router_path_hop (s : OSPFServer) (areaId : Z) (vKey rootVKey : VertexKey) (path : Path) : go (option NextHop) :=
  vFirst ← nth_go path 0;
  if bool_decide (vFirst <> rootVKey) then Ok None
  else if (length path <? 1)%nat then Ok None
  else
    vSecond ← (if (length path =? 1)%nat then Ok vKey else nth_go path 1);
    if (vk_Type vFirst =? RouterVertex) && (vk_Type vSecond =? RouterVertex) then
      Ok (hop_of <$> findP2PNextHopIP s vFirst vSecond areaId)
    else
      vThird ← (if (length path =? 2)%nat then Ok vKey else nth_go path 2);
      Ok (hop_of <$> network_hop s vFirst vSecond vThird).

Definition add_hop (nextHop : option NextHop) (m : gmap NextHop bool) : gmap NextHop bool :=
  match nextHop with Some h => <[h := true]> m | None => m end.
(** The loop over the paths of a vertex. *)
Definition path_hops (hop : Path -> go (option NextHop)) (tVertex : TreeVertex) : go (gmap NextHop bool) :=
  for_upto (NumOfPaths tVertex) 0 (fun i m => path ← nth_go (Paths tVertex) i; h ← hop path; Ok (add_hop h m)) ∅.

(** An entry of the area itself. *)
Definition intra_entry (cost : Z) (origin : LsaKey) (numOfPaths : nat) (hops : gmap NextHop bool) : RoutingTblEntry :=
  {| OptCapabilities := 0; re_PathType := IntraArea; Cost := cost; Type2Cost := 0; LSOrigin := origin;
     re_NumOfPaths := numOfPaths; NextHops := hops |}.

Definition UpdateRoutingTblForRouter (areaId : Z) (vKey : VertexKey) (tVertex : TreeVertex) (rootVKey : VertexKey)
    (s : OSPFServer) : go OSPFServer :=
  match AreaGraph s !! vKey with
  | None => Ok s
  | Some gEnt =>
    if negb (area_exists s areaId) then Ok s
    else
      match RouterLsaMap (lsdb_of s areaId) !! v_LsaKey gEnt with
      | None => Ok s
      | Some lsaEnt =>
        let rKey := {| DestId := ID vKey; AddrMask := 0; rk_DestType := router_dest_type lsaEnt |} in
        match area_tbl s areaId !! rKey with
        | Some _ => Ok s
        | None =>
          hops ← (if decide (rootVKey = vKey) then Ok ∅
                  else path_hops (router_path_hop s areaId vKey rootVKey) tVertex);
          put_entry areaId rKey (intra_entry (Distance tVertex) (v_LsaKey gEnt) (NumOfPaths tVertex) hops) s
        end
      end
  end.

(** The next hop that a path to a transit network gives, if any. *)
Definition network_path_hop (s : OSPFServer) (areaId : Z) (rootVKey : VertexKey) (path : Path) : go (option NextHop) :=
  vFirst ← nth_go path 0;
  if bool_decide (vFirst <> rootVKey) then Ok None
  else if (length path <? 3)%nat &&
    negb ((length path =? 2)%nat && forallb (fun v => vk_Type v =? RouterVertex) path) then Ok None
  else
    vSecond ← nth_go path 1;
    if (vk_Type vFirst =? RouterVertex) && (vk_Type vSecond =? RouterVertex) then
      Ok (hop_of <$> findP2PNextHopIP s vFirst vSecond areaId)
    else
      vThird ← nth_go path 2;
      Ok (hop_of <$> network_hop s vFirst vSecond vThird).

Definition UpdateRoutingTblForTNetwork (areaId : Z) (vKey : VertexKey) (tVertex : TreeVertex) (rootVKey : VertexKey)
    (s : OSPFServer) : go OSPFServer :=
  match AreaGraph s !! vKey with
  | None => Ok s
  | Some gEnt =>
    match NbrVertexKey gEnt with
    | [] => Ok s
    | nbr :: _ =>
      let addrMask := link_data gEnt nbr in
      let rKey := {| DestId := Z.land (ID vKey) addrMask; AddrMask := addrMask; rk_DestType := Network |} in
      match area_tbl s areaId !! rKey with
      | Some _ => Ok s
      | None =>
        hops ← path_hops (network_path_hop s areaId rootVKey) tVertex;
        put_entry areaId rKey (intra_entry (Distance tVertex) (v_LsaKey gEnt) (NumOfPaths tVertex) hops) s
      end
    end
  end.

Definition UpdateRoutingTbl (vKey : VertexKey) (areaId : Z) (s : OSPFServer) : go OSPFServer :=
  for_map (SPFTree s) (fun key ent s =>
    if vk_Type key =? RouterVertex then UpdateRoutingTblForRouter areaId key ent vKey s
    else if vk_Type key =? TNetworkVertex then UpdateRoutingTblForTNetwork areaId key ent vKey s
    else Ok s) s.

(** ** Stub networks *)

Definition UpdateRoutingTblWithStub (areaId : Z) (vKey : VertexKey) (tVertex : TreeVertex) (parentKey : VertexKey)
    (s : OSPFServer) : go OSPFServer :=
  match AreaGraph s !! parentKey with
  | None => Ok s
  | Some pEnt =>
    if negb (area_exists s areaId) then Ok s
    else
      match RouterLsaMap (lsdb_of s areaId) !! v_LsaKey pEnt with
      | None => Ok s
      | Some lsaEnt =>
        let pKey := {| DestId := ID parentKey; AddrMask := 0; rk_DestType := router_dest_type lsaEnt |} in
        match area_tbl s areaId !! pKey, AreaStubs s !! vKey with
        | Some pREnt, Some sEnt =>
          let rKey := {| DestId := ID vKey; AddrMask := sv_LinkData sEnt; rk_DestType := Network |} in
          match area_tbl s areaId !! rKey with
          | Some _ => Ok s
          | None =>
            put_entry areaId rKey
              {| OptCapabilities := OptCapabilities pREnt; re_PathType := IntraArea; Cost := Distance tVertex; Type2Cost := 0;
                 LSOrigin := sv_LsaKey sEnt; re_NumOfPaths := NumOfPaths tVertex;
                 NextHops := (fun _ => true) <$> NextHops pREnt |} s
          end
        | _, _ => Ok s
        end
      end
  end.

Definition HandleStubs (areaId : Z) (s : OSPFServer) : go OSPFServer :=
  for_map (AreaStubs s) (fun key entry s =>
    let vertexKey := sv_NbrVertexKey entry in
    match SPFTree s !! vertexKey with
    | None => Ok s
    | Some parent =>
      paths ← for_upto (NumOfPaths parent) 0 (fun i ps => path ← nth_go (Paths parent) i; Ok (ps ++ [path ++ [vertexKey]])) [];
      UpdateRoutingTblWithStub areaId key
        {| Paths := paths; Distance := u16 (Distance parent + sv_NbrVertexCost entry); NumOfPaths := NumOfPaths parent |} vertexKey s
    end) s.

(** ** Routes to other areas and outside *)

Definition set_nh_AdvRtr (v : Z) (h : NextHop) : NextHop :=
  {| IfIPAddr := IfIPAddr h; IfIdx := IfIdx h; NextHopIP := NextHopIP h; nh_AdvRtr := v |}.
(** The next hops of a border router, with the router that advertises. *)
Definition readdressed (adv : Z) (nextHopMap : gmap NextHop bool) : gmap NextHop bool :=
  foldl (fun m key => <[set_nh_AdvRtr adv key := true]> m) ∅ (range nextHopMap).
(** Those that are not there yet are added, and counted. *)
Definition merged (adv : Z) (nextHopMap hops : gmap NextHop bool) : gmap NextHop bool * nat :=
  foldl (fun '(m, cnt) key =>
    match m !! key with
    | Some _ => (m, cnt)
    | None => (<[set_nh_AdvRtr adv key := true]> m, S cnt)
    end) (hops, O) (range nextHopMap).
Definition merge_hops (adv : Z) (rb rEnt : RoutingTblEntry) : RoutingTblEntry :=
  let '(hops, cnt) := merged adv (NextHops rb) (NextHops rEnt) in
  {| OptCapabilities := OptCapabilities rEnt; re_PathType := re_PathType rEnt; Cost := Cost rEnt; Type2Cost := Type2Cost rEnt;
     LSOrigin := LSOrigin rEnt; re_NumOfPaths := re_NumOfPaths rb + cnt; NextHops := hops |}.

(** The entry of a router, looked up under the first type and then as both kinds of border router. *)
Definition border_router (tbl : gmap RoutingTblEntryKey RoutingTblEntry) (type : DestType) (id : Z) : option RoutingTblEntry :=
  match tbl !! {| DestId := id; AddrMask := 0; rk_DestType := type |} with
  | Some rEnt => Some rEnt
  | None => tbl !! {| DestId := id; AddrMask := 0; rk_DestType := ASAreaBdrRouter |}
  end.

(** What both calculations of inter-area routes do with the destination [rKey] of an LSA that the border router
    [rb] advertises. *)
Definition inter_area_entry (areaId : Z) (rKey : RoutingTblEntryKey) (adv : Z) (rb : RoutingTblEntry) (metric : Z)
    (s : OSPFServer) : go OSPFServer :=
  let cost := u16 (Cost rb + u16 metric) in
  match area_tbl s areaId !! rKey with
  | Some rEnt =>
    if decide (re_PathType rEnt = IntraArea) then Ok s
    else if Cost rEnt <? cost then Ok s
    else if Cost rEnt >? cost then
      put_entry areaId rKey
        {| OptCapabilities := 0; re_PathType := re_PathType rEnt; Cost := cost; Type2Cost := Type2Cost rEnt;
           LSOrigin := LSOrigin rEnt; re_NumOfPaths := re_NumOfPaths rb; NextHops := readdressed adv (NextHops rb) |} s
    else put_entry areaId rKey (merge_hops adv rb rEnt) s
  | None =>
    put_entry areaId rKey
      {| OptCapabilities := 0; re_PathType := InterArea; Cost := cost; Type2Cost := 0; LSOrigin := NewLsaKey;
         re_NumOfPaths := re_NumOfPaths rb; NextHops := readdressed adv (NextHops rb) |} s
  end.

(** An LSA is left out when it is at infinity or of maximal age, or the router's own. *)
Definition ignored (metric age adv : Z) (s : OSPFServer) : go bool :=
  if (metric =? LSInfinity) || (age =? MaxAge) then Ok true
  else rtrId ← Util.convertIPv4ToUint32 (RouterId s); Ok (adv =? rtrId).

Definition CalcInterAreaRoutes (areaId : Z) (s : OSPFServer) : go OSPFServer :=
  if negb (area_exists s areaId) then Ok s
  else for_map (Summary3LsaMap (lsdb_of s areaId)) (fun lsaKey lsaEnt s =>
    skip ← ignored (S_Metric lsaEnt) (LSAge (S_LsaMd lsaEnt)) (AdvRouter lsaKey) s;
    if (skip : bool) then Ok s
    else match border_router (area_tbl s areaId) AreaBdrRouter (AdvRouter lsaKey) with
         | None => Ok s
         | Some rb =>
           if (re_NumOfPaths rb =? 0)%nat then Ok s
           else inter_area_entry areaId
                  {| DestId := Z.land (LSId lsaKey) (S_Netmask lsaEnt); AddrMask := S_Netmask lsaEnt; rk_DestType := Network |}
                  (AdvRouter lsaKey) rb (S_Metric lsaEnt) s
         end) s.

Definition CalcASBorderRoutes (areaId : Z) (s : OSPFServer) : go OSPFServer :=
  if negb (area_exists s areaId) then Ok s
  else for_map (Summary4LsaMap (lsdb_of s areaId)) (fun lsaKey lsaEnt s =>
    skip ← ignored (S_Metric lsaEnt) (LSAge (S_LsaMd lsaEnt)) (AdvRouter lsaKey) s;
    if (skip : bool) then Ok s
    else match border_router (area_tbl s areaId) AreaBdrRouter (AdvRouter lsaKey) with
         | None => Ok s
         | Some rb =>
           if (re_NumOfPaths rb =? 0)%nat then Ok s
           else inter_area_entry areaId {| DestId := LSId lsaKey; AddrMask := 0; rk_DestType := ASBdrRouter |}
                  0 rb (S_Metric lsaEnt) s
         end) s.

Definition external_entry (areaId : Z) (rKey : RoutingTblEntryKey) (adv : Z) (rb : RoutingTblEntry) (lsaEnt : ASExternalLsa)
    (s : OSPFServer) : go OSPFServer :=
  let cost := u16 (Cost rb + u16 (E_Metric lsaEnt)) in
  let pathType := if E_BitE lsaEnt then Type2Ext else Type1Ext in
  match area_tbl s areaId !! rKey with
  | Some rEnt =>
    let same := bool_decide (re_PathType rEnt = pathType) in
    if bool_decide (re_PathType rEnt = IntraArea) || bool_decide (re_PathType rEnt = InterArea) then Ok s
    else if bool_decide (re_PathType rEnt = Type1Ext) && E_BitE lsaEnt then Ok s
    else if (Cost rEnt <? cost) && same then Ok s
    else if ((Cost rEnt >? cost) && same) || ((Cost rEnt <? cost) && bool_decide (re_PathType rEnt = Type2Ext)) then
      put_entry areaId rKey
        {| OptCapabilities := 0; re_PathType := pathType; Cost := cost; Type2Cost := u16 (E_Metric lsaEnt);
           LSOrigin := LSOrigin rEnt; re_NumOfPaths := re_NumOfPaths rb; NextHops := readdressed adv (NextHops rb) |} s
    else put_entry areaId rKey (merge_hops adv rb rEnt) s
  | None =>
    put_entry areaId rKey
      {| OptCapabilities := 0; re_PathType := pathType; Cost := cost; Type2Cost := u16 (E_Metric lsaEnt);
         LSOrigin := NewLsaKey; re_NumOfPaths := re_NumOfPaths rb; NextHops := readdressed adv (NextHops rb) |} s
  end.

Definition HandleASExternalLsa (areaId : Z) (s : OSPFServer) : go OSPFServer :=
  if negb (area_exists s areaId) then Ok s
  else for_map (ASExternalLsaMap (lsdb_of s areaId)) (fun lsaKey lsaEnt s =>
    skip ← ignored (E_Metric lsaEnt) (LSAge (E_LsaMd lsaEnt)) (AdvRouter lsaKey) s;
    if (skip : bool) then Ok s
    else
      let id := if FwdAddr lsaEnt =? 0 then AdvRouter lsaKey else FwdAddr lsaEnt in
      match border_router (area_tbl s areaId) ASBdrRouter id with
      | None => Ok s
      | Some rb =>
        if (re_NumOfPaths rb =? 0)%nat then Ok s
        else external_entry areaId
               {| DestId := Z.land (LSId lsaKey) (E_Netmask lsaEnt); AddrMask := E_Netmask lsaEnt; rk_DestType := Network |}
               (AdvRouter lsaKey) rb lsaEnt s
      end) s.

Definition HandleSummaryType3Lsa : Z -> OSPFServer -> go OSPFServer := CalcInterAreaRoutes.
Definition HandleSummaryType4Lsa : Z -> OSPFServer -> go OSPFServer := CalcASBorderRoutes.
Definition HandleSummaryLsa (areaId : Z) (s : OSPFServer) : go OSPFServer :=
  s ← HandleSummaryType3Lsa areaId s;
  s ← HandleSummaryType4Lsa areaId s;
  HandleASExternalLsa areaId s.

(** ** Summary LSAs *)

Definition isStubArea (s : OSPFServer) (areaid : string) : bool :=
  match AreaConfMap s !! areaid with None => false | Some conf => ImportAsExtern conf =? ImportNoExternal end.

(** The sequence number of a summary LSA: that of the one in [SummaryLsDb] and one, if there is one. *)
Definition summary_seq (s : OSPFServer) (areaId : Z) (lsaKey : LsaKey) : Z :=
  match SummaryLsDb s !! areaId ≫= (fun m => m !! lsaKey) with
  | Some lsa => LSSequenceNum (S_LsaMd lsa) + 1
  | None => InitialSequenceNumber
  end.
(** The fields the generators do not set are those of the LSA they refresh. *)
Definition summary_lsa (s : OSPFServer) (areaId : Z) (lsaKey : LsaKey) (options netmask metric : Z) : SummaryLsa :=
  let old := default NewSummaryLsa (SummaryLsDb s !! areaId ≫= (fun m => m !! lsaKey)) in
  {| S_LsaMd := {| LSAge := 0; Options := options; LSSequenceNum := summary_seq s areaId lsaKey;
                   LSChecksum := LSChecksum (S_LsaMd old); LSLen := OSPF_LSA_HEADER_SIZE + 8 |};
     S_Netmask := netmask; S_Metric := metric; SummaryTOSDetails := SummaryTOSDetails old |}.

Definition GenerateDefaultSummary3LSA (areaId : Z) (s : OSPFServer) : go (LsaKey * SummaryLsa) :=
  let metric := match AreaConfMap s !! Util.convertUint32ToIPv4 areaId with Some conf => StubDefaultCost conf | None => 20 end in
  advRouter ← Util.convertIPv4ToUint32 (RouterId s);
  let lsaKey := {| LSType := Summary3LSA; LSId := 0; AdvRouter := advRouter |} in
  Ok (lsaKey, summary_lsa s areaId lsaKey 0 0 (u32 metric)).
Definition GenerateType3SummaryLSA (rKey : RoutingTblEntryKey) (rEnt : GlobalRoutingTblEntry) (areaId : Z) (s : OSPFServer)
  : go (LsaKey * SummaryLsa) :=
  advRouter ← Util.convertIPv4ToUint32 (RouterId s);
  let lsaKey := {| LSType := Summary3LSA; LSId := DestId rKey; AdvRouter := advRouter |} in
  Ok (lsaKey, summary_lsa s areaId lsaKey 2 (AddrMask rKey) (Cost (RoutingTblEnt rEnt))).
Definition GenerateType4SummaryLSA (rKey : RoutingTblEntryKey) (rEnt : GlobalRoutingTblEntry) (areaId : Z) (s : OSPFServer)
  : go (LsaKey * SummaryLsa) :=
  advRouter ← Util.convertIPv4ToUint32 (RouterId s);
  let lsaKey := {| LSType := Summary4LSA; LSId := DestId rKey; AdvRouter := advRouter |} in
  Ok (lsaKey, summary_lsa s areaId lsaKey 2 (AddrMask rKey) (Cost (RoutingTblEnt rEnt))).

(** A destination in the summaries of the area [areaId]. *)
Definition summarize (areaId : Z) (isStub : bool) (s : OSPFServer) (rKey : RoutingTblEntryKey) (rEnt : GlobalRoutingTblEntry)
    (sEnt : gmap LsaKey SummaryLsa) : go (gmap LsaKey SummaryLsa) :=
  let ent := RoutingTblEnt rEnt in
  let dest d := bool_decide (rk_DestType rKey = d) in
  let path t := bool_decide (re_PathType ent = t) in
  if dest AreaBdrRouter || path Type1Ext || path Type2Ext || (ge_AreaId rEnt =? areaId) || dest InternalRouter ||
     (Cost ent >=? LSInfinity) then Ok sEnt
  else
    sEnt ← (if (dest ASAreaBdrRouter || dest ASBdrRouter) && negb isStub then
              '(lsaKey, summaryLsa) ← GenerateType4SummaryLSA rKey rEnt areaId s; Ok (<[lsaKey := summaryLsa]> sEnt)
            else Ok sEnt);
    if dest Network && (path InterArea || path IntraArea) then
      '(lsaKey, summaryLsa) ← GenerateType3SummaryLSA rKey rEnt areaId s; Ok (<[lsaKey := summaryLsa]> sEnt)
    else Ok sEnt.

Definition GenerateSummaryLsa (s : OSPFServer) : go OSPFServer :=
  for_map (AreaConfMap s) (fun aKey aEnt s =>
    if decide (IntfListMap aEnt = ∅) then Ok s
    else
      areaId ← Util.convertAreaOrRouterIdUint32 aKey;
      let isStub := isStubArea s aKey in
      sEnt ← for_map (GlobalRoutingTbl s) (summarize areaId isStub s) ∅;
      let s := set_SummaryLsDb (<[areaId := sEnt]> (SummaryLsDb s)) s in
      if isStub then
        '(lsaKey, defsummaryLsa) ← GenerateDefaultSummary3LSA areaId s;
        Ok (set_SummaryLsDb (<[areaId := <[lsaKey := defsummaryLsa]> sEnt]> (SummaryLsDb s)) s)
      else Ok s) (set_SummaryLsDb ∅ s).

(** ** The calls of the route manager *)

Definition CompareRoutes (rKey : RoutingTblEntryKey) (s : OSPFServer) : bool :=
  match OldGlobalRoutingTbl s !! rKey, TempGlobalRoutingTbl s !! rKey with
  | Some oldEnt, Some newEnt =>
    let old := RoutingTblEnt oldEnt in let new := RoutingTblEnt newEnt in
    if negb (Cost old =? Cost new) then false
    else if negb (size (NextHops old) =? size (NextHops new))%nat then false
    else forallb (fun key => bool_decide (is_Some (NextHops new !! key))) (range (NextHops old))
  | _, _ => true
  end.

(** The errors that the calls return are only logged. [DeleteRoute] tests whether the client of the route manager is
    there, [InstallRoute] does not: what the generated client does without a connection is not part of the source,
    and what is said about the calls supposes one. *)
Definition DeleteRoute (rKey : RoutingTblEntryKey) (s : OSPFServer) : OSPFServer :=
  match OldGlobalRoutingTbl s !! rKey with
  | None => s
  | Some oldEnt =>
    foldl (fun s key =>
      if ribdClientHdl s then put (DelRouteState rKey) (put (DeleteIPv4Route rKey (NextHopIP key)) s) else s)
      s (range (NextHops (RoutingTblEnt oldEnt)))
  end.
Definition InstallRoute (rKey : RoutingTblEntryKey) (s : OSPFServer) : OSPFServer :=
  match TempGlobalRoutingTbl s !! rKey with
  | None => s
  | Some newEnt =>
    foldl (fun s key =>
      match ipPropertyMap s !! IfIPAddr key with
      | None => s
      | Some ipProp => put (DbRoute true rKey) (put (CreateIPv4Route rKey (Cost (RoutingTblEnt newEnt)) (NextHopIP key) ipProp) s)
      end) s (range (NextHops (RoutingTblEnt newEnt)))
  end.
Definition UpdateRoute (rKey : RoutingTblEntryKey) (s : OSPFServer) : OSPFServer := InstallRoute rKey (DeleteRoute rKey s).

(** A route of the area [areaId] enters the table unless there is one. *)
Definition add_route (areaId : Z) (tbl : gmap RoutingTblEntryKey RoutingTblEntry) (g : gmap RoutingTblEntryKey GlobalRoutingTblEntry)
    (rKey : RoutingTblEntryKey) : gmap RoutingTblEntryKey GlobalRoutingTblEntry :=
  match g !! rKey, tbl !! rKey with
  | None, Some rEnt => <[rKey := {| ge_AreaId := areaId; RoutingTblEnt := rEnt |}]> g
  | _, _ => g
  end.
Definition add_area (key : string) (_ : AreaConf) (s : OSPFServer) : go OSPFServer :=
  areaId ← Util.convertAreaOrRouterIdUint32 key;
  match TempAreaRoutingTbl s !! areaId with
  | None => Ok s
  | Some tbl => Ok (set_TempGlobalRoutingTbl (foldl (add_route areaId tbl) (TempGlobalRoutingTbl s) (range tbl)) s)
  end.
Definition ConsolidatingRoutingTbl (s : OSPFServer) : go OSPFServer := for_map (AreaConfMap s) add_area s.

(** The networks of a table that have a next hop, none of them handled yet. *)
Definition routing_keys (tbl : gmap RoutingTblEntryKey GlobalRoutingTblEntry) : gmap RoutingTblEntryKey bool :=
  (fun _ => false) <$> filter (fun r => rk_DestType r.1 = Network /\ NextHops (RoutingTblEnt r.2) <> ∅) tbl.

(** The three loops of [InstallRoutingTbl]: routes that were there before, routes that are gone, new routes. *)
Definition update_routes (keys : list RoutingTblEntryKey) (st : OSPFServer * gmap RoutingTblEntryKey bool * gmap RoutingTblEntryKey bool)
  : OSPFServer * gmap RoutingTblEntryKey bool * gmap RoutingTblEntryKey bool :=
  foldl (fun '(s, old, new) rKey =>
    match old !! rKey with
    | None => (s, old, new)
    | Some _ => (if CompareRoutes rKey s then s else UpdateRoute rKey s, <[rKey := true]> old, <[rKey := true]> new)
    end) st keys.
Definition each_unhandled (f : RoutingTblEntryKey -> OSPFServer -> OSPFServer) (keys : gmap RoutingTblEntryKey bool)
    (s : OSPFServer) : OSPFServer :=
  foldl (fun s rKey => match keys !! rKey with Some false => f rKey s | _ => s end) s (range keys).

Definition InstallRoutingTbl (s : OSPFServer) : go OSPFServer :=
  s ← ConsolidatingRoutingTbl s;
  let OldRoutingTblKeys := routing_keys (OldGlobalRoutingTbl s) in
  let NewRoutingTblKeys := routing_keys (TempGlobalRoutingTbl s) in
  let '(s, OldRoutingTblKeys, NewRoutingTblKeys) := update_routes (range NewRoutingTblKeys) (s, OldRoutingTblKeys, NewRoutingTblKeys) in
  Ok (each_unhandled InstallRoute NewRoutingTblKeys (each_unhandled DeleteRoute OldRoutingTblKeys s)).

(** ** The calculation *)

Definition initialiseSPFStructs (s : OSPFServer) : OSPFServer :=
  set_SPFTree ∅ (set_AreaStubs ∅ (set_AreaGraph ∅ s)).

(** One area. After an error in [ExecuteDijkstra] what it left in the tree is not read again; the tables are made
    anew for the next area. *)
Definition calc_area (key : string) (aEnt : AreaConf) (s : OSPFServer) : go OSPFServer :=
  if decide (IntfListMap aEnt = ∅) then Ok s
  else
    areaId ← Util.convertAreaOrRouterIdUint32 key;
    let s := initialiseSPFStructs s in
    let s := set_TempAreaRoutingTbl (<[areaId := ∅]> (TempAreaRoutingTbl s)) s in
    '(s, vKey, err) ← CreateAreaGraph areaId s;
    if (err : bool) then Ok s
    else
      match ExecuteDijkstra vKey s with
      | Panic => Panic
      | Hang => Hang
      | Err _ => Ok s
      | Ok s =>
        s ← UpdateRoutingTbl vKey areaId s;
        s ← HandleStubs areaId s;
        s ← HandleSummaryLsa areaId s;
        Ok (initialiseSPFStructs s)
      end.

(** What [spfCalculation] does for a message of [StartCalcSPFCh]. The tables of the areas are dropped, one by one
    and then all. *)
Definition spfCalculation (s : OSPFServer) : go OSPFServer :=
  let s := set_TempAreaRoutingTbl ∅ (set_OldGlobalRoutingTbl (GlobalRoutingTbl s) s) in
  s ← for_map (AreaConfMap s) calc_area s;
  s ← InstallRoutingTbl (set_TempGlobalRoutingTbl ∅ s);
  let s := set_GlobalRoutingTbl (TempGlobalRoutingTbl s) s in
  s ← for_map (AreaConfMap s) (fun key _ s =>
        areaId ← Util.convertAreaOrRouterIdUint32 key;
        Ok (set_TempAreaRoutingTbl (<[areaId := ∅]> (TempAreaRoutingTbl s)) s)) s;
  let s := set_TempGlobalRoutingTbl ∅ (set_OldGlobalRoutingTbl ∅ (set_TempAreaRoutingTbl ∅ s)) in
  s ← (if AreaBdrRtrStatus s then GenerateSummaryLsa s else Ok s);
  Ok (put DoneCalcSPF s).
End route.
