(* ===== verification/OspfRouteSpec.v ===== *)
(** What the route manager is told: after the calls of [InstallRoutingTbl] its routes are those of the new table. *)
From stdpp Require Import base numbers list gmap strings.
From Stdlib Require Import ZArith Lia.
From S2P Require Import Prelude GoNet OspfUtil OspfLsa OspfState OspfSpf OspfRoute.
Open Scope Z_scope.

(** ** The routes of the route manager *)

(** By destination and next hop: the metric. *)
Abbreviation rib := (gmap (RoutingTblEntryKey * Z) Z).
Definition rib_call (r : rib) (o : Out) : rib :=
  match o with
  | CreateIPv4Route rKey metric nextHopIp _ => <[(rKey, nextHopIp) := metric]> r
  | DeleteIPv4Route rKey nextHopIp => delete (rKey, nextHopIp) r
  | _ => r
  end.
(** What the calls so far have made of an empty table. *)
Definition rib_of (s : OSPFServer) : rib := foldl rib_call ∅ (out s).

Lemma rib_put o s : rib_of (put o s) = rib_call (rib_of s) o.
Proof. unfold rib_of. cbn. by rewrite foldl_snoc. Qed.

(** The metric of the route of a table to a destination over a next hop, if there is one: the destination is a
    network, and the interface of the next hop is known. *)
Definition resolves (s : OSPFServer) (nh : Z) (h : NextHop) : bool :=
  (NextHopIP h =? nh) && bool_decide (is_Some (ipPropertyMap s !! IfIPAddr h)).
Definition route (s : OSPFServer) (tbl : gmap RoutingTblEntryKey GlobalRoutingTblEntry) (rKey : RoutingTblEntryKey) (nh : Z)
  : option Z :=
  ent ← tbl !! rKey;
  if bool_decide (rk_DestType rKey = Network) && existsb (resolves s nh) (map_to_list (NextHops (RoutingTblEnt ent))).*1
  then Some (Cost (RoutingTblEnt ent)) else None.
Definition tracks (s : OSPFServer) (tbl : gmap RoutingTblEntryKey GlobalRoutingTblEntry) : Prop :=
  forall rKey nh, rib_of s !! (rKey, nh) = route s tbl rKey nh.

(** What the calls leave alone. *)
Record same_tables (s s' : OSPFServer) : Prop := {
  same_old : OldGlobalRoutingTbl s' = OldGlobalRoutingTbl s;
  same_new : TempGlobalRoutingTbl s' = TempGlobalRoutingTbl s;
  same_props : ipPropertyMap s' = ipPropertyMap s;
  same_hdl : ribdClientHdl s' = ribdClientHdl s;
}.
#[global] Instance same_tables_preorder : PreOrder same_tables.
Proof. split; [done|]. intros a b c [] []. split; congruence. Qed.
Lemma same_put o s : same_tables s (put o s).
Proof. done. Qed.

Lemma existsb_in {A} (f : A -> bool) l1 l2 : (forall x, x ∈ l1 <-> x ∈ l2) -> existsb f l1 = existsb f l2.
Proof.
  intros H. apply eq_true_iff_eq. rewrite !existsb_exists. setoid_rewrite <- list_elem_of_In. by setoid_rewrite H.
Qed.

Section calls.
Context {mo : MapOrder} {mok : MapOrderOk}.

Lemma range_in {K A} `{Countable K} (m : gmap K A) k : k ∈ range m <-> is_Some (m !! k).
Proof.
  rewrite (range_keys K A m), list_elem_of_fmap. split.
  - intros ([k' a] & -> & Hk). apply elem_of_map_to_list in Hk. by exists a.
  - intros [a Ha]. exists (k, a). split; [done|]. by apply elem_of_map_to_list.
Qed.
Lemma range_NoDup {K A} `{Countable K} (m : gmap K A) : NoDup (range m).
Proof. rewrite (range_keys K A m). apply NoDup_fst_map_to_list. Qed.

(** *** One destination *)

Lemma delete_hops rKey l : forall s, ribdClientHdl s = true ->
  let s' := foldl (fun s key => if ribdClientHdl s then put (DelRouteState rKey) (put (DeleteIPv4Route rKey (NextHopIP key)) s) else s) s l in
  same_tables s s' /\ forall k nh, rib_of s' !! (k, nh) = if decide (k = rKey /\ nh ∈ NextHopIP <$> l) then None else rib_of s !! (k, nh).
Proof.
  induction l as [|h l IH]; intros s Hh; cbn [foldl].
  { split; [done|]. intros k nh. rewrite decide_False; [done|]. intros [_ ?%elem_of_nil]. done. }
  rewrite Hh. destruct (IH (put (DelRouteState rKey) (put (DeleteIPv4Route rKey (NextHopIP h)) s)) Hh) as [Hs Hr].
  split; [by transitivity (put (DelRouteState rKey) (put (DeleteIPv4Route rKey (NextHopIP h)) s))|].
  intros k nh. rewrite Hr, !rib_put. cbn [rib_call]. cbn [fmap list_fmap].
  destruct (decide (k = rKey /\ nh ∈ NextHopIP <$> l)) as [[-> Hin] | Hout].
  - rewrite decide_True; [done|]. split; [done | by right].
  - destruct (decide (k = rKey /\ nh = NextHopIP h)) as [[-> ->] | Hne].
    + rewrite lookup_delete_eq, decide_True; [done|]. split; [done | left].
    + rewrite lookup_delete_ne by (intros [=]; naive_solver). rewrite decide_False; [done|].
      intros [-> [-> | ?]%elem_of_cons]; naive_solver.
Qed.

Lemma DeleteRoute_effect rKey s : ribdClientHdl s = true ->
  (forall nh, rib_of s !! (rKey, nh) = route s (OldGlobalRoutingTbl s) rKey nh) ->
  same_tables s (DeleteRoute rKey s) /\ (forall nh, rib_of (DeleteRoute rKey s) !! (rKey, nh) = None) /\
  forall k nh, k <> rKey -> rib_of (DeleteRoute rKey s) !! (k, nh) = rib_of s !! (k, nh).
Proof.
  intros Hh Hr. unfold DeleteRoute. unfold route in Hr. destruct (OldGlobalRoutingTbl s !! rKey) as [e|] eqn:E; cbn in Hr.
  2: { split; [done|]. split; [done | by intros]. }
  destruct (delete_hops rKey (range (NextHops (RoutingTblEnt e))) s Hh) as [Hs Hd]. split; [done|]. split.
  - intros nh. rewrite Hd, Hr. destruct (decide (rKey = rKey /\ nh ∈ NextHopIP <$> range (NextHops (RoutingTblEnt e)))) as [|Hin]; [done|].
    match goal with |- context [if ?b then _ else _] => destruct b eqn:Eb end; [|done].
    apply andb_true_iff in Eb as [_ Eb]. apply existsb_exists in Eb as (h & Hh' & Hres). exfalso. apply Hin. split; [done|].
    unfold resolves in Hres. apply andb_true_iff in Hres as [Hn _]. apply Z.eqb_eq in Hn. subst nh.
    apply list_elem_of_fmap_2. rewrite (range_keys _ _ _). by apply list_elem_of_In.
  - intros k nh Hk. rewrite Hd, decide_False; [done | naive_solver].
Qed.

Lemma install_hops rKey metric l : forall s,
  let s' := foldl (fun s key => match ipPropertyMap s !! IfIPAddr key with
    | None => s | Some ipProp => put (DbRoute true rKey) (put (CreateIPv4Route rKey metric (NextHopIP key) ipProp) s) end) s l in
  same_tables s s' /\ forall k nh, rib_of s' !! (k, nh) =
    if bool_decide (k = rKey) && existsb (resolves s nh) l then Some metric else rib_of s !! (k, nh).
Proof.
  induction l as [|h l IH]; intros s; cbn [foldl].
  { split; [done|]. intros k nh. by rewrite andb_false_r. }
  cbn [existsb]. destruct (ipPropertyMap s !! IfIPAddr h) as [p|] eqn:E.
  - destruct (IH (put (DbRoute true rKey) (put (CreateIPv4Route rKey metric (NextHopIP h) p) s))) as [Hs Hr].
    split; [by transitivity (put (DbRoute true rKey) (put (CreateIPv4Route rKey metric (NextHopIP h) p) s))|].
    intros k nh. rewrite Hr, !rib_put. cbn [rib_call]. unfold resolves at 2. rewrite E, (bool_decide_true (is_Some _)), andb_true_r by done.
    change (existsb (resolves (put _ (put _ s)) nh) l) with (existsb (resolves s nh) l).
    destruct (existsb (resolves s nh) l); rewrite ?orb_true_r, ?orb_false_r, ?andb_true_r, ?andb_false_r; [by case_bool_decide; [|rewrite lookup_insert_ne by congruence]|].
    destruct (Z.eqb_spec (NextHopIP h) nh) as [<- |]; rewrite ?andb_true_r, ?andb_false_r.
    + case_bool_decide as Hk; [subst; by rewrite lookup_insert_eq | by rewrite lookup_insert_ne by congruence].
    + by rewrite lookup_insert_ne by congruence.
  - destruct (IH s) as [Hs Hr]. split; [done|]. intros k nh. rewrite Hr. unfold resolves at 2. rewrite E.
    by rewrite (bool_decide_false (is_Some _)), andb_false_r by (by intros []).
Qed.

Lemma InstallRoute_effect rKey s : rk_DestType rKey = Network ->
  (forall nh, rib_of s !! (rKey, nh) = None) ->
  same_tables s (InstallRoute rKey s) /\
  (forall nh, rib_of (InstallRoute rKey s) !! (rKey, nh) = route s (TempGlobalRoutingTbl s) rKey nh) /\
  forall k nh, k <> rKey -> rib_of (InstallRoute rKey s) !! (k, nh) = rib_of s !! (k, nh).
Proof.
  intros Ht Hn. unfold InstallRoute, route. destruct (TempGlobalRoutingTbl s !! rKey) as [e|] eqn:E; cbn.
  2: { split; [done|]. split; [done | by intros]. }
  destruct (install_hops rKey (Cost (RoutingTblEnt e)) (range (NextHops (RoutingTblEnt e))) s) as [Hs Hd]. split; [done|]. split.
  - intros nh. rewrite Hd, bool_decide_true, (bool_decide_true _ Ht), Hn by done. cbn [andb].
    rewrite (existsb_in (resolves s nh) (range (NextHops (RoutingTblEnt e))) (map_to_list (NextHops (RoutingTblEnt e))).*1); [done|].
    intros x. by rewrite (range_keys _ _ _).
  - intros k nh Hk. by rewrite Hd, bool_decide_false.
Qed.

Lemma route_same s s' tbl rKey nh : ipPropertyMap s' = ipPropertyMap s -> route s' tbl rKey nh = route s tbl rKey nh.
Proof. intros E. unfold route, resolves. by rewrite E. Qed.

Lemma UpdateRoute_effect rKey s : ribdClientHdl s = true -> rk_DestType rKey = Network ->
  (forall nh, rib_of s !! (rKey, nh) = route s (OldGlobalRoutingTbl s) rKey nh) ->
  same_tables s (UpdateRoute rKey s) /\
  (forall nh, rib_of (UpdateRoute rKey s) !! (rKey, nh) = route s (TempGlobalRoutingTbl s) rKey nh) /\
  forall k nh, k <> rKey -> rib_of (UpdateRoute rKey s) !! (k, nh) = rib_of s !! (k, nh).
Proof.
  intros Hh Ht Hr. destruct (DeleteRoute_effect rKey s Hh Hr) as (Hs1 & Hd & Ho1).
  destruct (InstallRoute_effect rKey (DeleteRoute rKey s) Ht Hd) as (Hs2 & Hi & Ho2). unfold UpdateRoute. split; [by etransitivity|]. split.
  - intros nh. rewrite Hi, (same_new _ _ Hs1). apply route_same, Hs1.
  - intros k nh Hk. by rewrite Ho2, Ho1.
Qed.

(** Routes that compare as the same are. *)
Lemma CompareRoutes_same rKey s nh e : CompareRoutes rKey s = true -> OldGlobalRoutingTbl s !! rKey = Some e ->
  is_Some (TempGlobalRoutingTbl s !! rKey) -> route s (OldGlobalRoutingTbl s) rKey nh = route s (TempGlobalRoutingTbl s) rKey nh.
Proof.
  unfold CompareRoutes, route. intros Hc He [e' He']. rewrite He, He' in *. cbn.
  destruct (negb (Cost _ =? Cost _)) eqn:E1; [done|]. destruct (negb (size _ =? size _)%nat) eqn:E2; [done|]. zhyp.
  apply negb_false_iff, Nat.eqb_eq in E2. apply negb_false_iff, Z.eqb_eq in E1. rewrite E1.
  assert (Hd : dom (NextHops (RoutingTblEnt e)) = dom (NextHops (RoutingTblEnt e'))).
  { apply set_subseteq_size_eq; [|by rewrite !size_dom, E2]. intros h Hh. apply elem_of_dom in Hh. apply elem_of_dom.
    rewrite forallb_forall in Hc. assert (Hin : In h (range (NextHops (RoutingTblEnt e)))) by (by apply list_elem_of_In, range_in).
    specialize (Hc h Hin). by apply bool_decide_eq_true in Hc. }
  erewrite (existsb_in (resolves s nh)); [done|]. intros h. rewrite <- !(range_keys _ _ _), !range_in, <- !elem_of_dom. by rewrite Hd.
Qed.

(** *** All destinations *)

Lemma fold_keys (f : RoutingTblEntryKey -> OSPFServer -> OSPFServer) (before after : RoutingTblEntryKey -> Z -> option Z) l :
  NoDup l -> forall s,
  (forall k s1, k ∈ l -> same_tables s s1 -> (forall nh, rib_of s1 !! (k, nh) = before k nh) ->
     same_tables s1 (f k s1) /\ (forall nh, rib_of (f k s1) !! (k, nh) = after k nh) /\
     forall k' nh, k' <> k -> rib_of (f k s1) !! (k', nh) = rib_of s1 !! (k', nh)) ->
  (forall k nh, k ∈ l -> rib_of s !! (k, nh) = before k nh) ->
  let s' := foldl (fun s k => f k s) s l in
  same_tables s s' /\ forall k nh, rib_of s' !! (k, nh) = if decide (k ∈ l) then after k nh else rib_of s !! (k, nh).
Proof.
  induction 1 as [|k l Hk Hnd IH]; intros s Hf Hb; cbn [foldl].
  { split; [done|]. intros k nh. by rewrite decide_False by apply not_elem_of_nil. }
  destruct (Hf k s) as (Hs & Ha & Ho); [by left | done | intros nh; apply Hb; by left|].
  destruct (IH (f k s)) as [Hs' Hr].
  - intros k' s1 Hk' Hs1. apply Hf; [by right | by transitivity (f k s)].
  - intros k' nh Hk'. rewrite Ho by (intros ->; done). apply Hb. by right.
  - split; [by transitivity (f k s)|]. intros k' nh. rewrite Hr. destruct (decide (k' = k)) as [-> |Hne].
    + rewrite decide_False by done. rewrite decide_True by (by left). apply Ha.
    + rewrite Ho by done. destruct (decide (k' ∈ l)); [by rewrite decide_True by (by right)|].
      rewrite decide_False; [done|]. rewrite elem_of_cons. naive_solver.
Qed.

(** The keys that are not handled yet. *)
Definition unhandled (keys : gmap RoutingTblEntryKey bool) : list RoutingTblEntryKey := filter (fun k => keys !! k = Some false) (range keys).
Lemma unhandled_in keys k : k ∈ unhandled keys <-> keys !! k = Some false.
Proof. unfold unhandled. rewrite list_elem_of_filter, range_in. split; [by intros [? _] | intros E; by rewrite E]. Qed.
Lemma unhandled_NoDup keys : NoDup (unhandled keys).
Proof. apply NoDup_filter, range_NoDup. Qed.
Lemma each_unhandled_fold f keys s : each_unhandled f keys s = foldl (fun s k => f k s) s (unhandled keys).
Proof.
  unfold each_unhandled, unhandled. revert s. induction (range keys) as [|k l IH]; intros s; [done|]. rewrite filter_cons. cbn [foldl].
  destruct (keys !! k) as [[|]|]; [rewrite decide_False by done | rewrite decide_True by done | rewrite decide_False by done]; apply IH.
Qed.

(** What the first loop has not handled does not depend on what it does. *)
Lemma update_routes_flags l : forall s old new,
  let st := update_routes l (s, old, new) in
  st.1.1 = foldl (fun s k => if CompareRoutes k s then s else UpdateRoute k s) s (filter (fun k => is_Some (old !! k)) l) /\
  (forall k, st.1.2 !! k = Some false <-> old !! k = Some false /\ k ∉ l) /\
  (forall k, st.2 !! k = Some false <-> new !! k = Some false /\ ~ (k ∈ l /\ is_Some (old !! k))).
Proof.
  induction l as [|k l IH]; intros s old new; cbn [update_routes foldl].
  { split; [done|]. by split; intros k; rewrite elem_of_nil; tauto. }
  rewrite filter_cons. destruct (old !! k) as [b|] eqn:E.
  - rewrite decide_True by done. cbn [foldl].
    destruct (IH (if CompareRoutes k s then s else UpdateRoute k s) (<[k:=true]> old) (<[k:=true]> new)) as (Hs & Ho & Hn).
    unfold update_routes in *. split; [|split].
    + rewrite Hs. f_equal. apply list_filter_iff. intros k'. rewrite lookup_insert_is_Some. destruct (decide (k = k')) as [<- |]; naive_solver.
    + intros k'. rewrite Ho, elem_of_cons. destruct (decide (k = k')) as [<- |]; [rewrite lookup_insert_eq | rewrite lookup_insert_ne by done]; naive_solver.
    + intros k'. rewrite Hn, elem_of_cons. destruct (decide (k = k')) as [<- |]; [rewrite !lookup_insert_eq | rewrite !lookup_insert_ne by done]; naive_solver.
  - rewrite decide_False by (by intros []). destruct (IH s old new) as (Hs & Ho & Hn). unfold update_routes in *.
    split; [done|]. split; intros k'; rewrite ?Ho, ?Hn, elem_of_cons; [naive_solver|].
    split; intros [H1 H2]; (split; [done|]); intros [H3 H4]; apply H2; [|by split; [right|]].
    destruct H3 as [-> | H3]; [rewrite E in H4; by destruct H4 | done].
Qed.

(** *** The table of all areas *)

Lemma consolidate_fold areaId tbl l : forall g k,
  foldl (add_route areaId tbl) g l !! k =
  match g !! k with
  | Some e => Some e
  | None => if decide (k ∈ l) then (fun rEnt => {| ge_AreaId := areaId; RoutingTblEnt := rEnt |}) <$> tbl !! k else None
  end.
Proof.
  induction l as [|k' l IH]; intros g k; cbn [foldl].
  { destruct (g !! k); [done|]. rewrite decide_False; [done | apply not_elem_of_nil]. }
  rewrite IH. unfold add_route. destruct (decide (k' = k)) as [-> |Hne].
  - rewrite (decide_True (P := k ∈ k :: l)) by (by left). destruct (g !! k) as [e|] eqn:E; [by rewrite E|].
    destruct (tbl !! k) as [r|] eqn:Et; [by rewrite lookup_insert_eq|]. rewrite E. by case_match.
  - assert (Hk : (k ∈ k' :: l) <-> k ∈ l) by (rewrite elem_of_cons; naive_solver).
    rewrite (decide_ext _ _ _ _ Hk). destruct (g !! k') eqn:E; [done|]. destruct (tbl !! k'); [|done]. by rewrite lookup_insert_ne.
Qed.

(** An entry of the table of an area in [keys]. *)
Definition area_entry (s : OSPFServer) (keys : gset string) (rKey : RoutingTblEntryKey) (e : GlobalRoutingTblEntry) : Prop :=
  exists key tbl, key ∈ keys /\ Util.convertAreaOrRouterIdUint32 key = Ok (ge_AreaId e) /\
    TempAreaRoutingTbl s !! ge_AreaId e = Some tbl /\ tbl !! rKey = Some (RoutingTblEnt e).
Definition consolidated (s : OSPFServer) (keys : gset string) (g : gmap RoutingTblEntryKey GlobalRoutingTblEntry) : Prop :=
  forall rKey, match g !! rKey with Some e => area_entry s keys rKey e | None => forall e, ~ area_entry s keys rKey e end.

Definition area_ids_ok (s : OSPFServer) : Prop :=
  forall key, is_Some (AreaConfMap s !! key) -> exists areaId, Util.convertAreaOrRouterIdUint32 key = Ok areaId.

Lemma area_entry_mono s keys keys' rKey e : keys ⊆ keys' -> area_entry s keys rKey e -> area_entry s keys' rKey e.
Proof. intros Hsub (key & tbl & Hk & H). exists key, tbl. split; [by apply Hsub | done]. Qed.

Lemma area_entry_split s key seen areaId rKey e : Util.convertAreaOrRouterIdUint32 key = Ok areaId -> area_entry s ({[key]} ∪ seen) rKey e ->
  area_entry s seen rKey e \/ ge_AreaId e = areaId /\ exists tbl, TempAreaRoutingTbl s !! areaId = Some tbl /\ tbl !! rKey = Some (RoutingTblEnt e).
Proof.
  intros Hc (key' & tbl & Hin & Hc' & Ht & He). apply elem_of_union in Hin as [->%elem_of_singleton | Hin].
  - right. rewrite Hc in Hc'. simplify_eq. split; [done | by exists tbl].
  - left. by exists key', tbl.
Qed.

Lemma consolidated_table s : area_ids_ok s -> TempGlobalRoutingTbl s = ∅ ->
  exists g, ConsolidatingRoutingTbl s = Ok (set_TempGlobalRoutingTbl g s) /\ consolidated s (dom (AreaConfMap s)) g.
Proof.
  intros Hid Hg. unfold ConsolidatingRoutingTbl.
  destruct (for_map_rule (AreaConfMap s) (fun seen s' => exists g, s' = set_TempGlobalRoutingTbl g s /\ consolidated s seen g) add_area s)
    as (s' & Hr & g & -> & Hcons); [| |by exists g].
  - intros seen key a s' Hk Hseen (g & -> & Hcons). destruct (Hid key) as [areaId Ha]; [by exists a|].
    unfold add_area. rewrite Ha, bind_Ok.
    cbn [TempAreaRoutingTbl TempGlobalRoutingTbl set_TempGlobalRoutingTbl]. destruct (TempAreaRoutingTbl s !! areaId) as [tbl|] eqn:Et.
    + eexists. split; [done|]. eexists. split; [done|]. intros rKey. rewrite consolidate_fold. specialize (Hcons rKey).
      destruct (g !! rKey) as [e|]; [by eapply area_entry_mono; [|done]; set_solver|].
      destruct (tbl !! rKey) as [r|] eqn:Er.
      * rewrite decide_True by (by apply range_in). cbn. exists key, tbl. cbn. split; [set_solver | done].
      * assert (Hnone : forall e, ~ area_entry s ({[key]} ∪ seen) rKey e).
        { intros e He. apply (area_entry_split s key seen areaId rKey e Ha) in He as [He | (_ & t & Ht & He)]; [by eapply Hcons | congruence]. }
        destruct (decide (rKey ∈ range tbl)); exact Hnone.
    + eexists. split; [done|]. exists g. split; [done|]. intros rKey. specialize (Hcons rKey).
      destruct (g !! rKey) as [e|]; [by eapply area_entry_mono; [|done]; set_solver|].
      intros e He. apply (area_entry_split s key seen areaId rKey e Ha) in He as [He | (_ & t & Ht & He)]; [by eapply Hcons | congruence].
  - exists ∅. split; [by rewrite <- Hg; destruct s|]. intros rKey. rewrite lookup_empty. by intros e (key & tbl & Hin%elem_of_empty & _).
Qed.

(** *** The table is installed *)

Lemma routing_keys_in tbl k : routing_keys tbl !! k = Some false <->
  exists e, tbl !! k = Some e /\ rk_DestType k = Network /\ NextHops (RoutingTblEnt e) <> ∅.
Proof.
  unfold routing_keys. rewrite lookup_fmap. split.
  - intros (e & He & _)%fmap_Some. apply map_lookup_filter_Some in He as [He [H1 H2]]. by exists e.
  - intros (e & He & H1 & H2). apply fmap_Some. exists e. split; [|done]. by apply map_lookup_filter_Some.
Qed.
Lemma routing_keys_false tbl k : is_Some (routing_keys tbl !! k) <-> routing_keys tbl !! k = Some false.
Proof.
  split; [|by intros ->]. unfold routing_keys. rewrite lookup_fmap. intros [b H]. rewrite H. apply fmap_Some in H as (e & _ & ->). done.
Qed.
Lemma route_none s tbl k nh : routing_keys tbl !! k = None -> route s tbl k nh = None.
Proof.
  intros Hn. unfold route. destruct (tbl !! k) as [e|] eqn:E; [|done]. cbn.
  destruct (bool_decide (rk_DestType k = Network)) eqn:Et; [|done]. apply bool_decide_eq_true in Et.
  destruct (decide (NextHops (RoutingTblEnt e) = ∅)) as [-> |Hne]; [by rewrite map_to_list_empty|].
  assert (H : routing_keys tbl !! k = Some false) by (apply routing_keys_in; by exists e). congruence.
Qed.

Section install.
Context (s : OSPFServer) (Hh : ribdClientHdl s = true) (Ht : tracks s (OldGlobalRoutingTbl s)).
Let OldKeys := routing_keys (OldGlobalRoutingTbl s).
Let NewKeys := routing_keys (TempGlobalRoutingTbl s).
Let old := route s (OldGlobalRoutingTbl s).
Let new := route s (TempGlobalRoutingTbl s).

(** The effects of the calls, in terms of the tables at the beginning. *)
Lemma compare_step k s1 : OldKeys !! k = Some false -> NewKeys !! k = Some false -> same_tables s s1 ->
  (forall nh, rib_of s1 !! (k, nh) = old k nh) ->
  let s2 := if CompareRoutes k s1 then s1 else UpdateRoute k s1 in
  same_tables s1 s2 /\ (forall nh, rib_of s2 !! (k, nh) = new k nh) /\
  forall k' nh, k' <> k -> rib_of s2 !! (k', nh) = rib_of s1 !! (k', nh).
Proof.
  intros Hko Hkn Hs1 Hb. apply routing_keys_in in Hko as (eo & Heo & Hty & _). apply routing_keys_in in Hkn as (en & Hen & _).
  assert (Hb' : forall nh, rib_of s1 !! (k, nh) = route s1 (OldGlobalRoutingTbl s1) k nh).
  { intros nh. rewrite Hb, (same_old _ _ Hs1), (route_same s s1); [done | apply Hs1]. }
  assert (Hn' : forall nh, route s1 (TempGlobalRoutingTbl s1) k nh = new k nh).
  { intros nh. rewrite (same_new _ _ Hs1). apply route_same, Hs1. }
  cbv zeta. destruct (CompareRoutes k s1) eqn:Ec.
  - split; [done|]. split; [|done]. intros nh. rewrite Hb', (CompareRoutes_same k s1 nh eo Ec); [apply Hn' | |].
    + by rewrite (same_old _ _ Hs1).
    + rewrite (same_new _ _ Hs1). by exists en.
  - destruct (UpdateRoute_effect k s1) as (H1 & H2 & H3); [by rewrite (same_hdl _ _ Hs1) | done | done |].
    split; [done|]. split; [|done]. intros nh. by rewrite H2.
Qed.
Lemma delete_step k s1 : same_tables s s1 -> (forall nh, rib_of s1 !! (k, nh) = old k nh) ->
  same_tables s1 (DeleteRoute k s1) /\ (forall nh, rib_of (DeleteRoute k s1) !! (k, nh) = None) /\
  forall k' nh, k' <> k -> rib_of (DeleteRoute k s1) !! (k', nh) = rib_of s1 !! (k', nh).
Proof.
  intros Hs1 Hb. apply DeleteRoute_effect; [by rewrite (same_hdl _ _ Hs1)|].
  intros nh. rewrite Hb, (same_old _ _ Hs1), (route_same s s1); [done | apply Hs1].
Qed.
Lemma install_step k s1 : NewKeys !! k = Some false -> same_tables s s1 -> (forall nh, rib_of s1 !! (k, nh) = None) ->
  same_tables s1 (InstallRoute k s1) /\ (forall nh, rib_of (InstallRoute k s1) !! (k, nh) = new k nh) /\
  forall k' nh, k' <> k -> rib_of (InstallRoute k s1) !! (k', nh) = rib_of s1 !! (k', nh).
Proof.
  intros Hk Hs1 Hb. apply routing_keys_in in Hk as (e & _ & Hty & _). destruct (InstallRoute_effect k s1 Hty Hb) as (H1 & H2 & H3).
  split; [done|]. split; [|done]. intros nh. rewrite H2, (same_new _ _ Hs1). apply route_same, Hs1.
Qed.

Lemma installed : let st := update_routes (range NewKeys) (s, OldKeys, NewKeys) in
  let s' := each_unhandled InstallRoute st.2 (each_unhandled DeleteRoute st.1.2 st.1.1) in
  same_tables s s' /\ tracks s' (TempGlobalRoutingTbl s).
Proof.
  intros st. cbv zeta. destruct (update_routes_flags (range NewKeys) s OldKeys NewKeys) as (Hs & Ho & Hn). fold st in Hs, Ho, Hn.
  set (both := filter (fun k => is_Some (OldKeys !! k)) (range NewKeys)) in *.
  assert (HF : forall tbl k, routing_keys tbl !! k = Some false \/ routing_keys tbl !! k = None).
  { intros tbl k. destruct (routing_keys tbl !! k) eqn:E; [left; rewrite <- E; apply routing_keys_false; by rewrite E | by right]. }
  assert (Hboth : forall k, k ∈ both <-> OldKeys !! k = Some false /\ NewKeys !! k = Some false).
  { intros k. unfold both. rewrite list_elem_of_filter, range_in. unfold OldKeys, NewKeys. by rewrite !routing_keys_false. }
  assert (Hgone : forall k, k ∈ unhandled st.1.2 <-> OldKeys !! k = Some false /\ NewKeys !! k = None).
  { intros k. by rewrite unhandled_in, Ho, range_in, <- eq_None_not_Some. }
  assert (Hfresh : forall k, k ∈ unhandled st.2 <-> NewKeys !! k = Some false /\ OldKeys !! k = None).
  { intros k. rewrite unhandled_in, Hn, range_in. rewrite (eq_None_not_Some (OldKeys !! k)). split; intros [H1 H2]; (split; [done|]).
    - intros H3. apply H2. by rewrite H1.
    - intros [_ H3]. by apply H2. }
  destruct (fold_keys (fun k s => if CompareRoutes k s then s else UpdateRoute k s) old new both (NoDup_filter _ _ (range_NoDup _)) s) as [Hs1 Hr1].
  { intros k s1 [Hko Hkn]%Hboth. by apply compare_step. }
  { intros k nh _. apply Ht. }
  rewrite <- Hs in Hs1, Hr1. rewrite !each_unhandled_fold.
  destruct (fold_keys DeleteRoute old (fun _ _ => None) (unhandled st.1.2) (unhandled_NoDup _) st.1.1) as [Hs2 Hr2].
  { intros k s2 _ Hs2. apply delete_step. by transitivity st.1.1. }
  { intros k nh [Hko Hkn]%Hgone. rewrite Hr1, decide_False; [apply Ht|]. rewrite Hboth. intros [_ ?]. congruence. }
  set (s2 := foldl (fun s k => DeleteRoute k s) _ _) in *. assert (Hs02 : same_tables s s2) by (by transitivity st.1.1).
  destruct (fold_keys InstallRoute (fun _ _ => None) new (unhandled st.2) (unhandled_NoDup _) s2) as [Hs3 Hr3].
  { intros k s3 [Hkn _]%Hfresh Hs3. apply install_step; [done | by transitivity s2]. }
  { intros k nh [Hkn Hko]%Hfresh. rewrite Hr2, Hr1. case_match; [done|]. rewrite decide_False by (rewrite Hboth; intros [? _]; congruence).
    rewrite Ht. by apply route_none. }
  split; [by transitivity s2|]. intros k nh. rewrite (route_same s) by (by rewrite (same_props _ _ Hs3), (same_props _ _ Hs02)).
  rewrite Hr3, Hr2, Hr1. destruct (HF (TempGlobalRoutingTbl s) k) as [En | En], (HF (OldGlobalRoutingTbl s) k) as [Eo | Eo].
  - rewrite (decide_False (P := k ∈ unhandled st.2)) by (rewrite Hfresh; intros [_ ?]; unfold OldKeys in *; congruence).
    rewrite (decide_False (P := k ∈ unhandled st.1.2)) by (rewrite Hgone; intros [_ ?]; unfold NewKeys in *; congruence).
    rewrite decide_True by (by rewrite Hboth). done.
  - rewrite decide_True by (by rewrite Hfresh). done.
  - rewrite (decide_False (P := k ∈ unhandled st.2)) by (rewrite Hfresh; intros [? _]; unfold NewKeys in *; congruence).
    rewrite decide_True by (by rewrite Hgone). by rewrite route_none.
  - rewrite (decide_False (P := k ∈ unhandled st.2)) by (rewrite Hfresh; intros [? _]; unfold NewKeys in *; congruence).
    rewrite (decide_False (P := k ∈ unhandled st.1.2)) by (rewrite Hgone; intros [? _]; unfold OldKeys in *; congruence).
    rewrite decide_False by (rewrite Hboth; intros [? _]; unfold OldKeys in *; congruence).
    by rewrite Ht, !route_none.
Qed.
End install.
End calls.

(** C10: when the routes of the route manager are those of the table of the last calculation, [InstallRoutingTbl] ends,
    the new table has an entry for a destination exactly when the table of an area has, which is its entry, and
    the routes of the route manager are those of the new table: to each network that has a next hop whose interface
    is known, with the cost of the entry. *)
Theorem install_follows_table {mo : MapOrder} {mok : MapOrderOk} s : ribdClientHdl s = true -> area_ids_ok s ->
  TempGlobalRoutingTbl s = ∅ -> tracks s (OldGlobalRoutingTbl s) ->
  exists s', InstallRoutingTbl s = Ok s' /\ consolidated s (dom (AreaConfMap s)) (TempGlobalRoutingTbl s') /\
    tracks s' (TempGlobalRoutingTbl s').
Proof.
  intros Hh Hid Hg Ht. destruct (consolidated_table s Hid Hg) as (g & Hc & Hcons). unfold InstallRoutingTbl. rewrite Hc, bind_Ok. cbv zeta.
  destruct (installed (set_TempGlobalRoutingTbl g s) Hh Ht) as [Hs Htr].
  destruct (update_routes _ _) as [[s1 old] new]. cbn [fst snd] in Hs, Htr. eexists. split; [done|].
  rewrite (same_new _ _ Hs). done.
Qed.

(** ** Examples *)

Definition some_net : RoutingTblEntryKey := {| DestId := 167772160; AddrMask := 4278190080; rk_DestType := Network |}.
Definition some_hop (nh : Z) : NextHop := {| IfIPAddr := 1; IfIdx := 0; NextHopIP := nh; nh_AdvRtr := 0 |}.
Definition some_entry (cost nh : Z) : RoutingTblEntry := intra_entry cost NewLsaKey 1 {[ some_hop nh := true ]}.
Definition in_order : MapOrder := fun K A _ _ m => (map_to_list m).*1.
Lemma in_order_ok : @MapOrderOk in_order.
Proof. intros K A ? ? m. reflexivity. Qed.
Definition some_conf : AreaConf :=
  {| ImportAsExtern := 1; StubDefaultCost := 20; TransitCapability := false; IntfListMap := ∅ |}.

(** A daemon that has installed a route over the next hop 5, and has found one over the next hop 6. *)
Definition before_install (props : gmap Z IpProperty) (calls : list Out) (nh : Z) : OSPFServer :=
  {| AreaLsdb := ∅; AreaSelfOrigLsa := ∅; LsdbSlice := []; maxAgeLsaMap := ∅; RouterId := [0; 0; 0; 1]; AreaBdrRtrStatus := false;
     AreaConfMap := {[ "0.0.0.0" := some_conf ]}; IntfConfMap := ∅; NeighborConfigMap := ∅; ospfIntfToNbrMap := ∅; ipPropertyMap := props;
     ribdClientHdl := true; AreaGraph := ∅; AreaStubs := ∅; SPFTree := ∅;
     TempAreaRoutingTbl := {[ 0 := {[ some_net := some_entry 20 nh ]} ]}; GlobalRoutingTbl := ∅;
     OldGlobalRoutingTbl := {[ some_net := {| ge_AreaId := 0; RoutingTblEnt := some_entry 20 5 |} ]};
     TempGlobalRoutingTbl := ∅; SummaryLsDb := ∅; Version := 2; IPToMAC := ∅; out := calls |}.
Definition some_prop : IpProperty := {| IfId := 1; ip_IfType := 0 |}.

Lemma before_install_tracks props nh : props !! 1 = Some some_prop ->
  tracks (before_install props [CreateIPv4Route some_net 20 5 some_prop] nh) (OldGlobalRoutingTbl (before_install props [] nh)).
Proof.
  intros Hp k n. unfold rib_of, route. cbn [out before_install foldl rib_call OldGlobalRoutingTbl].
  destruct (decide (k = some_net)) as [-> |Hk].
  - rewrite lookup_singleton_eq. cbn -[map_to_list]. change (<[_ := true]> ∅) with ({[some_hop 5 := true]} : gmap NextHop bool).
    rewrite map_to_list_singleton. cbn. unfold resolves. cbn [ipPropertyMap before_install some_hop IfIPAddr NextHopIP]. rewrite Hp.
    rewrite (bool_decide_true (is_Some _)), andb_true_r, orb_false_r, (bool_decide_true (Network = Network)) by done. cbn [andb].
    destruct (Z.eqb_spec 5 n) as [<- |Hn]; [by rewrite lookup_insert_eq | by rewrite lookup_insert_ne by congruence].
  - rewrite lookup_singleton_ne by done. cbn. by rewrite lookup_insert_ne by congruence.
Qed.

Lemma install_follows_table_witness :
  exists s', @InstallRoutingTbl in_order (before_install {[ 1 := some_prop ]} [CreateIPv4Route some_net 20 5 some_prop] 6) = Ok s' /\
    rib_of s' !! (some_net, 6) = route s' (TempGlobalRoutingTbl s') some_net 6.
Proof.
  destruct (@install_follows_table in_order in_order_ok (before_install {[ 1 := some_prop ]} [CreateIPv4Route some_net 20 5 some_prop] 6))
    as (s' & Hs & _ & Ht).
  - reflexivity.
  - intros key [a Ha]. cbn in Ha. apply lookup_singleton_Some in Ha as [<- _]. by exists 0; vm_compute.
  - reflexivity.
  - by apply before_install_tracks.
  - exists s'. split; [exact Hs | apply Ht].
Defined.

(** A route that could not be installed, because the interface of its next hop was not known, is not installed by
    a later calculation that finds it again. *)
Theorem route_not_retried :
  exists s', @InstallRoutingTbl in_order (before_install {[ 1 := some_prop ]} [] 5) = Ok s' /\ out s' = [] /\
    route s' (TempGlobalRoutingTbl s') some_net 5 = Some 20.
Proof. eexists. split; [vm_compute; reflexivity|]. split; reflexivity. Qed.

(** Summary LSAs are generated into a map that was made new, so that none is found there: the sequence number stays
    the initial one. *)
Theorem summarize_initial_seq {mo : MapOrder} areaId isStub s rKey rEnt sEnt sEnt' : SummaryLsDb s !! areaId = None ->
  summarize areaId isStub s rKey rEnt sEnt = Ok sEnt' ->
  (forall k l, sEnt !! k = Some l -> LSSequenceNum (S_LsaMd l) = InitialSequenceNumber) ->
  forall k l, sEnt' !! k = Some l -> LSSequenceNum (S_LsaMd l) = InitialSequenceNumber.
Proof.
  intros Hn. unfold summarize, GenerateType4SummaryLSA, GenerateType3SummaryLSA. destruct (Util.convertIPv4ToUint32 (RouterId s)) as [adv| | |].
  2-4: repeat case_match; cbn; naive_solver.
  assert (Hseq : forall k, summary_seq s areaId k = InitialSequenceNumber) by (intros k; unfold summary_seq; by rewrite Hn).
  intros Hr Hs. cbn in Hr. repeat case_match; cbn in Hr; simplify_eq; intros k l; rewrite ?lookup_insert_Some; naive_solver.
Qed.
