(* ===== verification/OspfFrame.v ===== *)
(** The SPF calculation reads the link state databases and the LSAs the router originated, and writes neither. *)
From stdpp Require Import base numbers list gmap strings.
From Stdlib Require Import ZArith Lia.
From S2P Require Import Prelude GoNet OspfUtil OspfLsa OspfState OspfSpf OspfRoute.
Open Scope Z_scope.

(** What holds of the result, if there is one. *)
Definition holds {E A} (Q : A -> Prop) (o : outcome E A) : Prop := match o with Ok a => Q a | _ => True end.

Lemma holds_bind {E A B} (P : A -> Prop) (Q : B -> Prop) (o : outcome E A) (f : A -> outcome E B) :
  holds P o -> (forall a, P a -> holds Q (f a)) -> holds Q (x ← o; f x).
Proof. destruct o; cbn; auto. Qed.
Lemma holds_bind_any {E A B} (Q : B -> Prop) (o : outcome E A) (f : A -> outcome E B) :
  (forall a, holds Q (f a)) -> holds Q (x ← o; f x).
Proof. destruct o; cbn; auto. Qed.
Lemma holds_Ok {E A} (Q : A -> Prop) (o : outcome E A) a : holds Q o -> o = Ok a -> Q a.
Proof. by intros ? ->. Qed.

Lemma for_each_holds {E A B} (P : B -> Prop) (body : A -> B -> outcome E B) l b :
  (forall x b, P b -> holds P (body x b)) -> P b -> holds P (for_each body l b).
Proof.
  intros Hb. revert b. induction l as [|x l IH]; intros b HP; [done|]. cbn [for_each].
  eapply holds_bind; [by apply Hb | done].
Qed.
Lemma for_map_holds {mo : MapOrder} {E K A B} `{Countable K} (P : B -> Prop) (m : gmap K A) (body : K -> A -> B -> outcome E B) b :
  (forall k a b, m !! k = Some a -> P b -> holds P (body k a b)) -> P b -> holds P (for_map m body b).
Proof. intros Hb. apply for_each_holds. intros k c Hc. destruct (m !! k) eqn:E1; [by apply Hb | done]. Qed.
Lemma for_upto_holds {E A} (P : A -> Prop) (body : nat -> A -> outcome E A) n : forall i a,
  (forall i a, P a -> holds P (body i a)) -> P a -> holds P (for_upto n i body a).
Proof.
  induction n as [|n IH]; intros i a Hb HP; [done|]. cbn [for_upto].
  eapply holds_bind; [by apply Hb | intros; by apply IH].
Qed.
Lemma foldl_keeps {A B} (P : B -> Prop) (f : B -> A -> B) l b : (forall b x, P b -> P (f b x)) -> P b -> P (foldl f b l).
Proof. intros Hf. revert b. induction l as [|x l IH]; cbn; auto. Qed.

Create HintDb frame.

(** Go through a body: case by case, using what is known of the calls. *)
Ltac frame_step :=
  match goal with
  | |- holds _ (Ok _) => cbn [holds]
  | |- holds _ Panic => exact I
  | |- holds _ Hang => exact I
  | |- holds _ (Err _) => exact I
  | |- holds _ (let '_ := ?x in _) => destruct x
  | |- holds _ (match ?x with _ => _ end) => destruct x
  | |- holds _ (mbind _ _) => first [eapply holds_bind; [solve [eauto with frame] | intros] | apply holds_bind_any; intros]
  | |- holds _ (_ (let _ := _ in _)) => cbv zeta
  | |- holds _ _ => solve [eauto with frame]
  | H : _ /\ _ |- _ => destruct H
  | x : (_ * _)%type |- _ => destruct x
  end.
Ltac frame := cbv zeta; repeat frame_step; cbn [fst snd] in *; try solve [eauto with frame | intuition eauto].

Section frame.
Context {mo : MapOrder} {so : SortImpl}.
Variable L : gmap Z (option LSDatabase).
Variable O : gmap Z (option (gmap LsaKey bool)).

Definition dbs (s : OSPFServer) : Prop := AreaLsdb s = L /\ AreaSelfOrigLsa s = O.

Lemma put_entry_dbs areaId rKey rEnt s : dbs s -> holds dbs (put_entry areaId rKey rEnt s).
Proof. intros H. unfold put_entry. frame. Qed.
#[local] Hint Resolve put_entry_dbs : frame.

(** *** The graph and the tree *)

Definition dbs_err (st : OSPFServer * bool) : Prop := dbs st.1.

Lemma each_neighbor_dbs visit l : (forall v s, dbs s -> holds dbs_err (visit v s)) ->
  forall s, dbs s -> holds dbs_err (each_neighbor visit l s).
Proof.
  intros Hv. induction l as [|v l IH]; intros s Hs; [done|]. cbn [each_neighbor]. destruct (bool_decide _); [by apply IH|].
  eapply holds_bind; [by apply Hv|]. intros [s' err] Hs'. destruct err; cbn; by apply IH.
Qed.

Lemma router_link_dbs areaId key v lsa i st : dbs st.1.2 -> holds (fun st => dbs st.1.2) (router_link areaId key v lsa i st).
Proof. destruct st as [[ent s] err]. cbn. intros Hs. unfold router_link. frame. Qed.
Lemma mark_transit_dbs lsa areaId s : dbs s -> dbs (mark_transit lsa areaId s).
Proof. intros Hs. unfold mark_transit. repeat case_match; done. Qed.

Lemma update_graph_dbs fuel : forall lsa key areaId s, dbs s -> holds dbs_err (update_graph fuel lsa key areaId s).
Proof.
  induction fuel as [|fuel IH]; intros lsa key areaId s Hs; [done|]. cbn [update_graph]. destruct lsa as [n|r].
  - frame. apply each_neighbor_dbs; [|done]. intros v s1 H1. frame.
  - destruct (bool_decide _); [done|].
    eapply holds_bind; [apply (for_upto_holds (fun st => dbs st.1.2)); [by intros; apply router_link_dbs | by apply mark_transit_dbs]|].
    intros [[ent s1] err] H1. cbn [fst snd] in H1. frame. apply each_neighbor_dbs; [|done]. intros v s2 H2. frame.
Qed.

Lemma CreateAreaGraph_dbs areaId s : dbs s -> holds (fun st => dbs st.1.1) (CreateAreaGraph areaId s).
Proof.
  intros Hs. unfold CreateAreaGraph, UpdateAreaGraphRouterLsa. repeat case_match; try done.
  eapply holds_bind; [by apply update_graph_dbs|]. by intros [s1 err] Hs1.
Qed.
Lemma ExecuteDijkstra_dbs v s : dbs s -> holds dbs (ExecuteDijkstra v s).
Proof. intros Hs. unfold ExecuteDijkstra. cbv zeta. apply holds_bind_any. by intros [graph tree]. Qed.

(** *** The routes *)

Lemma UpdateRoutingTbl_dbs v areaId s : dbs s -> holds dbs (UpdateRoutingTbl v areaId s).
Proof.
  intros Hs. apply for_map_holds; [|done]. intros key ent s1 _ H1.
  unfold UpdateRoutingTblForRouter, UpdateRoutingTblForTNetwork. frame.
Qed.
Lemma HandleStubs_dbs areaId s : dbs s -> holds dbs (HandleStubs areaId s).
Proof.
  intros Hs. apply for_map_holds; [|done]. intros key ent s1 _ H1. unfold UpdateRoutingTblWithStub. frame.
Qed.
Lemma inter_area_dbs areaId rKey adv rb metric s : dbs s -> holds dbs (inter_area_entry areaId rKey adv rb metric s).
Proof. intros Hs. unfold inter_area_entry. frame. Qed.
Lemma external_entry_dbs areaId rKey adv rb lsa s : dbs s -> holds dbs (external_entry areaId rKey adv rb lsa s).
Proof. intros Hs. unfold external_entry. frame. Qed.
#[local] Hint Resolve inter_area_dbs external_entry_dbs : frame.
Lemma HandleSummaryLsa_dbs areaId s : dbs s -> holds dbs (HandleSummaryLsa areaId s).
Proof.
  intros Hs. unfold HandleSummaryLsa, HandleSummaryType3Lsa, HandleSummaryType4Lsa.
  eapply holds_bind; [|intros s1 H1; eapply holds_bind; [|intros s2 H2]].
  - unfold CalcInterAreaRoutes. case_match; [done|]. apply for_map_holds; [|done]. intros. frame.
  - unfold CalcASBorderRoutes. case_match; [done|]. apply for_map_holds; [|done]. intros. frame.
  - unfold HandleASExternalLsa. case_match; [done|]. apply for_map_holds; [|done]. intros. frame.
Qed.
#[local] Hint Resolve UpdateRoutingTbl_dbs HandleStubs_dbs HandleSummaryLsa_dbs : frame.

Lemma calc_area_dbs key ent s : dbs s -> holds dbs (calc_area key ent s).
Proof.
  intros Hs. unfold calc_area. destruct (decide _); [done|]. apply holds_bind_any. intros areaId. cbv zeta.
  eapply holds_bind; [by apply CreateAreaGraph_dbs|]. intros [[s1 v] err] H1. cbn [fst snd] in H1. destruct err; [done|].
  pose proof (ExecuteDijkstra_dbs v s1 H1) as H2. destruct (ExecuteDijkstra v s1); try done. frame.
Qed.

(** *** Installing and summarizing *)

Lemma InstallRoute_dbs rKey s : dbs s -> dbs (InstallRoute rKey s).
Proof. intros Hs. unfold InstallRoute. case_match; [|done]. apply foldl_keeps; [|done]. intros. by case_match. Qed.
Lemma DeleteRoute_dbs rKey s : dbs s -> dbs (DeleteRoute rKey s).
Proof. intros Hs. unfold DeleteRoute. case_match; [|done]. apply foldl_keeps; [|done]. intros. by case_match. Qed.

Lemma InstallRoutingTbl_dbs s : dbs s -> holds dbs (InstallRoutingTbl s).
Proof.
  intros Hs. unfold InstallRoutingTbl. eapply (holds_bind dbs).
  - apply for_map_holds; [|done]. intros key ent s1 _ H1. unfold add_area. frame.
  - intros s1 H1. cbv zeta. destruct (update_routes _ _) as [[s2 old] new] eqn:E1.
    assert (H2 : dbs s2).
    { change s2 with (s2, old, new).1.1. rewrite <- E1. unfold update_routes.
      apply (foldl_keeps (fun st => dbs st.1.1)); [|done]. intros [[s3 o] n] k H3. cbn in H3 |- *. case_match; [|done]. cbn.
      case_match; [done|]. by apply InstallRoute_dbs, DeleteRoute_dbs. }
    cbn. unfold each_unhandled.
    apply foldl_keeps; [|apply foldl_keeps; [|done]]; intros; repeat case_match; auto using InstallRoute_dbs, DeleteRoute_dbs.
Qed.

Lemma GenerateSummaryLsa_dbs s : dbs s -> holds dbs (GenerateSummaryLsa s).
Proof. intros Hs. apply for_map_holds; [|done]. intros key ent s1 _ H1. frame. Qed.

Lemma spfCalculation_dbs s : dbs s -> holds dbs (spfCalculation s).
Proof.
  intros Hs. unfold spfCalculation. cbv zeta.
  eapply (holds_bind dbs); [apply for_map_holds; [by intros; apply calc_area_dbs | done]|]. intros s1 H1.
  eapply (holds_bind dbs); [by apply InstallRoutingTbl_dbs|]. intros s2 H2.
  eapply (holds_bind dbs); [apply for_map_holds; [|done]; intros; frame|]. intros s3 H3.
  eapply (holds_bind dbs); [case_match; [by apply GenerateSummaryLsa_dbs | done]|]. by intros s4 H4.
Qed.
End frame.
