(* ===== verification/OspfLsdb.v ===== *)
(** The link state database of the OSPF daemon ([src/ospf/server/ospfLsdb.go], [ospfLsdbTimer.go], and the aging of
    [ospfLsa.go]): the LSAs the router originates, those it receives, their refreshing and aging, and the loop
    that owns the database. *)
From stdpp Require Import base numbers list gmap strings.
From Stdlib Require Import ZArith Lia.
From S2P Require Import Prelude GoNet OspfUtil OspfLsa OspfState OspfSpf OspfRoute.
Open Scope Z_scope.

Definition LsdbAdd : Z := 0.
Definition LsdbDel : Z := 1.
Definition LsdbUpdate : Z := 2.
Definition LsdbNoAction : Z := 3.

(** ** Reading and writing the maps of an area *)

(** [None]: the maps are nil. *)
Definition db_maps (s : OSPFServer) (areaId : Z) : option LSDatabase := default None (AreaLsdb s !! areaId).
Definition self_map (s : OSPFServer) (areaId : Z) : option (gmap LsaKey bool) := default None (AreaSelfOrigLsa s !! areaId).

(** An assignment to an element of a map of the database, which panics when the map is nil, and a deletion, which
    does not; both then store the database. *)
Definition put_lsdb (areaId : Z) (f : LSDatabase -> LSDatabase) (s : OSPFServer) : go OSPFServer :=
  match db_maps s areaId with
  | None => Panic
  | Some db => Ok (set_AreaLsdb (<[areaId := Some (f db)]> (AreaLsdb s)) s)
  end.
Definition del_lsdb (areaId : Z) (f : LSDatabase -> LSDatabase) (s : OSPFServer) : OSPFServer :=
  set_AreaLsdb (<[areaId := f <$> db_maps s areaId]> (AreaLsdb s)) s.
Definition put_self (areaId : Z) (lsaKey : LsaKey) (valid : bool) (s : OSPFServer) : go OSPFServer :=
  match self_map s areaId with
  | None => Panic
  | Some m => Ok (set_AreaSelfOrigLsa (<[areaId := Some (<[lsaKey := valid]> m)]> (AreaSelfOrigLsa s)) s)
  end.
Definition del_self (areaId : Z) (lsaKey : LsaKey) (s : OSPFServer) : OSPFServer :=
  set_AreaSelfOrigLsa (<[areaId := delete lsaKey <$> self_map s areaId]> (AreaSelfOrigLsa s)) s.
(** [selfOrigLsaEnt[lsaKey]] and whether it is there. *)
Definition self_entry (s : OSPFServer) (areaId : Z) (lsaKey : LsaKey) : option bool := self_map s areaId ≫= (fun m => m !! lsaKey).

Definition on_routers (f : gmap LsaKey RouterLsa -> gmap LsaKey RouterLsa) (d : LSDatabase) : LSDatabase :=
  set_RouterLsaMap (f (RouterLsaMap d)) d.
Definition on_networks (f : gmap LsaKey NetworkLsa -> gmap LsaKey NetworkLsa) (d : LSDatabase) : LSDatabase :=
  set_NetworkLsaMap (f (NetworkLsaMap d)) d.
Definition on_summaries3 (f : gmap LsaKey SummaryLsa -> gmap LsaKey SummaryLsa) (d : LSDatabase) : LSDatabase :=
  set_Summary3LsaMap (f (Summary3LsaMap d)) d.
Definition on_summaries4 (f : gmap LsaKey SummaryLsa -> gmap LsaKey SummaryLsa) (d : LSDatabase) : LSDatabase :=
  set_Summary4LsaMap (f (Summary4LsaMap d)) d.
Definition on_externals (f : gmap LsaKey ASExternalLsa -> gmap LsaKey ASExternalLsa) (d : LSDatabase) : LSDatabase :=
  set_ASExternalLsaMap (f (ASExternalLsaMap d)) d.

Definition getRouterLsaFromLsdb (s : OSPFServer) (areaId : Z) (lsaKey : LsaKey) : option RouterLsa :=
  RouterLsaMap (lsdb_of s areaId) !! lsaKey.
Definition getNetworkLsaFromLsdb (s : OSPFServer) (areaId : Z) (lsaKey : LsaKey) : option NetworkLsa :=
  NetworkLsaMap (lsdb_of s areaId) !! lsaKey.
Definition getSummaryLsaFromLsdb (s : OSPFServer) (areaId : Z) (lsaKey : LsaKey) : option SummaryLsa :=
  if negb (area_exists s areaId) then None
  else if LSType lsaKey =? Summary3LSA then Summary3LsaMap (lsdb_of s areaId) !! lsaKey
  else if LSType lsaKey =? Summary4LSA then Summary4LsaMap (lsdb_of s areaId) !! lsaKey
  else None.
Definition getASExternalLsaFromLsdb (s : OSPFServer) (areaId : Z) (lsaKey : LsaKey) : option ASExternalLsa :=
  ASExternalLsaMap (lsdb_of s areaId) !! lsaKey.

Definition lsdb_ent (areaId : Z) (lsaKey : LsaKey) : LsdbSliceEnt :=
  {| le_AreaId := areaId; le_LSType := LSType lsaKey; le_LSId := LSId lsaKey; le_AdvRtr := AdvRouter lsaKey |}.
(** The entry of a new LSA, and what the database of the system is told. *)
Definition slice_entry (areaId : Z) (lsaKey : LsaKey) (s : OSPFServer) : OSPFServer :=
  set_LsdbSlice (LsdbSlice s ++ [lsdb_ent areaId lsaKey]) s.
Definition announce_entry (areaId : Z) (lsaKey : LsaKey) (s : OSPFServer) : OSPFServer :=
  put (DbLsdb true (lsdb_ent areaId lsaKey)) (slice_entry areaId lsaKey s).

(** [sendLsdbToNeighborEvent], with no packet. *)
Definition sendLsdbToNeighborEvent (intfKey : IntfConfKey) (nbrKey : NeighborConfKey) (areaId lsType linkId : Z) (lsaKey : LsaKey)
    (op : LsaOp) (s : OSPFServer) : OSPFServer :=
  put (Flood op intfKey nbrKey areaId lsType linkId lsaKey []) s.
Definition no_intf : IntfConfKey := {| ik_IPAddr := ""; ik_IntfIdx := 0 |}.
Definition no_nbr : NeighborConfKey := {| nk_IPAddr := ""; nk_IntfIdx := 0 |}.

(** [convertAreaOrRouterIdUint32(ip.String())] *)
Definition ip_value (ip : bytes) : go Z := Util.convertAreaOrRouterIdUint32 (ip_String ip).

Section lsdb.
Context {mo : MapOrder} {so : SortImpl}.

Definition initLSDatabase (areaId : Z) (s : OSPFServer) : OSPFServer :=
  let s := match AreaLsdb s !! areaId with
           | Some _ => s
           | None => set_AreaLsdb (<[areaId := Some empty_lsdb]> (AreaLsdb s)) s
           end in
  match AreaSelfOrigLsa s !! areaId with
  | Some _ => s
  | None => set_AreaSelfOrigLsa (<[areaId := Some ∅]> (AreaSelfOrigLsa s)) s
  end.

(** The entries of an area, and of all areas: what the timer of [lsdbStateRefresh] makes of [LsdbSlice]. *)
Definition area_slice (areaId : Z) (d : LSDatabase) : list LsdbSliceEnt :=
  lsdb_ent areaId <$> range (RouterLsaMap d) ++ range (NetworkLsaMap d) ++ range (Summary3LsaMap d) ++
    range (Summary4LsaMap d) ++ range (ASExternalLsaMap d).
Definition lsdbStateRefFunc (s : OSPFServer) : OSPFServer :=
  set_LsdbSlice (range (AreaLsdb s) ≫= (fun areaId => area_slice areaId (lsdb_of s areaId))) s.

Definition StartLSDatabase (s : OSPFServer) : go OSPFServer :=
  s ← for_map (AreaConfMap s) (fun key _ s =>
        areaId ← Util.convertAreaOrRouterIdUint32 key; Ok (initLSDatabase areaId s)) s;
  Ok (set_maxAgeLsaMap ∅ s).

(** ** Summary LSAs of the router *)

Definition stored_summary (s : OSPFServer) (areaId : Z) (lsaKey : LsaKey) : SummaryLsa :=
  default NewSummaryLsa
    (if LSType lsaKey =? Summary3LSA then Summary3LsaMap (lsdb_of s areaId) !! lsaKey
     else if LSType lsaKey =? Summary4LSA then Summary4LsaMap (lsdb_of s areaId) !! lsaKey else None).
Definition compareSummaryLsa (areaId : Z) (lsaKey : LsaKey) (lsaEnt : SummaryLsa) (s : OSPFServer) : bool :=
  let sLsa := stored_summary s areaId lsaKey in
  if negb (S_Netmask sLsa =? S_Netmask lsaEnt) then false
  else if negb (S_Metric sLsa =? S_Metric lsaEnt) then false
  else true.

(** What is stored of a summary LSA, with its sequence number. *)
Definition new_summary (s : OSPFServer) (areaId : Z) (lsaKey : LsaKey) (lsaEnt : SummaryLsa) (seq : Z) : go SummaryLsa :=
  let sLsa := {| S_LsaMd := {| LSAge := 0; Options := Options (S_LsaMd lsaEnt); LSSequenceNum := seq; LSChecksum := 0;
                               LSLen := LSLen (S_LsaMd lsaEnt) |};
                 S_Netmask := S_Netmask lsaEnt; S_Metric := S_Metric lsaEnt;
                 SummaryTOSDetails := SummaryTOSDetails (stored_summary s areaId lsaKey) |} in
  LsaEnc ← encodeSummaryLsa sLsa lsaKey;
  checkSum ← lsa_checksum LsaEnc;
  Ok (set_S_LsaMd (set_LSChecksum checkSum (S_LsaMd sLsa)) sLsa).
Definition store_summary (areaId : Z) (lsaKey : LsaKey) (sLsa : SummaryLsa) (s : OSPFServer) : go OSPFServer :=
  if LSType lsaKey =? Summary3LSA then put_lsdb areaId (on_summaries3 (insert lsaKey sLsa)) s
  else if LSType lsaKey =? Summary4LSA then put_lsdb areaId (on_summaries4 (insert lsaKey sLsa)) s
  else Ok (del_lsdb areaId id s).

Definition updateSummaryLsa (areaId : Z) (lsaKey : LsaKey) (lsaEnt : SummaryLsa) (s : OSPFServer) : go OSPFServer :=
  sLsa ← new_summary s areaId lsaKey lsaEnt (LSSequenceNum (S_LsaMd (stored_summary s areaId lsaKey)) + 1);
  store_summary areaId lsaKey sLsa s.
Definition insertSummaryLsa (areaId : Z) (lsaKey : LsaKey) (lsaEnt : SummaryLsa) (s : OSPFServer) : go OSPFServer :=
  sLsa ← new_summary s areaId lsaKey lsaEnt InitialSequenceNumber;
  s ← store_summary areaId lsaKey sLsa s;
  s ← put_self areaId lsaKey true s;
  Ok (announce_entry areaId lsaKey s).
Definition flushSummaryLsa (areaId : Z) (lsaKey : LsaKey) (s : OSPFServer) : OSPFServer :=
  let s := del_self areaId lsaKey s in
  if LSType lsaKey =? Summary3LSA then del_lsdb areaId (on_summaries3 (delete lsaKey)) s
  else if LSType lsaKey =? Summary4LSA then del_lsdb areaId (on_summaries4 (delete lsaKey)) s
  else del_lsdb areaId id s.

(** One summary LSA of an area: [olds] are the old ones that were not found again. *)
Definition install_summary (areaId : Z) (sKey : LsaKey) (sEnt : SummaryLsa) (st : OSPFServer * gmap LsaKey bool)
  : go (OSPFServer * gmap LsaKey bool) :=
  let '(s, olds) := st in
  if default false (self_entry s areaId sKey) then
    let olds := <[sKey := false]> olds in
    if compareSummaryLsa areaId sKey sEnt s then Ok (s, olds)
    else
      s ← updateSummaryLsa areaId sKey sEnt s;
      Ok (sendLsdbToNeighborEvent no_intf no_nbr areaId 0 0 sKey LSASUMMARYFLOOD s, olds)
  else
    s ← insertSummaryLsa areaId sKey sEnt s;
    Ok (sendLsdbToNeighborEvent no_intf no_nbr areaId 0 0 sKey LSASUMMARYFLOOD s, olds).
Definition self_summaries (s : OSPFServer) (areaId : Z) : gmap LsaKey bool :=
  (fun _ => true) <$> filter (fun e => LSType e.1 = Summary3LSA \/ LSType e.1 = Summary4LSA) (default ∅ (self_map s areaId)).
Definition installSummaryLsa (s : OSPFServer) : go OSPFServer :=
  s ← for_map (SummaryLsDb s) (fun areaId sLsa s =>
    '(s, olds) ← for_map sLsa (install_summary areaId) (s, self_summaries s areaId);
    let s := set_SummaryLsDb (<[areaId := ∅]> (SummaryLsDb s)) s in
    for_map olds (fun sKey (ent : bool) s => Ok (if ent then flushSummaryLsa areaId sKey s else s)) s) s;
  Ok (set_SummaryLsDb ∅ s).

(** ** Network LSAs of the router *)

Definition own_network_key (LSId : Z) (s : OSPFServer) : go LsaKey :=
  adv ← Util.convertIPv4ToUint32 (RouterId s);
  Ok {| LSType := NetworkLSA; OspfLsa.LSId := LSId; AdvRouter := adv |}.

Definition flushNetworkLSA (areaId : Z) (key : IntfConfKey) (s : OSPFServer) : go OSPFServer :=
  let ent := default zero_intf (IntfConfMap s !! key) in
  AreaId ← Util.convertIPv4ToUint32 (IfAreaId ent);
  if negb (areaId =? AreaId) then Ok s
  else if IfFSMState ent <=? Waiting then Ok s
  else
    LSId ← ip_value (IfIpAddr ent);
    lsaKey ← own_network_key LSId s;
    match getNetworkLsaFromLsdb s areaId lsaKey with
    | None => Ok s
    | Some lsa =>
      lsa_pkt ← encodeNetworkLsa (set_N_LsaMd (set_LSAge MaxAge (N_LsaMd lsa)) lsa) lsaKey;
      let s := set_maxAgeLsaMap (<[lsaKey := lsa_pkt]> (maxAgeLsaMap s)) s in
      Ok (del_lsdb areaId (on_networks (delete lsaKey)) (del_self areaId lsaKey s))
    end.

(** The routers that are attached: those of the neighbors, each once, and the router itself. *)
Definition attached (s : OSPFServer) (nbrs : list NeighborConfKey) : list Z :=
  foldl (fun rtrs nbrKey =>
    let id := OspfNbrRtrId (default zero_nbr (NeighborConfigMap s !! nbrKey)) in
    if bool_decide (id ∈ rtrs) then rtrs else rtrs ++ [id]) [] nbrs.

(** The metadata of an LSA that is originated again. *)
Definition next_md (old : option LsaMetadata) (len : Z) : LsaMetadata :=
  {| LSAge := 0; Options := 2; LSSequenceNum := match old with None => InitialSequenceNumber | Some md => LSSequenceNum md + 1 end;
     LSChecksum := 0; LSLen := u16 len |}.

Definition generateNetworkLSA (areaId : Z) (key : IntfConfKey) (isDR : bool) (s : OSPFServer) : go OSPFServer :=
  let ent := default zero_intf (IntfConfMap s !! key) in
  AreaId ← Util.convertIPv4ToUint32 (IfAreaId ent);
  if negb (areaId =? AreaId) then Ok s
  else if IfFSMState ent <=? Waiting then Ok s
  else
    netmask ← Util.convertIPv4ToUint32 (IfNetmask ent);
    selfRtrId ← Util.convertIPv4ToUint32 (RouterId s);
    let attachedRtr := attached s (default [] (ospfIntfToNbrMap s !! key)) ++ [selfRtrId] in
    if len attachedRtr <=? 1 then Ok s
    else
      LSId ← ip_value (IfIpAddr ent);
      lsaKey ← own_network_key LSId s;
      let old := NetworkLsaMap (lsdb_of s areaId) !! lsaKey in
      let entry := {| N_LsaMd := next_md (N_LsaMd <$> old) (OSPF_LSA_HEADER_SIZE + 4 + 4 * len attachedRtr);
                      N_Netmask := netmask; AttachedRtr := attachedRtr |} in
      LsaEnc ← encodeNetworkLsa entry lsaKey;
      checkSum ← lsa_checksum LsaEnc;
      let entry := set_N_LsaMd (set_LSChecksum checkSum (N_LsaMd entry)) entry in
      s ← put_lsdb areaId (on_networks (insert lsaKey entry)) s;
      s ← put_self areaId lsaKey true s;
      Ok (put DbEvent (match old with None => announce_entry areaId lsaKey s | Some _ => s end)).

(** ** The router LSA *)

Definition constructStubLinkP2P (ent : IntfConf) : go LinkDetail :=
  ipAddr ← ip_value (IfIpAddr ent);
  netmask ← Util.convertIPv4ToUint32 (IfNetmask ent);
  Ok {| LinkId := Z.land ipAddr netmask; LinkData := netmask; LinkType := StubLink; NumOfTOS := 0;
        LinkMetric := u16 (IfCost ent); TOSDetails := [] |}.

(** The id of the first neighbor of an interface. *)
Definition first_neighbor (s : OSPFServer) (key : IntfConfKey) : Z :=
  match ospfIntfToNbrMap s !! key with
  | Some (nbrKey :: _) => OspfNbrRtrId (default zero_nbr (NeighborConfigMap s !! nbrKey))
  | _ => 0
  end.

(** The links of an interface of the area. *)
Definition intf_links (s : OSPFServer) (key : IntfConfKey) (ent : IntfConf) : go (list LinkDetail) :=
  let metric := u16 (IfCost ent) in
  let p2p ldata := Ok {| LinkId := first_neighbor s key; LinkData := ldata; LinkType := P2PLink; NumOfTOS := 0;
                         LinkMetric := metric; TOSDetails := [] |} in
  if IfType ent =? Broadcast then
    if decide (NeighborMap ent = ∅) then
      ipAddr ← ip_value (IfIpAddr ent);
      netmask ← Util.convertIPv4ToUint32 (IfNetmask ent);
      Ok [{| LinkId := Z.land ipAddr netmask; LinkData := netmask; LinkType := StubLink; NumOfTOS := 0;
             LinkMetric := metric; TOSDetails := [] |}]
    else
      id ← Util.convertIPv4ToUint32 (IfDRIp ent);
      ldata ← ip_value (IfIpAddr ent);
      Ok [{| LinkId := id; LinkData := ldata; LinkType := TransitLink; NumOfTOS := 0; LinkMetric := metric; TOSDetails := [] |}]
  else if IfType ent =? NumberedP2P then
    stub_link ← constructStubLinkP2P ent;
    if decide (NeighborMap ent = ∅) then Ok [stub_link]
    else ldata ← ip_value (IfIpAddr ent); link ← p2p ldata; Ok [stub_link; link]
  else if IfType ent =? UnnumberedP2P then
    stub_link ← constructStubLinkP2P ent;
    if decide (NeighborMap ent = ∅) then Ok [stub_link]
    else link ← p2p (u32 (ik_IntfIdx key)); Ok [stub_link; link]
  else Ok [{| LinkId := 0; LinkData := 0; LinkType := 0; NumOfTOS := 0; LinkMetric := 0; TOSDetails := [] |}].

(** The loop over the interfaces. *)
Definition router_intf (areaId : Z) (key : IntfConfKey) (ent : IntfConf) (st : OSPFServer * list LinkDetail)
  : go (OSPFServer * list LinkDetail) :=
  let '(s, linkDetails) := st in
  AreaId ← Util.convertIPv4ToUint32 (IfAreaId ent);
  if negb (areaId =? AreaId) then Ok (s, linkDetails)
  else
    let s := put DbEvent s in
    if IfFSMState ent <=? Waiting then Ok (s, linkDetails)
    else links ← intf_links s key ent; Ok (s, linkDetails ++ links).

Definition generateRouterLSA (areaId : Z) (s : OSPFServer) : go OSPFServer :=
  '(s, linkDetails) ← for_map (IntfConfMap s) (router_intf areaId) (s, []);
  rtrId ← Util.convertIPv4ToUint32 (RouterId s);
  let lsaKey := {| LSType := RouterLSA; LSId := rtrId; AdvRouter := rtrId |} in
  if negb (area_exists s areaId) then Ok s
  else if len linkDetails =? 0 then
    Ok (del_lsdb areaId (on_routers (delete lsaKey)) (del_self areaId lsaKey s))
  else
    let old := RouterLsaMap (lsdb_of s areaId) !! lsaKey in
    let ent := {| R_LsaMd := next_md (R_LsaMd <$> old) (OSPF_LSA_HEADER_SIZE + 4 + 12 * len linkDetails);
                  R_BitV := match old with Some l => R_BitV l | None => false end;
                  R_BitE := false; R_BitB := AreaBdrRtrStatus s;
                  NumOfLinks := u16 (len linkDetails); LinkDetails := linkDetails |} in
    LsaEnc ← encodeRouterLsa ent lsaKey;
    checkSum ← lsa_checksum LsaEnc;
    let ent := set_R_LsaMd (set_LSChecksum checkSum (R_LsaMd ent)) ent in
    s ← put_lsdb areaId (on_routers (insert lsaKey ent)) s;
    s ← put_self areaId lsaKey true s;
    Ok (match old with None => announce_entry areaId lsaKey s | Some _ => s end).

(** ** AS external LSAs of the router *)

Record RouteMdata := {
  rm_metric : Z;
  rm_ipaddr : Z;
  rm_mask : Z;
  rm_isDel : bool;
}.

(** One area. The age that is set for a route that was deleted is overwritten at the end. *)
Definition external_in_area (route : RouteMdata) (lsaKey : LsaKey) (areaId : Z) (s : OSPFServer) : go OSPFServer :=
  let old := ASExternalLsaMap (lsdb_of s areaId) !! lsaKey in
  let md := {| LSAge := match old with
                        | None => 0
                        | Some ent => if rm_isDel route then LSA_MAX_AGE else LSAge (E_LsaMd ent)
                        end;
               Options := 32;
               LSSequenceNum := match old with
                                | None => InitialSequenceNumber
                                | Some ent => if rm_isDel route then LSSequenceNum (E_LsaMd ent) else LSSequenceNum (E_LsaMd ent) + 1
                                end;
               LSChecksum := 0; LSLen := OSPF_LSA_HEADER_SIZE + 16 |} in
  fwd ← Util.convertAreaOrRouterIdUint32 "0.0.0.0";
  let ent := {| E_LsaMd := md; E_BitE := true; FwdAddr := fwd; E_Metric := rm_metric route; E_Netmask := rm_mask route;
                ExtRouteTag := 0; ASExtTOSDetails := match old with Some e => ASExtTOSDetails e | None => [] end |} in
  LsaEnc ← encodeASExternalLsa ent lsaKey;
  checkSum ← lsa_checksum LsaEnc;
  let ent := set_E_LsaMd (set_LSAge 0 (set_LSChecksum checkSum md)) ent in
  s ← put_lsdb areaId (on_externals (insert lsaKey ent)) s;
  s ← put_self areaId lsaKey (negb (rm_isDel route)) s;
  Ok (match old with None => announce_entry areaId lsaKey s | Some _ => s end).
Definition generateASExternalLsa (route : RouteMdata) (s : OSPFServer) : go (OSPFServer * LsaKey) :=
  adv ← Util.convertIPv4ToUint32 (RouterId s);
  let lsaKey := {| LSType := ASExternalLSA; LSId := Z.land (rm_ipaddr route) (rm_mask route); AdvRouter := adv |} in
  s ← for_each (external_in_area route lsaKey) (range (AreaLsdb s)) s;
  Ok (s, lsaKey).

Definition updateAsExternalLSA (areaId : Z) (lsaKey : LsaKey) (s : OSPFServer) : go OSPFServer :=
  match ASExternalLsaMap (lsdb_of s areaId) !! lsaKey with
  | None => Ok s
  | Some ent =>
    LsaEnc ← encodeASExternalLsa ent lsaKey;
    checkSum ← lsa_checksum LsaEnc;
    s ← put_lsdb areaId (on_externals (insert lsaKey (set_E_LsaMd (set_LSAge 0 (set_LSChecksum checkSum (E_LsaMd ent))) ent))) s;
    Ok (announce_entry areaId lsaKey s)
  end.

(** ** LSAs that are received *)

Definition processDeleteRouterLsa (data : bytes) (areaId : Z) (s : OSPFServer) : go (OSPFServer * bool) :=
  '(_, lsakey) ← decodeRouterLsa data;
  Ok (del_lsdb areaId (on_routers (delete lsakey)) s, true).
Definition processDeleteNetworkLsa (data : bytes) (areaId : Z) (s : OSPFServer) : go (OSPFServer * bool) :=
  '(_, lsakey) ← decodeNetworkLsa data;
  Ok (del_lsdb areaId (on_networks (delete lsakey)) s, true).
Definition processDeleteSummaryLsa (data : bytes) (areaId lsaType : Z) (s : OSPFServer) : go (OSPFServer * bool) :=
  '(_, lsakey) ← decodeSummaryLsa data;
  let s := if lsaType =? Summary3LSA then del_lsdb areaId (on_summaries3 (delete lsakey)) s
           else if lsaType =? Summary4LSA then del_lsdb areaId (on_summaries4 (delete lsakey)) s
           else del_lsdb areaId id s in
  Ok (put (DelLsdb (lsdb_ent areaId lsakey)) s, true).
Definition processDeleteASExternalLsa (data : bytes) (areaId : Z) (s : OSPFServer) : go (OSPFServer * bool) :=
  '(_, lsakey) ← decodeASExternalLsa data;
  Ok (put (DelLsdb (lsdb_ent areaId lsakey)) (del_lsdb areaId (on_externals (delete lsakey)) s), true).

Definition processRecvdRouterLsa (data : bytes) (areaId : Z) (s : OSPFServer) : go (OSPFServer * bool) :=
  '(routerLsa, lsakey) ← decodeRouterLsa data;
  let exist := bool_decide (is_Some (self_entry s areaId lsakey)) in
  valid ← validateChecksum data;
  if negb valid then Ok (s, false)
  else
    s ← put_lsdb areaId (on_routers (insert lsakey routerLsa)) s;
    Ok (if exist then s else announce_entry areaId lsakey s, true).

(** The instance that is stored is at least as new. *)
Definition is_old (stored : option LsaMetadata) (md : LsaMetadata) : bool :=
  match stored with Some ent => LSSequenceNum ent >=? LSSequenceNum md | None => false end.

Definition processRecvdNetworkLsa (data : bytes) (areaId : Z) (s : OSPFServer) : go (OSPFServer * bool) :=
  '(networkLsa, lsakey) ← decodeNetworkLsa data;
  if bool_decide (is_Some (self_entry s areaId lsakey)) then Ok (s, false)
  else
    valid ← validateChecksum data;
    if negb valid then Ok (s, false)
    else
      let ent := NetworkLsaMap (lsdb_of s areaId) !! lsakey in
      if is_old (N_LsaMd <$> ent) (N_LsaMd networkLsa) then Ok (s, false)
      else
        s ← put_lsdb areaId (on_networks (insert lsakey networkLsa)) s;
        Ok (match ent with None => slice_entry areaId lsakey s | Some _ => s end, true).

(** The entry is announced whether or not the LSA was stored before: what is tested is that the router did not
    originate it. *)
Definition processRecvdSummaryLsa (data : bytes) (areaId lsaType : Z) (s : OSPFServer) : go (OSPFServer * bool) :=
  '(summaryLsa, lsakey) ← decodeSummaryLsa data;
  if bool_decide (is_Some (self_entry s areaId lsakey)) then Ok (s, false)
  else
    valid ← validateChecksum data;
    if negb valid then Ok (s, false)
    else if lsaType =? Summary3LSA then
      if is_old (S_LsaMd <$> (Summary3LsaMap (lsdb_of s areaId) !! lsakey)) (S_LsaMd summaryLsa) then Ok (s, false)
      else s ← put_lsdb areaId (on_summaries3 (insert lsakey summaryLsa)) s; Ok (announce_entry areaId lsakey s, true)
    else if lsaType =? Summary4LSA then
      if is_old (S_LsaMd <$> (Summary4LsaMap (lsdb_of s areaId) !! lsakey)) (S_LsaMd summaryLsa) then Ok (s, false)
      else s ← put_lsdb areaId (on_summaries4 (insert lsakey summaryLsa)) s; Ok (announce_entry areaId lsakey s, true)
    else Ok (s, false).

Definition processRecvdASExternalLsa (data : bytes) (areaId : Z) (s : OSPFServer) : go (OSPFServer * bool) :=
  '(asExtLsa, lsakey) ← decodeASExternalLsa data;
  if bool_decide (is_Some (self_entry s areaId lsakey)) then Ok (s, false)
  else
    valid ← validateChecksum data;
    if negb valid then Ok (s, false)
    else
      let ent := ASExternalLsaMap (lsdb_of s areaId) !! lsakey in
      if is_old (E_LsaMd <$> ent) (E_LsaMd asExtLsa) then Ok (s, false)
      else
        s ← put_lsdb areaId (on_externals (insert lsakey asExtLsa)) s;
        Ok (match ent with None => announce_entry areaId lsakey s | Some _ => s end, true).

Definition processRecvdLsa (data : bytes) (areaId : Z) (s : OSPFServer) : go (OSPFServer * bool) :=
  type ← sget data 3;
  if type =? RouterLSA then processRecvdRouterLsa data areaId s
  else if type =? NetworkLSA then processRecvdNetworkLsa data areaId s
  else if type =? Summary3LSA then processRecvdSummaryLsa data areaId type s
  else if type =? Summary4LSA then processRecvdSummaryLsa data areaId type s
  else if type =? ASExternalLSA then processRecvdASExternalLsa data areaId s
  else Ok (s, false).
Definition processDeleteLsa (data : bytes) (areaId : Z) (s : OSPFServer) : go (OSPFServer * bool) :=
  type ← sget data 3;
  if type =? RouterLSA then processDeleteRouterLsa data areaId s
  else if type =? NetworkLSA then processDeleteNetworkLsa data areaId s
  else if type =? Summary3LSA then processDeleteSummaryLsa data areaId type s
  else if type =? Summary4LSA then processDeleteSummaryLsa data areaId type s
  else if type =? ASExternalLSA then processDeleteASExternalLsa data areaId s
  else Ok (s, false).

(** ** Aging *)

(** An LSA of one of the maps of an area, which [on] reaches: the flag tells whether an LSA was removed. *)
Definition age_lsa {A} (areaId : Z) (on : (gmap LsaKey A -> gmap LsaKey A) -> LSDatabase -> LSDatabase) (md : A -> LsaMetadata)
    (with_md : LsaMetadata -> A -> A) (encode : A -> LsaKey -> go bytes) (lsakey : LsaKey) (lsa : A) (st : OSPFServer * bool)
  : go (OSPFServer * bool) :=
  let '(s, flood_lsa) := st in
  if LSAge (md lsa) =? MaxAge then
    lsa_pkt ← encode lsa lsakey;
    let s := set_maxAgeLsaMap (<[lsakey := lsa_pkt]> (maxAgeLsaMap s)) s in
    Ok (del_lsdb areaId (on (delete lsakey)) s, true)
  else
    s ← put_lsdb areaId (on (insert lsakey (with_md (set_LSAge (u16 (LSAge (md lsa) + 1)) (md lsa)) lsa))) s;
    Ok (s, flood_lsa).
(** The loop over such a map. *)
Definition age_lsas {A} (areaId : Z) (on : (gmap LsaKey A -> gmap LsaKey A) -> LSDatabase -> LSDatabase) (md : A -> LsaMetadata)
    (with_md : LsaMetadata -> A -> A) (encode : A -> LsaKey -> go bytes) (m : gmap LsaKey A) (st : OSPFServer * bool)
  : go (OSPFServer * bool) := for_map m (age_lsa areaId on md with_md encode) st.

Definition processMaxAgeLSA (areaId : Z) (lsdbEnt : LSDatabase) (s : OSPFServer) : go OSPFServer :=
  st ← age_lsas areaId on_routers R_LsaMd set_R_LsaMd encodeRouterLsa (RouterLsaMap lsdbEnt) (s, false);
  st ← age_lsas areaId on_networks N_LsaMd set_N_LsaMd encodeNetworkLsa (NetworkLsaMap lsdbEnt) st;
  st ← age_lsas areaId on_externals E_LsaMd set_E_LsaMd encodeASExternalLsa (ASExternalLsaMap lsdbEnt) st;
  st ← age_lsas areaId on_summaries3 S_LsaMd set_S_LsaMd encodeSummaryLsa (Summary3LsaMap lsdbEnt) st;
  '(s, flood_lsa) ← age_lsas areaId on_summaries4 S_LsaMd set_S_LsaMd encodeSummaryLsa (Summary4LsaMap lsdbEnt) st;
  Ok (if (flood_lsa : bool) then sendLsdbToNeighborEvent no_intf no_nbr 0 0 0 NewLsaKey LSAAGE s else s).
Definition processLSDatabaseTicker (s : OSPFServer) : go OSPFServer :=
  for_map (AreaLsdb s) (fun areaId lsDbEnt s => processMaxAgeLSA areaId (default empty_lsdb lsDbEnt) s) s.

Definition addMaxAgeLsa : Z := 0.
Definition delMaxAgeLsa : Z := 1.
Definition processMaxAgeLsaMsg (lsaKey : LsaKey) (msg_type : Z) (pkt : bytes) (s : OSPFServer) : OSPFServer :=
  if msg_type =? addMaxAgeLsa then set_maxAgeLsaMap (<[lsaKey := pkt]> (maxAgeLsaMap s)) s
  else if msg_type =? delMaxAgeLsa then set_maxAgeLsaMap (delete lsaKey (maxAgeLsaMap s)) s
  else s.

(** ** Refreshing *)

Definition regenerateLsa (areaId : Z) (lsaKey : LsaKey) (s : OSPFServer) : go OSPFServer :=
  if LSType lsaKey =? RouterLSA then generateRouterLSA areaId s
  else if LSType lsaKey =? NetworkLSA then
    let ipAddr := Util.convertUint32ToIPv4 (LSId lsaKey) in
    rtr_id ← Uint32 (RouterId s);
    let intfKey := {| ik_IPAddr := ipAddr; ik_IntfIdx := 0 |} in
    match IntfConfMap s !! intfKey with
    | None => Ok s
    | Some intConf => generateNetworkLSA areaId intfKey (IfDRtrId intConf =? rtr_id) s
    end
  else if LSType lsaKey =? ASExternalLSA then updateAsExternalLSA areaId lsaKey s
  else Ok s.

(** The LSAs of one area. What the loop deletes from the map it ranges over is not visited, what it adds need not be. *)
Definition refresh_area (areaId : Z) (m : gmap LsaKey bool) (floodAsExt : nat) (s : OSPFServer) : go OSPFServer :=
  for_each (fun lsaKey s =>
    match self_entry s areaId lsaKey with
    | Some true =>
      s ← regenerateLsa areaId lsaKey s;
      Ok (if (floodAsExt =? 0)%nat && (LSType lsaKey =? ASExternalLSA)
          then sendLsdbToNeighborEvent no_intf no_nbr 0 0 0 lsaKey LSAEXTFLOOD s else s)
    | _ => Ok s
    end) (range m) s.
Definition lsdbSelfLsaRefresh (s : OSPFServer) : go OSPFServer :=
  '(s, _) ← for_map (AreaSelfOrigLsa s) (fun areaId selfOrigLsaEnt '(s, floodAsExt) =>
    s ← refresh_area areaId (default ∅ selfOrigLsaEnt) floodAsExt s; Ok (s, S floodAsExt)) (s, O);
  s ← GenerateSummaryLsa s;
  for_map (IntfConfMap s) (fun entKey ent s =>
    areaid ← Util.convertIPv4ToUint32 (IfAreaId ent);
    Ok (sendLsdbToNeighborEvent entKey no_nbr areaid 0 0 NewLsaKey LSAFLOOD s)) s.

(** ** The loop that owns the database *)

Definition processExtRouteUpd (msg : RouteMdata) (s : OSPFServer) : go OSPFServer :=
  '(s, lsaKey) ← generateASExternalLsa msg s;
  Ok (if rm_isDel msg then s else sendLsdbToNeighborEvent no_intf no_nbr 0 0 0 lsaKey LSAEXTFLOOD s).

Definition processInterfaceChangeMsg (areaId : Z) (intfKey : IntfConfKey) (s : OSPFServer) : go OSPFServer :=
  let s := put (NeighborIntfEvent intfKey) s in
  rtrId ← Util.convertIPv4ToUint32 (RouterId s);
  Ok (sendLsdbToNeighborEvent intfKey no_nbr areaId 0 0 {| LSType := RouterLSA; LSId := rtrId; AdvRouter := rtrId |} LSAROUTERFLOOD s).

Definition processNeighborFullEvent (areaId : Z) (intf : IntfConfKey) (s : OSPFServer) : go OSPFServer :=
  rtr_id ← Uint32 (RouterId s);
  let intConf := default zero_intf (IntfConfMap s !! intf) in
  s ← (if (IfDRtrId intConf =? rtr_id) && (IfType intConf =? Broadcast) then generateNetworkLSA areaId intf true s else Ok s);
  s ← generateRouterLSA areaId s;
  Ok (sendLsdbToNeighborEvent intf no_nbr areaId 0 0 NewLsaKey LSAFLOOD s).

Definition processDrBdrChangeMsg (areaId : Z) (intfKey : IntfConfKey) (s : OSPFServer) : go OSPFServer :=
  let intf := default zero_intf (IntfConfMap s !! intfKey) in
  s ← (if decide (NeighborMap intf = ∅) then Ok s
       else rtr_id ← Uint32 (RouterId s);
            if IfDRtrId intf =? rtr_id then generateNetworkLSA areaId intfKey true s else Ok s);
  s ← generateRouterLSA areaId s;
  Ok (sendLsdbToNeighborEvent intfKey no_nbr areaId 0 0 NewLsaKey LSAFLOOD s).

(** What the loop selects on. *)
Inductive LsdbEvent :=
  | LsdbUpdateCh (MsgType : Z) (AreaId : Z) (Data : bytes)
  | IntfStateChangeCh (areaId : Z) (intfKey : IntfConfKey)
  | NetworkDRChangeCh (areaId : Z) (intfKey : IntfConfKey)
  | CreateNetworkLSACh (areaId : Z) (intf : IntfConfKey)
  | ExternalRouteNotif (msg : RouteMdata)
  | maxAgeLsaCh (lsaKey : LsaKey) (msg_type : Z) (pkt : bytes)
  | lsdbTickerCh
  | lsdbRefreshTickerCh.

(** After most messages the loop waits for the SPF calculation; a border router then installs its summaries. *)
Definition summarize_if_border (s : OSPFServer) : go OSPFServer := if AreaBdrRtrStatus s then installSummaryLsa s else Ok s.

Definition processLSDatabaseUpdates (ev : LsdbEvent) (s : OSPFServer) : go OSPFServer :=
  match ev with
  | LsdbUpdateCh MsgType AreaId Data =>
    if (MsgType =? LsdbAdd) || (MsgType =? LsdbUpdate) then
      '(s, _) ← processRecvdLsa Data AreaId s; s ← spfCalculation s; summarize_if_border s
    else if MsgType =? LsdbDel then
      '(s, _) ← processDeleteLsa Data AreaId s; s ← spfCalculation s; summarize_if_border s
    else Ok s
  | IntfStateChangeCh areaId intfKey =>
    s ← generateRouterLSA areaId s; s ← spfCalculation s; s ← processInterfaceChangeMsg areaId intfKey s; summarize_if_border s
  | NetworkDRChangeCh areaId intfKey =>
    s ← processDrBdrChangeMsg areaId intfKey s; s ← spfCalculation s; summarize_if_border s
  | CreateNetworkLSACh areaId intf =>
    s ← processNeighborFullEvent areaId intf s; s ← spfCalculation s; summarize_if_border s
  | ExternalRouteNotif msg => processExtRouteUpd msg s
  | maxAgeLsaCh lsaKey msg_type pkt => Ok (processMaxAgeLsaMsg lsaKey msg_type pkt s)
  | lsdbTickerCh => processLSDatabaseTicker s
  | lsdbRefreshTickerCh => lsdbSelfLsaRefresh s
  end.
End lsdb.
