(* ===== verification/OspfLsdbSpec.v ===== *)
(** The link state database in the course of the loop that owns it: the types of its entries, what is kept of an LSA
    that is received, and what is sent of an LSA the router originates. *)
From stdpp Require Import base numbers list gmap strings.
From Stdlib Require Import ZArith Lia.
From S2P Require Import Prelude GoNet OspfUtil OspfLsa OspfLsaFacts OspfState OspfSpf OspfRoute OspfFrame OspfLsdb OspfSpfSpec OspfArea.
Open Scope Z_scope.

(** ** What the decoders return *)

Lemma decode_md_type data md key : decode_md data = Ok (md, key) -> sget (E := Empty_set) data 3 = Ok (LSType key).
Proof.
  unfold decode_md. intros H. repeat (apply bind_Ok_inv in H as (? & ? & H)). by simplify_eq/=.
Qed.

(** Each round of the loop adds an element. *)
Lemma for_upto_grows {X T} (body : nat -> list X * T -> go (list X * T)) n :
  (forall i xs s xs' s', body i (xs, s) = Ok (xs', s') -> length xs' = S (length xs)) ->
  forall i xs s xs' s', for_upto n i body (xs, s) = Ok (xs', s') -> length xs' = (length xs + n)%nat.
Proof.
  intros Hb. induction n as [|n IH]; intros i xs s xs' s'; cbn [for_upto].
  - intros [= -> ->]. lia.
  - intros ([xs1 s1] & H1%Hb & H2%IH)%bind_Ok_inv. lia.
Qed.

Lemma decodeRouterLsa_typed data lsa key : decodeRouterLsa data = Ok (lsa, key) ->
  sget (E := Empty_set) data 3 = Ok (LSType key) /\ NumOfLinks lsa <= len (LinkDetails lsa).
Proof.
  unfold decodeRouterLsa.
  intros ([md k] & Hmd%decode_md_type & (bits & _ & (n & _ & ([links st] & Hl & [= <- <-])%bind_Ok_inv)%bind_Ok_inv)%bind_Ok_inv)%bind_Ok_inv.
  split; [done|]. cbn. apply for_upto_grows in Hl.
  - unfold len. rewrite Hl. cbn. lia.
  - intros i xs s xs' s'. unfold decode_link. intros H. repeat (apply bind_Ok_inv in H as (? & ? & H)).
    case_match. simplify_eq/=. rewrite length_app. cbn. lia.
Qed.
Lemma decodeNetworkLsa_typed data lsa key : decodeNetworkLsa data = Ok (lsa, key) -> sget (E := Empty_set) data 3 = Ok (LSType key).
Proof.
  unfold decodeNetworkLsa. intros ([md k] & Hmd%decode_md_type & (? & _ & H)%bind_Ok_inv)%bind_Ok_inv.
  case_match; [done|]. by apply bind_Ok_inv in H as ([] & _ & [= <- <-]).
Qed.
Lemma decodeSummaryLsa_typed data lsa key : decodeSummaryLsa data = Ok (lsa, key) -> sget (E := Empty_set) data 3 = Ok (LSType key).
Proof.
  unfold decodeSummaryLsa. intros ([md k] & Hmd%decode_md_type & (? & _ & (? & _ & H)%bind_Ok_inv)%bind_Ok_inv)%bind_Ok_inv.
  case_match; [by injection H as <- <-|]. by apply bind_Ok_inv in H as ([] & _ & [= <- <-]).
Qed.
Lemma decodeASExternalLsa_typed data lsa key : decodeASExternalLsa data = Ok (lsa, key) -> sget (E := Empty_set) data 3 = Ok (LSType key).
Proof.
  unfold decodeASExternalLsa. intros ([md k] & Hmd%decode_md_type & H)%bind_Ok_inv.
  repeat (apply bind_Ok_inv in H as (? & _ & H)). case_match; [done|]. by apply bind_Ok_inv in H as ([] & _ & [= <- <-]).
Qed.

(** ** The types of the entries *)

(** Every entry is in the map of its type, and a router LSA announces no more links than it has. *)
Record typed_db (d : LSDatabase) : Prop := {
  typed_routers : map_Forall (fun k l => LSType k = RouterLSA /\ NumOfLinks l <= len (LinkDetails l)) (RouterLsaMap d);
  typed_networks : map_Forall (fun k _ => LSType k = NetworkLSA) (NetworkLsaMap d);
  typed_summaries3 : map_Forall (fun k _ => LSType k = Summary3LSA) (Summary3LsaMap d);
  typed_summaries4 : map_Forall (fun k _ => LSType k = Summary4LSA) (Summary4LsaMap d);
  typed_externals : map_Forall (fun k _ => LSType k = ASExternalLSA) (ASExternalLsaMap d);
}.
Definition lsdb_typed (s : OSPFServer) : Prop := forall areaId d, AreaLsdb s !! areaId = Some (Some d) -> typed_db d.

Create HintDb typed.

Lemma typed_empty : typed_db empty_lsdb.
Proof. split; apply map_Forall_empty. Qed.
Lemma typed_lsdb_of s areaId : lsdb_typed s -> typed_db (lsdb_of s areaId).
Proof. intros H. unfold lsdb_of. destruct (AreaLsdb s !! areaId) as [[d|]|] eqn:E1; [by eapply H | apply typed_empty..]. Qed.

Lemma typed_insert_router d k l : typed_db d -> LSType k = RouterLSA -> NumOfLinks l <= len (LinkDetails l) ->
  typed_db (on_routers (insert k l) d).
Proof. intros [] ? ?. split; try done. by apply map_Forall_insert_2. Qed.
Lemma typed_insert_network d k l : typed_db d -> LSType k = NetworkLSA -> typed_db (on_networks (insert k l) d).
Proof. intros [] ?. split; try done. by apply map_Forall_insert_2. Qed.
Lemma typed_insert_summary3 d k l : typed_db d -> LSType k = Summary3LSA -> typed_db (on_summaries3 (insert k l) d).
Proof. intros [] ?. split; try done. by apply map_Forall_insert_2. Qed.
Lemma typed_insert_summary4 d k l : typed_db d -> LSType k = Summary4LSA -> typed_db (on_summaries4 (insert k l) d).
Proof. intros [] ?. split; try done. by apply map_Forall_insert_2. Qed.
Lemma typed_insert_external d k l : typed_db d -> LSType k = ASExternalLSA -> typed_db (on_externals (insert k l) d).
Proof. intros [] ?. split; try done. by apply map_Forall_insert_2. Qed.
Lemma typed_delete_router d k : typed_db d -> typed_db (on_routers (delete k) d).
Proof. intros []. split; try done. by apply map_Forall_delete. Qed.
Lemma typed_delete_network d k : typed_db d -> typed_db (on_networks (delete k) d).
Proof. intros []. split; try done. by apply map_Forall_delete. Qed.
Lemma typed_delete_summary3 d k : typed_db d -> typed_db (on_summaries3 (delete k) d).
Proof. intros []. split; try done. by apply map_Forall_delete. Qed.
Lemma typed_delete_summary4 d k : typed_db d -> typed_db (on_summaries4 (delete k) d).
Proof. intros []. split; try done. by apply map_Forall_delete. Qed.
Lemma typed_delete_external d k : typed_db d -> typed_db (on_externals (delete k) d).
Proof. intros []. split; try done. by apply map_Forall_delete. Qed.
#[local] Hint Resolve typed_insert_router typed_insert_network typed_insert_summary3 typed_insert_summary4 typed_insert_external
  typed_delete_router typed_delete_network typed_delete_summary3 typed_delete_summary4 typed_delete_external typed_lsdb_of : frame.

Lemma lsdb_typed_ext s s' : AreaLsdb s' = AreaLsdb s -> lsdb_typed s -> lsdb_typed s'.
Proof. unfold lsdb_typed. by intros ->. Qed.
Lemma put_lsdb_typed areaId f s : lsdb_typed s -> (forall d, typed_db d -> typed_db (f d)) -> holds lsdb_typed (put_lsdb areaId f s).
Proof.
  intros Hs Hf. unfold put_lsdb, db_maps. destruct (AreaLsdb s !! areaId) as [[d|]|] eqn:E1; cbn; try done.
  intros a d'. cbn. intros [[<- [= <-]]|[_ H]]%lookup_insert_Some; [by apply Hf, (Hs areaId) | by apply (Hs a)].
Qed.
Lemma del_lsdb_typed areaId f s : lsdb_typed s -> (forall d, typed_db d -> typed_db (f d)) -> lsdb_typed (del_lsdb areaId f s).
Proof.
  intros Hs Hf a d'. unfold del_lsdb, db_maps. cbn. intros [[<- H]|[_ H]]%lookup_insert_Some; [|by apply (Hs a)].
  destruct (AreaLsdb s !! areaId) as [[d|]|] eqn:E1; cbn in H; try done. injection H as <-. by apply Hf, (Hs areaId).
Qed.
Lemma put_self_typed areaId key valid s : lsdb_typed s -> holds lsdb_typed (put_self areaId key valid s).
Proof. intros Hs. unfold put_self. by case_match. Qed.
#[local] Hint Resolve put_lsdb_typed del_lsdb_typed put_self_typed : frame.

Section events.
Context {mo : MapOrder} {so : SortImpl}.

Ltac typed := intros; frame; repeat case_match; eauto with frame.

Lemma put_typed o s : lsdb_typed s -> lsdb_typed (put o s).
Proof. done. Qed.
Lemma send_typed intfKey nbrKey areaId lsType linkId key op s : lsdb_typed s ->
  lsdb_typed (sendLsdbToNeighborEvent intfKey nbrKey areaId lsType linkId key op s).
Proof. done. Qed.
Lemma slice_entry_typed areaId key s : lsdb_typed s -> lsdb_typed (slice_entry areaId key s).
Proof. done. Qed.
Lemma announce_entry_typed areaId key s : lsdb_typed s -> lsdb_typed (announce_entry areaId key s).
Proof. done. Qed.
Lemma del_self_typed areaId key s : lsdb_typed s -> lsdb_typed (del_self areaId key s).
Proof. done. Qed.
Lemma set_maxAgeLsaMap_typed m s : lsdb_typed s -> lsdb_typed (set_maxAgeLsaMap m s).
Proof. done. Qed.
Lemma own_network_key_typed id s : holds (fun k => LSType k = NetworkLSA) (own_network_key id s).
Proof. unfold own_network_key. by apply holds_bind_any. Qed.
#[local] Hint Resolve put_typed send_typed slice_entry_typed announce_entry_typed del_self_typed set_maxAgeLsaMap_typed own_network_key_typed : frame.

Lemma spfCalculation_typed s : lsdb_typed s -> holds lsdb_typed (spfCalculation s).
Proof.
  intros Hs. pose proof (spfCalculation_dbs _ _ s (conj eq_refl eq_refl)) as H. destruct (spfCalculation s); try done.
  destruct H as [H _]. by eapply lsdb_typed_ext.
Qed.
Lemma GenerateSummaryLsa_typed s : lsdb_typed s -> holds lsdb_typed (GenerateSummaryLsa s).
Proof.
  intros Hs. pose proof (GenerateSummaryLsa_dbs _ _ s (conj eq_refl eq_refl)) as H. destruct (GenerateSummaryLsa s); try done.
  destruct H as [H _]. by eapply lsdb_typed_ext.
Qed.
#[local] Hint Resolve spfCalculation_typed GenerateSummaryLsa_typed : frame.

Lemma initLSDatabase_typed areaId s : lsdb_typed s -> lsdb_typed (initLSDatabase areaId s).
Proof.
  intros Hs. assert (H : lsdb_typed (match AreaLsdb s !! areaId with Some _ => s | None => set_AreaLsdb (<[areaId := Some empty_lsdb]> (AreaLsdb s)) s end)).
  { case_match; [done|]. intros a d. cbn. intros [[_ [= <-]]|[_ Ha]]%lookup_insert_Some; [apply typed_empty | by apply (Hs a)]. }
  unfold initLSDatabase. cbv zeta. destruct (AreaSelfOrigLsa _ !! areaId); exact H.
Qed.

(** *** What the router originates *)

Lemma store_summary_typed areaId key l s : lsdb_typed s -> holds lsdb_typed (store_summary areaId key l s).
Proof.
  intros Hs. unfold store_summary. destruct (LSType key =? Summary3LSA) eqn:E3; [|destruct (LSType key =? Summary4LSA) eqn:E4]; zhyp.
  - apply put_lsdb_typed; [done|]. intros. by apply typed_insert_summary3.
  - apply put_lsdb_typed; [done|]. intros. by apply typed_insert_summary4.
  - cbn. apply del_lsdb_typed; auto.
Qed.
#[local] Hint Resolve store_summary_typed : frame.
Lemma flushSummaryLsa_typed areaId key s : lsdb_typed s -> lsdb_typed (flushSummaryLsa areaId key s).
Proof. intros Hs. unfold flushSummaryLsa. repeat case_match; apply del_lsdb_typed; auto with frame. Qed.
Lemma updateSummaryLsa_typed areaId key l s : lsdb_typed s -> holds lsdb_typed (updateSummaryLsa areaId key l s).
Proof. unfold updateSummaryLsa. typed. Qed.
Lemma insertSummaryLsa_typed areaId key l s : lsdb_typed s -> holds lsdb_typed (insertSummaryLsa areaId key l s).
Proof. unfold insertSummaryLsa. typed. Qed.
#[local] Hint Resolve updateSummaryLsa_typed insertSummaryLsa_typed : frame.
Lemma install_summary_typed areaId key l st : lsdb_typed st.1 -> holds (fun st => lsdb_typed st.1) (install_summary areaId key l st).
Proof. destruct st as [s olds]. intros Hs. unfold install_summary. cbn in Hs. typed. Qed.
Lemma installSummaryLsa_typed s : lsdb_typed s -> holds lsdb_typed (installSummaryLsa s).
Proof.
  intros Hs. unfold installSummaryLsa. eapply (holds_bind lsdb_typed); [|done]. apply for_map_holds; [|done].
  intros areaId sLsa s1 _ H1. eapply (holds_bind (fun st => lsdb_typed st.1)).
  - apply for_map_holds; [|done]. intros. by apply install_summary_typed.
  - intros [s2 olds] H2. cbn in H2. cbv zeta. apply for_map_holds; [|done]. intros k [|] s3 _ H3; cbn; [by apply flushSummaryLsa_typed | done].
Qed.

Lemma generateNetworkLSA_typed areaId key isDR s : lsdb_typed s -> holds lsdb_typed (generateNetworkLSA areaId key isDR s).
Proof. intros Hs. unfold generateNetworkLSA. typed. Qed.
Lemma generateRouterLSA_typed areaId s : lsdb_typed s -> holds lsdb_typed (generateRouterLSA areaId s).
Proof.
  intros Hs. unfold generateRouterLSA. eapply (holds_bind (fun st => lsdb_typed st.1)).
  { apply for_map_holds; [|done]. intros key ent [s1 links] _ H1. cbn in H1. unfold router_intf. typed. }
  intros [s1 links] H1. cbn in H1. apply holds_bind_any. intros rtrId. cbv zeta. case_match; [done|]. case_match.
  { apply del_lsdb_typed; auto with frame. }
  apply holds_bind_any. intros enc. apply holds_bind_any. intros cs.
  eapply (holds_bind lsdb_typed); [|typed]. apply put_lsdb_typed; [done|]. intros d Hd. apply typed_insert_router; [done..|].
  cbn. unfold len. pose proof (Z.mod_le (Z.of_nat (length links)) 65536). unfold u16. lia.
Qed.
Lemma external_in_area_typed route key areaId s : LSType key = ASExternalLSA -> lsdb_typed s -> holds lsdb_typed (external_in_area route key areaId s).
Proof. intros Hk Hs. unfold external_in_area. typed. Qed.
Lemma generateASExternalLsa_typed route s : lsdb_typed s -> holds (fun st => lsdb_typed st.1) (generateASExternalLsa route s).
Proof.
  intros Hs. unfold generateASExternalLsa. apply holds_bind_any. intros adv. cbv zeta. eapply (holds_bind lsdb_typed); [|done].
  apply for_each_holds; [|done]. intros areaId s1 H1. by apply external_in_area_typed.
Qed.
Lemma updateAsExternalLSA_typed areaId key s : lsdb_typed s -> holds lsdb_typed (updateAsExternalLSA areaId key s).
Proof.
  intros Hs. unfold updateAsExternalLSA. destruct (_ !! key) as [ent|] eqn:E1; [|done].
  pose proof (typed_externals _ (typed_lsdb_of s areaId Hs) key ent E1) as Hk. cbn in Hk. typed.
Qed.
#[local] Hint Resolve generateNetworkLSA_typed generateRouterLSA_typed generateASExternalLsa_typed updateAsExternalLSA_typed : frame.

(** *** What it receives *)

Lemma processDeleteLsa_typed data areaId s : lsdb_typed s -> holds (fun st => lsdb_typed st.1) (processDeleteLsa data areaId s).
Proof.
  intros Hs. unfold processDeleteLsa, processDeleteRouterLsa, processDeleteNetworkLsa, processDeleteSummaryLsa, processDeleteASExternalLsa.
  typed.
Qed.

Lemma holds_result {E A} (o : outcome E A) : holds (fun a => o = Ok a) o.
Proof. by destruct o. Qed.

Lemma processRecvdLsa_typed data areaId s : lsdb_typed s -> holds (fun st => lsdb_typed st.1) (processRecvdLsa data areaId s).
Proof.
  intros Hs. unfold processRecvdLsa. eapply holds_bind; [apply holds_result|]. intros type Ht. cbn beta in Ht.
  repeat case_match; zhyp; try done; subst type.
  - unfold processRecvdRouterLsa. eapply holds_bind; [apply holds_result|]. intros [lsa key] [Hk Hn]%decodeRouterLsa_typed. rewrite Ht in Hk. injection Hk as Hk. symmetry in Hk. cbn iota. typed.
  - unfold processRecvdNetworkLsa. eapply holds_bind; [apply holds_result|]. intros [lsa key] Hk%decodeNetworkLsa_typed. rewrite Ht in Hk. injection Hk as Hk. symmetry in Hk. cbn iota. typed.
  - unfold processRecvdSummaryLsa. change (Summary3LSA =? Summary3LSA) with true. eapply holds_bind; [apply holds_result|]. intros [lsa key] Hk%decodeSummaryLsa_typed. rewrite Ht in Hk. injection Hk as Hk. symmetry in Hk. cbn iota. typed.
  - unfold processRecvdSummaryLsa. change (Summary4LSA =? Summary3LSA) with false. change (Summary4LSA =? Summary4LSA) with true. eapply holds_bind; [apply holds_result|]. intros [lsa key] Hk%decodeSummaryLsa_typed. rewrite Ht in Hk. injection Hk as Hk. symmetry in Hk. cbn iota. typed.
  - unfold processRecvdASExternalLsa. eapply holds_bind; [apply holds_result|]. intros [lsa key] Hk%decodeASExternalLsa_typed. rewrite Ht in Hk. injection Hk as Hk. symmetry in Hk. cbn iota. typed.
Qed.
#[local] Hint Resolve processDeleteLsa_typed processRecvdLsa_typed : frame.

(** *** Aging and refreshing *)

Lemma age_lsas_typed {A} areaId on (md : A -> LsaMetadata) with_md encode (good : LsaKey -> A -> Prop) m st :
  (forall k l d, typed_db d -> good k l -> typed_db (on (insert k l) d)) -> (forall k d, typed_db d -> typed_db (on (delete k) d)) ->
  (forall k l x, good k l -> good k (with_md x l)) -> map_Forall good m -> lsdb_typed st.1 ->
  holds (fun st => lsdb_typed st.1) (age_lsas areaId on md with_md encode m st).
Proof.
  intros Hi Hd Hw Hm Hs. unfold age_lsas. apply for_map_holds; [|done]. intros k l [s flood] Hk H1. cbn in H1. unfold age_lsa.
  case_match; [apply holds_bind_any; intros; cbn; by apply del_lsdb_typed; [|auto]|].
  eapply (holds_bind lsdb_typed); [|done]. apply put_lsdb_typed; [done|]. intros d Hdb. apply Hi; [done|]. by apply Hw, Hm.
Qed.

Lemma processMaxAgeLSA_typed areaId d s : typed_db d -> lsdb_typed s -> holds lsdb_typed (processMaxAgeLSA areaId d s).
Proof.
  intros [Hr Hn H3 H4 He] Hs. unfold processMaxAgeLSA.
  eapply holds_bind; [apply (age_lsas_typed _ _ _ _ _ (fun k l => LSType k = RouterLSA /\ NumOfLinks l <= len (LinkDetails l)));
    try done; [intros k l d' ? []|intros]; auto with frame|]. intros s1 H1.
  eapply holds_bind; [apply (age_lsas_typed _ _ _ _ _ (fun k _ => LSType k = NetworkLSA)); try done; intros; auto with frame|]. intros s2 H2.
  eapply holds_bind; [apply (age_lsas_typed _ _ _ _ _ (fun k _ => LSType k = ASExternalLSA)); try done; intros; auto with frame|]. intros s5 H5.
  eapply holds_bind; [apply (age_lsas_typed _ _ _ _ _ (fun k _ => LSType k = Summary3LSA)); try done; intros; auto with frame|]. intros s6 H6.
  eapply holds_bind; [apply (age_lsas_typed _ _ _ _ _ (fun k _ => LSType k = Summary4LSA)); try done; intros; auto with frame|]. intros [s7 [|]] H7; done.
Qed.
Lemma processLSDatabaseTicker_typed s : lsdb_typed s -> holds lsdb_typed (processLSDatabaseTicker s).
Proof.
  intros Hs. apply for_map_holds; [|done]. intros areaId [d|] s1 Hd H1; (apply processMaxAgeLSA_typed; [|done]).
  - by apply (Hs areaId).
  - apply typed_empty.
Qed.

Lemma regenerateLsa_typed areaId key s : lsdb_typed s -> holds lsdb_typed (regenerateLsa areaId key s).
Proof. unfold regenerateLsa. typed. Qed.
#[local] Hint Resolve regenerateLsa_typed processLSDatabaseTicker_typed installSummaryLsa_typed : frame.
Lemma lsdbSelfLsaRefresh_typed s : lsdb_typed s -> holds lsdb_typed (lsdbSelfLsaRefresh s).
Proof.
  intros Hs. unfold lsdbSelfLsaRefresh. eapply (holds_bind (fun st => lsdb_typed st.1)).
  - apply for_map_holds; [|done]. intros areaId m [s1 n] _ H1. eapply (holds_bind lsdb_typed); [|done].
    apply for_each_holds; [|done]. intros key s2 H2. typed.
  - intros [s1 n] H1. cbn in H1. eapply (holds_bind lsdb_typed); [by apply GenerateSummaryLsa_typed|]. intros s2 H2.
    apply for_map_holds; [|done]. typed.
Qed.
#[local] Hint Resolve lsdbSelfLsaRefresh_typed : frame.

#[local] Hint Resolve lsdbSelfLsaRefresh_typed : frame.

Lemma processDrBdrChangeMsg_typed areaId key s : lsdb_typed s -> holds lsdb_typed (processDrBdrChangeMsg areaId key s).
Proof.
  intros Hs. unfold processDrBdrChangeMsg. cbv zeta. eapply (holds_bind lsdb_typed); typed.
Qed.
Lemma processNeighborFullEvent_typed areaId key s : lsdb_typed s -> holds lsdb_typed (processNeighborFullEvent areaId key s).
Proof.
  intros Hs. unfold processNeighborFullEvent. apply holds_bind_any. intros rtr_id. cbv zeta. eapply (holds_bind lsdb_typed); typed.
Qed.
Lemma processInterfaceChangeMsg_typed areaId key s : lsdb_typed s -> holds lsdb_typed (processInterfaceChangeMsg areaId key s).
Proof. unfold processInterfaceChangeMsg. typed. Qed.
Lemma processExtRouteUpd_typed msg s : lsdb_typed s -> holds lsdb_typed (processExtRouteUpd msg s).
Proof. unfold processExtRouteUpd. typed. Qed.
Lemma summarize_if_border_typed s : lsdb_typed s -> holds lsdb_typed (summarize_if_border s).
Proof. unfold summarize_if_border. typed. Qed.
#[local] Hint Resolve processDrBdrChangeMsg_typed processNeighborFullEvent_typed processInterfaceChangeMsg_typed processExtRouteUpd_typed
  summarize_if_border_typed : frame.

Lemma event_typed ev s : lsdb_typed s -> holds lsdb_typed (processLSDatabaseUpdates ev s).
Proof. intros Hs. destruct ev; cbn [processLSDatabaseUpdates]; unfold processMaxAgeLsaMsg; typed. Qed.

Lemma StartLSDatabase_typed s : lsdb_typed s -> holds lsdb_typed (StartLSDatabase s).
Proof.
  intros Hs. unfold StartLSDatabase. eapply (holds_bind lsdb_typed); [|done]. apply for_map_holds; [|done]. intros key conf s1 _ H1.
  apply holds_bind_any. intros areaId. cbn. by apply initLSDatabase_typed.
Qed.
End events.

(** A message of the loop, the creation of an area, the timer that refreshes the slice; or a change of the rest of
    the state by another goroutine. Maps are visited, and slices sorted, in an order of its own in every step. *)
Inductive lsdb_step : OSPFServer -> OSPFServer -> Prop :=
  | step_event (mo : MapOrder) (so : SortImpl) ev s s' : processLSDatabaseUpdates ev s = Ok s' -> lsdb_step s s'
  | step_area areaId s : lsdb_step s (initLSDatabase areaId s)
  | step_slice (mo : MapOrder) s : lsdb_step s (lsdbStateRefFunc s)
  | step_other s s' : AreaLsdb s' = AreaLsdb s -> lsdb_step s s'.

Lemma lsdb_step_typed s s' : lsdb_step s s' -> lsdb_typed s -> lsdb_typed s'.
Proof.
  intros [mo so ev a b He|areaId a|mo a|a b He] Ha.
  - exact (holds_Ok _ _ _ (event_typed ev a Ha) He).
  - by apply initLSDatabase_typed.
  - done.
  - by eapply lsdb_typed_ext.
Qed.

Lemma first_link_total links network netmask n : forall i, Z.of_nat i + Z.of_nat n <= len links ->
  exists b, first_link links n i network netmask = Ok b.
Proof.
  induction n as [|n IH]; intros i Hi; cbn [first_link]; [by exists false|]. unfold nth_go.
  destruct (lookup_lt_is_Some_2 links i) as [l ->]; [unfold len in Hi; lia|]. rewrite bind_Ok.
  repeat case_match; eauto; apply IH; lia.
Qed.
Lemma check_total s areaId rtrId network netmask : lsdb_typed s ->
  exists b, checkRouterLsaConsistency s areaId rtrId network netmask = Ok b.
Proof.
  intros Hs. unfold checkRouterLsaConsistency. case_match; [by eexists|]. case_match eqn:E1; [|by eexists].
  apply (typed_routers _ (typed_lsdb_of s areaId Hs)) in E1 as [_ Hn]. apply first_link_total.
  pose proof (len_nonneg (LinkDetails r)). lia.
Qed.

(** C13: whatever sequence of received LSAs, deletions, interface and neighbor events, external routes, ticks and refreshes
    the database goes through after it was started, and in whatever order each of them visits the maps, every LSA is in the map of its type, and a router LSA has the
    links it announces: so the consistency check of the SPF calculation never reads outside of them. *)
Theorem lsdb_stays_typed {mo : MapOrder} s0 s1 s : AreaLsdb s0 = ∅ -> StartLSDatabase s0 = Ok s1 -> rtc lsdb_step s1 s ->
  lsdb_typed s /\ forall areaId rtrId network netmask, exists b, checkRouterLsaConsistency s areaId rtrId network netmask = Ok b.
Proof.
  intros H0 H1 Hr. assert (Hs : lsdb_typed s).
  { assert (Ht : lsdb_typed s1).
    { apply (holds_Ok _ _ _ (StartLSDatabase_typed s0 ltac:(intros a d; by rewrite H0)) H1). }
    clear H1. induction Hr as [|a b c Hab _ IH]; [done|]. by apply IH, (lsdb_step_typed a). }
  split; [done|]. intros. by apply check_total.
Qed.

(** ** What is received *)

Inductive lsa :=
  | LRouter (l : RouterLsa)
  | LNetwork (l : NetworkLsa)
  | LSummary (l : SummaryLsa)
  | LExternal (l : ASExternalLsa).
Definition lsa_md (l : lsa) : LsaMetadata :=
  match l with LRouter l => R_LsaMd l | LNetwork l => N_LsaMd l | LSummary l => S_LsaMd l | LExternal l => E_LsaMd l end.

(** An LSA of any type: read from bytes, looked up, stored. *)
Definition decode_lsa (data : bytes) : go (lsa * LsaKey) :=
  type ← sget data 3;
  if type =? RouterLSA then '(l, k) ← decodeRouterLsa data; Ok (LRouter l, k)
  else if type =? NetworkLSA then '(l, k) ← decodeNetworkLsa data; Ok (LNetwork l, k)
  else if (type =? Summary3LSA) || (type =? Summary4LSA) then '(l, k) ← decodeSummaryLsa data; Ok (LSummary l, k)
  else if type =? ASExternalLSA then '(l, k) ← decodeASExternalLsa data; Ok (LExternal l, k)
  else Panic.
Definition lookup_lsa (d : LSDatabase) (k : LsaKey) : option lsa :=
  if LSType k =? RouterLSA then LRouter <$> RouterLsaMap d !! k
  else if LSType k =? NetworkLSA then LNetwork <$> NetworkLsaMap d !! k
  else if LSType k =? Summary3LSA then LSummary <$> Summary3LsaMap d !! k
  else if LSType k =? Summary4LSA then LSummary <$> Summary4LsaMap d !! k
  else if LSType k =? ASExternalLSA then LExternal <$> ASExternalLsaMap d !! k
  else None.
Definition store_lsa (k : LsaKey) (l : lsa) (d : LSDatabase) : LSDatabase :=
  match l with
  | LRouter l => on_routers (insert k l) d
  | LNetwork l => on_networks (insert k l) d
  | LSummary l => if LSType k =? Summary3LSA then on_summaries3 (insert k l) d else on_summaries4 (insert k l) d
  | LExternal l => on_externals (insert k l) d
  end.

(** The router did not originate it, and it is newer than the one that is stored, if any. *)
Definition is_new (s : OSPFServer) (areaId : Z) (d : LSDatabase) (k : LsaKey) (l : lsa) : bool :=
  bool_decide (self_entry s areaId k = None) &&
  match lookup_lsa d k with Some old => LSSequenceNum (lsa_md old) <? LSSequenceNum (lsa_md l) | None => true end.

(** The decoder that was used, and the type it was used for. *)
Definition decoded_as (data : bytes) (l : lsa) (k : LsaKey) : Prop :=
  match l with
  | LRouter l => LSType k = RouterLSA /\ decodeRouterLsa data = Ok (l, k)
  | LNetwork l => LSType k = NetworkLSA /\ decodeNetworkLsa data = Ok (l, k)
  | LSummary l => (LSType k = Summary3LSA \/ LSType k = Summary4LSA) /\ decodeSummaryLsa data = Ok (l, k)
  | LExternal l => LSType k = ASExternalLSA /\ decodeASExternalLsa data = Ok (l, k)
  end.
Lemma decode_lsa_cases data l k : decode_lsa data = Ok (l, k) ->
  sget (E := Empty_set) data 3 = Ok (LSType k) /\ decoded_as data l k.
Proof.
  unfold decode_lsa. intros (type & Ht & H)%bind_Ok_inv. destruct (type =? RouterLSA) eqn:T1; zhyp.
  { apply bind_Ok_inv in H as ([l' k'] & H & [= <- <-]). pose proof (decodeRouterLsa_typed _ _ _ H) as [Hk _]. rewrite Ht in Hk. injection Hk as Hk. cbn [decoded_as]. by rewrite <- Hk. }
  destruct (type =? NetworkLSA) eqn:T2; zhyp.
  { apply bind_Ok_inv in H as ([l' k'] & H & [= <- <-]). pose proof (decodeNetworkLsa_typed _ _ _ H) as Hk. rewrite Ht in Hk. injection Hk as Hk. cbn [decoded_as]. by rewrite <- Hk. }
  destruct ((type =? Summary3LSA) || (type =? Summary4LSA)) eqn:T3; zhyp.
  { apply bind_Ok_inv in H as ([l' k'] & H & [= <- <-]). pose proof (decodeSummaryLsa_typed _ _ _ H) as Hk.
    rewrite Ht in Hk. injection Hk as Hk. cbn [decoded_as]. rewrite <- Hk. split; [done|]. split; [|done]. apply orb_true_iff in T3 as [T3|T3]; zhyp; auto. }
  destruct (type =? ASExternalLSA) eqn:T4; zhyp; [|done].
  apply bind_Ok_inv in H as ([l' k'] & H & [= <- <-]). pose proof (decodeASExternalLsa_typed _ _ _ H) as Hk. rewrite Ht in Hk. injection Hk as Hk. cbn [decoded_as]. by rewrite <- Hk.
Qed.

(** Look up in the map of the type that is known. *)
Ltac by_type Hk := unfold lookup_lsa, store_lsa; rewrite ?Hk; cbn -[lookup].

Lemma stored_lookup data l k d : decode_lsa data = Ok (l, k) -> lookup_lsa (store_lsa k l d) k = Some l.
Proof.
  intros [_ H]%decode_lsa_cases. destruct l; cbn in H; destruct H as [Hk _]; [| |destruct Hk as [Hk|Hk]|]; by_type Hk;
    by rewrite lookup_insert_eq.
Qed.
Lemma stored_other data l k d k' : decode_lsa data = Ok (l, k) -> k' <> k -> lookup_lsa (store_lsa k l d) k' = lookup_lsa d k'.
Proof.
  intros _ Hne. unfold lookup_lsa, store_lsa.
  destruct l; repeat case_match; try done; cbn -[lookup]; by rewrite lookup_insert_ne.
Qed.

Lemma is_old_new {A} (w : A -> lsa) (f : A -> LsaMetadata) (o : option A) md : (forall a, lsa_md (w a) = f a) ->
  is_old (f <$> o) md = negb (match w <$> o with Some e => LSSequenceNum (lsa_md e) <? LSSequenceNum md | None => true end).
Proof. intros Hw. destruct o as [e|]; [|done]. cbn. rewrite Hw. by rewrite Z.geb_leb, Z.ltb_antisym, negb_involutive. Qed.

Lemma self_unknown s areaId k : bool_decide (is_Some (self_entry s areaId k)) = negb (bool_decide (self_entry s areaId k = None)).
Proof. destruct (self_entry s areaId k); [by rewrite bool_decide_true, bool_decide_false by (done || by eexists) | by rewrite bool_decide_false, bool_decide_true by (done || by intros [])]. Qed.

(** The handler of each type. *)
Lemma recvd_dispatch data areaId s k : sget (E := Empty_set) data 3 = Ok (LSType k) ->
  (LSType k = RouterLSA -> processRecvdLsa data areaId s = processRecvdRouterLsa data areaId s) /\
  (LSType k = NetworkLSA -> processRecvdLsa data areaId s = processRecvdNetworkLsa data areaId s) /\
  (LSType k = Summary3LSA -> processRecvdLsa data areaId s = processRecvdSummaryLsa data areaId Summary3LSA s) /\
  (LSType k = Summary4LSA -> processRecvdLsa data areaId s = processRecvdSummaryLsa data areaId Summary4LSA s) /\
  (LSType k = ASExternalLSA -> processRecvdLsa data areaId s = processRecvdASExternalLsa data areaId s).
Proof. intros Ht. unfold processRecvdLsa. rewrite Ht, bind_Ok. by repeat split; intros ->. Qed.

(** Storing, with the entry of the slice or without. *)
Definition stored_as (s s' : OSPFServer) (areaId : Z) (d : LSDatabase) : Prop :=
  AreaLsdb s' = <[areaId := Some d]> (AreaLsdb s) /\ AreaSelfOrigLsa s' = AreaSelfOrigLsa s.

Section received.
Variables (data : bytes) (areaId : Z) (s : OSPFServer) (d : LSDatabase) (valid : bool).
Hypothesis Hv : validateChecksum data = Ok valid.
Hypothesis Hm : db_maps s areaId = Some d.

Lemma db_read : lsdb_of s areaId = d.
Proof. unfold lsdb_of. unfold db_maps in Hm. by rewrite Hm. Qed.

Lemma recvd_router l k : decodeRouterLsa data = Ok (l, k) -> exists s',
  processRecvdRouterLsa data areaId s = Ok (s', valid) /\ if valid then stored_as s s' areaId (on_routers (insert k l) d) else s' = s.
Proof.
  intros Hd. unfold processRecvdRouterLsa, put_lsdb. rewrite Hd, bind_Ok, Hv, bind_Ok, Hm. destruct valid; [|by eexists].
  eexists. split; [reflexivity|]. by case_match.
Qed.

(** The handlers of the other types share these steps. *)
Ltac recvd Hd w f :=
  cbv zeta; unfold put_lsdb; rewrite Hd, bind_Ok, self_unknown, Hv, db_read, Hm;
  destruct (bool_decide (self_entry s areaId _ = None)); [|by rewrite andb_false_r; eexists];
  cbn [negb andb]; rewrite bind_Ok; destruct valid; [|by eexists]; cbn [negb andb];
  rewrite ?(is_old_new w f) by done.

Lemma recvd_network l k : decodeNetworkLsa data = Ok (l, k) -> LSType k = NetworkLSA -> exists s',
  let accepted := valid && is_new s areaId d k (LNetwork l) in
  processRecvdNetworkLsa data areaId s = Ok (s', accepted) /\
  if accepted then stored_as s s' areaId (on_networks (insert k l) d) else s' = s.
Proof.
  intros Hd Hk. assert (El : lookup_lsa d k = LNetwork <$> NetworkLsaMap d !! k) by (unfold lookup_lsa; by rewrite Hk).
  unfold processRecvdNetworkLsa, is_new. rewrite El. recvd Hd LNetwork N_LsaMd. cbn [lsa_md]. destruct (match _ with Some _ => _ | None => true end); [|by eexists].
  eexists. split; [reflexivity|]. by case_match.
Qed.
Lemma recvd_external l k : decodeASExternalLsa data = Ok (l, k) -> LSType k = ASExternalLSA -> exists s',
  let accepted := valid && is_new s areaId d k (LExternal l) in
  processRecvdASExternalLsa data areaId s = Ok (s', accepted) /\
  if accepted then stored_as s s' areaId (on_externals (insert k l) d) else s' = s.
Proof.
  intros Hd Hk. assert (El : lookup_lsa d k = LExternal <$> ASExternalLsaMap d !! k) by (unfold lookup_lsa; by rewrite Hk).
  unfold processRecvdASExternalLsa, is_new. rewrite El. recvd Hd LExternal E_LsaMd. cbn [lsa_md]. destruct (match _ with Some _ => _ | None => true end); [|by eexists].
  eexists. split; [reflexivity|]. by case_match.
Qed.
Lemma recvd_summary type l k : decodeSummaryLsa data = Ok (l, k) -> LSType k = type -> type = Summary3LSA \/ type = Summary4LSA -> exists s',
  let accepted := valid && is_new s areaId d k (LSummary l) in
  processRecvdSummaryLsa data areaId type s = Ok (s', accepted) /\
  if accepted then stored_as s s' areaId (store_lsa k (LSummary l) d) else s' = s.
Proof.
  intros Hd Hk Ht.
  assert (El : lookup_lsa d k = LSummary <$> (if type =? Summary3LSA then Summary3LsaMap d else Summary4LsaMap d) !! k)
    by (unfold lookup_lsa; rewrite Hk; by destruct Ht as [->| ->]).
  unfold store_lsa, processRecvdSummaryLsa, is_new. rewrite El, Hk.
  destruct Ht as [->| ->]; cbn [Z.eqb Pos.eqb Summary3LSA Summary4LSA]; recvd Hd LSummary S_LsaMd; cbn [lsa_md]; (destruct (match _ with Some _ => _ | None => true end); [|by eexists]); eexists; by split.
Qed.
End received.

(** C12: what processRecvdLsa does with an LSA that is received, in an area that has a database, when the LSA is
    decoded and its checksum computed without a panic. An LSA with a valid checksum that is newer than what is stored
    ([is_new]) and not recorded among those the router originated in the area (AreaSelfOrigLsa, by its key; the
    advertising router is not looked at) replaces what is stored and changes nothing else in the databases; any other
    is refused and changes nothing. Router LSAs are stored whenever their checksum is valid, old or the router's own.
    What the loop does after this call, on a border router the calculation of routes and new summary LSAs, is not part
    of the statement. *)
Theorem received_lsa data areaId s d l k valid : decode_lsa data = Ok (l, k) -> validateChecksum data = Ok valid -> db_maps s areaId = Some d ->
  let accepted := valid && ((LSType k =? RouterLSA) || is_new s areaId d k l) in
  exists s', processRecvdLsa data areaId s = Ok (s', accepted) /\
    (if accepted then AreaLsdb s' = <[areaId := Some (store_lsa k l d)]> (AreaLsdb s) /\ AreaSelfOrigLsa s' = AreaSelfOrigLsa s /\
       lookup_lsa (store_lsa k l d) k = Some l /\ forall k', k' <> k -> lookup_lsa (store_lsa k l d) k' = lookup_lsa d k'
     else s' = s).
Proof.
  intros Hd Hv Hm accepted. pose proof (stored_lookup data l k d Hd) as Hl. pose proof (fun k' => stored_other data l k d k' Hd) as Ho.
  apply decode_lsa_cases in Hd as [Ht Hd]. destruct (recvd_dispatch data areaId s k Ht) as (D1 & D2 & D3 & D4 & D5).
  assert (H : exists s', processRecvdLsa data areaId s = Ok (s', accepted) /\
                if accepted then stored_as s s' areaId (store_lsa k l d) else s' = s).
  { destruct l as [l|l|l|l]; destruct Hd as [Hk Hd]; unfold accepted.
    - rewrite (D1 Hk), Hk, andb_true_r. by apply recvd_router.
    - rewrite (D2 Hk), Hk. by apply recvd_network.
    - destruct Hk as [Hk|Hk]; [rewrite (D3 Hk) | rewrite (D4 Hk)]; rewrite Hk; apply recvd_summary; auto.
    - rewrite (D5 Hk), Hk. by apply recvd_external. }
  destruct H as (s' & Hr & H). exists s'. split; [done|]. destruct accepted; [|done]. destruct H. auto.
Qed.

(** ** A router with two interfaces

    One on a network without neighbors, one to the router 0.0.0.2. *)
Definition some_intf (type : Z) (ip : bytes) (nbrs : gmap NeighborConfKey NeighborData) : IntfConf :=
  {| IfAreaId := [0; 0; 0; 0]; IfType := type; NeighborMap := nbrs; IfDRIp := [0; 0; 0; 0]; IfFSMState := 5; IfDRtrId := 1; IfIpAddr := ip;
     IfNetmask := [255; 255; 255; 0]; IfCost := 10; IfRtrPriority := 1; IfHelloInterval := 10; IfRtrDeadInterval := 40;
     IfAuthKey := replicate 8 0; IfAuthType := 0; IfBDRIp := [0; 0; 0; 0]; IfBDRtrId := 0; IfEvents := 2; HelloIntervalTicker := true;
     WaitTimer := Some false; IfMacAddr := [2; 0; 0; 0; 0; 1] |}.
Definition intf1 : IntfConfKey := {| ik_IPAddr := "10.0.0.1"; ik_IntfIdx := 1 |}.
Definition intf2 : IntfConfKey := {| ik_IPAddr := "10.0.1.1"; ik_IntfIdx := 2 |}.
Definition nbr2 : NeighborConfKey := {| nk_IPAddr := "10.0.1.2"; nk_IntfIdx := 2 |}.
Definition nbr2_data : NeighborData :=
  {| TwoWayStatus := true; RtrPrio := 1; DRtr := []; BDRtr := []; nd_NbrIP := 167772418; FullState := true |}.
Definition branch : OSPFServer :=
  {| AreaLsdb := ∅; AreaSelfOrigLsa := ∅; LsdbSlice := []; maxAgeLsaMap := ∅; RouterId := [0; 0; 0; 1]; AreaBdrRtrStatus := false;
     AreaConfMap := {[ "0.0.0.0" := {| ImportAsExtern := 1; StubDefaultCost := 20; TransitCapability := false;
                                       IntfListMap := {[ intf1 := true; intf2 := true ]} |} ]};
     IntfConfMap := {[ intf1 := some_intf Broadcast [10; 0; 0; 1] ∅; intf2 := some_intf NumberedP2P [10; 0; 1; 1] {[ nbr2 := nbr2_data ]} ]};
     NeighborConfigMap := {[ nbr2 := {| OspfNbrRtrId := 2; OspfNbrIPAddr := [10; 0; 1; 2]; nb_intfConfKey := intf2; OspfNbrState := NbrFull |} ]};
     ospfIntfToNbrMap := {[ intf2 := [nbr2] ]}; ipPropertyMap := ∅; ribdClientHdl := true;
     AreaGraph := ∅; AreaStubs := ∅; SPFTree := ∅; TempAreaRoutingTbl := ∅; GlobalRoutingTbl := ∅;
     OldGlobalRoutingTbl := ∅; TempGlobalRoutingTbl := ∅; SummaryLsDb := ∅; Version := 2; IPToMAC := ∅; out := [] |}.
Definition started (s : OSPFServer) : OSPFServer := initLSDatabase 0 s.


(** An interface of the router comes up, the LSA is refreshed, and a second goes by. *)
Definition some_events : list LsdbEvent := [IntfStateChangeCh 0 intf1; lsdbRefreshTickerCh; lsdbTickerCh].
Definition run_events (mo : MapOrder) (so : SortImpl) (evs : list LsdbEvent) (s : OSPFServer) : go OSPFServer :=
  for_each (fun ev s => processLSDatabaseUpdates ev s) evs s.
Lemma run_events_steps (mo : MapOrder) (so : SortImpl) evs : forall s s', run_events mo so evs s = Ok s' -> rtc lsdb_step s s'.
Proof.
  induction evs as [|ev evs IH]; intros s s'; unfold run_events; cbn [for_each]; [by intros [= ->]|].
  intros (s1 & H1 & H2)%bind_Ok_inv. eapply rtc_l; [by apply (step_event mo so ev) | by apply IH].
Qed.

Lemma lsdb_stays_typed_witness : exists s1 s2, @StartLSDatabase by_keys branch = Ok s1 /\ run_events by_keys insertion some_events s1 = Ok s2 /\
  (size (RouterLsaMap (lsdb_of s2 0)) = 1)%nat /\ lsdb_typed s2.
Proof.
  destruct (@StartLSDatabase by_keys branch) as [s1| | |] eqn:E1; [|vm_compute in E1; discriminate..].
  destruct (run_events by_keys insertion some_events s1) as [s2| | |] eqn:E2.
  2-4: exfalso; vm_compute in E1; injection E1 as <-; vm_compute in E2; discriminate.
  exists s1, s2. split; [reflexivity|]. split; [done|]. split.
  - vm_compute in E1. injection E1 as <-. vm_compute in E2. injection E2 as <-. reflexivity.
  - apply (@lsdb_stays_typed by_keys branch s1 s2 eq_refl E1 (run_events_steps _ _ _ _ _ E2)).
Defined.

(** A network LSA of the router 0.0.0.2, with two routers and the sequence number 5. *)
Definition some_network_lsa : bytes :=
  [0; 1; 2; 2; 10; 0; 1; 2; 0; 0; 0; 2; 0; 0; 0; 5; 0; 0; 0; 32; 255; 255; 255; 0; 0; 0; 0; 2; 0; 0; 0; 1].
Lemma received_lsa_witness : exists data l k s', install_checksum some_network_lsa = Ok data /\ decode_lsa data = Ok (l, k) /\
  processRecvdLsa data 0 (started branch) = Ok (s', true) /\ AreaLsdb s' = <[0 := Some (store_lsa k l empty_lsdb)]> (AreaLsdb (started branch)).
Proof.
  destruct (install_checksum some_network_lsa) as [data| | |] eqn:E1; [|vm_compute in E1; discriminate..].
  destruct (decode_lsa data) as [[l k]| | |] eqn:E2; [|exfalso; vm_compute in E1; injection E1 as <-; vm_compute in E2; discriminate..].
  destruct (received_lsa data 0 (started branch) empty_lsdb l k true E2) as (s' & Hs & H).
  - vm_compute in E1. injection E1 as <-. by vm_compute.
  - by vm_compute.
  - assert (Ha : (LSType k =? RouterLSA) || is_new (started branch) 0 empty_lsdb k l = true).
    { vm_compute in E1. injection E1 as <-. vm_compute in E2. injection E2 as <- <-. by vm_compute. }
    cbn [andb] in Hs, H. rewrite Ha in Hs, H. exists data, l, k, s'. split; [done|]. split; [done|]. split; [exact Hs | apply H].
Defined.
