(* ===== verification/OspfAging.v ===== *)
(** The aging of the link state database: what a tick makes of it, and when an LSA is gone. *)
From stdpp Require Import base numbers list gmap strings.
From Stdlib Require Import ZArith Lia.
From S2P Require Import Prelude GoNet OspfUtil OspfLsa OspfLsaFacts OspfState OspfSpf OspfRoute OspfFrame OspfLsdb OspfSpfSpec OspfArea OspfLsdbSpec.
Open Scope Z_scope.

(** ** What a tick is meant to do

    An LSA of the maximal age is removed, any other is a second older. *)
Definition older {A} (md : A -> LsaMetadata) (with_md : LsaMetadata -> A -> A) (l : A) : option A :=
  if LSAge (md l) =? MaxAge then None else Some (with_md (set_LSAge (u16 (LSAge (md l) + 1)) (md l)) l).
Definition aged (d : LSDatabase) : LSDatabase :=
  {| RouterLsaMap := omap (older R_LsaMd set_R_LsaMd) (RouterLsaMap d);
     NetworkLsaMap := omap (older N_LsaMd set_N_LsaMd) (NetworkLsaMap d);
     Summary3LsaMap := omap (older S_LsaMd set_S_LsaMd) (Summary3LsaMap d);
     Summary4LsaMap := omap (older S_LsaMd set_S_LsaMd) (Summary4LsaMap d);
     ASExternalLsaMap := omap (older E_LsaMd set_E_LsaMd) (ASExternalLsaMap d) |}.
(** There is an LSA of the maximal age under the key. *)
Definition expired {A} (md : A -> LsaMetadata) (m : gmap LsaKey A) (k : LsaKey) : Prop :=
  exists l, m !! k = Some l /\ LSAge (md l) = MaxAge.
Definition db_expired (d : LSDatabase) (k : LsaKey) : Prop :=
  expired R_LsaMd (RouterLsaMap d) k \/ expired N_LsaMd (NetworkLsaMap d) k \/ expired E_LsaMd (ASExternalLsaMap d) k \/
  expired S_LsaMd (Summary3LsaMap d) k \/ expired S_LsaMd (Summary4LsaMap d) k.

(** The fields of the LSAs fit theirs: so they can be encoded. *)
Record good_db (d : LSDatabase) : Prop := {
  good_routers : map_Forall (fun k l => router_good l k) (RouterLsaMap d);
  good_networks : map_Forall (fun k l => network_good l k) (NetworkLsaMap d);
  good_summaries3 : map_Forall (fun k l => summary_good l k) (Summary3LsaMap d);
  good_summaries4 : map_Forall (fun k l => summary_good l k) (Summary4LsaMap d);
  good_externals : map_Forall (fun k l => external_good l k) (ASExternalLsaMap d);
}.

(** ** One map of an area *)

(** The state with the database of an area and the LSAs of maximal age changed. *)
Definition with_db (s : OSPFServer) (areaId : Z) (d : LSDatabase) (M : gmap LsaKey bytes) : OSPFServer :=
  set_maxAgeLsaMap M (set_AreaLsdb (<[areaId := Some d]> (AreaLsdb s)) s).

Section one_map.
Context {mo : MapOrder} {mok : MapOrderOk} {A : Type}.
Variables (get : LSDatabase -> gmap LsaKey A) (on : (gmap LsaKey A -> gmap LsaKey A) -> LSDatabase -> LSDatabase).
Variables (md : A -> LsaMetadata) (with_md : LsaMetadata -> A -> A) (encode : A -> LsaKey -> go bytes).
Hypothesis on_on : forall f m d, on f (on (fun _ => m) d) = on (fun _ => f m) d.
Hypothesis on_get : forall d, on (fun _ => get d) d = d.

(** After some of the keys. *)
Record ageing (s : OSPFServer) (areaId : Z) (d : LSDatabase) (flood : bool) (seen : gset LsaKey) (st : OSPFServer * bool) : Prop := {
  ageing_state : exists m M, st.1 = with_db s areaId (on (fun _ => m) d) M /\
    (forall k, m !! k = if decide (k ∈ seen) then omap (older md with_md) (get d) !! k else get d !! k) /\
    (forall k, is_Some (M !! k) <-> is_Some (maxAgeLsaMap s !! k) \/ (k ∈ seen /\ expired md (get d) k));
  ageing_flood : st.2 = true <-> flood = true \/ exists k, k ∈ seen /\ expired md (get d) k;
}.

Lemma age_one s areaId d flood seen k l st : get d !! k = Some l -> k ∉ seen ->
  (LSAge (md l) = MaxAge -> exists e, encode l k = Ok e) -> ageing s areaId d flood seen st ->
  exists st', age_lsa areaId on md with_md encode k l st = Ok st' /\ ageing s areaId d flood ({[k]} ∪ seen) st'.
Proof.
  intros Hk Hn He [(m & M & Hst & Hm & HM) Hf]. destruct st as [s1 fl]. cbn [fst snd] in *. subst s1. unfold age_lsa.
  assert (Hdb : db_maps (with_db s areaId (on (fun _ => m) d) M) areaId = Some (on (fun _ => m) d)).
  { unfold db_maps. cbn. by rewrite lookup_insert_eq. }
  assert (Hx : forall k', expired md (get d) k' /\ k' ∈ {[k]} ∪ seen <-> (k' = k /\ LSAge (md l) = MaxAge) \/ (k' ∈ seen /\ expired md (get d) k')).
  { intros k'. unfold expired. rewrite elem_of_union, elem_of_singleton. naive_solver. }
  destruct (LSAge (md l) =? MaxAge) eqn:Ea; zhyp.
  - destruct (He Ea) as [e ->]. rewrite bind_Ok. eexists. split; [reflexivity|]. split; cbn [fst snd].
    + exists (delete k m), (<[k := e]> M). split; [|split].
      * unfold del_lsdb. change (db_maps (set_maxAgeLsaMap _ _) areaId) with (db_maps (with_db s areaId (on (fun _ => m) d) M) areaId). rewrite Hdb.
        cbn [fmap option_fmap option_map]. rewrite on_on. unfold with_db. cbn. by rewrite insert_insert_eq.
      * intros k'. rewrite lookup_delete. case_decide as E1; [subst k'|].
        { rewrite decide_True by set_solver. rewrite lookup_omap, Hk. cbn. unfold older. by rewrite Ea. }
        rewrite Hm. by destruct (decide (k' ∈ seen)), (decide (k' ∈ {[k]} ∪ seen)); set_solver.
      * intros k'. rewrite lookup_insert. specialize (HM k'). specialize (Hx k'). case_decide; [subst k'|]; naive_solver.
    + split; [|done]. intros _. right. exists k. specialize (Hx k). naive_solver.
  - unfold put_lsdb. rewrite Hdb, bind_Ok. eexists. split; [reflexivity|]. split; cbn [fst snd].
    + eexists (<[k := _]> m), M. split; [|split].
      * rewrite on_on. unfold with_db. cbn. by rewrite insert_insert_eq.
      * intros k'. rewrite lookup_insert. case_decide as E1; [subst k'|].
        { rewrite decide_True by set_solver. rewrite lookup_omap, Hk. cbn. unfold older. by rewrite (proj2 (Z.eqb_neq _ _) Ea). }
        rewrite Hm. by destruct (decide (k' ∈ seen)), (decide (k' ∈ {[k]} ∪ seen)); set_solver.
      * intros k'. specialize (HM k'). specialize (Hx k'). naive_solver.
    + rewrite Hf. setoid_rewrite (and_comm (_ ∈ _)). setoid_rewrite Hx. naive_solver.
Qed.

Lemma age_map s areaId d flood : db_maps s areaId = Some d ->
  (forall k l, get d !! k = Some l -> LSAge (md l) = MaxAge -> exists e, encode l k = Ok e) ->
  exists M flood', age_lsas areaId on md with_md encode (get d) (s, flood) =
      Ok (with_db s areaId (on (fun _ => omap (older md with_md) (get d)) d) M, flood') /\
    (forall k, is_Some (M !! k) <-> is_Some (maxAgeLsaMap s !! k) \/ expired md (get d) k) /\
    (flood' = true <-> flood = true \/ exists k, expired md (get d) k).
Proof.
  intros Hd He. assert (Hin : forall k, expired md (get d) k -> k ∈ dom (get d)).
  { intros k (l & Hl & _). apply elem_of_dom. by exists l. }
  destruct (for_map_rule (get d) (ageing s areaId d flood) (age_lsa areaId on md with_md encode) (s, flood))
    as ([s' flood'] & Hr & [(m & M & Hst & Hm & HM) Hf]).
  - intros seen k l st Hk Hn. apply (age_one s areaId d flood seen k l st Hk Hn). by apply He.
  - split; cbn [fst snd]; [|set_solver]. exists (get d), (maxAgeLsaMap s). split; [|split; [intros; by rewrite decide_False by set_solver | set_solver]].
    unfold with_db. rewrite on_get. unfold db_maps in Hd. destruct (AreaLsdb s !! areaId) as [[d'|]|] eqn:E1; simplify_eq/=.
    rewrite insert_id by done. by destruct s.
  - cbn [fst snd] in *. subst s'. exists M, flood'. split; [|split].
    + unfold age_lsas. rewrite Hr. do 4 f_equal. f_equal. assert (E : m = omap (older md with_md) (get d)); [|by rewrite E].
      apply map_eq. intros k. rewrite Hm. case_decide as Ek; [done|]. rewrite lookup_omap. by apply not_elem_of_dom in Ek as ->.
    + intros k. rewrite HM. specialize (Hin k). naive_solver.
    + rewrite Hf. naive_solver.
Qed.
End one_map.

(** ** An area, and all areas *)

Lemma good_db_encodes d : good_db d ->
  (forall k l, RouterLsaMap d !! k = Some l -> exists e, encodeRouterLsa l k = Ok e) /\
  (forall k l, NetworkLsaMap d !! k = Some l -> exists e, encodeNetworkLsa l k = Ok e) /\
  (forall k l, Summary3LsaMap d !! k = Some l -> exists e, encodeSummaryLsa l k = Ok e) /\
  (forall k l, Summary4LsaMap d !! k = Some l -> exists e, encodeSummaryLsa l k = Ok e) /\
  (forall k l, ASExternalLsaMap d !! k = Some l -> exists e, encodeASExternalLsa l k = Ok e).
Proof.
  intros [Hr Hn H3 H4 He]. repeat split; intros k l Hk; eexists.
  - by apply encode_router, (Hr k l).
  - by apply encode_network, (Hn k l).
  - by apply encode_summary, (H3 k l).
  - by apply encode_summary, (H4 k l).
  - by apply encode_external, (He k l).
Qed.

Section ticks.
Context {mo : MapOrder} {mok : MapOrderOk}.

(** The state after some areas were visited: the messages are those that make neighbors flood what expired. *)
Definition age_message : Out := Flood LSAAGE no_intf no_nbr 0 0 0 NewLsaKey [].

Lemma with_db_maps s areaId d M : db_maps (with_db s areaId d M) areaId = Some d.
Proof. unfold db_maps. cbn. by rewrite lookup_insert_eq. Qed.
Lemma with_db_twice s areaId d M d' M' : with_db (with_db s areaId d M) areaId d' M' = with_db s areaId d' M'.
Proof. unfold with_db. cbn. by rewrite insert_insert_eq. Qed.

Lemma area_aged s areaId d : db_maps s areaId = Some d -> good_db d -> exists M (flood : bool),
  processMaxAgeLSA areaId d s = Ok (let s := with_db s areaId (aged d) M in if flood then put age_message s else s) /\
  (forall k, is_Some (M !! k) <-> is_Some (maxAgeLsaMap s !! k) \/ db_expired d k) /\
  (flood = true <-> exists k, db_expired d k).
Proof.
  intros Hd (Er & En & E3 & E4 & Ee)%good_db_encodes. unfold processMaxAgeLSA.
  destruct (age_map RouterLsaMap on_routers R_LsaMd set_R_LsaMd encodeRouterLsa ltac:(done) ltac:(by intros []) s areaId d false Hd)
    as (M1 & f1 & -> & H1 & F1); [by eauto|]. rewrite bind_Ok.
  set (d1 := on_routers _ d). change (NetworkLsaMap d) with (NetworkLsaMap d1).
  destruct (age_map NetworkLsaMap on_networks N_LsaMd set_N_LsaMd encodeNetworkLsa ltac:(done) ltac:(by intros []) _ areaId d1 f1
    (with_db_maps s areaId d1 M1)) as (M2 & f2 & -> & H2 & F2); [by eauto|]. rewrite bind_Ok, with_db_twice.
  set (d2 := on_networks _ d1). change (ASExternalLsaMap d) with (ASExternalLsaMap d2).
  destruct (age_map ASExternalLsaMap on_externals E_LsaMd set_E_LsaMd encodeASExternalLsa ltac:(done) ltac:(by intros []) _ areaId d2 f2
    (with_db_maps s areaId d2 M2)) as (M3 & f3 & -> & H3 & F3); [by eauto|]. rewrite bind_Ok, with_db_twice.
  set (d3 := on_externals _ d2). change (Summary3LsaMap d) with (Summary3LsaMap d3).
  destruct (age_map Summary3LsaMap on_summaries3 S_LsaMd set_S_LsaMd encodeSummaryLsa ltac:(done) ltac:(by intros []) _ areaId d3 f3
    (with_db_maps s areaId d3 M3)) as (M4 & f4 & -> & H4 & F4); [by eauto|]. rewrite bind_Ok, with_db_twice.
  set (d4 := on_summaries3 _ d3). change (Summary4LsaMap d) with (Summary4LsaMap d4).
  destruct (age_map Summary4LsaMap on_summaries4 S_LsaMd set_S_LsaMd encodeSummaryLsa ltac:(done) ltac:(by intros []) _ areaId d4 f4
    (with_db_maps s areaId d4 M4)) as (M5 & f5 & -> & H5 & F5); [by eauto|]. rewrite bind_Ok, with_db_twice.
  exists M5, f5. split; [done|]. cbn [maxAgeLsaMap with_db set_maxAgeLsaMap] in *. unfold db_expired. split.
  - intros k. rewrite H5, H4, H3, H2, H1. cbn. tauto.
  - rewrite F5, F4, F3, F2, F1. cbn. naive_solver.
Qed.

Lemma nil_area areaId s : processMaxAgeLSA areaId empty_lsdb s = Ok s.
Proof.
  assert (H : forall A on (md : A -> LsaMetadata) with_md encode st, age_lsas areaId on md with_md encode ∅ st = Ok st).
  { intros. unfold age_lsas, for_map. pose proof (range_keys LsaKey A ∅) as Hp. rewrite map_to_list_empty in Hp. by apply Permutation_nil_r in Hp as ->. }
  unfold processMaxAgeLSA. cbn [empty_lsdb RouterLsaMap NetworkLsaMap ASExternalLsaMap Summary3LsaMap Summary4LsaMap]. by repeat (rewrite H, bind_Ok).
Qed.

(** The LSA under a key expires in some area of [areas]. *)
Definition expires (s : OSPFServer) (areas : gset Z) (k : LsaKey) : Prop :=
  exists areaId d, areaId ∈ areas /\ AreaLsdb s !! areaId = Some (Some d) /\ db_expired d k.

(** After some areas. *)
Record ticked (s : OSPFServer) (areas : gset Z) (s' : OSPFServer) : Prop := {
  ticked_dbs : forall areaId, AreaLsdb s' !! areaId = if decide (areaId ∈ areas) then fmap aged <$> AreaLsdb s !! areaId else AreaLsdb s !! areaId;
  ticked_max : forall k, is_Some (maxAgeLsaMap s' !! k) <-> is_Some (maxAgeLsaMap s !! k) \/ expires s areas k;
  ticked_out : exists n, out s' = out s ++ replicate n age_message /\ (n <> O <-> exists k, expires s areas k);
}.

Definition good_dbs (s : OSPFServer) : Prop := forall areaId d, AreaLsdb s !! areaId = Some (Some d) -> good_db d.

Lemma area_ticked s areas areaId d s1 : AreaLsdb s !! areaId = Some d -> areaId ∉ areas -> good_dbs s -> ticked s areas s1 ->
  exists s2, processMaxAgeLSA areaId (default empty_lsdb d) s1 = Ok s2 /\ ticked s ({[areaId]} ∪ areas) s2.
Proof.
  intros Hd Hn Hg [HL HM (n & Ho & Hn0)]. pose proof (HL areaId) as Ha. rewrite decide_False, Hd in Ha by done.
  assert (Hx : forall k, expires s ({[areaId]} ∪ areas) k <-> (exists d', d = Some d' /\ db_expired d' k) \/ expires s areas k).
  { intros k. unfold expires. split.
    - intros (a & e & [->%elem_of_singleton|Hin]%elem_of_union & He & Hk); [left; simplify_eq; eauto | right; eauto].
    - intros [(e & -> & Hk)|(a & e & Hin & He & Hk)]; [exists areaId, e | exists a, e]; set_solver. }
  destruct d as [d|].
  - change (default empty_lsdb (Some d)) with d. destruct (area_aged s1 areaId d) as (M & flood & -> & HM2 & Hf); [by unfold db_maps; rewrite Ha | by apply (Hg areaId)|].
    eexists. split; [reflexivity|]. cbv zeta. split.
    + intros a. transitivity (<[areaId := Some (aged d)]> (AreaLsdb s1) !! a); [by destruct flood|]. rewrite lookup_insert.
      case_decide as E1; [subst a; rewrite decide_True by set_solver; by rewrite Hd|]. rewrite HL.
      by destruct (decide (a ∈ areas)), (decide (a ∈ {[areaId]} ∪ areas)); set_solver.
    + intros k. rewrite Hx. transitivity (is_Some (M !! k)); [by destruct flood|]. rewrite HM2, HM. naive_solver.
    + exists (n + if flood then 1 else 0)%nat. split.
      * destruct flood; cbn; rewrite Ho; [by rewrite replicate_add, app_assoc | by rewrite Nat.add_0_r].
      * setoid_rewrite Hx. destruct flood; [split; [|lia]; intros _; destruct (proj1 Hf eq_refl) as [k Hk]; exists k; eauto|].
        rewrite Nat.add_0_r, Hn0. split; [naive_solver|]. intros (k & [(e & [= <-] & Hk)|Hk]); [|eauto]. by assert (false = true) by (apply Hf; eauto).
  - change (default empty_lsdb None) with empty_lsdb. rewrite nil_area. exists s1. split; [done|]. split.
    + intros a. rewrite HL. destruct (decide (a = areaId)) as [->|]; [by rewrite decide_False, decide_True, Hd by set_solver|].
      by destruct (decide (a ∈ areas)), (decide (a ∈ {[areaId]} ∪ areas)); set_solver.
    + intros k. rewrite Hx, HM. naive_solver.
    + exists n. split; [done|]. rewrite Hn0. setoid_rewrite Hx. naive_solver.
Qed.

Lemma ticker_ticked s : good_dbs s -> exists s', processLSDatabaseTicker s = Ok s' /\ ticked s (dom (AreaLsdb s)) s'.
Proof.
  intros Hg. apply (for_map_rule (AreaLsdb s) (ticked s)).
  - intros seen a d s1 Hd Hn. by apply area_ticked.
  - split.
    + intros a. by rewrite decide_False by set_solver.
    + intros k. unfold expires. set_solver.
    + exists O. rewrite app_nil_r. split; [done|]. unfold expires. set_solver.
Qed.
End ticks.

(** ** The life of an LSA *)

Definition with_age (age : Z) (l : lsa) : lsa :=
  match l with
  | LRouter l => LRouter (set_R_LsaMd (set_LSAge age (R_LsaMd l)) l)
  | LNetwork l => LNetwork (set_N_LsaMd (set_LSAge age (N_LsaMd l)) l)
  | LSummary l => LSummary (set_S_LsaMd (set_LSAge age (S_LsaMd l)) l)
  | LExternal l => LExternal (set_E_LsaMd (set_LSAge age (E_LsaMd l)) l)
  end.
Definition older_lsa (l : lsa) : option lsa :=
  if LSAge (lsa_md l) =? MaxAge then None else Some (with_age (u16 (LSAge (lsa_md l) + 1)) l).

Lemma older_wrapped {A} (w : A -> lsa) (md : A -> LsaMetadata) with_md (o : option A) : (forall l, lsa_md (w l) = md l) ->
  (forall age l, with_age age (w l) = w (with_md (set_LSAge age (md l)) l)) -> w <$> (o ≫= older md with_md) = (w <$> o) ≫= older_lsa.
Proof. intros Hm Hw. destruct o as [l|]; [|done]. cbn. unfold older, older_lsa. rewrite Hm. case_match; [done|]. by rewrite Hw. Qed.

Lemma lookup_aged d k : lookup_lsa (aged d) k = lookup_lsa d k ≫= older_lsa.
Proof.
  unfold lookup_lsa. repeat case_match; try done; cbn [aged RouterLsaMap NetworkLsaMap Summary3LsaMap Summary4LsaMap ASExternalLsaMap];
    rewrite lookup_omap; by apply older_wrapped.
Qed.
Lemma lookup_expired d k l : lookup_lsa d k = Some l -> LSAge (lsa_md l) = MaxAge -> db_expired d k.
Proof.
  unfold lookup_lsa, db_expired, expired. intros H Ha.
  repeat case_match; try done; apply fmap_Some in H as (x & Hx & ->); cbn in Ha; naive_solver.
Qed.

Lemma older_all {A} (P : LsaKey -> A -> Prop) (md : A -> LsaMetadata) with_md (m : gmap LsaKey A) :
  (forall k l age, is_u16 age -> P k l -> P k (with_md (set_LSAge age (md l)) l)) ->
  map_Forall P m -> map_Forall P (omap (older md with_md) m).
Proof.
  intros Hp Hm k l. rewrite lookup_omap. intros (x & Hx & Hl)%bind_Some. unfold older in Hl. case_match; [done|].
  injection Hl as <-. apply Hp; [apply u16_range | by apply Hm].
Qed.
Lemma header_good_age n md key age : is_u16 age -> header_good n md key -> header_good n (set_LSAge age md) key.
Proof. intros ? []. by split. Qed.
Lemma aged_good d : good_db d -> good_db (aged d).
Proof.
  intros [Hr Hn H3 H4 He]. split; cbn [aged RouterLsaMap NetworkLsaMap Summary3LsaMap Summary4LsaMap ASExternalLsaMap];
    (eapply older_all; [|eassumption]); intros k l age Ha []; split; try done; by apply header_good_age.
Qed.

(** The ticker fires [n] times; each time the maps are visited in an order of its own. *)
Fixpoint ticks (order : nat -> MapOrder) (n : nat) (s : OSPFServer) : go OSPFServer :=
  match n with O => Ok s | S n => s ← @processLSDatabaseTicker (order n) s; ticks order n s end.

Lemma tick_ok {mo : MapOrder} {mok : MapOrderOk} s : good_dbs s -> exists s', processLSDatabaseTicker s = Ok s' /\ good_dbs s' /\
  (forall areaId k, lookup_lsa (lsdb_of s' areaId) k = lookup_lsa (lsdb_of s areaId) k ≫= older_lsa) /\
  (forall k, is_Some (maxAgeLsaMap s !! k) -> is_Some (maxAgeLsaMap s' !! k)) /\ (forall o, o ∈ out s -> o ∈ out s') /\
  forall areaId k l, lookup_lsa (lsdb_of s areaId) k = Some l -> LSAge (lsa_md l) = MaxAge ->
    is_Some (maxAgeLsaMap s' !! k) /\ age_message ∈ out s'.
Proof.
  intros Hg. destruct (ticker_ticked s Hg) as (s' & Hs & [HL HM (n & Ho & Hn)]). exists s'. split; [done|].
  assert (HL' : forall a, AreaLsdb s' !! a = fmap aged <$> AreaLsdb s !! a).
  { intros a. rewrite HL. case_decide as Ha; [done|]. by apply not_elem_of_dom in Ha as ->. }
  split; [|split; [|split; [|split]]].
  - intros a d. rewrite HL'. intros ([d0|] & Hd & E)%fmap_Some; [|done]. injection E as ->. by apply aged_good, (Hg a).
  - intros a k. unfold lsdb_of. rewrite HL'. destruct (AreaLsdb s !! a) as [[d|]|]; cbn; [apply lookup_aged|..]; unfold lookup_lsa; by repeat case_match.
  - intros k Hk. apply HM. by left.
  - intros o Hin. rewrite Ho. apply elem_of_app. by left.
  - intros a k l Hl Ha. assert (Hx : expires s (dom (AreaLsdb s)) k).
    { unfold lsdb_of in Hl. destruct (AreaLsdb s !! a) as [[d|]|] eqn:E1; [|by unfold lookup_lsa in Hl; repeat case_match..].
      exists a, d. split; [by apply elem_of_dom; exists (Some d)|]. split; [done|]. by eapply lookup_expired. }
    split; [apply HM; by right|]. rewrite Ho. apply elem_of_app. right. assert (n <> O) by (apply Hn; eauto). destruct n; [done|]. left.
Qed.

(** What is left of an LSA after [n] ticks without a refresh. *)
Definition after (n : nat) (l : lsa) : option lsa :=
  if LSAge (lsa_md l) + Z.of_nat n <=? MaxAge then Some (with_age (LSAge (lsa_md l) + Z.of_nat n) l) else None.

Lemma after_0 l : LSAge (lsa_md l) <= MaxAge -> after 0 l = Some l.
Proof. intros H. unfold after. rewrite Z.add_0_r. zif. by destruct l as [[[] ? ? ? ? ?]|[[] ? ?]|[[] ? ? ?]|[[] ? ? ? ? ? ?]]. Qed.
Lemma lsa_md_with_age age l : lsa_md (with_age age l) = set_LSAge age (lsa_md l).
Proof. by destruct l. Qed.
Lemma after_S n l : 0 <= LSAge (lsa_md l) <= MaxAge -> after (S n) l = older_lsa l ≫= after n.
Proof.
  intros H. unfold older_lsa. destruct (LSAge (lsa_md l) =? MaxAge) eqn:E1; zhyp.
  - unfold after. zif. done.
  - rewrite u16_id by (unfold is_u16, MaxAge in *; lia). cbn [mbind option_bind]. unfold after. rewrite lsa_md_with_age. cbn [set_LSAge LSAge].
    replace (LSAge (lsa_md l) + 1 + Z.of_nat n) with (LSAge (lsa_md l) + Z.of_nat (S n)) by lia. case_match; [|done]. by destruct l.
Qed.

Section life.
Context (order : nat -> MapOrder) {order_ok : forall n, @MapOrderOk (order n)}.

Lemma ticks_run n : forall s, good_dbs s -> exists s', ticks order n s = Ok s' /\ good_dbs s' /\
  (forall k, is_Some (maxAgeLsaMap s !! k) -> is_Some (maxAgeLsaMap s' !! k)) /\ (forall o, o ∈ out s -> o ∈ out s') /\
  forall areaId k,
    (lookup_lsa (lsdb_of s areaId) k = None -> lookup_lsa (lsdb_of s' areaId) k = None) /\
    forall l, lookup_lsa (lsdb_of s areaId) k = Some l -> 0 <= LSAge (lsa_md l) <= MaxAge ->
      lookup_lsa (lsdb_of s' areaId) k = after n l /\
      (MaxAge < LSAge (lsa_md l) + Z.of_nat n -> is_Some (maxAgeLsaMap s' !! k) /\ age_message ∈ out s').
Proof.
  induction n as [|n IH]; intros s Hg.
  { exists s. cbn [ticks]. do 4 (split; [done|]). intros a k. split; [done|]. intros l Hl Ha. rewrite after_0 by lia. split; [done | lia]. }
  destruct (@tick_ok (order n) (order_ok n) s Hg) as (s1 & Hs1 & Hg1 & Hl1 & Hm1 & Ho1 & Hx1). destruct (IH s1 Hg1) as (s' & Hs' & Hg' & Hm' & Ho' & H').
  exists s'. cbn [ticks]. rewrite Hs1, bind_Ok. do 4 (split; [by eauto|]). intros a k. destruct (H' a k) as [Hnone Hsome].
  rewrite (Hl1 a k) in Hnone, Hsome. split; [intros H0; by apply Hnone; rewrite H0|]. intros l Hl Ha. rewrite Hl in Hnone, Hsome.
  cbn [mbind option_bind] in Hnone, Hsome. rewrite after_S by done. unfold older_lsa in *. destruct (LSAge (lsa_md l) =? MaxAge) eqn:E1; zhyp.
  - split; [by apply Hnone|]. intros _. destruct (Hx1 a k l Hl E1). eauto.
  - destruct (Hsome _ eq_refl) as [Hl' Hg0]; rewrite lsa_md_with_age, u16_id in * by (unfold is_u16, MaxAge in *; lia); cbn [set_LSAge LSAge] in *; [lia|].
    split; [exact Hl'|]. intros Hlt. apply Hg0. lia.
Qed.

(** C18: an LSA of age 0 to MaxAge that is not refreshed grows old by the second; when it has reached the maximal age and a second has
    gone by it is in the database no more, but among those to be flushed, and the neighbors have been sent the message
    that makes them flood it. What is not in the database does not appear in it. This holds for databases whose LSAs are in the form
    the router encodes them in ([good_dbs]: no types of service, every field in its range, the number of links and the length field those
    of the content): on these the ticks never fail, while an expired LSA of a router with 61 types of service or more in a link cannot be
    encoded (many_tos_crash). Each tick visits the maps in an order of its own. *)
Theorem lsas_age_out n s : good_dbs s -> exists s', ticks order n s = Ok s' /\ forall areaId k,
    (lookup_lsa (lsdb_of s areaId) k = None -> lookup_lsa (lsdb_of s' areaId) k = None) /\
    forall l, lookup_lsa (lsdb_of s areaId) k = Some l -> 0 <= LSAge (lsa_md l) <= MaxAge ->
      lookup_lsa (lsdb_of s' areaId) k = after n l /\
      (MaxAge < LSAge (lsa_md l) + Z.of_nat n -> is_Some (maxAgeLsaMap s' !! k) /\ age_message ∈ out s').
Proof. intros Hg. destruct (ticks_run n s Hg) as (s' & Hs & _ & _ & _ & H). by exists s'. Qed.
End life.

(** A network LSA that is 3599 seconds old: it is gone after two ticks. *)
Definition old_network : NetworkLsa :=
  {| N_LsaMd := {| LSAge := 3599; Options := 2; LSSequenceNum := 5; LSChecksum := 0; LSLen := 32 |}; N_Netmask := 4294967040; AttachedRtr := [2; 1] |}.
Definition old_key : LsaKey := {| LSType := NetworkLSA; LSId := 2562; AdvRouter := 2 |}.
Definition old_dbs : OSPFServer := set_AreaLsdb {[ 0 := Some (on_networks (insert old_key old_network) empty_lsdb) ]} (idle ∅).
Lemma old_dbs_good : good_dbs old_dbs.
Proof.
  intros areaId d. cbn. intros [_ [= <-]]%lookup_singleton_Some. split; try apply map_Forall_empty. apply map_Forall_insert_2; [|apply map_Forall_empty].
  split; [unfold is_u32; cbn; lia | repeat constructor; lia | reflexivity |]. by split; vm_compute.
Qed.
Lemma lsas_age_out_witness : exists s', ticks (fun _ => by_keys) 2 old_dbs = Ok s' /\ lookup_lsa (lsdb_of s' 0) old_key = None /\ age_message ∈ out s'.
Proof.
  destruct (@lsas_age_out (fun _ => by_keys) (fun _ => by_keys_ok) 2 old_dbs old_dbs_good) as (s' & Hs & H). exists s'. split; [exact Hs|].
  destruct (H 0 old_key) as [_ H']. destruct (H' (LNetwork old_network)) as [Hl Hg]; [by vm_compute | vm_compute; split; discriminate |].
  split; [rewrite Hl; reflexivity|]. apply Hg. reflexivity.
Defined.
