(* ===== verification/OspfOriginate.v ===== *)
(** What a router originates and another receives: the router LSA, from the interfaces to the database of any router
    it reaches. *)
From stdpp Require Import base numbers list gmap strings pretty.
From Stdlib Require Import ZArith Lia.
From S2P Require Import Prelude GoNet OspfUtil OspfLsa OspfLsaFacts OspfState OspfSpf OspfRoute OspfFrame OspfLsdb OspfSpfSpec OspfArea OspfLsdbSpec.
Open Scope Z_scope.

(** ** Addresses *)

Definition ip4 (ip : bytes) : Prop := bytes_ok ip /\ len ip = 4.

Lemma ip4_inv ip : ip4 ip -> exists a b c d, ip = [a; b; c; d] /\ is_u8 a /\ is_u8 b /\ is_u8 c /\ is_u8 d.
Proof.
  intros [Hok (a & b & c & d & ->)%len_4_inv]. exists a, b, c, d. unfold bytes_ok in Hok. rewrite !Forall_cons in Hok. naive_solver.
Qed.
Lemma uint32_of_ip4 ip : len ip = 4 -> exists v, Util.convertIPv4ToUint32 ip = Ok v /\ is_u32 v.
Proof.
  intros (a & b & c & d & ->)%len_4_inv. unfold Util.convertIPv4ToUint32, sget. gocbn. eexists. split; [done|]. apply u32_range.
Qed.
Lemma ip_value_ok ip : ip4 ip -> exists v, ip_value ip = Ok v /\ is_u32 v.
Proof.
  intros (a & b & c & d & -> & Ha & Hb & Hc & Hd)%ip4_inv. unfold ip_value, Util.convertAreaOrRouterIdUint32.
  change (ip_String [a; b; c; d]) with (pretty a +:+ "." +:+ pretty b +:+ "." +:+ pretty c +:+ "." +:+ pretty d).
  rewrite parse_printed_octets by done. by apply uint32_of_ip4.
Qed.
Lemma land_u32 a b : is_u32 a -> is_u32 b -> is_u32 (Z.land a b).
Proof.
  unfold is_u32. intros Ha Hb. split; [apply Z.land_nonneg; lia|].
  destruct (decide (Z.land a b = 0)) as [->|Hne]; [lia|]. change 4294967296 with (2 ^ 32). apply Z.log2_lt_pow2.
  - pose proof (proj2 (Z.land_nonneg a b)). lia.
  - eapply Z.le_lt_trans; [by apply Z.log2_land; lia|]. apply Z.min_lt_iff. left.
    destruct (decide (a = 0)) as [->|]; [done|]. apply Z.log2_lt_pow2; lia.
Qed.

(** ** The links of the interfaces *)

Record intf_ok (ent : IntfConf) : Prop := {
  intf_area : len (IfAreaId ent) = 4;
  intf_mask : len (IfNetmask ent) = 4;
  intf_dr : len (IfDRIp ent) = 4;
  intf_ip : ip4 (IfIpAddr ent);
}.

Section router.
Context {mo : MapOrder} {mok : MapOrderOk} {so : SortImpl}.
Variable s : OSPFServer.
Hypothesis Hintf : map_Forall (fun _ => intf_ok) (IntfConfMap s).
Hypothesis Hnbr : map_Forall (fun _ n => is_u32 (OspfNbrRtrId n)) (NeighborConfigMap s).

Lemma first_neighbor_u32 key : is_u32 (first_neighbor s key).
Proof.
  unfold first_neighbor. destruct (ospfIntfToNbrMap s !! key) as [[|n l]|]; [unfold is_u32; lia | | unfold is_u32; lia].
  destruct (NeighborConfigMap s !! n) as [e|] eqn:E1; [by apply (Hnbr n) | unfold is_u32; cbn; lia].
Qed.

Ltac good_link := split; cbn; auto using u16_range, land_u32, first_neighbor_u32, u32_range; unfold is_u8, is_u16, is_u32, StubLink, TransitLink, P2PLink; lia.

Lemma intf_links_ok key ent : intf_ok ent -> exists ls, intf_links s key ent = Ok ls /\ Forall link_good ls /\ 1 <= len ls <= 2.
Proof.
  intros [_ Hm Hd Hi]. destruct (uint32_of_ip4 _ Hm) as (mask & Em & Um), (uint32_of_ip4 _ Hd) as (dr & Ed & Ud), (ip_value_ok _ Hi) as (ip & Ei & Ui).
  unfold intf_links, constructStubLinkP2P. rewrite Em, Ed, Ei. cbn [mbind outcome_bind].
  repeat case_match; (eexists; split; [reflexivity|]); (split; [|unfold len; cbn; lia]); rewrite ?Forall_cons; repeat (split; [good_link|]); by apply Forall_nil.
Qed.

(** The interfaces whose links the router LSA of the area has: those that are past the waiting state. *)
Definition in_router_lsa (areaId : Z) (ent : IntfConf) : Prop :=
  Util.convertIPv4ToUint32 (IfAreaId ent) = Ok areaId /\ Waiting < IfFSMState ent.
Definition link_of (areaId : Z) (keys : gset IntfConfKey) (link : LinkDetail) : Prop :=
  exists key ent ls, key ∈ keys /\ IntfConfMap s !! key = Some ent /\ in_router_lsa areaId ent /\ intf_links s key ent = Ok ls /\ link ∈ ls.

(** The loop over the interfaces, which also writes events: [visited] is what holds after some of them. *)
Record visited (areaId : Z) (seen : gset IntfConfKey) (st : OSPFServer * list LinkDetail) : Prop := {
  visited_state : exists o, st.1 = set_out o s;
  visited_good : Forall link_good st.2;
  visited_len : len st.2 <= 2 * Z.of_nat (size seen);
  visited_links : forall link, link ∈ st.2 <-> link_of areaId seen link;
}.

Lemma link_of_add areaId seen key ent link ls : IntfConfMap s !! key = Some ent -> intf_links s key ent = Ok ls ->
  link_of areaId ({[key]} ∪ seen) link <-> (in_router_lsa areaId ent /\ link ∈ ls) \/ link_of areaId seen link.
Proof.
  intros Hk Hl. split.
  - intros (k & e & l & [->%elem_of_singleton|Hin]%elem_of_union & He & Hr & Hls & Hm); [left; simplify_eq; by rewrite Hl in Hls; simplify_eq|].
    right. by exists k, e, l.
  - intros [[Hr Hm]|(k & e & l & Hin & He & Hr & Hls & Hm)]; [exists key, ent, ls | exists k, e, l]; set_solver.
Qed.

Lemma router_intf_visited areaId seen key ent st : IntfConfMap s !! key = Some ent -> key ∉ seen -> visited areaId seen st ->
  exists st', router_intf areaId key ent st = Ok st' /\ visited areaId ({[key]} ∪ seen) st'.
Proof.
  intros Hk Hn [[o Ho] Hg Hl Hin]. destruct st as [s1 links]. cbn [fst snd] in *. subst s1. pose proof (Hintf key ent Hk) as Hok.
  destruct (uint32_of_ip4 _ (intf_area _ Hok)) as (area & Ea & _), (intf_links_ok key ent Hok) as (ls & El & Gl & Ll).
  assert (Hs : size ({[key]} ∪ seen) = S (size seen)) by (rewrite size_union, size_singleton by set_solver; done).
  assert (Hskip : ~ in_router_lsa areaId ent -> forall o', visited areaId ({[key]} ∪ seen) (set_out o' s, links)).
  { intros Hno o'. split; cbn [fst snd]; [by exists o' | done | lia |]. intros link. rewrite (link_of_add _ _ _ _ _ _ Hk El), Hin. naive_solver. }
  unfold router_intf. rewrite Ea, bind_Ok. destruct (areaId =? area) eqn:Eq; zhyp; cbn [negb].
  2: { eexists. split; [done|]. apply Hskip. intros [Ha _]. congruence. }
  subst area. destruct (IfFSMState ent <=? Waiting) eqn:Ew; zhyp.
  { eexists. split; [done|]. apply Hskip. intros [_ Hw]. lia. }
  change (intf_links _ key ent) with (intf_links s key ent). rewrite El, bind_Ok. eexists. split; [done|]. split; cbn [fst snd].
  - by eexists.
  - by apply Forall_app.
  - rewrite len_app. lia.
  - intros link. rewrite (link_of_add _ _ _ _ _ _ Hk El), <- Hin, elem_of_app. unfold in_router_lsa. tauto.
Qed.

Lemma router_intfs areaId : exists o links, for_map (IntfConfMap s) (router_intf areaId) (s, []) = Ok (set_out o s, links) /\
  Forall link_good links /\ len links <= 2 * Z.of_nat (size (IntfConfMap s)) /\
  forall link, link ∈ links <-> link_of areaId (dom (IntfConfMap s)) link.
Proof.
  destruct (for_map_rule (IntfConfMap s) (visited areaId) (router_intf areaId) (s, [])) as ([s1 links] & Hr & [[o Ho] Hg Hl Hin]).
  - intros seen k a b Hk Hn Hv. by apply router_intf_visited.
  - split; cbn [fst snd]; [exists (out s); by destruct s | by apply Forall_nil | rewrite size_empty; unfold len; cbn; lia |]. intros link. split; [by intros ?%elem_of_nil|].
    intros (k & e & l & Hk & _). set_solver.
  - cbn [fst snd] in *. subst s1. exists o, links. rewrite size_dom in Hl. auto.
Qed.

(** The sequence number of the next instance. *)
Definition next_seq (old : option RouterLsa) : Z :=
  match old with None => InitialSequenceNumber | Some l => LSSequenceNum (R_LsaMd l) + 1 end.


(** The LSA that the loop's links make, before its checksum. *)
Definition new_router_lsa (old : option RouterLsa) (links : list LinkDetail) : RouterLsa :=
  {| R_LsaMd := next_md (R_LsaMd <$> old) (OSPF_LSA_HEADER_SIZE + 4 + 12 * len links);
     R_BitV := match old with Some l => R_BitV l | None => false end;
     R_BitE := false; R_BitB := AreaBdrRtrStatus s; NumOfLinks := u16 (len links); LinkDetails := links |}.
Lemma new_router_good old links rtrId : is_u32 rtrId -> Forall link_good links -> len links <= 5400 -> is_u32 (next_seq old) ->
  router_good (new_router_lsa old links) (own_key rtrId).
Proof.
  intros Hr Hg Hl Hs. pose proof (len_nonneg links). split; cbn [LinkDetails NumOfLinks R_LsaMd new_router_lsa]; [done | | lia |].
  - apply u16_id. unfold is_u16. lia.
  - unfold OSPF_LSA_HEADER_SIZE, next_md. split; cbn [LSAge Options LSSequenceNum LSLen own_key LSType LSId AdvRouter]; try done.
    + by destruct old.
    + apply u16_id. unfold is_u16. lia.
Qed.

(** The checksum that is stored is that of what is sent. *)
Definition checksum_stored (lsa : RouterLsa) (key : LsaKey) : Prop :=
  exists enc, encodeRouterLsa lsa key = Ok enc /\ lsa_checksum enc = Ok (LSChecksum (R_LsaMd lsa)).
Lemma router_cs_good cs lsa key : router_good lsa key -> router_good (router_cs cs lsa) key.
Proof. intros [? ? ? []]. by split. Qed.

Lemma read_stored s3 areaId k lsa d m : AreaLsdb s3 = <[areaId := Some (on_routers (insert k lsa) d)]> (AreaLsdb s) ->
  AreaSelfOrigLsa s3 = <[areaId := Some (<[k := true]> m)]> (AreaSelfOrigLsa s) ->
  RouterLsaMap (lsdb_of s3 areaId) !! k = Some lsa /\ self_entry s3 areaId k = Some true.
Proof. intros E1 E2. unfold lsdb_of, self_entry, self_map. rewrite E1, E2, !lookup_insert_eq. cbn -[lookup]. by rewrite !lookup_insert_eq. Qed.

Lemma generated_router areaId rtrId d m : Util.convertIPv4ToUint32 (RouterId s) = Ok rtrId -> is_u32 rtrId ->
  db_maps s areaId = Some d -> self_map s areaId = Some m ->
  (size (IntfConfMap s) <= 2700)%nat -> is_u32 (next_seq (RouterLsaMap d !! own_key rtrId)) ->
  (exists key ent, IntfConfMap s !! key = Some ent /\ in_router_lsa areaId ent) ->
  exists s' lsa, generateRouterLSA areaId s = Ok s' /\ RouterLsaMap (lsdb_of s' areaId) !! own_key rtrId = Some lsa /\
    self_entry s' areaId (own_key rtrId) = Some true /\
    LSSequenceNum (R_LsaMd lsa) = next_seq (RouterLsaMap d !! own_key rtrId) /\
    (forall link, link ∈ LinkDetails lsa <-> link_of areaId (dom (IntfConfMap s)) link) /\
    router_good lsa (own_key rtrId) /\ checksum_stored lsa (own_key rtrId).
Proof.
  intros Er Ur Hd Hm Hsz Hseq (key0 & ent0 & Hk0 & Hr0). destruct (router_intfs areaId) as (o & links & Hrun & Hg & Hl & Hin).
  unfold generateRouterLSA. rewrite Hrun, bind_Ok. change (RouterId (set_out o s)) with (RouterId s). rewrite Er, bind_Ok. cbv zeta.
  change (area_exists (set_out o s) areaId) with (area_exists s areaId).
  assert (Ha : lsdb_of s areaId = d /\ area_exists s areaId = true).
  { unfold lsdb_of, area_exists. unfold db_maps in Hd. destruct (AreaLsdb s !! areaId) as [[d'|]|]; try done. by simplify_eq/=. }
  destruct Ha as [Ha ->]. cbn [negb]. assert (Hne : len links =? 0 = false).
  { destruct (intf_links_ok key0 ent0 (Hintf key0 ent0 Hk0)) as (ls & Els & _ & Hls). apply Z.eqb_neq.
    destruct ls as [|l0 ls]; [unfold len in Hls; cbn in Hls; lia|]. destruct links as [|x links]; [|unfold len; cbn; lia]. exfalso.
    apply (not_elem_of_nil l0), Hin. exists key0, ent0, (l0 :: ls). rewrite elem_of_dom, Hk0. naive_solver (by eauto || set_solver). }
  rewrite Hne. change (lsdb_of (set_out o s) areaId) with (lsdb_of s areaId). rewrite Ha.
  set (old := RouterLsaMap d !! _). change (AreaBdrRtrStatus (set_out o s)) with (AreaBdrRtrStatus s). fold (new_router_lsa old links).
  assert (Hgood : router_good (new_router_lsa old links) (own_key rtrId)) by (apply new_router_good; [done|done|lia|done]).
  destruct (router_sent _ _ Hgood) as (enc & data & cs & He & Hc & _). fold (own_key rtrId). rewrite He, bind_Ok, Hc, bind_Ok.
  change (set_R_LsaMd _ _) with (router_cs cs (new_router_lsa old links)). unfold put_lsdb, put_self.
  change (db_maps (set_out o s) areaId) with (db_maps s areaId). rewrite Hd, bind_Ok.
  change (self_map (set_AreaLsdb _ _) areaId) with (self_map s areaId). rewrite Hm, bind_Ok.
  eexists _, (router_cs cs (new_router_lsa old links)). split; [reflexivity|].
  match goal with |- RouterLsaMap (lsdb_of ?s3 _) !! _ = _ /\ _ =>
    destruct (read_stored s3 areaId (own_key rtrId) (router_cs cs (new_router_lsa old links)) d m) as [R1 R2]; [by destruct old..|] end.
  do 2 (split; [done|]). split; [by unfold next_seq; destruct old|]. split; [exact Hin|]. split; [by apply router_cs_good | by exists enc].
Qed.
End router.

(** C11: a router LSA from its originator to another router. When the interfaces and neighbors of a router have addresses,
    it originates for an area in which an interface is up an LSA with exactly the links of these interfaces, with
    the next sequence number; what is encoded of it, with the checksum that the senders write, is accepted by any
    router that has the area, with any padding, and stored there as the very same LSA. The router has at most 2700
    interfaces, with identifiers of 32 bits, and a sequence number left. *)
Theorem router_lsa_delivered {mo : MapOrder} {mok : MapOrderOk} s areaId rtrId d m :
  map_Forall (fun _ => intf_ok) (IntfConfMap s) -> map_Forall (fun _ n => is_u32 (OspfNbrRtrId n)) (NeighborConfigMap s) ->
  Util.convertIPv4ToUint32 (RouterId s) = Ok rtrId -> db_maps s areaId = Some d -> self_map s areaId = Some m ->
  (size (IntfConfMap s) <= 2700)%nat -> is_u32 (next_seq (RouterLsaMap d !! own_key rtrId)) ->
  (exists key ent, IntfConfMap s !! key = Some ent /\ in_router_lsa areaId ent) ->
  exists s' lsa enc data, generateRouterLSA areaId s = Ok s' /\
    RouterLsaMap (lsdb_of s' areaId) !! own_key rtrId = Some lsa /\ self_entry s' areaId (own_key rtrId) = Some true /\
    LSSequenceNum (R_LsaMd lsa) = next_seq (RouterLsaMap d !! own_key rtrId) /\
    (forall link, link ∈ LinkDetails lsa <-> link_of s areaId (dom (IntfConfMap s)) link) /\
    encodeRouterLsa lsa (own_key rtrId) = Ok enc /\ install_checksum enc = Ok data /\
    forall r area dr pad, db_maps r area = Some dr -> exists r',
      processRecvdLsa (data ++ make pad) area r = Ok (r', true) /\ RouterLsaMap (lsdb_of r' area) !! own_key rtrId = Some lsa.
Proof.
  intros Hi Hn Er Hd Hm Hsz Hseq Hup.
  assert (Ur : is_u32 rtrId).
  { unfold Util.convertIPv4ToUint32 in Er. repeat (apply bind_Ok_inv in Er as (? & _ & Er)). injection Er as <-. apply u32_range. }
  destruct (generated_router s Hi Hn areaId rtrId d m Er Ur Hd Hm Hsz Hseq Hup) as (s' & lsa & Hgen & Hst & Hself & Hs & Hl & Hg & (enc & He & Hc)).
  destruct (router_sent lsa (own_key rtrId) Hg) as (enc' & data & cs & He' & Hc' & Hi' & _ & Hrd). rewrite He in He'. injection He' as <-.
  rewrite Hc in Hc'. injection Hc' as <-. exists s', lsa, enc, data. do 7 (split; [done|]). intros r area dr pad Hr.
  destruct (Hrd pad) as [Hv Hdec].
  assert (Esame : router_cs (LSChecksum (R_LsaMd lsa)) lsa = lsa) by (destruct lsa as [[] ? ? ? ? ?]; done). rewrite Esame in Hdec.
  pose proof (decodeRouterLsa_typed _ _ _ Hdec) as [Ht _].
  destruct (recvd_router (data ++ make pad) area r dr true Hv Hr lsa (own_key rtrId) Hdec) as (r' & Hrecv & Hst' & _).
  exists r'. rewrite (proj1 (recvd_dispatch _ area r _ Ht) eq_refl). split; [done|]. unfold lsdb_of. rewrite Hst', lookup_insert_eq.
  cbn -[lookup]. by rewrite lookup_insert_eq.
Qed.

(** ** An example *)

Lemma some_intf_ok type ip nbrs : ip4 ip -> intf_ok (some_intf type ip nbrs).
Proof. by split. Qed.
Lemma branch_intfs : map_Forall (fun _ => intf_ok) (IntfConfMap branch).
Proof.
  apply map_Forall_insert_2; [|apply map_Forall_insert_2; [|apply map_Forall_empty]]; apply some_intf_ok; (split; [|done]); repeat constructor; lia.
Qed.

Lemma router_lsa_delivered_witness :
  exists s' lsa data, @generateRouterLSA by_keys 0 (started branch) = Ok s' /\
    RouterLsaMap (lsdb_of s' 0) !! own_key 1 = Some lsa /\
    exists r', processRecvdLsa (data ++ make 3) 0 (started (idle ∅)) = Ok (r', true) /\ RouterLsaMap (lsdb_of r' 0) !! own_key 1 = Some lsa.
Proof.
  destruct (@router_lsa_delivered by_keys by_keys_ok (started branch) 0 1 empty_lsdb ∅)
    as (s' & lsa & enc & data & Hs & Hl & _ & _ & _ & _ & _ & H).
  - exact branch_intfs.
  - change (NeighborConfigMap (started branch)) with (NeighborConfigMap branch). apply map_Forall_insert_2; [|apply map_Forall_empty].
    unfold is_u32. cbn. lia.
  - reflexivity.
  - by vm_compute.
  - by vm_compute.
  - vm_compute. lia.
  - vm_compute. split; [discriminate | reflexivity].
  - exists intf1, (some_intf Broadcast [10; 0; 0; 1] ∅). split; [by vm_compute|]. by split; vm_compute.
  - exists s', lsa, data. split; [exact Hs|]. split; [exact Hl|]. apply (H (started (idle ∅)) 0 empty_lsdb 3). by vm_compute.
Defined.
