(* ===== verification/OspfPacket.v ===== *)
(** Packets of the OSPF daemon: the header and the five kinds of bodies, how packets are built, and what the
    receiving thread of an interface does with a frame. *)
From stdpp Require Import base numbers list gmap strings.
From Stdlib Require Import ZArith Lia.
From S2P Require Import Prelude GoNet OspfUtil OspfLsa OspfState OspfSpf OspfRoute.
Open Scope Z_scope.

(** ** Constants *)

Definition OSPF_HELLO_MIN_SIZE : Z := 20.
Definition OSPF_DBD_MIN_SIZE : Z := 8.
Definition OSPF_LSA_REQ_SIZE : Z := 12.
Definition OSPF_HEADER_SIZE : Z := 24.
Definition IP_HEADER_MIN_LEN : Z := 20.
Definition OSPF_PROTO_ID : Z := 89.
Definition OSPF_VERSION_2 : Z := 2.
Definition EOption : Z := 2.

(** [OspfType] *)
Definition HelloType : Z := 1.
Definition DBDescriptionType : Z := 2.
Definition LSRequestType : Z := 3.
Definition LSUpdateType : Z := 4.
Definition LSAckType : Z := 5.

Definition Nbma : Z := 2.
Definition PointToMultipoint : Z := 5.

(** [net.ParseIP(ALLSPFROUTER)], [net.ParseIP(ALLDROUTER)], [net.ParseMAC(config.McastMAC)] *)
Definition allSPFRouter : bytes := IPv4 224 0 0 5.
Definition allDRouter : bytes := IPv4 224 0 0 6.
Definition McastMAC : bytes := [1; 0; 94; 0; 0; 5].

(** ** Frames: the package gopacket *)

Record EthLayer := {
  SrcMAC : bytes;
  DstMAC : bytes;
  EthernetType : Z;
}.
Record IPv4Layer := {
  ip_Version : Z;
  IHL : Z;
  ip_TOS : Z;
  Length : Z;
  TTL : Z;
  Protocol : Z;
  SrcIP : bytes;
  DstIP : bytes;
}.
(** The IPv4 layer of a frame: the contents of its header, its addresses, and its payload, a slice of the frame: [Beyond]
    are the bytes of the frame that follow it. *)
Record IPv4Data := {
  LayerContents : bytes;
  rx_SrcIP : bytes;
  rx_DstIP : bytes;
  rx_Protocol : Z;
  LayerPayload : bytes;
  Beyond : bytes;
}.
(** The layers of a frame; the Ethernet layer is its source. *)
Record Packet := {
  eth_layer : option bytes;
  ip_layer : option IPv4Data;
}.
Class Gopacket := {
  SerializeLayers : EthLayer -> IPv4Layer -> bytes -> bytes;
  NewPacket : bytes -> Packet;
}.

(** A slice of which the array goes on after its end: [b[i:j]] may reach there, [b[i]] may not. *)
Record Buf := {
  b_data : bytes;
  b_beyond : bytes;
}.
Definition bslice {E} (b : Buf) (i j : Z) : outcome E bytes := slice (b_data b ++ b_beyond b) i j.

(** ** Errors *)

Inductive PktErr :=
  | InvalidHelloLength | NetmaskMismatch | HelloIntervalMismatch | DeadIntervalMismatch | ExtRoutingMismatch
  | IncorrectIPChecksum | LocallyGenerated | IncorrectDstIP | IncorrectProtocol
  | InvalidHeaderLength | IntfNotValid | VersionMismatch | AreaMismatch | AuthTypeMismatch | InvalidChecksum | InvalidType.
Abbreviation checked := (outcome PktErr).

Definition lift {E A} (m : go A) : outcome E A :=
  match m with Ok a => Ok a | Err e => match e with end | Panic => Panic | Hang => Hang end.

Lemma lift_Ok {E A} (m : go A) (a : A) : m = Ok a -> lift (E := E) m = Ok a.
Proof. by intros ->. Qed.

(** ** The header *)

Record OSPFHeader := {
  ver : Z;
  pktType : Z;
  pktlen : Z;
  routerId : bytes;
  areaId : bytes;
  chksum : Z;
  authType : Z;
  authKey : bytes;
}.

(** [copy(pkt[off:off+n], src)] *)
Definition copy_in {E} (pkt : bytes) (off : Z) (n : nat) (src : bytes) : outcome E bytes := gocopy pkt off (take n src).

Definition encodeOspfHdr (ospfHdr : OSPFHeader) : go bytes :=
  let pkt := make OSPF_HEADER_SIZE in
  pkt ← sset pkt 0 (ver ospfHdr);
  pkt ← sset pkt 1 (pktType ospfHdr);
  pkt ← PutUint16 pkt 2 (pktlen ospfHdr);
  pkt ← copy_in pkt 4 4 (routerId ospfHdr);
  pkt ← copy_in pkt 8 4 (areaId ospfHdr);
  PutUint16 pkt 14 (authType ospfHdr).

Definition decodeOspfHdr (ospfPkt : bytes) : go OSPFHeader :=
  v ← sget ospfPkt 0;
  t ← sget ospfPkt 1;
  l ← slice ospfPkt 2 4; l ← Uint16 l;
  r ← slice ospfPkt 4 8;
  a ← slice ospfPkt 8 12;
  c ← slice ospfPkt 12 14; c ← Uint16 c;
  at_ ← slice ospfPkt 14 16; at_ ← Uint16 at_;
  k ← slice ospfPkt 16 24;
  Ok {| ver := v; pktType := t; pktlen := l; routerId := r; areaId := a; chksum := c; authType := at_; authKey := k |}.

(** ** Hello *)

Record OSPFHelloData := {
  netmask : bytes;
  helloInterval : Z;
  options : Z;
  rtrPrio : Z;
  rtrDeadInterval : Z;
  designatedRtr : bytes;
  backupDesignatedRtr : bytes;
}.

Definition encodeOspfHelloData (h : OSPFHelloData) : go bytes :=
  let pkt := make OSPF_HELLO_MIN_SIZE in
  pkt ← copy_in pkt 0 4 (netmask h);
  pkt ← PutUint16 pkt 4 (helloInterval h);
  pkt ← sset pkt 6 (options h);
  pkt ← sset pkt 7 (rtrPrio h);
  pkt ← PutUint32 pkt 8 (rtrDeadInterval h);
  pkt ← copy_in pkt 12 4 (designatedRtr h);
  copy_in pkt 16 4 (backupDesignatedRtr h).

Definition decodeOspfHelloData (b : Buf) : go OSPFHelloData :=
  m ← bslice b 0 4;
  hi ← bslice b 4 6; hi ← Uint16 hi;
  o ← sget (b_data b) 6;
  p ← sget (b_data b) 7;
  di ← bslice b 8 12; di ← Uint32 di;
  dr ← bslice b 12 16;
  bdr ← bslice b 16 20;
  Ok {| netmask := m; helloInterval := hi; options := o; rtrPrio := p; rtrDeadInterval := di; designatedRtr := dr;
        backupDesignatedRtr := bdr |}.

(** ** Headers of LSAs, database descriptions *)

Definition decodeLSAHeader (data : bytes) : go ospfLSAHeader :=
  age ← slice data 0 2; age ← Uint16 age;
  t ← sget data 3;
  o ← sget data 2;
  id ← slice data 4 8; id ← Uint32 id;
  adv ← slice data 8 12; adv ← Uint32 adv;
  sn ← slice data 12 16; sn ← Uint32 sn;
  ck ← slice data 16 18; ck ← Uint16 ck;
  ln ← slice data 18 20; ln ← Uint16 ln;
  Ok {| ls_age := age; ls_options := o; ls_type := t; link_state_id := id; adv_router_id := adv; ls_sequence_num := sn;
        ls_checksum := ck; ls_len := ln |}.

(** The fields of a header, which are assigned one after the other in the 20 bytes at [pkt_index]. *)
Definition header_bytes (h : ospfLSAHeader) : bytes :=
  be16 (ls_age h) ++ [ls_options h; ls_type h] ++ be32 (link_state_id h) ++ be32 (adv_router_id h) ++ be32 (ls_sequence_num h) ++
  be16 (ls_checksum h) ++ be16 (ls_len h).
(** nil when there are no headers *)
Definition encodeLSAHeader (headers : list ospfLSAHeader) : go bytes :=
  for_upto (length headers) 0 (fun index pkt =>
    match headers !! index with
    | Some h => gocopy pkt (20 * Z.of_nat index) (header_bytes h)
    | None => Panic
    end) (make (len headers * OSPF_LSA_HEADER_SIZE)).

Definition encodeDatabaseDescriptionData (dd_data : ospfDatabaseDescriptionData) : go bytes :=
  let pkt := make OSPF_DBD_MIN_SIZE in
  pkt ← PutUint16 pkt 0 (interface_mtu dd_data);
  pkt ← sset pkt 2 2;
  let imms := 0 in
  let imms := if ibit dd_data then Z.lor imms 4 else imms in
  let imms := if mbit dd_data then Z.lor imms 2 else imms in
  let imms := if msbit dd_data then Z.lor imms 1 else imms in
  pkt ← sset pkt 3 (u8 imms);
  pkt ← PutUint32 pkt 4 (dd_sequence_number dd_data);
  lsa_pkt ← encodeLSAHeader (lsa_headers dd_data);
  Ok (pkt ++ lsa_pkt).

(** The headers of the LSAs at [start + 20 * i]: each is copied over the last in a buffer of the size of them all. *)
Definition decode_headers (b : Buf) (start : nat -> Z) (stop : Z -> Z) (num_headers : nat) : go (list ospfLSAHeader) :=
  '(_, hs) ← for_upto num_headers 0 (fun i '(header_byte, hs) =>
    piece ← bslice b (start i) (stop (start i));
    header_byte ← gocopy header_byte 0 piece;
    h ← decodeLSAHeader header_byte;
    Ok (header_byte, hs ++ [h])) (make (Z.of_nat num_headers * OSPF_LSA_HEADER_SIZE), []);
  Ok hs.

Definition decode_dbd_headers (b : Buf) (pktlen : Z) : go (list ospfLSAHeader) :=
  let headers_len := u16 (pktlen - (OSPF_DBD_MIN_SIZE + OSPF_HEADER_SIZE)) in
  if (headers_len >=? 20) && (headers_len <? pktlen) then
    decode_headers b (fun i => u16 (OSPF_DBD_MIN_SIZE + Z.of_nat i * OSPF_LSA_HEADER_SIZE)) (fun start_index => u16 (start_index + 20))
      (Z.to_nat (headers_len / 20))
  else Ok [].

Definition DecodeDatabaseDescriptionData (b : Buf) (pktlen : Z) : go ospfDatabaseDescriptionData :=
  mtu ← bslice b 0 2; mtu ← Uint16 mtu;
  o ← sget (b_data b) 2;
  sn ← bslice b 4 8; sn ← Uint32 sn;
  imms_options ← sget (b_data b) 3;
  let i := negb (Z.land imms_options 4 =? 0) in
  hs ← (if i then Ok [] else decode_dbd_headers b pktlen);
  Ok {| dd_options := o; interface_mtu := mtu; dd_sequence_number := sn; ibit := i;
        mbit := negb (Z.land imms_options 2 =? 0); msbit := negb (Z.land imms_options 1 =? 0); lsa_headers := hs |}.

(** ** Requests *)

Definition decodeLSAReq (data : bytes) : go ospfLSAReq :=
  t ← slice data 0 4; t ← Uint32 t;
  id ← slice data 4 8; id ← Uint32 id;
  adv ← slice data 8 12; adv ← Uint32 adv;
  Ok {| req_ls_type := t; req_link_state_id := id; req_adv_router_id := adv |}.

Definition decodeLSAReqPkt (b : Buf) (pktlen : Z) : go (list ospfLSAReq) :=
  let no_of_lsa := u16 (pktlen - OSPF_HEADER_SIZE) / OSPF_LSA_REQ_SIZE in
  '(_, reqs) ← for_upto (Z.to_nat no_of_lsa) 0 (fun _ '(start, reqs) =>
    d ← bslice b start (start + OSPF_LSA_REQ_SIZE);
    lsa_req ← decodeLSAReq d;
    Ok (start + OSPF_LSA_REQ_SIZE, reqs ++ [lsa_req])) (0, []);
  Ok reqs.

Definition encode_req (r : ospfLSAReq) : go bytes :=
  let pkt := make OSPF_LSA_REQ_SIZE in
  pkt ← PutUint32 pkt 0 (req_ls_type r);
  pkt ← PutUint32 pkt 4 (req_link_state_id r);
  PutUint32 pkt 8 (req_adv_router_id r).
(** Each request is put before those already encoded. *)
Definition encodeLSAReq (lsa_data : list ospfLSAReq) : go bytes :=
  for_each (fun r lsa_pkt => pkt ← encode_req r; Ok (pkt ++ lsa_pkt)) lsa_data [].

(** ** Building packets *)

Section build.
Context {gp : Gopacket}.

(** The header for a body of [ospfPktlen] bytes, the checksum, the key: a packet from an interface. *)
Definition seal (type ospfPktlen : Z) (body : bytes) (ent : IntfConf) (s : OSPFServer) : go bytes :=
  ospfEncHdr ← encodeOspfHdr {| ver := OSPF_VERSION_2; pktType := type; pktlen := u16 ospfPktlen; routerId := RouterId s;
    areaId := IfAreaId ent; chksum := 0; authType := IfAuthType ent; authKey := [] |};
  let ospf := ospfEncHdr ++ body in
  csum ← Util.computeCheckSum ospf;
  ospf ← PutUint16 ospf 12 csum;
  copy_in ospf 16 8 (IfAuthKey ent).

Definition frame_ip (ospfPktlen : Z) (dstIp : bytes) (ent : IntfConf) : IPv4Layer :=
  {| ip_Version := 4; IHL := IP_HEADER_MIN_LEN; ip_TOS := 192; Length := u16 (IP_HEADER_MIN_LEN + u16 ospfPktlen); TTL := 1;
     Protocol := OSPF_PROTO_ID; SrcIP := IfIpAddr ent; DstIP := dstIp |}.
Definition ospf_frame (ospfPktlen : Z) (dstIp dstMAC ospf : bytes) (ent : IntfConf) : bytes :=
  SerializeLayers {| SrcMAC := IfMacAddr ent; DstMAC := dstMAC; EthernetType := 2048 |} (frame_ip ospfPktlen dstIp ent) ospf.

(** The packets for a neighbor go to all routers on a numbered link. *)
Definition nbr_dst (ent : IntfConf) (ip mac : bytes) : bytes * bytes :=
  if IfType ent =? NumberedP2P then (allSPFRouter, McastMAC) else (ip, mac).

Context {mo : MapOrder}.

(** The router identifiers of the neighbors; those of neighbors that are not known are 0. *)
Definition hello_neighbors (ent : IntfConf) (s : OSPFServer) : go bytes :=
  for_map (NeighborMap ent) (fun key _ neighbor =>
    nbr ← PutUint32 (make 4) 0 (OspfNbrRtrId (default zero_nbr (NeighborConfigMap s !! key)));
    Ok (neighbor ++ nbr)) [].

(** [None]: the interface has no area. *)
Definition BuildHelloPkt (ent : IntfConf) (s : OSPFServer) : go (option bytes) :=
  if bool_decide (IfAreaId ent = []) then Ok None else
  area ← Util.convertIPInByteToString (IfAreaId ent);
  let option := if isStubArea s area then 0 else 2 in
  let helloData := {| netmask := IfNetmask ent; helloInterval := IfHelloInterval ent; options := option; rtrPrio := IfRtrPriority ent;
    rtrDeadInterval := IfRtrDeadInterval ent; designatedRtr := IfDRIp ent; backupDesignatedRtr := IfBDRIp ent |} in
  neighbor ← hello_neighbors ent s;
  let ospfPktlen := OSPF_HEADER_SIZE + OSPF_HELLO_MIN_SIZE + len neighbor in
  helloDataEnc ← encodeOspfHelloData helloData;
  ospf ← seal HelloType ospfPktlen (helloDataEnc ++ neighbor) ent s;
  Ok (Some (ospf_frame ospfPktlen [224; 0; 0; 5] McastMAC ospf ent)).

Definition BuildDBDPkt (ent : IntfConf) (nbrConf : OspfNeighborEntry) (dbdData : ospfDatabaseDescriptionData) (dstMAC : bytes)
    (s : OSPFServer) : go bytes :=
  let ospfPktlen := OSPF_HEADER_SIZE + OSPF_DBD_MIN_SIZE + OSPF_LSA_HEADER_SIZE * len (lsa_headers dbdData) in
  dbdDataEnc ← encodeDatabaseDescriptionData dbdData;
  ospf ← seal DBDescriptionType ospfPktlen dbdDataEnc ent s;
  let '(ip, mac) := nbr_dst ent (OspfNbrIPAddr nbrConf) dstMAC in
  Ok (ospf_frame ospfPktlen ip mac ospf ent).

Definition EncodeLSAReqPkt (ent : IntfConf) (nbrConf : OspfNeighborEntry) (lsa_req_pkt : list ospfLSAReq) (dstMAC : bytes)
    (s : OSPFServer) : go bytes :=
  lsaDataEnc ← encodeLSAReq lsa_req_pkt;
  let ospfPktlen := OSPF_HEADER_SIZE + len lsaDataEnc in
  ospf ← seal LSRequestType ospfPktlen lsaDataEnc ent s;
  let '(ip, mac) := nbr_dst ent (OspfNbrIPAddr nbrConf) dstMAC in
  Ok (ospf_frame ospfPktlen ip mac ospf ent).

Definition BuildLsaUpdPkt (ent : IntfConf) (dstMAC dstIp : bytes) (lsaUpdEnc : bytes) (s : OSPFServer) : go bytes :=
  let ospfPktlen := OSPF_HEADER_SIZE + len lsaUpdEnc in
  ospf ← seal LSUpdateType ospfPktlen lsaUpdEnc ent s;
  let '(ip, mac) := nbr_dst ent dstIp dstMAC in
  Ok (ospf_frame ospfPktlen ip mac ospf ent).

Definition BuildLSAAckPkt (ent : IntfConf) (dstMAC dstIp : bytes) (lsa_pkt_size : Z) (lsaAckEnc : bytes) (s : OSPFServer) : go bytes :=
  let ospfPktlen := OSPF_HEADER_SIZE + lsa_pkt_size in
  ospf ← seal LSAckType ospfPktlen lsaAckEnc ent s;
  let '(ip, mac) := nbr_dst ent dstIp dstMAC in
  Ok (ospf_frame ospfPktlen ip mac ospf ent).
End build.

(** ** Receiving: the headers *)

(** [DstIPType] *)
Inductive DstIPType := Normal | AllSPFRouter | AllDRouter.
Record IpHdrMetadata := {
  srcIP : bytes;
  dstIP : bytes;
  dstIPType : DstIPType;
}.
Record OspfHdrMetadata := {
  md_pktType : Z;
  md_pktlen : Z;
  backbone : bool;
  md_routerId : bytes;
  md_areaId : Z;
}.

(** [net.IP.Mask]; the result is nil when the lengths differ. *)
Definition ip_Mask (ip mask : bytes) : bytes :=
  let mask := if (len mask =? 16) && (len ip =? 4) && forallb (Z.eqb 255) (take 12 mask) then drop 12 mask else mask in
  let ip := if (len mask =? 4) && (len ip =? 16) && bool_decide (take 12 ip = v4InV6Prefix) then drop 12 ip else ip in
  if len ip =? len mask then zip_with Z.land ip mask else [].
Definition isInSubnet (ifIpAddr srcIp netMask : bytes) : bool := ip_Equal (ip_Mask ifIpAddr netMask) (ip_Mask srcIp netMask).

Definition processIPv4Layer (ipLayer : IPv4Data) (ipAddr : bytes) : checked IpHdrMetadata :=
  c ← slice (LayerContents ipLayer) 10 12; ipChkSum ← Uint16 c;
  contents ← PutUint16 (LayerContents ipLayer) 10 0;
  csum ← lift (Util.computeCheckSum contents);
  if negb (csum =? ipChkSum) then Err IncorrectIPChecksum
  else if ip_Equal ipAddr (rx_SrcIP ipLayer) then Err LocallyGenerated
  else if negb (ip_Equal ipAddr (rx_DstIP ipLayer)) && negb (ip_Equal allSPFRouter (rx_DstIP ipLayer)) &&
          negb (ip_Equal allDRouter (rx_DstIP ipLayer)) then Err IncorrectDstIP
  else if negb (rx_Protocol ipLayer =? OSPF_PROTO_ID) then Err IncorrectProtocol
  else Ok {| srcIP := default [] (To4 (rx_SrcIP ipLayer)); dstIP := default [] (To4 (rx_DstIP ipLayer));
             dstIPType := if ip_Equal allSPFRouter (rx_DstIP ipLayer) then AllSPFRouter
                          else if ip_Equal allDRouter (rx_DstIP ipLayer) then AllDRouter else Normal |}.

(** The metadata, and the packet with the checksum and the key cleared. No type of interface is both kinds of link, so
    areas are compared on all. *)
Definition processOspfHeader (ospfPkt : bytes) (key : IntfConfKey) (s : OSPFServer) : checked (bytes * OspfHdrMetadata) :=
  if len ospfPkt <? OSPF_HEADER_SIZE then Err InvalidHeaderLength else
  match IntfConfMap s !! key with
  | None => Err IntfNotValid
  | Some ent =>
    ospfHdr ← lift (decodeOspfHdr ospfPkt);
    if negb (Version s =? ver ospfHdr) then Err VersionMismatch
    else if (negb (IfType ent =? NumberedP2P) || negb (IfType ent =? UnnumberedP2P)) &&
            negb (Util.bytesEqual (IfAreaId ent) (areaId ospfHdr)) && negb (isInSubnet (IfAreaId ent) (areaId ospfHdr) (IfNetmask ent))
         then Err AreaMismatch
    else if negb (IfAuthType ent =? authType ospfHdr) then Err AuthTypeMismatch
    else
      ospfPkt ← PutUint16 ospfPkt 12 0;
      ospfPkt ← copy_in ospfPkt 16 8 (make 8);
      csum ← lift (Util.computeCheckSum ospfPkt);
      if negb (csum =? chksum ospfHdr) then Err InvalidChecksum
      else
        area ← Uint32 (areaId ospfHdr);
        Ok (ospfPkt, {| md_pktType := pktType ospfHdr; md_pktlen := pktlen ospfHdr;
                        backbone := Util.bytesEqual (areaId ospfHdr) [0; 0; 0; 0]; md_routerId := routerId ospfHdr; md_areaId := area |})
  end.

(** ** Receiving: hello *)

(** The neighbor that sent a packet, by its address. *)
Definition nbr_key {E} (ip : bytes) (key : IntfConfKey) : outcome E NeighborConfKey :=
  a ← sget ip 0; b ← sget ip 1; c ← sget ip 2; d ← sget ip 3;
  Ok {| nk_IPAddr := ip_String (IPv4 a b c d); nk_IntfIdx := ik_IntfIdx key |}.

(** Whether the router is one of the neighbors listed in the [n] words from [i] on; [j] is a 16-bit integer. *)
Fixpoint hello_lists {E} (n : nat) (b : Buf) (i j : Z) (RouterId : bytes) : outcome E bool :=
  match n with
  | O => Ok false
  | S n =>
    nbr ← bslice b j i;
    if Util.bytesEqual nbr RouterId then Ok true else hello_lists n b (i + 4) (u16 (j + 4)) RouterId
  end.

Definition CreateAndSendHelloRecvdMsg (routerId : Z) (ipHdrMd : IpHdrMetadata) (ospfHdrMd : OspfHdrMetadata) (nbrDeadInterval ifType : Z)
    (TwoWayStatus : bool) (rtrPrio : Z) (key : IntfConfKey) (s : OSPFServer) : go OSPFServer :=
  let from := if (ifType =? Broadcast) || (ifType =? Nbma) || (ifType =? PointToMultipoint) || (ifType =? NumberedP2P)
              then srcIP ipHdrMd else md_routerId ospfHdrMd in
  a ← sget from 0; b ← sget from 1; c ← sget from 2; d ← sget from 3;
  Ok (put (HelloRecvd {| im_IntfConfKey := key; im_RouterId := routerId; im_RtrPrio := rtrPrio; im_NeighborIP := IPv4 a b c d;
                         im_nbrDeadTimer := nbrDeadInterval; im_TwoWayStatus := TwoWayStatus |}) s).

(** [ent.WaitTimer.Stop()]: whether it ran; a nil timer panics. *)
Definition set_WaitTimer (x : option bool) (i : IntfConf) : IntfConf :=
  {| IfAreaId := IfAreaId i; IfType := IfType i; NeighborMap := NeighborMap i; IfDRIp := IfDRIp i; IfFSMState := IfFSMState i;
     IfDRtrId := IfDRtrId i; IfIpAddr := IfIpAddr i; IfNetmask := IfNetmask i; IfCost := IfCost i; IfRtrPriority := IfRtrPriority i;
     IfHelloInterval := IfHelloInterval i; IfRtrDeadInterval := IfRtrDeadInterval i; IfAuthKey := IfAuthKey i;
     IfAuthType := IfAuthType i; IfBDRIp := IfBDRIp i; IfBDRtrId := IfBDRtrId i; IfEvents := IfEvents i;
     HelloIntervalTicker := HelloIntervalTicker i; WaitTimer := x; IfMacAddr := IfMacAddr i |}.
Definition stop_wait (key : IntfConfKey) (s : OSPFServer) : go (OSPFServer * bool) :=
  match WaitTimer (default zero_intf (IntfConfMap s !! key)) with
  | None => Panic
  | Some ret => Ok (set_IntfConfMap (alter (set_WaitTimer (Some false)) key (IntfConfMap s)) s, ret)
  end.

Definition processOspfHelloNeighbor (TwoWay : bool) (h : OSPFHelloData) (ipHdrMd : IpHdrMetadata) (ospfHdrMd : OspfHdrMetadata)
    (key : IntfConfKey) (s : OSPFServer) : go OSPFServer :=
  routerId ← Util.convertIPv4ToUint32 (md_routerId ospfHdrMd);
  NbrIP ← Util.convertIPv4ToUint32 (srcIP ipHdrMd);
  neighborKey ← nbr_key (srcIP ipHdrMd) key;
  let ent := default zero_intf (IntfConfMap s !! key) in
  let msg := {| nm_RouterId := routerId; nm_NbrIP := NbrIP; nm_TwoWayStatus := TwoWay; nm_RtrPrio := rtrPrio h;
                nm_DRtr := designatedRtr h; nm_BDRtr := backupDesignatedRtr h |} in
  let s := match NeighborMap ent !! neighborKey with
    | None => put (NeighCreate key msg) s
    | Some n =>
      if negb (eqb (TwoWayStatus n) TwoWay) || negb (Util.bytesEqual (DRtr n) (designatedRtr h)) ||
         negb (Util.bytesEqual (BDRtr n) (backupDesignatedRtr h)) || negb (RtrPrio n =? rtrPrio h)
      then put (NeighChange key msg) s else s
    end in
  s ← CreateAndSendHelloRecvdMsg routerId ipHdrMd ospfHdrMd (IfRtrDeadInterval ent * 1000000000) (IfType ent) TwoWay (rtrPrio h) key s;
  if TwoWay && (IfFSMState ent =? Waiting) then
    if Util.bytesEqual (srcIP ipHdrMd) (designatedRtr h) then
      if negb (Util.bytesEqual (backupDesignatedRtr h) [0; 0; 0; 0]) then
        '(s, ret) ← stop_wait key s;
        Ok (if ret : bool then put (BackupSeen key routerId (backupDesignatedRtr h) (srcIP ipHdrMd)) s else s)
      else Ok s
    else if Util.bytesEqual (srcIP ipHdrMd) (backupDesignatedRtr h) then
      '(s, ret) ← stop_wait key s;
      Ok (if ret : bool then put (BackupSeen key routerId (srcIP ipHdrMd) (designatedRtr h)) s else s)
    else Ok s
  else Ok s.

(** The netmask is compared on all interfaces. *)
Definition processRxHelloPkt (b : Buf) (ospfHdrMd : OspfHdrMetadata) (ipHdrMd : IpHdrMetadata) (srcMAC : bytes) (key : IntfConfKey)
    (s : OSPFServer) : checked OSPFServer :=
  let ent := default zero_intf (IntfConfMap s !! key) in
  if len (b_data b) <? OSPF_HELLO_MIN_SIZE then Err InvalidHelloLength else
  h ← lift (decodeOspfHelloData b);
  if (negb (IfType ent =? NumberedP2P) || negb (IfType ent =? UnnumberedP2P)) && negb (Util.bytesEqual (IfNetmask ent) (netmask h))
    then Err NetmaskMismatch
  else if negb (IfHelloInterval ent =? helloInterval h) then Err HelloIntervalMismatch
  else if negb (IfRtrDeadInterval ent =? rtrDeadInterval h) then Err DeadIntervalMismatch
  else if backbone ospfHdrMd && (Z.land (options h) EOption =? 0) then Err ExtRoutingMismatch
  else
    let nbrlen := u16 (md_pktlen ospfHdrMd - (OSPF_HELLO_MIN_SIZE + OSPF_HEADER_SIZE)) in
    TwoWay ← hello_lists (Z.to_nat ((nbrlen + 3) / 4)) b (OSPF_HELLO_MIN_SIZE + 4) OSPF_HELLO_MIN_SIZE (RouterId s);
    k ← nbr_key (srcIP ipHdrMd) key;
    lift (processOspfHelloNeighbor TwoWay h ipHdrMd ospfHdrMd key (set_IPToMAC (<[k := srcMAC]> (IPToMAC s)) s)).

(** ** Receiving: the other kinds, which are decoded and passed on *)

Definition ProcessRxDbdPkt (b : Buf) (ospfHdrMd : OspfHdrMetadata) (ipHdrMd : IpHdrMetadata) (key : IntfConfKey) (srcMAC : bytes)
    (s : OSPFServer) : go OSPFServer :=
  ospfdbd_data ← DecodeDatabaseDescriptionData b (md_pktlen ospfHdrMd);
  k ← nbr_key (srcIP ipHdrMd) key;
  Ok (put (DbdEvent k ospfdbd_data) (set_IPToMAC (<[k := srcMAC]> (IPToMAC s)) s)).

Definition ProcessRxLSAReqPkt (b : Buf) (ospfHdrMd : OspfHdrMetadata) (ipHdrMd : IpHdrMetadata) (key : IntfConfKey) (s : OSPFServer)
  : go OSPFServer :=
  lsa_req ← decodeLSAReqPkt b (md_pktlen ospfHdrMd);
  k ← nbr_key (srcIP ipHdrMd) key;
  Ok (put (LsaReqEvent k lsa_req) s).

Definition ProcessRxLsaUpdPkt (b : Buf) (ospfHdrMd : OspfHdrMetadata) (ipHdrMd : IpHdrMetadata) (key : IntfConfKey) (s : OSPFServer)
  : go OSPFServer :=
  _ ← Util.convertIPInByteToString (md_routerId ospfHdrMd);
  k ← nbr_key (srcIP ipHdrMd) key;
  Ok (put (LsaUpdEvent k (md_areaId ospfHdrMd) (b_data b) (b_beyond b)) s).

(** The address of the neighbor is printed with colons. *)
Definition ProcessRxLSAAckPkt (b : Buf) (ospfHdrMd : OspfHdrMetadata) (ipHdrMd : IpHdrMetadata) (key : IntfConfKey) (s : OSPFServer)
  : go OSPFServer :=
  let headers_len := u16 (md_pktlen ospfHdrMd - OSPF_HEADER_SIZE) in
  hs ← (if (headers_len >=? 20) && (headers_len <? md_pktlen ospfHdrMd) then
          decode_headers b (fun i => u32 (Z.of_nat i * OSPF_LSA_HEADER_SIZE)) (fun start_index => u32 (start_index + 20))
            (Z.to_nat (headers_len / 20))
        else Ok []);
  ipaddr ← Util.convertByteToOctetString (srcIP ipHdrMd);
  Ok (put (LsaAckEvent {| nk_IPAddr := ipaddr; nk_IntfIdx := ik_IntfIdx key |} hs) s).

Definition neighborExist (s : OSPFServer) (nbrKey : NeighborConfKey) : bool := bool_decide (is_Some (NeighborConfigMap s !! nbrKey)).

Definition processOspfData (b : Buf) (srcMAC : bytes) (ipHdrMd : IpHdrMetadata) (ospfHdrMd : OspfHdrMetadata) (key : IntfConfKey)
    (s : OSPFServer) : checked OSPFServer :=
  k ← nbr_key (srcIP ipHdrMd) key;
  let exist := neighborExist s k in
  let type := md_pktType ospfHdrMd in
  if type =? HelloType then processRxHelloPkt b ospfHdrMd ipHdrMd srcMAC key s
  else if type =? DBDescriptionType then if exist then lift (ProcessRxDbdPkt b ospfHdrMd ipHdrMd key srcMAC s) else Ok s
  else if type =? LSRequestType then if exist then lift (ProcessRxLSAReqPkt b ospfHdrMd ipHdrMd key s) else Ok s
  else if type =? LSUpdateType then if exist then lift (ProcessRxLsaUpdPkt b ospfHdrMd ipHdrMd key s) else Ok s
  else if type =? LSAckType then if exist then lift (ProcessRxLSAAckPkt b ospfHdrMd ipHdrMd key s) else Ok s
  else Err InvalidType.

(** What is not accepted is dropped. *)
Definition dropped (m : checked OSPFServer) (s : OSPFServer) : go OSPFServer :=
  match m with Ok s' => Ok s' | Err _ => Ok s | Panic => Panic | Hang => Hang end.

Definition receive_frame (mac : bytes) (ip : IPv4Data) (ent : IntfConf) (key : IntfConfKey) (s : OSPFServer) : checked OSPFServer :=
  ipHdrMd ← processIPv4Layer ip (IfIpAddr ent);
  '(ospfPkt, ospfHdrMd) ← processOspfHeader (LayerPayload ip) key s;
  ospfData ← slice_from ospfPkt OSPF_HEADER_SIZE;
  processOspfData {| b_data := ospfData; b_beyond := Beyond ip |} mac ipHdrMd ospfHdrMd key s.

Definition ProcessOspfRecvPkt (key : IntfConfKey) (p : Packet) (s : OSPFServer) : go OSPFServer :=
  match eth_layer p, ip_layer p, IntfConfMap s !! key with
  | Some mac, Some ip, Some ent => dropped (receive_frame mac ip ent key s) s
  | _, _, _ => Ok s
  end.
