(* ===== verification/OspfPacketFacts.v ===== *)
(** What the packets of the OSPF daemon carry to a neighbor: what is built on one router is what the other reads. *)
From stdpp Require Import base numbers list gmap strings.
From Stdlib Require Import ZArith Lia.
From S2P Require Import Prelude GoNet OspfUtil OspfLsa OspfState OspfSpf OspfRoute OspfPacket.
Open Scope Z_scope.

Lemma Ok_inj {E A} (a b : A) : Ok (E := E) a = Ok b -> a = b.
Proof. by intros [= ->]. Qed.

(** ** The header *)

Definition packet_header_start (type n : Z) (rid area : bytes) : bytes := [2; type] ++ be16 n ++ rid ++ area.
Definition packet_header (type n : Z) (rid area : bytes) (ck auth : Z) (key : bytes) : bytes :=
  packet_header_start type n rid area ++ be16 ck ++ be16 auth ++ key.

Lemma len_packet_header type n rid area ck auth k : len rid = 4 -> len area = 4 -> len k = 8 -> len (packet_header type n rid area ck auth k) = 24.
Proof. intros. unfold packet_header, packet_header_start. lens. lia. Qed.

Lemma Forall_true_bytes l : forallb (fun b => (0 <=? b) && (b <? 256)) l = true -> bytes_ok l.
Proof. rewrite forallb_forall. intros H. apply List.Forall_forall. intros b Hb. specialize (H b Hb). unfold is_u8. zhyp. lia. Qed.

Lemma computeCheckSum_even pkt : Nat.Even (length pkt) -> exists c, Util.computeCheckSum pkt = Ok c /\ is_u16 c.
Proof.
  intros [n Hn]. assert (H : forall csum, exists c, Util.csum_pairs pkt csum = Ok c).
  { revert pkt Hn. induction n as [|n IH]; intros [|a [|b pkt]] Hn csum; cbn in Hn; try lia; [by eexists|].
    cbn [Util.csum_pairs]. apply IH. lia. }
  destruct (H 0) as [c Hc]. unfold Util.computeCheckSum. rewrite Hc, bind_Ok. eexists. split; [done|].
  pose proof (u16_range (Z.shiftr c 16 + c)). unfold is_u16 in *. lia.
Qed.

Lemma encodeOspfHdr_wire type n rid area auth ck k : len rid = 4 -> len area = 4 ->
  encodeOspfHdr {| ver := OSPF_VERSION_2; pktType := type; pktlen := n; routerId := rid; areaId := area; chksum := ck;
                   authType := auth; authKey := k |} = Ok (packet_header type n rid area 0 auth (make 8)).
Proof.
  intros (r0 & r1 & r2 & r3 & ->)%len_4_inv (a0 & a1 & a2 & a3 & ->)%len_4_inv. reflexivity.
Qed.

Lemma len_8_inv {A} (s : list A) : len s = 8 -> exists a b c d e f g h, s = [a; b; c; d; e; f; g; h].
Proof.
  intros H. rewrite <- (take_drop 4 s) in H |- *.
  destruct (len_4_inv (take 4 s)) as (a & b & c & d & E1); [unfold len in *; rewrite length_take; rewrite length_app, length_take, length_drop in H; lia|].
  destruct (len_4_inv (drop 4 s)) as (e & f & g & h & E2); [unfold len in *; rewrite length_drop; rewrite length_app, length_take, length_drop in H; lia|].
  rewrite E1, E2. by exists a, b, c, d, e, f, g, h.
Qed.

(** What an interface that sends has configured. *)
Record sender (ent : IntfConf) (s : OSPFServer) : Prop := {
  sender_id : len (RouterId s) = 4;
  sender_area : len (IfAreaId ent) = 4;
  sender_auth : is_u16 (IfAuthType ent);
  sender_key : len (IfAuthKey ent) = 8;
}.

Section sealed.
Context (ent : IntfConf) (s : OSPFServer) (Hs : sender ent s).

Lemma seal_wire type n body : Nat.Even (length body) -> exists ck, is_u16 ck /\
  Util.computeCheckSum (packet_header type (u16 n) (RouterId s) (IfAreaId ent) 0 (IfAuthType ent) (make 8) ++ body) = Ok ck /\
  seal type n body ent s = Ok (packet_header type (u16 n) (RouterId s) (IfAreaId ent) ck (IfAuthType ent) (IfAuthKey ent) ++ body).
Proof.
  intros Hb. destruct Hs as [Hr Ha _ Hk]. unfold seal. rewrite encodeOspfHdr_wire, bind_Ok by done.
  destruct (len_8_inv _ Hk) as (k0 & k1 & k2 & k3 & k4 & k5 & k6 & k7 & ->).
  destruct (len_4_inv _ Hr) as (r0 & r1 & r2 & r3 & ->). destruct (len_4_inv _ Ha) as (a0 & a1 & a2 & a3 & ->).
  destruct (computeCheckSum_even (packet_header type (u16 n) [r0; r1; r2; r3] [a0; a1; a2; a3] 0 (IfAuthType ent) (make 8) ++ body)) as (ck & Hck & Hu).
  { rewrite length_app. destruct Hb as [m ->]. exists (12 + m)%nat. cbn. change (length (make 8)) with 8%nat. lia. }
  exists ck. split; [done|]. split; [done|]. rewrite Hck, bind_Ok. unfold packet_header. rewrite <- !app_assoc.
  rewrite PutUint16_app by done. rewrite bind_Ok. unfold copy_in. rewrite !app_assoc, <- (app_assoc _ (make 8)).
  rewrite gocopy_app by done. reflexivity.
Qed.

(** A neighbor reads the fields. *)
Lemma decodeOspfHdr_wire type n ck k body : is_u16 ck -> len k = 8 ->
  decodeOspfHdr (packet_header type (u16 n) (RouterId s) (IfAreaId ent) ck (IfAuthType ent) k ++ body) =
  Ok {| ver := 2; pktType := type; pktlen := u16 n; routerId := RouterId s; areaId := IfAreaId ent; chksum := ck;
        authType := IfAuthType ent; authKey := k |}.
Proof.
  intros Hck Hk. destruct Hs as [Hr Ha Hu _].
  destruct (len_8_inv _ Hk) as (k0 & k1 & k2 & k3 & k4 & k5 & k6 & k7 & ->).
  destruct (len_4_inv _ Hr) as (r0 & r1 & r2 & r3 & ->). destruct (len_4_inv _ Ha) as (a0 & a1 & a2 & a3 & ->).
  unfold decodeOspfHdr, packet_header, packet_header_start. unfold slice, sget. gocbn.
  by rewrite !be16_split by auto using u16_range.
Qed.

(** The interface of a neighbor in the same area, with the same authentication. *)
Record hears (sr : OSPFServer) (key : IntfConfKey) (er : IntfConf) : Prop := {
  hears_intf : IntfConfMap sr !! key = Some er;
  hears_version : Version sr = 2;
  hears_area : IfAreaId er = IfAreaId ent;
  hears_auth : IfAuthType er = IfAuthType ent;
}.

Lemma bytesEqual_eq x y : Util.bytesEqual x y = bool_decide (x = y).
Proof.
  unfold Util.bytesEqual. destruct (len x =? len y) eqn:E; cbn [negb]; zhyp; unfold len in E.
  - assert (Hl : length x = length y) by lia. clear E. revert y Hl.
    induction x as [|b x IH]; intros [|c y] Hl; cbn in Hl; try lia; [done|]. cbn [combine forallb].
    rewrite IH by lia. apply eq_true_iff_eq. rewrite andb_true_iff, Z.eqb_eq, !bool_decide_eq_true. naive_solver.
  - rewrite bool_decide_eq_false_2; [done|]. by intros ->.
Qed.

Definition received_md (type n : Z) (area : Z) : OspfHdrMetadata :=
  {| md_pktType := type; md_pktlen := u16 n; backbone := Util.bytesEqual (IfAreaId ent) [0; 0; 0; 0]; md_routerId := RouterId s;
     md_areaId := area |}.

Lemma header_accepted sr key er type n body ospf : hears sr key er -> Nat.Even (length body) -> seal type n body ent s = Ok ospf ->
  exists p area, processOspfHeader ospf key sr = Ok (p, received_md type n area) /\ Uint32 (E := Empty_set) (IfAreaId ent) = Ok area /\
    slice_from (E := PktErr) p OSPF_HEADER_SIZE = Ok body.
Proof.
  intros [Hi Hv Ha Hau] Hb. destruct (seal_wire type n body Hb) as (ck & Hu & Hck & ->). intros <-%Ok_inj.
  set (h := packet_header type (u16 n) (RouterId s) (IfAreaId ent) ck (IfAuthType ent) (IfAuthKey ent)).
  exists (packet_header type (u16 n) (RouterId s) (IfAreaId ent) 0 (IfAuthType ent) (make 8) ++ body).
  destruct (len_4_inv _ (sender_area _ _ Hs)) as (a0 & a1 & a2 & a3 & Ea).
  exists (a0 * 16777216 + a1 * 65536 + a2 * 256 + a3). unfold processOspfHeader.
  assert (Hl : len h = 24). { destruct Hs. by apply len_packet_header. }
  rewrite len_app, Hl. pose proof (len_nonneg body). unfold OSPF_HEADER_SIZE at 1. zif. rewrite Hi.
  unfold h. rewrite decodeOspfHdr_wire by (done || by eapply sender_key). fold h. cbn [lift]. rewrite bind_Ok. cbn [ver areaId authType chksum].
  rewrite Hv. zif. rewrite Ha.
  assert (Eb : Util.bytesEqual (IfAreaId ent) (IfAreaId ent) = true) by (rewrite bytesEqual_eq; by apply bool_decide_eq_true).
  rewrite Eb. cbn [negb]. rewrite andb_false_r. cbn [andb].
  assert (Hst : len (packet_header_start type (u16 n) (RouterId s) (IfAreaId ent)) = 12).
  { unfold packet_header_start. destruct Hs. lens. rewrite ?len_be16. cbn. lia. }
  unfold h, packet_header. rewrite <- !app_assoc. rewrite PutUint16_app by (rewrite ?Hst; done). rewrite bind_Ok.
  unfold copy_in. change (take 8 (make 8)) with (make 8). rewrite !app_assoc, <- (app_assoc _ (IfAuthKey ent)).
  rewrite gocopy_app; [ | lens; rewrite Hst, ?len_be16; done | pose proof (sender_key _ _ Hs) as Hk; unfold len in Hk; rewrite length_make; lia].
  rewrite bind_Ok.
  unfold packet_header in Hck. rewrite <- !app_assoc in Hck |- *. rewrite Hck. cbn [lift]. rewrite bind_Ok, Z.eqb_refl. cbn [negb].
  rewrite Ea. cbn [Uint32]. rewrite bind_Ok, <- Ea. split; [by rewrite <- !app_assoc|]. split; [done|].
  rewrite app_assoc. apply slice_from_app. lens. rewrite Hst, ?len_be16. done.
Qed.
End sealed.

(** ** Hello *)

Definition hello_wire (h : OSPFHelloData) : bytes :=
  netmask h ++ be16 (helloInterval h) ++ [options h; rtrPrio h] ++ be32 (rtrDeadInterval h) ++ designatedRtr h ++ backupDesignatedRtr h.
Record hello_ok (h : OSPFHelloData) : Prop := {
  hello_mask : len (netmask h) = 4;
  hello_interval : is_u16 (helloInterval h);
  hello_dead : is_u32 (rtrDeadInterval h);
  hello_dr : len (designatedRtr h) = 4;
  hello_bdr : len (backupDesignatedRtr h) = 4;
}.

Lemma encode_hello h : hello_ok h -> encodeOspfHelloData h = Ok (hello_wire h) /\ len (hello_wire h) = 20.
Proof.
  destruct h as [m hi o p di d b]. intros [Hm _ _ Hd Hb]; cbn in *.
  destruct (len_4_inv _ Hm) as (m0 & m1 & m2 & m3 & ->). destruct (len_4_inv _ Hd) as (d0 & d1 & d2 & d3 & ->).
  destruct (len_4_inv _ Hb) as (b0 & b1 & b2 & b3 & ->). done.
Qed.

Lemma decode_hello h rest beyond : hello_ok h -> decodeOspfHelloData {| b_data := hello_wire h ++ rest; b_beyond := beyond |} = Ok h.
Proof.
  destruct h as [m hi o p di d b]. intros [Hm Hi Hdi Hd Hb]; cbn in *.
  destruct (len_4_inv _ Hm) as (m0 & m1 & m2 & m3 & ->). destruct (len_4_inv _ Hd) as (d0 & d1 & d2 & d3 & ->).
  destruct (len_4_inv _ Hb) as (b0 & b1 & b2 & b3 & ->).
  unfold decodeOspfHelloData, bslice, hello_wire, slice, sget. gocbn. rewrite be16_split, be32_split by done. done.
Qed.

(** The words of a list of neighbors. *)
Definition words (ids : list Z) : bytes := concat (be32 <$> ids).
Lemma len_words ids : len (words ids) = 4 * len ids.
Proof. induction ids as [|i ids IH]; [done|]. cbn [words fmap list_fmap concat] in *. lens. fold (words ids). rewrite IH. lia. Qed.

Lemma hello_lists_words {E} ids : forall pre rest beyond i j rid,
  j = len pre -> i = j + 4 -> len pre + 4 * len ids < 65536 ->
  hello_lists (E := E) (length ids) {| b_data := pre ++ words ids ++ rest; b_beyond := beyond |} i j rid =
  Ok (existsb (fun id => bool_decide (be32 id = rid)) ids).
Proof.
  induction ids as [|id ids IH]; intros pre rest beyond i j rid -> -> Hl; [done|]. cbn [length hello_lists existsb].
  rewrite len_cons in Hl. pose proof (len_nonneg ids). pose proof (len_nonneg pre).
  unfold bslice. cbn [b_data b_beyond words fmap list_fmap concat]. rewrite <- !app_assoc.
  rewrite slice_app by (rewrite ?len_be32; lia). rewrite bind_Ok, bytesEqual_eq.
  destruct (bool_decide (be32 id = rid)); [done|]. cbn [orb].
  change (concat (be32 <$> ids)) with (words ids). rewrite app_assoc.
  apply (IH (pre ++ be32 id)); lens; rewrite ?u16_id by (unfold is_u16; lia); lia.
Qed.

(** The identifiers of the neighbors of an interface, in the order of the map. *)
Definition nbr_ids {mo : MapOrder} (ent : IntfConf) (s : OSPFServer) : list Z :=
  (fun key => OspfNbrRtrId (default zero_nbr (NeighborConfigMap s !! key))) <$> range (NeighborMap ent).

Section hello.
Context {mo : MapOrder} {mok : MapOrderOk}.

Lemma hello_neighbors_words ent s : hello_neighbors ent s = Ok (words (nbr_ids ent s)).
Proof.
  unfold hello_neighbors, for_map, nbr_ids. set (f := fun key : NeighborConfKey => OspfNbrRtrId (default zero_nbr (NeighborConfigMap s !! key))).
  assert (H : forall l acc, (forall k, k ∈ l -> is_Some (NeighborMap ent !! k)) ->
    for_each (fun k neighbor => match NeighborMap ent !! k with
      | Some _ => nbr ← PutUint32 (E := Empty_set) (make 4) 0 (f k); Ok (neighbor ++ nbr) | None => Ok neighbor end) l acc = Ok (acc ++ words (f <$> l))).
  { induction l as [|k l IH]; intros acc Hl; cbn [for_each]; [by rewrite app_nil_r|].
    destruct (Hl k) as [n ->]; [by left|]. change (PutUint32 (make 4) 0 (f k)) with (Ok (E := Empty_set) (be32 (f k))).
    rewrite !bind_Ok, IH by (intros; apply Hl; by right). by rewrite <- app_assoc. }
  rewrite H; [done|]. intros k Hk. rewrite (range_keys _ _ (NeighborMap ent)) in Hk.
  apply list_elem_of_fmap in Hk as ([k' a] & -> & Hk). apply elem_of_map_to_list in Hk. by eexists.
Qed.

Lemma len_nbr_ids ent s : len (nbr_ids ent s) = Z.of_nat (size (NeighborMap ent)).
Proof.
  unfold nbr_ids, len. rewrite length_fmap, (Permutation_length (range_keys _ _ (NeighborMap ent))), length_fmap.
  by rewrite length_map_to_list.
Qed.
End hello.

(** ** Frames *)

(** The checksum of the Internet (RFC 1071), of fewer than 65537 words: a second carry is added too. *)
Fixpoint sum_pairs (pkt : bytes) : Z := match pkt with a :: b :: pkt => a * 256 + b + sum_pairs pkt | _ => 0 end.
Definition fold_carry (s : Z) : Z := s / 65536 + s mod 65536.
Definition internet_checksum (pkt : bytes) : Z := 65535 - fold_carry (fold_carry (sum_pairs pkt)).

(** The header of a datagram of [n] bytes, without options or fragments. *)
Definition ip_header (ip : IPv4Layer) (src dst : bytes) (n ck : Z) : bytes :=
  [69; ip_TOS ip] ++ be16 (20 + n) ++ [0; 0; 0; 0; TTL ip; Protocol ip] ++ be16 ck ++ src ++ dst.

(** What the package documents of a frame it builds from layers with addresses of the right sizes, lengths fixed and checksums
    computed: it has these layers again. *)
Class GopacketOk {gp : Gopacket} : Prop :=
  frame_layers : forall eth ip payload src dst,
    len (SrcMAC eth) = 6 -> len (DstMAC eth) = 6 -> EthernetType eth = 2048 ->
    To4 (SrcIP ip) = Some src -> To4 (DstIP ip) = Some dst -> len payload < 65516 ->
    exists beyond, NewPacket (SerializeLayers eth ip payload) =
      {| eth_layer := Some (SrcMAC eth);
         ip_layer := Some {| LayerContents := ip_header ip src dst (len payload) (internet_checksum (ip_header ip src dst (len payload) 0));
                             rx_SrcIP := src; rx_DstIP := dst; rx_Protocol := Protocol ip; LayerPayload := payload; Beyond := beyond |} |}.

(** The daemon adds the carry once: its checksum is that of the Internet unless there is a second carry. *)
Lemma csum_pairs_sum pkt : bytes_ok pkt -> Nat.Even (length pkt) -> forall c, 0 <= c -> c + sum_pairs pkt < 4294967296 ->
  Util.csum_pairs pkt c = Ok (c + sum_pairs pkt) /\ 0 <= sum_pairs pkt.
Proof.
  intros Hok [n Hn]. revert pkt Hok Hn. induction n as [|n IH]; intros [|a [|b pkt]] Hok Hn c Hc; cbn [length] in Hn; try lia; cbn [sum_pairs Util.csum_pairs].
  { intros _. split; [|lia]. f_equal. lia. }
  intros Hs. inversion_clear Hok as [|? ? Ha Hok']. inversion_clear Hok' as [|? ? Hb Hok]. unfold is_u8 in *.
  assert (Hp : 0 <= sum_pairs pkt).
  { clear -Hok Hn. assert (Hn' : (length pkt <= n + n)%nat) by lia. clear Hn. revert pkt Hok Hn'. induction n as [|n IH]; intros [|x [|y pkt]] Hok Hn; cbn [length sum_pairs] in *; try lia.
    inversion_clear Hok as [|? ? Ha Hok']. inversion_clear Hok' as [|? ? Hb Hok]. unfold is_u8 in *. specialize (IH pkt Hok ltac:(lia)). lia. }
  rewrite Z.shiftl_mul_pow2 by lia. change (2 ^ 8) with 256. rewrite (u32_id (a * 256)) by (unfold is_u32; lia).
  rewrite (u32_id (c + _)) by (unfold is_u32; lia). rewrite u32_id by (unfold is_u32; lia).
  destruct (IH pkt Hok ltac:(lia) (c + a * 256 + b)) as [-> _]; [lia | lia |]. split; [f_equal|]; lia.
Qed.

Lemma checksum_one_carry pkt : bytes_ok pkt -> Nat.Even (length pkt) -> sum_pairs pkt < 4294967296 -> fold_carry (sum_pairs pkt) < 65536 ->
  Util.computeCheckSum pkt = Ok (internet_checksum pkt) /\ is_u16 (internet_checksum pkt).
Proof.
  intros Hok He Hs Hf. destruct (csum_pairs_sum pkt Hok He 0) as [Hc Hp]; [lia | lia |].
  unfold Util.computeCheckSum. rewrite Hc, bind_Ok. unfold internet_checksum. set (S := sum_pairs pkt) in *. clearbody S.
  rewrite Z.shiftr_div_pow2 by lia. change (2 ^ 16) with 65536. unfold fold_carry in *. unfold is_u16, u16.
  pose proof (Z.mod_pos_bound S 65536 eq_refl). pose proof (Z.div_pos S 65536 Hp eq_refl). pose proof (Z.div_mod S 65536 ltac:(lia)).
  rewrite Z.add_0_l. set (q := S / 65536) in *. set (r := S mod 65536) in *.
  rewrite (Z.div_small (q + r)), (Z.mod_small (q + r)) by lia. split; [|lia].
  rewrite <- (Z.mod_unique (q + S) 65536 q (q + r)); [done | lia | lia].
Qed.

(** Two interfaces on a link: [ea] of the router [sa], and the interface [key] of the router [sb]. *)
Record link (ea : IntfConf) (sa : OSPFServer) (key : IntfConfKey) (eb : IntfConf) (sb : OSPFServer) (src : bytes) : Prop := {
  link_sender : sender ea sa;
  link_hears : hears ea sb key eb;
  link_src : To4 (IfIpAddr ea) = Some src;
  link_bytes : bytes_ok src;
  link_mac : len (IfMacAddr ea) = 6;
  link_other : ip_Equal (IfIpAddr eb) src = false;
}.
(** What the receiver takes as addressed to it. *)
Definition for_us (eb : IntfConf) (dst : bytes) : Prop :=
  exists dst4, To4 dst = Some dst4 /\ bytes_ok dst4 /\ (ip_Equal (IfIpAddr eb) dst4 = true \/ ip_Equal allSPFRouter dst4 = true).

Lemma for_us_all eb : for_us eb allSPFRouter /\ for_us eb [224; 0; 0; 5].
Proof. split; exists [224; 0; 0; 5]; (split; [reflexivity|]; split; [repeat constructor; unfold is_u8; lia | right; reflexivity]). Qed.

Section frames.
Context {gp : Gopacket} {gpk : GopacketOk}.
Context ea sa key eb sb src (L : link ea sa key eb sb src).


(** The header of the datagram has no second carry. *)
Definition one_carry (dst : bytes) (n : Z) : Prop :=
  forall dst4, To4 dst = Some dst4 -> fold_carry (sum_pairs (ip_header (frame_ip n dst ea) src dst4 n 0)) < 65536.

Lemma ipv4_accepted n payload dst dst4 beyond : To4 dst = Some dst4 -> bytes_ok dst4 -> 0 <= n ->
  (ip_Equal (IfIpAddr eb) dst4 = true \/ ip_Equal allSPFRouter dst4 = true) -> one_carry dst n ->
  processIPv4Layer
    {| LayerContents := ip_header (frame_ip n dst ea) src dst4 n (internet_checksum (ip_header (frame_ip n dst ea) src dst4 n 0));
       rx_SrcIP := src; rx_DstIP := dst4; rx_Protocol := OSPF_PROTO_ID; LayerPayload := payload; Beyond := beyond |} (IfIpAddr eb) =
  Ok {| srcIP := src; dstIP := dst4; dstIPType := if ip_Equal allSPFRouter dst4 then AllSPFRouter
          else if ip_Equal allDRouter dst4 then AllDRouter else Normal |}.
Proof.
  intros Hd Hdb Hn Hus Hc. specialize (Hc _ Hd). destruct L as [_ _ Hsrc Hsb _ Ho].
  pose proof (To4_len _ _ Hd) as Hl4. pose proof (To4_len _ _ Hsrc) as Hs4.
  set (h0 := ip_header (frame_ip n dst ea) src dst4 n 0) in *.
  destruct (len_4_inv _ Hl4) as (d0 & d1 & d2 & d3 & Ed). destruct (len_4_inv _ Hs4) as (s0 & s1 & s2 & s3 & Es).
  assert (Hok : bytes_ok h0).
  { unfold h0, ip_header. rewrite !bytes_ok_app. split_and!; auto using be16_ok; apply Forall_true_bytes; reflexivity. }
  destruct (checksum_one_carry h0) as [Hck Hu]; [done | | | done |].
  { exists 10%nat. unfold h0, ip_header. rewrite Ed, Es. done. }
  { unfold fold_carry in Hc. destruct (Z.lt_trichotomy (sum_pairs h0 / 65536) 65536) as [?|?]; pose proof (Z.mod_pos_bound (sum_pairs h0) 65536 eq_refl);
      pose proof (Z.div_mod (sum_pairs h0) 65536 ltac:(lia)); lia. }
  unfold processIPv4Layer. cbn [LayerContents rx_SrcIP rx_DstIP rx_Protocol].
  set (ck := internet_checksum h0) in *.
  assert (Hp : forall v, ip_header (frame_ip n dst ea) src dst4 n v =
    ([69; 192] ++ be16 (20 + n) ++ [0; 0; 0; 0; 1; 89]) ++ be16 v ++ src ++ dst4) by (intros; unfold ip_header; by rewrite <- !app_assoc).
  rewrite Hp. rewrite slice_app by done. rewrite bind_Ok.
  rewrite <- (app_nil_r (be16 ck)) at 1. rewrite Uint16_be16, bind_Ok by done.
  rewrite PutUint16_app by done. rewrite bind_Ok, <- Hp. fold h0. rewrite Hck. cbn [lift]. rewrite bind_Ok, Z.eqb_refl. cbn [negb].
  rewrite Ho. rewrite (To4_4 src), (To4_4 dst4) by done. cbn [default].
  destruct Hus as [->| ->]; cbn [negb andb]; [done|]. by rewrite andb_false_r.
Qed.

Lemma packet_accepted type body ospf dst dmac : let n := OSPF_HEADER_SIZE + len body in
  for_us eb dst -> len dmac = 6 -> Nat.Even (length body) -> n < 65516 -> one_carry dst n ->
  seal type n body ea sa = Ok ospf ->
  exists ipMd area beyond, srcIP ipMd = src /\ Uint32 (E := Empty_set) (IfAreaId ea) = Ok area /\
    ProcessOspfRecvPkt key (NewPacket (ospf_frame n dst dmac ospf ea)) sb =
    dropped (processOspfData {| b_data := body; b_beyond := beyond |} (IfMacAddr ea) ipMd (received_md ea sa type n area) key sb) sb.
Proof.
  intros n (dst4 & Hd & Hdb & Hus) Hdm Hb Hl Hcarry Hseal. pose proof L as [Hs Hh Hsrc _ Hmac _].
  destruct (header_accepted ea sa Hs sb key eb type n body ospf Hh Hb Hseal) as (p & area & Hp & Harea & Hdrop).
  assert (Hlo : len ospf = n).
  { destruct (seal_wire ea sa Hs type n body Hb) as (ck & _ & _ & Hw). rewrite Hseal in Hw. apply Ok_inj in Hw as ->.
    destruct Hs. by rewrite len_app, len_packet_header. }
  destruct (frame_layers {| SrcMAC := IfMacAddr ea; DstMAC := dmac; EthernetType := 2048 |} (frame_ip n dst ea) ospf src dst4
              Hmac Hdm eq_refl Hsrc Hd ltac:(lia)) as (beyond & Hf).
  eexists {| srcIP := src; dstIP := dst4; dstIPType := _ |}, area, beyond. split; [done|]. split; [done|].
  unfold ospf_frame. rewrite Hf. unfold ProcessOspfRecvPkt. cbn [eth_layer ip_layer SrcMAC]. rewrite (hears_intf _ _ _ _ Hh).
  unfold receive_frame. cbn [LayerPayload Beyond]. rewrite Hp, Hlo. unfold frame_ip at 3. cbn [Protocol].
  rewrite (ipv4_accepted n ospf dst dst4 beyond) by (done || (unfold n, OSPF_HEADER_SIZE; pose proof (len_nonneg body); lia)).
  rewrite !bind_Ok, Hdrop, bind_Ok. done.
Qed.
End frames.

Lemma convertIPv4_be32 v : is_u32 v -> Util.convertIPv4ToUint32 (be32 v) = Ok v.
Proof.
  intros Hv. pose proof (be32_split v Hv) as Hs. unfold Util.convertIPv4ToUint32, be32, sget. gocbn.
  pose proof (u8_range (v / 16777216)). pose proof (u8_range (v / 65536)). pose proof (u8_range (v / 256)). pose proof (u8_range v).
  rewrite !Z.shiftl_mul_pow2 by lia. change (2 ^ 8) with 256. unfold is_u8, is_u32 in *.
  rewrite (u32_id (0 + _)) by (unfold is_u32; lia). rewrite (u32_id (_ + u8 (v / 65536))) by (unfold is_u32; lia).
  rewrite (u32_id (_ + u8 (v / 256))) by (unfold is_u32; lia). rewrite u32_id by (unfold is_u32; lia). f_equal. lia.
Qed.

Definition nbr_at (ip : Z) (key : IntfConfKey) : NeighborConfKey :=
  {| nk_IPAddr := ip_String (v4InV6Prefix ++ be32 ip); nk_IntfIdx := ik_IntfIdx key |}.
Lemma nbr_key_be32 {E} ip key : nbr_key (E := E) (be32 ip) key = Ok (nbr_at ip key).
Proof. reflexivity. Qed.

Lemma be32_inj a b : is_u32 a -> is_u32 b -> be32 a = be32 b -> a = b.
Proof. intros Ha Hb E. rewrite <- (be32_split a Ha), <- (be32_split b Hb). unfold be32 in E. by injection E as -> -> -> ->. Qed.

(** What a hello of the router [rid] at [ip] makes the interface do: a neighbor is made known or its change is, the neighbor machine
    hears of the hello, and an interface that waits learns that there is a backup router. *)
(** Where the neighbor is known by its address, not by its identifier. *)
Definition numbered (type : Z) : bool :=
  (type =? Broadcast) || (type =? Nbma) || (type =? PointToMultipoint) || (type =? NumberedP2P).
Section heard.
Context (key : IntfConfKey) (eb : IntfConf) (rid ip : Z) (h : OSPFHelloData) (twoway : bool).

Definition hello_msg : NeighMsg :=
  {| nm_RouterId := rid; nm_NbrIP := ip; nm_TwoWayStatus := twoway; nm_RtrPrio := rtrPrio h; nm_DRtr := designatedRtr h;
     nm_BDRtr := backupDesignatedRtr h |}.
Definition known_as (n : NeighborData) : Prop :=
  TwoWayStatus n = twoway /\ DRtr n = designatedRtr h /\ BDRtr n = backupDesignatedRtr h /\ RtrPrio n = rtrPrio h.
#[global] Instance known_as_dec n : Decision (known_as n).
Proof. unfold known_as. apply _. Defined.
Definition nbr_news : list Out :=
  match NeighborMap eb !! nbr_at ip key with
  | None => [NeighCreate key hello_msg]
  | Some n => if decide (known_as n) then [] else [NeighChange key hello_msg]
  end.
(** The neighbor is the designated router of a network with a backup, or the backup. *)
Definition claims : option (bytes * bytes) :=
  if bool_decide (be32 ip = designatedRtr h) then
    if bool_decide (backupDesignatedRtr h = [0; 0; 0; 0]) then None else Some (backupDesignatedRtr h, be32 ip)
  else if bool_decide (be32 ip = backupDesignatedRtr h) then Some (be32 ip, designatedRtr h) else None.
Definition backup_news : option (list Out) :=
  if twoway && (IfFSMState eb =? Waiting) then
    '(bdr, dr) ← claims;
    Some (match WaitTimer eb with Some true => [BackupSeen key rid bdr dr] | _ => [] end)
  else None.
Definition hello_news : list Out :=
  nbr_news ++ [HelloRecvd {| im_IntfConfKey := key; im_RouterId := rid; im_RtrPrio := rtrPrio h; im_NeighborIP := v4InV6Prefix ++ be32 (if numbered (IfType eb) then ip else rid);
                             im_nbrDeadTimer := IfRtrDeadInterval eb * 1000000000; im_TwoWayStatus := twoway |}]
    ++ default [] backup_news.
End heard.

(** Messages are sent. *)
Definition puts (l : list Out) (s : OSPFServer) : OSPFServer := set_out (out s ++ l) s.
Lemma puts_nil s : puts [] s = s.
Proof. unfold puts. rewrite app_nil_r. by destruct s. Qed.
Lemma put_puts o l s : put o (puts l s) = puts (l ++ [o]) s.
Proof. unfold put, puts, set_out. cbn. by rewrite app_assoc. Qed.

Definition after_hello key eb rid ip h twoway (sb : OSPFServer) : OSPFServer :=
  puts (hello_news key eb rid ip h twoway)
    (if backup_news key eb rid ip h twoway then set_IntfConfMap (<[key := set_WaitTimer (Some false) eb]> (IntfConfMap sb)) sb else sb).

Lemma news_of_neighbor key eb rid ip h twoway s :
  match NeighborMap eb !! nbr_at ip key with
  | None => put (NeighCreate key (hello_msg rid ip h twoway)) s
  | Some n =>
    if negb (eqb (TwoWayStatus n) twoway) || negb (Util.bytesEqual (DRtr n) (designatedRtr h)) ||
       negb (Util.bytesEqual (BDRtr n) (backupDesignatedRtr h)) || negb (RtrPrio n =? rtrPrio h)
    then put (NeighChange key (hello_msg rid ip h twoway)) s else s
  end = puts (nbr_news key eb rid ip h twoway) s.
Proof.
  unfold nbr_news. destruct (NeighborMap eb !! nbr_at ip key) as [n|]; [|done]. rewrite !bytesEqual_eq.
  destruct (decide (known_as h twoway n)) as [(-> & -> & -> & ->)|Hn].
  - rewrite eqb_reflx, !bool_decide_eq_true_2, Z.eqb_refl by done. cbn. by rewrite puts_nil.
  - destruct (negb (eqb _ _) || _ || _ || _) eqn:E; [done|]. destruct Hn. rewrite !orb_false_iff, !negb_false_iff in E.
    destruct E as (((E1%eqb_prop & E2%bool_decide_eq_true) & E3%bool_decide_eq_true) & E4%Z.eqb_eq). done.
Qed.

Lemma send_hello_recvd rid ip md ipMd dead type twoway prio key s : md_routerId md = be32 rid -> srcIP ipMd = be32 ip ->
  CreateAndSendHelloRecvdMsg rid ipMd md dead type twoway prio key s =
  Ok (put (HelloRecvd {| im_IntfConfKey := key; im_RouterId := rid; im_RtrPrio := prio;
                         im_NeighborIP := v4InV6Prefix ++ be32 (if numbered type then ip else rid);
                         im_nbrDeadTimer := dead; im_TwoWayStatus := twoway |}) s).
Proof. intros Emd Esrc. unfold CreateAndSendHelloRecvdMsg. rewrite Emd, Esrc. fold (numbered type). by destruct (numbered type). Qed.

Lemma stop_and_tell eb key sb l msg : IntfConfMap sb !! key = Some eb -> WaitTimer eb <> None ->
  ('(s, ret) ← stop_wait key (puts l sb); Ok (if ret : bool then put msg s else s)) =
  Ok (puts (l ++ match WaitTimer eb with Some true => [msg] | _ => [] end)
        (set_IntfConfMap (<[key := set_WaitTimer (Some false) eb]> (IntfConfMap sb)) sb)).
Proof.
  intros Hk Hw. unfold stop_wait. change (IntfConfMap (puts l sb)) with (IntfConfMap sb). rewrite Hk. cbn [default].
  change (id eb) with eb. destruct (WaitTimer eb) as [ret|]; [|done]. rewrite bind_Ok.
  replace (alter (set_WaitTimer (Some false)) key (IntfConfMap sb)) with (<[key := set_WaitTimer (Some false) eb]> (IntfConfMap sb)).
  2: { apply map_eq. intros k. destruct (decide (k = key)) as [->|?]; by simplify_map_eq. }
  destruct ret; [by rewrite <- put_puts|]. by rewrite app_nil_r.
Qed.

Lemma hello_neighbor key eb sb rid ip h twoway md ipMd : IntfConfMap sb !! key = Some eb -> is_u32 rid -> is_u32 ip ->
  md_routerId md = be32 rid -> srcIP ipMd = be32 ip -> (IfFSMState eb = Waiting -> WaitTimer eb <> None) ->
  processOspfHelloNeighbor twoway h ipMd md key sb = Ok (after_hello key eb rid ip h twoway sb).
Proof.
  intros Hk Hr Hi Emd Esrc Hw. unfold processOspfHelloNeighbor. rewrite Emd, Esrc, !convertIPv4_be32, !bind_Ok by done.
  rewrite nbr_key_be32, bind_Ok, Hk. cbn [default]. change (id eb) with eb. rewrite (send_hello_recvd rid ip) by done. rewrite bind_Ok.
  fold (hello_msg rid ip h twoway). rewrite news_of_neighbor, put_puts.
  unfold after_hello, hello_news, backup_news. set (pre := nbr_news key eb rid ip h twoway ++ _). rewrite !bytesEqual_eq.
  destruct (twoway && (IfFSMState eb =? Waiting)) eqn:Ew; [|by rewrite app_nil_r].
  apply andb_true_iff in Ew as [_ Ew%Z.eqb_eq]. specialize (Hw Ew).
  rewrite app_assoc. fold pre.
  unfold claims. destruct (bool_decide (be32 ip = designatedRtr h)).
  - destruct (bool_decide (backupDesignatedRtr h = _)); cbn [negb mbind option_bind default]; [by rewrite app_nil_r|].
    by rewrite (stop_and_tell eb).
  - destruct (bool_decide (be32 ip = backupDesignatedRtr h)); cbn [mbind option_bind default]; [|by rewrite app_nil_r].
    by rewrite (stop_and_tell eb).
Qed.

(** The interfaces agree on what a hello carries. *)
Record same_hello (ea : IntfConf) (sa : OSPFServer) (eb : IntfConf) : Prop := {
  sh_mask : IfNetmask eb = IfNetmask ea /\ len (IfNetmask ea) = 4;
  sh_interval : IfHelloInterval eb = IfHelloInterval ea /\ is_u16 (IfHelloInterval ea);
  sh_dead : IfRtrDeadInterval eb = IfRtrDeadInterval ea /\ is_u32 (IfRtrDeadInterval ea);
  sh_routers : len (IfDRIp ea) = 4 /\ len (IfBDRIp ea) = 4;
  sh_backbone : IfAreaId ea = [0; 0; 0; 0] -> isStubArea sa "0.0.0.0" = false;
}.
(** What it says. *)
Definition hello_of (ea : IntfConf) (o : Z) : OSPFHelloData :=
  {| netmask := IfNetmask ea; helloInterval := IfHelloInterval ea; options := o; rtrPrio := IfRtrPriority ea;
     rtrDeadInterval := IfRtrDeadInterval ea; designatedRtr := IfDRIp ea; backupDesignatedRtr := IfBDRIp ea |}.

Definition hello_len (ea : IntfConf) : Z := 44 + 4 * Z.of_nat (size (NeighborMap ea)).

(** A hello is built for an interface that is configured. *)
Lemma hello_builds {gp : Gopacket} {mo : MapOrder} {mok : MapOrderOk} ea sa : sender ea sa -> (forall o, hello_ok (hello_of ea o)) ->
  exists v ospf, Util.convertIPv4ToUint32 (IfAreaId ea) = Ok v /\ (IfAreaId ea = [0; 0; 0; 0] -> v = 0) /\
  let o := if isStubArea sa (Util.convertUint32ToIPv4 v) then 0 else 2 in
  seal HelloType (hello_len ea) (hello_wire (hello_of ea o) ++ words (nbr_ids ea sa)) ea sa = Ok ospf /\
  BuildHelloPkt ea sa = Ok (Some (ospf_frame (hello_len ea) [224; 0; 0; 5] McastMAC ospf ea)).
Proof.
  intros Hs Hok. destruct (len_4_inv _ (sender_area _ _ Hs)) as (a0 & a1 & a2 & a3 & Ea).
  assert (Hc : exists v, Util.convertIPv4ToUint32 (IfAreaId ea) = Ok v /\ (IfAreaId ea = [0; 0; 0; 0] -> v = 0)).
  { rewrite Ea. eexists. split; [reflexivity|]. by intros [= -> -> -> ->]. }
  destruct Hc as (v & Hv & H0). exists v. set (o := if isStubArea sa (Util.convertUint32ToIPv4 v) then 0 else 2).
  destruct (seal_wire ea sa Hs HelloType (hello_len ea) (hello_wire (hello_of ea o) ++ words (nbr_ids ea sa))) as (ck & _ & _ & Hw).
  { destruct (encode_hello _ (Hok o)) as [_ Hl]. pose proof (len_words (nbr_ids ea sa)). unfold len in *. rewrite length_app.
    exists (10 + 2 * length (nbr_ids ea sa))%nat. lia. }
  eexists. split; [done|]. split; [done|]. cbv zeta. fold o. split; [exact Hw|].
  unfold BuildHelloPkt. rewrite bool_decide_eq_false_2 by (by rewrite Ea). unfold Util.convertIPInByteToString. rewrite Hv, !bind_Ok.
  rewrite hello_neighbors_words, bind_Ok. fold o. fold (hello_of ea o). destruct (encode_hello _ (Hok o)) as [-> Hl].
  rewrite bind_Ok, len_words, len_nbr_ids. change (OSPF_HEADER_SIZE + OSPF_HELLO_MIN_SIZE) with 44. fold (hello_len ea).
  by rewrite Hw, bind_Ok.
Qed.

Section hello_packet.
Context {gp : Gopacket} {gpk : GopacketOk} {mo : MapOrder} {mok : MapOrderOk}.
Context ea sa key eb sb ip (L : link ea sa key eb sb (be32 ip)) (Hsh : same_hello ea sa eb).

Lemma hello_of_ok o : hello_ok (hello_of ea o).
Proof. destruct Hsh as [[_ Hm] [_ Hi] [_ Hd] [Hr Hb] _]. by split. Qed.

(** A packet is built; the options are clear only in a stub area. *)
Lemma hello_built : exists o ospf, (IfAreaId ea = [0; 0; 0; 0] -> o = 2) /\
  seal HelloType (hello_len ea) (hello_wire (hello_of ea o) ++ words (nbr_ids ea sa)) ea sa = Ok ospf /\
  BuildHelloPkt ea sa = Ok (Some (ospf_frame (hello_len ea) [224; 0; 0; 5] McastMAC ospf ea)).
Proof.
  pose proof L as [Hs _ _ _ _ _]. destruct (hello_builds ea sa Hs hello_of_ok) as (v & ospf & _ & H0 & Hw & Hb).
  eexists _, ospf. split; [|by split]. intros Hz. rewrite (H0 Hz). change (Util.convertUint32ToIPv4 0) with "0.0.0.0".
  by rewrite (sh_backbone _ _ _ Hsh Hz).
Qed.

(** The interface that receives it knows whether the router is listed. *)
Lemma hello_read o beyond ipMd area rid idb : (IfAreaId ea = [0; 0; 0; 0] -> o = 2) -> hello_len ea < 65516 ->
  srcIP ipMd = be32 ip -> is_u32 ip -> RouterId sa = be32 rid -> is_u32 rid -> RouterId sb = be32 idb -> is_u32 idb ->
  Forall is_u32 (nbr_ids ea sa) -> (IfFSMState eb = Waiting -> WaitTimer eb <> None) ->
  processRxHelloPkt {| b_data := hello_wire (hello_of ea o) ++ words (nbr_ids ea sa); b_beyond := beyond |}
    (received_md ea sa HelloType (hello_len ea) area) ipMd (IfMacAddr ea) key sb =
  Ok (after_hello key eb rid ip (hello_of ea o) (bool_decide (idb ∈ nbr_ids ea sa))
        (set_IPToMAC (<[nbr_at ip key := IfMacAddr ea]> (IPToMAC sb)) sb)).
Proof.
  intros Ho Hlen Hsrc Hip Hra Hr Hrb Hb Hids Hw. pose proof L as [Hs Hh _ _ _ _].
  destruct (encode_hello _ (hello_of_ok o)) as [_ Hl]. unfold processRxHelloPkt. cbn [b_data].
  rewrite len_app, Hl, len_words, len_nbr_ids. unfold OSPF_HELLO_MIN_SIZE at 1. zif. rewrite (hears_intf _ _ _ _ Hh). cbn [default].
  change (id eb) with eb.
  rewrite decode_hello by apply hello_of_ok. cbn [lift]. rewrite bind_Ok. cbn [netmask helloInterval rtrDeadInterval options hello_of].
  destruct Hsh as [[-> _] [-> _] [-> _] _ _]. rewrite bytesEqual_eq, bool_decide_eq_true_2, andb_false_r by done.
  rewrite !Z.eqb_refl. cbn [negb].
  assert (Hbb : backbone (received_md ea sa HelloType (hello_len ea) area) && (Z.land o EOption =? 0) = false).
  { cbn [backbone received_md]. rewrite bytesEqual_eq. case_bool_decide as Hz; [|done]. by rewrite (Ho Hz). }
  rewrite Hbb. cbn [md_pktlen received_md]. unfold hello_len, OSPF_HELLO_MIN_SIZE, OSPF_HEADER_SIZE.
  unfold hello_len in Hlen. pose proof (len_nbr_ids ea sa) as Hn.
  rewrite (u16_id (44 + _)) by (unfold is_u16; lia).
  replace (44 + 4 * Z.of_nat (size (NeighborMap ea)) - (20 + 24)) with (4 * len (nbr_ids ea sa)) by lia.
  rewrite u16_id by (unfold is_u16; lia).
  rewrite <- (Z.div_unique (4 * len (nbr_ids ea sa) + 3) 4 (len (nbr_ids ea sa)) 3), to_nat_len by lia.
  rewrite <- (app_nil_r (words (nbr_ids ea sa))), (hello_lists_words (nbr_ids ea sa)) by lia.
  rewrite bind_Ok, Hsrc, nbr_key_be32, bind_Ok, Hrb.
  replace (existsb (fun id => bool_decide (be32 id = be32 idb)) (nbr_ids ea sa)) with (bool_decide (idb ∈ nbr_ids ea sa)).
  { rewrite (hello_neighbor key eb _ rid ip); try done. apply (hears_intf _ _ _ _ Hh). }
  apply eq_true_iff_eq. rewrite bool_decide_eq_true, existsb_exists, list_elem_of_In. rewrite Forall_forall in Hids. split.
  - intros Hin. exists idb. split; [done|]. by apply bool_decide_eq_true.
  - intros (id & Hin & E%bool_decide_eq_true). apply be32_inj in E; [by subst|apply Hids; by apply list_elem_of_In|done].
Qed.
End hello_packet.

