(* ===== verification/OspfPacketSpec.v ===== *)
(** The packets that routers exchange besides hellos: what a neighbor reads in them, and a link between two routers. *)
From stdpp Require Import base numbers list gmap strings.
From Stdlib Require Import ZArith Lia.
From S2P Require Import Prelude GoNet OspfUtil OspfLsa OspfState OspfSpf OspfRoute OspfArea OspfPacket OspfPacketFacts.
Open Scope Z_scope.

(** ** Headers of LSAs *)

Record lsah_ok (h : ospfLSAHeader) : Prop := {
  lsah_age : is_u16 (ls_age h);
  lsah_id : is_u32 (link_state_id h);
  lsah_adv : is_u32 (adv_router_id h);
  lsah_seq : is_u32 (ls_sequence_num h);
  lsah_checksum : is_u16 (ls_checksum h);
  lsah_len : is_u16 (ls_len h);
}.
Definition headers_wire (hs : list ospfLSAHeader) : bytes := concat (header_bytes <$> hs).
Lemma headers_wire_cons h hs : headers_wire (h :: hs) = header_bytes h ++ headers_wire hs.
Proof. reflexivity. Qed.
Lemma headers_wire_snoc hs h : headers_wire (hs ++ [h]) = headers_wire hs ++ header_bytes h.
Proof. unfold headers_wire. rewrite fmap_app, concat_app. by cbn [fmap list_fmap concat]; rewrite app_nil_r. Qed.
Lemma len_headers_wire hs : len (headers_wire hs) = 20 * len hs.
Proof.
  induction hs as [|h hs IH]; [done|]. rewrite headers_wire_cons, len_app, len_cons, IH. change (len (header_bytes h)) with 20. lia.
Qed.

Lemma encode_headers hs : encodeLSAHeader hs = Ok (headers_wire hs).
Proof.
  unfold encodeLSAHeader.
  destruct (for_upto_rule (fun i pkt => pkt = headers_wire (take i hs) ++ make (20 * (len hs - Z.of_nat i)))
    (fun index pkt => match hs !! index with Some h => gocopy (E := Empty_set) pkt (20 * Z.of_nat index) (header_bytes h) | None => Panic end)
    (length hs) 0 (make (len hs * OSPF_LSA_HEADER_SIZE))) as (pkt & -> & Hp).
  - intros j b Hj ->. destruct (lookup_lt_is_Some_2 hs j) as [h Hh]; [lia|]. rewrite Hh.
    replace (20 * (len hs - Z.of_nat j)) with (20 + 20 * (len hs - Z.of_nat (S j))) by lia. unfold len in *.
    rewrite make_add by lia. rewrite gocopy_app; [| rewrite len_headers_wire; unfold len; rewrite length_take; lia | by rewrite length_make].
    eexists. split; [done|]. by rewrite (take_S_r _ _ _ Hh), headers_wire_snoc, <- app_assoc.
  - rewrite Z.sub_0_r, Z.mul_comm. done.
  - cbn [Nat.add] in Hp. rewrite firstn_all in Hp. unfold len in Hp. rewrite Z.sub_diag in Hp. by rewrite Hp, app_nil_r.
Qed.

Lemma decode_lsa_header h rest : lsah_ok h -> decodeLSAHeader (header_bytes h ++ rest) = Ok h.
Proof.
  destruct h. intros [Ha Hi Hd Hs Hc Hl]; cbn in *. unfold decodeLSAHeader, slice, sget, header_bytes. gocbn.
  by rewrite !be16_split, !be32_split.
Qed.

Lemma decode_headers_wire hs pre rest b start stop : b_data b ++ b_beyond b = pre ++ headers_wire hs ++ rest -> Forall lsah_ok hs ->
  (forall i, (i < length hs)%nat -> start i = len pre + 20 * Z.of_nat i /\ stop (start i) = start i + 20) ->
  decode_headers b start stop (length hs) = Ok hs.
Proof.
  intros Hb Hok Hst. unfold decode_headers. rewrite Forall_lookup in Hok.
  destruct (for_upto_rule (fun i '(hb, l) => l = take i hs /\ len (A := Z) hb = 20 * len hs)
    (fun i '(header_byte, l) => piece ← bslice (E := Empty_set) b (start i) (stop (start i));
       header_byte ← gocopy header_byte 0 piece; h ← decodeLSAHeader header_byte; Ok (header_byte, l ++ [h]))
    (length hs) 0 (make (Z.of_nat (length hs) * OSPF_LSA_HEADER_SIZE), [])) as ([hb l] & -> & [-> _]).
  - intros j [hb l] Hj [-> Hlb]. destruct (lookup_lt_is_Some_2 hs j) as [h Hh]; [lia|]. destruct (Hst j) as [E1 E2]; [lia|].
    rewrite E2, E1. unfold bslice. rewrite Hb.
    assert (Ew : headers_wire hs = headers_wire (take j hs) ++ header_bytes h ++ headers_wire (drop (S j) hs)).
    { rewrite <- (take_drop_middle _ _ _ Hh) at 1. unfold headers_wire. by rewrite fmap_app, concat_app. }
    rewrite Ew, <- !app_assoc, (app_assoc pre).
    rewrite slice_app; [|rewrite len_app, len_headers_wire; unfold len; rewrite length_take; lia
                        |change (len (header_bytes h)) with 20; rewrite len_app, len_headers_wire; unfold len; rewrite length_take; lia].
    rewrite bind_Ok. rewrite <- (take_drop 20 hb).
    assert (Hlh : length (take 20 hb) = length (header_bytes h)) 
      by (rewrite length_take; change (length (header_bytes h)) with 20%nat; unfold len in Hlb; lia).
    rewrite (gocopy_app [] (take 20 hb) (drop 20 hb)) by done. rewrite bind_Ok. cbn [app]. rewrite decode_lsa_header by eauto.
    rewrite bind_Ok. eexists. split; [done|]. split; [by rewrite (take_S_r _ _ _ Hh)|].
    unfold len in *. rewrite length_app, length_drop. rewrite length_take in Hlh. lia.
  - split; [done|]. rewrite len_make; unfold len, OSPF_LSA_HEADER_SIZE; lia.
  - rewrite bind_Ok. cbn [Nat.add]. by rewrite firstn_all.
Qed.

(** ** Bodies *)

Definition dbd_bits (d : ospfDatabaseDescriptionData) : Z :=
  (if ibit d then 4 else 0) + (if mbit d then 2 else 0) + (if msbit d then 1 else 0).
Definition dbd_wire (d : ospfDatabaseDescriptionData) : bytes :=
  be16 (interface_mtu d) ++ [2; dbd_bits d] ++ be32 (dd_sequence_number d) ++ headers_wire (lsa_headers d).
(** What is read: the options are always 2, and no headers are read in a first packet. *)
Definition dbd_read (d : ospfDatabaseDescriptionData) : ospfDatabaseDescriptionData :=
  {| dd_options := 2; interface_mtu := interface_mtu d; dd_sequence_number := dd_sequence_number d; ibit := ibit d; mbit := mbit d;
     msbit := msbit d; lsa_headers := if ibit d then [] else lsa_headers d |}.
Record dbd_ok (d : ospfDatabaseDescriptionData) : Prop := {
  dbd_mtu : is_u16 (interface_mtu d);
  dbd_seq : is_u32 (dd_sequence_number d);
  dbd_headers : Forall lsah_ok (lsa_headers d);
}.
Lemma encode_dbd d : encodeDatabaseDescriptionData d = Ok (dbd_wire d) /\ len (dbd_wire d) = 8 + 20 * len (lsa_headers d).
Proof.
  split.
  - unfold encodeDatabaseDescriptionData. rewrite encode_headers. destruct d as [o mtu sn i m ms hs]; cbn [ibit mbit msbit].
    by destruct i, m, ms.
  - unfold dbd_wire. lens. rewrite len_headers_wire. lia.
Qed.

Lemma decode_dbd d beyond : dbd_ok d -> 32 + 20 * len (lsa_headers d) < 65516 ->
  DecodeDatabaseDescriptionData {| b_data := dbd_wire d; b_beyond := beyond |} (32 + 20 * len (lsa_headers d)) = Ok (dbd_read d).
Proof.
  intros [Hm Hs Hh] Hl. unfold DecodeDatabaseDescriptionData, dbd_read.
  set (hs := lsa_headers d) in *. set (n := 32 + 20 * len hs) in *. pose proof (len_nonneg hs) as Hp.
  set (b := {| b_data := dbd_wire d; b_beyond := beyond |}).
  assert (Hr : decode_dbd_headers b n = Ok hs).
  { unfold decode_dbd_headers, OSPF_DBD_MIN_SIZE, OSPF_HEADER_SIZE, OSPF_LSA_HEADER_SIZE. replace (n - (8 + 24)) with (len hs * 20) by lia.
    cbv zeta. rewrite u16_id by (unfold is_u16; lia). rewrite Z.geb_leb.
    destruct (20 <=? len hs * 20) eqn:E; zhyp; cbn [andb].
    - zif. rewrite Z.div_mul, to_nat_len by lia.
      apply (decode_headers_wire hs (be16 (interface_mtu d) ++ [2; dbd_bits d] ++ be32 (dd_sequence_number d)) beyond); [|done|].
      + cbn [b_data b_beyond b]. unfold dbd_wire. by rewrite <- !app_assoc.
      + intros i Hi. unfold len in *. rewrite !u16_id by (unfold is_u16; rewrite ?u16_id by (unfold is_u16; lia); lia).
        change (length (be16 (interface_mtu d) ++ [2; dbd_bits d] ++ be32 (dd_sequence_number d))) with 8%nat. lia.
    - unfold len in E. destruct hs; [done|]. cbn [length] in E. lia. }
  change (bslice b 0 2) with (Ok (E := Empty_set) (be16 (interface_mtu d))). rewrite bind_Ok.
  rewrite <- (app_nil_r (be16 _)), Uint16_be16, bind_Ok by done.
  change (sget (b_data b) 2) with (Ok (E := Empty_set) 2). rewrite bind_Ok.
  change (bslice b 4 8) with (Ok (E := Empty_set) (be32 (dd_sequence_number d))). rewrite bind_Ok.
  rewrite <- (app_nil_r (be32 _)), Uint32_be32, bind_Ok by done.
  change (sget (b_data b) 3) with (Ok (E := Empty_set) (dbd_bits d)). rewrite bind_Ok, Hr. unfold dbd_bits.
  by destruct (ibit d), (mbit d), (msbit d).
Qed.

(** ** Requests *)

Definition req_wire (r : ospfLSAReq) : bytes := be32 (req_ls_type r) ++ be32 (req_link_state_id r) ++ be32 (req_adv_router_id r).
Definition reqs_wire (rs : list ospfLSAReq) : bytes := concat (req_wire <$> rs).
Definition req_ok (r : ospfLSAReq) : Prop := is_u32 (req_ls_type r) /\ is_u32 (req_link_state_id r) /\ is_u32 (req_adv_router_id r).
Lemma len_reqs_wire rs : len (reqs_wire rs) = 12 * len rs.
Proof.
  induction rs as [|r rs IH]; [done|]. change (reqs_wire (r :: rs)) with (req_wire r ++ reqs_wire rs).
  rewrite len_app, len_cons, IH. change (len (req_wire r)) with 12. lia.
Qed.

(** The last request comes first. *)
Lemma encode_reqs rs : encodeLSAReq rs = Ok (reqs_wire (reverse rs)).
Proof.
  unfold encodeLSAReq.
  assert (H : forall l acc, for_each (fun r lsa_pkt => pkt ← encode_req r; Ok (pkt ++ lsa_pkt)) l acc = Ok (reqs_wire (reverse l) ++ acc)).
  { induction l as [|r l IH]; intros acc; [done|]. cbn [for_each]. change (encode_req r) with (Ok (E := Empty_set) (req_wire r)).
    rewrite !bind_Ok, IH, reverse_cons. unfold reqs_wire. rewrite fmap_app, concat_app, <- app_assoc. cbn [fmap list_fmap concat].
    by rewrite app_nil_r. }
  by rewrite H, app_nil_r.
Qed.

Lemma decode_reqs rs beyond : Forall req_ok rs -> 24 + 12 * len rs < 65516 ->
  decodeLSAReqPkt {| b_data := reqs_wire rs; b_beyond := beyond |} (24 + 12 * len rs) = Ok rs.
Proof.
  intros Hok Hl. pose proof (len_nonneg rs) as Hp. unfold decodeLSAReqPkt, OSPF_HEADER_SIZE, OSPF_LSA_REQ_SIZE.
  replace (24 + 12 * len rs - 24) with (len rs * 12) by lia. rewrite u16_id by (unfold is_u16; lia). rewrite Z.div_mul, to_nat_len by lia.
  assert (H : forall l pre i acc, Forall req_ok l ->
    for_upto (length l) i (fun _ '(start, reqs) => d ← bslice (E := Empty_set) {| b_data := pre ++ reqs_wire l; b_beyond := beyond |} start (start + 12);
      lsa_req ← decodeLSAReq d; Ok (start + 12, reqs ++ [lsa_req])) (len pre, acc) = Ok (len pre + 12 * len l, acc ++ l)).
  { induction l as [|r l IH]; intros pre i acc Hl'; cbn [length for_upto].
    { by rewrite app_nil_r, Z.add_0_r. }
    apply Forall_cons in Hl' as [(H1 & H2 & H3) Hl']. change (reqs_wire (r :: l)) with (req_wire r ++ reqs_wire l).
    assert (Es : bslice (E := Empty_set) {| b_data := pre ++ req_wire r ++ reqs_wire l; b_beyond := beyond |} (len pre) (len pre + 12) = Ok (req_wire r)).
    { unfold bslice. cbn [b_data b_beyond]. rewrite <- !app_assoc. by apply slice_app. }
    rewrite Es, bind_Ok.
    assert (Er : decodeLSAReq (req_wire r) = Ok r).
    { destruct r. unfold decodeLSAReq, slice, req_wire. gocbn. by rewrite !be32_split. }
    rewrite Er, !bind_Ok. rewrite app_assoc.
    specialize (IH (pre ++ req_wire r) (S i) (acc ++ [r]) Hl'). rewrite len_app in IH. change (len (req_wire r)) with 12 in IH.
    rewrite IH. rewrite <- app_assoc, len_cons. f_equal. f_equal. lia. }
  specialize (H rs [] 0%nat [] Hok). cbn [app] in H. change (len []) with 0 in H. by rewrite H.
Qed.

(** ** What is sent is what is read *)

Inductive Body :=
  | Dbd (d : ospfDatabaseDescriptionData)
  | Req (rs : list ospfLSAReq)
  | Upd (lsas : bytes)
  | Ack (hs : list ospfLSAHeader).
Definition body_type (b : Body) : Z :=
  match b with Dbd _ => DBDescriptionType | Req _ => LSRequestType | Upd _ => LSUpdateType | Ack _ => LSAckType end.
Definition body_wire (b : Body) : bytes :=
  match b with Dbd d => dbd_wire d | Req rs => reqs_wire (reverse rs) | Upd lsas => lsas | Ack hs => headers_wire hs end.
Definition body_ok (b : Body) : Prop :=
  match b with Dbd d => dbd_ok d | Req rs => Forall req_ok rs | Upd lsas => Nat.Even (length lsas) | Ack hs => Forall lsah_ok hs end.
Definition body_len (b : Body) : Z := OSPF_HEADER_SIZE + len (body_wire b).

(** What the machines of the neighbor are passed. *)
Definition body_event (b : Body) (key : IntfConfKey) (ip area : Z) (beyond : bytes) : Out :=
  match b with
  | Dbd d => DbdEvent (nbr_at ip key) (dbd_read d)
  | Req rs => LsaReqEvent (nbr_at ip key) (reverse rs)
  | Upd lsas => LsaUpdEvent (nbr_at ip key) area lsas beyond
  | Ack hs => LsaAckEvent {| nk_IPAddr := match Util.convertByteToOctetString (be32 ip) with Ok a => a | _ => "" end;
                             nk_IntfIdx := ik_IntfIdx key |} hs
  end.
Definition body_mac (b : Body) (key : IntfConfKey) (ip : Z) (mac : bytes) (s : OSPFServer) : OSPFServer :=
  match b with Dbd _ => set_IPToMAC (<[nbr_at ip key := mac]> (IPToMAC s)) s | _ => s end.

Lemma body_wire_even b : body_ok b -> Nat.Even (length (body_wire b)).
Proof.
  destruct b as [d|rs|lsas|hs]; cbn [body_wire body_ok]; intros H; [| |done|].
  - destruct (encode_dbd d) as [_ Hl]. unfold len in Hl. exists (4 + 10 * length (lsa_headers d))%nat. lia.
  - pose proof (len_reqs_wire (reverse rs)) as Hl. unfold len in Hl. eexists (6 * length (reverse rs))%nat. lia.
  - pose proof (len_headers_wire hs) as Hl. unfold len in Hl. exists (10 * length hs)%nat. lia.
Qed.

Lemma body_accepted b key ip area beyond mac md ipMd sb : body_ok b -> body_len b < 65516 -> is_u32 ip -> md_pktType md = body_type b ->
  md_pktlen md = body_len b -> md_areaId md = area -> len (md_routerId md) = 4 -> srcIP ipMd = be32 ip -> neighborExist sb (nbr_at ip key) = true ->
  processOspfData {| b_data := body_wire b; b_beyond := beyond |} mac ipMd md key sb =
  Ok (put (body_event b key ip area beyond) (body_mac b key ip mac sb)).
Proof.
  intros Hok Hl Hip Ht Hn Ha Hr Hsrc Hex. unfold processOspfData. rewrite Hsrc, nbr_key_be32, bind_Ok, Hex, Ht.
  destruct b as [d|rs|lsas|hs]; cbn [body_type Z.eqb Pos.eqb HelloType DBDescriptionType LSRequestType LSUpdateType LSAckType body_wire body_ok] in *.
  - unfold ProcessRxDbdPkt. rewrite Hn, Hsrc. destruct (encode_dbd d) as [_ El]. unfold body_len in *. cbn [body_wire] in *. rewrite El in *.
    unfold OSPF_HEADER_SIZE in *. replace (24 + (8 + 20 * len (lsa_headers d))) with (32 + 20 * len (lsa_headers d)) in * by lia.
    rewrite decode_dbd by done. rewrite bind_Ok, nbr_key_be32, bind_Ok. done.
  - unfold ProcessRxLSAReqPkt. rewrite Hn, Hsrc. unfold body_len in *. cbn [body_wire] in *. rewrite len_reqs_wire in *.
    unfold OSPF_HEADER_SIZE in *. rewrite decode_reqs by (done || by apply Forall_reverse). rewrite bind_Ok, nbr_key_be32, bind_Ok. done.
  - unfold ProcessRxLsaUpdPkt. rewrite Hsrc, Ha. destruct (len_4_inv _ Hr) as (r0 & r1 & r2 & r3 & ->).
    change (Util.convertIPInByteToString [r0; r1; r2; r3]) with (v ← Util.convertIPv4ToUint32 [r0; r1; r2; r3]; Ok (E := Empty_set) (Util.convertUint32ToIPv4 v)).
    unfold Util.convertIPv4ToUint32, sget. gocbn. done.
  - unfold ProcessRxLSAAckPkt. rewrite Hn, Hsrc. unfold body_len in *. cbn [body_wire] in *. rewrite len_headers_wire in *.
    unfold OSPF_HEADER_SIZE, OSPF_LSA_HEADER_SIZE in *. pose proof (len_nonneg hs) as Hp.
    replace (24 + 20 * len hs - 24) with (len hs * 20) by lia. rewrite u16_id by (unfold is_u16; lia).
    assert (Hd : (if (len hs * 20 >=? 20) && (len hs * 20 <? 24 + 20 * len hs) then
        decode_headers {| b_data := headers_wire hs; b_beyond := beyond |} (fun i => u32 (Z.of_nat i * 20)) (fun start_index => u32 (start_index + 20))
          (Z.to_nat (len hs * 20 / 20)) else Ok []) = Ok hs).
    { rewrite Z.geb_leb. destruct (20 <=? len hs * 20) eqn:E; zhyp; cbn [andb].
      - zif. rewrite Z.div_mul, to_nat_len by lia. apply (decode_headers_wire hs [] beyond); [done|done|].
        intros i Hi. unfold len in *. rewrite !u32_id by (unfold is_u32; rewrite ?u32_id by (unfold is_u32; lia); lia). cbn [length]. lia.
      - unfold len in E. destruct hs; [done|]. cbn [length] in E. lia. }
    rewrite Hd, bind_Ok. unfold Util.convertByteToOctetString. done.
Qed.

Section exchange.
Context {gp : Gopacket} {gpk : GopacketOk}.

(** The functions that build a packet for a neighbor with a MAC address. *)
Definition build (b : Body) (ent : IntfConf) (nbr : OspfNeighborEntry) (mac : bytes) (s : OSPFServer) : go bytes :=
  match b with
  | Dbd d => BuildDBDPkt ent nbr d mac s
  | Req rs => EncodeLSAReqPkt ent nbr rs mac s
  | Upd lsas => BuildLsaUpdPkt ent mac (OspfNbrIPAddr nbr) lsas s
  | Ack hs => BuildLSAAckPkt ent mac (OspfNbrIPAddr nbr) (len (headers_wire hs)) (headers_wire hs) s
  end.

Lemma build_frame b ent nbr mac s ospf : seal (body_type b) (body_len b) (body_wire b) ent s = Ok ospf ->
  build b ent nbr mac s = Ok (let '(ip, mac) := nbr_dst ent (OspfNbrIPAddr nbr) mac in ospf_frame (body_len b) ip mac ospf ent).
Proof.
  intros Hs. destruct b as [d|rs|lsas|hs]; cbn [build body_type body_wire] in *; unfold body_len in *; cbn [body_wire] in *.
  - unfold BuildDBDPkt. destruct (encode_dbd d) as [-> El]. rewrite El in *. rewrite bind_Ok.
    unfold OSPF_HEADER_SIZE, OSPF_DBD_MIN_SIZE, OSPF_LSA_HEADER_SIZE in *.
    replace (24 + 8 + 20 * len (lsa_headers d)) with (24 + (8 + 20 * len (lsa_headers d))) by lia. rewrite Hs, bind_Ok.
    by destruct (nbr_dst _ _ _).
  - unfold EncodeLSAReqPkt. rewrite encode_reqs, bind_Ok, Hs, bind_Ok. by destruct (nbr_dst _ _ _).
  - unfold BuildLsaUpdPkt. rewrite Hs, bind_Ok. by destruct (nbr_dst _ _ _).
  - unfold BuildLSAAckPkt. rewrite Hs, bind_Ok. by destruct (nbr_dst _ _ _).
Qed.

(** C16: the packets that routers exchange survive the link: a database description, a request, an update or an
    acknowledgment built for a neighbor is accepted by its interface when area and authentication agree, the sender is
    a neighbor it knows, and the carry of the checksum of the IP header folds once ([one_carry]; else the code
    computes another checksum than the sender and drops the packet, second_carry_lost). The body is shorter than 65516
    bytes, with fields in their ranges, an even number of bytes of LSAs in an update ([body_ok]; odd ones panic,
    odd_packet_panics). The machine that waits for it is passed what was sent: of a database description without its
    options, and without headers when it is a first one; of requests, in the reverse order; of an update, the bytes;
    of an acknowledgment, under the sender's address printed with colons. *)
Theorem packet_received ea sa key eb sb ip (b : Body) nbr mac :
  let dst := (nbr_dst ea (OspfNbrIPAddr nbr) mac).1 in
  link ea sa key eb sb (be32 ip) -> body_ok b -> body_len b < 65516 -> is_u32 ip -> len mac = 6 -> for_us eb (OspfNbrIPAddr nbr) ->
  one_carry ea (be32 ip) dst (body_len b) -> neighborExist sb (nbr_at ip key) = true ->
  exists frame area beyond, build b ea nbr mac sa = Ok frame /\ Uint32 (E := Empty_set) (IfAreaId ea) = Ok area /\
    ProcessOspfRecvPkt key (NewPacket frame) sb = Ok (put (body_event b key ip area beyond) (body_mac b key ip (IfMacAddr ea) sb)).
Proof.
  intros dst L Hok Hl Hip Hmac Hus Hcarry Hex. pose proof L as [Hs _ _ _ _ _]. pose proof (body_wire_even b Hok) as He.
  destruct (seal_wire ea sa Hs (body_type b) (body_len b) (body_wire b) He) as (ck & _ & _ & Hseal).
  set (ospf := _ ++ body_wire b) in Hseal. rewrite (build_frame b ea nbr mac sa ospf Hseal). unfold dst in *.
  destruct (nbr_dst ea (OspfNbrIPAddr nbr) mac) as [ip' mac'] eqn:Ed. cbn [fst] in *.
  assert (Hd : for_us eb ip' /\ len mac' = 6).
  { unfold nbr_dst in Ed. destruct (IfType ea =? NumberedP2P); injection Ed as <- <-; [|done]. split; [apply for_us_all | done]. }
  destruct (packet_accepted ea sa key eb sb (be32 ip) L (body_type b) (body_wire b) ospf ip' mac') as (ipMd & area & beyond & Hsrc & Harea & Hp);
    [apply Hd | apply Hd | done | exact Hl | exact Hcarry | exact Hseal |].
  fold (body_len b) in Hp. eexists _, area, beyond. split; [done|]. split; [done|]. rewrite Hp.
  rewrite (body_accepted b key ip area beyond (IfMacAddr ea) _ ipMd sb); cbn [md_pktType md_pktlen md_areaId md_routerId received_md]; try done.
  - apply u16_id. pose proof (len_nonneg (body_wire b)). unfold is_u16, body_len, OSPF_HEADER_SIZE in *. lia.
  - apply Hs.
Qed.
End exchange.

(** ** A link

    A package that writes Ethernet and IPv4 headers and reads them back. *)
#[export] Instance some_gopacket : Gopacket := {|
  SerializeLayers eth ip payload :=
    match To4 (SrcIP ip), To4 (DstIP ip) with
    | Some src, Some dst => DstMAC eth ++ SrcMAC eth ++ be16 (EthernetType eth) ++
        ip_header ip src dst (len payload) (internet_checksum (ip_header ip src dst (len payload) 0)) ++ payload
    | _, _ => payload
    end;
  NewPacket f :=
    {| eth_layer := Some (take 6 (drop 6 f));
       ip_layer := if bool_decide (take 2 (drop 12 f) = [8; 0]) then
           Some {| LayerContents := take 20 (drop 14 f); rx_SrcIP := take 4 (drop 26 f); rx_DstIP := take 4 (drop 30 f);
                   rx_Protocol := default 0 (f !! 23%nat); LayerPayload := drop 34 f; Beyond := [] |}
         else None |}
|}.
#[export] Instance some_gopacket_ok : GopacketOk.
Proof.
  intros [sm dm et] ip payload src dst Hs Hd He Hsrc Hdst _. cbn [SrcMAC DstMAC EthernetType] in *. exists [].
  unfold NewPacket, SerializeLayers, some_gopacket. rewrite Hsrc, Hdst. cbn [SrcMAC DstMAC EthernetType]. rewrite He.
  apply To4_len in Hsrc, Hdst.
  set (ck := internet_checksum _). clearbody ck.
  destruct (len_4_inv _ Hsrc) as (s0 & s1 & s2 & s3 & ->). destruct (len_4_inv _ Hdst) as (d0 & d1 & d2 & d3 & ->).
  destruct sm as [|a0 [|a1 [|a2 [|a3 [|a4 [|a5 [|]]]]]]]; try (unfold len in Hs; cbn [length] in Hs; lia).
  destruct dm as [|b0 [|b1 [|b2 [|b3 [|b4 [|b5 [|]]]]]]]; try (unfold len in Hd; cbn [length] in Hd; lia).
  reflexivity.
Qed.

(** Two routers on a LAN, 0.0.0.1 at 10.0.0.1 and 0.0.0.2 at 10.0.0.2; the first knows the second. *)
Definition lan_intf (last state : Z) (nbrs : gmap NeighborConfKey NeighborData) : IntfConf :=
  {| IfAreaId := [0; 0; 0; 0]; IfType := Broadcast; NeighborMap := nbrs; IfDRIp := [0; 0; 0; 0]; IfFSMState := state; IfDRtrId := 0;
     IfIpAddr := IPv4 10 0 0 last; IfNetmask := [255; 255; 255; 0]; IfCost := 10; IfRtrPriority := 1; IfHelloInterval := 10;
     IfRtrDeadInterval := 40; IfAuthKey := make 8; IfAuthType := 0; IfBDRIp := [10; 0; 0; 1]; IfBDRtrId := 0; IfEvents := 1;
     HelloIntervalTicker := true; WaitTimer := Some true; IfMacAddr := [2; 0; 0; 0; 0; last] |}.
Definition lan_key (last : Z) : IntfConfKey := {| ik_IPAddr := ip_String [10; 0; 0; last]; ik_IntfIdx := 0 |}.
Definition lan_nbr (last : Z) : OspfNeighborEntry :=
  {| OspfNbrRtrId := last; OspfNbrIPAddr := [10; 0; 0; last]; nb_intfConfKey := lan_key (3 - last); OspfNbrState := NbrFull |}.
Definition lan_data (last : Z) : NeighborData :=
  {| TwoWayStatus := false; RtrPrio := 1; DRtr := make 4; BDRtr := make 4; nd_NbrIP := 167772160 + last; FullState := false |}.
Definition lan_router (last : Z) (ent : IntfConf) (known : gmap NeighborConfKey OspfNeighborEntry) : OSPFServer :=
  {| AreaLsdb := ∅; AreaSelfOrigLsa := ∅; LsdbSlice := []; maxAgeLsaMap := ∅; RouterId := be32 last; AreaBdrRtrStatus := false;
     AreaConfMap := ∅; IntfConfMap := {[ lan_key last := ent ]}; NeighborConfigMap := known; ospfIntfToNbrMap := ∅; ipPropertyMap := ∅;
     ribdClientHdl := true; AreaGraph := ∅; AreaStubs := ∅; SPFTree := ∅; TempAreaRoutingTbl := ∅; GlobalRoutingTbl := ∅;
     OldGlobalRoutingTbl := ∅; TempGlobalRoutingTbl := ∅; SummaryLsDb := ∅; Version := 2; IPToMAC := ∅; out := [] |}.
Definition nbr_of (last : Z) : NeighborConfKey := nbr_at (167772160 + last) (lan_key (3 - last)).
Definition router1 : OSPFServer := lan_router 1 (lan_intf 1 Waiting {[ nbr_of 2 := lan_data 2 ]}) {[ nbr_of 2 := lan_nbr 2 ]}.
Definition router2 : OSPFServer := lan_router 2 (lan_intf 2 Waiting ∅) {[ nbr_of 1 := lan_nbr 1 ]}.
Definition intf_1 : IntfConf := lan_intf 1 Waiting {[ nbr_of 2 := lan_data 2 ]}.
Definition intf_2 : IntfConf := lan_intf 2 Waiting ∅.

Lemma lan_link : link intf_1 router1 (lan_key 2) intf_2 router2 (be32 167772161).
Proof. split; [by split | by split | done | by apply Forall_true_bytes | done | done]. Qed.

Definition some_dbd : ospfDatabaseDescriptionData :=
  {| dd_options := 66; interface_mtu := 1500; dd_sequence_number := 7; ibit := false; mbit := true; msbit := true;
     lsa_headers := [{| ls_age := 1; ls_options := 2; ls_type := 1; link_state_id := 1; adv_router_id := 1; ls_sequence_num := 5;
                        ls_checksum := 9; ls_len := 36 |}] |}.
Lemma packet_received_witness : exists frame area beyond, build (Dbd some_dbd) intf_1 (lan_nbr 2) [2; 0; 0; 0; 0; 2] router1 = Ok frame /\
  Uint32 (E := Empty_set) (IfAreaId intf_1) = Ok area /\
  ProcessOspfRecvPkt (lan_key 2) (NewPacket frame) router2 =
  Ok (put (body_event (Dbd some_dbd) (lan_key 2) 167772161 area beyond) (body_mac (Dbd some_dbd) (lan_key 2) 167772161 (IfMacAddr intf_1) router2)).
Proof.
  apply (packet_received intf_1 router1 (lan_key 2) intf_2 router2 167772161 (Dbd some_dbd) (lan_nbr 2) [2; 0; 0; 0; 0; 2]); try done.
  - apply lan_link.
  - split; [done | done |]. repeat constructor; done.
  - exists [10; 0; 0; 2]. split; [done|]. split; [by apply Forall_true_bytes | by left].
  - intros dst4 Hd. vm_compute in Hd. injection Hd as <-. vm_compute. reflexivity.
Defined.


(** ** Packets that stop the daemon *)

Lemma csum_pairs_odd pkt : Nat.Odd (length pkt) -> forall c, Util.csum_pairs pkt c = Panic.
Proof.
  intros [n Hn]. revert pkt Hn. induction n as [|n IH]; intros [|a [|b pkt]] Hn c; cbn [length] in Hn; try lia; [done|].
  cbn [Util.csum_pairs]. apply IH. lia.
Qed.

(** The checksum of a packet of an odd length panics: any that comes from the area with the interface's type of authentication. *)
Lemma odd_packet_panics ospf key s ent h : IntfConfMap s !! key = Some ent -> Nat.Odd (length ospf) -> 24 <= len ospf ->
  decodeOspfHdr ospf = Ok h -> ver h = Version s -> areaId h = IfAreaId ent -> authType h = IfAuthType ent ->
  processOspfHeader ospf key s = Panic.
Proof.
  intros Hk Ho Hl Hd Hv Ha Hau. unfold processOspfHeader. unfold OSPF_HEADER_SIZE at 1. zif. rewrite Hk, Hd. cbn [lift]. rewrite bind_Ok, Hv, Ha, Hau.
  rewrite !Z.eqb_refl, bytesEqual_eq, bool_decide_eq_true_2, andb_false_r by done. cbn [negb andb].
  unfold PutUint16. zif. replace (Nat.leb _ _) with true by (symmetry; apply Nat.leb_le; unfold len in Hl; lia). rewrite bind_Ok.
  unfold copy_in, gocopy. zif. rewrite length_blit by (unfold len in Hl; lia).
  replace (Nat.leb _ _) with true by (symmetry; apply Nat.leb_le; unfold len in Hl; lia). rewrite bind_Ok.
  unfold Util.computeCheckSum. rewrite csum_pairs_odd; [done|]. by rewrite !length_blit by (rewrite ?length_blit; unfold len in Hl; lia).
Qed.

(** A hello whose header has a length of fewer than 44 bytes is read beyond its end. *)
Definition short_hello : bytes :=
  match seal HelloType 20 (hello_wire (hello_of intf_1 2)) intf_1 router1 with
  | Ok ospf => ospf_frame 44 allSPFRouter McastMAC ospf intf_1 | _ => [] end.
Lemma short_hello_panics : ProcessOspfRecvPkt (lan_key 2) (NewPacket short_hello) router2 = Panic.
Proof. vm_compute. reflexivity. Qed.

(** A header with a valid checksum of which the sum of the words carries twice is refused. *)
Definition twice_carried : bytes := [69; 0; 255; 255; 255; 255; 255; 255; 1; 89; 0; 0; 185; 167; 255; 255; 0; 0; 0; 0].
Lemma second_carry_lost : fold_carry (sum_pairs twice_carried) >= 65536 /\
  Util.computeCheckSum twice_carried <> Ok (internet_checksum twice_carried).
Proof. vm_compute. split; [discriminate|]. discriminate. Qed.
