(* ===== verification/OspfIntf.v ===== *)
(** Interfaces of the OSPF daemon: the election of the designated router and its backup, and the interface state machine. *)
From stdpp Require Import base numbers list gmap strings.
From Stdlib Require Import ZArith Lia.
From S2P Require Import Prelude GoNet OspfUtil OspfLsa OspfState OspfSpf OspfRoute OspfPacket.
Open Scope Z_scope.

(** [config.IfState]; [Waiting] is in OspfState.v *)
Definition Down : Z := 1.
Definition P2P : Z := 4.
Definition OtherDesignatedRouter : Z := 5.
Definition DesignatedRouter : Z := 6.
Definition BackupDesignatedRouter : Z := 7.

(** ** Assignments to fields *)

Definition set_NeighborMap (x : gmap NeighborConfKey NeighborData) (i : IntfConf) : IntfConf :=
  {| IfAreaId := IfAreaId i; IfType := IfType i; NeighborMap := x; IfDRIp := IfDRIp i; IfFSMState := IfFSMState i;
     IfDRtrId := IfDRtrId i; IfIpAddr := IfIpAddr i; IfNetmask := IfNetmask i; IfCost := IfCost i; IfRtrPriority := IfRtrPriority i;
     IfHelloInterval := IfHelloInterval i; IfRtrDeadInterval := IfRtrDeadInterval i; IfAuthKey := IfAuthKey i;
     IfAuthType := IfAuthType i; IfBDRIp := IfBDRIp i; IfBDRtrId := IfBDRtrId i; IfEvents := IfEvents i;
     HelloIntervalTicker := HelloIntervalTicker i; WaitTimer := WaitTimer i; IfMacAddr := IfMacAddr i |}.
Definition set_elected (bdr : bytes * Z) (dr : bytes * Z) (i : IntfConf) : IntfConf :=
  {| IfAreaId := IfAreaId i; IfType := IfType i; NeighborMap := NeighborMap i; IfDRIp := dr.1; IfFSMState := IfFSMState i;
     IfDRtrId := dr.2; IfIpAddr := IfIpAddr i; IfNetmask := IfNetmask i; IfCost := IfCost i; IfRtrPriority := IfRtrPriority i;
     IfHelloInterval := IfHelloInterval i; IfRtrDeadInterval := IfRtrDeadInterval i; IfAuthKey := IfAuthKey i;
     IfAuthType := IfAuthType i; IfBDRIp := bdr.1; IfBDRtrId := bdr.2; IfEvents := IfEvents i;
     HelloIntervalTicker := HelloIntervalTicker i; WaitTimer := WaitTimer i; IfMacAddr := IfMacAddr i |}.
(** The state, and one more event. *)
Definition set_IfFSMState (x : Z) (i : IntfConf) : IntfConf :=
  {| IfAreaId := IfAreaId i; IfType := IfType i; NeighborMap := NeighborMap i; IfDRIp := IfDRIp i; IfFSMState := x;
     IfDRtrId := IfDRtrId i; IfIpAddr := IfIpAddr i; IfNetmask := IfNetmask i; IfCost := IfCost i; IfRtrPriority := IfRtrPriority i;
     IfHelloInterval := IfHelloInterval i; IfRtrDeadInterval := IfRtrDeadInterval i; IfAuthKey := IfAuthKey i;
     IfAuthType := IfAuthType i; IfBDRIp := IfBDRIp i; IfBDRtrId := IfBDRtrId i; IfEvents := s32 (IfEvents i + 1);
     HelloIntervalTicker := HelloIntervalTicker i; WaitTimer := WaitTimer i; IfMacAddr := IfMacAddr i |}.
Definition set_HelloIntervalTicker (x : bool) (i : IntfConf) : IntfConf :=
  {| IfAreaId := IfAreaId i; IfType := IfType i; NeighborMap := NeighborMap i; IfDRIp := IfDRIp i; IfFSMState := IfFSMState i;
     IfDRtrId := IfDRtrId i; IfIpAddr := IfIpAddr i; IfNetmask := IfNetmask i; IfCost := IfCost i; IfRtrPriority := IfRtrPriority i;
     IfHelloInterval := IfHelloInterval i; IfRtrDeadInterval := IfRtrDeadInterval i; IfAuthKey := IfAuthKey i;
     IfAuthType := IfAuthType i; IfBDRIp := IfBDRIp i; IfBDRtrId := IfBDRtrId i; IfEvents := IfEvents i;
     HelloIntervalTicker := x; WaitTimer := WaitTimer i; IfMacAddr := IfMacAddr i |}.

Definition intf_of (s : OSPFServer) (key : IntfConfKey) : IntfConf := default zero_intf (IntfConfMap s !! key).
Definition put_intf (key : IntfConfKey) (ent : IntfConf) (s : OSPFServer) : OSPFServer :=
  set_IntfConfMap (<[key := ent]> (IntfConfMap s)) s.

(** ** The election *)

Section intf.
Context {mo : MapOrder}.

(** A candidate with priority [p] and identifier [id] is preferred to the one found so far, with [q] and [jd]. *)
Definition preferred (p id q jd : Z) : bool := (q <? p) || ((p =? q) && (jd <? id)).

(** What the loop of [ElectBDR] has found: of the backups that neighbors say they are, and of all neighbors, the address, the
    priority and the identifier. *)
Record Election := {
  electedBDR : bytes;
  electedRtrPrio : Z;
  electedRtrId : Z;
  MaxRtrPrio : Z;
  RtrIdWithMaxPrio : Z;
  NbrIPWithMaxPrio : Z;
}.
Definition take_elected (bdr : bytes) (p id : Z) (e : Election) : Election :=
  if preferred p id (electedRtrPrio e) (electedRtrId e) then
    {| electedBDR := bdr; electedRtrPrio := p; electedRtrId := id; MaxRtrPrio := MaxRtrPrio e; RtrIdWithMaxPrio := RtrIdWithMaxPrio e;
       NbrIPWithMaxPrio := NbrIPWithMaxPrio e |} else e.
Definition take_max (ip p id : Z) (e : Election) : Election :=
  if preferred p id (MaxRtrPrio e) (RtrIdWithMaxPrio e) then
    {| electedBDR := electedBDR e; electedRtrPrio := electedRtrPrio e; electedRtrId := electedRtrId e; MaxRtrPrio := p;
       RtrIdWithMaxPrio := id; NbrIPWithMaxPrio := ip |} else e.

Definition may_be_elected (n : NeighborData) : bool := TwoWayStatus n && (RtrPrio n >? 0) && negb (nd_NbrIP n =? 0).
Definition nbr_id (s : OSPFServer) (nbrkey : NeighborConfKey) : Z := OspfNbrRtrId (default zero_nbr (NeighborConfigMap s !! nbrkey)).

Definition bdr_nbr (s : OSPFServer) (nbrkey : NeighborConfKey) (n : NeighborData) (e : Election) : go Election :=
  if negb (may_be_elected n) then Ok e else
  tempDR ← Uint32 (DRtr n);
  if tempDR =? nd_NbrIP n then Ok e else
  tempBDR ← Uint32 (BDRtr n);
  let e := if tempBDR =? nd_NbrIP n then take_elected (BDRtr n) (RtrPrio n) (nbr_id s nbrkey) e else e in
  Ok (take_max (nd_NbrIP n) (RtrPrio n) (nbr_id s nbrkey) e).

(** The router itself is a candidate. *)
Definition own_ip (ent : IntfConf) : bytes := default [] (To4 (IfIpAddr ent)).
Definition is_candidate (ent : IntfConf) : bool := negb (IfRtrPriority ent =? 0) && negb (Util.bytesEqual (own_ip ent) [0; 0; 0; 0]).

Definition own_bdr (ent : IntfConf) (s : OSPFServer) (e : Election) : go Election :=
  if is_candidate ent && negb (Util.bytesEqual (own_ip ent) (IfDRIp ent)) then
    rtrId ← Uint32 (RouterId s);
    let e := if Util.bytesEqual (own_ip ent) (IfBDRIp ent) then take_elected (own_ip ent) (IfRtrPriority ent) rtrId e else e in
    if preferred (IfRtrPriority ent) rtrId (MaxRtrPrio e) (RtrIdWithMaxPrio e)
    then ip ← Uint32 (own_ip ent); Ok (take_max ip (IfRtrPriority ent) rtrId e) else Ok e
  else Ok e.

Definition ElectBDR (key : IntfConfKey) (s : OSPFServer) : go (bytes * Z) :=
  let ent := intf_of s key in
  e ← for_map (NeighborMap ent) (bdr_nbr s)
        {| electedBDR := [0; 0; 0; 0]; electedRtrPrio := 0; electedRtrId := 0; MaxRtrPrio := 0; RtrIdWithMaxPrio := 0; NbrIPWithMaxPrio := 0 |};
  e ← own_bdr ent s e;
  if Util.bytesEqual (electedBDR e) [0; 0; 0; 0] then
    bdr ← PutUint32 (electedBDR e) 0 (NbrIPWithMaxPrio e); Ok (bdr, RtrIdWithMaxPrio e)
  else Ok (electedBDR e, electedRtrId e).

(** The address, the priority and the identifier of the router found. *)
Definition take_dr (dr : bytes) (p id : Z) (e : bytes * Z * Z) : bytes * Z * Z :=
  let '(_, q, jd) := e in if preferred p id q jd then (dr, p, id) else e.
Definition dr_nbr (s : OSPFServer) (nbrkey : NeighborConfKey) (n : NeighborData) (e : bytes * Z * Z) : go (bytes * Z * Z) :=
  if negb (may_be_elected n) then Ok e else
  tempDR ← Uint32 (DRtr n);
  Ok (if tempDR =? nd_NbrIP n then take_dr (DRtr n) (RtrPrio n) (nbr_id s nbrkey) e else e).

Definition own_dr (ent : IntfConf) (s : OSPFServer) (e : bytes * Z * Z) : go (bytes * Z * Z) :=
  if (IfRtrPriority ent >? 0) && negb (Util.bytesEqual (own_ip ent) [0; 0; 0; 0]) && Util.bytesEqual (own_ip ent) (IfDRIp ent) then
    rtrId ← Uint32 (RouterId s); Ok (take_dr (own_ip ent) (IfRtrPriority ent) rtrId e)
  else Ok e.

Definition ElectDR (key : IntfConfKey) (bdr : bytes * Z) (s : OSPFServer) : go (bytes * Z) :=
  let ent := intf_of s key in
  e ← for_map (NeighborMap ent) (dr_nbr s) ([0; 0; 0; 0], 0, 0);
  e ← own_dr ent s e;
  let '(electedDR, _, electedDRtrId) := e in
  Ok (if Util.bytesEqual electedDR [0; 0; 0; 0] then bdr else (electedDR, electedDRtrId)).

(** One round, stored in the interface. *)
Definition elect_round (key : IntfConfKey) (s : OSPFServer) : go OSPFServer :=
  bdr ← ElectBDR key s;
  dr ← ElectDR key bdr s;
  Ok (put_intf key (set_elected bdr dr (intf_of s key)) s).
Definition elected_state (ent : IntfConf) : Z :=
  if Util.bytesEqual (IfDRIp ent) (own_ip ent) then DesignatedRouter
  else if Util.bytesEqual (IfBDRIp ent) (own_ip ent) then BackupDesignatedRouter
  else OtherDesignatedRouter.

Definition createAndSendEventsIntfFSM (key : IntfConfKey) (oldState newState : Z) (s : OSPFServer) : go OSPFServer :=
  let s := put_intf key (set_IfFSMState newState (intf_of s key)) s in
  areaId ← Util.convertIPv4ToUint32 (IfAreaId (intf_of s key));
  Ok (put (DrChange areaId key oldState newState) s).

Definition ElectBDRAndDR (key : IntfConfKey) (s : OSPFServer) : go OSPFServer :=
  let oldState := IfFSMState (intf_of s key) in
  s ← elect_round key s;
  let newState := elected_state (intf_of s key) in
  if negb (newState =? oldState) && negb ((newState =? OtherDesignatedRouter) && (oldState <? OtherDesignatedRouter)) then
    s ← elect_round key s;
    createAndSendEventsIntfFSM key oldState (elected_state (intf_of s key)) s
  else createAndSendEventsIntfFSM key oldState newState s.

(** ** The state machine of an interface *)

Definition StartSendHelloPkt (key : IntfConfKey) {gp : Gopacket} (s : OSPFServer) : go OSPFServer :=
  ospfHelloPkt ← BuildHelloPkt (intf_of s key) s;
  Ok (put (SendPkt key (default [] ospfHelloPkt)) s).
Definition StopSendHelloPkt (key : IntfConfKey) (s : OSPFServer) : OSPFServer :=
  if HelloIntervalTicker (intf_of s key) then put_intf key (set_HelloIntervalTicker false (intf_of s key)) s else s.

Definition intf_nbr_key (NbrIP : Z) (key : IntfConfKey) : NeighborConfKey :=
  {| nk_IPAddr := Util.convertUint32ToIPv4 NbrIP; nk_IntfIdx := ik_IntfIdx key |}.
Definition put_nbr (key : IntfConfKey) (k : NeighborConfKey) (n : NeighborData) (s : OSPFServer) : OSPFServer :=
  put_intf key (set_NeighborMap (<[k := n]> (NeighborMap (intf_of s key))) (intf_of s key)) s.
Definition no_routers (msg : NeighMsg) : bool :=
  Util.bytesEqual (nm_DRtr msg) [0; 0; 0; 0] && Util.bytesEqual (nm_BDRtr msg) [0; 0; 0; 0].

Definition processNbrDownEvent (nbrKey : NeighborConfKey) (key : IntfConfKey) (p2p : bool) (s : OSPFServer) : go OSPFServer :=
  let ent := intf_of s key in
  match NeighborMap ent !! nbrKey with
  | None => Ok s
  | Some _ =>
    let s := put_intf key (set_NeighborMap (delete nbrKey (NeighborMap ent)) ent) s in
    if negb p2p && (IfFSMState ent >? Waiting) then ElectBDRAndDR key s else Ok s
  end.

Definition set_FullState (x : bool) (n : NeighborData) : NeighborData :=
  {| TwoWayStatus := TwoWayStatus n; RtrPrio := RtrPrio n; DRtr := DRtr n; BDRtr := BDRtr n; nd_NbrIP := nd_NbrIP n; FullState := x |}.
Definition processNbrFullStateMsg (full : bool) (nbrKey : NeighborConfKey) (key : IntfConfKey) (s : OSPFServer) : OSPFServer :=
  match NeighborMap (intf_of s key) !! nbrKey with
  | None => s
  | Some n =>
    if negb (eqb full (FullState n)) && (IfFSMState (intf_of s key) =? DesignatedRouter)
    then put_nbr key nbrKey (set_FullState full n) s else s
  end.

(** What the loop of an interface selects on. *)
Inductive IntfEvent :=
  | HelloTick
  | WaitExpired
  | BackupSeenCh
  | NeighCreateCh (msg : NeighMsg)
  | NeighChangeCh (msg : NeighMsg)
  | NbrStateChangeCh (nbrKey : NeighborConfKey)
  | NbrFullStateCh (full : bool) (nbrKey : NeighborConfKey)
  | FSMCtrlCh (state : bool).

Context {gp : Gopacket}.

(** An iteration of a loop: the loop goes on if the result is [true]. *)
Definition goes_on (m : go OSPFServer) : go (OSPFServer * bool) := s ← m; Ok (s, true).

(** On a point-to-point link there is no election, and hellos name no routers. *)
Definition p2p_event (key : IntfConfKey) (ev : IntfEvent) (s : OSPFServer) : go (OSPFServer * bool) :=
  let ent := intf_of s key in
  if negb (HelloIntervalTicker ent) then Panic else
  match ev with
  | HelloTick => goes_on (StartSendHelloPkt key s)
  | NeighCreateCh msg =>
    let k := intf_nbr_key (nm_NbrIP msg) key in
    goes_on (Ok (if negb (no_routers msg) then s else
      match NeighborMap ent !! k with
      | Some _ => s
      | None => put_nbr key k {| TwoWayStatus := nm_TwoWayStatus msg; RtrPrio := nm_RtrPrio msg; DRtr := []; BDRtr := [];
                                 nd_NbrIP := nm_NbrIP msg; FullState := false |} s
      end))
  | NeighChangeCh msg =>
    let k := intf_nbr_key (nm_NbrIP msg) key in
    goes_on (Ok (if negb (no_routers msg) then s else
      match NeighborMap ent !! k with
      | None => s
      | Some n => put_nbr key k {| TwoWayStatus := nm_TwoWayStatus msg; RtrPrio := nm_RtrPrio msg; DRtr := nm_DRtr msg;
                                   BDRtr := nm_BDRtr msg; nd_NbrIP := nm_NbrIP msg; FullState := FullState n |} s
      end))
  | NbrStateChangeCh nbrKey => goes_on (processNbrDownEvent nbrKey key true s)
  | FSMCtrlCh false => Ok (StopSendHelloPkt key s, false)
  | WaitExpired | BackupSeenCh | NbrFullStateCh _ _ | FSMCtrlCh true => Ok (s, true)
  end.

(** RFC 2328, section 9.2: the changes of a neighbor that call for an election. *)
Definition neighbor_change (n : NeighborData) (oldDRtr oldBDRtr newDRtr newBDRtr : Z) (msg : NeighMsg) : bool :=
  let ip := nm_NbrIP msg in
  ((oldDRtr =? ip) && negb (newDRtr =? ip) && TwoWayStatus n) || (negb (oldDRtr =? ip) && (newDRtr =? ip) && TwoWayStatus n) ||
  ((oldBDRtr =? ip) && negb (newBDRtr =? ip) && TwoWayStatus n) || (negb (oldBDRtr =? ip) && (newBDRtr =? ip) && TwoWayStatus n) ||
  negb (eqb (TwoWayStatus n) (nm_TwoWayStatus msg)) || (negb (RtrPrio n =? nm_RtrPrio msg) && TwoWayStatus n).

Definition broadcast_event (key : IntfConfKey) (ev : IntfEvent) (s : OSPFServer) : go (OSPFServer * bool) :=
  let ent := intf_of s key in
  if negb (HelloIntervalTicker ent) || bool_decide (WaitTimer ent = None) then Panic else
  match ev with
  | HelloTick => goes_on (StartSendHelloPkt key s)
  | WaitExpired => goes_on (ElectBDRAndDR key (put DbEvent (put_intf key (set_WaitTimer (Some false) ent) s)))
  | BackupSeenCh => goes_on (ElectBDRAndDR key (put DbEvent s))
  | NeighCreateCh msg =>
    let k := intf_nbr_key (nm_NbrIP msg) key in
    goes_on (match NeighborMap ent !! k with
      | Some _ => Ok s
      | None =>
        let s := put_nbr key k {| TwoWayStatus := nm_TwoWayStatus msg; RtrPrio := nm_RtrPrio msg; DRtr := nm_DRtr msg;
                                  BDRtr := nm_BDRtr msg; nd_NbrIP := nm_NbrIP msg; FullState := false |} s in
        if nm_TwoWayStatus msg && (IfFSMState ent >? Waiting) then ElectBDRAndDR key s else Ok s
      end)
  | NeighChangeCh msg =>
    let k := intf_nbr_key (nm_NbrIP msg) key in
    goes_on (match NeighborMap ent !! k with
      | None => Ok s
      | Some n =>
        oldDRtr ← Uint32 (DRtr n); oldBDRtr ← Uint32 (BDRtr n);
        newDRtr ← Uint32 (nm_DRtr msg); newBDRtr ← Uint32 (nm_BDRtr msg);
        let s := put_nbr key k {| TwoWayStatus := nm_TwoWayStatus msg; RtrPrio := nm_RtrPrio msg; DRtr := nm_DRtr msg;
                                  BDRtr := nm_BDRtr msg; nd_NbrIP := nm_NbrIP msg; FullState := FullState n |} s in
        if (IfFSMState ent >? Waiting) && neighbor_change n oldDRtr oldBDRtr newDRtr newBDRtr msg then ElectBDRAndDR key s else Ok s
      end)
  | NbrStateChangeCh nbrKey => goes_on (processNbrDownEvent nbrKey key false s)
  | FSMCtrlCh false => Ok (StopSendHelloPkt key s, false)
  | FSMCtrlCh true => Ok (s, true)
  | NbrFullStateCh full nbrKey => Ok (processNbrFullStateMsg full nbrKey key s, true)
  end.

(** ** Start *)

(** The interface before its machine runs: tickers of no duration panic. *)
Definition StartSendRecvPkts (key : IntfConfKey) (s : OSPFServer) : go OSPFServer :=
  let ent := intf_of s key in
  if IfHelloInterval ent =? 0 then Panic else
  let ent := set_NeighborMap ∅ (set_HelloIntervalTicker true ent) in
  let ent := if IfType ent =? Broadcast then set_WaitTimer (Some true) ent else ent in
  let state := if IfType ent =? Broadcast then Waiting
               else if (IfType ent =? NumberedP2P) || (IfType ent =? UnnumberedP2P) then P2P else IfFSMState ent in
  Ok (put_intf key (set_IfFSMState state ent) s).

(** What the goroutine of the machine does before its loop. *)
Definition StartOspfIntfFSM (key : IntfConfKey) (s : OSPFServer) : go OSPFServer :=
  match IntfConfMap s !! key with
  | None => Ok s
  | Some ent =>
    areaId ← Util.convertIPv4ToUint32 (IfAreaId ent);
    let s := put (StateChange areaId key) s in
    if (IfType ent =? NumberedP2P) || (IfType ent =? UnnumberedP2P) || (IfType ent =? Broadcast) then StartSendHelloPkt key s else Ok s
  end.

(** The loop that runs for the interface, on a list of events; other types of interfaces have none. *)
Definition intf_event (key : IntfConfKey) (ev : IntfEvent) (s : OSPFServer) : go (OSPFServer * bool) :=
  let type := IfType (intf_of s key) in
  if (type =? NumberedP2P) || (type =? UnnumberedP2P) then p2p_event key ev s
  else if type =? Broadcast then broadcast_event key ev s else Ok (s, false).
Fixpoint intf_run (key : IntfConfKey) (evs : list IntfEvent) (s : OSPFServer) : go OSPFServer :=
  match evs with
  | [] => Ok s
  | ev :: evs => '(s, on) ← intf_event key ev s; if on : bool then intf_run key evs s else Ok s
  end.
End intf.
