(* ===== verification/OspfIntfSpec.v ===== *)
(** The election of a designated router and its backup as the choice of the best candidates, what every router on a network agrees on,
    and the invariant of an interface. *)
From stdpp Require Import base numbers list gmap strings.
From Stdlib Require Import ZArith Lia.
From S2P Require Import Prelude GoNet OspfUtil OspfLsa OspfState OspfSpf OspfRoute OspfArea OspfPacket OspfPacketFacts OspfPacketSpec OspfIntf.
Open Scope Z_scope.

(** ** Candidates *)

(** A router that may be elected: its priority, identifier and address, and whether it says that it is the designated router, or the
    backup. *)
Record Cand := {
  c_prio : Z;
  c_id : Z;
  c_ip : Z;
  c_dr : bool;
  c_bdr : bool;
}.
(** The priority decides, and among equal priorities the identifier. *)
Definition rank (c : Cand) : Z := c_prio c * 4294967296 + c_id c.
Definition cand_ok (c : Cand) : Prop := 0 < c_prio c /\ is_u32 (c_id c) /\ is_u32 (c_ip c) /\ c_ip c <> 0.

Definition better (b : option Cand) (c : Cand) : option Cand :=
  match b with None => Some c | Some x => if rank x <? rank c then Some c else b end.
Definition best (cs : list Cand) : option Cand := foldl better None cs.

(** RFC 2328, section 9.4: a router that says it is designated is no candidate for backup, and one that says it is the backup comes before
    those that do not. *)
Definition not_dr (c : Cand) : bool := negb (c_dr c).
Definition says_backup (c : Cand) : bool := negb (c_dr c) && c_bdr c.
Definition backup_of (cs : list Cand) : option Cand :=
  match best (filter says_backup cs) with Some c => Some c | None => best (filter not_dr cs) end.
Definition designated_of (cs : list Cand) : option Cand :=
  match best (filter c_dr cs) with Some c => Some c | None => backup_of cs end.
(** The address and the identifier that are stored. *)
Definition stored (c : option Cand) : bytes * Z := match c with Some c => (be32 (c_ip c), c_id c) | None => ([0; 0; 0; 0], 0) end.

Lemma foldl_better_spec cs : forall b, match foldl better b cs with
  | Some c => (c ∈ cs \/ b = Some c) /\ (forall x, x ∈ cs -> rank x <= rank c) /\ (forall x, b = Some x -> rank x <= rank c)
  | None => cs = [] /\ b = None
  end.
Proof.
  induction cs as [|c cs IH]; intros b; cbn [foldl].
  { destruct b as [c|]; [|done]. split; [by right|]. split; [by intros ? ?%not_elem_of_nil | naive_solver lia]. }
  specialize (IH (better b c)). destruct (foldl better (better b c) cs) as [w|].
  - destruct IH as (Hin & Hcs & Hb).
    assert (Hc : rank c <= rank w /\ forall x, b = Some x -> rank x <= rank w).
    { destruct b as [x|]; cbn [better] in Hb; [destruct (rank x <? rank c) eqn:E; zhyp|]; specialize (Hb _ eq_refl); split; try done; naive_solver lia. }
    split; [|split; [|naive_solver]].
    + destruct Hin as [Hin|Hin]; [by left; right|]. assert (H : w = c \/ b = Some w).
      { destruct b as [x|]; cbn [better] in Hin; [destruct (rank x <? rank c)|]; naive_solver. }
      destruct H as [->|H]; [left; by left | by right].
    + intros x [->|Hx]%elem_of_cons; [apply (proj1 Hc) | by apply Hcs].
  - destruct IH as [_ Hb]. destruct b as [x|]; cbn [better] in Hb; [destruct (rank x <? rank c)|]; done.
Qed.

Lemma best_spec cs c : best cs = Some c -> c ∈ cs /\ forall x, x ∈ cs -> rank x <= rank c.
Proof. intros H. pose proof (foldl_better_spec cs None) as Hs. unfold best in H. rewrite H in Hs. naive_solver. Qed.
Lemma best_None cs : best cs = None -> cs = [].
Proof. intros H. pose proof (foldl_better_spec cs None) as Hs. unfold best in H. rewrite H in Hs. naive_solver. Qed.

(** Routers with ranks of their own are chosen whatever the order. *)
Lemma best_perm cs cs' : NoDup (rank <$> cs) -> cs ≡ₚ cs' -> best cs = best cs'.
Proof.
  intros Hnd Hp. destruct (best cs) as [c|] eqn:E1, (best cs') as [c'|] eqn:E2; try apply best_spec in E1 as [Hc Hm]; try apply best_spec in E2 as [Hc' Hm'].
  - f_equal. rewrite <- Hp in Hc'. assert (Er : rank c = rank c').
    { specialize (Hm _ Hc'). rewrite Hp in Hc. specialize (Hm' _ Hc). lia. }
    apply list_elem_of_lookup in Hc as [i Hi]. apply list_elem_of_lookup in Hc' as [j Hj].
    assert (i = j) as -> by (eapply NoDup_lookup; [done | by rewrite list_lookup_fmap, Hi | by rewrite list_lookup_fmap, Hj, Er]). congruence.
  - apply best_None in E2 as ->. rewrite Hp in Hc. by apply not_elem_of_nil in Hc.
  - apply best_None in E1 as ->. rewrite <- Hp in Hc'. by apply not_elem_of_nil in Hc'.
  - done.
Qed.
Lemma best_filter_perm (P : Cand -> bool) cs cs' : NoDup (rank <$> cs) -> cs ≡ₚ cs' -> best (filter P cs) = best (filter P cs').
Proof.
  intros Hnd Hp. apply best_perm; [|by rewrite Hp]. eapply sublist_NoDup; [exact Hnd|]. apply fmap_sublist, sublist_filter.
Qed.
Lemma choice_perm cs cs' : NoDup (rank <$> cs) -> cs ≡ₚ cs' -> backup_of cs = backup_of cs' /\ designated_of cs = designated_of cs'.
Proof.
  intros Hnd Hp. unfold designated_of, backup_of. by rewrite !(fun P => best_filter_perm P cs cs' Hnd Hp).
Qed.

(** ** The election chooses the best *)

Section election.
Context {mo : MapOrder} {mok : MapOrderOk}.

(** The candidates that an interface knows: its neighbors and the router itself. *)
Definition nbr_cand (s : OSPFServer) (k : NeighborConfKey) (n : NeighborData) : option Cand :=
  if may_be_elected n then
    Some {| c_prio := RtrPrio n; c_id := nbr_id s k; c_ip := nd_NbrIP n; c_dr := bool_decide (DRtr n = be32 (nd_NbrIP n));
            c_bdr := bool_decide (BDRtr n = be32 (nd_NbrIP n)) |}
  else None.
Definition nbr_cands (key : IntfConfKey) (s : OSPFServer) : list Cand :=
  omap (fun k => n ← NeighborMap (intf_of s key) !! k; nbr_cand s k n) (range (NeighborMap (intf_of s key))).
Definition own_cand (rid ip : Z) (ent : IntfConf) : list Cand :=
  if is_candidate ent then
    [{| c_prio := IfRtrPriority ent; c_id := rid; c_ip := ip; c_dr := bool_decide (IfDRIp ent = be32 ip);
        c_bdr := bool_decide (IfBDRIp ent = be32 ip) |}]
  else [].
Definition cands (rid ip : Z) (key : IntfConfKey) (s : OSPFServer) : list Cand := nbr_cands key s ++ own_cand rid ip (intf_of s key).

(** What neighbors say of themselves are addresses, and theirs are not that of the interface. *)
Definition nbr_ok (ip : Z) (n : NeighborData) : Prop :=
  is_u32 (nd_NbrIP n) /\ nd_NbrIP n <> ip /\ exists dr bdr, DRtr n = be32 dr /\ BDRtr n = be32 bdr /\ is_u32 dr /\ is_u32 bdr.
Record intf_ok (rid ip : Z) (key : IntfConfKey) (s : OSPFServer) : Prop := {
  io_nbrs : forall k n, NeighborMap (intf_of s key) !! k = Some n -> nbr_ok ip n;
  io_ids : forall k, is_u32 (nbr_id s k);
  io_rid : RouterId s = be32 rid /\ is_u32 rid;
  io_ip : To4 (IfIpAddr (intf_of s key)) = Some (be32 ip) /\ is_u32 ip /\ ip <> 0;
  io_prio : 0 <= IfRtrPriority (intf_of s key);
}.

Lemma for_map_omap {E K A B C} `{Countable K} (m : gmap K A) (body : K -> A -> B -> outcome E B) (f : K -> A -> option C) (g : B -> C -> B) b :
  (forall k a b, m !! k = Some a -> body k a b = Ok (match f k a with Some c => g b c | None => b end)) ->
  for_map m body b = Ok (foldl g b (omap (fun k => a ← m !! k; f k a) (range m))).
Proof.
  intros Hb. unfold for_map. generalize (range m). intros l. revert b. induction l as [|k l IH]; intros b; [done|].
  cbn [for_each omap list_omap]. destruct (m !! k) as [a|] eqn:E1.
  - rewrite (Hb _ _ _ E1), bind_Ok, IH. change (Some a ≫= (fun a => f k a)) with (f k a). by destruct (f k a).
  - rewrite bind_Ok. apply IH.
Qed.

Lemma cands_ok rid ip key s : intf_ok rid ip key s -> Forall cand_ok (cands rid ip key s).
Proof.
  intros [Hn Hids [_ Hr] [Hi [Hip Hz]] Hp]. apply Forall_app. split.
  - apply Forall_forall. intros c Hc. apply list_elem_of_omap in Hc as (k & _ & Hk).
    destruct (NeighborMap (intf_of s key) !! k) as [n|] eqn:En; [|done]. cbn in Hk. unfold nbr_cand, may_be_elected in Hk.
    destruct (TwoWayStatus n && (RtrPrio n >? 0) && negb (nd_NbrIP n =? 0)) eqn:E; [|done]. injection Hk as <-.
    rewrite !andb_true_iff in E. destruct E as [[_ E1] E2]. rewrite Z.gtb_ltb in E1. zhyp.
    destruct (Hn _ _ En) as [Hu _]. unfold cand_ok. cbn. split_and!; [lia | apply Hids | done | ]. by destruct (Z.eqb_spec (nd_NbrIP n) 0).
  - unfold own_cand, is_candidate. destruct (negb (IfRtrPriority _ =? 0) && _) eqn:E; [|done]. apply Forall_singleton.
    apply andb_true_iff in E as [E1 E2]. rewrite negb_true_iff in E1, E2. zhyp. unfold cand_ok. cbn. split_and!; [lia | done | done |].
    intros ->. unfold own_ip in E2. rewrite Hi in E2. cbn in E2. discriminate.
Qed.

Lemma preferred_rank p id c : 0 < p -> is_u32 id -> cand_ok c ->
  preferred p id (c_prio c) (c_id c) = (rank c <? p * 4294967296 + id).
Proof.
  intros Hp Hi (Hq & Hj & _). unfold preferred, rank, is_u32 in *. apply eq_true_iff_eq.
  rewrite orb_true_iff, andb_true_iff, !Z.ltb_lt, Z.eqb_eq. lia.
Qed.

(** What the loop has found is the best of those it has seen. *)
Definition found (b : option Cand) : Z * Z := match b with Some c => (c_prio c, c_id c) | None => (0, 0) end.
Definition found_ip (b : option Cand) : Z := match b with Some c => c_ip c | None => 0 end.

Lemma preferred_found b c : (forall x, b = Some x -> cand_ok x) -> cand_ok c ->
  preferred (c_prio c) (c_id c) (found b).1 (found b).2 = match b with Some x => rank x <? rank c | None => true end.
Proof.
  intros Hb (Hp & Hi & _). destruct b as [x|]; cbn [found fst snd].
  - by apply preferred_rank; [..|apply Hb].
  - unfold preferred. by zif.
Qed.

Lemma best_ok cs x : Forall cand_ok cs -> best cs = Some x -> cand_ok x.
Proof. rewrite Forall_forall. intros Hcs Hb. apply best_spec in Hb as [Hb _]. by apply Hcs. Qed.
Lemma best_snoc cs c : best (cs ++ [c]) = better (best cs) c.
Proof. unfold best. by rewrite foldl_app. Qed.

Definition bdr_state (cs : list Cand) : Election :=
  let a := best (filter says_backup cs) in let b := best (filter not_dr cs) in
  {| electedBDR := (stored a).1; electedRtrPrio := (found a).1; electedRtrId := (found a).2; MaxRtrPrio := (found b).1;
     RtrIdWithMaxPrio := (found b).2; NbrIPWithMaxPrio := found_ip b |}.
(** One more candidate. *)
Definition bdr_step (e : Election) (c : Cand) : Election :=
  if c_dr c then e
  else take_max (c_ip c) (c_prio c) (c_id c) (if c_bdr c then take_elected (be32 (c_ip c)) (c_prio c) (c_id c) e else e).

Lemma filter_snoc (P : Cand -> bool) cs c : filter P (cs ++ [c]) = filter P cs ++ (if P c then [c] else []).
Proof. rewrite filter_app, filter_cons. cbn. by destruct (P c). Qed.

Lemma filter_ok (P : Cand -> bool) cs : Forall cand_ok cs -> Forall cand_ok (filter P cs).
Proof. rewrite !Forall_forall. intros Hcs c [_ Hc]%list_elem_of_filter. by apply Hcs. Qed.

Lemma take_elected_best cs c e : Forall cand_ok cs -> cand_ok c -> electedBDR e = (stored (best cs)).1 -> electedRtrPrio e = (found (best cs)).1 ->
  electedRtrId e = (found (best cs)).2 ->
  take_elected (be32 (c_ip c)) (c_prio c) (c_id c) e =
  {| electedBDR := (stored (best (cs ++ [c]))).1; electedRtrPrio := (found (best (cs ++ [c]))).1; electedRtrId := (found (best (cs ++ [c]))).2;
     MaxRtrPrio := MaxRtrPrio e; RtrIdWithMaxPrio := RtrIdWithMaxPrio e; NbrIPWithMaxPrio := NbrIPWithMaxPrio e |}.
Proof.
  intros Hcs Hc E1 E2 E3. unfold take_elected. rewrite E2, E3, preferred_found by (done || intros; by eapply best_ok).
  rewrite best_snoc. destruct (best cs) as [x|]; cbn [better]; [|done]. destruct (rank x <? rank c); [done|].
  destruct e; cbn in *. by subst.
Qed.
Lemma take_max_best cs c e : Forall cand_ok cs -> cand_ok c -> NbrIPWithMaxPrio e = found_ip (best cs) -> MaxRtrPrio e = (found (best cs)).1 ->
  RtrIdWithMaxPrio e = (found (best cs)).2 ->
  take_max (c_ip c) (c_prio c) (c_id c) e =
  {| electedBDR := electedBDR e; electedRtrPrio := electedRtrPrio e; electedRtrId := electedRtrId e;
     MaxRtrPrio := (found (best (cs ++ [c]))).1; RtrIdWithMaxPrio := (found (best (cs ++ [c]))).2; NbrIPWithMaxPrio := found_ip (best (cs ++ [c])) |}.
Proof.
  intros Hcs Hc E1 E2 E3. unfold take_max. rewrite E2, E3, preferred_found by (done || intros; by eapply best_ok).
  rewrite best_snoc. destruct (best cs) as [x|]; cbn [better]; [|done]. destruct (rank x <? rank c); [done|].
  destruct e; cbn in *. by subst.
Qed.

Lemma bdr_step_state cs c : Forall cand_ok cs -> cand_ok c -> bdr_step (bdr_state cs) c = bdr_state (cs ++ [c]).
Proof.
  intros Hcs Hc. assert (Hf : forall P : Cand -> bool, Forall cand_ok (filter P cs)) by (intros P; apply filter_ok, Hcs).
  unfold bdr_step, bdr_state. rewrite !filter_snoc.
  assert (E1 : says_backup c = negb (c_dr c) && c_bdr c) by done. assert (E2 : not_dr c = negb (c_dr c)) by done.
  rewrite !E1, !E2. destruct (c_dr c); cbn [negb andb]; [by rewrite !app_nil_r|].
  destruct (c_bdr c); [rewrite (take_elected_best (filter says_backup cs)) by done|];
    rewrite (take_max_best (filter not_dr cs)) by done; [done | by rewrite app_nil_r].
Qed.

Lemma bdr_fold cs : forall pre, Forall cand_ok pre -> Forall cand_ok cs -> foldl bdr_step (bdr_state pre) cs = bdr_state (pre ++ cs).
Proof.
  induction cs as [|c cs IH]; intros pre Hp Hcs; [by rewrite app_nil_r|]. apply Forall_cons in Hcs as [Hc Hcs]. cbn [foldl].
  rewrite bdr_step_state by done. rewrite IH; [by rewrite <- app_assoc | by apply Forall_app; auto | done].
Qed.

Lemma bytesEqual_be32 a b : is_u32 a -> is_u32 b -> Util.bytesEqual (be32 a) (be32 b) = (a =? b).
Proof.
  intros Ha Hb. rewrite bytesEqual_eq. destruct (Z.eqb_spec a b) as [->|Hab]; [by apply bool_decide_eq_true_2|].
  apply bool_decide_eq_false_2. intros E. by apply Hab, be32_inj.
Qed.
Lemma be32_eqb a b : is_u32 a -> is_u32 b -> bool_decide (be32 a = be32 b) = (a =? b).
Proof. intros Ha Hb. by rewrite <- bytesEqual_be32, bytesEqual_eq. Qed.
Lemma be32_zero a : is_u32 a -> Util.bytesEqual (be32 a) [0; 0; 0; 0] = (a =? 0).
Proof. intros Ha. apply (bytesEqual_be32 a 0); [done | unfold is_u32; lia]. Qed.
Lemma Uint32_be32_nil {E} v : is_u32 v -> Uint32 (E := E) (be32 v) = Ok v.
Proof. intros Hv. rewrite <- (app_nil_r (be32 v)). by apply Uint32_be32. Qed.

Lemma bdr_nbr_step ip s k n e : nbr_ok ip n -> bdr_nbr s k n e = Ok (match nbr_cand s k n with Some c => bdr_step e c | None => e end).
Proof.
  intros (Hip & _ & dr & bdr & Hdr & Hbdr & H1 & H2). unfold bdr_nbr, nbr_cand. destruct (may_be_elected n); cbn [negb]; [|done].
  unfold bdr_step. cbn. rewrite Hdr, Hbdr, !Uint32_be32_nil, !bind_Ok, !be32_eqb by done. destruct (dr =? nd_NbrIP n); [done|].
  destruct (Z.eqb_spec bdr (nd_NbrIP n)) as [->|]; done.
Qed.

Lemma stored_zero cs : Forall cand_ok cs -> Util.bytesEqual (stored (best cs)).1 [0; 0; 0; 0] = negb (bool_decide (is_Some (best cs))).
Proof.
  intros Hcs. destruct (best cs) as [c|] eqn:E; [|done]. apply best_ok in E as (_ & _ & H1 & H2); [|done].
  cbn [stored fst]. rewrite be32_zero by done. rewrite bool_decide_eq_true_2 by done. by apply Z.eqb_neq.
Qed.

Lemma own_bdr_step rid ip key s e : intf_ok rid ip key s -> own_bdr (intf_of s key) s e = Ok (foldl bdr_step e (own_cand rid ip (intf_of s key))).
Proof.
  intros [_ _ [Hrid Hr] [Hi [Hip Hz]] _]. set (ent := intf_of s key) in *. unfold own_bdr, own_cand. destruct (is_candidate ent); cbn [andb]; [|done].
  assert (Ho : own_ip ent = be32 ip) by (unfold own_ip; by rewrite Hi). cbn [foldl]. unfold bdr_step. cbn. rewrite Ho, !bytesEqual_eq.
  rewrite (bool_decide_ext (be32 ip = IfDRIp ent) (IfDRIp ent = be32 ip)), (bool_decide_ext (be32 ip = IfBDRIp ent) (IfBDRIp ent = be32 ip)) by done.
  destruct (bool_decide (IfDRIp ent = be32 ip)); cbn [negb]; [done|]. rewrite Hrid, !Uint32_be32_nil, !bind_Ok by done.
  unfold take_max. destruct (preferred _ _ (MaxRtrPrio _) _); done.
Qed.

(** The backup is the best candidate for it. *)
Lemma ElectBDR_spec rid ip key s : intf_ok rid ip key s -> ElectBDR key s = Ok (stored (backup_of (cands rid ip key s))).
Proof.
  intros Hs. pose proof (cands_ok _ _ _ _ Hs) as Hc. unfold ElectBDR.
  rewrite (for_map_omap _ _ (nbr_cand s) bdr_step) by (intros; eapply bdr_nbr_step; by eapply io_nbrs). rewrite bind_Ok.
  rewrite (own_bdr_step rid ip), bind_Ok, <- foldl_app by done. fold (nbr_cands key s). fold (cands rid ip key s).
  change (foldl _ _ _) with (foldl bdr_step (bdr_state []) (cands rid ip key s)). rewrite bdr_fold by done. cbn [app].
  unfold bdr_state, backup_of. cbn [electedBDR NbrIPWithMaxPrio RtrIdWithMaxPrio electedRtrId].
  rewrite stored_zero by (by apply filter_ok). destruct (best (filter says_backup _)) as [c|]; [done|].
  destruct (best (filter not_dr _)); done.
Qed.

(** ** The designated router *)

Definition dr_state (cs : list Cand) : bytes * Z * Z := let d := best (filter c_dr cs) in ((stored d).1, (found d).1, (found d).2).
Definition dr_step (e : bytes * Z * Z) (c : Cand) : bytes * Z * Z := if c_dr c then take_dr (be32 (c_ip c)) (c_prio c) (c_id c) e else e.

Lemma dr_step_state cs c : Forall cand_ok cs -> cand_ok c -> dr_step (dr_state cs) c = dr_state (cs ++ [c]).
Proof.
  intros Hcs Hc. unfold dr_step, dr_state. rewrite (filter_snoc c_dr). destruct (c_dr c); [|by rewrite app_nil_r].
  pose proof (filter_ok c_dr cs Hcs) as Hf. unfold take_dr. rewrite preferred_found by (done || intros; by eapply best_ok).
  rewrite best_snoc. destruct (best (filter _ cs)) as [x|]; cbn [better]; [|done]. by destruct (rank x <? rank c).
Qed.
Lemma dr_fold cs : forall pre, Forall cand_ok pre -> Forall cand_ok cs -> foldl dr_step (dr_state pre) cs = dr_state (pre ++ cs).
Proof.
  induction cs as [|c cs IH]; intros pre Hp Hcs; [by rewrite app_nil_r|]. apply Forall_cons in Hcs as [Hc Hcs]. cbn [foldl].
  rewrite dr_step_state by done. rewrite IH; [by rewrite <- app_assoc | by apply Forall_app; auto | done].
Qed.

Lemma dr_nbr_step ip s k n e : nbr_ok ip n -> dr_nbr s k n e = Ok (match nbr_cand s k n with Some c => dr_step e c | None => e end).
Proof.
  intros (Hip & _ & dr & bdr & Hdr & _ & H1 & _). unfold dr_nbr, nbr_cand. destruct (may_be_elected n); cbn [negb]; [|done].
  unfold dr_step. cbn. rewrite Hdr, Uint32_be32_nil, bind_Ok, be32_eqb by done. destruct (Z.eqb_spec dr (nd_NbrIP n)) as [->|]; done.
Qed.
Lemma own_dr_step rid ip key s e : intf_ok rid ip key s -> own_dr (intf_of s key) s e = Ok (foldl dr_step e (own_cand rid ip (intf_of s key))).
Proof.
  intros [_ _ [Hrid Hr] [Hi [Hip Hz]] Hp]. set (ent := intf_of s key) in *. unfold own_dr, own_cand, is_candidate.
  assert (Ho : own_ip ent = be32 ip) by (unfold own_ip; by rewrite Hi). rewrite Ho.
  replace (IfRtrPriority ent >? 0) with (negb (IfRtrPriority ent =? 0)) by (apply eq_true_iff_eq; rewrite negb_true_iff, Z.gtb_lt, Z.eqb_neq; lia).
  destruct (negb (IfRtrPriority ent =? 0) && _); cbn [andb foldl]; [|done]. unfold dr_step. cbn [c_dr c_ip c_prio c_id]. rewrite bytesEqual_eq.
  rewrite (bool_decide_ext (be32 ip = IfDRIp ent) (IfDRIp ent = be32 ip)) by done.
  destruct (bool_decide (IfDRIp ent = be32 ip)); [|done]. by rewrite Hrid, Uint32_be32_nil, bind_Ok.
Qed.

Lemma ElectDR_spec rid ip key s : intf_ok rid ip key s ->
  ElectDR key (stored (backup_of (cands rid ip key s))) s = Ok (stored (designated_of (cands rid ip key s))).
Proof.
  intros Hs. pose proof (cands_ok _ _ _ _ Hs) as Hc. unfold ElectDR.
  rewrite (for_map_omap _ _ (nbr_cand s) dr_step) by (intros; eapply dr_nbr_step; by eapply io_nbrs). rewrite bind_Ok.
  rewrite (own_dr_step rid ip), bind_Ok, <- foldl_app by done. fold (nbr_cands key s). fold (cands rid ip key s).
  change (foldl _ _ _) with (foldl dr_step (dr_state []) (cands rid ip key s)). rewrite dr_fold by done. cbn [app].
  unfold dr_state, designated_of. rewrite stored_zero by (by apply filter_ok). by destruct (best (filter _ _)) as [c|].
Qed.

(** *** What a round elects *)

(** The best of the candidates with a property, if any has it. *)
Definition top (P : Cand -> bool) (cs : list Cand) (c : option Cand) : Prop :=
  match c with
  | Some c => c ∈ cs /\ P c /\ forall x, x ∈ cs -> P x -> rank x <= rank c
  | None => forall x, x ∈ cs -> P x = false
  end.
Definition Backup (cs : list Cand) (c : option Cand) : Prop :=
  exists b, top says_backup cs b /\ if b is Some _ then c = b else top not_dr cs c.
Definition Designated (cs : list Cand) (bdr c : option Cand) : Prop :=
  exists d, top c_dr cs d /\ if d is Some _ then c = d else c = bdr.

Lemma best_top P cs : top P cs (best (filter P cs)).
Proof.
  unfold top. destruct (best (filter P cs)) as [c|] eqn:E.
  - apply best_spec in E as [[HP Hc]%list_elem_of_filter Hm]. split_and!; [done..|]. intros x Hx Px. by apply Hm, list_elem_of_filter.
  - apply best_None in E. intros x Hx. destruct (P x) eqn:Px; [|done]. exfalso. eapply (not_elem_of_nil x). rewrite <- E.
    apply list_elem_of_filter. by rewrite Px.
Qed.
Lemma elected_top cs : Backup cs (backup_of cs) /\ Designated cs (backup_of cs) (designated_of cs).
Proof.
  split; [exists (best (filter says_backup cs)) | exists (best (filter c_dr cs))]; (split; [apply best_top|]).
  - unfold backup_of. destruct (best (filter says_backup cs)); [done | apply best_top].
  - unfold designated_of. by destruct (best (filter c_dr cs)).
Qed.

Lemma elect_round_spec rid ip key s : intf_ok rid ip key s ->
  elect_round key s = Ok (put_intf key (set_elected (stored (backup_of (cands rid ip key s))) (stored (designated_of (cands rid ip key s)))
    (intf_of s key)) s).
Proof. intros Hs. unfold elect_round. by rewrite (ElectBDR_spec rid ip), bind_Ok, (ElectDR_spec rid ip), bind_Ok by done. Qed.

(** C14: every router of a network chooses the same designated router and the same backup, in whatever order it knows the others: when the
    candidates it sees are the same and no two have the same priority and identifier, a round of the election stores the best of those that
    say they are the backup, or else of those that are not designated, and the best of those that say they are designated, or else the
    backup. *)
Theorem election_agreed claims : NoDup (rank <$> claims) -> exists bdr dr, Backup claims bdr /\ Designated claims bdr dr /\
  forall rid ip key s, intf_ok rid ip key s -> cands rid ip key s ≡ₚ claims ->
  elect_round key s = Ok (put_intf key (set_elected (stored bdr) (stored dr) (intf_of s key)) s).
Proof.
  intros Hnd. exists (backup_of claims), (designated_of claims). destruct (elected_top claims) as [Hb Hd]. split_and!; [done..|].
  intros rid ip key s Hs Hp. rewrite (elect_round_spec rid ip) by done. destruct (choice_perm _ _ Hnd (symmetry Hp)) as [-> ->]. done.
Qed.

(** *** Two rounds *)

Section rounds.
Context (ip : Z) (nbs : list Cand) (Hnbs : Forall (fun c => c_ip c <> ip) nbs).

Definition mine (c : option Cand) : bool := if c is Some c then c_ip c =? ip else false.
Context (p id : Z).
Definition me (d b : bool) : Cand := {| c_prio := p; c_id := id; c_ip := ip; c_dr := d; c_bdr := b |}.

Lemma mine_best (P : Cand -> bool) d b : mine (best (filter P (nbs ++ [me d b]))) = true -> P (me d b) = true.
Proof.
  destruct (best _) as [c|] eqn:E; [|done]. apply best_spec in E as [[HP Hc]%list_elem_of_filter _]. cbn. intros Hm. zhyp.
  apply elem_of_app in Hc as [Hc|Hc%list_elem_of_singleton]; [|subst c; by destruct (P (me d b))].
  rewrite Forall_forall in Hnbs. by destruct (Hnbs c Hc).
Qed.
(** A router that says that it is designated is not chosen as backup. *)
Lemma designated_no_backup b : mine (backup_of (nbs ++ [me true b])) = false.
Proof.
  apply not_true_is_false. unfold backup_of. destruct (best (filter says_backup _)) as [c|] eqn:E; [rewrite <- E|]; by intros ?%mine_best.
Qed.
Lemma nbs_not_mine (P : Cand -> bool) c : best (filter P nbs) = Some c -> mine (Some c) = false.
Proof.
  intros [[_ Hc]%list_elem_of_filter _]%best_spec. rewrite Forall_forall in Hnbs. cbn. by apply Z.eqb_neq, Hnbs.
Qed.
(** After a second round the router is not both. *)
Lemma both_no_more d b : let cs := nbs ++ [me d b] in let cs' := nbs ++ [me (mine (designated_of cs)) (mine (backup_of cs))] in
  mine (designated_of cs') && mine (backup_of cs') = false.
Proof.
  intros cs cs'. apply not_true_is_false. intros [H1 H2]%andb_true_iff. subst cs'.
  destruct (mine (designated_of cs)) eqn:Ed; [by rewrite designated_no_backup in H2|].
  unfold designated_of in H1. rewrite (filter_snoc c_dr), app_nil_r in H1. cbn [c_dr me] in H1.
  destruct (best (filter c_dr nbs)) as [c|] eqn:E1; [apply nbs_not_mine in E1; congruence|]. apply best_None in E1. clear H1.
  subst cs. unfold designated_of in Ed. rewrite (filter_snoc c_dr), E1 in Ed.
  destruct d; cbn in Ed; [by rewrite Z.eqb_refl in Ed|]. rewrite Ed in H2.
  unfold backup_of in H2, Ed. rewrite (filter_snoc says_backup), (filter_snoc not_dr) in H2, Ed. cbn in H2, Ed. rewrite app_nil_r in H2.
  destruct (best (filter says_backup nbs)) as [c|] eqn:E2; [apply nbs_not_mine in E2; congruence|]. apply best_None in E2. rewrite E2 in Ed.
  destruct b; cbn in Ed; [by rewrite Z.eqb_refl in Ed | congruence].
Qed.
End rounds.

(** ** The machine of an interface *)

Lemma intf_of_put key e s : intf_of (put_intf key e s) key = e.
Proof. unfold intf_of, put_intf. cbn. by rewrite lookup_insert_eq. Qed.
Lemma put_intf_twice key e e' s : put_intf key e (put_intf key e' s) = put_intf key e s.
Proof. unfold put_intf. cbn. unfold set_IntfConfMap. cbn. by rewrite insert_insert_eq. Qed.

Lemma cands_elected rid ip key b d s : is_candidate (intf_of s key) = true ->
  cands rid ip key (put_intf key (set_elected b d (intf_of s key)) s) =
  nbr_cands key s ++ [me ip (IfRtrPriority (intf_of s key)) rid (bool_decide (d.1 = be32 ip)) (bool_decide (b.1 = be32 ip))].
Proof.
  intros Hc. unfold cands, nbr_cands, own_cand. rewrite intf_of_put. change (is_candidate (set_elected b d (intf_of s key))) with (is_candidate (intf_of s key)).
  by rewrite Hc.
Qed.
Lemma cands_candidate rid ip key s : is_candidate (intf_of s key) = true -> cands rid ip key s =
  nbr_cands key s ++ [me ip (IfRtrPriority (intf_of s key)) rid (bool_decide (IfDRIp (intf_of s key) = be32 ip))
                        (bool_decide (IfBDRIp (intf_of s key) = be32 ip))].
Proof. intros Hc. unfold cands, own_cand. by rewrite Hc. Qed.
Lemma cands_not_candidate rid ip key s : is_candidate (intf_of s key) = false -> cands rid ip key s = nbr_cands key s.
Proof. intros Hc. unfold cands, own_cand. by rewrite Hc, app_nil_r. Qed.

Lemma nbr_cands_others rid ip key s : intf_ok rid ip key s -> Forall (fun c => c_ip c <> ip) (nbr_cands key s).
Proof.
  intros Hs. apply Forall_forall. intros c Hc. apply list_elem_of_omap in Hc as (k & _ & Hk).
  destruct (NeighborMap (intf_of s key) !! k) as [n|] eqn:En; [|done]. cbn in Hk. unfold nbr_cand in Hk. destruct (may_be_elected n); [|done].
  injection Hk as <-. cbn. by destruct (io_nbrs _ _ _ _ Hs _ _ En) as (_ & ? & _).
Qed.
Lemma others_not_mine ip cs : Forall (fun c => c_ip c <> ip) cs -> mine ip (designated_of cs) = false /\ mine ip (backup_of cs) = false.
Proof.
  intros Hcs. assert (Hb : forall P : Cand -> bool, mine ip (best (filter P cs)) = false).
  { intros P. destruct (best (filter P cs)) as [c|] eqn:E; [|done]. by eapply nbs_not_mine. }
  unfold designated_of, backup_of. pose proof (Hb c_dr) as H1. pose proof (Hb says_backup) as H2. pose proof (Hb not_dr) as H3.
  by destruct (best (filter c_dr cs)), (best (filter says_backup cs)).
Qed.

Lemma chosen_ok cs x : Forall cand_ok cs -> designated_of cs = Some x \/ backup_of cs = Some x -> cand_ok x.
Proof.
  intros Hcs. assert (Hb : forall (P : Cand -> bool) y, best (filter P cs) = Some y -> cand_ok y).
  { intros P y. apply best_ok, filter_ok, Hcs. }
  unfold designated_of, backup_of. destruct (best (filter c_dr cs)) eqn:E1, (best (filter says_backup cs)) eqn:E2; intros [H|H]; naive_solver.
Qed.
Lemma stored_mine ip c : is_u32 ip -> ip <> 0 -> (forall x, c = Some x -> cand_ok x) -> bool_decide ((stored c).1 = be32 ip) = mine ip c.
Proof.
  intros Hu Hz Hc. destruct c as [c|]; cbn [stored fst mine].
  - destruct (Hc c eq_refl) as (_ & _ & H & _). by apply be32_eqb.
  - apply bool_decide_eq_false_2. intros E. apply Hz. symmetry. by apply (be32_inj 0 ip); [unfold is_u32; lia|..].
Qed.
Lemma stored_len c : len (stored c).1 = 4.
Proof. by destruct c. Qed.

(** The state the router is in after a round. *)
Lemma elected_state_mine rid ip key s bdr dr : intf_ok rid ip key s ->
  (forall x, bdr = Some x -> cand_ok x) -> (forall x, dr = Some x -> cand_ok x) ->
  elected_state (set_elected (stored bdr) (stored dr) (intf_of s key)) =
  if mine ip dr then DesignatedRouter else if mine ip bdr then BackupDesignatedRouter else OtherDesignatedRouter.
Proof.
  intros [_ _ _ [Hi [Hip Hz]] _] Hb Hd. unfold elected_state. cbn [IfDRIp IfBDRIp set_elected fst].
  change (own_ip (set_elected _ _ (intf_of s key))) with (own_ip (intf_of s key)). unfold own_ip. rewrite Hi.
  change (default [] (Some (be32 ip))) with (be32 ip). by rewrite !bytesEqual_eq, !stored_mine by done.
Qed.

Lemma intf_ok_put rid ip key e s : intf_ok rid ip key s -> IfIpAddr e = IfIpAddr (intf_of s key) -> IfRtrPriority e = IfRtrPriority (intf_of s key) ->
  (forall k n, NeighborMap e !! k = Some n -> nbr_ok ip n) -> intf_ok rid ip key (put_intf key e s).
Proof. intros [Hn Hids Hr Hi Hp] E1 E2 Hm. split; rewrite ?intf_of_put; [done..| by rewrite E1 | by rewrite E2]. Qed.

(** A router that is designated is not chosen as backup, and one that has stored what a first round elects is not chosen twice. *)
Lemma designated_first rid ip key s : intf_ok rid ip key s -> IfDRIp (intf_of s key) = be32 ip -> mine ip (backup_of (cands rid ip key s)) = false.
Proof.
  intros Hs Hd. pose proof (nbr_cands_others _ _ _ _ Hs) as Hnb. destruct (is_candidate (intf_of s key)) eqn:Ec.
  - rewrite cands_candidate, Hd, bool_decide_eq_true_2 by done. by apply designated_no_backup.
  - rewrite cands_not_candidate by done. by apply others_not_mine.
Qed.
Lemma second_round rid ip key s : intf_ok rid ip key s ->
  let cs := cands rid ip key s in
  let cs' := cands rid ip key (put_intf key (set_elected (stored (backup_of cs)) (stored (designated_of cs)) (intf_of s key)) s) in
  mine ip (designated_of cs') && mine ip (backup_of cs') = false.
Proof.
  intros Hs. pose proof (nbr_cands_others _ _ _ _ Hs) as Hnb. pose proof (cands_ok _ _ _ _ Hs) as Hcs.
  pose proof (io_ip _ _ _ _ Hs) as (_ & Hip & Hz). cbv zeta. destruct (is_candidate (intf_of s key)) eqn:Ec.
  - rewrite cands_elected, !stored_mine by (try done; intros; eapply chosen_ok; eauto). rewrite cands_candidate by done. by apply both_no_more.
  - rewrite (cands_not_candidate _ _ _ (put_intf _ _ _)) by (by rewrite intf_of_put). unfold nbr_cands. rewrite intf_of_put.
    cbn [NeighborMap set_elected]. change (omap _ _) with (nbr_cands key s) at 1. by destruct (others_not_mine ip (nbr_cands key s) Hnb) as [-> _].
Qed.

Lemma not_both rid ip key s bdr dr : intf_ok rid ip key s -> (forall x, bdr = Some x -> cand_ok x) -> (forall x, dr = Some x -> cand_ok x) ->
  mine ip dr && mine ip bdr = false ->
  let e := set_elected (stored bdr) (stored dr) (intf_of s key) in ~ (IfDRIp e = be32 ip /\ IfBDRIp e = be32 ip).
Proof.
  intros Hs Hb Hd Hm e [E1 E2]. destruct (io_ip _ _ _ _ Hs) as (_ & Hip & Hz). cbn in E1, E2.
  rewrite <- (stored_mine ip bdr), <- (stored_mine ip dr), !bool_decide_eq_true_2 in Hm by done. done.
Qed.
Lemma send_change key e s old : len (IfAreaId e) = 4 -> exists area,
  createAndSendEventsIntfFSM key old (elected_state e) (put_intf key e s) =
  Ok (put (DrChange area key old (elected_state e)) (put_intf key (set_IfFSMState (elected_state e) e) s)).
Proof.
  intros Ha. destruct (len_4_inv _ Ha) as (a0 & a1 & a2 & a3 & Ea). eexists. unfold createAndSendEventsIntfFSM.
  rewrite put_intf_twice, !intf_of_put. cbn [IfAreaId set_IfFSMState]. rewrite Ea. reflexivity.
Qed.

(** The election ends in the state of what it stores, and the router is not both. *)
Lemma ElectBDRAndDR_spec rid ip key s : intf_ok rid ip key s -> len (IfAreaId (intf_of s key)) = 4 ->
  (IfFSMState (intf_of s key) = DesignatedRouter -> IfDRIp (intf_of s key) = be32 ip) ->
  exists bdr dr area, let e := set_elected (stored bdr) (stored dr) (intf_of s key) in
  ElectBDRAndDR key s = Ok (put (DrChange area key (IfFSMState (intf_of s key)) (elected_state e))
    (put_intf key (set_IfFSMState (elected_state e) e) s)) /\
  ~ (IfDRIp e = be32 ip /\ IfBDRIp e = be32 ip).
Proof.
  intros Hs Ha Hdr. pose proof (cands_ok _ _ _ _ Hs) as Hcs. set (ent := intf_of s key) in *. set (cs := cands rid ip key s) in *.
  set (e1 := set_elected (stored (backup_of cs)) (stored (designated_of cs)) ent). unfold ElectBDRAndDR. fold ent.
  rewrite (elect_round_spec rid ip) by done. fold ent cs e1. rewrite bind_Ok, intf_of_put.
  destruct (negb (elected_state e1 =? IfFSMState ent) && _) eqn:Eagain.
  - set (s1 := put_intf key e1 s). assert (Hs1 : intf_ok rid ip key s1) by (apply intf_ok_put; [done..|]; apply (io_nbrs _ _ _ _ Hs)).
    pose proof (cands_ok _ _ _ _ Hs1) as Hcs1. rewrite (elect_round_spec rid ip) by done. set (cs1 := cands rid ip key s1) in *.
    unfold s1 at 1 2. rewrite bind_Ok, put_intf_twice, !intf_of_put.
    change (set_elected ?b ?d e1) with (set_elected b d ent).
    destruct (send_change key (set_elected (stored (backup_of cs1)) (stored (designated_of cs1)) ent) s (IfFSMState ent) Ha) as [area ->].
    exists (backup_of cs1), (designated_of cs1), area. split; [done|]. apply (not_both rid); [done | intros; eapply chosen_ok; eauto.. | ]. by apply second_round.
  - destruct (send_change key e1 s (IfFSMState ent) Ha) as [area ->]. exists (backup_of cs), (designated_of cs), area. split; [done|].
    apply (not_both rid); [done | intros; eapply chosen_ok; eauto.. | ]. apply not_true_is_false. intros [Hd Hb]%andb_true_iff.
    unfold e1, ent in Eagain. rewrite (elected_state_mine rid ip), Hd in Eagain by (try done; intros; eapply chosen_ok; eauto).
    change (DesignatedRouter =? OtherDesignatedRouter) with false in Eagain. cbn [andb negb] in Eagain. rewrite andb_true_r in Eagain.
    apply negb_false_iff, Z.eqb_eq in Eagain.
    unfold cs in Hb. rewrite (designated_first rid) in Hb; [done..|]. by apply Hdr.
Qed.

(** *** The invariant *)

(** What the machine relies on. *)
Record intf_conf (ent : IntfConf) : Prop := {
  ic_type : IfType ent = Broadcast;
  ic_area : len (IfAreaId ent) = 4;
  ic_auth : is_u16 (IfAuthType ent);
  ic_key : len (IfAuthKey ent) = 8;
  ic_mask : len (IfNetmask ent) = 4;
  ic_hello : is_u16 (IfHelloInterval ent);
  ic_dead : is_u32 (IfRtrDeadInterval ent);
  ic_routers : len (IfDRIp ent) = 4 /\ len (IfBDRIp ent) = 4;
}.
(** Once it has waited, the interface is in the state of the routers it stores, and its router is not both. *)
Definition settled (ip : Z) (ent : IntfConf) : Prop :=
  Waiting < IfFSMState ent -> IfFSMState ent = elected_state ent /\ ~ (IfDRIp ent = be32 ip /\ IfBDRIp ent = be32 ip).
Record intf_inv (rid ip : Z) (key : IntfConfKey) (s : OSPFServer) : Prop := {
  inv_ok : intf_ok rid ip key s;
  inv_conf : intf_conf (intf_of s key);
  inv_wait : WaitTimer (intf_of s key) <> None;
  inv_settled : settled ip (intf_of s key);
}.

(** What neighbors are said to be are addresses. *)
Definition msg_ok (ip : Z) (msg : NeighMsg) : Prop :=
  is_u32 (nm_NbrIP msg) /\ nm_NbrIP msg <> ip /\ exists dr bdr, nm_DRtr msg = be32 dr /\ nm_BDRtr msg = be32 bdr /\ is_u32 dr /\ is_u32 bdr.
Definition event_ok (ip : Z) (ev : IntfEvent) : Prop :=
  match ev with NeighCreateCh msg | NeighChangeCh msg => msg_ok ip msg | _ => True end.

Lemma inv_put rid ip key e s : intf_inv rid ip key s -> IfIpAddr e = IfIpAddr (intf_of s key) -> IfRtrPriority e = IfRtrPriority (intf_of s key) ->
  (forall k n, NeighborMap e !! k = Some n -> nbr_ok ip n) -> intf_conf e -> WaitTimer e <> None -> settled ip e ->
  intf_inv rid ip key (put_intf key e s).
Proof. intros [Hok _ _ _] E1 E2 Hm Hc Hw He. split; rewrite ?intf_of_put; try done. by apply intf_ok_put. Qed.
Lemma inv_out rid ip key o s : intf_inv rid ip key s -> intf_inv rid ip key (put o s).
Proof. intros [[] ? ? ?]. by split. Qed.
(** Other neighbors, the rest unchanged. *)
Lemma inv_nbrs rid ip key m s : intf_inv rid ip key s -> (forall k n, m !! k = Some n -> nbr_ok ip n) ->
  intf_inv rid ip key (put_intf key (set_NeighborMap m (intf_of s key)) s).
Proof. intros H Hm. pose proof H as [_ [] ? ?]. apply inv_put; try done. Qed.
Lemma inv_insert rid ip key k n s : intf_inv rid ip key s -> nbr_ok ip n -> intf_inv rid ip key (put_nbr key k n s).
Proof.
  intros H Hn. apply inv_nbrs; [done|]. intros k' n' [[_ <-]|[_ Hk]]%lookup_insert_Some; [done|]. by eapply io_nbrs; [apply H|].
Qed.

Lemma elected_state_range e : Waiting < elected_state e.
Proof. unfold elected_state, Waiting, DesignatedRouter, BackupDesignatedRouter, OtherDesignatedRouter. repeat destruct (Util.bytesEqual _ _); lia. Qed.
Lemma settled_designated rid ip key s : intf_inv rid ip key s -> IfFSMState (intf_of s key) = DesignatedRouter -> IfDRIp (intf_of s key) = be32 ip.
Proof.
  intros [[_ _ _ [Hi _] _] _ _ Hst] E. destruct Hst as [He _]; [rewrite E; done|]. rewrite E in He. unfold elected_state, own_ip in He.
  rewrite Hi, !bytesEqual_eq in He. change (default [] (Some (be32 ip))) with (be32 ip) in He.
  destruct (bool_decide (IfDRIp _ = _)) eqn:E1; [by apply bool_decide_eq_true in E1|]. destruct (bool_decide (IfBDRIp _ = _)); discriminate He.
Qed.

Lemma elect_inv rid ip key s : intf_inv rid ip key s -> exists s', ElectBDRAndDR key s = Ok s' /\ intf_inv rid ip key s'.
Proof.
  intros H. pose proof H as [Hok [] Hw _].
  destruct (ElectBDRAndDR_spec rid ip key s) as (bdr & dr & area & -> & Hb); [done..|by apply (settled_designated rid)|].
  eexists. split; [done|]. apply inv_out, inv_put; try done.
  - apply (io_nbrs _ _ _ _ Hok).
  - split; try done. split; apply stored_len.
Qed.

Context {gp : Gopacket}.

Lemma hello_inv rid ip key s : intf_inv rid ip key s -> exists s', StartSendHelloPkt key s = Ok s' /\ intf_inv rid ip key s'.
Proof.
  intros H. pose proof H as [[_ _ [Hr _] _ _] [] _ _]. destruct (hello_builds (intf_of s key) s) as (v & ospf & _ & _ & _ & Hb).
  - split; [by rewrite Hr | done..].
  - intros o. by split; [..| apply ic_routers0 | apply ic_routers0].
  - unfold StartSendHelloPkt. rewrite Hb, bind_Ok. eexists. split; [done|]. by apply inv_out.
Qed.

Lemma maybe_elect rid ip key (b : bool) s : intf_inv rid ip key s ->
  exists s', (if b then ElectBDRAndDR key s else Ok s) = Ok s' /\ intf_inv rid ip key s'.
Proof. intros H. destruct b; [by apply elect_inv | by exists s]. Qed.

Lemma down_inv rid ip key k p2p s : intf_inv rid ip key s -> exists s', processNbrDownEvent k key p2p s = Ok s' /\ intf_inv rid ip key s'.
Proof.
  intros H. unfold processNbrDownEvent. destruct (NeighborMap (intf_of s key) !! k); [|by exists s].
  apply maybe_elect, inv_nbrs; [done|]. intros k' n' [_ Hk]%lookup_delete_Some. by eapply io_nbrs; [apply H|].
Qed.

Lemma goes_on_inv rid ip key m : (exists s', m = Ok s' /\ intf_inv rid ip key s') ->
  exists s' on, goes_on m = Ok (s', on) /\ intf_inv rid ip key s'.
Proof. intros (s' & -> & H). by exists s', true. Qed.

(** An event is handled without a panic, and the invariant stays. *)
Lemma event_inv rid ip key ev s : intf_inv rid ip key s -> HelloIntervalTicker (intf_of s key) = true -> event_ok ip ev ->
  exists s' on, intf_event key ev s = Ok (s', on) /\ intf_inv rid ip key s'.
Proof.
  intros H Ht Hev. pose proof H as [Hok Hc Hw Hst]. pose proof (io_nbrs _ _ _ _ Hok) as Hn. unfold intf_event.
  rewrite (ic_type _ Hc). change ((Broadcast =? NumberedP2P) || (Broadcast =? UnnumberedP2P)) with false. change (Broadcast =? Broadcast) with true.
  cbn iota. unfold broadcast_event. rewrite Ht, bool_decide_eq_false_2 by done. cbn [negb orb].
  destruct ev as [| | |msg|msg|k|full k|[]].
  - by apply goes_on_inv, hello_inv.
  - apply goes_on_inv, elect_inv, inv_out, inv_put; try done. by destruct Hc.
  - by apply goes_on_inv, elect_inv, inv_out.
  - apply goes_on_inv. destruct (NeighborMap _ !! _); [by exists s|]. by apply maybe_elect, inv_insert.
  - apply goes_on_inv. destruct (NeighborMap _ !! _) as [n|] eqn:E; [|by exists s].
    destruct (Hn _ _ E) as (_ & _ & dr & bdr & -> & -> & ? & ?). destruct Hev as (? & ? & dr' & bdr' & -> & -> & ? & ?).
    rewrite !Uint32_be32_nil, !bind_Ok by done. apply maybe_elect, inv_insert; [done|]. split; [done|]. split; [done|]. by exists dr', bdr'.
  - by apply goes_on_inv, down_inv.
  - eexists _, true. split; [done|]. unfold processNbrFullStateMsg. destruct (NeighborMap _ !! k) as [n|] eqn:E; [|done].
    destruct (negb _ && _); [|done]. apply inv_insert; [done|]. apply (Hn _ _ E).
  - by exists s, true.
  - eexists _, false. split; [done|]. unfold StopSendHelloPkt. rewrite Ht. apply inv_put; try done. by destruct Hc.
Qed.

End election.

Section run.
Context {gp : Gopacket}.

(** A step: an event is handled, or other parts of the daemon change what they keep, of the interface the wait timer alone. Each event
    visits the maps in an order of its own. *)
Inductive intf_step (ip : Z) (key : IntfConfKey) : OSPFServer -> OSPFServer -> Prop :=
  | step_event (mo : MapOrder) (mok : MapOrderOk) ev s s' on : HelloIntervalTicker (intf_of s key) = true -> event_ok ip ev -> intf_event key ev s = Ok (s', on) ->
      intf_step ip key s s'
  | step_others w s s' : intf_of s' key = set_WaitTimer (Some w) (intf_of s key) -> RouterId s' = RouterId s -> (forall k, is_u32 (nbr_id s' k)) ->
      intf_step ip key s s'.

Lemma step_inv rid ip key s s' : intf_step ip key s s' -> intf_inv rid ip key s -> intf_inv rid ip key s'.
Proof.
  intros [mo mok ev s1 s2 on Ht Hev E|w s1 s2 E Er Hids] H.
  - destruct (event_inv rid ip key ev s1 H Ht Hev) as (s3 & on' & E' & H3). rewrite E in E'. by injection E' as -> _.
  - destruct H as [[Hn _ Hr Hi Hp] Hc Hw Hst]. split; rewrite ?E; [|by destruct Hc|done|done].
    split; rewrite ?E; [exact Hn | exact Hids | by rewrite Er | exact Hi | exact Hp].
Qed.
Lemma steps_inv rid ip key s s' : rtc (intf_step ip key) s s' -> intf_inv rid ip key s -> intf_inv rid ip key s'.
Proof. induction 1 as [|s1 s2 s3 Hs _ IH]; intros H; [done|]. by eapply IH, step_inv. Qed.
Lemma start_inv rid ip key s s' : intf_ok rid ip key s -> intf_conf (intf_of s key) -> StartSendRecvPkts key s = Ok s' -> intf_inv rid ip key s'.
Proof.
  intros Hok Hc. unfold StartSendRecvPkts. destruct (_ =? 0); [done|]. cbn [IfType set_NeighborMap set_HelloIntervalTicker].
  rewrite (ic_type _ Hc). change (Broadcast =? Broadcast) with true. cbn iota. cbn [IfType set_NeighborMap set_HelloIntervalTicker set_WaitTimer].
  rewrite (ic_type _ Hc). change (Broadcast =? Broadcast) with true. cbn iota. intros <-%Ok_inj.
  split; rewrite ?intf_of_put; [|by destruct Hc|done|].
  - apply intf_ok_put; [done..|]. intros k n Hk. cbn [NeighborMap set_IfFSMState set_WaitTimer set_NeighborMap] in Hk. by rewrite lookup_empty in Hk.
  - intros Hgt. cbn in Hgt. lia.
Qed.

(** C15: from its start on, whatever happens, a broadcast interface is in the state of the routers it has stored once it has waited, its router is
    never both the designated router and the backup, and no event makes the daemon panic. *)
Theorem interface_settled rid ip key s0 s1 s : intf_ok rid ip key s0 -> intf_conf (intf_of s0 key) -> StartSendRecvPkts key s0 = Ok s1 ->
  rtc (intf_step ip key) s1 s ->
  let ent := intf_of s key in
  (Waiting < IfFSMState ent -> IfFSMState ent = elected_state ent) /\
  (Waiting < IfFSMState ent -> ~ (IfDRIp ent = be32 ip /\ IfBDRIp ent = be32 ip)) /\
  (HelloIntervalTicker ent = true -> forall (mo : MapOrder) (mok : MapOrderOk) ev, event_ok ip ev -> exists s' on, intf_event key ev s = Ok (s', on)).
Proof.
  intros Hok Hc Hstart Hsteps. assert (H : intf_inv rid ip key s) by (eapply steps_inv, start_inv; done).
  pose proof (inv_settled _ _ _ _ H) as Hst. cbv zeta. split_and!; [intros; by apply Hst..|].
  intros Ht mo mok ev Hev. destruct (event_inv rid ip key ev s H Ht Hev) as (s' & on & E & _). by exists s', on.
Qed.
End run.

(** ** Two routers on a LAN

    Each has heard the other; 0.0.0.1 says that it is the backup. *)
Definition heard_data (last bdr : Z) : NeighborData :=
  {| TwoWayStatus := true; RtrPrio := 1; DRtr := be32 0; BDRtr := be32 bdr; nd_NbrIP := 167772160 + last; FullState := false |}.
Definition voter1 : OSPFServer := lan_router 1 (lan_intf 1 Waiting {[ nbr_of 2 := heard_data 2 0 ]}) {[ nbr_of 2 := lan_nbr 2 ]}.
Definition voter2 : OSPFServer := lan_router 2 (lan_intf 2 Waiting {[ nbr_of 1 := heard_data 1 167772161 ]}) {[ nbr_of 1 := lan_nbr 1 ]}.
Definition lan_cand (last : Z) (bdr : bool) : Cand := {| c_prio := 1; c_id := last; c_ip := 167772160 + last; c_dr := false; c_bdr := bdr |}.
Definition lan_cands : list Cand := [lan_cand 1 true; lan_cand 2 false].

Lemma small_u32 v : 0 <= v < 4294967296 -> is_u32 v.
Proof. done. Qed.
Lemma small_u16 v : 0 <= v < 65536 -> is_u16 v.
Proof. done. Qed.
Lemma lan_nbr_id last x ent k : 0 <= last < 256 -> is_u32 (nbr_id (lan_router x ent {[ nbr_of last := lan_nbr last ]}) k).
Proof.
  intros Hl. unfold nbr_id. cbn [NeighborConfigMap lan_router]. rewrite lookup_singleton. unfold is_u32. case_decide; cbn; lia.
Qed.
Lemma lan_intf_ok last last' state bdr key : key = lan_key last -> 1 <= last < 256 -> 1 <= last' < 256 -> last <> last' -> is_u32 bdr ->
  be32 (167772160 + last) = [10; 0; 0; last] ->
  intf_ok last (167772160 + last) key (lan_router last (lan_intf last state {[ nbr_of last' := heard_data last' bdr ]}) {[ nbr_of last' := lan_nbr last' ]}).
Proof.
  intros -> H1 H2 Hne Hb He. assert (Hi : intf_of (lan_router last (lan_intf last state {[ nbr_of last' := heard_data last' bdr ]}) {[ nbr_of last' := lan_nbr last' ]})
    (lan_key last) = lan_intf last state {[ nbr_of last' := heard_data last' bdr ]}) by (unfold intf_of; cbn [IntfConfMap lan_router]; by rewrite lookup_singleton_eq).
  split; rewrite ?Hi.
  - cbn [NeighborMap lan_intf]. intros k n [_ <-]%lookup_singleton_Some. split; [apply small_u32; cbn; lia|]. split; [cbn; lia|].
    exists 0, bdr. by repeat split; (apply small_u32; lia) || apply Hb.
  - intros k. apply lan_nbr_id. lia.
  - split; [done | apply small_u32; lia].
  - split_and!; [by rewrite He | apply small_u32; lia | lia].
  - cbn. lia.
Qed.

Lemma lan_intf_conf : intf_conf (intf_of voter1 (lan_key 1)).
Proof.
  assert (E : intf_of voter1 (lan_key 1) = lan_intf 1 Waiting {[ nbr_of 2 := heard_data 2 0 ]}) by (vm_compute; reflexivity). rewrite E.
  split; reflexivity || (apply small_u16; cbn; lia) || (apply small_u32; cbn; lia) || done.
Qed.

Lemma election_agreed_witness : exists bdr dr, Backup lan_cands bdr /\ Designated lan_cands bdr dr /\
  @elect_round by_keys (lan_key 1) voter1 =
    Ok (put_intf (lan_key 1) (set_elected (stored bdr) (stored dr) (intf_of voter1 (lan_key 1))) voter1) /\
  @elect_round by_keys (lan_key 2) voter2 =
    Ok (put_intf (lan_key 2) (set_elected (stored bdr) (stored dr) (intf_of voter2 (lan_key 2))) voter2).
Proof.
  destruct (@election_agreed by_keys lan_cands) as (bdr & dr & Hb & Hd & H).
  { apply (bool_decide_eq_true_1 (NoDup (rank <$> lan_cands))). vm_compute. reflexivity. }
  exists bdr, dr. split_and!; [done | done | apply (H 1 167772161) | apply (H 2 167772162)].
  - apply (lan_intf_ok 1 2); reflexivity || lia || (apply small_u32; lia).
  - assert (E : @cands by_keys 1 167772161 (lan_key 1) voter1 = [lan_cand 2 false; lan_cand 1 true]) by (vm_compute; reflexivity).
    rewrite E. apply Permutation_swap.
  - apply (lan_intf_ok 2 1); reflexivity || lia || (apply small_u32; lia).
  - assert (E : @cands by_keys 2 167772162 (lan_key 2) voter2 = lan_cands) by (vm_compute; reflexivity). by rewrite E.
Defined.

(** 0.0.0.1 hears of the other, waits, and becomes the designated router. *)
Definition heard_msg : NeighMsg :=
  {| nm_RouterId := 2; nm_NbrIP := 167772162; nm_TwoWayStatus := true; nm_RtrPrio := 1; nm_DRtr := be32 0; nm_BDRtr := be32 0 |}.
Definition done_or {E} (s : OSPFServer) (r : outcome E (OSPFServer * bool)) : OSPFServer := match r with Ok (s, _) => s | _ => s end.
Definition lan_started : OSPFServer := match StartSendRecvPkts (lan_key 1) voter1 with Ok s => s | _ => voter1 end.
Definition lan_heard : OSPFServer := done_or lan_started (@intf_event by_keys some_gopacket (lan_key 1) (NeighCreateCh heard_msg) lan_started).
Definition lan_elected : OSPFServer := done_or lan_heard (@intf_event by_keys some_gopacket (lan_key 1) WaitExpired lan_heard).

Lemma interface_settled_witness : let ent := intf_of lan_elected (lan_key 1) in
  IfFSMState ent = DesignatedRouter /\ IfFSMState ent = elected_state ent /\ ~ (IfDRIp ent = be32 167772161 /\ IfBDRIp ent = be32 167772161) /\
  exists s' on, @intf_event by_keys some_gopacket (lan_key 1) HelloTick lan_elected = Ok (s', on).
Proof.
  assert (E : IfFSMState (intf_of lan_elected (lan_key 1)) = DesignatedRouter) by (vm_compute; reflexivity).
  destruct (@interface_settled some_gopacket 1 167772161 (lan_key 1) voter1 lan_started lan_elected) as (H1 & H2 & H3).
  - apply (lan_intf_ok 1 2); reflexivity || lia || (apply small_u32; lia).
  - apply lan_intf_conf.
  - vm_compute. reflexivity.
  - eapply rtc_l; [|apply rtc_once].
    + apply (step_event 167772161 (lan_key 1) by_keys by_keys_ok (NeighCreateCh heard_msg) lan_started lan_heard true); [vm_compute; reflexivity | | vm_compute; reflexivity].
      split; [apply small_u32; cbn; lia|]. split; [cbn; lia|].
      exists 0, 0. split; [reflexivity|]. split; [reflexivity|]. split; apply small_u32; lia.
    + apply (step_event 167772161 (lan_key 1) by_keys by_keys_ok WaitExpired lan_heard lan_elected true); [vm_compute; reflexivity | exact I | vm_compute; reflexivity].
  - rewrite E in H1, H2. split; [exact E|]. split; [rewrite E; apply H1; reflexivity|].
    split; [apply H2; reflexivity|]. apply H3; [vm_compute; reflexivity | apply by_keys_ok | exact I].
Defined.
